(* ===== verification/_CoqProject ===== *)
-Q . S2P
Prelude.v
CString.v
Buf.v
Names.v
Base64.v
Md5.v
KazList.v
KazSort.v
KazHash.v
Table.v
Faults.v
EnumCtx.v
HttpText.v
HttpAuth.v
WsTime.v
Uri.v
Ini.v
Daemon.v
Uuid.v
EventPool.v
Xml.v
Epr.v
Filter.v
Envelope.v
Dispatcher.v
Subscribe.v
SubscribeSafe.v
SubscribeReq.v
SubscribeRun.v
CimIndication.v
HttpIO.v
HttpConn.v
HttpSafe.v
HttpRequest.v
Listener.v
ListenerServe.v
Client.v
ClientText.v
ClientServe.v
ClientEnum.v
ClientEvents.v
ClientTransport.v
ClientCalls.v
ClientExchange.v
Redirect.v
