(* ===== verification/Prelude.v ===== *)
(** * Openwsman in LMS: a verification library

    LMS, the local management service of a machine with a management engine, carries openwsman, a
    server for WS-Management written in C (src/CIM_Framework/openwsman/src): an HTTP server takes
    SOAP requests and passes them to handlers that keep enumerations and subscriptions and call
    plug-ins.  A client library makes such requests and sends them.  This library translates the code of both,
    function by function, into executable definitions, and proves theorems about them.  All paths below are relative to that directory.

    ** How the parts of the program depend on one another

    lib/u is the ground: base64, MD5, lists and hash tables of kazlib, URIs, strings.
    server/shttpd is an HTTP server; server/wsmand-listener.c sets it up, protects the service with
    Basic authentication (base64 of lib/u) and registers the callback that takes requests.
    Its callback has libxml2 parse the request and calls lib/wsman-dispatcher.c, which validates the
    envelope (lib/wsman-soap-envelope.c), finds the end point, and runs the filters and the end point; what
    they look at are trees (lib/wsman-xml.c), in them references, selectors and filters (lib/wsman-epr.c,
    lib/wsman-filter.c).  Among the end points,
    lib/wsman-soap.c holds the handlers of enumerations (contexts in a hash table, found by
    their id from many threads, swept by a timer) and of subscriptions (infos in a list, saved in
    lib/wsman-subscription-repository.c, their events in lib/wsman-event-pool.c, delivered by threads).
    lib/wsman-faults.c has the tables of the faults that all of them answer with, and
    lib/wsman-xml-serialize.c reads the times that requests give.
    The client library, lib/wsman-client.c, builds requests with the same trees, references and filters, has them sent
    by lib/wsman-client-transport.c and wsman-curl-client-transport.c (libcurl), and has the answers parsed;
    plugins/redirect uses it inside the server, to forward requests.
    server/wsmand.c and wsmand-daemon.c start the daemon, with what lib/u/iniparser.c reads in its configuration file.

    ** The files, and what they model

    - Prelude: outcomes of C code ([Done], [AssertFail], [Undef] for undefined behaviour, [Diverge]),
      the state monad [CM] over a store, machine integers, characters, arrays.  CString: strcmp,
      strings with terminators.  Buf (lib/u/buf.c): growing byte buffers.
      Names: the names and URIs of the specifications.
    - Base64 (lib/u/base64.c), Md5 (lib/u/md5.c and server/shttpd/md5.c).
    - KazList, KazSort (lib/u/list.c): circular lists on a store of nodes; merge sort.
      KazHash (lib/u/hash.c): hash tables that grow and shrink by splitting chains.
      Table: the class [Dict] of what a client of the tables relies on, and its instance.
    - Faults (lib/wsman-faults.c): the fault tables, row by row, and their lookups.
    - EnumCtx (lib/wsman-soap.c): [WsEnumerateInfo], its making, locking and sweeping, and the
      handlers wsenum_enumerate_stub, wsenum_pull_stub, wsenum_pull_direct_stub and
      wsenum_release_stub, over any [Dict].
    - HttpText (shttpd/string.c, shttpd.c): URI decoding, removal of dots, the end of a head,
      header lines.  HttpAuth (shttpd/auth.c, io_emb.c, wsmand-listener.c): patterns, protected
      URIs, Basic authorization, and the context of the daemon.  HttpIO (shttpd/io.h): buffers.
      HttpConn (shttpd/shttpd.c, io_emb.c, io_socket.c): a connection, from the bytes of a request
      to its callback and back.  HttpSafe, HttpRequest: its theorems.
      Listener (wsmand-listener.c, shttpd/adapter.c, io_emb.c): the callback of the daemon, over the class
      [Soap] of what it asks of the SOAP server.  ListenerServe: its theorems, and the instance of [Soap] made of
      Dispatcher and CimIndication.
    - Xml (lib/wsman-xml.c, wsman-libxml2-binding.c): trees, their readers, searches, builders, copies.
      Epr (lib/wsman-epr.c, wsman-key-value.c): references and selectors, in memory, as text, in XML.
      Filter (lib/wsman-filter.c): filters of enumerations and subscriptions.
      Envelope (lib/wsman-soap-envelope.c, wsman-faults.c, wsman-xml.c): what is read out of a request, the
      validation of envelopes, envelopes of answers and faults, selectors that a client adds.
      Dispatcher (lib/wsman-dispatcher.c, wsman-soap.c): the registration of interfaces, the choice of the end
      point, the checks and filters, message ids, and the answer to a call; an end point is a parameter.
    - WsTime (lib/wsman-xml-serialize.c, wsman-soap-envelope.c): durations, dates, expiry times.
      Uri (lib/u/uri.c, misc.c): URIs and queries.  EventPool (lib/wsman-event-pool.c).
      Uuid (lib/u/uuid.c): identifiers, their clock and their sequence.
    - Ini (lib/u/iniparser.c): dictionaries on arrays that grow, and the parser of configuration files.
      Daemon (wsmand.c, wsmand-daemon.c, wsmand-listener.c): the configuration of the daemon, the choice of port and of the
      check of passwords, its start up to its loop, and what a shutdown runs.
      Subscribe (lib/wsman-soap.c, wsman-subscription-repository.c, wsman-server.c,
      wsman-server-api.c): Subscribe, Unsubscribe, Renew, Pull, the notification manager, heartbeats,
      sender threads, the repository, the start of the server, at which the saved documents go through the checks of
      Dispatcher.  SubscribeSafe, SubscribeReq: its theorems; SubscribeRun: its threads, as the steps of a [world]
      of requests on their way, a pass on its way, and threads that send.
      CimIndication (lib/wsman-cimindication-processor.c): indications of a CIM broker become events.
    - Client (lib/wsman-client.c): options, properties and selectors, the envelope of a request and its body for each
      action, and what is read out of an answer.  ClientTransport (lib/wsman-client-transport.c,
      wsman-curl-client-transport.c): the locks of a client, the exchange of a request over the class [Curl] of what is
      asked of libcurl, the choice of a method of authentication.  ClientCalls (lib/wsman-client.c): one definition
      for each call, made of the other two.
      Redirect (plugins/redirect): the plug-in that forwards requests, its configuration, client and end points.
      ClientText: what the texts of the client's numbers and durations read as.  ClientServe, ClientEnum,
      ClientEvents, ClientExchange: the theorems, the first three against the readers of Envelope, Filter and
      WsTime that the server uses.

    A struct is a record with the fields of the C struct, a shared object an address in a store that
    is a finite map, so that a dangling pointer is an address without an entry and its use is
    [Undef].  A C function is a definition of the same name.  Integers are [Z], and where the code
    converts or wraps ([u8], [u32], [u64], [s32]) the definition does; a [NULL] string is [None].

    ** What the theorems show

    - Threads.  [threads_are_safe]: however the steps of the handlers of enumerations and of the timer interleave, no
      context is freed while another thread works with it, no lock stays held, and every step that is to run can run.
      [subscribers_are_safe]: the same for the manager, the timer and the threads that send of subscriptions, with
      requests in the parts that their locks make of them, and just when a request goes on with an info that is gone.
      [unsubscribe_ends]: what follows an Unsubscribe, whatever the threads do then.
    - Abstract specifications.  The handlers of enumerations refine operations on a finite map of
      contexts ([enumerate_refines], [pull_refines], ...), a client that pulls gets all items in order
      ([pulls_drain]); a pass of the notification manager or of the heartbeat timer does to each
      subscription what its own turn gives it ([manager_pass], [timer_pass]); the event pool is a queue
      for each subscription; hash tables and the dictionaries of configuration files ([dictionary_is_map]) are finite maps, identifiers
      made by one process differ ([uuids_differ]), HTTP buffers queues of bytes.
    - Who gets in.  [daemon_doors], [handler_reached_iff], [remove_dots_safe]: which request reaches which
      callback, and with which credentials.  [daemon_serves]: the daemon starts to serve exactly when there is a
      check of passwords that could be initialized.  [daemon_configured]: it runs with what its configuration file says,
      entry by entry, line by line ([ini_file_read]); [shutdown_once]: what is registered for the end runs once.
    - Input of strangers.  [connection_stays_in_order]: whatever a client sends within the limits it is held
      to, a connection keeps its invariant and no access leaves a buffer; [base64_decode_safe], [url_decode_spec],
      [headers_len_stable].
    - From request to answer.  [request_answered], [post_answered]: a POST, however it and its answer are cut
      into pieces, is dispatched once with its whole body and answered by one whole document, under the conditions
      that the theorems list (the Examples show what happens to others);
      [indication_delivered]: what a broker posts ends up in the queue of its subscription.  [every_call_answered]: the dispatcher sends a document back for whatever
      arrives (but for one kind of fault that has no row in the table), if the end point it reaches keeps to what [well_behaved] says.  [envelope_accepted], [inbound_gate]: exactly
      which requests get through; [dispatch_reached]: to which end point; [message_ids_window]: what counts as
      a replay; [response_correlates], [fault_envelope_roundtrip]: what the answer says of the request.
    - Round trips.  References and filters through XML ([epr_roundtrip], [filter_roundtrip]), selectors from the
      client to the end point ([selectors_reach_endpoint]), references as text, base64, Basic credentials, URIs, queries, durations ([duration_roundtrip]), faults, and subscriptions over
      a restart of the server ([restart_restores]).
    - The client and the server agree.  [client_request_read]: the server reads action, resource, selectors, options,
      addresses, limits out of a request as the caller gave them; [client_request_admitted]: such a request passes the
      validation of envelopes; [client_enumeration_read], [client_subscription_read]: so do the parameters of an
      Enumerate and a Subscribe, the expiry times with them.
    - The client's calls.  [request_sent]: an exchange ends, with the client's own credentials after two attempts
      at most (also when the server asks for more), leaves the client unlocked, and with an answer the client holds its bytes and no others;
      [client_call_answered]: a call returns what the bytes of the answer parse to, or says that there was an error, which a server that
      answers keeps away.
      [redirect_transparent]: what the plug-in answers is what the other server answered to this very request, or a
      fault that says what the transport found.
    - Equivalence: the two MD5 implementations compute the same digest, for any cut of the message into pieces of less than 2^28 bytes.
    - Errors.  Requests for which the code is undefined are stated as such ([enumerate_bad_expires],
      [renew_spec], [subscribe_bad_expires]); the Examples give concrete inputs.

    ** Fuel and bounds

    The reader of a configuration file gets one round more than the file has characters, and the memory for a dictionary
    that grows is a list of answers ([growth_fails] has one that refuses).
    Loops that are not structural take fuel, and run out of it into [Diverge]: a loop over a list of
    kazlib gets one round more than the store has nodes, a loop over a text one more than its length, the loop
    that batches events one more than the queue holds; the reader of references as much as they are nested
    ([epr_roundtrip] gives the depth); the client's loop of authentication 2 turns.  The theorems give a result, so the fuel
    is shown to be enough where they hold.  Strings are bounded where the code has arrays (ids below 64
    bytes), counts by the width of their type.

    ** What is not modelled, and why

    Parsing and dumping XML are libxml2's: a document is its tree, its dump has a length ([dump_len]), what
    xmlNodeSetContent makes of a text is the parameter [content], with the law that a text without ampersands
    comes back, and the prefix a document has for a namespace the parameter [prefix].  The handlers of
    EnumCtx and Subscribe take the values that are read out of requests, and give those that they write.
    Sockets, files, plug-ins, password checks, threads' creation and memory allocation
    are arguments (scripts of answers, functions, flags); time zones are the parameters [mktime] and
    [localtime], whose law a theorem states where it needs it.  What a plug-in must keep to is said by
    [endpoint_ok] and [poll_law].  The pool of events has no lock in the code; [world_step] lets one thread at a time use it.  Of the client the
    transport of libcurl alone is translated, without its options for certificates, proxies and timeouts, and without the dumping of requests to a file;
    what a request is dumped to and an answer parsed to are parameters.  Not translated: the WinHTTP transport of the client, the
    serializer of C structs, the parser of the command line (it writes through pointers of other types than its options have),
    plug-ins other than redirect, authenticators, CGI and SSI of the HTTP server (compiled out of the daemon), Digest
    authorization (never reached), bindings to other languages, and the C++ parts of LMS. *)
From Stdlib Require Export ZArith Lia Ascii String.
From stdpp Require Export base tactics option list gmap strings.

#[global] Open Scope Z_scope.

(** ** Outcomes of C code

    A C function that can stop in the middle returns an [outcome].  [AssertFail]
    is a failed [assert], [Undef] is undefined behaviour (a NULL or dangling
    pointer, an index outside its array), [Diverge] is a loop that runs past
    every bound that a terminating run could need. *)
Inductive outcome (A : Type) : Type :=
  | Done (a : A)
  | AssertFail
  | Undef
  | Diverge.
Arguments Done {A} _.
Arguments AssertFail {A}.
Arguments Undef {A}.
Arguments Diverge {A}.

Definition obind {A B : Type} (m : outcome A) (k : A -> outcome B) : outcome B :=
  match m with
  | Done a => k a
  | AssertFail => AssertFail
  | Undef => Undef
  | Diverge => Diverge
  end.

Definition assertb (b : bool) : outcome unit := if b then Done tt else AssertFail.

Definition deref {A : Type} (o : option A) : outcome A :=
  match o with Some a => Done a | None => Undef end.

Declare Scope c_scope.
Delimit Scope c_scope with c.
Notation "'let*' x := m 'in' k" := (obind m (fun x => k))
  (at level 10, x pattern, m at level 100, k at level 200) : c_scope.
Notation "'assert!' b ';' k" := (obind (assertb b) (fun _ => k))
  (at level 10, b at level 100, k at level 200) : c_scope.
#[global] Open Scope c_scope.

Lemma obind_done {A B : Type} (m : outcome A) (k : A -> outcome B) (b : B) :
  obind m k = Done b <-> exists a, m = Done a /\ k a = Done b.
Proof.
  destruct m; simpl; split; try discriminate; try (intros (a' & H & _); discriminate).
  - eauto.
  - intros (a' & [= ->] & H). exact H.
Qed.

Lemma assertb_true (b : bool) : b = true -> assertb b = Done tt.
Proof. now intros ->. Qed.

Create HintDb lms.
Create Rewrite HintDb lms.

(** Runs the monadic steps of a goal whose sub-computations are known. *)
Ltac crun := repeat (simpl; match goal with
  | H : ?m = Done _ |- context [obind ?m _] => rewrite H
  | H : ?o = Some _ |- context [deref ?o] => rewrite H
  | H : ?b = true |- context [assertb ?b] => rewrite H
  end).

(** Takes apart a hypothesis [obind m k = Done b]. *)
Ltac cinv := repeat match goal with
  | H : obind _ _ = Done _ |- _ =>
      let a := fresh "r" in let Ha := fresh "Hr" in
      apply obind_done in H as (a & Ha & H)
  | H : assertb ?b = Done _ |- _ =>
      destruct b eqn:?; simpl in H; [clear H | discriminate H]
  | H : deref ?o = Done _ |- _ =>
      destruct o eqn:?; simpl in H; [injection H as <- | discriminate H]
  | H : Done _ = Done _ |- _ => injection H as H; subst
  end.

(** ** Code over a shared store

    [CM S A]: a computation that reads and writes a store of type [S]. *)
Definition CM (S A : Type) : Type := S -> outcome (A * S).
Section CM.
Context {S : Type}.
#[global] Instance M_ret : MRet (CM S) := fun A a h => Done (a, h).
#[global] Instance M_bind : MBind (CM S) := fun A B k m h =>
  match m h with
  | Done (a, h') => k a h'
  | AssertFail => AssertFail
  | Undef => Undef
  | Diverge => Diverge
  end.
Definition massert (b : bool) : CM S unit := fun h => if b then Done (tt, h) else AssertFail.
Definition mundef {A} : CM S A := fun _ => Undef.
Definition mdiverge {A} : CM S A := fun _ => Diverge.
(** A computation that does not depend on the store. *)
Definition mlift {A} (o : outcome A) : CM S A := fun h => let* a := o in Done (a, h).
Definition mget {A} (f : S -> A) : CM S A := fun h => Done (f h, h).
Definition mmod (f : S -> S) : CM S unit := fun h => Done (tt, f h).

Lemma mbind_eq {A B} (m : CM S A) (k : A -> CM S B) h x h1 :
  m h = Done (x, h1) -> (m ≫= k) h = k x h1.
Proof. intros H. unfold mbind, M_bind. now rewrite H. Qed.
Lemma mbind_done {A B} (m : CM S A) (k : A -> CM S B) h r :
  (m ≫= k) h = Done r <-> exists x h1, m h = Done (x, h1) /\ k x h1 = Done r.
Proof.
  unfold mbind, M_bind. split.
  - destruct (m h) as [[x h1]| | |]; try done. eauto.
  - now intros (x & h1 & -> & H).
Qed.
Lemma massert_true (b : bool) (h : S) : b = true -> massert b h = Done (tt, h).
Proof. now intros ->. Qed.
End CM.
(** One step of a computation whose first part is known. *)
Tactic Notation "step" uconstr(E) := rewrite (mbind_eq _ _ _ _ _ E); cbv beta zeta.

(** ** Machine integers *)
Definition u8 (z : Z) : Z := z mod 256.
Definition u32 (z : Z) : Z := z mod 4294967296.
Definition u64 (z : Z) : Z := z mod 18446744073709551616.
(** Conversion of a 32-bit pattern to [int]. *)
Definition s32 (z : Z) : Z :=
  let w := u32 z in if w <? 2147483648 then w else w - 4294967296.
(** Conversion to a signed [char] (the ABI of the supported platforms). *)
Definition s8 (z : Z) : Z := let w := u8 z in if w <? 128 then w else w - 256.

Lemma u8_range z : 0 <= u8 z < 256.
Proof. apply Z.mod_pos_bound; lia. Qed.
Lemma u32_range z : 0 <= u32 z < 4294967296.
Proof. apply Z.mod_pos_bound; lia. Qed.
Lemma u64_range z : 0 <= u64 z < 18446744073709551616.
Proof. apply Z.mod_pos_bound; lia. Qed.
Lemma u32_small z : 0 <= z < 4294967296 -> u32 z = z.
Proof. apply Z.mod_small. Qed.
Lemma u64_small z : 0 <= z < 18446744073709551616 -> u64 z = z.
Proof. apply Z.mod_small. Qed.
Lemma u8_land z : u8 z = Z.land z (Z.ones 8).
Proof. now rewrite Z.land_ones. Qed.
Lemma u32_land z : u32 z = Z.land z (Z.ones 32).
Proof. now rewrite Z.land_ones. Qed.
(** Only the low [8 - n] bits of [x] reach the byte. *)
Lemma u8_lor_shiftl x y n : 0 <= n <= 8 ->
  u8 (Z.lor (Z.shiftl x n) y) = u8 (Z.lor (Z.shiftl (Z.land x (Z.ones (8 - n))) n) y).
Proof.
  intros Hn. rewrite !u8_land. apply Z.bits_inj'. intros i Hi.
  rewrite !Z.land_spec, !Z.lor_spec, !Z.shiftl_spec, Z.land_spec, !Z.testbit_ones by lia.
  destruct (Z.ltb_spec i 8), (Z.leb_spec 0 i), (Z.leb_spec 0 (i - n)), (Z.ltb_spec (i - n) (8 - n));
    simpl; rewrite ?andb_true_r, ?andb_false_r; try lia; try done.
  now rewrite !Z.testbit_neg_r by lia.
Qed.
#[export] Hint Resolve u8_range u32_range u64_range : lms.

(** ** Characters and C strings

    A [char] is an [ascii], [code] its value as an [unsigned char].  The contents of
    a NUL-terminated buffer, up to the terminator, is a list of characters. *)
Abbreviation cstring := (list ascii).
Definition code (c : ascii) : Z := Z.of_N (N_of_ascii c).
Definition chr (z : Z) : ascii := ascii_of_N (Z.to_N (u8 z)).
Definition lit (s : string) : cstring := list_ascii_of_string s.
Definition NUL : ascii := "000"%char.

#[global] Instance ascii_countable : Countable ascii :=
  inj_countable' N_of_ascii ascii_of_N ascii_N_embedding.

Lemma code_range c : 0 <= code c < 256.
Proof. unfold code. pose proof (N_ascii_bounded c). lia. Qed.
Lemma chr_code c : chr (code c) = c.
Proof.
  unfold chr, u8. rewrite Z.mod_small by apply code_range.
  unfold code. rewrite N2Z.id. apply ascii_N_embedding.
Qed.
Lemma code_chr z : code (chr z) = u8 z.
Proof.
  unfold code, chr. rewrite N_ascii_embedding.
  - rewrite Z2N.id; [done | apply u8_range].
  - pose proof (u8_range z). lia.
Qed.
Lemma code_inj c d : code c = code d -> c = d.
Proof. intros H. now rewrite <- (chr_code c), <- (chr_code d), H. Qed.
#[export] Hint Resolve code_range : lms.
#[export] Hint Rewrite chr_code code_chr : lms.

(** A fact about every character, decided by evaluation. *)
Lemma forall_ascii (P : ascii -> bool) :
  forallb (fun n => P (chr (Z.of_nat n))) (seq 0 256) = true -> forall c, P c = true.
Proof.
  intros H c. rewrite forallb_forall in H.
  specialize (H (Z.to_nat (code c))). pose proof (code_range c).
  rewrite Z2Nat.id in H by lia. rewrite chr_code in H. apply H, in_seq. lia.
Qed.

(** A fact about small numbers, decided by evaluation. *)
Lemma forall_below (n : nat) (P : Z -> bool) :
  forallb (fun i => P (Z.of_nat i)) (seq 0 n) = true ->
  forall x, 0 <= x < Z.of_nat n -> P x = true.
Proof.
  intros H x Hx. rewrite forallb_forall in H. specialize (H (Z.to_nat x)).
  rewrite Z2Nat.id in H by lia. apply H, in_seq. lia.
Qed.
Lemma forall_below2 (n m : nat) (P : Z -> Z -> bool) :
  forallb (fun i => forallb (fun j => P (Z.of_nat i) (Z.of_nat j)) (seq 0 m)) (seq 0 n) = true ->
  forall x y, 0 <= x < Z.of_nat n -> 0 <= y < Z.of_nat m -> P x y = true.
Proof.
  intros H x y Hx Hy.
  pose proof (forall_below n (fun x => forallb (fun j => P x (Z.of_nat j)) (seq 0 m)) H x Hx) as H'.
  now apply (forall_below m (P x)).
Qed.

(** Reading [p[i]] of an array: out of bounds is undefined. *)
Definition rd {A : Type} (p : list A) (i : Z) : outcome A :=
  if (i <? 0) || (Z.of_nat (length p) <=? i) then Undef else deref (p !! Z.to_nat i).

Lemma rd_Some {A : Type} (p : list A) (i : Z) x :
  0 <= i -> p !! Z.to_nat i = Some x -> rd p i = Done x.
Proof.
  intros Hi H. unfold rd. rewrite H. pose proof (lookup_lt_Some _ _ _ H).
  destruct (Z.ltb_spec i 0), (Z.leb_spec (Z.of_nat (length p)) i); simpl; try lia. done.
Qed.
Lemma rd_nat {A : Type} (p : list A) (i : nat) x :
  p !! i = Some x -> rd p (Z.of_nat i) = Done x.
Proof. intros H. apply rd_Some; [lia|]. now rewrite Nat2Z.id. Qed.
Lemma rd_here {A : Type} (p : list A) (k : Z) (q : list A) x :
  0 <= k -> q !! Z.to_nat k = Some x -> rd (p ++ q) (Z.of_nat (length p) + k) = Done x.
Proof.
  intros Hk H. apply rd_Some; [lia|]. rewrite lookup_app_r by lia.
  replace (Z.to_nat _ - length p)%nat with (Z.to_nat k) by lia. done.
Qed.
Lemma rd_here0 {A : Type} (p : list A) x (q : list A) :
  rd (p ++ x :: q) (Z.of_nat (length p)) = Done x.
Proof. rewrite <- (Z.add_0_r (Z.of_nat _)). now apply rd_here. Qed.
Lemma rd_inv {A : Type} (p : list A) (i : Z) x :
  rd p i = Done x -> 0 <= i < Z.of_nat (length p) /\ p !! Z.to_nat i = Some x.
Proof.
  unfold rd. destruct (Z.ltb_spec i 0), (Z.leb_spec (Z.of_nat (length p)) i); simpl; try done.
  destruct (p !! Z.to_nat i); simpl; [|done]. intros [= ->]. auto with lia.
Qed.
Lemma rd_ok {A : Type} (p : list A) (i : Z) :
  0 <= i < Z.of_nat (length p) -> exists x, p !! Z.to_nat i = Some x /\ rd p i = Done x.
Proof.
  intros Hi. destruct (p !! Z.to_nat i) as [x|] eqn:E; [|apply lookup_ge_None in E; lia].
  eauto using rd_Some with lia.
Qed.

(** Writing [p[i]]. *)
Definition wr {A : Type} (p : list A) (i : Z) (x : A) : outcome (list A) :=
  if (i <? 0) || (Z.of_nat (length p) <=? i) then Undef else Done (<[Z.to_nat i := x]> p).

Lemma wr_ok {A : Type} (p : list A) (i : Z) x :
  0 <= i < Z.of_nat (length p) -> wr p i x = Done (<[Z.to_nat i := x]> p).
Proof.
  intros Hi. unfold wr.
  destruct (Z.ltb_spec i 0), (Z.leb_spec (Z.of_nat (length p)) i); simpl; lia || done.
Qed.

(** The memory [m] with [l] written at [k]. *)
Definition blit {A : Type} (m : list A) (k : nat) (l : list A) : list A :=
  take k m ++ l ++ drop (k + length l) m.
Lemma blit_nil {A : Type} (m : list A) k : blit m k [] = m.
Proof. unfold blit. simpl. rewrite Nat.add_0_r. apply take_drop. Qed.
Lemma blit_cons {A : Type} (m : list A) k x l : (k < length m)%nat ->
  blit (<[k := x]> m) (S k) l = blit m k (x :: l).
Proof.
  intros H. unfold blit. simpl. rewrite drop_insert_lt by lia.
  rewrite (take_S_r _ _ x) by (apply list_lookup_insert_eq; lia).
  rewrite take_insert_ge by lia. rewrite <- app_assoc, Nat.add_succ_r. done.
Qed.

(** Reads the cells of a known group behind a prefix of the buffer. *)
Ltac rd_known :=
  repeat (rewrite rd_here0 || (erewrite rd_here; [|lia|reflexivity]); simpl obind).
