(* ===== verification/CString.v ===== *)
(** * CString: the string functions of the C library the code calls *)
From S2P Require Import Prelude.

(** [strcmp]: the difference of the first characters that differ, as [unsigned char]s. *)
Fixpoint strcmp (a b : cstring) : Z :=
  match a, b with
  | [], [] => 0
  | [], y :: _ => - code y
  | x :: _, [] => code x
  | x :: a, y :: b => if code x =? code y then strcmp a b else code x - code y
  end.

(** A C string holds no NUL. *)
Definition no_nul (s : cstring) : Prop := NUL ∉ s.
#[global] Instance no_nul_dec s : Decision (no_nul s) := decide (NUL ∉ s).

Lemma code_nul_pos c : c <> NUL -> 0 < code c.
Proof.
  intros H. pose proof (code_range c). destruct (Z.eq_dec (code c) 0) as [E|]; [|lia].
  exfalso. apply H. now apply code_inj.
Qed.
Lemma strcmp_eq (a b : cstring) : no_nul a -> no_nul b -> strcmp a b = 0 <-> a = b.
Proof.
  revert b. induction a as [|x a IH]; intros [|y b] Na Nb; simpl; try done.
  - apply not_elem_of_cons in Nb as [Ny _]. pose proof (code_nul_pos y). split; [|done].
    intros. exfalso. assert (y <> NUL) by congruence. specialize (H H1). lia.
  - apply not_elem_of_cons in Na as [Nx _]. pose proof (code_nul_pos x). split; [|done].
    intros. exfalso. assert (x <> NUL) by congruence. specialize (H H1). lia.
  - apply not_elem_of_cons in Na as [_ Na], Nb as [_ Nb].
    destruct (Z.eqb_spec (code x) (code y)) as [E|E].
    + rewrite (IH b Na Nb). apply code_inj in E as ->. split; congruence.
    + split; [lia|]. intros [= -> _]. done.
Qed.
Lemma strcmp_refl (a : cstring) : strcmp a a = 0.
Proof. induction a as [|x a IH]; [done|]. simpl. now rewrite Z.eqb_refl. Qed.

(** [strncmp] and [strncasecmp]: at most [n] characters, up to a terminator. *)
Fixpoint strncmp (a b : cstring) (n : nat) : Z :=
  match n with
  | O => 0
  | S n =>
      match a, b with
      | [], [] => 0
      | [], y :: _ => - code y
      | x :: _, [] => code x
      | x :: a, y :: b => if code x =? code y then strncmp a b n else code x - code y
      end
  end.

(** A prefix test. *)
Fixpoint starts_with (p s : cstring) : bool :=
  match p, s with
  | [], _ => true
  | x :: p, y :: s => bool_decide (x = y) && starts_with p s
  | _, _ => false
  end.
Lemma starts_with_spec p s : starts_with p s = true <-> exists r, s = p ++ r.
Proof.
  revert s. induction p as [|x p IH]; intros [|y s]; simpl.
  - split; [now exists []|done].
  - split; [now exists (y :: s)|done].
  - split; [done|]. now intros (r & H).
  - rewrite andb_true_iff, bool_decide_eq_true, IH. split.
    + intros [-> (r & ->)]. now exists r.
    + intros (r & [= -> ->]). split; [done|now exists r].
Qed.
(** Comparing over the length of the first string tests whether it is a prefix of the second. *)
Lemma strncmp_prefix (a b : cstring) : no_nul a -> no_nul b ->
  (strncmp a b (length a) =? 0) = starts_with a b.
Proof.
  revert b. induction a as [|x a IH]; intros b Na Nb; [now destruct b|].
  apply not_elem_of_cons in Na as [Nx Na]. destruct b as [|y b]; cbn [strncmp length starts_with].
  - pose proof (code_nul_pos x ltac:(congruence)). apply Z.eqb_neq. lia.
  - apply not_elem_of_cons in Nb as [Ny Nb].
    destruct (Z.eqb_spec (code x) (code y)) as [E|E].
    + apply code_inj in E as ->. rewrite bool_decide_true by done. now apply IH.
    + rewrite bool_decide_false by congruence. apply Z.eqb_neq. lia.
Qed.

Fixpoint take_while (p : ascii -> bool) (s : cstring) : cstring :=
  match s with [] => [] | c :: r => if p c then c :: take_while p r else [] end.
(** The string that a buffer holds: up to its first NUL. *)
Definition c_string (b : list ascii) : cstring := take_while (fun c => negb (bool_decide (c = NUL))) b.
Lemma c_string_stop u r : no_nul u -> c_string (u ++ NUL :: r) = u.
Proof.
  induction u as [|c u IH]; intros N; [done|]. apply not_elem_of_cons in N as [Nc N].
  unfold c_string in *. cbn [app take_while]. rewrite bool_decide_false by congruence. cbn [negb]. f_equal. auto.
Qed.
Lemma c_string_no_nul u : no_nul (c_string u).
Proof.
  unfold c_string. induction u as [|c u IH]; [apply not_elem_of_nil|]. cbn [take_while].
  destruct (bool_decide_reflect (c = NUL)); [apply not_elem_of_nil|]. now apply not_elem_of_cons.
Qed.
Lemma c_string_app_nul u r : c_string (u ++ NUL :: r) = c_string u.
Proof.
  induction u as [|c u IH]; [done|]. unfold c_string in *. cbn [app take_while].
  destruct (negb (bool_decide (c = NUL))); [now rewrite IH|done].
Qed.
Lemma c_string_id u : no_nul u -> c_string u = u.
Proof. intros N. rewrite <- (c_string_stop u [] N) at 2. now rewrite c_string_app_nul. Qed.
Lemma c_string_length u : (length (c_string u) <= length u)%nat.
Proof.
  unfold c_string. induction u as [|c u IH]; [done|]. cbn [take_while].
  destruct (negb (bool_decide (c = NUL))); simpl; lia.
Qed.
Lemma c_string_app x y : no_nul x -> c_string (x ++ y) = x ++ c_string y.
Proof.
  induction x as [|c x IH]; intros N; [done|]. apply not_elem_of_cons in N as [Nc N].
  unfold c_string in *. cbn [app take_while]. rewrite bool_decide_false by congruence. cbn [negb]. f_equal. auto.
Qed.
(** A memory is a text alone, or a text, its terminator and more. *)
Lemma c_string_cases s : c_string s = s \/ exists r, s = c_string s ++ NUL :: r.
Proof.
  unfold c_string. induction s as [|c s IH]; [now left|]. cbn [take_while].
  destruct (bool_decide_reflect (c = NUL)) as [->|N]; cbn [negb]; [right; now exists s|].
  destruct IH as [->|(r & E)]; [now left|]. right. exists r. now rewrite E at 1.
Qed.

(** [strstr]: the text from the first occurrence of [p] on. *)
Fixpoint strstr (s p : cstring) : option cstring :=
  if starts_with p s then Some s else match s with [] => None | _ :: s => strstr s p end.
(** [strrchr (s, c) + 1]: what follows the last [c]. *)
Fixpoint after_last (c : ascii) (s : cstring) : option cstring :=
  match s with
  | [] => None
  | x :: s => match after_last c s with Some r => Some r | None => if bool_decide (x = c) then Some s else None end
  end.
Lemma strstr_spec s p r : strstr s p = Some r -> exists a t, s = a ++ r /\ r = p ++ t.
Proof.
  induction s as [|x s IH]; cbn [strstr]; destruct (starts_with p _) eqn:E; try done.
  1,2: intros [= <-]; apply starts_with_spec in E as (t & E); exists [], t; auto.
  intros H. destruct (IH H) as (a & t & -> & ->). exists (x :: a), t. auto.
Qed.
Lemma strstr_none s p : strstr s p = None <-> forall a t, s <> a ++ p ++ t.
Proof.
  induction s as [|x s IH]; cbn [strstr]; destruct (starts_with p _) eqn:E.
  - split; [done|]. intros H. apply starts_with_spec in E as (t & E). now destruct (H [] t).
  - split; [|done]. intros _ a t E2. symmetry in E2. apply app_nil in E2 as (-> & E2).
    enough (starts_with p [] = true) by congruence. apply starts_with_spec. exists t. done.
  - split; [done|]. intros H. apply starts_with_spec in E as (t & E). now destruct (H [] t).
  - rewrite IH. split; intros H a t E2.
    + destruct a as [|y a]; [|injection E2 as -> E2; now apply (H a t)].
      enough (starts_with p (x :: s) = true) by congruence. apply starts_with_spec. now exists t.
    + apply (H (x :: a) t). now rewrite E2.
Qed.
Lemma strstr_here a p t : strstr a p = None -> (forall q r, p = q ++ r -> q <> [] -> r <> [] -> ~ exists b, a = b ++ q) ->
  strstr (a ++ p ++ t) p = Some (p ++ t).
Proof.
  intros N O. induction a as [|x a IH]; cbn [app strstr].
  - assert (starts_with p (p ++ t) = true) as E by (apply starts_with_spec; now exists t).
    destruct (p ++ t) eqn:Ep; cbn [strstr]; now rewrite E.
  - destruct (starts_with p (x :: a ++ p ++ t)) eqn:E.
    + exfalso. apply starts_with_spec in E as (r & E). change (x :: a ++ p ++ t) with ((x :: a) ++ p ++ t) in E.
      destruct (decide (length p <= length (x :: a))%nat) as [L|L].
      * apply (proj1 (strstr_none _ _) N [] (drop (length p) (x :: a))). cbn [app].
        rewrite <- (take_drop (length p) (x :: a)) at 1. f_equal.
        rewrite <- (take_app_le (x :: a) (p ++ t)) by done. rewrite E. now rewrite take_app_length.
      * apply (O (x :: a) (drop (length (x :: a)) p)); try done.
        { rewrite <- (take_drop (length (x :: a)) p) at 1. f_equal.
          rewrite <- (take_app_le p r) by lia. rewrite <- E. now rewrite take_app_length. }
        { intros E2. apply (f_equal length) in E2. rewrite length_drop in E2. cbn in *. lia. }
        now exists [].
    + apply IH; [|].
      * apply strstr_none. intros b u E2. apply (proj1 (strstr_none _ _) N (x :: b) u). now rewrite E2.
      * intros q r E1 Q R (b & E2). apply (O q r E1 Q R). exists (x :: b). now rewrite E2.
Qed.
Lemma after_last_app c a t : c ∉ t -> after_last c (a ++ c :: t) = Some t.
Proof.
  intros N. assert (forall u, c ∉ u -> after_last c u = None) as H.
  { induction u as [|x u IH]; [done|]. intros Nu. apply not_elem_of_cons in Nu as [? Nu]. cbn. rewrite IH by done.
    now rewrite bool_decide_false by congruence. }
  induction a as [|x a IH]; cbn [app after_last]; [now rewrite H, bool_decide_true by done|]. now rewrite IH.
Qed.

(** What printf writes for [%s]: for NULL, which the standard leaves open, the GNU library writes this. *)
Definition printf_s (s : option cstring) : cstring := default (lit "(null)") s.
