(* ===== verification/Buf.v ===== *)
(** * Buf: growing byte buffers (lib/u/buf.c)

    A buffer owns a block of memory that is one byte larger than its size, for a terminator, and has
    a length.  Memory that was never written is a cell without a value.  The buffer is shown to be a
    string of bytes: appending appends, and no access leaves the block. *)
From S2P Require Import Prelude CString.

Module Buf.

(** A block of malloc: [None] is a byte that was not written yet. *)
Abbreviation block := (list (option ascii)).
(* src: lib/u/buf.c 21-25 u_buf_s *)
Record u_buf_t := UBuf { data : option block; size : Z; len : Z }.

(** [realloc]: the old bytes and room behind them; [ok]: whether there is memory. *)
Definition realloc (ok : bool) (b : option block) (n : Z) : option block :=
  if ok then let old := default [] b in
    Some (take (Z.to_nat n) old ++ repeat None (Z.to_nat n - length old))
  else None.
(** The functions take the buffer by its pointer, which is never NULL where they are used; [-1] is [~0]. *)
(* src: lib/u/buf.c 42-65 u_buf_reserve *)
Definition u_buf_reserve (ok : bool) (ubuf : u_buf_t) (sz : Z) : outcome (Z * u_buf_t) :=
  if sz <=? size ubuf then Done (0, ubuf) else
  match realloc ok (data ubuf) (u64 (sz + 1)) with
  | None => Done (-1, ubuf)
  | Some nbuf => let* nbuf := wr nbuf sz (Some NUL) in Done (0, UBuf (Some nbuf) sz (len ubuf))
  end.
(** memcpy to the place [k] of a block. *)
Definition write_at (b : option block) (k : Z) (bs : list ascii) : outcome block :=
  let b := default [] b in
  if (k <? 0) || (Z.of_nat (length b) <? k + Z.of_nat (length bs)) then Undef
  else Done (blit b (Z.to_nat k) (map Some bs)).
(** [bytes]: the [sz] bytes at the pointer that is given, if it is not NULL. *)
(* src: lib/u/buf.c 79-101 u_buf_append *)
Definition u_buf_append (ok : bool) (ubuf : u_buf_t) (bytes : option (list ascii)) (sz : Z) : outcome (Z * u_buf_t) :=
  if sz =? 0 then Done (-1, ubuf) else
  let* r := if u64 (size ubuf - len ubuf) <? sz then u_buf_reserve ok ubuf (u64 (size ubuf + len ubuf + 2 * sz)) else Done (0, ubuf) in
  let '(rc, ubuf) := r in
  if negb (rc =? 0) then Done (-1, ubuf) else
  match bytes with
  | None => Done (0, ubuf)
  | Some bs =>
      if Z.of_nat (length bs) <? sz then Undef else
      let* b := write_at (data ubuf) (len ubuf) (take (Z.to_nat sz) bs) in
      let len' := u64 (len ubuf + sz) in
      let* b := wr b len' (Some NUL) in
      Done (0, UBuf (Some b) (size ubuf) len')
  end.
(* src: lib/u/buf.c 103-106 u_buf_set_len *)
Definition u_buf_set_len (ubuf : u_buf_t) (l : Z) : u_buf_t := UBuf (data ubuf) (size ubuf) l.
(* src: lib/u/buf.c 223-232 u_buf_clear *)
Definition u_buf_clear (ubuf : u_buf_t) : Z * u_buf_t := (0, UBuf (data ubuf) (size ubuf) 0).
(** [file]: what stat, fopen and fread find: the bytes of the file, or that one of them fails.  An empty
    file cannot be read by fread, and fails as well. *)
Inductive file_answer := NoFile | NotOpened | File (bytes : list ascii).
(* src: lib/u/buf.c 118-148 u_buf_load *)
Definition u_buf_load (ok : bool) (ubuf : u_buf_t) (filename : option cstring) (file : cstring -> file_answer) : outcome (Z * u_buf_t) :=
  match filename with
  | None => Done (-1, ubuf)
  | Some name =>
      let load st_size k :=
        let ubuf := (u_buf_clear ubuf).2 in
        let* r := u_buf_reserve ok ubuf st_size in
        let '(rc, ubuf) := r in
        if negb (rc =? 0) then Done (-1, ubuf) else k ubuf in
      match file name with
      | NoFile => Done (-1, ubuf)
      | NotOpened => load 0 (fun ubuf => Done (-1, ubuf))
      | File bs =>
          let n := Z.of_nat (length bs) in
          load n (fun ubuf =>
            if n =? 0 then Done (-1, ubuf) else
            let* b := write_at (data ubuf) 0 bs in Done (0, UBuf (Some b) (size ubuf) n))
      end
  end.
(* src: lib/u/buf.c 164-175 u_buf_detach *)
Definition u_buf_detach (ubuf : u_buf_t) : Z * u_buf_t := (0, UBuf None 0 0).
(* src: lib/u/buf.c 186-193 u_buf_size *)
Definition u_buf_size (ubuf : u_buf_t) : Z := size ubuf.
(* src: lib/u/buf.c 204-211 u_buf_len *)
Definition u_buf_len (ubuf : u_buf_t) : Z := len ubuf.
(* src: lib/u/buf.c 246-259 u_buf_set *)
Definition u_buf_set (ok : bool) (ubuf : u_buf_t) (bytes : option (list ascii)) (sz : Z) : outcome (Z * u_buf_t) :=
  match bytes with
  | None => Done (-1, ubuf)
  | Some _ =>
      if sz =? 0 then Done (-1, ubuf)
      else let* r := u_buf_append ok (u_buf_clear ubuf).2 bytes sz in
           Done (if negb (r.1 =? 0) then (-1, r.2) else (0, r.2))
  end.
(* src: lib/u/buf.c 261-268 u_buf_steal *)
Definition u_buf_steal (ubuf : u_buf_t) : option block * u_buf_t := (data ubuf, UBuf None 0 0).
(* src: lib/u/buf.c 280-287 u_buf_ptr *)
Definition u_buf_ptr (ubuf : u_buf_t) : option block := data ubuf.
(** A buffer or the failure to allocate one. *)
(* src: lib/u/buf.c 320-334 u_buf_create *)
Definition u_buf_create (ok : bool) : option u_buf_t := if ok then Some (UBuf None 0 0) else None.
(** Freeing answers 0, or -1 for NULL; what becomes of the memory is not seen. *)
(* src: lib/u/buf.c 298-309 u_buf_free *)
Definition u_buf_free (ubuf : option u_buf_t) : Z := match ubuf with None => -1 | Some _ => 0 end.
(* src: lib/u/buf.c 337-346 u_buf_construct *)
Definition u_buf_construct (ptr : option block) (sz l : Z) : Z * u_buf_t := (0, UBuf ptr sz l).

(** ** A buffer is a string of bytes *)

(** The buffer holds [bs], followed by a terminator. *)
Record holds (u : u_buf_t) (bs : list ascii) : Prop := Holds {
  h_len : len u = Z.of_nat (length bs);
  h_room : len u <= size u < 2 ^ 60;
  h_data : match data u with
           | None => bs = [] /\ size u = 0
           | Some b => Z.of_nat (length b) = size u + 1 /\ take (length bs) b = map Some bs
           end }.

Lemma create_holds : exists u, u_buf_create true = Some u /\ holds u [].
Proof. eexists. split; [reflexivity|]. constructor; cbn; [done|lia|done]. Qed.
Lemma clear_holds u bs : holds u bs -> holds (u_buf_clear u).2 [].
Proof.
  intros [L R D]. constructor; cbn; [done|lia|]. destruct (data u); [|tauto]. now destruct D.
Qed.
Lemma take_map_Some (bs cs : list ascii) n : (n <= length bs)%nat -> take n (map Some bs ++ map Some cs) = map Some (take n bs).
Proof. intros. rewrite take_app_le by (rewrite length_map; lia). now rewrite firstn_map. Qed.

(** Room for more bytes: what the buffer holds stays. *)
Lemma reserve_holds u bs sz : holds u bs -> 0 <= sz < 2 ^ 60 ->
  exists u', u_buf_reserve true u sz = Done (0, u') /\ holds u' bs /\ size u' = Z.max (size u) sz /\ (sz <= size u -> u' = u).
Proof.
  intros [L R D] Hs. unfold u_buf_reserve. destruct (Z.leb_spec sz (size u)) as [Le|Gt].
  { exists u. repeat split; try done; lia. }
  cbn [realloc]. rewrite u64_small by lia. change (default [] (data u)) with (from_option id [] (data u)). set (old := from_option id [] (data u)).
  assert (length old <= Z.to_nat (size u + 1))%nat as Lo.
  { subst old. destruct (data u) as [b|]; cbn; [|lia]. destruct D. lia. }
  set (nb := take _ old ++ repeat None _).
  assert (Z.of_nat (length nb) = sz + 1) as Ln.
  { subst nb. rewrite length_app, length_take, repeat_length. lia. }
  rewrite wr_ok by lia. cbn [obind]. eexists. split; [reflexivity|]. split; [|split; [cbn; lia|lia]].
  constructor; cbn; [done|lia|]. rewrite length_insert. split; [lia|].
  rewrite take_insert_ge by lia. subst nb old. destruct (data u) as [b|]; cbn [default].
  - destruct D as [Lb Tb]. rewrite (take_ge b) by lia. rewrite take_app_le by lia. exact Tb.
  - destruct D as [-> _]. done.
Qed.
Lemma append_holds u bs cs : holds u bs -> cs <> [] -> Z.of_nat (length bs) + Z.of_nat (length cs) < 2 ^ 55 -> size u < 2 ^ 56 ->
  exists u', u_buf_append true u (Some cs) (Z.of_nat (length cs)) = Done (0, u') /\ holds u' (bs ++ cs) /\
    size u' <= Z.max (size u) (3 * len u').
Proof.
  intros H N B S. pose proof H as [L R D].
  assert (0 < Z.of_nat (length cs)) as Lc by (destruct cs; [done|cbn; lia]).
  unfold u_buf_append. rewrite (proj2 (Z.eqb_neq _ _)) by lia. rewrite u64_small by lia.
  assert (exists u1, (if size u - len u <? Z.of_nat (length cs) then u_buf_reserve true u (u64 (size u + len u + 2 * Z.of_nat (length cs))) else Done (0, u)) = Done (0, u1) /\
    holds u1 bs /\ Z.of_nat (length bs) + Z.of_nat (length cs) <= size u1 /\
    size u1 <= Z.max (size u) (3 * (len u + Z.of_nat (length cs)))) as (u1 & -> & [L1 R1 D1] & Rm & Sz).
  { destruct (Z.ltb_spec (size u - len u) (Z.of_nat (length cs))).
    - rewrite u64_small by lia. destruct (reserve_holds u bs (size u + len u + 2 * Z.of_nat (length cs)) H ltac:(lia)) as (u1 & E & H1 & S1 & _).
      exists u1. split; [exact E|]. split; [done|]. lia.
    - exists u. split; [done|]. split; [done|]. lia. }
  cbn [obind Z.eqb negb]. rewrite Z.ltb_irrefl, Nat2Z.id, firstn_all.
  destruct (data u1) as [b|] eqn:Eb; [|lia]. destruct D1 as [Lb Tb].
  unfold write_at, default, id. rewrite (proj2 (Z.ltb_ge _ 0)), (proj2 (Z.ltb_ge _ (_ + _))) by lia. cbn [orb obind].
  rewrite L1, Nat2Z.id, u64_small by lia.
  assert (length (blit b (length bs) (map Some cs)) = length b) as Lbl.
  { unfold blit. rewrite !length_app, length_take, length_drop, length_map. lia. }
  rewrite wr_ok by lia. cbn [obind]. eexists. split; [reflexivity|]. split; [|cbn; lia].
  constructor; cbn; [rewrite length_app; lia|lia|]. rewrite length_insert, Lbl. split; [exact Lb|].
  rewrite take_insert_ge by (rewrite length_app; lia). unfold blit. rewrite Tb, app_assoc, <- map_app.
  rewrite take_app_le by (rewrite length_map; lia). rewrite <- (length_map Some (bs ++ cs)). apply firstn_all.
Qed.
Lemma set_holds u bs cs : holds u bs -> cs <> [] -> Z.of_nat (length cs) < 2 ^ 55 -> size u < 2 ^ 56 ->
  exists u', u_buf_set true u (Some cs) (Z.of_nat (length cs)) = Done (0, u') /\ holds u' cs /\
    size u' <= Z.max (size u) (3 * len u').
Proof.
  intros H N B S. unfold u_buf_set. rewrite (proj2 (Z.eqb_neq _ _)) by (destruct cs; [done|cbn; lia]).
  destruct (append_holds _ [] cs (clear_holds _ _ H) N ltac:(cbn; lia) S) as (u' & -> & H' & Sz). cbn [obind fst snd Z.eqb negb].
  exists u'. split; [done|]. split; [exact H'|]. exact Sz.
Qed.
Lemma load_holds u bs name file cs : holds u bs -> file name = File cs -> cs <> [] -> Z.of_nat (length cs) < 2 ^ 55 ->
  exists u', u_buf_load true u (Some name) file = Done (0, u') /\ holds u' cs.
Proof.
  intros H F N B. unfold u_buf_load. rewrite F.
  destruct (reserve_holds _ [] (Z.of_nat (length cs)) (clear_holds _ _ H) ltac:(lia)) as (u1 & -> & [L1 R1 D1] & S1 & _).
  cbn [obind Z.eqb negb]. rewrite (proj2 (Z.eqb_neq _ _)) by (destruct cs; [done|cbn; lia]).
  assert (0 < length cs)%nat by (destruct cs; [done|cbn; lia]).
  destruct (data u1) as [b|] eqn:Eb; [|lia]. destruct D1 as [Lb Tb].
  unfold write_at, default, id. rewrite (proj2 (Z.ltb_ge _ (_ + _))) by lia. cbn [Z.ltb Z.compare orb obind].
  eexists. split; [reflexivity|]. constructor; cbn [data size len]; [lia|lia|]. unfold blit. change (Z.to_nat 0) with 0%nat.
  rewrite take_0. cbn [app Nat.add]. rewrite length_app, length_drop, !length_map. split; [lia|].
  rewrite take_app_le by (rewrite length_map; lia). rewrite <- (length_map Some cs). apply firstn_all.
Qed.
(** What the pointer of a buffer points at, up to its length. *)
Lemma holds_read u bs : holds u bs -> bs <> [] -> exists b, u_buf_ptr u = Some b /\ take (Z.to_nat (u_buf_len u)) b = map Some bs.
Proof.
  intros [L R D] N. unfold u_buf_ptr, u_buf_len. rewrite L, Nat2Z.id. destruct (data u) as [b|]; [|now destruct D].
  exists b. now destruct D.
Qed.

(** Pieces of a text that arrive one after the other. *)
Fixpoint append_all (u : u_buf_t) (pieces : list (list ascii)) : outcome u_buf_t :=
  match pieces with
  | [] => Done u
  | p :: pieces => let* r := u_buf_append true u (Some p) (Z.of_nat (length p)) in append_all r.2 pieces
  end.
Lemma append_all_holds pieces : forall u bs, holds u bs -> size u <= 3 * len u -> Z.of_nat (length (bs ++ concat pieces)) < 2 ^ 50 ->
  exists u', append_all u pieces = Done u' /\ holds u' (bs ++ concat pieces) /\ size u' <= 3 * len u'.
Proof.
  induction pieces as [|p pieces IH]; intros u bs H S B; cbn [append_all concat] in *.
  { rewrite app_nil_r in *. eauto. }
  pose proof (h_len _ _ H) as L. rewrite !length_app in B. destruct p as [|c p].
  - cbn [length app] in *. unfold u_buf_append at 1. cbn [Z.of_nat Z.eqb obind snd]. apply (IH u bs); [done..|]. rewrite length_app. lia.
  - destruct (append_holds u bs (c :: p) H) as (u1 & -> & H1 & S1); [done|lia|lia|]. cbn [obind snd].
    rewrite app_assoc. apply (IH u1 (bs ++ c :: p)); [done| |rewrite !length_app; lia].
    pose proof (h_len _ _ H1) as L1. rewrite length_app in L1. lia.
Qed.
(** A buffer collects pieces of a text, empty ones among them, without leaving its block: it holds their
    concatenation, followed by a terminator, and takes at most three times as much memory as it holds. *)
Theorem buffer_collects pieces : Z.of_nat (length (concat pieces)) < 2 ^ 50 ->
  exists u u', u_buf_create true = Some u /\ append_all u pieces = Done u' /\ u_buf_len u' = Z.of_nat (length (concat pieces)) /\
    size u' <= 3 * u_buf_len u' /\ holds u' (concat pieces).
Proof.
  intros B. destruct create_holds as (u & E & H). exists u.
  destruct (append_all_holds pieces u [] H) as (u' & Ea & H' & S); [|exact B|].
  - unfold u_buf_create in E. injection E as <-. cbn. lia.
  - exists u'. repeat split; try done; apply H'.
Qed.
Lemma buffer_collects_witness : exists u', append_all (UBuf None 0 0) [lit "ab"; []; lit "cde"] = Done u' /\ u_buf_len u' = 5 /\ holds u' (lit "abcde").
Proof.
  destruct (buffer_collects [lit "ab"; []; lit "cde"]) as (u & u' & E & A & L & _ & H); [vm_compute; reflexivity|].
  exists u'. injection E as <-. repeat split; try assumption; apply H.
Defined.
(** Setting a buffer to an empty text fails and leaves the old one. *)
Example set_empty : (let* r := u_buf_set true (UBuf None 0 0) (Some (lit "old")) 3 in u_buf_set true r.2 (Some []) 0) =
  (let* r := u_buf_set true (UBuf None 0 0) (Some (lit "old")) 3 in Done (-1, r.2)).
Proof. reflexivity. Qed.
End Buf.
