(* ===== verification/Names.v ===== *)
(** * Names: the namespaces, element names and URIs of WS-Management (include/wsman-names.h)

    The strings of the header that the modelled code uses, as C strings. *)
From S2P Require Import Prelude CString.

Module Names.

(** [!strcmp (a, b)]: two C strings, taken up to their terminators, are the same. *)
Definition streq (a b : cstring) : bool := bool_decide (a = b).
Lemma streq_true a b : streq a b = true <-> a = b.
Proof. apply bool_decide_eq_true. Qed.
Lemma streq_false a b : streq a b = false <-> a <> b.
Proof. apply bool_decide_eq_false. Qed.
Lemma streq_refl a : streq a a = true.
Proof. now apply streq_true. Qed.
(** On strings without NUL this is the test that [strcmp] makes. *)
Lemma streq_strcmp a b : no_nul a -> no_nul b -> streq a b = (strcmp a b =? 0).
Proof.
  intros Na Nb. pose proof (strcmp_eq a b Na Nb). unfold streq.
  destruct (bool_decide_reflect (a = b)), (Z.eqb_spec (strcmp a b) 0); tauto || done.
Qed.
#[export] Hint Rewrite streq_refl : lms.

Definition XML_NS_SOAP_1_1 : cstring := lit "http://schemas.xmlsoap.org/soap/envelope".
Definition XML_NS_SOAP_1_2 : cstring := lit "http://www.w3.org/2003/05/soap-envelope".
Definition XML_NS_XML_NAMESPACES : cstring := lit "http://www.w3.org/XML/1998/namespace".
Definition XML_NS_ADDRESSING : cstring := lit "http://schemas.xmlsoap.org/ws/2004/08/addressing".
Definition XML_NS_EVENTING : cstring := lit "http://schemas.xmlsoap.org/ws/2004/08/eventing".
Definition XML_NS_ENUMERATION : cstring := lit "http://schemas.xmlsoap.org/ws/2004/09/enumeration".
Definition XML_NS_TRANSFER : cstring := lit "http://schemas.xmlsoap.org/ws/2004/09/transfer".
Definition XML_NS_XML_SCHEMA : cstring := lit "http://www.w3.org/2001/XMLSchema".
Definition XML_NS_SCHEMA_INSTANCE : cstring := lit "http://www.w3.org/2001/XMLSchema-instance".
Definition XML_NS_TRUST : cstring := lit "http://schemas.xmlsoap.org/ws/2005/02/trust".
Definition XML_NS_OPENWSMAN : cstring := lit "http://schema.openwsman.org/2006/openwsman".
Definition XML_NS_CIM_SCHEMA : cstring := lit "http://schemas.dmtf.org/wbem/wscim/1/common".
Definition XML_NS_CIM_CLASS : cstring := lit "http://schemas.dmtf.org/wbem/wscim/1/cim-schema/2".
Definition XML_NS_CIM_BINDING : cstring := lit "http://schemas.dmtf.org/wbem/wsman/1/cimbinding.xsd".
Definition XML_NS_CIM_INTRINSIC : cstring := lit "http://schemas.openwsman.org/wbem/wscim/1/intrinsic".
Definition XML_NS_WS_MAN : cstring := lit "http://schemas.dmtf.org/wbem/wsman/1/wsman.xsd".
Definition XML_NS_WS_MAN_CAT : cstring := lit "http://schemas.xmlsoap.org/ws/2005/06/wsmancat".
Definition XML_NS_WSMAN_ID : cstring := lit "http://schemas.dmtf.org/wbem/wsman/identity/1/wsmanidentity.xsd".

Definition XML_NS_WSMAN_FAULT_DETAIL : cstring := lit "http://schemas.dmtf.org/wbem/wsman/1/wsman/faultDetail".
Definition XML_NS_POLICY : cstring := lit "http://schemas.xmlsoap.org/ws/2004/09/policy".
Definition XML_NS_SE : cstring := lit "http://docs.oasis-open.org/wss/2004/01/oasis-200401-wss-wssecurity-secext-1.0.xsd".
Definition WSMID_IDENTIFY : cstring := lit "Identify".

Definition WSA_TO_ANONYMOUS : cstring := lit "http://schemas.xmlsoap.org/ws/2004/08/addressing/role/anonymous".
Definition WSA_MESSAGE_ID : cstring := lit "MessageID".
Definition WSA_ADDRESS : cstring := lit "Address".
Definition WSA_EPR : cstring := lit "EndpointReference".
Definition WSA_ACTION : cstring := lit "Action".
Definition WSA_RELATES_TO : cstring := lit "RelatesTo".
Definition WSA_TO : cstring := lit "To".
Definition WSA_REPLY_TO : cstring := lit "ReplyTo".
Definition WSA_FROM : cstring := lit "From".
Definition WSA_FAULT_TO : cstring := lit "FaultTo".
Definition WSA_REFERENCE_PROPERTIES : cstring := lit "ReferenceProperties".
Definition WSA_REFERENCE_PARAMETERS : cstring := lit "ReferenceParameters".

Definition SOAP_ENVELOPE : cstring := lit "Envelope".
Definition SOAP_HEADER : cstring := lit "Header".
Definition SOAP_BODY : cstring := lit "Body".
Definition SOAP_FAULT : cstring := lit "Fault".
Definition SOAP_CODE : cstring := lit "Code".
Definition SOAP_VALUE : cstring := lit "Value".
Definition SOAP_SUBCODE : cstring := lit "Subcode".
Definition SOAP_REASON : cstring := lit "Reason".
Definition SOAP_TEXT : cstring := lit "Text".
Definition SOAP_LANG : cstring := lit "lang".
Definition SOAP_DETAIL : cstring := lit "Detail".
Definition SOAP_FAULT_DETAIL : cstring := lit "FaultDetail".
Definition SOAP_MUST_UNDERSTAND : cstring := lit "mustUnderstand".

Definition TRANSFER_ACTION_GET : cstring := lit "http://schemas.xmlsoap.org/ws/2004/09/transfer/Get".
Definition TRANSFER_ACTION_PUT : cstring := lit "http://schemas.xmlsoap.org/ws/2004/09/transfer/Put".
Definition TRANSFER_ACTION_CREATE : cstring := lit "http://schemas.xmlsoap.org/ws/2004/09/transfer/Create".
Definition TRANSFER_ACTION_DELETE : cstring := lit "http://schemas.xmlsoap.org/ws/2004/09/transfer/Delete".
Definition ENUM_ACTION_ENUMERATE : cstring := lit "http://schemas.xmlsoap.org/ws/2004/09/enumeration/Enumerate".
Definition ENUM_ACTION_RELEASE : cstring := lit "http://schemas.xmlsoap.org/ws/2004/09/enumeration/Release".
Definition ENUM_ACTION_PULL : cstring := lit "http://schemas.xmlsoap.org/ws/2004/09/enumeration/Pull".
Definition EVT_ACTION_SUBSCRIBE : cstring := lit "http://schemas.xmlsoap.org/ws/2004/08/eventing/Subscribe".
Definition EVT_ACTION_UNSUBSCRIBE : cstring := lit "http://schemas.xmlsoap.org/ws/2004/08/eventing/Unsubscribe".
Definition EVT_ACTION_PULL : cstring := lit "http://schemas.dmtf.org/wbem/wsman/1/wsman/Pull".
Definition EVT_ACTION_RENEW : cstring := lit "http://schemas.xmlsoap.org/ws/2004/08/eventing/Renew".

Definition WSENUM_ENUMERATE : cstring := lit "Enumerate".
Definition WSENUM_PULL : cstring := lit "Pull".
Definition WSENUM_RELEASE : cstring := lit "Release".
Definition WSENUM_END_TO : cstring := lit "EndTo".
Definition WSENUM_EXPIRES : cstring := lit "Expires".
Definition WSENUM_FILTER : cstring := lit "Filter".
Definition WSENUM_ENUMERATION_CONTEXT : cstring := lit "EnumerationContext".
Definition WSENUM_MAX_ELEMENTS : cstring := lit "MaxElements".
Definition WSENUM_ITEMS : cstring := lit "Items".
Definition WSENUM_END_OF_SEQUENCE : cstring := lit "EndOfSequence".

Definition WSEVENT_SUBSCRIBE : cstring := lit "Subscribe".
Definition WSEVENT_ENDTO : cstring := lit "EndTo".
Definition WSEVENT_DELIVERY : cstring := lit "Delivery".
Definition WSEVENT_NOTIFY_TO : cstring := lit "NotifyTo".
Definition WSEVENT_DELIVERY_MODE : cstring := lit "Mode".
Definition WSEVENT_EXPIRES : cstring := lit "Expires".
Definition WSEVENT_FILTER : cstring := lit "Filter".
Definition WSEVENT_IDENTIFIER : cstring := lit "Identifier".

Definition WSM_LOCALE : cstring := lit "Locale".
Definition WSM_RESOURCE_URI : cstring := lit "ResourceURI".
Definition WSM_SELECTOR_SET : cstring := lit "SelectorSet".
Definition WSM_SELECTOR : cstring := lit "Selector".
Definition WSM_NAME : cstring := lit "Name".
Definition WSM_REQUEST_TOTAL : cstring := lit "RequestTotalItemsCountEstimate".
Definition WSM_TOTAL_ESTIMATE : cstring := lit "TotalItemsCountEstimate".
Definition WSM_OPTIMIZE_ENUM : cstring := lit "OptimizeEnumeration".
Definition WSM_MAX_ELEMENTS : cstring := lit "MaxElements".
Definition WSM_ENUM_EPR : cstring := lit "EnumerateEPR".
Definition WSM_ENUM_OBJ_AND_EPR : cstring := lit "EnumerateObjectAndEPR".
Definition WSM_ENUM_MODE : cstring := lit "EnumerationMode".
Definition WSM_ITEM : cstring := lit "Item".
Definition WSM_FRAGMENT_TRANSFER : cstring := lit "FragmentTransfer".
Definition WSM_OPTION_SET : cstring := lit "OptionSet".
Definition WSM_OPTION : cstring := lit "Option".
Definition WSM_MAX_ENVELOPE_SIZE : cstring := lit "MaxEnvelopeSize".
Definition WSM_OPERATION_TIMEOUT : cstring := lit "OperationTimeout".
Definition WSM_FILTER : cstring := lit "Filter".
Definition WSM_DIALECT : cstring := lit "Dialect".
Definition WSM_CONTENTCODING : cstring := lit "ContentEncoding".
Definition WSM_CONNECTIONRETRY : cstring := lit "ConnectionRetry".
Definition WSM_SENDBOOKMARKS : cstring := lit "SendBookmarks".
Definition WSM_BOOKMARK : cstring := lit "Bookmark".
Definition WSM_HEARTBEATS : cstring := lit "Heartbeats".
Definition WSM_ACKREQUESTED : cstring := lit "AckRequested".
Definition WSM_AUTH : cstring := lit "Auth".
Definition WSM_PROFILE : cstring := lit "Profile".

Definition WSMB_ASSOCIATED_INSTANCES : cstring := lit "AssociatedInstances".
Definition WSMB_ASSOCIATION_INSTANCES : cstring := lit "AssociationInstances".
Definition WSMB_OBJECT : cstring := lit "Object".
Definition WSMB_ASSOCIATION_CLASS_NAME : cstring := lit "AssociationClassName".
Definition WSMB_RESULT_CLASS_NAME : cstring := lit "ResultClassName".
Definition WSMB_ROLE : cstring := lit "Role".
Definition WSMB_RESULT_ROLE : cstring := lit "ResultRole".
Definition WSMB_INCLUDE_RESULT_PROPERTY : cstring := lit "IncludeResultProperty".
Definition WSMB_POLYMORPHISM_MODE : cstring := lit "PolymorphismMode".
Definition WSMB_INCLUDE_SUBCLASS_PROP : cstring := lit "IncludeSubClassProperties".
Definition WSMB_EXCLUDE_SUBCLASS_PROP : cstring := lit "ExcludeSubClassProperties".
Definition WSMB_NONE : cstring := lit "None".
Definition WSMB_SHOW_EXTENSION : cstring := lit "ShowExtensions".

Definition WSM_SELECTOR_FILTER_DIALECT : cstring := lit "http://schemas.dmtf.org/wbem/wsman/1/wsman/SelectorFilter".
Definition WSM_WQL_FILTER_DIALECT : cstring := lit "http://schemas.microsoft.com/wbem/wsman/1/WQL".
Definition WSM_XPATH_FILTER_DIALECT : cstring := lit "http://www.w3.org/TR/1999/REC-xpath-19991116".
Definition WSM_CQL_FILTER_DIALECT : cstring := lit "http://schemas.dmtf.org/wbem/cql/1/dsp0202.pdf".
Definition WSM_ASSOCIATION_FILTER_DIALECT : cstring := lit "http://schemas.dmtf.org/wbem/wsman/1/cimbinding/associationFilter".
Definition WSM_XPATH_EVENTROOT_FILTER : cstring := lit "http://schemas.dmtf.org/wbem/wsman/1/wsman/filter/eventRootXPath".

Definition WSEVENT_DELIVERY_MODE_PUSH : cstring := lit "http://schemas.xmlsoap.org/ws/2004/08/eventing/DeliveryModes/Push".
Definition WSEVENT_DELIVERY_MODE_PUSHWITHACK : cstring := lit "http://schemas.dmtf.org/wbem/wsman/1/wsman/PushWithAck".
Definition WSEVENT_DELIVERY_MODE_EVENTS : cstring := lit "http://schemas.dmtf.org/wbem/wsman/1/wsman/Events".
Definition WSEVENT_DELIVERY_MODE_PULL : cstring := lit "http://schemas.dmtf.org/wbem/wsman/1/wsman/Pull".

Definition WST_ISSUEDTOKENS : cstring := lit "IssuedTokens".
Definition WST_REQUESTSECURITYTOKENRESPONSE : cstring := lit "RequestSecurityTokenResponse".
Definition WST_TOKENTYPE : cstring := lit "TokenType".
Definition WST_REQUESTEDSECURITYTOKEN : cstring := lit "RequestedSecurityToken".
Definition WSSE_USERNAMETOKEN : cstring := lit "UsernameToken".
Definition WSSE_USERNAME : cstring := lit "Username".
Definition WSSE_PASSWORD : cstring := lit "Password".
Definition WSP_APPLIESTO : cstring := lit "AppliesTo".
Definition WST_USERNAMETOKEN : cstring :=
  lit "http://docs.oasis-open.org/wss/2004/01/oasis-200401-wss-username-token-profile-1.0#UsernameToken".
Definition WST_CERTIFICATETHUMBPRINT : cstring := lit "http://schemas.dmtf.org/wbem/wsman/1/wsman/token/certificateThumbprint".
Definition WSM_CERTIFICATETHUMBPRINT : cstring := lit "CertificateThumbprint".

Definition WSFW_RESPONSE_STR : cstring := lit "Response".
Definition CIM_NAMESPACE_SELECTOR : cstring := lit "__cimnamespace".
Definition CIM_ALL_AVAILABLE_CLASSES : cstring := lit "http://schemas.dmtf.org/wbem/wscim/1/*".
Definition XML_NS_CIM_ALL_CLASS : cstring := lit "http://schemas.dmtf.org/wbem/wscim/1".

Definition TRANSFER_GET : cstring := lit "Get".
Definition TRANSFER_PUT : cstring := lit "Put".
Definition TRANSFER_CREATE : cstring := lit "Create".
Definition TRANSFER_DELETE : cstring := lit "Delete".
Definition WSENUM_ENUMERATE_RESP : cstring := lit "EnumerateResponse".
Definition WSENUM_PULL_RESP : cstring := lit "PullResponse".
Definition WSENUM_MAX_CHARACTERS : cstring := lit "MaxCharacters".
Definition WSEVENT_SUBSCRIBE_RESP : cstring := lit "SubscribeResponse".
Definition WSEVENT_UNSUBSCRIBE : cstring := lit "Unsubscribe".
Definition WSEVENT_RENEW : cstring := lit "Renew".
Definition WSMB_EXCLUDE_NIL_PROPS : cstring := lit "ExcludeNilProperties".
Definition WSMAN_SECURITY_PROFILE (name : string) : cstring := lit "http://schemas.dmtf.org/wbem/wsman/1/wsman/secprofile/" ++ lit name.

End Names.
