(* ===== verification/Base64.v ===== *)
(** * Base64: [lib/u/base64.c], the base-64 encoder and decoder of libu *)
From S2P Require Import Prelude.

Module Base64.

(* src: lib/u/base64.c 41-41 ETable *)
Definition ETable : list ascii :=
  lit "ABCDEFGHIJKLMNOPQRSTUVWXYZabcdefghijklmnopqrstuvwxyz0123456789+/".

(** [for (i = lo; i <= hi; i++) t[i] = f(i);] *)
Definition fill (lo hi : Z) (f : Z -> Z) (t : list Z) : list Z :=
  foldl (fun t i => <[Z.to_nat i := f i]> t) t (seqZ lo (hi + 1 - lo)).

(** The decoding table after its initialisation; the entries are [char]s, written
    here as their unsigned values.  The first loop stops before entry 255, which
    keeps the 0 of a static object. *)
(* src: lib/u/base64.c 44-82 init_DTable *)
Definition init_DTable : list Z :=
  let t := replicate 256 0 in
  let t := fill 0 254 (fun _ => 128) t in
  let t := fill (code "A") (code "I") (fun i => 0 + (i - code "A")) t in
  let t := fill (code "J") (code "R") (fun i => 9 + (i - code "J")) t in
  let t := fill (code "S") (code "Z") (fun i => 18 + (i - code "S")) t in
  let t := fill (code "a") (code "i") (fun i => 26 + (i - code "a")) t in
  let t := fill (code "j") (code "r") (fun i => 35 + (i - code "j")) t in
  let t := fill (code "s") (code "z") (fun i => 44 + (i - code "s")) t in
  let t := fill (code "0") (code "9") (fun i => 52 + (i - code "0")) t in
  let t := <[Z.to_nat (code "+") := 62]> t in
  let t := <[Z.to_nat (code "/") := 63]> t in
  <[Z.to_nat (code "=") := 0]> t.

Definition DTable : list Z := Eval vm_compute in init_DTable.

Definition etab (i : Z) : outcome ascii := rd ETable i.

(** One group of four output characters: the three cells of [in], which keep the
    values of the previous group where [n < 3], and the number [n] of fresh bytes. *)
Definition encode_group (in0 in1 in2 n : Z) : outcome (list ascii) :=
  let* o0 := etab (Z.land (Z.shiftr in0 2) 63) in
  let* o1 := etab (Z.lor (Z.shiftl (Z.land in0 3) 4) (Z.land (Z.shiftr in1 4) 15)) in
  let* o2 := etab (Z.lor (Z.shiftl (Z.land in1 15) 2) (Z.land (Z.shiftr in2 6) 3)) in
  let* o3 := etab (Z.land in2 63) in
  let o3 := if n <? 3 then "="%char else o3 in
  let o2 := if n <? 2 then "="%char else o2 in
  Done [o0; o1; o2; o3].

Fixpoint encode_loop (fuel : nat) (from : list ascii) (s len : Z)
    (in0 in1 in2 : Z) (to : list ascii) : outcome (list ascii) :=
  match fuel with
  | O => Diverge
  | S fuel =>
      let n := if 3 <=? len then 3 else u64 len in
      if n =? 0 then Done to
      else
        let* c0 := rd from s in
        let in0 := s8 (code c0) in
        let* in1 := (if 1 <? n then let* c := rd from (s + 1) in Done (s8 (code c))
                     else Done in1) in
        let* in2 := (if 2 <? n then let* c := rd from (s + 2) in Done (s8 (code c))
                     else Done in2) in
        let* out := encode_group in0 in1 in2 n in
        encode_loop fuel from (s + n) (s32 (len - n)) in0 in1 in2 (to ++ out)
  end.

(** The characters written at [to], before the terminating NUL. *)
(* src: lib/u/base64.c 84-120 ws_base64_encode *)
Definition ws_base64_encode (from : list ascii) (len : Z) : outcome (list ascii) :=
  encode_loop (S (S (length from))) from 0 len 0 0 0 [].

(** One decoded character: [None] when its table entry is not printable.  The index
    is the [char] converted to [unsigned int]. *)
Definition decode_char (c : ascii) : outcome (option Z) :=
  let* d := rd DTable (u32 (s8 (code c))) in
  Done (if Z.land d 128 =? 0 then Some d else None).

(** The inner [for] loop over four characters; [None] when it returns 0. *)
Fixpoint decode_quad (k : nat) (from : list ascii) (s : Z)
    : outcome (option (list (ascii * Z))) :=
  match k with
  | O => Done (Some [])
  | S k =>
      let* c := rd from s in
      let* d := decode_char c in
      match d with
      | None => Done None
      | Some d =>
          let* r := decode_quad k from (s + 1) in
          Done (option_map (cons (c, d)) r)
      end
  end.

Definition decode_out (q : list (ascii * Z)) : list ascii :=
  match q with
  | [(_, b0); (_, b1); (a2, b2); (a3, b3)] =>
      let o0 := chr (Z.lor (Z.shiftl b0 2) (Z.shiftr b1 4)) in
      let o1 := chr (Z.lor (Z.shiftl b1 4) (Z.shiftr b2 2)) in
      let o2 := chr (Z.lor (Z.shiftl b2 6) b3) in
      if decide (a2 = "="%char) then [o0]
      else if decide (a3 = "="%char) then [o0; o1] else [o0; o1; o2]
  | _ => []
  end.

Fixpoint decode_loop (fuel : nat) (from : list ascii) (s len : Z) (to : list ascii)
    : outcome (Z * list ascii) :=
  match fuel with
  | O => Diverge
  | S fuel =>
      if s =? len then Done (Z.of_nat (length to), to)
      else
        let* q := decode_quad 4 from s in
        match q with
        | None => Done (0, to)
        | Some q => decode_loop fuel from (s + 4) len (to ++ decode_out q)
        end
  end.

(** The value returned and the bytes written at [to]. *)
(* src: lib/u/base64.c 123-169 ws_base64_decode *)
Definition ws_base64_decode (from : list ascii) (len to_len : Z)
    : outcome (Z * list ascii) :=
  if negb (Z.rem len 4 =? 0) then Done (0, [])
  else if to_len <? Z.quot len 4 * 3 then Done (0, [])
  else decode_loop (S (length from)) from 0 len [].

(** ** The encoder as a function of the bytes

    [enc_from p1 p2 l] encodes [l] when the cells [in[1]] and [in[2]] hold the
    characters [p1] and [p2]. *)
Definition E64 (i : Z) : ascii := default NUL (ETable !! Z.to_nat i).
Definition lo2 (a : ascii) : Z := Z.land (s8 (code a)) 3.
Definition hi4 (a : ascii) : Z := Z.land (Z.shiftr (s8 (code a)) 4) 15.
Definition lo4 (a : ascii) : Z := Z.land (s8 (code a)) 15.
Definition hi2 (a : ascii) : Z := Z.land (Z.shiftr (s8 (code a)) 6) 3.
Definition i0 (a : ascii) : Z := Z.land (Z.shiftr (s8 (code a)) 2) 63.
Definition i1 (a b : ascii) : Z := Z.lor (Z.shiftl (lo2 a) 4) (hi4 b).
Definition i2 (b c : ascii) : Z := Z.lor (Z.shiftl (lo4 b) 2) (hi2 c).
Definition i3 (c : ascii) : Z := Z.land (s8 (code c)) 63.

Fixpoint enc_from (p1 p2 : ascii) (l : list ascii) : list ascii :=
  match l with
  | a :: b :: c :: r => [E64 (i0 a); E64 (i1 a b); E64 (i2 b c); E64 (i3 c)] ++ enc_from b c r
  | [a; b] => [E64 (i0 a); E64 (i1 a b); E64 (i2 b p2); "="%char]
  | [a] => [E64 (i0 a); E64 (i1 a p1); "="%char; "="%char]
  | [] => []
  end.

(** The encoding of RFC 4648: the bits that pad the last group are zero. *)
Fixpoint rfc4648 (l : list ascii) : list ascii :=
  match l with
  | a :: b :: c :: r => [E64 (i0 a); E64 (i1 a b); E64 (i2 b c); E64 (i3 c)] ++ rfc4648 r
  | [a; b] => [E64 (i0 a); E64 (i1 a b); E64 (i2 b NUL); "="%char]
  | [a] => [E64 (i0 a); E64 (i1 a NUL); "="%char; "="%char]
  | [] => []
  end.

(** The induction that follows the groups of three bytes. *)
Lemma triples_ind (P : list ascii -> Prop) :
  P [] -> (forall a, P [a]) -> (forall a b, P [a; b]) ->
  (forall a b c r, P r -> P (a :: b :: c :: r)) -> forall l, P l.
Proof.
  intros H0 H1 H2 H3 l.
  enough (P l /\ (forall a, P (a :: l)) /\ forall a b, P (a :: b :: l)) by tauto.
  induction l as [|c l (IH1 & IH2 & IH3)]; auto.
Qed.

Lemma etab_done (i : Z) : 0 <= i < 64 -> etab i = Done (E64 i).
Proof.
  intros H. unfold etab, E64. destruct (rd_ok ETable i) as (x & Hx & ->); [simpl; lia|].
  now rewrite Hx.
Qed.

Definition below (n i : Z) : bool := (0 <=? i) && (i <? n).
Lemma below_range n i : below n i = true -> 0 <= i < n.
Proof. unfold below. lia. Qed.
Ltac by_byte P a := apply (forall_ascii P); vm_compute; reflexivity.
Lemma lo2_range a : 0 <= lo2 a < 4.
Proof. apply below_range. by_byte (fun a => below 4 (lo2 a)) a. Qed.
Lemma hi4_range a : 0 <= hi4 a < 16.
Proof. apply below_range. by_byte (fun a => below 16 (hi4 a)) a. Qed.
Lemma lo4_range a : 0 <= lo4 a < 16.
Proof. apply below_range. by_byte (fun a => below 16 (lo4 a)) a. Qed.
Lemma hi2_range a : 0 <= hi2 a < 4.
Proof. apply below_range. by_byte (fun a => below 4 (hi2 a)) a. Qed.
Lemma i0_range a : 0 <= i0 a < 64.
Proof. apply below_range. by_byte (fun a => below 64 (i0 a)) a. Qed.
Lemma i3_range a : 0 <= i3 a < 64.
Proof. apply below_range. by_byte (fun a => below 64 (i3 a)) a. Qed.
Lemma i1_range a b : 0 <= i1 a b < 64.
Proof.
  apply below_range, (forall_below2 4 16 (fun x y => below 64 (Z.lor (Z.shiftl x 4) y)));
    auto using lo2_range, hi4_range.
Qed.
Lemma i2_range a b : 0 <= i2 a b < 64.
Proof.
  apply below_range, (forall_below2 16 4 (fun x y => below 64 (Z.lor (Z.shiftl x 2) y)));
    auto using lo4_range, hi2_range.
Qed.
#[local] Hint Resolve i0_range i1_range i2_range i3_range : lms.

Lemma encode_group_spec (a b c : ascii) (n : Z) :
  encode_group (s8 (code a)) (s8 (code b)) (s8 (code c)) n =
  Done [E64 (i0 a); E64 (i1 a b); if n <? 2 then "="%char else E64 (i2 b c);
        if n <? 3 then "="%char else E64 (i3 c)].
Proof.
  unfold encode_group. fold (i0 a) (lo2 a) (hi4 b) (lo4 b) (hi2 c) (i3 c).
  fold (i1 a b) (i2 b c).
  rewrite !etab_done by auto with lms. simpl. done.
Qed.

Lemma encode_loop_spec l : forall pre p1 p2 in0 fuel to,
  Z.of_nat (length l) < 2147483648 -> (length l < fuel)%nat ->
  encode_loop fuel (pre ++ l) (Z.of_nat (length pre)) (Z.of_nat (length l))
    in0 (s8 (code p1)) (s8 (code p2)) to = Done (to ++ enc_from p1 p2 l).
Proof.
  induction l as [|a|a b|a b c r IH] using triples_ind; intros pre p1 p2 in0 fuel to Hl Hf;
    (destruct fuel as [|fuel]; [simpl in Hf; lia|]).
  - simpl. now rewrite app_nil_r.
  - destruct fuel as [|fuel]; [simpl in Hf; lia|].
    cbn [encode_loop length]. replace (u64 (Z.of_nat 1)) with 1 by done. simpl Z.leb. cbv iota.
    simpl Z.eqb. simpl Z.ltb. cbv iota. simpl obind. rd_known.
    rewrite encode_group_spec. done.
  - destruct fuel as [|fuel]; [simpl in Hf; lia|].
    cbn [encode_loop length]. replace (u64 (Z.of_nat 2)) with 2 by done. simpl Z.leb. cbv iota.
    simpl Z.eqb. simpl Z.ltb. cbv iota. simpl obind. rd_known.
    rewrite encode_group_spec. done.
  - cbn [encode_loop]. destruct (Z.leb_spec 3 (Z.of_nat (length (a :: b :: c :: r)))) as [H3|H3];
      [|simpl in H3; lia].
    simpl Z.eqb. simpl Z.ltb. cbv iota. simpl obind. rd_known.
    rewrite encode_group_spec. simpl obind.
    replace (s32 _) with (Z.of_nat (length r)).
    2:{ simpl length in *. unfold s32, u32. rewrite Z.mod_small by lia.
        destruct (Z.ltb_spec (Z.of_nat (S (S (S (length r)))) - 3) 2147483648); lia. }
    replace (pre ++ a :: b :: c :: r) with ((pre ++ [a; b; c]) ++ r) by now rewrite <- app_assoc.
    replace (Z.of_nat (length pre) + 3) with (Z.of_nat (length (pre ++ [a; b; c])))
      by (rewrite length_app; simpl; lia).
    rewrite IH by (simpl length in *; lia). simpl. now rewrite <- app_assoc.
Qed.

Lemma encode_spec (l : list ascii) :
  Z.of_nat (length l) < 2147483648 ->
  ws_base64_encode l (Z.of_nat (length l)) = Done (enc_from NUL NUL l).
Proof.
  intros H. unfold ws_base64_encode.
  apply (encode_loop_spec l [] NUL NUL 0 (S (S (length l))) []); simpl; lia.
Qed.

(** ** The decoder on the output of the encoder *)
Lemma i1_split a b : Z.land (i1 a b) 15 = hi4 b /\ Z.shiftr (i1 a b) 4 = lo2 a.
Proof.
  pose proof (forall_below2 4 16 (fun x y => (Z.land (Z.lor (Z.shiftl x 4) y) 15 =? y) &&
    (Z.shiftr (Z.lor (Z.shiftl x 4) y) 4 =? x)) eq_refl (lo2 a) (hi4 b)
    (lo2_range a) (hi4_range b)) as H.
  cbv beta in H. unfold i1. lia.
Qed.
Lemma i2_split b c : Z.land (i2 b c) 3 = hi2 c /\ Z.shiftr (i2 b c) 2 = lo4 b.
Proof.
  pose proof (forall_below2 16 4 (fun x y => (Z.land (Z.lor (Z.shiftl x 2) y) 3 =? y) &&
    (Z.shiftr (Z.lor (Z.shiftl x 2) y) 2 =? x)) eq_refl (lo4 b) (hi2 c)
    (lo4_range b) (hi2_range c)) as H.
  cbv beta in H. unfold i2. lia.
Qed.
Lemma dec_out0 a b : chr (Z.lor (Z.shiftl (i0 a) 2) (Z.shiftr (i1 a b) 4)) = a.
Proof.
  rewrite (proj2 (i1_split a b)). apply Ascii.eqb_eq.
  by_byte (fun a => Ascii.eqb (chr (Z.lor (Z.shiftl (i0 a) 2) (lo2 a))) a) a.
Qed.
Lemma dec_out1 a b c : chr (Z.lor (Z.shiftl (i1 a b) 4) (Z.shiftr (i2 b c) 2)) = b.
Proof.
  unfold chr. rewrite u8_lor_shiftl by lia. change (Z.ones (8 - 4)) with 15.
  rewrite (proj1 (i1_split a b)), (proj2 (i2_split b c)). apply Ascii.eqb_eq.
  by_byte (fun b => Ascii.eqb (chr (Z.lor (Z.shiftl (hi4 b) 4) (lo4 b))) b) b.
Qed.
Lemma dec_out2 b c : chr (Z.lor (Z.shiftl (i2 b c) 6) (i3 c)) = c.
Proof.
  unfold chr. rewrite u8_lor_shiftl by lia. change (Z.ones (8 - 6)) with 3.
  rewrite (proj1 (i2_split b c)). apply Ascii.eqb_eq.
  by_byte (fun c => Ascii.eqb (chr (Z.lor (Z.shiftl (hi2 c) 6) (i3 c))) c) c.
Qed.

Definition decodes_to (i : Z) (c : ascii) : bool :=
  match decode_char c with Done (Some d) => d =? i | _ => false end.
Lemma decode_E64 i : 0 <= i < 64 -> decode_char (E64 i) = Done (Some i).
Proof.
  intros H. pose proof (forall_below 64 (fun i => decodes_to i (E64 i)) eq_refl i H) as Hd.
  unfold decodes_to in Hd. destruct (decode_char (E64 i)) as [[d|]| | |]; try discriminate.
  now apply Z.eqb_eq in Hd as ->.
Qed.
Lemma E64_not_pad i : 0 <= i < 64 -> E64 i <> "="%char.
Proof.
  intros H. pose proof (forall_below 64 (fun i => negb (Ascii.eqb (E64 i) "=")) eq_refl i H) as Hn.
  intros E. cbv beta in Hn. rewrite E in Hn. discriminate Hn.
Qed.
Lemma decode_pad : decode_char "="%char = Done (Some 0).
Proof. reflexivity. Qed.

Lemma decode_quad_spec pre w x y z rest b0 b1 b2 b3 :
  decode_char w = Done (Some b0) -> decode_char x = Done (Some b1) ->
  decode_char y = Done (Some b2) -> decode_char z = Done (Some b3) ->
  decode_quad 4 (pre ++ w :: x :: y :: z :: rest) (Z.of_nat (length pre)) =
  Done (Some [(w, b0); (x, b1); (y, b2); (z, b3)]).
Proof.
  intros Hw Hx Hy Hz. cbn [decode_quad]. rewrite <- !Z.add_assoc. simpl Z.add. rd_known.
  now rewrite Hw; simpl obind; rd_known; rewrite Hx; simpl obind; rd_known;
    rewrite Hy; simpl obind; rd_known; rewrite Hz.
Qed.

Lemma decode_step pre w x y z rest b0 b1 b2 b3 fuel len to :
  decode_char w = Done (Some b0) -> decode_char x = Done (Some b1) ->
  decode_char y = Done (Some b2) -> decode_char z = Done (Some b3) ->
  Z.of_nat (length pre) <> len ->
  decode_loop (S fuel) (pre ++ w :: x :: y :: z :: rest) (Z.of_nat (length pre)) len to =
  decode_loop fuel ((pre ++ [w; x; y; z]) ++ rest) (Z.of_nat (length (pre ++ [w; x; y; z]))) len
    (to ++ decode_out [(w, b0); (x, b1); (y, b2); (z, b3)]).
Proof.
  intros Hw Hx Hy Hz Hlen. cbn [decode_loop].
  destruct (Z.eqb_spec (Z.of_nat (length pre)) len); [done|].
  erewrite decode_quad_spec by eassumption. simpl obind.
  rewrite <- app_assoc. f_equal. rewrite length_app. simpl. lia.
Qed.

Lemma decode_loop_end fuel from len to :
  decode_loop (S fuel) from len len to = Done (Z.of_nat (length to), to).
Proof. cbn [decode_loop]. now rewrite Z.eqb_refl. Qed.

Lemma decode_loop_enc l : forall p1 p2 pre fuel to,
  (length (enc_from p1 p2 l) < fuel)%nat ->
  decode_loop fuel (pre ++ enc_from p1 p2 l) (Z.of_nat (length pre))
    (Z.of_nat (length (pre ++ enc_from p1 p2 l))) to =
  Done (Z.of_nat (length (to ++ l)), to ++ l).
Proof.
  induction l as [|a|a b|a b c r IH] using triples_ind; intros p1 p2 pre fuel to Hf;
    (destruct fuel as [|fuel]; [simpl in Hf; lia|]).
  1: simpl enc_from; rewrite !app_nil_r; apply decode_loop_end.
  all: simpl enc_from in *; erewrite decode_step;
    [|eauto using decode_E64, decode_pad with lms ..|rewrite length_app; simpl; lia].
  - destruct fuel as [|fuel]; [simpl in Hf; lia|].
    rewrite app_nil_r, decode_loop_end. simpl decode_out. now rewrite dec_out0.
  - destruct fuel as [|fuel]; [simpl in Hf; lia|].
    rewrite app_nil_r, decode_loop_end. simpl decode_out. rewrite dec_out0, dec_out1.
    destruct (decide _) as [E|E]; [|done]. now apply E64_not_pad in E; [|auto with lms].
  - replace (pre ++ E64 (i0 a) :: E64 (i1 a b) :: E64 (i2 b c) :: E64 (i3 c) :: enc_from b c r) with
      ((pre ++ [E64 (i0 a); E64 (i1 a b); E64 (i2 b c); E64 (i3 c)]) ++ enc_from b c r)
      by (now rewrite <- app_assoc).
    rewrite IH by (simpl in Hf; lia). simpl decode_out. rewrite dec_out0, dec_out1, dec_out2.
    destruct (decide _) as [E|E]; [now apply E64_not_pad in E; [|auto with lms]|].
    destruct (decide _) as [E'|E']; [now apply E64_not_pad in E'; [|auto with lms]|].
    now rewrite <- app_assoc.
Qed.

Lemma enc_from_length l : forall p1 p2, length (enc_from p1 p2 l) = (4 * ((length l + 2) / 3))%nat.
Proof.
  induction l as [|a|a b|a b c r IH] using triples_ind; intros p1 p2; try reflexivity.
  simpl enc_from. simpl length. rewrite IH.
  replace (S (S (S (length r))) + 2)%nat with (length r + 2 + 1 * 3)%nat by lia.
  rewrite Nat.div_add by lia. lia.
Qed.

(** ** Properties *)

Lemma decode_encoded (l : list ascii) (to_len : Z) :
  (Z.of_nat (length l) + 2) / 3 * 3 <= to_len ->
  ws_base64_decode (enc_from NUL NUL l) (Z.of_nat (length (enc_from NUL NUL l))) to_len =
  Done (Z.of_nat (length l), l).
Proof.
  intros Hto. unfold ws_base64_decode.
  assert (Hd : Z.of_nat (4 * ((length l + 2) / 3)) = 4 * ((Z.of_nat (length l) + 2) / 3)).
  { rewrite Nat2Z.inj_mul, Nat2Z.inj_div, Nat2Z.inj_add. done. }
  rewrite enc_from_length, Hd. set (q := (Z.of_nat (length l) + 2) / 3) in *.
  assert (0 <= q) by (apply Z.div_pos; lia).
  rewrite (Z.mul_comm 4), Z.rem_mul by lia. simpl negb. cbv iota.
  rewrite Z.quot_mul by lia.
  destruct (Z.ltb_spec to_len (q * 3)); [lia|].
  replace (q * 4) with (Z.of_nat (length (enc_from NUL NUL l))) by (rewrite enc_from_length; lia).
  apply (decode_loop_enc l NUL NUL [] _ []). rewrite enc_from_length. lia.
Qed.
(** C38. Decoding what [ws_base64_encode] wrote gives back the bytes that were encoded, for
    every input that an [int] length can describe and every destination that is large
    enough, although the encoder leaves bits of the previous group in its padding. *)
Theorem base64_roundtrip (l : list ascii) (to_len : Z) :
  Z.of_nat (length l) < 1610612733 ->
  (Z.of_nat (length l) + 2) / 3 * 3 <= to_len ->
  exists e, ws_base64_encode l (Z.of_nat (length l)) = Done e /\
    ws_base64_decode e (Z.of_nat (length e)) to_len = Done (Z.of_nat (length l), l).
Proof.
  intros Hl Hto. exists (enc_from NUL NUL l). split; [apply encode_spec; lia|now apply decode_encoded].
Qed.

Lemma base64_roundtrip_witness :
  exists e, ws_base64_encode (lit "abcd") 4 = Done e /\
    ws_base64_decode e (Z.of_nat (length e)) 6 = Done (4, lit "abcd").
Proof. apply (base64_roundtrip (lit "abcd") 6); vm_compute; [reflexivity|discriminate]. Defined.

(** The byte three places before the end of the input, whose bits are still in the cells
    [in[1]] and [in[2]] at the last group ([p1], [p2] before any group was read). *)
Definition stale_byte (p1 p2 : ascii) (l : list ascii) : ascii :=
  default NUL ((NUL :: p1 :: p2 :: l) !! length l).
Definition stale_bits (p1 p2 : ascii) (l : list ascii) : Z :=
  match (length l mod 3)%nat with
  | 1%nat => Z.land (code (stale_byte p1 p2 l)) 240
  | 2%nat => Z.land (code (stale_byte p1 p2 l)) 192
  | _ => 0
  end.

Lemma E64_inj i j : 0 <= i < 64 -> 0 <= j < 64 -> E64 i = E64 j -> i = j.
Proof.
  intros Hi Hj E. pose proof (decode_E64 i Hi) as H. rewrite E, decode_E64 in H by done. congruence.
Qed.
Lemma hi4_stale p : Z.land (code p) 240 = 0 <-> hi4 p = hi4 NUL.
Proof.
  pose proof (forall_ascii (fun p => Bool.eqb (Z.land (code p) 240 =? 0) (hi4 p =? hi4 NUL))
    ltac:(vm_compute; reflexivity) p) as H.
  cbv beta in H. apply eqb_prop in H. lia.
Qed.
Lemma hi2_stale p : Z.land (code p) 192 = 0 <-> hi2 p = hi2 NUL.
Proof.
  pose proof (forall_ascii (fun p => Bool.eqb (Z.land (code p) 192 =? 0) (hi2 p =? hi2 NUL))
    ltac:(vm_compute; reflexivity) p) as H.
  cbv beta in H. apply eqb_prop in H. lia.
Qed.
Lemma E64_i1_stale a p : E64 (i1 a p) = E64 (i1 a NUL) <-> Z.land (code p) 240 = 0.
Proof.
  rewrite hi4_stale. split; [|unfold i1; now intros ->].
  intros E%E64_inj; auto with lms.
  now rewrite <- (proj1 (i1_split a p)), <- (proj1 (i1_split a NUL)), E.
Qed.
Lemma E64_i2_stale b p : E64 (i2 b p) = E64 (i2 b NUL) <-> Z.land (code p) 192 = 0.
Proof.
  rewrite hi2_stale. split; [|unfold i2; now intros ->].
  intros E%E64_inj; auto with lms.
  now rewrite <- (proj1 (i2_split b p)), <- (proj1 (i2_split b NUL)), E.
Qed.

Lemma stale_bits_step p1 p2 a b c r : stale_bits p1 p2 (a :: b :: c :: r) = stale_bits b c r.
Proof.
  unfold stale_bits, stale_byte.
  replace (length (a :: b :: c :: r) mod 3)%nat with (length r mod 3)%nat.
  2: { simpl length. replace (S (S (S (length r)))) with (length r + 1 * 3)%nat by lia.
       now rewrite Nat.Div0.mod_add. }
  destruct r as [|x r]; [reflexivity|]. reflexivity.
Qed.

Lemma enc_from_rfc4648 l : forall p1 p2,
  enc_from p1 p2 l = rfc4648 l <-> stale_bits p1 p2 l = 0.
Proof.
  induction l as [|a|a b|a b c r IH] using triples_ind; intros p1 p2.
  - done.
  - unfold stale_bits, stale_byte. simpl. rewrite <- (E64_i1_stale a p1). split; congruence.
  - unfold stale_bits, stale_byte. simpl. rewrite <- (E64_i2_stale b p2). split; congruence.
  - rewrite stale_bits_step, <- IH. simpl. split; congruence.
Qed.

(** [ws_base64_encode] writes the encoding of RFC 4648 exactly when the byte three places
    before the end leaves no bits in the cells that the last, short group reuses; the cells are
    never cleared between groups, so other inputs get non-zero padding bits. *)
Theorem base64_canonical_iff (l : list ascii) :
  Z.of_nat (length l) < 2147483648 ->
  ws_base64_encode l (Z.of_nat (length l)) = Done (rfc4648 l) <-> stale_bits NUL NUL l = 0.
Proof.
  intros Hl. rewrite encode_spec, <- enc_from_rfc4648 by done. split; congruence.
Qed.

Lemma base64_canonical_iff_witness :
  ws_base64_encode (lit "abcd") 4 = Done (rfc4648 (lit "abcd")) <-> 96 = 0.
Proof. apply (base64_canonical_iff (lit "abcd")). simpl. lia. Defined.

Definition is_ascii (c : ascii) : bool := code c <? 128.

Lemma decode_char_ascii c : is_ascii c = true -> exists d, decode_char c = Done d.
Proof.
  intros Hc. pose proof (forall_ascii (fun c => implb (is_ascii c)
    (match decode_char c with Done _ => true | _ => false end)) ltac:(vm_compute; reflexivity) c) as H.
  cbv beta in H. rewrite Hc in H. destruct (decode_char c); try discriminate. eauto.
Qed.
Lemma decode_char_undef (c : ascii) : decode_char c = Undef <-> 128 <= code c.
Proof.
  pose proof (forall_ascii (fun c => Bool.eqb
    (match decode_char c with Undef => true | _ => false end) (128 <=? code c))
    ltac:(vm_compute; reflexivity) c) as H.
  cbv beta in H. apply eqb_prop in H. destruct (decode_char c); split; try lia; done.
Qed.

Lemma decode_quad_ascii k : forall from s,
  Forall (fun c => is_ascii c = true) from -> 0 <= s ->
  (Z.to_nat s + k <= length from)%nat ->
  exists q, decode_quad k from s = Done q /\ forall l, q = Some l -> length l = k.
Proof.
  induction k as [|k IH]; intros from s Ha Hs Hk; simpl; [eexists; split; [done|]; intros l [= <-]; done|].
  destruct (rd_ok from s) as (c & E & ->); [lia|]. simpl.
  destruct (decode_char_ascii c) as [[d|] ->]; simpl.
  - rewrite Forall_lookup in Ha. eauto.
  - destruct (IH from (s + 1)) as (q & -> & Hq); [done|lia|rewrite Z2Nat.inj_add by lia; simpl; lia|].
    simpl. eexists; split; [done|]. intros l Hl. destruct q as [l'|]; [|done].
    injection Hl as <-. simpl. f_equal. now apply Hq.
  - eexists; split; [done|]. done.
Qed.

Lemma decode_out_length q : (length (decode_out q) <= 3)%nat.
Proof.
  destruct q as [|[a0 b0] [|[a1 b1] [|[a2 b2] [|[a3 b3] [|? ?]]]]]; simpl; try lia.
  repeat destruct (decide _); simpl; lia.
Qed.

Lemma decode_loop_ascii (k : nat) : forall fuel from s to,
  Forall (fun c => is_ascii c = true) from ->
  (s + 4 * k = length from)%nat -> (k < fuel)%nat ->
  exists n out, decode_loop fuel from (Z.of_nat s) (Z.of_nat (length from)) to = Done (n, out) /\
    (n = Z.of_nat (length out) \/ n = 0) /\ (length out <= length to + 3 * k)%nat.
Proof.
  induction k as [|k IH]; intros [|fuel] from s to Ha Hk Hf; try lia; cbn [decode_loop].
  - rewrite (proj2 (Z.eqb_eq _ _)) by lia. eexists _, _. split; [done|]. split; [auto|lia].
  - destruct (Z.eqb_spec (Z.of_nat s) (Z.of_nat (length from))); [lia|].
    destruct (decode_quad_ascii 4 from (Z.of_nat s)) as (q & -> & _); [done|lia|lia|]. simpl obind.
    destruct q as [l|].
    + replace (Z.of_nat s + 4) with (Z.of_nat (s + 4)) by lia.
      destruct (IH fuel from (s + 4)%nat (to ++ decode_out l)) as (m & out & -> & Hn & Ho); [done|lia|lia|].
      eexists _, _. split; [done|]. split; [done|].
      rewrite length_app in Ho. pose proof (decode_out_length l). lia.
    + eexists _, _. split; [done|]. split; [auto|lia].
Qed.

Lemma base64_decode_ok (from : list ascii) (to_len : Z) :
  Forall (fun c => is_ascii c = true) from -> 0 <= to_len ->
  exists n out, ws_base64_decode from (Z.of_nat (length from)) to_len = Done (n, out) /\
    (n = Z.of_nat (length out) \/ n = 0) /\ Z.of_nat (length out) <= to_len.
Proof.
  intros Ha Hto. unfold ws_base64_decode.
  destruct (Z.eqb_spec (Z.rem (Z.of_nat (length from)) 4) 0) as [Hr|]; simpl negb; cbv iota.
  2: { eexists _, _. split; [done|]. simpl. auto. }
  rewrite Z.rem_mod_nonneg in Hr by lia. rewrite Z.quot_div_nonneg by lia.
  destruct (Z.ltb_spec to_len (Z.of_nat (length from) / 4 * 3)).
  { eexists _, _. split; [done|]. simpl. auto. }
  pose proof (Z.div_mod (Z.of_nat (length from)) 4 ltac:(lia)) as Hd.
  set (k := Z.of_nat (length from) / 4) in *.
  assert (0 <= k) by (apply Z.div_pos; lia).
  destruct (decode_loop_ascii (Z.to_nat k) (S (length from)) from 0 []) as (n & out & E & Hn & Ho);
    [done|lia|lia|].
  exists n, out. split; [exact E|]. split; [done|]. simpl in Ho. lia.
Qed.

(** On any input of ASCII characters the decoder terminates, reads only inside its input
    and its table, writes at most [to_len] bytes, and returns 0 or the number it wrote. *)
Theorem base64_decode_safe (from : list ascii) (to_len : Z) :
  Forall (fun c => is_ascii c = true) from -> 0 <= to_len ->
  exists n out, ws_base64_decode from (Z.of_nat (length from)) to_len = Done (n, out) /\
    (n = Z.of_nat (length out) \/ n = 0) /\ Z.of_nat (length out) <= to_len.
Proof. now apply base64_decode_ok. Qed.

Lemma base64_decode_safe_witness :
  exists n out, ws_base64_decode (lit "Zm9v=A==") 8 6 = Done (n, out) /\
    (n = Z.of_nat (length out) \/ n = 0) /\ Z.of_nat (length out) <= 6.
Proof.
  apply (base64_decode_safe (lit "Zm9v=A==") 6); [repeat constructor|lia].
Defined.

(** A first character outside ASCII makes the decoder read outside its table, because the index
    is the sign-extended [char]. *)
Example base64_decode_non_ascii : ws_base64_decode [chr 200; "A"; "A"; "A"]%char 4 3 = Undef.
Proof. reflexivity. Qed.
(** Entry 255 of the table keeps the value 0, that of a printable character. *)
Example DTable_255 : DTable !! 255%nat = Some 0.
Proof. reflexivity. Qed.

End Base64.
