(* ===== verification/Md5.v ===== *)
(** * Md5: the two MD5 implementations of the tree

    [lib/u/md5.c] (module [LibuMd5]) digests in the client library, [server/shttpd/md5.c]
    (module [ShttpdMd5]) in the embedded web server.  Both are written from their source:
    the 64 steps of a block are data (a list of register instructions), so that the
    unrolled macros of the two files can be compared line by line.  [absorb] is the
    specification of hashing a message in blocks; both implementations refine it, so
    they compute the same digest however the message is cut into pieces. *)
From S2P Require Import Prelude.

(** ** 32-bit words *)
Definition T_MASK : Z := 0xffffffff.
Definition add32 (x y : Z) : Z := u32 (x + y).
Definition not32 (x : Z) : Z := Z.lxor x T_MASK.
(* src: lib/u/md5.c 197-197 ROTATE_LEFT *)
Definition ROTATE_LEFT (x n : Z) : Z := u32 (Z.lor (Z.shiftl x n) (Z.shiftr x (32 - n))).

(** The little-endian words of a block, and the bytes of words. *)
Definition word_of (b0 b1 b2 b3 : ascii) : Z :=
  code b0 + Z.shiftl (code b1) 8 + Z.shiftl (code b2) 16 + Z.shiftl (code b3) 24.
Fixpoint words (l : list ascii) : list Z :=
  match l with
  | b0 :: b1 :: b2 :: b3 :: l => word_of b0 b1 b2 b3 :: words l
  | _ => []
  end.
(** Byte [i] of the little-endian words [w]. *)
Definition byte_of (w : list Z) (i : nat) : ascii :=
  chr (Z.shiftr (nth (Nat.div i 4) w 0) (8 * Z.of_nat (Nat.modulo i 4))).
Definition le_bytes (w : list Z) : list ascii := map (byte_of w) (seq 0 (4 * length w)).

(** [memcpy(dst + offset, src, n)] *)
Definition memcpy_at (dst : list ascii) (offset : Z) (src : list ascii) (n : Z) : list ascii :=
  let src := take (Z.to_nat n) src in
  take (Z.to_nat offset) dst ++ src ++ drop (Z.to_nat offset + length src) dst.

Lemma memcpy_at_length dst o src n :
  (o + n <= length dst)%nat -> (n <= length src)%nat ->
  length (memcpy_at dst (Z.of_nat o) src (Z.of_nat n)) = length dst.
Proof.
  intros H1 H2. unfold memcpy_at. rewrite !Nat2Z.id, !length_app, !length_take, length_drop. lia.
Qed.
Lemma memcpy_at_take dst o src n :
  (o + n <= length dst)%nat -> (n <= length src)%nat ->
  take (o + n) (memcpy_at dst (Z.of_nat o) src (Z.of_nat n)) = take o dst ++ take n src.
Proof.
  intros H1 H2. unfold memcpy_at. rewrite !Nat2Z.id, app_assoc.
  apply take_app_length'. rewrite length_app, !length_take. lia.
Qed.

Lemma memcpy_at_take_le dst o src n k :
  (k <= o)%nat -> (o <= length dst)%nat -> take k (memcpy_at dst (Z.of_nat o) src n) = take k dst.
Proof.
  intros Hk Ho. unfold memcpy_at. rewrite Nat2Z.id, take_app_le by (rewrite length_take; lia).
  rewrite take_take. f_equal. lia.
Qed.

(** The padding of a message of [n] bytes: a 1 bit, zeros, the bit count on 64 bits. *)
Definition pad_len (n : nat) : nat := Z.to_nat ((55 - Z.of_nat n) mod 64).
Definition len_bytes (n : nat) : list ascii :=
  le_bytes [u32 (8 * Z.of_nat n); u32 (8 * Z.of_nat n / 4294967296)].
Definition padding (n : nat) : list ascii :=
  chr 0x80 :: replicate (pad_len n) NUL ++ len_bytes n.

Lemma len_bytes_length n : length (len_bytes n) = 8%nat.
Proof. reflexivity. Qed.
Lemma padded_length n : ((n + length (padding n)) mod 64 = 0)%nat.
Proof.
  unfold padding. cbn [length]. rewrite length_app, length_replicate, len_bytes_length.
  unfold pad_len. apply Nat2Z.inj. rewrite Nat2Z.inj_mod.
  pose proof (Z.mod_pos_bound (55 - Z.of_nat n) 64).
  rewrite Nat2Z.inj_add, Nat2Z.inj_succ, Nat2Z.inj_add, Z2Nat.id by lia.
  change (Z.of_nat 64) with 64. change (Z.of_nat 8) with 8. change (Z.of_nat 0) with 0.
  Z.div_mod_to_equations. lia.
Qed.

(** The 64-bit bit counter kept in two words: the carry of the low word. *)
Lemma count_carry a b :
  (a + b) / 4294967296 =
  a / 4294967296 + b / 4294967296 + (if u32 (a + b) <? u32 b then 1 else 0).
Proof.
  unfold u32. pose proof (Z.div_mod a 4294967296). pose proof (Z.div_mod b 4294967296).
  pose proof (Z.div_mod (a + b) 4294967296). pose proof (u32_range a). pose proof (u32_range b).
  pose proof (u32_range (a + b)). unfold u32 in *.
  destruct (Z.ltb_spec ((a + b) mod 4294967296) (b mod 4294967296)); lia.
Qed.
Lemma add32_u32 a b : add32 (u32 a) (u32 b) = u32 (a + b).
Proof. unfold add32, u32. now rewrite <- Z.add_mod. Qed.
Lemma add32_assoc a b c : add32 (add32 a b) c = add32 a (add32 b c).
Proof. unfold add32, u32. rewrite Zplus_mod_idemp_l, Zplus_mod_idemp_r. f_equal. lia. Qed.
Lemma bit_offset n : Z.land (Z.shiftr (u32 (8 * Z.of_nat n)) 3) 63 = Z.of_nat (Nat.modulo n 64).
Proof.
  rewrite Nat2Z.inj_mod. change 63 with (Z.ones 6). rewrite Z.land_ones by lia.
  rewrite Z.shiftr_div_pow2 by lia. unfold u32. change (2 ^ 3) with 8. change (2 ^ 6) with 64.
  Z.div_mod_to_equations. lia.
Qed.

(** The four registers [a], [b], [c], [d] of a block. *)
Inductive reg := RA | RB | RC | RD.
Record regs := Regs { rg_a : Z; rg_b : Z; rg_c : Z; rg_d : Z }.
Definition rget (r : reg) (s : regs) : Z :=
  match r with RA => rg_a s | RB => rg_b s | RC => rg_c s | RD => rg_d s end.
Definition rset (r : reg) (v : Z) (s : regs) : regs :=
  match r with
  | RA => Regs v (rg_b s) (rg_c s) (rg_d s)
  | RB => Regs (rg_a s) v (rg_c s) (rg_d s)
  | RC => Regs (rg_a s) (rg_b s) v (rg_d s)
  | RD => Regs (rg_a s) (rg_b s) (rg_c s) v
  end.

(** One macro call: its four registers, the word index, the shift and the constant. *)
Record instr := Ins { i_a : reg; i_b : reg; i_c : reg; i_d : reg; i_k : nat; i_s : Z; i_t : Z }.

(** ** Hashing in blocks: the specification

    [absorb_all h m] feeds the blocks of 64 bytes of [m] to the compression function and
    returns the bytes that remain. *)
Section absorb.
Context {St : Type} (compress : St -> list ascii -> St).

Fixpoint absorb (fuel : nat) (h : St) (m : list ascii) : St * list ascii :=
  match fuel with
  | O => (h, m)
  | S fuel =>
      if (64 <=? length m)%nat then absorb fuel (compress h (take 64 m)) (drop 64 m) else (h, m)
  end.
Definition absorb_all (h : St) (m : list ascii) : St * list ascii := absorb (length m) h m.

Lemma absorb_fuel fuel1 : forall fuel2 h m,
  (length m <= fuel1)%nat -> (length m <= fuel2)%nat -> absorb fuel1 h m = absorb fuel2 h m.
Proof.
  induction fuel1 as [|f1 IH]; intros [|f2] h m H1 H2; cbn [absorb]; try done;
    destruct (Nat.leb_spec 64 (length m)); try lia; try done.
  apply IH; rewrite length_drop; lia.
Qed.
Lemma absorb_all_fuel h m fuel : (length m <= fuel)%nat -> absorb_all h m = absorb fuel h m.
Proof. intros H. now apply absorb_fuel. Qed.
Lemma absorb_all_step h b t : length b = 64%nat -> absorb_all h (b ++ t) = absorb_all (compress h b) t.
Proof.
  intros Hb. rewrite (absorb_all_fuel h (b ++ t) (S (length (b ++ t)))) by lia.
  cbn [absorb]. destruct (Nat.leb_spec 64 (length (b ++ t))) as [Hl|Hl];
    rewrite length_app in Hl; [|lia].
  rewrite take_app_length', drop_app_length' by done.
  symmetry. apply absorb_all_fuel. rewrite length_app. lia.
Qed.
Lemma absorb_all_short h m : (length m < 64)%nat -> absorb_all h m = (h, m).
Proof.
  intros H. unfold absorb_all. destruct m as [|c m]; [done|].
  cbn [absorb length]. destruct (Nat.leb_spec 64 (S (length m))); [simpl in H; lia|done].
Qed.

(** Induction on a message by blocks. *)
Lemma blocks_ind (P : list ascii -> Prop) :
  (forall m, (length m < 64)%nat -> P m) ->
  (forall b m, length b = 64%nat -> P m -> P (b ++ m)) -> forall m, P m.
Proof.
  intros H0 H1 m. remember (length m) as n eqn:E. revert m E.
  induction n as [n IH] using lt_wf_ind; intros m ->.
  destruct (decide (length m < 64)%nat); [auto|].
  rewrite <- (take_drop 64 m). apply H1; [rewrite length_take; lia|].
  eapply IH; [|reflexivity]. rewrite length_drop. lia.
Qed.

Lemma absorb_all_app m : forall h d,
  absorb_all h (m ++ d) = let '(h', r) := absorb_all h m in absorb_all h' (r ++ d).
Proof.
  induction m as [m Hm|b m Hb IH] using blocks_ind; intros h d.
  - now rewrite (absorb_all_short h m).
  - rewrite <- app_assoc, (absorb_all_step h b (m ++ d)), (absorb_all_step h b m) by done.
    apply IH.
Qed.
Lemma absorb_all_rest m : forall h,
  length (snd (absorb_all h m)) = (length m mod 64)%nat.
Proof.
  induction m as [m Hm|b m Hb IH] using blocks_ind; intros h.
  - rewrite absorb_all_short by done. cbn [snd]. now rewrite Nat.mod_small.
  - rewrite absorb_all_step, IH, length_app, Hb by done.
    replace (64 + length m)%nat with (length m + 1 * 64)%nat by lia.
    now rewrite Nat.Div0.mod_add.
Qed.
End absorb.

Module LibuMd5.

(* src: lib/u/md5.c 65-128 T1..T64 *)
Definition T : list Z := [
  Z.lxor T_MASK 0x28955b87;
  Z.lxor T_MASK 0x173848a9;
  0x242070db;
  Z.lxor T_MASK 0x3e423111;
  Z.lxor T_MASK 0x0a83f050;
  0x4787c62a;
  Z.lxor T_MASK 0x57cfb9ec;
  Z.lxor T_MASK 0x02b96afe;
  0x698098d8;
  Z.lxor T_MASK 0x74bb0850;
  Z.lxor T_MASK 0x0000a44e;
  Z.lxor T_MASK 0x76a32841;
  0x6b901122;
  Z.lxor T_MASK 0x02678e6c;
  Z.lxor T_MASK 0x5986bc71;
  0x49b40821;
  Z.lxor T_MASK 0x09e1da9d;
  Z.lxor T_MASK 0x3fbf4cbf;
  0x265e5a51;
  Z.lxor T_MASK 0x16493855;
  Z.lxor T_MASK 0x29d0efa2;
  0x02441453;
  Z.lxor T_MASK 0x275e197e;
  Z.lxor T_MASK 0x182c0437;
  0x21e1cde6;
  Z.lxor T_MASK 0x3cc8f829;
  Z.lxor T_MASK 0x0b2af278;
  0x455a14ed;
  Z.lxor T_MASK 0x561c16fa;
  Z.lxor T_MASK 0x03105c07;
  0x676f02d9;
  Z.lxor T_MASK 0x72d5b375;
  Z.lxor T_MASK 0x0005c6bd;
  Z.lxor T_MASK 0x788e097e;
  0x6d9d6122;
  Z.lxor T_MASK 0x021ac7f3;
  Z.lxor T_MASK 0x5b4115bb;
  0x4bdecfa9;
  Z.lxor T_MASK 0x0944b49f;
  Z.lxor T_MASK 0x4140438f;
  0x289b7ec6;
  Z.lxor T_MASK 0x155ed805;
  Z.lxor T_MASK 0x2b10cf7a;
  0x04881d05;
  Z.lxor T_MASK 0x262b2fc6;
  Z.lxor T_MASK 0x1924661a;
  0x1fa27cf8;
  Z.lxor T_MASK 0x3b53a99a;
  Z.lxor T_MASK 0x0bd6ddbb;
  0x432aff97;
  Z.lxor T_MASK 0x546bdc58;
  Z.lxor T_MASK 0x036c5fc6;
  0x655b59c3;
  Z.lxor T_MASK 0x70f3336d;
  Z.lxor T_MASK 0x00100b82;
  Z.lxor T_MASK 0x7a7ba22e;
  0x6fa87e4f;
  Z.lxor T_MASK 0x01d3191f;
  Z.lxor T_MASK 0x5cfebceb;
  0x4e0811a1;
  Z.lxor T_MASK 0x08ac817d;
  Z.lxor T_MASK 0x42c50dca;
  0x2ad7d2bb;
  Z.lxor T_MASK 0x14792c6e].
Definition Ti (i : nat) : Z := nth (i - 1) T 0.

(* src: lib/u/md5.c 202-202 F *)
Definition F (x y z : Z) : Z := Z.lor (Z.land x y) (Z.land (not32 x) z).
(* src: lib/u/md5.c 228-228 G *)
Definition G (x y z : Z) : Z := Z.lor (Z.land x z) (Z.land y (not32 z)).
(* src: lib/u/md5.c 254-254 H *)
Definition H (x y z : Z) : Z := Z.lxor (Z.lxor x y) z.
(* src: lib/u/md5.c 280-280 I *)
Definition I (x y z : Z) : Z := Z.lxor y (Z.lor x (not32 z)).

(** [SET]: [t = a + f(b,c,d) + X[k] + Ti; a = ROTATE_LEFT(t, s) + b]. *)
(* src: lib/u/md5.c 203-205 SET *)
Definition SET (f : Z -> Z -> Z -> Z) (X : list Z) (s : regs) (i : instr) : regs :=
  let t := add32 (add32 (add32 (rget (i_a i) s)
                   (u32 (f (rget (i_b i) s) (rget (i_c i) s) (rget (i_d i) s))))
                   (nth (i_k i) X 0)) (i_t i) in
  rset (i_a i) (add32 (ROTATE_LEFT t (i_s i)) (rget (i_b i) s)) s.

(* src: lib/u/md5.c 207-222 Round 1 *)
Definition round1 : list instr := [
  Ins RA RB RC RD 0 7 (Ti 1);
  Ins RD RA RB RC 1 12 (Ti 2);
  Ins RC RD RA RB 2 17 (Ti 3);
  Ins RB RC RD RA 3 22 (Ti 4);
  Ins RA RB RC RD 4 7 (Ti 5);
  Ins RD RA RB RC 5 12 (Ti 6);
  Ins RC RD RA RB 6 17 (Ti 7);
  Ins RB RC RD RA 7 22 (Ti 8);
  Ins RA RB RC RD 8 7 (Ti 9);
  Ins RD RA RB RC 9 12 (Ti 10);
  Ins RC RD RA RB 10 17 (Ti 11);
  Ins RB RC RD RA 11 22 (Ti 12);
  Ins RA RB RC RD 12 7 (Ti 13);
  Ins RD RA RB RC 13 12 (Ti 14);
  Ins RC RD RA RB 14 17 (Ti 15);
  Ins RB RC RD RA 15 22 (Ti 16)].

(* src: lib/u/md5.c 233-248 Round 2 *)
Definition round2 : list instr := [
  Ins RA RB RC RD 1 5 (Ti 17);
  Ins RD RA RB RC 6 9 (Ti 18);
  Ins RC RD RA RB 11 14 (Ti 19);
  Ins RB RC RD RA 0 20 (Ti 20);
  Ins RA RB RC RD 5 5 (Ti 21);
  Ins RD RA RB RC 10 9 (Ti 22);
  Ins RC RD RA RB 15 14 (Ti 23);
  Ins RB RC RD RA 4 20 (Ti 24);
  Ins RA RB RC RD 9 5 (Ti 25);
  Ins RD RA RB RC 14 9 (Ti 26);
  Ins RC RD RA RB 3 14 (Ti 27);
  Ins RB RC RD RA 8 20 (Ti 28);
  Ins RA RB RC RD 13 5 (Ti 29);
  Ins RD RA RB RC 2 9 (Ti 30);
  Ins RC RD RA RB 7 14 (Ti 31);
  Ins RB RC RD RA 12 20 (Ti 32)].

(* src: lib/u/md5.c 259-274 Round 3 *)
Definition round3 : list instr := [
  Ins RA RB RC RD 5 4 (Ti 33);
  Ins RD RA RB RC 8 11 (Ti 34);
  Ins RC RD RA RB 11 16 (Ti 35);
  Ins RB RC RD RA 14 23 (Ti 36);
  Ins RA RB RC RD 1 4 (Ti 37);
  Ins RD RA RB RC 4 11 (Ti 38);
  Ins RC RD RA RB 7 16 (Ti 39);
  Ins RB RC RD RA 10 23 (Ti 40);
  Ins RA RB RC RD 13 4 (Ti 41);
  Ins RD RA RB RC 0 11 (Ti 42);
  Ins RC RD RA RB 3 16 (Ti 43);
  Ins RB RC RD RA 6 23 (Ti 44);
  Ins RA RB RC RD 9 4 (Ti 45);
  Ins RD RA RB RC 12 11 (Ti 46);
  Ins RC RD RA RB 15 16 (Ti 47);
  Ins RB RC RD RA 2 23 (Ti 48)].

(* src: lib/u/md5.c 285-300 Round 4 *)
Definition round4 : list instr := [
  Ins RA RB RC RD 0 6 (Ti 49);
  Ins RD RA RB RC 7 10 (Ti 50);
  Ins RC RD RA RB 14 15 (Ti 51);
  Ins RB RC RD RA 5 21 (Ti 52);
  Ins RA RB RC RD 12 6 (Ti 53);
  Ins RD RA RB RC 3 10 (Ti 54);
  Ins RC RD RA RB 10 15 (Ti 55);
  Ins RB RC RD RA 1 21 (Ti 56);
  Ins RA RB RC RD 8 6 (Ti 57);
  Ins RD RA RB RC 15 10 (Ti 58);
  Ins RC RD RA RB 6 15 (Ti 59);
  Ins RB RC RD RA 13 21 (Ti 60);
  Ins RA RB RC RD 4 6 (Ti 61);
  Ins RD RA RB RC 11 10 (Ti 62);
  Ins RC RD RA RB 2 15 (Ti 63);
  Ins RB RC RD RA 9 21 (Ti 64)].

Record md5_state := MD5 { count0 : Z; count1 : Z; abcd : regs; buf : list ascii }.

(* src: lib/u/md5.c 131-310 md5_process *)
Definition md5_process (h : regs) (data : list ascii) : regs :=
  let X := words data in
  let s := foldl (SET F X) h round1 in
  let s := foldl (SET G X) s round2 in
  let s := foldl (SET H X) s round3 in
  let s := foldl (SET I X) s round4 in
  Regs (add32 (rg_a h) (rg_a s)) (add32 (rg_b h) (rg_b s))
       (add32 (rg_c h) (rg_c s)) (add32 (rg_d h) (rg_d s)).

(** [md5_init] leaves [buf] as it is. *)
(* src: lib/u/md5.c 312-320 md5_init *)
Definition md5_init (pms : md5_state) : md5_state :=
  MD5 0 0 (Regs 0x67452301 (Z.lxor T_MASK 0x10325476) (Z.lxor T_MASK 0x67452301) 0x10325476)
      (buf pms).

Fixpoint full_blocks (fuel : nat) (h : regs) (p : list ascii) (nleft : Z)
    : regs * list ascii * Z :=
  match fuel with
  | O => (h, p, nleft)
  | S fuel =>
      if 64 <=? nleft
      then full_blocks fuel (md5_process h (take 64 p)) (drop 64 p) (nleft - 64)
      else (h, p, nleft)
  end.

(** [nbytes] is an [int]: [nbytes << 3] is undefined for a negative one and from [2^28] on. *)
Definition shift3_ok (nbytes : Z) : bool := (0 <=? nbytes) && (8 * nbytes <=? 2147483647).

(* src: lib/u/md5.c 322-358 md5_append *)
Definition md5_append (pms : md5_state) (data : list ascii) (nbytes : Z) : outcome md5_state :=
  if negb (shift3_ok nbytes) then Undef
  else Done (
  let nleft := nbytes in
  let offset := Z.land (Z.shiftr (count0 pms) 3) 63 in
  let nbits := u32 (Z.shiftl nbytes 3) in
  if nbytes <=? 0 then pms
  else
    let c1 := add32 (count1 pms) (Z.shiftr nbytes 29) in
    let c0 := add32 (count0 pms) nbits in
    let c1 := if c0 <? nbits then add32 c1 1 else c1 in
    let finish h b p nleft :=
      let '(h, p, nleft) := full_blocks (S (Z.to_nat nleft)) h p nleft in
      MD5 c0 c1 h (if negb (nleft =? 0) then memcpy_at b 0 p nleft else b) in
    if negb (offset =? 0) then
      let copy := if 64 <? offset + nbytes then 64 - offset else nbytes in
      let b := memcpy_at (buf pms) offset data copy in
      if offset + copy <? 64 then MD5 c0 c1 (abcd pms) b
      else finish (md5_process (abcd pms) b) b (drop (Z.to_nat copy) data) (nleft - copy)
    else finish (abcd pms) (buf pms) data nleft).

Definition regs_words (r : regs) : list Z := [rg_a r; rg_b r; rg_c r; rg_d r].

Definition pad : list ascii := chr 0x80 :: replicate 63 NUL.

(** The state after [md5_finish] and the digest. *)
(* src: lib/u/md5.c 360-381 md5_finish *)
Definition md5_finish (pms : md5_state) : outcome (md5_state * list ascii) :=
  let data := le_bytes [count0 pms; count1 pms] in
  let* pms1 := md5_append pms pad (Z.land (u32 (55 - Z.shiftr (count0 pms) 3)) 63 + 1) in
  let* pms2 := md5_append pms1 data 8 in
  Done (pms2, le_bytes (regs_words (abcd pms2))).

Definition ctbl : list ascii := lit "0123456789abcdef".
Definition hex (i : Z) : ascii := nth (Z.to_nat i) ctbl NUL.
(* src: lib/u/md5.c 384-396 md52char *)
Definition md52char (digest : list ascii) : cstring :=
  flat_map (fun b => [hex (Z.land (Z.shiftr (code b) 4) 15); hex (Z.land (code b) 15)]) digest.

(** The calls a client makes: one [md5_append] per piece of the message. *)
Fixpoint append_pieces (st : md5_state) (chunks : list (list ascii)) : outcome md5_state :=
  match chunks with
  | [] => Done st
  | d :: chunks => let* st := md5_append st d (Z.of_nat (length d)) in append_pieces st chunks
  end.
Definition md5_all (junk : md5_state) (chunks : list (list ascii)) : outcome (list ascii) :=
  let* st := append_pieces (md5_init junk) chunks in
  let* (_, digest) := md5_finish st in
  Done digest.

(** *** The state after some bytes have been appended *)
Definition iv : regs := abcd (md5_init (MD5 0 0 (Regs 0 0 0 0) [])).

Record md5_rep (st : md5_state) (m : list ascii) : Prop := {
  rep_hash : absorb_all md5_process iv m = (abcd st, take (length m mod 64) (buf st));
  rep_buf : length (buf st) = 64%nat;
  rep_count0 : count0 st = u32 (8 * Z.of_nat (length m));
  rep_count1 : count1 st = u32 (8 * Z.of_nat (length m) / 4294967296);
}.

Lemma md5_init_rep junk : length (buf junk) = 64%nat -> md5_rep (md5_init junk) [].
Proof. intros H. split; done. Qed.

Lemma full_blocks_spec nleft : forall fuel h p,
  (nleft <= length p)%nat -> (nleft <= fuel)%nat ->
  exists h' p' (l' : nat), full_blocks fuel h p (Z.of_nat nleft) = (h', p', Z.of_nat l') /\
    absorb_all md5_process h (take nleft p) = (h', take l' p') /\
    (l' <= length p')%nat /\ (l' < 64)%nat.
Proof.
  induction nleft as [n IH] using lt_wf_ind; intros fuel h p Hp Hf.
  destruct (decide (n < 64)%nat) as [Hn|Hn].
  - exists h, p, n. rewrite absorb_all_short by (rewrite length_take; lia).
    split; [|auto with lia].
    destruct fuel as [|fuel]; cbn [full_blocks]; [done|].
    destruct (Z.leb_spec 64 (Z.of_nat n)); [lia|done].
  - destruct fuel as [|fuel]; [lia|]. cbn [full_blocks].
    destruct (Z.leb_spec 64 (Z.of_nat n)); [|lia].
    replace (Z.of_nat n - 64) with (Z.of_nat (n - 64)) by lia.
    destruct (IH (n - 64)%nat ltac:(lia) fuel (md5_process h (take 64 p)) (drop 64 p))
      as (h' & p' & l' & E & Ha & Hl); [rewrite length_drop; lia|lia|].
    exists h', p', l'. split; [done|]. split; [|done].
    rewrite <- Ha. replace (take n p) with (take 64 p ++ take (n - 64) (drop 64 p)).
    + apply absorb_all_step. rewrite length_take. lia.
    + rewrite take_take_drop. f_equal. lia.
Qed.

(** The tail of [md5_append]: hash the full blocks, keep the rest in [buf]. *)
Lemma append_tail c0 c1 h b p nleft (m : list ascii) :
  (nleft <= length p)%nat -> length b = 64%nat ->
  absorb_all md5_process iv m = absorb_all md5_process h (take nleft p) ->
  c0 = u32 (8 * Z.of_nat (length m)) -> c1 = u32 (8 * Z.of_nat (length m) / 4294967296) ->
  md5_rep (let '(h, p, l) := full_blocks (S (Z.to_nat (Z.of_nat nleft))) h p (Z.of_nat nleft) in
           MD5 c0 c1 h (if negb (l =? 0) then memcpy_at b 0 p l else b)) m.
Proof.
  intros Hp Hb Hm -> ->.
  destruct (full_blocks_spec nleft (S (Z.to_nat (Z.of_nat nleft))) h p) as (h' & p' & l' & -> & Ha & Hl & Hl64);
    [done|lia|].
  assert (Hlen : (length m mod 64)%nat = l').
  { rewrite <- (absorb_all_rest md5_process m iv), Hm, Ha. simpl. rewrite length_take. lia. }
  destruct (Z.eqb_spec (Z.of_nat l') 0) as [E|E]; split; simpl negb; cbv iota; cbn [buf abcd count0 count1]; try done.
  - rewrite Hm, Ha, Hlen. assert (l' = 0%nat) as -> by lia. now rewrite !take_0.
  - rewrite Hm, Ha, Hlen. change 0 with (Z.of_nat 0).
    rewrite <- (Nat.add_0_l l') at 2. rewrite memcpy_at_take by lia. now rewrite take_0.
  - change 0 with (Z.of_nat 0). now rewrite memcpy_at_length by lia.
Qed.

Lemma md5_append_rep st m d (n : nat) :
  md5_rep st m -> (n <= length d)%nat -> Z.of_nat n < 268435456 ->
  exists st', md5_append st d (Z.of_nat n) = Done st' /\ md5_rep st' (m ++ take n d).
Proof.
  intros [Hh Hb Hc0 Hc1] Hn Hn31. unfold md5_append, shift3_ok.
  destruct (Z.leb_spec 0 (Z.of_nat n)); [|lia].
  destruct (Z.leb_spec (8 * Z.of_nat n) 2147483647); [|lia].
  eexists. split; [reflexivity|]. rewrite Hc0, bit_offset.
  destruct (Z.leb_spec (Z.of_nat n) 0) as [Hz|Hz].
  { assert (n = 0%nat) as -> by lia. rewrite take_0, app_nil_r. now split. }
  set (o := (length m mod 64)%nat) in *.
  assert (Ho : (o < 64)%nat) by (apply Nat.mod_upper_bound; lia).
  pose proof (length_take_le d n Hn) as Htn.
  assert (C0 : add32 (u32 (8 * Z.of_nat (length m))) (u32 (Z.shiftl (Z.of_nat n) 3)) =
               u32 (8 * Z.of_nat (length (m ++ take n d)))).
  { rewrite add32_u32, length_app, Htn. f_equal. rewrite Z.shiftl_mul_pow2; lia. }
  assert (C1 : (if add32 (u32 (8 * Z.of_nat (length m))) (u32 (Z.shiftl (Z.of_nat n) 3))
                   <? u32 (Z.shiftl (Z.of_nat n) 3)
                then add32 (add32 (count1 st) (Z.shiftr (Z.of_nat n) 29)) 1
                else add32 (count1 st) (Z.shiftr (Z.of_nat n) 29)) =
               u32 (8 * Z.of_nat (length (m ++ take n d)) / 4294967296)).
  { rewrite add32_u32, Hc1, length_app, Htn. rewrite Z.shiftl_mul_pow2, Z.shiftr_div_pow2 by lia.
    replace (8 * Z.of_nat (length m + n)) with (8 * Z.of_nat (length m) + Z.of_nat n * 2 ^ 3) by lia.
    rewrite count_carry. set (a := 8 * Z.of_nat (length m)).
    replace (Z.of_nat n * 2 ^ 3 / 4294967296) with (Z.of_nat n / 2 ^ 29).
    2: { change 4294967296 with (2 ^ 29 * 2 ^ 3). now rewrite Z.div_mul_cancel_r. }
    destruct (_ <? _); unfold add32, u32; rewrite !Zplus_mod_idemp_l, <- !Z.add_assoc, ?Zplus_mod_idemp_l;
      f_equal; lia. }
  rewrite C1, C0. clear C0 C1.
  assert (Habs : absorb_all md5_process iv (m ++ take n d) =
                 absorb_all md5_process (abcd st) (take o (buf st) ++ take n d)).
  { now rewrite absorb_all_app, Hh. }
  destruct (Z.eqb_spec (Z.of_nat o) 0) as [E|E]; simpl negb; cbv iota zeta.
  - apply append_tail; try done. rewrite Habs. assert (o = 0%nat) as -> by lia. now rewrite take_0.
  - replace (if 64 <? Z.of_nat o + Z.of_nat n then 64 - Z.of_nat o else Z.of_nat n)
      with (Z.of_nat (Nat.min (64 - o) n)) by (destruct (Z.ltb_spec 64 (Z.of_nat o + Z.of_nat n)); lia).
    set (cp := Nat.min (64 - o) n).
    pose proof (memcpy_at_take (buf st) o d cp ltac:(lia) ltac:(lia)) as Htk.
    pose proof (memcpy_at_length (buf st) o d cp ltac:(lia) ltac:(lia)) as Hlk.
    set (b := memcpy_at (buf st) (Z.of_nat o) d (Z.of_nat cp)) in *.
    destruct (Z.ltb_spec (Z.of_nat o + Z.of_nat cp) 64) as [Hs|Hs].
    + assert (cp = n) as Ecp by lia.
      assert (Hmod : (length (m ++ take n d) mod 64)%nat = (o + n)%nat).
      { rewrite length_app, Htn. unfold o. rewrite Nat.Div0.add_mod.
        rewrite (Nat.mod_small n) by lia. apply Nat.mod_small. lia. }
      split; cbn [buf abcd count0 count1]; try done; [|lia].
      rewrite Habs, Hmod, <- Ecp, Htk. apply absorb_all_short.
      rewrite length_app, !length_take. lia.
    + replace (Z.of_nat n - Z.of_nat cp) with (Z.of_nat (n - cp)) by lia.
      apply append_tail; try done; [rewrite length_drop; lia|lia|].
      rewrite Nat2Z.id, Habs.
      assert (Hb64 : b = take o (buf st) ++ take cp d).
      { rewrite <- Htk, take_ge; [done|lia]. }
      rewrite <- (absorb_all_step md5_process (abcd st) b) by lia.
      f_equal. rewrite Hb64, <- app_assoc. f_equal.
      replace (take n d) with (take cp d ++ take (n - cp) (drop cp d)); [done|].
      rewrite take_take_drop. f_equal. lia.
Qed.

(** *** The digest *)
Definition md5_spec (m : list ascii) : list ascii :=
  le_bytes (regs_words (fst (absorb_all md5_process iv (m ++ padding (length m))))).

Lemma take_pad k : (k <= 63)%nat -> take (S k) pad = chr 0x80 :: replicate k NUL.
Proof.
  intros Hk. unfold pad. cbn [take]. now rewrite take_replicate, Nat.min_l.
Qed.

Lemma md5_finish_spec st m : md5_rep st m -> exists st', md5_finish st = Done (st', md5_spec m).
Proof.
  intros Hr. unfold md5_finish. rewrite (rep_count0 _ _ Hr), (rep_count1 _ _ Hr).
  fold (len_bytes (length m)).
  assert (Hk : Z.land (u32 (55 - Z.shiftr (u32 (8 * Z.of_nat (length m))) 3)) 63 + 1 =
               Z.of_nat (S (pad_len (length m)))).
  { unfold pad_len. change 63 with (Z.ones 6). rewrite Z.land_ones by lia.
    rewrite Z.shiftr_div_pow2 by lia. unfold u32. change (2 ^ 3) with 8. change (2 ^ 6) with 64.
    pose proof (Z.mod_pos_bound (55 - Z.of_nat (length m)) 64).
    rewrite Nat2Z.inj_succ, Z2Nat.id by lia. Z.div_mod_to_equations. lia. }
  rewrite Hk. assert (Hp : (pad_len (length m) <= 63)%nat).
  { unfold pad_len. pose proof (Z.mod_pos_bound (55 - Z.of_nat (length m)) 64). lia. }
  destruct (md5_append_rep st m pad (S (pad_len (length m))) Hr ltac:(simpl; lia) ltac:(lia)) as (s1 & -> & H1).
  rewrite take_pad in H1 by done. cbn [obind].
  destruct (md5_append_rep _ _ (len_bytes (length m)) 8 H1 ltac:(simpl; lia) ltac:(lia)) as (s2 & E2 & H2).
  change (Z.of_nat 8) with 8 in E2. rewrite E2. cbn [obind]. eexists. f_equal. f_equal.
  rewrite take_ge in H2 by done. rewrite <- app_assoc in H2.
  change ((chr 128 :: replicate (pad_len (length m)) NUL) ++ len_bytes (length m))
    with (padding (length m)) in H2.
  unfold md5_spec. now rewrite (rep_hash _ _ H2).
Qed.

Lemma md5_chunks_rep chunks : forall st m,
  md5_rep st m -> Forall (fun d => Z.of_nat (length d) < 268435456) chunks ->
  exists st', append_pieces st chunks = Done st' /\ md5_rep st' (m ++ concat chunks).
Proof.
  induction chunks as [|d chunks IH]; intros st m Hr Hc; simpl.
  - exists st. now rewrite app_nil_r.
  - inversion Hc; subst. rewrite app_assoc.
    destruct (md5_append_rep st m d (length d) Hr ltac:(lia) ltac:(done)) as (s1 & -> & Hd).
    rewrite take_ge in Hd by done. now apply IH.
Qed.

Lemma md5_all_spec junk chunks :
  length (buf junk) = 64%nat -> Forall (fun d => Z.of_nat (length d) < 268435456) chunks ->
  md5_all junk chunks = Done (md5_spec (concat chunks)).
Proof.
  intros Hj Hc. unfold md5_all.
  destruct (md5_chunks_rep chunks _ [] (md5_init_rep junk Hj) Hc) as (st & -> & Hst). cbn [obind].
  destruct (md5_finish_spec st _ Hst) as (st' & ->). reflexivity.
Qed.

Definition junk0 : md5_state := MD5 0 0 (Regs 0 0 0 0) (replicate 64 NUL).
Example md5_empty : obind (md5_all junk0 []) (fun d => Done (md52char d)) = Done (lit "d41d8cd98f00b204e9800998ecf8427e").
Proof. vm_compute. reflexivity. Qed.
Example md5_abc : obind (md5_all junk0 [lit "a"; lit "bc"]) (fun d => Done (md52char d)) =
  Done (lit "900150983cd24fb0d6963f7d28e17f72").
Proof. vm_compute. reflexivity. Qed.

(** A piece of [2^28] bytes is more than [int nbytes] can be shifted by three. *)
Example md5_append_large st d : md5_append st d 268435456 = Undef.
Proof. reflexivity. Qed.
End LibuMd5.

Module ShttpdMd5.

(* src: server/shttpd/md5.c 42-42 F1 *)
Definition F1 (x y z : Z) : Z := Z.lxor z (Z.land x (Z.lxor y z)).
(* src: server/shttpd/md5.c 43-43 F2 *)
Definition F2 (x y z : Z) : Z := F1 z x y.
(* src: server/shttpd/md5.c 44-44 F3 *)
Definition F3 (x y z : Z) : Z := Z.lxor (Z.lxor x y) z.
(* src: server/shttpd/md5.c 45-45 F4 *)
Definition F4 (x y z : Z) : Z := Z.lxor y (Z.lor x (not32 z)).

(** [w += f(x, y, z) + data, w = w<<s | w>>(32-s), w += x], with [data = in[k] + constant]. *)
(* src: server/shttpd/md5.c 48-49 MD5STEP *)
Definition MD5STEP (f : Z -> Z -> Z -> Z) (inw : list Z) (st : regs) (i : instr) : regs :=
  let data := add32 (nth (i_k i) inw 0) (i_t i) in
  let w := add32 (rget (i_a i) st)
             (add32 (u32 (f (rget (i_b i) st) (rget (i_c i) st) (rget (i_d i) st))) data) in
  let w := u32 (Z.lor (Z.shiftl w (i_s i)) (Z.shiftr w (32 - i_s i))) in
  rset (i_a i) (add32 w (rget (i_b i) st)) st.

Record MD5_CTX := CTX { c_buf : regs; bits0 : Z; bits1 : Z; c_in : list ascii }.

(** [MD5Init] leaves [in] as it is. *)
(* src: server/shttpd/md5.c 55-64 MD5Init *)
Definition MD5Init (ctx : MD5_CTX) : MD5_CTX :=
  CTX (Regs 0x67452301 0xefcdab89 0x98badcfe 0x10325476) 0 0 (c_in ctx).

(* src: server/shttpd/md5.c 80-95 MD5Transform, steps with F1 *)
Definition steps1 : list instr := [
  Ins RA RB RC RD 0 7 0xd76aa478;
  Ins RD RA RB RC 1 12 0xe8c7b756;
  Ins RC RD RA RB 2 17 0x242070db;
  Ins RB RC RD RA 3 22 0xc1bdceee;
  Ins RA RB RC RD 4 7 0xf57c0faf;
  Ins RD RA RB RC 5 12 0x4787c62a;
  Ins RC RD RA RB 6 17 0xa8304613;
  Ins RB RC RD RA 7 22 0xfd469501;
  Ins RA RB RC RD 8 7 0x698098d8;
  Ins RD RA RB RC 9 12 0x8b44f7af;
  Ins RC RD RA RB 10 17 0xffff5bb1;
  Ins RB RC RD RA 11 22 0x895cd7be;
  Ins RA RB RC RD 12 7 0x6b901122;
  Ins RD RA RB RC 13 12 0xfd987193;
  Ins RC RD RA RB 14 17 0xa679438e;
  Ins RB RC RD RA 15 22 0x49b40821].

(* src: server/shttpd/md5.c 97-112 MD5Transform, steps with F2 *)
Definition steps2 : list instr := [
  Ins RA RB RC RD 1 5 0xf61e2562;
  Ins RD RA RB RC 6 9 0xc040b340;
  Ins RC RD RA RB 11 14 0x265e5a51;
  Ins RB RC RD RA 0 20 0xe9b6c7aa;
  Ins RA RB RC RD 5 5 0xd62f105d;
  Ins RD RA RB RC 10 9 0x02441453;
  Ins RC RD RA RB 15 14 0xd8a1e681;
  Ins RB RC RD RA 4 20 0xe7d3fbc8;
  Ins RA RB RC RD 9 5 0x21e1cde6;
  Ins RD RA RB RC 14 9 0xc33707d6;
  Ins RC RD RA RB 3 14 0xf4d50d87;
  Ins RB RC RD RA 8 20 0x455a14ed;
  Ins RA RB RC RD 13 5 0xa9e3e905;
  Ins RD RA RB RC 2 9 0xfcefa3f8;
  Ins RC RD RA RB 7 14 0x676f02d9;
  Ins RB RC RD RA 12 20 0x8d2a4c8a].

(* src: server/shttpd/md5.c 114-129 MD5Transform, steps with F3 *)
Definition steps3 : list instr := [
  Ins RA RB RC RD 5 4 0xfffa3942;
  Ins RD RA RB RC 8 11 0x8771f681;
  Ins RC RD RA RB 11 16 0x6d9d6122;
  Ins RB RC RD RA 14 23 0xfde5380c;
  Ins RA RB RC RD 1 4 0xa4beea44;
  Ins RD RA RB RC 4 11 0x4bdecfa9;
  Ins RC RD RA RB 7 16 0xf6bb4b60;
  Ins RB RC RD RA 10 23 0xbebfbc70;
  Ins RA RB RC RD 13 4 0x289b7ec6;
  Ins RD RA RB RC 0 11 0xeaa127fa;
  Ins RC RD RA RB 3 16 0xd4ef3085;
  Ins RB RC RD RA 6 23 0x04881d05;
  Ins RA RB RC RD 9 4 0xd9d4d039;
  Ins RD RA RB RC 12 11 0xe6db99e5;
  Ins RC RD RA RB 15 16 0x1fa27cf8;
  Ins RB RC RD RA 2 23 0xc4ac5665].

(* src: server/shttpd/md5.c 131-146 MD5Transform, steps with F4 *)
Definition steps4 : list instr := [
  Ins RA RB RC RD 0 6 0xf4292244;
  Ins RD RA RB RC 7 10 0x432aff97;
  Ins RC RD RA RB 14 15 0xab9423a7;
  Ins RB RC RD RA 5 21 0xfc93a039;
  Ins RA RB RC RD 12 6 0x655b59c3;
  Ins RD RA RB RC 3 10 0x8f0ccc92;
  Ins RC RD RA RB 10 15 0xffeff47d;
  Ins RB RC RD RA 1 21 0x85845dd1;
  Ins RA RB RC RD 8 6 0x6fa87e4f;
  Ins RD RA RB RC 15 10 0xfe2ce6e0;
  Ins RC RD RA RB 6 15 0xa3014314;
  Ins RB RC RD RA 13 21 0x4e0811a1;
  Ins RA RB RC RD 4 6 0xf7537e82;
  Ins RD RA RB RC 11 10 0xbd3af235;
  Ins RC RD RA RB 2 15 0x2ad7d2bb;
  Ins RB RC RD RA 9 21 0xeb86d391].

(* src: server/shttpd/md5.c 71-152 MD5Transform *)
Definition MD5Transform (b : regs) (inb : list ascii) : regs :=
  let inw := words inb in
  let s := foldl (MD5STEP F1 inw) b steps1 in
  let s := foldl (MD5STEP F2 inw) s steps2 in
  let s := foldl (MD5STEP F3 inw) s steps3 in
  let s := foldl (MD5STEP F4 inw) s steps4 in
  Regs (add32 (rg_a b) (rg_a s)) (add32 (rg_b b) (rg_b s))
       (add32 (rg_c b) (rg_c s)) (add32 (rg_d b) (rg_d s)).

Fixpoint chunks64 (fuel : nat) (b : regs) (inb : list ascii) (p : list ascii) (len : Z)
    : regs * list ascii * list ascii * Z :=
  match fuel with
  | O => (b, inb, p, len)
  | S fuel =>
      if 64 <=? len
      then let inb := memcpy_at inb 0 p 64 in
           chunks64 fuel (MD5Transform b inb) inb (drop 64 p) (len - 64)
      else (b, inb, p, len)
  end.

(** [len] is an [unsigned]. *)
(* src: server/shttpd/md5.c 158-201 MD5Update *)
Definition MD5Update (ctx : MD5_CTX) (p : list ascii) (len : Z) : MD5_CTX :=
  let t := bits0 ctx in
  let b0 := add32 t (u32 (Z.shiftl len 3)) in
  let b1 := if b0 <? t then add32 (bits1 ctx) 1 else bits1 ctx in
  let b1 := add32 b1 (Z.shiftr len 29) in
  let t := Z.land (Z.shiftr t 3) 63 in
  let finish h inb p len :=
    let '(h, inb, p, len) := chunks64 (S (Z.to_nat len)) h inb p len in
    CTX h b0 b1 (memcpy_at inb 0 p len) in
  if negb (t =? 0) then
    let t' := 64 - t in
    if len <? t' then CTX (c_buf ctx) b0 b1 (memcpy_at (c_in ctx) t p len)
    else
      let inb := memcpy_at (c_in ctx) t p t' in
      finish (MD5Transform (c_buf ctx) inb) inb (drop (Z.to_nat t') p) (len - t')
  else finish (c_buf ctx) (c_in ctx) p len.

(** The digest and the context left behind.  The last [memset] clears [sizeof(ctx)] bytes, the
    size of a pointer (8), so it reaches the first two words of [buf] only.  The
    [byteReverse] calls are empty on a little-endian machine. *)
(* src: server/shttpd/md5.c 207-247 MD5Final *)
Definition MD5Final (ctx : MD5_CTX) : list ascii * MD5_CTX :=
  let count := Z.land (Z.shiftr (bits0 ctx) 3) 63 in
  let p := count + 1 in
  let inb := memcpy_at (c_in ctx) count [chr 0x80] 1 in
  let count := 64 - 1 - count in
  let '(h, inb) :=
    if count <? 8 then
      let inb := memcpy_at inb p (replicate 64 NUL) count in
      (MD5Transform (c_buf ctx) inb, memcpy_at inb 0 (replicate 64 NUL) 56)
    else (c_buf ctx, memcpy_at inb p (replicate 64 NUL) (count - 8)) in
  let inb := memcpy_at inb 56 (le_bytes [bits0 ctx; bits1 ctx]) 8 in
  let h := MD5Transform h inb in
  (le_bytes (LibuMd5.regs_words h),
   CTX (Regs 0 0 (rg_c h) (rg_d h)) (bits0 ctx) (bits1 ctx) inb).

Definition md5_all (junk : MD5_CTX) (chunks : list (list ascii)) : list ascii :=
  fst (MD5Final (foldl (fun st d => MD5Update st d (Z.of_nat (length d))) (MD5Init junk) chunks)).

Example md5_abc_shttpd : LibuMd5.md52char
    (md5_all (CTX (Regs 0 0 0 0) 0 0 (replicate 64 NUL)) [lit "a"; lit "bc"]) =
  lit "900150983cd24fb0d6963f7d28e17f72".
Proof. vm_compute. reflexivity. Qed.
(** *** The state after some bytes have been appended *)
Definition iv : regs := c_buf (MD5Init (CTX (Regs 0 0 0 0) 0 0 [])).

Record ctx_rep (c : MD5_CTX) (m : list ascii) : Prop := {
  crep_hash : absorb_all MD5Transform iv m = (c_buf c, take (length m mod 64) (c_in c));
  crep_in : length (c_in c) = 64%nat;
  crep_bits0 : bits0 c = u32 (8 * Z.of_nat (length m));
  crep_bits1 : bits1 c = u32 (8 * Z.of_nat (length m) / 4294967296);
}.

Lemma MD5Init_rep junk : length (c_in junk) = 64%nat -> ctx_rep (MD5Init junk) [].
Proof. intros H. split; done. Qed.

Lemma chunks64_spec nleft : forall fuel h b p,
  (nleft <= length p)%nat -> (nleft < fuel)%nat -> length b = 64%nat ->
  exists h' b' p' (l' : nat), chunks64 fuel h b p (Z.of_nat nleft) = (h', b', p', Z.of_nat l') /\
    absorb_all MD5Transform h (take nleft p) = (h', take l' p') /\
    (l' <= length p')%nat /\ (l' < 64)%nat /\ length b' = 64%nat.
Proof.
  induction nleft as [n IH] using lt_wf_ind; intros [|fuel] h b p Hp Hf Hb; [lia|].
  cbn [chunks64]. destruct (Z.leb_spec 64 (Z.of_nat n)) as [Hn|Hn].
  - replace (Z.of_nat n - 64) with (Z.of_nat (n - 64)) by lia.
    pose proof (memcpy_at_length b 0 p 64 ltac:(lia) ltac:(lia)) as Hbl.
    pose proof (memcpy_at_take b 0 p 64 ltac:(lia) ltac:(lia)) as Hbt.
    change (Z.of_nat 0) with 0 in *. change (Z.of_nat 64) with 64 in *.
    rewrite take_0, take_ge in Hbt by lia. simpl app in Hbt. rewrite Hbt.
    destruct (IH (n - 64)%nat ltac:(lia) fuel (MD5Transform h (take 64 p)) (take 64 p) (drop 64 p))
      as (h' & b' & p' & l' & E & Ha & Hl); [rewrite length_drop; lia|lia|rewrite length_take; lia|].
    exists h', b', p', l'. split; [done|]. split; [|done].
    rewrite <- Ha. replace (take n p) with (take 64 p ++ take (n - 64) (drop 64 p)).
    + apply absorb_all_step. rewrite length_take. lia.
    + rewrite take_take_drop. f_equal. lia.
  - exists h, b, p, n. rewrite absorb_all_short by (rewrite length_take; lia). auto with lia.
Qed.

Lemma update_tail b0 b1 h b p nleft (m : list ascii) :
  (nleft <= length p)%nat -> length b = 64%nat ->
  absorb_all MD5Transform iv m = absorb_all MD5Transform h (take nleft p) ->
  b0 = u32 (8 * Z.of_nat (length m)) -> b1 = u32 (8 * Z.of_nat (length m) / 4294967296) ->
  ctx_rep (let '(h, inb, p, len) := chunks64 (S (Z.to_nat (Z.of_nat nleft))) h b p (Z.of_nat nleft) in
           CTX h b0 b1 (memcpy_at inb 0 p len)) m.
Proof.
  intros Hp Hb Hm -> ->.
  destruct (chunks64_spec nleft (S (Z.to_nat (Z.of_nat nleft))) h b p)
    as (h' & b' & p' & l' & -> & Ha & Hl & Hl64 & Hb'); [done|lia|done|].
  assert (Hlen : (length m mod 64)%nat = l').
  { rewrite <- (absorb_all_rest MD5Transform m iv), Hm, Ha. simpl. rewrite length_take. lia. }
  change 0 with (Z.of_nat 0) at 1.
  split; cbn [c_buf c_in bits0 bits1]; try done.
  - rewrite Hm, Ha, Hlen. change 0 with (Z.of_nat 0).
    rewrite <- (Nat.add_0_l l') at 2. rewrite memcpy_at_take by lia. now rewrite take_0.
  - change 0 with (Z.of_nat 0). now rewrite memcpy_at_length by lia.
Qed.

Lemma MD5Update_rep c m d :
  ctx_rep c m -> Z.of_nat (length d) < 4294967296 ->
  ctx_rep (MD5Update c d (Z.of_nat (length d))) (m ++ d).
Proof.
  intros [Hh Hb Hc0 Hc1] Hn. unfold MD5Update. rewrite Hc0, bit_offset.
  set (n := length d) in *. set (o := (length m mod 64)%nat) in *.
  assert (Ho : (o < 64)%nat) by (apply Nat.mod_upper_bound; lia).
  assert (C0 : add32 (u32 (8 * Z.of_nat (length m))) (u32 (Z.shiftl (Z.of_nat n) 3)) =
               u32 (8 * Z.of_nat (length (m ++ d)))).
  { rewrite add32_u32, length_app. f_equal. rewrite Z.shiftl_mul_pow2; lia. }
  assert (C1 : add32 (if add32 (u32 (8 * Z.of_nat (length m))) (u32 (Z.shiftl (Z.of_nat n) 3))
                         <? u32 (8 * Z.of_nat (length m))
                      then add32 (bits1 c) 1 else bits1 c) (Z.shiftr (Z.of_nat n) 29) =
               u32 (8 * Z.of_nat (length (m ++ d)) / 4294967296)).
  { rewrite add32_u32, Hc1, length_app. fold n. rewrite Z.shiftl_mul_pow2, Z.shiftr_div_pow2 by lia.
    replace (8 * Z.of_nat (length m + n)) with (Z.of_nat n * 2 ^ 3 + 8 * Z.of_nat (length m)) by lia.
    rewrite count_carry, (Z.add_comm (8 * Z.of_nat (length m))). set (a := 8 * Z.of_nat (length m)).
    replace (Z.of_nat n * 2 ^ 3 / 4294967296) with (Z.of_nat n / 2 ^ 29).
    2: { change 4294967296 with (2 ^ 29 * 2 ^ 3). now rewrite Z.div_mul_cancel_r. }
    destruct (_ <? _); unfold add32, u32; rewrite ?Zplus_mod_idemp_l, <- ?Z.add_assoc, ?Zplus_mod_idemp_l;
      f_equal; lia. }
  rewrite C1, C0. clear C0 C1.
  assert (Habs : absorb_all MD5Transform iv (m ++ d) =
                 absorb_all MD5Transform (c_buf c) (take o (c_in c) ++ d)).
  { now rewrite absorb_all_app, Hh. }
  destruct (Z.eqb_spec (Z.of_nat o) 0) as [E|E]; simpl negb; cbv iota zeta.
  - apply update_tail; try done. rewrite Habs, (take_ge d n) by done.
    assert (o = 0%nat) as -> by lia. now rewrite take_0.
  - destruct (Z.ltb_spec (Z.of_nat n) (64 - Z.of_nat o)) as [Hs|Hs].
    + assert (Hmod : (length (m ++ d) mod 64)%nat = (o + n)%nat).
      { rewrite length_app. fold n. unfold o. rewrite Nat.Div0.add_mod.
        rewrite (Nat.mod_small n) by lia. apply Nat.mod_small. lia. }
      pose proof (memcpy_at_take (c_in c) o d n ltac:(lia) ltac:(lia)) as Htk.
      split; cbn [c_buf c_in bits0 bits1]; try done; [|now rewrite memcpy_at_length by lia].
      rewrite Habs, Hmod, Htk, (take_ge d n) by done. apply absorb_all_short.
      rewrite length_app, length_take. lia.
    + replace (64 - Z.of_nat o) with (Z.of_nat (64 - o)) by lia. set (cp := (64 - o)%nat) in *.
      pose proof (memcpy_at_take (c_in c) o d cp ltac:(lia) ltac:(lia)) as Htk.
      pose proof (memcpy_at_length (c_in c) o d cp ltac:(lia) ltac:(lia)) as Hlk.
      set (b := memcpy_at (c_in c) (Z.of_nat o) d (Z.of_nat cp)) in *.
      replace (Z.of_nat n - Z.of_nat cp) with (Z.of_nat (n - cp)) by lia.
      apply update_tail; try done; [rewrite length_drop; lia|lia|].
      rewrite Nat2Z.id, Habs.
      assert (Hb64 : b = take o (c_in c) ++ take cp d).
      { rewrite <- Htk, take_ge; [done|lia]. }
      rewrite <- (absorb_all_step MD5Transform (c_buf c) b) by lia.
      f_equal. rewrite Hb64, <- app_assoc. f_equal.
      rewrite (take_ge (drop cp d)) by (rewrite length_drop; lia). now rewrite take_drop.
Qed.

Lemma MD5Update_chunks_rep chunks : forall c m,
  ctx_rep c m -> Forall (fun d => Z.of_nat (length d) < 4294967296) chunks ->
  ctx_rep (foldl (fun c d => MD5Update c d (Z.of_nat (length d))) c chunks) (m ++ concat chunks).
Proof.
  induction chunks as [|d chunks IH]; intros c m Hr Hc; simpl.
  - now rewrite app_nil_r.
  - inversion Hc; subst. rewrite app_assoc. apply IH; [|done]. now apply MD5Update_rep.
Qed.
(** *** The digest *)
Lemma pad_len_eq n : pad_len n = (if (Nat.modulo n 64 <? 56)%nat then 55 - Nat.modulo n 64
                                  else 119 - Nat.modulo n 64)%nat.
Proof.
  unfold pad_len. pose proof (Nat.mod_upper_bound n 64 ltac:(lia)).
  assert (E : (55 - Z.of_nat n) mod 64 = (55 - Z.of_nat (Nat.modulo n 64)) mod 64).
  { rewrite Nat2Z.inj_mod. change (Z.of_nat 64) with 64. now rewrite Zminus_mod_idemp_r. }
  rewrite E. destruct (Nat.ltb_spec (Nat.modulo n 64) 56).
  - rewrite Z.mod_small by lia. lia.
  - rewrite <- (Z.mod_add _ 1) by lia. rewrite Z.mod_small by lia. lia.
Qed.

Lemma zeros_take k : (k <= 64)%nat -> take k (replicate 64 NUL) = replicate k NUL.
Proof. intros Hk. now rewrite take_replicate, Nat.min_l. Qed.

Lemma MD5Final_spec c m : ctx_rep c m ->
  fst (MD5Final c) =
  le_bytes (LibuMd5.regs_words (fst (absorb_all MD5Transform iv (m ++ padding (length m))))).
Proof.
  intros [Hh Hb Hc0 Hc1]. rewrite absorb_all_app, Hh. unfold MD5Final.
  rewrite Hc0, Hc1, bit_offset. fold (len_bytes (length m)). unfold padding. rewrite pad_len_eq.
  set (lb := len_bytes (length m)). assert (Hlb : length lb = 8%nat) by apply len_bytes_length.
  set (o := Nat.modulo (length m) 64) in *.
  assert (Ho : (o < 64)%nat) by (apply Nat.mod_upper_bound; lia).
  pose proof (memcpy_at_take (c_in c) o [chr 128] 1 ltac:(lia) ltac:(simpl; lia)) as T1.
  pose proof (memcpy_at_length (c_in c) o [chr 128] 1 ltac:(lia) ltac:(simpl; lia)) as L1.
  change (Z.of_nat 1) with 1 in *. set (b1 := memcpy_at (c_in c) (Z.of_nat o) [chr 128] 1) in *.
  replace (Z.of_nat o + 1) with (Z.of_nat (o + 1)) by lia.
  assert (Hz : length (replicate 64 NUL) = 64%nat) by apply length_replicate.
  destruct (Nat.ltb_spec o 56) as [H56|H56].
  - destruct (Z.ltb_spec (64 - 1 - Z.of_nat o) 8); [lia|].
    replace (64 - 1 - Z.of_nat o - 8) with (Z.of_nat (55 - o)) by lia.
    pose proof (memcpy_at_take b1 (o + 1) (replicate 64 NUL) (55 - o) ltac:(lia) ltac:(lia)) as T2.
    pose proof (memcpy_at_length b1 (o + 1) (replicate 64 NUL) (55 - o) ltac:(lia) ltac:(lia)) as L2.
    set (b2 := memcpy_at b1 _ _ _) in *.
    pose proof (memcpy_at_take b2 56 lb 8 ltac:(lia) ltac:(lia)) as T3.
    pose proof (memcpy_at_length b2 56 lb 8 ltac:(lia) ltac:(lia)) as L3.
    change (Z.of_nat 56) with 56 in *. change (Z.of_nat 8) with 8 in *.
    set (b3 := memcpy_at b2 56 lb 8) in *. cbn [fst].
    rewrite T1, zeros_take in T2 by lia. replace (o + 1 + (55 - o))%nat with 56%nat in T2 by lia.
    change (56 + 8)%nat with 64%nat in T3.
    rewrite (take_ge lb), (take_ge b3), T2 in T3 by lia. simpl take in T3.
    replace (take o (c_in c) ++ _) with (b3 ++ []).
    2: { rewrite app_nil_r, T3, <- !app_assoc. done. }
    rewrite absorb_all_step by lia. now rewrite absorb_all_short by (simpl; lia).
  - destruct (Z.ltb_spec (64 - 1 - Z.of_nat o) 8); [|lia].
    replace (64 - 1 - Z.of_nat o) with (Z.of_nat (63 - o)) by lia.
    pose proof (memcpy_at_take b1 (o + 1) (replicate 64 NUL) (63 - o) ltac:(lia) ltac:(lia)) as T2.
    pose proof (memcpy_at_length b1 (o + 1) (replicate 64 NUL) (63 - o) ltac:(lia) ltac:(lia)) as L2.
    set (b2 := memcpy_at b1 _ _ _) in *.
    pose proof (memcpy_at_take b2 0 (replicate 64 NUL) 56 ltac:(lia) ltac:(lia)) as T3.
    pose proof (memcpy_at_length b2 0 (replicate 64 NUL) 56 ltac:(lia) ltac:(lia)) as L3.
    change (Z.of_nat 0) with 0 in *. change (Z.of_nat 56) with 56 in *.
    set (b3 := memcpy_at b2 0 _ 56) in *.
    pose proof (memcpy_at_take b3 56 lb 8 ltac:(lia) ltac:(lia)) as T4.
    pose proof (memcpy_at_length b3 56 lb 8 ltac:(lia) ltac:(lia)) as L4.
    change (Z.of_nat 56) with 56 in *. change (Z.of_nat 8) with 8 in *.
    set (b4 := memcpy_at b3 56 lb 8) in *. cbn [fst].
    rewrite T1, zeros_take, take_ge in T2 by lia.
    change (0 + 56)%nat with 56%nat in T3. rewrite zeros_take in T3 by lia.
    change (56 + 8)%nat with 64%nat in T4. rewrite (take_ge lb), (take_ge b4), T3 in T4 by lia.
    replace (take o (c_in c) ++ _) with (b2 ++ b4 ++ []).
    2: { rewrite app_nil_r, T2, T4, take_0. replace (119 - o)%nat with ((63 - o) + 56)%nat by lia.
         rewrite replicate_add, <- !app_assoc. done. }
    rewrite !absorb_all_step by lia. now rewrite absorb_all_short by (simpl; lia).
Qed.
End ShttpdMd5.

(** ** The two implementations compute the same function *)
Definition word_ok (x : Z) : Prop := 0 <= x < 2 ^ 32.
Definition regs_ok (s : regs) : Prop :=
  word_ok (rg_a s) /\ word_ok (rg_b s) /\ word_ok (rg_c s) /\ word_ok (rg_d s).

Lemma add32_ok x y : word_ok (add32 x y).
Proof. apply u32_range. Qed.
Lemma rget_ok r s : regs_ok s -> word_ok (rget r s).
Proof. intros (? & ? & ? & ?). now destruct r. Qed.
Lemma rset_ok r v s : word_ok v -> regs_ok s -> regs_ok (rset r v s).
Proof. intros Hv (? & ? & ? & ?). now destruct r. Qed.
#[local] Hint Resolve add32_ok rget_ok rset_ok : lms.

Lemma word_testbit x i : word_ok x -> 32 <= i -> Z.testbit x i = false.
Proof.
  intros H Hi. unfold word_ok in H. rewrite <- (Z.mod_small x (2 ^ 32)) by done.
  now apply Z.mod_pow2_bits_high.
Qed.
(** Bit-wise equality of two round functions on words. *)
Ltac by_bits :=
  apply Z.bits_inj'; let i := fresh "i" in intros i ?;
  unfold not32, T_MASK; change 0xffffffff with (Z.ones 32);
  repeat rewrite ?Z.lor_spec, ?Z.land_spec, ?Z.lxor_spec;
  rewrite ?Z.testbit_ones_nonneg by lia;
  destruct (Z.ltb_spec i 32);
  [ repeat match goal with |- context [Z.testbit ?x i] => destruct (Z.testbit x i) end; done
  | rewrite ?(word_testbit _ i) by (done || lia); try done ].

Lemma F_F1 x y z : word_ok x -> word_ok y -> word_ok z -> LibuMd5.F x y z = ShttpdMd5.F1 x y z.
Proof. intros. unfold LibuMd5.F, ShttpdMd5.F1. by_bits. Qed.
Lemma G_F2 x y z : word_ok x -> word_ok y -> word_ok z -> LibuMd5.G x y z = ShttpdMd5.F2 x y z.
Proof. intros. unfold LibuMd5.G, ShttpdMd5.F2, ShttpdMd5.F1. by_bits. Qed.
Lemma H_F3 x y z : LibuMd5.H x y z = ShttpdMd5.F3 x y z.
Proof. reflexivity. Qed.
Lemma I_F4 x y z : LibuMd5.I x y z = ShttpdMd5.F4 x y z.
Proof. reflexivity. Qed.

Section steps.
Context (f g : Z -> Z -> Z -> Z).
Hypothesis f_g : forall x y z, word_ok x -> word_ok y -> word_ok z -> f x y z = g x y z.

Lemma SET_MD5STEP X s i : regs_ok s -> LibuMd5.SET f X s i = ShttpdMd5.MD5STEP g X s i.
Proof.
  intros Hs. unfold LibuMd5.SET, ShttpdMd5.MD5STEP. rewrite f_g by auto with lms.
  unfold ROTATE_LEFT.
  now rewrite !add32_assoc.
Qed.
Lemma SET_ok X s i : regs_ok s -> regs_ok (LibuMd5.SET f X s i).
Proof. intros Hs. unfold LibuMd5.SET. auto with lms. Qed.

Lemma foldl_SET X l : forall s, regs_ok s ->
  foldl (LibuMd5.SET f X) s l = foldl (ShttpdMd5.MD5STEP g X) s l /\
  regs_ok (foldl (LibuMd5.SET f X) s l).
Proof.
  induction l as [|i l IH]; intros s Hs; [done|]. simpl.
  rewrite <- SET_MD5STEP by done. apply IH. now apply SET_ok.
Qed.
End steps.

Lemma process_Transform h b : regs_ok h ->
  LibuMd5.md5_process h b = ShttpdMd5.MD5Transform h b /\ regs_ok (LibuMd5.md5_process h b).
Proof.
  intros Hh. unfold LibuMd5.md5_process, ShttpdMd5.MD5Transform.
  change LibuMd5.round1 with ShttpdMd5.steps1. change LibuMd5.round2 with ShttpdMd5.steps2.
  change LibuMd5.round3 with ShttpdMd5.steps3. change LibuMd5.round4 with ShttpdMd5.steps4.
  destruct (foldl_SET _ _ F_F1 (words b) ShttpdMd5.steps1 h Hh) as [<- H1].
  destruct (foldl_SET _ _ G_F2 (words b) ShttpdMd5.steps2 _ H1) as [<- H2].
  destruct (foldl_SET _ _ (fun x y z _ _ _ => H_F3 x y z) (words b) ShttpdMd5.steps3 _ H2) as [<- H3].
  destruct (foldl_SET _ _ (fun x y z _ _ _ => I_F4 x y z) (words b) ShttpdMd5.steps4 _ H3) as [<- H4].
  split; [done|]. repeat split; apply u32_range.
Qed.

Lemma absorb_Transform m : forall h, regs_ok h ->
  absorb_all LibuMd5.md5_process h m = absorb_all ShttpdMd5.MD5Transform h m.
Proof.
  induction m as [m Hm|b m Hb IH] using blocks_ind; intros h Hh.
  - now rewrite !absorb_all_short.
  - destruct (process_Transform h b Hh) as [E Hok].
    rewrite (absorb_all_step LibuMd5.md5_process h b m Hb).
    rewrite (absorb_all_step ShttpdMd5.MD5Transform h b m Hb), <- E. auto.
Qed.

(** ** Properties *)

(** Streaming: the digest that [md5_init], any sequence of [md5_append] of pieces of less than
    [2^28] bytes and [md5_finish] compute is the block-by-block hash of the padded concatenation
    of the pieces; how the message is cut, and what the uninitialised buffer held, do not matter. *)
Theorem libu_md5_streaming (junk : LibuMd5.md5_state) (chunks : list (list ascii)) :
  length (LibuMd5.buf junk) = 64%nat ->
  Forall (fun d => Z.of_nat (length d) < 268435456) chunks ->
  LibuMd5.md5_all junk chunks = Done (LibuMd5.md5_spec (concat chunks)).
Proof. exact (LibuMd5.md5_all_spec junk chunks). Qed.

Lemma libu_md5_streaming_witness :
  LibuMd5.md5_all LibuMd5.junk0 [lit "a"; []; lit "bc"] = Done (LibuMd5.md5_spec (lit "abc")).
Proof. apply (libu_md5_streaming LibuMd5.junk0 [lit "a"; []; lit "bc"]); repeat constructor. Defined.

(** C40. The MD5 of the web server (digest authentication) and the MD5 of libu compute the same
    digest of the same bytes, although they use different formulas, different carry tests and
    different buffering, whatever pieces the bytes are cut into and whatever the buffers of 64
    bytes held before, as long as every piece that libu is given is shorter than 2^28 bytes (its
    length is an int that is shifted left by three) and every piece that the web server is given
    is shorter than 2^32 bytes; the computation of libu is then defined. *)
Theorem md5_implementations_agree (junk : LibuMd5.md5_state) (junk' : ShttpdMd5.MD5_CTX)
    (chunks chunks' : list (list ascii)) :
  length (LibuMd5.buf junk) = 64%nat -> length (ShttpdMd5.c_in junk') = 64%nat ->
  Forall (fun d => Z.of_nat (length d) < 268435456) chunks ->
  Forall (fun d => Z.of_nat (length d) < 4294967296) chunks' ->
  concat chunks = concat chunks' ->
  LibuMd5.md5_all junk chunks = Done (ShttpdMd5.md5_all junk' chunks').
Proof.
  intros Hj Hj' Hc Hc' E. rewrite (LibuMd5.md5_all_spec junk chunks Hj Hc).
  unfold ShttpdMd5.md5_all.
  rewrite (ShttpdMd5.MD5Final_spec _ (concat chunks')).
  2: { apply (ShttpdMd5.MD5Update_chunks_rep chunks' _ []); [now apply ShttpdMd5.MD5Init_rep|done]. }
  unfold LibuMd5.md5_spec. rewrite E. change LibuMd5.iv with ShttpdMd5.iv.
  rewrite absorb_Transform; [done|]. repeat split; unfold word_ok; simpl; lia.
Qed.

Definition ctx0 : ShttpdMd5.MD5_CTX := ShttpdMd5.CTX (Regs 0 0 0 0) 0 0 (replicate 64 NUL).
Lemma md5_implementations_agree_witness :
  LibuMd5.md5_all LibuMd5.junk0 [lit "user:realm"; lit ":pw"] =
  Done (ShttpdMd5.md5_all ctx0 [lit "user"; lit ":"; lit "realm:pw"]).
Proof. apply md5_implementations_agree; try reflexivity; repeat constructor. Defined.

(** [MD5Final] means to wipe the context but clears the size of a pointer: the bytes of the
    message that are in [in] and half of the hash state survive it. *)
Theorem md5_final_keeps_input (c : ShttpdMd5.MD5_CTX) (m : list ascii) :
  ShttpdMd5.ctx_rep c m -> (length m < 56)%nat ->
  let c' := snd (ShttpdMd5.MD5Final c) in
  take (length m) (ShttpdMd5.c_in c') = m /\
  rg_a (ShttpdMd5.c_buf c') = 0 /\ rg_b (ShttpdMd5.c_buf c') = 0.
Proof.
  intros [Hh Hin Hb0 Hb1] Hm. cbv zeta. unfold ShttpdMd5.MD5Final.
  rewrite Hb0, Hb1, bit_offset, Nat.mod_small by lia.
  rewrite absorb_all_short, Nat.mod_small in Hh by lia. injection Hh as _ Hin'.
  set (o := length m) in *.
  destruct (Z.ltb_spec (64 - 1 - Z.of_nat o) 8); [lia|]. cbn [snd ShttpdMd5.c_in ShttpdMd5.c_buf rg_a rg_b].
  split; [|done].
  replace (Z.of_nat o + 1) with (Z.of_nat (o + 1)) by lia.
  replace (64 - 1 - Z.of_nat o - 8) with (Z.of_nat (55 - o)) by lia.
  change 56 with (Z.of_nat 56). change 1 with (Z.of_nat 1).
  pose proof (memcpy_at_length (ShttpdMd5.c_in c) o [chr 128] 1 ltac:(lia) ltac:(simpl; lia)) as L1.
  set (b1 := memcpy_at (ShttpdMd5.c_in c) _ _ _) in *.
  pose proof (memcpy_at_length b1 (o + 1) (replicate 64 NUL) (55 - o)
    ltac:(lia) ltac:(rewrite length_replicate; lia)) as L2.
  rewrite memcpy_at_take_le by lia. rewrite memcpy_at_take_le by lia.
  unfold b1. now rewrite memcpy_at_take_le by lia.
Qed.

Lemma md5_final_keeps_input_witness :
  let c' := snd (ShttpdMd5.MD5Final
              (ShttpdMd5.MD5Update (ShttpdMd5.MD5Init ctx0) (lit "secret") 6)) in
  take 6 (ShttpdMd5.c_in c') = lit "secret" /\
  rg_a (ShttpdMd5.c_buf c') = 0 /\ rg_b (ShttpdMd5.c_buf c') = 0.
Proof.
  apply (md5_final_keeps_input _ (lit "secret")); [|simpl; lia].
  apply (ShttpdMd5.MD5Update_rep _ [] (lit "secret")); [|reflexivity].
  apply ShttpdMd5.MD5Init_rep. reflexivity.
Defined.
