(* ===== verification/KazList.v ===== *)
(** * KazList: the doubly linked lists of libu (lib/u/list.c)

    The lists are circular: [nilnode], the first member of [list_t], closes the ring,
    so the address of a list is the address of its [nilnode].  The store maps
    addresses to nodes and to list headers; every pointer the code follows is looked
    up there, and a NULL or dangling pointer is [Undef].  A loop over a list gets one
    round more than the store has nodes, so that it only runs out of fuel in a store
    where the C loop runs for ever. *)
From S2P Require Import Prelude.

Abbreviation loc := positive.
Abbreviation ptr := (option positive).

Create HintDb store.
Create Rewrite HintDb store.

Module KazList.
Section KazList.
Context {D : Type}.
(** [malloc_ok n]: the outcome of the [n]-th allocation. *)
Context (malloc_ok : nat -> bool).

(** ** The store *)
(* src: src/CIM_Framework/openwsman/include/u/list.h 44-52 lnode_t *)
Record lnode := Node { n_next : ptr; n_prev : ptr; n_data : option D }.
(* src: src/CIM_Framework/openwsman/include/u/list.h 64-72 list_t *)
Record lhdr := Hdr { nodecount : Z; maxcount : Z }.
(** [tick] counts the allocations and [freed] logs the data given to [u_free]. *)
Record store := Store {
  nodes : gmap loc lnode;
  hdrs : gmap loc lhdr;
  tick : nat;
  freed : list D }.

Definition set_nodes (h : store) m := Store m (hdrs h) (tick h) (freed h).
Definition set_hdrs (h : store) m := Store (nodes h) m (tick h) (freed h).

(** Computations on the store. *)
Abbreviation M := (CM store).
Definition addr_of (p : ptr) : M loc :=
  match p with Some a => mret a | None => mundef end.
Definition get_node (p : ptr) : M lnode := fun h =>
  match p ≫= (nodes h !!.) with Some n => Done (n, h) | None => Undef end.
Definition put_node (a : loc) (n : lnode) : M unit := fun h =>
  Done (tt, set_nodes h (<[a := n]> (nodes h))).
Definition mod_node (p : ptr) (f : lnode -> lnode) : M unit :=
  n ← get_node p; a ← addr_of p; put_node a (f n).
Definition set_next (p q : ptr) : M unit := mod_node p (fun n => Node q (n_prev n) (n_data n)).
Definition set_prev (p q : ptr) : M unit := mod_node p (fun n => Node (n_next n) q (n_data n)).
Definition next (p : ptr) : M ptr := n ← get_node p; mret (n_next n).
Definition prev (p : ptr) : M ptr := n ← get_node p; mret (n_prev n).
Definition get_hdr (l : ptr) : M lhdr := fun h =>
  match l ≫= (hdrs h !!.) with Some n => Done (n, h) | None => Undef end.
Definition set_count (l : ptr) (f : Z -> Z) : M unit := fun h =>
  match l with
  | Some a => match hdrs h !! a with
      | Some hd => Done (tt, set_hdrs h (<[a := Hdr (f (nodecount hd)) (maxcount hd)]> (hdrs h)))
      | None => Undef
      end
  | None => Undef
  end.
(** [malloc]: a fresh cell, or NULL; the block's contents are indeterminate. *)
Definition malloc_node : M ptr := fun h =>
  if malloc_ok (tick h) then
    let a := fresh (dom (nodes h) : gset loc) in
    Done (Some a, Store (<[a := Node None None None]> (nodes h)) (hdrs h) (S (tick h)) (freed h))
  else Done (None, Store (nodes h) (hdrs h) (S (tick h)) (freed h)).
Definition free_node (p : ptr) : M unit := fun h =>
  match p with
  | Some a => match nodes h !! a with
      | Some _ => Done (tt, Store (delete a (nodes h)) (delete a (hdrs h)) (tick h) (freed h))
      | None => Undef
      end
  | None => Done (tt, h)
  end.
Definition u_free_data (d : option D) : M unit := fun h =>
  match d with
  | Some x => Done (tt, Store (nodes h) (hdrs h) (tick h) (freed h ++ [x]))
  | None => Undef
  end.
Definition put_hdr (a : loc) (hd : lhdr) : M unit := fun h =>
  Done (tt, set_hdrs h (<[a := hd]> (hdrs h))).
Definition bound (h : store) : nat := S (size (nodes h)).
Definition bounded {A} (f : nat -> M A) : M A := fun h => f (bound h) h.
(** A local variable of type [list_t]. *)
Definition stack_list : M ptr := fun h =>
  let a := fresh (dom (nodes h) : gset loc) in
  Done (Some a, set_nodes h (<[a := Node None None None]> (nodes h))).

Implicit Types (h : store) (l a b : loc) (ns : list loc).

(** ** The operations *)
(* src: lib/u/list.c 55-63 list_init *)
Definition list_init (list : ptr) (mc : Z) : M ptr :=
  massert (negb (mc =? 0));;
  a ← addr_of list;
  set_next list (Some a);; set_prev list (Some a);;
  put_hdr a (Hdr 0 mc);;
  mret list.

(* src: lib/u/list.c 71-82 list_create *)
Definition list_create (mc : Z) : M ptr :=
  new ← malloc_node;
  match new with
  | None => mret None
  | Some a =>
      massert (negb (mc =? 0));;
      set_next new new;; set_prev new new;;
      put_hdr a (Hdr 0 mc);;
      mret new
  end.

(* src: lib/u/list.c 463-469 ow_list_isempty *)
Definition ow_list_isempty (list : ptr) : M bool :=
  match list with
  | None => mret true
  | Some _ => hd ← get_hdr list; mret (nodecount hd =? 0)
  end.

(* src: lib/u/list.c 476-482 ow_list_isfull *)
Definition ow_list_isfull (list : ptr) : M bool :=
  match list with
  | None => mret false
  | Some _ => hd ← get_hdr list; mret (nodecount hd =? maxcount hd)
  end.

(* src: lib/u/list.c 533-536 ow_list_count *)
Definition ow_list_count (list : ptr) : M Z := hd ← get_hdr list; mret (nodecount hd).

(* src: lib/u/list.c 89-93 list_destroy *)
Definition list_destroy (list : ptr) : M unit :=
  e ← ow_list_isempty list; massert e;; free_node list.

(* src: lib/u/list.c 606-609 lnode_is_in_a_list *)
Definition lnode_is_in_a_list (lnode : ptr) : M bool :=
  n ← get_node lnode; mret (bool_decide (n_next n <> None) || bool_decide (n_prev n <> None)).

(* src: lib/u/list.c 258-262 lnode_destroy *)
Definition lnode_destroy (lnode : ptr) : M unit :=
  b ← lnode_is_in_a_list lnode; massert (negb b);; free_node lnode.

(* src: lib/u/list.c 105-112 list_destroy_nodes *)
Fixpoint destroy_loop (list : ptr) (fuel : nat) (lnode : ptr) : M unit :=
  if bool_decide (lnode = list) then mret tt else
  match fuel with
  | O => mdiverge
  | S fuel =>
      tmp ← next lnode;
      set_next lnode None;; set_prev lnode None;;
      n ← get_node lnode; u_free_data (n_data n);;
      lnode_destroy lnode;;
      destroy_loop list fuel tmp
  end.
(* src: lib/u/list.c 101-115 list_destroy_nodes *)
Definition list_destroy_nodes (list : ptr) : M ptr :=
  first ← next list;
  bounded (fun fuel => destroy_loop list fuel first);;
  hd ← get_hdr list;
  list_init list (maxcount hd).

(* src: lib/u/list.c 274-277 list_contains *)
Fixpoint list_contains_from (fuel : nat) (list node n : ptr) : M bool :=
  if bool_decide (n = list) then mret false else
  match fuel with
  | O => mdiverge
  | S fuel =>
      if bool_decide (node = n) then mret true
      else n' ← next n; list_contains_from fuel list node n'
  end.
(* src: lib/u/list.c 270-280 list_contains *)
Definition list_contains (list node : ptr) : M bool :=
  n ← next list; bounded (fun fuel => list_contains_from fuel list node n).

(* src: lib/u/list.c 122-139 list_ins_after *)
Definition list_ins_after (list new this : ptr) : M unit :=
  that ← next this;
  massert (bool_decide (new <> None));;
  c ← list_contains list new; massert (negb c);;
  i ← lnode_is_in_a_list new; massert (negb i);;
  (if bool_decide (this = list) then mret tt
   else c ← list_contains list this; massert c);;
  hd ← get_hdr list; massert (nodecount hd <? u64 (nodecount hd + 1));;
  set_prev new this;;
  set_next new that;;
  set_prev that new;;
  set_next this new;;
  set_count list (fun c => u64 (c + 1));;
  hd ← get_hdr list; massert (nodecount hd <=? maxcount hd).

(* src: lib/u/list.c 145-162 list_ins_before *)
Definition list_ins_before (list new this : ptr) : M unit :=
  that ← prev this;
  massert (bool_decide (new <> None));;
  c ← list_contains list new; massert (negb c);;
  i ← lnode_is_in_a_list new; massert (negb i);;
  (if bool_decide (this = list) then mret tt
   else c ← list_contains list this; massert c);;
  hd ← get_hdr list; massert (nodecount hd <? u64 (nodecount hd + 1));;
  set_next new this;;
  set_prev new that;;
  set_next that new;;
  set_prev this new;;
  set_count list (fun c => u64 (c + 1));;
  hd ← get_hdr list; massert (nodecount hd <=? maxcount hd).

(* src: lib/u/list.c 168-182 list_delete *)
Definition list_delete (list del : ptr) : M ptr :=
  nx ← next del;
  pv ← prev del;
  c ← list_contains list del; massert c;;
  set_next pv nx;;
  set_prev nx pv;;
  set_count list (fun c => u64 (c - 1));;
  set_prev del None;; set_next del None;;
  mret del.

(* src: lib/u/list.c 188-204 list_delete2 *)
Definition list_delete2 (list del : ptr) : M ptr :=
  nx ← next del;
  pv ← prev del;
  c ← list_contains list del; massert c;;
  set_next pv nx;;
  set_prev nx pv;;
  set_count list (fun c => u64 (c - 1));;
  set_prev del None;; set_next del None;;
  if bool_decide (nx = list) then mret None else mret nx.

(* src: lib/u/list.c 217-224 list_process *)
Fixpoint process_loop (list : ptr) (function : ptr -> ptr -> M unit) (fuel : nat) (node : ptr)
    : M unit :=
  if bool_decide (node = list) then mret tt else
  match fuel with
  | O => mdiverge
  | S fuel =>
      c ← list_contains list node; massert c;;
      nx ← next node;
      function list node;;
      process_loop list function fuel nx
  end.
(* src: lib/u/list.c 212-225 list_process *)
Definition list_process (fuel : nat) (list : ptr) (function : ptr -> ptr -> M unit) : M unit :=
  first ← next list; process_loop list function fuel first.

(* src: lib/u/list.c 231-240 lnode_create *)
Definition lnode_create (data : D) : M ptr :=
  new ← malloc_node;
  match new with
  | None => mret None
  | Some a => put_node a (Node None None (Some data));; mret new
  end.

(* src: lib/u/list.c 246-252 lnode_init *)
Definition lnode_init (lnode : ptr) (data : D) : M ptr :=
  mod_node lnode (fun _ => Node None None (Some data));; mret lnode.

(* src: lib/u/list.c 561-564 ow_lnode_put *)
Definition ow_lnode_put (lnode : ptr) (data : D) : M unit :=
  mod_node lnode (fun n => Node (n_next n) (n_prev n) (Some data)).

(* src: lib/u/list.c 570-573 ow_lnode_get *)
Definition ow_lnode_get (lnode : ptr) : M D :=
  n ← get_node lnode;
  match n_data n with Some d => mret d | None => mundef end.

(* src: lib/u/list.c 623-627 list_verify *)
Fixpoint verify_loop (list : ptr) (count : nat) (node : ptr) : M bool :=
  if bool_decide (node = list) then mret (bool_decide (count = O))
  else match count with
  | O => mret false (* the count wraps around *)
  | S count =>
      nx ← next node; p ← prev nx;
      if bool_decide (p <> node) then mret false else verify_loop list count nx
  end.
(* src: lib/u/list.c 612-633 list_verify *)
Definition list_verify (list : ptr) : M bool :=
  node ← next list;
  hd ← get_hdr list;
  p ← prev node;
  if bool_decide (p <> list) then mret false
  else if maxcount hd <? nodecount hd then mret false
  else verify_loop list (Z.to_nat (nodecount hd)) node.

(* src: lib/u/list.c 311-314 ow_list_transfer *)
Fixpoint moved_loop (last : ptr) (fuel : nat) (first : ptr) (moved : Z) : M Z :=
  if bool_decide (first = last) then mret moved else
  match fuel with
  | O => mdiverge
  | S fuel => nx ← next first; moved_loop last fuel nx (u64 (moved + 1))
  end.
(* src: lib/u/list.c 291-325 ow_list_transfer *)
Definition ow_list_transfer (dest source first : ptr) : M unit :=
  match first with
  | None => mret tt
  | Some _ =>
      c ← list_contains source first; massert c;;
      last ← prev source;
      fp ← prev first;
      set_prev source fp;;
      fp ← prev first;
      set_next fp source;;
      set_next last dest;;
      dp ← prev dest;
      set_prev first dp;;
      dp ← prev dest;
      set_next dp first;;
      set_prev dest last;;
      moved ← bounded (fun fuel => moved_loop last fuel first 1);
      hd ← get_hdr source;
      massert (moved <=? nodecount hd);;
      set_count source (fun c => u64 (c - moved));;
      set_count dest (fun c => u64 (c + moved));;
      v ← list_verify source; massert v;;
      v ← list_verify dest; massert v
  end.

Section Compare.
Context (compare : D -> D -> Z).

(* src: lib/u/list.c 432-435 list_is_sorted *)
Fixpoint sorted_loop (list : ptr) (fuel : nat) (node nx : ptr) : M bool :=
  if bool_decide (nx = list) then mret true else
  match fuel with
  | O => mdiverge
  | S fuel =>
      x ← ow_lnode_get node; y ← ow_lnode_get nx;
      if 0 <? compare x y then mret false
      else nx' ← next nx; sorted_loop list fuel nx nx'
  end.
(* src: lib/u/list.c 422-438 list_is_sorted *)
Definition list_is_sorted (list : ptr) : M bool :=
  node ← next list;
  nx ← (if bool_decide (node = list) then mret list else next node);
  bounded (fun fuel => sorted_loop list fuel node nx).

(* src: lib/u/list.c 409-412 list_find *)
Fixpoint find_loop (list : ptr) (key : D) (fuel : nat) (node : ptr) : M ptr :=
  if bool_decide (node = list) then mret None else
  match fuel with
  | O => mdiverge
  | S fuel =>
      x ← ow_lnode_get node;
      if compare x key =? 0 then mret node
      else nx ← next node; find_loop list key fuel nx
  end.
(* src: lib/u/list.c 405-415 list_find *)
Definition list_find (list : ptr) (key : D) : M ptr :=
  node ← next list; bounded (fun fuel => find_loop list key fuel node).

(* src: lib/u/list.c 350-359 ow_list_merge *)
Fixpoint merge_loop (fuel : nat) (dest source dn sn : ptr) : M (ptr * ptr) :=
  if bool_decide (dn = dest) || bool_decide (sn = source) then mret (dn, sn) else
  match fuel with
  | O => mdiverge
  | S fuel =>
      x ← ow_lnode_get dn; y ← ow_lnode_get sn;
      if 0 <=? compare x y then
        tn ← next sn;
        _ ← list_delete source sn;
        list_ins_before dest sn dn;;
        merge_loop fuel dest source dn tn
      else dn' ← next dn; merge_loop fuel dest source dn' sn
  end.
(* src: lib/u/list.c 333-366 ow_list_merge *)
Definition ow_list_merge (dest source : ptr) : M unit :=
  if bool_decide (dest = source) then mret tt else
  s ← list_is_sorted source; massert s;;
  s ← list_is_sorted dest; massert s;;
  dn ← next dest;
  sn ← next source;
  '(dn, sn) ← bounded (fun fuel => merge_loop fuel dest source dn sn);
  if bool_decide (dn <> dest) then mret tt
  else if bool_decide (sn <> source) then ow_list_transfer dest source sn
  else mret tt.

(* src: lib/u/list.c 389-390 ow_list_sort *)
Fixpoint advance (m : nat) (node : ptr) : M ptr :=
  match m with O => mret node | S m => nx ← next node; advance m nx end.
(* src: lib/u/list.c 376-402 ow_list_sort *)
Fixpoint list_sort_fuel (fuel : nat) (list : ptr) : M unit :=
  match fuel with
  | O => mdiverge
  | S fuel =>
      n ← ow_list_count list;
      (if 1 <? n then
         let middle := n / 2 in
         node ← next list;
         extra ← stack_list;
         _ ← list_init extra (u64 (n - middle));
         node ← advance (Z.to_nat middle) node;
         ow_list_transfer extra list node;;
         list_sort_fuel fuel list;;
         list_sort_fuel fuel extra;;
         ow_list_merge list extra;;
         free_node extra (* the end of its scope *)
       else mret tt);;
      s ← list_is_sorted list; massert s
  end.
(** After the first transfer both headers count their nodes ([list_verify]), and each
    level moves at least one node away, so the depth is bounded by the nodes. *)
(* src: lib/u/list.c 376-402 ow_list_sort *)
Definition ow_list_sort (list : ptr) : M unit := bounded (fun fuel => list_sort_fuel (S fuel) list).
End Compare.

(* src: lib/u/list.c 489-492 ow_list_append *)
Definition ow_list_append (list node : ptr) : M unit := list_ins_before list node list.
(* src: lib/u/list.c 498-501 ow_list_prepend *)
Definition ow_list_prepend (list node : ptr) : M unit := list_ins_after list node list.
(* src: lib/u/list.c 507-516 ow_list_first *)
Definition ow_list_first (list : ptr) : M ptr :=
  match list with
  | None => mret None
  | Some _ => n ← next list; if bool_decide (n = list) then mret None else mret n
  end.
(* src: lib/u/list.c 522-527 ow_list_last *)
Definition ow_list_last (list : ptr) : M ptr :=
  n ← prev list; if bool_decide (n = list) then mret None else prev list.
(* src: lib/u/list.c 542-545 ow_list_del_first *)
Definition ow_list_del_first (list : ptr) : M ptr := n ← next list; list_delete list n.
(* src: lib/u/list.c 551-554 ow_list_del_last *)
Definition ow_list_del_last (list : ptr) : M ptr := n ← prev list; list_delete list n.
(* src: lib/u/list.c 580-587 ow_list_next *)
Definition ow_list_next (list lnode : ptr) : M ptr :=
  c ← list_contains list lnode; massert c;;
  n ← next lnode; if bool_decide (n = list) then mret None else mret n.
(* src: lib/u/list.c 593-600 ow_list_prev *)
Definition ow_list_prev (list lnode : ptr) : M ptr :=
  c ← list_contains list lnode; massert c;;
  n ← prev lnode; if bool_decide (n = list) then mret None else mret n.

End KazList.

Section Proofs.
Context {D : Type}.
Implicit Types (h : @store D) (l a b : loc) (ns : list loc).

(** ** Representation *)
Definition nxt h a : ptr := nodes h !! a ≫= n_next.
Definition prv h a : ptr := nodes h !! a ≫= n_prev.
Definition dat h a : option D := nodes h !! a ≫= n_data.
(** [a] is followed by [b]. *)
Definition link h a b : Prop := nxt h a = Some b /\ prv h b = Some a.
Fixpoint chain h (p : list loc) : Prop :=
  match p with
  | a :: (b :: _) as q => link h a b /\ chain h q
  | _ => True
  end.
(** The list at [l] has the nodes [ns] in this order and room for [mc]. *)
Definition is_list h l ns (mc : Z) : Prop :=
  hdrs h !! l = Some (Hdr (Z.of_nat (length ns)) mc) /\
  chain h (l :: ns ++ [l]) /\ NoDup (l :: ns).
(** [a] is a node outside every list. *)
Definition is_free h a : Prop := is_Some (nodes h !! a) /\ nxt h a = None /\ prv h a = None.
(** Only the links of [X] and the headers at [X] may have changed. *)
Definition frame (X : list loc) h h' : Prop :=
  (forall a, a ∉ X -> nodes h' !! a = nodes h !! a) /\
  (forall a, a ∉ X -> is_Some (nodes h !! a) -> hdrs h' !! a = hdrs h !! a) /\
  (forall a, dat h' a = dat h a) /\
  (forall a, is_Some (nodes h' !! a) <-> is_Some (nodes h !! a)) /\
  tick h' = tick h /\ freed h' = freed h.

Lemma frame_refl X h : frame X h h.
Proof. done. Qed.
Lemma frame_trans X h h1 h2 : frame X h h1 -> frame X h1 h2 -> frame X h h2.
Proof.
  intros (A1 & A2 & A3 & A4 & A5 & A6) (B1 & B2 & B3 & B4 & B5 & B6).
  split; [|split; [|split; [|split]]]; [intros a Ha|intros a Ha|intros a|intros a|split; congruence].
  - now rewrite B1, A1.
  - intros Ea. rewrite B2, A2; try done. now apply A4.
  - now rewrite B3, A3.
  - now rewrite B4, A4.
Qed.
Lemma frame_mono X Y h h' : X ⊆ Y -> frame X h h' -> frame Y h h'.
Proof. intros HXY (A1 & A2 & A). split; [|split; [|done]]; eauto. Qed.
Lemma frame_bound X h h' : frame X h h' -> bound h' = bound h.
Proof.
  intros (_ & _ & _ & A & _). unfold bound. rewrite <- !size_dom.
  f_equal. f_equal. apply set_eq. intros a. now rewrite !elem_of_dom.
Qed.

Lemma chain_app h p a q : chain h (p ++ a :: q) <-> chain h (p ++ [a]) /\ chain h (a :: q).
Proof.
  induction p as [|x [|y p] IH]; [simpl; tauto|simpl; tauto|].
  change (link h x y /\ chain h ((y :: p) ++ a :: q) <->
    (link h x y /\ chain h ((y :: p) ++ [a])) /\ chain h (a :: q)). tauto.
Qed.
Lemma chain_app2 h p a b q :
  chain h (p ++ a :: b :: q) <-> chain h (p ++ [a]) /\ link h a b /\ chain h (b :: q).
Proof. rewrite chain_app. simpl. tauto. Qed.
(** A chain depends on the successors of all but its last node and on the predecessors
    of all but its first. *)
Lemma chain_ext h h' p :
  (forall a, a ∈ removelast p -> nxt h' a = nxt h a) ->
  (forall a, a ∈ tail p -> prv h' a = prv h a) -> chain h p -> chain h' p.
Proof.
  induction p as [|x [|y p] IH]; try done. intros Hn Hp [[L1 L2] C].
  change (link h' x y /\ chain h' (y :: p)). split.
  - split; [rewrite Hn; [done|simpl; left] | rewrite Hp; [done|left]].
  - apply IH; [| |done].
    + intros a Ha. apply Hn. simpl. right. exact Ha.
    + intros a Ha. apply Hp. simpl. right. exact Ha.
Qed.
Lemma chain_in h p a : chain h (p ++ [a]) -> forall x, x ∈ p -> is_Some (nxt h x).
Proof.
  revert a. induction p as [|x p IH]; intros a C y Hy; [now apply not_elem_of_nil in Hy|].
  destruct p as [|z p]; simpl in C.
  - apply list_elem_of_singleton in Hy as ->. destruct C as [[-> _] _]. eauto.
  - destruct C as [[L _] C]. apply elem_of_cons in Hy as [->|Hy]; [rewrite L; eauto|].
    apply (IH a); [exact C|done].
Qed.

Lemma is_list_frame X h h' l ns mc :
  is_list h l ns mc -> frame X h h' -> (forall a, a ∈ X -> a ∉ l :: ns) -> is_list h' l ns mc.
Proof.
  intros (H & C & N) (A1 & A2 & _) HX.
  assert (F : forall a, a ∈ l :: ns -> nodes h' !! a = nodes h !! a)
    by (intros a Ha; apply A1; intros Hx; exact (HX _ Hx Ha)).
  assert (Hl : l ∈ l :: ns) by left.
  split; [rewrite A2; [done|intros Hx; exact (HX _ Hx Hl)|]|split; [|done]].
  { destruct (chain_in _ (l :: ns) l C l ltac:(left)) as [b Hb]. unfold nxt in Hb.
    destruct (nodes h !! l); [eauto|discriminate]. }
  eapply chain_ext; [| |exact C]; intros a Ha; unfold nxt, prv.
  - rewrite app_comm_cons, removelast_last in Ha. now rewrite F.
  - simpl in Ha. rewrite F; [done|]. set_solver.
Qed.
Lemma is_free_frame X h h' a : is_free h a -> frame X h h' -> a ∉ X -> is_free h' a.
Proof. intros H (A1 & _) Ha. unfold is_free, nxt, prv in *. now rewrite A1. Qed.
Lemma is_list_free h l ns mc a : is_list h l ns mc -> is_free h a -> a ∉ l :: ns.
Proof.
  intros (_ & C & _) (_ & F & _) Ha. rewrite app_comm_cons in C.
  destruct (chain_in _ _ _ C _ Ha) as [? E]. congruence.
Qed.

(** *** Steps *)
Definition upd_next h a (q : ptr) : store :=
  set_nodes h (alter (fun n => Node q (n_prev n) (n_data n)) a (nodes h)).
Definition upd_prev h a (q : ptr) : store :=
  set_nodes h (alter (fun n => Node (n_next n) q (n_data n)) a (nodes h)).
Definition alive h a : Prop := is_Some (nodes h !! a).

Lemma next_eq h a : alive h a -> next (Some a) h = Done (nxt h a, h).
Proof.
  intros [n E]. unfold next, nxt, get_node, mbind, M_bind, mret, M_ret. simpl. now rewrite E.
Qed.
Lemma prev_eq h a : alive h a -> prev (Some a) h = Done (prv h a, h).
Proof.
  intros [n E]. unfold prev, prv, get_node, mbind, M_bind, mret, M_ret. simpl. now rewrite E.
Qed.
Lemma set_next_eq h a q : alive h a -> set_next (Some a) q h = Done (tt, upd_next h a q).
Proof.
  intros [n E]. unfold set_next, mod_node, get_node, mbind, M_bind. simpl. rewrite E. simpl.
  unfold put_node, upd_next. do 3 f_equal. apply map_eq. intros b.
  destruct (decide (a = b)) as [->|].
  - now rewrite lookup_insert_eq, lookup_alter_eq, E.
  - now rewrite lookup_insert_ne, lookup_alter_ne.
Qed.
Lemma set_prev_eq h a q : alive h a -> set_prev (Some a) q h = Done (tt, upd_prev h a q).
Proof.
  intros [n E]. unfold set_prev, mod_node, get_node, mbind, M_bind. simpl. rewrite E. simpl.
  unfold put_node, upd_prev. do 3 f_equal. apply map_eq. intros b.
  destruct (decide (a = b)) as [->|].
  - now rewrite lookup_insert_eq, lookup_alter_eq, E.
  - now rewrite lookup_insert_ne, lookup_alter_ne.
Qed.
Lemma is_in_a_list_eq h a : alive h a ->
  lnode_is_in_a_list (Some a) h
  = Done (bool_decide (nxt h a <> None) || bool_decide (prv h a <> None), h).
Proof.
  intros [n E]. unfold lnode_is_in_a_list, get_node, mbind, M_bind, nxt, prv. simpl.
  now rewrite E.
Qed.

Lemma alive_upd_next h a q b : alive (upd_next h a q) b <-> alive h b.
Proof. unfold alive, upd_next. simpl. apply lookup_alter_is_Some. Qed.
Lemma alive_upd_prev h a q b : alive (upd_prev h a q) b <-> alive h b.
Proof. unfold alive, upd_prev. simpl. apply lookup_alter_is_Some. Qed.
Lemma nxt_upd_next h a q b : alive h a ->
  nxt (upd_next h a q) b = if decide (a = b) then q else nxt h b.
Proof.
  intros [n E]. unfold nxt, upd_next. simpl. destruct (decide (a = b)) as [->|].
  - now rewrite lookup_alter_eq, E.
  - now rewrite lookup_alter_ne.
Qed.
Lemma prv_upd_prev h a q b : alive h a ->
  prv (upd_prev h a q) b = if decide (a = b) then q else prv h b.
Proof.
  intros [n E]. unfold prv, upd_prev. simpl. destruct (decide (a = b)) as [->|].
  - now rewrite lookup_alter_eq, E.
  - now rewrite lookup_alter_ne.
Qed.
Lemma prv_upd_next h a q b : prv (upd_next h a q) b = prv h b.
Proof.
  unfold prv, upd_next. simpl. destruct (decide (a = b)) as [->|].
  - rewrite lookup_alter_eq. now destruct (nodes h !! b).
  - now rewrite lookup_alter_ne.
Qed.
Lemma nxt_upd_prev h a q b : nxt (upd_prev h a q) b = nxt h b.
Proof.
  unfold nxt, upd_prev. simpl. destruct (decide (a = b)) as [->|].
  - rewrite lookup_alter_eq. now destruct (nodes h !! b).
  - now rewrite lookup_alter_ne.
Qed.
Lemma frame_upd_next X h a q : a ∈ X -> frame X h (upd_next h a q).
Proof.
  intros Ha. split; [|split; [done|split; [|split; [|done]]]]; intros b.
  - intros Hb. simpl. rewrite lookup_alter_ne; [done|]. congruence.
  - unfold dat, upd_next. simpl. destruct (decide (a = b)) as [->|].
    + rewrite lookup_alter_eq. now destruct (nodes h !! b).
    + now rewrite lookup_alter_ne.
  - apply alive_upd_next.
Qed.
Lemma frame_upd_prev X h a q : a ∈ X -> frame X h (upd_prev h a q).
Proof.
  intros Ha. split; [|split; [done|split; [|split; [|done]]]]; intros b.
  - intros Hb. simpl. rewrite lookup_alter_ne; [done|]. congruence.
  - unfold dat, upd_prev. simpl. destruct (decide (a = b)) as [->|].
    + rewrite lookup_alter_eq. now destruct (nodes h !! b).
    + now rewrite lookup_alter_ne.
  - apply alive_upd_prev.
Qed.
Definition upd_count h l (f : Z -> Z) : store :=
  set_hdrs h (alter (fun hd => Hdr (f (nodecount hd)) (maxcount hd)) l (hdrs h)).
Lemma set_count_eq h l hd f : hdrs h !! l = Some hd ->
  set_count (Some l) f h = Done (tt, upd_count h l f).
Proof.
  intros E. unfold set_count. rewrite E. unfold upd_count. do 3 f_equal. apply map_eq. intros b.
  destruct (decide (l = b)) as [->|].
  - now rewrite lookup_insert_eq, lookup_alter_eq, E.
  - now rewrite lookup_insert_ne, lookup_alter_ne.
Qed.
Lemma alive_upd_count h l f b : alive (upd_count h l f) b <-> alive h b.
Proof. done. Qed.
Lemma frame_upd_count X h l f : l ∈ X -> frame X h (upd_count h l f).
Proof.
  intros Hl. split; [done|split; [|done]]. intros b Hb _. simpl.
  apply lookup_alter_ne. congruence.
Qed.
Lemma get_hdr_eq h l hd : hdrs h !! l = Some hd -> get_hdr (Some l) h = Done (hd, h).
Proof. intros E. unfold get_hdr. simpl. now rewrite E. Qed.
Lemma link_alive h a b : link h a b -> alive h a /\ alive h b.
Proof.
  unfold link, nxt, prv, alive. intros [H1 H2].
  destruct (nodes h !! a), (nodes h !! b); simpl in *; try discriminate; eauto.
Qed.
Lemma chain_alive h p a b : chain h (p ++ [a]) -> b ∈ p -> alive h b.
Proof.
  intros C Hb. destruct (chain_in _ _ _ C _ Hb) as [c Hc]. unfold nxt, alive in *.
  destruct (nodes h !! b); [eauto|discriminate].
Qed.
Lemma is_list_alive h l ns mc a : is_list h l ns mc -> a ∈ l :: ns -> alive h a.
Proof. intros (_ & C & _) Ha. rewrite app_comm_cons in C. eauto using chain_alive. Qed.
Lemma is_list_size h l ns mc : is_list h l ns mc -> (length ns < size (nodes h))%nat.
Proof.
  intros H. pose proof H as (_ & _ & N).
  assert (S : (list_to_set (l :: ns) : gset loc) ⊆ dom (nodes h)).
  { intros a Ha. apply elem_of_dom. eapply is_list_alive; [exact H|]. set_solver. }
  apply subseteq_size in S. rewrite size_list_to_set in S by done.
  rewrite size_dom in S. simpl in S. lia.
Qed.
#[local] Hint Rewrite alive_upd_next alive_upd_prev alive_upd_count nxt_upd_prev prv_upd_next : store.
#[local] Hint Resolve frame_refl frame_upd_next frame_upd_prev frame_upd_count : store.

(** *** Membership *)
Definition mem (q : ptr) ns : bool := existsb (fun a => bool_decide (q = Some a)) ns.
Lemma mem_Some a ns : mem (Some a) ns = bool_decide (a ∈ ns).
Proof.
  induction ns as [|b ns IH]; simpl.
  - destruct (bool_decide_reflect (a ∈ [])); [set_solver|done].
  - rewrite IH. rewrite !bool_decide_decide. repeat case_decide; simpl; set_solver.
Qed.
Lemma contains_from_eq h l q ns fuel :
  l ∉ ns -> (length ns <= fuel)%nat -> forall c, chain h (c :: ns ++ [l]) ->
  list_contains_from fuel (Some l) q (nxt h c) h = Done (mem q ns, h).
Proof.
  revert fuel. induction ns as [|a ns IH]; intros fuel Hl Hf c C.
  - destruct C as [[-> _] _]. destruct fuel; simpl; now rewrite bool_decide_true.
  - destruct C as [L C]. destruct L as [L L']. rewrite L.
    assert (a <> l) by set_solver. destruct fuel as [|fuel]; [simpl in Hf; lia|].
    simpl. rewrite bool_decide_false by congruence.
    destruct (bool_decide_reflect (q = Some a)); [done|].
    step (next_eq h a ltac:(apply (link_alive h c); split; done)).
    apply IH; [set_solver|simpl in Hf; lia|exact C].
Qed.
Lemma list_contains_eq h l q ns mc : is_list h l ns mc ->
  list_contains (Some l) q h = Done (mem q ns, h).
Proof.
  intros H. pose proof H as (_ & C & N). pose proof (is_list_size _ _ _ _ H).
  unfold list_contains.
  step (next_eq h l (is_list_alive _ _ _ _ l H ltac:(left))).
  apply NoDup_cons in N as [N _]. unfold bounded.
  apply contains_from_eq; [done|unfold bound; lia|exact C].
Qed.

Lemma elem_of_removelast (x : loc) p : x ∈ removelast p -> x ∈ p.
Proof.
  induction p as [|y [|z p] IH]; [done|intros Hx; now apply not_elem_of_nil in Hx|].
  change (removelast (y :: z :: p)) with (y :: removelast (z :: p)).
  rewrite !elem_of_cons in *. naive_solver.
Qed.

(** *** The ring as two splits

    Every position of the ring is a pair of neighbours. *)
Lemma split_nodup_ring l ns p a b q : l :: ns ++ [l] = p ++ a :: b :: q -> NoDup (l :: ns) ->
  NoDup (p ++ a :: removelast (b :: q)) /\ NoDup (tail (p ++ [a]) ++ b :: q).
Proof.
  intros E N. split.
  - assert (E' : removelast (l :: ns ++ [l]) = removelast (p ++ a :: b :: q)) by now f_equal.
    rewrite app_comm_cons, removelast_last, removelast_app in E' by done.
    change (removelast (a :: b :: q)) with (a :: removelast (b :: q)) in E'. now rewrite <- E'.
  - assert (E' : tail (l :: ns ++ [l]) = tail (p ++ [a]) ++ b :: q).
    { rewrite E. now destruct p; simpl; rewrite <- ?app_assoc. }
    rewrite <- E'. simpl. eapply NoDup_Permutation_proper; [|exact N].
    symmetry. apply Permutation_cons_append.
Qed.
Lemma chain_frame h h' p (xs ys : list loc) :
  chain h p -> (forall a, a ∉ xs -> nxt h' a = nxt h a) -> (forall a, a ∉ ys -> prv h' a = prv h a) ->
  (forall a, a ∈ removelast p -> a ∉ xs) -> (forall a, a ∈ tail p -> a ∉ ys) -> chain h' p.
Proof. intros C Hx Hy HX HY. eapply chain_ext; [| |exact C]; eauto. Qed.

Lemma chain_insert h h' l ns p a b q n :
  chain h (l :: ns ++ [l]) -> NoDup (l :: ns) -> l :: ns ++ [l] = p ++ a :: b :: q ->
  n ∉ l :: ns -> link h' a n -> link h' n b ->
  (forall x, x ∉ [a; n] -> nxt h' x = nxt h x) -> (forall x, x ∉ [b; n] -> prv h' x = prv h x) ->
  chain h' (p ++ a :: n :: b :: q).
Proof.
  intros C N E Hn L1 L2 Hnx Hpv. destruct (split_nodup_ring _ _ _ _ _ _ E N) as [N1 N2].
  assert (Hn' : n ∉ p ++ a :: b :: q) by (rewrite <- E; set_solver).
  rewrite E in C. apply chain_app2 in C as (C1 & _ & C2).
  apply chain_app2. split; [|split; [done|split; [done|]]].
  - eapply chain_frame; eauto; [rewrite removelast_last|]; intros x Hx.
    + apply NoDup_app in N1 as (_ & Dj & _). specialize (Dj x Hx). set_solver.
    + apply NoDup_app in N2 as (_ & Dj & _). specialize (Dj x Hx).
      assert (x ∈ p ++ [a]) by (destruct p; simpl in *; set_solver). set_solver.
  - eapply chain_frame; eauto; intros x Hx.
    + apply NoDup_app in N1 as (_ & _ & Dj). apply NoDup_cons in Dj as [Dj _].
      pose proof (elem_of_removelast _ _ Hx).
      set_solver.
    + apply NoDup_app in N2 as (_ & _ & Dj). apply NoDup_cons in Dj as [Dj _]. simpl in Hx. set_solver.
Qed.

Lemma chain_remove h h' l ns p a d b q :
  chain h (l :: ns ++ [l]) -> NoDup (l :: ns) -> l :: ns ++ [l] = p ++ a :: d :: b :: q ->
  d <> l -> link h' a b ->
  (forall x, x ∉ [a; d] -> nxt h' x = nxt h x) -> (forall x, x ∉ [b; d] -> prv h' x = prv h x) ->
  chain h' (p ++ a :: b :: q).
Proof.
  intros C N E Hd L Hnx Hpv.
  destruct (split_nodup_ring l ns p a d (b :: q) E N) as [N1 N2].
  rewrite E in C. apply chain_app2 in C as (C1 & _ & C2). destruct C2 as [_ C2].
  apply NoDup_app in N1 as (_ & N1 & N1'). apply NoDup_cons in N1' as [N3 N4].
  apply NoDup_app in N2 as (_ & N2 & N2'). apply NoDup_cons in N2' as [N5 N6].
  change (removelast (d :: b :: q)) with (d :: removelast (b :: q)) in *.
  apply chain_app2. split; [|split; [done|]].
  - eapply chain_frame; eauto; [rewrite removelast_last|]; intros x Hx.
    + specialize (N1 x Hx). set_solver.
    + specialize (N2 x Hx). set_solver.
  - eapply chain_frame; eauto; intros x Hx.
    + apply NoDup_cons in N4 as [N4 _]. set_solver.
    + apply NoDup_cons in N6 as [N6 _]. simpl in Hx. set_solver.
Qed.
(** *** Insertion *)
Lemma nxt_upd_count h l f x : nxt (upd_count h l f) x = nxt h x.
Proof. done. Qed.
Lemma prv_upd_count h l f x : prv (upd_count h l f) x = prv h x.
Proof. done. Qed.
Ltac upds := repeat first
  [ rewrite nxt_upd_next by (autorewrite with store; done)
  | rewrite prv_upd_prev by (autorewrite with store; done)
  | rewrite prv_upd_next | rewrite nxt_upd_prev | rewrite nxt_upd_count | rewrite prv_upd_count ].
(** Decides a link of a store after a sequence of writes. *)
Ltac links := upds; repeat case_decide; congruence.
Lemma not_in_two (x a b : loc) : x ∉ [a; b] -> x <> a /\ x <> b.
Proof. rewrite !not_elem_of_cons. tauto. Qed.
Ltac frames_by tac := repeat (eapply frame_trans; [|first
  [apply frame_upd_count | apply frame_upd_next | apply frame_upd_prev]; tac]);
  apply frame_refl.
Ltac frames := frames_by ltac:(set_solver).


(** The guards of both insertions hold for a free node and a position of the list. *)
Lemma insert_guards h l ns mc n this : is_list h l ns mc -> is_free h n -> this ∈ l :: ns ->
  Z.of_nat (length ns) < 2 ^ 64 - 1 ->
  list_contains (Some l) (Some n) h = Done (false, h) /\
  lnode_is_in_a_list (Some n) h = Done (false, h) /\
  (if bool_decide (Some this = Some l) then mret tt
   else c ← list_contains (Some l) (Some this); massert c) h = Done (tt, h) /\
  u64 (Z.of_nat (length ns) + 1) = Z.of_nat (length ns) + 1.
Proof.
  intros HL HF Ht Hmc. pose proof (is_list_free _ _ _ _ _ HL HF) as Hn. repeat split.
  - rewrite (list_contains_eq _ _ _ _ _ HL), mem_Some, bool_decide_false; [done|set_solver].
  - destruct HF as (A & F1 & F2). rewrite is_in_a_list_eq by done. now rewrite F1, F2.
  - case_bool_decide; [done|]. step (list_contains_eq _ _ (Some this) _ _ HL).
    rewrite mem_Some, bool_decide_true; [done|set_solver].
  - apply u64_small. lia.
Qed.

(** The ring after a node was put between the neighbours [a] and [b]. *)
Lemma ring_insert h h' l ns ns' mc p a b q n :
  is_list h l ns mc -> l :: ns ++ [l] = p ++ a :: b :: q ->
  l :: ns' ++ [l] = p ++ a :: n :: b :: q -> n ∉ l :: ns ->
  link h' a n -> link h' n b ->
  (forall x, x ∉ [a; n] -> nxt h' x = nxt h x) -> (forall x, x ∉ [b; n] -> prv h' x = prv h x) ->
  chain h' (l :: ns' ++ [l]) /\ NoDup (l :: ns') /\ length ns' = S (length ns).
Proof.
  intros (H & C & N) E E' Hn L1 L2 Hnx Hpv.
  assert (P : ns' ≡ₚ n :: ns).
  { assert (P : l :: ns' ++ [l] ≡ₚ l :: (n :: ns) ++ [l]).
    { rewrite E'. replace (p ++ a :: n :: b :: q) with ((p ++ [a]) ++ n :: (b :: q))
        by now rewrite <- app_assoc.
      rewrite <- Permutation_middle, <- app_assoc. simpl. rewrite <- E. apply Permutation_swap. }
    simpl in P. apply (Permutation_cons_inv (a := l)) in P.
    rewrite app_comm_cons in P. now apply Permutation_app_inv_r in P. }
  split; [|split].
  - rewrite E'. eauto using chain_insert.
  - assert (P' : l :: ns' ≡ₚ n :: l :: ns) by (rewrite P; constructor).
    rewrite P'. now constructor.
  - now rewrite P.
Qed.

(** The end of both insertions. *)
Definition count_one (l : loc) : CM (@store D) unit :=
  set_count (Some l) (fun c => u64 (c + 1));;
  hd ← get_hdr (Some l); massert (nodecount hd <=? maxcount hd).
Lemma count_one_eq h l c mc : hdrs h !! l = Some (Hdr c mc) -> 0 <= c < 2 ^ 64 - 1 ->
  if c <? mc then exists h', count_one l h = Done (tt, h') /\
    hdrs h' !! l = Some (Hdr (c + 1) mc) /\ nodes h' = nodes h /\ (forall X, l ∈ X -> frame X h h')
  else count_one l h = AssertFail.
Proof.
  intros HH Hc. unfold count_one. step (set_count_eq h l _ (fun c => u64 (c + 1)) HH).
  set (h5 := upd_count h l _).
  assert (H5 : hdrs h5 !! l = Some (Hdr (c + 1) mc)).
  { simpl. rewrite lookup_alter_eq, HH. simpl. rewrite u64_small; [done|lia]. }
  step (get_hdr_eq _ _ _ H5). simpl nodecount. simpl maxcount.
  destruct (Z.ltb_spec c mc), (Z.leb_spec (c + 1) mc); try lia; [|done].
  exists h5. split_and!; try done. intros X HX. now apply frame_upd_count.
Qed.

Lemma ins_after_run h l ns mc n p this q :
  is_list h l ns mc -> is_free h n -> l :: ns = p ++ this :: q ->
  Z.of_nat (length ns) < 2 ^ 64 - 1 ->
  exists h' ns', list_ins_after (Some l) (Some n) (Some this) h = count_one l h' /\
    l :: ns' = p ++ this :: n :: q /\ hdrs h' = hdrs h /\ frame (n :: l :: ns) h h' /\
    chain h' (l :: ns' ++ [l]) /\ NoDup (l :: ns') /\ length ns' = S (length ns).
Proof.
  intros HL HF E Hmc.
  assert (Ht : this ∈ l :: ns) by (rewrite E; set_solver).
  destruct (insert_guards _ _ _ _ _ _ HL HF Ht Hmc) as (G1 & G2 & G3 & G4).
  destruct (q ++ [l]) as [|that q'] eqn:Eq; [destruct q; discriminate|].
  assert (ER : l :: ns ++ [l] = p ++ this :: that :: q')
    by (rewrite <- Eq, app_comm_cons, E, <- app_assoc; done).
  pose proof HL as (HH & HC & HN). rewrite ER in HC.
  apply chain_app2 in HC as (_ & [Lk1 Lk2] & _).
  destruct (link_alive h this that ltac:(split; done)) as [A1 A2].
  pose proof HF as (A3 & F1 & F2). pose proof (is_list_free _ _ _ _ _ HL HF) as Hn.
  assert (Hthat : that ∈ l :: ns).
  { assert (that ∈ q ++ [l]) by (rewrite Eq; left). rewrite E in *. destruct p; set_solver. }
  unfold list_ins_after. step (next_eq h this A1). rewrite Lk1.
  step (massert_true (bool_decide (Some n <> None)) h ltac:(now apply bool_decide_true)).
  step G1. step (massert_true true h eq_refl). step G2. step (massert_true true h eq_refl).
  step G3. step (get_hdr_eq _ _ _ HH). simpl nodecount. rewrite G4.
  step (massert_true (Z.of_nat (length ns) <? Z.of_nat (length ns) + 1) h ltac:(lia)).
  step (set_prev_eq h n (Some this) A3).
  step (set_next_eq (upd_prev h n (Some this)) n (Some that) ltac:(now rewrite alive_upd_prev)).
  set (h2 := upd_next _ n _).
  step (set_prev_eq h2 that (Some n) ltac:(unfold h2; now autorewrite with store)).
  step (set_next_eq (upd_prev h2 that (Some n)) this (Some n) ltac:(unfold h2; now autorewrite with store)).
  set (h4 := upd_next _ this _).
  exists h4, (tail (p ++ this :: n :: q)).
  assert (E' : l :: tail (p ++ this :: n :: q) = p ++ this :: n :: q)
    by (destruct p; simpl in E |- *; congruence).
  split; [done|]. split; [done|]. split; [done|]. split; [unfold h4, h2; frames|].
  apply (ring_insert h h4 l ns _ mc p this that q' n); try done.
  - rewrite app_comm_cons, E', <- Eq, <- app_assoc. done.
  - split; unfold h4, h2; links.
  - split; unfold h4, h2; links.
  - intros x [X1 X2]%not_in_two. unfold h4, h2. links.
  - intros x [X1 X2]%not_in_two. unfold h4, h2. links.
Qed.

Lemma ins_before_run h l ns mc n p this q :
  is_list h l ns mc -> is_free h n -> ns ++ [l] = p ++ this :: q ->
  Z.of_nat (length ns) < 2 ^ 64 - 1 ->
  exists h' ns', list_ins_before (Some l) (Some n) (Some this) h = count_one l h' /\
    ns' ++ [l] = p ++ n :: this :: q /\ hdrs h' = hdrs h /\ frame (n :: l :: ns) h h' /\
    chain h' (l :: ns' ++ [l]) /\ NoDup (l :: ns') /\ length ns' = S (length ns).
Proof.
  intros HL HF E Hmc.
  assert (Ht : this ∈ l :: ns).
  { assert (Ht : this ∈ ns ++ [l]) by (rewrite E; set_solver). set_solver. }
  destruct (insert_guards _ _ _ _ _ _ HL HF Ht Hmc) as (G1 & G2 & G3 & G4).
  destruct (exists_last (l := l :: p) ltac:(done)) as (p' & that & Ep).
  assert (ER : l :: ns ++ [l] = p' ++ that :: this :: q)
    by (rewrite E, app_comm_cons, Ep, <- app_assoc; done).
  pose proof HL as (HH & HC & HN). rewrite ER in HC.
  apply chain_app2 in HC as (_ & [Lk1 Lk2] & _).
  destruct (link_alive h that this ltac:(split; done)) as [A2 A1].
  pose proof HF as (A3 & F1 & F2). pose proof (is_list_free _ _ _ _ _ HL HF) as Hn.
  assert (Hthat : that ∈ l :: ns).
  { assert (that ∈ l :: p) by (rewrite Ep; set_solver). 
    assert (Hp : that = l \/ that ∈ ns ++ [l]) by (rewrite E; set_solver). set_solver. }
  unfold list_ins_before. step (prev_eq h this A1). rewrite Lk2.
  step (massert_true (bool_decide (Some n <> None)) h ltac:(now apply bool_decide_true)).
  step G1. step (massert_true true h eq_refl). step G2. step (massert_true true h eq_refl).
  step G3. step (get_hdr_eq _ _ _ HH). simpl nodecount. rewrite G4.
  step (massert_true (Z.of_nat (length ns) <? Z.of_nat (length ns) + 1) h ltac:(lia)).
  step (set_next_eq h n (Some this) A3).
  step (set_prev_eq (upd_next h n (Some this)) n (Some that) ltac:(now rewrite alive_upd_next)).
  set (h2 := upd_prev _ n _).
  step (set_next_eq h2 that (Some n) ltac:(unfold h2; now autorewrite with store)).
  step (set_prev_eq (upd_next h2 that (Some n)) this (Some n) ltac:(unfold h2; now autorewrite with store)).
  set (h4 := upd_prev _ this _).
  exists h4, (removelast (p ++ n :: this :: q)).
  assert (E' : removelast (p ++ n :: this :: q) ++ [l] = p ++ n :: this :: q).
  { destruct (exists_last (l := this :: q) ltac:(done)) as (q0 & z & Eq). rewrite Eq in *.
    rewrite app_assoc in E. apply app_inj_tail in E as [_ <-].
    replace (p ++ n :: q0 ++ [l]) with ((p ++ n :: q0) ++ [l]) by now rewrite <- app_assoc.
    now rewrite removelast_last. }
  split; [done|]. split; [done|]. split; [done|]. split; [unfold h4, h2; frames|].
  apply (ring_insert h h4 l ns _ mc p' that this q n); try done.
  - rewrite E', app_comm_cons, Ep, <- app_assoc. done.
  - split; unfold h4, h2; links.
  - split; unfold h4, h2; links.
  - intros x [X1 X2]%not_in_two. unfold h4, h2. links.
  - intros x [X1 X2]%not_in_two. unfold h4, h2. links.
Qed.

(** Both insertions, in a list with room and in a full one. *)
Lemma ins_finish h h1 l ns ns' mc (X : list loc) : is_list h l ns mc -> hdrs h1 = hdrs h ->
  Z.of_nat (length ns) < mc < 2 ^ 64 -> l ∈ X -> frame X h h1 ->
  chain h1 (l :: ns' ++ [l]) /\ NoDup (l :: ns') /\ length ns' = S (length ns) ->
  exists h', count_one l h1 = Done (tt, h') /\ is_list h' l ns' mc /\ frame X h h'.
Proof.
  intros (HH & _) Hh Hc HX F (C & N & L). rewrite <- Hh in HH.
  pose proof (count_one_eq _ _ _ _ HH ltac:(lia)) as K.
  rewrite (proj2 (Z.ltb_lt _ _) (proj1 Hc)) in K. destruct K as (h' & E & H' & Hn & F').
  exists h'. split; [done|]. split; [|eapply frame_trans; eauto].
  split; [rewrite H', L; do 2 f_equal; lia|split; [|done]].
  eapply chain_ext; [| |exact C]; intros a _; unfold nxt, prv; now rewrite Hn.
Qed.
Lemma list_ins_after_eq h l ns mc n p this q :
  is_list h l ns mc -> is_free h n -> l :: ns = p ++ this :: q ->
  Z.of_nat (length ns) < mc < 2 ^ 64 ->
  exists h' ns', list_ins_after (Some l) (Some n) (Some this) h = Done (tt, h') /\
    l :: ns' = p ++ this :: n :: q /\ is_list h' l ns' mc /\ frame (n :: l :: ns) h h'.
Proof.
  intros HL HF E Hc.
  destruct (ins_after_run h l ns mc n p this q HL HF E ltac:(lia)) as (h1 & ns' & E1 & En & Hh & F & K).
  destruct (ins_finish h h1 l ns ns' mc (n :: l :: ns) HL Hh Hc ltac:(right; left) F K) as (h2 & E2 & HL2 & F2).
  exists h2, ns'. now rewrite E1.
Qed.
Lemma list_ins_before_eq h l ns mc n p this q :
  is_list h l ns mc -> is_free h n -> ns ++ [l] = p ++ this :: q ->
  Z.of_nat (length ns) < mc < 2 ^ 64 ->
  exists h' ns', list_ins_before (Some l) (Some n) (Some this) h = Done (tt, h') /\
    ns' ++ [l] = p ++ n :: this :: q /\ is_list h' l ns' mc /\ frame (n :: l :: ns) h h'.
Proof.
  intros HL HF E Hc.
  destruct (ins_before_run h l ns mc n p this q HL HF E ltac:(lia)) as (h1 & ns' & E1 & En & Hh & F & K).
  destruct (ins_finish h h1 l ns ns' mc (n :: l :: ns) HL Hh Hc ltac:(right; left) F K) as (h2 & E2 & HL2 & F2).
  exists h2, ns'. now rewrite E1.
Qed.
Lemma ins_full h l ns mc n p this q : is_list h l ns mc -> is_free h n ->
  mc <= Z.of_nat (length ns) < 2 ^ 64 - 1 ->
  (l :: ns = p ++ this :: q -> list_ins_after (Some l) (Some n) (Some this) h = AssertFail) /\
  (ns ++ [l] = p ++ this :: q -> list_ins_before (Some l) (Some n) (Some this) h = AssertFail).
Proof.
  intros HL HF Hc. pose proof HL as (HH & _). 
  assert (K : forall h1, hdrs h1 = hdrs h -> count_one l h1 = AssertFail).
  { intros h1 Hh. rewrite <- Hh in HH. pose proof (count_one_eq _ _ _ _ HH ltac:(lia)) as K.
    now rewrite (proj2 (Z.ltb_ge _ _) (proj1 Hc)) in K. }
  split; intros E.
  - destruct (ins_after_run h l ns mc n p this q HL HF E ltac:(lia)) as (h1 & ? & E1 & _ & Hh & _).
    rewrite E1. auto.
  - destruct (ins_before_run h l ns mc n p this q HL HF E ltac:(lia)) as (h1 & ? & E1 & _ & Hh & _).
    rewrite E1. auto.
Qed.

(** *** Deletion *)
Lemma ring_split h l ns mc p d q : is_list h l ns mc -> ns = p ++ d :: q ->
  exists p' a b q', l :: p = p' ++ [a] /\ q ++ [l] = b :: q' /\
    l :: ns ++ [l] = p' ++ a :: d :: b :: q' /\ nxt h d = Some b /\ prv h d = Some a /\
    alive h a /\ alive h d /\ alive h b /\ a ∈ l :: ns /\ b ∈ l :: ns /\
    d <> l /\ d <> a /\ d <> b.
Proof.
  intros HL E. destruct (exists_last (l := l :: p) ltac:(done)) as (p' & a & Ep).
  destruct (q ++ [l]) as [|b q'] eqn:Eq; [destruct q; discriminate|].
  exists p', a, b, q'.
  assert (ER : l :: ns ++ [l] = p' ++ a :: d :: b :: q')
    by (rewrite E, <- Eq, <- app_assoc, app_comm_cons, Ep, <- app_assoc; done).
  pose proof HL as (_ & C & N). rewrite ER in C. apply chain_app2 in C as (_ & L1 & L2).
  destruct L2 as [L2 _]. destruct (link_alive _ _ _ L1), (link_alive _ _ _ L2).
  assert (Ia : a ∈ l :: p) by (rewrite Ep; set_solver).
  assert (Ib : b = l \/ b ∈ q).
  { assert (Hb : b ∈ q ++ [l]) by (rewrite Eq; left). set_solver. }
  rewrite E, app_comm_cons in N. apply NoDup_app in N as (_ & N1 & N2).
  apply NoDup_cons in N2 as [N2 _].
  assert (d <> l) by (specialize (N1 l); set_solver).
  assert (d <> a) by (specialize (N1 a); set_solver).
  assert (d <> b) by set_solver.
  destruct L1, L2. rewrite E. split_and!; try done; set_solver.
Qed.

Lemma list_delete_eq h l ns mc p d q :
  is_list h l ns mc -> ns = p ++ d :: q -> Z.of_nat (length ns) < 2 ^ 64 ->
  exists h', list_delete (Some l) (Some d) h = Done (Some d, h') /\
    is_list h' l (p ++ q) mc /\ is_free h' d /\ frame (l :: ns) h h'.
Proof.
  intros HL E Hc.
  destruct (ring_split _ _ _ _ _ _ _ HL E) as
    (p' & a & b & q' & Ep & Eq & ER & Nx & Pv & Aa & Ad & Ab & Ia & Ib & Dl & Da & Db).
  pose proof HL as (HH & C & N). assert (Id : d ∈ ns) by (rewrite E; set_solver).
  unfold list_delete. step (next_eq h d Ad). step (prev_eq h d Ad). rewrite Nx, Pv.
  step (list_contains_eq _ _ (Some d) _ _ HL). rewrite mem_Some, bool_decide_true by done.
  step (massert_true true h eq_refl).
  step (set_next_eq h a (Some b) Aa).
  step (set_prev_eq (upd_next h a (Some b)) b (Some a) ltac:(now autorewrite with store)).
  set (h2 := upd_prev _ b _).
  step (set_count_eq h2 l _ (fun c => u64 (c - 1)) HH). set (h3 := upd_count h2 l _).
  step (set_prev_eq h3 d None ltac:(unfold h3, h2; now autorewrite with store)).
  step (set_next_eq (upd_prev h3 d None) d None
    ltac:(unfold h3, h2; now autorewrite with store)).
  set (h4 := upd_next _ d _).
  assert (A3 : alive h3 d) by (unfold h3, h2; now autorewrite with store).
  exists h4. split; [done|]. split; [|split].
  - split; [|split].
    + simpl. rewrite lookup_alter_eq, HH. simpl. do 2 f_equal.
      subst ns. rewrite !length_app in *. simpl in *. rewrite u64_small by lia. lia.
    + replace (l :: (p ++ q) ++ [l]) with (p' ++ a :: b :: q')
        by (rewrite <- app_assoc, Eq, app_comm_cons, Ep, <- app_assoc; done).
      eapply (chain_remove h h4 l ns p' a d b q'); try done.
      * split; unfold h4, h3, h2; links.
      * intros x [X1 X2]%not_in_two. unfold h4. upds. unfold h3, h2. links.
      * intros x [X1 X2]%not_in_two. unfold h4. upds. unfold h3, h2. links.
    + subst ns. rewrite app_comm_cons in *. apply NoDup_app in N as (N1 & N2 & N3).
      apply NoDup_cons in N3 as [N3 N4]. apply NoDup_app. split_and!; [done| |done].
      intros x Hx Hq. apply (N2 x Hx). now right.
  - split; [unfold h4; now apply alive_upd_next, alive_upd_prev|].
    unfold h4. upds. rewrite decide_True by done. upds. now rewrite decide_True.
  - assert (d ∈ l :: ns) by set_solver. unfold h4, h3, h2. frames.
Qed.

Lemma next_pure (p : ptr) h r : next p h = Done r -> r.2 = h.
Proof.
  unfold next, get_node, mbind, M_bind, mret, M_ret.
  destruct (option_bind _ _ _ p); [|done]. now intros [= <-].
Qed.
Lemma list_delete2_eq list del h :
  list_delete2 list del h =
  (nx ← next del; _ ← list_delete list del;
   if bool_decide (nx = list) then mret None else mret nx) h.
Proof.
  unfold list_delete2, list_delete, mbind, M_bind.
  destruct (next del h) as [[nx h1]| | |] eqn:E; try done.
  pose proof (next_pure _ _ _ E) as E'. simpl in E'. subst h1.
  rewrite E.
  destruct (prev del h) as [[pv h1]| | |]; try done.
  destruct (list_contains list del h1) as [[c h2]| | |]; try done.
  destruct (massert c h2) as [[u h3]| | |]; try done.
  destruct (set_next pv nx h3) as [[u1 h4]| | |]; try done.
  destruct (set_prev nx pv h4) as [[u2 h5]| | |]; try done.
  destruct (set_count list _ h5) as [[u3 h6]| | |]; try done.
  destruct (set_prev del None h6) as [[u4 h7]| | |]; try done.
  destruct (set_next del None h7) as [[u5 h8]| | |]; done.
Qed.

(** *** Verification, order *)
Lemma verify_loop_eq h l ns : l ∉ ns -> forall c, chain h (c :: ns ++ [l]) ->
  verify_loop (Some l) (length ns) (nxt h c) h = Done (true, h).
Proof.
  induction ns as [|a ns IH]; intros Hl c C.
  - destruct C as [[-> _] _]. simpl. now rewrite bool_decide_true.
  - destruct C as [[L L'] C]. rewrite L. assert (a <> l) by set_solver.
    cbn [verify_loop length]. rewrite bool_decide_false by congruence.
    destruct (link_alive h c a ltac:(split; done)) as [_ A].
    step (next_eq h a A).
    assert (Lb : exists b, link h a b).
    { destruct ns as [|b ns]; [exists l|exists b]; apply C. }
    destruct Lb as [b [L1 L2]]. rewrite L1.
    destruct (link_alive h a b ltac:(split; done)) as [_ Ab].
    step (prev_eq h b Ab). rewrite L2, bool_decide_false by (intros X; now apply X).
    rewrite <- L1. apply IH; [set_solver|exact C].
Qed.
Lemma list_verify_eq h l ns mc : is_list h l ns mc -> Z.of_nat (length ns) <= mc ->
  list_verify (Some l) h = Done (true, h).
Proof.
  intros HL Hmc. pose proof HL as (HH & C & N). apply NoDup_cons in N as [N _].
  unfold list_verify. step (next_eq h l (is_list_alive _ _ _ _ l HL ltac:(left))).
  step (get_hdr_eq _ _ _ HH).
  assert (Lb : exists b, link h l b).
  { destruct ns as [|b ns]; [exists l|exists b]; apply C. }
  destruct Lb as [b [L1 L2]]. rewrite L1.
  destruct (link_alive h l b ltac:(split; done)) as [_ Ab].
  step (prev_eq h b Ab). rewrite L2, bool_decide_false by (intros X; now apply X). simpl.
  rewrite (proj2 (Z.ltb_ge _ _) Hmc), Nat2Z.id, <- L1. now apply verify_loop_eq.
Qed.

(** The data of a node that carries some. *)
Definition has h a (d : D) : Prop := dat h a = Some d.
Lemma has_frame X h h' a d : frame X h h' -> has h a d -> has h' a d.
Proof. intros (_ & _ & F & _). unfold has. now rewrite F. Qed.
Lemma has_frame_all X h h' ns ds :
  frame X h h' -> Forall2 (has h) ns ds -> Forall2 (has h') ns ds.
Proof. intros F H. eapply Forall2_impl; [exact H|]. eauto using has_frame. Qed.
Lemma lnode_get_eq h a d : has h a d -> ow_lnode_get (Some a) h = Done (d, h).
Proof.
  unfold has, dat, ow_lnode_get, get_node, mbind, M_bind. simpl.
  destruct (nodes h !! a); simpl; [|done]. now intros ->.
Qed.

Section Order.
Context (compare : D -> D -> Z).
Fixpoint sortedb (ds : list D) : bool :=
  match ds with
  | x :: (y :: _) as r => negb (0 <? compare x y) && sortedb r
  | _ => true
  end.
Lemma sorted_loop_eq h l ns fuel : l ∉ ns -> (length ns <= fuel)%nat -> forall c x ds,
  chain h (c :: ns ++ [l]) -> has h c x -> Forall2 (has h) ns ds ->
  sorted_loop compare (Some l) fuel (Some c) (nxt h c) h = Done (sortedb (x :: ds), h).
Proof.
  revert fuel. induction ns as [|a ns IH]; intros fuel Hl Hf c x ds C Hx Hd.
  - apply Forall2_nil_inv_l in Hd as ->. destruct C as [[-> _] _].
    destruct fuel; simpl; now rewrite bool_decide_true.
  - apply Forall2_cons_inv_l in Hd as (y & ds' & Hy & Hd & ->).
    destruct C as [[L L'] C]. rewrite L. destruct fuel as [|fuel]; [simpl in Hf; lia|].
    cbn [sorted_loop]. rewrite bool_decide_false by set_solver.
    step (lnode_get_eq h c x Hx). step (lnode_get_eq h a y Hy).
    cbn [sortedb]. destruct (0 <? compare x y); [done|]. cbn [negb andb].
    destruct (link_alive h c a ltac:(split; done)) as [_ A]. step (next_eq h a A).
    simpl in Hf. apply IH; [set_solver|lia|exact C|exact Hy|exact Hd].
Qed.
Lemma list_is_sorted_eq h l ns mc ds : is_list h l ns mc -> Forall2 (has h) ns ds ->
  list_is_sorted compare (Some l) h = Done (sortedb ds, h).
Proof.
  intros HL Hd. pose proof HL as (HH & C & N). apply NoDup_cons in N as [N _].
  pose proof (is_list_size _ _ _ _ HL) as Hs.
  unfold list_is_sorted. step (next_eq h l (is_list_alive _ _ _ _ l HL ltac:(left))).
  destruct ns as [|a ns].
  - apply Forall2_nil_inv_l in Hd as ->. destruct C as [[-> _] _].
    rewrite bool_decide_true by done. unfold mbind, M_bind, mret, M_ret, bounded, bound.
    simpl. now rewrite bool_decide_true.
  - apply Forall2_cons_inv_l in Hd as (y & ds' & Hy & Hd & ->).
    destruct C as [[-> _] C]. rewrite bool_decide_false by set_solver.
    step (next_eq h a (is_list_alive _ _ _ _ a HL ltac:(set_solver))).
    unfold bounded, bound. simpl in Hs. apply sorted_loop_eq with (ns := ns); try done; [set_solver|lia].
Qed.
Lemma find_loop_eq h l ns key fuel : l ∉ ns -> (length ns <= fuel)%nat -> forall c ds,
  chain h (c :: ns ++ [l]) -> Forall2 (has h) ns ds ->
  find_loop compare (Some l) key fuel (nxt h c) h =
  Done (fst <$> find (fun nd => compare nd.2 key =? 0) (zip ns ds), h).
Proof.
  revert fuel. induction ns as [|a ns IH]; intros fuel Hl Hf c ds C Hd.
  - apply Forall2_nil_inv_l in Hd as ->. destruct C as [[-> _] _].
    destruct fuel; simpl; now rewrite bool_decide_true.
  - apply Forall2_cons_inv_l in Hd as (y & ds' & Hy & Hd & ->).
    destruct C as [[L L'] C]. rewrite L. destruct fuel as [|fuel]; [simpl in Hf; lia|].
    cbn [find_loop]. rewrite bool_decide_false by set_solver.
    step (lnode_get_eq h a y Hy). simpl. destruct (compare y key =? 0); [done|].
    destruct (link_alive h c a ltac:(split; done)) as [_ A]. step (next_eq h a A).
    simpl in Hf. apply IH; [set_solver|lia|exact C|exact Hd].
Qed.
Lemma list_find_eq h l ns mc ds key : is_list h l ns mc -> Forall2 (has h) ns ds ->
  list_find compare (Some l) key h =
  Done (fst <$> find (fun nd => compare nd.2 key =? 0) (zip ns ds), h).
Proof.
  intros HL Hd. pose proof HL as (HH & C & N). apply NoDup_cons in N as [N _].
  pose proof (is_list_size _ _ _ _ HL) as Hs.
  unfold list_find. step (next_eq h l (is_list_alive _ _ _ _ l HL ltac:(left))).
  unfold bounded, bound. apply find_loop_eq; try done. lia.
Qed.
End Order.

(** *** Splitting off and merging *)
Lemma moved_loop_eq h z q : forall f fuel m, chain h (f :: q) -> NoDup (f :: q) ->
  last (f :: q) = Some z -> (length q <= fuel)%nat -> 0 <= m -> m + Z.of_nat (length q) < 2 ^ 64 ->
  moved_loop (Some z) fuel (Some f) m h = Done (m + Z.of_nat (length q), h).
Proof.
  induction q as [|b q IH]; intros f fuel m C N E Hf Hm Hb.
  - injection E as ->. destruct fuel; simpl; rewrite bool_decide_true by done;
      unfold mret, M_ret; do 2 f_equal; lia.
  - destruct fuel as [|fuel]; [simpl in Hf; lia|]. cbn [moved_loop].
    assert (z ∈ b :: q) by (eapply list_elem_of_lookup_2; rewrite <- last_lookup; exact E).
    apply NoDup_cons in N as [N1 N2]. rewrite bool_decide_false by (intros [= ->]; done).
    destruct C as [[L L'] C]. destruct (link_alive h f b ltac:(split; done)) as [A _].
    step (next_eq h f A). rewrite L. simpl in Hf, Hb. rewrite u64_small by lia.
    rewrite IH; try done; try lia. do 2 f_equal. simpl. lia.
Qed.

(** A segment survives when only the successor of its last node and the predecessor of
    its first node change. *)
Lemma seg_keep h h' a p p0 x : a :: p = p0 ++ [x] -> NoDup (a :: p) -> chain h (p0 ++ [x]) ->
  (forall b, b ∈ a :: p -> b <> x -> nxt h' b = nxt h b) ->
  (forall b, b ∈ a :: p -> b <> a -> prv h' b = prv h b) -> chain h' (p0 ++ [x]).
Proof.
  intros E N C Hn Hp. eapply chain_ext; [| |exact C]; intros b Hb.
  - rewrite removelast_last in Hb. apply Hn; [rewrite E; set_solver|].
    rewrite E in N. apply NoDup_app in N as (_ & X & _). intros ->. apply (X x Hb). left.
  - rewrite <- E in Hb. simpl in Hb. apply Hp; [set_solver|].
    apply NoDup_cons in N as [X _]. congruence.
Qed.

(** The three segments of a transfer: the rest [s :: p] of the source, the moved nodes
    [f :: q], the destination [d :: ms]; [x], [z] and [y] are their last nodes. *)
Section Transfer.
Context (h : @store D) (d : loc) (ms : list loc) (s : loc) (p : list loc) (f : loc) (q : list loc).
Context (p0 m0 t : list loc) (x y z : loc).
Context (Ep : s :: p = p0 ++ [x]) (Em : d :: ms = m0 ++ [y]) (Eq : f :: q = t ++ [z]).
Context (N : NoDup ((d :: ms) ++ (s :: p) ++ (f :: q))).
Context (CS : chain h (s :: (p ++ f :: q) ++ [s])) (CD : chain h (d :: ms ++ [d])).

Let Ix : x ∈ s :: p. Proof. rewrite Ep. set_solver. Qed.
Let Iy : y ∈ d :: ms. Proof. rewrite Em. set_solver. Qed.
Let Iz : z ∈ f :: q. Proof. rewrite Eq. set_solver. Qed.

Lemma transfer_apart : (forall a b, a ∈ d :: ms -> b ∈ s :: p -> a <> b) /\
  (forall a b, a ∈ d :: ms -> b ∈ f :: q -> a <> b) /\
  (forall a b, a ∈ s :: p -> b ∈ f :: q -> a <> b) /\
  NoDup (d :: ms) /\ NoDup (s :: p) /\ NoDup (f :: q).
Proof.
  apply NoDup_app in N as (N1 & X1 & N2). apply NoDup_app in N2 as (N2 & X2 & N3).
  split_and!; try done; intros a b Ha Hb ->;
    [apply (X1 b Ha)|apply (X1 b Ha)|apply (X2 b Ha)]; try done; apply elem_of_app; tauto.
Qed.
Lemma transfer_links :
  chain h (p0 ++ [x]) /\ link h x f /\ chain h (t ++ [z]) /\ link h z s /\
  chain h (m0 ++ [y]) /\ link h y d.
Proof.
  assert (RS : s :: (p ++ f :: q) ++ [s] = p0 ++ x :: f :: q ++ [s])
    by (rewrite <- app_assoc, app_comm_cons, Ep, <- app_assoc; done).
  assert (RQ : f :: q ++ [s] = t ++ z :: s :: [])
    by (rewrite app_comm_cons, Eq, <- app_assoc; done).
  assert (RD : d :: ms ++ [d] = m0 ++ y :: d :: [])
    by (rewrite app_comm_cons, Em, <- app_assoc; done).
  rewrite RS in CS. apply chain_app2 in CS as (C1 & L1 & C2).
  rewrite RQ in C2. apply chain_app2 in C2 as (C2 & L2 & _).
  rewrite RD in CD. apply chain_app2 in CD as (C3 & L3 & _). done.
Qed.

Section Relinked.
Context (h' : @store D).
Context (Hn : forall a, nxt h' a = if decide (y = a) then Some f else if decide (z = a) then Some d
            else if decide (x = a) then Some s else nxt h a).
Context (Hp : forall a, prv h' a = if decide (d = a) then Some z else if decide (f = a) then Some y
            else if decide (s = a) then Some x else prv h a).
Ltac relink := rewrite ?Hn, ?Hp; repeat case_decide; congruence.

Lemma transfer_source : chain h' (s :: p ++ [s]).
Proof.
  destruct transfer_apart as (A1 & A2 & A3 & N1 & N2 & N3).
  destruct transfer_links as (C1 & L1 & C2 & L2 & C3 & L3).
  pose proof (A1 d s ltac:(left) ltac:(left)). pose proof (A3 s f ltac:(left) ltac:(left)).
  pose proof (A1 y x Iy Ix). pose proof (A3 x z Ix Iz).
  rewrite app_comm_cons, Ep, <- app_assoc. apply chain_app2. split; [|split; [|done]].
  - apply (seg_keep h h' s p); [done..| |]; intros b Hb Hne.
    + pose proof (A1 y b Iy Hb). pose proof (A3 b z Hb Iz). relink.
    + pose proof (A1 d b ltac:(left) Hb). pose proof (A3 b f Hb ltac:(left)). relink.
  - split; relink.
Qed.
Lemma transfer_moved : chain h' (t ++ [z]).
Proof.
  destruct transfer_apart as (A1 & A2 & A3 & N1 & N2 & N3).
  destruct transfer_links as (C1 & L1 & C2 & L2 & C3 & L3).
  apply (seg_keep h h' f q); [done..| |]; intros b Hb Hne.
  - pose proof (A2 y b Iy Hb). pose proof (A3 x b Ix Hb). relink.
  - pose proof (A2 d b ltac:(left) Hb). pose proof (A3 s b ltac:(left) Hb). relink.
Qed.
Lemma transfer_dest : chain h' (d :: (ms ++ f :: q) ++ [d]).
Proof.
  destruct transfer_apart as (A1 & A2 & A3 & N1 & N2 & N3).
  destruct transfer_links as (C1 & L1 & C2 & L2 & C3 & L3).
  pose proof (A2 d f ltac:(left) ltac:(left)). pose proof (A2 y z Iy Iz).
  assert (R : d :: (ms ++ f :: q) ++ [d] = m0 ++ y :: f :: (q ++ [d]))
    by (rewrite <- app_assoc, app_comm_cons, Em, <- app_assoc; done).
  assert (RQ : f :: q ++ [d] = t ++ z :: d :: [])
    by (rewrite app_comm_cons, Eq, <- app_assoc; done).
  rewrite R. apply chain_app2. rewrite RQ, chain_app2. split_and!; try done.
  - apply (seg_keep h h' d ms); [done..| |]; intros b Hb Hne.
    + pose proof (A1 b x Hb Ix). pose proof (A2 b z Hb Iz). relink.
    + pose proof (A1 b s Hb ltac:(left)). pose proof (A2 b f Hb ltac:(left)). relink.
  - split; relink.
  - apply transfer_moved.
  - split; relink.
Qed.
End Relinked.
End Transfer.

(** The seven writes of a transfer. *)
Lemma transfer_writes h d s f x y z (X : list loc) :
  nxt h x = Some f -> prv h f = Some x -> prv h d = Some y ->
  alive h s -> alive h x -> alive h z -> alive h f -> alive h d -> alive h y ->
  s <> d -> f <> d -> s <> f -> x <> y -> x <> z -> z <> y ->
  s ∈ X -> x ∈ X -> z ∈ X -> f ∈ X -> d ∈ X -> y ∈ X ->
  exists h', (forall a, nxt h' a = if decide (y = a) then Some f else if decide (z = a)
       then Some d else if decide (x = a) then Some s else nxt h a) /\
     (forall a, prv h' a = if decide (d = a) then Some z else if decide (f = a)
       then Some y else if decide (s = a) then Some x else prv h a) /\
     hdrs h' = hdrs h /\ frame X h h' /\
  forall A (k : CM (@store D) A),
  (set_prev (Some s) (Some x);; fp ← prev (Some f); set_next fp (Some s);;
   set_next (Some z) (Some d);; dp ← prev (Some d); set_prev (Some f) dp;;
   dp ← prev (Some d); set_next dp (Some f);; set_prev (Some d) (Some z);; k) h = k h'.
Proof.
  intros Nx Pf Pd As Ax Az Af Ad Ay Nsd Nfd Nsf Nxy Nxz Nzy Is Ix Iz If Id Iy.
  set (h1 := upd_prev h s (Some x)). set (h2 := upd_next h1 x (Some s)).
  set (h3 := upd_next h2 z (Some d)). set (h4 := upd_prev h3 f (Some y)).
  set (h5 := upd_next h4 y (Some f)).
  exists (upd_prev h5 d (Some z)). split_and!.
  - intros a; unfold h5, h4, h3, h2, h1; upds; done.
  - intros a; unfold h5, h4, h3, h2, h1; upds; done.
  - done.
  - unfold h5, h4, h3, h2, h1. frames_by ltac:(assumption).
  - intros A k. step (set_prev_eq h s (Some x) As). fold h1.
    step (prev_eq h1 f ltac:(unfold h1; now autorewrite with store)).
    replace (prv h1 f) with (Some x) by (symmetry; unfold h1; links).
    step (set_next_eq h1 x (Some s) ltac:(unfold h1; now autorewrite with store)). fold h2.
    step (set_next_eq h2 z (Some d) ltac:(unfold h2, h1; now autorewrite with store)). fold h3.
    step (prev_eq h3 d ltac:(unfold h3, h2, h1; now autorewrite with store)).
    replace (prv h3 d) with (Some y) by (symmetry; unfold h3, h2, h1; links).
    step (set_prev_eq h3 f (Some y) ltac:(unfold h3, h2, h1; now autorewrite with store)). fold h4.
    step (prev_eq h4 d ltac:(unfold h4, h3, h2, h1; now autorewrite with store)).
    replace (prv h4 d) with (Some y) by (symmetry; unfold h4, h3, h2, h1; links).
    step (set_next_eq h4 y (Some f) ltac:(unfold h4, h3, h2, h1; now autorewrite with store)). fold h5.
    step (set_prev_eq h5 d (Some z) ltac:(unfold h5, h4, h3, h2, h1; now autorewrite with store)).
    done.
Qed.

Lemma list_transfer_eq h d ms dmc s ns smc p f q :
  is_list h d ms dmc -> is_list h s ns smc -> (forall a, a ∈ d :: ms -> a ∉ s :: ns) ->
  ns = p ++ f :: q -> Z.of_nat (length ns) <= smc < 2 ^ 64 ->
  Z.of_nat (length ms + length (f :: q)) <= dmc < 2 ^ 64 ->
  exists h', ow_list_transfer (Some d) (Some s) (Some f) h = Done (tt, h') /\
    is_list h' s p smc /\ is_list h' d (ms ++ f :: q) dmc /\ frame (d :: ms ++ s :: ns) h h'.
Proof.
  intros HD HS Hdis E Bs Bd.
  destruct (exists_last (l := s :: p) ltac:(done)) as (p0 & x & Ep).
  destruct (exists_last (l := d :: ms) ltac:(done)) as (m0 & y & Em).
  destruct (exists_last (l := f :: q) ltac:(done)) as (t & z & Eq).
  pose proof HS as (HSh & CS & NS). pose proof HD as (HDh & CD & ND). rewrite E in CS, NS.
  assert (N : NoDup ((d :: ms) ++ (s :: p) ++ (f :: q))).
  { apply NoDup_app. split; [done|]. split; [|exact NS]. intros a Ha.
    rewrite <- app_comm_cons, <- E. exact (Hdis a Ha). }
  destruct (transfer_apart _ _ _ _ _ _ N) as (A1 & A2 & A3 & N1 & N2 & N3).
  destruct (transfer_links h d ms s p f q p0 m0 t x y z Ep Em Eq CS CD) as (C1 & L1 & C2 & L2 & C3 & L3).
  destruct (link_alive _ _ _ L1) as [Ax Af], (link_alive _ _ _ L2) as [Az As],
    (link_alive _ _ _ L3) as [Ay Ad].
  assert (Ix : x ∈ s :: p) by (rewrite Ep; clear; set_solver).
  assert (Iy : y ∈ d :: ms) by (rewrite Em; clear; set_solver).
  assert (Iz : z ∈ f :: q) by (rewrite Eq; clear; set_solver).
  assert (Is : s ∈ s :: p) by left. assert (If : f ∈ f :: q) by left.
  assert (Id : d ∈ d :: ms) by left.
  assert (IX : forall a, a ∈ d :: ms \/ a ∈ s :: p \/ a ∈ f :: q -> a ∈ d :: ms ++ s :: ns)
    by (rewrite E; clear; set_solver).
  unfold ow_list_transfer. step (list_contains_eq _ _ (Some f) _ _ HS).
  rewrite mem_Some, bool_decide_true by (rewrite E; clear; set_solver).
  step (massert_true true h eq_refl).
  step (prev_eq h s As). rewrite (proj2 L2). step (prev_eq h f Af). rewrite (proj2 L1).
  destruct (transfer_writes h d s f x y z (d :: ms ++ s :: ns)) as (h6 & Hn6 & Hp6 & Hh6 & F6 & K);
    try done; try (apply IX; tauto); try apply L1; try apply L3; eauto using not_eq_sym.
  rewrite K. clear K.
  assert (Lq : (length q <= bound h6)%nat).
  { pose proof (is_list_size _ _ _ _ HS) as X. rewrite E, length_app in X. simpl in X.
    rewrite (frame_bound _ _ _ F6). unfold bound. lia. }
  assert (Lns : length ns = (length p + S (length q))%nat) by (rewrite E, length_app; done).
  pose proof (transfer_moved h d ms s p f q p0 m0 t x y z Ep Em Eq N CS CD h6 Hn6 Hp6) as CM.
  rewrite <- Eq in CM. simpl in Bd.
  assert (Lz : last (f :: q) = Some z) by now rewrite Eq, last_snoc.
  assert (Hm : bounded (fun fuel => moved_loop (Some z) fuel (Some f) 1) h6
               = Done (1 + Z.of_nat (length q), h6))
    by (unfold bounded; apply moved_loop_eq; done || lia).
  step Hm. rewrite <- Hh6 in HSh, HDh.
  step (get_hdr_eq _ _ _ HSh). simpl nodecount.
  step (massert_true (1 + Z.of_nat (length q) <=? Z.of_nat (length ns)) h6 ltac:(lia)).
  step (set_count_eq h6 s _ (fun c => u64 (c - (1 + Z.of_nat (length q)))) HSh).
  set (h7 := upd_count h6 s _).
  assert (Nsd : d <> s) by eauto.
  assert (HDh7 : hdrs h7 !! d = Some (Hdr (Z.of_nat (length ms)) dmc))
    by (simpl; rewrite lookup_alter_ne; done).
  step (set_count_eq h7 d _ (fun c => u64 (c + (1 + Z.of_nat (length q)))) HDh7).
  set (h8 := upd_count h7 d _).
  assert (RS : is_list h8 s p smc).
  { split; [|split; [|done]].
    - simpl. rewrite lookup_alter_ne, lookup_alter_eq, HSh by done. simpl. do 2 f_equal.
      rewrite u64_small; lia.
    - now eapply (transfer_source h d ms s p f q p0 m0 t x y z). }
  assert (RD : is_list h8 d (ms ++ f :: q) dmc).
  { split; [|split].
    - simpl. rewrite lookup_alter_eq, lookup_alter_ne, HDh by done. simpl. do 2 f_equal.
      rewrite length_app. simpl. rewrite u64_small; lia.
    - now eapply (transfer_dest h d ms s p f q p0 m0 t x y z).
    - apply NoDup_app in N as (N4 & X & _). rewrite app_comm_cons. apply NoDup_app.
      split_and!; [done| |done]. intros a Ha Hq. apply (X a Ha), elem_of_app. now right. }
  exists h8. split_and!; try done.
  - step (list_verify_eq h8 s p smc RS ltac:(lia)). step (massert_true true h8 eq_refl).
    step (list_verify_eq h8 d _ dmc RD ltac:(rewrite length_app; simpl; lia)). done.
  - unfold h8, h7. eapply frame_trans; [exact F6|]. frames_by ltac:(apply IX; tauto).
Qed.
End Proofs.
End KazList.
