(* ===== verification/KazSort.v ===== *)
(** * KazSort: merging and sorting the lists of libu (lib/u/list.c)

    The specification is a merge of lists of (node, data) pairs; the theorems say that
    [ow_list_merge] and [ow_list_sort] compute it on the ring, without an assertion
    failing and within the fuel, and touch nothing else. *)
From S2P Require Import Prelude KazList.
Import KazList.

Module KazSort.
Section KazSort.
Context {D : Type}.
Implicit Types (h : @store D) (l a b : loc).

Definition loaded h (ms : list (loc * D)) : Prop := Forall (fun nd => has h nd.1 nd.2) ms.
Lemma loaded_frame X h h' ms : frame X h h' -> loaded h ms -> loaded h' ms.
Proof. intros F H. eapply Forall_impl; [exact H|]. eauto using has_frame. Qed.
Lemma loaded_has h ms : loaded h ms -> Forall2 (has h) ms.*1 ms.*2.
Proof. induction 1; simpl; constructor; auto. Qed.
Lemma nodup_size h ns : NoDup ns -> (forall a, a ∈ ns -> alive h a) -> (length ns <= size (nodes h))%nat.
Proof.
  intros N A. assert (S : (list_to_set ns : gset loc) ⊆ dom (nodes h)).
  { intros a Ha. apply elem_of_dom, A. set_solver. }
  apply subseteq_size in S. now rewrite size_list_to_set, size_dom in S by done.
Qed.
Lemma two_lists_size h d ms dmc s ns smc : is_list h d ms dmc -> is_list h s ns smc ->
  (forall a, a ∈ d :: ms -> a ∉ s :: ns) -> (length ms + length ns < size (nodes h))%nat.
Proof.
  intros HD HS Hdis. pose proof (nodup_size h ((d :: ms) ++ (s :: ns))) as X.
  rewrite length_app in X. simpl in X. enough (length ms + S (length ns) < size (nodes h))%nat by lia.
  apply X.
  - apply (NoDup_app (d :: ms) (s :: ns)). split_and!; [apply HD|done|apply HS].
  - intros a Ha. rewrite app_comm_cons in Ha. apply elem_of_app in Ha as [Ha|Ha];
      eauto using is_list_alive.
Qed.

Section Sort.
Context (compare : D -> D -> Z).

(** What [ow_list_merge] computes: on a tie the node of the source goes first. *)
Fixpoint mergel (ms : list (loc * D)) : list (loc * D) -> list (loc * D) :=
  match ms with
  | [] => fun ns => ns
  | (a, x) :: ms' => fix go ns :=
      match ns with
      | [] => (a, x) :: ms'
      | (b, y) :: ns' =>
          if 0 <=? compare x y then (b, y) :: go ns' else (a, x) :: mergel ms' ns
      end
  end.
Lemma mergel_nil (ms : list (loc * D)) : mergel ms [] = ms.
Proof. now destruct ms as [|[a x] ms]. Qed.
Lemma mergel_cons a x ms b y (ns : list (loc * D)) : mergel ((a, x) :: ms) ((b, y) :: ns) =
  if 0 <=? compare x y then (b, y) :: mergel ((a, x) :: ms) ns
  else (a, x) :: mergel ms ((b, y) :: ns).
Proof. done. Qed.
Lemma mergel_perm (ms ns : list (loc * D)) : mergel ms ns ≡ₚ ms ++ ns.
Proof.
  revert ns. induction ms as [|[a x] ms IH]; [done|]. intros ns.
  induction ns as [|[b y] ns IHn]; [now rewrite mergel_nil, app_nil_r|].
  rewrite mergel_cons. destruct (0 <=? compare x y).
  - rewrite IHn. apply Permutation_middle.
  - now rewrite IH.
Qed.

(** The first node of a list, or the end of the ring. *)
Definition start (ms : list (loc * D)) l : ptr :=
  Some (match ms with (a, _) :: _ => a | [] => l end).
Lemma start_nil h l ms mc : is_list h l ms.*1 mc -> bool_decide (start ms l = Some l) = bool_decide (ms = []).
Proof.
  intros (_ & _ & N). apply NoDup_cons in N as [N _].
  destruct ms as [|[a x] ms]; simpl; [now rewrite !bool_decide_true|].
  rewrite !bool_decide_false; [done..|]. intros [= ->]. set_solver.
Qed.
Lemma chain_start h c ms l : chain h (c :: ms.*1 ++ [l]) -> nxt h c = start ms l.
Proof. destruct ms as [|[a x] ms]; simpl; now intros [[-> _] _]. Qed.
Lemma next_start h l mc pre a x ms : is_list h l (pre ++ (a, x) :: ms).*1 mc ->
  next (Some a) h = Done (start ms l, h).
Proof.
  intros HL. rewrite next_eq by (eapply is_list_alive; [exact HL|]; rewrite fmap_app; set_solver).
  destruct HL as (_ & C & _).
  assert (E : l :: (pre ++ (a, x) :: ms).*1 ++ [l] = (l :: pre.*1) ++ a :: ms.*1 ++ [l])
    by (rewrite fmap_app, <- app_assoc; done).
  rewrite E in C. apply chain_app in C as [_ C]. now rewrite (chain_start _ _ _ _ C).
Qed.
Lemma next_first h l mc ms : is_list h l ms.*1 mc -> next (Some l) h = Done (start ms l, h).
Proof.
  intros HL. rewrite next_eq by (eapply is_list_alive; [exact HL|left]).
  destruct HL as (_ & C & _). now rewrite (chain_start _ _ _ _ C).
Qed.

(** Moving the first node of the source before a node of the destination. *)
Lemma move_eq h d dmc s smc (pre rest ns : list (loc * D)) a b (x y : D) :
  is_list h d (pre ++ (a, x) :: rest).*1 dmc -> is_list h s ((b, y) :: ns).*1 smc ->
  (forall c, c ∈ d :: (pre ++ (a, x) :: rest).*1 -> c ∉ s :: ((b, y) :: ns).*1) ->
  Z.of_nat (length (pre ++ (a, x) :: rest) + S (length ns)) <= dmc < 2 ^ 64 ->
  exists h', (_ ← list_delete (Some s) (Some b); list_ins_before (Some d) (Some b) (Some a)) h
      = Done (tt, h') /\
    is_list h' d ((pre ++ [(b, y)]) ++ (a, x) :: rest).*1 dmc /\ is_list h' s ns.*1 smc /\
    (forall c, c ∈ d :: ((pre ++ [(b, y)]) ++ (a, x) :: rest).*1 -> c ∉ s :: ns.*1) /\
    frame ((d :: (pre ++ (a, x) :: rest).*1) ++ (s :: ((b, y) :: ns).*1)) h h'.
Proof.
  intros HD HS Hdis Hc. rewrite length_app in Hc. simpl in Hc.
  destruct (list_delete_eq h s _ smc [] b ns.*1 HS eq_refl) as (h1 & E1 & HS1 & Hb & F1);
    [simpl; rewrite length_fmap; lia|]. simpl in HS1.
  assert (HD1 : is_list h1 d (pre ++ (a, x) :: rest).*1 dmc)
    by (eapply is_list_frame; [exact HD|exact F1|]; intros c Hcs Hcd; exact (Hdis c Hcd Hcs)).
  destruct (list_ins_before_eq h1 d _ dmc b pre.*1 a (rest.*1 ++ [d]) HD1 Hb) as (h2 & ns' & E2 & En & HD2 & F2);
    [rewrite fmap_app, <- app_assoc; done|rewrite length_fmap, length_app; simpl; lia|].
  assert (En' : ns' = ((pre ++ [(b, y)]) ++ (a, x) :: rest).*1).
  { rewrite !fmap_app, <- app_assoc. simpl. change (b :: a :: rest.*1 ++ [d]) with ([b; a] ++ (rest.*1 ++ [d])) in En.
    rewrite (app_assoc _ [b; a]), app_assoc in En. apply app_inj_tail in En as [-> _].
    now rewrite <- app_assoc. }
  subst ns'. exists h2. step E1. split; [exact E2|]. split; [exact HD2|].
  pose proof (is_list_free _ _ _ _ _ HS1 Hb) as Hbs.
  assert (Hdis' : forall c, c ∈ d :: (pre ++ (a, x) :: rest).*1 -> c ∉ s :: ns.*1).
  { intros c Hd Hs. apply (Hdis c Hd). simpl. clear -Hs. set_solver. }
  split; [|split].
  - eapply is_list_frame; [exact HS1|exact F2|]. intros c Hcd.
    apply elem_of_cons in Hcd as [->|Hcd]; [exact Hbs|eauto].
  - intros c Hd. destruct (decide (c = b)) as [->|Hne]; [exact Hbs|apply Hdis'].
    revert Hd Hne. rewrite !fmap_app, !elem_of_cons, !elem_of_app. simpl.
    rewrite !elem_of_cons, not_elem_of_nil || rewrite !elem_of_cons, elem_of_nil. clear. tauto.
  - eapply frame_trans; [eapply frame_mono; [|exact F1]|eapply frame_mono; [|exact F2]].
    + intros c Hi. apply elem_of_app. now right.
    + intros c [->|Hi]%elem_of_cons; apply elem_of_app; [right; right; left|now left].
Qed.

Lemma merge_loop_eq fuel : forall h d dmc s smc (pre rest ns : list (loc * D)),
  is_list h d (pre ++ rest).*1 dmc -> is_list h s ns.*1 smc ->
  (forall c, c ∈ d :: (pre ++ rest).*1 -> c ∉ s :: ns.*1) -> loaded h rest -> loaded h ns ->
  Z.of_nat (length (pre ++ rest) + length ns) <= dmc < 2 ^ 64 ->
  (length rest + length ns <= fuel)%nat ->
  exists h' pre' rest' ns',
    merge_loop compare fuel (Some d) (Some s) (start rest d) (start ns s) h
      = Done ((start rest' d, start ns' s), h') /\
    is_list h' d (pre' ++ rest').*1 dmc /\ is_list h' s ns'.*1 smc /\
    (forall c, c ∈ d :: (pre' ++ rest').*1 -> c ∉ s :: ns'.*1) /\
    (rest' = [] \/ ns' = []) /\ (length ns' <= length ns)%nat /\
    pre' ++ rest' ++ ns' = pre ++ mergel rest ns /\
    frame ((d :: (pre ++ rest).*1) ++ (s :: ns.*1)) h h'.
Proof.
  induction fuel as [|fuel IH]; intros h d dmc s smc pre rest ns HD HS Hdis Lr Ln Hc Hf.
  { destruct rest, ns; simpl in Hf; try lia. exists h, pre, [], [].
    simpl. rewrite bool_decide_true by done. split_and!; try done. now left. }
  cbn [merge_loop]. destruct rest as [|[a x] rest].
  { exists h, pre, [], ns. simpl. rewrite bool_decide_true by done. split_and!; try done. now left. }
  rewrite fmap_app in HD, Hdis. destruct ns as [|[b y] ns].
  { exists h, pre, ((a, x) :: rest), []. simpl start. rewrite (bool_decide_true (Some s = _)) by done.
    rewrite orb_true_r, mergel_nil, app_nil_r, fmap_app. split_and!; try done. now right. }
  assert (Ha : a <> d).
  { intros ->. destruct HD as (_ & _ & N). apply NoDup_cons in N as [N _]. apply N.
    apply elem_of_app. right. left. }
  assert (Hb : b <> s).
  { intros ->. destruct HS as (_ & _ & N). apply NoDup_cons in N as [N _]. apply N. left. }
  change (start ((a, x) :: rest) d) with (Some a). change (start ((b, y) :: ns) s) with (Some b).
  rewrite !bool_decide_false by congruence. cbn [orb].
  rewrite <- fmap_app in HD, Hdis.
  pose proof (proj1 (Forall_cons _ _ _) Lr) as [Hx Lr']. pose proof (proj1 (Forall_cons _ _ _) Ln) as [Hy Ln'].
  step (lnode_get_eq h a x Hx). step (lnode_get_eq h b y Hy).
  rewrite mergel_cons. destruct (0 <=? compare x y).
  - step (next_start h s smc [] b y ns HS).
    destruct (move_eq h d dmc s smc pre rest ns a b x y HD HS Hdis ltac:(simpl in Hc; lia))
      as (h1 & E1 & HD1 & HS1 & Hdis1 & F1).
    unfold mbind, M_bind in E1 |- *.
    destruct (list_delete (Some s) (Some b) h) as [[r h0]| | |]; try discriminate E1. rewrite E1.
    destruct (IH h1 d dmc s smc (pre ++ [(b, y)]) ((a, x) :: rest) ns) as
      (h2 & pre' & rest' & ns' & E2 & HD2 & HS2 & Hdis2 & Hend & Hle & Eq & F2);
      try done; try (eapply loaded_frame; eassumption).
    { rewrite !length_app in *. simpl in *. lia. } { simpl in *. lia. }
    exists h2, pre', rest', ns'. split_and!; try done.
    + simpl. lia.
    + rewrite Eq, <- app_assoc. done.
    + eapply frame_trans; [exact F1|]. eapply frame_mono; [|exact F2].
      intros c. rewrite !fmap_app, !elem_of_app, !elem_of_cons, !elem_of_app. simpl.
      rewrite !elem_of_cons, elem_of_nil. clear. tauto.
  - step (next_start h d dmc pre a x rest HD).
    assert (Ep : pre ++ (a, x) :: rest = (pre ++ [(a, x)]) ++ rest) by now rewrite <- app_assoc.
    rewrite Ep in *.
    destruct (IH h d dmc s smc (pre ++ [(a, x)]) rest ((b, y) :: ns)) as
      (h2 & pre' & rest' & ns' & E2 & HD2 & HS2 & Hdis2 & Hend & Hle & Eq & F2); try done.
    { simpl in *. lia. }
    exists h2, pre', rest', ns'. split_and!; try done. rewrite Eq, <- app_assoc. done.
Qed.

(** [ow_list_merge] merges two sorted disjoint lists into the destination, in the order the
    specification [mergel] gives, leaves the source empty and touches no other list. *)
Lemma list_merge_eq h d dmc s smc (ms ns : list (loc * D)) :
  is_list h d ms.*1 dmc -> is_list h s ns.*1 smc ->
  (forall c, c ∈ d :: ms.*1 -> c ∉ s :: ns.*1) -> loaded h ms -> loaded h ns ->
  sortedb compare ms.*2 = true -> sortedb compare ns.*2 = true ->
  Z.of_nat (length ms + length ns) <= dmc < 2 ^ 64 -> Z.of_nat (length ns) <= smc < 2 ^ 64 ->
  exists h', ow_list_merge compare (Some d) (Some s) h = Done (tt, h') /\
    is_list h' d (mergel ms ns).*1 dmc /\ is_list h' s [] smc /\
    frame ((d :: ms.*1) ++ (s :: ns.*1)) h h'.
Proof.
  intros HD HS Hdis Lm Ln Sm Sn Hc Hs.
  assert (Nds : d <> s) by (intros ->; apply (Hdis s); left).
  unfold ow_list_merge. rewrite bool_decide_false by congruence.
  step (list_is_sorted_eq _ h s _ _ _ HS (loaded_has _ _ Ln)). rewrite Sn.
  step (massert_true true h eq_refl).
  step (list_is_sorted_eq _ h d _ _ _ HD (loaded_has _ _ Lm)). rewrite Sm.
  step (massert_true true h eq_refl).
  step (next_first h d _ _ HD). step (next_first h s _ _ HS).
  pose proof (two_lists_size _ _ _ _ _ _ _ HD HS Hdis) as Sz. rewrite !length_fmap in Sz.
  destruct (merge_loop_eq (bound h) h d dmc s smc [] ms ns) as
    (h1 & pre & rest & ns' & E1 & HD1 & HS1 & Hdis1 & Hend & Hle & Eq & F1);
    try done; [unfold bound; lia|]. simpl in Eq, F1.
  rewrite (mbind_eq (bounded _) _ _ _ _ E1). cbv beta iota zeta.
  assert (Lp : (length (pre ++ rest) + length ns' = length ms + length ns)%nat).
  { rewrite !length_app. pose proof (f_equal length Eq) as X. rewrite !length_app in X.
    pose proof (Permutation_length (mergel_perm ms ns)) as Y. rewrite length_app in Y. lia. }
  destruct rest as [|[a x] rest].
  - rewrite (bool_decide_false (start [] d <> Some d)) by (intros X; now apply X).
    rewrite app_nil_r in *. destruct ns' as [|[b y] ns'].
    + rewrite bool_decide_false by (intros X; now apply X).
      rewrite app_nil_r in Eq. subst pre. now exists h1.
    + assert (b <> s).
      { intros ->. destruct HS1 as (_ & _ & N). apply NoDup_cons in N as [N _]. apply N. left. }
      rewrite bool_decide_true by (intros [= ->]; done). simpl start.
      destruct (list_transfer_eq h1 d pre.*1 dmc s _ smc [] b ns'.*1 HD1 HS1 Hdis1 eq_refl)
        as (h2 & E2 & HS2 & HD2 & F2).
      { simpl in *. rewrite length_fmap. lia. } { simpl in *. rewrite !length_fmap. lia. }
      exists h2. split_and!; [done| |done|].
      * rewrite <- Eq, fmap_app. exact HD2.
      * eapply frame_trans; [exact F1|]. eapply frame_mono; [|exact F2].
        pose proof (mergel_perm ms ns) as P. rewrite <- Eq in P. simpl in P.
        apply (fmap_Permutation fst) in P. rewrite !fmap_app in P.
        intros c. simpl. repeat rewrite ?elem_of_app, ?elem_of_cons.
        assert (Hp : c ∈ pre.*1 ++ b :: ns'.*1 <-> c ∈ ms.*1 ++ ns.*1) by (now rewrite P).
        rewrite !elem_of_app, elem_of_cons in Hp. clear -Hp. tauto.
  - assert (a <> d).
    { intros ->. destruct HD1 as (_ & _ & N). rewrite fmap_app in N.
      apply NoDup_cons in N as [N _]. apply N, elem_of_app. right. left. }
    rewrite bool_decide_true by (intros [= ->]; done).
    destruct Hend as [? | ->]; [done|]. rewrite app_nil_r in Eq. rewrite <- Eq. now exists h1.
Qed.

(** *** The local list of [ow_list_sort] *)
Definition ext (e : loc) h h' : Prop :=
  nodes h !! e = None /\ (forall a, a <> e -> nodes h' !! a = nodes h !! a) /\
  (forall a, a <> e -> hdrs h' !! a = hdrs h !! a) /\
  dat h' e = None /\ tick h' = tick h /\ freed h' = freed h.
Lemma ext_alive e h h' a : ext e h h' -> alive h a -> a <> e.
Proof. intros (E & _) [n Hn] ->. congruence. Qed.
Lemma is_list_ext e h h' l ns mc : ext e h h' -> is_list h l ns mc -> is_list h' l ns mc.
Proof.
  intros X HL.
  assert (A : forall a, a ∈ l :: ns -> a <> e)
    by (intros a Ha; eapply ext_alive, is_list_alive; eassumption).
  destruct X as (_ & X1 & X2 & _). destruct HL as (H & C & N).
  split; [rewrite X2; [done|apply A; left]|split; [|done]].
  eapply chain_ext; [| |exact C]; intros a Ha; unfold nxt, prv.
  - rewrite app_comm_cons, removelast_last in Ha. rewrite X1; auto.
  - simpl in Ha. rewrite X1; [done|]. apply A. apply elem_of_app in Ha as [Ha|Ha].
    + now right.
    + apply list_elem_of_singleton in Ha as ->. left.
Qed.
Lemma loaded_ext e h h' ms : ext e h h' -> loaded h ms -> loaded h' ms.
Proof.
  intros X H. eapply Forall_impl; [exact H|]. intros [a x] Ha. unfold has, dat in *. simpl in *.
  assert (a <> e) by (eapply ext_alive; [exact X|]; unfold alive; destruct (nodes h !! a); [eauto|discriminate]).
  destruct X as (_ & X1 & _). now rewrite X1.
Qed.
Lemma stack_list_eq h m : m <> 0 ->
  exists e h1 h2, stack_list h = Done (Some e, h1) /\ list_init (Some e) m h1 = Done (Some e, h2) /\
    is_list h2 e [] m /\ ext e h h2.
Proof.
  intros Hm. set (e := fresh (dom (nodes h) : gset loc)).
  assert (He : nodes h !! e = None) by (apply not_elem_of_dom, is_fresh).
  set (h1 := set_nodes h (<[e := Node None None None]> (nodes h))).
  set (h2 := upd_prev (upd_next h1 e (Some e)) e (Some e)).
  assert (A : alive h1 e) by (unfold alive, h1; simpl; rewrite lookup_insert_eq; eauto).
  assert (A2 : alive (upd_next h1 e (Some e)) e) by now apply alive_upd_next.
  exists e, h1, (set_hdrs h2 (<[e := Hdr 0 m]> (hdrs h2))). split; [done|]. split; [|split; [split|]].
  - unfold list_init. rewrite (proj2 (Z.eqb_neq m 0) Hm).
    step (massert_true true h1 eq_refl). unfold addr_of.
    rewrite (mbind_eq (mret e) _ h1 e h1 eq_refl). step (set_next_eq h1 e (Some e) A).
    now step (set_prev_eq _ e (Some e) A2).
  - simpl. apply lookup_insert_eq.
  - split; [|apply NoDup_singleton]. split; [|done]. split.
    + change (nxt h2 e = Some e). unfold h2. rewrite nxt_upd_prev, nxt_upd_next by done.
      now rewrite decide_True.
    + change (prv h2 e = Some e). unfold h2. rewrite prv_upd_prev by done. now rewrite decide_True.
  - split; [done|]. split; [|split; [|split; [|done]]].
    + intros a Ha. simpl. rewrite !lookup_alter_ne, lookup_insert_ne by done. done.
    + intros a Ha. simpl. now rewrite lookup_insert_ne.
    + unfold dat. simpl. now rewrite !lookup_alter_eq, lookup_insert_eq.
Qed.
Lemma stack_free_eq e h h2 h3 X : ext e h h2 -> alive h2 e -> frame (e :: X) h2 h3 ->
  exists h4, free_node (Some e) h3 = Done (tt, h4) /\ frame X h h4 /\
    forall l ns mc, is_list h3 l ns mc -> e ∉ l :: ns -> is_list h4 l ns mc.
Proof.
  intros (E0 & E1 & E2 & E3 & E4 & E5) A (F1 & F2 & F3 & F4 & F5 & F6).
  pose proof A as [n3 Hn3]%F4.
  exists (Store (delete e (nodes h3)) (delete e (hdrs h3)) (tick h3) (freed h3)).
  split; [|split].
  - unfold free_node. now rewrite Hn3.
  - assert (K : forall a, a <> e -> a ∉ X -> a ∉ e :: X) by (intros a H1 H2; rewrite not_elem_of_cons; done).
    split; [|split; [|split; [|split; [|simpl; split; congruence]]]]; intros a; simpl.
    + intros Ha. destruct (decide (a = e)) as [->|Hne]; [now rewrite lookup_delete_eq|].
      rewrite lookup_delete_ne by done. rewrite F1 by auto. auto.
    + intros Ha Hal. assert (Hne : a <> e) by (intros ->; destruct Hal; congruence).
      rewrite lookup_delete_ne by done. rewrite F2, E2; auto. now rewrite E1.
    + unfold dat. simpl. destruct (decide (a = e)) as [->|Hne].
      * now rewrite lookup_delete_eq, E0.
      * rewrite lookup_delete_ne by done. change (dat h3 a = dat h a). rewrite F3.
        unfold dat. now rewrite E1.
    + destruct (decide (a = e)) as [->|Hne].
      * rewrite lookup_delete_eq, E0. done.
      * rewrite lookup_delete_ne by done. rewrite F4, E1; done.
  - intros l ns mc (H & C & N) He. split; [|split; [|done]].
    + simpl. rewrite lookup_delete_ne; [done|]. intros ->. apply He. left.
    + eapply chain_ext; [| |exact C]; intros a Ha; unfold nxt, prv; simpl;
        rewrite lookup_delete_ne; try done; intros ->; apply He.
      * now rewrite app_comm_cons, removelast_last in Ha.
      * simpl in Ha. apply elem_of_app in Ha as [Ha|Ha]; [now right|].
        apply list_elem_of_singleton in Ha as ->. left.
Qed.
Lemma advance_eq h p : forall c f, chain h (c :: p ++ [f]) ->
  advance (length p) (nxt h c) h = Done (Some f, h).
Proof.
  induction p as [|a p IH]; intros c f C.
  - destruct C as [[-> _] _]. done.
  - destruct C as [L C]. destruct (link_alive _ _ _ L) as [_ A]. destruct L as [-> _]. cbn [advance length].
    step (next_eq h a A). now apply IH.
Qed.

(** *** Sortedness *)
Definition lead (z : D) (ms : list (loc * D)) : bool :=
  match ms with [] => true | (_, y) :: _ => negb (0 <? compare z y) end.
Lemma sortedb_lead a z ms : sortedb compare ((a, z) :: ms).*2 = lead z ms && sortedb compare ms.*2.
Proof. now destruct ms as [|[b y] ms]. Qed.
Lemma lead_mergel z ms ns : lead z ms = true -> lead z ns = true -> lead z (mergel ms ns) = true.
Proof.
  destruct ms as [|[a x] ms]; [done|]. destruct ns as [|[b y] ns]; [done|].
  rewrite mergel_cons. now destruct (0 <=? compare x y).
Qed.
Lemma mergel_sorted (ms ns : list (loc * D)) : (forall x y, 0 <= compare x y -> compare y x <= 0) ->
  sortedb compare ms.*2 = true -> sortedb compare ns.*2 = true ->
  sortedb compare (mergel ms ns).*2 = true.
Proof.
  intros T. revert ns. induction ms as [|[a x] ms IH]; [done|]. intros ns Sm.
  induction ns as [|[b y] ns IHn]; intros Sn; [done|].
  pose proof Sm as Sm'. pose proof Sn as Sn'. rewrite sortedb_lead in Sm', Sn'.
  apply andb_true_iff in Sm' as [L1 S1], Sn' as [L2 S2].
  rewrite mergel_cons. destruct (Z.leb_spec 0 (compare x y)) as [Hc|Hc]; rewrite sortedb_lead;
    apply andb_true_iff; split; auto; apply lead_mergel; auto.
  - simpl. specialize (T x y Hc). destruct (Z.ltb_spec 0 (compare y x)); [lia|done].
  - simpl. destruct (Z.ltb_spec 0 (compare x y)); [lia|done].
Qed.

Context (compare_total : forall x y, 0 <= compare x y -> compare y x <= 0).

(** What the recursive calls are known to do. *)
Definition sorts (k : ptr -> CM (@store D) unit) (n : nat) : Prop :=
  forall h d dmc (ms : list (loc * D)),
  is_list h d ms.*1 dmc -> loaded h ms -> Z.of_nat (length ms) <= dmc < 2 ^ 64 ->
  (length ms < n)%nat ->
  exists h' ms', k (Some d) h = Done (tt, h') /\
    is_list h' d ms'.*1 dmc /\ ms' ≡ₚ ms /\ sortedb compare ms'.*2 = true /\
    frame (d :: ms.*1) h h'.

Lemma apart_halves (d e f : loc) (ls rs : list loc) : NoDup (d :: ls ++ f :: rs) ->
  e ∉ d :: ls ++ f :: rs -> forall c, c ∈ d :: ls -> c ∉ e :: f :: rs.
Proof.
  intros N He c Hc. rewrite app_comm_cons in N, He. apply NoDup_app in N as (_ & N & _).
  apply not_elem_of_cons. split; [|exact (N c Hc)].
  intros ->. apply He, elem_of_app. now left.
Qed.

(** Splitting, sorting both halves and merging them. *)
Lemma sort_halves k n h d dmc (ls rs : list (loc * D)) f y :
  sorts k n -> (length ls < n)%nat -> (length ((f, y) :: rs) < n)%nat ->
  is_list h d (ls ++ (f, y) :: rs).*1 dmc -> loaded h (ls ++ (f, y) :: rs) ->
  Z.of_nat (length (ls ++ (f, y) :: rs)) <= dmc < 2 ^ 64 -> forall e h2 emc,
  is_list h2 e [] emc -> ext e h h2 -> Z.of_nat (length ((f, y) :: rs)) <= emc < 2 ^ 64 ->
  exists h' ms', (ow_list_transfer (Some e) (Some d) (Some f);; k (Some d);; k (Some e);;
      ow_list_merge compare (Some d) (Some e);; free_node (Some e)) h2 = Done (tt, h') /\
    is_list h' d ms'.*1 dmc /\ ms' ≡ₚ ls ++ (f, y) :: rs /\ sortedb compare ms'.*2 = true /\
    frame (d :: (ls ++ (f, y) :: rs).*1) h h'.
Proof.
  intros K Kl Kr HD Lm Hc e h2 emc HE X Hemc.
  assert (He : e ∉ d :: (ls ++ (f, y) :: rs).*1).
  { intros He. eapply (ext_alive e h h2 e X); [|done].
    eapply is_list_alive; [exact HD|exact He]. }
  apply (is_list_ext _ _ _ _ _ _ X) in HD. apply (loaded_ext _ _ _ _ X) in Lm.
  pose proof (is_list_alive _ _ _ _ e HE ltac:(left)) as Ae.
  pose proof HD as (_ & _ & N). rewrite fmap_app in HD, He, N. simpl in HD, He, N.
  pose proof (apart_halves d e f ls.*1 rs.*1 N He) as Hdis.
  apply Forall_app in Lm as [Ll Lr]. rewrite length_app in Hc. simpl in Hc, Hemc.
  destruct (list_transfer_eq h2 e [] emc d _ dmc ls.*1 f rs.*1 HE HD) as (h3 & E3 & HD3 & HE3 & F3);
    try done.
  { intros a Ha. apply list_elem_of_singleton in Ha as ->. exact He. }
  { rewrite length_app. simpl. rewrite !length_fmap. lia. } { simpl. rewrite length_fmap. lia. }
  simpl app in HE3, F3. change (f :: rs.*1) with ((f, y) :: rs).*1 in *.
  pose proof (loaded_frame _ _ _ _ F3 Ll) as Ll3. pose proof (loaded_frame _ _ _ _ F3 Lr) as Lr3.
  destruct (K h3 d dmc ls HD3 Ll3 ltac:(lia) Kl) as (h4 & ls' & E4 & HD4 & P4 & S4 & F4).
  assert (HE4 : is_list h4 e ((f, y) :: rs).*1 emc) 
    by (eapply is_list_frame; [exact HE3|exact F4|exact Hdis]).
  pose proof (loaded_frame _ _ _ _ F4 Lr3) as Lr4. pose proof (loaded_frame _ _ _ _ F4 Ll3) as Ll4.
  destruct (K h4 e emc ((f, y) :: rs) HE4 Lr4 ltac:(simpl; lia) Kr) as (h5 & rs' & E5 & HE5 & P5 & S5 & F5).
  pose proof (fmap_Permutation fst _ _ P4) as P4'. pose proof (fmap_Permutation fst _ _ P5) as P5'.
  pose proof (Permutation_length P4) as L4. pose proof (Permutation_length P5) as L5. simpl in L5.
  assert (Hdis' : forall c, c ∈ d :: ls'.*1 -> c ∉ e :: rs'.*1) by (intros c; rewrite P4', P5'; apply Hdis).
  assert (HD5 : is_list h5 d ls'.*1 dmc).
  { eapply is_list_frame; [exact HD4|exact F5|]. intros a Ha. rewrite P4'. intros Hd. now apply (Hdis a). }
  pose proof (loaded_frame _ _ _ _ F5 Lr4) as Lr5. pose proof (loaded_frame _ _ _ _ F5 Ll4) as Ll5.
  destruct (list_merge_eq h5 d dmc e emc ls' rs' HD5 HE5 Hdis') as (h6 & E6 & HD6 & HE6 & F6);
    try done; try lia.
  { unfold loaded in *. now rewrite P4. } { unfold loaded in *. now rewrite P5. }
  assert (F : frame (e :: d :: (ls ++ (f, y) :: rs).*1) h2 h6).
  { rewrite fmap_app. eapply frame_trans; [exact F3|]. eapply frame_trans; [eapply frame_mono; [|exact F4]|].
    - clear. intros c. rewrite !elem_of_cons, !elem_of_app. tauto.
    - eapply frame_trans; [eapply frame_mono; [|exact F5]|eapply frame_mono; [|exact F6]].
      + clear. intros c. rewrite !elem_of_cons, !elem_of_app. tauto.
      + rewrite P4', P5'. clear. intros c. rewrite !elem_of_app, !elem_of_cons, !elem_of_app. tauto. }
  destruct (stack_free_eq e h h2 h6 _ X Ae F) as (h7 & E7 & F7 & K7).
  exists h7, (mergel ls' rs').
  step E3. step E4. step E5. step E6.
  assert (Pm : mergel ls' rs' ≡ₚ ls ++ (f, y) :: rs) by (rewrite mergel_perm, P4, P5; done).
  split_and!; try done.
  - apply K7; [exact HD6|]. rewrite Pm, fmap_app. exact He.
  - now apply mergel_sorted.
Qed.

Lemma sort_fuel_eq fuel : sorts (list_sort_fuel compare fuel) fuel.
Proof.
  induction fuel as [|fuel IH]; intros h d dmc ms HD Lm Hc Hf; [lia|].
  cbn [list_sort_fuel]. pose proof HD as (HH & C & N).
  assert (Hn : ow_list_count (Some d) h = Done (Z.of_nat (length ms), h)).
  { unfold ow_list_count. step (get_hdr_eq _ _ _ HH). rewrite length_fmap. done. }
  step Hn. destruct (Z.ltb_spec 1 (Z.of_nat (length ms))) as [H1|H1].
  2:{ rewrite (mbind_eq (mret tt) _ h tt h eq_refl).
      assert (S1 : sortedb compare ms.*2 = true)
        by (destruct ms as [|[a x] [|[b y] ms]]; simpl in *; done || lia).
      step (list_is_sorted_eq _ h d _ _ _ HD (loaded_has _ _ Lm)). rewrite S1.
      exists h, ms. split_and!; done. }
  set (m := (length ms / 2)%nat).
  assert (Hm : (0 < m < length ms)%nat).
  { unfold m. split; [apply Nat.div_str_pos; lia|apply Nat.div_lt; lia]. }
  assert (Em : Z.of_nat (length ms) / 2 = Z.of_nat m) by (unfold m; now rewrite Nat2Z.inj_div).
  cbv zeta. rewrite Em, Nat2Z.id.
  destruct (drop m ms) as [|[f y] rs] eqn:Ed.
  { apply (f_equal length) in Ed. rewrite length_drop in Ed. simpl in Ed. lia. }
  set (ls := take m ms).
  assert (Ems : ms = ls ++ (f, y) :: rs) by (unfold ls; now rewrite <- Ed, take_drop).
  assert (Lls : length ls = m) by (unfold ls; rewrite length_take; lia).
  clearbody m ls. subst ms m. rewrite length_app in *. simpl length in *.
  destruct (stack_list_eq h (u64 (Z.of_nat (length ls + S (length rs)) - Z.of_nat (length ls))))
    as (e & h1 & h2 & E1 & E2 & HE & X); [rewrite u64_small; lia|].
  destruct (sort_halves (list_sort_fuel compare fuel) fuel h d dmc ls rs f y IH
    ltac:(lia) ltac:(simpl; lia) HD Lm ltac:(rewrite length_app; simpl; lia)
    e h2 _ HE X ltac:(simpl; rewrite u64_small; lia)) as (h' & ms' & E & HD' & P & S' & F).
  pose proof (is_list_ext _ _ _ _ _ _ X HD) as HD2.
  assert (En : next (Some d) h = Done (nxt h2 d, h)).
  { rewrite (next_first h d _ _ HD). destruct HD2 as (_ & C2 & _).
    now rewrite (chain_start _ _ _ _ C2). }
  assert (Ea : advance (length ls) (nxt h2 d) h2 = Done (Some f, h2)).
  { rewrite <- (length_fmap fst). destruct HD2 as (_ & C2 & _). apply advance_eq.
    rewrite fmap_app, <- app_assoc, app_comm_cons in C2. now apply chain_app in C2 as [C2 _]. }
  assert (Eb : (node ← next (Some d); extra ← stack_list;
         _ ← list_init extra (u64 (Z.of_nat (length ls + S (length rs)) - Z.of_nat (length ls)));
         node ← advance (length ls) node;
         ow_list_transfer extra (Some d) node;; list_sort_fuel compare fuel (Some d);;
         list_sort_fuel compare fuel extra;; ow_list_merge compare (Some d) extra;;
         free_node extra) h = Done (tt, h')).
  { step En. step E1. step E2. step Ea. exact E. }
  step Eb.
  assert (L' : loaded h' ms') by (eapply loaded_frame; [exact F|]; unfold loaded; now rewrite P).
  step (list_is_sorted_eq _ h' d _ _ _ HD' (loaded_has _ _ L')). rewrite S'.
  now exists h', ms'.
Qed.

(** C39. [ow_list_sort], for any comparison that is total, terminates without a failed assertion
    and leaves the nodes of the list in sorted order: the list is a permutation of the
    nodes it had, each still carrying its data, adjacent nodes are in order, and no node
    or list outside it has changed. *)
Theorem ow_list_sort_spec h l mc (ms : list (loc * D)) :
  is_list h l ms.*1 mc -> loaded h ms -> Z.of_nat (length ms) <= mc < 2 ^ 64 ->
  exists h' ms', ow_list_sort compare (Some l) h = Done (tt, h') /\
    is_list h' l ms'.*1 mc /\ loaded h' ms' /\ ms' ≡ₚ ms /\
    sortedb compare ms'.*2 = true /\ frame (l :: ms.*1) h h'.
Proof.
  intros HL Lm Hc. pose proof (is_list_size _ _ _ _ HL) as Sz. rewrite length_fmap in Sz.
  destruct (sort_fuel_eq (S (bound h)) h l mc ms HL Lm Hc ltac:(unfold bound; lia))
    as (h' & ms' & E & HL' & P & S' & F).
  exists h', ms'. split_and!; try done.
  eapply loaded_frame; [exact F|]. unfold loaded. now rewrite P.
Qed.
End Sort.


(** ** Queue operations *)
(** [ow_list_append] and [ow_list_prepend] add a free node at the end and at the front
    of a list that has room; on a full list both stop at their last assertion. *)
Theorem list_append_prepend_spec h l ns mc n :
  is_list h l ns mc -> is_free h n -> Z.of_nat (length ns) <= mc < 2 ^ 64 - 1 ->
  if Z.of_nat (length ns) <? mc then
    (exists h', ow_list_append (Some l) (Some n) h = Done (tt, h') /\
       is_list h' l (ns ++ [n]) mc /\ frame (n :: l :: ns) h h') /\
    (exists h', ow_list_prepend (Some l) (Some n) h = Done (tt, h') /\
       is_list h' l (n :: ns) mc /\ frame (n :: l :: ns) h h')
  else ow_list_append (Some l) (Some n) h = AssertFail /\
       ow_list_prepend (Some l) (Some n) h = AssertFail.
Proof.
  intros HL HF Hc. destruct (Z.ltb_spec (Z.of_nat (length ns)) mc) as [H|H].
  - split.
    + destruct (list_ins_before_eq h l ns mc n ns l [] HL HF eq_refl ltac:(lia))
        as (h' & ns' & E & En & HL' & F).
      exists h'. replace (ns ++ [n]) with ns'; [done|].
      apply (app_inj_tail ns' (ns ++ [n]) l l). now rewrite En, <- app_assoc.
    + destruct (list_ins_after_eq h l ns mc n [] l ns HL HF eq_refl ltac:(lia))
        as (h' & ns' & E & En & HL' & F). injection En as ->. now exists h'.
  - split; [apply (ins_full h l ns mc n ns l [])|apply (ins_full h l ns mc n [] l ns)]; done || lia.
Qed.

(** A node put anywhere into a list and deleted again leaves the list with its old
    nodes in their old order, the node free, and every other node and list untouched. *)
Theorem list_insert_delete_roundtrip h l ns mc n p this q :
  is_list h l ns mc -> is_free h n -> l :: ns = p ++ this :: q ->
  Z.of_nat (length ns) < mc < 2 ^ 64 ->
  exists h', (list_ins_after (Some l) (Some n) (Some this);; list_delete (Some l) (Some n)) h
      = Done (Some n, h') /\ is_list h' l ns mc /\ is_free h' n /\ frame (n :: l :: ns) h h'.
Proof.
  intros HL HF E Hc.
  destruct (list_ins_after_eq h l ns mc n p this q HL HF E Hc) as (h1 & ns1 & E1 & En & HL1 & F1).
  assert (En' : exists p', ns1 = p' ++ n :: q /\ ns = p' ++ q).
  { destruct p as [|l' p]; simpl in E, En; injection E as E; injection En as En.
    - exists []. now subst.
    - exists (p ++ [this]). rewrite <- !app_assoc. now subst. }
  destruct En' as (p' & -> & Ep').
  assert (Hl : Z.of_nat (length (p' ++ n :: q)) < 2 ^ 64).
  { rewrite Ep' in Hc. rewrite length_app in *. simpl. lia. }
  destruct (list_delete_eq h1 l _ mc p' n q HL1 eq_refl Hl) as (h2 & E2 & HL2 & HF2 & F2).
  exists h2. step E1. split_and!; [done|now rewrite Ep'|done|].
  eapply frame_trans; [exact F1|]. eapply frame_mono; [|exact F2].
  rewrite Ep'. clear. intros c. rewrite !elem_of_cons, !elem_of_app, !elem_of_cons. tauto.
Qed.

Fixpoint path h (ms : list (loc * D)) l : Prop :=
  match ms with
  | [] => True
  | (a, x) :: r => nxt h a = start r l /\ has h a x /\ path h r l
  end.
Lemma path_of_chain h l c (ms : list (loc * D)) : chain h (c :: ms.*1 ++ [l]) -> loaded h ms -> path h ms l.
Proof.
  revert c. induction ms as [|[a x] ms IH]; intros c C L; [done|].
  apply Forall_cons in L as [Ha L]. destruct C as [_ C]. split; [|split; [exact Ha|exact (IH a C L)]].
  eapply chain_start. exact C.
Qed.
Lemma path_ext h h' (ms : list (loc * D)) l : (forall a, a ∈ ms.*1 -> nodes h' !! a = nodes h !! a) ->
  path h ms l -> path h' ms l.
Proof.
  induction ms as [|[a x] ms IH]; [done|]. intros E (H1 & H2 & H3).
  assert (Ea : nodes h' !! a = nodes h !! a) by (apply E; left).
  split; [|split]; [unfold nxt in *; now rewrite Ea|unfold has, dat in *; now rewrite Ea|].
  apply IH; [|done]. intros b Hb. apply E. now right.
Qed.
(** One round of the loop removes its node from the store. *)
Lemma destroy_one h a x : has h a x ->
  exists h', (set_next (Some a) None;; set_prev (Some a) None;;
      n ← get_node (Some a); u_free_data (n_data n);; lnode_destroy (Some a)) h = Done (tt, h') /\
    freed h' = freed h ++ [x] /\ nodes h' !! a = None /\
    (forall b, b <> a -> nodes h' !! b = nodes h !! b /\ hdrs h' !! b = hdrs h !! b).
Proof.
  intros Hx. assert (A : alive h a).
  { unfold has, dat in Hx. unfold alive. destruct (nodes h !! a); [eauto|discriminate]. }
  set (h1 := upd_next h a None). set (h2 := upd_prev h1 a None).
  assert (A1 : alive h1 a) by now apply alive_upd_next.
  assert (A2 : alive h2 a) by now apply alive_upd_prev.
  assert (X2 : has h2 a x).
  { eapply (has_frame [a] h); [|exact Hx]. eapply frame_trans; [|apply frame_upd_prev; left].
    apply frame_upd_next. left. }
  step (set_next_eq h a None A). step (set_prev_eq h1 a None A1).
  fold h2. destruct A2 as [n2 E2].
  assert (G : get_node (Some a) h2 = Done (n2, h2)) 
    by (unfold get_node; change (Some a ≫= (nodes h2 !!.)) with (nodes h2 !! a); now rewrite E2).
  assert (Ed : n_data n2 = Some x) by (unfold has, dat in X2; now rewrite E2 in X2).
  step G. rewrite Ed.
  set (h3 := Store (nodes h2) (hdrs h2) (tick h2) (freed h2 ++ [x])).
  rewrite (mbind_eq (u_free_data (Some x)) _ h2 tt h3 eq_refl). unfold lnode_destroy.
  assert (Nn : nxt h2 a = None)
    by (unfold h2; rewrite nxt_upd_prev; unfold h1; now rewrite nxt_upd_next, decide_True).
  assert (Np : prv h2 a = None) by (unfold h2; now rewrite prv_upd_prev, decide_True).
  assert (I : lnode_is_in_a_list (Some a) h3 = Done (false, h3)).
  { rewrite is_in_a_list_eq by (unfold alive; simpl; eauto).
    change (nxt h3 a) with (nxt h2 a). change (prv h3 a) with (prv h2 a).
    now rewrite Nn, Np. }
  step I. step (massert_true true h3 eq_refl).
  exists (Store (delete a (nodes h3)) (delete a (hdrs h3)) (tick h3) (freed h3)).
  split; [|split; [done|split; [apply lookup_delete_eq|]]].
  - unfold free_node. change (nodes h3 !! a) with (nodes h2 !! a). now rewrite E2.
  - intros b Hb. simpl. now rewrite !lookup_delete_ne, !lookup_alter_ne by done.
Qed.
Lemma destroy_loop_eq l (ms : list (loc * D)) : forall h fuel, NoDup (l :: ms.*1) -> path h ms l ->
  (length ms <= fuel)%nat ->
  exists h', destroy_loop (Some l) fuel (start ms l) h = Done (tt, h') /\
    freed h' = freed h ++ ms.*2 /\ (forall a, a ∈ ms.*1 -> nodes h' !! a = None) /\
    (forall a, a ∉ ms.*1 -> nodes h' !! a = nodes h !! a /\ hdrs h' !! a = hdrs h !! a).
Proof.
  induction ms as [|[a x] ms IH]; intros h fuel N P Hf.
  - exists h. rewrite app_nil_r. split; [|split_and!; try done; intros a Ha; now apply not_elem_of_nil in Ha].
    destruct fuel; simpl; now rewrite bool_decide_true.
  - destruct fuel as [|fuel]; [simpl in Hf; lia|]. destruct P as (Nx & Hx & P).
    change ((a, x) :: ms).*1 with (a :: ms.*1) in *. change ((a, x) :: ms).*2 with (x :: ms.*2).
    apply NoDup_cons in N as [N1 N2]. apply NoDup_cons in N2 as [N2 N3].
    assert (Hal : a <> l) by (intros ->; apply N1; left).
    destruct (destroy_one h a x Hx) as (h1 & E1 & F1 & D1 & O1).
    destruct (IH h1 fuel) as (h2 & E2 & F2 & D2 & O2).
    { apply NoDup_cons. split; [|done]. intros H. apply N1. now right. }
    { eapply path_ext; [|exact P]. intros b Hb. apply O1. intros ->. done. }
    { simpl in Hf. lia. }
    exists h2. split_and!.
    + cbn [destroy_loop]. change (start ((a, x) :: ms) l) with (Some a).
      rewrite bool_decide_false by congruence.
      assert (A : alive h a) by (unfold has, dat in Hx; unfold alive; destruct (nodes h !! a); [eauto|discriminate]).
      step (next_eq h a A). rewrite Nx. rewrite <- E2.
      revert E1. unfold mbind, M_bind.
      destruct (set_next (Some a) None h) as [[[] g1]| | |]; try done.
      destruct (set_prev (Some a) None g1) as [[[] g2]| | |]; try done.
      destruct (get_node (Some a) g2) as [[g g3]| | |]; try done.
      destruct (u_free_data (n_data g) g3) as [[[] g4]| | |]; try done.
      destruct (lnode_destroy (Some a) g4) as [[[] g5]| | |]; try done. now intros [= ->].
    + rewrite F2, F1, <- app_assoc. done.
    + intros b [->|Hb]%elem_of_cons; [|auto]. rewrite (proj1 (O2 a N2)). exact D1.
    + intros b [Hb1 Hb2]%not_elem_of_cons. destruct (O2 b Hb2) as [-> ->]. auto.
Qed.

(** [list_destroy_nodes] terminates, gives the data of every node to [u_free] once and in
    the order of the list, deallocates every node, and leaves the list empty and
    everything outside it as it was. *)
Theorem list_destroy_nodes_spec h l mc (ms : list (loc * D)) :
  is_list h l ms.*1 mc -> loaded h ms -> mc <> 0 ->
  exists h', list_destroy_nodes (Some l) h = Done (Some l, h') /\
    is_list h' l [] mc /\ freed h' = freed h ++ ms.*2 /\
    (forall a, a ∈ ms.*1 -> nodes h' !! a = None) /\
    (forall a, a ∉ l :: ms.*1 -> nodes h' !! a = nodes h !! a /\ hdrs h' !! a = hdrs h !! a).
Proof.
  intros HL Lm Hmc. pose proof HL as (HH & C & N). pose proof (is_list_size _ _ _ _ HL) as Sz.
  rewrite length_fmap in Sz.
  destruct (destroy_loop_eq l ms h (bound h) N (path_of_chain _ _ _ _ C Lm) ltac:(unfold bound; lia))
    as (h1 & E1 & F1 & D1 & O1).
  unfold list_destroy_nodes. step (next_first h l _ _ HL).
  rewrite (mbind_eq (bounded _) _ h tt h1 E1).
  pose proof N as [N1 _]%NoDup_cons. destruct (O1 l N1) as [El Eh]. rewrite HH in Eh.
  step (get_hdr_eq _ _ _ Eh). simpl maxcount.
  unfold list_init. rewrite (proj2 (Z.eqb_neq mc 0) Hmc).
  step (massert_true true h1 eq_refl). unfold addr_of.
  assert (A : alive h1 l).
  { unfold alive. rewrite El. exact (is_list_alive _ _ _ _ l HL ltac:(left)). }
  set (h2 := upd_next h1 l (Some l)). assert (A2 : alive h2 l) by now apply alive_upd_next.
  rewrite (mbind_eq (mret l) _ h1 l h1 eq_refl). step (set_next_eq h1 l (Some l) A).
  step (set_prev_eq h2 l (Some l) A2). set (h3 := upd_prev h2 l (Some l)).
  exists (set_hdrs h3 (<[l := Hdr 0 mc]> (hdrs h3))). split; [done|]. split; [|split; [done|split]].
  - split; [apply lookup_insert_eq|split; [split; [|done]; split|apply NoDup_singleton]].
    + change (nxt h3 l = Some l). unfold h3. rewrite nxt_upd_prev. unfold h2.
      now rewrite nxt_upd_next, decide_True.
    + change (prv h3 l = Some l). unfold h3. now rewrite prv_upd_prev, decide_True.
  - intros a Ha. simpl. rewrite !lookup_alter_ne by (intros <-; done). auto.
  - intros a [Ha1 Ha2]%not_elem_of_cons. simpl. destruct (O1 a Ha2) as [<- <-].
    rewrite !lookup_alter_ne, lookup_insert_ne by done. done.
Qed.

End KazSort.

(** ** Concrete lists *)
Definition empty_store : @store Z := Store ∅ ∅ O [].
Fixpoint append_all (l : ptr) (xs : list Z) : CM (@store Z) unit :=
  match xs with
  | [] => mret tt
  | x :: xs => n ← lnode_create (fun _ => true) x; ow_list_append l n;; append_all l xs
  end.
(** A list with the data [xs] and one node outside it. *)
Definition build (mc : Z) (xs : list Z) : CM (@store Z) (ptr * ptr) :=
  l ← list_create (fun _ => true) mc; append_all l xs;;
  n ← lnode_create (fun _ => true) 7; mret (l, n).
Definition demo (mc : Z) (xs : list Z) : @store Z :=
  match build mc xs empty_store with Done (_, h) => h | _ => empty_store end.
Definition contents (h : @store Z) (l : ptr) (n : nat) : outcome (list (option Z)) :=
  let fix go (n : nat) (p : ptr) :=
    if bool_decide (p = l) then mret []
    else match n with
    | O => mret []
    | S n => nd ← get_node p; r ← go n (n_next nd); mret (n_data nd :: r)
    end in
  let* (r, _) := (p ← next l; go n p) h in Done r.

Example sort_run : (let* (_, h) := ow_list_sort Z.sub (Some 1%positive) (demo 4 [30; 10; 20; 10]) in
  contents h (Some 1%positive) 9) = Done [Some 10; Some 10; Some 20; Some 30].
Proof. vm_compute. reflexivity. Qed.
(** A node deleted by the callback of [list_process] is skipped safely. *)
Example process_run : (let* (_, h) := list_process 9 (Some 1%positive)
    (fun l n => _ ← list_delete l n; mret tt) (demo 4 [30; 10; 20]) in
  contents h (Some 1%positive) 9) = Done [].
Proof. vm_compute. reflexivity. Qed.
(** [list_del_first] on an empty list is stopped by the assertion of [list_delete]. *)
Example del_first_empty : ow_list_del_first (Some 1%positive) (demo 4 []) = AssertFail.
Proof. vm_compute. reflexivity. Qed.

Definition demo_nodes : list (loc * Z) := [(2%positive, 30); (3%positive, 10); (4%positive, 20)].
Lemma demo_list : is_list (demo 4 [30; 10; 20]) 1%positive demo_nodes.*1 4.
Proof.
  split; [vm_compute; reflexivity|split; [vm_compute; tauto|]].
  apply (bool_decide_eq_true_1 _). vm_compute. reflexivity.
Qed.
Lemma demo_loaded : loaded (demo 4 [30; 10; 20]) demo_nodes.
Proof. repeat constructor. Qed.
Lemma demo_free : is_free (demo 4 [30; 10; 20]) 5%positive.
Proof. split; [eexists|]; vm_compute; eauto. Qed.

Lemma ow_list_sort_spec_witness : exists h' ms',
  ow_list_sort Z.sub (Some 1%positive) (demo 4 [30; 10; 20]) = Done (tt, h') /\
  is_list h' 1%positive ms'.*1 4 /\ loaded h' ms' /\ ms' ≡ₚ demo_nodes /\
  sortedb Z.sub ms'.*2 = true /\ frame (1%positive :: demo_nodes.*1) (demo 4 [30; 10; 20]) h'.
Proof.
  apply (ow_list_sort_spec Z.sub).
  - intros x y. lia.
  - exact demo_list.
  - exact demo_loaded.
  - vm_compute. split; intros; discriminate || reflexivity.
Defined.
Lemma list_append_prepend_spec_witness : (exists h',
  ow_list_append (Some 1%positive) (Some 5%positive) (demo 4 [30; 10; 20]) = Done (tt, h') /\
  is_list h' 1%positive [2; 3; 4; 5]%positive 4 /\
  frame [5; 1; 2; 3; 4]%positive (demo 4 [30; 10; 20]) h').
Proof.
  apply (list_append_prepend_spec (demo 4 [30; 10; 20]) 1%positive demo_nodes.*1 4 5%positive
    demo_list demo_free). vm_compute. split; intros; discriminate || reflexivity.
Defined.
Lemma list_insert_delete_roundtrip_witness : exists h',
  (list_ins_after (Some 1%positive) (Some 5%positive) (Some 3%positive);;
   list_delete (Some 1%positive) (Some 5%positive)) (demo 4 [30; 10; 20]) = Done (Some 5%positive, h') /\
  is_list h' 1%positive [2; 3; 4]%positive 4 /\ is_free h' 5%positive /\
  frame [5; 1; 2; 3; 4]%positive (demo 4 [30; 10; 20]) h'.
Proof.
  apply (list_insert_delete_roundtrip (demo 4 [30; 10; 20]) 1%positive demo_nodes.*1 4 5%positive
    [1; 2]%positive 3%positive [4]%positive demo_list demo_free eq_refl).
  vm_compute. split; reflexivity.
Defined.
Lemma list_destroy_nodes_spec_witness : exists h',
  list_destroy_nodes (Some 1%positive) (demo 4 [30; 10; 20]) = Done (Some 1%positive, h') /\
  is_list h' 1%positive [] 4 /\ freed h' = [30; 10; 20] /\
  (forall a, a ∈ [2; 3; 4]%positive -> nodes h' !! a = None) /\
  (forall a, a ∉ [1; 2; 3; 4]%positive ->
     nodes h' !! a = nodes (demo 4 [30; 10; 20]) !! a /\ hdrs h' !! a = hdrs (demo 4 [30; 10; 20]) !! a).
Proof.
  apply (list_destroy_nodes_spec (demo 4 [30; 10; 20]) 1%positive 4 demo_nodes demo_list demo_loaded).
  discriminate.
Defined.
End KazSort.
