(* ===== verification/KazHash.v ===== *)
(** * KazHash: the extendible hash tables of libu (lib/u/hash.c)

    A table is its array of chains; a chain is the list of the nodes its [next] pointers
    reach, and a node carries the address that pointers to it hold.  The assertions are
    [AssertFail], the answers of [malloc] and [realloc] are arguments. *)
From S2P Require Import Prelude CString.

Module KazHash.

(** What the deallocation functions do. *)
Inductive freed (V : Type) := FreedNode (a : positive) | FreedData (v : V) | FreedKey (k : cstring).
Arguments FreedNode {V} _. Arguments FreedData {V} _. Arguments FreedKey {V} _.

Section KazHash.
Context {V : Type}.

(** [h_next_null] is the [next] field of a node outside every table, compared with NULL. *)
(* src: src/CIM_Framework/openwsman/include/u/hash.h 73-82 hnode_t *)
Record hnode := HNode { h_addr : positive; h_key : cstring; h_data : V; h_hkey : Z; h_next_null : bool }.

(* src: src/CIM_Framework/openwsman/include/u/hash.h 149-168 hash_t *)
Record hash_t := Hash {
  table : list (list hnode);
  nchains : Z;
  nodecount : Z;
  maxcount : Z;
  highmark : Z;
  lowmark : Z;
  compare : cstring -> cstring -> Z;
  function : cstring -> Z;
  allocnode : nat -> option positive;
  freenode : hnode -> list (freed V);
  mask : Z;
  dynamic : bool }.

(* src: src/CIM_Framework/openwsman/include/u/hash.h 179-187 hscan_t *)
Record hscan_t := Scan { s_chain : Z; s_next : option positive }.

Implicit Types (h : hash_t) (n : hnode) (c : list hnode).

Definition INIT_SIZE : Z := 64.
Definition INIT_MASK : Z := INIT_SIZE - 1.

Definition set_table h t : hash_t :=
  Hash t (nchains h) (nodecount h) (maxcount h) (highmark h) (lowmark h) (compare h) (function h)
    (allocnode h) (freenode h) (mask h) (dynamic h).
Definition set_nodecount h x : hash_t :=
  Hash (table h) (nchains h) x (maxcount h) (highmark h) (lowmark h) (compare h) (function h)
    (allocnode h) (freenode h) (mask h) (dynamic h).
Definition set_geometry h t nc hm lm m : hash_t :=
  Hash t nc (nodecount h) (maxcount h) hm lm (compare h) (function h)
    (allocnode h) (freenode h) m (dynamic h).

(* src: lib/u/hash.c 81-92 compute_bits *)
Definition compute_bits : Z :=
  let fix loop (fuel : nat) (val bits : Z) : Z :=
    match fuel with
    | O => bits
    | S fuel => if val =? 0 then bits else loop fuel (Z.shiftr val 1) (bits + 1)
    end in
  loop 65%nat 18446744073709551615 0.

(* src: lib/u/hash.c 102-104 is_power_of_two *)
Fixpoint strip_zeros (fuel : nat) (arg : Z) : bool :=
  match fuel with
  | O => arg =? 1
  | S fuel => if Z.land arg 1 =? 0 then strip_zeros fuel (Z.shiftr arg 1) else arg =? 1
  end.
(* src: lib/u/hash.c 98-105 is_power_of_two *)
Definition is_power_of_two (arg : Z) : bool := if arg =? 0 then false else strip_zeros 64 arg.

(* src: lib/u/hash.c 111-117 compute_mask *)
Definition compute_mask (size : Z) : outcome Z :=
  assert! is_power_of_two size; assert! 2 <=? size; Done (u64 (size - 1)).

(* src: lib/u/hash.c 123-129 clear_table *)
Definition clear_table h : hash_t := set_table h (replicate (Z.to_nat (nchains h)) []).

(* src: lib/u/hash.c 782-788 hash_verify *)
Fixpoint chains_ok (mask chain : Z) (t : list (list hnode)) : bool :=
  match t with
  | [] => true
  | c :: t => forallb (fun hptr => Z.land (h_hkey hptr) mask =? chain) c && chains_ok mask (chain + 1) t
  end.
(* src: lib/u/hash.c 767-795 hash_verify *)
Definition hash_verify h : bool :=
  (negb (dynamic h) ||
    (negb (highmark h <=? lowmark h) && is_power_of_two (highmark h) && is_power_of_two (lowmark h)))
  && chains_ok (mask h) 0 (table h)
  && (Z.of_nat (length (concat (table h))) =? nodecount h).

(* src: lib/u/hash.c 175-187 grow_table *)
Fixpoint split_chain (exposed_bit : Z) c (low high : list hnode) : list hnode * list hnode :=
  match c with
  | [] => (low, high)
  | hptr :: next =>
      if Z.land (h_hkey hptr) exposed_bit =? 0 then split_chain exposed_bit next (hptr :: low) high
      else split_chain exposed_bit next low (hptr :: high)
  end.

(* src: lib/u/hash.c 159-202 grow_table *)
Definition grow_table (realloc_ok : bool) h : outcome hash_t :=
  assert! nchains h <? u64 (2 * nchains h);
  let* h' :=
    if realloc_ok then
      let mask' := Z.lor (u64 (Z.shiftl (mask h) 1)) 1 in
      let exposed_bit := Z.lxor mask' (mask h) in
      assert! negb (mask' =? mask h);
      let split := map (fun c => split_chain exposed_bit c [] []) (table h) in
      Done (set_geometry h (map fst split ++ map snd split)
              (u64 (nchains h * 2)) (u64 (highmark h * 2)) (u64 (lowmark h * 2)) mask')
    else Done h in
  assert! hash_verify h'; Done h'.

(* src: lib/u/hash.c 233-263 shrink_table *)
Definition shrink_table h : outcome hash_t :=
  assert! 2 <=? nchains h;
  let n := nchains h / 2 in
  let m := Z.to_nat n in
  let h' := set_geometry h (zip_with app (take m (table h)) (drop m (table h)))
              n (highmark h / 2) (lowmark h / 2) (Z.shiftr (mask h) 1) in
  assert! hash_verify h'; Done h'.

(* src: lib/u/hash.c 823-826 hnode_free *)
Definition hnode_free n : list (freed V) := [FreedNode (h_addr n)].
(* src: lib/u/hash.c 828-832 hnode_free2 *)
Definition hnode_free2 n : list (freed V) := [FreedData (h_data n); FreedNode (h_addr n)].
(* src: lib/u/hash.c 834-839 hnode_free3 *)
Definition hnode_free3 n : list (freed V) :=
  [FreedData (h_data n); FreedKey (h_key n); FreedNode (h_addr n)].

(* src: lib/u/hash.c 905-926 hash_fun_default *)
Definition randbox : list Z :=
  [0x49848f1b; 0xe6255dba; 0x36da5bdc; 0x47bf94e9; 0x8cbcce22; 0x559fc06a; 0xd268f536; 0xe10af79a;
   0xc1af4d69; 0x1d2917b5; 0xec4c304d; 0x9ee5016c; 0x69232f74; 0xfead7bb3; 0xe9089ab6; 0xf012f6ae].
(* src: lib/u/hash.c 917-924 hash_fun_default *)
Fixpoint hash_acc (str : cstring) (acc : Z) : Z :=
  match str with
  | [] => acc
  | c :: str =>
      let box i := nth (Z.to_nat (Z.land i 0xf)) randbox 0 in
      let acc := Z.lxor acc (box (code c + acc)) in
      let acc := Z.lor (u64 (Z.shiftl acc 1)) (Z.shiftr acc 31) in
      let acc := Z.land acc 0xffffffff in
      let acc := Z.lxor acc (box (Z.shiftr (code c) 4 + acc)) in
      let acc := Z.lor (u64 (Z.shiftl acc 2)) (Z.shiftr acc 30) in
      hash_acc str (Z.land acc 0xffffffff)
  end.
(* src: lib/u/hash.c 905-926 hash_fun_default *)
Definition hash_fun_default (key : cstring) : Z := hash_acc key 0.
(* src: lib/u/hash.c 928-931 hash_comp_default *)
Definition hash_comp_default (key1 key2 : cstring) : Z := strcmp key1 key2.

(** [malloc_at n]: the block the [n]-th allocation returns. *)
Context (malloc_at : nat -> option positive).
(* src: lib/u/hash.c 818-821 hnode_alloc *)
Definition hnode_alloc : nat -> option positive := malloc_at.

(* src: lib/u/hash.c 294-327 hash_create *)
Definition create (fr : hnode -> list (freed V)) (tick : nat) (maxc : Z)
    (compfun : option (cstring -> cstring -> Z)) (hashfun : option (cstring -> Z))
    : outcome (option hash_t) :=
  match malloc_at tick, malloc_at (S tick) with
  | Some _, Some _ =>
      let h := clear_table
        (Hash [] INIT_SIZE 0 maxc (INIT_SIZE * 2) (INIT_SIZE / 2)
           (default hash_comp_default compfun) (default hash_fun_default hashfun)
           hnode_alloc fr INIT_MASK true) in
      assert! hash_verify h; Done (Some h)
  | _, _ => Done None
  end.
(* src: lib/u/hash.c 294-327 hash_create *)
Definition hash_create := create hnode_free.
(* src: lib/u/hash.c 329-362 hash_create2 *)
Definition hash_create2 := create hnode_free2.
(* src: lib/u/hash.c 364-397 hash_create3 *)
Definition hash_create3 := create hnode_free3.

(* src: lib/u/hash.c 403-412 hash_set_allocator *)
Definition hash_set_allocator h (al : option (nat -> option positive))
    (fr : option (hnode -> list (freed V))) : outcome hash_t :=
  assert! nodecount h =? 0;
  Done (Hash (table h) (nchains h) (nodecount h) (maxcount h) (highmark h) (lowmark h)
          (compare h) (function h) (default hnode_alloc al) (default hnode_free fr)
          (mask h) (dynamic h)).

(* src: lib/u/hash.c 471-493 hash_init *)
Definition hash_init h (maxc : Z) (compfun : option (cstring -> cstring -> Z))
    (hashfun : option (cstring -> Z)) (n : Z) : outcome hash_t :=
  assert! is_power_of_two n;
  let* m := compute_mask n in
  let h := clear_table
    (Hash [] n 0 maxc (highmark h) (lowmark h) (default hash_comp_default compfun)
       (default hash_fun_default hashfun) (allocnode h) (freenode h) m false) in
  assert! hash_verify h; Done h.

(* src: lib/u/hash.c 629-643 hash_lookup *)
Definition hash_lookup h (key : cstring) : outcome (option hnode) :=
  let hkey := function h key in
  let* c := rd (table h) (Z.land hkey (mask h)) in
  Done (find (fun nptr => (h_hkey nptr =? hkey) && (compare h (h_key nptr) key =? 0)) c).

(** [hash_val_t_bit]: the variable of this name, set by the first [hash_create]. *)
Context (hash_val_t_bit : Z).

(* src: lib/u/hash.c 591-614 hash_insert *)
Definition hash_insert (realloc_ok : bool) h n (key : cstring) : outcome hash_t :=
  assert! negb (hash_val_t_bit =? 0);
  assert! h_next_null n;
  assert! nodecount h <? maxcount h;
  let* found := hash_lookup h key in
  assert! match found with None => true | Some _ => false end;
  let* h := if dynamic h && (highmark h <=? nodecount h) then grow_table realloc_ok h else Done h in
  let hkey := function h key in
  let chain := Z.land hkey (mask h) in
  let* c := rd (table h) chain in
  let n := HNode (h_addr n) key (h_data n) hkey false in
  let h := set_nodecount (set_table h (<[Z.to_nat chain := n :: c]> (table h)))
             (u64 (nodecount h + 1)) in
  assert! hash_verify h; Done h.

(** Unlinking a node from its chain: walking past the end of the chain reads through
    NULL. *)
(* src: lib/u/hash.c 674-686 hash_delete *)
Fixpoint unlink (node : positive) c : outcome (list hnode) :=
  match c with
  | [] => Undef
  | hptr :: next =>
      if bool_decide (h_addr hptr = node) then Done next
      else let* c' := unlink node next in Done (hptr :: c')
  end.

Definition same_node (r : option hnode) n : bool :=
  match r with Some m => bool_decide (h_addr m = h_addr n) | None => false end.

(* src: lib/u/hash.c 722-746 hash_scan_delete *)
Definition hash_scan_delete h n : outcome (hnode * hash_t) :=
  let* found := hash_lookup h (h_key n) in
  assert! same_node found n;
  assert! negb (hash_val_t_bit =? 0);
  let chain := Z.land (h_hkey n) (mask h) in
  let* c := rd (table h) chain in
  let* c' := unlink (h_addr n) c in
  let h := set_nodecount (set_table h (<[Z.to_nat chain := c']> (table h))) (u64 (nodecount h - 1)) in
  assert! hash_verify h;
  Done (HNode (h_addr n) (h_key n) (h_data n) (h_hkey n) true, h).

(* src: lib/u/hash.c 663-694 hash_delete *)
Definition hash_delete h n : outcome (hnode * hash_t) :=
  let* found := hash_lookup h (h_key n) in
  assert! same_node found n;
  assert! negb (hash_val_t_bit =? 0);
  let* h := if dynamic h && (nodecount h <=? lowmark h) && (INIT_SIZE <? nodecount h)
            then shrink_table h else Done h in
  let chain := Z.land (h_hkey n) (mask h) in
  let* c := rd (table h) chain in
  let* c' := unlink (h_addr n) c in
  let h := set_nodecount (set_table h (<[Z.to_nat chain := c']> (table h))) (u64 (nodecount h - 1)) in
  assert! hash_verify h;
  Done (HNode (h_addr n) (h_key n) (h_data n) (h_hkey n) true, h).

(* src: lib/u/hash.c 859-864 hnode_init *)
Definition hnode_init n (data : V) : hnode := HNode (h_addr n) (h_key n) data (h_hkey n) true.

(** [junk]: what the uninitialised members of a fresh node hold. *)
(* src: lib/u/hash.c 845-853 hnode_create *)
Definition hnode_create (tick : nat) (junk : cstring * Z) (data : V) : option hnode :=
  (fun a => HNode a (fst junk) data (snd junk) true) <$> malloc_at tick.

(* src: lib/u/hash.c 696-706 hash_alloc_insert *)
Definition hash_alloc_insert (tick : nat) (realloc_ok : bool) h (junk : V) (key : cstring) (data : V)
    : outcome (bool * hash_t) :=
  match allocnode h tick with
  | Some a =>
      let n := hnode_init (HNode a key junk 0 false) data in
      let* h := hash_insert realloc_ok h n key in Done (true, h)
  | None => Done (false, h)
  end.

(* src: lib/u/hash.c 708-715 hash_delete_free *)
Definition hash_delete_free (h : option hash_t) (n : option hnode)
    : outcome (option hash_t * list (freed V)) :=
  match n, h with
  | Some n, Some h => let* (n, h) := hash_delete h n in Done (Some h, freenode h n)
  | _, _ => Done (h, [])
  end.

(* src: lib/u/hash.c 752-756 hash_scan_delfree *)
Definition hash_scan_delfree h n : outcome (hash_t * list (freed V)) :=
  let* (n, h) := hash_scan_delete h n in Done (h, freenode h n).

(** The first chain at or after [chain] that is not empty. *)
(* src: lib/u/hash.c 515-516 hash_scan_begin *)
Fixpoint first_nonempty (t : list (list hnode)) (chain : Z) : option (Z * positive) :=
  match t with
  | [] => None
  | [] :: t => first_nonempty t (chain + 1)
  | (n :: _) :: _ => Some (chain, h_addr n)
  end.
(** [junk]: the value of [scan->chain] before the call. *)
(* src: lib/u/hash.c 506-524 hash_scan_begin *)
Definition hash_scan_begin (junk : Z) h : hscan_t :=
  match first_nonempty (table h) 0 with
  | Some (chain, a) => Scan chain (Some a)
  | None => Scan junk None
  end.

(** Reading the node at an address, with its successor. *)
Fixpoint chain_at (a : positive) c : option (hnode * option positive) :=
  match c with
  | [] => None
  | n :: r => if bool_decide (h_addr n = a) then Some (n, h_addr <$> head r) else chain_at a r
  end.
Fixpoint node_at (a : positive) (t : list (list hnode)) : option (hnode * option positive) :=
  match t with
  | [] => None
  | c :: t => match chain_at a c with Some r => Some r | None => node_at a t end
  end.
(* src: lib/u/hash.c 552-576 hash_scan_next *)
Definition hash_scan_next h (s : hscan_t) : outcome (option hnode * hscan_t) :=
  let chain := u64 (s_chain s + 1) in
  assert! negb (hash_val_t_bit =? 0);
  match s_next s with
  | None => Done (None, s)
  | Some a =>
      let* (n, nx) := deref (node_at a (table h)) in
      match nx with
      | Some b => Done (Some n, Scan (s_chain s) (Some b))
      | None =>
          match first_nonempty (drop (Z.to_nat chain) (table h)) chain with
          | Some (chain, b) => Done (Some n, Scan chain (Some b))
          | None => Done (Some n, Scan (s_chain s) None)
          end
      end
  end.

(* src: lib/u/hash.c 424-427 hash_free_nodes *)
Fixpoint free_loop (fuel : nat) h (s : hscan_t) (log : list (freed V)) : outcome (hash_t * list (freed V)) :=
  match fuel with
  | O => Diverge
  | S fuel =>
      let* (r, s) := hash_scan_next h s in
      match r with
      | None => Done (h, log)
      | Some n => let* (n, h) := hash_scan_delete h n in free_loop fuel h s (log ++ freenode h n)
      end
  end.
(* src: lib/u/hash.c 419-430 hash_free_nodes *)
Definition hash_free_nodes h : outcome (hash_t * list (freed V)) :=
  let* (h, log) := free_loop (S (length (concat (table h)))) h (hash_scan_begin 0 h) [] in
  Done (clear_table (set_nodecount h 0), log).

(* src: lib/u/hash.c 813-816 ow_hash_isempty *)
Definition ow_hash_isempty h : bool := nodecount h =? 0.
(* src: lib/u/hash.c 802-805 ow_hash_isfull *)
Definition ow_hash_isfull h : bool := nodecount h =? maxcount h.
(** The table and its array are deallocated: nothing is left of them. *)
(* src: lib/u/hash.c 450-456 hash_destroy *)
Definition hash_destroy h : outcome unit :=
  assert! negb (hash_val_t_bit =? 0); assert! ow_hash_isempty h; Done tt.
(* src: lib/u/hash.c 437-444 hash_free *)
Definition hash_free h : outcome (list (freed V)) :=
  let* (h, log) := hash_free_nodes h in let* _ := hash_destroy h in Done log.
(* src: lib/u/hash.c 876-879 ow_hnode_put *)
Definition ow_hnode_put n (data : V) : hnode := HNode (h_addr n) (h_key n) data (h_hkey n) (h_next_null n).
(* src: lib/u/hash.c 882-885 ow_hnode_get *)
Definition ow_hnode_get n : V := h_data n.
(* src: lib/u/hash.c 888-891 ow_hnode_getkey *)
Definition ow_hnode_getkey n : cstring := h_key n.
(* src: lib/u/hash.c 894-897 ow_hash_count *)
Definition ow_hash_count h : Z := nodecount h.
(* src: lib/u/hash.c 900-903 ow_hash_size *)
Definition ow_hash_size h : Z := nchains h.
End KazHash.

Section Proofs.
Context {V : Type}.
Implicit Types (h : @hash_t V) (n : @hnode V) (c : list (@hnode V)) (t : list (list (@hnode V))).

(** ** Powers of two *)
Lemma strip_zeros_pow2 k : forall fuel, (k <= fuel)%nat -> strip_zeros fuel (2 ^ Z.of_nat k) = true.
Proof.
  induction k as [|k IH]; intros fuel Hf; [now destruct fuel|].
  destruct fuel as [|fuel]; [lia|]. cbn [strip_zeros].
  replace (2 ^ Z.of_nat (S k)) with (2 * 2 ^ Z.of_nat k) by (rewrite Nat2Z.inj_succ, Z.pow_succ_r by lia; lia).
  change 1 with (Z.ones 1) at 1. rewrite Z.land_ones by lia. change (2 ^ 1) with 2.
  rewrite Z.mul_comm, Z_mod_mult. simpl. rewrite Z.shiftr_div_pow2 by lia. change (2 ^ 1) with 2.
  rewrite Z_div_mult by lia. apply IH. lia.
Qed.
Lemma power_of_two k : 0 <= k < 64 -> is_power_of_two (2 ^ k) = true.
Proof.
  intros Hk. unfold is_power_of_two. pose proof (Z.pow_pos_nonneg 2 k).
  rewrite (proj2 (Z.eqb_neq _ 0)) by lia. rewrite <- (Z2Nat.id k) by lia.
  apply strip_zeros_pow2. lia.
Qed.
Lemma land_mask x k : 0 <= k -> Z.land x (2 ^ k - 1) = x mod 2 ^ k.
Proof. intros Hk. rewrite <- Z.land_ones, Z.ones_equiv by lia. now rewrite Z.sub_1_r. Qed.
(** The exposed bit decides which of the two new chains a key belongs to. *)
Lemma mod_exposed x k : 0 <= k ->
  x mod 2 ^ (k + 1) = x mod 2 ^ k + (if Z.land x (2 ^ k) =? 0 then 0 else 2 ^ k).
Proof.
  intros Hk. assert (Hp : 0 < 2 ^ k) by (apply Z.pow_pos_nonneg; lia).
  assert (E : Z.land x (2 ^ k) = if Z.testbit x k then 2 ^ k else 0).
  { apply Z.bits_inj'. intros i Hi. rewrite Z.land_spec, Z.pow2_bits_eqb by lia.
    destruct (Z.eqb_spec k i) as [->|].
    - rewrite andb_true_r. destruct (Z.testbit x i); [now rewrite Z.pow2_bits_true by lia|now rewrite Z.bits_0].
    - rewrite andb_false_r. destruct (Z.testbit x k); [now rewrite Z.pow2_bits_false by lia|now rewrite Z.bits_0]. }
  rewrite E. rewrite Z.add_1_r, Z.pow_succ_r by lia.
  rewrite (Z.mul_comm 2), Z.rem_mul_r by lia. f_equal.
  rewrite <- Z.shiftr_div_pow2, <- Z.bit0_mod, Z.shiftr_spec, Z.add_0_l by lia.
  destruct (Z.testbit x k); simpl; [rewrite (proj2 (Z.eqb_neq _ 0)) by lia; lia|now rewrite Z.mul_0_r].
Qed.

(** ** Well-formed tables *)
Definition chained (k : Z) t : Prop :=
  forall i c, t !! i = Some c -> Forall (fun n => h_hkey n mod 2 ^ k = Z.of_nat i) c.
Record wf (k : Z) h : Prop := Wf {
  wf_k : 1 <= k <= 62;
  wf_nchains : nchains h = 2 ^ k;
  wf_mask : mask h = 2 ^ k - 1;
  wf_len : Z.of_nat (length (table h)) = 2 ^ k;
  wf_marks : dynamic h = true -> highmark h = 2 ^ (k + 1) /\ lowmark h = 2 ^ (k - 1);
  wf_chained : chained k (table h);
  wf_hkeys : Forall (fun n => h_hkey n = function h (h_key n) /\ no_nul (h_key n)) (concat (table h));
  wf_count : nodecount h = Z.of_nat (length (concat (table h))) /\ nodecount h <= maxcount h < 2 ^ 64;
  wf_keys : NoDup (map h_key (concat (table h)));
  wf_addrs : NoDup (map h_addr (concat (table h)));
  wf_compare : forall a b, no_nul a -> no_nul b -> compare h a b = 0 <-> a = b;
  wf_function : forall a, 0 <= function h a < 2 ^ 64 }.

Lemma chains_ok_chained k t : 0 <= k -> chained k t -> chains_ok (2 ^ k - 1) 0 t = true.
Proof.
  intros Hk. assert (G : forall j, (forall i c, t !! i = Some c ->
      Forall (fun n => h_hkey n mod 2 ^ k = j + Z.of_nat i) c) -> chains_ok (2 ^ k - 1) j t = true).
  { induction t as [|c t IH]; intros j H; [done|]. simpl. apply andb_true_iff. split.
    - apply forallb_forall. intros n Hn. specialize (H 0%nat c eq_refl).
      rewrite Forall_forall in H. rewrite land_mask by done. apply Z.eqb_eq.
      rewrite (H n); [lia|now apply list_elem_of_In].
    - apply IH. intros i c' Hc. specialize (H (S i) c' Hc). eapply Forall_impl; [exact H|].
      simpl. intros n Hn. lia. }
  intros H. apply G. intros i c Hc. eapply Forall_impl; [exact (H i c Hc)|]. simpl. lia.
Qed.
Lemma wf_verify k h : wf k h -> hash_verify h = true.
Proof.
  intros W. pose proof (wf_k _ _ W). unfold hash_verify.
  rewrite (wf_mask _ _ W), chains_ok_chained by (try apply W; lia).
  rewrite (proj1 (wf_count _ _ W)), Z.eqb_refl, !andb_true_r.
  destruct (dynamic h) eqn:E; [simpl|done]. destruct (wf_marks _ _ W E) as [-> ->].
  rewrite !power_of_two by lia. rewrite !andb_true_r. apply negb_true_iff, Z.leb_gt.
  apply Z.pow_lt_mono_r; lia.
Qed.

(** ** Lookup *)
Lemma find_concat (p : @hnode V -> bool) t i c : t !! i = Some c ->
  (forall j c', t !! j = Some c' -> j <> i -> Forall (fun n => p n = false) c') ->
  find p (concat t) = find p c.
Proof.
  assert (N : forall l, Forall (fun n => p n = false) l -> find p l = None)
    by (induction 1 as [|n l E F IH]; simpl; [done|now rewrite E]).
  assert (A : forall l1 l2, find p (l1 ++ l2) = match find p l1 with Some n => Some n | None => find p l2 end)
    
    by (induction l1 as [|n l1 IH1]; intros l2; simpl; [done|destruct (p n); [done|apply IH1]]).
  revert i. induction t as [|c0 t IH]; intros i Hi Hj; [done|]. simpl. rewrite A.
  destruct i as [|i]; simpl in Hi.
  - injection Hi as ->. destruct (find p c) eqn:E; [done|]. apply N.
    apply Forall_concat, Forall_forall. intros c' Hc. apply list_elem_of_lookup_1 in Hc as [j Hc].
    exact (Hj (S j) c' Hc ltac:(lia)).
  - rewrite (N c0) by exact (Hj 0%nat c0 eq_refl ltac:(lia)). apply (IH i Hi).
    intros j c' Hc Hne. exact (Hj (S j) c' Hc ltac:(lia)).
Qed.
Lemma chain_of k h (key : cstring) : wf k h ->
  exists c, table h !! Z.to_nat (function h key mod 2 ^ k) = Some c /\
    rd (table h) (Z.land (function h key) (mask h)) = Done c.
Proof.
  intros W. pose proof (wf_k _ _ W). rewrite (wf_mask _ _ W), land_mask by lia.
  apply rd_ok. rewrite (wf_len _ _ W). apply Z.mod_pos_bound, Z.pow_pos_nonneg; lia.
Qed.
Definition with_key (key : cstring) n : bool := bool_decide (h_key n = key).
Lemma hash_lookup_eq k h key : wf k h -> no_nul key ->
  hash_lookup h key = Done (find (with_key key) (concat (table h))).
Proof.
  intros W Hkey. pose proof (wf_k _ _ W). destruct (chain_of k h key W) as (c & Hc & Hr).
  unfold hash_lookup. rewrite Hr. simpl. f_equal.
  pose proof (wf_hkeys _ _ W) as Hk. rewrite Forall_concat, Forall_forall in Hk.
  rewrite (find_concat (with_key key) _ _ c Hc).
  - assert (Hn : Forall (fun n => h_hkey n = function h (h_key n) /\ no_nul (h_key n)) c)
      by (apply Hk; now apply list_elem_of_lookup_2 in Hc).
    clear -Hn Hkey W. induction Hn as [|n c [E1 E2] Hn IH]; [done|]. simpl. rewrite IH.
    unfold with_key at 2. rewrite E1. destruct (bool_decide_reflect (h_key n = key)) as [->|Hne].
    + now rewrite Z.eqb_refl, (proj2 (Z.eqb_eq _ _) (proj2 (wf_compare _ _ W key key Hkey Hkey) eq_refl)).
    + destruct (Z.eqb_spec (compare h (h_key n) key) 0) as [E|]; [|now rewrite andb_false_r].
      apply (wf_compare _ _ W) in E; done.
  - intros j c' Hc' Hj. rewrite Forall_forall. intros n Hn. apply bool_decide_eq_false. intros E.
    pose proof (wf_chained _ _ W _ _ Hc') as F. rewrite Forall_forall in F. specialize (F n Hn).
    assert (Hn' : h_hkey n = function h (h_key n)).
    { apply list_elem_of_lookup_2 in Hc'. specialize (Hk _ Hc'). rewrite Forall_forall in Hk. now apply Hk. }
    rewrite Hn', E in F. apply Hj. rewrite F. lia.
Qed.

(** ** Changing the geometry *)
(** The fields a resize leaves alone. *)
Definition same_client h h' : Prop :=
  nodecount h' = nodecount h /\ maxcount h' = maxcount h /\ compare h' = compare h /\
  function h' = function h /\ allocnode h' = allocnode h /\ freenode h' = freenode h /\
  dynamic h' = dynamic h.
Lemma wf_regeom k k' h h' : wf k h -> same_client h h' -> concat (table h') ≡ₚ concat (table h) ->
  1 <= k' <= 62 -> nchains h' = 2 ^ k' -> mask h' = 2 ^ k' - 1 ->
  Z.of_nat (length (table h')) = 2 ^ k' ->
  (dynamic h' = true -> highmark h' = 2 ^ (k' + 1) /\ lowmark h' = 2 ^ (k' - 1)) ->
  chained k' (table h') -> wf k' h'.
Proof.
  intros W (E1 & E2 & E3 & E4 & E5 & E6 & E7) P Hk Hn Hm Hl Hmk Hc.
  split; try done; rewrite ?E1, ?E2, ?E3, ?E4, ?P; try apply W.
Qed.

Lemma split_chain_eq (e : Z) c : forall low high, split_chain e c low high =
  (reverse (filter (fun n => Z.land (h_hkey n) e = 0) c) ++ low,
   reverse (filter (fun n => Z.land (h_hkey n) e <> 0) c) ++ high).
Proof.
  induction c as [|n c IH]; intros low high; [done|]. cbn [split_chain]. rewrite !filter_cons.
  destruct (Z.eqb_spec (Z.land (h_hkey n) e) 0) as [E|E]; rewrite IH.
  - rewrite decide_True by done. rewrite (decide_False (P := Z.land (h_hkey n) e <> 0)) by (intros X; now apply X).
    now rewrite reverse_cons, <- app_assoc.
  - rewrite decide_False by done. rewrite (decide_True (P := Z.land (h_hkey n) e <> 0)) by done.
    now rewrite reverse_cons, <- app_assoc.
Qed.
Definition split_table (e : Z) t : list (list (@hnode V)) :=
  map fst (map (fun c => split_chain e c [] []) t) ++ map snd (map (fun c => split_chain e c [] []) t).
Lemma filter_split (P : @hnode V -> Prop) {D1 : forall n, Decision (P n)} c :
  filter P c ++ filter (fun n => ~ P n) c ≡ₚ c.
Proof.
  induction c as [|n c IH]; [done|]. rewrite !filter_cons. destruct (decide (P n)) as [H|H].
  - rewrite (decide_False (P := ~ P n)) by (intros X; now apply X). simpl. now rewrite IH.
  - rewrite (decide_True (P := ~ P n)) by done. rewrite <- Permutation_middle. now rewrite IH.
Qed.
Lemma split_table_perm e t : concat (split_table e t) ≡ₚ concat t.
Proof.
  unfold split_table. induction t as [|c t IH]; [done|]. simpl. rewrite concat_app in *. simpl.
  rewrite split_chain_eq. simpl. rewrite !app_nil_r, !reverse_Permutation.
  rewrite <- IH. rewrite <- (filter_split (fun n => Z.land (h_hkey n) e = 0) c) at 3.
  rewrite <- !app_assoc. apply Permutation_app_head.
  rewrite (Permutation_app_comm (concat _) (filter _ c ++ _)), <- app_assoc.
  apply Permutation_app_head, Permutation_app_comm.
Qed.
Lemma split_table_chained k t : 0 <= k -> Z.of_nat (length t) = 2 ^ k -> chained k t ->
  chained (k + 1) (split_table (2 ^ k) t).
Proof.
  intros Hk Hl H i c Hi. unfold split_table in Hi. rewrite !map_map in Hi.
  apply lookup_app_Some in Hi as [Hi|[Hge Hi]].
  - apply list_lookup_fmap_Some in Hi as (c0 & -> & Hc). rewrite split_chain_eq. simpl.
    rewrite app_nil_r. apply Forall_forall. intros n [Hz Hn]%elem_of_reverse%list_elem_of_filter.
    specialize (H i c0 Hc). rewrite Forall_forall in H. rewrite mod_exposed, Hz, (H n Hn) by done.
    simpl. lia.
  - rewrite length_map in Hi, Hge.
    apply list_lookup_fmap_Some in Hi as (c0 & -> & Hc). rewrite split_chain_eq. simpl.
    rewrite app_nil_r. apply Forall_forall. intros n [Hz Hn]%elem_of_reverse%list_elem_of_filter.
    specialize (H _ c0 Hc). rewrite Forall_forall in H. rewrite mod_exposed, (H n Hn) by done.
    rewrite (proj2 (Z.eqb_neq _ _) Hz). lia.
Qed.
Lemma pow_succ k : 0 <= k -> 2 ^ (k + 1) = 2 * 2 ^ k.
Proof. intros. rewrite Z.add_1_r. now apply Z.pow_succ_r. Qed.
Lemma pow_range k : 0 <= k <= 62 -> 0 < 2 ^ k <= 2 ^ 62.
Proof. intros. split; [apply Z.pow_pos_nonneg; lia|apply Z.pow_le_mono_r; lia]. Qed.
(** The mask with one bit more, and the bit it exposes. *)
Lemma grow_mask k : 0 <= k <= 62 ->
  let m := Z.lor (u64 (Z.shiftl (2 ^ k - 1) 1)) 1 in m = 2 ^ (k + 1) - 1 /\ Z.lxor m (2 ^ k - 1) = 2 ^ k.
Proof.
  intros Hk m. pose proof (pow_range k Hk). pose proof (pow_succ k ltac:(lia)).
  assert (E : m = Z.ones (k + 1)).
  { unfold m. rewrite u64_small by (rewrite Z.shiftl_mul_pow2 by lia; change (2 ^ 1) with 2; lia).
    replace (2 ^ k - 1) with (Z.ones k) by (rewrite Z.ones_equiv; lia).
    apply Z.bits_inj'. intros i Hi. rewrite Z.lor_spec, Z.shiftl_spec, !Z.testbit_ones by lia.
    change 1 with (Z.ones 1) at 3. rewrite Z.testbit_ones by lia.
    destruct (Z.leb_spec 0 i), (Z.leb_spec 0 (i - 1)), (Z.ltb_spec i 1), (Z.ltb_spec i (k + 1)),
      (Z.ltb_spec (i - 1) k); simpl; lia || done. }
  split; [rewrite E, Z.ones_equiv; lia|].
  rewrite E. replace (2 ^ k - 1) with (Z.ones k) by (rewrite Z.ones_equiv; lia).
  apply Z.bits_inj'. intros i Hi. rewrite Z.lxor_spec, !Z.testbit_ones, Z.pow2_bits_eqb by lia.
  destruct (Z.leb_spec 0 i), (Z.ltb_spec i (k + 1)), (Z.ltb_spec i k), (Z.eqb_spec k i);
    simpl; lia || done.
Qed.
Lemma grow_table_eq k h (ro : bool) : wf k h -> k < 62 ->
  exists h', grow_table ro h = Done h' /\ wf (if ro then k + 1 else k) h' /\
    concat (table h') ≡ₚ concat (table h) /\ same_client h h'.
Proof.
  intros W Hk62. pose proof (wf_k _ _ W) as Hk. pose proof (pow_range k ltac:(lia)) as Hp.
  pose proof (pow_range (k + 1) ltac:(lia)). pose proof (pow_succ k ltac:(lia)) as Hs.
  unfold grow_table. rewrite (wf_nchains _ _ W). rewrite u64_small by lia.
  rewrite (assertb_true (2 ^ k <? 2 * 2 ^ k)) by lia. simpl obind. destruct ro.
  - rewrite (wf_mask _ _ W). destruct (grow_mask k ltac:(lia)) as [Em Ee]. rewrite Em, <- Em, Ee, Em.
    rewrite (assertb_true (negb _)) by (apply negb_true_iff, Z.eqb_neq; lia). simpl obind.
    fold (split_table (2 ^ k) (table h)).
    set (h' := set_geometry _ _ _ _ _ _).
    assert (W' : wf (k + 1) h').
    { eapply (wf_regeom k); try done; simpl.
      - apply split_table_perm.
      - lia.
      - rewrite u64_small by lia. lia.
      - unfold split_table. rewrite length_app, !length_map, Nat2Z.inj_add, (wf_len _ _ W). lia.
      - intros Hd. destruct (wf_marks _ _ W Hd) as [-> ->].
        pose proof (pow_succ (k + 1) ltac:(lia)). pose proof (pow_succ (k - 1) ltac:(lia)) as Hq.
        replace (k - 1 + 1) with k in Hq by lia. replace (k + 1 - 1) with k by lia.
        rewrite !u64_small by lia. split; lia.
      - apply split_table_chained; [lia|apply W|apply W]. }
    rewrite (wf_verify _ _ W'). exists h'. split_and!; try done. apply split_table_perm.
  - cbn [obind]. rewrite (wf_verify _ _ W). exists h. split_and!; done.
Qed.

Lemma zip_app_perm t1 : forall t2, length t1 = length t2 ->
  concat (zip_with app t1 t2) ≡ₚ concat t1 ++ concat t2.
Proof.
  induction t1 as [|a t1 IH]; intros [|b t2] L; try done. simpl. rewrite IH by (simpl in L; lia).
  rewrite <- !app_assoc. apply Permutation_app_head.
  rewrite (Permutation_app_comm b (_ ++ _)), <- app_assoc. apply Permutation_app_head, Permutation_app_comm.
Qed.
Lemma shrink_table_eq k h : wf k h -> 2 <= k ->
  exists h', shrink_table h = Done h' /\ wf (k - 1) h' /\
    concat (table h') ≡ₚ concat (table h) /\ same_client h h'.
Proof.
  intros W Hk2. pose proof (wf_k _ _ W) as Hk. pose proof (pow_range (k - 1) ltac:(lia)) as Hp.
  pose proof (pow_succ (k - 1) ltac:(lia)) as Hs. replace (k - 1 + 1) with k in Hs by lia.
  unfold shrink_table. rewrite (wf_nchains _ _ W).
  rewrite (assertb_true (2 <=? 2 ^ k)) by lia. simpl obind.
  assert (Ed : 2 ^ k / 2 = 2 ^ (k - 1)) by (rewrite Hs, Z.mul_comm; now apply Z_div_mult).
  rewrite Ed. set (m := Z.to_nat (2 ^ (k - 1))).
  assert (Lt : length (take m (table h)) = m).
  { rewrite length_take. pose proof (wf_len _ _ W). lia. }
  assert (Ld : length (drop m (table h)) = m).
  { rewrite length_drop. pose proof (wf_len _ _ W). lia. }
  set (h' := set_geometry _ _ _ _ _ _).
  assert (P : concat (table h') ≡ₚ concat (table h)).
  { simpl. rewrite zip_app_perm by congruence. now rewrite <- concat_app, take_drop. }
  assert (W' : wf (k - 1) h').
  { eapply (wf_regeom k); try done; simpl.
    - lia.
    - rewrite (wf_mask _ _ W). rewrite Z.shiftr_div_pow2 by lia. change (2 ^ 1) with 2.
      replace (2 ^ k - 1) with (1 + (2 ^ (k - 1) - 1) * 2) by lia. rewrite Z.div_add by lia. change (1 / 2) with 0. lia.
    - rewrite length_zip_with, Lt, Ld. unfold m. lia.
    - intros Hd. destruct (wf_marks _ _ W Hd) as [-> ->].
      replace (k - 1 + 1) with k by lia. rewrite pow_succ by lia. split.
      + rewrite Z.mul_comm. now apply Z_div_mult.
      + replace (2 ^ (k - 1)) with (2 ^ (k - 1 - 1) * 2); [now apply Z_div_mult|].
        rewrite Z.mul_comm, <- pow_succ by lia. f_equal. lia.
    - intros i c Hi. apply lookup_zip_with_Some in Hi as (c1 & c2 & -> & H1 & H2).
      assert (Him : (i < m)%nat) by (apply lookup_lt_Some in H1; lia).
      rewrite lookup_take_Some in H1. destruct H1 as [H1 _]. rewrite lookup_drop in H2.
      apply (wf_chained _ _ W) in H1, H2.
      assert (R : forall x j, x mod 2 ^ k = j -> x mod 2 ^ (k - 1) = j mod 2 ^ (k - 1)).
      { intros x j <-. symmetry. rewrite Hs. rewrite Z.mul_comm, Z.rem_mul_r by lia.
        rewrite Z.mul_comm, Z.mod_add by lia. now rewrite Zmod_mod. }
      apply Forall_app. split; (eapply Forall_impl; [eassumption|]); simpl; intros n Hn; apply R in Hn; rewrite Hn.
      + apply Z.mod_small. lia.
      + replace (Z.of_nat (m + i)) with (Z.of_nat i + 1 * 2 ^ (k - 1)) by lia.
        rewrite Z.mod_add by lia. apply Z.mod_small. lia. }
  rewrite (wf_verify _ _ W'). exists h'. split_and!; done.
Qed.

(** ** Updating a chain *)
Lemma concat_insert t i c : t !! i = Some c ->
  exists r, concat t ≡ₚ c ++ r /\ forall c', concat (<[i := c']> t) ≡ₚ c' ++ r.
Proof.
  intros Hi. exists (concat (take i t) ++ concat (drop (S i) t)).
  assert (G : forall c', concat (take i t ++ c' :: drop (S i) t) ≡ₚ c' ++ concat (take i t) ++ concat (drop (S i) t)).
  { intros c'. rewrite concat_app. simpl. rewrite !app_assoc. apply Permutation_app_tail, Permutation_app_comm. }
  split.
  - rewrite <- (take_drop_middle t i c Hi) at 1. apply G.
  - intros c'. rewrite insert_take_drop by (eapply lookup_lt_Some; exact Hi). apply G.
Qed.
(** The rest of a record is untouched. *)
Definition same_fields h h' : Prop :=
  nchains h' = nchains h /\ maxcount h' = maxcount h /\ highmark h' = highmark h /\
  lowmark h' = lowmark h /\ compare h' = compare h /\ function h' = function h /\
  allocnode h' = allocnode h /\ freenode h' = freenode h /\ mask h' = mask h /\ dynamic h' = dynamic h.
Lemma wf_rechain k h h' i c : wf k h -> same_fields h h' ->
  table h' = <[i := c]> (table h) ->
  Forall (fun n => h_hkey n mod 2 ^ k = Z.of_nat i) c ->
  Forall (fun n => h_hkey n = function h (h_key n) /\ no_nul (h_key n)) (concat (table h')) ->
  nodecount h' = Z.of_nat (length (concat (table h'))) -> nodecount h' <= maxcount h ->
  NoDup (map h_key (concat (table h'))) -> NoDup (map h_addr (concat (table h'))) -> wf k h'.
Proof.
  intros W (E1 & E2 & E3 & E4 & E5 & E6 & E7 & E8 & E9 & E10) Et Hc Hk Hn Hm N1 N2.
  split; rewrite ?E1, ?E2, ?E3, ?E4, ?E5, ?E6, ?E7, ?E8, ?E9, ?E10; try done; try apply W.
  - rewrite Et, length_insert. apply W.
  - intros j c' Hj. rewrite Et in Hj. apply list_lookup_insert_Some in Hj as [(-> & -> & _)|[_ Hj]]; [done|].
    now apply (wf_chained _ _ W).
  - split; [done|]. pose proof (wf_count _ _ W). lia.
Qed.

Lemma find_key_None key (l : list (@hnode V)) : find (with_key key) l = None <-> key ∉ map h_key l.
Proof.
  induction l as [|n l IH]; simpl; [split; [intros _; apply not_elem_of_nil|done]|].
  unfold with_key at 1. rewrite not_elem_of_cons. case_bool_decide as E; [split; [done|intros [X _]; congruence]|].
  rewrite IH. split; [intros H; split; [congruence|done]|tauto].
Qed.
Lemma find_key_Some n (l : list (@hnode V)) : NoDup (map h_key l) -> n ∈ l ->
  find (with_key (h_key n)) l = Some n.
Proof.
  induction l as [|m l IH]; intros N Hn; [now apply not_elem_of_nil in Hn|].
  simpl in N. apply NoDup_cons in N as [N1 N2]. simpl. unfold with_key at 1.
  apply elem_of_cons in Hn as [->|Hn]; [now rewrite bool_decide_true|].
  rewrite bool_decide_false; [now apply IH|]. intros E. apply N1. rewrite E.
  apply list_elem_of_fmap. eauto.
Qed.

(** ** Insertion *)
Definition inserted h n (key : cstring) : @hnode V :=
  HNode (h_addr n) key (h_data n) (function h key) false.
Lemma hash_insert_ok bits (ro : bool) k h n key : wf k h -> k < 62 -> bits <> 0 ->
  h_next_null n = true -> h_addr n ∉ map h_addr (concat (table h)) -> no_nul key ->
  nodecount h < maxcount h -> key ∉ map h_key (concat (table h)) ->
  exists k' h', hash_insert bits ro h n key = Done h' /\ wf k' h' /\
    concat (table h') ≡ₚ inserted h n key :: concat (table h) /\
    k' = (if dynamic h && (highmark h <=? nodecount h) && ro then k + 1 else k) /\
    maxcount h' = maxcount h /\ compare h' = compare h /\ function h' = function h /\
    allocnode h' = allocnode h /\ freenode h' = freenode h /\ dynamic h' = dynamic h.
Proof.
  intros W Hk62 Hb Hn Ha Hkey Hc Hin. unfold hash_insert.
  rewrite (proj2 (Z.eqb_neq _ _) Hb), Hn, (proj2 (Z.ltb_lt _ _) Hc). simpl obind.
  rewrite (hash_lookup_eq k h key W Hkey), (proj2 (find_key_None key _) Hin). simpl obind.
  assert (G : exists k1 h1, (if dynamic h && (highmark h <=? nodecount h) then grow_table ro h else Done h)
      = Done h1 /\ wf k1 h1 /\ concat (table h1) ≡ₚ concat (table h) /\ same_client h h1 /\
      k1 = (if dynamic h && (highmark h <=? nodecount h) && ro then k + 1 else k)).
  { destruct (dynamic h && (highmark h <=? nodecount h)) eqn:E.
    - destruct (grow_table_eq k h ro W Hk62) as (h1 & Eg & W1 & P & S).
      exists (if ro then k + 1 else k), h1. done.
    - now exists k, h. }
  destruct G as (k1 & h1 & -> & W1 & P1 & (S1 & S2 & S3 & S4 & S5 & S6 & S7) & Hk1). simpl obind.
  destruct (chain_of k1 h1 key W1) as (c & Hc1 & Hr). rewrite Hr. simpl obind.
  pose proof (wf_k _ _ W1) as Hkk. rewrite (wf_mask _ _ W1), land_mask by lia.
  set (i := Z.to_nat (function h1 key mod 2 ^ k1)) in *.
  destruct (concat_insert _ _ _ Hc1) as (r & Pr & Pi).
  set (h2 := set_nodecount _ _).
  assert (P2 : concat (table h2) ≡ₚ inserted h n key :: concat (table h1)).
  { simpl. rewrite Pi, Pr, S4. done. }
  pose proof (wf_count _ _ W1) as [Hcnt Hmax].
  assert (W2 : wf k1 h2).
  { apply (wf_rechain k1 h1 h2 i (inserted h n key :: c)); try done; try rewrite P2, P1.
    - simpl. unfold inserted. now rewrite S4.
    - constructor; [|now apply (wf_chained _ _ W1)]. simpl. unfold i.
      rewrite Z2Nat.id, S4; [done|]. apply Z.mod_pos_bound, Z.pow_pos_nonneg; lia.
    - constructor; [simpl; now rewrite S4|]. rewrite S4. apply (wf_hkeys _ _ W).
    - simpl. rewrite Hcnt, P1, u64_small by (rewrite <- P1, <- Hcnt; lia). lia.
    - simpl. rewrite u64_small by lia. lia.
    - simpl. constructor; [done|apply W].
    - simpl. constructor; [done|apply W]. }
  rewrite (wf_verify _ _ W2). exists k1, h2. split_and!; try done. now rewrite P2, P1.
Qed.
Lemma hash_insert_fail bits (ro : bool) k h n key : wf k h -> bits <> 0 -> no_nul key ->
  maxcount h <= nodecount h \/ key ∈ map h_key (concat (table h)) ->
  hash_insert bits ro h n key = AssertFail.
Proof.
  intros W Hb Hkey Hor. unfold hash_insert. rewrite (proj2 (Z.eqb_neq _ _) Hb). simpl obind.
  destruct (h_next_null n); [simpl obind|done].
  destruct (Z.ltb_spec (nodecount h) (maxcount h)) as [Hc|]; [simpl obind|done].
  rewrite (hash_lookup_eq k h key W Hkey).
  destruct Hor as [|Hin]; [lia|].
  destruct (find (with_key key) (concat (table h))) eqn:E; [done|].
  now apply find_key_None in E.
Qed.

(** ** Deletion *)
Lemma unlink_eq n c : n ∈ c -> NoDup (map h_addr c) ->
  exists c', unlink (h_addr n) c = Done c' /\ c ≡ₚ n :: c'.
Proof.
  induction c as [|m c IH]; intros Hn N; [now apply not_elem_of_nil in Hn|].
  simpl in N. apply NoDup_cons in N as [N1 N2]. cbn [unlink].
  apply elem_of_cons in Hn as [->|Hn].
  - rewrite bool_decide_true by done. eauto.
  - rewrite bool_decide_false.
    + destruct (IH Hn N2) as (c' & -> & P). exists (m :: c'). split; [done|]. rewrite P. constructor.
    + intros E. apply N1. rewrite E. apply list_elem_of_fmap. eauto.
Qed.
Lemma node_chain k h n : wf k h -> n ∈ concat (table h) ->
  exists c, table h !! Z.to_nat (h_hkey n mod 2 ^ k) = Some c /\ n ∈ c /\
    rd (table h) (Z.land (h_hkey n) (mask h)) = Done c.
Proof.
  intros W Hn. pose proof (wf_k _ _ W).
  apply list_elem_of_In, in_concat in Hn as (c & Hc & Hn).
  apply list_elem_of_In in Hc, Hn. apply list_elem_of_lookup_1 in Hc as [i Hi].
  pose proof (wf_chained _ _ W i c Hi) as F. rewrite Forall_forall in F. specialize (F n Hn).
  exists c. rewrite (wf_mask _ _ W), land_mask, F, Nat2Z.id by lia. split_and!; try done. now apply rd_nat.
Qed.
Definition client_kept h h' : Prop :=
  maxcount h' = maxcount h /\ compare h' = compare h /\ function h' = function h /\
  allocnode h' = allocnode h /\ freenode h' = freenode h /\ dynamic h' = dynamic h.
Definition deleted n : @hnode V := HNode (h_addr n) (h_key n) (h_data n) (h_hkey n) true.

(** The common part of the two deletions. *)
Lemma remove_eq k h n : wf k h -> n ∈ concat (table h) ->
  exists c c', rd (table h) (Z.land (h_hkey n) (mask h)) = Done c /\ unlink (h_addr n) c = Done c' /\
  let h' := set_nodecount (set_table h (<[Z.to_nat (Z.land (h_hkey n) (mask h)) := c']> (table h)))
              (u64 (nodecount h - 1)) in
  wf k h' /\ concat (table h) ≡ₚ n :: concat (table h').
Proof.
  intros W Hn. destruct (node_chain k h n W Hn) as (c & Hi & Hnc & Hr).
  pose proof (wf_k _ _ W). destruct (concat_insert _ _ _ Hi) as (r & Pr & Pi).
  assert (Nc : NoDup (map h_addr c)).
  { pose proof (wf_addrs _ _ W) as N. rewrite Pr, map_app in N. now apply NoDup_app in N as (? & _). }
  destruct (unlink_eq n c Hnc Nc) as (c' & Hu & Pc).
  exists c, c'. split; [done|]. split; [done|]. rewrite (wf_mask _ _ W), land_mask by lia. intros h'.
  assert (P : concat (table h) ≡ₚ n :: concat (table h')).
  { simpl. rewrite Pi, Pr, Pc. done. }
  split; [|exact P].
  pose proof (wf_hkeys _ _ W) as F. pose proof (wf_keys _ _ W) as N1. pose proof (wf_addrs _ _ W) as N2.
  pose proof (wf_count _ _ W) as [Hcnt Hmax]. rewrite P in F, N1, N2, Hcnt. cbn [map length] in N1, N2, Hcnt.
  apply Forall_cons in F as [_ F]. apply NoDup_cons in N1 as [_ N1], N2 as [_ N2].
  apply (wf_rechain k h h' (Z.to_nat (h_hkey n mod 2 ^ k)) c'); try done.
  - pose proof (wf_chained _ _ W _ _ Hi) as Fc. rewrite Pc in Fc. now apply Forall_cons in Fc as [_ Fc].
  - change (nodecount h') with (u64 (nodecount h - 1)). rewrite u64_small by lia. lia.
  - change (nodecount h') with (u64 (nodecount h - 1)). rewrite u64_small; lia.
Qed.
Lemma found_self k h n : wf k h -> n ∈ concat (table h) -> hash_lookup h (h_key n) = Done (Some n).
Proof.
  intros W Hn. pose proof (wf_hkeys _ _ W) as F. rewrite Forall_forall in F.
  rewrite (hash_lookup_eq k h _ W) by now apply F. now rewrite (find_key_Some n _ (wf_keys _ _ W) Hn).
Qed.
Lemma hash_scan_delete_ok bits k h n : wf k h -> bits <> 0 -> n ∈ concat (table h) ->
  exists h', hash_scan_delete bits h n = Done (deleted n, h') /\ wf k h' /\
    concat (table h) ≡ₚ n :: concat (table h') /\ client_kept h h' /\
    exists c c', rd (table h) (Z.land (h_hkey n) (mask h)) = Done c /\ unlink (h_addr n) c = Done c' /\
      table h' = <[Z.to_nat (Z.land (h_hkey n) (mask h)) := c']> (table h).
Proof.
  intros W Hb Hn. unfold hash_scan_delete. rewrite (found_self k h n W Hn). simpl obind. unfold same_node.
  rewrite bool_decide_true, (proj2 (Z.eqb_neq _ _) Hb) by done. simpl obind.
  destruct (remove_eq k h n W Hn) as (c & c' & Hr & Hu & W' & P). rewrite Hr. simpl obind.
  rewrite Hu. simpl obind. rewrite (wf_verify _ _ W'). eexists. split; [reflexivity|].
  split; [done|]. split; [done|]. split; [done|]. now exists c, c'.
Qed.
Lemma hash_delete_ok bits k h n : wf k h -> bits <> 0 -> n ∈ concat (table h) ->
  exists k' h', hash_delete bits h n = Done (deleted n, h') /\ wf k' h' /\
    concat (table h) ≡ₚ n :: concat (table h') /\ client_kept h h' /\
    (k' = k \/ dynamic h = true /\ nodecount h <= lowmark h /\ 64 < nodecount h /\ k' = k - 1).
Proof.
  intros W Hb Hn. unfold hash_delete. rewrite (found_self k h n W Hn). simpl obind. unfold same_node.
  rewrite bool_decide_true, (proj2 (Z.eqb_neq _ _) Hb) by done. simpl obind.
  assert (G : exists k1 h1, (if dynamic h && (nodecount h <=? lowmark h) && (INIT_SIZE <? nodecount h)
      then shrink_table h else Done h) = Done h1 /\ wf k1 h1 /\
      concat (table h1) ≡ₚ concat (table h) /\ same_client h h1 /\
      (k1 = k \/ dynamic h = true /\ nodecount h <= lowmark h /\ 64 < nodecount h /\ k1 = k - 1)).
  { destruct (dynamic h && (nodecount h <=? lowmark h) && (INIT_SIZE <? nodecount h)) eqn:E.
    - apply andb_true_iff in E as [E E3]. apply andb_true_iff in E as [E1 E2]. unfold INIT_SIZE in E3.
      assert (Hk2 : 2 <= k).
      { destruct (wf_marks _ _ W E1) as [_ Hl]. rewrite Hl in E2. pose proof (wf_k _ _ W).
        destruct (Z.eq_dec k 1) as [->|]; [|lia]. simpl in E2. lia. }
      destruct (shrink_table_eq k h W Hk2) as (h1 & Eg & W1 & P & S).
      exists (k - 1), h1. split_and!; try done. right. split_and!; try done; lia.
    - exists k, h. split_and!; try done. now left. }
  destruct G as (k1 & h1 & -> & W1 & P1 & (S1 & S2 & S3 & S4 & S5 & S6 & S7) & Hk1). simpl obind.
  rewrite <- P1 in Hn. destruct (remove_eq k1 h1 n W1 Hn) as (c & c' & Hr & Hu & W' & P). rewrite Hr. simpl obind.
  rewrite Hu. simpl obind. rewrite (wf_verify _ _ W'). eexists k1, _. split; [reflexivity|].
  split; [done|]. split; [now rewrite <- P1|]. split; [|done]. now split_and!.
Qed.

(** ** Scanning *)
(** The scanner [s] still has the nodes [rest] of [h] to visit. *)
Definition scans k h (s : hscan_t) (rest : list (@hnode V)) : Prop :=
  match s_next s with
  | None => rest = []
  | Some a => exists i pre n post, s_chain s = Z.of_nat i /\ (Z.of_nat i < 2 ^ k) /\
      table h !! i = Some (pre ++ n :: post) /\ h_addr n = a /\
      rest = (n :: post) ++ concat (drop (S i) (table h))
  end.
Lemma first_nonempty_eq t : forall j, match first_nonempty t j with
  | None => concat t = []
  | Some (j', a) => exists i n c, j' = j + Z.of_nat i /\ t !! i = Some (n :: c) /\ h_addr n = a /\
      concat t = (n :: c) ++ concat (drop (S i) t)
  end.
Proof.
  induction t as [|[|n c] t IH]; intros j; simpl; [done| |].
  - specialize (IH (j + 1)). destruct (first_nonempty t (j + 1)) as [[j' a]|]; [|done].
    destruct IH as (i & n & c & -> & Hi & Ha & E). exists (S i), n, c. split_and!; try done. lia.
  - exists 0%nat, n, c. split_and!; try done. lia.
Qed.
Lemma chain_at_app n pre post : h_addr n ∉ map h_addr pre ->
  chain_at (h_addr n) (pre ++ n :: post) = Some (n, h_addr <$> head post).
Proof.
  induction pre as [|m pre IH]; intros H; simpl in *; [now rewrite bool_decide_true|].
  apply not_elem_of_cons in H as [H1 H2]. rewrite bool_decide_false by congruence. now apply IH.
Qed.
Lemma chain_at_None a c : a ∉ map h_addr c -> chain_at a c = None.
Proof.
  induction c as [|m c IH]; intros H; simpl in *; [done|].
  apply not_elem_of_cons in H as [H1 H2]. rewrite bool_decide_false by congruence. now apply IH.
Qed.
Lemma node_at_eq t i n pre post : NoDup (map h_addr (concat t)) -> t !! i = Some (pre ++ n :: post) ->
  node_at (h_addr n) t = Some (n, h_addr <$> head post).
Proof.
  revert i. induction t as [|c t IH]; intros i N Hi; [done|]. simpl in N. rewrite map_app in N.
  apply NoDup_app in N as (N1 & N2 & N3). destruct i as [|i]; simpl in Hi |- *.
  - injection Hi as ->. rewrite chain_at_app; [done|]. rewrite map_app in N1.
    apply NoDup_app in N1 as (_ & N1 & _). intros H. apply (N1 _ H). simpl. left.
  - rewrite chain_at_None; [now apply (IH i)|]. intros H. apply (N2 _ H).
    rewrite concat_map. apply list_elem_of_In, in_concat. exists (map h_addr (pre ++ n :: post)).
    split; apply list_elem_of_In.
    + apply list_elem_of_fmap. exists (pre ++ n :: post). split; [done|]. eapply list_elem_of_lookup_2, Hi.
    + rewrite map_app. apply elem_of_app. right. left.
Qed.
Lemma scan_begin_scans k h junk : wf k h -> scans k h (hash_scan_begin junk h) (concat (table h)).
Proof.
  intros W. unfold hash_scan_begin, scans. pose proof (first_nonempty_eq (table h) 0) as F.
  destruct (first_nonempty (table h) 0) as [[j a]|]; simpl; [|done].
  destruct F as (i & n & c & -> & Hi & Ha & E). exists i, [], n, c. split_and!; try done.
  rewrite <- (wf_len _ _ W). apply lookup_lt_Some in Hi. lia.
Qed.
Lemma scan_next_end bits k h s : bits <> 0 -> scans k h s [] ->
  hash_scan_next bits h s = Done (None, s).
Proof.
  intros Hb S. unfold hash_scan_next. rewrite (proj2 (Z.eqb_neq _ _) Hb). simpl obind.
  unfold scans in S. destruct (s_next s); [|done]. destruct S as (? & ? & ? & ? & _ & _ & _ & _ & E). done.
Qed.
Lemma scan_next_eq bits k h s n rest : wf k h -> bits <> 0 -> scans k h s (n :: rest) ->
  n ∈ concat (table h) /\ exists s', hash_scan_next bits h s = Done (Some n, s') /\ scans k h s' rest /\
  (* the position does not depend on the node that was returned *)
  (forall c c' h', rd (table h) (Z.land (h_hkey n) (mask h)) = Done c -> unlink (h_addr n) c = Done c' ->
     table h' = <[Z.to_nat (Z.land (h_hkey n) (mask h)) := c']> (table h) -> scans k h' s' rest).
Proof.
  intros W Hb S. unfold scans in S. destruct (s_next s) as [a|] eqn:En; [|done].
  destruct S as (i & pre & m & post & Hs & Hik & Hi & Ha & E). simpl in E. injection E as <- ->.
  pose proof (wf_k _ _ W) as Hk. pose proof (pow_range k ltac:(lia)) as Hp.
  pose proof (lookup_lt_Some _ _ _ Hi) as Hlt.
  assert (Hni : n ∈ pre ++ n :: post) by (apply elem_of_app; right; left).
  split. { apply list_elem_of_In, in_concat. exists (pre ++ n :: post).
    split; apply list_elem_of_In; [eapply list_elem_of_lookup_2, Hi|done]. }
  unfold hash_scan_next. rewrite (proj2 (Z.eqb_neq _ _) Hb), En. simpl obind.
  rewrite <- Ha, (node_at_eq _ _ _ _ _ (wf_addrs _ _ W) Hi). simpl obind.
  (* deleting [n] *)
  assert (Du : forall c c', rd (table h) (Z.land (h_hkey n) (mask h)) = Done c -> unlink (h_addr n) c = Done c' ->
     Z.to_nat (Z.land (h_hkey n) (mask h)) = i /\ c' = pre ++ post).
  { intros c c' Hr Hu. pose proof (wf_chained _ _ W _ _ Hi) as F. rewrite Forall_forall in F.
    specialize (F n Hni). rewrite (wf_mask _ _ W), land_mask, F in Hr |- * by lia.
    rewrite (rd_nat _ _ _ Hi) in Hr. injection Hr as <-. split; [lia|].
    assert (Np : h_addr n ∉ map h_addr pre).
    { pose proof (wf_addrs _ _ W) as N. destruct (concat_insert _ _ _ Hi) as (r & Pr & _).
      rewrite Pr, !map_app in N. apply NoDup_app in N as (N & _). apply NoDup_app in N as (_ & N & _).
      intros H. apply (N _ H). left. }
    clear -Hu Np. revert c' Hu. induction pre as [|m pre IH]; intros c' Hu; simpl in *.
    - rewrite bool_decide_true in Hu by done. now injection Hu as <-.
    - apply not_elem_of_cons in Np as [Np1 Np2]. rewrite bool_decide_false in Hu by congruence.
      cinv. now rewrite (IH Np2 _ Hr). }
  destruct post as [|m post]; simpl fmap.
  - rewrite Hs, u64_small by lia. replace (Z.to_nat (Z.of_nat i + 1)) with (S i) by lia.
    pose proof (first_nonempty_eq (drop (S i) (table h)) (Z.of_nat i + 1)) as F.
    destruct (first_nonempty _ _) as [[j b]|].
    + destruct F as (i2 & n2 & c2 & -> & Hi2 & Hb2 & E2). rewrite lookup_drop in Hi2.
      eexists. split; [reflexivity|].
      assert (L2 : Z.of_nat (S i + i2) < 2 ^ k)
        by (rewrite <- (wf_len _ _ W); apply lookup_lt_Some in Hi2; lia).
      assert (Ed : drop (S i2) (drop (S i) (table h)) = drop (S (S i + i2)) (table h))
        by (rewrite drop_drop; f_equal; lia).
      rewrite Ed in E2.
      split.
      * exists (S i + i2)%nat, [], n2, c2. simpl s_chain. split_and!; try done. lia.
      * intros c c' h' Hr Hu Ht. destruct (Du c c' Hr Hu) as [Ei ->]. rewrite Ei in Ht.
        exists (S i + i2)%nat, [], n2, c2. simpl s_chain. split_and!; try done; [lia| |].
        -- rewrite Ht, list_lookup_insert_ne by lia. done.
        -- rewrite Ht, drop_insert_lt by lia. exact E2.
    + eexists. split; [reflexivity|]. split; [simpl; now rewrite F|].
      intros c c' h' _ _ _. simpl. now rewrite F.
  - eexists. split; [reflexivity|]. split.
    + exists i, (pre ++ [n]), m, post. simpl s_chain. split_and!; try done. now rewrite <- app_assoc.
    + intros c c' h' Hr Hu Ht. destruct (Du c c' Hr Hu) as [Ei ->]. rewrite Ei in Ht.
      exists i, pre, m, post. simpl s_chain. split_and!; try done.
      * rewrite Ht, list_lookup_insert_eq by done. done.
      * rewrite Ht, drop_insert_lt by lia. done.
Qed.

Lemma free_loop_eq bits k rest : forall fuel h s log, wf k h -> bits <> 0 -> (length rest < fuel)%nat ->
  scans k h s rest -> concat (table h) ≡ₚ rest ->
  exists h', free_loop bits fuel h s log = Done (h', log ++ flat_map (freenode h) (map deleted rest)) /\
    wf k h' /\ concat (table h') = [] /\ client_kept h h'.
Proof.
  induction rest as [|n rest IH]; intros fuel h s log W Hb Hf S P; (destruct fuel as [|fuel]; [simpl in Hf; lia|]);
    cbn [free_loop].
  - rewrite (scan_next_end bits k h s Hb S). simpl obind. exists h. rewrite app_nil_r.
    split_and!; try done. now apply Permutation_nil_r.
  - destruct (scan_next_eq bits k h s n rest W Hb S) as (Hn & s' & -> & S' & D). simpl obind.
    destruct (hash_scan_delete_ok bits k h n W Hb Hn) as (h1 & -> & W1 & P1 & K1 & c & c' & Hr & Hu & Ht).
    simpl obind. rewrite P1 in P. apply Permutation_cons_inv in P.
    destruct (IH fuel h1 s' (log ++ freenode h1 (deleted n)) W1 Hb ltac:(simpl in Hf; lia)
      (D c c' h1 Hr Hu Ht) P) as (h2 & E2 & W2 & C2 & K2).
    destruct K1 as (M1 & M2 & M3 & M4 & M5 & M6), K2 as (M7 & M8 & M9 & M10 & M11 & M12).
    exists h2. rewrite E2, M5, <- app_assoc. split_and!; try done; split_and!; congruence.
Qed.

(** ** The table as a finite map *)
Definition entries (l : list (@hnode V)) : list (cstring * V) := map (fun n => (h_key n, h_data n)) l.
Definition to_map h : gmap cstring V := list_to_map (entries (concat (table h))).
Lemma entries_keys l : (entries l).*1 = map h_key l.
Proof. unfold entries. induction l as [|n l IH]; [done|]. simpl. f_equal. exact IH. Qed.
Lemma to_map_lookup h key : to_map h !! key = h_data <$> find (with_key key) (concat (table h)).
Proof.
  unfold to_map. induction (concat (table h)) as [|n l IH]; [done|]. simpl. unfold with_key at 1.
  case_bool_decide as E; [rewrite E; apply lookup_insert_eq|]. now rewrite lookup_insert_ne.
Qed.
Lemma to_map_None h key : to_map h !! key = None <-> key ∉ map h_key (concat (table h)).
Proof. rewrite to_map_lookup, fmap_None. apply find_key_None. Qed.
Lemma to_map_perm h l : NoDup (map h_key (concat (table h))) -> concat (table h) ≡ₚ l ->
  to_map h = list_to_map (entries l).
Proof.
  intros N P. apply list_to_map_proper; [now rewrite entries_keys|]. unfold entries. now rewrite P.
Qed.

(** [hash_lookup] finds the data of a key exactly when the abstract map has it. *)
Theorem hash_lookup_spec k h key : wf k h -> no_nul key ->
  exists r, hash_lookup h key = Done r /\ h_data <$> r = to_map h !! key /\
    forall n, r = Some n -> h_key n = key /\ n ∈ concat (table h).
Proof.
  intros W Hk. rewrite (hash_lookup_eq k h key W Hk). eexists. split; [done|].
  split; [symmetry; apply to_map_lookup|]. intros n E. apply find_some in E as [Hn E].
  unfold with_key in E. apply bool_decide_eq_true in E. split; [done|now apply list_elem_of_In].
Qed.

(** C38. [hash_insert] of a free node adds the binding to the abstract map and keeps the table
    well formed, growing it when the load factor reaches two (a failed [realloc] leaves
    the geometry alone); on a full table or for a key that is present it stops at an
    assertion. *)
Theorem hash_insert_spec bits (ro : bool) k h n key : wf k h -> k < 62 -> bits <> 0 ->
  h_next_null n = true -> h_addr n ∉ map h_addr (concat (table h)) -> no_nul key ->
  if (nodecount h <? maxcount h) && bool_decide (to_map h !! key = None) then
    exists k' h', hash_insert bits ro h n key = Done h' /\ wf k' h' /\
      to_map h' = <[key := h_data n]> (to_map h) /\ nodecount h' = nodecount h + 1 /\
      (dynamic h = true -> ro = true -> nodecount h <= highmark h -> nodecount h' <= highmark h') /\
      (ro = false -> nchains h' = nchains h)
  else hash_insert bits ro h n key = AssertFail.
Proof.
  intros W Hk Hb Hn Ha Hkey.
  destruct ((nodecount h <? maxcount h) && bool_decide (to_map h !! key = None)) eqn:E.
  - apply andb_true_iff in E as [E1 E2]. apply Z.ltb_lt in E1. apply bool_decide_eq_true in E2.
    apply to_map_None in E2.
    destruct (hash_insert_ok bits ro k h n key W Hk Hb Hn Ha Hkey E1 E2)
      as (k' & h' & Ei & W' & P & Hk' & M1 & M2 & M3 & M4 & M5 & M6).
    assert (Hc : nodecount h' = nodecount h + 1).
    { rewrite (proj1 (wf_count _ _ W')), (proj1 (wf_count _ _ W)), P. simpl. lia. }
    exists k', h'. split_and!; try done.
    + rewrite (to_map_perm h' _ (wf_keys _ _ W') P). done.
    + intros Hd -> Hle. rewrite Hc. pose proof (wf_k _ _ W).
      destruct (wf_marks _ _ W Hd) as [Hm _].
      destruct (wf_marks k' h' W' ltac:(congruence)) as [-> _]. rewrite Hm in Hle, Hk'.
      rewrite Hd in Hk'. destruct (Z.leb_spec (2 ^ (k + 1)) (nodecount h)); simpl in Hk'; subst k'; [|lia].
      rewrite (pow_succ (k + 1)) by lia. pose proof (pow_range (k + 1) ltac:(lia)). lia.
    + intros ->. rewrite (wf_nchains _ _ W'), (wf_nchains _ _ W), Hk', andb_false_r. done.
  - apply (hash_insert_fail bits ro k); try done. apply andb_false_iff in E as [E|E].
    + left. now apply Z.ltb_ge in E.
    + right. apply bool_decide_eq_false in E. destruct (decide (key ∈ map h_key (concat (table h)))); [done|].
      exfalso. apply E. now apply to_map_None.
Qed.

(** [hash_delete] of a node of the table removes its binding from the abstract map, frees the
    node's link and keeps the table well formed, never shrinking a table of at least 64
    chains below 64; a node that is not the one stored under its key is refused by the
    first assertion. *)
Theorem hash_delete_spec bits k h n : wf k h -> bits <> 0 -> no_nul (h_key n) ->
  (n ∈ concat (table h) -> exists k' h', hash_delete bits h n = Done (deleted n, h') /\ wf k' h' /\
     to_map h' = delete (h_key n) (to_map h) /\ nodecount h' = nodecount h - 1 /\
     (64 <= nchains h -> 64 <= nchains h')) /\
  ((forall m, m ∈ concat (table h) -> h_key m = h_key n -> h_addr m <> h_addr n) ->
     hash_delete bits h n = AssertFail).
Proof.
  intros W Hb Hkey. split.
  - intros Hn. destruct (hash_delete_ok bits k h n W Hb Hn) as (k' & h' & E & W' & P & _ & Hk').
    exists k', h'. split_and!; try done.
    + rewrite (to_map_perm h _ (wf_keys _ _ W) P). simpl. unfold to_map at 1.
      symmetry. apply delete_insert_id, not_elem_of_list_to_map_1. rewrite entries_keys.
      pose proof (wf_keys _ _ W) as N. rewrite P in N. simpl in N. now apply NoDup_cons in N as [N _].
    + rewrite (proj1 (wf_count _ _ W')), (proj1 (wf_count _ _ W)), P. simpl. lia.
    + rewrite (wf_nchains _ _ W), (wf_nchains _ _ W'). intros H64. pose proof (wf_k _ _ W) as Hk.
      destruct Hk' as [->|(Hd & Hl & H65 & ->)]; [done|].
      destruct (wf_marks _ _ W Hd) as [_ Hm]. rewrite Hm in Hl. change 64 with (2 ^ 6) in *.
      assert (6 < k - 1) by (apply (Z.pow_lt_mono_r_iff 2); lia).
      apply Z.pow_le_mono_r; lia.
  - intros Hm. unfold hash_delete. rewrite (hash_lookup_eq k h _ W Hkey). simpl obind.
    destruct (find (with_key (h_key n)) (concat (table h))) as [m|] eqn:E; [|done].
    apply find_some in E as [Hin E]. unfold with_key in E. apply bool_decide_eq_true in E.
    unfold same_node. rewrite bool_decide_false; [done|]. apply Hm; [now apply list_elem_of_In|done].
Qed.

(** [hash_free_nodes] terminates, passes every node of the table to [freenode] exactly once, in
    the order of the chains, and leaves an empty well-formed table. *)
Theorem hash_free_nodes_spec bits k h : wf k h -> bits <> 0 ->
  exists h', hash_free_nodes bits h
      = Done (h', flat_map (freenode h) (map deleted (concat (table h)))) /\
    wf k h' /\ to_map h' = ∅ /\ nodecount h' = 0 /\ nchains h' = 2 ^ k.
Proof.
  intros W Hb. unfold hash_free_nodes.
  destruct (free_loop_eq bits k (concat (table h)) (S (length (concat (table h)))) h _ [] W Hb ltac:(lia)
    (scan_begin_scans k h 0 W) ltac:(reflexivity)) as (h1 & -> & W1 & C1 & K1).
  simpl obind. eexists. split; [reflexivity|].
  assert (Cr : forall m, concat (replicate m (@nil (@hnode V))) = []) by (induction m; done).
  assert (W2 : wf k (clear_table (set_nodecount h1 0))).
  { pose proof (wf_k _ _ W1). split; simpl; rewrite ?Cr; try apply W1; try done; try constructor.
    - rewrite length_replicate, (wf_nchains _ _ W1). pose proof (pow_range k ltac:(lia)). lia.
    - intros i c Hc. apply lookup_replicate in Hc as [-> _]. constructor.
    - done.
    - pose proof (wf_count _ _ W1). lia. }
  split_and!; try done; [|apply W1]. unfold to_map. simpl. now rewrite Cr.
Qed.

Lemma hash_acc_range str : forall acc, 0 <= acc < 2 ^ 32 -> 0 <= hash_acc str acc < 2 ^ 32.
Proof.
  induction str as [|c str IH]; intros acc H; [done|]. cbn [hash_acc]. apply IH.
  change 0xffffffff with (Z.ones 32). rewrite Z.land_ones by lia. apply Z.mod_pos_bound. lia.
Qed.
Lemma hash_fun_default_range key : 0 <= hash_fun_default key < 2 ^ 64.
Proof. pose proof (hash_acc_range key 0 ltac:(lia)). unfold hash_fun_default. lia. Qed.

Lemma hash_create_ok malloc_at tick maxc p q : 0 <= maxc < 2 ^ 64 ->
  malloc_at tick = Some p -> malloc_at (S tick) = Some q ->
  exists h, @hash_create V malloc_at tick maxc None None = Done (Some h) /\ wf 6 h /\
    to_map h = ∅ /\ nodecount h = 0 /\ maxcount h = maxc /\ dynamic h = true.
Proof.
  intros Hm Hp Hq. unfold hash_create, create. rewrite Hp, Hq.
  set (h := clear_table _).
  assert (W : wf 6 h).
  { split; [lia|reflexivity..| | | | | | | |].
    - done.
    - intros i c Hc. apply lookup_replicate in Hc as [-> _]. constructor.
    - constructor.
    - simpl. lia.
    - constructor.
    - constructor.
    - intros a b. apply strcmp_eq.
    - intros a. apply hash_fun_default_range. }
  rewrite (wf_verify _ _ W). exists h. now split_and!.
Qed.
(** [hash_create] with the default functions gives an empty well-formed table of 64 chains, or
    NULL when one of its two allocations fails. *)
Theorem hash_create_spec malloc_at tick maxc : 0 <= maxc < 2 ^ 64 ->
  if bool_decide (is_Some (malloc_at tick)) && bool_decide (is_Some (malloc_at (S tick))) then
    exists h, @hash_create V malloc_at tick maxc None None = Done (Some h) /\ wf 6 h /\
      to_map h = ∅ /\ nodecount h = 0 /\ maxcount h = maxc /\ dynamic h = true
  else @hash_create V malloc_at tick maxc None None = Done None.
Proof.
  intros Hm. destruct (malloc_at tick) as [p|] eqn:Hp, (malloc_at (S tick)) as [q|] eqn:Hq; simpl;
    try (unfold hash_create, create; rewrite Hp, ?Hq; done).
  now apply (hash_create_ok malloc_at tick maxc p q).
Qed.
End Proofs.

(** ** Concrete tables *)
Definition ok_malloc (n : nat) : option positive := Some (Pos.of_succ_nat n).
Definition fresh_table : @hash_t Z :=
  match @hash_create Z ok_malloc 0 100 None None with
  | Done (Some h) => h
  | _ => Hash [] 0 0 0 0 0 strcmp hash_fun_default ok_malloc hnode_free 0 false
  end.
Definition demo_insert (h : @hash_t Z) (a : positive) (key : string) (x : Z) : @hash_t Z :=
  match hash_insert 64 true h (HNode a [] x 0 true) (lit key) with Done h => h | _ => h end.
Definition demo : @hash_t Z := demo_insert (demo_insert fresh_table 10 "one" 1) 11 "two" 2.
Definition demo_node : @hnode Z := HNode 10 (lit "one") 1 (hash_fun_default (lit "one")) false.

Example demo_lookups : map (fun s => (let* r := hash_lookup demo (lit s) in Done (h_data <$> r)))
  ["one"%string; "two"%string; "three"%string] = [Done (Some 1); Done (Some 2); Done None].
Proof. vm_compute. reflexivity. Qed.
(** Two hundred insertions double the table, and a scan frees all of them. *)
Fixpoint insert_many (h : @hash_t Z) (m : nat) : outcome (@hash_t Z) :=
  match m with
  | O => Done h
  | S m => let* h := hash_insert 64 true h (HNode (Pos.of_succ_nat m) [] 7 0 true)
                       (chr (Z.of_nat m + 1) :: lit "x") in insert_many h m
  end.
Example grow_and_free :
  (let* h := insert_many (Hash (table fresh_table) 64 0 1000 128 32 strcmp hash_fun_default ok_malloc
                hnode_free 63 true) 200 in
   let* (h', log) := hash_free_nodes 64 h in
   Done (nodecount h, nchains h, length log, nodecount h')) = Done (200, 128, 200%nat, 0).
Proof. vm_compute. reflexivity. Qed.

Lemma chained_ok {V} k (t : list (list (@hnode V))) : 0 <= k -> chains_ok (2 ^ k - 1) 0 t = true -> chained k t.
Proof.
  intros Hk. assert (G : forall j, chains_ok (2 ^ k - 1) j t = true -> forall i c, t !! i = Some c ->
      Forall (fun n => h_hkey n mod 2 ^ k = j + Z.of_nat i) c).
  { induction t as [|c t IH]; intros j H i c' Hc; [done|]. simpl in H. apply andb_true_iff in H as [H1 H2].
    destruct i as [|i]; simpl in Hc.
    - injection Hc as <-. apply Forall_forall. intros n Hn. rewrite forallb_forall in H1.
      apply list_elem_of_In in Hn. specialize (H1 n Hn). rewrite land_mask in H1 by done. lia.
    - eapply Forall_impl; [exact (IH (j + 1) H2 i c' Hc)|]. simpl. lia. }
  intros H i c Hc. eapply Forall_impl; [exact (G 0 H i c Hc)|]. simpl. lia.
Qed.
Lemma demo_wf : wf 6 demo.
Proof.
  split.
  - lia.
  - vm_compute. reflexivity.
  - vm_compute. reflexivity.
  - vm_compute. reflexivity.
  - intros _. vm_compute. split; reflexivity.
  - apply chained_ok; [lia|]. vm_compute. reflexivity.
  - apply (bool_decide_eq_true_1 _). vm_compute. reflexivity.
  - vm_compute. repeat split; discriminate || reflexivity.
  - apply (bool_decide_eq_true_1 _). vm_compute. reflexivity.
  - apply (bool_decide_eq_true_1 _). vm_compute. reflexivity.
  - intros a b. apply strcmp_eq.
  - intros a. apply hash_fun_default_range.
Qed.
Lemma demo_no_nul : no_nul (lit "one").
Proof. apply (bool_decide_eq_true_1 _). vm_compute. reflexivity. Qed.
Lemma demo_node_in : demo_node ∈ concat (table demo).
Proof. vm_compute. repeat (left; reflexivity) || right. all: repeat first [left|right]. Qed.

Lemma hash_lookup_spec_witness : exists r, hash_lookup demo (lit "one") = Done r /\
  h_data <$> r = to_map demo !! lit "one" /\
  forall n, r = Some n -> h_key n = lit "one" /\ n ∈ concat (table demo).
Proof. exact (hash_lookup_spec 6 demo (lit "one") demo_wf demo_no_nul). Defined.
Lemma hash_insert_spec_witness : exists k' h',
  hash_insert 64 true demo (HNode 12 [] 3 0 true) (lit "three") = Done h' /\ wf k' h' /\
  to_map h' = <[lit "three" := 3]> (to_map demo) /\ nodecount h' = 3 /\
  (dynamic demo = true -> true = true -> nodecount demo <= highmark demo -> nodecount h' <= highmark h') /\
  (true = false -> nchains h' = nchains demo).
Proof.
  apply (hash_insert_spec 64 true 6 demo (HNode 12 [] 3 0 true) (lit "three") demo_wf); try lia.
  - reflexivity.
  - apply (bool_decide_eq_true_1 _). vm_compute. reflexivity.
  - apply (bool_decide_eq_true_1 _). vm_compute. reflexivity.
Defined.
Lemma hash_delete_spec_witness : exists k' h', hash_delete 64 demo demo_node = Done (deleted demo_node, h') /\
  wf k' h' /\ to_map h' = delete (lit "one") (to_map demo) /\ nodecount h' = 1 /\
  (64 <= nchains demo -> 64 <= nchains h').
Proof. apply (hash_delete_spec 64 6 demo demo_node demo_wf ltac:(discriminate) demo_no_nul), demo_node_in. Defined.
Lemma hash_free_nodes_spec_witness : exists h', hash_free_nodes 64 demo
      = Done (h', flat_map (freenode demo) (map deleted (concat (table demo)))) /\
    wf 6 h' /\ to_map h' = ∅ /\ nodecount h' = 0 /\ nchains h' = 64.
Proof. exact (hash_free_nodes_spec 64 6 demo demo_wf ltac:(discriminate)). Defined.
Lemma hash_create_spec_witness : exists h, @hash_create Z ok_malloc 0 100 None None = Done (Some h) /\ wf 6 h /\
  to_map h = ∅ /\ nodecount h = 0 /\ maxcount h = 100 /\ dynamic h = true.
Proof. apply (@hash_create_spec Z ok_malloc 0 100). lia. Defined.
End KazHash.
