(* ===== verification/Table.v ===== *)
(** * Table: what the clients of the hash tables rely on

    [Dict] is the contract between the hash tables and the server code that keeps
    its state in them: a finite map with the operations those clients use.  The
    theorems of the clients are proved against it; [kazhash_dict] discharges it for
    the tables of lib/u/hash.c. *)
From S2P Require Import Prelude CString KazHash.
Import KazHash.

Class DictOps (T V : Type) := {
  d_map : T -> gmap cstring V;
  d_ok : T -> Prop;
  (** [hash_lookup] followed by [hnode_get]. *)
  d_lookup : T -> cstring -> outcome (option V);
  (** [hash_insert] of a node that was just created; the boolean is the answer of the
      [realloc] of a growing table. *)
  d_insert : bool -> T -> cstring -> V -> outcome T;
  (** [hash_delete_free (t, hash_lookup (t, key))]. *)
  d_remove : T -> cstring -> outcome T;
  (** [hash_count]. *)
  d_count : T -> Z;
  (** A scan that deletes the bindings that satisfy a predicate with
      [hash_scan_delfree] and collects their data. *)
  d_sweep : (V -> outcome bool) -> T -> outcome (list V * T) }.

Class Dict (T V : Type) {O : DictOps T V} := {
  d_lookup_law t key : d_ok t -> no_nul key -> d_lookup t key = Done (d_map t !! key);
  d_insert_law b t key x : d_ok t -> no_nul key -> d_map t !! key = None ->
    Z.of_nat (size (d_map t)) < 2 ^ 60 ->
    exists t', d_insert b t key x = Done t' /\ d_ok t' /\ d_map t' = <[key := x]> (d_map t);
  d_remove_law t key : d_ok t -> no_nul key ->
    exists t', d_remove t key = Done t' /\ d_ok t' /\ d_map t' = delete key (d_map t);
  d_count_law t : d_ok t -> d_count t = Z.of_nat (size (d_map t));
  d_sweep_law f p t : d_ok t -> (forall key x, d_map t !! key = Some x -> f x = Done (p x)) ->
    exists xs t', d_sweep f t = Done (xs, t') /\ d_ok t' /\
      d_map t' = filter (fun kx => p kx.2 = false) (d_map t) /\
      xs ≡ₚ (map_to_list (filter (fun kx => p kx.2 = true) (d_map t))).*2 }.

Section KazHashDict.
Context {V : Type}.
Implicit Types (h : @hash_t V) (n : @hnode V).

(** The loop of the scan. *)
Fixpoint sweep_loop (f : V -> outcome bool) (fuel : nat) h (s : hscan_t) (log : list V) : outcome (list V * @hash_t V) :=
  match fuel with
  | O => Diverge
  | S fuel =>
      let* (r, s) := hash_scan_next 64 h s in
      match r with
      | None => Done (log, h)
      | Some n =>
          let* b := f (h_data n) in
          if (b : bool) then
            let* (h, _) := hash_scan_delfree 64 h n in sweep_loop f fuel h s (log ++ [h_data n])
          else sweep_loop f fuel h s log
      end
  end.

#[global] Instance kazhash_ops : DictOps (@hash_t V) V := {
  d_map := to_map;
  d_ok h := exists k, wf k h /\ k <= 60 /\ dynamic h = true /\ maxcount h = 2 ^ 64 - 1;
  d_lookup h key := let* r := hash_lookup h key in Done (h_data <$> r);
  d_insert b h key x :=
    hash_insert 64 b h (HNode (fresh (map h_addr (concat (table h)))) [] x 0 true) key;
  d_remove h key :=
    let* r := hash_lookup h key in
    let* (o, _) := hash_delete_free 64 (Some h) r in deref o;
  d_count h := ow_hash_count h;
  d_sweep f h := sweep_loop f (S (length (concat (table h)))) h (hash_scan_begin 0 h) [] }.

Lemma to_map_size k h : wf k h -> Z.of_nat (size (to_map h)) = nodecount h.
Proof.
  intros W. rewrite (proj1 (wf_count _ _ W)). f_equal. unfold to_map.
  rewrite <- length_map_to_list, map_to_list_to_map by (rewrite entries_keys; apply W).
  unfold entries. now rewrite length_map.
Qed.

Lemma sweep_loop_eq f p k rest : forall fuel h s log kept, wf k h -> (length rest < fuel)%nat ->
  Forall (fun n => f (h_data n) = Done (p (h_data n))) rest -> scans k h s rest -> concat (table h) ≡ₚ kept ++ rest ->
  exists h', sweep_loop f fuel h s log = Done (log ++ map h_data (filter (fun n => p (h_data n) = true) rest), h') /\
    wf k h' /\ concat (table h') ≡ₚ kept ++ filter (fun n => p (h_data n) = false) rest /\ client_kept h h'.
Proof.
  induction rest as [|n rest IH]; intros fuel h s log kept W Hf Fp S P; (destruct fuel as [|fuel]; [simpl in Hf; lia|]);
    cbn [sweep_loop].
  - rewrite (scan_next_end 64 k h s ltac:(done) S). simpl obind. exists h. rewrite app_nil_r.
    split_and!; done.
  - destruct (scan_next_eq 64 k h s n rest W ltac:(done) S) as (Hn & s' & -> & S' & Dd). simpl obind.
    apply Forall_cons in Fp as [Fn Fp]. rewrite Fn. simpl obind.
    rewrite !filter_cons. simpl in Hf. destruct (p (h_data n)) eqn:E.
    + rewrite decide_True by done. rewrite decide_False by done.
      destruct (hash_scan_delete_ok 64 k h n W ltac:(done) Hn) as (h1 & E1 & W1 & P1 & K1 & c & c' & Hr & Hu & Ht).
      unfold hash_scan_delfree. rewrite E1. simpl obind.
      rewrite P1, <- Permutation_middle in P. apply Permutation_cons_inv in P.
      destruct (IH fuel h1 s' (log ++ [h_data n]) kept W1 ltac:(lia) Fp (Dd c c' h1 Hr Hu Ht) P)
        as (h2 & -> & W2 & P2 & K2).
      exists h2. rewrite <- app_assoc. split_and!; try done.
      destruct K1 as (M1 & M2 & M3 & M4 & M5 & M6), K2 as (M7 & M8 & M9 & M10 & M11 & M12).
      split_and!; congruence.
    + rewrite decide_False by done. rewrite decide_True by done.
      destruct (IH fuel h s' log (kept ++ [n]) W ltac:(lia) Fp S') as (h2 & -> & W2 & P2 & K2).
      { rewrite P, <- app_assoc. done. }
      exists h2. rewrite P2, <- app_assoc. done.
Qed.
Lemma entries_filter (p : V -> bool) (b : bool) (l : list (@hnode V)) : NoDup (map h_key l) ->
  list_to_map (entries (filter (fun n => p (h_data n) = b) l)) =
  filter (fun kx : cstring * V => p kx.2 = b) (list_to_map (entries l) : gmap cstring V).
Proof.
  induction l as [|n l IH]; intros N; [symmetry; apply map_filter_empty|]. simpl in N.
  apply NoDup_cons in N as [N1 N2]. rewrite filter_cons. simpl.
  assert (F : (list_to_map (entries l) : gmap cstring V) !! h_key n = None)
    by (apply not_elem_of_list_to_map_1; now rewrite entries_keys).
  destruct (decide (p (h_data n) = b)) as [E|E].
  - rewrite map_filter_insert_True by done. simpl. now rewrite IH.
  - rewrite map_filter_insert_False by done. rewrite delete_id by done. now apply IH.
Qed.

Lemma keys_filter (Q : @hnode V -> Prop) {DQ : forall n, Decision (Q n)} (l : list (@hnode V)) :
  NoDup (map h_key l) -> NoDup (map h_key (filter Q l)).
Proof.
  induction l as [|n l IH]; intros N; [done|]. simpl in N. apply NoDup_cons in N as [N1 N2].
  rewrite filter_cons. destruct (decide (Q n)); [|auto]. simpl. constructor; [|auto].
  intros H. apply N1. apply list_elem_of_fmap in H as (m & -> & Hm).
  apply list_elem_of_filter in Hm as [_ Hm]. apply list_elem_of_fmap. eauto.
Qed.

#[global] Instance kazhash_dict : Dict (@hash_t V) V.
Proof.
  split.
  - intros h key (k & W & _) Hk. simpl. rewrite (hash_lookup_eq k h key W Hk). simpl.
    now rewrite to_map_lookup.
  - intros b h key x (k & W & Hk & Hd & Hm) Hkey Hin Hs. simpl in *.
    rewrite (to_map_size k h W) in Hs. apply to_map_None in Hin.
    set (n := HNode _ _ _ _ _).
    destruct (hash_insert_ok 64 b k h n key W ltac:(lia) ltac:(done) eq_refl
      ltac:(apply infinite_is_fresh) Hkey ltac:(lia) Hin) as (k' & h' & E & W' & P & Hk' & M1 & M2 & M3 & M4 & M5 & M6).
    exists h'. split; [done|]. split.
    + exists k'. split_and!; try congruence; subst k'.
      destruct (wf_marks _ _ W Hd) as [Hh _]. rewrite Hh, Hd.
      destruct (Z.leb_spec (2 ^ (k + 1)) (nodecount h)), b; simpl; try done.
      assert (k + 1 < 60) by (apply (Z.pow_lt_mono_r_iff 2); lia). lia.
    + rewrite (to_map_perm h' _ (wf_keys _ _ W') P). done.
  - intros h key (k & W & Hk & Hd & Hm) Hkey. simpl. rewrite (hash_lookup_eq k h key W Hkey). simpl obind.
    destruct (find (with_key key) (concat (table h))) as [n|] eqn:E; simpl obind.
    + apply find_some in E as [Hn E]. apply list_elem_of_In in Hn. unfold with_key in E.
      apply bool_decide_eq_true in E. subst key.
      destruct (hash_delete_ok 64 k h n W ltac:(done) Hn) as (k' & h' & -> & W' & P & (M1 & M2 & M3 & M4 & M5 & M6) & Hk').
      simpl obind. exists h'. split; [done|]. split.
      * exists k'. split_and!; try congruence. destruct Hk' as [->|(_ & _ & _ & ->)]; lia.
      * rewrite (to_map_perm h _ (wf_keys _ _ W) P). simpl. unfold to_map at 1.
        symmetry. apply delete_insert_id, not_elem_of_list_to_map_1. rewrite entries_keys.
        pose proof (wf_keys _ _ W) as N. rewrite P in N. simpl in N. now apply NoDup_cons in N as [N _].
    + exists h. split; [done|]. split; [now exists k|]. symmetry. apply delete_id.
      rewrite to_map_lookup, E. done.
  - intros h (k & W & _). simpl. now rewrite (to_map_size k h W).
  - intros f p h (k & W & Hk & Hd & Hm) Hf. cbn [d_sweep d_ok d_map kazhash_ops].
    assert (Fp : Forall (fun n => f (h_data n) = Done (p (h_data n))) (concat (table h))).
    { apply Forall_forall. intros n Hn. apply (Hf (h_key n)). cbn [d_map kazhash_ops].
      rewrite to_map_lookup. now rewrite (find_key_Some n _ (wf_keys _ _ W) Hn). }
    destruct (sweep_loop_eq f p k (concat (table h)) (S (length (concat (table h)))) h (hash_scan_begin 0 h) [] []
      W ltac:(lia) Fp (scan_begin_scans k h 0 W) ltac:(reflexivity)) as (h' & -> & W' & P & (M1 & M2 & M3 & M4 & M5 & M6)).
    simpl app in *. eexists _, h'. split; [reflexivity|]. split; [exists k; split_and!; congruence|]. split.
    + rewrite (to_map_perm h' _ (wf_keys _ _ W') P). apply entries_filter, W.
    + unfold to_map. rewrite <- entries_filter by apply W. rewrite map_to_list_to_map.
      * unfold entries. rewrite <- list_fmap_compose. done.
      * rewrite entries_keys. apply keys_filter, W.
Qed.
End KazHashDict.
