(* ===== verification/Faults.v ===== *)
(** * Faults: the fault tables of the server (lib/wsman-faults.c)

    The enumerations and tables are transcribed row by row; the operations look them up
    the way the code does.  A [NULL] string is [None]. *)
From S2P Require Import Prelude CString.

Module Faults.

(* src: src/CIM_Framework/openwsman/include/wsman-faults.h 45-141 WsmanFaultCodeType *)
Inductive WsmanFaultCodeType : Type :=
  | WSMAN_RC_OK | WSMAN_ACCESS_DENIED | WSA_ACTION_NOT_SUPPORTED | WSMAN_ALREADY_EXISTS
  | WSEN_CANNOT_PROCESS_FILTER | WSMAN_CANNOT_PROCESS_FILTER | WSMAN_CONCURRENCY
  | WSE_DELIVERY_MODE_REQUESTED_UNAVAILABLE | WSMAN_DELIVERY_REFUSED
  | WSA_DESTINATION_UNREACHABLE | WSMAN_ENCODING_LIMIT | WSA_ENDPOINT_UNAVAILABLE
  | WSMAN_EVENT_DELIVER_TO_UNUSABLE | WSE_EVENT_SOURCE_UNABLE_TO_PROCESS
  | WSEN_FILTER_DIALECT_REQUESTED_UNAVAILABLE | WSE_FILTERING_NOT_SUPPORTED
  | WSEN_FILTERING_NOT_SUPPORTED | WSE_FILTERING_REQUESTED_UNAVAILABLE
  | WSMAN_FRAGMENT_DIALECT_NOT_SUPPORTED | WSMAN_INTERNAL_ERROR | WSMAN_INVALID_BOOKMARK
  | WSEN_INVALID_ENUMERATION_CONTEXT | WSE_INVALID_EXPIRATION_TIME | WSEN_INVALID_EXPIRATION_TIME
  | WSE_INVALID_MESSAGE | WSA_INVALID_MESSAGE_INFORMATION_HEADER | WSMAN_INVALID_OPTIONS
  | WSMAN_INVALID_PARAMETER | WXF_INVALID_REPRESENTATION | WSMAN_INVALID_SELECTORS
  | WSA_MESSAGE_INFORMATION_HEADER_REQUIRED | WSMAN_NO_ACK | WSMAN_QUOTA_LIMIT
  | WSMAN_SCHEMA_VALIDATION_ERROR | WSEN_TIMED_OUT | WSMAN_TIMED_OUT | WSE_UNABLE_TO_RENEW
  | WSE_UNSUPPORTED_EXPIRATION_TYPE | WSEN_UNSUPPORTED_EXPIRATION_TYPE
  | WSMAN_UNSUPPORTED_FEATURE | SOAP_FAULT_VERSION_MISMATCH | SOAP_FAULT_MUSTUNDERSTAND
  | WSMB_POLYMORPHISM_MODE_NOT_SUPPORTED | WSMAN_UNKNOWN.
Definition all_WsmanFaultCodeType : list WsmanFaultCodeType :=
  [WSMAN_RC_OK; WSMAN_ACCESS_DENIED; WSA_ACTION_NOT_SUPPORTED; WSMAN_ALREADY_EXISTS;
   WSEN_CANNOT_PROCESS_FILTER; WSMAN_CANNOT_PROCESS_FILTER; WSMAN_CONCURRENCY;
   WSE_DELIVERY_MODE_REQUESTED_UNAVAILABLE; WSMAN_DELIVERY_REFUSED; WSA_DESTINATION_UNREACHABLE;
   WSMAN_ENCODING_LIMIT; WSA_ENDPOINT_UNAVAILABLE; WSMAN_EVENT_DELIVER_TO_UNUSABLE;
   WSE_EVENT_SOURCE_UNABLE_TO_PROCESS; WSEN_FILTER_DIALECT_REQUESTED_UNAVAILABLE;
   WSE_FILTERING_NOT_SUPPORTED; WSEN_FILTERING_NOT_SUPPORTED;
   WSE_FILTERING_REQUESTED_UNAVAILABLE; WSMAN_FRAGMENT_DIALECT_NOT_SUPPORTED;
   WSMAN_INTERNAL_ERROR; WSMAN_INVALID_BOOKMARK; WSEN_INVALID_ENUMERATION_CONTEXT;
   WSE_INVALID_EXPIRATION_TIME; WSEN_INVALID_EXPIRATION_TIME; WSE_INVALID_MESSAGE;
   WSA_INVALID_MESSAGE_INFORMATION_HEADER; WSMAN_INVALID_OPTIONS; WSMAN_INVALID_PARAMETER;
   WXF_INVALID_REPRESENTATION; WSMAN_INVALID_SELECTORS; WSA_MESSAGE_INFORMATION_HEADER_REQUIRED;
   WSMAN_NO_ACK; WSMAN_QUOTA_LIMIT; WSMAN_SCHEMA_VALIDATION_ERROR; WSEN_TIMED_OUT;
   WSMAN_TIMED_OUT; WSE_UNABLE_TO_RENEW; WSE_UNSUPPORTED_EXPIRATION_TYPE;
   WSEN_UNSUPPORTED_EXPIRATION_TYPE; WSMAN_UNSUPPORTED_FEATURE; SOAP_FAULT_VERSION_MISMATCH;
   SOAP_FAULT_MUSTUNDERSTAND; WSMB_POLYMORPHISM_MODE_NOT_SUPPORTED; WSMAN_UNKNOWN].
#[global] Instance WsmanFaultCodeType_eq_dec : EqDecision WsmanFaultCodeType.
Proof. solve_decision. Defined.

(* src: src/CIM_Framework/openwsman/include/wsman-faults.h 144-221 WsmanFaultDetailType *)
Inductive WsmanFaultDetailType : Type :=
  | WSMAN_DETAIL_OK | WSMAN_DETAIL_ACK | WSMAN_DETAIL_ACTION_MISMATCH
  | WSMAN_DETAIL_ALREADY_EXISTS | WSMAN_DETAIL_AMBIGUOUS_SELECTORS
  | WSMAN_DETAIL_ASYNCHRONOUS_REQUEST | WSMAN_DETAIL_ADDRESSING_MODE
  | WSMAN_DETAIL_AUTHERIZATION_MODE | WSMAN_DETAIL_BOOKMARKS | WSMAN_DETAIL_CHARECHTER_SET
  | WSMAN_DETAIL_DELIVERY_RETRIES | WSMAN_DETAIL_DUPLICATE_SELECTORS | WSMAN_DETAIL_ENCODING_TYPE
  | WSMAN_DETAIL_ENUMERATION_MODE | WSMAN_DETAIL_EXPIRATION_TIME | WSMAN_DETAIL_EXPIRED
  | WSMAN_DETAIL_FILTERING_REQUIRED | WSMAN_DETAIL_FORMAT_MISMATCH
  | WSMAN_DETAIL_FORMAT_SECURITY_TOKEN | WSMAN_DETAIL_FRAGMENT_LEVEL_ACCESS
  | WSMAN_DETAIL_HEARTBEATS | WSMAN_DETAIL_INSECURE_ADDRESS | WSMAN_DETAIL_INSUFFICIENT_SELECTORS
  | WSMAN_DETAIL_INVALID | WSMAN_DETAIL_INVALID_ADDRESS | WSMAN_DETAIL_INVALID_FORMAT
  | WSMAN_DETAIL_INVALID_FRAGMENT | WSMAN_DETAIL_INVALID_NAME | WSMAN_DETAIL_INVALID_NAMESPACE
  | WSMAN_DETAIL_INVALID_RESOURCEURI | WSMAN_DETAIL_INVALID_SELECTOR_ASSIGNMENT
  | WSMAN_DETAIL_INVALID_SYSTEM | WSMAN_DETAIL_INVALID_TIMEOUT | WSMAN_DETAIL_INVALID_VALUE
  | WSMAN_DETAIL_INVALID_VALUES | WSMAN_DETAIL_LOCALE | WSMAN_DETAIL_MAX_ELEMENTS
  | WSMAN_DETAIL_MAX_ENVELOPE_POLICY | WSMAN_DETAIL_MAX_ENVELOPE_SIZE | WSMAN_DETAIL_MAX_TIME
  | WSMAN_DETAIL_MINIMUM_ENVELOPE_LIMIT | WSMAN_DETAIL_MISSING_VALUES
  | WSMAN_DETAIL_NOT_SUPPORTED | WSMAN_DETAIL_OPERATION_TIMEOUT | WSMAN_DETAIL_OPTION_LIMIT
  | WSMAN_DETAIL_OPTION_SET | WSMAN_DETAIL_READ_ONLY | WSMAN_DETAIL_RESOURCE_OFFLINE
  | WSMAN_DETAIL_RENAME | WSMAN_DETAIL_SELECTOR_LIMIT | WSMAN_DETAIL_SERVICE_ENVELOPE_LIMIT
  | WSMAN_DETAIL_TARGET_ALREADY_EXISTS | WSMAN_DETAIL_TYPE_MISMATCH
  | WSMAN_DETAIL_UNEXPECTED_SELECTORS | WSMAN_DETAIL_UNREPORTABLE_SUCCESS
  | WSMAN_DETAIL_UNUSABLE_ADDRESS | WSMAN_DETAIL_URI_LIMIT_EXCEEDED | WSMAN_DETAIL_WHITESPACE
  | WSA_DETAIL_DUPLICATE_MESSAGE_ID | SOAP_DETAIL_HEADER_NOT_UNDERSTOOD
  | WST_DETAIL_UNSUPPORTED_TOKENTYPE | WSP_DETAIL_INVALID_EPR | OWSMAN_DETAIL_ENDPOINT_ERROR
  | OWSMAN_NO_DETAILS | OWSMAN_SYSTEM_ERROR.
Definition all_WsmanFaultDetailType : list WsmanFaultDetailType :=
  [WSMAN_DETAIL_OK; WSMAN_DETAIL_ACK; WSMAN_DETAIL_ACTION_MISMATCH; WSMAN_DETAIL_ALREADY_EXISTS;
   WSMAN_DETAIL_AMBIGUOUS_SELECTORS; WSMAN_DETAIL_ASYNCHRONOUS_REQUEST;
   WSMAN_DETAIL_ADDRESSING_MODE; WSMAN_DETAIL_AUTHERIZATION_MODE; WSMAN_DETAIL_BOOKMARKS;
   WSMAN_DETAIL_CHARECHTER_SET; WSMAN_DETAIL_DELIVERY_RETRIES; WSMAN_DETAIL_DUPLICATE_SELECTORS;
   WSMAN_DETAIL_ENCODING_TYPE; WSMAN_DETAIL_ENUMERATION_MODE; WSMAN_DETAIL_EXPIRATION_TIME;
   WSMAN_DETAIL_EXPIRED; WSMAN_DETAIL_FILTERING_REQUIRED; WSMAN_DETAIL_FORMAT_MISMATCH;
   WSMAN_DETAIL_FORMAT_SECURITY_TOKEN; WSMAN_DETAIL_FRAGMENT_LEVEL_ACCESS;
   WSMAN_DETAIL_HEARTBEATS; WSMAN_DETAIL_INSECURE_ADDRESS; WSMAN_DETAIL_INSUFFICIENT_SELECTORS;
   WSMAN_DETAIL_INVALID; WSMAN_DETAIL_INVALID_ADDRESS; WSMAN_DETAIL_INVALID_FORMAT;
   WSMAN_DETAIL_INVALID_FRAGMENT; WSMAN_DETAIL_INVALID_NAME; WSMAN_DETAIL_INVALID_NAMESPACE;
   WSMAN_DETAIL_INVALID_RESOURCEURI; WSMAN_DETAIL_INVALID_SELECTOR_ASSIGNMENT;
   WSMAN_DETAIL_INVALID_SYSTEM; WSMAN_DETAIL_INVALID_TIMEOUT; WSMAN_DETAIL_INVALID_VALUE;
   WSMAN_DETAIL_INVALID_VALUES; WSMAN_DETAIL_LOCALE; WSMAN_DETAIL_MAX_ELEMENTS;
   WSMAN_DETAIL_MAX_ENVELOPE_POLICY; WSMAN_DETAIL_MAX_ENVELOPE_SIZE; WSMAN_DETAIL_MAX_TIME;
   WSMAN_DETAIL_MINIMUM_ENVELOPE_LIMIT; WSMAN_DETAIL_MISSING_VALUES; WSMAN_DETAIL_NOT_SUPPORTED;
   WSMAN_DETAIL_OPERATION_TIMEOUT; WSMAN_DETAIL_OPTION_LIMIT; WSMAN_DETAIL_OPTION_SET;
   WSMAN_DETAIL_READ_ONLY; WSMAN_DETAIL_RESOURCE_OFFLINE; WSMAN_DETAIL_RENAME;
   WSMAN_DETAIL_SELECTOR_LIMIT; WSMAN_DETAIL_SERVICE_ENVELOPE_LIMIT;
   WSMAN_DETAIL_TARGET_ALREADY_EXISTS; WSMAN_DETAIL_TYPE_MISMATCH;
   WSMAN_DETAIL_UNEXPECTED_SELECTORS; WSMAN_DETAIL_UNREPORTABLE_SUCCESS;
   WSMAN_DETAIL_UNUSABLE_ADDRESS; WSMAN_DETAIL_URI_LIMIT_EXCEEDED; WSMAN_DETAIL_WHITESPACE;
   WSA_DETAIL_DUPLICATE_MESSAGE_ID; SOAP_DETAIL_HEADER_NOT_UNDERSTOOD;
   WST_DETAIL_UNSUPPORTED_TOKENTYPE; WSP_DETAIL_INVALID_EPR; OWSMAN_DETAIL_ENDPOINT_ERROR;
   OWSMAN_NO_DETAILS; OWSMAN_SYSTEM_ERROR].
#[global] Instance WsmanFaultDetailType_eq_dec : EqDecision WsmanFaultDetailType.
Proof. solve_decision. Defined.

(* src: src/CIM_Framework/openwsman/include/wsman-faults.h 299-308 __WsmanFaultCodeTable *)
Record WsmanFaultCodeTable := FaultCode {
  fault_code : WsmanFaultCodeType; http_code : Z; fault_action : option string;
  subCodeNs : option string; code_name : option string; subCode : option string;
  reason : option string }.
(* src: src/CIM_Framework/openwsman/include/wsman-faults.h 311-315 __WsmanFaultDetailTable *)
Record WsmanFaultDetailTable := FaultDetail { detail_code : WsmanFaultDetailType; detail : option string }.

Definition XML_NS_SOAP_1_2 : string := "http://www.w3.org/2003/05/soap-envelope".
Definition XML_NS_ADDRESSING : string := "http://schemas.xmlsoap.org/ws/2004/08/addressing".
Definition XML_NS_EVENTING : string := "http://schemas.xmlsoap.org/ws/2004/08/eventing".
Definition XML_NS_ENUMERATION : string := "http://schemas.xmlsoap.org/ws/2004/09/enumeration".
Definition XML_NS_TRANSFER : string := "http://schemas.xmlsoap.org/ws/2004/09/transfer".
Definition XML_NS_WS_MAN : string := "http://schemas.dmtf.org/wbem/wsman/1/wsman.xsd".
Definition XML_NS_CIM_BINDING : string := "http://schemas.dmtf.org/wbem/wsman/1/cimbinding.xsd".
Definition WSA_ACTION_FAULT : string := "http://schemas.xmlsoap.org/ws/2004/08/addressing/fault".
Definition WSXF_ACTION_FAULT : string := "http://schemas.xmlsoap.org/ws/2004/09/transfer/fault".
Definition WSENUM_ACTION_FAULT : string := "http://schemas.xmlsoap.org/ws/2004/09/enumeration/fault".
Definition WSMAN_ACTION_FAULT : string := "http://schemas.dmtf.org/wbem/wsman/1/wsman/fault".
Definition WSEVENT_ACTION_FAULT : string := "http://schemas.xmlsoap.org/ws/2004/08/eventing/fault".
Definition WSMB_ACTION_FAULT : string := "http://schemas.dmtf.org/wbem/wsman/1/cimbinding/fault".
Definition FAULT_SENDER_CODE : string := "Sender".
Definition FAULT_RECEIVER_CODE : string := "Receiver".
Definition FAULT_MUSTUNDERSTAND_CODE : string := "MustUnderstand".

Definition row (c : WsmanFaultCodeType) (h : Z) (action ns code sub why : string) : WsmanFaultCodeTable :=
  FaultCode c h (Some action) (Some ns) (Some code) (Some sub) (Some why).

(* src: lib/wsman-faults.c 59-136 fault_detail_table *)
Definition fault_detail_table : list WsmanFaultDetailTable := [
  FaultDetail WSMAN_DETAIL_OK None;
  FaultDetail WSMAN_DETAIL_ACK (Some "Ack");
  FaultDetail WSMAN_DETAIL_ACTION_MISMATCH (Some "ActionMismatch");
  FaultDetail WSMAN_DETAIL_ALREADY_EXISTS (Some "AlreadyExists");
  FaultDetail WSMAN_DETAIL_AMBIGUOUS_SELECTORS (Some "AmbigousSelectors");
  FaultDetail WSMAN_DETAIL_ASYNCHRONOUS_REQUEST (Some "AsynchronousRequest");
  FaultDetail WSMAN_DETAIL_ADDRESSING_MODE (Some "AddressingMode");
  FaultDetail WSMAN_DETAIL_AUTHERIZATION_MODE (Some "AutherizationMode");
  FaultDetail WSMAN_DETAIL_BOOKMARKS (Some "Bookmarks");
  FaultDetail WSMAN_DETAIL_CHARECHTER_SET (Some "CharechterSet");
  FaultDetail WSMAN_DETAIL_DELIVERY_RETRIES (Some "DeliveryRetries");
  FaultDetail WSMAN_DETAIL_DUPLICATE_SELECTORS (Some "DuplicateSelectors");
  FaultDetail WSMAN_DETAIL_ENCODING_TYPE (Some "EncodingType");
  FaultDetail WSMAN_DETAIL_ENUMERATION_MODE (Some "EnumerationMode");
  FaultDetail WSMAN_DETAIL_EXPIRATION_TIME (Some "ExpirationTime");
  FaultDetail WSMAN_DETAIL_EXPIRED (Some "Expired");
  FaultDetail WSMAN_DETAIL_FILTERING_REQUIRED (Some "FilteringRequired");
  FaultDetail WSMAN_DETAIL_FORMAT_MISMATCH (Some "FormatMismatch");
  FaultDetail WSMAN_DETAIL_FORMAT_SECURITY_TOKEN (Some "FormatSecurityTocken");
  FaultDetail WSMAN_DETAIL_FRAGMENT_LEVEL_ACCESS (Some "FragmentLevelAccess");
  FaultDetail WSMAN_DETAIL_HEARTBEATS (Some "Heartbeats");
  FaultDetail WSMAN_DETAIL_INSECURE_ADDRESS (Some "InsecureAddress");
  FaultDetail WSMAN_DETAIL_INSUFFICIENT_SELECTORS (Some "InsufficientSelectors");
  FaultDetail WSMAN_DETAIL_INVALID (Some "Invalid");
  FaultDetail WSMAN_DETAIL_INVALID_ADDRESS (Some "InvalidAddress");
  FaultDetail WSMAN_DETAIL_INVALID_FORMAT (Some "InvalidFormat");
  FaultDetail WSMAN_DETAIL_INVALID_FRAGMENT (Some "InvalidFragment");
  FaultDetail WSMAN_DETAIL_INVALID_NAME (Some "InvalidName");
  FaultDetail WSMAN_DETAIL_INVALID_NAMESPACE (Some "InvalidNamespace");
  FaultDetail WSMAN_DETAIL_INVALID_RESOURCEURI (Some "InvalidResourceURI");
  FaultDetail WSMAN_DETAIL_INVALID_SELECTOR_ASSIGNMENT (Some "InvalidSelectorAssignment");
  FaultDetail WSMAN_DETAIL_INVALID_SYSTEM (Some "InvalidSystem");
  FaultDetail WSMAN_DETAIL_INVALID_TIMEOUT (Some "InvalidTimeout");
  FaultDetail WSMAN_DETAIL_INVALID_VALUE (Some "InvalidValue");
  FaultDetail WSMAN_DETAIL_INVALID_VALUES (Some "InvalidValues");
  FaultDetail WSMAN_DETAIL_LOCALE (Some "Locale");
  FaultDetail WSMAN_DETAIL_MAX_ELEMENTS (Some "MaxElements");
  FaultDetail WSMAN_DETAIL_MAX_ENVELOPE_POLICY (Some "MaxEnvelopePolicy");
  FaultDetail WSMAN_DETAIL_MAX_ENVELOPE_SIZE (Some "MaxEnvelopeSize");
  FaultDetail WSMAN_DETAIL_MAX_TIME (Some "MaxTime");
  FaultDetail WSMAN_DETAIL_MINIMUM_ENVELOPE_LIMIT (Some "MinimumEnvelopeLimit");
  FaultDetail WSMAN_DETAIL_MISSING_VALUES (Some "MissingValues");
  FaultDetail WSMAN_DETAIL_NOT_SUPPORTED (Some "NotSupported");
  FaultDetail WSMAN_DETAIL_OPERATION_TIMEOUT (Some "OperationTimeout");
  FaultDetail WSMAN_DETAIL_OPTION_LIMIT (Some "OptionLimit");
  FaultDetail WSMAN_DETAIL_OPTION_SET (Some "OptionSet");
  FaultDetail WSMAN_DETAIL_READ_ONLY (Some "ReadOnly");
  FaultDetail WSMAN_DETAIL_RESOURCE_OFFLINE (Some "ResourceOffline");
  FaultDetail WSMAN_DETAIL_RENAME (Some "Rename");
  FaultDetail WSMAN_DETAIL_SELECTOR_LIMIT (Some "SelectorLimit");
  FaultDetail WSMAN_DETAIL_SERVICE_ENVELOPE_LIMIT (Some "ServiceEnvelopeLimit");
  FaultDetail WSMAN_DETAIL_TARGET_ALREADY_EXISTS (Some "TargetAlreadyExists");
  FaultDetail WSMAN_DETAIL_TYPE_MISMATCH (Some "TypeMismatch");
  FaultDetail WSMAN_DETAIL_UNEXPECTED_SELECTORS (Some "UnexpectedSelectors");
  FaultDetail WSMAN_DETAIL_UNREPORTABLE_SUCCESS (Some "UnreportableSuccess");
  FaultDetail WSMAN_DETAIL_UNUSABLE_ADDRESS (Some "UnusableAddress");
  FaultDetail WSMAN_DETAIL_URI_LIMIT_EXCEEDED (Some "UriLimitExceeded");
  FaultDetail WSMAN_DETAIL_WHITESPACE (Some "Whitespace");
  FaultDetail WSA_DETAIL_DUPLICATE_MESSAGE_ID (Some "DuplicateMessageID");
  FaultDetail SOAP_DETAIL_HEADER_NOT_UNDERSTOOD (Some "HeaderNotUnderstood");
  FaultDetail WST_DETAIL_UNSUPPORTED_TOKENTYPE (Some "UnsupportedTokenType");
  FaultDetail WSP_DETAIL_INVALID_EPR (Some "InvalidEPR");
  FaultDetail OWSMAN_DETAIL_ENDPOINT_ERROR (Some "Unknown");
  FaultDetail OWSMAN_NO_DETAILS (Some "Unknown");
  FaultDetail OWSMAN_SYSTEM_ERROR (Some "Unknown")].
(* src: lib/wsman-faults.c 140-288 fault_code_table *)
Definition fault_code_table_0 : list WsmanFaultCodeTable := [
  row SOAP_FAULT_MUSTUNDERSTAND 400 WSA_ACTION_FAULT XML_NS_SOAP_1_2 FAULT_MUSTUNDERSTAND_CODE
    ""
    "The WS-Management service cannot process a SOAP header in the request that is marked as mustUnderstand by the client. This could be caused by the use of a version of the protocol which is not supported, or may be an incompatibility between the client and server implementations.";
  row WSA_ENDPOINT_UNAVAILABLE 503 WSA_ACTION_FAULT XML_NS_ADDRESSING FAULT_SENDER_CODE
    "EndpointUnavailable"
    "";
  row WSMAN_ACCESS_DENIED 401 WSMAN_ACTION_FAULT XML_NS_WS_MAN FAULT_SENDER_CODE
    "AccessDenied"
    "The sender was not authorized to access the resource.";
  row WSA_ACTION_NOT_SUPPORTED 501 WSA_ACTION_FAULT XML_NS_ADDRESSING FAULT_SENDER_CODE
    "ActionNotSupported"
    "The action is not supported by the service.";
  row WSMAN_ALREADY_EXISTS 400 WSMAN_ACTION_FAULT XML_NS_WS_MAN FAULT_SENDER_CODE
    "AlreadyExists"
    "The sender attempted to create a resource which already exists.";
  row WSEN_CANNOT_PROCESS_FILTER 422 WSENUM_ACTION_FAULT XML_NS_ENUMERATION FAULT_SENDER_CODE
    "CannotProcessFilter"
    "The requested filter could not be processed.";
  row WSMAN_CANNOT_PROCESS_FILTER 422 WSMAN_ACTION_FAULT XML_NS_WS_MAN FAULT_SENDER_CODE
    "CannotProcessFilter"
    "The requested filter could not be processed.";
  row WSMAN_CONCURRENCY 409 WSMAN_ACTION_FAULT XML_NS_WS_MAN FAULT_SENDER_CODE
    "Concurrency"
    "The action could not be completed due to concurrency or locking problems.";
  row WSA_DESTINATION_UNREACHABLE 503 WSA_ACTION_FAULT XML_NS_ADDRESSING FAULT_SENDER_CODE
    "DestinationUnreachable"
    "No route can be determined to reach the destination role defined by the WS-Addressing To.";
  row WSMAN_ENCODING_LIMIT 413 WSMAN_ACTION_FAULT XML_NS_WS_MAN FAULT_SENDER_CODE
    "EncodingLimit"
    "An internal encoding limit was exceeded in a request or would be violated if the message were processed.";
  row WSA_ENDPOINT_UNAVAILABLE 503 WSA_ACTION_FAULT XML_NS_ADDRESSING FAULT_RECEIVER_CODE
    "EndpointUnavailable"
    "The specified endpoint is currently unavailable.";
  row WSEN_FILTER_DIALECT_REQUESTED_UNAVAILABLE 501 WSENUM_ACTION_FAULT XML_NS_ENUMERATION FAULT_SENDER_CODE
    "FilterDialectRequestedUnavailable"
    "The requested filtering dialect is not supported.";
  row WSEN_FILTERING_NOT_SUPPORTED 501 WSENUM_ACTION_FAULT XML_NS_ENUMERATION FAULT_SENDER_CODE
    "FilteringNotSupported"
    "Filtered enumeration is not supported.";
  row WSMAN_FRAGMENT_DIALECT_NOT_SUPPORTED 501 WSMAN_ACTION_FAULT XML_NS_WS_MAN FAULT_RECEIVER_CODE
    "FragmentDialectNotSupported"
    "The requested fragment filtering dialect or language is not supported.";
  row WSMAN_INTERNAL_ERROR 500 WSMAN_ACTION_FAULT XML_NS_WS_MAN FAULT_RECEIVER_CODE
    "InternalError"
    "The service cannot comply with the request due to internal processing errors.";
  row WSEN_INVALID_ENUMERATION_CONTEXT 400 WSENUM_ACTION_FAULT XML_NS_ENUMERATION FAULT_RECEIVER_CODE
    "InvalidEnumerationContext"
    "The supplied enumeration context is invalid."].
(* src: lib/wsman-faults.c 289-432 fault_code_table *)
Definition fault_code_table_1 : list WsmanFaultCodeTable := [
  row WSA_INVALID_MESSAGE_INFORMATION_HEADER 400 WSA_ACTION_FAULT XML_NS_ADDRESSING FAULT_SENDER_CODE
    "InvalidMessageInformationHeader"
    "A message information header is not valid and the message cannot be processed.";
  row WSMAN_INVALID_OPTIONS 400 WSMAN_ACTION_FAULT XML_NS_WS_MAN FAULT_SENDER_CODE
    "InvalidOptions"
    "One or more options are not valid.";
  row WSMAN_INVALID_PARAMETER 400 WSMAN_ACTION_FAULT XML_NS_WS_MAN FAULT_SENDER_CODE
    "InvalidParameter"
    "An operation parameter is not valid.";
  row WXF_INVALID_REPRESENTATION 400 WSXF_ACTION_FAULT XML_NS_TRANSFER FAULT_SENDER_CODE
    "InvalidRepresentation"
    "The XML content is not valid.";
  row WSMAN_INVALID_SELECTORS 400 WSMAN_ACTION_FAULT XML_NS_WS_MAN FAULT_SENDER_CODE
    "InvalidSelectors"
    "The Selectors for the resource are not valid.";
  row WSA_MESSAGE_INFORMATION_HEADER_REQUIRED 400 WSA_ACTION_FAULT XML_NS_ADDRESSING FAULT_SENDER_CODE
    "MessageInformationHeaderRequired"
    "A required header is missing.";
  row WSMAN_NO_ACK 400 WSMAN_ACTION_FAULT XML_NS_WS_MAN FAULT_SENDER_CODE
    "NoAck"
    "The receiver did not acknowledge the event delivery.";
  row WSMAN_QUOTA_LIMIT 400 WSMAN_ACTION_FAULT XML_NS_WS_MAN FAULT_SENDER_CODE
    "QuotaLimit"
    "The service is busy servicing other requests.";
  row WSMAN_SCHEMA_VALIDATION_ERROR 400 WSMAN_ACTION_FAULT XML_NS_WS_MAN FAULT_SENDER_CODE
    "SchemaValidationError"
    "The supplied SOAP violates the corresponding XML schema definition.";
  row WSEN_TIMED_OUT 408 WSENUM_ACTION_FAULT XML_NS_ENUMERATION FAULT_RECEIVER_CODE
    "TimedOut"
    "The enumerator has timed out and is no longer valid.";
  row WSMAN_TIMED_OUT 408 WSMAN_ACTION_FAULT XML_NS_WS_MAN FAULT_RECEIVER_CODE
    "TimedOut"
    "The operation has timed out.";
  row WSEN_UNSUPPORTED_EXPIRATION_TYPE 400 WSENUM_ACTION_FAULT XML_NS_ENUMERATION FAULT_RECEIVER_CODE
    "UnsupportedExpirationType"
    "The specified expiration type is not supported.";
  row WSMAN_UNSUPPORTED_FEATURE 400 WSMAN_ACTION_FAULT XML_NS_WS_MAN FAULT_SENDER_CODE
    "UnsupportedFeature"
    "The specified feature is not supported.";
  row WSMAN_UNSUPPORTED_FEATURE 501 WSMAN_ACTION_FAULT XML_NS_CIM_BINDING FAULT_RECEIVER_CODE
    "PolymorphismModeNotSupported"
    "The specified feature is not supported.";
  row WSMAN_EVENT_DELIVER_TO_UNUSABLE 400 WSMAN_ACTION_FAULT XML_NS_CIM_BINDING FAULT_RECEIVER_CODE
    "DevliveryToUnusable"
    "The wse:NotifyTo address is not usable because it is incorrect";
  row WSMB_POLYMORPHISM_MODE_NOT_SUPPORTED 501 WSMB_ACTION_FAULT XML_NS_WS_MAN FAULT_RECEIVER_CODE
    "UnsupportedFeature"
    "The specified feature is not supported."].
(* src: lib/wsman-faults.c 433-479 fault_code_table *)
Definition fault_code_table_2 : list WsmanFaultCodeTable := [
  row WSE_INVALID_EXPIRATION_TIME 400 WSEVENT_ACTION_FAULT XML_NS_EVENTING FAULT_SENDER_CODE
    "InvalidExpirationTime"
    "The expiration time is invalid";
  row WSE_DELIVERY_MODE_REQUESTED_UNAVAILABLE 400 WSEVENT_ACTION_FAULT XML_NS_EVENTING FAULT_SENDER_CODE
    "DeliveryModeRequestedUnavailable"
    "The requested delivery mode is not supported";
  row WSE_FILTERING_NOT_SUPPORTED 400 WSEVENT_ACTION_FAULT XML_NS_EVENTING FAULT_SENDER_CODE
    "FilteringNotSupported"
    "Filtering over the event source is not supported";
  row WSE_INVALID_MESSAGE 400 WSEVENT_ACTION_FAULT XML_NS_EVENTING FAULT_SENDER_CODE
    "InvalidMessage"
    "The request message has unknown or invalid content and cannot be processed.";
  FaultCode WSMAN_UNKNOWN 404 None None None
    None
    None].
Definition fault_code_table : list WsmanFaultCodeTable :=
  fault_code_table_0 ++ fault_code_table_1 ++ fault_code_table_2.

(** ** Operations *)
(* src: src/CIM_Framework/openwsman/include/wsman-soap-message.h 53-57 WsmanStatus *)
Record WsmanStatus := Status {
  st_code : WsmanFaultCodeType; st_detail : WsmanFaultDetailType; st_msg : option cstring }.
(* src: lib/wsman-soap.c 2803-2808 wsman_status_init *)
Definition wsman_status_init : WsmanStatus := Status WSMAN_RC_OK WSMAN_DETAIL_OK None.
(* src: lib/wsman-soap.c 2811-2814 wsman_check_status *)
Definition wsman_check_status (s : WsmanStatus) : WsmanFaultCodeType := st_code s.
(* src: lib/wsman-faults.c 602-606 wsman_fault_occured *)
Definition wsman_fault_occured (s : WsmanStatus) : bool := negb (bool_decide (st_code s = WSMAN_RC_OK)).
(* src: lib/wsman-faults.c 483-495 wsman_set_fault *)
Definition wsman_set_fault (s : WsmanStatus) (c : WsmanFaultCodeType) (d : WsmanFaultDetailType)
    (details : option cstring) : WsmanStatus :=
  if wsman_fault_occured s then s
  else Status c d (match details with Some m => Some m | None => st_msg s end).

(** [xp]: the text at the XPath of the fault's code, when there is one. *)
(* src: lib/wsman-faults.c 508-521 wsman_find_httpcode_for_value *)
Definition wsman_find_httpcode_for_value (xp : option cstring) : Z :=
  match xp with
  | Some v => if strcmp v (lit "s:Receiver") =? 0 then 500
              else if strcmp v (lit "s:Sender") =? 0 then 400 else 200
  | None => 200
  end.
(* src: lib/wsman-faults.c 524-540 wsman_find_httpcode_for_fault_code *)
Definition wsman_find_httpcode_for_fault_code (c : WsmanFaultCodeType) : Z :=
  match find (fun r => bool_decide (fault_code r = c)) fault_code_table with
  | Some r => http_code r
  | None => 500
  end.

(** What [wsman_create_fault_envelope] puts into the response. *)
Record FaultDoc := Fault {
  f_code : option string; f_subns : option string; f_subcode : option string;
  f_action : option string; f_reason : option cstring; f_detail : option string }.

(** The place of a constructor in its enumeration. *)
Definition detail_index (d : WsmanFaultDetailType) : nat :=
  let fix go (l : list WsmanFaultDetailType) :=
    match l with [] => O | e :: l => if bool_decide (e = d) then O else S (go l) end in
  go all_WsmanFaultDetailType.

(* src: lib/wsman-faults.c 542-578 wsman_generate_fault *)
Definition wsman_generate_fault (c : WsmanFaultCodeType) (d : WsmanFaultDetailType)
    (fault_msg : option cstring) : outcome (option FaultDoc) :=
  match find (fun r => bool_decide (fault_code r = c)) fault_code_table with
  | Some r =>
      let why := match fault_msg with Some m => Some m | None => lit <$> reason r end in
      let* dt := if bool_decide (0 < detail_index d)%nat
                 then let* e := rd fault_detail_table (Z.of_nat (detail_index d)) in Done (detail e)
                 else Done None in
      Done (Some (Fault (code_name r) (subCodeNs r) (subCode r) (fault_action r) why dt))
  | None => Done None
  end.

(** The loop over the table: [strcmp] with a NULL sub-code is undefined. *)
(* src: lib/wsman-faults.c 633-643 wsman_get_fault_status_from_doc *)
Fixpoint find_subcode (msg : cstring) (t : list WsmanFaultCodeTable) : outcome (option WsmanFaultCodeType) :=
  match t with
  | [] => Done None
  | r :: t =>
      let* s := deref (subCode r) in
      if strcmp msg (lit s) =? 0 then Done (Some (fault_code r)) else find_subcode msg t
  end.
(** [strchr (s, ':') + 1]. *)
Fixpoint after_colon (s : cstring) : option cstring :=
  match s with
  | [] => None
  | c :: s => if bool_decide (c = ":"%char) then Some s else after_colon s
  end.
(** [calloc_ok]: the answer of [calloc]; [strcpy] has to fit into the buffer. *)
(* src: lib/wsman-faults.c 609-650 wsman_get_fault_status_from_doc *)
Definition wsman_get_fault_status_from_doc (calloc_ok : bool) (subcode_value : option cstring)
    (s : WsmanStatus) : outcome WsmanStatus :=
  match subcode_value with
  | None | Some [] => Done s
  | Some v =>
      if negb calloc_ok then Done (Status WSMAN_INTERNAL_ERROR OWSMAN_SYSTEM_ERROR None) else
      match after_colon v with
      | None => Done s
      | Some rest =>
          if (length v <? length rest + 1)%nat then Undef (* past the end of the buffer *) else
          let* r := find_subcode rest fault_code_table in
          Done (match r with Some c => Status c WSMAN_DETAIL_OK None | None => s end)
      end
  end.

(** ** Properties *)
(** The text of the Subcode element of a fault, with the namespace prefix [p]: absent when
    the sub-code is empty. *)
Definition subcode_text (p : cstring) (f : FaultDoc) : option cstring :=
  match f_subcode f with
  | Some s => match lit s with [] => None | t => Some (p ++ ":"%char :: t) end
  | None => None
  end.

Lemma after_colon_app p r : ":"%char ∉ p -> after_colon (p ++ ":"%char :: r) = Some r.
Proof.
  induction p as [|c p IH]; intros H; [done|]. apply not_elem_of_cons in H as [H1 H2]. simpl.
  rewrite bool_decide_false by congruence. auto.
Qed.
Lemma after_colon_len v r : after_colon v = Some r -> (length r < length v)%nat.
Proof.
  revert r. induction v as [|c v IH]; intros r H; [done|]. simpl in *.
  case_bool_decide; [injection H as ->; lia|]. specialize (IH r H). lia.
Qed.

(** The codes a table row exists for. *)
Definition known (c : WsmanFaultCodeType) : bool :=
  existsb (fun r => bool_decide (fault_code r = c)) fault_code_table.
(** What a client makes of the sub-code of a fault. *)
Definition decoded (c : WsmanFaultCodeType) : WsmanFaultCodeType :=
  match c with
  | WSMAN_CANNOT_PROCESS_FILTER => WSEN_CANNOT_PROCESS_FILTER
  | WSMAN_TIMED_OUT => WSEN_TIMED_OUT
  | WSE_FILTERING_NOT_SUPPORTED => WSEN_FILTERING_NOT_SUPPORTED
  | WSMB_POLYMORPHISM_MODE_NOT_SUPPORTED => WSMAN_UNSUPPORTED_FEATURE
  | c => c
  end.

Lemma detail_row d : exists e, rd fault_detail_table (Z.of_nat (detail_index d)) = Done e /\
  detail_code e = d /\ e ∈ fault_detail_table.
Proof.
  assert (H : match rd fault_detail_table (Z.of_nat (detail_index d)) with
              | Done e => bool_decide (detail_code e = d) | _ => false end = true)
    by (destruct d; vm_compute; reflexivity).
  destruct (rd _ _) as [e| | |] eqn:E; try discriminate. exists e. split; [done|].
  apply bool_decide_eq_true in H. split; [done|]. apply rd_inv in E as [_ E].
  eapply list_elem_of_lookup_2, E.
Qed.
Lemma find_known c : known c = match find (fun r => bool_decide (fault_code r = c)) fault_code_table with
  | Some _ => true | None => false end.
Proof. destruct c; vm_compute; reflexivity. Qed.

Lemma generate_fault_known c d m :
  exists o, wsman_generate_fault c d m = Done o /\ bool_decide (is_Some o) = known c.
Proof.
  unfold wsman_generate_fault. rewrite (find_known c).
  destruct (find _ fault_code_table) as [r|]; [|by exists None].
  destruct (detail_row d) as (e & -> & _). destruct (bool_decide _); eexists; split; reflexivity.
Qed.
(** The rows of [fault_detail_table] stand in the order of the enumeration that indexes it, so
    [wsman_generate_fault] reports the detail it was asked for; it answers NULL exactly
    for the nine codes that have no row in [fault_code_table]. *)
Theorem generate_fault_total c d m :
  (if known c then exists f, wsman_generate_fault c d m = Done (Some f) /\
     exists e, e ∈ fault_detail_table /\ detail_code e = d /\
        f_detail f = (if bool_decide (d = WSMAN_DETAIL_OK) then None else detail e)
   else wsman_generate_fault c d m = Done None) /\
  (known c = false <-> c ∈ [WSMAN_RC_OK; SOAP_FAULT_VERSION_MISMATCH; WSE_UNABLE_TO_RENEW;
     WSE_EVENT_SOURCE_UNABLE_TO_PROCESS; WSMAN_DELIVERY_REFUSED; WSEN_INVALID_EXPIRATION_TIME;
     WSE_FILTERING_REQUESTED_UNAVAILABLE; WSMAN_INVALID_BOOKMARK; WSE_UNSUPPORTED_EXPIRATION_TYPE]).
Proof.
  split.
  - unfold wsman_generate_fault. rewrite (find_known c).
    destruct (find _ fault_code_table) as [r|]; [|done].
    destruct (detail_row d) as (e & -> & Ed & Hin). simpl obind.
    assert (Hd : bool_decide (0 < detail_index d)%nat = negb (bool_decide (d = WSMAN_DETAIL_OK)))
      by (destruct d; vm_compute; reflexivity).
    rewrite Hd. destruct (bool_decide (d = WSMAN_DETAIL_OK)); simpl; eexists; split; try reflexivity;
      exists e; done.
  - assert (H : negb (known c) = bool_decide (c ∈ [WSMAN_RC_OK; SOAP_FAULT_VERSION_MISMATCH;
     WSE_UNABLE_TO_RENEW; WSE_EVENT_SOURCE_UNABLE_TO_PROCESS; WSMAN_DELIVERY_REFUSED;
     WSEN_INVALID_EXPIRATION_TIME; WSE_FILTERING_REQUESTED_UNAVAILABLE; WSMAN_INVALID_BOOKMARK;
     WSE_UNSUPPORTED_EXPIRATION_TYPE])) by (destruct c; vm_compute; reflexivity).
    rewrite <- (bool_decide_eq_true (c ∈ _)), <- H, negb_true_iff. done.
Qed.

(** The sub-code of a row and where the client's search for it ends. *)
Lemma subcode_decoded c : known c = true -> c <> WSMAN_UNKNOWN -> c <> SOAP_FAULT_MUSTUNDERSTAND ->
  match find (fun r => bool_decide (fault_code r = c)) fault_code_table with
  | Some r => match subCode r with
      | Some s => lit s <> [] /\ find_subcode (lit s) fault_code_table = Done (Some (decoded c))
      | None => False
      end
  | None => False
  end.
Proof. destruct c; intros K U M; try done; vm_compute; try (split; [discriminate|reflexivity]); discriminate. Qed.

(** A client that reads the Subcode of a fault the server generated gets the code the server
    meant, except for the four codes whose sub-code another row has first; the copy of
    the sub-code always fits into its buffer. *)
Theorem fault_roundtrip c d m p s f : known c = true -> c <> WSMAN_UNKNOWN ->
  ":"%char ∉ p -> wsman_generate_fault c d m = Done (Some f) ->
  wsman_get_fault_status_from_doc true (subcode_text p f) s =
    (if bool_decide (c = SOAP_FAULT_MUSTUNDERSTAND) then Done s
     else Done (Status (decoded c) WSMAN_DETAIL_OK None)) /\
  (decoded c <> c <-> c ∈ [WSMAN_CANNOT_PROCESS_FILTER; WSMAN_TIMED_OUT; WSE_FILTERING_NOT_SUPPORTED;
     WSMB_POLYMORPHISM_MODE_NOT_SUPPORTED]).
Proof.
  intros K U Hp G. split.
  - assert (Ef : exists r, find (fun r => bool_decide (fault_code r = c)) fault_code_table = Some r /\
        f_subcode f = subCode r).
    { unfold wsman_generate_fault in G. destruct (find _ fault_code_table) as [r|]; [|discriminate].
      exists r. split; [done|]. cinv. done. }
    destruct Ef as (r & Er & Ef). unfold subcode_text. rewrite Ef.
    case_bool_decide as E.
    + subst c. revert Er. vm_compute find. intros [= <-]. done.
    + pose proof (subcode_decoded c K U E) as D. rewrite Er in D.
      destruct (subCode r) as [sc|]; [|done]. destruct D as [D1 D2].
      destruct (lit sc) as [|x xs] eqn:El; [done|].
      unfold wsman_get_fault_status_from_doc.
      destruct (p ++ ":"%char :: x :: xs) as [|v vs] eqn:Ev; [destruct p; discriminate|]. simpl negb. cbv iota.
      rewrite <- Ev, after_colon_app by done.
      assert (Hl : (length (p ++ ":"%char :: x :: xs) <? length (x :: xs) + 1)%nat = false).
      { apply Nat.ltb_ge. rewrite length_app. simpl. lia. }
      now rewrite Hl, D2.
  - assert (H : negb (bool_decide (decoded c = c)) = bool_decide (c ∈ [WSMAN_CANNOT_PROCESS_FILTER;
     WSMAN_TIMED_OUT; WSE_FILTERING_NOT_SUPPORTED; WSMB_POLYMORPHISM_MODE_NOT_SUPPORTED]))
      by (destruct c; vm_compute; reflexivity).
    rewrite <- (bool_decide_eq_true (c ∈ _)), <- H, negb_true_iff, bool_decide_eq_false. done.
Qed.
Lemma fault_roundtrip_witness :
  exists f, wsman_generate_fault WSMAN_TIMED_OUT WSMAN_DETAIL_EXPIRED None = Done (Some f) /\
  (wsman_get_fault_status_from_doc true (subcode_text (lit "wsman") f) wsman_status_init =
     Done (Status WSEN_TIMED_OUT WSMAN_DETAIL_OK None)) /\
  (decoded WSMAN_TIMED_OUT <> WSMAN_TIMED_OUT <-> WSMAN_TIMED_OUT ∈ [WSMAN_CANNOT_PROCESS_FILTER;
     WSMAN_TIMED_OUT; WSE_FILTERING_NOT_SUPPORTED; WSMB_POLYMORPHISM_MODE_NOT_SUPPORTED]).
Proof.
  eexists. split; [vm_compute; reflexivity|].
  apply (fault_roundtrip WSMAN_TIMED_OUT WSMAN_DETAIL_EXPIRED None (lit "wsman") wsman_status_init).
  - vm_compute. reflexivity.
  - discriminate.
  - apply (bool_decide_eq_true_1 _). vm_compute. reflexivity.
  - vm_compute. reflexivity.
Defined.

(** The last row of the table has no sub-code: a sub-code the table does not know is
    compared with NULL. *)
Example unknown_subcode :
  wsman_get_fault_status_from_doc true (Some (lit "x:NoSuchFault")) wsman_status_init = Undef.
Proof. vm_compute. reflexivity. Qed.
End Faults.
