(* ===== verification/EnumCtx.v ===== *)
(** * EnumCtx: the enumeration contexts of the SOAP server (lib/wsman-soap.c)

    An Enumerate request leaves a [WsEnumerateInfo] behind, reachable through the table
    [cntx->enuminfos] under its id; Pull and Release requests, served by other
    threads, find it there, mark it as in work while they use it, and free it at the
    end; a timer sweeps the idle ones out.  The store maps addresses to infos, so a
    pointer that outlives its info is [Undef].

    Requests are given by the values the code reads out of their XML, and so are the
    answers of the XML library and of the end points; the table is any [Dict]. *)
From S2P Require Import Prelude CString KazHash Table Faults.
Import Faults.

Module EnumCtx.

Definition WSMAN_ENUMINFO_INWORK_FLAG : Z := 0x10.
Definition WSMAN_ENUMINFO_OPT : Z := 0x200.

(** [Doc]: XML documents of the providers; [Rel]: pointers to release end points. *)
Section EnumCtx.
Context {Doc Rel : Type}.

(* src: src/CIM_Framework/openwsman/include/wsman-soap.h 256-276 __WsEnumerateInfo *)
Record WsEnumerateInfo := Info {
  flags : Z; enumId : cstring; timeStamp : Z; expires : Z; totalItems : Z; maxsize : Z;
  index : Z; pullResultPtr : option Doc; username : option cstring; password : option cstring;
  releaseproc : option Rel; epr_to : cstring; epr_uri : cstring; encoding : option cstring }.

(** What the code reads out of a request: the text of wsa:To and of the resource URI, the
    text of the enumeration context element, the Expires element as
    [wsman_set_expiretime] reads it, the credentials and the encoding of the message,
    the envelope size limits, and whether an estimate of the total is asked for. *)
Record request := Request {
  r_to : option cstring; r_uri : option cstring; r_context : option cstring;
  r_expires : option (WsmanFaultCodeType + Z); r_username : option cstring;
  r_password : option cstring; r_charset : option cstring; r_maxsize : Z; r_max_chars : Z;
  r_total : bool }.
(** Which of the XML nodes of a response could be made. *)
Record xml := Xml { x_envelope : bool; x_body : bool; x_resp : bool }.

Inductive response :=
  | RFault (f : FaultDoc)
  | RPartial (total : option Z)
  | REnumerate (items : option Doc) (total : option Z) (context : option cstring) (eos : bool)
  | RPull (items : option Doc) (total : option Z) (context : option cstring) (eos : bool)
  | RRelease.

(** End points work on an info and leave a status; a result other than 0 is a fault. *)
Definition endpoint : Type := WsEnumerateInfo -> Z * WsEnumerateInfo * WsmanStatus.

Context {T : Type} {TO : DictOps T positive} {TD : Dict T positive}.

(** The server context: the table, the infos, and a log of the calls of release end
    points. *)
Record soap := Soap {
  enuminfos : T; infos : gmap positive WsEnumerateInfo; enumIdleTimeout : Z;
  released : list (Rel * cstring) }.
Definition set_enuminfos (s : soap) t := Soap t (infos s) (enumIdleTimeout s) (released s).
Definition set_infos (s : soap) m := Soap (enuminfos s) m (enumIdleTimeout s) (released s).

Definition get_info (p : positive) : CM soap WsEnumerateInfo := fun s =>
  match infos s !! p with Some i => Done (i, s) | None => Undef end.
Definition put_info (p : positive) (i : WsEnumerateInfo) : CM soap unit :=
  _ ← get_info p; mmod (fun s => set_infos s (<[p := i]> (infos s))).
Definition on_table {A} (f : T -> outcome (A * T)) : CM soap A := fun s =>
  let* (a, t) := f (enuminfos s) in Done (a, set_enuminfos s t).

Definition in_work (i : WsEnumerateInfo) : bool :=
  negb (Z.land (flags i) WSMAN_ENUMINFO_INWORK_FLAG =? 0).
Definition with_flags (i : WsEnumerateInfo) f : WsEnumerateInfo :=
  Info f (enumId i) (timeStamp i) (expires i) (totalItems i) (maxsize i) (index i)
    (pullResultPtr i) (username i) (password i) (releaseproc i) (epr_to i) (epr_uri i) (encoding i).
Definition with_time (i : WsEnumerateInfo) t : WsEnumerateInfo :=
  Info (flags i) (enumId i) t (expires i) (totalItems i) (maxsize i) (index i)
    (pullResultPtr i) (username i) (password i) (releaseproc i) (epr_to i) (epr_uri i) (encoding i).
Definition with_index (i : WsEnumerateInfo) n : WsEnumerateInfo :=
  Info (flags i) (enumId i) (timeStamp i) (expires i) (totalItems i) (maxsize i) n
    (pullResultPtr i) (username i) (password i) (releaseproc i) (epr_to i) (epr_uri i) (encoding i).

(* src: lib/wsman-soap.c 305-317 destroy_enuminfo *)
Definition destroy_enuminfo (p : positive) : CM soap unit :=
  _ ← get_info p; mmod (fun s => set_infos s (delete p (infos s))).

(* src: lib/wsman-soap.c 146-160 remove_locked_enuminfo *)
Definition remove_locked_enuminfo (p : positive) : CM soap unit :=
  i ← get_info p;
  if negb (in_work i) then mret tt
  else on_table (fun t => let* t := d_remove t (enumId i) in Done (tt, t)).

(* src: lib/wsman-soap.c 222-303 create_enum_info *)
Definition create_enum_info (alloc_ok : bool) (uuid : cstring) (rel : option Rel) (r : request)
    : CM soap (option FaultDoc * option positive) :=
  let fail (c : WsmanFaultCodeType) (d : WsmanFaultDetailType) :=
    f ← mlift (wsman_generate_fault c d None); mret (f, None) in
  if negb alloc_ok then fail WSMAN_INTERNAL_ERROR WSMAN_DETAIL_OK else
  let size := if r_maxsize r =? 0 then r_max_chars r else r_maxsize r in
  match r_to r with
  | None => fail WSMAN_INTERNAL_ERROR WSMAN_DETAIL_OK
  | Some to =>
  match r_uri r with
  | None => fail WSMAN_INTERNAL_ERROR WSMAN_DETAIL_OK
  | Some uri =>
  match default (inr 0) (r_expires r) with
  | inl c => fail c WSMAN_DETAIL_EXPIRATION_TIME
  | inr exp =>
      '(user, pass) ← match r_username r with
        | Some u => w ← mlift (deref (r_password r)); mret (Some u, Some w)
        | None => mret (None, None) end;
      p ← mget (fun s => fresh (dom (infos s)));
      mmod (fun s => set_infos s (<[p := Info 0 uuid 0 exp 0 size 0 None user pass rel to uri (r_charset r)]>
        (infos s)));;
      mret (None, Some p)
  end end end.

(** Comparing with a NULL user name or password is undefined. *)
(* src: lib/wsman-soap.c 319-361 wsman_verify_enum_info *)
Definition wsman_verify_enum_info (r : request) (i : WsEnumerateInfo) (st : WsmanStatus)
    : outcome (bool * WsmanStatus) :=
  match r_to r, r_uri r with
  | Some to, Some uri =>
      if negb (strcmp (epr_to i) to =? 0) || negb (strcmp (epr_uri i) uri =? 0) then
        Done (false, Status WSA_MESSAGE_INFORMATION_HEADER_REQUIRED WSMAN_DETAIL_OK (st_msg st))
      else match r_username r, r_password r with
      | Some u, Some w =>
          let* iu := deref (username i) in
          if strcmp u iu =? 0 then Done (true, st) else
          let* iw := deref (password i) in
          if strcmp w iw =? 0 then Done (true, st)
          else Done (false, Status WSMAN_ACCESS_DENIED WSMAN_DETAIL_OK (st_msg st))
      | _, _ => Done (true, st)
      end
  | _, _ => Done (false, Status WSMAN_INTERNAL_ERROR WSMAN_DETAIL_OK (st_msg st))
  end.

(** [entry_ok]: the copy of the key and the hash node could be allocated. *)
(* src: lib/wsman-soap.c 2522-2536 create_context_entry *)
Definition create_context_entry (entry_ok realloc_ok : bool) (name : cstring) (val : positive)
    : CM soap bool :=
  if entry_ok then on_table (fun t => let* t := d_insert realloc_ok t name val in Done (true, t))
  else mret false.

(* src: lib/wsman-soap.c 365-380 insert_enum_info *)
Definition insert_enum_info (entry_ok realloc_ok : bool) (now : Z) (p : positive) : CM soap Z :=
  i ← get_info p; put_info p (with_time i now);;
  b ← create_context_entry entry_ok realloc_ok (enumId i) p;
  mret (if (b : bool) then 0 else 1).

(* src: lib/wsman-soap.c 384-434 get_locked_enuminfo *)
Definition get_locked_enuminfo (r : request) (st : WsmanStatus)
    : CM soap (option positive * WsmanStatus) :=
  match r_context r with
  | None => mret (None, Status WSEN_INVALID_ENUMERATION_CONTEXT (st_detail st) (st_msg st))
  | Some id =>
      hn ← on_table (fun t => let* v := d_lookup t id in Done (v, t));
      '(eInfo, st) ← match hn with
        | Some p =>
            i ← get_info p;
            if negb (strcmp (enumId i) id =? 0) then
              mret (Some p, Status WSMAN_INTERNAL_ERROR (st_detail st) (st_msg st))
            else
              '(b, st) ← mlift (wsman_verify_enum_info r i st);
              if (b : bool) then
                if in_work i then mret (Some p, Status WSMAN_CONCURRENCY (st_detail st) (st_msg st))
                else put_info p (with_flags i (Z.lor (flags i) WSMAN_ENUMINFO_INWORK_FLAG));;
                     mret (Some p, st)
              else mret (Some p, st)
        | None => mret (None, Status WSEN_INVALID_ENUMERATION_CONTEXT (st_detail st) (st_msg st))
        end;
      mret (if bool_decide (st_code st = WSMAN_RC_OK) then eInfo else None, st)
  end.

(* src: lib/wsman-soap.c 436-450 unlock_enuminfo *)
Definition unlock_enuminfo (now : Z) (p : positive) : CM soap unit :=
  i ← get_info p;
  if negb (in_work i) then mret tt
  else put_info p (with_time (with_flags i (Z.ldiff (flags i) WSMAN_ENUMINFO_INWORK_FLAG)) now).

(* src: lib/wsman-soap.c 988-996 get_total_enum_context *)
Definition get_total_enum_context : CM soap Z := mget (fun s => d_count (enuminfos s)).

(** [wsman_set_estimated_total]. *)
Definition estimated_total (r : request) (i : WsEnumerateInfo) : option Z :=
  if r_total r then Some (totalItems i) else None.

(** An end point that is given NULL reads through it, and so does the code that
    follows it. *)
Definition call_endpoint (e : option endpoint) (p : option positive) (st : WsmanStatus)
    : CM soap (Z * WsmanStatus) :=
  match p with
  | None => mundef
  | Some p => match e with
      | None => mret (0, st)
      | Some f => i ← get_info p; let '(ret, i', st) := f i in put_info p i';; mret (ret, st)
      end
  end.

Record env := Env {
  e_now : Z; e_uuid : cstring; e_alloc : bool; e_entry : bool; e_realloc : bool; e_xml : xml;
  e_rel : option Rel; e_epcntx : bool; e_quota : option (Z * Z) }.

(* src: lib/wsman-soap.c 1021-1145 wsenum_enumerate_stub *)
Definition wsenum_enumerate_stub (e : env) (ep : option endpoint) (r : request)
    : CM soap (Z * option response) :=
  total ← get_total_enum_context;
  if match e_quota e with
     | Some (max_threads, per_thread) =>
         negb (max_threads =? 0) && (u64 (s32 (max_threads * per_thread)) <=? total)
     | None => false
     end then
    f ← mlift (wsman_generate_fault WSMAN_QUOTA_LIMIT OWSMAN_NO_DETAILS
           (Some (lit "The service is busy servicing other requests. Try later.")));
    mret (1, RFault <$> f)
  else if negb (e_epcntx e) then mret (0, None) else
  '(doc, eInfo) ← create_enum_info (e_alloc e) (e_uuid e) (e_rel e) r;
  match doc with
  | Some f => mret (0, Some (RFault f))
  | None =>
      '(retVal, st) ← call_endpoint ep eInfo wsman_status_init;
      match eInfo with
      | None => mundef
      | Some p =>
          if negb (retVal =? 0) then
            f ← mlift (wsman_generate_fault (st_code st) (st_detail st) (st_msg st));
            destroy_enuminfo p;; mret (retVal, RFault <$> f)
          else
          i ← get_info p;
          (if bool_decide (is_Some (pullResultPtr i)) then put_info p (with_index i (u32 (index i + 1)))
           else mret tt);;
          i ← get_info p;
          if negb (bool_decide (is_Some (pullResultPtr i))) && negb (x_envelope (e_xml e)) then
            destroy_enuminfo p;; mret (retVal, None)
          else
          let total := estimated_total r i in
          if negb (x_body (e_xml e)) || negb (x_resp (e_xml e)) then
            destroy_enuminfo p;; mret (retVal, Some (RPartial total))
          else if (Z.land (flags i) WSMAN_ENUMINFO_OPT =? WSMAN_ENUMINFO_OPT) &&
                  ((totalItems i =? 0) || (index i =? totalItems i)) then
            destroy_enuminfo p;; mret (retVal, Some (REnumerate (pullResultPtr i) total None true))
          else
            _ ← insert_enum_info (e_entry e) (e_realloc e) (e_now e) p;
            mret (retVal, Some (REnumerate (pullResultPtr i) total (Some (enumId i)) false))
      end
  end.

(* src: lib/wsman-soap.c 1148-1199 wsenum_release_stub *)
Definition wsenum_release_stub (e : env) (ep : option endpoint) (r : request)
    : CM soap (Z * option response) :=
  '(eInfo, st) ← get_locked_enuminfo r wsman_status_init;
  match eInfo with
  | None =>
      f ← mlift (wsman_generate_fault (st_code st) (st_detail st) None); mret (0, RFault <$> f)
  | Some p =>
      '(retVal, st) ← call_endpoint ep (Some p) st;
      if negb (retVal =? 0) then
        f ← mlift (wsman_generate_fault WSMAN_INTERNAL_ERROR OWSMAN_DETAIL_ENDPOINT_ERROR None);
        unlock_enuminfo (e_now e) p;; mret (retVal, RFault <$> f)
      else
        remove_locked_enuminfo p;; destroy_enuminfo p;;
        mret (retVal, if x_envelope (e_xml e) then Some RRelease else None)
  end.

(** The identifier of the context is never stored in [enumId]: the context element of the
    response is always left out. *)
(* src: lib/wsman-soap.c 1204-1292 wsenum_pull_stub *)
Definition wsenum_pull_stub (e : env) (ep : endpoint) (r : request) : CM soap (Z * option response) :=
  '(eInfo, st) ← get_locked_enuminfo r wsman_status_init;
  match eInfo with
  | None =>
      f ← mlift (wsman_generate_fault (st_code st) (st_detail st) None); mret (0, RFault <$> f)
  | Some p =>
      '(retVal, st) ← call_endpoint (Some ep) (Some p) st;
      if negb (retVal =? 0) then
        f ← mlift (wsman_generate_fault (st_code st) (st_detail st) None);
        unlock_enuminfo (e_now e) p;; mret (retVal, RFault <$> f)
      else
      i ← get_info p;
      put_info p (with_index i (u32 (index i + 1)));;
      if negb (x_envelope (e_xml e)) then unlock_enuminfo (e_now e) p;; mret (retVal, None) else
      let total := estimated_total r i in
      if negb (x_body (e_xml e)) || negb (x_resp (e_xml e)) then
        unlock_enuminfo (e_now e) p;; mret (retVal, Some (RPartial total))
      else match pullResultPtr i with
      | Some d => unlock_enuminfo (e_now e) p;; mret (retVal, Some (RPull (Some d) total None false))
      | None =>
          remove_locked_enuminfo p;; destroy_enuminfo p;;
          mret (retVal, Some (RPull None total None true))
      end
  end.

(** [subs]: the reply of the notification half of the stub, when the context is that of a
    subscription; [items]: the response of the provider has its Items element. *)
(* src: lib/wsman-soap.c 1296-1369 wsenum_pull_direct_stub *)
Definition wsenum_pull_direct_stub (e : env) (ep : endpoint) (subs : option (option response))
    (items : bool) (r : request) : CM soap (Z * option response) :=
  '(eInfo, st) ← get_locked_enuminfo r wsman_status_init;
  match eInfo with
  | None =>
      match subs with
      | None => f ← mlift (wsman_generate_fault (st_code st) (st_detail st) None); mret (0, RFault <$> f)
      | Some reply => mret (0, reply)
      end
  | Some p =>
      '(retVal, st) ← call_endpoint (Some ep) (Some p) st;
      if negb (retVal =? 0) then
        f ← mlift (wsman_generate_fault (st_code st) (st_detail st) None);
        unlock_enuminfo (e_now e) p;; mret (retVal, RFault <$> f)
      else
      i ← get_info p;
      let i := with_index i (u32 (index i + 1)) in
      put_info p i;;
      match pullResultPtr i with
      | None => unlock_enuminfo (e_now e) p;; mret (retVal, None)
      | Some d =>
          let total := estimated_total r i in
          if negb items then
            f ← mlift (wsman_generate_fault WSMAN_INTERNAL_ERROR WSMAN_DETAIL_INVALID None);
            unlock_enuminfo (e_now e) p;; mret (retVal, RFault <$> f)
          else if (totalItems i =? 0) || (index i =? totalItems i) then
            remove_locked_enuminfo p;; destroy_enuminfo p;;
            mret (retVal, Some (RPull (Some d) total None true))
          else
            unlock_enuminfo (e_now e) p;;
            mret (retVal, Some (RPull (Some d) total (Some (enumId i)) false))
      end
  end.

(** The test of the sweep. *)
(* src: lib/wsman-soap.c 1461-1471 wsman_get_expired_enuminfos *)
Definition expired (idle now : Z) (i : WsEnumerateInfo) : bool :=
  negb (in_work i) &&
  negb ((now <? u64 (timeStamp i + idle)) && ((expires i =? 0) || (now <? expires i))).
(** [list_ok]: the list of the result could be allocated. *)
(* src: lib/wsman-soap.c 1439-1486 wsman_get_expired_enuminfos *)
Definition wsman_get_expired_enuminfos (list_ok : bool) (now : Z) : CM soap (list positive) :=
  aeit ← mget enumIdleTimeout;
  if aeit =? 0 then mret []
  else total ← get_total_enum_context;
  if total =? 0 then mret []
  else if negb list_ok then mret []
  else fun s => on_table (d_sweep (fun p => let* i := deref (infos s !! p) in Done (expired aeit now i))) s.

(* src: lib/wsman-soap.c 1498-1519 wsman_timeouts_manager *)
Fixpoint timeouts_loop (l : list positive) : CM soap unit :=
  match l with
  | [] => mret tt
  | p :: l =>
      i ← get_info p;
      (match releaseproc i with
       | Some rp => mmod (fun s => Soap (enuminfos s) (infos s) (enumIdleTimeout s) (released s ++ [(rp, enumId i)]))
       | None => mret tt
       end);;
      destroy_enuminfo p;; timeouts_loop l
  end.
(* src: lib/wsman-soap.c 1488-1521 wsman_timeouts_manager *)
Definition wsman_timeouts_manager (list_ok : bool) (now : Z) : CM soap unit :=
  l ← wsman_get_expired_enuminfos list_ok now; timeouts_loop l.
End EnumCtx.

(** ** The server invariant *)
Section Proofs.
Context {Doc Rel T : Type} {TO : DictOps T positive} {TD : Dict T positive}.
Implicit Types (s : @soap Doc Rel T) (p : positive) (i : @WsEnumerateInfo Doc Rel) (id : cstring)
  (held det : list positive) (e : @env Rel) (m : gmap cstring (@WsEnumerateInfo Doc Rel)) (r : request) (ep : @endpoint Doc Rel).

Abbreviation tab s := (d_map (enuminfos s)).
Abbreviation context := (@WsEnumerateInfo Doc Rel).

(** [held] are the infos that a thread has locked, [det] those that a thread owns because no
    table entry leads to them (new ones, and those removed and not yet freed). *)
Record inv held det s : Prop := Inv {
  inv_ok : d_ok (enuminfos s);
  inv_range : forall id p, tab s !! id = Some p ->
    no_nul id /\ exists i, infos s !! p = Some i /\ enumId i = id;
  inv_nodup : NoDup (held ++ det);
  inv_held : forall p, p ∈ held -> exists i, infos s !! p = Some i /\ in_work i = true /\
    tab s !! enumId i = Some p;
  inv_det : forall p, p ∈ det -> is_Some (infos s !! p) /\ forall id, tab s !! id <> Some p;
  inv_work : forall id p i, tab s !! id = Some p -> infos s !! p = Some i -> in_work i = true -> p ∈ held;
  inv_all : forall p i, infos s !! p = Some i -> tab s !! enumId i = Some p \/ p ∈ det }.

#[export] Instance inv_perm : Proper ((≡ₚ) ==> (≡ₚ) ==> (=) ==> iff) inv.
Proof.
  assert (H : forall h h' d d' s, h ≡ₚ h' -> d ≡ₚ d' -> inv h d s -> inv h' d' s).
  { intros h h' d d' s Ph Pd I. split; try apply I.
    - rewrite <- Ph, <- Pd. apply I.
    - intros p. rewrite <- Ph. apply I.
    - intros p. rewrite <- Pd. apply I.
    - intros id p i. rewrite <- Ph. apply I.
    - intros p i. rewrite <- Pd. apply I. }
  intros h h' Ph d d' Pd s _ <-. split; apply H; done.
Qed.

Lemma get_info_eq s p i : infos s !! p = Some i -> get_info p s = Done (i, s).
Proof. intros H. unfold get_info. now rewrite H. Qed.
Lemma put_info_eq s p i i' : infos s !! p = Some i ->
  put_info p i' s = Done (tt, set_infos s (<[p := i']> (infos s))).
Proof. intros H. unfold put_info. now step (get_info_eq s p i H). Qed.
Lemma destroy_eq s p i : infos s !! p = Some i ->
  destroy_enuminfo p s = Done (tt, set_infos s (delete p (infos s))).
Proof. intros H. unfold destroy_enuminfo. now step (get_info_eq s p i H). Qed.

(** Writing an info that a thread holds or owns. *)
Lemma inv_put held det s p i i' : inv held det s -> p ∈ held \/ p ∈ det -> infos s !! p = Some i ->
  enumId i' = enumId i -> in_work i' = in_work i ->
  inv held det (set_infos s (<[p := i']> (infos s))).
Proof.
  intros I Hp Hi He Hw. split; simpl; try apply I.
  - intros id q Hq. destruct (inv_range _ _ _ I id q Hq) as (N & j & Hj & Ej). split; [done|].
    destruct (decide (p = q)) as [->|Hne].
    + exists i'. rewrite lookup_insert_eq. split; [done|congruence].
    + exists j. now rewrite lookup_insert_ne.
  - intros q Hq. destruct (inv_held _ _ _ I q Hq) as (j & Hj & Wj & Tj).
    destruct (decide (p = q)) as [->|Hne].
    + exists i'. rewrite lookup_insert_eq. rewrite He, Hw. split_and!; congruence.
    + exists j. now rewrite lookup_insert_ne.
  - intros q Hq. destruct (inv_det _ _ _ I q Hq) as [Hs Ht]. split; [|done].
    apply lookup_insert_is_Some'. now right.
  - intros id q j Hq Hj Wj. destruct (decide (p = q)) as [->|Hne].
    + rewrite lookup_insert_eq in Hj. injection Hj as <-.
      apply (inv_work _ _ _ I id q i Hq Hi). congruence.
    + rewrite lookup_insert_ne in Hj by done. now apply (inv_work _ _ _ I id q j).
  - intros q j Hj. destruct (decide (p = q)) as [->|Hne].
    + rewrite lookup_insert_eq in Hj. injection Hj as <-. rewrite He. now apply (inv_all _ _ _ I).
    + rewrite lookup_insert_ne in Hj by done. now apply (inv_all _ _ _ I).
Qed.

(** Marking a table entry as in work, and back. *)
Lemma inv_lock held det s p i i' : inv held det s -> infos s !! p = Some i ->
  tab s !! enumId i = Some p -> in_work i = false -> enumId i' = enumId i -> in_work i' = true ->
  inv (p :: held) det (set_infos s (<[p := i']> (infos s))).
Proof.
  intros I Hi Ht Hw He Hw'.
  assert (Nh : p ∉ held) by (intros H; destruct (inv_held _ _ _ I p H) as (j & Hj & Wj & _); congruence).
  assert (Nd : p ∉ det) by (intros H; destruct (inv_det _ _ _ I p H) as [_ X]; exact (X _ Ht)).
  split; simpl; try apply I.
  - intros id q Hq. destruct (inv_range _ _ _ I id q Hq) as (N & j & Hj & Ej). split; [done|].
    destruct (decide (p = q)) as [->|Hne].
    + exists i'. rewrite lookup_insert_eq. split; [done|congruence].
    + exists j. now rewrite lookup_insert_ne.
  - apply NoDup_cons. split; [rewrite elem_of_app; tauto|apply I].
  - intros q [->|Hq]%elem_of_cons.
    + exists i'. rewrite lookup_insert_eq, He. done.
    + destruct (inv_held _ _ _ I q Hq) as (j & Hj & Wj & Tj). exists j.
      rewrite lookup_insert_ne by (intros ->; done). done.
  - intros q Hq. destruct (inv_det _ _ _ I q Hq) as [Hs Hx]. split; [|done].
    apply lookup_insert_is_Some'. now right.
  - intros id q j Hq Hj Wj. destruct (decide (p = q)) as [->|Hne]; [left|].
    rewrite lookup_insert_ne in Hj by done. right. now apply (inv_work _ _ _ I id q j).
  - intros q j Hj. destruct (decide (p = q)) as [->|Hne].
    + rewrite lookup_insert_eq in Hj. injection Hj as <-. left. congruence.
    + rewrite lookup_insert_ne in Hj by done. now apply (inv_all _ _ _ I).
Qed.
Lemma inv_unlock held det s p i i' : inv (p :: held) det s -> infos s !! p = Some i ->
  enumId i' = enumId i -> in_work i' = false ->
  inv held det (set_infos s (<[p := i']> (infos s))).
Proof.
  intros I Hi He Hw'. pose proof (inv_nodup _ _ _ I) as N. simpl in N. apply NoDup_cons in N as [N1 N2].
  rewrite elem_of_app in N1.
  destruct (inv_held _ _ _ I p ltac:(left)) as (j & Hj & Wj & Tj). rewrite Hi in Hj. injection Hj as <-.
  split; simpl; try apply I; try done.
  - intros id q Hq. destruct (inv_range _ _ _ I id q Hq) as (N & j & Hj & Ej). split; [done|].
    destruct (decide (p = q)) as [->|Hne].
    + exists i'. rewrite lookup_insert_eq. split; [done|congruence].
    + exists j. now rewrite lookup_insert_ne.
  - intros q Hq. destruct (inv_held _ _ _ I q ltac:(now right)) as (j & Hj & Wj' & Tj'). exists j.
    rewrite lookup_insert_ne by (intros ->; tauto). done.
  - intros q Hq. destruct (inv_det _ _ _ I q Hq) as [Hs Hx]. split; [|done].
    apply lookup_insert_is_Some'. now right.
  - intros id q j Hq Hj Wj'. destruct (decide (p = q)) as [->|Hne].
    + rewrite lookup_insert_eq in Hj. congruence.
    + rewrite lookup_insert_ne in Hj by done. pose proof (inv_work _ _ _ I id q j Hq Hj Wj') as X.
      apply elem_of_cons in X as [->|X]; done.
  - intros q j Hj. destruct (decide (p = q)) as [->|Hne].
    + rewrite lookup_insert_eq in Hj. injection Hj as <-. left. congruence.
    + rewrite lookup_insert_ne in Hj by done. now apply (inv_all _ _ _ I).
Qed.

(** Taking a held info out of the table. *)
Lemma inv_remove held det s p i t : inv (p :: held) det s -> infos s !! p = Some i -> d_ok t ->
  d_map t = delete (enumId i) (tab s) -> inv held (p :: det) (set_enuminfos s t).
Proof.
  intros I Hi Ok Ht. pose proof (inv_nodup _ _ _ I) as N. simpl in N. apply NoDup_cons in N as [N1 N2].
  rewrite elem_of_app in N1.
  destruct (inv_held _ _ _ I p ltac:(left)) as (j & Hj & Wj & Tj). rewrite Hi in Hj. injection Hj as <-.
  split; simpl; rewrite ?Ht; try done.
  - intros id q Hq. apply lookup_delete_Some in Hq as [_ Hq]. now apply (inv_range _ _ _ I).
  - rewrite <- Permutation_middle. apply NoDup_cons. split; [rewrite elem_of_app; tauto|done].
  - intros q Hq. destruct (inv_held _ _ _ I q ltac:(now right)) as (j & Hj & Wj' & Tj'). exists j.
    split_and!; try done. rewrite lookup_delete_ne; [done|]. intros E. rewrite E in Tj. assert (q = p) by congruence.
    subst q. tauto.
  - intros q [->|Hq]%elem_of_cons.
    + split; [eauto|]. intros id E. apply lookup_delete_Some in E as [Hne E].
      destruct (inv_range _ _ _ I id p E) as (_ & j & Hj & Ej). congruence.
    + destruct (inv_det _ _ _ I q Hq) as [Hs Hx]. split; [done|]. intros id E.
      apply lookup_delete_Some in E as [_ E]. exact (Hx id E).
  - intros id q j Hq Hj Wj'. apply lookup_delete_Some in Hq as [Hne Hq].
    pose proof (inv_work _ _ _ I id q j Hq Hj Wj') as X. apply elem_of_cons in X as [->|X]; [|done].
    destruct (inv_range _ _ _ I id p Hq) as (_ & j' & Hj' & Ej). congruence.
  - intros q j Hj. destruct (inv_all _ _ _ I q j Hj) as [E|E]; [|right; now right].
    destruct (decide (enumId i = enumId j)) as [Ee|Ee].
    + assert (q = p) as -> by congruence. right. left.
    + left. now rewrite lookup_delete_ne.
Qed.
(** Freeing an owned info. *)
Lemma inv_destroy held det s p : inv held (p :: det) s ->
  inv held det (set_infos s (delete p (infos s))).
Proof.
  intros I. pose proof (inv_nodup _ _ _ I) as N. rewrite <- Permutation_middle in N.
  apply NoDup_cons in N as [N1 N2]. rewrite elem_of_app in N1.
  destruct (inv_det _ _ _ I p ltac:(left)) as [_ Hp].
  split; simpl; try apply I; try done.
  - intros id q Hq. destruct (inv_range _ _ _ I id q Hq) as (N & j & Hj & Ej). split; [done|]. exists j.
    rewrite lookup_delete_ne; [done|]. intros ->. exact (Hp id Hq).
  - intros q Hq. destruct (inv_held _ _ _ I q Hq) as (j & Hj & Wj' & Tj'). exists j.
    rewrite lookup_delete_ne by (intros ->; tauto). done.
  - intros q Hq. destruct (inv_det _ _ _ I q ltac:(now right)) as [Hs Hx]. split; [|done].
    rewrite lookup_delete_ne by (intros ->; tauto). done.
  - intros id q j Hq Hj Wj'. apply lookup_delete_Some in Hj as [_ Hj]. now apply (inv_work _ _ _ I id q j).
  - intros q j Hj. apply lookup_delete_Some in Hj as [Hne Hj].
    destruct (inv_all _ _ _ I q j Hj) as [E|E]; [now left|].
    apply elem_of_cons in E as [->|E]; [done|now right].
Qed.
(** A new info. *)
Lemma inv_new held det s p i : inv held det s -> infos s !! p = None ->
  inv held (p :: det) (set_infos s (<[p := i]> (infos s))).
Proof.
  intros I Hp.
  assert (Nt : forall id, tab s !! id <> Some p).
  { intros id E. destruct (inv_range _ _ _ I id p E) as (_ & j & Hj & _). congruence. }
  assert (Nh : p ∉ held) by (intros H; destruct (inv_held _ _ _ I p H) as (j & Hj & _); congruence).
  assert (Nd : p ∉ det) by (intros H; destruct (inv_det _ _ _ I p H) as [[j Hj] _]; congruence).
  split; simpl; try apply I.
  - intros id q Hq. destruct (inv_range _ _ _ I id q Hq) as (N & j & Hj & Ej). split; [done|]. exists j.
    rewrite lookup_insert_ne; [done|]. intros ->. exact (Nt id Hq).
  - rewrite <- Permutation_middle. apply NoDup_cons. split; [rewrite elem_of_app; tauto|apply I].
  - intros q Hq. destruct (inv_held _ _ _ I q Hq) as (j & Hj & Wj' & Tj'). exists j.
    rewrite lookup_insert_ne by (intros ->; done). done.
  - intros q [->|Hq]%elem_of_cons; [split; [rewrite lookup_insert_eq; eauto|done]|].
    destruct (inv_det _ _ _ I q Hq) as [Hs Hx]. split; [|done]. apply lookup_insert_is_Some'. now right.
  - intros id q j Hq Hj Wj'. rewrite lookup_insert_ne in Hj by (intros ->; exact (Nt id Hq)).
    now apply (inv_work _ _ _ I id q j).
  - intros q j Hj. destruct (decide (p = q)) as [->|Hne]; [right; left|].
    rewrite lookup_insert_ne in Hj by done. destruct (inv_all _ _ _ I q j Hj); [now left|right; now right].
Qed.
(** Entering an owned info into the table. *)
Lemma inv_enter held det s p i t : inv held (p :: det) s -> infos s !! p = Some i ->
  in_work i = false -> no_nul (enumId i) -> tab s !! enumId i = None -> d_ok t ->
  d_map t = <[enumId i := p]> (tab s) -> inv held det (set_enuminfos s t).
Proof.
  intros I Hi Hw Hn Hnone Ok Ht. pose proof (inv_nodup _ _ _ I) as N. rewrite <- Permutation_middle in N.
  apply NoDup_cons in N as [N1 N2]. rewrite elem_of_app in N1.
  destruct (inv_det _ _ _ I p ltac:(left)) as [_ Hp].
  split; simpl; rewrite ?Ht; try done.
  - intros id q Hq. apply lookup_insert_Some in Hq as [[<- <-]|[_ Hq]]; [eauto|now apply (inv_range _ _ _ I)].
  - intros q Hq. destruct (inv_held _ _ _ I q Hq) as (j & Hj & Wj' & Tj'). exists j. split_and!; try done.
    rewrite lookup_insert_ne; [done|]. intros E. congruence.
  - intros q Hq. destruct (inv_det _ _ _ I q ltac:(now right)) as [Hs Hx]. split; [done|].
    intros id E. apply lookup_insert_Some in E as [[_ ->]|[_ E]]; [tauto|exact (Hx id E)].
  - intros id q j Hq Hj Wj'. apply lookup_insert_Some in Hq as [[_ <-]|[_ Hq]]; [congruence|].
    now apply (inv_work _ _ _ I id q j).
  - intros q j Hj. destruct (inv_all _ _ _ I q j Hj) as [E|E].
    + left. rewrite lookup_insert_ne; [done|]. intros X. congruence.
    + apply elem_of_cons in E as [->|E]; [|now right]. left. rewrite Hi in Hj. injection Hj as <-.
      apply lookup_insert_eq.
Qed.

(** ** The critical sections *)
Lemma in_work_bit i : in_work i = Z.testbit (flags i) 4.
Proof.
  unfold in_work, WSMAN_ENUMINFO_INWORK_FLAG. change 0x10 with (2 ^ 4).
  assert (E : Z.land (flags i) (2 ^ 4) = if Z.testbit (flags i) 4 then 2 ^ 4 else 0).
  { apply Z.bits_inj'. intros k Hk. rewrite Z.land_spec, Z.pow2_bits_eqb by lia.
    destruct (Z.eqb_spec 4 k) as [<-|].
    - rewrite andb_true_r. now destruct (Z.testbit (flags i) 4).
    - rewrite andb_false_r. destruct (Z.testbit (flags i) 4); [now rewrite Z.pow2_bits_false by lia|now rewrite Z.bits_0]. }
  rewrite E. now destruct (Z.testbit (flags i) 4).
Qed.
Definition locked i : WsEnumerateInfo := with_flags i (Z.lor (flags i) WSMAN_ENUMINFO_INWORK_FLAG).
Definition unlocked now i : WsEnumerateInfo :=
  with_time (with_flags i (Z.ldiff (flags i) WSMAN_ENUMINFO_INWORK_FLAG)) now.
Lemma in_work_locked i : in_work (locked i) = true.
Proof.
  rewrite in_work_bit. change (flags (locked i)) with (Z.lor (flags i) 16). rewrite Z.lor_spec.
  apply orb_true_r.
Qed.
Lemma in_work_unlocked now i : in_work (unlocked now i) = false.
Proof.
  rewrite in_work_bit. change (flags (unlocked now i)) with (Z.ldiff (flags i) 16). rewrite Z.ldiff_spec.
  apply andb_false_r.
Qed.

Definition context_ok r : Prop := forall id, r_context r = Some id -> no_nul id.

Lemma verify_cases r i : (is_Some (r_username r) -> is_Some (r_password r) ->
    is_Some (username i) /\ is_Some (password i)) ->
  wsman_verify_enum_info r i wsman_status_init = Done (true, wsman_status_init) \/
  exists st, wsman_verify_enum_info r i wsman_status_init = Done (false, st) /\ st_code st <> WSMAN_RC_OK.
Proof.
  intros A. unfold wsman_verify_enum_info.
  destruct (r_to r) as [to|]; [|right; eexists; split; [reflexivity|discriminate]].
  destruct (r_uri r) as [uri|]; [|right; eexists; split; [reflexivity|discriminate]].
  destruct (negb _ || negb _); [right; eexists; split; [reflexivity|discriminate]|].
  destruct (r_username r) as [u|]; [|now left]. destruct (r_password r) as [w|]; [|now left].
  destruct A as [[iu ->] [iw ->]]; eauto. simpl. destruct (strcmp u iu =? 0); [now left|].
  destruct (strcmp w iw =? 0); [now left|]. right. eexists. split; [reflexivity|discriminate].
Qed.

Lemma set_enuminfos_id s : set_enuminfos s (enuminfos s) = s.
Proof. now destruct s. Qed.
Lemma lookup_eq held det s id : inv held det s -> no_nul id ->
  on_table (fun t => let* v := d_lookup t id in Done (v, t)) s = Done (tab s !! id, s).
Proof.
  intros I N. unfold on_table. rewrite (d_lookup_law _ _ (inv_ok _ _ _ I) N). simpl.
  now rewrite set_enuminfos_id.
Qed.

Lemma unlock_ok held det s p now : inv (p :: held) det s ->
  exists i, infos s !! p = Some i /\
    unlock_enuminfo now p s = Done (tt, set_infos s (<[p := unlocked now i]> (infos s))) /\
    inv held det (set_infos s (<[p := unlocked now i]> (infos s))).
Proof.
  intros I. destruct (inv_held _ _ _ I p ltac:(left)) as (i & Hi & W & Ti). exists i. split; [done|].
  unfold unlock_enuminfo. step (get_info_eq s p i Hi). rewrite W. cbv [negb].
  split; [apply (put_info_eq s p i _ Hi)|].
  eapply inv_unlock; try done. apply in_work_unlocked.
Qed.
Lemma remove_ok held det s p : inv (p :: held) det s ->
  exists t i, infos s !! p = Some i /\ remove_locked_enuminfo p s = Done (tt, set_enuminfos s t) /\
    d_map t = delete (enumId i) (tab s) /\ inv held (p :: det) (set_enuminfos s t).
Proof.
  intros I. destruct (inv_held _ _ _ I p ltac:(left)) as (i & Hi & W & Ti).
  destruct (inv_range _ _ _ I _ _ Ti) as (N & _).
  destruct (d_remove_law (enuminfos s) (enumId i) (inv_ok _ _ _ I) N) as (t & E & Ok & Ht).
  exists t, i. split; [done|]. unfold remove_locked_enuminfo.
  step (get_info_eq s p i Hi). rewrite W. cbv [negb].
  split; [unfold on_table; cbv beta; now rewrite E|]. split; [done|]. eapply inv_remove; eauto.
Qed.
Lemma destroy_ok held det s p : inv held (p :: det) s ->
  destroy_enuminfo p s = Done (tt, set_infos s (delete p (infos s))) /\
  inv held det (set_infos s (delete p (infos s))).
Proof.
  intros I. destruct (inv_det _ _ _ I p ltac:(left)) as [[i Hi] _].
  split; [now apply (destroy_eq s p i)|now apply inv_destroy].
Qed.

(** ** What the clients of the server see

    [view] is the server as its clients see it: the enumeration contexts by their id.
    The theorems on the request handlers state what a handler does to the view. *)
Definition view s : gmap cstring context := omap (fun p => infos s !! p) (tab s).

Lemma view_lookup s id : view s !! id = p ← tab s !! id; infos s !! p.
Proof. unfold view. now rewrite lookup_omap. Qed.
Lemma inv_inj held det s id p i : inv held det s -> infos s !! p = Some i -> tab s !! id = Some p ->
  id = enumId i.
Proof. intros I Hi Ht. destruct (inv_range _ _ _ I id p Ht) as (_ & j & Hj & <-). congruence. Qed.

Lemma view_put held det s p i i' : inv held det s -> infos s !! p = Some i ->
  tab s !! enumId i = Some p -> view (set_infos s (<[p := i']> (infos s))) = <[enumId i := i']> (view s).
Proof.
  intros I Hi Ht. apply map_eq. intros id. rewrite view_lookup. simpl.
  destruct (decide (id = enumId i)) as [->|Hne].
  - rewrite Ht, lookup_insert_eq. simpl. now rewrite lookup_insert_eq.
  - rewrite lookup_insert_ne, view_lookup by done. destruct (tab s !! id) as [q|] eqn:E; [|done]. simpl.
    rewrite lookup_insert_ne; [done|]. intros ->. apply Hne. eapply inv_inj; eauto.
Qed.
Lemma view_det held det s p (m : gmap positive context) : inv held (p :: det) s ->
  (forall q, q <> p -> m !! q = infos s !! q) -> view (set_infos s m) = view s.
Proof.
  intros I Hm. apply map_eq. intros id. rewrite !view_lookup. simpl.
  destruct (tab s !! id) as [q|] eqn:E; [|done]. simpl. apply Hm. intros ->.
  destruct (inv_det _ _ _ I p ltac:(left)) as [_ X]. exact (X id E).
Qed.
Lemma view_remove s t id : d_map t = delete id (tab s) -> view (set_enuminfos s t) = delete id (view s).
Proof.
  intros Ht. apply map_eq. intros id'. rewrite view_lookup. simpl. rewrite Ht.
  destruct (decide (id = id')) as [->|]; [now rewrite !lookup_delete_eq|].
  rewrite !lookup_delete_ne, view_lookup by done. done.
Qed.
Lemma view_enter s t p i : infos s !! p = Some i -> d_map t = <[enumId i := p]> (tab s) ->
  view (set_enuminfos s t) = <[enumId i := i]> (view s).
Proof.
  intros Hi Ht. apply map_eq. intros id'. rewrite view_lookup. simpl. rewrite Ht.
  destruct (decide (enumId i = id')) as [<-|]; [rewrite !lookup_insert_eq; exact Hi|].
  rewrite !lookup_insert_ne, view_lookup by done. done.
Qed.

(** A request with credentials does not meet a context without them. *)
Definition auth_safe r s : Prop := forall id i, r_context r = Some id -> view s !! id = Some i ->
  is_Some (r_username r) -> is_Some (r_password r) -> is_Some (username i) /\ is_Some (password i).

(** Whether a request is let through to the context it names, and if not, the status that
    it is refused with. *)
Definition admission r (m : gmap cstring context) : context + WsmanStatus :=
  let no c := inr (Status c (st_detail wsman_status_init) (st_msg wsman_status_init)) in
  match m !! default [] (r_context r) with
  | Some i =>
      match r_context r, wsman_verify_enum_info r i wsman_status_init with
      | Some _, Done (true, _) => if in_work i then no WSMAN_CONCURRENCY else inl i
      | Some _, Done (false, st) => inr st
      | _, _ => no WSEN_INVALID_ENUMERATION_CONTEXT
      end
  | None => no WSEN_INVALID_ENUMERATION_CONTEXT
  end.

(** A thread works on the info at [p], which now holds [i], over a view that was [m]. *)
Record working held det (m : gmap cstring context) p i s : Prop := Working {
  w_inv : inv (p :: held) det s;
  w_info : infos s !! p = Some i;
  w_view : view s = <[enumId i := i]> m }.

Lemma lock_refused held det s r st : inv held det s -> context_ok r -> auth_safe r s ->
  admission r (view s) = inr st -> get_locked_enuminfo r wsman_status_init s = Done ((None, st), s).
Proof.
  intros I Hc Ha. unfold admission, get_locked_enuminfo. rewrite view_lookup.
  destruct (r_context r) as [id|] eqn:Er.
  2: { intros E. assert (st = Status WSEN_INVALID_ENUMERATION_CONTEXT WSMAN_DETAIL_OK None) as -> by
         (destruct (_ ≫= _); injection E as <-; reflexivity). reflexivity. }
  pose proof (Hc id Er) as N. simpl default. step (lookup_eq held det s id I N).
  destruct (tab s !! id) as [p|] eqn:Et; [|now intros [= <-]].
  destruct (inv_range _ _ _ I id p Et) as (_ & i & Hi & Ei). simpl mbind at 1. rewrite Hi.
  cbv [mlift mbind M_bind obind mret M_ret option_bind]. rewrite (get_info_eq s p i Hi). cbv beta iota.
  rewrite Ei, strcmp_refl. cbv [negb Z.eqb].
  destruct (verify_cases r i) as [V|(st' & V & Vc)]; [apply (Ha id); [done|now rewrite view_lookup, Et]| |]; rewrite V.
  - destruct (in_work i) eqn:W; [|discriminate]. now intros [= <-].
  - intros [= <-]. now rewrite bool_decide_false by done.
Qed.
Lemma lock_granted held det s r i : inv held det s -> context_ok r -> auth_safe r s ->
  admission r (view s) = inl i -> exists p s', working held det (view s) p (locked i) s' /\
    get_locked_enuminfo r wsman_status_init s = Done ((Some p, wsman_status_init), s').
Proof.
  intros I Hc Ha. unfold admission, get_locked_enuminfo. rewrite view_lookup.
  destruct (r_context r) as [id|] eqn:Er; [|now destruct (_ ≫= _)].
  pose proof (Hc id Er) as N. simpl default. step (lookup_eq held det s id I N).
  destruct (tab s !! id) as [p|] eqn:Et; [|discriminate].
  destruct (inv_range _ _ _ I id p Et) as (_ & j & Hi & Ei). simpl mbind at 1. rewrite Hi.
  cbv [mlift mbind M_bind obind mret M_ret option_bind]. rewrite (get_info_eq s p j Hi). cbv beta iota.
  rewrite Ei, strcmp_refl. cbv [negb Z.eqb].
  destruct (verify_cases r j) as [V|(st' & V & Vc)]; [apply (Ha id); [done|now rewrite view_lookup, Et]| |]; rewrite V; [|discriminate].
  destruct (in_work j) eqn:W; [discriminate|]. intros [= <-].
  rewrite (put_info_eq s p j _ Hi). cbv beta iota. subst id. do 2 eexists. split; [|reflexivity]. split.
  - eapply inv_lock; try done. apply in_work_locked.
  - simpl. apply lookup_insert_eq.
  - now apply (view_put held det s p j).
Qed.

Lemma working_get held det m p i s : working held det m p i s -> get_info p s = Done (i, s).
Proof. intros W. apply get_info_eq, W. Qed.
Lemma working_put held det m p i i' s : working held det m p i s ->
  enumId i' = enumId i -> in_work i' = in_work i ->
  exists s', put_info p i' s = Done (tt, s') /\ working held det m p i' s'.
Proof.
  intros [I Hi Hv] He Hw. eexists. split; [apply (put_info_eq s p i _ Hi)|].
  destruct (inv_held _ _ _ I p ltac:(left)) as (j & Hj & _ & Tj). rewrite Hi in Hj. injection Hj as <-.
  split; [|apply lookup_insert_eq|].
  - apply (inv_put _ _ s p i i' I); try done. left. left.
  - rewrite (view_put _ _ s p i i' I Hi Tj), Hv, He. apply insert_insert_eq.
Qed.
Lemma working_unlock held det m p i s now : working held det m p i s ->
  exists s', unlock_enuminfo now p s = Done (tt, s') /\ inv held det s' /\
    view s' = <[enumId i := unlocked now i]> m.
Proof.
  intros [I Hi Hv]. destruct (unlock_ok held det s p now I) as (j & Hj & E & I').
  rewrite Hi in Hj. injection Hj as <-. eexists. split; [exact E|]. split; [done|].
  destruct (inv_held _ _ _ I p ltac:(left)) as (j & Hj & _ & Tj). rewrite Hi in Hj. injection Hj as <-.
  rewrite (view_put _ _ s p i _ I Hi Tj), Hv. apply insert_insert_eq.
Qed.
Lemma working_finish held det m p i s : working held det m p i s ->
  exists s1 s', remove_locked_enuminfo p s = Done (tt, s1) /\ destroy_enuminfo p s1 = Done (tt, s') /\
    inv held det s' /\ view s' = delete (enumId i) m.
Proof.
  intros [I Hi Hv]. destruct (remove_ok held det s p I) as (t & j & Hj & E & Ht & I').
  rewrite Hi in Hj. injection Hj as <-. destruct (destroy_ok held det _ p I') as [E' I''].
  do 2 eexists. split; [exact E|]. split; [exact E'|]. split; [done|].
  rewrite (view_det held det _ p _ I') by (intros; now apply lookup_delete_ne).
  rewrite (view_remove s t (enumId i) Ht), Hv. apply delete_insert_eq.
Qed.

(** ** The request handlers as functions on the view *)
Definition refuse c d (m : option cstring) : option (@response Doc) :=
  match wsman_generate_fault c d m with Done f => RFault <$> f | _ => None end.
Definition run (ep : option (@endpoint Doc Rel)) i : Z * context * WsmanStatus :=
  match ep with Some f => f i | None => (0, i, wsman_status_init) end.
(** End points do not touch the id and the lock of the info they work on. *)
Definition endpoint_ok (ep : @endpoint Doc Rel) : Prop := forall i, enumId (ep i).1.2 = enumId i /\ in_work (ep i).1.2 = in_work i.
Definition total_of r (i : context) : option Z := if r_total r then Some (totalItems i) else None.
Definition advance (i : context) : context := with_index i (u32 (index i + 1)).

Definition release_view e (ep : option (@endpoint Doc Rel)) r m : Z * option response * gmap cstring context :=
  match admission r m with
  | inr st => (0, refuse (st_code st) (st_detail st) None, m)
  | inl i =>
      let '(ret, i', _) := run ep (locked i) in
      if ret =? 0 then (0, if x_envelope (e_xml e) then Some RRelease else None, delete (enumId i) m)
      else (ret, refuse WSMAN_INTERNAL_ERROR OWSMAN_DETAIL_ENDPOINT_ERROR None,
            <[enumId i := unlocked (e_now e) i']> m)
  end.
Definition pull_view e ep r m : Z * option response * gmap cstring context :=
  match admission r m with
  | inr st => (0, refuse (st_code st) (st_detail st) None, m)
  | inl i =>
      let '(ret, i', st) := ep (locked i) in
      if negb (ret =? 0) then
        (ret, refuse (st_code st) (st_detail st) None, <[enumId i := unlocked (e_now e) i']> m) else
      let later := <[enumId i := unlocked (e_now e) (advance i')]> m in
      if negb (x_envelope (e_xml e)) then (0, None, later)
      else if negb (x_body (e_xml e)) || negb (x_resp (e_xml e)) then (0, Some (RPartial (total_of r i')), later)
      else match pullResultPtr i' with
           | Some d => (0, Some (RPull (Some d) (total_of r i') None false), later)
           | None => (0, Some (RPull None (total_of r i') None true), delete (enumId i) m)
           end
  end.
(** The last item of a context is the one whose number is the total. *)
Definition pull_direct_view e ep (items : bool) r m : Z * option response * gmap cstring context :=
  match admission r m with
  | inr st => (0, refuse (st_code st) (st_detail st) None, m)
  | inl i =>
      let '(ret, i', st) := ep (locked i) in
      if negb (ret =? 0) then
        (ret, refuse (st_code st) (st_detail st) None, <[enumId i := unlocked (e_now e) i']> m) else
      let later := <[enumId i := unlocked (e_now e) (advance i')]> m in
      match pullResultPtr i' with
      | None => (0, None, later)
      | Some d =>
          if negb items then (0, refuse WSMAN_INTERNAL_ERROR WSMAN_DETAIL_INVALID None, later)
          else if (totalItems i' =? 0) || (u32 (index i' + 1) =? totalItems i') then
            (0, Some (RPull (Some d) (total_of r i') None true), delete (enumId i) m)
          else (0, Some (RPull (Some d) (total_of r i') (Some (enumId i)) false), later)
      end
  end.

Lemma fault_eq c d (m : option cstring) :
  exists o, refuse c d m = RFault <$> o /\ forall s, mlift (wsman_generate_fault c d m) s = Done (o, s).
Proof.
  destruct (generate_fault_known c d m) as (o & E & _). exists o. unfold refuse, mlift. now rewrite E.
Qed.
Lemma call_endpoint_eq s p i (ep : option (@endpoint Doc Rel)) : infos s !! p = Some i ->
  (call_endpoint ep (Some p) wsman_status_init s = Done (((run ep i).1.1, (run ep i).2), s) /\ (run ep i).1.2 = i) \/
  forall s', put_info p (run ep i).1.2 s = Done (tt, s') ->
    call_endpoint ep (Some p) wsman_status_init s = Done (((run ep i).1.1, (run ep i).2), s').
Proof.
  intros Hi. destruct ep as [f|]; [|now left]. right. intros s' G. simpl in *. step (get_info_eq s p i Hi).
  destruct (f i) as [[ret i'] st']. now step G.
Qed.
Lemma run_ok (ep : option (@endpoint Doc Rel)) i : (forall f, ep = Some f -> endpoint_ok f) ->
  enumId (run ep i).1.2 = enumId i /\ in_work (run ep i).1.2 = in_work i.
Proof. intros H. destruct ep as [f|]; [apply (H f eq_refl)|done]. Qed.
Lemma working_endpoint held det m p i s (ep : option (@endpoint Doc Rel)) : working held det m p i s ->
  (forall f, ep = Some f -> endpoint_ok f) ->
  exists s', call_endpoint ep (Some p) wsman_status_init s = Done (((run ep i).1.1, (run ep i).2), s') /\
    working held det m p (run ep i).1.2 s' /\ enumId (run ep i).1.2 = enumId i.
Proof.
  intros W H. destruct (run_ok ep i H) as [He Hw].
  destruct (working_put _ _ _ _ _ (run ep i).1.2 _ W He Hw) as (s' & Ep & W').
  destruct (call_endpoint_eq s p i ep (w_info _ _ _ _ _ _ W)) as [[E Ei]|E].
  - exists s. split; [exact E|]. rewrite Ei. split; done.
  - exists s'. split; [now apply E|]. split; done.
Qed.

(** The ends of the handlers. *)
Lemma answer_unlocked {B} held det m p i s now (v : B) : working held det m p i s ->
  exists s', (unlock_enuminfo now p;; mret v) s = Done (v, s') /\ inv held det s' /\
    view s' = <[enumId i := unlocked now i]> m.
Proof.
  intros W. destruct (working_unlock _ _ _ _ _ _ now W) as (s' & G & I & V). step G. now exists s'.
Qed.
Lemma answer_fault held det m p i s now ret c d msg : working held det m p i s ->
  exists s', (f ← mlift (wsman_generate_fault c d msg);
      unlock_enuminfo now p;; mret (ret, RFault <$> f)) s = Done ((ret : Z, refuse c d msg), s') /\
    inv held det s' /\ view s' = <[enumId i := unlocked now i]> m.
Proof.
  intros W. destruct (fault_eq c d msg) as (o & -> & Ef). step (Ef s). now apply answer_unlocked.
Qed.
Lemma answer_finished {B} held det m p i s (v : B) : working held det m p i s ->
  exists s', (remove_locked_enuminfo p;; destroy_enuminfo p;; mret v) s = Done (v, s') /\ inv held det s' /\
    view s' = delete (enumId i) m.
Proof.
  intros W. destruct (working_finish _ _ _ _ _ _ W) as (s1 & s' & G1 & G2 & I & V).
  step G1. step G2. now exists s'.
Qed.
Ltac answer_refused I Hc Ha A := step (lock_refused _ _ _ _ _ I Hc Ha A);
  match goal with |- context [refuse ?c ?d ?m] =>
    let o := fresh in let E := fresh in destruct (fault_eq c d m) as (o & -> & E);
    step (E _); eexists _, _; split; [reflexivity|]; split; [exact I|reflexivity] end.
Ltac answer_with H E := let s := fresh in let G := fresh in let I := fresh in let V := fresh in
  destruct H as (s & G & I & V); eexists _, s; split; [exact G|]; split; [exact I|];
  rewrite V, E; reflexivity.
Lemma endpoint_some ep : endpoint_ok ep -> forall f, Some ep = Some f -> endpoint_ok f.
Proof. now intros H f [= <-]. Qed.

(** Release: in a state that other threads work in, the handler answers and changes
    the contexts as [release_view] says: a refused request changes nothing, a successful
    one removes the context and frees it, and an end point that fails leaves the context
    there, unlocked. *)
Theorem release_refines held det s e (ep : option endpoint) r : inv held det s -> context_ok r -> auth_safe r s ->
  (forall f, ep = Some f -> endpoint_ok f) ->
  exists v s', wsenum_release_stub e ep r s = Done (v, s') /\ inv held det s' /\
    (v, view s') = release_view e ep r (view s).
Proof.
  intros I Hc Ha He. unfold wsenum_release_stub, release_view.
  destruct (admission r (view s)) as [i|st] eqn:A; [|answer_refused I Hc Ha A].
  destruct (lock_granted held det s r i I Hc Ha A) as (p & s1 & W & G1). step G1.
  destruct (working_endpoint _ _ _ _ _ _ ep W He) as (s2 & G2 & W2 & E2). step G2.
  destruct (run ep (locked i)) as [[ret i'] st'] eqn:R. simpl in W2, E2 |- *.
  destruct (Z.eqb_spec ret 0) as [->|Hr]; cbv [negb].
  - answer_with (answer_finished _ _ _ _ _ _ (0, if x_envelope (e_xml e) then Some (@RRelease Doc) else None) W2) E2.
  - answer_with (answer_fault _ _ _ _ _ _ (e_now e) ret WSMAN_INTERNAL_ERROR OWSMAN_DETAIL_ENDPOINT_ERROR None W2) E2.
Qed.

(** Pull: the answer is a fault and nothing changes when the context is unknown, busy,
    or of another resource; otherwise the end point is asked for the next result, the item
    number goes up and the context is left unlocked, or freed when there is no more. *)
Theorem pull_refines held det s e ep r : inv held det s -> context_ok r -> auth_safe r s -> endpoint_ok ep ->
  exists v s', wsenum_pull_stub e ep r s = Done (v, s') /\ inv held det s' /\
    (v, view s') = pull_view e ep r (view s).
Proof.
  intros I Hc Ha He. unfold wsenum_pull_stub, pull_view.
  destruct (admission r (view s)) as [i|st] eqn:A; [|answer_refused I Hc Ha A].
  destruct (lock_granted held det s r i I Hc Ha A) as (p & s1 & W & G1). step G1.
  destruct (working_endpoint _ _ _ _ _ _ (Some ep) W (endpoint_some _ He)) as (s2 & G2 & W2 & E2).
  step G2. simpl in W2, E2 |- *. destruct (ep (locked i)) as [[ret i'] st] eqn:R. simpl in W2, E2 |- *.
  destruct (Z.eqb_spec ret 0) as [->|Hr]; cbv [negb];
    [|answer_with (answer_fault _ _ _ _ _ _ (e_now e) ret (st_code st) (st_detail st) None W2) E2].
  step (working_get _ _ _ _ _ _ W2).
  destruct (working_put _ _ _ _ _ (advance i') _ W2 eq_refl eq_refl) as (s3 & G3 & W3). step G3.
  assert (E3 : enumId (advance i') = enumId i) by exact E2.
  assert (Later : forall v : Z * option (@response Doc), exists s',
    (unlock_enuminfo (e_now e) p;; mret v) s3 = Done (v, s') /\ inv held det s' /\
    view s' = <[enumId (advance i') := unlocked (e_now e) (advance i')]> (view s))
    by (intros; now apply answer_unlocked).
  destruct (x_envelope (e_xml e)); cbv [negb]; [|answer_with (Later (0, None)) E3].
  destruct (_ || _); [answer_with (Later (0, Some (RPartial (total_of r i')))) E3|].
  destruct (pullResultPtr i') as [d|].
  - answer_with (Later (0, Some (RPull (Some d) (total_of r i') None false))) E3.
  - answer_with (answer_finished _ _ _ _ _ _ (0, Some (@RPull Doc None (total_of r i') None true)) W3) E3.
Qed.

Lemma pull_direct_ok held det s e ep items r : inv held det s -> context_ok r -> auth_safe r s ->
  endpoint_ok ep ->
  exists v s', wsenum_pull_direct_stub e ep None items r s = Done (v, s') /\ inv held det s' /\
    (v, view s') = pull_direct_view e ep items r (view s).
Proof.
  intros I Hc Ha He. unfold wsenum_pull_direct_stub, pull_direct_view.
  destruct (admission r (view s)) as [i|st] eqn:A; [|answer_refused I Hc Ha A].
  destruct (lock_granted held det s r i I Hc Ha A) as (p & s1 & W & G1). step G1.
  destruct (working_endpoint _ _ _ _ _ _ (Some ep) W (endpoint_some _ He)) as (s2 & G2 & W2 & E2).
  step G2. simpl in W2, E2 |- *. destruct (ep (locked i)) as [[ret i'] st] eqn:R. simpl in W2, E2 |- *.
  destruct (Z.eqb_spec ret 0) as [->|Hr]; cbv [negb];
    [|answer_with (answer_fault _ _ _ _ _ _ (e_now e) ret (st_code st) (st_detail st) None W2) E2].
  step (working_get _ _ _ _ _ _ W2).
  destruct (working_put _ _ _ _ _ (advance i') _ W2 eq_refl eq_refl) as (s3 & G3 & W3). step G3.
  assert (E3 : enumId (advance i') = enumId i) by exact E2.
  assert (Later : forall v : Z * option (@response Doc), exists s',
    (unlock_enuminfo (e_now e) p;; mret v) s3 = Done (v, s') /\ inv held det s' /\
    view s' = <[enumId (advance i') := unlocked (e_now e) (advance i')]> (view s))
    by (intros; now apply answer_unlocked).
  simpl pullResultPtr. destruct (pullResultPtr i') as [d|]; [|answer_with (Later (0, None)) E3].
  destruct items; cbv [negb];
    [|answer_with (answer_fault _ _ _ _ _ _ (e_now e) 0 WSMAN_INTERNAL_ERROR WSMAN_DETAIL_INVALID None W3) E3].
  simpl totalItems. simpl index. destruct (_ || _).
  - answer_with (answer_finished _ _ _ _ _ _ (0, Some (RPull (Some d) (total_of r i') None true)) W3) E3.
  - simpl enumId. rewrite E2. answer_with (Later (0, Some (RPull (Some d) (total_of r i') (Some (enumId i)) false))) E3.
Qed.

(** C15. Pull of a provider that builds the response itself: as Pull, and the context is
    freed exactly with the item whose number is the announced total, or when no total was
    announced; the client is sent the id of the context as long as it is kept. *)
Theorem pull_direct_refines held det s e ep items r : inv held det s -> context_ok r -> auth_safe r s ->
  endpoint_ok ep ->
  exists v s', wsenum_pull_direct_stub e ep None items r s = Done (v, s') /\ inv held det s' /\
    (v, view s') = pull_direct_view e ep items r (view s).
Proof. intros I Hc Ha He. exact (pull_direct_ok held det s e ep items r I Hc Ha He). Qed.

(** ** A client that pulls until the end *)
(** An end point with [n] results, of which it gives the one the info asks for. *)
Definition provider (n : nat) (item : nat -> Doc) : @endpoint Doc Rel := fun i =>
  (0, Info (flags i) (enumId i) (timeStamp i) (expires i) (Z.of_nat n) (maxsize i) (index i)
        (Some (item (Z.to_nat (index i)))) (username i) (password i) (releaseproc i) (epr_to i)
        (epr_uri i) (encoding i), wsman_status_init).
Fixpoint pulls (k : nat) e ep r : CM (@soap Doc Rel T) (list (Z * option (@response Doc))) :=
  match k with
  | O => mret []
  | S k => v ← wsenum_pull_direct_stub e ep None true r; vs ← pulls k e ep r; mret (v :: vs)
  end.
Definition nth_answer id (n : nat) (item : nat -> Doc) (total : bool) (k : nat) : Z * option response :=
  (0, Some (RPull (Some (item k)) (if total then Some (Z.of_nat n) else None)
       (if (S k =? n)%nat then None else Some id) (S k =? n)%nat)).

Lemma admission_ok r m id i : r_context r = Some id -> m !! id = Some i -> in_work i = false ->
  wsman_verify_enum_info r i wsman_status_init = Done (true, wsman_status_init) -> admission r m = inl i.
Proof. intros Hr Hm Hw V. unfold admission. rewrite Hr. simpl default. now rewrite Hm, V, Hw. Qed.

(** One pull of the result number [k]. *)
Lemma pull_one held det e r n item id k s i : no_nul id -> r_context r = Some id -> Z.of_nat n < 2 ^ 32 ->
  inv held det s -> view s !! id = Some i -> (k < n)%nat -> index i = Z.of_nat k -> in_work i = false ->
  wsman_verify_enum_info r i wsman_status_init = Done (true, wsman_status_init) -> auth_safe r s ->
  exists s' i', wsenum_pull_direct_stub e (provider n item) None true r s =
      Done (nth_answer id n item (r_total r) k, s') /\ inv held det s' /\
    view s' = (if (S k =? n)%nat then delete id (view s) else <[id := i']> (view s)) /\
    index i' = Z.of_nat (S k) /\ in_work i' = false /\
    wsman_verify_enum_info r i' wsman_status_init = Done (true, wsman_status_init) /\
    username i' = username i /\ password i' = password i.
Proof.
  intros Hid Hr Hn I Hv Hk Hx Hw V Ha.
  assert (Ei : enumId i = id).
  { rewrite view_lookup in Hv. apply bind_Some in Hv as (p & Ht & Hi). symmetry. exact (inv_inj _ _ _ _ _ _ I Hi Ht). }
  destruct (pull_direct_ok held det s e (provider n item) true r I) as (v & s' & G & I' & E);
    [intros ? ?; congruence|exact Ha|now intros j|].
  unfold pull_direct_view in E. rewrite (admission_ok r _ id i Hr Hv Hw V) in E.
  set (i' := unlocked (e_now e) (advance (Info (flags (locked i)) id (timeStamp i) (expires i) (Z.of_nat n)
    (maxsize i) (Z.of_nat k) (Some (item k)) (username i) (password i) (releaseproc i) (epr_to i) (epr_uri i)
    (encoding i)))).
  assert (U : u32 (index i + 1) = Z.of_nat (S k)) by (rewrite Hx; unfold u32; rewrite Z.mod_small; lia).
  assert (C : (Z.of_nat n =? 0) || (Z.of_nat (S k) =? Z.of_nat n) = (S k =? n)%nat).
  { destruct (Nat.eqb_spec (S k) n); destruct (Z.eqb_spec (Z.of_nat n) 0), (Z.eqb_spec (Z.of_nat (S k)) (Z.of_nat n));
      simpl; lia. }
  exists s', i'. unfold provider in E.
  cbn [negb Z.eqb pullResultPtr totalItems index locked with_flags enumId] in E.
  rewrite U, C, Hx, Nat2Z.id, Ei in E.
  assert (X : index i' = Z.of_nat (S k)) by (rewrite <- U, Hx; reflexivity).
  assert (W : in_work i' = false) by apply in_work_unlocked.
  unfold nth_answer. destruct (S k =? n)%nat; injection E as -> E; split_and!; try done; exact V.
Qed.

Lemma pulls_ok held det e r n item id : no_nul id -> r_context r = Some id -> Z.of_nat n < 2 ^ 32 ->
  forall k j s i, inv held det s -> view s !! id = Some i -> (j + S k = n)%nat -> index i = Z.of_nat j ->
  in_work i = false -> wsman_verify_enum_info r i wsman_status_init = Done (true, wsman_status_init) ->
  auth_safe r s ->
  exists s', pulls (S k) e (provider n item) r s = Done (map (nth_answer id n item (r_total r)) (seq j (S k)), s') /\
    inv held det s' /\ view s' = delete id (view s).
Proof.
  intros Hid Hr Hn. induction k as [|k IH]; intros j s i I Hv Hk Hx Hw V Ha;
  (destruct (pull_one held det e r n item id j s i Hid Hr Hn I Hv ltac:(lia) Hx Hw V Ha)
    as (s1 & i1 & G & I1 & V1 & X1 & W1 & F1 & U1 & P1)).
  - rewrite (proj2 (Nat.eqb_eq (S j) n)) in V1 by lia. exists s1. split; [|done]. cbn [pulls]. now step G.
  - rewrite (proj2 (Nat.eqb_neq (S j) n)) in V1 by lia.
    destruct (IH (S j) s1 i1) as (s' & G' & I' & V'); try done; try lia.
    + rewrite V1. apply lookup_insert_eq.
    + intros id' x Hr' Hx'. rewrite V1, Hr in *. injection Hr' as <-. rewrite lookup_insert_eq in Hx'.
      injection Hx' as <-. rewrite U1, P1. now apply (Ha id i Hr Hv).
    + exists s'. split; [|split; [exact I'|]].
      * change (pulls (S (S k)) e (provider n item) r) with
          (v ← wsenum_pull_direct_stub e (provider n item) None true r;
           vs ← pulls (S k) e (provider n item) r; mret (v :: vs)).
        step G. now step G'.
      * rewrite V', V1. apply delete_insert_eq.
Qed.

(** C2. A client that pulls gets everything: from a context that was just made, a provider
    that announces [n] results is asked for each of them once and in order, every answer but
    the last names the context, the last one says that it is the last, and then the context
    is gone and nothing else changed. *)
Theorem pulls_drain held det e r n item id s i : inv held det s -> no_nul id -> r_context r = Some id ->
  (0 < n)%nat -> Z.of_nat n < 2 ^ 32 -> view s !! id = Some i -> index i = 0 -> in_work i = false ->
  wsman_verify_enum_info r i wsman_status_init = Done (true, wsman_status_init) -> auth_safe r s ->
  exists s', pulls n e (provider n item) r s = Done (map (nth_answer id n item (r_total r)) (seq 0 n), s') /\
    inv held det s' /\ view s' = delete id (view s).
Proof.
  intros I Hid Hr Hpos Hn Hv Hx Hw V Ha. destruct n as [|k]; [lia|].
  exact (pulls_ok held det e r (S k) item id Hid Hr Hn k 0 s i I Hv eq_refl Hx Hw V Ha).
Qed.

(** ** Enumerate *)
Definition quota_exceeded e (n : nat) : bool :=
  match e_quota e with
  | Some (max_threads, per_thread) =>
      negb (max_threads =? 0) && (u64 (s32 (max_threads * per_thread)) <=? Z.of_nat n)
  | None => false
  end.
(** The context of a request, or the fault that it is refused with. *)
Definition new_context e r : context + WsmanFaultCodeType * WsmanFaultDetailType :=
  if negb (e_alloc e) then inr (WSMAN_INTERNAL_ERROR, WSMAN_DETAIL_OK) else
  match r_to r, r_uri r, default (inr 0) (r_expires r) with
  | Some to, Some uri, inr exp =>
      let user := r_username r in
      inl (Info 0 (e_uuid e) 0 exp 0 (if r_maxsize r =? 0 then r_max_chars r else r_maxsize r) 0 None
        user (_ ← user; r_password r) (e_rel e) to uri (r_charset r))
  | Some _, Some _, inl c => inr (c, WSMAN_DETAIL_EXPIRATION_TIME)
  | _, _, _ => inr (WSMAN_INTERNAL_ERROR, WSMAN_DETAIL_OK)
  end.
Definition enumerate_view e (ep : option (@endpoint Doc Rel)) r m : Z * option response * gmap cstring context :=
  if quota_exceeded e (size m) then
    (1, refuse WSMAN_QUOTA_LIMIT OWSMAN_NO_DETAILS
       (Some (lit "The service is busy servicing other requests. Try later.")), m)
  else if negb (e_epcntx e) then (0, None, m) else
  match new_context e r with
  | inr (c, d) => (0, refuse c d None, m)
  | inl i =>
      let '(ret, i, st) := run ep i in
      if negb (ret =? 0) then (ret, refuse (st_code st) (st_detail st) (st_msg st), m) else
      let result := bool_decide (is_Some (pullResultPtr i)) in
      let i := if result then advance i else i in
      if negb result && negb (x_envelope (e_xml e)) then (0, None, m)
      else if negb (x_body (e_xml e)) || negb (x_resp (e_xml e)) then (0, Some (RPartial (total_of r i)), m)
      else if (Z.land (flags i) WSMAN_ENUMINFO_OPT =? WSMAN_ENUMINFO_OPT) &&
              ((totalItems i =? 0) || (index i =? totalItems i)) then
        (0, Some (REnumerate (pullResultPtr i) (total_of r i) None true), m)
      else (0, Some (REnumerate (pullResultPtr i) (total_of r i) (Some (enumId i)) false),
            if e_entry e then <[enumId i := with_time i (e_now e)]> m else m)
  end.

(** A thread owns the info at [p], which holds [i]. *)
Record owning held det m p i s : Prop := Owning {
  o_inv : inv held (p :: det) s; o_info : infos s !! p = Some i; o_view : view s = m }.

Lemma owning_put held det m p i i' s : owning held det m p i s ->
  enumId i' = enumId i -> in_work i' = in_work i ->
  exists s', put_info p i' s = Done (tt, s') /\ owning held det m p i' s'.
Proof.
  intros [I Hi Hv] He Hw. eexists. split; [apply (put_info_eq s p i _ Hi)|]. split.
  - apply (inv_put _ _ s p i i' I); try done. right. left.
  - apply lookup_insert_eq.
  - rewrite (view_det held det s p _ I); [done|]. intros. now apply lookup_insert_ne.
Qed.
Lemma owning_endpoint held det m p i s (ep : option (@endpoint Doc Rel)) : owning held det m p i s ->
  (forall f, ep = Some f -> endpoint_ok f) ->
  exists s', call_endpoint ep (Some p) wsman_status_init s = Done (((run ep i).1.1, (run ep i).2), s') /\
    owning held det m p (run ep i).1.2 s'.
Proof.
  intros W H. destruct (run_ok ep i H) as [He Hw].
  destruct (owning_put _ _ _ _ _ (run ep i).1.2 _ W He Hw) as (s' & Ep & W').
  destruct (call_endpoint_eq s p i ep (o_info _ _ _ _ _ _ W)) as [[E Ei]|E].
  - exists s. split; [exact E|]. now rewrite Ei.
  - exists s'. split; [now apply E|done].
Qed.
Lemma owning_answer {B} held det m p i s (v : B) : owning held det m p i s ->
  exists s', (destroy_enuminfo p;; mret v) s = Done (v, s') /\ inv held det s' /\ view s' = m.
Proof.
  intros [I Hi Hv]. destruct (destroy_ok held det s p I) as [E I'].
  eexists. split; [now step E|]. split; [done|].
  rewrite (view_det held det s p _ I); [done|]. intros. now apply lookup_delete_ne.
Qed.

Lemma view_size held det s : inv held det s -> size (view s) = size (tab s).
Proof.
  intros I. rewrite <- !size_dom. f_equal. apply set_eq. intros id. rewrite !elem_of_dom, view_lookup.
  split; intros [x Hx].
  - destruct (tab s !! id); [eauto|discriminate].
  - rewrite Hx. destruct (inv_range _ _ _ I id x Hx) as (_ & i & Hi & _). simpl. eauto.
Qed.
Lemma total_eq held det s : inv held det s ->
  get_total_enum_context s = Done (Z.of_nat (size (view s)), s).
Proof.
  intros I. unfold get_total_enum_context, mget. rewrite (view_size _ _ _ I).
  now rewrite (d_count_law _ (inv_ok _ _ _ I)).
Qed.

(** A message with a user name has a password. *)
Definition creds_ok r : Prop := is_Some (r_username r) -> is_Some (r_password r).
Lemma creds_eq r (s : @soap Doc Rel T) : creds_ok r -> (match r_username r with
    | Some u => w ← mlift (deref (r_password r)); mret (Some u, Some w)
    | None => mret (None, None) end : CM (@soap Doc Rel T) _) s = Done ((r_username r, _ ← r_username r; r_password r), s).
Proof.
  unfold creds_ok. destruct (r_username r) as [u|]; [|done]. intros H. destruct (H ltac:(eauto)) as [w ->]. done.
Qed.
Lemma create_granted held det s e r i : inv held det s -> creds_ok r -> new_context e r = inl i ->
  exists p s', create_enum_info (e_alloc e) (e_uuid e) (e_rel e) r s = Done ((None, Some p), s') /\
    owning held det (view s) p i s' /\ in_work i = false /\ enumId i = e_uuid e.
Proof.
  intros I Cr. unfold new_context, create_enum_info.
  destruct (e_alloc e); [|discriminate]. cbv [negb].
  destruct (r_to r) as [to|]; [|discriminate]. destruct (r_uri r) as [uri|]; [|discriminate].
  destruct (default (inr 0) (r_expires r)) as [c|exp]; [discriminate|]. intros [= <-].
  set (p := fresh (dom (infos s))).
  assert (Hp : infos s !! p = None) by (apply not_elem_of_dom, is_fresh).
  set (i := Info _ _ _ _ _ _ _ _ _ _ _ _ _ _).
  exists p, (set_infos s (<[p := i]> (infos s))). split; [step (creds_eq r s Cr); reflexivity|].
  split; [|done]. pose proof (inv_new held det s p i I Hp) as I'. split; [done|apply lookup_insert_eq|].
  symmetry. replace (view s) with (view (set_infos (set_infos s (<[p := i]> (infos s))) (infos s))).
  - apply (view_det held det _ p (infos s) I'). intros. symmetry. now apply lookup_insert_ne.
  - now destruct s.
Qed.
Lemma create_creds s e r i o q s' : new_context e r = inl i ->
  create_enum_info (e_alloc e) (e_uuid e) (e_rel e) r s = Done ((o, Some q), s') -> creds_ok r.
Proof.
  unfold new_context, create_enum_info, creds_ok. destruct (e_alloc e); [|discriminate]. cbv [negb].
  destruct (r_to r), (r_uri r), (default (inr 0) (r_expires r)); try discriminate. intros _.
  destruct (r_username r), (r_password r); eauto; try (intros _ []; discriminate). intros G. cbv [mlift mbind M_bind deref obind] in G. discriminate.
Qed.
(** A refusal is the fault that [wsman_generate_fault] makes; when it makes none the caller
    is given neither a fault nor an info. *)
Lemma create_refused s e r c d : new_context e r = inr (c, d) ->
  exists o, create_enum_info (e_alloc e) (e_uuid e) (e_rel e) r s = Done ((o, None), s) /\
    refuse c d None = RFault <$> o /\ bool_decide (is_Some o) = known c.
Proof.
  intros H. destruct (generate_fault_known c d None) as (o & E & Hk). exists o.
  split; [|split; [unfold refuse; now rewrite E|exact Hk]].
  assert (F : (f ← mlift (wsman_generate_fault c d None); mret (f, @None positive)) s = Done ((o, None), s))
    by (cbv [mlift mbind M_bind]; now rewrite E).
  unfold new_context in H. unfold create_enum_info. destruct (e_alloc e); cbv [negb] in *; [|injection H as <- <-; exact F].
  destruct (r_to r); [|injection H as <- <-; exact F]. destruct (r_uri r); [|injection H as <- <-; exact F].
  destruct (default (inr 0) (r_expires r)); [injection H as <- <-; exact F|discriminate].
Qed.

Lemma owning_insert held det m p i s entry_ok realloc_ok now : owning held det m p i s ->
  in_work i = false -> no_nul (enumId i) -> m !! enumId i = None -> Z.of_nat (size m) < 2 ^ 60 ->
  exists s', insert_enum_info entry_ok realloc_ok now p s = Done ((if entry_ok then 0 else 1), s') /\
    inv held ((if entry_ok then [] else [p]) ++ det) s' /\
    view s' = if (entry_ok : bool) then <[enumId i := with_time i now]> m else m.
Proof.
  intros W Hw Hn Hm Hs. unfold insert_enum_info. step (get_info_eq s p i (o_info _ _ _ _ _ _ W)).
  destruct (owning_put _ _ _ _ _ (with_time i now) _ W eq_refl eq_refl) as (s1 & G1 & [I1 Hi1 V1]). step G1.
  unfold create_context_entry. destruct entry_ok; [|exists s1; done].
  assert (Ht : tab s1 !! enumId i = None).
  { rewrite <- V1, view_lookup in Hm. destruct (tab s1 !! enumId i) as [q|] eqn:E; [|done].
    destruct (inv_range _ _ _ I1 _ _ E) as (_ & j & Hj & _). simpl in Hm. congruence. }
  destruct (d_insert_law realloc_ok (enuminfos s1) (enumId i) p (inv_ok _ _ _ I1) Hn Ht) as (t & Et & Ok & Mt).
  { now rewrite <- (view_size _ _ _ I1), V1. }
  exists (set_enuminfos s1 t). split; [|split].
  - cbv [mbind M_bind on_table]. now rewrite Et.
  - apply (inv_enter held det s1 p (with_time i now) t); done.
  - rewrite (view_enter s1 t p (with_time i now) Hi1 Mt), V1. done.
Qed.

Ltac answer_owned O := match goal with |- context [destroy_enuminfo _ ≫= (fun _ => mret ?v)] =>
  let s := fresh in let G := fresh in let I := fresh in let V := fresh in
  destruct (owning_answer _ _ _ _ _ _ v O) as (s & G & I & V);
  eexists _, s, []; split; [exact G|]; split; [exact I|]; split; [done|]; now rewrite V end.

(** A refusal that the table of faults does not have comes from the Expires. *)
Lemma new_context_unknown e r c d : new_context e r = inr (c, d) -> known c = false -> r_expires r = Some (inl c).
Proof.
  unfold new_context. destruct (e_alloc e); [|now intros [= <- _]]. cbv [negb].
  destruct (r_to r); [|now intros [= <- _]]. destruct (r_uri r); [|now intros [= <- _]].
  destruct (r_expires r) as [[x|x]|]; cbn [default]; [|discriminate..]. now intros [= -> _].
Qed.
(** C14. Enumerate refines its specification on the contexts by id: the handler counts the
    contexts against the quota, makes one, runs the end point, and either answers with the whole
    result and keeps nothing or enters the context under its id, in a state that other threads
    work in (inv); every refusal and every error of the end point frees what was made, and when
    the table entry cannot be allocated the info stays behind where no thread can reach it. The
    one exception is an Expires that is refused with a fault code that the table of faults does
    not have: then neither a fault nor an info is made and the handler uses a NULL info, which is
    undefined. (For an end point that keeps the id and the state of work of the info it is given,
    a user name that comes with a password, a new id that no context has, and fewer than 2^60
    contexts.) *)
Theorem enumerate_refines held det s e (ep : option (@endpoint Doc Rel)) r : inv held det s ->
  (forall f, ep = Some f -> endpoint_ok f) ->
  creds_ok r -> no_nul (e_uuid e) -> view s !! e_uuid e = None -> Z.of_nat (size (view s)) < 2 ^ 60 ->
  (exists v s' lost, wsenum_enumerate_stub e ep r s = Done (v, s') /\ inv held (lost ++ det) s' /\
    (e_entry e = true -> lost = []) /\ (v, view s') = enumerate_view e ep r (view s)) \/
  (quota_exceeded e (size (view s)) = false /\ e_epcntx e = true /\
   (exists c, r_expires r = Some (inl c) /\ known c = false) /\ wsenum_enumerate_stub e ep r s = Undef).
Proof.
  intros I He Cr Hn Hu Hs. destruct (quota_exceeded e (size (view s)) || negb (e_epcntx e)) eqn:Q.
  { left. unfold wsenum_enumerate_stub, enumerate_view. step (total_eq held det s I).
    fold (quota_exceeded e (size (view s))). destruct (quota_exceeded e (size (view s))).
    - destruct (fault_eq WSMAN_QUOTA_LIMIT OWSMAN_NO_DETAILS
        (Some (lit "The service is busy servicing other requests. Try later."))) as (o & -> & Ef).
      step (Ef s). eexists _, s, []. split_and!; done.
    - destruct (e_epcntx e); [done|]. eexists _, s, []. split_and!; done. }
  apply orb_false_iff in Q as [Q Ec%negb_false_iff].
  unfold wsenum_enumerate_stub, enumerate_view.
  step (total_eq held det s I). fold (quota_exceeded e (size (view s))).
  rewrite Q, Ec. cbv [negb].
  destruct (new_context e r) as [i|[c d]] eqn:N.
  2: { destruct (create_refused s e r c d N) as (o & G & -> & K). step G. destruct (known c) eqn:Kc.
       - apply bool_decide_eq_true in K as [f ->]. left. eexists _, s, []. split_and!; done.
       - apply bool_decide_eq_false in K. destruct o as [f|]; [exfalso; eauto|].
         right. split; [done|]. split; [done|]. split; [|done]. exists c. split; [|done]. now apply (new_context_unknown e r c d). }
  left. destruct (create_granted held det s e r i I Cr N) as (p & s1 & G1 & O1 & Wi & Ei). step G1.
  destruct (owning_endpoint _ _ _ _ _ _ ep O1 He) as (s2 & G2 & O2). step G2.
  destruct (run_ok ep i He) as [Ee Ew].
  destruct (run ep i) as [[ret i'] st] eqn:R. simpl in O2, Ee, Ew |- *.
  destruct (Z.eqb_spec ret 0) as [->|Hr]; cbv [negb].
  2: { destruct (fault_eq (st_code st) (st_detail st) (st_msg st)) as (o & -> & Ef). step (Ef s2).
       answer_owned O2. }
  step (get_info_eq s2 p i' (o_info _ _ _ _ _ _ O2)).
  set (result := bool_decide (is_Some (pullResultPtr i'))).
  set (i3 := if result then advance i' else i').
  assert (exists s3, (if result then put_info p (advance i') else mret tt) s2 = Done (tt, s3) /\
    owning held det (view s) p i3 s3) as (s3 & G3 & O3).
  { subst i3. destruct result; [now apply (owning_put _ _ _ _ i')|]. now exists s2. }
  step G3. step (get_info_eq s3 p i3 (o_info _ _ _ _ _ _ O3)).
  assert (E3 : enumId i3 = e_uuid e /\ in_work i3 = false /\ pullResultPtr i3 = pullResultPtr i')
    by (subst i3; destruct result; split_and!; simpl; congruence || (rewrite <- Wi; exact Ew)).
  destruct E3 as (E3 & W3 & P3). rewrite P3. fold result.
  destruct (_ && _); [answer_owned O3|]. destruct (_ || _); [answer_owned O3|].
  destruct (_ && _); [answer_owned O3|].
  destruct (owning_insert _ _ _ _ _ _ (e_entry e) (e_realloc e) (e_now e) O3 W3) as (s4 & G4 & I4 & V4);
    [congruence..|]. step G4.
  eexists _, s4, _. split; [reflexivity|]. split; [exact I4|]. split; [now intros ->|]. now rewrite V4.
Qed.

(** Enumerate with a wsen:Expires that cannot be read as a duration: the fault code has no
    row in the table of faults, so neither a fault nor an info is made, and the handler goes
    on with a NULL info, whatever the end point. *)
Theorem enumerate_bad_expires held det s e (ep : option (@endpoint Doc Rel)) r : inv held det s ->
  quota_exceeded e (size (view s)) = false -> e_epcntx e = true -> e_alloc e = true ->
  is_Some (r_to r) -> is_Some (r_uri r) -> r_expires r = Some (inl WSEN_INVALID_EXPIRATION_TIME) ->
  wsenum_enumerate_stub e ep r s = Undef.
Proof.
  intros I Q Ec Ea [to Ht] [uri Hu] Hx. unfold wsenum_enumerate_stub.
  step (total_eq held det s I). fold (quota_exceeded e (size (view s))). rewrite Q, Ec. cbv [negb].
  assert (N : new_context e r = inr (WSEN_INVALID_EXPIRATION_TIME, WSMAN_DETAIL_EXPIRATION_TIME)).
  { unfold new_context. now rewrite Ea, Ht, Hu, Hx. }
  destruct (create_refused s e r _ _ N) as (o & G & _ & K). step G.
  apply bool_decide_eq_false in K. destruct o as [f|]; [exfalso; eauto|]. done.
Qed.

(** ** The timer *)
Definition is_expired now s p : bool :=
  match infos s !! p with Some i => expired (enumIdleTimeout s) now i | None => false end.

Lemma swept_elem (m : gmap cstring positive) (f : positive -> bool) xs p :
  xs ≡ₚ (map_to_list (filter (fun kx => f kx.2 = true) m)).*2 ->
  p ∈ xs <-> exists id, m !! id = Some p /\ f p = true.
Proof.
  intros ->. rewrite list_elem_of_fmap. split.
  - intros ([id q] & -> & H). apply elem_of_map_to_list, map_lookup_filter_Some in H as [H F]. eauto.
  - intros (id & H & F). exists (id, p). split; [done|]. apply elem_of_map_to_list, map_lookup_filter_Some. done.
Qed.
Lemma swept_nodup (m : gmap cstring positive) (f : positive -> bool) xs :
  (forall id id' p, m !! id = Some p -> m !! id' = Some p -> id = id') ->
  xs ≡ₚ (map_to_list (filter (fun kx => f kx.2 = true) m)).*2 -> NoDup xs.
Proof.
  intros Inj ->. apply NoDup_fmap_2_strong; [|apply NoDup_map_to_list].
  intros [id p] [id' p'] H H' E. simpl in E. subst p'.
  apply elem_of_map_to_list, map_lookup_filter_Some in H as [H _].
  apply elem_of_map_to_list, map_lookup_filter_Some in H' as [H' _]. f_equal. eauto.
Qed.

Lemma inv_sweep held det s now t xs : inv held det s -> d_ok t ->
  d_map t = filter (fun kx => is_expired now s kx.2 = false) (tab s) ->
  xs ≡ₚ (map_to_list (filter (fun kx => is_expired now s kx.2 = true) (tab s))).*2 ->
  inv held (xs ++ det) (set_enuminfos s t).
Proof.
  intros I Ok Ht Hx. pose proof (fun p => swept_elem _ _ _ p Hx) as El.
  assert (Kept : forall id p, tab s !! id = Some p -> is_expired now s p = false -> d_map t !! id = Some p)
    by (intros id p H F; rewrite Ht; apply map_lookup_filter_Some; done).
  assert (Sub : forall id p, d_map t !! id = Some p -> tab s !! id = Some p /\ is_expired now s p = false)
    by (intros id p H; rewrite Ht in H; now apply map_lookup_filter_Some in H).
  assert (Held : forall p, p ∈ held -> is_expired now s p = false).
  { intros p Hp. destruct (inv_held _ _ _ I p Hp) as (i & Hi & W & _). unfold is_expired.
    rewrite Hi. unfold expired. now rewrite W. }
  assert (Inj : forall id id' p, tab s !! id = Some p -> tab s !! id' = Some p -> id = id').
  { intros id id' p H H'. destruct (inv_range _ _ _ I id p H) as (_ & i & Hi & <-).
    symmetry. exact (inv_inj _ _ _ id' p i I Hi H'). }
  split; simpl; try done.
  - intros id p H. apply (inv_range _ _ _ I). now apply Sub.
  - pose proof (inv_nodup _ _ _ I) as N. apply NoDup_app in N as (N1 & N2 & N3).
    apply NoDup_app. split; [done|]. split.
    + intros p Hp. rewrite elem_of_app, El. intros [(id & H & F)|H]; [|exact (N2 p Hp H)].
      rewrite (Held p Hp) in F. discriminate.
    + apply NoDup_app. split; [apply (swept_nodup _ _ _ Inj Hx)|]. split; [|done].
      intros p (id & H & F)%El Hp. destruct (inv_det _ _ _ I p Hp) as [_ X]. exact (X id H).
  - intros p Hp. destruct (inv_held _ _ _ I p Hp) as (i & Hi & W & T'). exists i. split_and!; auto.
  - intros p [(id & H & F)%El|Hp]%elem_of_app.
    + split; [destruct (inv_range _ _ _ I id p H) as (_ & i & Hi & _); eauto|].
      intros id' [H' F']%Sub. congruence.
    + destruct (inv_det _ _ _ I p Hp) as [Hs X]. split; [done|]. intros id [H _]%Sub. exact (X id H).
  - intros id p i [H _]%Sub. exact (inv_work _ _ _ I id p i H).
  - intros p i Hi. destruct (inv_all _ _ _ I p i Hi) as [H|H]; [|right; apply elem_of_app; now right].
    destruct (is_expired now s p) eqn:F; [right; apply elem_of_app; left; apply El; eauto|left; auto].
Qed.

Lemma view_sweep held det s now t : inv held det s ->
  d_map t = filter (fun kx => is_expired now s kx.2 = false) (tab s) ->
  view (set_enuminfos s t) = filter (fun kx => expired (enumIdleTimeout s) now kx.2 = false) (view s).
Proof.
  intros I Ht. apply map_eq. intros id. apply option_eq. intros i.
  rewrite map_lookup_filter_Some, !view_lookup. simpl. rewrite Ht, !bind_Some.
  setoid_rewrite map_lookup_filter_Some. unfold is_expired. simpl. split.
  - intros (p & [H F] & Hi). rewrite Hi in F. eauto.
  - intros [(p & H & Hi) F]. exists p. rewrite Hi. done.
Qed.

(** The calls of release end points that freeing a list of infos makes. *)
Definition calls s (l : list positive) : list (Rel * cstring) :=
  omap (fun p => i ← infos s !! p; rp ← releaseproc i; Some (rp, enumId i)) l.
Lemma calls_ext s s' l : (forall p, p ∈ l -> infos s !! p = infos s' !! p) -> calls s l = calls s' l.
Proof.
  intros H. unfold calls. apply list_omap_ext, Forall2_same_length_lookup. split; [done|].
  intros k p q Hp Hq. assert (q = p) as -> by congruence. rewrite (H p); [done|].
  now apply (list_elem_of_lookup_2 l k).
Qed.
Lemma set_log_inv held det s log :
  inv held det s -> inv held det (Soap (enuminfos s) (infos s) (enumIdleTimeout s) log).
Proof. intros I. split; apply I. Qed.
Lemma timeouts_loop_ok held det l : forall s, inv held (l ++ det) s ->
  exists s', timeouts_loop l s = Done (tt, s') /\ inv held det s' /\ view s' = view s /\
    released s' = released s ++ calls s l.
Proof.
  induction l as [|p l IH]; intros s I; simpl app in I.
  - exists s. simpl. now rewrite app_nil_r.
  - destruct (inv_det _ _ _ I p ltac:(left)) as [[i Hi] _]. cbn [timeouts_loop].
    step (get_info_eq s p i Hi).
    set (log := released s ++ match releaseproc i with Some rp => [(rp, enumId i)] | None => [] end).
    set (s1 := Soap (enuminfos s) (infos s) (enumIdleTimeout s) log).
    assert (G1 : (match releaseproc i with
       | Some rp => mmod (fun s => Soap (enuminfos s) (infos s) (enumIdleTimeout s) (released s ++ [(rp, enumId i)]))
       | None => mret tt end) s = Done (tt, s1)).
    { subst s1 log. destruct (releaseproc i); [done|]. rewrite app_nil_r. now destruct s. }
    step G1. destruct (destroy_ok held _ s1 p (set_log_inv _ _ s log I)) as [G2 I2]. step G2.
    destruct (IH _ I2) as (s' & G & I' & V & L). exists s'. split; [exact G|]. split; [exact I'|].
    assert (Np : p ∉ l).
    { pose proof (inv_nodup _ _ _ I) as N. rewrite <- Permutation_middle in N. apply NoDup_cons in N as [N _].
      rewrite !elem_of_app in N. tauto. }
    split.
    + rewrite V, (view_det held _ s1 p _ (set_log_inv _ _ s log I)); [done|].
      intros q Hq. now apply lookup_delete_ne.
    + rewrite L. simpl released. subst log. rewrite <- app_assoc. f_equal.
      rewrite (calls_ext _ s); [|intros q Hq; simpl; apply lookup_delete_ne; congruence].
      unfold calls. simpl. rewrite Hi. simpl. now destruct (releaseproc i).
Qed.

(** Whether a run of the timer takes a context out. *)
Definition due (list_ok : bool) now s (i : context) : bool :=
  negb (enumIdleTimeout s =? 0) && list_ok && expired (enumIdleTimeout s) now i.

(** The first half of the timer: the contexts that are due leave the table. *)
Lemma get_expired_ok held det s list_ok now : inv held det s ->
  exists l s', wsman_get_expired_enuminfos list_ok now s = Done (l, s') /\ inv held (l ++ det) s' /\
    infos s' = infos s /\ released s' = released s /\ NoDup l /\
    view s' = filter (fun kx => due list_ok now s kx.2 = false) (view s) /\
    forall p, p ∈ l <-> exists id i, tab s !! id = Some p /\ infos s !! p = Some i /\ due list_ok now s i = true.
Proof.
  intros I. unfold wsman_get_expired_enuminfos, due.
  assert (Stay : (forall id i, view s !! id = Some i ->
      negb (enumIdleTimeout s =? 0) && list_ok && expired (enumIdleTimeout s) now i = false) ->
    exists l s', (mret [] : CM soap (list positive)) s = Done (l, s') /\ inv held (l ++ det) s' /\
    infos s' = infos s /\ released s' = released s /\ NoDup l /\
    view s' = filter (fun kx => negb (enumIdleTimeout s =? 0) && list_ok &&
      expired (enumIdleTimeout s) now kx.2 = false) (view s) /\
    forall p, p ∈ l <-> exists id i, tab s !! id = Some p /\ infos s !! p = Some i /\
      negb (enumIdleTimeout s =? 0) && list_ok && expired (enumIdleTimeout s) now i = true).
  { intros No. exists [], s. split_and!; try done; [constructor| |].
    - symmetry. apply map_filter_id. intros id i H. exact (No id i H).
    - intros p. split; [intros H; now apply not_elem_of_nil in H|]. intros (id & i & H & Hi & F).
      rewrite (No id i) in F; [discriminate|]. rewrite view_lookup, H. exact Hi. }
  step (eq_refl : mget enumIdleTimeout s = Done (enumIdleTimeout s, s)).
  destruct (enumIdleTimeout s =? 0); [now apply Stay|]. simpl negb in *.
  step (total_eq held det s I). destruct (Z.eqb_spec (Z.of_nat (size (view s))) 0) as [Z0|_].
  { apply Stay. intros id i H. assert (size (view s) = 0%nat) as E by lia.
    apply map_size_empty_inv in E. rewrite E in H. now apply lookup_empty_Some in H. }
  destruct list_ok; [|now apply Stay]. simpl. clear Stay. unfold on_table.
  destruct (d_sweep_law (fun p => let* i := deref (infos s !! p) in Done (expired (enumIdleTimeout s) now i))
    (is_expired now s) (enuminfos s) (inv_ok _ _ _ I)) as (xs & t & E & Ok & Ht & Hx).
  { intros id p H. destruct (inv_range _ _ _ I id p H) as (_ & i & Hi & _). unfold is_expired. now rewrite Hi. }
  rewrite E. exists xs, (set_enuminfos s t). split; [done|]. split; [now apply (inv_sweep _ _ _ now)|].
  split_and!; try done.
  - apply (swept_nodup (tab s) (is_expired now s)); [|done]. intros id id' p H H'.
    destruct (inv_range _ _ _ I id p H) as (_ & i & Hi & <-). symmetry. exact (inv_inj _ _ _ id' p i I Hi H').
  - apply (view_sweep held det s now t I Ht).
  - intros p. rewrite (swept_elem _ _ _ p Hx). unfold is_expired. split.
    + intros (id & H & F). destruct (inv_range _ _ _ I id p H) as (_ & i & Hi & _). rewrite Hi in F. eauto.
    + intros (id & i & H & Hi & F). exists id. now rewrite Hi.
Qed.

Lemma calls_elem s l rp id : (rp, id) ∈ calls s l <-> exists p i, p ∈ l /\ infos s !! p = Some i /\
  releaseproc i = Some rp /\ enumId i = id.
Proof.
  unfold calls. rewrite list_elem_of_omap. split.
  - intros (p & Hp & E). apply bind_Some in E as (i & Hi & E). apply bind_Some in E as (rp' & Hr & [= <- <-]).
    exists p, i. done.
  - intros (p & i & Hp & Hi & Hr & <-). exists p. split; [done|]. rewrite Hi. simpl. now rewrite Hr.
Qed.
Lemma calls_nodup s l : NoDup l -> (forall p q i j, p ∈ l -> q ∈ l -> infos s !! p = Some i ->
  infos s !! q = Some j -> enumId i = enumId j -> p = q) -> NoDup (calls s l).
Proof.
  induction 1 as [|p l Hp N IH]; intros Inj; [constructor|].
  assert (IH' : NoDup (calls s l)) by (apply IH; intros ???? H1 H2; apply Inj; now right).
  unfold calls. simpl. destruct (infos s !! p) as [i|] eqn:Hi; simpl; [|exact IH'].
  destruct (releaseproc i) as [rp|]; simpl; [|exact IH']. constructor; [|exact IH'].
  intros (q & j & Hq & Hj & _ & E)%calls_elem. assert (p = q) as <-; [|done].
  apply (Inj p q i j); try done; [left|now right].
Qed.

(** The timer: exactly the contexts that are idle or past their expiry time, and that
    no request is working on, are taken out of the table and freed, and the release end
    point of each of them is called exactly once; the contexts in work stay as they are. *)
Theorem timeouts_refines held det s list_ok now : inv held det s ->
  exists s' log, wsman_timeouts_manager list_ok now s = Done (tt, s') /\ inv held det s' /\
    view s' = filter (fun kx => due list_ok now s kx.2 = false) (view s) /\
    released s' = released s ++ log /\ NoDup log /\
    forall rp id, (rp, id) ∈ log <->
      exists i, view s !! id = Some i /\ due list_ok now s i = true /\ releaseproc i = Some rp.
Proof.
  intros I. destruct (get_expired_ok held det s list_ok now I) as (l & s1 & G1 & I1 & Hi1 & R1 & N & V1 & El).
  destruct (timeouts_loop_ok held det l s1 I1) as (s' & G & I' & V & L).
  exists s', (calls s1 l). unfold wsman_timeouts_manager. step G1.
  split; [exact G|]. split; [exact I'|]. split; [now rewrite V|]. split; [now rewrite L, R1|]. split.
  - apply calls_nodup; [done|]. intros p q i j (id & i' & H & Hi & _)%El (id' & j' & H' & Hj & _)%El.
    rewrite Hi1. intros Hi2 Hj2 E. pose proof (inv_inj _ _ _ _ _ _ I Hi2 H).
    pose proof (inv_inj _ _ _ _ _ _ I Hj2 H'). congruence.
  - intros rp id. rewrite calls_elem, Hi1. setoid_rewrite view_lookup. split.
    + intros (p & i & (id' & i' & H & Hi' & F)%El & Hi & Hr & <-). exists i.
      pose proof (inv_inj _ _ _ _ _ _ I Hi H) as <-. rewrite H. simpl. split_and!; congruence.
    + intros (i & Hv & F & Hr). apply bind_Some in Hv as (p & H & Hi).
      exists p, i. pose proof (inv_inj _ _ _ _ _ _ I Hi H) as <-. split_and!; try done. apply El. eauto.
Qed.

(** ** Threads in parallel

    Every function that takes the lock of the server is one step of a thread, and so is
    every access that a thread makes to an info it has locked or owns; the steps of the
    threads interleave in any order.  The requests that are locked for bring credentials
    only where the contexts have them. *)
Definition config : Type := list positive * list positive * @soap Doc Rel T.
Inductive thread_step : config -> config -> Prop :=
  | do_create held det s e r p s' :
      create_enum_info (e_alloc e) (e_uuid e) (e_rel e) r s = Done ((None, Some p), s') ->
      thread_step (held, det, s) (held, p :: det, s')
  | do_insert held det s p i entry_ok realloc_ok now n s' :
      infos s !! p = Some i -> in_work i = false -> no_nul (enumId i) -> view s !! enumId i = None ->
      Z.of_nat (size (view s)) < 2 ^ 60 ->
      insert_enum_info entry_ok realloc_ok now p s = Done (n, s') ->
      thread_step (held, p :: det, s) (held, if n =? 0 then det else p :: det, s')
  | do_lock held det s r p st s' : context_ok r -> auth_safe r s ->
      get_locked_enuminfo r wsman_status_init s = Done ((Some p, st), s') ->
      thread_step (held, det, s) (p :: held, det, s')
  | do_write held det s p i i' s' : p ∈ held \/ p ∈ det -> infos s !! p = Some i ->
      enumId i' = enumId i -> in_work i' = in_work i -> put_info p i' s = Done (tt, s') ->
      thread_step (held, det, s) (held, det, s')
  | do_unlock held det s now p s' : unlock_enuminfo now p s = Done (tt, s') ->
      thread_step (p :: held, det, s) (held, det, s')
  | do_remove held det s p s' : remove_locked_enuminfo p s = Done (tt, s') ->
      thread_step (p :: held, det, s) (held, p :: det, s')
  | do_destroy held det s p s' : destroy_enuminfo p s = Done (tt, s') ->
      thread_step (held, p :: det, s) (held, det, s')
  | do_expire held det s list_ok now l s' : wsman_get_expired_enuminfos list_ok now s = Done (l, s') ->
      thread_step (held, det, s) (held, l ++ det, s')
  | do_other held held' det det' s : held ≡ₚ held' -> det ≡ₚ det' ->
      thread_step (held, det, s) (held', det', s).
Definition started (c : config) : Prop := exists s, c = ([], [], s) /\
  d_ok (enuminfos s) /\ tab s = ∅ /\ infos s = ∅.
Definition config_inv (c : config) : Prop := inv c.1.1 c.1.2 c.2.

Lemma step_keeps_inv c c' : thread_step c c' -> config_inv c -> config_inv c'.
Proof.
  intros S. destruct S as [held det s e r p s' G|held det s p i eo ro now n s' Hi Hw Hn Hv Hs G
    |held det s r p st s' Hc Ha G|held det s p i i' s' Hp Hi He Hw G|held det s now p s' G
    |held det s p s' G|held det s p s' G|held det s lo now l s' G|held held' det det' s Ph Pd];
    unfold config_inv; simpl; intros I.
  - destruct (new_context e r) as [i|[c d]] eqn:N.
    + destruct (create_granted held det s e r i I (create_creds _ _ _ _ _ _ _ N G) N) as (q & s1 & G1 & [O _ _] & _).
      rewrite G in G1. injection G1 as <- <-. exact O.
    + destruct (create_refused s e r c d N) as (o & G1 & _). rewrite G in G1. discriminate.
  - assert (O : owning held det (view s) p i s) by (split; done).
    destruct (owning_insert _ _ _ _ _ _ eo ro now O Hw Hn Hv Hs) as (s1 & G1 & I1 & _).
    rewrite G in G1. destruct eo; injection G1 as -> ->; exact I1.
  - destruct (admission r (view s)) as [i|st'] eqn:A.
    + destruct (lock_granted held det s r i I Hc Ha A) as (q & s1 & [W _ _] & G1).
      rewrite G in G1. injection G1 as <- _ <-. exact W.
    + rewrite (lock_refused held det s r st' I Hc Ha A) in G. discriminate.
  - rewrite (put_info_eq s p i i' Hi) in G. injection G as <-. now apply (inv_put _ _ s p i i' I).
  - destruct (unlock_ok held det s p now I) as (i & Hi & G1 & I1). rewrite G in G1. now injection G1 as ->.
  - destruct (remove_ok held det s p I) as (t & i & Hi & G1 & Ht & I1). rewrite G in G1. now injection G1 as ->.
  - destruct (destroy_ok held det s p I) as [G1 I1]. rewrite G in G1. now injection G1 as ->.
  - destruct (get_expired_ok held det s lo now I) as (l1 & s1 & G1 & I1 & _). rewrite G in G1.
    now injection G1 as -> ->.
  - now rewrite <- Ph, <- Pd.
Qed.
Lemma started_inv c : started c -> config_inv c.
Proof.
  intros (s & -> & Ok & Ht & Hi). split; simpl; rewrite ?Ht, ?Hi; try done.
  - constructor.
  - intros p H. now apply not_elem_of_nil in H.
  - intros p H. now apply not_elem_of_nil in H.
Qed.

(** Where the pointers that the threads hold lead. *)
Lemma safe_lock held det s r : inv held det s -> context_ok r -> auth_safe r s ->
  exists o st s', get_locked_enuminfo r wsman_status_init s = Done ((o, st), s') /\
    forall p, o = Some p -> p ∉ held /\ p ∉ det.
Proof.
  intros I Hc Ha. destruct (admission r (view s)) as [i|st] eqn:A.
  - destruct (lock_granted held det s r i I Hc Ha A) as (p & s' & [W _ _] & G). do 3 eexists. split; [exact G|].
    intros q [= <-]. pose proof (inv_nodup _ _ _ W) as N. simpl in N. apply NoDup_cons in N as [N _].
    rewrite elem_of_app in N. tauto.
  - do 3 eexists. split; [apply (lock_refused held det s r st I Hc Ha A)|]. discriminate.
Qed.
Lemma safe_held held det s p : inv held det s -> p ∈ held ->
  p ∉ det /\ (exists i, infos s !! p = Some i /\ in_work i = true /\ view s !! enumId i = Some i) /\
  (forall now, exists s', unlock_enuminfo now p s = Done (tt, s')) /\
  exists s', remove_locked_enuminfo p s = Done (tt, s').
Proof.
  intros I Hp. split.
  { pose proof (inv_nodup _ _ _ I) as N. apply NoDup_app in N as (_ & N & _). exact (N p Hp). }
  destruct (inv_held _ _ _ I p Hp) as (i & Hi & W & Ht). split.
  { exists i. split_and!; try done. rewrite view_lookup, Ht. exact Hi. }
  apply elem_of_Permutation in Hp as [held' E]. rewrite E in I. split.
  - intros now. destruct (unlock_ok held' det s p now I) as (j & _ & G & _). eauto.
  - destruct (remove_ok held' det s p I) as (t & j & _ & G & _). eauto.
Qed.

(** C1. Threads in parallel: however their steps interleave, no info is locked by two
    threads or both locked and about to be freed; the lock of an info in the table is held
    by a thread that works on it, so it will be given back; a locked info is the one its
    id leads to; and every critical section that a thread enters with an info it holds or
    owns, or to look for one, ends without touching a freed info (a search, when not a request
    with credentials meets an info that was made without them, whose comparison is undefined). *)
Theorem threads_are_safe c0 held det s : started c0 -> rtc thread_step c0 (held, det, s) ->
  NoDup held /\
  (forall id i, view s !! id = Some i -> in_work i = true -> exists p, p ∈ held /\ infos s !! p = Some i) /\
  (forall p, p ∈ held ->
     p ∉ det /\ (exists i, infos s !! p = Some i /\ in_work i = true /\ view s !! enumId i = Some i) /\
     (forall now, exists s', unlock_enuminfo now p s = Done (tt, s')) /\
     exists s', remove_locked_enuminfo p s = Done (tt, s')) /\
  (forall p, p ∈ det -> exists s', destroy_enuminfo p s = Done (tt, s')) /\
  (forall r, context_ok r -> auth_safe r s ->
     exists o st s', get_locked_enuminfo r wsman_status_init s = Done ((o, st), s') /\
       forall p, o = Some p -> p ∉ held /\ p ∉ det).
Proof.
  intros St R. assert (I : inv held det s).
  { change (config_inv (held, det, s)). revert R. apply (rtc_ind_r config_inv); [now apply started_inv|].
    intros x y _ S Ix. now apply (step_keeps_inv x). }
  split_and!.
  - pose proof (inv_nodup _ _ _ I) as N. now apply NoDup_app in N as (N & _).
  - intros id i Hv W. rewrite view_lookup in Hv. apply bind_Some in Hv as (p & Ht & Hi). exists p.
    split; [|done]. exact (inv_work _ _ _ I id p i Ht Hi W).
  - intros p Hp. exact (safe_held held det s p I Hp).
  - intros p Hp. apply elem_of_Permutation in Hp as [det' E]. rewrite E in I.
    destruct (destroy_ok held det' s p I) as [G _]. eauto.
  - intros r Hc Ha. exact (safe_lock held det s r I Hc Ha).
Qed.
End Proofs.

(** ** A server with one context *)
Definition demo_table : @KazHash.hash_t positive :=
  match KazHash.hash_create KazHash.ok_malloc 0 (2 ^ 64 - 1) None None with
  | Done (Some h) => h
  | _ => KazHash.Hash [] 0 0 0 0 0 strcmp KazHash.hash_fun_default KazHash.ok_malloc KazHash.hnode_free 0 false
  end.
Definition demo_start : @soap nat nat (@KazHash.hash_t positive) := Soap demo_table ∅ 300 [].
Definition demo_env (uuid : string) : @env nat :=
  Env 1000 (lit uuid) true true true (Xml true true true) (Some 7%nat) true (Some (4, 5)).
Definition demo_req : request :=
  Request (Some (lit "http://host/wsman")) (Some (lit "urn:disk")) (Some (lit "uuid:1")) None None None None 0 64 true.
(** An end point that has two results. *)
Definition demo_ep : @endpoint nat nat := fun i =>
  (0, Info (flags i) (enumId i) (timeStamp i) (expires i) 2 (maxsize i) (index i) (Some (Z.to_nat (index i)))
    (username i) (password i) (releaseproc i) (epr_to i) (epr_uri i) (encoding i), wsman_status_init).
Definition after {A} (c : CM (@soap nat nat (@KazHash.hash_t positive)) A) s : @soap nat nat (@KazHash.hash_t positive) :=
  match c s with Done (_, s') => s' | _ => s end.
Definition answer {A} (c : CM (@soap nat nat (@KazHash.hash_t positive)) A) s : option A :=
  match c s with Done (x, _) => Some x | _ => None end.
Lemma after_eq {A} (c : CM (@soap nat nat (@KazHash.hash_t positive)) A) s x :
  answer c s = Some x -> c s = Done (x, after c s).
Proof. unfold answer, after. now destruct (c s) as [[y s']| | |]; [intros [= ->]|..]. Qed.
Definition demo_new := after (create_enum_info true (lit "uuid:1") (Some 7%nat) demo_req) demo_start.
Definition demo_srv := after (insert_enum_info true true 1000 1%positive) demo_new.

Lemma demo_started : started ([], [], demo_start).
Proof.
  destruct (@KazHash.hash_create_ok positive KazHash.ok_malloc 0 (2 ^ 64 - 1) 1 2 ltac:(lia) eq_refl eq_refl)
    as (h & E & W & M & _ & C & D).
  assert (T : demo_table = h) by (unfold demo_table; now rewrite E).
  exists demo_start. unfold demo_start. rewrite T. split; [done|]. split; [|split; [exact M|done]]. now exists 6.
Qed.
Lemma demo_steps : rtc thread_step ([], [], demo_start) ([], [], demo_srv).
Proof.
  eapply rtc_l.
  { apply (do_create [] [] demo_start (demo_env "uuid:1") demo_req 1%positive demo_new).
    apply after_eq. vm_compute. reflexivity. }
  eapply rtc_once. eapply (do_insert [] [] demo_new 1%positive _ true true 1000 0 demo_srv).
  - vm_compute. reflexivity.
  - vm_compute. reflexivity.
  - apply (bool_decide_eq_true_1 _). vm_compute. reflexivity.
  - vm_compute. reflexivity.
  - vm_compute. reflexivity.
  - apply after_eq. vm_compute. reflexivity.
Qed.
Lemma demo_inv : inv [] [] demo_srv.
Proof.
  change (config_inv ([], [], demo_srv)). generalize demo_steps. apply (rtc_ind_r config_inv).
  - apply started_inv, demo_started.
  - intros x y _ S Ix. now apply (step_keeps_inv x).
Qed.

(** Two pulls give the two results and free the context; a third one is refused. *)
Example demo_pulls :
  let pull := wsenum_pull_direct_stub (demo_env "") demo_ep None true demo_req in
  answer pull demo_srv = Some (0, Some (RPull (Some 0%nat) (Some 2) (Some (lit "uuid:1")) false)) /\
  answer pull (after pull demo_srv) = Some (0, Some (RPull (Some 1%nat) (Some 2) None true)) /\
  answer pull (after pull (after pull demo_srv)) =
    Some (0, refuse WSEN_INVALID_ENUMERATION_CONTEXT WSMAN_DETAIL_OK None).
Proof. vm_compute. done. Qed.

Lemma demo_context_ok : context_ok demo_req.
Proof. intros id [= <-]. apply (bool_decide_eq_true_1 _). vm_compute. reflexivity. Qed.
Lemma demo_auth_safe : auth_safe demo_req demo_srv.
Proof. intros id i _ _ [x Hx]. discriminate. Qed.
Lemma demo_ep_ok : endpoint_ok demo_ep.
Proof. now intros i. Qed.

Lemma release_refines_witness : exists v s', wsenum_release_stub (demo_env "") None demo_req demo_srv = Done (v, s') /\
  inv [] [] s' /\ (v, view s') = release_view (demo_env "") None demo_req (view demo_srv).
Proof.
  apply (release_refines [] [] demo_srv _ None demo_req demo_inv demo_context_ok demo_auth_safe). discriminate.
Defined.
Lemma pull_refines_witness : exists v s', wsenum_pull_stub (demo_env "") demo_ep demo_req demo_srv = Done (v, s') /\
  inv [] [] s' /\ (v, view s') = pull_view (demo_env "") demo_ep demo_req (view demo_srv).
Proof. exact (pull_refines [] [] demo_srv _ demo_ep demo_req demo_inv demo_context_ok demo_auth_safe demo_ep_ok). Defined.
Lemma pull_direct_refines_witness : exists v s',
  wsenum_pull_direct_stub (demo_env "") demo_ep None true demo_req demo_srv = Done (v, s') /\
  inv [] [] s' /\ (v, view s') = pull_direct_view (demo_env "") demo_ep true demo_req (view demo_srv).
Proof.
  exact (pull_direct_refines [] [] demo_srv _ demo_ep true demo_req demo_inv demo_context_ok demo_auth_safe demo_ep_ok).
Defined.
Definition demo_info : @WsEnumerateInfo nat nat :=
  Info 0 (lit "uuid:1") 1000 0 0 64 0 None None None (Some 7%nat) (lit "http://host/wsman") (lit "urn:disk") None.
Lemma pulls_drain_witness : exists s',
  pulls 2 (demo_env "") (provider 2 (fun k => k)) demo_req demo_srv =
    Done (map (nth_answer (lit "uuid:1") 2 (fun k => k) true) (seq 0 2), s') /\
  inv [] [] s' /\ view s' = delete (lit "uuid:1") (view demo_srv).
Proof.
  apply (pulls_drain [] [] (demo_env "") demo_req 2 (fun k => k) (lit "uuid:1") demo_srv demo_info demo_inv);
    try (vm_compute; reflexivity).
  - apply (bool_decide_eq_true_1 _). vm_compute. reflexivity.
  - lia.
  - exact demo_auth_safe.
Defined.
Lemma enumerate_refines_witness : exists v s' lost,
  wsenum_enumerate_stub (demo_env "uuid:2") (Some demo_ep) demo_req demo_srv = Done (v, s') /\
  inv [] (lost ++ []) s' /\ (true = true -> lost = []) /\
  (v, view s') = enumerate_view (demo_env "uuid:2") (Some demo_ep) demo_req (view demo_srv).
Proof.
  destruct (enumerate_refines [] [] demo_srv (demo_env "uuid:2") (Some demo_ep) demo_req demo_inv)
    as [H|(_ & _ & (c & E & _) & _)]; [..|exact H|discriminate E].
  - intros f [= <-]. exact demo_ep_ok.
  - vm_compute. eauto.
  - apply (bool_decide_eq_true_1 _). vm_compute. reflexivity.
  - vm_compute. reflexivity.
  - vm_compute. reflexivity.
Defined.
Definition demo_bad_req : request :=
  Request (Some (lit "http://host/wsman")) (Some (lit "urn:disk")) None (Some (inl WSEN_INVALID_EXPIRATION_TIME))
    None None None 0 64 true.
Lemma enumerate_bad_expires_witness :
  wsenum_enumerate_stub (demo_env "uuid:2") (Some demo_ep) demo_bad_req demo_srv = Undef.
Proof.
  apply (enumerate_bad_expires [] [] demo_srv (demo_env "uuid:2") (Some demo_ep) demo_bad_req demo_inv);
    try reflexivity; try (eexists; reflexivity).
Defined.
Lemma timeouts_refines_witness : exists s' log, wsman_timeouts_manager true 2000 demo_srv = Done (tt, s') /\
  inv [] [] s' /\ view s' = filter (fun kx => due true 2000 demo_srv kx.2 = false) (view demo_srv) /\
  released s' = released demo_srv ++ log /\ NoDup log /\
  forall rp id, (rp, id) ∈ log <->
    exists i, view demo_srv !! id = Some i /\ due true 2000 demo_srv i = true /\ releaseproc i = Some rp.
Proof. exact (timeouts_refines [] [] demo_srv true 2000 demo_inv). Defined.
Lemma threads_are_safe_witness :
  rtc thread_step ([], [], demo_start) ([], [], demo_srv) /\ NoDup (@nil positive).
Proof.
  split; [exact demo_steps|]. exact (proj1 (threads_are_safe _ [] [] demo_srv demo_started demo_steps)).
Defined.
End EnumCtx.
