(* ===== verification/HttpText.v ===== *)
(** * HttpText: how the HTTP server reads text (server/shttpd/string.c and shttpd.c)

    The C library's character classes, the string helpers, the decoding of URIs in
    place, the removal of dot segments, the end of a request head, and the parsing of
    header lines. *)
From S2P Require Import Prelude CString.

Module HttpText.

(** ** Character classes (the C locale) *)
Definition in_range (lo hi : Z) (c : ascii) : bool := (lo <=? code c) && (code c <=? hi).
Definition isdigit := in_range 48 57.
Definition isupper := in_range 65 90.
Definition isprint := in_range 32 126.
Definition isspace (c : ascii) : bool := in_range 9 13 c || (code c =? 32).
Definition isxdigit (c : ascii) : bool := isdigit c || in_range 65 70 c || in_range 97 102 c.
Definition tolower (c : ascii) : ascii := if isupper c then chr (code c + 32) else c.
Definition CR : ascii := chr 13.
Definition LF : ascii := chr 10.

(** ** string.c *)
(** What a pointer into a C string points at, and its successor. *)
Definition peek (s : cstring) : ascii := match s with [] => NUL | c :: _ => c end.

(** The characters copied; the terminator follows them. *)
(* src: server/shttpd/string.c 13-19 _shttpd_strlcpy *)
Fixpoint _shttpd_strlcpy (src : cstring) (n : Z) : cstring :=
  match src with
  | [] => []
  | c :: src => if 1 <? n then c :: _shttpd_strlcpy src (n - 1) else []
  end.

(* src: server/shttpd/string.c 21-33 _shttpd_strncasecmp *)
Fixpoint _shttpd_strncasecmp (s1 s2 : cstring) (len : Z) : Z :=
  match s1 with
  | [] => code (tolower NUL) - code (tolower (peek s2))
  | a :: r1 =>
      if (1 <? len) && negb (bool_decide (a = NUL)) && negb (bool_decide (peek s2 = NUL)) &&
         bool_decide (tolower a = tolower (peek s2))
      then _shttpd_strncasecmp r1 (tail s2) (len - 1)
      else code (tolower a) - code (tolower (peek s2))
  end.

(* src: server/shttpd/string.c 35-45 _shttpd_strndup *)
Definition _shttpd_strndup (malloc_ok : bool) (ptr : cstring) (len : Z) : option cstring :=
  if malloc_ok then Some (_shttpd_strlcpy ptr (len + 1)) else None.
(* src: server/shttpd/string.c 47-51 _shttpd_strdup *)
Definition _shttpd_strdup (malloc_ok : bool) (str : cstring) : option cstring :=
  _shttpd_strndup malloc_ok str (Z.of_nat (length str)).

(** [FOR_EACH_WORD_IN_LIST]: the words, each with the rest of the list that it starts.  The
    loop ends at the first empty word. *)
Definition delim (c : ascii) : bool := bool_decide (c = ","%char).
Fixpoint strcspn (s : cstring) : nat :=
  match s with [] => 0%nat | c :: s => if delim c then 0%nat else S (strcspn s) end.
Fixpoint skip_delims (s : cstring) : cstring :=
  match s with [] => [] | c :: r => if delim c then skip_delims r else s end.
(* src: server/shttpd/defs.h 284-299 FOR_EACH_WORD_IN_LIST *)
Fixpoint for_each_word (fuel : nat) (s : cstring) : list (cstring * nat) :=
  match fuel with
  | O => []
  | S fuel =>
      match strcspn s with
      | O => []
      | S n => (s, S n) :: for_each_word fuel (skip_delims (drop (S n) s))
      end
  end.
Definition words (s : option cstring) : list (cstring * nat) :=
  match s with None => [] | Some s => for_each_word (S (length s)) s end.

(* src: server/shttpd/string.c 80-95 _shttpd_match_extension *)
Definition _shttpd_match_extension (path : cstring) (ext_list : option cstring) : bool :=
  existsb (fun '(ext, len) =>
    (Z.of_nat len <? Z.of_nat (length path)) &&
    bool_decide (path !! (length path - len - 1)%nat = Some "."%char) &&
    (_shttpd_strncasecmp (drop (length path - len) path) ext (Z.of_nat len) =? 0)) (words ext_list).

(** ** URIs *)
Definition hextoi (x : ascii) : Z := if isdigit x then code x - 48 else code x - 87.
Definition hex_pair (a b : ascii) : ascii :=
  chr (Z.lor (Z.shiftl (hextoi (tolower a)) 4) (hextoi (tolower b))).

(** [mem]: the memory that both [src] and [dst] point into. *)
(* src: server/shttpd/shttpd.c 101-129 _shttpd_url_decode *)
Fixpoint url_decode_loop (fuel : nat) (mem : list ascii) (src src_len dst dst_len i j : Z)
    : outcome (Z * list ascii) :=
  match fuel with
  | O => Diverge
  | S fuel =>
      if (i <? src_len) && (j <? dst_len - 1) then
        let* c := rd mem (src + i) in
        let* hex :=
          if bool_decide (c = "%"%char) then
            let* a := rd mem (src + i + 1) in
            if isxdigit a then
              let* b := rd mem (src + i + 2) in
              Done (if isxdigit b then Some (hex_pair a b) else None)
            else Done None
          else Done None in
        match hex with
        | Some x =>
            let* mem := wr mem (dst + j) x in
            url_decode_loop fuel mem src src_len dst dst_len (i + 3) (j + 1)
        | None =>
            let* mem := wr mem (dst + j) c in
            url_decode_loop fuel mem src src_len dst dst_len (i + 1) (j + 1)
        end
      else let* mem := wr mem (dst + j) NUL in Done (j, mem)
  end.
(* src: server/shttpd/shttpd.c 101-129 _shttpd_url_decode *)
Definition _shttpd_url_decode (mem : list ascii) (src src_len dst dst_len : Z) : outcome (Z * list ascii) :=
  url_decode_loop (S (Z.to_nat src_len)) mem src src_len dst dst_len 0 0.

Definition is_dirsep (c : ascii) : bool := bool_decide (c = "/"%char) || bool_decide (c = "\"%char).
Definition dot_or_sep (c : ascii) : bool := bool_decide (c = "."%char) || is_dirsep c.
Fixpoint skip_while (p : ascii -> bool) (s : cstring) : cstring :=
  match s with [] => [] | c :: r => if p c then skip_while p r else s end.
(* src: server/shttpd/shttpd.c 334-348 remove_all_leading_and_double_dots *)
Fixpoint remove_dots_loop (fuel : nat) (s p : cstring) : outcome cstring :=
  match fuel with
  | O => Diverge
  | S fuel =>
      match s with
      | [] => Done p
      | c :: s =>
          remove_dots_loop fuel (if is_dirsep c then skip_while dot_or_sep s else s) (p ++ [c])
      end
  end.
(* src: server/shttpd/shttpd.c 334-348 remove_all_leading_and_double_dots *)
Definition remove_all_leading_and_double_dots (s : cstring) : outcome cstring :=
  let s := skip_while (fun c => bool_decide (c = "."%char)) s in
  remove_dots_loop (S (length s)) s [].

(** ** Requests *)
(* src: server/shttpd/shttpd.c 215-234 _shttpd_get_headers_len *)
Fixpoint headers_len_loop (fuel : nat) (buf : list ascii) (s e : Z) : outcome Z :=
  match fuel with
  | O => Diverge
  | S fuel =>
      if negb (s <? e) then Done 0 else
      let* c := rd buf s in
      if negb (isprint c) && negb (bool_decide (c = CR)) && negb (bool_decide (c = LF)) && (code c <? 128)
      then Done (-1)
      else
        let* lf1 := if bool_decide (c = LF) then let* d := rd buf (s + 1) in Done (bool_decide (d = LF)) else Done false in
        if (lf1 : bool) then Done (s + 2) else
        let* lf2 :=
          if bool_decide (c = LF) && (s + 1 <? e) then
            let* d := rd buf (s + 1) in
            if bool_decide (d = CR) then let* f := rd buf (s + 2) in Done (bool_decide (f = LF)) else Done false
          else Done false in
        if (lf2 : bool) then Done (s + 3) else headers_len_loop fuel buf (s + 1) e
  end.
(* src: server/shttpd/shttpd.c 215-234 _shttpd_get_headers_len *)
Definition _shttpd_get_headers_len (buf : list ascii) (buflen : Z) : outcome Z :=
  headers_len_loop (S (Z.to_nat buflen)) buf 0 (buflen - 1).

(** The kinds of values that header lines have, and the place each has in [struct headers]. *)
Inductive hdr_type := HDR_DATE | HDR_INT | HDR_STRING.
(* src: server/shttpd/defs.h 128-142 headers *)
Inductive hdr := H_cl | H_ct | H_connection | H_ims | H_user | H_auth | H_useragent | H_referer
  | H_cookie | H_location | H_range | H_status | H_transenc.
#[global] Instance hdr_eq_dec : EqDecision hdr.
Proof. solve_decision. Defined.
(** A substring is given by its place in the request. *)
(* src: server/shttpd/defs.h 72-79 variant *)
Inductive variant := v_vec (ptr len : Z) | v_big_int (z : Z) | v_time (z : Z).
Definition headers : Type := hdr -> variant.
Definition no_headers : headers := fun _ => v_vec 0 0.
Definition set_header (parsed : headers) (h : hdr) (v : variant) : headers :=
  fun h' => if decide (h' = h) then v else parsed h'.

Record http_header := HttpHeader { h_len : Z; h_type : hdr_type; h_offset : hdr; h_name : cstring }.
(* src: server/shttpd/shttpd.c 33-47 http_headers *)
Definition http_headers : list http_header :=
  [HttpHeader 16 HDR_INT H_cl (lit "Content-Length: "); HttpHeader 14 HDR_STRING H_ct (lit "Content-Type: ");
   HttpHeader 12 HDR_STRING H_useragent (lit "User-Agent: ");
   HttpHeader 19 HDR_DATE H_ims (lit "If-Modified-Since: ");
   HttpHeader 15 HDR_STRING H_auth (lit "Authorization: "); HttpHeader 9 HDR_STRING H_referer (lit "Referer: ");
   HttpHeader 8 HDR_STRING H_cookie (lit "Cookie: "); HttpHeader 10 HDR_STRING H_location (lit "Location: ");
   HttpHeader 8 HDR_INT H_status (lit "Status: "); HttpHeader 7 HDR_STRING H_range (lit "Range: ");
   HttpHeader 12 HDR_STRING H_connection (lit "Connection: ");
   HttpHeader 19 HDR_STRING H_transenc (lit "Transfer-Encoding: ")].

(** [strtoul] in base 10, the answer kept at 64 bits. *)
Fixpoint digits (s : cstring) (acc : Z) : Z :=
  match s with
  | c :: s => if isdigit c then digits s (acc * 10 + (code c - 48)) else acc
  | [] => acc
  end.
Definition strtoul (s : cstring) : Z :=
  let s := skip_while isspace s in
  let '(neg, s) := match s with
    | c :: r => if bool_decide (c = "-"%char) then (true, r)
                else if bool_decide (c = "+"%char) then (false, r) else (false, s)
    | [] => (false, s) end in
  let n := digits s 0 in
  if 2 ^ 64 <=? n then 2 ^ 64 - 1 else if neg then u64 (- n) else n.

Section ParseHeaders.
(** [date_to_epoch]: reads a date with [sscanf] and asks the time zone of the platform. *)
Variable date_to_epoch : cstring -> Z.

Definition header_value (buf : cstring) (h : http_header) (s p : Z) : outcome variant :=
  match h_type h with
  | HDR_STRING =>
      let len := p - s in
      let* c := rd buf (p - 1) in
      Done (v_vec s (if bool_decide (c = CR) && (0 <? len) then len - 1 else len))
  | HDR_INT => Done (v_big_int (strtoul (drop (Z.to_nat s) buf)))
  | HDR_DATE => Done (v_time (date_to_epoch (c_string (drop (Z.to_nat s) buf))))
  end.
Fixpoint line_end (fuel : nat) (buf : cstring) (p e : Z) : outcome Z :=
  match fuel with
  | O => Diverge
  | S fuel =>
      if p <? e then let* c := rd buf p in if bool_decide (c = LF) then Done p else line_end fuel buf (p + 1) e
      else Done p
  end.
(* src: server/shttpd/shttpd.c 350-395 _shttpd_parse_headers *)
Fixpoint parse_headers_loop (fuel : nat) (buf : cstring) (s e : Z) (parsed : headers) : outcome headers :=
  match fuel with
  | O => Diverge
  | S fuel =>
      if negb (s <? e) then Done parsed else
      let* p := line_end (S (Z.to_nat (e - s))) buf s e in
      let* parsed :=
        match find (fun h => (h_len h <? e - s) &&
                (_shttpd_strncasecmp (drop (Z.to_nat s) buf) (h_name h) (h_len h) =? 0)) http_headers with
        | Some h => let* v := header_value buf h (s + h_len h) p in Done (set_header parsed (h_offset h) v)
        | None => Done parsed
        end in
      parse_headers_loop fuel buf (p + 1) e parsed
  end.
(* src: server/shttpd/shttpd.c 350-395 _shttpd_parse_headers *)
Definition _shttpd_parse_headers (buf : cstring) (s len : Z) (parsed : headers) : outcome headers :=
  parse_headers_loop (S (Z.to_nat len)) buf s (s + len) parsed.
End ParseHeaders.

(** ** Dot segments *)
Fixpoint squeeze (after_sep : bool) (s : cstring) : cstring :=
  match s with
  | [] => []
  | c :: r => if after_sep && dot_or_sep c then squeeze true r else c :: squeeze (is_dirsep c) r
  end.
Lemma squeeze_skip s : squeeze true s = squeeze false (skip_while dot_or_sep s).
Proof. induction s as [|c s IH]; simpl; [done|]. now destruct (dot_or_sep c). Qed.
Lemma skip_while_length p s : (length (skip_while p s) <= length s)%nat.
Proof. induction s as [|c s IH]; simpl; [done|]. destruct (p c); simpl; lia. Qed.
Lemma remove_dots_loop_eq fuel : forall s p, (length s < fuel)%nat ->
  remove_dots_loop fuel s p = Done (p ++ squeeze false s).
Proof.
  induction fuel as [|fuel IH]; intros [|c s] p H; simpl in H; try lia; cbn [remove_dots_loop squeeze].
  - now rewrite app_nil_r.
  - rewrite IH.
    + rewrite <- app_assoc. simpl. destruct (is_dirsep c); [now rewrite squeeze_skip|done].
    + destruct (is_dirsep c); [pose proof (skip_while_length dot_or_sep s)|]; lia.
Qed.

(** A path in which no component is empty or starts with a dot, the root aside. *)
Fixpoint clean (after_sep : bool) (s : cstring) : bool :=
  match s with
  | [] => true
  | c :: r => negb (after_sep && dot_or_sep c) && clean (is_dirsep c) r
  end.
Definition no_dots (s : cstring) : Prop := peek s <> "."%char /\
  forall a x y b, s = a ++ x :: y :: b -> is_dirsep x = true -> dot_or_sep y = false.
Lemma clean_pair s after : clean after s = true ->
  forall a x y b, s = a ++ x :: y :: b -> is_dirsep x = true -> dot_or_sep y = false.
Proof.
  revert after. induction s as [|c s IH]; intros after H [|c' a] x y b E D; simpl in *; try discriminate;
    injection E as -> E; apply andb_true_iff in H as [_ H].
  - subst s. rewrite D in H. simpl in H. apply andb_true_iff in H as [H _]. now destruct (dot_or_sep y).
  - eapply IH; eauto.
Qed.
Lemma clean_squeeze s after : clean after (squeeze after s) = true.
Proof.
  revert after. induction s as [|c s IH]; intros after; simpl; [done|].
  destruct after; simpl; [|apply IH]. destruct (dot_or_sep c) eqn:E; simpl; rewrite ?E; simpl; apply IH.
Qed.
Lemma squeeze_clean s after : clean after s = true -> squeeze after s = s.
Proof.
  revert after. induction s as [|c s IH]; intros after H; simpl in *; [done|].
  apply andb_true_iff in H as [H1 H2]. apply negb_true_iff in H1. rewrite H1. f_equal. auto.
Qed.
Lemma pair_clean s : (forall a x y b, s = a ++ x :: y :: b -> is_dirsep x = true -> dot_or_sep y = false) ->
  clean false s = true.
Proof.
  induction s as [|c s IH]; intros H; simpl; [done|].
  assert (C : clean false s = true) by (apply IH; intros a x y b ->; apply (H (c :: a) x y b eq_refl)).
  destruct s as [|d s]; [done|]. simpl in *. destruct (is_dirsep c) eqn:E; simpl; [|exact C].
  now rewrite (H [] c d s eq_refl E).
Qed.
Lemma squeeze_sublist s after : squeeze after s `sublist_of` s.
Proof.
  revert after. induction s as [|c s IH]; intros after; simpl; [done|].
  destruct (after && dot_or_sep c); [apply sublist_cons, IH|apply sublist_skip, IH].
Qed.
Lemma skip_while_sublist p s : skip_while p s `sublist_of` s.
Proof. induction s as [|c s IH]; simpl; [done|]. destruct (p c); [now apply sublist_cons|done]. Qed.
Lemma skip_while_peek p s : p NUL = false -> p (peek (skip_while p s)) = false.
Proof. intros H. induction s as [|c s IH]; simpl; [done|]. destruct (p c) eqn:E; [done|exact E]. Qed.
Lemma skip_while_id p s : p (peek s) = false -> skip_while p s = s.
Proof. destruct s as [|c s]; simpl; [done|]. now intros ->. Qed.

(** The path of a request after the dots are removed: no component of it is [.] or [..] or
    starts with a dot, no component is empty, so it cannot lead out of the directory it is
    put behind; the result is made of characters of the URI in their order, and a URI
    without such components is left as it is. *)
Theorem remove_dots_safe (s : cstring) : exists t,
  remove_all_leading_and_double_dots s = Done t /\ no_dots t /\ t `sublist_of` s /\ (no_dots s -> t = s).
Proof.
  unfold remove_all_leading_and_double_dots. set (p := fun c => bool_decide (c = "."%char)).
  rewrite remove_dots_loop_eq by lia. simpl app. eexists. split; [reflexivity|].
  pose proof (clean_squeeze (skip_while p s) false) as C.
  split; [split; [|apply (clean_pair _ false C)]|split].
  - pose proof (skip_while_peek p s eq_refl) as H. destruct (skip_while p s) as [|c r]; [done|]. simpl in *.
    now apply bool_decide_eq_false in H.
  - etrans; [apply squeeze_sublist|apply skip_while_sublist].
  - intros [H1 H2]. rewrite skip_while_id by (unfold p; now apply bool_decide_eq_false).
    now apply squeeze_clean, pair_clean.
Qed.

(** ** Percent encoding *)
Fixpoint pct_decode (s : cstring) : cstring :=
  match s with
  | c :: (a :: b :: r) as t =>
      if bool_decide (c = "%"%char) && isxdigit a && isxdigit b then hex_pair a b :: pct_decode r
      else c :: match s with _ :: r => pct_decode r | [] => [] end
  | c :: r => c :: pct_decode r
  | [] => []
  end.
Lemma pct_decode_cons c r : pct_decode (c :: r) =
  if bool_decide (c = "%"%char) && isxdigit (peek r) && isxdigit (peek (tail r))
  then hex_pair (peek r) (peek (tail r)) :: pct_decode (tail (tail r)) else c :: pct_decode r.
Proof.
  destruct r as [|a [|b r]]; simpl; [now rewrite !andb_false_r|now rewrite !andb_false_r|].
  now destruct (bool_decide (c = "%"%char) && isxdigit a && isxdigit b).
Qed.
Lemma isxdigit_peek s : isxdigit (peek s) = true -> exists c r, s = c :: r /\ peek s = c.
Proof. destruct s as [|c r]; [discriminate|eauto]. Qed.

(** What the decoder relies on while it is at position [i] of the source and [j] of the
    destination: the text ahead is still there. *)
Definition text_at (mem : list ascii) (k : nat) (s : cstring) : Prop :=
  take (length s + 1) (drop k mem) = s ++ [NUL].
Lemma text_at_peek mem k s : text_at mem k s -> rd mem (Z.of_nat k) = Done (peek s).
Proof.
  unfold text_at. intros H. apply rd_nat. rewrite <- (Nat.add_0_r k), <- lookup_drop.
  rewrite <- (lookup_take_lt _ (length s + 1)) by lia. rewrite H. now destruct s.
Qed.
Lemma text_at_tail mem k c s : text_at mem k (c :: s) -> text_at mem (S k) s.
Proof.
  unfold text_at. intros H. destruct (drop k mem) as [|x r] eqn:E; [discriminate|]. simpl in H.
  injection H as -> H. rewrite <- H. replace (S k) with (k + 1)%nat by lia. rewrite <- drop_drop, E. done.
Qed.
Lemma text_at_insert mem k s n x : text_at mem k s -> (n < k)%nat \/ (k + length s < n)%nat ->
  text_at (<[n := x]> mem) k s.
Proof.
  unfold text_at. intros H [Hn|Hn].
  - now rewrite drop_insert_lt by lia.
  - rewrite drop_insert_ge by lia. rewrite take_insert_ge by lia. done.
Qed.

Lemma url_decode_loop_eq src dst dst_len n fuel : forall mem i j s, text_at mem (src + i) s ->
  (i + length s = n)%nat -> (length s < fuel)%nat -> (j < dst_len)%nat -> (dst + dst_len <= length mem)%nat ->
  (dst + j <= src + i)%nat \/ (src + n < dst)%nat ->
  let out := take (dst_len - 1 - j) (pct_decode s) in
  url_decode_loop fuel mem (Z.of_nat src) (Z.of_nat n) (Z.of_nat dst) (Z.of_nat dst_len) (Z.of_nat i) (Z.of_nat j) =
  Done (Z.of_nat (j + length out), blit mem (dst + j) (out ++ [NUL])).
Proof.
  induction fuel as [|fuel IH]; intros mem i j s T En Hf Hj Hm Hd; [lia|]. cbv zeta. cbn [url_decode_loop].
  assert (W : forall x, wr mem (Z.of_nat dst + Z.of_nat j) x = Done (<[(dst + j)%nat := x]> mem)).
  { intros x. rewrite wr_ok by lia. do 2 f_equal. lia. }
  assert (Stop : (let* mem := wr mem (Z.of_nat dst + Z.of_nat j) NUL in Done (Z.of_nat j, mem)) =
    Done (Z.of_nat (j + 0), blit mem (dst + j) [NUL])).
  { rewrite W. simpl. rewrite <- blit_cons, blit_nil by lia. do 2 f_equal. lia. }
  destruct s as [|c s]; cbn [length] in *.
  { destruct (Z.ltb_spec (Z.of_nat i) (Z.of_nat n)); [lia|]. simpl. rewrite take_nil. exact Stop. }
  destruct (Z.ltb_spec (Z.of_nat i) (Z.of_nat n)); [|lia].
  destruct (Z.ltb_spec (Z.of_nat j) (Z.of_nat dst_len - 1)).
  2: { replace (dst_len - 1 - j)%nat with 0%nat by lia. exact Stop. }
  simpl andb. cbv iota.
  pose proof (text_at_tail _ _ _ _ T) as T1.
  replace (Z.of_nat src + Z.of_nat i) with (Z.of_nat (src + i)) by lia. rewrite (text_at_peek _ _ _ T). simpl obind.
  replace (Z.of_nat (src + i) + 1) with (Z.of_nat (S (src + i))) by lia. rewrite (text_at_peek _ _ _ T1).
  replace (dst_len - 1 - j)%nat with (S (dst_len - 1 - S j)) by lia. rewrite pct_decode_cons.
  assert (Plain : (let* mem := wr mem (Z.of_nat dst + Z.of_nat j) c in
      url_decode_loop fuel mem (Z.of_nat src) (Z.of_nat n) (Z.of_nat dst) (Z.of_nat dst_len)
        (Z.of_nat i + 1) (Z.of_nat j + 1)) =
    let out := take (S (dst_len - 1 - S j)) (c :: pct_decode s) in
    Done (Z.of_nat (j + length out), blit mem (dst + j) (out ++ [NUL]))).
  { rewrite W. simpl obind. replace (Z.of_nat i + 1) with (Z.of_nat (S i)) by lia.
    replace (Z.of_nat j + 1) with (Z.of_nat (S j)) by lia.
    rewrite (IH _ (S i) (S j) s); try (rewrite ?length_insert; lia).
    - simpl. do 2 f_equal; [lia|]. rewrite <- (blit_cons mem) by lia. f_equal. lia.
    - replace (src + S i)%nat with (S (src + i)) by lia. apply text_at_insert; [exact T1|lia]. }
  destruct (bool_decide (c = "%"%char)); cbn [andb obind]; [|exact Plain].
  destruct (isxdigit (peek s)) eqn:X1; cbn [andb obind]; [|exact Plain].
  destruct (isxdigit_peek _ X1) as (a & s1 & -> & Pa). pose proof (text_at_tail _ _ _ _ T1) as T2.
  replace (Z.of_nat (src + i) + 2) with (Z.of_nat (S (S (src + i)))) by lia. rewrite (text_at_peek _ _ _ T2).
  cbn [tail obind]. destruct (isxdigit (peek s1)) eqn:X2; cbn [obind]; [|exact Plain].
  destruct (isxdigit_peek _ X2) as (b & s2 & -> & Pb). pose proof (text_at_tail _ _ _ _ T2) as T3.
  rewrite W. cbn [obind length] in *.
  replace (Z.of_nat i + 3) with (Z.of_nat (i + 3)) by lia. replace (Z.of_nat j + 1) with (Z.of_nat (S j)) by lia.
  rewrite (IH _ (i + 3)%nat (S j) s2); try (rewrite ?length_insert; lia).
  - simpl. do 2 f_equal; [lia|]. rewrite <- (blit_cons mem) by lia. f_equal. lia.
  - replace (src + (i + 3))%nat with (S (S (S (src + i)))) by lia. apply text_at_insert; [exact T3|lia].
Qed.

Lemma url_decode_ok mem src dst dst_len s : text_at mem src s -> (0 < dst_len)%nat ->
  (dst + dst_len <= length mem)%nat -> (dst <= src)%nat \/ (src + length s < dst)%nat ->
  let out := take (dst_len - 1) (pct_decode s) in
  _shttpd_url_decode mem (Z.of_nat src) (Z.of_nat (length s)) (Z.of_nat dst) (Z.of_nat dst_len) =
  Done (Z.of_nat (length out), blit mem dst (out ++ [NUL])).
Proof.
  intros T Hd Hm Hs. unfold _shttpd_url_decode. rewrite Nat2Z.id.
  pose proof (url_decode_loop_eq src dst dst_len (length s) (S (length s)) mem 0 0 s) as H.
  rewrite !Nat.add_0_r, Nat.sub_0_r in H. apply H; lia || exact T.
Qed.

(** C37. Decoding a URI: the destination receives the decoded text, cut to the room there
    is, and its terminator; nothing else is written and nothing behind the text is read,
    also when the text is decoded in place. *)
Theorem url_decode_spec mem src dst dst_len s : text_at mem src s -> (0 < dst_len)%nat ->
  (dst + dst_len <= length mem)%nat -> (dst <= src)%nat \/ (src + length s < dst)%nat ->
  let out := take (dst_len - 1) (pct_decode s) in
  _shttpd_url_decode mem (Z.of_nat src) (Z.of_nat (length s)) (Z.of_nat dst) (Z.of_nat dst_len) =
  Done (Z.of_nat (length out), blit mem dst (out ++ [NUL])).
Proof. now apply url_decode_ok. Qed.

(** Percent encoding of the characters that are not to be kept, as RFC 3986 has it. *)
Definition hexdig (z : Z) : ascii := if z <? 10 then chr (z + 48) else chr (z + 55).
Definition pct_char (c : ascii) : cstring := ["%"%char; hexdig (code c / 16); hexdig (code c mod 16)].
Definition pct_encode (keep : ascii -> bool) (s : cstring) : cstring :=
  flat_map (fun c => if keep c then [c] else pct_char c) s.

Lemma hexdig_ok c : isxdigit (hexdig (code c / 16)) && isxdigit (hexdig (code c mod 16)) &&
  bool_decide (hex_pair (hexdig (code c / 16)) (hexdig (code c mod 16)) = c) = true.
Proof.
  revert c. apply (forall_ascii (fun c => isxdigit (hexdig (code c / 16)) && isxdigit (hexdig (code c mod 16)) &&
    bool_decide (hex_pair (hexdig (code c / 16)) (hexdig (code c mod 16)) = c))). vm_compute. reflexivity.
Qed.
Lemma pct_decode_encode keep s : keep "%"%char = false -> pct_decode (pct_encode keep s) = s.
Proof.
  intros K. induction s as [|c s IH]; [done|]. unfold pct_encode in *. cbn [flat_map].
  destruct (keep c) eqn:E.
  - simpl app. rewrite pct_decode_cons, IH, bool_decide_false; [done|]. intros ->. congruence.
  - simpl app. rewrite pct_decode_cons. cbn [peek tail]. pose proof (hexdig_ok c) as H.
    apply andb_true_iff in H as [H1 H2]. apply bool_decide_eq_true in H2.
    rewrite bool_decide_true by done. cbn [andb]. rewrite H1, H2, IH. done.
Qed.

(** Round trip of URIs: what a client percent-encodes, whichever characters it leaves as
    they are, is decoded to the same bytes. *)
Theorem url_roundtrip keep mem src dst dst_len s : keep "%"%char = false ->
  text_at mem src (pct_encode keep s) -> (length s < dst_len)%nat -> (dst + dst_len <= length mem)%nat ->
  (dst <= src)%nat \/ (src + length (pct_encode keep s) < dst)%nat ->
  _shttpd_url_decode mem (Z.of_nat src) (Z.of_nat (length (pct_encode keep s))) (Z.of_nat dst) (Z.of_nat dst_len) =
  Done (Z.of_nat (length s), blit mem dst (s ++ [NUL])).
Proof.
  intros K T Hl Hm Hs. unfold _shttpd_url_decode. rewrite Nat2Z.id.
  pose proof (url_decode_loop_eq src dst dst_len (length (pct_encode keep s)) (S (length (pct_encode keep s))) mem 0 0 (pct_encode keep s)) as H.
  rewrite !Nat.add_0_r, Nat.sub_0_r, (pct_decode_encode keep s K), (take_ge s) in H by lia.
  apply H; lia || exact T || reflexivity.
Qed.

(** ** The end of the head of a request *)
Definition ctl (c : ascii) : bool := negb (isprint c) && negb (bool_decide (c = CR)) && negb (bool_decide (c = LF)) && (code c <? 128).
(** The answer for the text that has arrived: the first forbidden character or the first
    empty line, whichever comes first; nothing yet when neither is there. *)
Fixpoint head_end (k : nat) (s : cstring) : Z :=
  match s with
  | c :: (d :: r) as t =>
      if ctl c then -1
      else if bool_decide (c = LF) && bool_decide (d = LF) then Z.of_nat k + 2
      else if bool_decide (c = LF) && bool_decide (d = CR) && bool_decide (peek r = LF) then Z.of_nat k + 3
      else match s with _ :: s => head_end (S k) s | [] => 0 end
  | _ => 0
  end.
Lemma head_end_step k c d r : head_end k (c :: d :: r) =
  if ctl c then -1
  else if bool_decide (c = LF) && bool_decide (d = LF) then Z.of_nat k + 2
  else if bool_decide (c = LF) && bool_decide (d = CR) && bool_decide (peek r = LF) then Z.of_nat k + 3
  else head_end (S k) (d :: r).
Proof. reflexivity. Qed.

Lemma headers_len_loop_eq p rest fuel : forall k s, (length s < fuel)%nat -> p = length k ->
  headers_len_loop fuel (k ++ s ++ rest) (Z.of_nat p) (Z.of_nat (p + length s) - 1) = Done (head_end p s).
Proof.
  revert p. induction fuel as [|fuel IH]; intros p k s Hf ->; [lia|]. cbn [headers_len_loop].
  destruct s as [|c [|d r]].
  { simpl length. destruct (Z.ltb_spec (Z.of_nat (length k)) (Z.of_nat (length k + 0) - 1)); [lia|done]. }
  { simpl length. destruct (Z.ltb_spec (Z.of_nat (length k)) (Z.of_nat (length k + 1) - 1)); [lia|done]. }
  cbn [length] in *. destruct (Z.ltb_spec (Z.of_nat (length k)) (Z.of_nat (length k + S (S (length r))) - 1)); [|lia].
  cbn [negb]. rewrite head_end_step. simpl app. rewrite rd_here0. cbn [obind]. fold (ctl c).
  destruct (ctl c); [done|].
  assert (R1 : rd (k ++ c :: d :: r ++ rest) (Z.of_nat (length k) + 1) = Done d) by (apply rd_here; [lia|done]).
  assert (Go : headers_len_loop fuel (k ++ c :: d :: r ++ rest) (Z.of_nat (length k) + 1)
      (Z.of_nat (length k + S (S (length r))) - 1) = Done (head_end (S (length k)) (d :: r))).
  { pose proof (IH (S (length k)) (k ++ [c]) (d :: r) ltac:(simpl; lia)) as G. rewrite length_app in G.
    specialize (G ltac:(simpl; lia)). rewrite <- app_assoc in G. simpl app in G. rewrite <- G. f_equal; simpl; lia. }
  rewrite R1. destruct (bool_decide (c = LF)); cbn [andb obind]; [|exact Go].
  destruct (bool_decide (d = LF)); [done|].
  destruct (Z.ltb_spec (Z.of_nat (length k) + 1) (Z.of_nat (length k + S (S (length r))) - 1)) as [L|L]; cbn [obind].
  - destruct (bool_decide (d = CR)); cbn [andb obind]; [|exact Go].
    destruct r as [|f r]; [simpl in L; lia|]. cbn [app] in *. rewrite (rd_here k 2 (c :: d :: f :: r ++ rest) f) by (lia || done).
    cbn [obind peek]. destruct (bool_decide (f = LF)); [done|exact Go].
  - destruct r as [|f r]; [|simpl in L; lia]. rewrite (bool_decide_false (peek [] = LF)) by done.
    rewrite andb_false_r. exact Go.
Qed.

(** An empty line in a text. *)
Definition line_break (c : ascii) (r : cstring) : bool :=
  bool_decide (c = LF) &&
  (bool_decide (peek r = LF) || (bool_decide (peek r = CR) && bool_decide (peek (tail r) = LF))).
Fixpoint blank (s : cstring) : bool :=
  match s with [] => false | c :: r => line_break c r || blank r end.
Lemma line_break_prefix c a b : line_break c a = true -> line_break c (a ++ b) = true.
Proof.
  unfold line_break. destruct a as [|x [|y a]]; cbn [peek tail app]; [|..|done].
  - rewrite (bool_decide_false (NUL = LF)), (bool_decide_false (NUL = CR)), andb_false_r by done. done.
  - rewrite (bool_decide_false (NUL = LF)) by done. rewrite andb_false_r, orb_false_r.
    intros [-> ->]%andb_true_iff. done.
Qed.
Lemma line_break_shorter c a b : line_break c (a ++ b) = false -> line_break c a = false.
Proof. intros H. destruct (line_break c a) eqn:E; [|done]. now rewrite (line_break_prefix c a b E) in H. Qed.

Lemma head_end_cases s : forall k,
  (head_end k s = 0 /\ blank s = false) \/
  (exists m, head_end k s = Z.of_nat (k + m) /\ (2 <= m <= length s)%nat /\ blank (take m s) = true /\
     blank (take (m - 1) s) = false /\ Forall (fun c => ctl c = false) (take m s)) \/
  (head_end k s = -1 /\ exists a c b, s = a ++ c :: b /\ ctl c = true /\ b <> [] /\ blank a = false).
Proof.
  induction s as [|c s IH]; intros k; [now left|]. destruct s as [|d r].
  { left. split; [done|]. simpl. unfold line_break. cbn [peek tail].
    rewrite (bool_decide_false (NUL = LF)), (bool_decide_false (NUL = CR)), andb_false_r by done. done. }
  rewrite head_end_step. destruct (ctl c) eqn:Ec.
  { right; right. split; [done|]. exists [], c, (d :: r). done. }
  destruct (line_break c (d :: r)) eqn:B.
  - right; left. unfold line_break in B. apply andb_true_iff in B as [B1 B]. apply bool_decide_eq_true in B1 as ->.
    cbn [peek tail] in B. rewrite bool_decide_true by done. cbn [andb].
    destruct (bool_decide_reflect (d = LF)) as [->|_].
    + exists 2%nat. split; [lia|]. split; [simpl; lia|]. split_and!; [done|done|]. repeat constructor; done.
    + cbn [orb] in B. apply andb_true_iff in B as [B1 B2]. rewrite B1, B2. cbn [andb].
      apply bool_decide_eq_true in B1 as ->. destruct r as [|f r]; [discriminate|].
      apply bool_decide_eq_true in B2. cbn in B2. subst f. exists 3%nat. split; [lia|]. split; [simpl; lia|].
      split_and!; [done|done|]. repeat constructor; done.
  - replace (bool_decide (c = LF) && bool_decide (d = LF)) with false
      by (unfold line_break in B; cbn [peek] in B; destruct (bool_decide (c = LF)), (bool_decide (d = LF)); done).
    replace (bool_decide (c = LF) && bool_decide (d = CR) && bool_decide (peek r = LF)) with false
      by (unfold line_break in B; cbn [peek tail] in B;
          destruct (bool_decide (c = LF)), (bool_decide (d = LF)), (bool_decide (d = CR)), (bool_decide (peek r = LF)); done).
    destruct (IH (S k)) as [[E Bl]|[(m & E & Hm & B1 & B2 & F)|(E & a & x & b & Es & X & Nb & Ba)]].
    + left. split; [exact E|]. change (line_break c (d :: r) || blank (d :: r) = false). now rewrite B, Bl.
    + right; left. exists (S m). split; [rewrite E; lia|]. split; [simpl in *; lia|].
      replace (S m - 1)%nat with (S (m - 1)) by lia.
      assert (L : forall j, line_break c (take j (d :: r)) = false)
        by (intros j; apply (line_break_shorter c _ (drop j (d :: r))); now rewrite take_drop).
      split; [|split].
      * change (line_break c (take m (d :: r)) || blank (take m (d :: r)) = true). rewrite B1. apply orb_true_r.
      * change (line_break c (take (m - 1) (d :: r)) || blank (take (m - 1) (d :: r)) = false). now rewrite L, B2.
      * change (Forall (fun c => ctl c = false) (c :: take m (d :: r))). now constructor.
    + right; right. split; [exact E|]. exists (c :: a), x, b. rewrite Es. split_and!; try done.
      simpl. rewrite Ba, orb_false_r. apply (line_break_shorter c a (x :: b)). now rewrite <- Es.
Qed.
Lemma head_end_app s t : forall k, head_end k s <> 0 -> head_end k (s ++ t) = head_end k s.
Proof.
  induction s as [|c s IH]; intros k; [done|]. destruct s as [|d r]; [done|]. cbn [app].
  rewrite !head_end_step. intros H. destruct (ctl c); [done|].
  destruct (bool_decide (c = LF) && bool_decide (d = LF)); [done|].
  destruct r as [|f r].
  - cbn [peek] in H. rewrite (bool_decide_false (NUL = LF)), andb_false_r in H by done. done.
  - cbn [app peek] in *. destruct (_ && _ && _); [done|]. now apply IH.
Qed.
Lemma headers_len_eq s rest : _shttpd_get_headers_len (s ++ rest) (Z.of_nat (length s)) = Done (head_end 0 s).
Proof.
  unfold _shttpd_get_headers_len. rewrite Nat2Z.id.
  apply (headers_len_loop_eq 0 rest (S (length s)) [] s); simpl; lia.
Qed.

(** The head of a request: the answer 0 is given only when no empty line has arrived; a
    positive answer is the length of the shortest prefix that has an empty line, and that
    prefix has no control character; -1 is given only when there is a control character
    before any empty line. *)
Theorem headers_len_spec s rest : exists n,
  _shttpd_get_headers_len (s ++ rest) (Z.of_nat (length s)) = Done n /\ -1 <= n <= Z.of_nat (length s) /\
  (n = 0 -> blank s = false) /\
  (0 < n -> blank (take (Z.to_nat n) s) = true /\ blank (take (Z.to_nat n - 1) s) = false /\
     Forall (fun c => ctl c = false) (take (Z.to_nat n) s)) /\
  (n = -1 -> exists a c b, s = a ++ c :: b /\ ctl c = true /\ blank a = false).
Proof.
  exists (head_end 0 s). split; [apply headers_len_eq|].
  destruct (head_end_cases s 0) as [[-> Bl]|[(m & -> & Hm & B1 & B2 & F)|(-> & a & x & b & Es & X & Nb & Ba)]].
  - split_and!; try lia; done.
  - simpl plus. rewrite Nat2Z.id. split_and!; try lia. intros _. split_and!; done.
  - split_and!; try lia. intros _. exists a, x, b. done.
Qed.
(** The framing of requests does not depend on how the bytes arrive: once an answer other
    than "not yet" has been given it is the answer for every longer text. *)
Theorem headers_len_stable s t rest n : n <> 0 ->
  _shttpd_get_headers_len (s ++ t ++ rest) (Z.of_nat (length s)) = Done n ->
  _shttpd_get_headers_len (s ++ t ++ rest) (Z.of_nat (length (s ++ t))) = Done n.
Proof.
  intros Hn. rewrite headers_len_eq. intros [= <-]. rewrite app_assoc, headers_len_eq.
  f_equal. now apply head_end_app.
Qed.

(** ** Comparing without case *)
Definition lower (s : cstring) : cstring := map tolower s.
Lemma tolower_NUL c : tolower c = NUL <-> c = NUL.
Proof.
  assert (H : bool_decide (tolower c = NUL) = bool_decide (c = NUL)).
  { apply eqb_prop. revert c.
    apply (forall_ascii (fun c => Bool.eqb (bool_decide (tolower c = NUL)) (bool_decide (c = NUL)))). vm_compute. reflexivity. }
  rewrite <- (bool_decide_eq_true (tolower c = NUL)), H. apply bool_decide_eq_true.
Qed.
Lemma strncasecmp_eq s1 : forall s2 n, no_nul s1 -> no_nul s2 -> 0 < n ->
  _shttpd_strncasecmp s1 s2 n = 0 <-> take (Z.to_nat n) (lower s1) = take (Z.to_nat n) (lower s2).
Proof.
  induction s1 as [|a r1 IH]; intros s2 n N1 N2 Hn; (destruct (Z.to_nat n) as [|k] eqn:En; [lia|]); cbn [_shttpd_strncasecmp].
  - destruct s2 as [|b r2]; [done|]. cbn [peek lower map take]. split; [|done]. intros H.
    assert (E : code (tolower NUL) = code (tolower b)) by lia. apply code_inj in E.
    apply not_elem_of_cons in N2 as [N2 _]. change (tolower NUL) with NUL in E.
    symmetry in E. apply (proj1 (tolower_NUL b)) in E. congruence.
  - apply not_elem_of_cons in N1 as [Na N1]. rewrite (bool_decide_false (a = NUL)) by done. cbn [negb andb].
    rewrite andb_true_r. assert (Sub : forall x y, code (tolower x) - code (tolower y) = 0 <-> tolower x = tolower y).
    { intros x y. split; [intros H; apply code_inj; lia|intros ->; lia]. }
    destruct s2 as [|b r2].
    + cbn [peek lower map take tail]. rewrite bool_decide_true by done. cbn [negb andb]. rewrite andb_false_r.
      cbn [andb]. rewrite Sub. split; [|done]. intros E. change (tolower NUL) with NUL in E.
      apply (proj1 (tolower_NUL a)) in E. congruence.
    + apply not_elem_of_cons in N2 as [Nb N2]. cbn [peek lower map take tail].
      rewrite (bool_decide_false (b = NUL)) by done. cbn [negb]. rewrite andb_true_r.
      destruct (bool_decide_reflect (tolower a = tolower b)) as [E|E].
      * rewrite andb_true_r, E. destruct (Z.ltb_spec 1 n).
        -- rewrite IH by (done || lia). replace (Z.to_nat (n - 1)) with k by lia. unfold lower. split; [intros E'; f_equal; exact E'|now intros [= E']].
        -- assert (k = 0%nat) as -> by lia. rewrite Z.sub_diag. done.
      * rewrite andb_false_r, Sub. split; [done|]. now intros [= H _].
Qed.
(** Two texts with the same first colon have the same text before it. *)
Lemma colon_split (x y u v : cstring) (c : ascii) : c ∉ x -> c ∉ y -> x ++ c :: u = y ++ c :: v -> x = y /\ u = v.
Proof.
  revert y. induction x as [|a x IH]; intros [|b y] Nx Ny; simpl; intros E; try (injection E as -> E).
  - now injection E.
  - apply not_elem_of_cons in Ny. tauto.
  - apply not_elem_of_cons in Nx. tauto.
  - apply not_elem_of_cons in Nx as [_ Nx], Ny as [_ Ny]. destruct (IH y Nx Ny E) as [-> ->]. done.
Qed.
Lemma lower_no_colon s : ":"%char ∉ s -> ":"%char ∉ lower s.
Proof.
  intros H X. apply list_elem_of_fmap in X as (c & E & Hc).
  assert (G : forall c, implb (bool_decide (":"%char = tolower c)) (bool_decide (c = ":"%char)) = true).
  { apply (forall_ascii (fun c => implb (bool_decide (":"%char = tolower c)) (bool_decide (c = ":"%char)))).
    vm_compute. reflexivity. }
  specialize (G c). rewrite bool_decide_true in G by done. simpl in G. apply bool_decide_eq_true in G. congruence.
Qed.
Definition sep : cstring := lit ": ".
Lemma lower_app a b : lower (a ++ b) = lower a ++ lower b.
Proof. apply map_app. Qed.

(** Only the text before a terminator is compared. *)
Lemma strncasecmp_stop s1 r : no_nul s1 -> forall s2 n,
  _shttpd_strncasecmp (s1 ++ NUL :: r) s2 n = _shttpd_strncasecmp s1 s2 n.
Proof.
  induction s1 as [|a s1 IH]; intros N s2 n; cbn [app _shttpd_strncasecmp].
  - rewrite bool_decide_true by done. cbn [negb]. now rewrite andb_false_r.
  - apply not_elem_of_cons in N as [_ N]. now rewrite IH.
Qed.
Lemma strncasecmp_c_string s1 s2 n : _shttpd_strncasecmp s1 s2 n = _shttpd_strncasecmp (c_string s1) s2 n.
Proof.
  destruct (c_string_cases s1) as [->|(r & E)]; [done|]. rewrite E at 1. apply strncasecmp_stop, c_string_no_nul.
Qed.
(** A line that starts with a name and a colon is matched with the name alone. *)
Lemma name_matches (name hname v : cstring) : no_nul name -> no_nul hname ->
  ":"%char ∉ name -> ":"%char ∉ hname ->
  (_shttpd_strncasecmp (name ++ sep ++ v) (hname ++ sep) (Z.of_nat (length hname) + 2) =? 0) =
  bool_decide (lower name = lower hname).
Proof.
  intros N Nh C1 C2. rewrite strncasecmp_c_string.
  assert (E : c_string (name ++ sep ++ v) = name ++ sep ++ c_string v).
  { rewrite c_string_app by done. done. }
  rewrite E. clear E. assert (Nv := c_string_no_nul v). revert Nv. generalize (c_string v). clear v. intros v Nv.
  assert (Nsep : no_nul sep) by (apply (bool_decide_eq_true_1 _); vm_compute; reflexivity).
  assert (N' : no_nul (name ++ sep ++ v)) by (unfold no_nul; rewrite !not_elem_of_app; auto).
  assert (Ns : no_nul (hname ++ sep)).
  { unfold no_nul. rewrite not_elem_of_app. auto. }
  apply eq_true_iff_eq. rewrite Z.eqb_eq, strncasecmp_eq, bool_decide_eq_true by (done || lia).
  replace (Z.to_nat (Z.of_nat (length hname) + 2)) with (length (lower (hname ++ sep)))
    by (unfold lower; rewrite length_map, length_app; simpl; lia).
  rewrite (take_ge (lower (hname ++ sep))) by lia. rewrite !lower_app. change (lower sep) with sep. split.
  - intros E.
    assert (F : lower name ++ sep ++ lower v =
      (lower hname ++ sep) ++ drop (length (lower hname ++ sep)) (lower name ++ sep ++ lower v))
      by (rewrite <- (take_drop (length (lower hname ++ sep)) (lower name ++ sep ++ lower v)) at 1; now rewrite E).
    rewrite <- app_assoc in F. simpl in F. eapply colon_split in F as [F _]; [exact F|now apply lower_no_colon..].
  - intros ->. rewrite app_assoc. apply take_app_length.
Qed.

(** ** Header lines *)
Definition field : Type := cstring * cstring.
Definition render (f : field) : cstring := f.1 ++ sep ++ f.2 ++ [CR; LF].
Definition field_ok (f : field) : Prop := ":"%char ∉ f.1 /\ LF ∉ f.1 /\ LF ∉ f.2 /\ no_nul f.1.
(** The name of a table row, and the row that a field name stands for. *)
Definition hname (h : http_header) : cstring := take (length (h_name h) - 2) (h_name h).
Definition known_header (n : cstring) : option http_header :=
  find (fun h => bool_decide (lower n = lower (hname h))) http_headers.

Lemma http_headers_ok : Forall (fun h => h_name h = hname h ++ sep /\ h_len h = Z.of_nat (length (hname h)) + 2 /\
  ":"%char ∉ hname h /\ no_nul (hname h)) http_headers.
Proof. repeat constructor; (vm_compute; reflexivity) || (apply (bool_decide_eq_true_1 _); vm_compute; reflexivity). Qed.

Lemma line_end_eq pre line rest e fuel : LF ∉ line -> (length line < fuel)%nat ->
  Z.of_nat (length pre + length line) < e ->
  line_end fuel (pre ++ line ++ LF :: rest) (Z.of_nat (length pre)) e = Done (Z.of_nat (length pre + length line)).
Proof.
  revert pre fuel. induction line as [|c line IH]; intros pre fuel N Hf He; (destruct fuel as [|fuel]; [simpl in Hf; lia|]);
    cbn [line_end length] in *; simpl app; (destruct (Z.ltb_spec (Z.of_nat (length pre)) e); [|lia]);
    rewrite rd_here0; cbn [obind].
  - rewrite bool_decide_true by done. do 2 f_equal. lia.
  - apply not_elem_of_cons in N as [Nc N]. rewrite bool_decide_false by congruence.
    specialize (IH (pre ++ [c]) fuel N). rewrite <- app_assoc, length_app in IH. simpl in IH.
    replace (Z.of_nat (length pre) + 1) with (Z.of_nat (length pre + 1)) by lia. rewrite IH by lia. do 2 f_equal. lia.
Qed.
Lemma find_ext_in {A} (f g : A -> bool) l : (forall x, x ∈ l -> f x = g x) -> find f l = find g l.
Proof.
  induction l as [|x l IH]; intros H; [done|]. simpl. rewrite (H x) by left.
  rewrite IH; [done|]. intros y Hy. apply H. now right.
Qed.

Section ParseHeadersSpec.
Variable date_to_epoch : cstring -> Z.

(** What is stored for the field value [v], followed by [rest], at place [k]. *)
Definition stored (h : http_header) (k : nat) (v rest : cstring) : variant :=
  match h_type h with
  | HDR_STRING => v_vec (Z.of_nat k) (Z.of_nat (length v))
  | HDR_INT => v_big_int (strtoul (v ++ [CR; LF] ++ rest))
  | HDR_DATE => v_time (date_to_epoch (c_string (v ++ [CR; LF] ++ rest)))
  end.
Definition step_field (k : nat) (f : field) (rest : cstring) (parsed : headers) : headers :=
  match known_header f.1 with
  | Some h => set_header parsed (h_offset h) (stored h (k + length f.1 + 2) f.2 rest)
  | None => parsed
  end.

Lemma row_ok h : h ∈ http_headers -> h_name h = hname h ++ sep /\ h_len h = Z.of_nat (length (hname h)) + 2 /\
  ":"%char ∉ hname h /\ no_nul (hname h).
Proof. pose proof http_headers_ok as T. rewrite Forall_forall in T. apply T. Qed.
Lemma lower_length a b : lower a = lower b -> length a = length b.
Proof. intros E. apply (f_equal length) in E. unfold lower in E. now rewrite !length_map in E. Qed.
Lemma known_header_ok n h : known_header n = Some h ->
  h ∈ http_headers /\ h_len h = Z.of_nat (length n) + 2.
Proof.
  intros K. apply find_some in K as [Hh E]. apply list_elem_of_In in Hh. apply bool_decide_eq_true, lower_length in E.
  destruct (row_ok h Hh) as (_ & -> & _). split; [done|]. now rewrite E.
Qed.

(** The row that the code finds for a line. *)
Lemma line_row n v rest room : no_nul n -> ":"%char ∉ n ->
  Z.of_nat (length n) + 2 < room ->
  find (fun h => (h_len h <? room) &&
    (_shttpd_strncasecmp (n ++ sep ++ v ++ [CR; LF] ++ rest) (h_name h) (h_len h) =? 0)) http_headers = known_header n.
Proof.
  intros N C Hr. apply find_ext_in. intros h Hh. destruct (row_ok h Hh) as (-> & -> & Ch & Nh).
  rewrite (name_matches n (hname h) (v ++ [CR; LF] ++ rest) N Nh C Ch).
  destruct (bool_decide_reflect (lower n = lower (hname h))) as [E|E]; [|apply andb_false_r].
  apply lower_length in E. rewrite andb_true_r. apply Z.ltb_lt. lia.
Qed.
(** The value that the code takes from a line that ends at [p]. *)
Lemma header_value_eq pre v rest h p : Z.of_nat (length pre + length v + 1) = p ->
  header_value date_to_epoch (pre ++ v ++ [CR; LF] ++ rest) h (Z.of_nat (length pre)) p =
  Done (stored h (length pre) v rest).
Proof.
  intros <-. unfold header_value, stored. rewrite Nat2Z.id, drop_app_length. destruct (h_type h); try done.
  rewrite (rd_Some _ _ CR); [|lia|].
  - cbn [obind]. rewrite bool_decide_true by done.
    destruct (Z.ltb_spec 0 (Z.of_nat (length pre + length v + 1) - Z.of_nat (length pre))); [|lia].
    cbn [andb]. do 2 f_equal. lia.
  - rewrite app_assoc, lookup_app_r by (rewrite length_app; lia).
    replace (_ - _)%nat with 0%nat by (rewrite length_app; lia). done.
Qed.

Lemma parse_one pre f rest e fuel parsed : field_ok f ->
  Z.of_nat (length (pre ++ render f)) + 2 <= e ->
  parse_headers_loop date_to_epoch (S fuel) (pre ++ render f ++ rest) (Z.of_nat (length pre)) e parsed =
  parse_headers_loop date_to_epoch fuel (pre ++ render f ++ rest) (Z.of_nat (length (pre ++ render f))) e
    (step_field (length pre) f rest parsed).
Proof.
  destruct f as [n v]. intros (C1 & L1 & L2 & N) He. unfold render in *. cbn [fst snd] in *.
  set (line := n ++ sep ++ v ++ [CR]).
  assert (Ll : LF ∉ line).
  { unfold line. rewrite !elem_of_app. intros [H|[H|[H|H]]]; [tauto| |tauto|].
    - revert H. apply (bool_decide_eq_true_1 _). vm_compute. reflexivity.
    - apply list_elem_of_singleton in H. discriminate. }
  assert (En : length line = (length n + length v + 3)%nat) by (unfold line; rewrite !length_app; simpl; lia).
  assert (El : length (pre ++ n ++ sep ++ v ++ [CR; LF]) = (length pre + length line + 1)%nat)
    by (rewrite !length_app, En; simpl; lia).
  assert (Eb : pre ++ (n ++ sep ++ v ++ [CR; LF]) ++ rest = pre ++ line ++ LF :: rest)
    by (unfold line; rewrite <- !app_assoc; done).
  assert (Et : line ++ LF :: rest = n ++ sep ++ v ++ [CR; LF] ++ rest) by (unfold line; now rewrite <- !app_assoc).
  rewrite El, Eb in *. cbn [parse_headers_loop].
  destruct (Z.ltb_spec (Z.of_nat (length pre)) e); [|lia]. cbn [negb].
  rewrite (line_end_eq pre line rest e) by (done || lia). cbn [obind].
  rewrite Nat2Z.id, drop_app_length, Et, line_row; [|done|done|lia].
  replace (Z.of_nat (length pre + length line) + 1) with (Z.of_nat (length pre + length line + 1)) by lia.
  unfold step_field. cbn [fst snd]. destruct (known_header n) as [h|] eqn:K; [|done].
  destruct (known_header_ok n h K) as [_ Hl].
  replace (pre ++ n ++ sep ++ v ++ [CR; LF] ++ rest) with ((pre ++ n ++ sep) ++ v ++ [CR; LF] ++ rest)
    by now rewrite <- !app_assoc.
  assert (Es : length (pre ++ n ++ sep) = (length pre + length n + 2)%nat) by (rewrite !length_app; simpl; lia).
  replace (Z.of_nat (length pre) + h_len h) with (Z.of_nat (length (pre ++ n ++ sep))) by lia.
  rewrite header_value_eq by lia. now rewrite Es.
Qed.

(** The value that a list of fields gives to a header: that of the last field of the name. *)
Definition value_of (h : hdr) (fs : list field) : option cstring :=
  foldl (fun acc f => match known_header f.1 with
    | Some row => if decide (h = h_offset row) then Some f.2 else acc
    | None => acc end) None fs.
Definition holds_value (buf : cstring) (h : hdr) (v : cstring) (x : variant) : Prop :=
  exists k rest row, drop k buf = v ++ [CR; LF] ++ rest /\ row ∈ http_headers /\ h_offset row = h /\
    x = stored row k v rest.

Lemma value_of_snoc h fs f : value_of h (fs ++ [f]) = match known_header f.1 with
    | Some row => if decide (h = h_offset row) then Some f.2 else value_of h fs
    | None => value_of h fs end.
Proof. unfold value_of. now rewrite foldl_app. Qed.

Lemma parse_fields_eq pre tail fs : forall done parsed0 parsed fuel, Forall field_ok fs ->
  let buf := pre ++ flat_map render done ++ flat_map render fs ++ [CR; LF] ++ tail in
  let s := length (pre ++ flat_map render done) in
  let e := Z.of_nat (length (pre ++ flat_map render done ++ flat_map render fs)) + 2 in
  (length fs + 2 <= fuel)%nat ->
  (forall h, match value_of h done with
    | Some v => holds_value buf h v (parsed h) | None => parsed h = parsed0 h end) ->
  exists parsed', parse_headers_loop date_to_epoch fuel buf (Z.of_nat s) e parsed = Done parsed' /\
    forall h, match value_of h (done ++ fs) with
      | Some v => holds_value buf h v (parsed' h) | None => parsed' h = parsed0 h end.
Proof.
  induction fs as [|f fs IH]; intros dn parsed0 parsed fuel Ok buf s e Hf Inv;
    (destruct fuel as [|[|fuel]]; [simpl in Hf; lia..|]).
  - exists parsed. split; [|now rewrite app_nil_r]. subst buf s e. simpl flat_map in *. rewrite app_nil_r in *.
    cbn [parse_headers_loop].
    destruct (Z.ltb_spec (Z.of_nat (length (pre ++ flat_map render dn)))
      (Z.of_nat (length (pre ++ flat_map render dn)) + 2)); [|lia]. cbn [negb].
    rewrite app_assoc. simpl app.
    rewrite (line_end_eq (pre ++ flat_map render dn) [CR] tail)
      by (simpl; lia || (apply (bool_decide_eq_true_1 _); vm_compute; reflexivity)).
    cbn [obind]. rewrite (find_ext_in _ (fun _ => false)).
    + simpl find. cbn [obind]. simpl length. rewrite Nat2Z.inj_add.
      destruct (Z.ltb_spec (Z.of_nat (length (pre ++ flat_map render dn)) + Z.of_nat 1 + 1)
        (Z.of_nat (length (pre ++ flat_map render dn)) + 2)); [lia|done].
    + intros h Hh. pose proof http_headers_ok as T. rewrite Forall_forall in T. destruct (T h Hh) as (_ & Hl & _).
      apply andb_false_iff. left. apply Z.ltb_ge. lia.
  - apply Forall_cons in Ok as [Okf Ok]. cbn [flat_map] in *.
    assert (Eb : buf = (pre ++ flat_map render dn) ++ render f ++ flat_map render fs ++ [CR; LF] ++ tail)
      by (subst buf; now rewrite <- !app_assoc).
    assert (Ef : pre ++ flat_map render dn ++ render f ++ flat_map render fs ++ [CR; LF] ++ tail = buf)
      by (rewrite Eb; now rewrite <- !app_assoc).
    assert (Ed : flat_map render (dn ++ [f]) = flat_map render dn ++ render f)
      by (rewrite flat_map_app; simpl; now rewrite app_nil_r).
    subst s. rewrite Eb.
    rewrite parse_one; [|done|subst e; rewrite !length_app; lia]. rewrite <- Eb.
    set (parsed1 := step_field _ _ _ _).
    destruct (IH (dn ++ [f]) parsed0 parsed1 (S fuel) Ok) as (p' & G & I').
    + simpl in Hf. lia.
    + intros h. rewrite value_of_snoc. rewrite Ed, <- !app_assoc, Ef. specialize (Inv h).
      subst parsed1. unfold step_field, set_header. destruct (known_header f.1) as [row|] eqn:K; [|exact Inv].
      destruct (decide (h = h_offset row)) as [->|]; [|exact Inv].
      apply find_some in K as [Hrow _]. apply list_elem_of_In in Hrow.
      eexists _, _, row. split; [|done]. destruct f as [n v]. rewrite Eb. unfold render. cbn [fst snd].
      replace (_ ++ (n ++ sep ++ v ++ [CR; LF]) ++ _) with
        (((pre ++ flat_map render dn) ++ n ++ sep) ++ v ++ [CR; LF] ++ flat_map render fs ++ [CR; LF] ++ tail)
        by (rewrite <- !app_assoc; done).
      apply drop_app_length'. fold render. cbn [fst]. rewrite !length_app. change (length sep) with 2%nat. lia.
    + exists p'. rewrite <- app_assoc in I'. split.
      * rewrite <- G. rewrite Ed, <- !app_assoc, Ef. done.
      * intros h. specialize (I' h). rewrite Ed, <- !app_assoc, Ef in I'. exact I'.
Qed.

Lemma parse_headers_ok pre fs tail parsed0 : Forall field_ok fs ->
  let buf := pre ++ flat_map render fs ++ [CR; LF] ++ tail in
  exists parsed, _shttpd_parse_headers date_to_epoch buf (Z.of_nat (length pre))
      (Z.of_nat (length (flat_map render fs)) + 2) parsed0 = Done parsed /\
    forall h, match value_of h fs with
      | Some v => holds_value buf h v (parsed h) | None => parsed h = parsed0 h end.
Proof.
  intros Ok buf.
  assert (Len : (4 * length fs <= length (flat_map render fs))%nat).
  { clear. induction fs as [|f fs IH]; [done|]. cbn [flat_map length]. rewrite length_app.
    unfold render at 1. rewrite !length_app. simpl length. lia. }
  destruct (parse_fields_eq pre tail fs [] parsed0 parsed0 (S (Z.to_nat (Z.of_nat (length (flat_map render fs)) + 2))) Ok)
    as (parsed & G & I); [lia|done|].
  exists parsed. split; [|exact I]. unfold _shttpd_parse_headers. rewrite <- G. simpl flat_map. rewrite app_nil_r.
  f_equal. rewrite length_app. simpl. lia.
Qed.
Lemma skip_space_digits v : forallb isdigit v = true -> skip_while isspace v = v.
Proof.
  destruct v as [|c v]; [done|]. simpl. intros [H _]%andb_true_iff.
  assert (G : forall c, implb (isdigit c) (negb (isspace c)) = true)
    by (apply (forall_ascii (fun c => implb (isdigit c) (negb (isspace c)))); vm_compute; reflexivity).
  specialize (G c). rewrite H in G. simpl in G. apply negb_true_iff in G. now rewrite G.
Qed.
Lemma digits_stop v c r : forallb isdigit v = true -> isdigit c = false -> forall acc, digits (v ++ c :: r) acc = digits v acc.
Proof.
  intros H Hc. induction v as [|x v IH]; intros acc; simpl in *; [now rewrite Hc|].
  apply andb_true_iff in H as [-> H]. now apply IH.
Qed.
Lemma strtoul_digits v c r : v <> [] -> forallb isdigit v = true -> isdigit c = false -> 0 <= digits v 0 < 2 ^ 64 ->
  strtoul (v ++ c :: r) = digits v 0.
Proof.
  intros Hv H Hc Hd. destruct v as [|x v]; [done|]. pose proof H as H'. simpl in H'.
  apply andb_true_iff in H' as [Hx _].
  assert (G : forall c, implb (isdigit c) (negb (isspace c) && negb (bool_decide (c = "-"%char)) &&
      negb (bool_decide (c = "+"%char))) = true)
    by (apply (forall_ascii (fun c => implb (isdigit c) (negb (isspace c) && negb (bool_decide (c = "-"%char)) &&
      negb (bool_decide (c = "+"%char))))); vm_compute; reflexivity).
  specialize (G x). rewrite Hx in G. simpl in G. apply andb_true_iff in G as [G G3]. apply andb_true_iff in G as [G1 G2].
  apply negb_true_iff in G1, G2, G3. unfold strtoul. cbn [app skip_while]. rewrite G1, G2, G3.
  rewrite (digits_stop (x :: v) c r H Hc 0 : digits (x :: v ++ c :: r) 0 = _).
  destruct (Z.leb_spec (2 ^ 64) (digits (x :: v) 0)); [lia|done].
Qed.
End ParseHeadersSpec.

(** Whatever the bytes are, the fields are parsed inside the text, and the length of the body
    is a number. *)
Definition value_ok (e : Z) (h : hdr) (v : variant) : Prop :=
  match v with
  | v_vec p l => 0 <= p /\ p + l <= e /\ (h = H_cl -> p = 0)
  | v_big_int n => 0 <= n < 2 ^ 64
  | v_time _ => h <> H_cl
  end.
Lemma line_end_total buf e fuel : forall p, 0 <= p -> e <= Z.of_nat (length buf) -> Z.max 0 (e - p) < Z.of_nat fuel ->
  exists q, line_end fuel buf p e = Done q /\ p <= q <= Z.max p e.
Proof.
  induction fuel as [|fuel IH]; intros p Hp He Hf; cbn [line_end].
  - lia.
  - destruct (Z.ltb_spec p e); [|exists p; split; [done|lia]].
    destruct (rd_ok buf p) as (c & _ & ->); [lia|]. cbn [obind].
    destruct (bool_decide (c = LF)); [exists p; split; [done|lia]|].
    destruct (IH (p + 1)) as (q & -> & Hq); [lia..|]. exists q. split; [done|lia].
Qed.
Lemma digits_nonneg s : forall acc, 0 <= acc -> 0 <= digits s acc.
Proof.
  induction s as [|c s IH]; intros acc H; cbn [digits]; [done|]. destruct (isdigit c) eqn:D; [|done].
  apply IH. unfold isdigit, in_range in D. lia.
Qed.
Lemma strtoul_range s : 0 <= strtoul s < 2 ^ 64.
Proof.
  unfold strtoul. set (t := skip_while isspace s).
  destruct (match t with c :: r => _ | [] => _ end) as [neg u]. pose proof (digits_nonneg u 0 ltac:(lia)).
  destruct (Z.leb_spec (2 ^ 64) (digits u 0)); [lia|]. destruct neg; [apply u64_range|lia].
Qed.
Lemma numeric_rows : Forall (fun h => h_type h <> HDR_INT -> h_offset h <> H_cl) http_headers.
Proof. repeat constructor; simpl; congruence. Qed.
Lemma header_value_total date buf h s p e : h ∈ http_headers -> 0 <= s -> 1 <= p <= e -> e <= Z.of_nat (length buf) ->
  exists v, header_value date buf h s p = Done v /\ value_ok e (h_offset h) v.
Proof.
  intros Hh Hs Hp He. pose proof numeric_rows as N. rewrite Forall_forall in N. specialize (N h Hh).
  unfold header_value. destruct (h_type h).
  - eexists. split; [done|]. now apply N.
  - eexists. split; [done|]. apply strtoul_range.
  - destruct (rd_ok buf (p - 1)) as (c & _ & ->); [lia|]. cbn [obind]. eexists. split; [done|].
    simpl. split; [lia|]. split; [destruct (_ && _); lia|]. intros E. destruct N; done.
Qed.
Lemma parse_headers_loop_total date buf e fuel : e <= Z.of_nat (length buf) -> forall s parsed,
  1 <= s -> Z.max 0 (e - s) < Z.of_nat fuel -> (forall h, value_ok e h (parsed h)) ->
  exists parsed', parse_headers_loop date fuel buf s e parsed = Done parsed' /\ forall h, value_ok e h (parsed' h).
Proof.
  intros He. induction fuel as [|fuel IH]; intros s parsed Hs Hf I; cbn [parse_headers_loop]; [lia|].
  destruct (Z.ltb_spec s e); [cbn [negb]|eauto].
  destruct (line_end_total buf e (S (Z.to_nat (e - s))) s) as (p & -> & Hp); [lia..|]. cbn [obind].
  destruct (find _ http_headers) as [h|] eqn:F; cbn [obind]; [|apply IH; lia || exact I].
  apply find_some in F as [Hh _]. apply list_elem_of_In in Hh. destruct (row_ok h Hh) as (_ & Hl & _).
  destruct (header_value_total date buf h (s + h_len h) p e Hh) as (v & -> & Hv); [lia..|]. cbn [obind].
  apply IH; [lia..|]. intros h'. unfold set_header. destruct (decide _) as [->|]; [exact Hv|apply I].
Qed.
Lemma parse_headers_total date buf s len parsed : 1 <= s -> 0 <= len -> s + len <= Z.of_nat (length buf) ->
  (forall h, value_ok (s + len) h (parsed h)) ->
  exists parsed', _shttpd_parse_headers date buf s len parsed = Done parsed' /\ forall h, value_ok (s + len) h (parsed' h).
Proof. intros Hs Hl He I. apply parse_headers_loop_total; [done|lia..|exact I]. Qed.
Lemma strlcpy_take s : forall n, 0 <= n -> _shttpd_strlcpy s (n + 1) = take (Z.to_nat n) s.
Proof.
  induction s as [|c s IH]; intros n Hn; cbn [_shttpd_strlcpy]; [now rewrite take_nil|].
  destruct (Z.ltb_spec 1 (n + 1)).
  - replace (n + 1 - 1) with (n - 1 + 1) by lia. rewrite IH by lia.
    replace (Z.to_nat n) with (S (Z.to_nat (n - 1))) by lia. done.
  - replace (Z.to_nat n) with 0%nat by lia. done.
Qed.

(** Header lines: whatever fields a client sends, in any order and any letter case, each
    header the server knows is set from the last field of its name, to the place and the
    length of exactly its value in the request (a number or a date is read from that
    place), and every other header is left as it was. *)
Theorem parse_headers_spec date_to_epoch pre fs tail parsed0 : Forall field_ok fs ->
  exists parsed, _shttpd_parse_headers date_to_epoch (pre ++ flat_map render fs ++ [CR; LF] ++ tail)
      (Z.of_nat (length pre)) (Z.of_nat (length (flat_map render fs)) + 2) parsed0 = Done parsed /\
    forall h, match value_of h fs with
      | Some v => holds_value date_to_epoch (pre ++ flat_map render fs ++ [CR; LF] ++ tail) h v (parsed h)
      | None => parsed h = parsed0 h end.
Proof. exact (parse_headers_ok date_to_epoch pre fs tail parsed0). Qed.

(** Content-Length: a decimal number below 2^64 in the last Content-Length field is the
    length that the server takes. *)
Theorem content_length_spec date_to_epoch pre fs tail parsed0 v : Forall field_ok fs ->
  value_of H_cl fs = Some v -> v <> [] -> forallb isdigit v = true -> 0 <= digits v 0 < 2 ^ 64 ->
  exists parsed, _shttpd_parse_headers date_to_epoch (pre ++ flat_map render fs ++ [CR; LF] ++ tail)
      (Z.of_nat (length pre)) (Z.of_nat (length (flat_map render fs)) + 2) parsed0 = Done parsed /\
    parsed H_cl = v_big_int (digits v 0).
Proof.
  intros Ok Hv Nv Dv Rv. destruct (parse_headers_ok date_to_epoch pre fs tail parsed0 Ok) as (parsed & G & I).
  exists parsed. split; [exact G|]. specialize (I H_cl). rewrite Hv in I. destruct I as (k & rest & row & _ & Hr & Ho & ->).
  assert (row = HttpHeader 16 HDR_INT H_cl (lit "Content-Length: ")) as ->.
  { unfold http_headers in Hr. repeat (apply elem_of_cons in Hr as [->|Hr]; [first [reflexivity|discriminate]|]).
    now apply not_elem_of_nil in Hr. }
  unfold stored. cbn [h_type]. f_equal. simpl app. now apply strtoul_digits.
Qed.

(** ** Concrete texts *)
Definition demo_fields : list field :=
  [(lit "Host", lit "amt"); (lit "content-length", lit "42"); (lit "Authorization", lit "Basic dTpw");
   (lit "Content-Length", lit "7")].
Definition demo_head : cstring := lit "POST /wsman HTTP/1.1" ++ [CR; LF].
Lemma demo_fields_ok : Forall field_ok demo_fields.
Proof. repeat constructor; apply (bool_decide_eq_true_1 _); vm_compute; reflexivity. Qed.
Lemma parse_headers_spec_witness : exists parsed,
  _shttpd_parse_headers (fun _ => 0) (demo_head ++ flat_map render demo_fields ++ [CR; LF] ++ []) 22 79 no_headers = Done parsed /\
  forall h, match value_of h demo_fields with
    | Some v => holds_value (fun _ => 0) (demo_head ++ flat_map render demo_fields ++ [CR; LF] ++ []) h v (parsed h)
    | None => parsed h = no_headers h end.
Proof. exact (parse_headers_spec (fun _ => 0) demo_head demo_fields [] no_headers demo_fields_ok). Defined.
Lemma content_length_spec_witness : exists parsed,
  _shttpd_parse_headers (fun _ => 0) (demo_head ++ flat_map render demo_fields ++ [CR; LF] ++ []) 22 79 no_headers = Done parsed /\
  parsed H_cl = v_big_int 7.
Proof.
  apply (content_length_spec (fun _ => 0) demo_head demo_fields [] no_headers (lit "7") demo_fields_ok);
    try reflexivity; try discriminate. split; reflexivity || discriminate.
Defined.
Example demo_auth : match _shttpd_parse_headers (fun _ => 0) (demo_head ++ flat_map render demo_fields ++ [CR; LF]) 22 79 no_headers with
  | Done parsed => Some (parsed H_auth, parsed H_cl, parsed H_ct) | _ => None end =
  Some (v_vec 68 10, v_big_int 7, v_vec 0 0).
Proof. vm_compute. reflexivity. Qed.

Lemma remove_dots_demo : remove_all_leading_and_double_dots (lit "../a/../../etc//./x") = Done (lit "/a/etc/x").
Proof. reflexivity. Qed.
Definition demo_mem : list ascii := lit "ab" ++ lit "/x%2Fy%zz" ++ [NUL] ++ lit "cdef".
Lemma url_decode_spec_witness :
  _shttpd_url_decode demo_mem 2 9 2 10 = Done (7, lit "ab" ++ lit "/x/y%zz" ++ [NUL] ++ lit "z" ++ [NUL] ++ lit "cdef").
Proof.
  exact (url_decode_spec demo_mem 2 2 10 (lit "/x%2Fy%zz") eq_refl ltac:(lia) ltac:(simpl; lia) ltac:(lia)).
Defined.
Definition demo_keep (c : ascii) : bool := isdigit c || in_range 97 122 c.
Lemma url_roundtrip_witness :
  _shttpd_url_decode (lit "a%2Eb%25" ++ [NUL]) 0 8 0 9 = Done (4, lit "a.b%" ++ [NUL] ++ lit "%25" ++ [NUL]).
Proof.
  exact (url_roundtrip demo_keep (lit "a%2Eb%25" ++ [NUL]) 0 0 9 (lit "a.b%") eq_refl eq_refl
    ltac:(simpl; lia) ltac:(simpl; lia) ltac:(lia)).
Defined.
Lemma headers_len_stable_witness :
  _shttpd_get_headers_len (lit "a" ++ [LF; LF] ++ lit "body" ++ []) 7 = Done 3.
Proof.
  exact (headers_len_stable (lit "a" ++ [LF; LF]) (lit "body") [] 3 ltac:(discriminate) eq_refl).
Defined.
End HttpText.
