(* ===== verification/HttpAuth.v ===== *)
(** * HttpAuth: who may call the handlers of the HTTP server (server/shttpd/auth.c, io_emb.c)

    Handlers are registered under patterns, and URIs are protected by entries of another
    list; a request is answered by the first handler whose pattern matches, if the first
    protecting entry lets it through.  Password checks are functions of the daemon
    (PAM or a password file) and appear as such. *)
From stdpp Require Import pretty.
From S2P Require Import Prelude CString Base64 HttpText.
Import Base64 HttpText.

Module HttpAuth.

(** ** Patterns *)
(** When a star has failed on every suffix the code goes on with [text] behind the
    terminator. *)
(* src: server/shttpd/io_emb.c 238-257 match_regexp *)
Fixpoint match_regexp (regexp : cstring) : cstring -> outcome bool :=
  match regexp with
  | [] => fun text => Done (bool_decide (text = []))
  | c :: regexp' =>
      if bool_decide (c = "*"%char) then
        fix star (text : cstring) : outcome bool :=
          let* b := match_regexp regexp' text in
          if (b : bool) then Done true
          else match text with [] => Undef | _ :: text => star text end
      else fun text =>
        match text with
        | x :: text => if bool_decide (c = x) then match_regexp regexp' text else Done false
        | [] => Done false
        end
  end.

Section Server.
(** [H]: handlers. *)
Context {H : Type}.

(* src: server/shttpd/defs.h 90-95 registered_uri *)
Record registered_uri := Registered { ru_uri : cstring; ru_callback : H }.
Inductive auth_type := BASIC_AUTH | DIGEST_AUTH.
#[global] Instance auth_type_dec : EqDecision auth_type.
Proof. solve_decision. Defined.
(** The callback is left uninitialised when none is given. *)
(* src: server/shttpd/defs.h 97-105 uri_auth *)
Record uri_auth := UriAuth {
  ua_uri : cstring; ua_file_name : option cstring; ua_type : auth_type;
  ua_callback : option (cstring -> cstring -> Z) }.
Record shttpd_ctx := Ctx {
  registered_uris : list registered_uri; uri_auths : list uri_auth;
  opt_root : cstring; opt_aliases : option cstring; opt_auth_realm : cstring }.

(* src: server/shttpd/io_emb.c 171-183 shttpd_register_uri *)
Definition shttpd_register_uri (malloc_ok : bool) (ctx : shttpd_ctx) (uri : cstring) (callback : H) : shttpd_ctx :=
  if malloc_ok then
    Ctx (registered_uris ctx ++ [Registered uri callback]) (uri_auths ctx) (opt_root ctx) (opt_aliases ctx) (opt_auth_realm ctx)
  else ctx.
(** [type]: 0 is Basic, 1 and anything else Digest. *)
(* src: server/shttpd/io_emb.c 185-211 shttpd_protect_uri *)
Definition shttpd_protect_uri (malloc_ok : bool) (ctx : shttpd_ctx) (uri : cstring) (file : option cstring)
    (cb : option (cstring -> cstring -> Z)) (type : Z) : shttpd_ctx :=
  if malloc_ok then
    Ctx (registered_uris ctx)
      (UriAuth uri file (if type =? 0 then BASIC_AUTH else DIGEST_AUTH) cb :: uri_auths ctx)
      (opt_root ctx) (opt_aliases ctx) (opt_auth_realm ctx)
  else ctx.

(* src: server/shttpd/io_emb.c 259-272 _shttpd_is_registered_uri *)
Fixpoint is_registered (l : list registered_uri) (uri : cstring) : outcome (option registered_uri) :=
  match l with
  | [] => Done None
  | r :: l =>
      let* b := match_regexp (ru_uri r) uri in
      if (b : bool) then Done (Some r) else is_registered l uri
  end.
Definition _shttpd_is_registered_uri (ctx : shttpd_ctx) uri := is_registered (registered_uris ctx) uri.

(** ** Authorization *)
Definition strncasecmp (a b : cstring) (n : nat) : Z := strncmp (lower a) (lower b) n.
Definition blank_char (c : ascii) : bool := bool_decide (c = " "%char) || bool_decide (c = chr 9).
Definition token_char (c : ascii) : bool :=
  negb (blank_char c) && negb (bool_decide (c = CR)) && negb (bool_decide (c = LF)) && negb (bool_decide (c = NUL)).
(** [strchr (s, c)]: what stands before and behind the first [c]. *)
Fixpoint split_at (c : ascii) (s : cstring) : option (cstring * cstring) :=
  match s with
  | [] => None
  | x :: r => if bool_decide (x = c) then Some ([], r)
              else match split_at c r with Some (a, b) => Some (x :: a, b) | None => None end
  end.
(** The loops that skip characters of a text: reading past the memory is undefined. *)
Fixpoint span (p : ascii -> bool) (s : list ascii) : outcome nat :=
  match s with
  | [] => Undef
  | c :: s => if p c then let* n := span p s in Done (S n) else Done 0%nat
  end.

(** [mem]: the memory of the request, in which the end of the token is marked; the
    credentials are [None] when there are none to be read. *)
(* src: server/shttpd/auth.c 325-358 _shttpd_check_authorization *)
Definition basic_credentials (mem : list ascii) (auth : Z) : outcome (option (cstring * cstring) * list ascii) :=
  let* b := span blank_char (drop (Z.to_nat auth + 5) mem) in
  let pp := (Z.to_nat auth + 5 + b)%nat in
  let* n := span token_char (drop pp mem) in
  if bool_decide (n = 0%nat) then Done (None, mem) else
  let* mem := wr mem (Z.of_nat (pp + n)) NUL in
  let* (l, buf) := ws_base64_decode (take n (drop pp mem)) (Z.of_nat n) 4095 in
  if l <=? 0 then Done (None, mem)
  else Done (split_at ":"%char (c_string (take (Z.to_nat l) buf)), mem).

(** [auth], [len]: place and length of the value of the Authorization header in the request. *)
(* src: server/shttpd/auth.c 277-363 _shttpd_check_authorization *)
Definition _shttpd_check_authorization (ctx : shttpd_ctx) (uri : cstring) (mem : list ascii) (auth len : Z)
    : outcome (Z * list ascii) :=
  match find (fun a => strncmp uri (ua_uri a) (length uri) =? 0) (uri_auths ctx) with
  | None => Done (1, mem)
  | Some a =>
      let digest := bool_decide (ua_type a = DIGEST_AUTH) && (20 <? len) &&
        (strncasecmp (drop (Z.to_nat auth) mem) (lit "Digest ") 7 =? 0) in
      let basic := bool_decide (ua_type a = BASIC_AUTH) && (10 <? len) &&
        (strncasecmp (drop (Z.to_nat auth) mem) (lit "Basic ") 6 =? 0) in
      if digest then Done (0, mem)
      else if basic then
        let* (c, mem) := basic_credentials mem auth in
        match c with
        | None => Done (0, mem)
        | Some (user, pass) => let* cb := deref (ua_callback a) in Done (cb user pass, mem)
        end
      else Done (0, mem)
  end.

(** ** The answer to a request without authorization *)
(** [n += snprintf (buf + n, size - n, s)]: what is in [buf], and [n].  With [n] past the
    size, [size - n] is a huge size. *)
Definition append_snprintf (size : Z) (b : Z * cstring) (s : cstring) : outcome (Z * cstring) :=
  let '(n, buf) := b in
  if size <? n then Undef
  else Done (n + Z.of_nat (length s), buf ++ take (Z.to_nat (size - n - 1)) s).
Definition dec (z : Z) : cstring := lit (pretty (Z.to_N z)).
Definition quote : cstring := [chr 34].
Definition eol : cstring := [CR; LF].

(* src: server/shttpd/auth.c 398-407 _shttpd_send_authorization_request *)
Definition challenge (realm : cstring) (now : Z) (t : auth_type) : cstring :=
  match t with
  | DIGEST_AUTH => lit "WWW-Authenticate: Digest qop=" ++ quote ++ lit "auth" ++ quote ++
      lit ", realm=" ++ quote ++ realm ++ quote ++ lit ", nonce=" ++ quote ++ dec now ++ quote
  | BASIC_AUTH => lit "WWW-Authenticate: Basic realm=" ++ quote ++ realm ++ quote
  end.
(* src: server/shttpd/auth.c 391-411 _shttpd_send_authorization_request *)
Fixpoint challenges (realm : cstring) (now : Z) (l : list uri_auth) (b d : bool) (buf : Z * cstring)
    : outcome (Z * cstring) :=
  match l with
  | [] => Done buf
  | a :: l =>
      match ua_type a with
      | DIGEST_AUTH =>
          if d then challenges realm now l b d buf else
          let* buf := if b then append_snprintf 512 buf eol else Done buf in
          let* buf := append_snprintf 512 buf (challenge realm now DIGEST_AUTH) in
          challenges realm now l b true buf
      | BASIC_AUTH =>
          if b then challenges realm now l b d buf else
          let* buf := if d then append_snprintf 512 buf eol else Done buf in
          let* buf := append_snprintf 512 buf (challenge realm now BASIC_AUTH) in
          challenges realm now l true d buf
      end
  end.
(* src: server/shttpd/auth.c 380-414 _shttpd_send_authorization_request *)
Definition _shttpd_send_authorization_request (ctx : shttpd_ctx) (now : Z) : outcome (Z * cstring) :=
  let* b := challenges (opt_auth_realm ctx) now (uri_auths ctx) false false
    (Z.of_nat (length (lit "Unauthorized" ++ eol)), lit "Unauthorized" ++ eol) in
  Done (401, snd b).

(** ** The decision *)
(** A memory that is read as a C string must hold a terminator. *)
Definition cstr (mem : list ascii) : outcome cstring :=
  if bool_decide (NUL ∈ mem) then Done (c_string mem) else Undef.
(** The aliases, of the form [uri=path]: the one whose URI the request's starts with. *)
(* src: server/shttpd/shttpd.c 130-154 is_alias *)
Fixpoint is_alias (ws : list (cstring * nat)) (mem : list ascii) : outcome (option (cstring * nat)) :=
  match ws with
  | [] => Done None
  | (s, len) :: ws =>
      match split_at "="%char (take len s) with
      | None | Some ([], _) => is_alias ws mem
      | Some (a_uri, _) =>
          if Z.of_nat (length mem) <? Z.of_nat (length a_uri) then Undef
          else if bool_decide (take (length a_uri) mem = a_uri) then Done (Some (s, len)) else is_alias ws mem
      end
  end.

Inductive answer :=
  | SendError (status : Z) (reason : cstring)
  | CallHandler (r : registered_uri).
Definition URI_MAX : Z := 16384.
Definition find_char (c : ascii) (s : cstring) : option nat :=
  match split_at c s with Some (a, _) => Some (length a) | None => None end.

(** Decoding and removing dots, both in place. *)
(* src: server/shttpd/shttpd.c 546-547 decide_what_to_do *)
Definition clean_path (mem : list ascii) : outcome (list ascii) :=
  let* u := cstr mem in
  let* (_, mem) := _shttpd_url_decode mem 0 (Z.of_nat (length u)) 0 (Z.of_nat (length u) + 1) in
  let* u := cstr mem in
  let* t := remove_all_leading_and_double_dots u in
  Done (blit mem 0 (t ++ [NUL])).
(** The URI in its buffer, the query split off; the query is given by its place. *)
(* src: server/shttpd/shttpd.c 543-547 decide_what_to_do *)
Definition clean_uri (mem : list ascii) : outcome (option nat * list ascii) :=
  let* u := cstr mem in
  let '(query, mem) :=
    match find_char "?"%char u with Some i => (Some (S i), <[i := NUL]> mem) | None => (None, mem) end in
  let* mem := clean_path mem in Done (query, mem).

(** [uri]: the buffer of the URI; [mem], [auth], [len]: as for the authorization.  The path
    of a file that the code goes on to build is not used for an answer. *)
(* src: server/shttpd/shttpd.c 532-576 decide_what_to_do *)
Definition decide_what_to_do (ctx : shttpd_ctx) (now : Z) (uri mem : list ascii) (auth len : Z)
    : outcome (answer * option nat * list ascii * list ascii) :=
  let* (query, uri) := clean_uri uri in
  let* u := cstr uri in
  if URI_MAX <=? Z.of_nat (length u) + Z.of_nat (length (opt_root ctx)) then
    Done (SendError 400 (lit "URI is too long"), query, uri, mem)
  else
    let* _ := is_alias (words (opt_aliases ctx)) uri in
    let* (authorized, mem) := _shttpd_check_authorization ctx u mem auth len in
    if negb (authorized =? 1) then
      let* (status, reason) := _shttpd_send_authorization_request ctx now in
      Done (SendError status reason, query, uri, mem)
    else
      let* r := _shttpd_is_registered_uri ctx u in
      match r with
      | Some r => Done (CallHandler r, query, uri, mem)
      | None => Done (SendError 403 (lit "Forbidden"), query, uri, mem)
      end.

(** ** The context of the daemon (server/wsmand-listener.c) *)
Definition ANON_IDENTIFY_PATH : cstring := lit "/wsman-anon/identify".
Definition DEFAULT_CIMINDICATION_PATH : cstring := lit "/cimindicationlistener".
(** The options of the daemon that decide who is let in. *)
Record wsmand_options := Options {
  service_path : cstring; digest_password_file : option cstring; basic_password_file : option cstring;
  basic_callback : option (cstring -> cstring -> Z) }.
(* src: server/wsmand-listener.c 420-435 protect_uri *)
Definition protect_uri (o : wsmand_options) (ctx : shttpd_ctx) (uri : cstring) : shttpd_ctx :=
  let ctx := match digest_password_file o with
    | Some f => shttpd_protect_uri true ctx uri (Some f) None 1 | None => ctx end in
  match basic_callback o with
  | Some cb => shttpd_protect_uri true ctx uri (basic_password_file o) (Some cb) 0 | None => ctx end.
(** [root]: the current directory.  [ENABLE_EVENTING_SUPPORT] is a switch of the build that is on. *)
(* src: server/wsmand-listener.c 437-471 create_shttpd_context *)
Definition create_shttpd_context (o : wsmand_options) (root : cstring) (server_callback : H) : shttpd_ctx :=
  let ctx := Ctx [] [] root None (lit "OPENWSMAN") in
  let ctx := shttpd_register_uri true ctx (service_path o) server_callback in
  let ctx := protect_uri o ctx (service_path o) in
  let ctx := shttpd_register_uri true ctx ANON_IDENTIFY_PATH server_callback in
  let ctx := shttpd_register_uri true ctx (DEFAULT_CIMINDICATION_PATH ++ lit "/*") server_callback in
  protect_uri o ctx DEFAULT_CIMINDICATION_PATH.
End Server.

(** ** Patterns match what they mean *)
(** A star stands for any text, another character for itself. *)
Inductive glob : cstring -> cstring -> Prop :=
  | glob_nil : glob [] []
  | glob_star r a t : glob r t -> glob ("*"%char :: r) (a ++ t)
  | glob_char c r t : c <> "*"%char -> glob r t -> glob (c :: r) (c :: t).

Lemma glob_star_iff r t : glob ("*"%char :: r) t <-> exists u, u `suffix_of` t /\ glob r u.
Proof.
  split.
  - intros G. inversion G as [|r' a u G' E1 E2|]; subst; [|done]. exists u. split; [now exists a|done].
  - intros (u & (a & ->) & G). now constructor.
Qed.
Lemma suffix_cons_iff (u : cstring) x t : u `suffix_of` x :: t <-> u = x :: t \/ u `suffix_of` t.
Proof.
  split.
  - intros ([|y a] & E); simpl in E; [now left|]. injection E as -> ->. right. now exists a.
  - intros [->|H]; [done|]. now apply suffix_cons_r.
Qed.

(** What the answers of the matcher mean. *)
Definition match_ok (r t : cstring) : Prop :=
  match match_regexp r t with
  | Done true => glob r t
  | Done false => ~ glob r t
  | Undef => forall u, u `suffix_of` t -> ~ glob r u
  | _ => False
  end.
Lemma match_star_ok r : (forall t, match_ok r t) -> forall t, match_ok ("*"%char :: r) t.
Proof.
  intros Hr. unfold match_ok. cbn [match_regexp]. rewrite bool_decide_true by done.
  induction t as [|x t IH].
  - specialize (Hr []). unfold match_ok in Hr. destruct (match_regexp r []) as [[]| | |]; cbn [obind]; try done.
    + apply glob_star_iff. now exists [].
    + intros u Hu G. apply glob_star_iff in G as (v & Hv & G). apply suffix_nil_inv in Hu as ->.
      apply suffix_nil_inv in Hv as ->. done.
    + intros u Hu G. apply glob_star_iff in G as (v & Hv & G). apply (Hr v); [now trans u|done].
  - specialize (Hr (x :: t)). unfold match_ok in Hr. destruct (match_regexp r (x :: t)) as [[]| | |]; cbn [obind]; try done.
    + apply glob_star_iff. now exists (x :: t).
    + revert IH. match goal with |- context [(?f t)] => destruct (f t) as [[]| | |] end; try done; intros IH.
      * apply glob_star_iff in IH as (v & Hv & G). apply glob_star_iff. exists v. split; [now apply suffix_cons_r|done].
      * intros G. apply glob_star_iff in G as (v & Hv & G). apply suffix_cons_iff in Hv as [->|Hv]; [done|].
        apply IH, glob_star_iff. eauto.
      * intros u Hu G. apply glob_star_iff in G as (v & Hv & G).
        assert (V : v `suffix_of` x :: t) by now trans u. apply suffix_cons_iff in V as [->|V]; [done|].
        apply (IH t); [done|]. apply glob_star_iff. eauto.
    + intros u Hu G. apply glob_star_iff in G as (v & Hv & G). apply (Hr v); [now trans u|done].
Qed.
Lemma match_regexp_ok r : forall t, match_ok r t.
Proof.
  induction r as [|c r IH].
  - intros t. unfold match_ok. cbn [match_regexp]. destruct (bool_decide_reflect (t = [])) as [->|N]; [constructor|].
    intros G. inversion G; congruence.
  - destruct (decide (c = "*"%char)) as [->|N]; [now apply match_star_ok|].
    intros t. unfold match_ok. cbn [match_regexp]. rewrite bool_decide_false by done.
    destruct t as [|x t]; [intros G; inversion G; congruence|].
    destruct (bool_decide_reflect (c = x)) as [<-|Nx]; [|intros G; inversion G; congruence].
    specialize (IH t). unfold match_ok in IH. destruct (match_regexp r t) as [[]| | |]; try done.
    + now constructor.
    + intros G. inversion G; congruence.
    + intros u Hu G. inversion G as [|r' a v G' E1 E2|c' r' v N' G' E1 E2]; subst; [congruence|].
      apply (IH v); [|done]. apply suffix_cons_iff in Hu as [[= ->]|Hu]; [done|]. etrans; [|exact Hu]. now exists [c].
Qed.
Lemma match_literal r t : "*"%char ∉ r -> match_regexp r t = Done (bool_decide (r = t)).
Proof.
  revert t. induction r as [|c r IH]; intros t N; cbn [match_regexp].
  - f_equal. apply bool_decide_ext. split; congruence.
  - apply not_elem_of_cons in N as [Nc N]. rewrite bool_decide_false by congruence. destruct t as [|x t].
    + now rewrite bool_decide_false.
    + destruct (bool_decide_reflect (c = x)) as [<-|Nx].
      * rewrite IH by done. f_equal. apply bool_decide_ext. split; congruence.
      * rewrite bool_decide_false by congruence. done.
Qed.
Lemma match_any t : match_regexp ["*"%char] t = Done true.
Proof.
  cbn [match_regexp]. rewrite bool_decide_true by done. induction t as [|x t IH]; cbn [obind]; [done|exact IH].
Qed.
Lemma match_prefix p t : "*"%char ∉ p -> match_regexp (p ++ lit "*") t = Done (starts_with p t).
Proof.
  revert t. induction p as [|c p IH]; intros t N; [apply match_any|].
  apply not_elem_of_cons in N as [Nc N]. simpl app. cbn [match_regexp starts_with].
  rewrite bool_decide_false by congruence. destruct t as [|x t]; [done|].
  destruct (bool_decide (c = x)); [now apply IH|done].
Qed.

Lemma match_regexp_means (r t : cstring) :
  (match_regexp r t = Done true <-> glob r t) /\
  (match_regexp r t = Done true \/ match_regexp r t = Done false \/ match_regexp r t = Undef) /\
  ("*"%char ∉ r -> match_regexp r t = Done (bool_decide (r = t)) /\
     match_regexp (r ++ lit "*") t = Done (starts_with r t)).
Proof.
  split; [|split].
  - pose proof (match_regexp_ok r t) as M. unfold match_ok in M. destruct (match_regexp r t) as [[]| | |]; try done.
    split; [done|]. intros G. destruct (M t); done.
  - pose proof (match_regexp_ok r t) as M. unfold match_ok in M. destruct (match_regexp r t) as [[]| | |]; try done; auto.
  - intros N. split; [now apply match_literal|now apply match_prefix].
Qed.

(** A pattern matches the texts it means: a star stands for any text, any other character
    for itself; the answer is yes exactly for these, no only for others, and the only
    other outcome is the read behind the text after a failed star, which no pattern
    without a star and no pattern with its star at the end meets. *)
Theorem match_regexp_spec (r t : cstring) :
  (match_regexp r t = Done true <-> glob r t) /\
  (match_regexp r t = Done true \/ match_regexp r t = Done false \/ match_regexp r t = Undef) /\
  ("*"%char ∉ r -> match_regexp r t = Done (bool_decide (r = t)) /\
     match_regexp (r ++ lit "*") t = Done (starts_with r t)).
Proof. now apply match_regexp_means. Qed.
(** The read behind the text. *)
Example match_regexp_overrun : match_regexp (lit "*b") (lit "aa") = Undef.
Proof. reflexivity. Qed.

(** ** The URI of a request *)
Definition raw_path (raw : cstring) : cstring :=
  match split_at "?"%char raw with Some (a, _) => a | None => raw end.
(** The path that handlers are looked up with. *)
Definition request_path (raw : cstring) : cstring :=
  squeeze false (skip_while (fun c => bool_decide (c = "."%char)) (c_string (pct_decode (raw_path raw)))).

Lemma cstr_app u r : cstr (u ++ NUL :: r) = Done (c_string u).
Proof.
  unfold cstr. rewrite bool_decide_true; [now rewrite c_string_app_nul|].
  apply elem_of_app. right. now left.
Qed.
Lemma squeeze_no_nul s after : no_nul s -> no_nul (squeeze after s).
Proof. intros N H. apply N. eapply elem_of_submseteq; [exact H|]. apply sublist_submseteq, squeeze_sublist. Qed.
Lemma skip_while_no_nul p s : no_nul s -> no_nul (skip_while p s).
Proof. intros N H. apply N. eapply elem_of_submseteq; [exact H|]. apply sublist_submseteq, skip_while_sublist. Qed.
Lemma request_path_no_nul raw : no_nul (request_path raw).
Proof. apply squeeze_no_nul, skip_while_no_nul, c_string_no_nul. Qed.
Lemma pct_decode_length s : (length (pct_decode s) <= length s)%nat.
Proof.
  remember (length s) as n eqn:E. assert (H : (length s <= n)%nat) by lia. rewrite E. clear E. revert s H.
  induction n as [|n IH]; intros [|c r] H; simpl in H; try lia; try done. rewrite pct_decode_cons.
  destruct (_ && _ && _); cbn [length].
  - assert (L : (length (tail (tail r)) <= length r)%nat) by (destruct r as [|? [|? ?]]; simpl; lia).
    pose proof (IH (tail (tail r)) ltac:(lia)). lia.
  - pose proof (IH r ltac:(lia)). lia.
Qed.
(** Rewriting a text in place over a shorter one. *)
Lemma blit_front {A} (m l : list A) : (length l <= length m)%nat -> blit m 0 l = l ++ drop (length l) m.
Proof. done. Qed.

(** The two passes over the path. *)
Lemma clean_path_eq u rest : no_nul u ->
  let t := squeeze false (skip_while (fun c => bool_decide (c = "."%char)) (c_string (pct_decode u))) in
  exists slack, clean_path (u ++ NUL :: rest) = Done (t ++ NUL :: slack ++ rest) /\
    length (t ++ NUL :: slack) = S (length u).
Proof.
  intros N. unfold clean_path. rewrite cstr_app, c_string_id by done. cbn [obind]. pose proof (pct_decode_length u) as L.
  pose proof (url_decode_ok (u ++ NUL :: rest) 0 0 (length u + 1) u) as D. cbv zeta in D.
  replace (Z.of_nat (length u + 1)) with (Z.of_nat (length u) + 1) in D by lia.
  change (Z.of_nat 0) with 0 in D. rewrite D.
  2: { unfold text_at. rewrite drop_0. replace (u ++ NUL :: rest) with ((u ++ [NUL]) ++ rest) by now rewrite <- app_assoc.
    apply take_app_length'. rewrite length_app. done. }
  2-4: rewrite ?length_app; simpl; lia.
  clear D. rewrite take_ge by lia. cbn [obind].
  set (d := pct_decode u) in *.
  rewrite blit_front by (rewrite !length_app; simpl; lia). rewrite <- app_assoc. simpl app.
  rewrite cstr_app. cbn [obind]. unfold remove_all_leading_and_double_dots.
  set (w := skip_while _ _). rewrite remove_dots_loop_eq by lia. cbn [obind app].
  assert (Lw : (length (squeeze false w) <= length d)%nat).
  { transitivity (length w); [apply sublist_length, squeeze_sublist|].
    transitivity (length (c_string d)); [apply skip_while_length|apply c_string_length]. }
  set (t := squeeze false w) in *.
  exists (drop (length t + 1) (d ++ [NUL]) ++ drop (length d + 1) (u ++ [NUL])).
  rewrite blit_front by (rewrite !length_app; simpl; lia). rewrite <- app_assoc. simpl app. split.
  2: { rewrite length_app. cbn [length]. rewrite length_app, !length_drop, !length_app. simpl. lia. }
  do 3 f_equal. rewrite !length_app. cbn [length].
  rewrite (cons_middle NUL d), (cons_middle NUL u), !(app_assoc _ [NUL]).
  rewrite (drop_app_le (u ++ [NUL])) by (rewrite length_app; simpl; lia).
  rewrite drop_app_le by (rewrite length_app; simpl; lia). now rewrite app_assoc.
Qed.

Lemma split_at_spec c s : match split_at c s with
  | Some (a, b) => s = a ++ c :: b /\ c ∉ a
  | None => c ∉ s
  end.
Proof.
  induction s as [|x s IH]; [apply not_elem_of_nil|]. cbn [split_at].
  destruct (bool_decide_reflect (x = c)) as [->|N]; [split; [done|apply not_elem_of_nil]|].
  destruct (split_at c s) as [[a b]|].
  - destruct IH as [-> Na]. split; [done|]. apply not_elem_of_cons. split; congruence.
  - apply not_elem_of_cons. split; congruence.
Qed.

Lemma clean_uri_spec raw : no_nul raw -> exists query uri, clean_uri (raw ++ [NUL]) = Done (query, uri) /\
  cstr uri = Done (request_path raw) /\
  match split_at "?"%char raw with
  | Some (a, q) => query = Some (S (length a)) /\ c_string (drop (S (length a)) uri) = q
  | None => query = None
  end.
Proof.
  intros N. unfold clean_uri. rewrite cstr_app, c_string_id by done. cbn [obind]. unfold find_char, request_path, raw_path.
  pose proof (split_at_spec "?"%char raw) as S. destruct (split_at "?"%char raw) as [[a q]|].
  - destruct S as [-> _].
    assert (Na : no_nul a) by (intros H; apply N, elem_of_app; now left).
    assert (Nq : no_nul q) by (intros H; apply N, elem_of_app; right; now right).
    rewrite <- app_assoc. simpl app.
    replace (<[length a := NUL]> (a ++ "?"%char :: q ++ [NUL])) with (a ++ NUL :: (q ++ [NUL]))
      by (rewrite insert_app_r_alt by lia; rewrite Nat.sub_diag; done).
    destruct (clean_path_eq a (q ++ [NUL]) Na) as (slack & -> & L). cbn [obind]. eexists _, _.
    split; [reflexivity|]. split; [|split; [done|]].
    + rewrite cstr_app, c_string_id; [done|]. apply squeeze_no_nul, skip_while_no_nul, c_string_no_nul.
    + rewrite cons_middle, app_assoc, app_assoc, <- (app_assoc _ [NUL] slack). rewrite <- L, drop_app_length.
      now apply c_string_stop.
  - destruct (clean_path_eq raw [] N) as (slack & -> & L). cbn [obind]. eexists _, _.
    split; [reflexivity|]. split; [|done].
    rewrite cstr_app, c_string_id; [done|]. apply squeeze_no_nul, skip_while_no_nul, c_string_no_nul.
Qed.

(** ** Who gets in *)
Section Access.
Context {H : Type}.
Implicit Types ctx : @shttpd_ctx H.

(** The entry that protects a path: the first one whose URI the path is a prefix of. *)
Definition protecting ctx (path : cstring) : option uri_auth :=
  find (fun a => starts_with path (ua_uri a)) (uri_auths ctx).
(** The header holds Basic credentials that the entry accepts. *)
Definition accepts (a : uri_auth) (mem : list ascii) (auth len : Z) : Prop :=
  ua_type a = BASIC_AUTH /\ 10 < len /\
  lower (take 6 (drop (Z.to_nat auth) mem)) = lit "basic " /\
  exists user pass cb mem', basic_credentials mem auth = Done (Some (user, pass), mem') /\
    ua_callback a = Some cb /\ cb user pass = 1.
Definition let_in ctx (path : cstring) (mem : list ascii) (auth len : Z) : Prop :=
  match protecting ctx path with None => True | Some a => accepts a mem auth len end.
Definition first_match (l : list registered_uri) (path : cstring) (r : @registered_uri H) : Prop :=
  exists l1 l2, l = l1 ++ r :: l2 /\ glob (ru_uri r) path /\
    Forall (fun r' => match_regexp (ru_uri r') path = Done false) l1.

Lemma is_registered_some l path r : is_registered l path = Done (Some r) <-> first_match l path r.
Proof.
  induction l as [|r' l IH]; cbn [is_registered].
  - split; [done|]. intros ([|? ?] & l2 & E & _); discriminate.
  - pose proof (proj1 (match_regexp_means (ru_uri r') path)) as G.
    destruct (match_regexp (ru_uri r') path) as [[]| | |] eqn:M; cbn [obind].
    + split.
      * intros [= <-]. exists [], l. split; [done|]. split; [now apply G|constructor].
      * intros ([|r1 l1] & l2 & [= -> E] & G' & F); [done|]. apply Forall_cons in F as [F _]. congruence.
    + rewrite IH. split.
      * intros (l1 & l2 & -> & G' & F). exists (r' :: l1), l2. split; [done|]. split; [done|]. now constructor.
      * intros ([|r1 l1] & l2 & [= -> E] & G' & F); [apply G in G'; discriminate|].
        apply Forall_cons in F as [_ F]. exists l1, l2. auto.
    + split; [done|]. intros ([|r1 l1] & l2 & [= -> E] & G' & F); [apply G in G'; discriminate|].
      apply Forall_cons in F as [F _]. congruence.
    + split; [done|]. intros ([|r1 l1] & l2 & [= -> E] & G' & F); [apply G in G'; discriminate|].
      apply Forall_cons in F as [F _]. congruence.
    + split; [done|]. intros ([|r1 l1] & l2 & [= -> E] & G' & F); [apply G in G'; discriminate|].
      apply Forall_cons in F as [F _]. congruence.
Qed.

Lemma strncmp_nil_r (a : cstring) n : strncmp a [] (S n) = 0 <-> a = [] \/ peek a = NUL.
Proof.
  destruct a as [|x a]; cbn [strncmp peek]; [tauto|]. split.
  - intros E. right. now apply code_inj.
  - intros [E|E]; [done|]. now rewrite E.
Qed.
Lemma strncmp_full (a b : cstring) : no_nul b -> strncmp a b (length b) = 0 <-> take (length b) a = b.
Proof.
  revert a. induction b as [|y b IH]; intros a N; [now destruct a|]. apply not_elem_of_cons in N as [Ny N].
  pose proof (code_nul_pos y ltac:(congruence)). destruct a as [|x a]; cbn [strncmp length take].
  - split; [lia|discriminate].
  - destruct (Z.eqb_spec (code x) (code y)) as [E|E].
    + apply code_inj in E as ->. rewrite IH by done. split; [now intros ->|now intros [= ->]].
    + split; [lia|]. intros [= -> _]. done.
Qed.
Lemma scheme_iff (text scheme : cstring) : no_nul scheme -> lower scheme = scheme ->
  strncasecmp text scheme (length scheme) =? 0 = bool_decide (lower (take (length scheme) text) = scheme).
Proof.
  intros N E. apply eq_true_iff_eq. rewrite Z.eqb_eq, bool_decide_eq_true. unfold strncasecmp. rewrite E, strncmp_full by done.
  unfold lower. now rewrite firstn_map.
Qed.

Lemma check_authorization_one ctx path mem auth len : no_nul path -> Forall (fun a => no_nul (ua_uri a)) (uri_auths ctx) ->
  (exists mem', _shttpd_check_authorization ctx path mem auth len = Done (1, mem')) <-> let_in ctx path mem auth len.
Proof.
  intros N Na. unfold _shttpd_check_authorization, let_in, protecting.
  rewrite (find_ext_in _ (fun a => starts_with path (ua_uri a))).
  2: { intros a Ha. apply strncmp_prefix; [done|]. rewrite Forall_forall in Na. now apply Na. }
  destruct (find _ _) as [a|]; [|split; [done|eauto]]. unfold accepts.
  change 6%nat with (length (lit "basic ")).
  assert (Sc : strncasecmp (drop (Z.to_nat auth) mem) (lit "Basic ") (length (lit "basic ")) =? 0 =
    bool_decide (lower (take (length (lit "basic ")) (drop (Z.to_nat auth) mem)) = lit "basic ")).
  { rewrite <- scheme_iff; [done|apply (bool_decide_eq_true_1 _); vm_compute; reflexivity|done]. }
  rewrite Sc. destruct (bool_decide_reflect (ua_type a = BASIC_AUTH)) as [T|T].
  - rewrite (bool_decide_false (ua_type a = DIGEST_AUTH)) by congruence. cbn [andb].
    destruct (Z.ltb_spec 10 len); cbn [andb]; [|split; [intros (? & ?); discriminate|lia]].
    destruct (bool_decide_reflect (lower (take (length (lit "basic ")) (drop (Z.to_nat auth) mem)) = lit "basic ")) as [E|E];
      [|split; [intros (? & ?); discriminate|tauto]].
    destruct (basic_credentials mem auth) as [[[[user pass]|] mem']| | |]; cbn [obind];
      try (split; [intros (? & ?); discriminate|intros (_ & _ & _ & ? & ? & ? & ? & ? & _); discriminate]).
    destruct (ua_callback a) as [cb|]; cbn [deref obind].
    + split.
      * intros (m & [= E1 <-]). split; [done|]. split; [done|]. split; [done|]. exists user, pass, cb, mem'. auto.
      * intros (_ & _ & _ & u & p & cb' & m & [= -> -> ->] & [= ->] & ->). eauto.
    + split; [intros (? & ?); discriminate|]. intros (_ & _ & _ & u & p & cb' & m & _ & ? & _). discriminate.
  - cbn [andb]. split; [|tauto]. intros (m & E). destruct (_ && _); discriminate.
Qed.

Lemma handler_reached ctx now raw mem auth len r :
  no_nul raw -> opt_aliases ctx = None -> Forall (fun a => no_nul (ua_uri a)) (uri_auths ctx) ->
  (exists query uri' mem', decide_what_to_do ctx now (raw ++ [NUL]) mem auth len = Done (CallHandler r, query, uri', mem')) <->
  Z.of_nat (length (request_path raw)) + Z.of_nat (length (opt_root ctx)) < URI_MAX /\
  first_match (registered_uris ctx) (request_path raw) r /\ let_in ctx (request_path raw) mem auth len.
Proof.
  intros N A Na. rewrite <- is_registered_some.
  rewrite <- check_authorization_one by (done || apply request_path_no_nul).
  unfold decide_what_to_do. destruct (clean_uri_spec raw N) as (query & uri & -> & C & _).
  cbn [obind]. rewrite C. cbn [obind]. rewrite A. cbn [words is_alias obind].
  destruct (Z.leb_spec URI_MAX (Z.of_nat (length (request_path raw)) + Z.of_nat (length (opt_root ctx)))) as [L|L].
  { split; [intros (? & ? & ? & ?); discriminate|lia]. }
  destruct (_shttpd_check_authorization ctx (request_path raw) mem auth len) as [[z mem']| | |]; cbn [obind];
    try (split; [intros (? & ? & ? & ?); discriminate|intros (_ & _ & ? & ?); discriminate]).
  destruct (Z.eqb_spec z 1) as [->|Nz]; cbn [negb].
  - unfold _shttpd_is_registered_uri. destruct (is_registered (registered_uris ctx) (request_path raw)) as [[r'|]| | |]; cbn [obind];
      try (split; [intros (? & ? & ? & ?); discriminate|intros (_ & ? & _); discriminate]).
    split.
    + intros (? & ? & ? & [= -> _ _ _]). eauto.
    + intros (_ & [= ->] & _). eauto.
  - split; [|intros (_ & _ & ? & [= ? _]); congruence].
    intros (? & ? & ? & E). destruct (_shttpd_send_authorization_request ctx now) as [[? ?]| | |]; discriminate.
Qed.

(** C33. A request reaches a handler exactly when its path, decoded and without dot segments,
    is not too long, the first pattern that matches it is the handler's, and it is let
    through: either no entry protects the path, or the first entry that does is a Basic one,
    the header holds readable credentials, and the password check answers 1 for them. *)
Theorem handler_reached_iff ctx now raw mem auth len r :
  no_nul raw -> opt_aliases ctx = None -> Forall (fun a => no_nul (ua_uri a)) (uri_auths ctx) ->
  (exists query uri' mem', decide_what_to_do ctx now (raw ++ [NUL]) mem auth len = Done (CallHandler r, query, uri', mem')) <->
  Z.of_nat (length (request_path raw)) + Z.of_nat (length (opt_root ctx)) < URI_MAX /\
  first_match (registered_uris ctx) (request_path raw) r /\ let_in ctx (request_path raw) mem auth len.
Proof. now apply handler_reached. Qed.

(** *** The daemon *)
Definition listener_path (path : cstring) : bool := starts_with (DEFAULT_CIMINDICATION_PATH ++ lit "/") path.
Lemma glob_literal r t : "*"%char ∉ r -> glob r t <-> r = t.
Proof.
  intros N. rewrite <- (proj1 (match_regexp_means r t)), match_literal by done. split.
  - intros [= E]. now apply bool_decide_eq_true in E.
  - intros ->. now rewrite bool_decide_true.
Qed.
Lemma glob_prefix p t : "*"%char ∉ p -> glob (p ++ lit "*") t <-> starts_with p t = true.
Proof. intros N. rewrite <- (proj1 (match_regexp_means _ t)), match_prefix by done. split; [now intros [= E]|now intros ->]. Qed.
Lemma no_star (s : cstring) : bool_decide ("*"%char ∉ s) = true -> "*"%char ∉ s.
Proof. apply bool_decide_eq_true_1. Qed.

Section Daemon.
Context (o : wsmand_options) (root : cstring) (cb : cstring -> cstring -> Z) (server_callback : H).
Context (Cb : basic_callback o = Some cb) (Dig : digest_password_file o = None).
Context (Star : "*"%char ∉ service_path o) (Nul : no_nul (service_path o)).
Let ctx := create_shttpd_context o root server_callback.
Let entry uri : uri_auth := UriAuth uri (basic_password_file o) BASIC_AUTH (Some cb).

Lemma daemon_uri_auths : uri_auths ctx = [entry DEFAULT_CIMINDICATION_PATH; entry (service_path o)].
Proof. unfold ctx, create_shttpd_context, protect_uri. now rewrite Dig, Cb. Qed.
Lemma daemon_registered : registered_uris ctx =
  [Registered (service_path o) server_callback; Registered ANON_IDENTIFY_PATH server_callback;
   Registered (DEFAULT_CIMINDICATION_PATH ++ lit "/*") server_callback].
Proof. unfold ctx, create_shttpd_context, protect_uri. now rewrite Dig, Cb. Qed.
Lemma daemon_root : opt_root ctx = root /\ opt_aliases ctx = None.
Proof. unfold ctx, create_shttpd_context, protect_uri. now rewrite Dig, Cb. Qed.

Lemma daemon_matches path : (exists r, first_match (registered_uris ctx) path r /\ ru_callback r = server_callback) <->
  path = service_path o \/ path = ANON_IDENTIFY_PATH \/ listener_path path = true.
Proof.
  assert (M1 := match_literal (service_path o) path Star).
  assert (M2 := match_literal ANON_IDENTIFY_PATH path (no_star ANON_IDENTIFY_PATH ltac:(vm_compute; reflexivity))).
  assert (M3 := match_prefix (DEFAULT_CIMINDICATION_PATH ++ lit "/") path (no_star (DEFAULT_CIMINDICATION_PATH ++ lit "/") ltac:(vm_compute; reflexivity))).
  change (match_regexp (DEFAULT_CIMINDICATION_PATH ++ lit "/*") path = Done (listener_path path)) in M3.
  setoid_rewrite <- is_registered_some. rewrite daemon_registered. cbn [is_registered ru_uri].
  rewrite M1, M2, M3. cbn [obind].
  destruct (bool_decide_reflect (service_path o = path)) as [E1|E1]; [split; eauto|].
  destruct (bool_decide_reflect (ANON_IDENTIFY_PATH = path)) as [E2|E2]; [split; eauto|].
  destruct (listener_path path); [split; eauto|]. split.
  - intros (r & [=] & _).
  - intros [?|[?|?]]; congruence.
Qed.
Lemma daemon_lets_in path mem auth len : let_in ctx path mem auth len <->
  (starts_with path DEFAULT_CIMINDICATION_PATH || starts_with path (service_path o) = true ->
   10 < len /\ lower (take 6 (drop (Z.to_nat auth) mem)) = lit "basic " /\
   exists user pass mem', basic_credentials mem auth = Done (Some (user, pass), mem') /\ cb user pass = 1).
Proof.
  unfold let_in, protecting. rewrite daemon_uri_auths. cbn [find ua_uri entry].
  assert (A : forall uri, accepts (entry uri) mem auth len <->
    10 < len /\ lower (take 6 (drop (Z.to_nat auth) mem)) = lit "basic " /\
    exists user pass mem', basic_credentials mem auth = Done (Some (user, pass), mem') /\ cb user pass = 1).
  { intros uri. unfold accepts. cbn [entry ua_type ua_callback]. split.
    - intros (_ & L & E & u & p & cb' & m & B & [= <-] & C). eauto 10.
    - intros (L & E & u & p & m & B & C). eauto 15. }
  destruct (starts_with path DEFAULT_CIMINDICATION_PATH); cbn [orb]; [rewrite A; tauto|].
  destruct (starts_with path (service_path o)); [rewrite A; tauto|]. split; [discriminate|done].
Qed.
End Daemon.

(** C23. The doors of the daemon with Basic authentication: its callback is reached through the
    service path, the path of the anonymous Identify and the paths below
    [/cimindicationlistener/]; credentials that the password check accepts are asked for
    exactly when the path is a prefix of the service path or of [/cimindicationlistener],
    so neither Identify nor anything below the indication listener is asked for them. *)
Theorem daemon_doors (o : wsmand_options) root cb (server_callback : H) now raw mem auth len :
  basic_callback o = Some cb -> digest_password_file o = None ->
  "*"%char ∉ service_path o -> no_nul (service_path o) -> no_nul raw ->
  Z.of_nat (length (request_path raw)) + Z.of_nat (length root) < URI_MAX ->
  (exists r query uri' mem', ru_callback r = server_callback /\
    decide_what_to_do (create_shttpd_context o root server_callback) now (raw ++ [NUL]) mem auth len =
    Done (CallHandler r, query, uri', mem')) <->
  (request_path raw = service_path o \/ request_path raw = ANON_IDENTIFY_PATH \/ listener_path (request_path raw) = true) /\
  (starts_with (request_path raw) DEFAULT_CIMINDICATION_PATH || starts_with (request_path raw) (service_path o) = true ->
   10 < len /\ lower (take 6 (drop (Z.to_nat auth) mem)) = lit "basic " /\
   exists user pass mem', basic_credentials mem auth = Done (Some (user, pass), mem') /\ cb user pass = 1).
Proof.
  intros Cb Dig Star Nul N L.
  rewrite <- (daemon_matches o root cb server_callback Cb Dig Star), <- (daemon_lets_in o root cb server_callback Cb Dig).
  pose proof (daemon_root o root cb server_callback Cb Dig) as [R A]. pose proof (daemon_uri_auths o root cb server_callback Cb Dig) as U.
  assert (F : Forall (fun a => no_nul (ua_uri a)) (uri_auths (create_shttpd_context o root server_callback))).
  { rewrite U. repeat constructor; [|exact Nul]. apply (bool_decide_eq_true_1 _). vm_compute. reflexivity. }
  split.
  - intros (r & q & u & m & E & D). pose proof (proj1 (handler_reached _ now raw mem auth len r N A F)) as P.
    destruct P as (_ & M & I); [eauto|]. eauto.
  - intros [(r & M & E) I]. pose proof (proj2 (handler_reached _ now raw mem auth len r N A F)) as P.
    destruct P as (q & u & m & D); [rewrite R; auto|]. exists r, q, u, m. auto.
Qed.
End Access.

(** ** Credentials *)
Lemma span_eq p x c r : Forall (fun a => p a = true) x -> p c = false -> span p (x ++ c :: r) = Done (length x).
Proof.
  intros F N. induction F as [|a x Ha F IH]; cbn [span app length]; [now rewrite N|]. rewrite Ha, IH. done.
Qed.
Lemma E64_token i : 0 <= i < 64 -> token_char (E64 i) = true.
Proof. apply (forall_below 64 (fun i => token_char (E64 i))). vm_compute. reflexivity. Qed.
Lemma enc_token l : forall p1 p2, Forall (fun c => token_char c = true) (enc_from p1 p2 l).
Proof.
  assert (Eq : token_char "="%char = true) by reflexivity.
  pose proof i0_range. pose proof i1_range. pose proof i2_range. pose proof i3_range.
  induction l as [|a|a b|a b c r IH] using triples_ind; intros p1 p2; cbn [enc_from app];
    repeat apply Forall_cons_2; auto using E64_token; constructor.
Qed.
Lemma split_at_first c a b : c ∉ a -> split_at c (a ++ c :: b) = Some (a, b).
Proof.
  induction a as [|x a IH]; intros N; cbn [split_at app]; [now rewrite bool_decide_true|].
  apply not_elem_of_cons in N as [Nx N]. rewrite bool_decide_false by congruence. now rewrite IH.
Qed.
Lemma enc_not_nil l : l <> [] -> enc_from NUL NUL l <> [].
Proof. destruct l as [|? [|? [|? ?]]]; done. Qed.

(** Credentials that a client sends reach the password check as they are: the header made
    of a scheme, blanks and the base64 text of user, colon and password is read back as
    that user and that password, whatever follows; the end of the token is all that
    is written into the request. *)
Theorem basic_auth_roundtrip (user pass pre scheme blanks rest : list ascii) (stop : ascii) :
  ":"%char ∉ user -> no_nul user -> no_nul pass -> Z.of_nat (length user + length pass) <= 4092 ->
  length scheme = 5%nat -> Forall (fun c => blank_char c = true) blanks -> token_char stop = false ->
  exists e, ws_base64_encode (user ++ ":"%char :: pass) (Z.of_nat (length (user ++ ":"%char :: pass))) = Done e /\
    basic_credentials (pre ++ scheme ++ blanks ++ e ++ stop :: rest) (Z.of_nat (length pre)) =
    Done (Some (user, pass), pre ++ scheme ++ blanks ++ e ++ NUL :: rest).
Proof.
  intros Colon Nu Np L Ls Fb Fs. set (l := user ++ ":"%char :: pass).
  assert (Ll : Z.of_nat (length l) <= 4093) by (unfold l; rewrite length_app; simpl; lia).
  exists (enc_from NUL NUL l). split; [apply encode_spec; lia|].
  pose proof (enc_token l NUL NUL) as Te.
  pose proof (decode_encoded l 4095) as D.
  assert (Ne : enc_from NUL NUL l <> []) by (apply enc_not_nil; unfold l; now destruct user).
  set (e := enc_from NUL NUL l) in *. unfold basic_credentials.
  rewrite Nat2Z.id.
  replace (drop (length pre + 5) (pre ++ scheme ++ blanks ++ e ++ stop :: rest)) with (blanks ++ e ++ stop :: rest)
    by (rewrite (app_assoc pre), drop_app_length'; [done|rewrite length_app; lia]).
  destruct e as [|e0 e'] eqn:Ee; [done|]. simpl app at 1.
  rewrite (span_eq _ blanks e0) by (done || (apply Forall_cons in Te as [T0 _]; unfold token_char in T0; now destruct (blank_char e0))).
  rewrite <- Ee in *. cbn [obind].
  assert (Dr : forall c, drop (length pre + 5 + length blanks) (pre ++ scheme ++ blanks ++ e ++ c :: rest) = e ++ c :: rest).
  { intros c. rewrite !app_assoc, <- (app_assoc _ e), drop_app_length'; [done|rewrite !length_app; lia]. }
  rewrite Dr, span_eq by done. cbn [obind]. rewrite bool_decide_false by (rewrite Ee; done).
  rewrite wr_ok by (rewrite !length_app; simpl; lia). cbn [obind].
  replace (<[_:=NUL]> _) with (pre ++ scheme ++ blanks ++ e ++ NUL :: rest).
  2: { rewrite Nat2Z.id, !app_assoc. rewrite insert_app_r_alt by (rewrite !length_app; lia).
    replace (_ - _)%nat with 0%nat by (rewrite !length_app; lia). done. }
  rewrite Dr, take_app_length, D.
  2: { apply (Z.le_trans _ ((4093 + 2) / 3 * 3)); [|vm_compute; discriminate].
    apply Z.mul_le_mono_nonneg_r; [lia|]. apply Z.div_le_mono; lia. }
  cbn [obind]. destruct (Z.leb_spec (Z.of_nat (length l)) 0) as [L0|_].
  { unfold l in L0. rewrite length_app in L0. simpl in L0. lia. }
  rewrite Nat2Z.id, take_ge by lia. rewrite c_string_id.
  - unfold l. now rewrite split_at_first.
  - unfold l. intros H. apply elem_of_app in H as [H|H]; [done|]. apply elem_of_cons in H as [H|H]; [discriminate|done].
Qed.

(** ** The challenge *)
Definition other (t : auth_type) : auth_type := match t with BASIC_AUTH => DIGEST_AUTH | DIGEST_AUTH => BASIC_AUTH end.
Definition has_type (t : auth_type) (l : list uri_auth) : bool := existsb (fun a => bool_decide (ua_type a = t)) l.
(** The schemes that are offered, the first entry's first. *)
Definition offers (realm : cstring) (now : Z) (l : list uri_auth) : cstring :=
  match l with
  | [] => []
  | a :: _ => challenge realm now (ua_type a) ++
      (if has_type (other (ua_type a)) l then eol ++ challenge realm now (other (ua_type a)) else [])
  end.

Lemma pretty_go_length k : forall x s, (x < 10 ^ N.of_nat k)%N -> (String.length (pretty_N_go x s) <= k + String.length s)%nat.
Proof.
  induction k as [|k IH]; intros x s Hx.
  - assert (x = 0%N) as -> by (simpl in Hx; lia). now rewrite pretty_N_go_0.
  - destruct (decide (x = 0%N)) as [->|Nx]; [rewrite pretty_N_go_0; lia|]. rewrite pretty_N_go_step by lia.
    etrans; [apply IH|cbn [String.length]; lia].
    apply N.Div0.div_lt_upper_bound. rewrite <- N.pow_succ_r', <- Nat2N.inj_succ. done.
Qed.
Lemma lit_length s : length (lit s) = String.length s.
Proof. unfold lit. induction s as [|c s IH]; simpl; [done|]. now rewrite IH. Qed.
Lemma dec_length z : 0 <= z < 2 ^ 64 -> (length (dec z) <= 20)%nat.
Proof.
  intros Hz. unfold dec. rewrite lit_length. unfold pretty, pretty_N. destruct (decide _); [simpl; lia|].
  etrans; [apply (pretty_go_length 20)|simpl; lia].
  change (10 ^ N.of_nat 20)%N with 100000000000000000000%N. change (2 ^ 64) with 18446744073709551616 in Hz. lia.
Qed.

Lemma append_ok buf s : (length buf + length s < 512)%nat ->
  append_snprintf 512 (Z.of_nat (length buf), buf) s = Done (Z.of_nat (length (buf ++ s)), buf ++ s).
Proof.
  intros L. unfold append_snprintf. destruct (Z.ltb_spec 512 (Z.of_nat (length buf))); [lia|].
  rewrite take_ge by lia. do 2 f_equal. rewrite length_app. lia.
Qed.
Definition seen (t t' : auth_type) : bool := bool_decide (t = t').

Ltac auth_types :=
  change (bool_decide (BASIC_AUTH = BASIC_AUTH)) with true in *; change (bool_decide (DIGEST_AUTH = DIGEST_AUTH)) with true in *;
  change (bool_decide (BASIC_AUTH = DIGEST_AUTH)) with false in *; change (bool_decide (DIGEST_AUTH = BASIC_AUTH)) with false in *.
(** Which of the schemes are in the buffer already decides what is added. *)
Lemma challenges_both realm now l st : challenges realm now l true true st = Done st.
Proof. induction l as [|a l IH]; cbn [challenges]; [done|]. now destruct (ua_type a). Qed.
Lemma challenges_one t realm now l buf :
  (length buf + 2 + length (challenge realm now (other t)) < 512)%nat ->
  challenges realm now l (seen t BASIC_AUTH) (seen t DIGEST_AUTH) (Z.of_nat (length buf), buf) =
  (let buf' := buf ++ if has_type (other t) l then eol ++ challenge realm now (other t) else [] in
   Done (Z.of_nat (length buf'), buf')).
Proof.
  intros L. cbv zeta. induction l as [|a l IH]; cbn [challenges has_type existsb].
  - now rewrite app_nil_r.
  - assert (E : forall b : bool, (if b then append_snprintf 512 (Z.of_nat (length buf), buf) eol else Done (Z.of_nat (length buf), buf)) =
      Done (Z.of_nat (length (buf ++ if b then eol else [])), buf ++ if b then eol else [])).
    { intros []; [apply append_ok; simpl; lia|now rewrite app_nil_r]. }
    unfold has_type in IH. rewrite !E. cbn [obind].
    destruct t, (ua_type a); cbn [other seen] in *; unfold seen in *; auth_types;
      cbn [orb]; try exact IH;
      (rewrite append_ok by (rewrite length_app; change (length eol) with 2%nat; lia)); cbn [obind];
      rewrite challenges_both, <- (app_assoc buf eol); done.
Qed.

Lemma challenge_ok {H : Type} (ctx : @shttpd_ctx H) now :
  (length (opt_auth_realm ctx) <= 180)%nat -> 0 <= now < 2 ^ 64 ->
  _shttpd_send_authorization_request ctx now =
  Done (401, lit "Unauthorized" ++ eol ++ offers (opt_auth_realm ctx) now (uri_auths ctx)).
Proof.
  intros Lr Hn. pose proof (dec_length now Hn) as Ld. unfold _shttpd_send_authorization_request.
  set (realm := opt_auth_realm ctx) in *.
  assert (Lc : forall t, (length (challenge realm now t) + length (challenge realm now (other t)) <= 110 + 2 * length realm)%nat).
  { intros []; unfold other, challenge; rewrite !length_app; cbn [length quote]; rewrite !lit_length; simpl String.length; lia. }
  destruct (uri_auths ctx) as [|a l]; cbn [challenges offers obind]; [done|].
  rewrite (app_assoc (lit "Unauthorized")).
  set (buf := lit "Unauthorized" ++ eol) in *. specialize (Lc (ua_type a)).
  assert (Lb : length buf = 14%nat) by done. clearbody buf.
  pose proof (append_ok buf (challenge realm now (ua_type a)) ltac:(lia)) as A.
  pose proof (challenges_one (ua_type a) realm now l (buf ++ challenge realm now (ua_type a))) as C.
  cbv zeta in C. specialize (C ltac:(rewrite length_app; lia)). cbn [has_type existsb].
  destruct (ua_type a) eqn:T; cbn [other seen] in C |- *; unfold seen in C; auth_types;
    rewrite A; cbn [obind orb]; rewrite C; cbn [obind snd]; now rewrite <- app_assoc.
Qed.
(** The answer to a request that is not let in: status 401 and one challenge for each
    scheme of the protecting entries, in the order of the list, the second on a line of
    its own; for a realm of up to 180 characters nothing is cut off and the 512 bytes of
    the buffer are not overrun. *)
Theorem challenge_spec {H : Type} (ctx : @shttpd_ctx H) now :
  (length (opt_auth_realm ctx) <= 180)%nat -> 0 <= now < 2 ^ 64 ->
  _shttpd_send_authorization_request ctx now =
  Done (401, lit "Unauthorized" ++ eol ++ offers (opt_auth_realm ctx) now (uri_auths ctx)).
Proof. exact (challenge_ok ctx now). Qed.

(** ** The decision is always reached *)
Section Total.
Context {H : Type}.
(** A context in which no pattern is read past its text, no check is missing and the
    challenge fits. *)
Record ctx_ok (ctx : @shttpd_ctx H) : Prop := CtxOk {
  ctx_patterns : Forall (fun r => "*"%char ∉ ru_uri r \/ exists p, ru_uri r = p ++ lit "*" /\ "*"%char ∉ p) (registered_uris ctx);
  ctx_callbacks : Forall (fun a => ua_type a = BASIC_AUTH -> is_Some (ua_callback a)) (uri_auths ctx);
  ctx_aliases : opt_aliases ctx = None;
  ctx_realm : (length (opt_auth_realm ctx) <= 180)%nat }.

Lemma span_total p s : p NUL = false -> NUL ∈ s -> exists n, span p s = Done n /\ (n < length s)%nat.
Proof.
  intros Hp. induction s as [|c s IH]; intros Hn; [now apply not_elem_of_nil in Hn|]. cbn [span length].
  destruct (p c) eqn:E; [|exists 0%nat; split; [done|lia]].
  apply elem_of_cons in Hn as [<-|Hn]; [congruence|]. destruct (IH Hn) as (n & -> & L). exists (S n). split; [done|lia].
Qed.
Lemma drop_terminated text k : (k <= length text)%nat -> NUL ∈ drop k (text ++ [NUL]) /\
  length (drop k (text ++ [NUL])) = S (length text - k).
Proof.
  intros L. rewrite drop_app_le by done. split; [apply elem_of_app; right; now left|].
  rewrite length_app, length_drop. simpl. lia.
Qed.
Lemma basic_credentials_total text auth : Forall (fun c => is_ascii c = true) text -> 0 <= auth ->
  auth + 5 <= Z.of_nat (length text) ->
  exists c mem', basic_credentials (text ++ [NUL]) auth = Done (c, mem') /\ length mem' = length (text ++ [NUL]).
Proof.
  intros F H0 L. unfold basic_credentials.
  destruct (drop_terminated text (Z.to_nat auth + 5)) as [N E]; [lia|].
  destruct (span_total blank_char _ eq_refl N) as (b & -> & Hb). cbn [obind]. rewrite E in Hb.
  set (pp := (Z.to_nat auth + 5 + b)%nat). destruct (drop_terminated text pp) as [N' E']; [lia|].
  destruct (span_total token_char _ eq_refl N') as (n & -> & Hn). cbn [obind]. rewrite E' in Hn.
  destruct (bool_decide (n = 0%nat)); [eauto|].
  rewrite wr_ok by (rewrite length_app; simpl; lia). cbn [obind].
  set (mem' := <[_ := NUL]> _). set (from := take n (drop pp mem')).
  assert (Lf : length from = n) by (unfold from, mem'; rewrite length_take, length_drop, length_insert, length_app; simpl; lia).
  assert (Ff : Forall (fun c => is_ascii c = true) from).
  { unfold from. apply Forall_take, Forall_drop. unfold mem'. apply Forall_insert; [|done].
    apply Forall_app. split; [done|]. repeat constructor. }
  destruct (base64_decode_ok from 4095 Ff) as (l & out & D & _); [lia|]. rewrite Lf in D. rewrite D. cbn [obind].
  assert (Lm : length mem' = length (text ++ [NUL])) by apply length_insert.
  destruct (l <=? 0); eauto.
Qed.
Lemma check_authorization_total ctx uri text auth len : ctx_ok ctx -> Forall (fun c => is_ascii c = true) text ->
  (10 < len -> 0 <= auth /\ auth + len <= Z.of_nat (length text)) ->
  exists z mem', _shttpd_check_authorization ctx uri (text ++ [NUL]) auth len = Done (z, mem') /\
    length mem' = length (text ++ [NUL]).
Proof.
  intros K F A. unfold _shttpd_check_authorization. destruct (find _ _) as [a|] eqn:E; [|eauto].
  apply find_some in E as [Ha _]. apply list_elem_of_In in Ha.
  destruct (_ && _ && _); [eauto|]. destruct (_ && _ && _) eqn:B; [|eauto].
  apply andb_true_iff in B as [B _]. apply andb_true_iff in B as [T B].
  apply bool_decide_eq_true in T. apply Z.ltb_lt in B. destruct (A B) as [A1 A2].
  destruct (basic_credentials_total text auth F A1 ltac:(lia)) as (c & mem' & -> & Lm). cbn [obind].
  destruct c as [[user pass]|]; [|eauto].
  pose proof (ctx_callbacks ctx K) as C. rewrite Forall_forall in C. destruct (C a Ha T) as [cb ->]. cbn [deref obind]. eauto.
Qed.
Lemma is_registered_total l uri :
  Forall (fun r => "*"%char ∉ ru_uri r \/ exists p, ru_uri r = p ++ lit "*" /\ "*"%char ∉ p) l ->
  exists r, @is_registered H l uri = Done r /\ (forall x, r = Some x -> x ∈ l).
Proof.
  induction l as [|r l IH]; intros F; cbn [is_registered]; [eexists; split; [done|]; done|].
  apply Forall_cons in F as [Fr F]. destruct (IH F) as (x & -> & Hx).
  assert (M : exists b, match_regexp (ru_uri r) uri = Done b).
  { destruct Fr as [N|(p & -> & N)]; eexists; [now apply match_literal|now apply match_prefix]. }
  destruct M as ([] & ->); cbn [obind]; eexists; (split; [done|]); intros y E.
  - injection E as <-. now left.
  - right. now apply Hx.
Qed.
Lemma decide_total ctx now raw text auth len : ctx_ok ctx -> no_nul raw -> 0 <= now < 2 ^ 64 ->
  Forall (fun c => is_ascii c = true) text -> (10 < len -> 0 <= auth /\ auth + len <= Z.of_nat (length text)) ->
  exists a query uri' mem', decide_what_to_do ctx now (raw ++ [NUL]) (text ++ [NUL]) auth len = Done (a, query, uri', mem') /\
    (forall r, a = CallHandler r -> r ∈ registered_uris ctx) /\ (forall s m, a = SendError s m -> 0 <= s).
Proof.
  intros K N Hn F A. unfold decide_what_to_do. destruct (clean_uri_spec raw N) as (query & uri & -> & C & _).
  cbn [obind]. rewrite C. cbn [obind]. rewrite (ctx_aliases ctx K). cbn [words is_alias obind].
  destruct (URI_MAX <=? _).
  { eexists _, _, _, _. split; [done|]. split; [done|]. intros s m [= <- _]. lia. }
  destruct (check_authorization_total ctx (request_path raw) text auth len K F A) as (z & mem' & -> & _). cbn [obind].
  destruct (z =? 1); cbn [negb].
  - unfold _shttpd_is_registered_uri. destruct (is_registered_total _ (request_path raw) (ctx_patterns ctx K)) as ([r|] & -> & Hr);
      cbn [obind]; eexists _, _, _, _; (split; [done|]); (split; [|intros s m E; inversion E; lia]).
    + intros x [= <-]. now apply Hr.
    + done.
  - rewrite challenge_ok by (apply K || done). cbn [obind].
    eexists _, _, _, _. split; [done|]. split; [done|]. intros s m [= <- _]. lia.
Qed.
End Total.

(** ** Concrete requests *)
Definition demo_check (user pass : cstring) : Z :=
  if bool_decide (user = lit "wsman") && bool_decide (pass = lit "secret") then 1 else 0.
Definition demo_options : wsmand_options := Options (lit "/wsman") None (Some (lit "/etc/openwsman/simple_auth.passwd")) (Some demo_check).
Definition demo_request : list ascii := lit "Authorization: Basic d3NtYW46c2VjcmV0" ++ [CR; LF].
Lemma demo_path_no_star : "*"%char ∉ service_path demo_options.
Proof. apply (bool_decide_eq_true_1 _). vm_compute. reflexivity. Qed.
Lemma demo_path_no_nul : no_nul (service_path demo_options).
Proof. apply (bool_decide_eq_true_1 _). vm_compute. reflexivity. Qed.
Lemma demo_raw_no_nul s : bool_decide (NUL ∉ s) = true -> no_nul s.
Proof. apply bool_decide_eq_true_1. Qed.

(** A request below the indication listener reaches the callback with no header at all. *)
Lemma daemon_doors_witness : exists r query uri' mem', ru_callback r = 7 /\
  decide_what_to_do (create_shttpd_context demo_options (lit "/") 7) 0 (lit "/cimindicationlistener/x" ++ [NUL]) [NUL] 0 0 =
  Done (CallHandler r, query, uri', mem').
Proof.
  apply (daemon_doors demo_options (lit "/") demo_check 7 0 (lit "/cimindicationlistener/x") [NUL] 0 0);
    [reflexivity|reflexivity|exact demo_path_no_star|exact demo_path_no_nul|apply demo_raw_no_nul; vm_compute; reflexivity|vm_compute; reflexivity|].
  split; [right; right; vm_compute; reflexivity|]. vm_compute. discriminate.
Defined.
(** The service path with the right credentials, spelled with an escape and dots. *)
Lemma handler_reached_iff_witness : exists query uri' mem',
  decide_what_to_do (create_shttpd_context demo_options (lit "/") 7) 0 (lit "/./../%77sman?x=1" ++ [NUL]) demo_request 15 22 =
  Done (CallHandler (Registered (lit "/wsman") 7), query, uri', mem').
Proof.
  apply (handler_reached_iff (create_shttpd_context demo_options (lit "/") 7) 0 (lit "/./../%77sman?x=1") demo_request 15 22
    (Registered (lit "/wsman") 7)); [apply demo_raw_no_nul; vm_compute; reflexivity|reflexivity| |].
  - repeat constructor; apply demo_raw_no_nul; vm_compute; reflexivity.
  - change (request_path (lit "/./../%77sman?x=1")) with (lit "/wsman").
    split; [vm_compute; reflexivity|]. split.
    + exists [], [Registered ANON_IDENTIFY_PATH 7; Registered (DEFAULT_CIMINDICATION_PATH ++ lit "/*") 7].
      split; [reflexivity|]. split; [|constructor]. apply match_regexp_means. vm_compute. reflexivity.
    + vm_compute let_in. split; [reflexivity|]. split; [reflexivity|]. split; [reflexivity|].
      exists (lit "wsman"), (lit "secret"), demo_check. eexists. split; [vm_compute; reflexivity|]. split; reflexivity.
Defined.
(** A wrong password is answered with the challenge. *)
Example demo_refused : exists mem',
  decide_what_to_do (create_shttpd_context demo_options (lit "/") 7) 0 (lit "/wsman" ++ [NUL])
    (lit "Authorization: Basic d3NtYW46c2VjcmV4" ++ [CR; LF]) 15 22 =
  Done (SendError 401 (lit "Unauthorized" ++ eol ++ lit "WWW-Authenticate: Basic realm=" ++ quote ++ lit "OPENWSMAN" ++ quote),
        None, lit "/wsman" ++ [NUL], mem').
Proof. eexists. vm_compute. reflexivity. Qed.
(** A byte outside ASCII in the token: the decoder reads outside its table, and no password is
    needed to get there. *)
Example demo_table_overrun : decide_what_to_do (create_shttpd_context demo_options (lit "/") 7) 0 (lit "/wsman" ++ [NUL])
    (lit "Authorization: Basic " ++ [chr 200] ++ lit "3NtYW46c2VjcmV0" ++ [CR; LF]) 15 22 = Undef.
Proof. vm_compute. reflexivity. Qed.
Lemma basic_auth_roundtrip_witness : exists e,
  ws_base64_encode (lit "wsman:secret") 12 = Done e /\
  basic_credentials (lit "Authorization: Basic " ++ e ++ [CR; LF]) 15 =
  Done (Some (lit "wsman", lit "secret"), lit "Authorization: Basic " ++ e ++ [NUL; LF]).
Proof.
  apply (basic_auth_roundtrip (lit "wsman") (lit "secret") (lit "Authorization: ") (lit "Basic") (lit " ") [LF] CR);
    try (apply (bool_decide_eq_true_1 _); vm_compute; reflexivity); reflexivity.
Defined.
Lemma challenge_spec_witness :
  _shttpd_send_authorization_request (create_shttpd_context demo_options (lit "/") 7) 5 =
  Done (401, lit "Unauthorized" ++ eol ++ lit "WWW-Authenticate: Basic realm=" ++ quote ++ lit "OPENWSMAN" ++ quote).
Proof.
  apply (challenge_spec (create_shttpd_context demo_options (lit "/") 7) 5); [vm_compute; lia|lia].
Defined.
End HttpAuth.
