(* ===== verification/WsTime.v ===== *)
(** * WsTime: durations and dates of requests (lib/wsman-xml-serialize.c,
    lib/wsman-soap-envelope.c, lib/wsman-soap.c)

    The readers of an [xs:duration] and of an [xs:dateTime], the expiry time a request asks
    for, and the text that an expiry time is stored as.  Texts are read with [strtol],
    [strtod] and [sscanf]; the time zone of the platform ([mktime], [localtime_r]) is a
    parameter. *)
From stdpp Require Import pretty.
From S2P Require Import Prelude CString HttpText Faults.
Import HttpText Faults.

Module WsTime.

(** ** The numbers of the C library *)
(** The sign of a number and the text behind it. *)
Definition scan_sign (s : cstring) : bool * cstring :=
  match s with
  | c :: r => if bool_decide (c = "-"%char) then (true, r)
              else if bool_decide (c = "+"%char) then (false, r) else (false, s)
  | [] => (false, s)
  end.
Definition s64 (z : Z) : Z := Z.max (- 2 ^ 63) (Z.min z (2 ^ 63 - 1)).
(** [strtol (s, &e, 10)]: the number, cut to a [long], and the text at [e]; [None] when there are
    no digits, then [e] is [s]. *)
Definition strtol (s : cstring) : option (Z * cstring) :=
  let '(neg, s) := scan_sign (skip_while isspace s) in
  if isdigit (peek s) then
    Some (s64 (if (neg : bool) then - digits s 0 else digits s 0), skip_while isdigit s)
  else None.

(** A [double] that is not a NaN: [m * 2 ^ e], or [None] for an infinity. *)
Definition double : Type := option (Z * Z).
(** [n / d] rounded to an integer, ties to even. *)
Definition round_div (n d : Z) : Z :=
  let q := n / d in let r := n mod d in
  if 2 * r <? d then q else if d <? 2 * r then q + 1 else if Z.even q then q else q + 1.
Definition ilog2 (n d : Z) : Z :=
  let k := Z.log2 n - Z.log2 d in
  if (if 0 <=? k then d * 2 ^ k <=? n else d <=? n * 2 ^ (- k)) then k else k - 1.
(** The [double] nearest to [n / d], [d] positive. *)
Definition to_double (n d : Z) : double :=
  if n =? 0 then Some (0, 0) else
  let e := Z.max (ilog2 (Z.abs n) d - 52) (-1074) in
  let m := if 0 <=? e then round_div (Z.abs n) (d * 2 ^ e) else round_div (Z.abs n * 2 ^ (- e)) d in
  if (if 0 <=? e then 2 ^ 1024 <=? m * 2 ^ e else 2 ^ (1024 - e) <=? m) then None else Some (Z.sgn n * m, e).
(** [strtod] on a text that starts with a number and a dot: the digits, the dot, more digits and
    an exponent. *)
Definition scan_exponent (s : cstring) : Z * cstring :=
  match s with
  | c :: r =>
      if bool_decide (c = "e"%char) || bool_decide (c = "E"%char) then
        let '(neg, t) := scan_sign r in
        if isdigit (peek t) then (if (neg : bool) then - digits t 0 else digits t 0, skip_while isdigit t) else (0, s)
      else (0, s)
  | [] => (0, s)
  end.
Definition strtod (s : cstring) : double * cstring :=
  let '(neg, s) := scan_sign (skip_while isspace s) in
  let s1 := skip_while isdigit s in
  let frac := tail s1 in
  let s2 := skip_while isdigit frac in
  let k := (length frac - length s2)%nat in
  let m := digits frac (digits s 0) in
  let '(x, e) := scan_exponent s2 in
  let p := x - Z.of_nat k in
  let m := if (neg : bool) then - m else m in
  (if 0 <=? p then to_double (m * 10 ^ p) 1 else to_double m (10 ^ (- p)), e).
(** [(int) floor (f + 0.5)]: a value outside [int] has no conversion. *)
Definition round_up (f : double) : outcome Z :=
  let* (m, e) := deref f in
  let* (m, e) := deref (if 0 <=? e then to_double (2 * m * 2 ^ e + 1) 2 else to_double (2 * m + 2 ^ (- e)) (2 * 2 ^ (- e))) in
  let n := if 0 <=? e then m * 2 ^ e else m / 2 ^ (- e) in
  if (n <? - 2 ^ 31) || (2 ^ 31 <=? n) then Undef else Done n.

(** ** Durations *)
(** What the loop has seen: the letter T, the position in the order of the letters, the
    numbers. *)
Record dur := Dur {
  d_time : bool; d_got : Z; d_years : Z; d_months : Z; d_days : Z; d_hours : Z; d_mins : Z; d_secs : Z }.
Definition dur0 : dur := Dur false 64 0 0 0 0 0 0.
Definition see_T (d : dur) : dur :=
  Dur true (d_got d) (d_years d) (d_months d) (d_days d) (d_hours d) (d_mins d) (d_secs d).
(** The [switch] on the letter behind a number. *)
(* src: lib/wsman-xml-serialize.c 1774-1826 ws_deserialize_duration *)
Definition designator (d : dur) (c : ascii) (v : Z) : option dur :=
  let '(Dur t got y mo dd h mi s) := d in
  if bool_decide (c = "Y"%char) then
    if (got <=? 32) || t then None else Some (Dur t 32 v mo dd h mi s)
  else if bool_decide (c = "M"%char) then
    if negb t then if got <=? 16 then None else Some (Dur t 16 y v dd h mi s)
    else if (got <=? 2) || negb t then None else Some (Dur t 2 y mo dd h v s)
  else if bool_decide (c = "D"%char) then
    if (got <=? 8) || t then None else Some (Dur t 8 y mo v h mi s)
  else if bool_decide (c = "H"%char) then
    if (got <=? 4) || negb t then None else Some (Dur t 4 y mo dd v mi s)
  else if bool_decide (c = "S"%char) then
    if (got <=? 1) || negb t then None else Some (Dur t 1 y mo dd h mi v)
  else None.
(** A number and the text behind it, a fraction of seconds rounded. *)
(* src: lib/wsman-xml-serialize.c 1758-1773 ws_deserialize_duration *)
Definition duration_number (time : bool) (t : cstring) : outcome (option (Z * cstring)) :=
  match strtol t with
  | None => Done None
  | Some (l, e) =>
      let v := s32 l in
      if time && bool_decide (peek e = "."%char) then
        let '(f, e) := strtod t in
        if bool_decide (peek e = "S"%char) then
          let* n := round_up f in Done (Some (if v <? n then v + 1 else v, e))
        else Done None
      else Done (Some (v, e))
  end.
(** [t]: the text behind the character that the last round looked at. *)
(* src: lib/wsman-xml-serialize.c 1753-1828 ws_deserialize_duration *)
Fixpoint duration_loop (fuel : nat) (t : cstring) (d : dur) : outcome (option dur) :=
  match fuel with
  | O => Diverge
  | S fuel =>
      match t with
      | [] => Done (Some d)
      | c :: r =>
          if bool_decide (c = "T"%char) then duration_loop fuel r (see_T d)
          else
            let* n := duration_number (d_time d) t in
            match n with
            | Some (v, c :: r) =>
                match designator d c v with Some d => duration_loop fuel r d | None => Done None end
            | _ => Done None
            end
      end
  end.
Definition seconds (d : dur) : Z :=
  d_secs d + 60 * d_mins d + 60 * 60 * d_hours d + 60 * 60 * 24 * d_days d +
  60 * 60 * 24 * 30 * d_months d + 60 * 60 * 24 * 30 * 12 * d_years d.
(** The seconds, or [None] for the result 1. *)
(* src: lib/wsman-xml-serialize.c 1723-1851 ws_deserialize_duration *)
Definition ws_deserialize_duration (t : option cstring) : outcome (option Z) :=
  match t with
  | None => Done None
  | Some t =>
      let '(negative, t) := match t with
        | c :: r => if bool_decide (c = "-"%char) then (true, r) else (false, t)
        | [] => (false, t) end in
      match t with
      | c :: t =>
          if bool_decide (c = "P"%char) then
            let* d := duration_loop (S (length t)) t dur0 in
            match d with
            | None => Done None
            | Some d =>
                if (d_time d && (4 <? d_got d)) || (64 =? d_got d) then Done None
                else Done (Some (if (negative : bool) then - seconds d else seconds d))
            end
          else Done None
      | [] => Done None
      end
  end.

(** ** Dates *)
Record tm := Tm { tm_year : Z; tm_mon : Z; tm_mday : Z; tm_hour : Z; tm_min : Z; tm_sec : Z; tm_isdst : Z }.
(** [sscanf] with the conversion [%d] and, behind each but the last, a literal character or
    nothing. *)
Fixpoint scan_ints (seps : list (option ascii)) (s : cstring) : option (list Z) :=
  match seps with
  | [] => Some []
  | sep :: seps =>
      match strtol s with
      | None => None
      | Some (v, r) =>
          match sep, r with
          | None, _ => cons (s32 v) <$> scan_ints seps r
          | Some c, x :: r => if bool_decide (x = c) then cons (s32 v) <$> scan_ints seps r else None
          | Some _, [] => None
          end
      end
  end.
Definition date_format : list (option ascii) :=
  [Some "-"; Some "-"; Some "T"; Some ":"; Some ":"; None; Some ":"; None]%char.
Definition in_field (lo hi v : Z) : bool := (lo <=? v) && (v <=? hi).
(** [isdst]: whether daylight saving is on at the time of the call.  The time and its offset
    in minutes, or [None] for the result 1. *)
(* src: lib/wsman-xml-serialize.c 1855-1908 ws_deserialize_datetime *)
Definition ws_deserialize_datetime (isdst : Z) (text : option cstring) : option (tm * Z) :=
  match text with
  | None => None
  | Some text =>
      match scan_ints date_format text with
      | Some [year; mon; mday; hour; min; sec; hours; mins] =>
          if in_field 1900 3000 year && in_field 1 12 mon && in_field 1 31 mday && in_field 0 23 hour &&
             in_field 0 59 min && in_field 0 61 sec && in_field (-24) 24 hours && in_field 0 59 mins
          then Some (Tm (year - 1900) (mon - 1) mday hour min sec isdst,
                     if hours <? 0 then 60 * hours - mins else 60 * hours + mins)
          else None
      | _ => None
      end
  end.

(** ** Expiry times *)
(* src: lib/wsman-soap-envelope.c 1453-1462 time_expired *)
Definition time_expired (now lt : Z) : bool := if lt =? 0 then false else negb (u64 now <? lt).

Section Zone.
Context (mktime : tm -> Z) (localtime : Z -> tm) (isdst now : Z).
(** The expiry time left in [*expire], and the fault code. *)
(* src: lib/wsman-soap-envelope.c 1464-1504 wsman_set_expiretime *)
Definition wsman_set_expiretime (text : option cstring) (expire : Z) : outcome (Z * WsmanFaultCodeType) :=
  match text with
  | None => Done (expire, WSEN_INVALID_EXPIRATION_TIME)
  | Some t =>
      if bool_decide (peek t = "P"%char) then
        let* d := ws_deserialize_duration text in
        match d with
        | None => Done (expire, WSEN_INVALID_EXPIRATION_TIME)
        | Some timeout => Done (u64 (now + timeout), WSMAN_RC_OK)
        end
      else
        match ws_deserialize_datetime isdst text with
        | None => Done (expire, WSEN_UNSUPPORTED_EXPIRATION_TYPE)
        | Some (tm, tz_min) => Done (u64 (mktime tm + 60 * tz_min), WSMAN_RC_OK)
        end
  end.
(** [%u%u] of the two digits of a number. *)
Definition two (v : Z) : cstring := lit (pretty (Z.to_N (u32 (v ÷ 10)))) ++ lit (pretty (Z.to_N (u32 (Z.rem v 10)))).
(** The text in [str], which has room for 30 bytes. *)
(* src: lib/wsman-soap.c 162-174 wsman_expiretime2xmldatetime *)
Definition wsman_expiretime2xmldatetime (expire : Z) : cstring :=
  let t := localtime (if 2 ^ 63 <=? expire then expire - 2 ^ 64 else expire) in
  take 29 (lit (pretty (Z.to_N (u32 (tm_year t + 1900)))) ++ lit "-" ++ two (tm_mon t + 1) ++ lit "-" ++ two (tm_mday t) ++
    lit "T" ++ two (tm_hour t) ++ lit ":" ++ two (tm_min t) ++ lit ":" ++ two (tm_sec t) ++ lit "+" ++ two 0 ++ lit ":" ++ two 0).
End Zone.

Example duration_demo : ws_deserialize_duration (Some (lit "P1Y2M3DT4H5M6.5S")) =
  Done (Some (7 + 60 * 5 + 3600 * 4 + 86400 * (3 + 30 * 2 + 360))).
Proof. vm_compute. reflexivity. Qed.
Example duration_fractions : map (fun s => ws_deserialize_duration (Some (lit s)))
  ["PT0.4999S"; "PT1.25E1S"; "PT0.49999999999999999999S"; "-PT2.6S"; "PT-2.6S"; "PT1.S"; "PT9999999999.9S"]%string =
  [Done (Some 0); Done (Some 2); Done (Some 1); Done (Some (-3)); Done (Some (-2)); Done (Some 1); Undef].
Proof. vm_compute. reflexivity. Qed.
Example duration_refused : forallb (fun s => match ws_deserialize_duration (Some (lit s)) with Done None => true | _ => false end)
  [""; "P"; "PT"; "P1DT"; "P1H"; "PT1D"; "P1M1Y"; "PT1S1S"; "P1"; "PY"; "PT1.5M"; "1D"]%string = true.
Proof. vm_compute. reflexivity. Qed.
(** ** Numbers in a text *)
Lemma skip_while_suffix p s : exists q, s = q ++ skip_while p s /\ Forall (fun c => p c = true) q.
Proof.
  induction s as [|c s (q & E & F)]; cbn [skip_while]; [now exists []|]. destruct (p c) eqn:Pc.
  - exists (c :: q). split; [cbn; congruence|now constructor].
  - now exists [].
Qed.
(** A digit is no other character that the readers look at. *)
Lemma digit_plain c : isdigit c = true -> isspace c = false /\ c <> "-"%char /\ c <> "+"%char /\ c <> "T"%char /\ c <> "."%char.
Proof.
  assert (G : forall c, implb (isdigit c) (negb (isspace c) && negb (bool_decide (c = "-"%char)) &&
      negb (bool_decide (c = "+"%char)) && negb (bool_decide (c = "T"%char)) && negb (bool_decide (c = "."%char))) = true).
  { apply (forall_ascii (fun c => implb (isdigit c) (negb (isspace c) && negb (bool_decide (c = "-"%char)) &&
      negb (bool_decide (c = "+"%char)) && negb (bool_decide (c = "T"%char)) && negb (bool_decide (c = "."%char))))).
    vm_compute. reflexivity. }
  specialize (G c).
  intros D. rewrite D in G. cbn [implb] in G. rewrite !andb_true_iff, !negb_true_iff in G.
  destruct G as [[[[G1 G2] G3] G4] G5]. apply bool_decide_eq_false in G2, G3, G4, G5. done.
Qed.
(** The text of a number below 2^31. *)
Definition number (v : cstring) : Prop := v <> [] /\ forallb isdigit v = true /\ 0 <= digits v 0 < 2 ^ 31.
Lemma skip_digits v c r : forallb isdigit v = true -> isdigit c = false -> skip_while isdigit (v ++ c :: r) = c :: r.
Proof.
  intros F D. induction v as [|x v IH]; cbn [app skip_while]; [now rewrite D|].
  cbn [forallb] in F. apply andb_true_iff in F as [-> F]. auto.
Qed.
Lemma strtol_number v c r : number v -> isdigit c = false -> strtol (v ++ c :: r) = Some (digits v 0, c :: r).
Proof.
  intros (N & F & B) D. unfold strtol. destruct v as [|x v]; [done|]. pose proof F as F'.
  cbn [forallb] in F'. apply andb_true_iff in F' as [Dx _]. destruct (digit_plain x Dx) as (S & M & P & _).
  cbn [app skip_while]. rewrite S. cbn [scan_sign]. rewrite !bool_decide_false by done. cbv iota. cbn [peek]. rewrite Dx.
  pose proof (digits_stop (x :: v) c r F D 0) as E. pose proof (skip_digits (x :: v) c r F D) as K. cbn [app] in E, K.
  rewrite E, K. unfold s64. do 2 f_equal. lia.
Qed.
Lemma s32_id z : - 2 ^ 31 <= z < 2 ^ 31 -> s32 z = z.
Proof.
  intros H. unfold s32, u32. cbv zeta. destruct (Z.ltb_spec z 0).
  - rewrite <- (Z_mod_plus_full z 1), Z.mod_small by lia. destruct (Z.ltb_spec (z + 1 * 4294967296) 2147483648); lia.
  - rewrite Z.mod_small by lia. destruct (Z.ltb_spec z 2147483648); lia.
Qed.
Lemma number_read time v c r : number v -> isdigit c = false -> c <> "."%char ->
  duration_number time (v ++ c :: r) = Done (Some (digits v 0, c :: r)).
Proof.
  intros N D P. unfold duration_number. rewrite strtol_number by done. cbn [peek].
  rewrite bool_decide_false, andb_false_r by done. rewrite s32_id; [done|]. destruct N as (_ & _ & B). lia.
Qed.

(** ** The loop over a duration *)
Lemma strtol_shorter t v e : strtol t = Some (v, e) -> (length e <= length t)%nat.
Proof.
  unfold strtol. pose proof (skip_while_length isspace t). destruct (scan_sign (skip_while isspace t)) as [neg s] eqn:E.
  assert (length s <= length (skip_while isspace t))%nat.
  { unfold scan_sign in E. destruct (skip_while isspace t) as [|c r]; [now injection E as <- <-|].
    destruct (bool_decide _); [injection E as <- <-; simpl; lia|]. destruct (bool_decide _); injection E as <- <-; simpl; lia. }
  destruct (isdigit (peek s)); [|done]. intros [= _ <-]. pose proof (skip_while_length isdigit s). lia.
Qed.
Lemma strtod_shorter t f e : strtod t = (f, e) -> (length e <= length t)%nat.
Proof.
  assert (Sg : forall s neg s', scan_sign s = (neg, s') -> (length s' <= length s)%nat).
  { intros [|c r] neg s' E; cbn [scan_sign] in E; [now injection E as <- <-|].
    destruct (bool_decide _); [injection E as <- <-; simpl; lia|]. destruct (bool_decide _); injection E as <- <-; simpl; lia. }
  unfold strtod. pose proof (skip_while_length isspace t). destruct (scan_sign (skip_while isspace t)) as [neg s] eqn:E.
  apply Sg in E. set (s2 := skip_while isdigit (tail (skip_while isdigit s))).
  assert (length s2 <= length s)%nat.
  { unfold s2. pose proof (skip_while_length isdigit (tail (skip_while isdigit s))). pose proof (skip_while_length isdigit s).
    assert (length (tail (skip_while isdigit s)) <= length (skip_while isdigit s))%nat by (destruct (skip_while isdigit s); simpl; lia).
    lia. }
  destruct (scan_exponent s2) as [x e'] eqn:X. intros [= _ <-].
  assert (length e' <= length s2)%nat; [|lia]. clear -X Sg. unfold scan_exponent in X.
  destruct s2 as [|c r]; [now injection X as <- <-|]. destruct (_ || _); [|injection X as <- <-; simpl; lia].
  destruct (scan_sign r) as [neg t] eqn:E. apply Sg in E. destruct (isdigit _); injection X as <- <-; [|simpl; lia].
  pose proof (skip_while_length isdigit t). simpl. lia.
Qed.
Lemma number_shorter time t v e : duration_number time t = Done (Some (v, e)) -> (length e <= length t)%nat.
Proof.
  unfold duration_number. destruct (strtol t) as [[l e0]|] eqn:E; [|done]. apply strtol_shorter in E.
  destruct (time && _); [|now intros [= _ <-]]. destruct (strtod t) as [f e1] eqn:D. apply strtod_shorter in D.
  destruct (bool_decide _); [|done]. destruct (round_up f); [|done..]. now intros [= _ <-].
Qed.
(** The fuel is enough, and more does not change the result. *)
Lemma number_no_diverge time t : duration_number time t <> Diverge.
Proof.
  unfold duration_number. destruct (strtol t) as [[l e]|]; [|done]. destruct (time && _); [|done].
  destruct (strtod t) as [f e']. destruct (bool_decide _); [|done]. unfold round_up.
  destruct f as [[m x]|]; [|done]. cbn [obind deref].
  destruct (if 0 <=? x then _ else _) as [[m' x']|]; [|done]. cbn [obind deref]. now destruct (_ || _).
Qed.
Lemma loop_fuel n : forall m t d, (length t < n)%nat -> (length t < m)%nat ->
  duration_loop n t d = duration_loop m t d /\ duration_loop n t d <> Diverge.
Proof.
  induction n as [|n IH]; intros [|m] t d L M; [lia..|]. cbn [duration_loop].
  destruct t as [|c r]; [done|]. simpl in L, M.
  destruct (bool_decide (c = "T"%char)); [apply IH; lia|].
  pose proof (number_no_diverge (d_time d) (c :: r)) as ND.
  destruct (duration_number (d_time d) (c :: r)) as [[[v [|x e]]|]| | |] eqn:E; cbn [obind]; try done.
  apply number_shorter in E. simpl in E. destruct (designator d x v); [|done]. apply IH; lia.
Qed.
(** What the loop does to a text it reads through, with as much fuel as it has letters. *)
Definition reads (t : cstring) (d : dur) (r : cstring) (d' : dur) : Prop :=
  exists k, (k <= length t - length r)%nat /\ forall fuel, duration_loop (k + fuel) t d = duration_loop fuel r d'.
Lemma reads_refl t d : reads t d t d.
Proof. exists 0%nat. split; [lia|done]. Qed.
Lemma reads_trans t d r d' u d'' : (length u <= length r <= length t)%nat -> reads t d r d' -> reads r d' u d'' -> reads t d u d''.
Proof.
  intros L (k & Hk & E) (j & Hj & F). exists (k + j)%nat. split; [lia|]. intros fuel. now rewrite <- Nat.add_assoc, E, F.
Qed.
Lemma reads_T r d : reads ("T"%char :: r) d r (see_T d).
Proof. exists 1%nat. split; [simpl; lia|]. done. Qed.
(** The letters of a duration. *)
Definition letter (c : ascii) : bool := bool_decide (c ∈ ["Y"; "M"; "D"; "H"; "S"]%char).
Lemma letter_plain c : letter c = true -> isdigit c = false /\ c <> "."%char.
Proof.
  unfold letter. rewrite bool_decide_eq_true, !elem_of_cons, elem_of_nil.
  intros [->|[->|[->|[->|[->|[]]]]]]; done.
Qed.
Lemma reads_number v c r d d' : number v -> letter c = true -> designator d c (digits v 0) = Some d' -> reads (v ++ c :: r) d r d'.
Proof.
  intros N Lc E. destruct (letter_plain c Lc) as [Dc Pc]. exists 1%nat. split; [rewrite length_app; simpl; lia|].
  intros fuel. cbn [plus duration_loop]. destruct v as [|x v]; [destruct N as [? _]; done|]. cbn [app].
  assert (Dx : isdigit x = true) by (destruct N as (_ & F & _); cbn [forallb] in F; now apply andb_true_iff in F as [-> _]).
  destruct (digit_plain x Dx) as (_ & _ & _ & T & _). rewrite bool_decide_false by done.
  pose proof (number_read (d_time d) (x :: v) c r N Dc Pc) as R. cbn [app] in R. rewrite R. cbn [obind]. now rewrite E.
Qed.
Lemma reads_all t d d' : reads t d [] d' -> duration_loop (S (length t)) t d = Done (Some d').
Proof.
  intros (k & Hk & E). destruct (loop_fuel (S (length t)) (k + S (length t)) t d ltac:(lia) ltac:(lia)) as [-> _].
  now rewrite E.
Qed.

(** ** Durations are read as they are written *)
(** The numbers of a duration, each of them optional. *)
Record parts := Parts { p_Y : option cstring; p_Mo : option cstring; p_D : option cstring;
  p_H : option cstring; p_Mi : option cstring; p_S : option cstring }.
Definition seg (o : option cstring) (c : ascii) : cstring := match o with Some v => v ++ [c] | None => [] end.
Definition time_part (p : parts) : cstring := seg (p_H p) "H" ++ seg (p_Mi p) "M" ++ seg (p_S p) "S".
Definition date_part (p : parts) : cstring := seg (p_Y p) "Y" ++ seg (p_Mo p) "M" ++ seg (p_D p) "D".
Definition has_time (p : parts) : bool := negb (bool_decide (p_H p = None /\ p_Mi p = None /\ p_S p = None)).
Definition write_duration (p : parts) : cstring :=
  lit "P" ++ date_part p ++ (if has_time p then "T"%char :: time_part p else []).
Definition amount (o : option cstring) : Z := match o with Some v => digits v 0 | None => 0 end.
(** A month counts as 30 days, a year as 12 months. *)
Definition duration_of (p : parts) : Z :=
  amount (p_S p) + 60 * (amount (p_Mi p) + 60 * (amount (p_H p) + 24 * (amount (p_D p) + 30 * (amount (p_Mo p) + 12 * amount (p_Y p))))).
Definition parts_ok (p : parts) : Prop :=
  Forall (from_option number True) [p_Y p; p_Mo p; p_D p; p_H p; p_Mi p; p_S p].

(** A number that is there, or not. *)
Definition after (o : option cstring) (c : ascii) (d : dur) : dur :=
  match o with Some v => default d (designator d c (digits v 0)) | None => d end.
Lemma reads_seg o c r d : from_option number True o -> letter c = true ->
  (forall v, is_Some (designator d c v)) -> reads (seg o c ++ r) d r (after o c d).
Proof.
  destruct o as [v|]; cbn [from_option seg after app]; intros N Lc E; [|apply reads_refl].
  rewrite <- app_assoc. cbn [app]. apply reads_number; [done..|]. now destruct (E (digits v 0)) as [d' ->].
Qed.
Lemma seg_length o c r : (length r <= length (seg o c ++ r))%nat.
Proof. rewrite length_app. lia. Qed.
Lemma reads_three o1 c1 o2 c2 o3 c3 r d : Forall (from_option number True) [o1; o2; o3] ->
  letter c1 = true -> letter c2 = true -> letter c3 = true ->
  (forall v, is_Some (designator d c1 v)) -> (forall v, is_Some (designator (after o1 c1 d) c2 v)) ->
  (forall v, is_Some (designator (after o2 c2 (after o1 c1 d)) c3 v)) ->
  reads (seg o1 c1 ++ seg o2 c2 ++ seg o3 c3 ++ r) d r (after o3 c3 (after o2 c2 (after o1 c1 d))).
Proof.
  intros [N1 [N2 [N3 _]%Forall_cons]%Forall_cons]%Forall_cons L1 L2 L3 D1 D2 D3.
  eapply reads_trans; [|now apply reads_seg|]; [rewrite !length_app; lia|].
  eapply reads_trans; [|now apply reads_seg|now apply reads_seg]. rewrite !length_app. lia.
Qed.
Definition date_end (p : parts) : Z :=
  if p_D p then 8 else if p_Mo p then 16 else if p_Y p then 32 else 64.
Definition time_end (p : parts) (got : Z) : Z :=
  if p_S p then 1 else if p_Mi p then 2 else if p_H p then 4 else got.
Lemma reads_date p r : parts_ok p ->
  reads (date_part p ++ r) dur0 r (Dur false (date_end p) (amount (p_Y p)) (amount (p_Mo p)) (amount (p_D p)) 0 0 0).
Proof.
  intros [N1 [N2 [N3 _]%Forall_cons]%Forall_cons]%Forall_cons. unfold date_part. rewrite <- !app_assoc.
  pose proof (reads_three (p_Y p) "Y"%char (p_Mo p) "M"%char (p_D p) "D"%char r dur0) as R.
  replace (Dur _ _ _ _ _ _ _ _) with (after (p_D p) "D" (after (p_Mo p) "M" (after (p_Y p) "Y" dur0)))
    by (unfold date_end; now destruct (p_Y p), (p_Mo p), (p_D p)).
  apply R; try done; try (repeat constructor; done); intros v; destruct (p_Y p), (p_Mo p); by eexists.
Qed.
Lemma reads_time p y mo dd : parts_ok p ->
  reads (time_part p) (Dur true (date_end p) y mo dd 0 0 0) []
    (Dur true (time_end p (date_end p)) y mo dd (amount (p_H p)) (amount (p_Mi p)) (amount (p_S p))).
Proof.
  intros [_ [_ [_ [N1 [N2 [N3 _]%Forall_cons]%Forall_cons]%Forall_cons]%Forall_cons]%Forall_cons]%Forall_cons.
  unfold time_part. set (d := Dur true (date_end p) y mo dd 0 0 0).
  pose proof (reads_three (p_H p) "H"%char (p_Mi p) "M"%char (p_S p) "S"%char [] d) as R. rewrite app_nil_r in R.
  replace (Dur true (time_end _ _) _ _ _ _ _ _) with (after (p_S p) "S" (after (p_Mi p) "M" (after (p_H p) "H" d)))
    by (unfold d, time_end, date_end; now destruct (p_Y p), (p_Mo p), (p_D p), (p_H p), (p_Mi p), (p_S p)).
  apply R; try done; try (repeat constructor; done);
    intros v; unfold d, date_end; destruct (p_Y p), (p_Mo p), (p_D p), (p_H p), (p_Mi p); by eexists.
Qed.
Lemma duration_written p : parts_ok p -> date_part p ++ time_part p <> [] ->
  ws_deserialize_duration (Some (write_duration p)) = Done (Some (duration_of p)).
Proof.
  intros N E. unfold write_duration, ws_deserialize_duration. cbn [lit list_ascii_of_string app].
  rewrite bool_decide_false, bool_decide_true by done. cbv beta iota zeta.
  pose proof (reads_date p (if has_time p then "T"%char :: time_part p else []) N) as Rd.
  destruct (has_time p) eqn:Ht.
  - erewrite reads_all.
    2: { eapply reads_trans; [|exact Rd|eapply reads_trans; [|apply reads_T|apply (reads_time p _ _ _ N)]]; rewrite ?length_app; simpl; lia. }
    cbn [obind d_time d_got see_T]. unfold has_time in Ht. apply negb_true_iff, bool_decide_eq_false in Ht.
    unfold time_end. destruct (p_S p) eqn:Es, (p_Mi p) eqn:Em, (p_H p) eqn:Eh; try (now destruct Ht);
      cbn [andb orb Z.ltb Z.compare Pos.compare Pos.compare_cont Z.eqb Pos.eqb]; do 2 f_equal; unfold seconds, duration_of;
      rewrite Es, Em, Eh; cbn [amount d_secs d_mins d_hours d_days d_months d_years]; lia.
  - erewrite reads_all by exact Rd. cbn [obind d_time d_got]. unfold has_time in Ht. apply negb_false_iff, bool_decide_eq_true in Ht.
    destruct Ht as (Eh & Em & Es). rewrite andb_false_l, orb_false_l. unfold time_part, date_part in E. rewrite Eh, Em, Es in E.
    assert (G : (64 =? date_end p) = false) by (unfold date_end; destruct (p_D p), (p_Mo p), (p_Y p); done).
    rewrite G. do 2 f_equal. unfold seconds, duration_of. rewrite Eh, Em, Es. cbn [amount d_secs d_mins d_hours d_days d_months d_years]. lia.
Qed.

(** ** Only durations are read *)
(** The letters of a text, and those that may still follow. *)
Definition is_letter (c : ascii) : bool := letter c || bool_decide (c = "T"%char).
Definition letters (t : cstring) : cstring := List.filter is_letter t.
Definition no_T (t : cstring) : cstring := List.filter (fun c => negb (bool_decide (c = "T"%char))) t.
Definition left_time (got : Z) : cstring :=
  if 4 <? got then lit "HMS" else if 2 <? got then lit "MS" else if 1 <? got then lit "S" else [].
Definition left_date (got : Z) : cstring :=
  if 32 <? got then lit "YMD" else if 16 <? got then lit "MD" else if 8 <? got then lit "D" else [].

Lemma letters_app a b : letters (a ++ b) = letters a ++ letters b.
Proof. apply List.filter_app. Qed.
Lemma letters_none (P : ascii -> bool) q : (forall c, P c = true -> is_letter c = false) -> Forall (fun c => P c = true) q -> letters q = [].
Proof. intros H. induction 1 as [|c q Pc _ IH]; [done|]. unfold letters in *. cbn [List.filter]. now rewrite H. Qed.
Lemma not_letter (P : ascii -> bool) : forallb (fun n => implb (P (chr (Z.of_nat n))) (negb (is_letter (chr (Z.of_nat n))))) (seq 0 256) = true ->
  forall c, P c = true -> is_letter c = false.
Proof.
  intros H c Pc. pose proof (forall_ascii (fun c => implb (P c) (negb (is_letter c))) H c) as G. cbv beta in G.
  rewrite Pc in G. now apply negb_true_iff.
Qed.
Lemma strtol_text t v e : strtol t = Some (v, e) -> exists q, t = q ++ e /\ letters q = [].
Proof.
  unfold strtol. destruct (skip_while_suffix isspace t) as (q1 & E1 & F1).
  assert (Sg : forall s neg s', scan_sign s = (neg, s') -> exists q, s = q ++ s' /\ letters q = []).
  { intros [|c r] neg s' E; cbn [scan_sign] in E; [injection E as <- <-; now exists []|].
    destruct (bool_decide_reflect (c = "-"%char)) as [->|]; [injection E as <- <-; now exists (lit "-")|].
    destruct (bool_decide_reflect (c = "+"%char)) as [->|]; injection E as <- <-; [now exists (lit "+")|now exists []]. }
  destruct (scan_sign (skip_while isspace t)) as [neg s] eqn:Es. destruct (Sg _ _ _ Es) as (q2 & E2 & L2).
  destruct (isdigit (peek s)); [|done]. intros [= _ <-]. destruct (skip_while_suffix isdigit s) as (q3 & E3 & F3).
  exists (q1 ++ q2 ++ q3). split; [rewrite <- !app_assoc; congruence|].
  rewrite !letters_app, L2, (letters_none isspace), (letters_none isdigit); try done; apply not_letter; vm_compute; reflexivity.
Qed.
Lemma number_text time t v c r : "."%char ∉ t -> duration_number time t = Done (Some (v, c :: r)) -> letter c = true ->
  letters t = c :: letters r /\ "."%char ∉ r.
Proof.
  intros P. unfold duration_number. destruct (strtol t) as [[l e]|] eqn:E; [|done]. apply strtol_text in E as (q & -> & L).
  rewrite not_elem_of_app in P. destruct P as [_ P].
  assert (Pe : peek e <> "."%char) by (destruct e as [|x e]; [done|]; apply not_elem_of_cons in P as [P _]; cbn [peek]; congruence).
  rewrite bool_decide_false, andb_false_r by done. intros [= _ ->] Lc. rewrite letters_app, L.
  apply not_elem_of_cons in P as [_ P]. split; [|done]. unfold letters, is_letter. cbn [app List.filter]. now rewrite Lc.
Qed.
Lemma designator_letter d c v d' : designator d c v = Some d' -> letter c = true.
Proof.
  destruct d. cbn [designator]. unfold letter. intros E. apply bool_decide_eq_true. rewrite !elem_of_cons.
  repeat match type of E with context [bool_decide (c = ?x)] => destruct (bool_decide_reflect (c = x)); [tauto|] end. done.
Qed.
Lemma see_T_text r : letters ("T"%char :: r) = "T"%char :: letters r.
Proof. done. Qed.

(** A sublist of known letters, by the position in their order. *)
Ltac sublist_by_cases :=
  repeat (match goal with |- context [?a <? ?b] => destruct (Z.ltb_spec a b) end; try lia);
  repeat (apply sublist_nil_l || apply sublist_skip || apply sublist_cons).
Lemma time_order fuel : forall t d d', "."%char ∉ t -> d_time d = true -> duration_loop fuel t d = Done (Some d') ->
  d_time d' = true /\ no_T (letters t) `sublist_of` left_time (d_got d) /\ (no_T (letters t) = [] -> d_got d' = d_got d).
Proof.
  induction fuel as [|fuel IH]; intros t d d' P T; [done|]. cbn [duration_loop].
  destruct t as [|c r]; [intros [= <-]; split; [done|split; [apply sublist_nil_l|done]]|].
  destruct (bool_decide_reflect (c = "T"%char)) as [->|].
  - apply not_elem_of_cons in P as [_ P]. intros E. apply (IH r (see_T d) d' P eq_refl E).
  - destruct (duration_number (d_time d) (c :: r)) as [[[v [|x e]]|]| | |] eqn:E; cbn [obind]; try done.
    destruct (designator d x v) as [d1|] eqn:D; [|done]. intros E'.
    pose proof (designator_letter _ _ _ _ D) as Lx. destruct (number_text _ _ _ _ _ P E Lx) as [-> Pe].
    assert (N : no_T (x :: letters e) = x :: no_T (letters e)).
    { unfold no_T at 1. cbn [List.filter]. rewrite bool_decide_false; [done|]. intros ->. discriminate. }
    rewrite N. destruct d as [ti got y mo dd h mi s]. cbn [d_time] in T. subst ti. cbn [designator] in D.
    assert (G : d_time d1 = true /\ x :: left_time (d_got d1) `sublist_of` left_time got).
    { unfold left_time. cbn [negb] in D. rewrite !orb_true_r, !orb_false_r in D.
      repeat match type of D with context [bool_decide (x = ?y)] => destruct (bool_decide_reflect (x = y)) as [->|] end; try done;
      repeat match type of D with context [?a <=? ?b] => destruct (Z.leb_spec a b) end; try done;
      injection D as <-; (split; [done|]); cbn [d_got]; sublist_by_cases. }
    destruct G as [T1 G]. destruct (IH e d1 d' Pe T1 E') as (T' & S' & _). split; [done|]. split; [|done].
    etransitivity; [|exact G]. now constructor.
Qed.

(** The date part: [a] is what stands before the first T. *)
Lemma date_order fuel : forall t d d', "."%char ∉ t -> d_time d = false -> 8 <= d_got d -> duration_loop fuel t d = Done (Some d') ->
  exists a b, letters t = a ++ b /\ a `sublist_of` left_date (d_got d) /\
    ((b = [] /\ d_time d' = false /\ (a = [] -> d_got d' = d_got d)) \/
     (exists b', b = "T"%char :: b' /\ d_time d' = true /\ no_T b' `sublist_of` lit "HMS" /\ (no_T b' = [] -> 8 <= d_got d'))).
Proof.
  induction fuel as [|fuel IH]; intros t d d' P T G8; [done|]. cbn [duration_loop].
  destruct t as [|c r].
  { intros [= <-]. exists [], []. split; [done|]. split; [apply sublist_nil_l|]. left. done. }
  destruct (bool_decide_reflect (c = "T"%char)) as [->|].
  - apply not_elem_of_cons in P as [_ P]. intros E. destruct (time_order fuel r (see_T d) d' P eq_refl E) as (T' & S' & G').
    exists [], (letters ("T"%char :: r)). split; [done|]. split; [apply sublist_nil_l|]. right. exists (letters r).
    split; [apply see_T_text|]. split; [done|]. split.
    + change (d_got (see_T d)) with (d_got d) in S'. unfold left_time in S'.
      now destruct (Z.ltb_spec 4 (d_got d)); [|lia].
    + intros N. now rewrite G'.
  - destruct (duration_number (d_time d) (c :: r)) as [[[v [|x e]]|]| | |] eqn:E; cbn [obind]; try done.
    destruct (designator d x v) as [d1|] eqn:D; [|done]. intros E'.
    pose proof (designator_letter _ _ _ _ D) as Lx. destruct (number_text _ _ _ _ _ P E Lx) as [-> Pe].
    destruct d as [ti got y mo dd h mi s]. cbn [d_time d_got] in T, G8. subst ti. cbn [designator] in D. cbn [d_got].
    assert (G : d_time d1 = false /\ 8 <= d_got d1 /\ x :: left_date (d_got d1) `sublist_of` left_date got).
    { unfold left_date. cbn [negb] in D. rewrite !orb_true_r, !orb_false_r in D.
      repeat match type of D with context [bool_decide (x = ?y)] => destruct (bool_decide_reflect (x = y)) as [->|] end; try done;
      repeat match type of D with context [?a <=? ?b] => destruct (Z.leb_spec a b) end; try done;
      injection D as <-; (split; [done|split; [cbn [d_got]; lia|]]); cbn [d_got]; sublist_by_cases. }
    destruct G as (T1 & G1 & G). destruct (IH e d1 d' Pe T1 G1 E') as (a & b & -> & Sa & R).
    exists (x :: a), b. split; [done|]. split; [etransitivity; [|exact G]; now constructor|].
    destruct R as [(-> & T' & _)|R]; [left; done|now right].
Qed.

Lemma duration_ends t : ws_deserialize_duration (Some t) <> Diverge.
Proof.
  unfold ws_deserialize_duration. destruct (match t with c :: r => _ | [] => _ end) as [neg [|c u]]; [done|].
  destruct (bool_decide _); [|done].
  destruct (loop_fuel (S (length u)) (S (length u)) u dur0 ltac:(lia) ltac:(lia)) as [_ ND].
  destruct (duration_loop (S (length u)) u dur0) as [[d|]| | |]; cbn [obind]; try done. now destruct (_ || _).
Qed.
Lemma duration_accepted t v : "."%char ∉ t -> ws_deserialize_duration (Some t) = Done (Some v) ->
  exists a b, letters t = a ++ b /\ a `sublist_of` lit "YMD" /\
    ((b = [] /\ a <> []) \/ exists b', b = "T"%char :: b' /\ no_T b' `sublist_of` lit "HMS" /\ no_T b' <> []).
Proof.
  intros P. unfold ws_deserialize_duration.
  assert (Sg : exists neg u, match t with c :: r => if bool_decide (c = "-"%char) then (true, r) else (false, t) | [] => (false, t) end = (neg, u) /\
    letters t = letters u /\ "."%char ∉ u).
  { destruct t as [|c r]; [by exists false, []|]. destruct (bool_decide_reflect (c = "-"%char)) as [->|]; [|by exists false, (c :: r)].
    exists true, r. split; [done|]. split; [done|]. now apply not_elem_of_cons in P as [_ P]. }
  destruct Sg as (neg & u & -> & -> & Pu). destruct u as [|c u]; [done|].
  destruct (bool_decide_reflect (c = "P"%char)) as [->|]; [|done]. apply not_elem_of_cons in Pu as [_ Pu].
  destruct (duration_loop (S (length u)) u dur0) as [[d|]| | |] eqn:E; cbn [obind]; try done.
  destruct ((d_time d && (4 <? d_got d)) || (64 =? d_got d)) eqn:B; [done|]. intros _.
  apply orb_false_iff in B as [B1 B2]. apply Z.eqb_neq in B2.
  destruct (date_order _ u dur0 d Pu eq_refl ltac:(simpl; lia) E) as (a & b & El & Sa & R).
  exists a, b. split; [exact El|]. split; [exact Sa|]. destruct R as [(-> & _ & G)|(b' & -> & T & Sb & G)].
  - left. split; [done|]. intros ->. now rewrite G in B2.
  - right. exists b'. split; [done|]. split; [done|]. intros N. specialize (G N). rewrite T in B1. cbn [andb] in B1.
    apply Z.ltb_ge in B1. lia.
Qed.
Lemma amount_bound o : from_option number True o -> 0 <= amount o < 2 ^ 31.
Proof. destruct o as [v|]; cbn [from_option amount]; [now intros (_ & _ & B)|lia]. Qed.
Lemma duration_bound p : parts_ok p -> 0 <= duration_of p < 2 ^ 57.
Proof.
  intros H. inversion_clear H as [|? ? A1 H1]. inversion_clear H1 as [|? ? A2 H2]. inversion_clear H2 as [|? ? A3 H3].
  inversion_clear H3 as [|? ? A4 H4]. inversion_clear H4 as [|? ? A5 H5]. inversion_clear H5 as [|? ? A6 _]. apply amount_bound in A1, A2, A3, A4, A5, A6. unfold duration_of. lia.
Qed.

(** C36. A duration is read as it is written: years, months, days and, behind a T, hours, minutes and
    whole seconds, each of them optional but not all of them left out, each a number of one or more
    digits below 2^31, give their sum in seconds with months of 30 days and years of 12 months, which
    is below 2^57, so that no [long] overflows; and as an Expires the text sets the time that is this
    many seconds after the present, whatever the time zone and the value before. *)
Theorem duration_roundtrip mktime isdst now old p : parts_ok p -> date_part p ++ time_part p <> [] ->
  ws_deserialize_duration (Some (write_duration p)) = Done (Some (duration_of p)) /\ 0 <= duration_of p < 2 ^ 57 /\
  wsman_set_expiretime mktime isdst now (Some (write_duration p)) old = Done (u64 (now + duration_of p), WSMAN_RC_OK).
Proof.
  intros N E. split; [now apply duration_written|]. split; [now apply duration_bound|]. unfold wsman_set_expiretime.
  change (peek (write_duration p)) with "P"%char. rewrite bool_decide_true by done. now rewrite duration_written.
Qed.

(** What the reader accepts at all: a text without fractions that is accepted has the letters Y, M, D
    before the first T and H, M, S behind it, each at most once and in this order, at least one
    letter at all and at least one behind a T; for every text the reader comes to an end. *)
Theorem duration_letters t : ws_deserialize_duration (Some t) <> Diverge /\
  forall v, "."%char ∉ t -> ws_deserialize_duration (Some t) = Done (Some v) ->
  exists a b, letters t = a ++ b /\ a `sublist_of` lit "YMD" /\
    ((b = [] /\ a <> []) \/ exists b', b = "T"%char :: b' /\ no_T b' `sublist_of` lit "HMS" /\ no_T b' <> []).
Proof. split; [apply duration_ends|]. intros v P. now apply duration_accepted. Qed.

(** ** Stored expiry times *)
(** What [localtime_r] gives: the fields in their ranges, in a year that the reader takes. *)
Definition tm_ok (t : tm) : Prop :=
  0 <= tm_year t <= 1100 /\ 0 <= tm_mon t < 12 /\ 1 <= tm_mday t <= 31 /\ 0 <= tm_hour t < 24 /\ 0 <= tm_min t < 60 /\ 0 <= tm_sec t < 62.
Definition year_text (y : Z) : cstring := lit (pretty (Z.to_N (u32 y))).
(** A text of at most [k] digits that stands for [n]. *)
Definition shows (k : nat) (v : cstring) (n : Z) : bool :=
  match v with [] => false | _ => forallb isdigit v && (digits v 0 =? n) && Nat.leb (length v) k end.
Lemma shows_number k v n : shows k v n = true -> 0 <= n < 2 ^ 31 -> number v /\ digits v 0 = n /\ (length v <= k)%nat.
Proof.
  unfold shows. destruct v as [|c v]; [done|]. rewrite !andb_true_iff, Z.eqb_eq, Nat.leb_le.
  intros [[F E] L] B. split; [|done]. split; [done|]. split; [done|]. now rewrite E.
Qed.
Lemma two_shows v : 0 <= v < 62 -> shows 2 (two v) v = true.
Proof. intros B. apply (forall_below 62 (fun v => shows 2 (two v) v)); [vm_compute; reflexivity|lia]. Qed.
Lemma year_shows y : 0 <= y < 1101 -> shows 4 (year_text (y + 1900)) (y + 1900) = true.
Proof. intros B. apply (forall_below 1101 (fun y => shows 4 (year_text (y + 1900)) (y + 1900))); [vm_compute; reflexivity|lia]. Qed.
Lemma shows_read k v n c r : shows k v n = true -> 0 <= n < 2 ^ 31 -> isdigit c = false -> strtol (v ++ c :: r) = Some (n, c :: r).
Proof. intros H B D. destruct (shows_number k v n H B) as (N & <- & _). now apply strtol_number. Qed.
Lemma two_read v c r : 0 <= v < 62 -> isdigit c = false -> strtol (two v ++ c :: r) = Some (v, c :: r).
Proof. intros B. apply (shows_read 2); [now apply two_shows|lia]. Qed.
Lemma year_read y c r : 0 <= y < 1101 -> isdigit c = false -> strtol (year_text (y + 1900) ++ c :: r) = Some (y + 1900, c :: r).
Proof. intros B. apply (shows_read 4); [now apply year_shows|lia]. Qed.
Lemma two_length v : 0 <= v < 62 -> (length (two v) <= 2)%nat.
Proof. intros B. apply (shows_number 2 (two v) v); [now apply two_shows|lia]. Qed.
Lemma year_length y : 0 <= y < 1101 -> (length (year_text (y + 1900)) <= 4)%nat.
Proof. intros B. apply (shows_number 4 _ (y + 1900)); [now apply year_shows|lia]. Qed.
Lemma date_scanned t : tm_ok t ->
  scan_ints date_format (year_text (tm_year t + 1900) ++ lit "-" ++ two (tm_mon t + 1) ++ lit "-" ++ two (tm_mday t) ++
    lit "T" ++ two (tm_hour t) ++ lit ":" ++ two (tm_min t) ++ lit ":" ++ two (tm_sec t) ++ lit "+" ++ two 0 ++ lit ":" ++ two 0) =
  Some [tm_year t + 1900; tm_mon t + 1; tm_mday t; tm_hour t; tm_min t; tm_sec t; 0; 0].
Proof.
  intros (Y & Mo & D & Hh & Mi & S). unfold date_format. cbn [lit list_ascii_of_string app].
  cbn [scan_ints]. rewrite year_read by (done || lia). rewrite bool_decide_true by done.
  rewrite (two_read (tm_mon t + 1)), bool_decide_true by (done || lia). rewrite (two_read (tm_mday t)), bool_decide_true by (done || lia).
  rewrite (two_read (tm_hour t)), bool_decide_true by (done || lia). rewrite (two_read (tm_min t)), bool_decide_true by (done || lia).
  rewrite (two_read (tm_sec t)) by (done || lia). rewrite !s32_id by lia. reflexivity.
Qed.

Lemma expiry_read mktime localtime isdst now old e : 0 <= e < 2 ^ 63 ->
  tm_ok (localtime e) -> tm_isdst (localtime e) = isdst -> mktime (localtime e) = e ->
  wsman_set_expiretime mktime isdst now (Some (wsman_expiretime2xmldatetime localtime e)) old = Done (e, WSMAN_RC_OK).
Proof.
  intros B K I M. unfold wsman_expiretime2xmldatetime. destruct (Z.leb_spec (2 ^ 63) e); [lia|].
  set (t := localtime e) in *. fold (year_text (tm_year t + 1900)).
  pose proof K as (Y & Mo & D & Hh & Mi & S). rewrite take_ge.
  2: { pose proof (year_length (tm_year t) ltac:(lia)). pose proof (two_length (tm_mon t + 1) ltac:(lia)).
       pose proof (two_length (tm_mday t) ltac:(lia)). pose proof (two_length (tm_hour t) ltac:(lia)).
       pose proof (two_length (tm_min t) ltac:(lia)). pose proof (two_length (tm_sec t) ltac:(lia)).
       rewrite !length_app. change (length (two 0)) with 2%nat. simpl length. lia. }
  unfold wsman_set_expiretime. rewrite bool_decide_false.
  2: { pose proof (year_shows (tm_year t) ltac:(lia)) as F. destruct (year_text (tm_year t + 1900)) as [|c y]; [done|].
       cbn [peek app shows forallb] in *. intros ->. done. }
  unfold ws_deserialize_datetime. rewrite date_scanned by done.
  assert (G : in_field 1900 3000 (tm_year t + 1900) && in_field 1 12 (tm_mon t + 1) && in_field 1 31 (tm_mday t) && in_field 0 23 (tm_hour t) &&
    in_field 0 59 (tm_min t) && in_field 0 61 (tm_sec t) && in_field (-24) 24 0 && in_field 0 59 0 = true).
  { unfold in_field. rewrite !andb_true_iff, !Z.leb_le. lia. }
  rewrite G. cbv iota. change (60 * (if 0 <? 0 then 60 * 0 - 0 else 60 * 0 + 0)) with 0.
  replace (Tm _ _ _ _ _ _ _) with t; [rewrite M, Z.add_0_r, u64_small by lia; done|].
  rewrite <- I. destruct t. cbn. f_equal; lia.
Qed.

(** An expiry time that is stored as a date comes back: read again in the same time zone and
    with daylight saving as it was, the text gives the time that was written, for every year up
    to 3000. *)
Theorem expiry_roundtrip mktime localtime isdst now old e : 0 <= e < 2 ^ 63 ->
  tm_ok (localtime e) -> tm_isdst (localtime e) = isdst -> mktime (localtime e) = e ->
  wsman_set_expiretime mktime isdst now (Some (wsman_expiretime2xmldatetime localtime e)) old = Done (e, WSMAN_RC_OK).
Proof. apply expiry_read. Qed.

(** ** Concrete times *)
Definition demo_parts : parts := Parts None None (Some (lit "2")) None (Some (lit "05")) (Some (lit "30")).
Lemma duration_roundtrip_witness :
  ws_deserialize_duration (Some (lit "P2DT05M30S")) = Done (Some 173130) /\ 0 <= 173130 < 2 ^ 57 /\
  wsman_set_expiretime (fun _ => 0) 0 1000 (Some (lit "P2DT05M30S")) 7 = Done (174130, WSMAN_RC_OK).
Proof.
  apply (duration_roundtrip (fun _ => 0) 0 1000 7 demo_parts); [|done]. repeat constructor; done.
Defined.
Lemma duration_letters_witness : ws_deserialize_duration (Some (lit "P2DT30S")) <> Diverge /\
  exists a b, lit "DTS" = a ++ b /\ a `sublist_of` lit "YMD" /\
    ((b = [] /\ a <> []) \/ exists b', b = "T"%char :: b' /\ no_T b' `sublist_of` lit "HMS" /\ no_T b' <> []).
Proof.
  destruct (duration_letters (lit "P2DT30S")) as [H1 H2]. split; [exact H1|]. apply (H2 172830); [|vm_compute; reflexivity].
  apply (bool_decide_eq_true_1 _). vm_compute. reflexivity.
Defined.
(** The calendar without time zones. *)
Definition utc_time (e : Z) : tm :=
  let z := e / 86400 + 719468 in let era := z / 146097 in let doe := z - era * 146097 in
  let yoe := (doe - doe / 1460 + doe / 36524 - doe / 146096) / 365 in
  let doy := doe - (365 * yoe + yoe / 4 - yoe / 100) in
  let mp := (5 * doy + 2) / 153 in
  let m := if mp <? 10 then mp + 2 else mp - 10 in
  Tm (yoe + era * 400 + (if m <? 2 then 1 else 0) - 1900) m (doy - (153 * mp + 2) / 5 + 1)
    (e mod 86400 / 3600) (e mod 3600 / 60) (e mod 60) 0.
Definition utc_mktime (t : tm) : Z :=
  let y := tm_year t + 1900 - (if tm_mon t <? 2 then 1 else 0) in let era := y / 400 in let yoe := y - era * 400 in
  let mp := if tm_mon t <? 2 then tm_mon t + 10 else tm_mon t - 2 in
  let doe := yoe * 365 + yoe / 4 - yoe / 100 + (153 * mp + 2) / 5 + tm_mday t - 1 in
  (era * 146097 + doe - 719468) * 86400 + tm_hour t * 3600 + tm_min t * 60 + tm_sec t.
Example utc_date : wsman_expiretime2xmldatetime utc_time 1735787045 = lit "2025-01-02T03:04:05+00:00".
Proof. vm_compute. reflexivity. Qed.
Lemma expiry_roundtrip_witness :
  wsman_set_expiretime utc_mktime 0 0 (Some (lit "2025-01-02T03:04:05+00:00")) 7 = Done (1735787045, WSMAN_RC_OK).
Proof.
  rewrite <- utc_date. apply (expiry_roundtrip utc_mktime utc_time 0 0 7 1735787045); [lia|vm_compute; intuition discriminate|reflexivity|vm_compute; reflexivity].
Defined.
(** The offset of a date is added where it is to be taken off, the sign of an offset below an hour
    is lost, and neither the letter Z nor a fraction of a second is read. *)
Example offset_added : wsman_set_expiretime utc_mktime 0 0 (Some (lit "2025-01-02T03:04:05+02:00")) 7 =
  Done (1735787045 + 7200, WSMAN_RC_OK).
Proof. vm_compute. reflexivity. Qed.
Example offset_sign : wsman_set_expiretime utc_mktime 0 0 (Some (lit "2025-01-02T03:04:05-00:30")) 7 = Done (1735787045 + 1800, WSMAN_RC_OK).
Proof. vm_compute. reflexivity. Qed.
Example dates_refused : forallb (fun s => match wsman_set_expiretime utc_mktime 0 0 (Some (lit s)) 7 with
    Done (7, WSEN_UNSUPPORTED_EXPIRATION_TYPE) => true | _ => false end)
  ["2025-01-02T03:04:05Z"; "2025-01-02T03:04:05.5+00:00"; "2025-01-02"; "-PT5S"]%string = true.
Proof. vm_compute. reflexivity. Qed.
(** Spaces and signs inside a duration and several T are read. *)
Example duration_loose : map (fun s => ws_deserialize_duration (Some (lit s))) ["P 1D"; "P-1D"; "PT1HT2MT"]%string =
  [Done (Some 86400); Done (Some (-86400)); Done (Some 3720)].
Proof. vm_compute. reflexivity. Qed.
End WsTime.
