(* ===== verification/Uri.v ===== *)
(** * Uri: URIs and queries (lib/u/uri.c, lib/u/misc.c)

    The parser of URIs, that of the queries in them and of lists of definitions, and the
    string helpers they use.  [malloc] is taken to succeed for the sizes that [PTRDIFF_MAX]
    allows, and to fail for others. *)
From S2P Require Import Prelude CString HttpText HttpAuth WsTime.
Import HttpText HttpAuth WsTime.

Module Uri.

(** ** misc.c *)
(* src: lib/u/misc.c 47-50 u_isblank *)
Definition u_isblank (c : ascii) : bool := bool_decide (c = " "%char) || bool_decide (c = chr 9).
(* src: lib/u/misc.c 53-56 u_isquote *)
Definition u_isquote (c : ascii) : bool := bool_decide (c = chr 34).
(** Characters are taken off the end, though never the first one, and then off the front. *)
Definition trim (p : ascii -> bool) (s : cstring) : cstring :=
  skip_while p (match s with [] => [] | c :: r => c :: rev (skip_while p (rev r)) end).
(* src: lib/u/misc.c 59-80 u_trim_quotes *)
Definition u_trim_quotes (s : cstring) : cstring := trim u_isquote s.
(* src: lib/u/misc.c 84-105 u_trim *)
Definition u_trim (s : cstring) : cstring := trim u_isblank s.
(* src: lib/u/misc.c 109-115 u_isblank_str *)
Definition u_isblank_str (ln : cstring) : bool := forallb u_isblank ln.
(* src: lib/u/misc.c 120-123 u_isnl *)
Definition u_isnl (c : ascii) : bool := bool_decide (c = LF) || bool_decide (c = CR).
(** [s]: a text with its terminator; reading behind that is undefined.  [len] as a [size_t]. *)
(* src: lib/u/misc.c 128-137 u_strndup *)
Definition u_strndup (s : cstring) (len : Z) : outcome (option cstring) :=
  if 2 ^ 63 - 1 <? u64 (len + 1) then Done None
  else if Z.of_nat (length s) + 1 <? len then Undef
  else Done (Some (c_string (take (Z.to_nat len) s))).
(* src: lib/u/misc.c 342-352 isstrdigit *)
Definition isstrdigit (str : option cstring) : bool :=
  match str with Some ((_ :: _) as s) => forallb isdigit s | _ => false end.
(* src: lib/u/misc.c 354-367 u_path_is_absolute *)
Definition u_path_is_absolute (filename : cstring) : bool :=
  bool_decide (peek filename = "."%char) || bool_decide (peek filename = "/"%char).

(** ** uri.c *)
(** The two parts, or the error. *)
(* src: lib/u/uri.c 27-58 split *)
Definition split (s : cstring) (len : Z) (c : ascii) : outcome (option (cstring * option cstring)) :=
  let* buf := u_strndup s len in
  match buf with
  | None => Done None
  | Some buf =>
      match find_char c buf with
      | Some k =>
          let* l := u_strndup s (Z.of_nat k) in
          let* r := u_strndup (drop (S k) buf) (len - Z.of_nat k - 1) in
          match l, r with Some l, Some r => Done (Some (l, Some r)) | _, _ => Done None end
      | None =>
          let* l := u_strndup buf len in
          match l with Some l => Done (Some (l, None)) | None => Done None end
      end
  end.
(** [short]: 16 bits. *)
Definition s16 (z : Z) : Z := let w := z mod 65536 in if w <? 32768 then w else w - 65536.
Definition atoi (s : cstring) : Z := match strtol s with Some (v, _) => s32 v | None => 0 end.
(* src: src/CIM_Framework/openwsman/include/u/uri.h 13-22 u_uri_s *)
Record u_uri_t := UUri {
  scheme : option cstring; user : option cstring; pwd : option cstring; host : option cstring;
  port : Z; path : option cstring; query : option cstring }.
(* src: lib/u/uri.c 60-63 parse_userinfo *)
Definition parse_userinfo (s : cstring) (len : Z) (u : u_uri_t) : outcome (bool * u_uri_t) :=
  let* r := split s len ":" in
  match r with
  | None => Done (false, u)
  | Some (l, r) => Done (true, UUri (scheme u) (Some l) r (host u) (port u) (path u) (query u))
  end.
(* src: lib/u/uri.c 65-77 parse_hostinfo *)
Definition parse_hostinfo (s : cstring) (len : Z) (u : u_uri_t) : outcome (bool * u_uri_t) :=
  let* r := split s len ":" in
  match r with
  | None => Done (false, u)
  | Some (l, r) =>
      Done (true, UUri (scheme u) (user u) (pwd u) (Some l) (match r with Some p => s16 (atoi p) | None => port u end) (path u) (query u))
  end.
(** The at sign is looked for in all that follows. *)
(* src: lib/u/uri.c 79-90 parse_middle *)
Definition parse_middle (s : cstring) (len : Z) (u : u_uri_t) : outcome (bool * u_uri_t) :=
  match find_char "@" s with
  | None => parse_hostinfo s len u
  | Some k =>
      let* (a, u) := parse_userinfo s (Z.of_nat k) u in
      let* (b, u) := parse_hostinfo (drop (S k) s) (len - Z.of_nat k - 1) u in
      Done ((a : bool) && b, u)
  end.
Definition slash (c : ascii) : bool := bool_decide (c = "/"%char).
(** The result 0 with the URI, or [None]. *)
(* src: lib/u/uri.c 107-169 u_uri_parse *)
Definition u_uri_parse (s : cstring) : outcome (option u_uri_t) :=
  match split_at ":" s with
  | None => Done None
  | Some (sch, p) =>
      let u := UUri (Some sch) None None None 0 None None in
      match p with
      | c1 :: c2 :: p0 =>
          if negb (slash c1) || negb (slash c2) then Done None else
          let rest := skip_while (fun c => negb (slash c)) p0 in
          let n := Z.of_nat (length p0 - length rest) in
          let* (ok, u) := if 0 <? n then parse_middle p0 n u else Done (true, u) in
          if negb (ok : bool) then Done None else
          let pth := match rest with [] => None | _ => Some rest end in
          let q := match split_at "?" s with Some (_, q) => match q with [] => None | _ => Some q end | None => None end in
          Done (Some (UUri (scheme u) (user u) (pwd u) (host u) (port u) pth q))
      | _ => Done None
      end
  end.

(** The decoding of a string in its place, or the result 1. *)
(* src: lib/u/uri.c 175-202 u_string_unify *)
Fixpoint u_string_unify (s : list ascii) : option (list ascii) :=
  match s with
  | [] => Some []
  | c :: r =>
      if bool_decide (c = "%"%char) then
        match r with
        | a :: b :: r => if isxdigit a && isxdigit b then cons (hex_pair a b) <$> u_string_unify r else None
        | _ => None
        end
      else cons c <$> u_string_unify r
  end.
(** [strtok_r]: the tokens, none of them empty. *)
Fixpoint tokens (sep : ascii -> bool) (s cur : cstring) : list cstring :=
  match s with
  | [] => match cur with [] => [] | _ => [rev cur] end
  | c :: s => if sep c then match cur with [] => tokens sep s [] | _ => rev cur :: tokens sep s [] end
              else tokens sep s (c :: cur)
  end.
(** The table of names and values, or [None] when an equals sign is missing.  A pair that cannot be
    decoded is left out, and so is a second value of a name. *)
(* src: lib/u/uri.c 221-267 _u_parse *)
Fixpoint parse_pairs (toks : list cstring) (h : gmap cstring cstring) : option (gmap cstring cstring) :=
  match toks with
  | [] => Some h
  | tok :: toks =>
      match split_at "=" tok with
      | None => None
      | Some (key, val) =>
          let key := u_trim key in
          let val := u_trim_quotes (u_trim val) in
          match u_string_unify key, u_string_unify val with
          | Some key, Some val =>
              let key := c_string key in
              parse_pairs toks (if h !! key then h else <[key := c_string val]> h)
          | _, _ => parse_pairs toks h
          end
      end
  end.
(* src: lib/u/uri.c 205-276 _u_parse *)
Definition _u_parse (query : option cstring) (separator : ascii -> bool) : option (gmap cstring cstring) :=
  match query with None => None | Some q => parse_pairs (tokens separator q []) ∅ end.
(* src: lib/u/uri.c 285-289 u_parse_query *)
Definition u_parse_query (query : option cstring) := _u_parse query (fun c => bool_decide (c = "&"%char) || bool_decide (c = ";"%char)).
(* src: lib/u/uri.c 291-295 u_parse_list *)
Definition u_parse_list (list : option cstring) := _u_parse list (fun c => bool_decide (c = ","%char)).

(** [strstr (url, "http") != NULL]. *)
Fixpoint contains (p s : cstring) : bool :=
  starts_with p s || match s with [] => false | _ :: s => contains p s end.
(* src: lib/wsman-soap.c 1524-1535 destination_reachable *)
Definition destination_reachable (url : cstring) : outcome bool :=
  if negb (contains (lit "http") url) then Done false
  else let* u := u_uri_parse url in Done (bool_decide (is_Some u)).

Example uri_demo : u_uri_parse (lit "http://admin:pw@host:8889/wsman?a=1") =
  Done (Some (UUri (Some (lit "http")) (Some (lit "admin")) (Some (lit "pw")) (Some (lit "host")) 8889
    (Some (lit "/wsman?a=1")) (Some (lit "a=1")))).
Proof. vm_compute. reflexivity. Qed.
(** A path with an at sign is refused, and a port above 32767 is negative. *)
Example uri_at : u_uri_parse (lit "http://host/a@b") = Done None.
Proof. vm_compute. reflexivity. Qed.
Example uri_port : (u ← match u_uri_parse (lit "http://host:40000/") with Done u => u | _ => None end; Some (port u)) = Some (-25536).
Proof. vm_compute. reflexivity. Qed.
Example query_demo : u_parse_query (Some (lit " a = %22x%22 ;b='1';a=2;&c=%zz")) =
  Some {[ lit "a" := [chr 34; "x"%char; chr 34]; lit "b" := lit "'1'" ]}.
Proof. vm_compute. reflexivity. Qed.

(** ** URIs are taken apart as they are put together *)
Lemma u64_add_1 n : 0 <= n < 2 ^ 62 -> (2 ^ 63 - 1 <? u64 (n + 1)) = false.
Proof. intros H. rewrite u64_small by lia. apply Z.ltb_ge. lia. Qed.
Lemma strndup_prefix a rest : no_nul a -> Z.of_nat (length a) < 2 ^ 62 -> u_strndup (a ++ rest) (Z.of_nat (length a)) = Done (Some a).
Proof.
  intros N L. unfold u_strndup. rewrite u64_add_1 by lia.
  destruct (Z.ltb_spec (Z.of_nat (length (a ++ rest)) + 1) (Z.of_nat (length a))) as [H|_]; [rewrite length_app in H; lia|].
  now rewrite Nat2Z.id, take_app_length, c_string_id.
Qed.
Lemma strndup_all a : no_nul a -> Z.of_nat (length a) < 2 ^ 62 -> u_strndup a (Z.of_nat (length a)) = Done (Some a).
Proof. intros N L. pose proof (strndup_prefix a [] N L) as H. now rewrite app_nil_r in H. Qed.
Lemma no_nul_app a b : no_nul (a ++ b) <-> no_nul a /\ no_nul b.
Proof. unfold no_nul. rewrite not_elem_of_app. done. Qed.
Definition halves (c : ascii) (a : cstring) : cstring * option cstring :=
  match split_at c a with Some (l, r) => (l, Some r) | None => (a, None) end.
Lemma split_ok a rest c : no_nul a -> Z.of_nat (length a) < 2 ^ 62 -> split (a ++ rest) (Z.of_nat (length a)) c = Done (Some (halves c a)).
Proof.
  intros N L. unfold split. rewrite strndup_prefix by done. cbn [obind]. unfold find_char, halves.
  pose proof (split_at_spec c a) as S. destruct (split_at c a) as [[l r]|].
  - destruct S as [-> _]. rewrite <- app_assoc. apply no_nul_app in N as [Nl Nr].
    unfold no_nul in Nr. rewrite not_elem_of_cons in Nr. destruct Nr as [_ Nr]. rewrite length_app in L. simpl in L.
    rewrite (strndup_prefix l) by (done || lia). cbn [obind].
    replace (drop (S (length l)) (l ++ c :: r)) with r by (rewrite cons_middle, app_assoc, drop_app_length'; [done|rewrite length_app; simpl; lia]).
    replace (Z.of_nat (length (l ++ c :: r)) - Z.of_nat (length l) - 1) with (Z.of_nat (length r)) by (rewrite length_app; simpl; lia).
    now rewrite strndup_all by (done || lia).
  - now rewrite strndup_all by (done || lia).
Qed.

(** The parts of a URI. *)
Record parts := UParts { u_scheme : cstring; u_user : option (cstring * option cstring); u_host : cstring; u_port : option cstring; u_path : cstring }.
Definition write_userinfo (x : cstring * option cstring) : cstring := x.1 ++ match x.2 with Some w => lit ":" ++ w | None => [] end.
Definition write_host (p : parts) : cstring := u_host p ++ match u_port p with Some t => lit ":" ++ t | None => [] end.
Definition write_authority (p : parts) : cstring :=
  match u_user p with Some x => write_userinfo x ++ lit "@" | None => [] end ++ write_host p.
Definition write_uri (p : parts) : cstring := u_scheme p ++ lit "://" ++ write_authority p ++ u_path p.
(** A text without the given characters and without a terminator. *)
Definition lacks (l : list ascii) (s : cstring) : Prop := Forall (fun c => c ∉ NUL :: l) s.
Record parts_ok (p : parts) : Prop := PartsOk {
  po_scheme : lacks [":"; "?"]%char (u_scheme p);
  po_user : from_option (fun x => lacks [":"; "@"; "/"; "?"]%char x.1 /\ from_option (lacks ["@"; "/"; "?"]%char) True x.2) True (u_user p);
  po_host : u_host p <> [] /\ lacks [":"; "@"; "/"; "?"]%char (u_host p);
  po_port : from_option (fun t => number t /\ digits t 0 < 2 ^ 15) True (u_port p);
  po_path : u_path p = [] \/ exists r, u_path p = "/"%char :: r;
  po_path_at : lacks ["@"]%char (u_path p);
  po_length : Z.of_nat (length (write_uri p)) < 2 ^ 62 }.
Definition query_of (path : cstring) : option cstring :=
  match split_at "?" path with Some (_, q) => match q with [] => None | _ => Some q end | None => None end.
Definition parsed_uri (p : parts) : u_uri_t :=
  UUri (Some (u_scheme p)) (fst <$> u_user p) (u_user p ≫= snd) (Some (u_host p))
    (match u_port p with Some t => digits t 0 | None => 0 end)
    (match u_path p with [] => None | r => Some r end) (query_of (u_path p)).

Lemma lacks_char l s c : lacks l s -> c ∈ NUL :: l -> c ∉ s.
Proof. intros F H Hc. unfold lacks in F. rewrite Forall_forall in F. now apply (F c Hc). Qed.
Lemma lacks_nul l s : lacks l s -> no_nul s.
Proof. intros F. apply (lacks_char l); [done|left]. Qed.
Ltac char_in := rewrite !elem_of_cons; tauto.
Lemma split_at_none c s : c ∉ s -> split_at c s = None.
Proof.
  intros N. pose proof (split_at_spec c s) as S. destruct (split_at c s) as [[a b]|]; [|done]. destruct S as [-> _].
  exfalso. apply N, elem_of_app. right. left.
Qed.
Lemma find_char_first c a b : c ∉ a -> find_char c (a ++ c :: b) = Some (length a).
Proof. intros N. unfold find_char. now rewrite split_at_first. Qed.
Lemma find_char_none c s : c ∉ s -> find_char c s = None.
Proof. intros N. unfold find_char. now rewrite split_at_none. Qed.
Lemma number_digits t : number t -> Forall (fun c => isdigit c = true) t.
Proof. intros (_ & F & _). apply Forall_forall. intros c Hc. rewrite forallb_forall in F. now apply F, list_elem_of_In. Qed.
Lemma digit_not t c : number t -> isdigit c = false -> c ∉ t.
Proof. intros N D Hc. apply number_digits in N. rewrite Forall_forall in N. apply N in Hc. congruence. Qed.
Lemma atoi_number t : number t -> atoi t = digits t 0.
Proof.
  intros N. unfold atoi. pose proof N as (Nt & F & B). destruct t as [|x t]; [done|]. unfold strtol.
  assert (Dx : isdigit x = true) by (cbn [forallb] in F; now apply andb_true_iff in F as [-> _]).
  destruct (digit_plain x Dx) as (S & M & P & _). cbn [skip_while]. rewrite S. cbn [scan_sign]. rewrite !bool_decide_false by done.
  cbv iota. cbn [peek]. rewrite Dx. unfold s64. rewrite s32_id; lia.
Qed.
Lemma s16_small z : 0 <= z < 2 ^ 15 -> s16 z = z.
Proof. intros H. unfold s16. cbv zeta. rewrite Z.mod_small by lia. destruct (Z.ltb_spec z 32768); lia. Qed.
Lemma hostinfo_ok p rest u : parts_ok p -> Z.of_nat (length (write_host p)) < 2 ^ 62 -> port u = 0 ->
  parse_hostinfo (write_host p ++ rest) (Z.of_nat (length (write_host p))) u =
  Done (true, UUri (scheme u) (user u) (pwd u) (Some (u_host p)) (match u_port p with Some t => digits t 0 | None => 0 end) (path u) (query u)).
Proof.
  intros [_ _ [_ H] P _ _ _] L U. unfold parse_hostinfo, write_host in *.
  assert (Nc : ":"%char ∉ u_host p) by (apply (lacks_char _ _ _ H); char_in). pose proof (lacks_nul _ _ H) as Nh.
  destruct (u_port p) as [t|]; cbn [from_option] in P.
  - destruct P as [N B]. rewrite split_ok; [| |done].
    + cbn [obind]. unfold halves. cbn [lit list_ascii_of_string app]. rewrite split_at_first by done. cbv iota.
      rewrite atoi_number by done. rewrite s16_small; [done|]. destruct N as (_ & _ & N). lia.
    + apply no_nul_app. split; [done|]. apply no_nul_app. split; [apply (bool_decide_eq_true_1 _); reflexivity|]. now apply digit_not.
  - rewrite app_nil_r in *. rewrite split_ok by done. cbn [obind]. unfold halves. now rewrite split_at_none, U.
Qed.
Lemma userinfo_ok x rest u : lacks [":"; "@"; "/"; "?"]%char x.1 -> from_option (lacks ["@"; "/"; "?"]%char) True x.2 ->
  Z.of_nat (length (write_userinfo x)) < 2 ^ 62 ->
  parse_userinfo (write_userinfo x ++ rest) (Z.of_nat (length (write_userinfo x))) u =
  Done (true, UUri (scheme u) (Some x.1) x.2 (host u) (port u) (path u) (query u)).
Proof.
  destruct x as [n w]. cbn [fst snd]. intros Hn Hw L. unfold parse_userinfo, write_userinfo in *. cbn [fst snd] in *.
  assert (Nc : ":"%char ∉ n) by (apply (lacks_char _ _ _ Hn); char_in). pose proof (lacks_nul _ _ Hn) as Nn.
  destruct w as [w|]; cbn [from_option] in Hw.
  - rewrite split_ok; [| |done]; [cbn [obind]; unfold halves; cbn [lit list_ascii_of_string app]; now rewrite split_at_first|].
    apply no_nul_app. split; [done|]. apply no_nul_app. split; [apply (bool_decide_eq_true_1 _); reflexivity|]. now apply (lacks_nul _ _ Hw).
  - rewrite app_nil_r in *. rewrite split_ok by done. cbn [obind]. unfold halves. now rewrite split_at_none.
Qed.

Lemma host_no_at p : parts_ok p -> "@"%char ∉ write_host p ++ u_path p.
Proof.
  intros [_ _ [_ H] P _ A _]. unfold write_host. rewrite !not_elem_of_app.
  split; [split; [apply (lacks_char _ _ _ H); char_in|]|apply (lacks_char _ _ _ A); char_in].
  destruct (u_port p) as [t|]; [|apply not_elem_of_nil]. destruct P as [N _]. rewrite not_elem_of_app.
  split; [apply (bool_decide_eq_true_1 _); reflexivity|now apply digit_not].
Qed.
Lemma middle_ok p u : parts_ok p -> port u = 0 -> user u = None -> pwd u = None ->
  parse_middle (write_authority p ++ u_path p) (Z.of_nat (length (write_authority p))) u =
  Done (true, UUri (scheme u) (fst <$> u_user p) (u_user p ≫= snd) (Some (u_host p))
    (match u_port p with Some t => digits t 0 | None => 0 end) (path u) (query u)).
Proof.
  intros K U U1 U2. pose proof (host_no_at p K) as Na. pose proof K as [_ Uo _ _ _ _ L]. unfold write_uri in L.
  rewrite !length_app in L. unfold parse_middle, write_authority in *. destruct (u_user p) as [x|]; cbn [from_option] in Uo.
  - destruct Uo as [Hn Hw]. rewrite !length_app in L. simpl length in L.
    replace ((write_userinfo x ++ lit "@") ++ write_host p) with (write_userinfo x ++ "@"%char :: write_host p) by (rewrite <- app_assoc; done).
    rewrite <- app_assoc. cbn [app].
    assert (Ni : "@"%char ∉ write_userinfo x).
    { unfold write_userinfo. rewrite not_elem_of_app. split; [apply (lacks_char _ _ _ Hn); char_in|].
      destruct x.2 as [w|]; [|apply not_elem_of_nil]. cbn [from_option] in Hw. rewrite not_elem_of_app.
      split; [apply (bool_decide_eq_true_1 _); reflexivity|apply (lacks_char _ _ _ Hw); char_in]. }
    rewrite find_char_first, userinfo_ok by (done || lia). cbn [obind].
    replace (drop _ _) with (write_host p ++ u_path p) by (rewrite cons_middle, app_assoc, drop_app_length'; [done|rewrite length_app; simpl; lia]).
    replace (Z.of_nat _ - _ - 1) with (Z.of_nat (length (write_host p))) by (rewrite length_app; simpl; lia).
    now rewrite hostinfo_ok by (done || lia).
  - cbn [app] in *. rewrite find_char_none by done. rewrite hostinfo_ok by (done || lia). destruct u. cbn in *. now subst.
Qed.
Lemma skip_to c a b : Forall (fun x => x <> c) a -> (b = [] \/ exists r, b = c :: r) ->
  skip_while (fun x => negb (bool_decide (x = c))) (a ++ b) = b.
Proof.
  intros F B. induction F as [|x a N _ IH]; cbn [app skip_while]; [|now rewrite bool_decide_false].
  destruct B as [->|(r & ->)]; cbn [skip_while]; [done|]. now rewrite bool_decide_true.
Qed.
Lemma lacks_ne l s c : lacks l s -> c ∈ NUL :: l -> Forall (fun x => x <> c) s.
Proof. intros F H. apply Forall_forall. intros x Hx ->. now apply (lacks_char l s c F H). Qed.
Lemma no_slash p : parts_ok p -> Forall (fun x => x <> "/"%char) (write_authority p).
Proof.
  intros [_ U [_ H] P _ _ _]. unfold write_authority, write_host. repeat (apply Forall_app; split).
  - destruct (u_user p) as [[n w]|]; [|constructor]. destruct U as [Hn Hw]. cbn [fst snd] in *. unfold write_userinfo. cbn [fst snd].
    repeat (apply Forall_app; split); [apply (lacks_ne _ _ _ Hn); char_in| |now repeat constructor].
    destruct w as [w|]; [|constructor]. apply Forall_app. split; [now repeat constructor|]. apply (lacks_ne _ _ _ Hw); char_in.
  - apply (lacks_ne _ _ _ H); char_in.
  - destruct (u_port p) as [t|]; [|constructor]. apply Forall_app. split; [now repeat constructor|]. destruct P as [N _].
    apply number_digits in N. apply Forall_impl with (1 := N). intros c D ->. done.
Qed.
Lemma no_question p : parts_ok p -> "?"%char ∉ u_scheme p ++ lit "://" ++ write_authority p.
Proof.
  intros [S U [_ H] P _ _ _]. unfold write_authority, write_host. rewrite !not_elem_of_app. split; [|split; [|split; [|split]]].
  - apply (lacks_char _ _ _ S); char_in.
  - apply (bool_decide_eq_true_1 _); reflexivity.
  - destruct (u_user p) as [[n w]|]; [|apply not_elem_of_nil]. destruct U as [Hn Hw]. cbn [fst snd] in *. unfold write_userinfo. cbn [fst snd].
    rewrite !not_elem_of_app. split; [split; [apply (lacks_char _ _ _ Hn); char_in|]|apply (bool_decide_eq_true_1 _); reflexivity].
    destruct w as [w|]; [|apply not_elem_of_nil]. rewrite not_elem_of_app.
    split; [apply (bool_decide_eq_true_1 _); reflexivity|apply (lacks_char _ _ _ Hw); char_in].
  - apply (lacks_char _ _ _ H); char_in.
  - destruct (u_port p) as [t|]; [|apply not_elem_of_nil]. destruct P as [N _]. rewrite not_elem_of_app.
    split; [apply (bool_decide_eq_true_1 _); reflexivity|now apply digit_not].
Qed.
Lemma split_at_behind c a b : c ∉ a -> split_at c (a ++ b) = match split_at c b with Some (x, y) => Some (a ++ x, y) | None => None end.
Proof.
  induction a as [|x a IH]; intros N; [cbn [app]; now destruct (split_at c b) as [[? ?]|]|]. apply not_elem_of_cons in N as [Nx N].
  cbn [app split_at]. rewrite bool_decide_false by congruence. rewrite IH by done. now destruct (split_at c b) as [[? ?]|].
Qed.
Lemma uri_parsed p : parts_ok p -> u_uri_parse (write_uri p) = Done (Some (parsed_uri p)).
Proof.
  intros K. pose proof K as [S _ [Hn _] _ Pa _ L]. unfold u_uri_parse, write_uri. cbn [lit list_ascii_of_string app].
  rewrite split_at_first by (apply (lacks_char _ _ _ S); char_in). unfold slash at 1 2. rewrite !bool_decide_true by done. cbn [negb orb].
  set (s0 := write_authority p ++ u_path p).
  assert (E : skip_while (fun c => negb (slash c)) s0 = u_path p) by (apply (skip_to "/"%char); [now apply no_slash|done]).
  assert (N : (length s0 - length (u_path p))%nat = length (write_authority p)) by (unfold s0; rewrite length_app; lia).
  rewrite E, N. assert (N0 : (0 <? Z.of_nat (length (write_authority p))) = true).
  { apply Z.ltb_lt. unfold write_authority, write_host. rewrite !length_app. destruct (u_host p); [done|simpl; lia]. }
  rewrite N0. unfold s0. rewrite middle_ok by done. cbn [obind negb].
  replace (u_scheme p ++ ":"%char :: "/"%char :: "/"%char :: write_authority p ++ u_path p) with
    ((u_scheme p ++ lit "://" ++ write_authority p) ++ u_path p) by (rewrite <- !app_assoc; done).
  rewrite split_at_behind by (now apply no_question). unfold parsed_uri, query_of. do 3 f_equal.
  - now destruct (u_path p).
  - now destruct (split_at "?" (u_path p)) as [[a q]|].
Qed.

(** A URI is taken apart as it is put together: scheme, user, password, host, a port below
    32768, path and query come back, when no part holds the character that ends it and the path
    no at sign, and an event sink with such a URI is taken for reachable if it has http in it. *)
Theorem uri_roundtrip p : parts_ok p -> u_uri_parse (write_uri p) = Done (Some (parsed_uri p)) /\
  destination_reachable (write_uri p) = Done (contains (lit "http") (write_uri p)).
Proof.
  intros K. pose proof (uri_parsed p K) as E. split; [done|]. unfold destination_reachable.
  destruct (contains _ _); [|done]. cbn [negb]. now rewrite E.
Qed.
Definition demo_uri : parts := UParts (lit "http") (Some (lit "admin", Some (lit "p:w"))) (lit "host") (Some (lit "8889")) (lit "/wsman?a=1").
Lemma uri_roundtrip_witness :
  u_uri_parse (lit "http://admin:p:w@host:8889/wsman?a=1") = Done (Some (UUri (Some (lit "http")) (Some (lit "admin")) (Some (lit "p:w"))
    (Some (lit "host")) 8889 (Some (lit "/wsman?a=1")) (Some (lit "a=1")))) /\
  destination_reachable (lit "http://admin:p:w@host:8889/wsman?a=1") = Done true.
Proof.
  apply (uri_roundtrip demo_uri). constructor; try (by eauto); try reflexivity; simpl;
    repeat split; try done; try (apply (bool_decide_eq_true_1 _); vm_compute; reflexivity).
Defined.

(** ** Queries *)
Definition query_sep (c : ascii) : bool := bool_decide (c = "&"%char) || bool_decide (c = ";"%char).
Definition write_pair (kv : cstring * cstring) (keep : ascii -> bool) : cstring := pct_encode keep kv.1 ++ "="%char :: pct_encode keep kv.2.
Fixpoint write_query (keep : ascii -> bool) (l : list (cstring * cstring)) : cstring :=
  match l with
  | [] => []
  | [kv] => write_pair kv keep
  | kv :: l => write_pair kv keep ++ "&"%char :: write_query keep l
  end.
(** What a client leaves as it is. *)
Definition special (c : ascii) : bool := bool_decide (c ∈ ["%"; "&"; ";"; "="; " "; chr 9; chr 34]%char).
(** No character of an encoded text means anything to the parser. *)
Definition inert (c : ascii) : bool := negb (query_sep c || bool_decide (c = "="%char) || u_isblank c || u_isquote c).
Lemma encoded_inert keep s : (forall c, keep c = true -> special c = false) -> Forall (fun c => inert c = true) (pct_encode keep s).
Proof.
  intros K. unfold pct_encode. induction s as [|c s IH]; cbn [flat_map]; [constructor|]. apply Forall_app. split; [|done].
  assert (H : forall c, implb (negb (special c)) (inert c) && forallb inert (pct_char c) = true).
  { apply (forall_ascii (fun c => implb (negb (special c)) (inert c) && forallb inert (pct_char c))). vm_compute. reflexivity. }
  specialize (H c). apply andb_true_iff in H as [H1 H2]. destruct (keep c) eqn:E.
  - rewrite (K c E) in H1. now repeat constructor.
  - apply Forall_forall. intros x Hx. rewrite forallb_forall in H2. now apply H2, list_elem_of_In.
Qed.
Lemma skip_while_none p s : Forall (fun c => p c = false) s -> skip_while p s = s.
Proof. destruct 1 as [|c s H _]; cbn [skip_while]; [done|]. now rewrite H. Qed.
Lemma trim_none p s : Forall (fun c => p c = false) s -> trim p s = s.
Proof.
  intros F. unfold trim. destruct s as [|c s]; [done|]. apply Forall_cons in F as [Fc F].
  rewrite (skip_while_none p (rev s)), rev_involutive; [apply skip_while_none; now constructor|].
  apply Forall_forall. intros x Hx. rewrite Forall_forall in F. apply F. apply list_elem_of_In, in_rev, list_elem_of_In. exact Hx.
Qed.
Lemma inert_not (p : ascii -> bool) s : (forall c, inert c = true -> p c = false) -> Forall (fun c => inert c = true) s -> Forall (fun c => p c = false) s.
Proof. intros H F. apply Forall_impl with (1 := F). exact H. Qed.
Lemma inert_parts c : inert c = true -> query_sep c = false /\ c <> "="%char /\ u_isblank c = false /\ u_isquote c = false.
Proof.
  unfold inert. intros H. apply negb_true_iff in H. rewrite !orb_false_iff in H. destruct H as [[[H1 H2] H3] H4].
  apply bool_decide_eq_false in H2. done.
Qed.
Lemma unify_encoded keep s : keep "%"%char = false -> u_string_unify (pct_encode keep s) = Some s.
Proof.
  intros K. induction s as [|c s IH]; [done|]. unfold pct_encode in *. cbn [flat_map]. destruct (keep c) eqn:E.
  - cbn [app u_string_unify]. rewrite bool_decide_false by congruence. now rewrite IH.
  - cbn [app pct_char u_string_unify]. rewrite bool_decide_true by done. pose proof (hexdig_ok c) as H.
    apply andb_true_iff in H as [H1 H2]. apply bool_decide_eq_true in H2. now rewrite H1, H2, IH.
Qed.
Lemma tokens_more sep x c r cur : Forall (fun a => sep a = false) x -> sep c = true -> rev cur ++ x <> [] ->
  tokens sep (x ++ c :: r) cur = (rev cur ++ x) :: tokens sep r [].
Proof.
  intros F C. revert cur. induction F as [|a x Ha _ IH]; intros cur N; cbn [app tokens].
  - rewrite C. rewrite app_nil_r in *. destruct cur; [done|]. done.
  - rewrite Ha, IH; cbn [rev]; [now rewrite <- app_assoc|]. rewrite <- app_assoc. exact N.
Qed.
Lemma tokens_last sep x cur : Forall (fun a => sep a = false) x -> rev cur ++ x <> [] -> tokens sep x cur = [rev cur ++ x].
Proof.
  intros F. revert cur. induction F as [|a x Ha _ IH]; intros cur N; cbn [tokens].
  - rewrite app_nil_r in *. now destruct cur.
  - rewrite Ha, IH; cbn [rev]; [now rewrite <- app_assoc|]. rewrite <- app_assoc. exact N.
Qed.
Lemma pair_no_sep keep kv : (forall c, keep c = true -> special c = false) -> Forall (fun a => query_sep a = false) (write_pair kv keep).
Proof.
  intros K. unfold write_pair. apply Forall_app. split; [|constructor; [done|]];
    (apply inert_not with (2 := encoded_inert keep _ K); intros c H; now apply inert_parts in H).
Qed.
Lemma query_tokens keep l : (forall c, keep c = true -> special c = false) ->
  tokens query_sep (write_query keep l) [] = map (fun kv => write_pair kv keep) l.
Proof.
  intros K. assert (N : forall kv, write_pair kv keep <> []) by (intros kv; unfold write_pair; now destruct (pct_encode keep kv.1)).
  induction l as [|kv l IH]; [done|]. destruct l as [|kv' l].
  - apply tokens_last; [now apply pair_no_sep|apply N].
  - change (write_query keep (kv :: kv' :: l)) with (write_pair kv keep ++ "&"%char :: write_query keep (kv' :: l)).
    rewrite tokens_more; [|now apply pair_no_sep|done|apply N]. cbn [rev app]. rewrite IH. done.
Qed.
Lemma pairs_parsed keep l : (forall c, keep c = true -> special c = false) -> NoDup l.*1 ->
  Forall (fun kv => no_nul kv.1 /\ no_nul kv.2) l -> forall h, (forall k, k ∈ l.*1 -> h !! k = None) ->
  parse_pairs (map (fun kv => write_pair kv keep) l) h = Some (list_to_map l ∪ h).
Proof.
  intros K. assert (Kp : keep "%"%char = false) by (destruct (keep "%"%char) eqn:E; [now apply K in E|done]).
  assert (T : forall p s, (forall c, inert c = true -> p c = false) -> trim p (pct_encode keep s) = pct_encode keep s).
  { intros p s H. apply trim_none, inert_not; [done|now apply encoded_inert]. }
  induction l as [|[k v] l IH]; intros ND F h Hh; cbn [map parse_pairs]; [by rewrite list_to_map_nil, (left_id_L ∅ (∪))|].
  apply NoDup_cons in ND as [Nk ND]. apply Forall_cons in F as [[Fk Fv] F]. cbn [fst snd] in *.
  unfold write_pair at 1. cbn [fst snd]. rewrite split_at_first.
  2: { intros H. pose proof (encoded_inert keep k K) as E. rewrite Forall_forall in E. apply E in H. now apply inert_parts in H as (_ & H & _). }
  unfold u_trim, u_trim_quotes. rewrite (T u_isblank k), (T u_isblank v), (T u_isquote v) by (intros c H; now apply inert_parts in H).
  rewrite !unify_encoded by done. rewrite !c_string_id by done.
  rewrite (Hh k) by (cbn; left). rewrite IH; [|done|done|].
  - rewrite list_to_map_cons, <- insert_union_l, insert_union_r; [done|]. now apply not_elem_of_list_to_map_1.
  - intros k' Hk'. rewrite lookup_insert_ne; [apply Hh; now right|]. intros ->. done.
Qed.

(** Queries: names and values that are percent-encoded, joined with equals signs and ampersands,
    are read back as they were, when no name comes twice. *)
Theorem query_roundtrip keep l : (forall c, keep c = true -> special c = false) -> NoDup l.*1 ->
  Forall (fun kv => no_nul kv.1 /\ no_nul kv.2) l ->
  u_parse_query (Some (write_query keep l)) = Some (list_to_map l).
Proof.
  intros K ND F. unfold u_parse_query, _u_parse. fold query_sep. change (fun c => _ || _) with query_sep.
  rewrite query_tokens, (pairs_parsed keep l K ND F) by done. now rewrite (right_id_L ∅ (∪)).
Qed.
Lemma hex_plain c : isxdigit c = true -> special c = false.
Proof.
  assert (H : forall c, implb (isxdigit c) (negb (special c)) = true).
  { apply (forall_ascii (fun c => implb (isxdigit c) (negb (special c)))). vm_compute. reflexivity. }
  intros D. specialize (H c). rewrite D in H. now apply negb_true_iff.
Qed.
Lemma query_roundtrip_witness : u_parse_query (Some (lit "a%20b=1%262&c=")) =
  Some (list_to_map [(lit "a b", lit "1&2"); (lit "c", [])]).
Proof.
  apply (query_roundtrip isxdigit [(lit "a b", lit "1&2"); (lit "c", [])]).
  - exact hex_plain.
  - apply (bool_decide_eq_true_1 _). vm_compute. reflexivity.
  - repeat constructor; apply (bool_decide_eq_true_1 _); vm_compute; reflexivity.
Defined.
End Uri.
