(* ===== verification/Ini.v ===== *)
(** * Ini: dictionaries and configuration files (lib/u/iniparser.c)

    A dictionary is three arrays with a common size; a free slot has a NULL key.  A configuration file is read
    line by line into a dictionary, an entry as "section:key", a section as a key without a value.  What memory there
    is is an argument.  A dictionary is shown to be a finite map, whatever is done with it, and a file of lines
    with the syntax of the parser to be read as its lines say.  The dumping of dictionaries is compiled out. *)
From S2P Require Import Prelude CString HttpText HttpAuth WsTime Uri.
Import HttpText.

Module Ini.

(** ** Strings *)
Definition ASCIILINESZ : nat := 1024.
(** The destination is an array of [ASCIILINESZ + 1] bytes. *)
(* src: lib/u/iniparser.c 61-74 strlwc *)
Definition strlwc (s : option cstring) : option cstring := (fun s => take ASCIILINESZ (lower s)) <$> s.
(* src: lib/u/iniparser.c 92-98 strskp *)
Fixpoint strskp (s : cstring) : cstring :=
  match s with c :: r => if isspace c then strskp r else s | [] => [] end.
Fixpoint crop (l : cstring) (last : nat) : cstring :=
  match last with
  | O => []
  | S k => if from_option isspace false (l !! k) then crop l k else take last l
  end.
(* src: lib/u/iniparser.c 115-131 strcrop *)
Definition strcrop (s : cstring) : cstring := let l := take ASCIILINESZ s in crop l (length l).

(** ** Dictionaries *)
Definition DICTMINSZ : Z := 128.
(** What calloc and strdup find, call by call; with no more answers there is memory. *)
Abbreviation answers := (list bool).
Definition memory (m : answers) : bool * answers := match m with [] => (true, []) | b :: m => (b, m) end.
(** The pointers may be NULL. *)
(* src: src/CIM_Framework/openwsman/include/u/iniparser.h 46-57 dictionary *)
Record dictionary := Dictionary {
  d_n : Z; d_size : Z; d_val : option (list (option cstring)); d_key : option (list (option cstring)); d_hash : option (list Z) }.
(** [size]: the bytes of the old array, an [int] that is doubled. *)
(* src: lib/u/iniparser.c 148-160 mem_double *)
Definition mem_double {A} (zero : A) (ptr : list A) (size : Z) (m : answers) : outcome (option (list A) * answers) :=
  if 2 ^ 31 <=? 2 * size then Undef else
  let '(ok, m) := memory m in
  Done (if ok then Some (ptr ++ repeat zero (length ptr)) else None, m).
(* src: lib/u/iniparser.c 180-196 dictionary_hash *)
Definition dictionary_hash (key : cstring) : Z :=
  let turn hash c :=
    let hash := u32 (hash + s8 (code c)) in
    let hash := u32 (hash + Z.shiftl hash 10) in
    Z.lxor hash (Z.shiftr hash 6) in
  let hash := foldl turn 0 key in
  let hash := u32 (hash + Z.shiftl hash 3) in
  let hash := Z.lxor hash (Z.shiftr hash 11) in
  u32 (hash + Z.shiftl hash 15).
(* src: lib/u/iniparser.c 211-235 dictionary_new *)
Definition dictionary_new (size : Z) (m : answers) : option dictionary * answers :=
  let size := if size <? DICTMINSZ then DICTMINSZ else size in
  let '(ok, m) := memory m in
  if negb ok then (None, m) else
  let '(v, m) := memory m in let '(k, m) := memory m in let '(h, m) := memory m in
  let n := Z.to_nat size in
  if negb (v && k && h) then (None, m)
  else (Some (Dictionary 0 size (Some (repeat None n)) (Some (repeat None n)) (Some (repeat 0 n))), m).
Fixpoint free_slots (room : nat) (i : Z) (d : dictionary) : outcome unit :=
  match room with
  | O => Done tt
  | S room =>
      let* keys := deref (d_key d) in let* k := rd keys i in
      let* vals := deref (d_val d) in let* v := rd vals i in
      free_slots room (i + 1) d
  end.
(** Nothing is room of the dictionary; a NULL array is read all the same. *)
(* src: lib/u/iniparser.c 248-265 dictionary_del *)
Definition dictionary_del (d : option dictionary) : outcome unit :=
  match d with None => Done tt | Some d => free_slots (Z.to_nat (d_size d)) 0 d end.
(** The loop with which a key is looked for, from slot [i] on. *)
(* src: lib/u/iniparser.c 289-299 dictionary_get *)
Fixpoint find_key (room : nat) (i : Z) (d : dictionary) (key : cstring) (hash : Z) : outcome (option Z) :=
  match room with
  | O => Done None
  | S room =>
      let* keys := deref (d_key d) in let* k := rd keys i in
      match k with
      | None => find_key room (i + 1) d key hash
      | Some k =>
          let* hashes := deref (d_hash d) in let* h := rd hashes i in
          if (hash =? h) && (strcmp key k =? 0) then Done (Some i) else find_key room (i + 1) d key hash
      end
  end.
Definition find (d : dictionary) (key : cstring) : outcome (option Z) :=
  find_key (Z.to_nat (d_size d)) 0 d key (dictionary_hash key).
(** The pointer: [inl] a string or NULL, [inr] the invalid key. *)
Abbreviation pointer := (option cstring + unit)%type.
Definition INI_INVALID_KEY : pointer := inr tt.
(* src: lib/u/iniparser.c 283-301 dictionary_get *)
Definition dictionary_get (d : dictionary) (key : cstring) (def : pointer) : outcome pointer :=
  let* i := find d key in
  match i with
  | None => Done def
  | Some i => let* vals := deref (d_val d) in let* v := rd vals i in Done (inl v)
  end.
(** [strdup]. *)
Definition strdup (s : cstring) (m : answers) : option cstring * answers :=
  let '(ok, m) := memory m in (if ok then Some s else None, m).
Definition strdup_opt (s : option cstring) (m : answers) : option cstring * answers :=
  match s with None => (None, m) | Some s => strdup s m end.
(** The arrays are doubled one after the other; what was doubled before a failure stays, the old array is lost. *)
(* src: lib/u/iniparser.c 359-380 dictionary_set *)
Definition grow (d : dictionary) (m : answers) : outcome (bool * dictionary * answers) :=
  let* vals := deref (d_val d) in
  let* (vals, m) := mem_double None vals (d_size d * 8) m in
  let d := Dictionary (d_n d) (d_size d) vals (d_key d) (d_hash d) in
  if decide (vals = None) then Done (false, d, m) else
  let* keys := deref (d_key d) in
  let* (keys, m) := mem_double None keys (d_size d * 8) m in
  let d := Dictionary (d_n d) (d_size d) (d_val d) keys (d_hash d) in
  if decide (keys = None) then Done (false, d, m) else
  let* hashes := deref (d_hash d) in
  let* (hashes, m) := mem_double 0 hashes (d_size d * 4) m in
  let d := Dictionary (d_n d) (d_size d) (d_val d) (d_key d) hashes in
  if decide (hashes = None) then Done (false, d, m) else
  Done (true, Dictionary (d_n d) (d_size d * 2) (d_val d) (d_key d) (d_hash d), m).
Fixpoint first_empty (room : nat) (i : Z) (keys : list (option cstring)) : outcome Z :=
  match room with
  | O => Done i
  | S room => let* k := rd keys i in match k with None => Done i | Some _ => first_empty room (i + 1) keys end
  end.
(* src: lib/u/iniparser.c 383-405 dictionary_set *)
Definition insert_new (d : dictionary) (key : cstring) (val : option cstring) (hash : Z) (m : answers) : outcome (Z * dictionary * answers) :=
  let* keys := deref (d_key d) in
  let* i := first_empty (Z.to_nat (d_size d)) 0 keys in
  let '(k, m) := strdup key m in
  let* keys := wr keys i k in
  let d := Dictionary (d_n d) (d_size d) (d_val d) (Some keys) (d_hash d) in
  if decide (k = None) then Done (1, d, m) else
  let '(v, m) := strdup_opt val m in
  let* vals := deref (d_val d) in let* vals := wr vals i v in
  let d := Dictionary (d_n d) (d_size d) (Some vals) (d_key d) (d_hash d) in
  if decide (is_Some val /\ v = None) then Done (1, d, m) else
  let* hashes := deref (d_hash d) in let* hashes := wr hashes i hash in
  Done (0, Dictionary (d_n d + 1) (d_size d) (d_val d) (d_key d) (Some hashes), m).
(* src: lib/u/iniparser.c 331-406 dictionary_set *)
Definition dictionary_set (d : option dictionary) (key val : option cstring) (m : answers) : outcome (Z * option dictionary * answers) :=
  match d, key with
  | Some d, Some key =>
      let hash := dictionary_hash key in
      let* i := if 0 <? d_n d then find_key (Z.to_nat (d_size d)) 0 d key hash else Done None in
      match i with
      | Some i =>
          let* vals := deref (d_val d) in
          let '(v, m) := strdup_opt val m in
          let* vals := wr vals i v in
          Done (0, Some (Dictionary (d_n d) (d_size d) (Some vals) (d_key d) (d_hash d)), m)
      | None =>
          let* (ok, d, m) := if d_n d =? d_size d then grow d m else Done (true, d, m) in
          if negb ok then Done (1, Some d, m) else
          let* (rc, d, m) := insert_new d key val hash m in Done (rc, Some d, m)
      end
  | _, _ => Done (1, d, m)
  end.
(* src: lib/u/iniparser.c 419-450 dictionary_unset *)
Definition dictionary_unset (d : dictionary) (key : cstring) : outcome dictionary :=
  let* i := find d key in
  match i with
  | None => Done d
  | Some i =>
      let* keys := deref (d_key d) in let* keys := wr keys i None in
      let* vals := deref (d_val d) in let* vals := wr vals i None in
      let* hashes := deref (d_hash d) in let* hashes := wr hashes i 0 in
      Done (Dictionary (d_n d - 1) (d_size d) (Some vals) (Some keys) (Some hashes))
  end.

(** ** Entries of a configuration *)
(* src: lib/u/iniparser.c 493-511 iniparser_add_entry *)
Definition iniparser_add_entry (d : dictionary) (sec : cstring) (key val : option cstring) (m : answers) : outcome (Z * option dictionary * answers) :=
  let longkey := match key with
    | Some key => take (2 * ASCIILINESZ) (sec ++ ":"%char :: key)
    | None => take (2 * ASCIILINESZ) sec
    end in
  dictionary_set (Some d) (Some longkey) val m.
Definition no_colon (k : cstring) : bool := bool_decide (":"%char ∉ k).
(** The names of sections from slot [i] on: the keys without a colon. *)
Fixpoint section_names (room : nat) (i : Z) (keys : list (option cstring)) : outcome (list cstring) :=
  match room with
  | O => Done []
  | S room =>
      let* k := rd keys i in
      let* names := section_names room (i + 1) keys in
      Done (match k with Some k => if no_colon k then k :: names else names | None => names end)
  end.
Definition sections (d : dictionary) : outcome (list cstring) :=
  let* keys := deref (d_key d) in section_names (Z.to_nat (d_size d)) 0 keys.
(* src: lib/u/iniparser.c 533-548 iniparser_getnsec *)
Definition iniparser_getnsec (d : option dictionary) : outcome Z :=
  match d with None => Done (-1) | Some d => let* l := sections d in Done (Z.of_nat (length l)) end.
(* src: lib/u/iniparser.c 566-586 iniparser_getsecname *)
Definition iniparser_getsecname (d : option dictionary) (n : Z) : outcome (option cstring) :=
  match d with
  | None => Done None
  | Some d => if n <? 0 then Done None else let* l := sections d in Done (l !! Z.to_nat n)
  end.
(* src: lib/u/iniparser.c 706-713 iniparser_getstring *)
Definition iniparser_getstring (d : option dictionary) (key : option cstring) (def : pointer) : outcome pointer :=
  match d, strlwc key with Some d, Some k => dictionary_get d k def | _, _ => Done def end.
(* src: lib/u/iniparser.c 685-688 iniparser_getstr *)
Definition iniparser_getstr (d : option dictionary) (key : cstring) : outcome pointer := iniparser_getstring d (Some key) (inl None).
(** A key that is there without a value gives NULL to atoi. *)
(* src: lib/u/iniparser.c 730-737 iniparser_getint *)
Definition iniparser_getint (d : option dictionary) (key : cstring) (notfound : Z) : outcome Z :=
  let* str := iniparser_getstring d (Some key) INI_INVALID_KEY in
  match str with inr _ => Done notfound | inl str => let* str := deref str in Done (Uri.atoi str) end.
(* src: lib/u/iniparser.c 796-811 iniparser_getboolean *)
Definition iniparser_getboolean (d : option dictionary) (key : cstring) (notfound : Z) : outcome Z :=
  let* c := iniparser_getstring d (Some key) INI_INVALID_KEY in
  match c with
  | inr _ => Done notfound
  | inl c =>
      let* c := deref c in
      Done (if bool_decide (peek c ∈ ["y"; "Y"; "1"; "t"; "T"]%char) then 1
            else if bool_decide (peek c ∈ ["n"; "N"; "0"; "f"; "F"]%char) then 0 else notfound)
  end.
(* src: lib/u/iniparser.c 827-837 iniparser_find_entry *)
Definition iniparser_find_entry (ini : option dictionary) (entry : cstring) : outcome Z :=
  let* p := iniparser_getstring ini (Some entry) INI_INVALID_KEY in
  Done (match p with inr _ => 0 | inl _ => 1 end).
(* src: lib/u/iniparser.c 855-860 iniparser_setstr *)
Definition iniparser_setstr (ini : option dictionary) (entry val : option cstring) (m : answers) : outcome (Z * option dictionary * answers) :=
  dictionary_set ini (strlwc entry) val m.
(* src: lib/u/iniparser.c 872-878 iniparser_unset *)
Definition iniparser_unset (ini : dictionary) (entry : option cstring) : outcome dictionary :=
  match strlwc entry with None => Done ini | Some lwc => dictionary_unset ini lwc end.

(** ** Reading a file *)

(** [fgets]: at most [n] characters, up to and with the end of a line. *)
Fixpoint fgets_line (n : nat) (f : list ascii) : list ascii * list ascii :=
  match n, f with
  | S n, c :: f => if decide (c = LF) then ([c], f) else let '(l, r) := fgets_line n f in (c :: l, r)
  | _, _ => ([], f)
  end.
Definition fgets (size : nat) (f : list ascii) : option (cstring * list ascii) :=
  match f with [] => None | _ => let '(l, r) := fgets_line (size - 1) f in Some (c_string l, r) end.
(** [sscanf], as far as it is used: a character, a blank, which skips white space, and [%1024[^...]]. *)
Inductive directive := Lit (c : ascii) | Blank | Conv (stop : list ascii).
Fixpoint sscanf (fmt : list directive) (s : cstring) : list cstring :=
  match fmt with
  | [] => []
  | Lit c :: fmt => match s with x :: s => if decide (x = c) then sscanf fmt s else [] | [] => [] end
  | Blank :: fmt => sscanf fmt (strskp s)
  | Conv stop :: fmt =>
      match take_while (fun c => bool_decide (c ∉ stop)) (take ASCIILINESZ s) with
      | [] => []
      | v => v :: sscanf fmt (drop (length v) s)
      end
  end.
Definition QUOTE : ascii := chr 34.
Definition section_format : list directive := [Lit "["; Conv ["]"%char]].
Definition double_format : list directive := [Conv ["="%char]; Blank; Lit "="; Blank; Lit QUOTE; Conv [QUOTE]; Lit QUOTE].
Definition single_format : list directive := [Conv ["="%char]; Blank; Lit "="; Blank; Lit "'"; Conv ["'"%char]; Lit "'"].
Definition plain_format : list directive := [Conv ["="%char]; Blank; Lit "="; Blank; Conv [";"; "#"]%char].
(** The key and the value as they stand in the line. *)
(* src: lib/u/iniparser.c 940-942 iniparser_new *)
Definition scan_entry (where_ : cstring) : option (cstring * cstring) :=
  match sscanf double_format where_ with
  | [key; val] => Some (key, val)
  | _ => match sscanf single_format where_ with
    | [key; val] => Some (key, val)
    | _ => match sscanf plain_format where_ with [key; val] => Some (key, val) | _ => None end
    end
  end.
(* src: lib/u/iniparser.c 951-956 iniparser_new *)
Definition clean_value (val : cstring) : cstring :=
  if decide (val = [QUOTE; QUOTE] \/ val = lit "''") then [] else strcrop val.
(** One line: the section that follows, and the result of the entry, if there is one. *)
(* src: lib/u/iniparser.c 924-962 iniparser_new *)
Definition read_line (d : dictionary) (sec lin : cstring) (m : answers) : outcome (cstring * (Z * option dictionary * answers)) :=
  let where_ := strskp lin in
  if bool_decide (peek where_ ∈ [";"%char; "#"%char; NUL]) then Done (sec, (0, Some d, m)) else
  match sscanf section_format where_ with
  | [sec] =>
      let sec := default [] (strlwc (Some sec)) in
      let* r := iniparser_add_entry d sec None None m in Done (sec, r)
  | _ =>
      match scan_entry where_ with
      | Some (key, val) =>
          let key := default [] (strlwc (Some (strcrop key))) in
          let* r := iniparser_add_entry d sec (Some key) (Some (clean_value val)) m in Done (sec, r)
      | None => Done (sec, (0, Some d, m))
      end
  end.
(* src: lib/u/iniparser.c 922-966 iniparser_new *)
Fixpoint read_lines (fuel : nat) (d : dictionary) (sec : cstring) (f : list ascii) (m : answers) : outcome (option dictionary * answers) :=
  match fuel with
  | O => Diverge
  | S fuel =>
      match fgets ASCIILINESZ f with
      | None => Done (Some d, m)
      | Some (lin, f) =>
          let* (sec, (rc, d, m)) := read_line d sec lin m in
          if negb (rc =? 0) then let* _ := dictionary_del d in Done (None, m) else
          let* d := deref d in read_lines fuel d sec f m
      end
  end.
(** [ini]: what the file holds, if it can be opened. *)
(* src: lib/u/iniparser.c 896-967 iniparser_new *)
Definition iniparser_new (ini : option (list ascii)) (m : answers) : outcome (option dictionary * answers) :=
  match ini with
  | None => Done (None, m)
  | Some f =>
      match dictionary_new 0 m with
      | (None, m) => Done (None, m)
      | (Some d, m) => read_lines (S (length f)) d [] f m
      end
  end.
(* src: lib/u/iniparser.c 983-986 iniparser_free *)
Definition iniparser_free (d : option dictionary) : outcome unit := dictionary_del d.

(** ** A dictionary is a finite map *)

(** What the arrays of a dictionary show: a list of slots. *)
Abbreviation slot := (option (cstring * option cstring)).
Definition slot_hash (s : slot) (h : Z) : Prop := match s with Some (k, _) => h = dictionary_hash k | None => True end.
Definition slot_text (s : slot) : Prop := match s with Some (k, _) => no_nul k | None => True end.
Definition names (sl : list slot) : list cstring := (omap id sl).*1.
Record shows (d : dictionary) (sl : list slot) : Prop := {
  s_key : d_key d = Some (map (fmap fst) sl);
  s_val : d_val d = Some (map (fun s => s ≫= snd) sl);
  s_hash : exists hs, d_hash d = Some hs /\ Forall2 slot_hash sl hs;
  s_size : d_size d = Z.of_nat (length sl);
  s_n : d_n d = Z.of_nat (length (omap id sl));
  s_distinct : NoDup (names sl);
  s_text : Forall slot_text sl }.
Definition table (sl : list slot) : gmap cstring (option cstring) := list_to_map (omap id sl).

Lemma names_app a b : names (a ++ b) = names a ++ names b.
Proof. unfold names. now rewrite omap_app, fmap_app. Qed.
Lemma table_none sl key : table sl !! key = None <-> key ∉ names sl.
Proof. symmetry. apply not_elem_of_list_to_map. Qed.
Lemma table_some sl key v : NoDup (names sl) -> table sl !! key = Some v <-> exists a b, sl = a ++ Some (key, v) :: b.
Proof.
  intros N. unfold table. rewrite <- elem_of_list_to_map by done. rewrite list_elem_of_omap. split.
  - intros (s & H & E). cbn in E. subst s. now apply list_elem_of_split in H.
  - intros (a & b & ->). eexists. split; [|reflexivity]. apply elem_of_app. right. left.
Qed.
(** The search passes slots with other keys. *)
Lemma find_walk d key b x : forall a sl, shows d sl -> no_nul key -> sl = a ++ x ++ b -> key ∉ names x ->
  find_key (length (x ++ b)) (Z.of_nat (length a)) d key (dictionary_hash key) =
  find_key (length b) (Z.of_nat (length (a ++ x))) d key (dictionary_hash key).
Proof.
  induction x as [|s x IH]; intros a sl Hs N E K; [now rewrite app_nil_r|].
  change (length ((s :: x) ++ b)) with (S (length (x ++ b))). cbn [find_key].
  rewrite (s_key _ _ Hs). cbn [deref obind]. rewrite (rd_nat _ _ (fst <$> s)).
  2:{ rewrite E, map_app, lookup_app_r by now rewrite length_map. now rewrite length_map, Nat.sub_diag. }
  assert (Next : find_key (length (x ++ b)) (Z.of_nat (length a) + 1) d key (dictionary_hash key) =
    find_key (length b) (Z.of_nat (length (a ++ s :: x))) d key (dictionary_hash key)).
  { replace (Z.of_nat (length a) + 1) with (Z.of_nat (length (a ++ [s]))) by (rewrite length_app; cbn; lia).
    rewrite (IH (a ++ [s]) sl Hs N); [now rewrite <- app_assoc|now rewrite <- app_assoc|].
    change (s :: x) with ([s] ++ x) in K. rewrite names_app in K. intros H. apply K, elem_of_app. now right. }
  destruct s as [[k v]|]; cbn [obind fmap option_fmap option_map fst]; [|exact Next].
  destruct (s_hash _ _ Hs) as (hs & -> & F). cbn [deref obind].
  destruct (Forall2_lookup_l _ _ _ (length a) (Some (k, v)) F) as (h & Lh & Eh).
  { rewrite E, lookup_app_r by lia. now rewrite Nat.sub_diag. }
  rewrite (rd_nat _ _ _ Lh). cbn in Eh. subst h. cbn [obind].
  replace (strcmp key k =? 0) with false; [now rewrite andb_false_r|].
  symmetry. apply Z.eqb_neq. rewrite strcmp_eq; [|done|].
  - intros ->. apply K. now left.
  - pose proof (s_text _ _ Hs) as T. rewrite E in T. apply Forall_app in T as [_ T]. now apply Forall_inv in T.
Qed.
Lemma find_absent d sl key : shows d sl -> no_nul key -> key ∉ names sl ->
  find_key (length sl) 0 d key (dictionary_hash key) = Done None.
Proof.
  intros Hs N K. pose proof (find_walk d key [] sl [] sl Hs N) as H. rewrite !app_nil_r in H. cbn [app length] in H.
  change (Z.of_nat 0) with 0 in H. now rewrite H.
Qed.
Lemma find_there d a b key v : shows d (a ++ Some (key, v) :: b) -> no_nul key ->
  find_key (length (a ++ Some (key, v) :: b)) 0 d key (dictionary_hash key) = Done (Some (Z.of_nat (length a))).
Proof.
  intros Hs N. pose proof (s_distinct _ _ Hs) as D. rewrite names_app in D. apply NoDup_app in D as (_ & D & _).
  pose proof (find_walk d key (Some (key, v) :: b) a [] _ Hs N eq_refl) as W. change (Z.of_nat (length [])) with 0 in W.
  rewrite W by (intros H; apply (D key H); left). clear W.
  cbn [app length find_key]. rewrite (s_key _ _ Hs). cbn [deref obind]. rewrite (rd_nat _ _ (Some key)).
  2:{ rewrite map_app, lookup_app_r by now rewrite length_map. now rewrite length_map, Nat.sub_diag. }
  cbn [obind]. destruct (s_hash _ _ Hs) as (hs & -> & F). cbn [deref obind].
  destruct (Forall2_lookup_l _ _ _ (length a) (Some (key, v)) F) as (h & Lh & Eh).
  { rewrite lookup_app_r by lia. now rewrite Nat.sub_diag. }
  rewrite (rd_nat _ _ _ Lh). cbn in Eh. subst h. cbn [obind]. now rewrite Z.eqb_refl, strcmp_refl.
Qed.
Lemma find_eq d sl key : shows d sl -> find d key = find_key (length sl) 0 d key (dictionary_hash key).
Proof. intros Hs. unfold find. now rewrite (s_size _ _ Hs), Nat2Z.id. Qed.
Lemma get_spec d sl key def : shows d sl -> no_nul key ->
  dictionary_get d key def = Done (match table sl !! key with Some v => inl v | None => def end).
Proof.
  intros Hs N. unfold dictionary_get. rewrite (find_eq d sl) by done.
  destruct (table sl !! key) as [v|] eqn:E.
  - apply table_some in E as (a & b & ->); [|exact (s_distinct _ _ Hs)]. rewrite find_there by done. cbn [obind].
    rewrite (s_val _ _ Hs). cbn [deref obind]. rewrite (rd_nat _ _ v); [done|].
    rewrite map_app, lookup_app_r by now rewrite length_map. now rewrite length_map, Nat.sub_diag.
  - apply table_none in E. now rewrite (find_absent d sl).
Qed.

Lemma insert_mid {A} (a b : list A) x y : <[length a := y]> (a ++ x :: b) = a ++ y :: b.
Proof. rewrite insert_app_r_alt by done. now rewrite Nat.sub_diag. Qed.
Lemma wr_mid {A} (a b : list A) n x y : n = Z.of_nat (length a) -> wr (a ++ x :: b) n y = Done (a ++ y :: b).
Proof. intros ->. rewrite wr_ok by (rewrite length_app; cbn; lia). now rewrite Nat2Z.id, insert_mid. Qed.
(** The arrays around one slot. *)
Lemma arrays_at d a s b : shows d (a ++ s :: b) -> exists ha h hb,
  d_hash d = Some (ha ++ h :: hb) /\ length ha = length a /\ slot_hash s h /\ Forall2 slot_hash a ha /\ Forall2 slot_hash b hb.
Proof.
  intros Hs. destruct (s_hash _ _ Hs) as (hs & E & F). apply Forall2_app_inv_l in F as (ha & h' & Fa & F & ->).
  apply Forall2_cons_inv_l in F as (h & hb & Hh & Fb & ->). exists ha, h, hb. split_and!; try done.
  symmetry. exact (Forall2_length _ _ _ Fa).
Qed.
(** One slot is written. *)
Lemma slot_change d a s b s' h ha hb : shows d (a ++ s :: b) -> d_hash d = Some (ha ++ h :: hb) -> length ha = length a ->
  forall h', slot_hash s' h' -> slot_text s' -> NoDup (names (a ++ s' :: b)) ->
  shows (Dictionary (Z.of_nat (length (omap id (a ++ s' :: b)))) (d_size d)
    (Some (map (fun s => s ≫= snd) (a ++ s' :: b))) (Some (map (fmap fst) (a ++ s' :: b))) (Some (ha ++ h' :: hb))) (a ++ s' :: b).
Proof.
  intros Hs Eh La h' Hh Ht Nd. destruct (s_hash _ _ Hs) as (hs & E & F). rewrite Eh in E. injection E as <-.
  apply Forall2_app_inv in F as [Fa F]; [|done]. apply Forall2_cons in F as [_ Fb].
  constructor; try done.
  - exists (ha ++ h' :: hb). split; [done|]. apply Forall2_app; [done|]. now constructor.
  - cbn. rewrite (s_size _ _ Hs), !length_app. cbn. lia.
  - pose proof (s_text _ _ Hs) as T. apply Forall_app in T as [Ta T]. apply Forall_cons in T as [_ Tb].
    apply Forall_app. split; [done|]. now constructor.
Qed.
Lemma table_mid a b k v : k ∉ names (a ++ b) -> NoDup (names (a ++ b)) ->
  table (a ++ Some (k, v) :: b) = <[k := v]> (table (a ++ b)) /\ NoDup (names (a ++ Some (k, v) :: b)).
Proof.
  intros K N. assert (P : omap id (a ++ Some (k, v) :: b) ≡ₚ (k, v) :: omap id (a ++ b)).
  { rewrite !omap_app. cbn. symmetry. apply Permutation_middle. }
  assert (D : NoDup (names (a ++ Some (k, v) :: b))).
  { unfold names. rewrite P. cbn. now constructor. }
  split; [|done]. unfold table. rewrite (list_to_map_proper _ _ D P). reflexivity.
Qed.
Lemma table_out a b k v : NoDup (names (a ++ Some (k, v) :: b)) ->
  k ∉ names (a ++ b) /\ NoDup (names (a ++ b)) /\ table (a ++ None :: b) = delete k (table (a ++ Some (k, v) :: b)).
Proof.
  intros D. assert (P : names (a ++ Some (k, v) :: b) ≡ₚ k :: names (a ++ b)).
  { unfold names. rewrite !omap_app, !fmap_app. cbn. symmetry. apply Permutation_middle. }
  rewrite P in D. apply NoDup_cons in D as [K D]. split_and!; [done..|].
  destruct (table_mid a b k v K D) as [-> _]. rewrite delete_insert_id; [|now apply table_none].
  unfold table. now rewrite !omap_app.
Qed.
Lemma unset_spec d sl key : shows d sl -> no_nul key ->
  exists d' sl', dictionary_unset d key = Done d' /\ shows d' sl' /\ table sl' = delete key (table sl) /\ length sl' = length sl /\
    (length (omap id sl') <= length (omap id sl))%nat.
Proof.
  intros Hs N. unfold dictionary_unset. rewrite (find_eq d sl) by done.
  destruct (table sl !! key) as [v|] eqn:E.
  - apply table_some in E as (a & b & ->); [|exact (s_distinct _ _ Hs)]. rewrite find_there by done. cbn [obind].
    destruct (arrays_at _ _ _ _ Hs) as (ha & h & hb & Eh & La & _).
    rewrite (s_key _ _ Hs), (s_val _ _ Hs), Eh, !map_app. cbn [deref obind map].
    rewrite wr_mid by now rewrite length_map. cbn [obind]. rewrite wr_mid by now rewrite length_map. cbn [obind].
    rewrite wr_mid by now rewrite La. cbn [obind].
    destruct (table_out a b key v (s_distinct _ _ Hs)) as (K & D & T).
    assert (D' : NoDup (names (a ++ None :: b))) by (unfold names in *; rewrite omap_app in *; exact D).
    pose proof (slot_change _ _ _ _ None h ha hb Hs Eh La 0 I I D') as Hs'. rewrite !map_app in Hs'. cbn [map] in Hs'.
    assert (C : Z.of_nat (length (omap id (a ++ None :: b))) = d_n d - 1).
    { rewrite (s_n _ _ Hs), !omap_app, !length_app. cbn. lia. }
    rewrite C in Hs'. eexists _, (a ++ None :: b). split; [reflexivity|]. split; [exact Hs'|]. split; [done|].
    rewrite !omap_app, !length_app. cbn. lia.
  - pose proof E as K. apply table_none in K. rewrite (find_absent d sl) by done. exists d, sl. split_and!; try done.
    now rewrite delete_id.
Qed.

Lemma empty_walk keys : forall a x b, keys = a ++ x ++ None :: b -> Forall is_Some x ->
  first_empty (length (x ++ None :: b)) (Z.of_nat (length a)) keys = Done (Z.of_nat (length (a ++ x))).
Proof.
  intros a x. revert a. induction x as [|s x IH]; intros a b E F.
  - cbn [app length first_empty]. rewrite (rd_nat _ _ None); [now rewrite app_nil_r|].
    rewrite E, lookup_app_r by lia. now rewrite Nat.sub_diag.
  - apply Forall_cons in F as [[k ->] F]. cbn [app length first_empty]. rewrite (rd_nat _ _ (Some k)).
    2:{ rewrite E, lookup_app_r by lia. now rewrite Nat.sub_diag. }
    cbn [obind]. replace (Z.of_nat (length a) + 1) with (Z.of_nat (length (a ++ [Some k]))) by (rewrite length_app; cbn; lia).
    rewrite (IH (a ++ [Some k]) b) by (done || (rewrite <- app_assoc; exact E)). now rewrite <- app_assoc.
Qed.
Lemma insert_spec d a b key val : shows d (a ++ None :: b) -> Forall is_Some a -> no_nul key -> key ∉ names (a ++ None :: b) ->
  exists d', insert_new d key val (dictionary_hash key) [] = Done (0, d', []) /\ shows d' (a ++ Some (key, val) :: b).
Proof.
  intros Hs F N K. destruct (arrays_at _ _ _ _ Hs) as (ha & h & hb & Eh & La & _).
  unfold insert_new. rewrite (s_key _ _ Hs). cbn [deref obind].
  assert (E : first_empty (Z.to_nat (d_size d)) 0 (map (fmap fst) (a ++ None :: b)) = Done (Z.of_nat (length a))).
  { rewrite (s_size _ _ Hs), Nat2Z.id, !map_app. cbn [map].
    replace (length (a ++ None :: b)) with (length (map (fmap fst) a ++ None :: map (fmap fst) b)) by (rewrite !length_app; cbn; now rewrite !length_map).
    change 0 with (Z.of_nat (length (@nil (option cstring)))). rewrite (empty_walk _ [] (map (fmap fst) a) (map (fmap fst) b)); [|done|].
    { cbn [app]. now rewrite length_map. }
    apply Forall_map. eapply Forall_impl; [exact F|]. now intros ? [x ->]. }
  rewrite E. cbn [obind strdup memory]. rewrite !map_app. cbn [map].
  rewrite wr_mid by now rewrite length_map. cbn [obind d_n d_size d_val d_key d_hash]. rewrite decide_False by done.
  assert (V : strdup_opt val [] = (val, [])) by now destruct val. rewrite V. cbv zeta beta iota. rewrite (s_val _ _ Hs), map_app. cbn [deref obind map].
  rewrite wr_mid by now rewrite length_map. cbn [obind d_n d_size d_val d_key d_hash].
  rewrite decide_False by (intros [[? ->] ?]; done). rewrite Eh. cbn [deref obind]. rewrite wr_mid by now rewrite La. cbn [obind].
  assert (K' : key ∉ names (a ++ b)) by (unfold names in *; rewrite omap_app in *; exact K).
  assert (D' : NoDup (names (a ++ b))) by (pose proof (s_distinct _ _ Hs) as D; unfold names in *; rewrite omap_app in *; exact D).
  destruct (table_mid a b key val K' D') as [_ D].
  pose proof (slot_change _ _ _ _ (Some (key, val)) h ha hb Hs Eh La (dictionary_hash key) eq_refl N D) as Hs'.
  rewrite !map_app in Hs'. cbn [map fmap option_fmap option_map fst mbind option_bind snd] in Hs'.
  assert (C : Z.of_nat (length (omap id (a ++ Some (key, val) :: b))) = d_n d + 1).
  { rewrite (s_n _ _ Hs), !omap_app, !length_app. cbn. lia. }
  rewrite C in Hs'. eexists. split; [reflexivity|exact Hs'].
Qed.
(** With fewer entries than slots one is free. *)
Lemma free_slot (sl : list slot) : (length (omap id sl) < length sl)%nat -> exists a b, sl = a ++ None :: b /\ Forall is_Some a.
Proof.
  induction sl as [|[x|] sl IH]; cbn; intros H; [lia| |now exists [], sl].
  destruct IH as (a & b & -> & F); [lia|]. exists (Some x :: a), b. split; [done|]. constructor; [eauto|done].
Qed.
Lemma all_taken (sl : list slot) : (length (omap id sl) <= length sl)%nat.
Proof. induction sl as [|[x|] sl IH]; cbn; lia. Qed.
Lemma omap_free n : omap id (repeat (None : slot) n) = [].
Proof. induction n; cbn; auto. Qed.
Lemma map_free {B} (f : slot -> B) n : map f (repeat None n) = repeat (f None) n.
Proof. induction n; cbn; congruence. Qed.
Lemma grow_spec d sl : shows d sl -> Z.of_nat (length sl) < 2 ^ 27 ->
  exists d', grow d [] = Done (true, d', []) /\ shows d' (sl ++ repeat None (length sl)).
Proof.
  intros Hs B. destruct (s_hash _ _ Hs) as (hs & Eh & F). pose proof (Forall2_length _ _ _ F) as Lh.
  unfold grow. rewrite (s_val _ _ Hs). cbn [deref obind]. unfold mem_double. rewrite (s_size _ _ Hs).
  destruct (Z.leb_spec (2 ^ 31) (2 * (Z.of_nat (length sl) * 8))); [lia|]. cbn [obind memory d_n d_size d_val d_key d_hash].
  rewrite decide_False by done. rewrite (s_key _ _ Hs). cbn [deref obind].
  destruct (Z.leb_spec (2 ^ 31) (2 * (Z.of_nat (length sl) * 8))); [lia|]. cbn [obind memory d_n d_size d_val d_key d_hash].
  rewrite decide_False by done. rewrite Eh. cbn [deref obind].
  destruct (Z.leb_spec (2 ^ 31) (2 * (Z.of_nat (length sl) * 4))); [lia|]. cbn [obind memory d_n d_size d_val d_key d_hash].
  rewrite decide_False by done. eexists. split; [reflexivity|]. rewrite !length_map. constructor; cbn [d_n d_size d_val d_key d_hash].
  - now rewrite map_app, map_free.
  - now rewrite map_app, map_free.
  - eexists. split; [reflexivity|]. apply Forall2_app; [done|]. rewrite <- Lh.
    generalize (length sl). intros n. induction n; cbn; now constructor.
  - rewrite length_app, repeat_length. lia.
  - now rewrite omap_app, omap_free, app_nil_r, (s_n _ _ Hs).
  - unfold names. rewrite omap_app, omap_free, app_nil_r. exact (s_distinct _ _ Hs).
  - apply Forall_app. split; [exact (s_text _ _ Hs)|]. generalize (length sl). intros n. induction n; cbn; now constructor.
Qed.
Lemma set_spec d sl key val : shows d sl -> no_nul key -> (0 < length sl)%nat -> Z.of_nat (length sl) < 2 ^ 27 ->
  exists d' sl', dictionary_set (Some d) (Some key) val [] = Done (0, Some d', []) /\ shows d' sl' /\ table sl' = <[key := val]> (table sl) /\
    (length sl' = length sl \/ length (omap id sl) = length sl /\ length sl' = 2 * length sl)%nat /\
    (length (omap id sl') <= S (length (omap id sl)))%nat.
Proof.
  intros Hs N P B. unfold dictionary_set.
  assert (Fd : (if 0 <? d_n d then find_key (Z.to_nat (d_size d)) 0 d key (dictionary_hash key) else Done None)
    = find_key (length sl) 0 d key (dictionary_hash key)).
  { rewrite (s_size _ _ Hs), Nat2Z.id. destruct (Z.ltb_spec 0 (d_n d)) as [|Z0]; [done|].
    rewrite (find_absent d sl); [done..|]. rewrite (s_n _ _ Hs) in Z0. unfold names. destruct (omap id sl); cbn in *; [|lia]. apply not_elem_of_nil. }
  rewrite Fd. destruct (table sl !! key) as [v|] eqn:E.
  - apply table_some in E as (a & b & ->); [|exact (s_distinct _ _ Hs)]. rewrite find_there by done. cbn [obind].
    destruct (arrays_at _ _ _ _ Hs) as (ha & h & hb & Eh & La & Hh & _). cbn in Hh. subst h.
    rewrite (s_val _ _ Hs), map_app. cbn [deref obind map].
    assert (V : strdup_opt val [] = (val, [])) by now destruct val. rewrite V. cbv zeta beta iota.
    rewrite wr_mid by now rewrite length_map. cbn [obind].
    destruct (table_out a b key v (s_distinct _ _ Hs)) as (K & D & T). destruct (table_mid a b key val K D) as [T' D'].
    pose proof (slot_change _ _ _ _ (Some (key, val)) _ ha hb Hs Eh La (dictionary_hash key) eq_refl N D') as Hs'.
    eexists _, (a ++ Some (key, val) :: b). split; [reflexivity|]. split; [|split; [|split]].
    + rewrite Eh, (s_key _ _ Hs), (s_n _ _ Hs). rewrite !map_app in *. cbn [map fmap option_fmap option_map fst mbind option_bind snd] in *.
      rewrite !omap_app, !length_app in *. exact Hs'.
    + rewrite T'. destruct (table_mid a b key v K D) as [-> _]. now rewrite insert_insert_eq.
    + left. now rewrite !length_app.
    + rewrite !omap_app, !length_app. cbn. lia.
  - pose proof E as K. apply table_none in K. rewrite (find_absent d sl) by done. cbn [obind].
    assert (G : exists d1 sl1, (if d_n d =? d_size d then grow d [] else Done (true, d, [])) = Done (true, d1, []) /\ shows d1 sl1 /\
      (length (omap id sl1) < length sl1)%nat /\ omap id sl1 = omap id sl /\
      (length sl1 = length sl \/ length (omap id sl) = length sl /\ length sl1 = 2 * length sl)%nat).
    { rewrite (s_n _ _ Hs), (s_size _ _ Hs). destruct (Z.eqb_spec (Z.of_nat (length (omap id sl))) (Z.of_nat (length sl))) as [Full|Room].
      - destruct (grow_spec d sl Hs B) as (d1 & -> & Hs1). eexists _, _. split; [reflexivity|]. split; [exact Hs1|].
        rewrite omap_app, omap_free, app_nil_r, length_app, repeat_length. split_and!; try done; lia.
      - exists d, sl. pose proof (all_taken sl). split_and!; try done; [lia|now left]. }
    destruct G as (d1 & sl1 & -> & Hs1 & Lt & Eq & Len). cbn [obind negb].
    destruct (free_slot sl1 Lt) as (a & b & -> & Fa).
    assert (K1 : key ∉ names (a ++ None :: b)) by (unfold names in *; now rewrite Eq).
    destruct (insert_spec d1 a b key val Hs1 Fa N K1) as (d' & -> & Hs'). cbn [obind].
    eexists d', _. split; [reflexivity|]. split; [exact Hs'|]. split; [|split].
    + assert (Eab : omap id (a ++ b) = omap id sl) by (rewrite <- Eq, !omap_app; reflexivity).
      destruct (table_mid a b key val) as [-> _]; unfold names, table; rewrite ?Eab; [done|exact (s_distinct _ _ Hs)|done].
    + rewrite length_app in *. cbn in *. destruct Len; [left|right]; lia.
    + rewrite <- Eq, !omap_app, !length_app. cbn. lia.
Qed.

(** A dictionary that shows a map, after at most [k] changes. *)
Definition shows_map (d : dictionary) (M : gmap cstring (option cstring)) (k : nat) : Prop :=
  exists sl, shows d sl /\ table sl = M /\ (0 < length sl <= 128 + 2 * k)%nat /\ (length (omap id sl) <= k)%nat.
Lemma new_shows : exists d, dictionary_new 0 [] = (Some d, []) /\ shows_map d ∅ 0.
Proof.
  eexists. split; [reflexivity|]. change (if 0 <? DICTMINSZ then DICTMINSZ else 0) with 128. exists (repeat None 128). split; [|split; [reflexivity|cbn; lia]].
  constructor; try reflexivity.
  - exists (repeat 0 128). split; [done|]. cbn. repeat constructor.
  - cbn. constructor.
  - cbn. repeat constructor.
Qed.
Lemma put_map d M k key val : shows_map d M k -> no_nul key -> Z.of_nat k < 2 ^ 25 ->
  exists d', dictionary_set (Some d) (Some key) val [] = Done (0, Some d', []) /\ shows_map d' (<[key := val]> M) (S k).
Proof.
  intros (sl & Hs & <- & L & C) N B.
  destruct (set_spec d sl key val Hs N) as (d' & sl' & E & Hs' & T & Len & C'); [lia..|].
  exists d'. split; [exact E|]. exists sl'. split; [done|]. split; [exact T|]. lia.
Qed.
Lemma take_out_map d M k key : shows_map d M k -> no_nul key ->
  exists d', dictionary_unset d key = Done d' /\ shows_map d' (delete key M) k.
Proof.
  intros (sl & Hs & <- & L & C) N. destruct (unset_spec d sl key Hs N) as (d' & sl' & E & Hs' & T & Len & C').
  exists d'. split; [exact E|]. exists sl'. split; [done|]. split; [exact T|]. lia.
Qed.
Lemma get_map d M k key def : shows_map d M k -> no_nul key ->
  dictionary_get d key def = Done (match M !! key with Some v => inl v | None => def end).
Proof. intros (sl & Hs & <- & _) N. now apply get_spec. Qed.

(** The key under which an entry is kept. *)
Definition name (key : cstring) : cstring := take ASCIILINESZ (lower key).
Lemma lower_no_nul s : no_nul s -> no_nul (lower s).
Proof. intros N H. apply list_elem_of_fmap in H as (c & E & H). symmetry in E. apply tolower_NUL in E as ->. contradiction. Qed.
Lemma take_no_nul n s : no_nul s -> no_nul (take n s).
Proof. intros N H. apply N. rewrite <- (take_drop n s). apply elem_of_app. now left. Qed.
Lemma name_no_nul s : no_nul s -> no_nul (name s).
Proof. intros N. now apply take_no_nul, lower_no_nul. Qed.
Lemma getstring_map d M k key def : shows_map d M k -> no_nul key ->
  iniparser_getstring (Some d) (Some key) def = Done (match M !! name key with Some v => inl v | None => def end).
Proof. intros Hs N. unfold iniparser_getstring. cbn. apply (get_map d M k); [done|now apply name_no_nul]. Qed.

(** What is done with a dictionary. *)
Inductive change := Put (key : cstring) (val : option cstring) | Remove (key : cstring).
Definition key_of (c : change) : cstring := match c with Put k _ | Remove k => k end.
Definition change_dictionary (d : dictionary) (c : change) : outcome dictionary :=
  match c with
  | Put key val => let* (rc, d, _) := dictionary_set (Some d) (Some key) val [] in assert! (rc =? 0); deref d
  | Remove key => dictionary_unset d key
  end.
Fixpoint change_all (d : dictionary) (l : list change) : outcome dictionary :=
  match l with [] => Done d | c :: l => let* d := change_dictionary d c in change_all d l end.
Definition change_map (M : gmap cstring (option cstring)) (c : change) : gmap cstring (option cstring) :=
  match c with Put key val => <[key := val]> M | Remove key => delete key M end.
Lemma changes_spec l : forall d M k, shows_map d M k -> Forall no_nul (map key_of l) -> Z.of_nat (k + length l) <= 2 ^ 25 ->
  exists d' k', change_all d l = Done d' /\ shows_map d' (foldl change_map M l) k'.
Proof.
  induction l as [|c l IH]; intros d M k Hs N B; cbn [change_all foldl length map] in *; [now exists d, k|].
  apply Forall_cons in N as [Nc N]. destruct c as [key val|key]; cbn [change_dictionary change_map key_of] in *.
  - destruct (put_map d M k key val Hs Nc) as (d1 & -> & Hs1); [lia|]. cbn [obind Z.eqb assertb deref].
    apply (IH d1 _ (S k)); [done..|lia].
  - destruct (take_out_map d M k key Hs Nc) as (d1 & -> & Hs1). cbn [obind].
    apply (IH d1 _ k); [done..|lia].
Qed.
(** C35. A dictionary (of the static functions dictionary_new, dictionary_set, dictionary_unset and dictionary_get) is a finite map: whatever
    keys are set, replaced and removed in a new dictionary of the smallest size, in whatever order (keys without a NUL, at most 2^25 changes, and
    no call for memory fails), every set succeeds, growing the arrays where they are full, and what is looked up afterwards is what the map with
    these changes has; a key that was set to NULL is found and gives NULL, a key that is not there gives the default. *)
Theorem dictionary_is_map l : Forall no_nul (map key_of l) -> Z.of_nat (length l) <= 2 ^ 25 ->
  exists d0 d, dictionary_new 0 [] = (Some d0, []) /\ change_all d0 l = Done d /\
    forall key def, no_nul key ->
      dictionary_get d key def = Done (match foldl change_map ∅ l !! key with Some v => inl v | None => def end).
Proof.
  intros N B. destruct new_shows as (d0 & E0 & Hs0). destruct (changes_spec l d0 ∅ 0 Hs0 N B) as (d & k & E & Hs).
  exists d0, d. split; [done|]. split; [done|]. intros key def Nk. now apply (get_map d _ k).
Qed.
Lemma dictionary_is_map_witness : exists d0 d, dictionary_new 0 [] = (Some d0, []) /\
  change_all d0 [Put (lit "server:port") (Some (lit "80")); Put (lit "a") None; Put (lit "server:port") (Some (lit "81")); Put (lit "b") None; Remove (lit "a")] = Done d /\
  dictionary_get d (lit "server:port") INI_INVALID_KEY = Done (inl (Some (lit "81"))) /\
  dictionary_get d (lit "a") INI_INVALID_KEY = Done INI_INVALID_KEY /\ dictionary_get d (lit "b") INI_INVALID_KEY = Done (inl None).
Proof.
  destruct (dictionary_is_map [Put (lit "server:port") (Some (lit "80")); Put (lit "a") None; Put (lit "server:port") (Some (lit "81")); Put (lit "b") None; Remove (lit "a")])
    as (d0 & d & E0 & E & G); [apply (bool_decide_unpack _); vm_compute; exact I|vm_compute; discriminate|].
  exists d0, d. split; [exact E0|]. split; [exact E|]. rewrite !G by (apply (bool_decide_unpack _); vm_compute; exact I). split_and!; vm_compute; reflexivity.
Defined.
(** [iniparser_setstr] adds an entry that is not there (its comment says that it is not set and -1 returned), under its name in small letters. *)
Example setstr_adds : exists d0 d, dictionary_new 0 [] = (Some d0, []) /\
  iniparser_setstr (Some d0) (Some (lit "Server:Port")) (Some (lit "80")) [] = Done (0, Some d, []) /\
  iniparser_getstring (Some d) (Some (lit "SERVER:port")) INI_INVALID_KEY = Done (inl (Some (lit "80"))).
Proof.
  destruct new_shows as (d0 & E0 & Hs0).
  destruct (put_map d0 ∅ 0 (name (lit "Server:Port")) (Some (lit "80")) Hs0) as (d & E & Hs); [apply (bool_decide_unpack _); vm_compute; exact I|lia|].
  exists d0, d. split; [exact E0|]. split; [exact E|].
  rewrite (getstring_map d _ 1) by (exact Hs || (apply (bool_decide_unpack _); vm_compute; exact I)). vm_compute. reflexivity.
Qed.

(** ** Lines *)

Definition blanks (b : cstring) : Prop := Forall (fun c => isspace c = true) b.
Definition starts_dark (s : cstring) : Prop := match s with c :: _ => isspace c = false | [] => True end.
Definition ends_dark (s : cstring) : Prop := exists u c, s = u ++ [c] /\ isspace c = false.
Lemma strskp_blanks b s : blanks b -> strskp (b ++ s) = strskp s.
Proof. induction 1 as [|c b Hc _ IH]; [done|]. cbn. now rewrite Hc. Qed.
Lemma strskp_dark s : starts_dark s -> strskp s = s.
Proof. destruct s as [|c s]; [done|]. cbn. now intros ->. Qed.
Lemma crop_app l x : forall n, (n <= length l)%nat -> crop (l ++ [x]) n = crop l n.
Proof.
  induction n as [|n IH]; [done|]. intros Hn. cbn [crop]. rewrite lookup_app_l by lia. rewrite IH by lia.
  destruct (from_option isspace false (l !! n)); [done|]. now rewrite take_app_le by lia.
Qed.
Lemma crop_spec u c b : isspace c = false -> blanks b -> crop ((u ++ [c]) ++ b) (length ((u ++ [c]) ++ b)) = u ++ [c].
Proof.
  intros Hc Hb. induction b as [|x b IH] using rev_ind.
  - rewrite app_nil_r, length_app, Nat.add_comm. cbn [length Nat.add crop]. rewrite lookup_app_r, Nat.sub_diag by lia. cbn [lookup list_lookup from_option].
    rewrite Hc. replace (S (length u)) with (length (u ++ [c])) by (rewrite length_app; cbn; lia). apply take_ge. lia.
  - apply Forall_app in Hb as [Hb Hx]. apply Forall_inv in Hx. rewrite app_assoc, (length_app (_ ++ b)), Nat.add_comm. cbn [length Nat.add crop].
    rewrite lookup_app_r, Nat.sub_diag by lia. cbn [lookup list_lookup from_option]. rewrite Hx.
    rewrite crop_app by lia. exact (IH Hb).
Qed.
Lemma strcrop_spec v b : ends_dark v -> blanks b -> (length (v ++ b) <= ASCIILINESZ)%nat -> strcrop (v ++ b) = v.
Proof. intros (u & c & -> & Hc) Hb L. unfold strcrop. rewrite take_ge by exact L. now apply crop_spec. Qed.
Lemma take_while_stop p a c r : Forall (fun x => p x = true) a -> p c = false -> take_while p (a ++ c :: r) = a.
Proof. induction 1 as [|x a Hx _ IH]; intros Hc; cbn; [now rewrite Hc|]. rewrite Hx. now rewrite IH. Qed.
Lemma take_while_all p a : Forall (fun x => p x = true) a -> take_while p a = a.
Proof. induction 1 as [|x a Hx _ IH]; cbn; [done|]. now rewrite Hx, IH. Qed.
Lemma conv_stop stop fmt a c r : a <> [] -> Forall (fun x => x ∉ stop) a -> c ∈ stop -> (length (a ++ c :: r) <= ASCIILINESZ)%nat ->
  sscanf (Conv stop :: fmt) (a ++ c :: r) = a :: sscanf fmt (c :: r).
Proof.
  intros N F C L. cbn [sscanf]. rewrite take_ge by done. rewrite take_while_stop.
  - destruct a as [|x a]; [done|]. now rewrite drop_app_length.
  - eapply Forall_impl; [exact F|]. intros x Hx. now apply bool_decide_eq_true.
  - apply bool_decide_eq_false. intros H. exact (H C).
Qed.
Lemma conv_all stop fmt a : a <> [] -> Forall (fun x => x ∉ stop) a -> (length a <= ASCIILINESZ)%nat ->
  sscanf (Conv stop :: fmt) a = a :: sscanf fmt [].
Proof.
  intros N F L. cbn [sscanf]. rewrite take_ge by done. rewrite take_while_all.
  - destruct a as [|x a]; [done|]. now rewrite drop_all.
  - eapply Forall_impl; [exact F|]. intros x Hx. now apply bool_decide_eq_true.
Qed.
Lemma fgets_line_spec t f : forall n, LF ∉ t -> (length t < n)%nat -> fgets_line n (t ++ LF :: f) = (t ++ [LF], f).
Proof.
  induction t as [|c t IH]; intros [|n] N L; cbn in *; try lia; [done|].
  apply not_elem_of_cons in N as [Nc N]. rewrite decide_False by congruence. rewrite IH by (done || lia). done.
Qed.
Lemma fgets_spec t f : LF ∉ t -> no_nul t -> (length t < 1023)%nat -> fgets ASCIILINESZ (t ++ LF :: f) = Some (t ++ [LF], f).
Proof.
  intros N Nn L. unfold fgets. destruct (t ++ LF :: f) eqn:E; [now destruct t|]. rewrite <- E. rewrite fgets_line_spec; [|done|exact L].
  rewrite c_string_id; [done|]. intros H. apply elem_of_app in H as [H|H]; [exact (Nn H)|]. apply list_elem_of_singleton in H. discriminate.
Qed.

(** A line: a comment or nothing, the name of a section, an entry with a plain value or with one in quotes. *)
Inductive line :=
  | Comment (indent text : cstring)
  | Heading (indent name rest : cstring)
  | Plain (indent key b1 b2 value b3 note : cstring)
  | Quoted (quote : ascii) (indent key b1 b2 value rest : cstring).
Definition text_of (l : line) : cstring :=
  match l with
  | Comment i t => i ++ t
  | Heading i n r => i ++ "["%char :: n ++ "]"%char :: r
  | Plain i k b1 b2 v b3 note => i ++ k ++ b1 ++ "="%char :: b2 ++ v ++ b3 ++ note
  | Quoted q i k b1 b2 v r => i ++ k ++ b1 ++ "="%char :: b2 ++ q :: v ++ q :: r
  end.
Definition note_ok (t : cstring) : Prop := match t with [] => True | c :: _ => c = ";"%char \/ c = "#"%char end.
Definition key_ok (k : cstring) : Prop :=
  starts_dark k /\ ends_dark k /\ "="%char ∉ k /\ match k with c :: _ => c ∉ [";"; "#"; "["]%char | [] => True end.
Definition line_ok (l : line) : Prop :=
  LF ∉ text_of l /\ no_nul (text_of l) /\ (length (text_of l) < 1023)%nat /\
  match l with
  | Comment i t => blanks i /\ note_ok t
  | Heading i n r => blanks i /\ n <> [] /\ "]"%char ∉ n
  | Plain i k b1 b2 v b3 note => blanks i /\ blanks b1 /\ blanks b2 /\ blanks b3 /\ key_ok k /\ note_ok note /\
      starts_dark v /\ ends_dark v /\ ";"%char ∉ v /\ "#"%char ∉ v /\ match v with c :: _ => c <> QUOTE /\ c <> "'"%char | [] => True end
  | Quoted q i k b1 b2 v r => (q = QUOTE \/ q = "'"%char) /\ blanks i /\ blanks b1 /\ blanks b2 /\ key_ok k /\ v <> [] /\ q ∉ v
  end.
(** What a line adds: the section that the lines below are in, and the entries so far. *)
Definition meaning_of (s : cstring * gmap cstring (option cstring)) (l : line) : cstring * gmap cstring (option cstring) :=
  let '(sec, M) := s in
  match l with
  | Comment _ _ => (sec, M)
  | Heading _ n _ => (lower n, <[lower n := None]> M)
  | Plain _ k _ _ v _ _ => (sec, <[sec ++ ":"%char :: lower k := Some v]> M)
  | Quoted _ _ k _ _ v _ => (sec, <[sec ++ ":"%char :: lower k := Some (clean_value v)]> M)
  end.
Definition meaning (ls : list line) : gmap cstring (option cstring) := (foldl meaning_of ([], ∅) ls).2.
Definition file_of (ls : list line) : list ascii := concat (map (fun l => text_of l ++ [LF]) ls).

Lemma blanks_not stop b : blanks b -> Forall (fun c => isspace c = false) stop -> Forall (fun x => x ∉ stop) b.
Proof.
  intros Hb Hs. eapply Forall_impl; [exact Hb|]. intros x Hx H. rewrite Forall_forall in Hs. specialize (Hs x H). congruence.
Qed.
Lemma not_in_each (c : ascii) s : c ∉ s -> Forall (fun x => x ∉ [c]) s.
Proof. intros N. apply Forall_forall. intros x Hx H. apply list_elem_of_singleton in H as ->. contradiction. Qed.
Lemma peek_app (k r : cstring) : k <> [] -> peek (k ++ r) = peek k.
Proof. now destruct k. Qed.
Lemma key_scan fmt k b1 b2 w : key_ok k -> blanks b1 -> blanks b2 -> starts_dark w -> (length (k ++ b1 ++ "="%char :: b2 ++ w) <= ASCIILINESZ)%nat ->
  sscanf (Conv ["="%char] :: Blank :: Lit "=" :: Blank :: fmt) (k ++ b1 ++ "="%char :: b2 ++ w) = (k ++ b1) :: sscanf fmt w.
Proof.
  intros (_ & (u & x & -> & _) & Ne & _) H1 H2 Hw L. rewrite app_assoc in *. rewrite conv_stop; [..|exact L].
  - cbn [sscanf strskp]. change (isspace "="%char) with false. cbv iota. rewrite decide_True by done. cbn [sscanf].
    now rewrite strskp_blanks, strskp_dark.
  - now destruct u.
  - apply Forall_app. split; [now apply not_in_each|]. apply blanks_not; [done|]. now repeat constructor.
  - left.
Qed.
(** The line of an entry, behind its indentation. *)
Lemma entry_line d sec i k b1 r m v : blanks i -> key_ok k -> blanks b1 -> no_nul k -> (length (k ++ b1) <= ASCIILINESZ)%nat ->
  scan_entry (k ++ b1 ++ r) = Some (k ++ b1, v) ->
  read_line d sec (i ++ k ++ b1 ++ r) m = let* r := iniparser_add_entry d sec (Some (lower k)) (Some (clean_value v)) m in Done (sec, r).
Proof.
  intros Hi Hk H1 Nk L E. pose proof Hk as (Sd & Ed & _ & Hc). assert (Nn : k <> []) by (destruct Ed as (? & ? & -> & _); now destruct x).
  unfold read_line. rewrite strskp_blanks by done. rewrite strskp_dark by (destruct k; [done|exact Sd]). rewrite E.
  rewrite (peek_app k) by done. rewrite bool_decide_false.
  2:{ destruct k as [|c k]; [done|]. cbn [peek]. apply not_elem_of_cons in Nk as [Nc _]. intros H.
      rewrite !elem_of_cons, elem_of_nil in H. rewrite !elem_of_cons in Hc. destruct H as [->|[->|[->|[]]]]; tauto. }
  assert (sscanf section_format (k ++ b1 ++ r) = []) as ->.
  { destruct k as [|c k]; [done|]. unfold section_format. cbn [app sscanf]. rewrite decide_False; [done|]. intros ->. apply Hc. rewrite !elem_of_cons. tauto. }
  rewrite (strcrop_spec k b1) by done. cbn [strlwc fmap option_fmap option_map default]. unfold id.
  rewrite take_ge; [done|]. unfold lower. rewrite length_map. rewrite length_app in L. lia.
Qed.
Lemma plain_scan k b1 b2 v b3 note : key_ok k -> blanks b1 -> blanks b2 -> blanks b3 -> note_ok note -> starts_dark v -> ends_dark v ->
  ";"%char ∉ v -> "#"%char ∉ v -> match v with c :: _ => c <> QUOTE /\ c <> "'"%char | [] => True end ->
  (length (k ++ b1 ++ "="%char :: b2 ++ v ++ b3 ++ note ++ [LF]) <= ASCIILINESZ)%nat ->
  exists b, blanks b /\ scan_entry (k ++ b1 ++ "="%char :: b2 ++ v ++ b3 ++ note ++ [LF]) = Some (k ++ b1, v ++ b) /\
    (length (v ++ b) <= ASCIILINESZ)%nat.
Proof.
  intros Hk H1 H2 H3 Hn Sv Ev Ns Nh Hq L. assert (Nv : v <> []) by (destruct Ev as (? & ? & -> & _); now destruct x).
  assert (Sw : starts_dark (v ++ b3 ++ note ++ [LF])) by (destruct v; [done|exact Sv]).
  assert (Lw : (length (v ++ b3 ++ note ++ [LF]) <= ASCIILINESZ)%nat) by (rewrite !length_app in *; cbn in L; rewrite !length_app in L; lia).
  assert (Pl : exists b, blanks b /\ sscanf [Conv [";"; "#"]%char] (v ++ b3 ++ note ++ [LF]) = [v ++ b] /\ (length (v ++ b) <= ASCIILINESZ)%nat).
  { assert (Fv : forall b, blanks b -> Forall (fun x => x ∉ [";"; "#"]%char) (v ++ b)).
    { intros b Hb. apply Forall_app. split; [|apply blanks_not; [done|now repeat constructor]].
      apply Forall_forall. intros x Hx H. rewrite !elem_of_cons, elem_of_nil in H. destruct H as [->|[->|[]]]; contradiction. }
    destruct note as [|c note]; cbn [app] in *.
    - exists (b3 ++ [LF]). assert (Hb : blanks (b3 ++ [LF])) by (apply Forall_app; split; [done|now repeat constructor]).
      split; [done|]. split; [|done]. rewrite conv_all; [done|now destruct v|now apply Fv|done].
    - exists b3. split; [done|]. rewrite app_assoc in *. split; [|rewrite length_app in Lw; lia].
      rewrite conv_stop; [done|now destruct v|now apply Fv| |done]. cbn in Hn. rewrite !elem_of_cons. tauto. }
  destruct Pl as (b & Hb & E & Lb). exists b. split; [done|]. split; [|done]. unfold scan_entry, double_format, single_format, plain_format.
  rewrite !key_scan by done. rewrite E. destruct v as [|c v]; [done|]. destruct Hq as [Q1 Q2]. cbn [app sscanf]. now rewrite !decide_False.
Qed.
Lemma lit_here c fmt s : sscanf (Lit c :: fmt) (c :: s) = sscanf fmt s.
Proof. cbn [sscanf]. now rewrite decide_True. Qed.
Lemma lit_other c x fmt s : x <> c -> sscanf (Lit c :: fmt) (x :: s) = [].
Proof. intros N. cbn [sscanf]. now rewrite decide_False. Qed.
Lemma quoted_scan q k b1 b2 v r : q = QUOTE \/ q = "'"%char -> key_ok k -> blanks b1 -> blanks b2 -> v <> [] -> q ∉ v ->
  (length (k ++ b1 ++ "="%char :: b2 ++ q :: v ++ q :: r) <= ASCIILINESZ)%nat ->
  scan_entry (k ++ b1 ++ "="%char :: b2 ++ q :: v ++ q :: r) = Some (k ++ b1, v).
Proof.
  intros Hq Hk H1 H2 Nv Nq L. assert (Lv : (length (v ++ q :: r) <= ASCIILINESZ)%nat) by (rewrite !length_app in *; cbn in *; rewrite !length_app in *; cbn in *; rewrite ?length_app in *; cbn in *; lia).
  unfold scan_entry, double_format, single_format, plain_format.
  destruct Hq as [-> | ->]; rewrite !key_scan by done.
  - rewrite lit_here, (conv_stop [QUOTE]); [|done|now apply not_in_each|left|done]. now rewrite lit_here.
  - rewrite lit_other, lit_here by done. rewrite (conv_stop ["'"%char]); [|done|now apply not_in_each|left|done]. now rewrite lit_here.
Qed.

Lemma shows_more d M k k' : shows_map d M k -> (k <= k')%nat -> shows_map d M k'.
Proof. intros (sl & Hs & T & L & C) H. exists sl. split_and!; try done; lia. Qed.
Definition section_ok (sec : cstring) : Prop := no_nul sec /\ (length sec < 1023)%nat.
Lemma add_spec d M k sec key v : shows_map d M k -> Z.of_nat k < 2 ^ 25 -> section_ok sec -> no_nul key -> (length key < 1023)%nat ->
  exists d', iniparser_add_entry d sec (Some key) v [] = Done (0, Some d', []) /\ shows_map d' (<[sec ++ ":"%char :: key := v]> M) (S k).
Proof.
  intros Hs B [Ns Ls] Nk Lk. unfold iniparser_add_entry. rewrite take_ge by (rewrite length_app; unfold ASCIILINESZ; cbn [length]; lia).
  apply put_map; [done| |done]. apply Uri.no_nul_app. split; [done|]. now apply not_elem_of_cons.
Qed.
Lemma no_nul_tail c s : no_nul (c :: s) -> no_nul s.
Proof. intros H. now apply not_elem_of_cons in H. Qed.
Ltac texts := repeat match goal with
  | H : no_nul (_ ++ _) |- _ => apply Uri.no_nul_app in H as [? ?]
  | H : no_nul (_ :: _) |- _ => apply no_nul_tail in H
  end.
Lemma entry_spec d M k sec i key b1 r v : shows_map d M k -> Z.of_nat k < 2 ^ 25 -> section_ok sec -> blanks i -> key_ok key -> blanks b1 -> no_nul key ->
  (length (key ++ b1) < 1023)%nat -> scan_entry (key ++ b1 ++ r) = Some (key ++ b1, v) ->
  exists d', read_line d sec (i ++ key ++ b1 ++ r) [] = Done (sec, (0, Some d', [])) /\
    shows_map d' (<[sec ++ ":"%char :: lower key := Some (clean_value v)]> M) (S k).
Proof.
  intros Hs B So Hi Hk H1 Nk L E. rewrite (entry_line d sec i key b1 r [] v) by (try done; unfold ASCIILINESZ; lia).
  destruct (add_spec d M k sec (lower key) (Some (clean_value v)) Hs B So (lower_no_nul _ Nk)) as (d' & -> & Hs').
  - unfold lower. rewrite length_map. rewrite length_app in L. lia.
  - cbn [obind]. now exists d'.
Qed.
Lemma line_spec d M k sec l : shows_map d M k -> Z.of_nat k < 2 ^ 25 -> section_ok sec -> line_ok l ->
  exists d', read_line d sec (text_of l ++ [LF]) [] = Done ((meaning_of (sec, M) l).1, (0, Some d', [])) /\
    shows_map d' (meaning_of (sec, M) l).2 (S k) /\ section_ok (meaning_of (sec, M) l).1.
Proof.
  intros Hs B So (_ & Nt & Lt & Hl). destruct l as [i t|i n r|i key b1 b2 v b3 note|q i key b1 b2 v r]; cbn [text_of meaning_of fst snd] in *.
  - destruct Hl as [Hi Hn]. exists d. split; [|split; [now apply (shows_more d M k); [|lia]|done]]. unfold read_line. rewrite <- app_assoc, strskp_blanks by done.
    destruct t as [|c t]; [done|]. rewrite strskp_dark by now destruct Hn as [-> | ->]. now rewrite bool_decide_true by (cbn; destruct Hn as [-> | ->]; rewrite !elem_of_cons; tauto).
  - destruct Hl as (Hi & Nn & Nb). texts. unfold read_line. rewrite <- app_assoc, strskp_blanks by done. cbn [app strskp]. change (isspace "["%char) with false. cbv iota.
    cbn [peek]. rewrite bool_decide_false by (rewrite !elem_of_cons; intros [?|[?|[?|Z0]]]; [discriminate..|now apply not_elem_of_nil in Z0]).
    unfold section_format. rewrite lit_here. rewrite <- app_assoc. cbn [app]. rewrite conv_stop; [|done|now apply not_in_each|left|].
    2:{ repeat (rewrite length_app in * || cbn [length] in *). unfold ASCIILINESZ. lia. }
    cbn [sscanf strlwc fmap option_fmap option_map default]. unfold id.
    assert (Ln : (length (lower n) < 1023)%nat) by (unfold lower; rewrite length_map; repeat (rewrite length_app in * || cbn [length] in *); lia).
    rewrite take_ge by (unfold ASCIILINESZ; lia). unfold iniparser_add_entry. rewrite take_ge by (unfold ASCIILINESZ; lia).
    assert (Nl : no_nul (lower n)) by now apply lower_no_nul.
    destruct (put_map d M k (lower n) None Hs Nl B) as (d' & -> & Hs'). cbn [obind]. now exists d'.
  - destruct Hl as (Hi & H1 & H2 & H3 & Hk & Hn & Sv & Ev & Ns & Nh & Hq). texts.
    assert (Lw : (length (key ++ b1 ++ "="%char :: b2 ++ v ++ b3 ++ note ++ [LF]) <= ASCIILINESZ)%nat).
    { repeat (rewrite length_app in * || cbn [length] in *). unfold ASCIILINESZ. lia. }
    destruct (plain_scan key b1 b2 v b3 note Hk H1 H2 H3 Hn Sv Ev Ns Nh Hq Lw) as (b & Hb & E & Lb).
    destruct (entry_spec d M k sec i key b1 _ _ Hs B So Hi Hk H1 ltac:(done) ltac:(repeat (rewrite length_app in * || cbn [length] in *); lia) E) as (d' & E' & Hs').
    exists d'. rewrite <- !app_assoc. cbn [app]. rewrite <- !app_assoc. split; [exact E'|]. split; [|done].
    unfold clean_value in Hs'. rewrite decide_False in Hs'; [now rewrite strcrop_spec in Hs'|].
    intros C. destruct Ev as (u & c & -> & _). destruct u as [|x u]; cbn in *; destruct Hq as [Q1 Q2], C as [C|C]; injection C; congruence.
  - destruct Hl as (Hq & Hi & H1 & H2 & Hk & Nv & Nq). texts.
    assert (Lw : (length (key ++ b1 ++ "="%char :: b2 ++ q :: v ++ q :: r ++ [LF]) <= ASCIILINESZ)%nat).
    { repeat (rewrite length_app in * || cbn [length] in *). unfold ASCIILINESZ. lia. }
    pose proof (quoted_scan q key b1 b2 v (r ++ [LF]) Hq Hk H1 H2 Nv Nq Lw) as E.
    destruct (entry_spec d M k sec i key b1 _ _ Hs B So Hi Hk H1 ltac:(done) ltac:(repeat (rewrite length_app in * || cbn [length] in *); lia) E) as (d' & E' & Hs').
    exists d'. rewrite <- !app_assoc. cbn [app]. rewrite <- !app_assoc. cbn [app]. rewrite <- !app_assoc. now split.
Qed.

Lemma lines_spec ls : forall fuel d sec M k, shows_map d M k -> section_ok sec -> Forall line_ok ls -> Z.of_nat (k + length ls) <= 2 ^ 25 ->
  (length (file_of ls) < fuel)%nat ->
  exists d', read_lines fuel d sec (file_of ls) [] = Done (Some d', []) /\ shows_map d' (foldl meaning_of (sec, M) ls).2 (k + length ls).
Proof.
  induction ls as [|l ls IH]; intros fuel d sec M k Hs So F B L; (destruct fuel as [|fuel]; [lia|]).
  - exists d. split; [done|]. now rewrite Nat.add_0_r.
  - apply Forall_cons in F as [Hl F]. unfold file_of in *. cbn [map concat length foldl read_lines] in *. rewrite length_app in L.
    destruct (line_spec d M k sec l Hs) as (d1 & E & Hs1 & So1); [lia|done..|]. pose proof Hl as (Nf & Nn & Lt & _).
    rewrite <- app_assoc. cbn [app]. rewrite fgets_spec by done. rewrite E. cbn [obind Z.eqb negb deref].
    destruct (meaning_of (sec, M) l) as [sec1 M1]. rewrite <- Nat.add_succ_comm. apply IH; try done; try lia.
    rewrite length_app in L. cbn in L. lia.
Qed.
Lemma file_shows ls : Forall line_ok ls -> Z.of_nat (length ls) <= 2 ^ 25 ->
  exists d, iniparser_new (Some (file_of ls)) [] = Done (Some d, []) /\ shows_map d (meaning ls) (length ls).
Proof.
  intros F B. unfold iniparser_new. destruct new_shows as (d0 & -> & Hs0).
  destruct (lines_spec ls (S (length (file_of ls))) d0 [] ∅ 0 Hs0) as (d & E & Hs); [|done|done|lia|].
  { split; [apply not_elem_of_nil|cbn; lia]. }
  exists d. split; [exact E|exact Hs].
Qed.
(** A configuration file is read as it is written: from a file of comments, headings of sections, plain and quoted entries, with any
    indentation and blanks, each line of less than 1023 characters, a dictionary is made, and every lookup in it answers with the last
    value that the file gives the key in a section of that name (names up to case), with NULL for a section, and with the default otherwise. *)
Theorem ini_file_read ls : Forall line_ok ls -> Z.of_nat (length ls) <= 2 ^ 25 ->
  exists d, iniparser_new (Some (file_of ls)) [] = Done (Some d, []) /\
    forall key def, no_nul key ->
      iniparser_getstring (Some d) (Some key) def = Done (match meaning ls !! name key with Some v => inl v | None => def end).
Proof.
  intros F B. destruct (file_shows ls F B) as (d & E & Hs). exists d. split; [exact E|]. intros key def N. now apply (getstring_map d _ (length ls)).
Qed.
Definition sp : cstring := lit " ".
Definition demo_lines : list line := [
  Comment [] (lit "# openwsman"); Heading [] (lit "Server") (lit " main"); Plain sp (lit "Port") sp sp (lit "80") sp (lit "; http");
  Quoted "'" [] (lit "Service_Path") sp [] (lit "/wsman;1") []; Comment [] []; Plain [] (lit "port") [] [] (lit "81") [] []].
Lemma text_fine (t : cstring) (P : Prop) : bool_decide (LF ∉ t) && bool_decide (no_nul t) && (length t <? 1023)%nat = true -> P ->
  LF ∉ t /\ no_nul t /\ (length t < 1023)%nat /\ P.
Proof. rewrite !andb_true_iff, !bool_decide_eq_true, Nat.ltb_lt. tauto. Qed.
Lemma key_fine k u c : k = u ++ [c] -> isspace c = false -> match k with c :: _ => isspace c = false | [] => True end ->
  bool_decide ("="%char ∉ k) && bool_decide (peek k ∉ [";"; "#"; "["]%char) = true -> key_ok k.
Proof.
  intros E Hc Hs. rewrite andb_true_iff, !bool_decide_eq_true. intros [He Hh]. split_and!; [done|now exists u, c|done|].
  destruct k; [done|exact Hh].
Qed.
Lemma demo_lines_ok : Forall line_ok demo_lines.
Proof.
  assert (B : blanks sp) by (constructor; [reflexivity|constructor]). assert (B0 : blanks []) by constructor.
  assert (E : forall u c, isspace c = false -> ends_dark (u ++ [c])) by (intros u c H; now exists u, c).
  unfold demo_lines. rewrite !Forall_cons. split_and!; [..|constructor]; (apply text_fine; [vm_compute; reflexivity|]).
  - split; [done|now right].
  - split_and!; try done. apply (bool_decide_unpack _). vm_compute. exact I.
  - split_and!; try done; [now apply (key_fine _ (lit "Por") "t"%char)|now left|now apply (E (lit "8"))|apply (bool_decide_unpack _); vm_compute; exact I..].
  - split_and!; try done; [now right|now apply (key_fine _ (lit "Service_Pat") "h"%char)|apply (bool_decide_unpack _); vm_compute; exact I].
  - now split.
  - split_and!; try done; [now apply (key_fine _ (lit "por") "t"%char)|now apply (E (lit "8"))|apply (bool_decide_unpack _); vm_compute; exact I..].
Qed.
Lemma ini_file_read_witness : exists d, iniparser_new (Some (file_of demo_lines)) [] = Done (Some d, []) /\
  iniparser_getstring (Some d) (Some (lit "server:PORT")) INI_INVALID_KEY = Done (inl (Some (lit "81"))) /\
  iniparser_getstring (Some d) (Some (lit "server:service_path")) INI_INVALID_KEY = Done (inl (Some (lit "/wsman;1"))).
Proof.
  destruct (ini_file_read demo_lines demo_lines_ok) as (d & E & G); [vm_compute; discriminate|].
  exists d. split; [exact E|]. rewrite !G by (apply (bool_decide_unpack _); vm_compute; exact I). split; vm_compute; reflexivity.
Defined.

(** ** Concrete files *)

Definition nl : string := String (chr 10) EmptyString.
Definition quotes : string := String QUOTE (String QUOTE EmptyString).
Definition got (s key : string) : outcome pointer :=
  let* (d, _) := iniparser_new (Some (lit s)) [] in iniparser_getstring d (Some (lit key)) INI_INVALID_KEY.
(** The end of the line is still in the value when it is compared with the two quotes. *)
Example quotes_kept : got ("[a]" ++ nl ++ "b = " ++ quotes ++ nl) "a:b" = Done (inl (Some (lit quotes))).
Proof. vm_compute. reflexivity. Qed.
Example no_value : got ("[a]" ++ nl ++ "b = " ++ nl) "a:b" = Done INI_INVALID_KEY.
Proof. vm_compute. reflexivity. Qed.
(** A section can have the name of an entry, and the entry has no value then. *)
Example heading_as_entry : (let* (d, _) := iniparser_new (Some (lit ("[server]" ++ nl ++ "[server:port]" ++ nl))) [] in
  iniparser_getint d (lit "server:port") 5985) = Undef.
Proof. vm_compute. reflexivity. Qed.
(** When there is no memory for more slots, the freeing of the dictionary reads the array that could not be made. *)
Definition full : list change := map (fun n => Put (lit "k" ++ [chr (Z.of_nat n + 128)]) None) (seq 0 128).
Example growth_fails : (let* d := match dictionary_new 0 [] with (Some d, _) => change_all d full | _ => Undef end in
  let* (rc, d, _) := iniparser_setstr (Some d) (Some (lit "more")) None [false] in
  let* _ := assertb (rc =? 1) in dictionary_del d) = Undef.
Proof. vm_compute. reflexivity. Qed.
End Ini.
