(* ===== verification/Daemon.v ===== *)
(** * Daemon: the start and the end of the daemon (server/wsmand.c, wsmand-daemon.c, wsmand-listener.c)

    The configuration is read into the options of the daemon; the server comes up when the port, the threads and
    the authentication are there; a shutdown calls the handlers and ends the process.  The options of the command line
    are the options that the configuration starts from.  Shared libraries are a function of their names. *)
From S2P Require Import Prelude CString HttpText HttpAuth WsTime Uri Ini.
Import HttpText Ini.

Module Daemon.

(** ** The options *)
(* src: server/wsmand-daemon.c 71-101 server_port *)
Record options := Options {
  server_port : Z; server_ssl_port : Z; use_ipv4 : Z; use_ipv6 : Z; use_digest : Z; ssl_key_file : option cstring;
  service_path : option cstring; ssl_cert_file : option cstring; ssl_disabled_protocols : option cstring; ssl_cipher_list : option cstring;
  uri_subscription_repository : option cstring; use_ssl : bool; debug_level : Z; log_location : option cstring;
  digest_password_file : option cstring; basic_password_file : option cstring; custom_anon_identify_file : option cstring;
  custom_identify_file : option cstring; basic_authenticator_arg : option cstring; basic_authenticator : option cstring;
  max_threads : Z; enumIdleTimeout : Z; thread_stack_size : option cstring; max_connections_per_thread : Z }.
Definition DEFAULT_SERVICE_PATH : cstring := lit "/wsman".
Definition DEFAULT_SUBSCRIPTION_REPOSITORY : cstring := lit "/var/lib/openwsman/subscriptions".
Definition DEFAULT_BASIC_AUTH : cstring := lit "libwsman_file_auth.so".
(* src: server/wsmand-daemon.c 71-101 server_port *)
Definition initial_options : options := {|
  server_port := -1; server_ssl_port := -1; use_ipv4 := 1; use_ipv6 := 0; use_digest := 0; ssl_key_file := None;
  service_path := Some DEFAULT_SERVICE_PATH; ssl_cert_file := None; ssl_disabled_protocols := None; ssl_cipher_list := None;
  uri_subscription_repository := Some DEFAULT_SUBSCRIPTION_REPOSITORY; use_ssl := false; debug_level := -1; log_location := None;
  digest_password_file := None; basic_password_file := None; custom_anon_identify_file := None;
  custom_identify_file := None; basic_authenticator_arg := None; basic_authenticator := Some DEFAULT_BASIC_AUTH;
  max_threads := 1; enumIdleTimeout := 100; thread_stack_size := Some (lit "0"); max_connections_per_thread := 20 |}.
(** What a pointer that is no invalid key points to. *)
Definition pointed (p : pointer) : option cstring := match p with inl s => s | inr _ => None end.
Definition getstring (ini : option dictionary) (key : string) (def : option cstring) : outcome (option cstring) :=
  let* p := iniparser_getstring ini (Some (lit key)) (inl def) in Done (pointed p).
Definition getint (ini : option dictionary) (key : string) (notfound : Z) : outcome Z := iniparser_getint ini (lit key) notfound.
Definition getboolean (ini : option dictionary) (key : string) (notfound : Z) : outcome Z := iniparser_getboolean ini (lit key) notfound.
(** The process may be ended, with the status that is given. *)
Inductive progress (A : Type) := Goes_on (a : A) | Exits (status : Z).
Arguments Goes_on {A} _.
Arguments Exits {A} _.
(** [ipv6]: whether the daemon is built with it. *)
(* src: server/wsmand-daemon.c 166-215 wsmand_read_config *)
Definition wsmand_read_config (ipv6 : bool) (ini : option dictionary) (o : options) : outcome (progress (Z * options)) :=
  let* found := iniparser_find_entry ini (lit "server") in
  if found =? 0 then Done (Goes_on (0, o)) else
  let* port := getint ini "server:port" 5985 in
  let* ssl_port := getint ini "server:ssl_port" 5986 in
  let* debug_level := getint ini "server:debug_level" 0 in
  let* timeout := getint ini "server:enum_idle_timeout" 100 in
  let* path := getstring ini "server:service_path" (Some DEFAULT_SERVICE_PATH) in
  let* key_file := getstring ini "server:ssl_key_file" None in
  let* cert_file := getstring ini "server:ssl_cert_file" None in
  let* disabled := getstring ini "server:ssl_disabled_protocols" None in
  let* ciphers := getstring ini "server:ssl_cipher_list" None in
  let* v4 := getboolean ini "server:ipv4" 1 in
  let* v6 := if ipv6 then getboolean ini "server:ipv6" 1 else Done (use_ipv6 o) in
  if ipv6 && (v4 =? 0) && (v6 =? 0) then Done (Exits 1) else
  let* digest := getboolean ini "server:use_digest" 0 in
  let* digest_file := getstring ini "server:digest_password_file" None in
  let* basic_file := getstring ini "server:basic_password_file" None in
  let* identify := getstring ini "server:identify_file" None in
  let* anon_identify := getstring ini "server:anon_identify_file" None in
  let* authenticator := getstring ini "server:basic_authenticator" None in
  let* authenticator_arg := getstring ini "server:basic_authenticator_arg" None in
  let* log := getstring ini "server:log_location" None in
  let* threads := getint ini "server:max_threads" 0 in
  let* repository := getstring ini "server:subs_repository" (Some DEFAULT_SUBSCRIPTION_REPOSITORY) in
  let* misspelt := getint ini "server:max_connextions_per_thread" 20 in
  let* connections := getint ini "server:max_connections_per_thread" misspelt in
  let* stack := getstring ini "server:thread_stack_size" (Some (lit "0")) in
  Done (Goes_on (1, {| server_port := port; server_ssl_port := ssl_port; use_ipv4 := v4; use_ipv6 := v6; use_digest := digest; ssl_key_file := key_file;
    service_path := path; ssl_cert_file := cert_file; ssl_disabled_protocols := disabled; ssl_cipher_list := ciphers;
    uri_subscription_repository := repository; use_ssl := use_ssl o; debug_level := debug_level; log_location := log;
    digest_password_file := digest_file; basic_password_file := basic_file; custom_anon_identify_file := anon_identify;
    custom_identify_file := identify; basic_authenticator_arg := authenticator_arg; basic_authenticator := authenticator;
    max_threads := threads; enumIdleTimeout := u64 timeout; thread_stack_size := stack; max_connections_per_thread := connections |})).
(** [config_file]: the option of the command line; [getcwd] may fail. *)
(* src: server/wsmand-daemon.c 233-246 wsmand_options_get_config_file *)
Definition wsmand_options_get_config_file (default_file : cstring) (config_file getcwd : option cstring) : cstring :=
  let file := default default_file config_file in
  if Uri.u_path_is_absolute file then file
  else match getcwd with Some cwd => cwd ++ "/"%char :: file | None => file end.
(** The start of the process, up to the server: [file] is what the configuration file holds. *)
(* src: server/wsmand.c 264-273 main *)
Definition configure (ipv6 : bool) (file : option (list ascii)) (m : answers) (o : options) : outcome (progress (options * dictionary)) :=
  let* (ini, m) := iniparser_new file m in
  match ini with
  | None => Done (Exits 1)
  | Some ini =>
      let* r := wsmand_read_config ipv6 (Some ini) o in
      Done (match r with Exits n => Exits n | Goes_on (rc, o) => if rc =? 0 then Exits 1 else Goes_on (o, ini) end)
  end.

(** ** The start of the server *)

(** A shared library with an authenticator: its functions, if it has them. *)
Record library := Library { l_authorize : option (cstring -> cstring -> Z); l_initialize : option (option cstring -> Z) }.
Section Start.
Context (PACKAGE_AUTH_DIR : cstring) (dlopen : cstring -> option library).
(** The result and [basic_callback], which stays set when the library refuses to initialize. *)
(* src: server/wsmand-listener.c 474-535 initialize_basic_authenticator *)
Definition initialize_basic_authenticator (o : options) : Z * option (cstring -> cstring -> Z) :=
  let load auth arg :=
    match auth with
    | None => (0, None)
    | Some auth =>
        let name := if bool_decide (peek auth = "/"%char) then auth else PACKAGE_AUTH_DIR ++ "/"%char :: auth in
        match dlopen name with
        | None => (1, None)
        | Some hnd =>
            match l_authorize hnd with
            | None => (1, None)
            | Some cb => (match l_initialize hnd with Some init => init arg | None => 0 end, Some cb)
            end
        end
    end in
  match basic_password_file o with
  | Some file =>
      if match basic_authenticator o with Some a => negb (strcmp DEFAULT_BASIC_AUTH a =? 0) | None => false end
         || bool_decide (is_Some (basic_authenticator_arg o))
      then (1, None)
      else load (Some DEFAULT_BASIC_AUTH) (Some file)
  | None => load (basic_authenticator o) (basic_authenticator_arg o)
  end.
(* src: server/wsmand-listener.c 538-559 get_server_auth *)
Definition get_server_auth (o : options) : Z * option (cstring -> cstring -> Z) :=
  let '(res, basic_callback) := initialize_basic_authenticator o in
  if negb (res =? 0) then (0, basic_callback)
  else match digest_password_file o, basic_callback with
  | None, None => (0, basic_callback)
  | _, _ => (1, basic_callback)
  end.
(* src: server/wsmand-listener.c 561-578 get_server_port *)
Definition get_server_port (o : options) : Z :=
  if use_ssl o then
    if bool_decide (is_Some (ssl_cert_file o)) && bool_decide (is_Some (ssl_key_file o)) && (0 <? server_ssl_port o)
    then server_ssl_port o else 0
  else server_port o.
(** What the threads library answers, call by call; the size of the stack is set behind the return. *)
Record threads := Threads { t_cond : Z; t_mutex : Z; t_attr : Z; t_detach : Z }.
(* src: server/wsmand-listener.c 581-610 wsman_setup_thread *)
Definition wsman_setup_thread (t : threads) : Z :=
  if negb (t_cond t =? 0) then 0 else if negb (t_mutex t =? 0) then 0 else
  if negb (t_attr t =? 0) then 0 else if negb (t_detach t =? 0) then 0 else 1.
(** A server that polls, with the port and the options that decide who is let in; or the end before that.
    [plugins]: whether there is a context with the plug-ins, [have_ssl]: whether the daemon is built with SSL. *)
Inductive server := Stopped | Polls (port : Z) (o : HttpAuth.wsmand_options).
(* src: server/wsmand-listener.c 613-685 wsmand_start_server *)
Definition wsmand_start_server (plugins have_ssl : bool) (t : threads) (o : options) : outcome server :=
  if negb (max_threads o =? 0) && (max_connections_per_thread o =? 0) then Done Stopped else
  if negb plugins then Done Stopped else
  if negb have_ssl && use_ssl o then Done Stopped else
  let port := get_server_port o in
  if port =? 0 then Done Stopped else
  let '(auth, basic_callback) := get_server_auth o in
  if auth =? 0 then Done Stopped else
  let* path := deref (service_path o) in
  if wsman_setup_thread t =? 0 then Done Stopped else
  Done (Polls port (HttpAuth.Options path (digest_password_file o) (basic_password_file o) basic_callback)).
End Start.

(** ** The end of the process *)

(** A handler is known by a number. *)
Inductive event := Called (handler : Z) | Quits | Starts_again.
Record shutdown := Shutdown { handlers : list Z; counter : Z; pending : bool; shutting_down : bool; trace : list event }.
Definition no_shutdown : shutdown := Shutdown [] 0 false false [].
(* src: server/wsmand-daemon.c 412-430 wsmand_shutdown_add_handler *)
Definition wsmand_shutdown_add_handler (fn : option Z) (s : shutdown) : shutdown :=
  match fn with None => s | Some f => Shutdown (f :: handlers s) (counter s) (pending s) (shutting_down s) (trace s) end.
(* src: server/wsmand-daemon.c 432-442 wsmand_shutdown_block *)
Definition wsmand_shutdown_block (s : shutdown) : shutdown :=
  if counter s <? 0 then s else Shutdown (handlers s) (counter s + 1) (pending s) (shutting_down s) (trace s).
(* src: server/wsmand-daemon.c 455-505 shutdown_idle_cb *)
Definition shutdown_idle_cb (restart : bool) (s : shutdown) : shutdown :=
  Shutdown (handlers s) (counter s) (pending s) (shutting_down s)
    (trace s ++ map Called (handlers s) ++ [if restart then Starts_again else Quits]).
(* src: server/wsmand-daemon.c 507-529 do_shutdown *)
Definition do_shutdown (restart : bool) (s : shutdown) : shutdown :=
  if 0 <? counter s then Shutdown (handlers s) (counter s) true (shutting_down s) (trace s)
  else if shutting_down s then s
  else shutdown_idle_cb restart (Shutdown (handlers s) (counter s) (pending s) true (trace s)).
(* src: server/wsmand-daemon.c 531-534 wsmand_shutdown *)
Definition wsmand_shutdown : shutdown -> shutdown := do_shutdown false.
(* src: server/wsmand-daemon.c 536-539 wsmand_restart *)
Definition wsmand_restart : shutdown -> shutdown := do_shutdown true.
(* src: server/wsmand-daemon.c 444-453 wsmand_shutdown_allow *)
Definition wsmand_shutdown_allow (s : shutdown) : shutdown :=
  if counter s <=? 0 then s else
  let s := Shutdown (handlers s) (counter s - 1) (pending s) (shutting_down s) (trace s) in
  if (counter s =? 0) && pending s then wsmand_shutdown s else s.

(** ** What a configuration file sets *)

(** The value of an entry, by its type. *)
Definition number (M : gmap cstring (option cstring)) (key : string) (d : Z) : Z :=
  match M !! lit key with Some (Some v) => Uri.atoi v | _ => d end.
Definition switch (M : gmap cstring (option cstring)) (key : string) (d : Z) : Z :=
  match M !! lit key with
  | Some (Some v) => if bool_decide (peek v ∈ ["y"; "Y"; "1"; "t"; "T"]%char) then 1 else if bool_decide (peek v ∈ ["n"; "N"; "0"; "f"; "F"]%char) then 0 else d
  | _ => d
  end.
Definition text (M : gmap cstring (option cstring)) (key : string) (d : option cstring) : option cstring :=
  match M !! lit key with Some (Some v) => Some v | _ => d end.
Definition settings (ipv6 : bool) (M : gmap cstring (option cstring)) (o : options) : options := {|
  server_port := number M "server:port" 5985; server_ssl_port := number M "server:ssl_port" 5986;
  use_ipv4 := switch M "server:ipv4" 1; use_ipv6 := if ipv6 then switch M "server:ipv6" 1 else use_ipv6 o;
  use_digest := switch M "server:use_digest" 0; ssl_key_file := text M "server:ssl_key_file" None;
  service_path := text M "server:service_path" (Some (lit "/wsman")); ssl_cert_file := text M "server:ssl_cert_file" None;
  ssl_disabled_protocols := text M "server:ssl_disabled_protocols" None; ssl_cipher_list := text M "server:ssl_cipher_list" None;
  uri_subscription_repository := text M "server:subs_repository" (Some (lit "/var/lib/openwsman/subscriptions"));
  use_ssl := use_ssl o; debug_level := number M "server:debug_level" 0; log_location := text M "server:log_location" None;
  digest_password_file := text M "server:digest_password_file" None; basic_password_file := text M "server:basic_password_file" None;
  custom_anon_identify_file := text M "server:anon_identify_file" None; custom_identify_file := text M "server:identify_file" None;
  basic_authenticator_arg := text M "server:basic_authenticator_arg" None; basic_authenticator := text M "server:basic_authenticator" None;
  max_threads := number M "server:max_threads" 0; enumIdleTimeout := u64 (number M "server:enum_idle_timeout" 100);
  thread_stack_size := text M "server:thread_stack_size" (Some (lit "0"));
  max_connections_per_thread := number M "server:max_connections_per_thread" (number M "server:max_connextions_per_thread" 20) |}.
(** No entry is without a value. *)
Definition valued (M : gmap cstring (option cstring)) : Prop := forall k, M !! k = Some None -> ":"%char ∉ k.
Definition entry_key (key : string) : bool :=
  bool_decide (":"%char ∈ lit key) && bool_decide (name (lit key) = lit key) && bool_decide (no_nul (lit key)).
Section Read.
Context (d : dictionary) (M : gmap cstring (option cstring)) (k : nat) (Hs : shows_map d M k) (V : valued M).
Lemma key_found key (K : entry_key key = true) def :
  iniparser_getstring (Some d) (Some (lit key)) def = Done (match M !! lit key with Some v => inl v | None => def end) /\ M !! lit key <> Some None.
Proof.
  unfold entry_key in K. rewrite !andb_true_iff, !bool_decide_eq_true in K. destruct K as [[C E] N].
  split; [now rewrite (getstring_map d M k _ _ Hs N), E|]. intros H. now apply V in H.
Qed.
Lemma getint_eq key (K : entry_key key = true) nf : getint (Some d) key nf = Done (number M key nf).
Proof.
  unfold getint, iniparser_getint, number. destruct (key_found key K INI_INVALID_KEY) as [-> Nn]. cbn [obind].
  destruct (M !! lit key) as [[v|]|]; done.
Qed.
Lemma getboolean_eq key (K : entry_key key = true) nf : getboolean (Some d) key nf = Done (switch M key nf).
Proof.
  unfold getboolean, iniparser_getboolean, switch. destruct (key_found key K INI_INVALID_KEY) as [-> Nn]. cbn [obind].
  destruct (M !! lit key) as [[v|]|]; done.
Qed.
Lemma gettext_eq key (K : entry_key key = true) def : getstring (Some d) key def = Done (text M key def).
Proof.
  unfold getstring, text. destruct (key_found key K (inl def)) as [-> Nn]. cbn [obind].
  destruct (M !! lit key) as [[v|]|]; done.
Qed.
Lemma config_eq ipv6 o : wsmand_read_config ipv6 (Some d) o =
  Done (match M !! lit "server" with
        | None => Goes_on (0, o)
        | Some _ => if ipv6 && (switch M "server:ipv4" 1 =? 0) && (switch M "server:ipv6" 1 =? 0) then Exits 1 else Goes_on (1, settings ipv6 M o)
        end).
Proof.
  unfold wsmand_read_config, iniparser_find_entry. rewrite (getstring_map d M k) by (done || (apply (bool_decide_unpack _); vm_compute; exact I)).
  change (name (lit "server")) with (lit "server"). cbn [obind]. destruct (M !! lit "server"); [|done]. cbn [Z.eqb].
  destruct ipv6; repeat ((rewrite getint_eq by (vm_compute; reflexivity)) || (rewrite gettext_eq by (vm_compute; reflexivity)) ||
    (rewrite getboolean_eq by (vm_compute; reflexivity)); cbn [obind]); cbn [andb];
    [destruct ((switch M "server:ipv4" 1 =? 0) && (switch M "server:ipv6" 1 =? 0)); [done|]|];
    repeat ((rewrite getint_eq by (vm_compute; reflexivity)) || (rewrite gettext_eq by (vm_compute; reflexivity)) ||
      (rewrite getboolean_eq by (vm_compute; reflexivity)); cbn [obind]); reflexivity.
Qed.
End Read.
(** Names of sections that cannot be taken for entries. *)
Definition plain_heading (l : line) : Prop := match l with Heading _ n _ => ":"%char ∉ n | _ => True end.
Lemma lines_valued ls : forall sec M, valued M -> Forall plain_heading ls -> valued (foldl meaning_of (sec, M) ls).2.
Proof.
  induction ls as [|l ls IH]; intros sec M V F; [done|]. apply Forall_cons in F as [P F]. cbn [foldl].
  assert (E : forall sec k v, valued (<[sec ++ ":"%char :: k := Some v]> M)).
  { intros s k v x H. apply lookup_insert_Some in H as [[_ H]|[_ H]]; [done|now apply V]. }
  destruct l; cbn [meaning_of plain_heading] in *; apply IH; try done.
  intros x H. apply lookup_insert_Some in H as [[<- _]|[_ H]]; [now apply lower_no_colon|now apply V].
Qed.

(** C25. The daemon takes its settings from the configuration file: a file without a section server ends the process, and so does one that
    switches both kinds of IP off, in a build that has both; with every other file the daemon goes on with the options that the entries of that section
    give, the last of those with the same name, and with the default of each option for which there is none. The files are those of at most 2^25
    lines, each of them a comment, nothing, a heading without a colon in its name (one with a colon is taken for an entry without a value, which can
    end the process in another way), or an entry with a value in quotes or without, of less than 1023 characters, as [line_ok] says;
    and there is memory for them. *)
Theorem daemon_configured ipv6 ls o : Forall line_ok ls -> Z.of_nat (length ls) <= 2 ^ 25 -> Forall plain_heading ls ->
  let M := meaning ls in exists ini, configure ipv6 (Some (file_of ls)) [] o =
    Done (match M !! lit "server" with
          | None => Exits 1
          | Some _ => if ipv6 && (switch M "server:ipv4" 1 =? 0) && (switch M "server:ipv6" 1 =? 0) then Exits 1
                      else Goes_on (settings ipv6 M o, ini)
          end).
Proof.
  intros F B P M. destruct (file_shows ls F B) as (d & E & Hs). exists d. unfold configure. rewrite E. cbn [obind].
  rewrite (config_eq d M (length ls) Hs) by (apply lines_valued; [intros k H; now rewrite lookup_empty in H|done]). cbn [obind].
  destruct (M !! lit "server"); [|done]. now destruct (ipv6 && _ && _).
Qed.
Lemma demo_headings : Forall plain_heading demo_lines.
Proof. repeat constructor. apply (bool_decide_unpack _). vm_compute. exact I. Qed.
Lemma daemon_configured_witness : exists o ini, configure true (Some (file_of demo_lines)) [] initial_options = Done (Goes_on (o, ini)) /\
  server_port o = 81 /\ service_path o = Some (lit "/wsman;1") /\ max_connections_per_thread o = 20.
Proof.
  destruct (daemon_configured true demo_lines initial_options demo_lines_ok ltac:(vm_compute; discriminate) demo_headings) as (ini & E).
  eexists _, ini. split; [rewrite E; vm_compute; reflexivity|]. split_and!; vm_compute; reflexivity.
Defined.

(** ** When the server comes up *)

Section Serves.
Context (PACKAGE_AUTH_DIR : cstring) (dlopen : cstring -> option library).
(** The password check that the options ask for: none, or the function of a library that lets itself be initialized.  A file of passwords
    goes with the default library only. *)
Definition from_library (auth : cstring) (arg : option cstring) (cb : option (cstring -> cstring -> Z)) : Prop :=
  exists lib f, dlopen (if bool_decide (peek auth = "/"%char) then auth else PACKAGE_AUTH_DIR ++ "/"%char :: auth) = Some lib /\
    l_authorize lib = Some f /\ cb = Some f /\ forall init, l_initialize lib = Some init -> init arg = 0.
Definition asked_check (o : options) (cb : option (cstring -> cstring -> Z)) : Prop :=
  match basic_password_file o, basic_authenticator o with
  | Some file, a => (forall a', a = Some a' -> strcmp DEFAULT_BASIC_AUTH a' = 0) /\ basic_authenticator_arg o = None /\
      from_library DEFAULT_BASIC_AUTH (Some file) cb
  | None, Some a => from_library a (basic_authenticator_arg o) cb
  | None, None => cb = None
  end.
Lemma check_spec o cb : initialize_basic_authenticator PACKAGE_AUTH_DIR dlopen o = (0, cb) <-> asked_check o cb.
Proof.
  assert (L : forall auth arg, (let name := if bool_decide (peek auth = "/"%char) then auth else PACKAGE_AUTH_DIR ++ "/"%char :: auth in
        match dlopen name with
        | None => (1, None)
        | Some hnd => match l_authorize hnd with
            | None => (1, None)
            | Some cb => (match l_initialize hnd with Some init => init arg | None => 0 end, Some cb)
            end
        end) = (0, cb) <-> from_library auth arg cb).
  { intros auth arg. cbv zeta. unfold from_library. destruct (dlopen _) as [lib|]; [|split; [done|intros (? & ? & [=] & _)]].
    destruct (l_authorize lib) as [f|] eqn:Ea.
    - split.
      + intros [= H <-]. exists lib, f. split_and!; try done. intros init Hi. now rewrite Hi in H.
      + intros (lib' & f' & [= <-] & Ef & -> & H). rewrite Ea in Ef. injection Ef as <-. f_equal.
        destruct (l_initialize lib) as [init|]; [now apply H|done].
    - split; [done|]. intros (lib' & f' & [= <-] & Ef & _). congruence. }
  unfold initialize_basic_authenticator, asked_check. destruct (basic_password_file o) as [file|].
  - rewrite <- L. destruct (basic_authenticator o) as [a|].
    + destruct (Z.eqb_spec (strcmp DEFAULT_BASIC_AUTH a) 0) as [E|E]; cbn [negb orb].
      * destruct (basic_authenticator_arg o); cbn; [split; [done|intros (_ & ? & _); done]|]. split; [intros H; split_and!; [intros ? [= <-]; exact E|done|exact H]|tauto].
      * split; [done|]. intros (H & _). exfalso. apply E. now apply H.
    + cbn [orb]. destruct (basic_authenticator_arg o); cbn; [split; [done|intros (_ & ? & _); done]|]. split; [intros H; split_and!; [done|done|exact H]|tauto].
  - destruct (basic_authenticator o) as [a|]; [apply L|]. split; [now intros [= <-]|now intros ->].
Qed.
Lemma guard (b : bool) X port ho : (if b then Done Stopped else X) = Done (Polls port ho) <-> b = false /\ X = Done (Polls port ho).
Proof. destruct b; split; try done; now intros [? ?]. Qed.
Lemma auth_spec o r : get_server_auth PACKAGE_AUTH_DIR dlopen o = r -> (r.1 =? 0) = false <->
  asked_check o r.2 /\ (r.2 = None -> is_Some (digest_password_file o)).
Proof.
  intros <-. rewrite <- check_spec. unfold get_server_auth. destruct (initialize_basic_authenticator PACKAGE_AUTH_DIR dlopen o) as [res cb].
  destruct (Z.eqb_spec res 0) as [->|N]; cbn [negb].
  - destruct (digest_password_file o), cb; cbn; split; try done; intros (_ & H); destruct H; done.
  - cbn. split; [done|]. intros ([= ?] & _). done.
Qed.
Lemma check_eq o cb : asked_check o cb -> (get_server_auth PACKAGE_AUTH_DIR dlopen o).2 = cb.
Proof.
  rewrite <- check_spec. unfold get_server_auth. intros ->. cbn [Z.eqb negb]. now destruct (digest_password_file o), cb.
Qed.
Lemma port_spec o port have_ssl : (negb have_ssl && use_ssl o = false /\ (get_server_port o =? 0) = false /\ get_server_port o = port) <->
  port <> 0 /\ (if use_ssl o then have_ssl = true /\ is_Some (ssl_cert_file o) /\ is_Some (ssl_key_file o) /\ port = server_ssl_port o /\ 0 < port
    else port = server_port o).
Proof.
  unfold get_server_port. rewrite Z.eqb_neq. destruct (use_ssl o); rewrite ?andb_true_r, ?andb_false_r.
  - destruct have_ssl; cbn [negb]; [|split; [now intros (? & _)|now intros (_ & ? & _)]].
    destruct (bool_decide_reflect (is_Some (ssl_cert_file o))), (bool_decide_reflect (is_Some (ssl_key_file o))), (Z.ltb_spec 0 (server_ssl_port o)); cbn [andb];
      (split; [intros (_ & H1 & H2)|intros (H1 & _ & H2 & H3 & H4 & H5)]); try (exfalso; tauto || lia); split_and!; try done; lia.
  - split; [intros (_ & H1 & <-)|intros (H & ->)]; split_and!; done.
Qed.
(** C24. When the daemon serves: exactly when it has its plug-ins, its threads, a number of connections for them and a port (with SSL the port of
    SSL, for which the daemon must be built and a certificate and a key be given), and a way to know who asks: the password check that the options
    ask for is found and lets itself be initialized, whether there is a file of digests or not, and when they ask for none there is a file of
    digests.  It never serves without one of the two, and what it lets in is decided by what was found. *)
Theorem daemon_serves plugins have_ssl t o port ho :
  wsmand_start_server PACKAGE_AUTH_DIR dlopen plugins have_ssl t o = Done (Polls port ho) <->
  (max_threads o <> 0 -> max_connections_per_thread o <> 0) /\ plugins = true /\ wsman_setup_thread t = 1 /\ port <> 0 /\
  (if use_ssl o then have_ssl = true /\ is_Some (ssl_cert_file o) /\ is_Some (ssl_key_file o) /\ port = server_ssl_port o /\ 0 < port
   else port = server_port o) /\
  asked_check o (HttpAuth.basic_callback ho) /\ (HttpAuth.basic_callback ho = None -> is_Some (HttpAuth.digest_password_file ho)) /\
  service_path o = Some (HttpAuth.service_path ho) /\ digest_password_file o = HttpAuth.digest_password_file ho /\
  basic_password_file o = HttpAuth.basic_password_file ho.
Proof.
  unfold wsmand_start_server. rewrite !guard, andb_false_iff, !negb_false_iff, Z.eqb_eq, Z.eqb_neq. cbv zeta.
  destruct (get_server_auth PACKAGE_AUTH_DIR dlopen o) as [auth cb] eqn:A. pose proof (auth_spec o (auth, cb) A) as As. cbn [fst snd] in As.
  cbv beta iota. rewrite guard, As. clear As. destruct ho as [path dig bas cb']. cbn [HttpAuth.service_path HttpAuth.digest_password_file HttpAuth.basic_password_file HttpAuth.basic_callback].
  assert (M : max_threads o = 0 \/ max_connections_per_thread o <> 0 <-> (max_threads o <> 0 -> max_connections_per_thread o <> 0)) by lia. rewrite M. clear M.
  assert (T : wsman_setup_thread t = 0 \/ wsman_setup_thread t = 1) by (unfold wsman_setup_thread; repeat case_match; auto).
  pose proof (port_spec o port have_ssl) as Ps. split.
  - intros (H1 & H2 & H3 & H4 & (H5 & H6) & H7). destruct (service_path o) as [p|]; [|done]. cbn [deref obind] in H7. apply guard in H7 as [H7 [= <- <- <- <- <-]].
    destruct (proj1 Ps) as [P1 P2]; [done|]. split_and!; try done. destruct T as [T|T]; [now rewrite T in H7|done].
  - intros (H1 & H2 & H3 & H4 & H5 & H6 & H7 & H8 & H9 & H10). destruct (proj2 Ps (conj H4 H5)) as (P1 & P2 & <-). subst dig bas.
    assert (cb = cb') as <-.
    { apply check_eq in H6. now rewrite A in H6. }
    split_and!; try done. rewrite H8. cbn [deref obind]. now rewrite H3.
Qed.
End Serves.

(** A file of passwords with another library than the default one is refused, and so is a server without any check. *)
Example ambiguous : wsmand_start_server (lit "/lib") (fun _ => Some (Library (Some (fun _ _ => 1)) None)) true true (Threads 0 0 0 0)
  (settings true {[ lit "server:basic_password_file" := Some (lit "/p"); lit "server:basic_authenticator" := Some (lit "pam.so") ]} initial_options) = Done Stopped.
Proof. vm_compute. reflexivity. Qed.
Example no_check : wsmand_start_server (lit "/lib") (fun _ => None) true true (Threads 0 0 0 0) (settings true ∅ initial_options) = Done Stopped.
Proof. vm_compute. reflexivity. Qed.

(** ** A shutdown happens once *)

Inductive request := Add (handler : Z) | Block | Allow | Stop | Restart.
Definition serve (s : shutdown) (r : request) : shutdown :=
  match r with
  | Add f => wsmand_shutdown_add_handler (Some f) s
  | Block => wsmand_shutdown_block s
  | Allow => wsmand_shutdown_allow s
  | Stop => wsmand_shutdown s
  | Restart => wsmand_restart s
  end.
(** Either nothing has happened, or all handlers of that time were called, the last one first, and then the process was left. *)
Definition once (s : shutdown) : Prop :=
  0 <= counter s /\
  if shutting_down s then exists hs e, trace s = map Called hs ++ [e] /\ suffix hs (handlers s) /\ (e = Quits \/ e = Starts_again)
  else trace s = [].
Lemma do_shutdown_once restart s : once s -> once (do_shutdown restart s).
Proof.
  intros [C O]. unfold do_shutdown. destruct (Z.ltb_spec 0 (counter s)); [now split|]. unfold once in *. destruct (shutting_down s) eqn:E; [now rewrite E|].
  cbn. split; [done|]. rewrite O. eexists _, _. split; [reflexivity|]. split; [done|]. destruct restart; auto.
Qed.
Lemma serve_once s r : once s -> once (serve s r).
Proof.
  intros O. destruct r; cbn [serve]; [| | |now apply do_shutdown_once..]; destruct O as [C O].
  - split; [done|]. cbn. destruct (shutting_down s); [|done]. destruct O as (hs & e & E & S & F). exists hs, e. split_and!; try done. now apply suffix_cons_r.
  - unfold wsmand_shutdown_block. destruct (Z.ltb_spec (counter s) 0); [now split|]. split; [cbn; lia|done].
  - unfold wsmand_shutdown_allow. destruct (Z.leb_spec (counter s) 0); [now split|].
    assert (O' : once (Shutdown (handlers s) (counter s - 1) (pending s) (shutting_down s) (trace s))) by (split; [cbn; lia|done]).
    destruct (_ && _); [|done]. now apply do_shutdown_once.
Qed.
(** However the daemon is asked to stop, the handlers are called at most once. *)
Theorem shutdown_once l : once (foldl serve no_shutdown l).
Proof.
  assert (H : forall s, once s -> once (foldl serve s l)).
  { induction l as [|r l IH]; [done|]. intros s O. cbn. now apply IH, serve_once. }
  apply H. now split.
Qed.
(** A restart that had to wait becomes a stop. *)
Example restart_lost : trace (foldl serve no_shutdown [Add 1; Add 2; Block; Restart; Allow]) = [Called 2; Called 1; Quits].
Proof. reflexivity. Qed.
End Daemon.
