(* ===== verification/Uuid.v ===== *)
(** * Uuid: the making of identifiers (lib/u/uuid.c, on Linux)

    The time in microseconds and the address of a network card are arguments, the clock sequence is the state that calls share.
    Two identifiers with the same text come from the same clock sequence and the same time, both up to their widths. *)
From S2P Require Import Prelude CString HttpText.

Module Uuid.

(* src: src/CIM_Framework/openwsman/include/u/uuid.h 7-7 SIZE_OF_UUID_STRING *)
Definition SIZE_OF_UUID_STRING : Z := 37.
(** [%02x] of a byte. *)
Definition hexdigit (z : Z) : ascii := if z <? 10 then chr (z + 48) else chr (z + 87).
Definition hex2 (b : Z) : cstring := [hexdigit (b / 16); hexdigit (b mod 16)].
(** The sixteen bytes, the first one first; [mac]: the six bytes of a card, if there is one. *)
(* src: lib/u/uuid.c 331-358 generate_uuid *)
Definition uuid_bytes (longTimeVal clock : Z) (mac : option (list Z)) : list Z :=
  let timeLow := Z.land longTimeVal 0xffffffff in
  let timeMid := Z.land (Z.shiftr longTimeVal 32) 0xffff in
  let timeHigh := Z.land (Z.shiftr longTimeVal 32) 0xfff in
  default (repeat (Z.land clock 0xff) 6) mac ++
  [Z.land clock 0xff; Z.lor 0x80 (Z.land (Z.shiftr clock 8) 0x3f); Z.land timeHigh 0xff; Z.lor (Z.shiftr timeHigh 8) 0x10;
   u8 timeMid; u8 (Z.shiftr timeMid 8); u8 timeLow; u8 (Z.shiftr timeLow 8); u8 (Z.shiftr timeLow 16); u8 (Z.shiftr timeLow 24)].
Definition uuid_text (bytes : list Z) : cstring :=
  match rev bytes with
  | [a; b; c; d; e; f; g; h; i; j; k; l; m; n; o; p] =>
      hex2 a ++ hex2 b ++ hex2 c ++ hex2 d ++ "-"%char :: hex2 e ++ hex2 f ++ "-"%char :: hex2 g ++ hex2 h ++ "-"%char ::
      hex2 i ++ hex2 j ++ "-"%char :: hex2 k ++ hex2 l ++ hex2 m ++ hex2 n ++ hex2 o ++ hex2 p
  | _ => []
  end.
(** The result, the text in the buffer ([None]: nothing is written) and the clock sequence, an [int] that grows by one. *)
(* src: lib/u/uuid.c 304-379 generate_uuid *)
Definition generate_uuid (has_buf : bool) (size : Z) (no_prefix : bool) (tv : Z * Z) (mac : option (list Z)) (clock_sequence : Z) :
    outcome (Z * option cstring * Z) :=
  let max_length := if no_prefix then SIZE_OF_UUID_STRING else SIZE_OF_UUID_STRING + 5 in
  if size <? max_length then Done (0, None, clock_sequence) else
  if negb has_buf then Done (0, None, clock_sequence) else
  let longTimeVal := u64 (1000000 * u64 tv.1 + u64 tv.2) in
  if clock_sequence =? 2 ^ 31 - 1 then Undef else
  let clock := clock_sequence + 1 in
  let prefix := if no_prefix then [] else lit "uuid:" in
  let text := uuid_text (uuid_bytes longTimeVal clock mac) in
  let written := prefix ++ take (Z.to_nat (size - Z.of_nat (length prefix) - 1)) text in
  Done (if negb (Z.of_nat (length text) =? SIZE_OF_UUID_STRING) then 0 else 1, Some written, clock).

(** ** Texts and bytes *)

Definition byte (z : Z) : Prop := 0 <= z < 256.
Lemma hexdigit_inj x y : 0 <= x < 16 -> 0 <= y < 16 -> hexdigit x = hexdigit y -> x = y.
Proof.
  intros Hx Hy E. pose proof (forall_below2 16 16 (fun x y => negb (bool_decide (hexdigit x = hexdigit y)) || (x =? y))) as H.
  specialize (H ltac:(vm_compute; reflexivity) x y Hx Hy).
  cbv beta in H. rewrite bool_decide_true in H by done. now apply Z.eqb_eq.
Qed.
Lemma hexdigit_no_dash x : 0 <= x < 16 -> hexdigit x <> "-"%char /\ hexdigit x <> NUL.
Proof.
  intros H. pose proof (forall_below 16 (fun x => bool_decide (hexdigit x <> "-"%char /\ hexdigit x <> NUL))) as E.
  specialize (E ltac:(vm_compute; reflexivity) x H).
  now apply bool_decide_eq_true in E.
Qed.
Lemma nibbles b : byte b -> 0 <= b / 16 < 16 /\ 0 <= b mod 16 < 16.
Proof. intros [? ?]. split; [split; [apply Z.div_pos; lia|apply Z.div_lt_upper_bound; lia]|apply Z.mod_pos_bound; lia]. Qed.
Lemma hex2_inj a b : byte a -> byte b -> hex2 a = hex2 b -> a = b.
Proof.
  intros Ha Hb E. injection E as E1 E2. destruct (nibbles a Ha), (nibbles b Hb). apply hexdigit_inj in E1, E2; try done.
  rewrite (Z.div_mod a 16), (Z.div_mod b 16) by done. congruence.
Qed.
Lemma hexes_inj l : forall l', length l = length l' -> Forall byte l -> Forall byte l' -> concat (map hex2 l) = concat (map hex2 l') -> l = l'.
Proof.
  induction l as [|a l IH]; intros [|b l'] L F F' E; try done. apply Forall_cons in F as [Ha F], F' as [Hb F']. cbn [map concat] in E.
  apply app_inj_1 in E as [E1 E2]; [|done]. f_equal; [now apply hex2_inj|]. apply IH; try done. now injection L.
Qed.
Lemma hex2_dashes b : byte b -> filter (fun c => c <> "-"%char) (hex2 b) = hex2 b.
Proof.
  intros H. destruct (nibbles b H) as [A B]. unfold hex2. rewrite !filter_cons_True, filter_nil; [done|now apply hexdigit_no_dash..].
Qed.
Lemma text_hexes l : length l = 16%nat -> Forall byte l -> filter (fun c => c <> "-"%char) (uuid_text l) = concat (map hex2 (rev l)).
Proof.
  intros L F. apply Forall_rev in F. rewrite <- length_rev in L. unfold uuid_text. revert L F. generalize (rev l). clear l. intros l L F.
  do 16 (destruct l as [|? l]; [done|]). destruct l; [|done]. rewrite !Forall_cons in F. destruct_and?. cbn [map concat].
  repeat (rewrite filter_app || rewrite filter_cons_False by (intros X; now apply X)).
  repeat match goal with H : byte ?b |- context [filter _ (hex2 ?b)] => rewrite (hex2_dashes b H); clear H end. now rewrite app_nil_r.
Qed.
Lemma text_inj l l' : length l = 16%nat -> length l' = 16%nat -> Forall byte l -> Forall byte l' -> uuid_text l = uuid_text l' -> l = l'.
Proof.
  intros L L' F F' E. apply (f_equal (filter (fun c => c <> "-"%char))) in E. rewrite !text_hexes in E by done.
  apply hexes_inj in E; [|now rewrite !length_rev, L, L'|now apply Forall_rev..]. apply (f_equal (@rev Z)) in E. now rewrite !rev_involutive in E.
Qed.
Lemma text_length l : length l = 16%nat -> length (uuid_text l) = 36%nat.
Proof.
  intros L. rewrite <- length_rev in L. unfold uuid_text. revert L. generalize (rev l). clear l. intros l L.
  do 16 (destruct l as [|? l]; [done|]). now destruct l.
Qed.

(** ** The bytes keep the time and the clock *)

Definition card (mac : option (list Z)) : Prop := match mac with None => True | Some m => length m = 6%nat /\ Forall byte m end.
Lemma land_byte z : byte (Z.land z 0xff).
Proof. change 0xff with (Z.ones 8). rewrite Z.land_ones by lia. apply Z.mod_pos_bound. lia. Qed.
Lemma bytes_ok t c mac : card mac -> length (uuid_bytes t c mac) = 16%nat /\ Forall byte (uuid_bytes t c mac).
Proof.
  intros H. unfold uuid_bytes. split.
  - rewrite length_app. destruct mac as [m|]; [destruct H as [H _]; cbn; now rewrite H|done].
  - apply Forall_app. split; [destruct mac as [m|]; [apply H|cbn; repeat constructor; apply land_byte]|].
    repeat (apply Forall_cons; split); try apply land_byte; try apply u8_range; [..|constructor].
    + change 0x3f with (Z.ones 6). rewrite Z.land_ones by lia. pose proof (Z.mod_pos_bound (Z.shiftr c 8) (2 ^ 6) ltac:(lia)) as B. revert B. generalize (Z.shiftr c 8 mod 2 ^ 6).
      intros z B. pose proof (forall_below 64 (fun z => (0 <=? Z.lor 0x80 z) && (Z.lor 0x80 z <? 256)) ltac:(vm_compute; reflexivity) z B) as E. cbv beta in E.
      apply andb_true_iff in E as [? ?]. split; lia.
    + change 0xfff with (Z.ones 12). rewrite Z.land_ones by lia. pose proof (Z.mod_pos_bound (Z.shiftr t 32) (2 ^ 12) ltac:(lia)) as B. revert B. generalize (Z.shiftr t 32 mod 2 ^ 12).
      intros z B. rewrite Z.shiftr_div_pow2 by lia. assert (Q : 0 <= z / 2 ^ 8 < 16) by (split; [apply Z.div_pos; lia|apply Z.div_lt_upper_bound; lia]).
      revert Q. generalize (z / 2 ^ 8). intros q Q.
      pose proof (forall_below 16 (fun z => (0 <=? Z.lor z 0x10) && (Z.lor z 0x10 <? 256)) ltac:(vm_compute; reflexivity) q Q) as E. cbv beta in E.
      apply andb_true_iff in E as [? ?]. split; lia.
Qed.
(** A number of [8 * n] bits is its bytes. *)
Lemma bits_of_bytes x y n : (forall k, 0 <= k < n -> u8 (Z.shiftr x (8 * k)) = u8 (Z.shiftr y (8 * k))) -> 0 <= n -> x mod 2 ^ (8 * n) = y mod 2 ^ (8 * n).
Proof.
  intros H Hn. apply Z.bits_inj'. intros i Hi. destruct (Z.ltb_spec i (8 * n)).
  - rewrite !Z.mod_pow2_bits_low by lia. specialize (H (i / 8) ltac:(split; [apply Z.div_pos; lia|apply Z.div_lt_upper_bound; lia])).
    apply (f_equal (fun z => Z.testbit z (i mod 8))) in H. pose proof (Z.mod_pos_bound i 8 ltac:(lia)). rewrite !u8_land, !Z.land_spec, !Z.ones_spec_low, !andb_true_r in H by lia.
    rewrite !Z.shiftr_spec in H by lia. replace (i mod 8 + 8 * (i / 8)) with i in H by (rewrite (Z.div_mod i 8) at 1 by lia; lia). exact H.
  - now rewrite !Z.mod_pow2_bits_high by lia.
Qed.
Lemma mask_shift x a k : 0 <= a -> 0 <= k -> k + 8 <= a -> u8 (Z.shiftr (Z.land x (Z.ones a)) k) = u8 (Z.shiftr x k).
Proof.
  intros Ha Hk H. rewrite !u8_land. apply Z.bits_inj'. intros i Hi. rewrite !Z.land_spec, !Z.shiftr_spec, Z.land_spec by lia.
  destruct (Z.ltb_spec i 8); [rewrite (Z.ones_spec_low a) by lia; now rewrite andb_true_r|].
  rewrite (Z.ones_spec_high 8) by lia. now rewrite !andb_false_r.
Qed.
Lemma bytes_time t c mac t' c' mac' : card mac -> card mac' -> uuid_bytes t c mac = uuid_bytes t' c' mac' ->
  t mod 2 ^ 48 = t' mod 2 ^ 48 /\ c mod 2 ^ 14 = c' mod 2 ^ 14 /\ default (repeat (Z.land c 0xff) 6) mac = default (repeat (Z.land c' 0xff) 6) mac'.
Proof.
  intros H H' E. unfold uuid_bytes in E. apply app_inj_1 in E as [Em E].
  2:{ destruct mac as [m|], mac' as [m'|]; cbn; try done; [destruct H as [-> _], H' as [-> _]|destruct H as [-> _]|destruct H' as [<- _]]; done. }
  injection E as E6 E7 _ _ E10 E11 E12 E13 E14 E15. split; [|split; [|exact Em]].
  - change 0xffff with (Z.ones 16) in *. change 0xffffffff with (Z.ones 32) in *.
    pose proof (mask_shift (Z.shiftr t 32) 16 0 ltac:(lia) ltac:(lia) ltac:(lia)) as A0. pose proof (mask_shift (Z.shiftr t' 32) 16 0 ltac:(lia) ltac:(lia) ltac:(lia)) as A0'.
    pose proof (mask_shift t 32 0 ltac:(lia) ltac:(lia) ltac:(lia)) as B0. pose proof (mask_shift t' 32 0 ltac:(lia) ltac:(lia) ltac:(lia)) as B0'.
    rewrite !Z.shiftr_0_r in *. rewrite A0, A0' in E10. rewrite B0, B0' in E12. rewrite !mask_shift in E11, E13, E14, E15 by lia.
    rewrite !Z.shiftr_shiftr in E11 by lia. apply (bits_of_bytes t t' 6); [|lia]. intros k Hk.
    assert (k = 0 \/ k = 1 \/ k = 2 \/ k = 3 \/ k = 4 \/ k = 5) as [->|[->|[->|[->|[->| ->]]]]] by lia; rewrite ?Z.shiftr_0_r; assumption.
  - apply Z.bits_inj'. intros i Hi. destruct (Z.ltb_spec i 14); [rewrite !Z.mod_pow2_bits_low by lia|now rewrite !Z.mod_pow2_bits_high by lia].
    destruct (Z.ltb_spec i 8).
    + apply (f_equal (fun z => Z.testbit z i)) in E6. change 0xff with (Z.ones 8) in E6. rewrite !Z.land_spec, !Z.ones_spec_low, !andb_true_r in E6 by lia. exact E6.
    + apply (f_equal (fun z => Z.testbit z (i - 8))) in E7. change 0x3f with (Z.ones 6) in E7. change 0x80 with (2 ^ 7) in E7.
      rewrite !Z.lor_spec, !Z.land_spec, !Z.ones_spec_low, !andb_true_r, !Z.pow2_bits_false, !Z.shiftr_spec in E7 by lia. cbn [orb] in E7.
      now replace (i - 8 + 8) with i in E7 by lia.
Qed.
(** With a buffer that is long enough an identifier of 36 characters (behind its prefix) is written; what is answered says that it was not. *)
Lemma generate_spec size (no_prefix : bool) tv mac clock : (if no_prefix then 37 else 42) <= size -> card mac -> 0 <= clock < 2 ^ 31 - 1 ->
  exists bytes, generate_uuid true size no_prefix tv mac clock = Done (0, Some ((if no_prefix then [] else lit "uuid:") ++ uuid_text bytes), clock + 1) /\
    bytes = uuid_bytes (u64 (1000000 * u64 tv.1 + u64 tv.2)) (clock + 1) mac.
Proof.
  intros S C B. eexists. split; [|reflexivity]. unfold generate_uuid, SIZE_OF_UUID_STRING. cbv zeta. destruct (bytes_ok (u64 (1000000 * u64 tv.1 + u64 tv.2)) (clock + 1) mac C) as [L _].
  revert L. generalize (uuid_bytes (u64 (1000000 * u64 tv.1 + u64 tv.2)) (clock + 1) mac). intros bytes L. pose proof (text_length _ L) as T.
  destruct (Z.eqb_spec clock (2 ^ 31 - 1)); [lia|]. rewrite T. change (Z.of_nat 36 =? 37) with false. cbn [negb].
  destruct no_prefix.
  - destruct (Z.ltb_spec size 37); [lia|]. rewrite take_ge by (rewrite T; cbn; lia). done.
  - destruct (Z.ltb_spec size (37 + 5)); [lia|]. rewrite take_ge by (rewrite T; cbn; lia). done.
Qed.
(** Identifiers do not repeat: if two calls of generate_uuid write the same text, the clock sequences agree in 14 bits and the times in 48 bits,
    so that a repetition takes 16384 calls and 2^48 microseconds, almost nine years, or two machines with the same card. *)
Theorem uuids_differ size size' (no_prefix : bool) tv tv' mac mac' clock clock' text r r' c1 c1' : card mac -> card mac' ->
  (if no_prefix then 37 else 42) <= size -> (if no_prefix then 37 else 42) <= size' -> 0 <= clock < 2 ^ 31 - 1 -> 0 <= clock' < 2 ^ 31 - 1 ->
  generate_uuid true size no_prefix tv mac clock = Done (r, Some text, c1) -> generate_uuid true size' no_prefix tv' mac' clock' = Done (r', Some text, c1') ->
  c1 mod 2 ^ 14 = c1' mod 2 ^ 14 /\ u64 (1000000 * u64 tv.1 + u64 tv.2) mod 2 ^ 48 = u64 (1000000 * u64 tv'.1 + u64 tv'.2) mod 2 ^ 48 /\
  (forall m m', mac = Some m -> mac' = Some m' -> m = m').
Proof.
  intros C C' S S' B B' E E'. destruct (generate_spec size no_prefix tv mac clock S C B) as (b & G & Eb).
  destruct (generate_spec size' no_prefix tv' mac' clock' S' C' B') as (b' & G' & Eb'). rewrite E in G. rewrite E' in G'. injection G as -> -> ->. injection G' as -> T ->.
  apply app_inv_head in T. subst b b'. apply text_inj in T; [|now apply bytes_ok..]. apply bytes_time in T as (T1 & T2 & T3); [|done..].
  split; [done|]. split; [done|]. intros m m' -> ->. exact T3.
Qed.
Lemma uuids_differ_witness : exists text, generate_uuid true 64 true (1700000000, 5) None 1 = Done (0, Some text, 2) /\
  ~ exists r c, generate_uuid true 64 true (1700000000, 6) None 1 = Done (r, Some text, c).
Proof.
  eexists. split; [vm_compute; reflexivity|]. intros (r & c & E).
  destruct (uuids_differ 64 64 true (1700000000, 5) (1700000000, 6) None None 1 1 _ 0 r 2 c I I ltac:(lia) ltac:(lia) ltac:(lia) ltac:(lia) eq_refl E) as (_ & T & _).
  vm_compute in T. discriminate.
Defined.
Example uuid_shape : generate_uuid true 64 false (1700000000, 0) (Some [1; 2; 3; 4; 5; 6]) 1 = Done (0, Some (lit "uuid:181e4000-0a24-1a24-8002-060504030201"), 2).
Proof. vm_compute. reflexivity. Qed.
End Uuid.
