(* ===== verification/EventPool.v ===== *)
(** * EventPool: the events that wait for their subscribers (lib/wsman-event-pool.c)

    The in-memory pool keeps a list of entries, one for each subscription that an event has
    arrived for, and each with the list of its events.  The lists are those of kazlib,
    here by their contents. *)
From S2P Require Import Prelude CString HttpText.
Import HttpText.

Module EventPool.

(** [!strcasecmp (a, b)]. *)
Definition same_id (a b : cstring) : bool := bool_decide (lower a = lower b).
Definition EUIDLEN : Z := 64.

Section Pool.
(** [N]: notifications. *)
Context {N : Type}.

(* src: src/CIM_Framework/openwsman/include/wsman-event-pool.h 54-57 __event_entry *)
Record event_entry := Entry { subscription_id : cstring; event_content_list : list N }.
(** The two globals of the file. *)
(* src: lib/wsman-event-pool.c 49-50 global_event_list *)
Record pool := Pool { global_event_list : list event_entry; max_pull_event_number : Z }.

(* src: lib/wsman-event-pool.c 61-66 MemEventPoolInit *)
Definition MemEventPoolInit (opaqueData : option Z) (p : pool) : Z * pool :=
  (0, Pool [] (default (max_pull_event_number p) opaqueData)).
(* src: lib/wsman-event-pool.c 68-70 MemEventPoolFinalize *)
Definition MemEventPoolFinalize (p : pool) : Z * pool := (0, p).

(** The loop that every operation starts with: the entries before the one with the id, that entry,
    the entries behind it. *)
(* src: lib/wsman-event-pool.c 75-81 MemEventPoolCount *)
Fixpoint find_entry (uuid : cstring) (l : list event_entry) : option (list event_entry * event_entry * list event_entry) :=
  match l with
  | [] => None
  | e :: l =>
      if same_id (subscription_id e) uuid then Some ([], e, l)
      else match find_entry uuid l with Some (a, x, b) => Some (e :: a, x, b) | None => None end
  end.
(* src: lib/wsman-event-pool.c 72-85 MemEventPoolCount *)
Definition MemEventPoolCount (uuid : cstring) (p : pool) : Z :=
  match find_entry uuid (global_event_list p) with
  | Some (_, e, _) => s32 (Z.of_nat (length (event_content_list e)))
  | None => 0
  end.
(** The entry of a subscription, made at the end of the list when there is none; its id is copied
    into an array. *)
(* src: lib/wsman-event-pool.c 98-104 MemEventPoolAddEvent *)
Definition entry_for (uuid : cstring) (l : list event_entry) : outcome (list event_entry * event_entry * list event_entry) :=
  match find_entry uuid l with
  | Some x => Done x
  | None => if EUIDLEN <=? Z.of_nat (length uuid) then Undef else Done (l, Entry uuid [], [])
  end.
Definition with_list (p : pool) (l : list event_entry) : pool := Pool l (max_pull_event_number p).
(* src: lib/wsman-event-pool.c 87-108 MemEventPoolAddEvent *)
Definition MemEventPoolAddEvent (uuid : cstring) (notification : option N) (p : pool) : outcome (Z * pool) :=
  match notification with
  | None => Done (0, p)
  | Some n =>
      let* (a, e, b) := entry_for uuid (global_event_list p) in
      Done (0, with_list p (a ++ Entry (subscription_id e) (event_content_list e ++ [n]) :: b))
  end.
(** The count of a list is unsigned, so the limit is too. *)
(* src: lib/wsman-event-pool.c 110-133 MemEventPoolAddPullEvent *)
Definition MemEventPoolAddPullEvent (uuid : cstring) (notification : option N) (p : pool) : outcome (Z * pool) :=
  match notification with
  | None => Done (0, p)
  | Some n =>
      let* (a, e, b) := entry_for uuid (global_event_list p) in
      if u64 (max_pull_event_number p) <? Z.of_nat (length (event_content_list e))
      then Done (-1, with_list p (a ++ e :: b))
      else Done (0, with_list p (a ++ Entry (subscription_id e) (event_content_list e ++ [n]) :: b))
  end.
(** The result, and what is left in [*notification]. *)
(* src: lib/wsman-event-pool.c 135-156 MemEventPoolGetAndDeleteEvent *)
Definition MemEventPoolGetAndDeleteEvent (uuid : cstring) (p : pool) : Z * option N * pool :=
  match find_entry uuid (global_event_list p) with
  | None => (-1, None, p)
  | Some (a, e, b) =>
      match event_content_list e with
      | [] => (-1, None, p)
      | n :: l => (0, Some n, with_list p (a ++ Entry (subscription_id e) l :: b))
      end
  end.
(** The result, and the notifications in the order in which [proc] is called with them. *)
(* src: lib/wsman-event-pool.c 158-186 MemEventPoolClearEvent *)
Definition MemEventPoolClearEvent (uuid : cstring) (p : pool) : Z * list N * pool :=
  match find_entry uuid (global_event_list p) with
  | None => (-1, [], p)
  | Some (a, e, b) => (0, event_content_list e, with_list p (a ++ b))
  end.

(** ** The pool is a queue for each subscription *)
(** The events that wait for a subscription, by its id in lower case. *)
Definition queue (p : pool) (id : cstring) : list N :=
  match find_entry id (global_event_list p) with Some (_, e, _) => event_content_list e | None => [] end.
(** No two entries for a subscription, and no more events than [count] can tell. *)
Definition pool_ok (p : pool) : Prop :=
  NoDup (map (fun e => lower (subscription_id e)) (global_event_list p)) /\
  Forall (fun e => Z.of_nat (length (event_content_list e)) < 2 ^ 31) (global_event_list p).

Lemma same_id_true a b : same_id a b = true <-> lower a = lower b.
Proof. unfold same_id. apply bool_decide_eq_true. Qed.
Lemma find_entry_some id l a e b : find_entry id l = Some (a, e, b) ->
  l = a ++ e :: b /\ lower (subscription_id e) = lower id /\ Forall (fun x => lower (subscription_id x) <> lower id) a.
Proof.
  revert a e b. induction l as [|x l IH]; intros a e b; cbn [find_entry]; [done|].
  destruct (same_id (subscription_id x) id) eqn:S.
  - intros [= <- <- <-]. apply same_id_true in S. auto.
  - destruct (find_entry id l) as [[[a' e'] b']|]; [|done]. intros [= <- <- <-].
    destruct (IH _ _ _ eq_refl) as (-> & E & F). split; [done|]. split; [done|]. constructor; [|done].
    intros E'. apply same_id_true in E'. congruence.
Qed.
Lemma find_entry_none id l : find_entry id l = None <-> Forall (fun x => lower (subscription_id x) <> lower id) l.
Proof.
  induction l as [|x l IH]; cbn [find_entry]; [done|]. rewrite Forall_cons. destruct (same_id (subscription_id x) id) eqn:S.
  - apply same_id_true in S. split; [done|]. intros [E _]. congruence.
  - assert (lower (subscription_id x) <> lower id) by (intros E; apply same_id_true in E; congruence).
    destruct (find_entry id l) as [[[a e] b]|]; rewrite <- IH; (split; [|done || intuition]); intuition done.
Qed.
Lemma find_entry_here id a e b : lower (subscription_id e) = lower id -> Forall (fun x => lower (subscription_id x) <> lower id) a ->
  find_entry id (a ++ e :: b) = Some (a, e, b).
Proof.
  intros E F. induction F as [|x a Nx _ IH]; cbn [app find_entry].
  - now rewrite (proj2 (same_id_true _ _) E).
  - destruct (same_id (subscription_id x) id) eqn:S; [apply same_id_true in S; done|]. now rewrite IH.
Qed.
(** Changing one entry changes the events of its subscription only. *)
Lemma queue_split p a e b : global_event_list p = a ++ e :: b -> NoDup (map (fun e => lower (subscription_id e)) (a ++ e :: b)) -> forall id,
  queue p id = if bool_decide (lower id = lower (subscription_id e)) then event_content_list e else
    queue (Pool (a ++ b) 0) id.
Proof.
  intros G ND id. rewrite map_app, NoDup_app in ND. destruct ND as (_ & ND & _). unfold queue. rewrite G. cbn [global_event_list].
  destruct (bool_decide_reflect (lower id = lower (subscription_id e))) as [E|E].
  - rewrite find_entry_here; [done..|]. apply Forall_forall. intros x Hx E'. apply (ND (lower (subscription_id x))).
    + now apply (list_elem_of_fmap_2 (fun e => lower (subscription_id e))).
    + rewrite E', E. cbn. left.
  - clear G ND. induction a as [|x a IH]; cbn [app find_entry].
    + destruct (same_id (subscription_id e) id) eqn:S; [apply same_id_true in S; congruence|].
      now destruct (find_entry id b) as [[[? ?] ?]|].
    + destruct (same_id (subscription_id x) id); [done|].
      destruct (find_entry id (a ++ e :: b)) as [[[? ?] ?]|], (find_entry id (a ++ b)) as [[[? ?] ?]|]; done.
Qed.

(** The pool with one entry put in the place of another, or taken out. *)
Definition holds (p : pool) (uuid : cstring) (q : list N) (p' : pool) : Prop :=
  max_pull_event_number p' = max_pull_event_number p /\
  (forall id, queue p' id = if bool_decide (lower id = lower uuid) then q else queue p id).
Lemma queue_ext p p' id : global_event_list p = global_event_list p' -> queue p id = queue p' id.
Proof. unfold queue. now intros ->. Qed.
Lemma queue_without p uuid a b id : Forall (fun x => lower (subscription_id x) <> lower uuid) (a ++ b) -> global_event_list p = a ++ b ->
  lower id = lower uuid -> queue p id = [].
Proof.
  intros F G E. unfold queue. rewrite G. replace (find_entry id (a ++ b)) with (@None (list event_entry * event_entry * list event_entry)); [done|].
  symmetry. apply find_entry_none. now rewrite E.
Qed.
Lemma others p a e b : NoDup (map (fun e => lower (subscription_id e)) (a ++ e :: b)) -> global_event_list p = a ++ e :: b ->
  Forall (fun x => lower (subscription_id x) <> lower (subscription_id e)) (a ++ b).
Proof.
  intros ND _. rewrite map_app, map_cons in ND. apply NoDup_app in ND as (_ & D & ND). apply NoDup_cons in ND as [Nb _].
  apply Forall_forall. intros x [Hx|Hx]%elem_of_app E.
  - apply (D (lower (subscription_id x))); [now apply (list_elem_of_fmap_2 (fun e => lower (subscription_id e)))|]. rewrite E. left.
  - apply Nb. rewrite <- E. now apply (list_elem_of_fmap_2 (fun e => lower (subscription_id e))).
Qed.
Lemma entry_for_ok p uuid : pool_ok p -> Z.of_nat (length uuid) < EUIDLEN -> exists a e b,
  entry_for uuid (global_event_list p) = Done (a, e, b) /\ lower (subscription_id e) = lower uuid /\
  event_content_list e = queue p uuid /\ NoDup (map (fun e => lower (subscription_id e)) (a ++ e :: b)) /\
  Forall (fun e => Z.of_nat (length (event_content_list e)) < 2 ^ 31) (a ++ b) /\
  (forall id, lower id <> lower uuid -> queue (Pool (a ++ b) 0) id = queue p id).
Proof.
  intros [ND F] L. unfold entry_for, queue. destruct (find_entry uuid (global_event_list p)) as [[[a e] b]|] eqn:E.
  - apply find_entry_some in E as (G & Ei & Fa). exists a, e, b. rewrite G in ND, F. repeat (split; [done|]). split.
    + apply Forall_app in F as [F1 F2]. apply Forall_cons in F2 as [_ F2]. now apply Forall_app.
    + intros id Hid. pose proof (queue_split p a e b G ND id) as Q. unfold queue in Q. rewrite Q, bool_decide_false by congruence. done.
  - apply find_entry_none in E. destruct (Z.leb_spec EUIDLEN (Z.of_nat (length uuid))); [lia|].
    exists (global_event_list p), (Entry uuid []), []. repeat (split; [done|]). split; [|split].
    + rewrite map_app. apply NoDup_app. split; [done|]. split; [|apply NoDup_singleton].
      intros x Hx Hy. apply list_elem_of_singleton in Hy as ->. apply list_elem_of_fmap in Hx as (y & Ey & Hy).
      rewrite Forall_forall in E. now apply (E y Hy).
    + now rewrite app_nil_r.
    + intros id _. now rewrite app_nil_r.
Qed.
(** The entry with other events in its place. *)
Lemma put_entry p uuid a e b q : lower (subscription_id e) = lower uuid ->
  NoDup (map (fun e => lower (subscription_id e)) (a ++ e :: b)) ->
  Forall (fun e => Z.of_nat (length (event_content_list e)) < 2 ^ 31) (a ++ b) -> Z.of_nat (length q) < 2 ^ 31 ->
  (forall id, lower id <> lower uuid -> queue (Pool (a ++ b) 0) id = queue p id) ->
  let p' := with_list p (a ++ Entry (subscription_id e) q :: b) in pool_ok p' /\ holds p uuid q p'.
Proof.
  intros Ei ND F L O p'.
  assert (ND' : NoDup (map (fun e => lower (subscription_id e)) (a ++ Entry (subscription_id e) q :: b))).
  { rewrite map_app in ND |- *. exact ND. }
  split; [split; [exact ND'|]|split; [done|]].
  - apply Forall_app in F as [F1 F2]. apply Forall_app. split; [done|]. now constructor.
  - intros id. rewrite (queue_split p' a (Entry (subscription_id e) q) b eq_refl ND' id). cbn [subscription_id event_content_list].
    rewrite Ei. destruct (bool_decide_reflect (lower id = lower uuid)); [done|]. now apply O.
Qed.
Lemma clear_ok p uuid : pool_ok p -> exists r p', MemEventPoolClearEvent uuid p = (r, queue p uuid, p') /\ pool_ok p' /\ holds p uuid [] p'.
Proof.
  intros [ND F]. unfold MemEventPoolClearEvent, queue. destruct (find_entry uuid (global_event_list p)) as [[[a e] b]|] eqn:E.
  - apply find_entry_some in E as (G & Ei & _). exists 0, (with_list p (a ++ b)). split; [done|]. rewrite G in ND, F.
    pose proof (others p a e b ND G) as Fo. split; [split|split; [done|]].
    + rewrite map_app, map_cons in ND. apply NoDup_app in ND as (N1 & D & N2). apply NoDup_cons in N2 as [_ N2].
      cbn [with_list global_event_list]. rewrite map_app. apply NoDup_app. split; [done|]. split; [|done].
      intros x Hx Hy. apply (D x Hx). now right.
    + apply Forall_app in F as [F1 F2]. apply Forall_cons in F2 as [_ F2]. now apply Forall_app.
    + intros id. destruct (bool_decide_reflect (lower id = lower uuid)) as [Eq|Nq].
      * apply (queue_without _ (subscription_id e) a b); [done..|]. now rewrite Ei.
      * rewrite (queue_split p a e b G ND id), bool_decide_false by congruence. now apply queue_ext.
  - exists (-1), p. split; [done|]. split; [done|]. split; [done|]. intros id.
    destruct (bool_decide_reflect (lower id = lower uuid)) as [Eq|]; [|done]. unfold queue.
    apply find_entry_none in E. rewrite <- Eq in E. apply find_entry_none in E. now rewrite E.
Qed.
Lemma pool_remove_ok p uuid : pool_ok p -> Z.of_nat (length uuid) < EUIDLEN ->
  match queue p uuid with
  | [] => MemEventPoolGetAndDeleteEvent uuid p = (-1, None, p)
  | n :: q => exists p', MemEventPoolGetAndDeleteEvent uuid p = (0, Some n, p') /\ pool_ok p' /\ holds p uuid q p'
  end.
Proof.
  intros K L. destruct (entry_for_ok p uuid K L) as (a & e & b & E & Ei & Ec & ND & F & O). rewrite <- Ec.
  unfold entry_for in E. unfold MemEventPoolGetAndDeleteEvent. unfold queue in Ec.
  destruct (find_entry uuid (global_event_list p)) as [[[a' e'] b']|] eqn:Ef.
  - injection E as -> -> ->. destruct (event_content_list e) as [|n q] eqn:Eq; [done|].
    assert (G : Z.of_nat (length (event_content_list e)) < 2 ^ 31).
    { destruct K as [_ K]. apply find_entry_some in Ef as (G & _). rewrite G in K. apply Forall_app in K as [_ K]. now apply Forall_cons in K as [K _]. }
    eexists. split; [done|]. apply put_entry; try done. rewrite Eq in G. simpl in G. lia.
  - now rewrite Ec.
Qed.
Lemma add_ok p uuid n : pool_ok p -> Z.of_nat (length uuid) < EUIDLEN -> Z.of_nat (length (queue p uuid)) < 2 ^ 31 - 1 ->
  exists p', MemEventPoolAddEvent uuid (Some n) p = Done (0, p') /\ pool_ok p' /\ holds p uuid (queue p uuid ++ [n]) p'.
Proof.
  intros K L B. destruct (entry_for_ok p uuid K L) as (a & e & b & E & Ei & Ec & ND & F & O).
  unfold MemEventPoolAddEvent. rewrite E. cbn [obind]. eexists. split; [done|]. rewrite Ec. apply put_entry; try done.
  rewrite length_app. simpl. lia.
Qed.
Lemma add_pull_ok p uuid n : pool_ok p -> Z.of_nat (length uuid) < EUIDLEN -> Z.of_nat (length (queue p uuid)) < 2 ^ 31 - 1 ->
  exists r p', MemEventPoolAddPullEvent uuid (Some n) p = Done (r, p') /\ pool_ok p' /\
    if u64 (max_pull_event_number p) <? Z.of_nat (length (queue p uuid)) then r = -1 /\ holds p uuid (queue p uuid) p'
    else r = 0 /\ holds p uuid (queue p uuid ++ [n]) p'.
Proof.
  intros K L B. destruct (entry_for_ok p uuid K L) as (a & e & b & E & Ei & Ec & ND & F & O).
  unfold MemEventPoolAddPullEvent. rewrite E. cbn [obind]. rewrite Ec.
  destruct (u64 (max_pull_event_number p) <? Z.of_nat (length (queue p uuid))).
  - destruct (put_entry p uuid a e b (queue p uuid) Ei ND F ltac:(lia) O) as [K' H']. eexists _, _. split; [done|].
    rewrite <- Ec in K', H' |- *. destruct e. split; [exact K'|]. split; [done|exact H'].
  - eexists _, _. split; [done|]. assert (B' : Z.of_nat (length (queue p uuid ++ [n])) < 2 ^ 31) by (rewrite length_app; simpl; lia).
    destruct (put_entry p uuid a e b (queue p uuid ++ [n]) Ei ND F B' O) as [K' H']. done.
Qed.
Lemma count_ok p uuid : pool_ok p -> MemEventPoolCount uuid p = Z.of_nat (length (queue p uuid)).
Proof.
  intros [_ F]. unfold MemEventPoolCount, queue. destruct (find_entry uuid (global_event_list p)) as [[[a e] b]|] eqn:E; [|done].
  apply find_entry_some in E as (G & _). rewrite G in F. apply Forall_app in F as [_ F]. apply Forall_cons in F as [F _].
  unfold s32. cbv zeta. rewrite u32_small by lia. destruct (Z.ltb_spec (Z.of_nat (length (event_content_list e))) 2147483648); lia.
Qed.

(** C34. The event pool is a queue for each subscription, found by its id in any letter case: an
    event is added at the end of its queue, taken from the front, counted, and cleared with
    all others of its subscription, and no operation touches another queue; an event for a
    pull subscription is refused when more than the limit wait, so that one more than the
    limit can wait and never two more. *)
Theorem pool_is_queues p uuid (n : N) : pool_ok p -> Z.of_nat (length uuid) < EUIDLEN ->
  Z.of_nat (length (queue p uuid)) < 2 ^ 31 - 1 ->
  let limit := u64 (max_pull_event_number p) in
  MemEventPoolCount uuid p = Z.of_nat (length (queue p uuid)) /\
  (exists p', MemEventPoolAddEvent uuid (Some n) p = Done (0, p') /\ pool_ok p' /\ holds p uuid (queue p uuid ++ [n]) p') /\
  (exists r p', MemEventPoolAddPullEvent uuid (Some n) p = Done (r, p') /\ pool_ok p' /\
    (if limit <? Z.of_nat (length (queue p uuid)) then r = -1 /\ holds p uuid (queue p uuid) p'
     else r = 0 /\ holds p uuid (queue p uuid ++ [n]) p') /\
    (Z.of_nat (length (queue p uuid)) <= limit + 1 -> Z.of_nat (length (queue p' uuid)) <= limit + 1)) /\
  match queue p uuid with
  | [] => MemEventPoolGetAndDeleteEvent uuid p = (-1, None, p)
  | n :: q => exists p', MemEventPoolGetAndDeleteEvent uuid p = (0, Some n, p') /\ pool_ok p' /\ holds p uuid q p'
  end /\
  exists r p', MemEventPoolClearEvent uuid p = (r, queue p uuid, p') /\ pool_ok p' /\ holds p uuid [] p'.
Proof.
  intros K L B limit. split; [now apply count_ok|]. split; [now apply add_ok|]. split; [|split; [now apply pool_remove_ok|now apply clear_ok]].
  destruct (add_pull_ok p uuid n K L B) as (r & p' & E & K' & R). exists r, p'. split; [done|]. split; [done|]. split; [done|].
  fold limit in R. destruct (Z.ltb_spec limit (Z.of_nat (length (queue p uuid)))); destruct R as (_ & _ & R);
    rewrite R, bool_decide_true, ?length_app by done; simpl; lia.
Qed.
End Pool.
Arguments event_entry N : clear implicits.
Arguments pool N : clear implicits.

Definition demo_pool : pool nat := Pool [Entry (lit "11") [1; 2]%nat; Entry (lit "aB") [3]%nat] 1.
Lemma demo_pool_ok : pool_ok demo_pool.
Proof. split; [apply (bool_decide_eq_true_1 _); vm_compute; reflexivity|repeat constructor; simpl; lia]. Qed.
Lemma pool_is_queues_witness :
  MemEventPoolCount (lit "Ab") demo_pool = 1 /\
  MemEventPoolGetAndDeleteEvent (lit "AB") demo_pool = (0, Some 3%nat, Pool [Entry (lit "11") [1; 2]%nat; Entry (lit "aB") []] 1) /\
  exists r p', MemEventPoolAddPullEvent (lit "AB") (Some 4%nat) demo_pool = Done (r, p') /\ length (queue p' (lit "ab")) = 2%nat.
Proof.
  destruct (pool_is_queues demo_pool (lit "AB") 4%nat demo_pool_ok ltac:(reflexivity) ltac:(reflexivity)) as (C & _ & (r & p' & E & _ & Q & _) & _).
  split; [exact C|]. split; [reflexivity|]. exists r, p'. split; [exact E|]. destruct Q as (_ & _ & Q). now rewrite Q.
Defined.
(** Two wait where the limit is one. *)
Example pull_limit : MemEventPoolAddPullEvent (lit "11") (Some 5%nat) demo_pool = Done (-1, demo_pool).
Proof. reflexivity. Qed.
End EventPool.
