(* ===== verification/Xml.v ===== *)
(** * Xml: trees and their readers and builders (lib/wsman-libxml2-binding.c, lib/wsman-xml.c)

    A node is what libxml2 keeps of it and the code looks at: the namespace (the href of [node->ns]),
    the local name, the properties and the children.  A handle of type WsXmlNodeH that is read through
    is an [option xml], [None] for NULL.  A node that a function has just added is built as a value and
    then appended to its parent, which is the order in which the code works on it.  The prefixes of
    namespaces and the links to parents are not in the model. *)
From S2P Require Import Prelude CString Names HttpText HttpAuth Uri EventPool.
Import Names.

Module Xml.

Record attr := Attr { attr_ns : option cstring; attr_name : cstring; attr_value : cstring }.

#[local] Unset Elimination Schemes.
(** The nodes of libxml2: elements, character data, and what is neither (comments, instructions). *)
Inductive xml :=
  | Elem (ns : option cstring) (name : cstring) (attrs : list attr) (children : list xml)
  | Text (t : cstring)
  | Other.
#[local] Set Elimination Schemes.

Section xml_ind.
Variable P : xml -> Prop.
Hypothesis P_elem : forall ns name attrs ch, Forall P ch -> P (Elem ns name attrs ch).
Hypothesis P_text : forall t, P (Text t).
Hypothesis P_other : P Other.
Fixpoint xml_ind (x : xml) : P x :=
  match x with
  | Elem ns name attrs ch => P_elem ns name attrs ch
      ((fix go (l : list xml) : Forall P l :=
          match l with [] => Forall_nil_2 P | c :: l => Forall_cons_2 P c l (xml_ind c) (go l) end) ch)
  | Text t => P_text t
  | Other => P_other
  end.
End xml_ind.

#[global] Instance attr_eq_dec : EqDecision attr.
Proof. solve_decision. Defined.

(** ** Readers *)

(** [node->type == XML_ELEMENT_NODE]. *)
Definition is_element (n : xml) : bool := match n with Elem _ _ _ _ => true | _ => false end.
Definition children (n : xml) : list xml := match n with Elem _ _ _ ch => ch | _ => [] end.
Definition properties (n : xml) : list attr := match n with Elem _ _ a _ => a | _ => [] end.
(** xmlNodeGetContent: the character data of all descendants. *)
Fixpoint content_of (n : xml) : cstring :=
  match n with
  | Elem _ _ _ ch => (fix go (l : list xml) : cstring := match l with [] => [] | c :: l => content_of c ++ go l end) ch
  | Text t => t
  | Other => []
  end.

(** [XML_LAST_CHILD]: only an element that is the very last of the children is found. *)
Definition XML_LAST_CHILD : Z := -1.
(** The loop over the children. *)
(* src: lib/wsman-libxml2-binding.c 368-393 xml_parser_node_get *)
Fixpoint node_get_loop (which count : Z) (l : list xml) : option xml :=
  match l with
  | [] => None
  | c :: l =>
      if is_element c then
        if (which =? XML_LAST_CHILD) && bool_decide (l = []) then Some c
        else if count =? which then Some c else node_get_loop which (count + 1) l
      else node_get_loop which count l
  end.
Definition XML_ELEMENT_NEXT : Z := -2.
Definition XML_ELEMENT_PREV : Z := -3.
Definition XML_ELEMENT_PARENT : Z := -4.
(** [parent], [before] and [after] are where the node hangs. *)
(* src: lib/wsman-libxml2-binding.c 343-395 xml_parser_node_get *)
Definition xml_parser_node_get (parent : option xml) (before after : list xml) (n : xml) (which : Z) : outcome (option xml) :=
  if which =? XML_ELEMENT_PARENT then Done parent
  else if which =? XML_ELEMENT_NEXT then Done (head (List.filter is_element after))
  else if which =? XML_ELEMENT_PREV then Done (last (List.filter is_element before))
  else if (0 <=? which) || (which =? XML_LAST_CHILD) then Done (node_get_loop which 0 (children n)) else AssertFail.
(* src: lib/wsman-libxml2-binding.c 579-586 xml_parser_get_count *)
Definition xml_parser_get_count_node (n : xml) : Z := Z.of_nat (length (List.filter is_element (children n))).
(* src: lib/wsman-libxml2-binding.c 587-593 xml_parser_get_count *)
Definition xml_parser_get_count_attr (n : xml) : Z := Z.of_nat (length (properties n)).
(* src: lib/wsman-libxml2-binding.c 779-810 xml_parser_attr_get *)
Definition xml_parser_attr_get (n : xml) (which : Z) : outcome (option attr) :=
  if which =? XML_LAST_CHILD then Done (last (properties n))
  else if 0 <=? which then Done (properties n !! Z.to_nat which) else AssertFail.

(* src: lib/wsman-xml.c 506-513 ws_xml_get_node_name_ns *)
Definition ws_xml_get_node_name_ns (n : option xml) : option cstring :=
  match n with Some (Elem ns _ _ _) => ns | _ => None end.
(* src: lib/wsman-xml.c 521-527 ws_xml_get_node_local_name *)
Definition ws_xml_get_node_local_name (n : option xml) : option cstring :=
  match n with Some (Elem _ name _ _) => Some name | Some (Text _) => Some (lit "text") | Some Other => Some (lit "comment") | None => None end.
(* src: lib/wsman-xml.c 548-555 ws_xml_get_node_text *)
Definition ws_xml_get_node_text (n : option xml) : option cstring := content_of <$> n.
(* src: src/CIM_Framework/openwsman/include/wsman-xml-api.h 220-225 ws_xml_get_node_text_safe *)
Definition ws_xml_get_node_text_safe (n : option xml) : cstring := default [] (ws_xml_get_node_text n).
(* src: lib/wsman-xml.c 472-478 ws_xml_get_child_count *)
Definition ws_xml_get_child_count (n : option xml) : Z := from_option xml_parser_get_count_node 0 n.
(* src: lib/wsman-xml.c 1200-1207 ws_xml_get_node_attr_count *)
Definition ws_xml_get_node_attr_count (n : option xml) : Z := from_option xml_parser_get_count_attr 0 n.

(** A namespace that is asked for: NULL stands for any. *)
Definition ns_matches (want have : option cstring) : bool :=
  match want, have with
  | None, _ => true
  | Some w, Some h => streq h w
  | Some _, None => false
  end.
(* src: lib/wsman-xml.c 795-810 ws_xml_is_node_qname *)
Definition ws_xml_is_node_qname (n : option xml) (nsUri name : option cstring) : bool :=
  match n with
  | None => false
  | Some _ =>
      ns_matches nsUri (ws_xml_get_node_name_ns n) &&
      match name with None => true | Some w => from_option (streq w) false (ws_xml_get_node_local_name n) end
  end.

(** The siblings from a node on: [xml_parser_get_next_child] skips what is no element. *)
(* src: lib/wsman-xml.c 770-781 ws_xml_get_child *)
Fixpoint get_child_loop (nsUri localName : option cstring) (index count : Z) (l : list xml) : option xml :=
  match l with
  | [] => None
  | node :: l =>
      if is_element node then
        if ws_xml_is_node_qname (Some node) nsUri localName then
          if count =? index then Some node else get_child_loop nsUri localName index (count + 1) l
        else get_child_loop nsUri localName index count l
      else get_child_loop nsUri localName index count l
  end.
(* src: lib/wsman-xml.c 761-785 ws_xml_get_child *)
Definition ws_xml_get_child (parent : option xml) (index : Z) (nsUri localName : option cstring) : option xml :=
  match parent with
  | None => None
  | Some p =>
      if 0 <=? index then
        match nsUri, localName with
        | None, None => match xml_parser_node_get None [] [] p index with Done n => n | _ => None end
        | _, _ => get_child_loop nsUri localName index 0 (children p)
        end
      else None
  end.
(* src: lib/wsman-xml.c 822-843 ws_xml_get_child_count_by_qname *)
Definition ws_xml_get_child_count_by_qname (parent : option xml) (nsUri name : option cstring) : Z :=
  match parent with
  | None => 0
  | Some p =>
      match nsUri, name with
      | None, None => ws_xml_get_child_count parent
      | _, _ => Z.of_nat (length (List.filter (fun c => is_element c && ws_xml_is_node_qname (Some c) nsUri name) (children p)))
      end
  end.

(** [callback] takes the node and the data it may change, and says whether to stop. *)
(* src: lib/wsman-xml.c 446-498 ws_xml_enum_tree *)
Fixpoint ws_xml_enum_tree {D : Type} (callback : xml -> D -> Z * D) (bRecursive : bool) (top : xml) (data : D) : Z * D :=
  let '(retVal, data) := callback top data in
  if (retVal =? 0) && bRecursive then
    match top with
    | Elem _ _ _ ch =>
        (fix enum_children (l : list xml) (data : D) : Z * D :=
          match l with
          | [] => (0, data)
          | child :: l =>
              if is_element child then
                let '(retVal, data) := ws_xml_enum_tree callback bRecursive child data in
                if retVal =? 0 then enum_children l data else (retVal, data)
              else enum_children l data
          end) ch data
    | _ => (0, data)
    end
  else (retVal, data).
(* src: lib/wsman-xml.c 677-686 find_in_tree_callback *)
Definition find_in_tree_callback (ns name : option cstring) (n : xml) (data : option xml) : Z * option xml :=
  if ws_xml_is_node_qname (Some n) ns name then (1, Some n) else (0, data).
(* src: lib/wsman-xml.c 696-708 ws_xml_find_in_tree *)
Definition ws_xml_find_in_tree (head : option xml) (nsUri localName : option cstring) (bRecursive : bool) : option xml :=
  match head with
  | None => None
  | Some h => (ws_xml_enum_tree (find_in_tree_callback nsUri localName) bRecursive h None).2
  end.

(** ** Attributes *)

(** Here NULL stands for no namespace. *)
(* src: lib/wsman-xml.c 1245-1255 ws_xml_find_node_attr *)
Definition is_attr (attrNs : option cstring) (attrName : cstring) (a : attr) : bool :=
  bool_decide (attr_ns a = attrNs) && streq attrName (attr_name a).
(* src: lib/wsman-xml.c 1235-1261 ws_xml_find_node_attr *)
Definition ws_xml_find_node_attr (n : option xml) (attrNs : option cstring) (attrName : cstring) : option attr :=
  match n with None => None | Some n => List.find (is_attr attrNs attrName) (properties n) end.
(* src: lib/wsman-xml.c 1353-1363 ws_xml_find_attr_value *)
Definition ws_xml_find_attr_value (n : option xml) (ns : option cstring) (attrName : cstring) : option cstring :=
  attr_value <$> ws_xml_find_node_attr n ns attrName.
(* src: lib/wsman-xml.c 112-133 is_xml_val_true *)
Definition is_xml_val_true (text : cstring) : bool :=
  match drop (length (take_while HttpText.isdigit text)) text with
  | [] => negb (Uri.atoi text =? 0)
  | _ => EventPool.same_id text (lit "true") || EventPool.same_id text (lit "yes")
  end.
(* src: lib/wsman-xml.c 1365-1375 ws_xml_find_attr_bool *)
Definition ws_xml_find_attr_bool (n : option xml) (ns : option cstring) (attrName : cstring) : bool :=
  from_option is_xml_val_true false (ws_xml_find_attr_value n ns attrName).
(** The [int] of atoi becomes an unsigned long. *)
(* src: lib/wsman-xml.c 1378-1388 ws_xml_find_attr_ulong *)
Definition ws_xml_find_attr_ulong (n : option xml) (ns : option cstring) (attrName : cstring) : Z :=
  from_option (fun t => u64 (Uri.atoi t)) 0 (ws_xml_find_attr_value n ns attrName).
(* src: lib/wsman-xml.c 1264-1272 ws_xml_get_node_ulong *)
Definition ws_xml_get_node_ulong (n : option xml) : Z :=
  from_option (fun t => u64 (Uri.atoi t)) 0 (ws_xml_get_node_text n).

(** ** Envelopes: a document is its root *)

(* src: lib/wsman-xml.c 857-865 ws_xml_get_soap_envelope *)
Definition ws_xml_get_soap_envelope (doc : option xml) : option xml :=
  if ws_xml_is_node_qname doc (Some XML_NS_SOAP_1_2) (Some SOAP_ENVELOPE)
     || ws_xml_is_node_qname doc (Some XML_NS_SOAP_1_1) (Some SOAP_ENVELOPE) then doc else None.
(* src: lib/wsman-xml.c 729-751 ws_xml_get_soap_element *)
Definition ws_xml_get_soap_element (doc : option xml) (name : cstring) : option xml :=
  match ws_xml_get_soap_envelope doc with
  | None => None
  | Some env =>
      let soapUri := ws_xml_get_node_name_ns (Some env) in
      match ws_xml_get_child (Some env) 0 None None with
      | None => None
      | Some node =>
          if ws_xml_is_node_qname (Some node) soapUri (Some name) then Some node
          else if negb (streq name SOAP_HEADER) then
            match ws_xml_get_child (Some env) 1 None None with
            | Some node => if ws_xml_is_node_qname (Some node) soapUri (Some name) then Some node else None
            | None => None
            end
          else Some node
      end
  end.
(* src: lib/wsman-xml.c 431-434 ws_xml_get_soap_header *)
Definition ws_xml_get_soap_header (doc : option xml) : option xml := ws_xml_get_soap_element doc SOAP_HEADER.
(* src: lib/wsman-xml.c 716-719 ws_xml_get_soap_body *)
Definition ws_xml_get_soap_body (doc : option xml) : option xml := ws_xml_get_soap_element doc SOAP_BODY.

(** ** Builders

    [content]: xmlStringGetNodeList, what xmlNodeSetContent makes of a text, in which it replaces
    references (so a text with an ampersand does not come back as it was).  [default_ns]: the
    namespace of the default declaration in scope of the node, if there is one. *)
Section Build.
Context (content : cstring -> list xml) (default_ns : option cstring).

(* src: lib/wsman-libxml2-binding.c 613-634 make_new_xml_node *)
Definition make_new_xml_node (uri : option cstring) (name : cstring) (value : option cstring) (xmlescape : bool) : xml :=
  Elem uri name [] (match value with None => [] | Some v => if xmlescape then [Text v] else content v end).
(** xmlAddChild. *)
Definition append_child (base newNode : xml) : xml :=
  match base with Elem ns n a ch => Elem ns n a (ch ++ [newNode]) | _ => base end.
(** The new last child, which the caller works on with [k] before anything else is done to its parent. *)
(* src: lib/wsman-libxml2-binding.c 641-669 xml_parser_node_add *)
Definition xml_parser_node_add (base : xml) (nsUri : option cstring) (localName : cstring) (value : option cstring)
  (xmlescape : bool) (k : xml -> outcome xml) : outcome xml :=
  let* newNode := k (make_new_xml_node nsUri localName value xmlescape) in
  Done (append_child base newNode).
(* src: lib/wsman-xml.c 1027-1034 ws_xml_add_child *)
Definition ws_xml_add_child_with (node : xml) (nsUri : option cstring) (localName : cstring) (val : option cstring)
  (k : xml -> outcome xml) : outcome xml := xml_parser_node_add node nsUri localName val false k.
(** The same where the handle is not used again. *)
(* src: lib/wsman-xml.c 1027-1034 ws_xml_add_child *)
Definition ws_xml_add_child (node : xml) (nsUri : option cstring) (localName : cstring) (val : option cstring) : xml :=
  append_child node (make_new_xml_node nsUri localName val false).
(** xmlAddPrevSibling in front of the first element whose name is greater; behind all others else. *)
(* src: lib/wsman-xml.c 1062-1073 ws_xml_add_child_sort *)
Fixpoint insert_sorted (newNode : xml) (localName : cstring) (l : list xml) : list xml :=
  match l with
  | [] => [newNode]
  | child :: l =>
      if is_element child && (strcmp localName (default [] (ws_xml_get_node_local_name (Some child))) <? 0)
      then newNode :: child :: l
      else child :: insert_sorted newNode localName l
  end.
(* src: lib/wsman-xml.c 1053-1075 ws_xml_add_child_sort *)
Definition ws_xml_add_child_sort (node : xml) (nsUri : option cstring) (localName : cstring) (val : option cstring)
  (xmlescape : bool) : xml :=
  let newNode := make_new_xml_node nsUri localName val xmlescape in
  if ws_xml_get_child_count (Some node) =? 0 then append_child node newNode
  else match node with Elem ns n a ch => Elem ns n a (insert_sorted newNode localName ch) | _ => node end.
(** xmlNodeSetContent: the children are replaced. *)
(* src: lib/wsman-xml.c 1420-1428 ws_xml_set_node_text *)
Definition ws_xml_set_node_text (node : xml) (text : option cstring) : xml :=
  match node with Elem ns n a _ => Elem ns n a (from_option content [] text) | _ => node end.
(** [buf] has 12 bytes. *)
(* src: lib/wsman-xml.c 1275-1286 ws_xml_set_node_ulong *)
Definition ws_xml_set_node_ulong (node : xml) (uVal : Z) : Z * xml :=
  let text := HttpAuth.dec (u64 uVal) in
  if (12 <=? length text)%nat then (-1, node) else (0, ws_xml_set_node_text node (Some text)).

(** Removing an attribute also cuts the links of its element to its parent and to its next sibling: the
    siblings behind it are lost. *)
(* src: lib/wsman-libxml2-binding.c 716-738 xml_parser_attr_remove *)
Definition xml_parser_attr_remove (k : nat) (before : list xml) (node : xml) (after : list xml) : list xml :=
  match node with Elem ns n a ch => before ++ [Elem ns n (delete k a) ch] | _ => before ++ node :: after end.
Fixpoint remove_attr (p : attr -> bool) (l : list attr) : list attr :=
  match l with [] => [] | a :: l => if p a then l else a :: remove_attr p l end.
(** For a node that is the last of its siblings, as a node is that has just been added.  An attribute
    without a namespace gets the one of the default declaration in scope. *)
(* src: lib/wsman-libxml2-binding.c 680-712 xml_parser_attr_add *)
Definition xml_parser_attr_add (node : xml) (uri : option cstring) (name value : cstring) : xml :=
  let xmlNs := match uri with Some u => Some u | None => default_ns end in
  match node with
  | Elem ns n a ch => Elem ns n (remove_attr (is_attr uri name) a ++ [Attr xmlNs name value]) ch
  | _ => node
  end.
(* src: lib/wsman-xml.c 1210-1220 ws_xml_add_node_attr *)
Definition ws_xml_add_node_attr (node : xml) (nsUri : option cstring) (name : cstring) (value : option cstring) : xml :=
  xml_parser_attr_add node nsUri name (default [] value).

(* src: lib/wsman-xml.c 307-317 ws_xml_duplicate_attr *)
Definition ws_xml_duplicate_attr (dstNode : xml) (src : list attr) : xml :=
  fold_left (fun n a => ws_xml_add_node_attr n (attr_ns a) (attr_name a) (Some (attr_value a))) src dstNode.
(** The new node under the destination. *)
(* src: lib/wsman-xml.c 324-362 ws_xml_duplicate_tree *)
Fixpoint duplicate (src : xml) : xml :=
  match src with
  | Elem ns name attrs ch =>
      let node := ws_xml_duplicate_attr (make_new_xml_node ns name None false) attrs in
      let node := fold_left append_child
        ((fix go (l : list xml) : list xml :=
            match l with [] => [] | c :: l => if is_element c then duplicate c :: go l else go l end) ch) node in
      if ws_xml_get_child_count (Some src) =? 0
      then ws_xml_set_node_text node (ws_xml_get_node_text (Some src)) else node
  | n => n
  end.
(* src: lib/wsman-xml.c 342-362 ws_xml_duplicate_tree *)
Definition ws_xml_duplicate_tree (dstNode srcNode : xml) : xml := append_child dstNode (duplicate srcNode).
(* src: lib/wsman-xml.c 324-334 ws_xml_duplicate_children *)
Definition ws_xml_duplicate_children (dstNode srcNode : xml) : xml :=
  fold_left ws_xml_duplicate_tree (List.filter is_element (children srcNode)) dstNode.
(* src: lib/wsman-libxml2-binding.c 972-980 xml_parser_copy_node *)
Definition xml_parser_copy_node (src dst : option xml) : option xml :=
  match src, dst with Some s, Some d => Some (append_child d s) | _, _ => dst end.

(* src: lib/wsman-xml.c 587-621 ws_xml_create_doc *)
Definition ws_xml_create_doc (rootNsUri : option cstring) (rootName : cstring) : xml := Elem rootNsUri rootName [] [].
(* src: lib/wsman-xml.c 247-263 ws_xml_create_envelope *)
Definition ws_xml_create_envelope : xml :=
  let root := ws_xml_create_doc (Some XML_NS_SOAP_1_2) SOAP_ENVELOPE in
  let root := ws_xml_add_child root (Some XML_NS_SOAP_1_2) SOAP_HEADER None in
  ws_xml_add_child root (Some XML_NS_SOAP_1_2) SOAP_BODY None.
(** The attributes of the root are not copied. *)
(* src: lib/wsman-xml.c 272-299 ws_xml_duplicate_doc *)
Definition ws_xml_duplicate_doc (srcDoc : option xml) : option xml :=
  match srcDoc with
  | None => None
  | Some srcRoot =>
      Some (ws_xml_duplicate_children
        (ws_xml_create_doc (ws_xml_get_node_name_ns srcDoc) (default [] (ws_xml_get_node_local_name srcDoc))) srcRoot)
  end.

(** [prefixIndex] is a field of the document. *)
(* src: lib/wsman-xml.c 68-85 g_wsNsData *)
Definition g_wsNsData : list (cstring * cstring) := [
  (XML_NS_SOAP_1_2, lit "s"); (XML_NS_ADDRESSING, lit "wsa"); (XML_NS_EVENTING, lit "wse");
  (XML_NS_ENUMERATION, lit "wsen"); (XML_NS_SCHEMA_INSTANCE, lit "xsi"); (XML_NS_CIM_SCHEMA, lit "cim");
  (XML_NS_WS_MAN_CAT, lit "cat"); (XML_NS_WSMAN_ID, lit "wsmid"); (XML_NS_XML_SCHEMA, lit "xs");
  (XML_NS_WS_MAN, lit "wsman"); (XML_NS_CIM_BINDING, lit "wsmb"); (XML_NS_OPENWSMAN, lit "owsman");
  (XML_NS_TRANSFER, lit "wxf"); (XML_NS_XML_NAMESPACES, lit "xml")].
(* src: lib/wsman-xml.c 87-110 ws_xml_make_default_prefix *)
Definition ws_xml_make_default_prefix (prefixIndex : Z) (uri : option cstring) (bufsize : Z) : cstring * Z :=
  match (match uri with Some u => List.find (fun nsd => streq u nsd.1) g_wsNsData | None => None end) with
  | Some nsd => (take (Z.to_nat (bufsize - 1)) nsd.2, prefixIndex)
  | None =>
      (* without a URI the index stays 0, and the entry there is not the last *)
      if bool_decide (is_Some uri) && (12 <=? bufsize) then
        let n := u64 (prefixIndex + 1) in (take (Z.to_nat (bufsize - 1)) (lit "n" ++ HttpAuth.dec n), n)
      else ([], prefixIndex)
  end.
(** [len] is the length of the dump. *)
(* src: lib/wsman-xml.c 1511-1520 check_envelope_size *)
Definition check_envelope_size (len size : Z) : bool := if size =? 0 then false else size <? u32 len.

End Build.

(** ** What the readers find *)

(** The element children that a name test selects. *)
Definition selects (nsUri name : option cstring) (c : xml) : bool := is_element c && ws_xml_is_node_qname (Some c) nsUri name.
Definition selected (nsUri name : option cstring) (p : option xml) : list xml :=
  List.filter (selects nsUri name) (from_option children [] p).

Lemma node_get_loop_filter which l count : 0 <= count <= which ->
  node_get_loop which count l = List.filter is_element l !! Z.to_nat (which - count).
Proof.
  revert count. induction l as [|c l IH]; intros count H; [now destruct (Z.to_nat _)|].
  cbn [node_get_loop List.filter]. destruct (is_element c); [|now apply IH].
  replace (which =? XML_LAST_CHILD) with false by (unfold XML_LAST_CHILD; lia). cbn [andb].
  destruct (Z.eqb_spec count which) as [->|N].
  - now rewrite Z.sub_diag.
  - rewrite IH by lia. replace (Z.to_nat (which - count)) with (S (Z.to_nat (which - (count + 1)))) by lia. done.
Qed.
Lemma get_child_loop_filter ns name index l count : 0 <= count <= index ->
  get_child_loop ns name index count l = List.filter (selects ns name) l !! Z.to_nat (index - count).
Proof.
  revert count. induction l as [|c l IH]; intros count H; [now destruct (Z.to_nat _)|].
  cbn [get_child_loop List.filter]. unfold selects at 1. destruct (is_element c); cbn [andb]; [|now apply IH].
  destruct (ws_xml_is_node_qname _ _ _); [|now apply IH].
  destruct (Z.eqb_spec count index) as [->|N].
  - now rewrite Z.sub_diag.
  - rewrite IH by lia. replace (Z.to_nat (index - count)) with (S (Z.to_nat (index - (count + 1)))) by lia. done.
Qed.
Lemma selects_any c : selects None None c = is_element c.
Proof. unfold selects, ws_xml_is_node_qname. cbn. now rewrite andb_true_r. Qed.
Lemma filter_ext' {A} (p q : A -> bool) l : (forall a, p a = q a) -> List.filter p l = List.filter q l.
Proof. intros E. induction l as [|a l IH]; [done|]. cbn. now rewrite E, IH. Qed.
(** Both ways of the function find the i-th of the children that the name selects. *)
Lemma ws_xml_get_child_nth p (i : nat) ns name :
  ws_xml_get_child p (Z.of_nat i) ns name = selected ns name p !! i.
Proof.
  destruct p as [p|]; [|now destruct i]. unfold ws_xml_get_child, selected. cbn [from_option].
  rewrite (proj2 (Z.leb_le 0 (Z.of_nat i))) by lia.
  assert (get_child_loop ns name (Z.of_nat i) 0 (children p) = List.filter (selects ns name) (children p) !! i) as E.
  { rewrite get_child_loop_filter by lia. now rewrite Z.sub_0_r, Nat2Z.id. }
  destruct ns, name; try exact E.
  unfold xml_parser_node_get, XML_ELEMENT_PARENT, XML_ELEMENT_NEXT, XML_ELEMENT_PREV.
  rewrite !(proj2 (Z.eqb_neq _ _)) by lia. rewrite (proj2 (Z.leb_le 0 (Z.of_nat i))) by lia. cbn [orb].
  rewrite node_get_loop_filter by lia. rewrite Z.sub_0_r, Nat2Z.id.
  now rewrite (filter_ext' _ _ _ selects_any).
Qed.
Lemma ws_xml_get_child_0 p ns name : ws_xml_get_child p 0 ns name = head (selected ns name p).
Proof. change 0 with (Z.of_nat 0). rewrite ws_xml_get_child_nth. now destruct (selected _ _ _). Qed.
Lemma child_count_selected p : ws_xml_get_child_count p = Z.of_nat (length (selected None None p)).
Proof.
  unfold selected. rewrite (filter_ext' _ _ _ selects_any). now destruct p.
Qed.
Lemma count_by_qname_selected p ns name :
  ws_xml_get_child_count_by_qname p ns name = Z.of_nat (length (selected ns name p)).
Proof. destruct p; destruct ns, name; try done. apply child_count_selected. Qed.

(** A child that is added comes last. *)
Lemma selected_append ns name p c : is_element p = true ->
  selected ns name (Some (append_child p c)) = selected ns name (Some p) ++ (if selects ns name c then [c] else []).
Proof. destruct p; try done. intros _. unfold selected. cbn. rewrite List.filter_app. cbn. done. Qed.
Lemma append_element p c : is_element (append_child p c) = is_element p.
Proof. now destruct p. Qed.
Lemma qname_append ns name p c : ws_xml_is_node_qname (Some (append_child p c)) ns name = ws_xml_is_node_qname (Some p) ns name.
Proof. now destruct p. Qed.
Lemma properties_append p c : properties (append_child p c) = properties p.
Proof. now destruct p. Qed.
Lemma selects_append ns name p c : selects ns name (append_child p c) = selects ns name p.
Proof. now destruct p. Qed.

(** The nodes of a tree in document order, as [enum_tree] visits them. *)
Fixpoint preorder (n : xml) : list xml :=
  n :: match n with
       | Elem _ _ _ ch =>
           (fix go (l : list xml) : list xml :=
             match l with [] => [] | c :: l => if is_element c then preorder c ++ go l else go l end) ch
       | _ => []
       end.
Lemma find_app {A} (p : A -> bool) l k :
  List.find p (l ++ k) = match List.find p l with Some x => Some x | None => List.find p k end.
Proof. induction l as [|x l IH]; [done|]. cbn. now destruct (p x). Qed.
(** Searching a tree finds the first node of the name in document order, in the whole tree or at its
    head only, and NULL when there is none. *)
Theorem ws_xml_find_in_tree_spec head nsUri localName bRecursive :
  ws_xml_find_in_tree (Some head) nsUri localName bRecursive =
  List.find (fun n => ws_xml_is_node_qname (Some n) nsUri localName) (if bRecursive then preorder head else [head]).
Proof.
  unfold ws_xml_find_in_tree. set (q := fun n => ws_xml_is_node_qname (Some n) nsUri localName).
  set (cb := find_in_tree_callback nsUri localName).
  assert (forall n d, cb n d = if q n then (1, Some n) else (0, d)) as Hcb by done.
  destruct bRecursive.
  2:{ destruct head; cbn [ws_xml_enum_tree List.find]; rewrite Hcb; destruct (q _); done. }
  enough (forall x d, ws_xml_enum_tree cb true x d =
      match List.find q (preorder x) with Some n => (1, Some n) | None => (0, d) end) as E.
  { rewrite E. now destruct (List.find q (preorder head)). }
  induction x as [ns n a ch IH|t|] using xml_ind; intros d;
    cbn [ws_xml_enum_tree preorder List.find]; rewrite Hcb; destruct (q _) eqn:Eq; cbn; try done.
  clear Eq. revert d. induction IH as [|c ch Hc _ IHch]; intros d; [done|].
  destruct (is_element c); [|apply IHch].
  rewrite Hc, find_app. destruct (List.find q (preorder c)); [done|]. cbn. apply IHch.
Qed.

(** ** Copies *)

(** A node as its readers see it: an element has its element children, or its text when it has none. *)
Inductive data := Leaf (t : cstring) | Branch (l : list (option cstring * cstring * list attr * data)).
Fixpoint data_of (n : xml) : option cstring * cstring * list attr * data :=
  match n with
  | Elem ns name attrs ch =>
      (ns, name, attrs,
       if ws_xml_get_child_count (Some n) =? 0 then Leaf (content_of n)
       else Branch ((fix go (l : list xml) := match l with [] => [] | c :: l => if is_element c then data_of c :: go l else go l end) ch))
  | _ => (None, [], [], Leaf (content_of n))
  end.
(** Texts that the parser of references leaves alone, at every leaf. *)
Definition plain_text (t : cstring) : Prop := "&"%char ∉ t.
Fixpoint tidy (n : xml) : Prop :=
  match n with
  | Elem ns name attrs ch =>
      NoDup (map (fun a => (attr_ns a, attr_name a)) attrs) /\
      (ws_xml_get_child_count (Some n) = 0 -> plain_text (content_of n)) /\
      (fix go (l : list xml) : Prop := match l with [] => True | c :: l => tidy c /\ go l end) ch
  | _ => True
  end.

Lemma content_of_elem ns name attrs ch : content_of (Elem ns name attrs ch) = concat (map content_of ch).
Proof. cbn. induction ch as [|c ch IH]; [done|]. cbn. now rewrite IH. Qed.
Lemma data_of_elem ns name attrs ch : data_of (Elem ns name attrs ch) =
  (ns, name, attrs, match List.filter is_element ch with
    | [] => Leaf (concat (map content_of ch)) | l => Branch (map data_of l) end).
Proof.
  set (go := fix go (l : list xml) := match l with [] => [] | c :: l => if is_element c then data_of c :: go l else go l end).
  assert (forall l, go l = map data_of (List.filter is_element l)) as E.
  { induction l as [|c l IH]; [done|]. cbn [go List.filter]. destruct (is_element c); [|done]. cbn. now rewrite <- IH. }
  cbn [data_of]. fold go. rewrite E, content_of_elem. cbn. unfold xml_parser_get_count_node. cbn [children].
  destruct (List.filter is_element ch); [done|]. cbn [length]. now rewrite (proj2 (Z.eqb_neq _ 0)) by lia.
Qed.
Lemma tidy_elem ns name attrs ch : tidy (Elem ns name attrs ch) <->
  NoDup (map (fun a => (attr_ns a, attr_name a)) attrs) /\
  (List.filter is_element ch = [] -> plain_text (concat (map content_of ch))) /\ Forall tidy ch.
Proof.
  cbn [tidy]. rewrite content_of_elem. cbn. unfold xml_parser_get_count_node. cbn [children].
  assert (forall l, (fix go (l : list xml) : Prop := match l with [] => True | c :: l => tidy c /\ go l end) l <-> Forall tidy l) as ->.
  { induction l as [|c l IH]; [done|]. now rewrite Forall_cons, IH. }
  assert (Z.of_nat (length (List.filter is_element ch)) = 0 <-> List.filter is_element ch = []) as ->.
  { destruct (List.filter is_element ch); cbn; [done|]. split; [lia|done]. }
  done.
Qed.

(** What is relied on of xmlStringGetNodeList: a text without references becomes character data. *)
Definition content_law (content : cstring -> list xml) : Prop := forall t, plain_text t ->
  List.filter is_element (content t) = [] /\ concat (map content_of (content t)) = t.

Section Copies.
Context {content : cstring -> list xml} (law : content_law content).

Lemma remove_attr_none (p : attr -> bool) l : (forall a, a ∈ l -> p a = false) -> remove_attr p l = l.
Proof.
  induction l as [|a l IH]; intros H; [done|]. cbn. rewrite H by left. f_equal. apply IH. intros b Hb. apply H. now right.
Qed.
Lemma duplicate_attr_ok attrs ns name a ch : NoDup (map (fun x => (attr_ns x, attr_name x)) (a ++ attrs)) ->
  ws_xml_duplicate_attr None (Elem ns name a ch) attrs = Elem ns name (a ++ attrs) ch.
Proof.
  unfold ws_xml_duplicate_attr.
  revert a. induction attrs as [|x attrs IH]; intros a N; cbn [fold_left]; [now rewrite app_nil_r|].
  unfold ws_xml_add_node_attr at 2. cbn [xml_parser_attr_add default from_option id].
  rewrite remove_attr_none.
  - replace (Attr (match attr_ns x with Some u => Some u | None => None end) (attr_name x) (attr_value x)) with x
      by now destruct x as [[]].
    rewrite IH; rewrite <- app_assoc; done.
  - intros y Hy. unfold is_attr. apply andb_false_iff.
    destruct (decide (attr_ns y = attr_ns x)) as [E1|]; [right|left; now apply bool_decide_eq_false].
    apply streq_false. intros E2. rewrite map_app in N. apply NoDup_app in N as (_ & N & _).
    apply (N (attr_ns y, attr_name y)); [now apply (list_elem_of_fmap_2 (fun x => (attr_ns x, attr_name x)))|].
    cbn. rewrite E1, <- E2. left.
Qed.
Lemma fold_append l ns name a ch : fold_left append_child l (Elem ns name a ch) = Elem ns name a (ch ++ l).
Proof.
  revert ch. induction l as [|c l IH]; intros ch; cbn; [now rewrite app_nil_r|]. now rewrite IH, <- app_assoc.
Qed.
Lemma duplicate_elem ns name attrs ch : NoDup (map (fun a => (attr_ns a, attr_name a)) attrs) ->
  duplicate content None (Elem ns name attrs ch) =
  Elem ns name attrs (match List.filter is_element ch with
    | [] => content (concat (map content_of ch)) | l => map (duplicate content None) l end).
Proof.
  intros N. cbn [duplicate]. unfold make_new_xml_node. rewrite duplicate_attr_ok by done.
  set (go := fix go (l : list xml) := match l with [] => [] | c :: l => if is_element c then duplicate content None c :: go l else go l end).
  assert (forall l, go l = map (duplicate content None) (List.filter is_element l)) as E.
  { induction l as [|c l IH]; [done|]. cbn [go List.filter]. destruct (is_element c); [|done]. cbn. now rewrite <- IH. }
  rewrite E, fold_append. unfold ws_xml_get_node_text. cbn [fmap option_fmap option_map]. rewrite content_of_elem.
  cbn. unfold xml_parser_get_count_node. cbn [children].
  destruct (List.filter is_element ch) eqn:Ef; [done|].
  cbn [length]. now rewrite (proj2 (Z.eqb_neq _ 0)) by lia.
Qed.
Lemma duplicate_is_element n : is_element (duplicate content None n) = is_element n.
Proof.
  destruct n as [ns name attrs ch| |]; try done. cbn [duplicate].
  assert (forall l m, is_element (ws_xml_duplicate_attr None m l) = is_element m) as Ea.
  { induction l as [|a l IH]; intros m; [done|]. cbn. unfold ws_xml_duplicate_attr in IH. rewrite IH. now destruct m. }
  assert (forall l m, is_element (fold_left append_child l m) = is_element m) as Ec.
  { induction l as [|a l IH]; intros m; [done|]. cbn. rewrite IH. apply append_element. }
  destruct (_ =? 0); [|now rewrite Ec, Ea].
  match goal with |- is_element (ws_xml_set_node_text _ ?m _) = _ => transitivity (is_element m); [now destruct m|] end.
  now rewrite Ec, Ea.
Qed.

Lemma data_of_duplicate n : tidy n -> data_of (duplicate content None n) = data_of n.
Proof using law.
  induction n as [ns name attrs ch IH|t|] using xml_ind; intros T; [|done|done].
  apply tidy_elem in T as (N & L & T). rewrite duplicate_elem by done. rewrite !data_of_elem. f_equal.
  destruct (List.filter is_element ch) as [|c l] eqn:Ef.
  - destruct (law _ (L eq_refl)) as [-> ->]. done.
  - assert (Forall (fun x => is_element x = true /\ data_of (duplicate content None x) = data_of x) (c :: l)) as F.
    { rewrite <- Ef, Forall_forall in *. intros x Hx. apply list_elem_of_In, filter_In in Hx as [Hx E].
      apply list_elem_of_In in Hx. auto. }
    assert (List.filter is_element (map (duplicate content None) (c :: l)) = map (duplicate content None) (c :: l)) as ->.
    { clear -F. induction F as [|x k [E _] _ IHk]; [done|]. cbn [map List.filter]. now rewrite duplicate_is_element, E, IHk. }
    cbn [map]. do 2 f_equal; [now apply Forall_cons in F as [[_ ->] _]|].
    rewrite map_map. apply Forall_cons in F as [_ F]. clear -F.
    induction F as [|x k [_ E] _ IHk]; [done|]. cbn. now rewrite E, IHk.
Qed.
End Copies.

(** A copy of a tree into another document is the same to every reader of namespaces, names,
    attributes, element children and the texts of leaves, and it is the last child of its destination,
    whose other children stay: for trees whose attributes are distinct and whose leaves hold no
    ampersand, under a destination without a default namespace. *)
Theorem ws_xml_duplicate_tree_spec content dst src : content_law content -> is_element dst = true -> is_element src = true ->
  tidy src ->
  exists copy, ws_xml_duplicate_tree content None dst src = append_child dst copy /\
    selected None None (Some (ws_xml_duplicate_tree content None dst src)) = selected None None (Some dst) ++ [copy] /\
    data_of copy = data_of src.
Proof.
  intros law Hd Hs T. exists (duplicate content None src). split; [done|]. split; [|now apply data_of_duplicate].
  unfold ws_xml_duplicate_tree. rewrite selected_append by done.
  now rewrite selects_any, duplicate_is_element, Hs.
Qed.
(** A parser of references: here the texts themselves. *)
Definition demo_content (t : cstring) : list xml := match t with [] => [] | _ => [Text t] end.
Lemma demo_content_law : content_law demo_content.
Proof. intros [|c t] _; [done|]. cbn. now rewrite app_nil_r. Qed.
Definition demo_tree : xml :=
  Elem (Some (lit "urn:a")) (lit "a") [Attr None (lit "k") (lit "v"); Attr (Some (lit "urn:b")) (lit "k") (lit "w")]
    [Text (lit " "); Elem None (lit "b") [] [Text (lit "x"); Other; Text (lit "y")]; Other; Elem None (lit "c") [] []].
Lemma ws_xml_duplicate_tree_spec_witness :
  exists copy, ws_xml_duplicate_tree demo_content None (ws_xml_create_envelope demo_content) demo_tree = append_child (ws_xml_create_envelope demo_content) copy /\
    selected None None (Some (ws_xml_duplicate_tree demo_content None (ws_xml_create_envelope demo_content) demo_tree)) =
      selected None None (Some (ws_xml_create_envelope demo_content)) ++ [copy] /\
    data_of copy = data_of demo_tree.
Proof.
  apply (ws_xml_duplicate_tree_spec demo_content); [apply demo_content_law|done|done|].
  cbn. unfold plain_text.
  repeat split; try done; try (vm_compute; discriminate); intros; apply (bool_decide_unpack _); vm_compute; exact I.
Defined.
(** Without its attribute [k] the element b is the last child of its parent. *)
Example attribute_removed b c : xml_parser_attr_remove 0 [c] (Elem None (lit "b") [Attr None (lit "k") (lit "v")] []) [b] = [c; Elem None (lit "b") [] []].
Proof. reflexivity. Qed.

End Xml.
