(* ===== verification/Epr.v ===== *)
(** * Epr: selectors and endpoint references (lib/wsman-key-value.c, lib/wsman-epr.c)

    A pointer to characters is [PNull], a string, or [PWild] where the code leaves a field as malloc
    gave it.  A set of selectors has the number that the struct gives, the state of its array and
    the entries that may be read.  Allocations succeed, but realloc to nothing gives
    what the parameter [realloc_0] says (NULL with the C library of Linux).  A hash table of selectors
    is the list of its entries in the order of a scan. *)
From S2P Require Import Prelude CString Names HttpText HttpAuth Uri Xml.
Import Names Xml.

Module Epr.

Inductive ptr := PNull | PStr (s : cstring) | PWild.
Inductive memory := Null | Live | Freed.
#[global] Instance ptr_eq_dec : EqDecision ptr.
Proof. solve_decision. Defined.
#[global] Instance memory_eq_dec : EqDecision memory.
Proof. solve_decision. Defined.
(** The string a pointer is read as. *)
Definition chars (p : ptr) : outcome cstring := match p with PStr s => Done s | _ => Undef end.
(** A test against NULL. *)
Definition maybe (p : ptr) : outcome (option cstring) :=
  match p with PStr s => Done (Some s) | PNull => Done None | PWild => Undef end.
(* src: lib/u/misc.c 140-143 u_strdup *)
Definition u_strdup (p : ptr) : outcome ptr := let* s := chars p in Done (PStr s).

(** [type] and the union [v]. *)
Inductive value (E : Type) := VText (t : ptr) | VEpr (e : option E) | VWild.
Arguments VText {E} _.
Arguments VEpr {E} _.
Arguments VWild {E}.
(* src: src/CIM_Framework/openwsman/include/wsman-key-value.h 49-56 key_value_t *)
Record key_value_t (E : Type) := KV { key : ptr; v : value E }.
Arguments KV {E} _ _.
Arguments key {E} _.
Arguments v {E} _.
(* src: src/CIM_Framework/openwsman/include/wsman-epr.h 47-50 SelectorSet *)
Record SelectorSet (E : Type) := SelSet { count : Z; selectors : memory; cells : list (key_value_t E) }.
Arguments SelSet {E} _ _ _.
Arguments count {E} _.
Arguments selectors {E} _.
Arguments cells {E} _.
#[local] Unset Elimination Schemes.
(* src: src/CIM_Framework/openwsman/include/wsman-epr.h 54-64 epr_t *)
Inductive epr_t := Epr (address uri : ptr) (selectorset : SelectorSet epr_t).
#[local] Set Elimination Schemes.
Definition address (e : epr_t) : ptr := match e with Epr a _ _ => a end.
Definition uri (e : epr_t) : ptr := match e with Epr _ u _ => u end.
Definition selectorset (e : epr_t) : SelectorSet epr_t := match e with Epr _ _ s => s end.
Definition set_selectors (s : SelectorSet epr_t) (e : epr_t) : epr_t := Epr (address e) (uri e) s.

(** The end point references of a set of selectors hold a property. *)
Definition in_value (P : epr_t -> Prop) (x : key_value_t epr_t) : Prop :=
  match v x with VEpr (Some e) => P e | _ => True end.
Section epr_ind.
Variable P : epr_t -> Prop.
Hypothesis P_epr : forall a u c m l, Forall (in_value P) l -> P (Epr a u (SelSet c m l)).
Fixpoint epr_ind (e : epr_t) : P e :=
  match e with
  | Epr a u (SelSet c m l) => P_epr a u c m l
      ((fix go (l : list (key_value_t epr_t)) : Forall (in_value P) l :=
          match l with
          | [] => Forall_nil_2 _
          | x :: l => Forall_cons_2 _ x l
              (match x as x return in_value P x with
               | KV k (VEpr (Some e)) => epr_ind e
               | KV k (VEpr None) | KV k (VText _) | KV k VWild => I
               end) (go l)
          end) l)
  end.
End epr_ind.

(** The loop [for (i = 0; i < n; i++)] over an array whose readable entries are [l]. *)
Section Each.
Context {A S : Type} (f : A -> S -> outcome S).
Fixpoint each (n : nat) (l : list A) (s : S) {struct l} : outcome S :=
  match n, l with
  | O, _ => Done s
  | Datatypes.S n, x :: l => let* s := f x s in each n l s
  | Datatypes.S _, [] => Undef
  end.
End Each.

(** ** Selectors *)

(** [copy] is epr_copy. *)
Section KeyValue.
Context (copy : epr_t -> outcome epr_t).
Definition copy_opt (e : option epr_t) : outcome (option epr_t) :=
  match e with None => Done None | Some e => let* e := copy e in Done (Some e) end.
Definition copy_key (k : ptr) : outcome ptr := let* k := maybe k in Done (match k with Some k => PStr k | None => PNull end).
(** Into memory of an array, or of its own. *)
(* src: lib/wsman-key-value.c 51-73 key_value_create *)
Definition key_value_create_with (key text : ptr) (epr : option epr_t) : outcome (key_value_t epr_t) :=
  let* k := copy_key key in
  let* t := maybe text in
  match t with
  | Some t => Done (KV k (VText (PStr t)))
  | None => let* e := copy_opt epr in Done (KV k (VEpr e))
  end.
(* src: lib/wsman-key-value.c 75-87 key_value_copy *)
Definition key_value_copy_with (from : key_value_t epr_t) : outcome (key_value_t epr_t) :=
  match from with
  | KV k x =>
      let* k := copy_key k in
      match x with
      | VText t => let* t := u_strdup t in Done (KV k (VText t))
      | VEpr None => Done (KV k (VEpr None))
      | VEpr (Some e) => let* e := copy e in Done (KV k (VEpr (Some e)))
      | VWild => Undef
      end
  end.
End KeyValue.

(** An address that is NULL is left unset in the copy. *)
(* src: lib/wsman-epr.c 294-327 epr_copy *)
Fixpoint epr_copy (e : epr_t) : outcome epr_t :=
  match e with
  | Epr a u (SelSet c m l) =>
      let* a := maybe a in
      let* u := u_strdup u in
      let* l := each (fun p1 l2 => let* p2 := key_value_copy_with epr_copy p1 in Done (l2 ++ [p2])) (Z.to_nat c) l [] in
      Done (Epr (match a with Some a => PStr a | None => PWild end) u (SelSet c Live l))
  end.
Definition key_value_create := key_value_create_with epr_copy.
Definition key_value_copy := key_value_copy_with epr_copy.

(** What u_free takes. *)
Definition u_free (p : ptr) : outcome unit := match p with PWild => Undef | _ => Done tt end.
(* src: lib/wsman-epr.c 277-292 epr_destroy *)
Fixpoint epr_destroy (e : epr_t) : outcome unit :=
  match e with
  | Epr a u (SelSet c m l) =>
      let* _ := u_free a in
      let* _ := u_free u in
      let* _ := each (fun p s =>
        match p with
        | KV k x =>
            let* _ := u_free k in
            match x with
            | VText t => u_free t
            | VEpr None => Done tt
            | VEpr (Some e) => epr_destroy e
            | VWild => Undef
            end
        end) (Z.to_nat c) l tt in
      match m with Freed => Undef | _ => Done tt end
  end.
(* src: lib/wsman-key-value.c 89-101 key_value_destroy *)
Definition key_value_destroy (kv : key_value_t epr_t) : outcome unit :=
  let* _ := u_free (key kv) in
  match v kv with
  | VText t => u_free t
  | VEpr e => from_option epr_destroy (Done tt) e
  | VWild => Undef
  end.

(** ** End point references *)

(** The loop ends with a copy of the text at the first selector of the name that is a text. *)
(* src: lib/wsman-epr.c 66-74 wsman_epr_selector_by_name *)
Fixpoint selector_by_name (name : cstring) (n : nat) (l : list (key_value_t epr_t)) : outcome (option ptr) :=
  match n, l with
  | O, _ => Done None
  | S n, s :: l =>
      let* k := chars (key s) in
      match v s with
      | VText t => if streq k name then let* t := u_strdup t in Done (Some t) else selector_by_name name n l
      | VEpr _ => selector_by_name name n l
      | VWild => if streq k name then Undef else selector_by_name name n l
      end
  | S _, [] => Undef
  end.
(* src: lib/wsman-epr.c 59-76 wsman_epr_selector_by_name *)
Definition wsman_epr_selector_by_name (e : epr_t) (name : cstring) : outcome (option ptr) :=
  let ss := selectorset e in
  match selectors ss with
  | Null => Done None
  | _ => selector_by_name name (Z.to_nat (count ss)) (cells ss)
  end.
(** The data [cb] works on is a value that it changes. *)
(* src: lib/wsman-epr.c 93-105 wsman_selectorset_cb *)
Definition wsman_selectorset_cb {D} (ss : SelectorSet epr_t) (cb : key_value_t epr_t -> D -> outcome D) (cb_data : D) : outcome D :=
  match selectors ss with Null => Done cb_data | _ => each cb (Z.to_nat (count ss)) (cells ss) cb_data end.
(* src: lib/wsman-epr.c 79-91 wsman_epr_selector_cb *)
Definition wsman_epr_selector_cb {D} (e : epr_t) (cb : key_value_t epr_t -> D -> outcome D) (cb_data : D) : outcome D :=
  wsman_selectorset_cb (selectorset e) cb cb_data.

(** The hash table gives names and entries; the keys of the entries are not looked at. *)
(* src: lib/wsman-epr.c 107-167 epr_create *)
Definition epr_create (uri : ptr) (sels : option (list (cstring * key_value_t epr_t))) (address : option cstring) : outcome epr_t :=
  let a := default WSA_TO_ANONYMOUS address in
  let* u := u_strdup uri in
  match sels with
  | Some l =>
      let* cs := each (fun e p =>
        let* kv := match v e.2 with
          | VText t => key_value_create (PStr e.1) t None
          | VEpr x => key_value_create (PStr e.1) PNull x
          | VWild => Undef
          end in Done (p ++ [kv])) (length l) l [] in
      Done (Epr (PStr a) u (SelSet (Z.of_nat (length l)) Live cs))
  | None => Done (Epr (PStr a) u (SelSet 0 Null []))
  end.

(** The table that u_parse_query makes, scanned; [scan] is the order of the scan of the table of selectors. *)
(* src: lib/wsman-epr.c 169-208 epr_from_string *)
Definition epr_from_string (scan : gmap cstring cstring -> list (cstring * cstring)) (str : cstring) : outcome epr_t :=
  match HttpAuth.split_at "?"%char str with
  | Some (uri, query) =>
      let sels := (fun m => map (fun e => (e.1, KV PNull (VText (PStr e.2)))) (scan m)) <$> Uri.u_parse_query (Some query) in
      epr_create (PStr uri) sels None
  | None => epr_create (PStr str) None None
  end.

(** The loop ends at the first key that is the name; a NULL key is passed over. *)
Definition has_key (name : ptr) (p : key_value_t epr_t) (found : bool) : outcome bool :=
  if found then Done true else
  let* k := maybe (key p) in
  match k with Some k => let* n := chars name in Done (streq n k) | None => Done false end.
(** A set that was freed has no entry that could be read, and realloc of it is undefined. *)
(* src: lib/wsman-epr.c 210-231 epr_add_selector *)
Definition epr_add_selector (e : option epr_t) (name text : ptr) (added_epr : option epr_t) : outcome (Z * option epr_t) :=
  match e with
  | None => Done (0, None)
  | Some e =>
      let ss := selectorset e in
      let* found := each (has_key name) (Z.to_nat (count ss)) (cells ss) false in
      if found : bool then Done (-1, Some e)
      else match selectors ss with
      | Freed => Undef
      | _ =>
          let* new_p := key_value_create name text added_epr in
          Done (0, Some (set_selectors (SelSet (u32 (count ss + 1)) Live (cells ss ++ [new_p])) e))
      end
  end.
(* src: lib/wsman-epr.c 233-236 epr_selector_count *)
Definition epr_selector_count (e : option epr_t) : Z := from_option (fun e => count (selectorset e)) 0 e.
(* src: lib/wsman-epr.c 238-241 epr_add_selector_text *)
Definition epr_add_selector_text (e : option epr_t) (name text : cstring) : outcome (Z * option epr_t) :=
  epr_add_selector e (PStr name) (PStr text) None.
(* src: lib/wsman-epr.c 243-246 epr_add_selector_epr *)
Definition epr_add_selector_epr (e : option epr_t) (name : cstring) (added : option epr_t) : outcome (Z * option epr_t) :=
  epr_add_selector e (PStr name) PNull added.

(** The index of the first selector of the name. *)
(* src: lib/wsman-epr.c 254-258 epr_delete_selector *)
Fixpoint selector_index (name : cstring) (n : nat) (l : list (key_value_t epr_t)) : outcome nat :=
  match n, l with
  | O, _ => Done O
  | S n, s :: l =>
      let* k := chars (key s) in
      if streq name k then Done O else let* i := selector_index name n l in Done (S i)
  | S _, [] => Undef
  end.
(** When the last selector goes, realloc to nothing frees the array; where it answers NULL the function
    returns -1 and leaves the count and the pointer as they were. *)
(* src: lib/wsman-epr.c 248-275 epr_delete_selector *)
Definition epr_delete_selector (realloc_0 : bool) (e : option epr_t) (name : option cstring) : outcome (Z * option epr_t) :=
  match e, name with
  | Some e, Some name =>
      let ss := selectorset e in
      let n := Z.to_nat (count ss) in
      let* i := selector_index name n (cells ss) in
      if bool_decide (i = n) then Done (-1, Some e)
      else
        let* kv := rd (cells ss) (Z.of_nat i) in
        let* _ := key_value_destroy kv in
        if (count ss =? 1) && negb realloc_0 then Done (-1, Some (set_selectors (SelSet (count ss) Freed []) e))
        else Done (0, Some (set_selectors (SelSet (count ss - 1) Live (delete i (cells ss))) e))
  | e, _ => Done (0, e)
  end.

(** p2 runs over the selectors of the first reference as well. *)
(* src: lib/wsman-epr.c 329-365 epr_cmp *)
Fixpoint epr_cmp (epr1 epr2 : epr_t) : outcome Z :=
  match epr1 with
  | Epr _ u1 (SelSet c1 m1 l1) =>
      let* x1 := chars u1 in
      let* x2 := chars (uri epr2) in
      if negb (streq x1 x2) then Done 1
      else if negb (c1 =? count (selectorset epr2)) then Done 1
      else
        let* matches := each (fun p1 matches =>
          each (fun p2 matches =>
            match p1 with
            | KV k1 v1 =>
                let* k1 := chars k1 in
                let* k2 := chars (key p2) in
                if negb (streq k1 k2) then Done matches
                else match v1, v p2 with
                | VText t1, VText t2 =>
                    let* t1 := chars t1 in
                    let* t2 := chars t2 in
                    Done (if streq t1 t2 then u32 (matches + 1) else matches)
                | VEpr (Some e1), VEpr (Some e2) =>
                    let* r := epr_cmp e1 e2 in
                    Done (if r =? 1 then matches else u32 (matches + 1))
                | VEpr _, VEpr _ => AssertFail
                | VText _, VEpr _ | VEpr _, VText _ => Done matches
                | VWild, _ | _, VWild => Undef
                end
            end) (Z.to_nat (count (selectorset epr2))) l1 matches) (Z.to_nat c1) l1 0 in
        Done (if matches =? c1 then 0 else 1)
  end.

(** The text, of lengths that fit an int, into a buffer of the length that is counted first. *)
(* src: lib/wsman-epr.c 367-421 epr_to_string *)
Fixpoint epr_to_string (e : epr_t) : outcome cstring :=
  match e with
  | Epr _ u (SelSet c m l) =>
      let* u := chars u in
      let* len := each (fun p len =>
        match p with
        | KV k x =>
            let* k := chars k in
            let len := (len + (length k + 1))%nat in
            match x with
            | VText t => let* t := chars t in Done (len + (length t + 1))%nat
            | VEpr (Some e) => let* value := epr_to_string e in Done (len + (length value + 1))%nat
            | VEpr None => Done len
            | VWild => Undef
            end
        end) (Z.to_nat c) l (length u) in
      let* buf := each (fun p s =>
        match p with
        | KV k x =>
            let* k := chars k in
            let '(i, buf) := s in
            let buf := buf ++ [if Nat.eqb i 0 then "?"%char else "&"%char] ++ k ++ ["="%char] in
            match x with
            | VText t => let* t := chars t in Done (S i, buf ++ t)
            | VEpr (Some e) => let* value := epr_to_string e in Done (S i, buf ++ value)
            | VEpr None => Done (S i, buf)
            | VWild => Undef
            end
        end) (Z.to_nat c) l (O, u) in
      (* the terminator has to fit as well *)
      if (length buf.2 + 1 <=? len + 1)%nat then Done buf.2 else Undef
  end.
(* src: lib/wsman-epr.c 440-445 epr_get_resource_uri *)
Definition epr_get_resource_uri (e : option epr_t) : ptr := from_option uri PNull e.
(** The value of a selector that is a reference is read as a string: undefined. *)
(* src: lib/wsman-epr.c 592-601 get_cimnamespace_from_selectorset *)
Fixpoint get_cimnamespace (n : nat) (l : list (key_value_t epr_t)) : outcome ptr :=
  match n, l with
  | O, _ => Done PNull
  | S n, s :: l =>
      let* k := chars (key s) in
      if streq k CIM_NAMESPACE_SELECTOR then match v s with VText t => Done t | _ => Undef end
      else get_cimnamespace n l
  | S _, [] => Undef
  end.

(** ** In XML *)
Section Serialize.
Context (content : cstring -> list xml) (default_ns : option cstring).
#[local] Abbreviation add_child := (ws_xml_add_child content).
#[local] Abbreviation add_child_with := (ws_xml_add_child_with content).

(** [node] has the attributes and children that it gets here, [Done] stands for the 0 that is returned. *)
(* src: lib/wsman-epr.c 447-499 epr_serialize *)
Fixpoint epr_serialize (node : xml) (ns epr_node_name : option cstring) (e : epr_t) (embedded : bool) : outcome xml :=
  match e with
  | Epr a u (SelSet c m l) =>
      let* a := maybe a in
      let* u := maybe u in
      let address := fun eprnode => add_child eprnode (Some XML_NS_ADDRESSING) (if embedded then WSA_ADDRESS else WSA_TO) a in
      let params := fun refparamnode =>
        let refparamnode := add_child refparamnode (Some XML_NS_WS_MAN) WSM_RESOURCE_URI u in
        add_child_with refparamnode (Some XML_NS_WS_MAN) WSM_SELECTOR_SET None
          (each (fun p selectorsetnode =>
            match p with
            | KV k x =>
                let name := fun temp => let* k := maybe k in Done (ws_xml_add_node_attr default_ns temp None WSM_NAME k) in
                match x with
                | VText t =>
                    let* t := maybe t in
                    add_child_with selectorsetnode (Some XML_NS_WS_MAN) WSM_SELECTOR t name
                | VEpr e =>
                    add_child_with selectorsetnode (Some XML_NS_WS_MAN) WSM_SELECTOR None (fun temp =>
                      let* temp := match e with
                        | Some e => epr_serialize temp (Some XML_NS_ADDRESSING) (Some WSA_EPR) e true
                        | None => Done temp
                        end in
                      name temp)
                | VWild => Undef
                end
            end) (Z.to_nat c) l) in
      match epr_node_name, embedded with
      | Some n, true => add_child_with node ns n None (fun eprnode =>
          add_child_with (address eprnode) (Some XML_NS_ADDRESSING) WSA_REFERENCE_PARAMETERS None params)
      | Some n, false =>
          let* node := add_child_with node ns n None (fun eprnode => Done (address eprnode)) in params node
      | None, true => add_child_with (address node) (Some XML_NS_ADDRESSING) WSA_REFERENCE_PARAMETERS None params
      | None, false => params (address node)
      end
  end.
(** A NULL reference adds nothing. *)
(* src: lib/wsman-epr.c 454-454 epr_serialize *)
Definition epr_serialize_opt (node : xml) (ns epr_node_name : option cstring) (e : option epr_t) (embedded : bool) : outcome xml :=
  match e with None => Done node | Some e => epr_serialize node ns epr_node_name e embedded end.
End Serialize.

(** One selector, [deserialize] reads nested references.  One that is missing is read as an empty text,
    and one without a Name leaves the key as it was. *)
(* src: lib/wsman-epr.c 563-575 epr_deserialize *)
Definition read_selector (deserialize : option xml -> outcome (option epr_t)) (selectorsetnode : option xml) (i : nat)
  : outcome (key_value_t epr_t) :=
  let temp := ws_xml_get_child selectorsetnode (Z.of_nat i) (Some XML_NS_WS_MAN) (Some WSM_SELECTOR) in
  let key := match ws_xml_find_node_attr temp None (lit "Name") with Some a => PStr (attr_value a) | None => PWild end in
  match ws_xml_get_child temp 0 (Some XML_NS_ADDRESSING) (Some WSA_EPR) with
  | Some _ => let* e := deserialize temp in Done (KV key (VEpr e))
  | None => Done (KV key (VText (PStr (ws_xml_get_node_text_safe temp))))
  end.
(** There are as many selectors as the set has children of any name.  [fuel] bounds the nesting of references. *)
(* src: lib/wsman-epr.c 501-590 epr_deserialize *)
Fixpoint epr_deserialize (fuel : nat) (node : option xml) (ns epr_node_name : option cstring) (embedded : bool) : outcome (option epr_t) :=
  match fuel with
  | O => Diverge
  | S fuel =>
      let eprnode := match epr_node_name with Some n => ws_xml_get_child node 0 ns (Some n) | None => node end in
      match eprnode, epr_node_name with
      | None, Some _ => Done None
      | _, _ =>
      match ws_xml_get_child eprnode 0 (Some XML_NS_ADDRESSING) (Some (if embedded then WSA_ADDRESS else WSA_TO)) with
      | None => Done None
      | Some temp =>
      let address := PStr (ws_xml_get_node_text_safe (Some temp)) in
      let refparamnode := if embedded
        then ws_xml_get_child eprnode 0 (Some XML_NS_ADDRESSING) (Some WSA_REFERENCE_PARAMETERS) else node in
      match refparamnode with
      | None => Done None
      | Some _ =>
      match ws_xml_get_child refparamnode 0 (Some XML_NS_WS_MAN) (Some WSM_RESOURCE_URI) with
      | None => Done None
      | Some temp =>
      let uri := PStr (ws_xml_get_node_text_safe (Some temp)) in
      let selectorsetnode := ws_xml_get_child refparamnode 0 (Some XML_NS_WS_MAN) (Some WSM_SELECTOR_SET) in
      let count := ws_xml_get_child_count selectorsetnode in
      let* cells := each (fun i cells =>
        let* kv := read_selector (fun temp => epr_deserialize fuel temp (Some XML_NS_ADDRESSING) (Some WSA_EPR) true)
          selectorsetnode i in
        Done (cells ++ [kv])) (Z.to_nat count) (seq 0 (Z.to_nat count)) [] in
      Done (Some (Epr address uri (SelSet count Live cells)))
      end end end end
  end.

(** ** References that the library builds *)

(** Everything is there, the count is that of the entries, and the texts have the property [T]. *)
#[local] Unset Elimination Schemes.
Inductive sound (T : cstring -> Prop) : epr_t -> Prop :=
  | Sound a u l : T a -> T u -> Forall (sound_kv T) l -> sound T (Epr (PStr a) (PStr u) (SelSet (Z.of_nat (length l)) Live l))
with sound_kv (T : cstring -> Prop) : key_value_t epr_t -> Prop :=
  | Sound_text k t : T t -> sound_kv T (KV (PStr k) (VText (PStr t)))
  | Sound_ref k e : sound T e -> sound_kv T (KV (PStr k) (VEpr (Some e))).
#[local] Set Elimination Schemes.
Definition key_name (x : key_value_t epr_t) : cstring := match key x with PStr k => k | _ => [] end.
Definition names (l : list (key_value_t epr_t)) : list cstring := map key_name l.
Lemma sound_key T x : sound_kv T x -> key x = PStr (key_name x).
Proof. now destruct 1. Qed.

(** Induction over sound references: the references among the selectors have the property. *)
Lemma sound_ind' (T : cstring -> Prop) (P : epr_t -> Prop) :
  (forall a u l, T a -> T u -> Forall (sound_kv T) l -> Forall (in_value P) l ->
    P (Epr (PStr a) (PStr u) (SelSet (Z.of_nat (length l)) Live l))) -> forall e, sound T e -> P e.
Proof.
  intros H e. induction e as [a u c m l IH] using epr_ind. intros S. inversion S as [a' u' l' Ta Tu F]; subst.
  apply H; try done. clear -IH F.
  induction F as [|x l Hx F IHF]; [constructor|]. apply Forall_cons in IH as [Hx' IH].
  constructor; [|auto]. destruct Hx; [done|]. unfold in_value in *. cbn in *. auto.
Qed.

Section EachFacts.
Context {A S : Type}.
Lemma each_fold (f : A -> S -> outcome S) (h : A -> S -> S) (Q : S -> Prop) l :
  Forall (fun x => forall s, Q s -> f x s = Done (h x s) /\ Q (h x s)) l ->
  forall s, Q s -> each f (length l) l s = Done (fold_left (fun s x => h x s) l s).
Proof.
  induction 1 as [|x l Hx _ IH]; intros s Hs; [done|]. cbn. destruct (Hx s Hs) as [-> Hq]. cbn. auto.
Qed.
Lemma each_collect {B} (f : A -> outcome B) (g : A -> B) l acc :
  Forall (fun x => f x = Done (g x)) l ->
  each (fun x acc => let* y := f x in Done (acc ++ [y])) (length l) l acc = Done (acc ++ map g l).
Proof.
  intros F. revert acc. induction F as [|x l Hx _ IH]; intros acc; cbn; [now rewrite app_nil_r|].
  rewrite Hx. cbn. rewrite IH, <- app_assoc. done.
Qed.
Lemma each_const (f : A -> S -> outcome S) s l : Forall (fun x => f x s = Done s) l -> each f (length l) l s = Done s.
Proof. induction 1 as [|x l Hx _ IH]; [done|]. cbn. rewrite Hx. done. Qed.
End EachFacts.

Lemma key_value_copy_sound T x : sound_kv T x -> in_value (fun e => epr_copy e = Done e) x -> key_value_copy x = Done x.
Proof. destruct 1; cbn; intros Hc; [done|]. unfold in_value in Hc. cbn in Hc. now rewrite Hc. Qed.
Lemma epr_copy_ok T e : sound T e -> epr_copy e = Done e.
Proof.
  revert e. apply sound_ind'. intros a u l _ _ F IH. cbn [epr_copy maybe u_strdup chars obind].
  rewrite Nat2Z.id. rewrite (each_collect (key_value_copy_with epr_copy) id); [now rewrite map_id|].
  induction F as [|x l Hx F IHF]; [constructor|]. apply Forall_cons in IH as [Hx' IH].
  constructor; [now apply key_value_copy_sound with T|auto].
Qed.
Lemma key_value_destroy_ok T x : sound_kv T x -> in_value (fun e => epr_destroy e = Done tt) x -> key_value_destroy x = Done tt.
Proof. destruct 1; cbn; intros Hc; [done|]. unfold in_value in Hc. cbn in Hc. exact Hc. Qed.
Lemma epr_destroy_ok T e : sound T e -> epr_destroy e = Done tt.
Proof.
  revert e. apply sound_ind'. intros a u l _ _ F IH. cbn [epr_destroy u_free obind]. rewrite Nat2Z.id.
  rewrite each_const; [done|].
  induction F as [|x l Hx F IHF]; [constructor|]. apply Forall_cons in IH as [Hx' IH]. constructor; [|auto].
  pose proof (key_value_destroy_ok T x Hx Hx') as E. destruct Hx; exact E.
Qed.

(** ** The XML of a reference, and reading it back *)

(** Evaluates the tests between names of the header. *)
Ltac eval_names := repeat match goal with
  | |- context [streq ?a ?b] => let r := eval vm_compute in (streq a b) in
      match r with true => change (streq a b) with true | false => change (streq a b) with false end
  end; cbn [andb orb negb].
Lemma selects_elem ns name n m a ch :
  selects (Some ns) (Some name) (Elem (Some n) m a ch) = streq n ns && streq name m.
Proof. done. Qed.
Lemma selects_self ns name a ch : selects ns (Some name) (Elem ns name a ch) = true.
Proof. unfold selects. cbn. rewrite streq_refl, andb_true_r. destruct ns; [apply streq_refl|done]. Qed.
Lemma selected_nothing ns name p : List.filter is_element (children p) = [] -> selected ns name (Some p) = [].
Proof.
  unfold selected. cbn [from_option]. induction (children p) as [|c l IH]; [done|]. cbn [List.filter].
  unfold selects at 1. destruct (is_element c); [done|]. cbn. auto.
Qed.
Lemma get_name_attr ns name k ch :
  ws_xml_find_node_attr (Some (Elem ns name [Attr None WSM_NAME k] ch)) None (lit "Name") = Some (Attr None WSM_NAME k).
Proof. cbn. unfold is_attr. cbn [attr_ns attr_name]. now rewrite bool_decide_true. Qed.
Lemma each_seq {A} (f : nat -> outcome A) l : (forall i x, l !! i = Some x -> f i = Done x) ->
  each (fun i acc => let* x := f i in Done (acc ++ [x])) (length l) (seq 0 (length l)) [] = Done l.
Proof.
  assert (forall k j acc, (forall i x, k !! i = Some x -> f (j + i)%nat = Done x) ->
    each (fun i acc => let* x := f i in Done (acc ++ [x])) (length k) (seq j (length k)) acc = Done (acc ++ k)) as G.
  { intros k. induction k as [|x k IH]; intros j acc H; cbn; [now rewrite app_nil_r|].
    pose proof (H 0%nat x eq_refl) as H0. rewrite Nat.add_0_r in H0. rewrite H0. cbn.
    rewrite (IH (S j)); [now rewrite <- app_assoc|]. intros i y Hy.
    replace (S j + i)%nat with (j + S i)%nat by lia. now apply H. }
  intros H. now apply (G l 0%nat []).
Qed.

(** Looks a child up by a name among children that are spelled out. *)
Ltac find_child := rewrite ws_xml_get_child_0; unfold selected; cbn [from_option children List.filter];
  rewrite !selects_elem; eval_names; reflexivity.

Section RoundTrip.
Context {content : cstring -> list xml} (law : content_law content).

Definition leaf (ns name t : cstring) : xml := Elem (Some ns) name [] (content t).
Definition text_of (p : ptr) : cstring := match p with PStr s => s | _ => [] end.
Fixpoint epr_tree (ns : option cstring) (name : cstring) (e : epr_t) : xml :=
  match e with
  | Epr a u (SelSet c m l) =>
      Elem ns name [] [
        leaf XML_NS_ADDRESSING WSA_ADDRESS (text_of a);
        Elem (Some XML_NS_ADDRESSING) WSA_REFERENCE_PARAMETERS [] [
          leaf XML_NS_WS_MAN WSM_RESOURCE_URI (text_of u);
          Elem (Some XML_NS_WS_MAN) WSM_SELECTOR_SET [] (map (fun x =>
            match x with
            | KV k x => Elem (Some XML_NS_WS_MAN) WSM_SELECTOR [Attr None WSM_NAME (text_of k)]
                match x with
                | VText t => content (text_of t)
                | VEpr (Some e) => [epr_tree (Some XML_NS_ADDRESSING) WSA_EPR e]
                | _ => []
                end
            end) l)]]
  end.
Definition selector_tree (x : key_value_t epr_t) : xml :=
  Elem (Some XML_NS_WS_MAN) WSM_SELECTOR [Attr None WSM_NAME (key_name x)]
    match v x with
    | VText t => content (text_of t)
    | VEpr (Some e) => [epr_tree (Some XML_NS_ADDRESSING) WSA_EPR e]
    | _ => []
    end.
Lemma epr_tree_eq ns name a u c m l : epr_tree ns name (Epr a u (SelSet c m l)) =
  Elem ns name [] [leaf XML_NS_ADDRESSING WSA_ADDRESS (text_of a);
    Elem (Some XML_NS_ADDRESSING) WSA_REFERENCE_PARAMETERS [] [
      leaf XML_NS_WS_MAN WSM_RESOURCE_URI (text_of u); Elem (Some XML_NS_WS_MAN) WSM_SELECTOR_SET [] (map selector_tree l)]].
Proof.
  cbn [epr_tree]. do 2 f_equal. f_equal. f_equal. f_equal. f_equal. f_equal. apply map_ext. now intros [k [t|[e|]|]].
Qed.
Lemma fold_selectors ns name a ch l :
  fold_left (fun s x => append_child s (selector_tree x)) l (Elem ns name a ch) = Elem ns name a (ch ++ map selector_tree l).
Proof.
  revert ch. induction l as [|x l IH]; intros ch; cbn; [now rewrite app_nil_r|]. now rewrite IH, <- app_assoc.
Qed.

Definition one_selector (p : key_value_t epr_t) (selectorsetnode : xml) : outcome xml :=
  match p with
  | KV k x =>
      let name := fun temp => let* k := maybe k in Done (ws_xml_add_node_attr None temp None WSM_NAME k) in
      match x with
      | VText t =>
          let* t := maybe t in ws_xml_add_child_with content selectorsetnode (Some XML_NS_WS_MAN) WSM_SELECTOR t name
      | VEpr e =>
          ws_xml_add_child_with content selectorsetnode (Some XML_NS_WS_MAN) WSM_SELECTOR None (fun temp =>
            let* temp := match e with
              | Some e => epr_serialize content None temp (Some XML_NS_ADDRESSING) (Some WSA_EPR) e true
              | None => Done temp
              end in name temp)
      | VWild => Undef
      end
  end.
Definition serialized (e : epr_t) : Prop := forall node ns name,
  epr_serialize content None node ns (Some name) e true = Done (append_child node (epr_tree ns name e)).
Lemma one_selector_eq T x s : sound_kv T x -> in_value serialized x -> one_selector x s = Done (append_child s (selector_tree x)).
Proof.
  destruct 1 as [k t Ht|k e He]; intros H; [done|]. unfold in_value in H. cbn in H.
  unfold one_selector, ws_xml_add_child_with, xml_parser_node_add. rewrite H. done.
Qed.
Lemma selectors_serialized T l : Forall (sound_kv T) l -> Forall (in_value serialized) l ->
  each one_selector (length l) l (Elem (Some XML_NS_WS_MAN) WSM_SELECTOR_SET [] []) =
  Done (Elem (Some XML_NS_WS_MAN) WSM_SELECTOR_SET [] (map selector_tree l)).
Proof.
  intros F IH. rewrite (each_fold _ (fun x s => append_child s (selector_tree x)) (fun _ => True)); [|..|done].
  - now rewrite fold_selectors.
  - rewrite Forall_forall in *. intros x Hx s _. split; [|done]. eapply one_selector_eq; eauto.
Qed.
Lemma epr_serialize_eq T e : sound T e -> serialized e.
Proof.
  revert e. apply sound_ind'. intros a u l _ _ F IH node ns name. rewrite epr_tree_eq.
  cbn [epr_serialize maybe obind]. fold one_selector. rewrite Nat2Z.id.
  unfold ws_xml_add_child_with, xml_parser_node_add. cbn [make_new_xml_node].
  change (make_new_xml_node content (Some XML_NS_WS_MAN) WSM_SELECTOR_SET None false)
    with (Elem (Some XML_NS_WS_MAN) WSM_SELECTOR_SET [] []).
  rewrite (selectors_serialized T) by done. done.
Qed.

(** How deep references are nested. *)
Fixpoint depth (e : epr_t) : nat :=
  match e with
  | Epr _ _ (SelSet _ _ l) => S ((fix go (l : list (key_value_t epr_t)) : nat :=
      match l with
      | [] => O
      | KV _ (VEpr (Some e)) :: l => Nat.max (depth e) (go l)
      | _ :: l => go l
      end) l)
  end.
Lemma depth_entry a u c m l fuel : (depth (Epr a u (SelSet c m l)) <= S fuel)%nat ->
  Forall (in_value (fun e => (depth e <= fuel)%nat)) l.
Proof.
  cbn [depth]. intros H. apply le_S_n in H.
  induction l as [|[k [t|[e|]|]] l IH]; constructor; try (exact I); try (now apply IH).
  - exact (Nat.max_lub_l _ _ _ H).
  - exact (IH (Nat.max_lub_r _ _ _ H)).
Qed.

Lemma leaf_text ns name t : plain_text t -> content_of (leaf ns name t) = t.
Proof. intros P. unfold leaf. rewrite content_of_elem. now apply law. Qed.
Definition read_back (e : epr_t) : Prop := forall fuel node ns name, (depth e <= fuel)%nat ->
  head (selected ns (Some name) (Some node)) = Some (epr_tree ns name e) ->
  epr_deserialize fuel (Some node) ns (Some name) true = Done (Some e).
Lemma selector_tree_elements l : List.filter is_element (map selector_tree l) = map selector_tree l.
Proof. induction l as [|x l IH]; [done|]. cbn. now rewrite IH. Qed.
Lemma selected_selectors l ns name a :
  selected (Some XML_NS_WS_MAN) (Some WSM_SELECTOR) (Some (Elem ns name a (map selector_tree l))) = map selector_tree l.
Proof.
  unfold selected. cbn [from_option children]. induction l as [|x l IH]; [done|]. cbn [map List.filter].
  unfold selector_tree at 1. rewrite selects_elem. eval_names. now rewrite IH.
Qed.
#[local] Abbreviation read_nested fuel := (fun temp => epr_deserialize fuel temp (Some XML_NS_ADDRESSING) (Some WSA_EPR) true).
Lemma read_selector_eq fuel ns name a l i x : l !! i = Some x -> sound_kv plain_text x ->
  in_value read_back x -> in_value (fun e => (depth e <= fuel)%nat) x ->
  read_selector (read_nested fuel) (Some (Elem ns name a (map selector_tree l))) i = Done x.
Proof using law.
  intros Hi Hx R D. unfold read_selector. cbv zeta. rewrite ws_xml_get_child_nth, selected_selectors, list_lookup_fmap, Hi.
  cbn [fmap option_fmap option_map]. 
  replace (ws_xml_find_node_attr (Some (selector_tree x)) None (lit "Name")) with (Some (Attr None WSM_NAME (key_name x)))
    by (symmetry; apply get_name_attr). cbn [attr_value].
  destruct Hx as [k t Ht|k e He]; cbn [key_name key v text_of].
  - unfold selector_tree. cbn [key_name key v text_of]. rewrite ws_xml_get_child_0, selected_nothing by now apply law. cbn [head].
    unfold ws_xml_get_node_text_safe. cbn [ws_xml_get_node_text fmap option_fmap option_map default from_option id].
    rewrite content_of_elem. cbn [obind]. unfold id. now rewrite (proj2 (law t Ht)).
  - unfold in_value in R, D. cbn in R, D.
    assert (head (selected (Some XML_NS_ADDRESSING) (Some WSA_EPR)
      (Some (selector_tree (KV (PStr k) (VEpr (Some e)))))) = Some (epr_tree (Some XML_NS_ADDRESSING) WSA_EPR e)) as Hh.
    { unfold selected. cbn [from_option children selector_tree key_name key v List.filter].
      destruct e as [a' u' [c' m' l']]. rewrite epr_tree_eq, selects_self. done. }
    rewrite ws_xml_get_child_0. rewrite Hh. rewrite R by done. done.
Qed.
(** The function reads the selectors with [read_selector]. *)
Lemma deserialize_body fuel ns name e node : sound plain_text e -> (depth e <= S fuel)%nat ->
  Forall (in_value read_back) (cells (selectorset e)) ->
  head (selected ns (Some name) (Some node)) = Some (epr_tree ns name e) ->
  epr_deserialize (S fuel) (Some node) ns (Some name) true = Done (Some e).
Proof using law.
  intros S D R Hh. destruct S as [a u l Ta Tu F]. cbn [selectorset cells] in R. apply depth_entry in D.
  rewrite epr_tree_eq in Hh. cbn [text_of] in Hh.
  set (set := Elem (Some XML_NS_WS_MAN) WSM_SELECTOR_SET [] (map selector_tree l)) in *.
  set (params := Elem (Some XML_NS_ADDRESSING) WSA_REFERENCE_PARAMETERS [] [leaf XML_NS_WS_MAN WSM_RESOURCE_URI u; set]) in *.
  set (tree := Elem ns name [] [leaf XML_NS_ADDRESSING WSA_ADDRESS a; params]) in *.
  assert (ws_xml_get_child (Some node) 0 ns (Some name) = Some tree) as E1 by now rewrite ws_xml_get_child_0.
  assert (ws_xml_get_child (Some tree) 0 (Some XML_NS_ADDRESSING) (Some WSA_ADDRESS) =
    Some (leaf XML_NS_ADDRESSING WSA_ADDRESS a)) as E2 by (subst tree; unfold leaf; find_child).
  assert (ws_xml_get_child (Some tree) 0 (Some XML_NS_ADDRESSING) (Some WSA_REFERENCE_PARAMETERS) = Some params) as E3
    by (subst tree params; unfold leaf; find_child).
  assert (ws_xml_get_child (Some params) 0 (Some XML_NS_WS_MAN) (Some WSM_RESOURCE_URI) =
    Some (leaf XML_NS_WS_MAN WSM_RESOURCE_URI u)) as E4 by (subst params; unfold leaf; find_child).
  assert (ws_xml_get_child (Some params) 0 (Some XML_NS_WS_MAN) (Some WSM_SELECTOR_SET) = Some set) as E5
    by (subst params set; unfold leaf; find_child).
  assert (ws_xml_get_child_count (Some set) = Z.of_nat (length l)) as E6.
  { rewrite child_count_selected. subst set. unfold selected. cbn [from_option children].
    rewrite (filter_ext' _ _ _ selects_any), selector_tree_elements. now rewrite length_map. }
  cbn [epr_deserialize]. rewrite E1, E2, E3, E4, E5, E6, Nat2Z.id.
  rewrite (each_seq _ l).
  - cbn [obind]. unfold ws_xml_get_node_text_safe. cbn [ws_xml_get_node_text fmap option_fmap option_map default from_option].
    now rewrite !leaf_text.
  - intros i x Hi. rewrite Forall_forall in *. pose proof (list_elem_of_lookup_2 _ _ _ Hi) as Hx.
    apply read_selector_eq; auto.
Qed.
Lemma epr_deserialize_eq e : sound plain_text e -> read_back e.
Proof using law.
  revert e. apply sound_ind'. intros a u l Ta Tu F IH [|fuel] node ns name D Hh; [cbn in D; lia|].
  apply deserialize_body; [now constructor|done|done|done].
Qed.

(** The form of a header: the parts are children of the node itself. *)
Lemma serialize_header T node ns e : sound T e -> is_element node = true ->
  epr_serialize content None node ns None e false = Done (append_child (append_child (append_child node
    (leaf XML_NS_ADDRESSING WSA_TO (text_of (address e)))) (leaf XML_NS_WS_MAN WSM_RESOURCE_URI (text_of (uri e))))
    (Elem (Some XML_NS_WS_MAN) WSM_SELECTOR_SET [] (map selector_tree (cells (selectorset e))))).
Proof.
  intros S Hn. destruct S as [a u l Ta Tu F]. cbn [epr_serialize maybe obind]. fold one_selector. rewrite Nat2Z.id.
  unfold ws_xml_add_child_with, xml_parser_node_add.
  change (make_new_xml_node content (Some XML_NS_WS_MAN) WSM_SELECTOR_SET None false)
    with (Elem (Some XML_NS_WS_MAN) WSM_SELECTOR_SET [] []).
  rewrite (selectors_serialized T); [done|done|].
  apply Forall_forall. intros x Hx. rewrite Forall_forall in F. destruct (F x Hx); [done|].
  unfold in_value. cbn. now apply (epr_serialize_eq T).
Qed.
Definition part_names : list (cstring * cstring) :=
  [(XML_NS_ADDRESSING, WSA_TO); (XML_NS_WS_MAN, WSM_RESOURCE_URI); (XML_NS_WS_MAN, WSM_SELECTOR_SET)].
Definition no_parts (node : xml) : Prop := Forall (fun q => selected (Some q.1) (Some q.2) (Some node) = []) part_names.
Lemma deserialize_header e node ns : sound plain_text e -> is_element node = true -> no_parts node ->
  epr_deserialize (depth e) (Some (append_child (append_child (append_child node
    (leaf XML_NS_ADDRESSING WSA_TO (text_of (address e)))) (leaf XML_NS_WS_MAN WSM_RESOURCE_URI (text_of (uri e))))
    (Elem (Some XML_NS_WS_MAN) WSM_SELECTOR_SET [] (map selector_tree (cells (selectorset e)))))) ns None false = Done (Some e).
Proof using law.
  intros S Hn P. pose proof S as S'. destruct S as [a u l Ta Tu F]. cbn [address uri selectorset cells text_of].
  apply Forall_cons in P as [P1 P]. apply Forall_cons in P as [P2 P]. apply Forall_cons in P as [P3 _]. cbn [fst snd] in *.
  set (node' := append_child _ (Elem _ _ _ _)).
  set (set := Elem (Some XML_NS_WS_MAN) WSM_SELECTOR_SET [] (map selector_tree l)) in *.
  assert (forall N n, selected (Some N) (Some n) (Some node') = selected (Some N) (Some n) (Some node) ++
    (if selects (Some N) (Some n) (leaf XML_NS_ADDRESSING WSA_TO a) then [leaf XML_NS_ADDRESSING WSA_TO a] else []) ++
    (if selects (Some N) (Some n) (leaf XML_NS_WS_MAN WSM_RESOURCE_URI u) then [leaf XML_NS_WS_MAN WSM_RESOURCE_URI u] else []) ++
    (if selects (Some N) (Some n) set then [set] else [])) as E.
  { intros N n. subst node'. rewrite !selected_append by now rewrite ?append_element. now rewrite <- !app_assoc. }
  assert (forall N n c, (N, n) ∈ part_names -> head (selected (Some N) (Some n) (Some node')) = Some c ->
    ws_xml_get_child (Some node') 0 (Some N) (Some n) = Some c) as G by (intros; now rewrite ws_xml_get_child_0).
  pose proof (G XML_NS_ADDRESSING WSA_TO (leaf XML_NS_ADDRESSING WSA_TO a)) as G1.
  pose proof (G XML_NS_WS_MAN WSM_RESOURCE_URI (leaf XML_NS_WS_MAN WSM_RESOURCE_URI u)) as G2.
  pose proof (G XML_NS_WS_MAN WSM_SELECTOR_SET set) as G3.
  rewrite E, P1 in G1. rewrite E, P2 in G2. rewrite E, P3 in G3. unfold leaf in G1, G2, G3. subst set.
  rewrite !selects_elem in G1, G2, G3. fold (leaf XML_NS_ADDRESSING WSA_TO a) (leaf XML_NS_WS_MAN WSM_RESOURCE_URI u) in *.
  assert (depth (Epr (PStr a) (PStr u) (SelSet (Z.of_nat (length l)) Live l)) =
    S (Nat.pred (depth (Epr (PStr a) (PStr u) (SelSet (Z.of_nat (length l)) Live l))))) as -> by done.
  set (fuel := Nat.pred _).
  assert (Forall (in_value (fun e => (depth e <= fuel)%nat)) l) as D by now apply (depth_entry (PStr a) (PStr u) (Z.of_nat (length l)) Live).
  cbn [epr_deserialize]. rewrite G1, G2, G3 by (try apply list_elem_of_In; cbn; eval_names; tauto || done).
  rewrite child_count_selected. unfold selected. cbn [from_option children].
  rewrite (filter_ext' _ _ _ selects_any), selector_tree_elements, length_map, Nat2Z.id, (each_seq _ l).
  - cbn [obind]. unfold ws_xml_get_node_text_safe. cbn [ws_xml_get_node_text fmap option_fmap option_map default from_option].
    now rewrite !leaf_text.
  - intros i x Hi. rewrite Forall_forall in *. pose proof (list_elem_of_lookup_2 _ _ _ Hi) as Hx.
    apply read_selector_eq; auto. destruct (F x Hx); [done|]. unfold in_value. cbn. now apply epr_deserialize_eq.
Qed.
End RoundTrip.

(** C27. A reference that is written into XML, as an element of its own or as the parts of a header, is read
    back as it was, with its selectors in order and the references nested in them, whatever else the
    node holds: when its texts hold no ampersand and the node has no such parts yet. *)
Theorem epr_roundtrip content e node ns name : content_law content -> sound plain_text e -> is_element node = true ->
  (selected ns (Some name) (Some node) = [] ->
    exists node', epr_serialize content None node ns (Some name) e true = Done node' /\
      epr_deserialize (depth e) (Some node') ns (Some name) true = Done (Some e)) /\
  (no_parts node ->
    exists node', epr_serialize content None node ns None e false = Done node' /\
      epr_deserialize (depth e) (Some node') ns None false = Done (Some e)).
Proof.
  intros law S Hn. split; intros P.
  - exists (append_child node (epr_tree (content := content) ns name e)). split; [now apply (epr_serialize_eq plain_text)|].
    apply (epr_deserialize_eq law); [done|done|]. rewrite selected_append, P by done.
    destruct S. now rewrite epr_tree_eq, selects_self.
  - eexists. split; [now apply (serialize_header plain_text)|]. now apply (deserialize_header law).
Qed.
Definition demo_inner : epr_t := Epr (PStr (lit "http://b")) (PStr (lit "urn:b")) (SelSet 1 Live [KV (PStr (lit "k")) (VText (PStr (lit "1 2")))]).
Definition demo_epr : epr_t := Epr (PStr (lit "http://a")) (PStr (lit "urn:a"))
  (SelSet 2 Live [KV (PStr (lit "Name")) (VText (PStr (lit "x"))); KV (PStr (lit "Ref")) (VEpr (Some demo_inner))]).
Lemma plain_dec t : bool_decide (plain_text t) = true -> plain_text t.
Proof. apply bool_decide_eq_true. Qed.
Lemma demo_sound : sound plain_text demo_epr.
Proof.
  apply (Sound plain_text (lit "http://a") (lit "urn:a")
    [KV (PStr (lit "Name")) (VText (PStr (lit "x"))); KV (PStr (lit "Ref")) (VEpr (Some demo_inner))]);
    [now apply plain_dec|now apply plain_dec|].
  apply Forall_cons; split; [constructor; now apply plain_dec|].
  apply Forall_cons; split; [constructor|constructor].
  apply (Sound plain_text (lit "http://b") (lit "urn:b") [KV (PStr (lit "k")) (VText (PStr (lit "1 2")))]);
    [now apply plain_dec|now apply plain_dec|].
  apply Forall_cons; split; [constructor; now apply plain_dec|constructor].
Qed.
Lemma epr_roundtrip_witness :
  let node := Elem None (lit "Header") [] [] in
  (selected (Some XML_NS_ADDRESSING) (Some WSA_EPR) (Some node) = [] ->
    exists node', epr_serialize demo_content None node (Some XML_NS_ADDRESSING) (Some WSA_EPR) demo_epr true = Done node' /\
      epr_deserialize (depth demo_epr) (Some node') (Some XML_NS_ADDRESSING) (Some WSA_EPR) true = Done (Some demo_epr)) /\
  (no_parts node ->
    exists node', epr_serialize demo_content None node (Some XML_NS_ADDRESSING) None demo_epr false = Done node' /\
      epr_deserialize (depth demo_epr) (Some node') (Some XML_NS_ADDRESSING) None false = Done (Some demo_epr)).
Proof.
  apply (epr_roundtrip demo_content demo_epr (Elem None (lit "Header") [] []));
    [apply demo_content_law|apply demo_sound|reflexivity].
Defined.

(** ** Comparing references *)

(** The names of the selectors are distinct, in nested references as well. *)
#[local] Unset Elimination Schemes.
Inductive distinct : epr_t -> Prop :=
  | Distinct a u c m l : NoDup (names l) -> Forall distinct_kv l -> distinct (Epr a u (SelSet c m l))
with distinct_kv : key_value_t epr_t -> Prop :=
  | Distinct_text k t : distinct_kv (KV k (VText t))
  | Distinct_ref k e : distinct e -> distinct_kv (KV k (VEpr (Some e))).
#[local] Set Elimination Schemes.
(** One entry against all: it is found once, at its own place. *)
Lemma each_match (f : key_value_t epr_t -> Z -> outcome Z) x l n : NoDup (names l) ->
  Forall (fun y => forall s, f y s = Done (if streq (key_name x) (key_name y) then u32 (s + 1) else s)) l ->
  each f (length l) l n = Done (if bool_decide (key_name x ∈ names l) then u32 (n + 1) else n).
Proof.
  intros N F. revert n N. induction F as [|y l Hy F IH]; intros n N; cbn [each length names map].
  { now rewrite bool_decide_false by apply not_elem_of_nil. }
  apply NoDup_cons in N as [Ny N]. rewrite Hy. cbn [obind].
  destruct (streq (key_name x) (key_name y)) eqn:E.
  - apply streq_true in E. rewrite IH by done. rewrite E, bool_decide_false by done.
    now rewrite bool_decide_true by left.
  - apply streq_false in E. rewrite IH by done. f_equal.
    rewrite (bool_decide_ext (key_name x ∈ key_name y :: map key_name l) (key_name x ∈ names l)); [done|].
    rewrite elem_of_cons. unfold names. tauto.
Qed.
(** Every entry of a part of the array against all of them. *)
Lemma each_matches (f : key_value_t epr_t -> Z -> outcome Z) l n : 0 <= n -> n + Z.of_nat (length l) < 2 ^ 32 ->
  Forall (fun x => forall s, f x s = Done (u32 (s + 1))) l ->
  each f (length l) l n = Done (n + Z.of_nat (length l)).
Proof.
  intros Hn Hl F. revert n Hn Hl. induction F as [|x l Hx F IH]; intros n Hn Hl; cbn [each length]; [now rewrite Z.add_0_r|].
  cbn [length] in Hl. rewrite Hx, u32_small by lia. cbn [obind]. rewrite IH by lia. f_equal. lia.
Qed.
Lemma same_key T l x y : Forall (sound_kv T) l -> NoDup (names l) -> x ∈ l -> y ∈ l -> key_name x = key_name y -> x = y.
Proof.
  intros F N Hx Hy E. apply list_elem_of_lookup in Hx as [i Hi], Hy as [j Hj].
  assert (i = j) as ->; [|congruence].
  eapply NoDup_lookup; [exact N| |]; unfold names; rewrite list_lookup_fmap.
  - now rewrite Hi.
  - rewrite Hj. cbn. now rewrite E.
Qed.
(** The numbers of selectors fit an unsigned int. *)
#[local] Unset Elimination Schemes.
Inductive all_fit : epr_t -> Prop :=
  | All_fit a u c m l : c < 2 ^ 32 -> Forall fit_kv l -> all_fit (Epr a u (SelSet c m l))
with fit_kv : key_value_t epr_t -> Prop :=
  | Fit_text k t : fit_kv (KV k (VText t))
  | Fit_ref k e : all_fit e -> fit_kv (KV k (VEpr (Some e))).
#[local] Set Elimination Schemes.
Definition sees_itself (e : epr_t) : Prop := distinct e -> all_fit e -> forall e2 u2, uri e2 = PStr u2 ->
  epr_cmp e e2 = Done (if streq (text_of (uri e)) u2 && (count (selectorset e) =? count (selectorset e2)) then 0 else 1).
Lemma epr_cmp_eq T e : sound T e -> sees_itself e.
Proof.
  revert e. apply sound_ind'. intros a u l _ _ F IH D A e2 u2 Hu.
  inversion D as [? ? ? ? ? N Fd]; subst. inversion A as [? ? ? ? ? Hc Fa]; subst.
  cbn [epr_cmp chars obind uri text_of selectorset count]. rewrite Hu. cbn [chars obind].
  destruct (streq u u2); [cbn [negb andb]|done].
  destruct (Z.eqb_spec (Z.of_nat (length l)) (count (selectorset e2))) as [E|]; [cbn [negb]|done].
  rewrite <- E, !Nat2Z.id. rewrite each_matches; [cbn [obind]; now rewrite Z.add_0_l, Z.eqb_refl|lia|lia|].
  rewrite Forall_forall. intros x Hx s.
  rewrite (each_match _ x l s N).
  { rewrite bool_decide_true; [done|]. now apply list_elem_of_fmap_2. }
  rewrite Forall_forall. intros y Hy r. pose proof (same_key T l x y F N Hx Hy) as Sk.
  rewrite Forall_forall in F, IH, Fd, Fa. pose proof (sound_key _ _ (F y Hy)) as Ky.
  pose proof (Fd x Hx) as Dx. pose proof (Fa x Hx) as Ax. pose proof (IH x Hx) as Ix. pose proof (F x Hx) as Sx.
  destruct Sx as [k t Ht|k e He]; cbn [chars obind key_name key] in *; rewrite Ky; cbn [chars obind];
    (destruct (streq k (key_name y)) eqn:Ek; [cbn [negb]|done]); apply streq_true in Ek;
    rewrite <- (Sk Ek); cbn [v chars obind].
  - now rewrite streq_refl.
  - inversion Dx as [|? ? De]; subst. inversion Ax as [|? ? Ae]; subst. unfold in_value in Ix. cbn in Ix.
    assert (uri e = PStr (text_of (uri e))) as U by now destruct He.
    rewrite (Ix De Ae e _ U), streq_refl, Z.eqb_refl. done.
Qed.
(** Comparing two references does not look at the selectors of the second: it answers that they are
    the same whenever their resource URIs and the numbers of their selectors are. *)
Theorem epr_cmp_spec T e1 e2 : sound T e1 -> sound T e2 -> distinct e1 -> all_fit e1 ->
  epr_cmp e1 e2 = Done (if bool_decide (uri e1 = uri e2 /\ count (selectorset e1) = count (selectorset e2)) then 0 else 1).
Proof.
  intros S1 S2 D A. destruct S2 as [a2 u2 l2 Ta Tu F]. rewrite (epr_cmp_eq T e1 S1 D A (Epr (PStr a2) (PStr u2) (SelSet (Z.of_nat (length l2)) Live l2)) u2 eq_refl). destruct S1 as [a u l].
  cbn [uri selectorset count text_of]. f_equal. destruct (bool_decide_reflect (PStr u = PStr u2 /\ Z.of_nat (length l) = Z.of_nat (length l2))) as [[E1 E2]|N].
  - injection E1 as ->. now rewrite streq_refl, E2, Z.eqb_refl.
  - destruct (streq u u2) eqn:E; [|done]. apply streq_true in E as ->. cbn.
    destruct (Z.eqb_spec (Z.of_nat (length l)) (Z.of_nat (length l2))); [|done]. exfalso. now apply N.
Qed.
Definition demo_other : epr_t := Epr (PStr (lit "http://a")) (PStr (lit "urn:a"))
  (SelSet 2 Live [KV (PStr (lit "Name")) (VText (PStr (lit "y"))); KV (PStr (lit "Z")) (VText (PStr (lit "z")))]).
Lemma epr_cmp_spec_witness : epr_cmp demo_epr demo_other =
  Done (if bool_decide (uri demo_epr = uri demo_other /\ count (selectorset demo_epr) = count (selectorset demo_other)) then 0 else 1).
Proof.
  apply (epr_cmp_spec plain_text); [apply demo_sound| | |].
  - apply (Sound plain_text (lit "http://a") (lit "urn:a") [KV (PStr (lit "Name")) (VText (PStr (lit "y"))); KV (PStr (lit "Z")) (VText (PStr (lit "z")))]);
      [now apply plain_dec|now apply plain_dec|].
    repeat (apply Forall_cons; split; [constructor; now apply plain_dec|]). constructor.
  - constructor; [apply (bool_decide_eq_true_1 _); vm_compute; reflexivity|]. repeat constructor;
      try (apply (bool_decide_eq_true_1 _); vm_compute; reflexivity).
  - repeat constructor.
Defined.

(** ** Selectors as a finite map *)

Definition sel_map (e : epr_t) : gmap cstring (value epr_t) :=
  list_to_map (map (fun x => (key_name x, v x)) (cells (selectorset e))).
Lemma sel_keys l : (map (fun x => (key_name x, v x)) l).*1 = names l.
Proof. unfold names. induction l as [|x l IH]; [done|]. cbn. now f_equal. Qed.
Lemma each_has_key T n l b : Forall (sound_kv T) l ->
  each (has_key (PStr n)) (length l) l b = Done (b || bool_decide (n ∈ names l)).
Proof.
  intros F. revert b. induction F as [|x l Hx F IH]; intros b; cbn [each length].
  { rewrite bool_decide_false by apply not_elem_of_nil. now rewrite orb_false_r. }
  assert (has_key (PStr n) x b = Done (b || streq n (key_name x))) as ->.
  { unfold has_key. rewrite (sound_key _ _ Hx). now destruct b. }
  cbn [obind]. rewrite IH. f_equal.
  unfold names. cbn [map]. rewrite <- orb_assoc. f_equal. unfold streq.
  destruct (bool_decide_reflect (n = key_name x)), (bool_decide_reflect (n ∈ map key_name l));
    symmetry; [rewrite bool_decide_true|rewrite bool_decide_true|rewrite bool_decide_true|rewrite bool_decide_false]; try done;
    rewrite elem_of_cons; tauto.
Qed.
Lemma selector_by_name_spec T n l : Forall (sound_kv T) l -> NoDup (names l) ->
  selector_by_name n (length l) l =
  Done (match (list_to_map (map (fun x => (key_name x, v x)) l) : gmap cstring (value epr_t)) !! n with Some (VText t) => Some t | _ => None end).
Proof.
  induction 1 as [|x l Hx F IH]; intros N; [done|]. apply NoDup_cons in N as [Nx N].
  cbn [selector_by_name length]. rewrite (sound_key _ _ Hx). cbn [chars obind].
  assert ((list_to_map (map (fun x => (key_name x, v x)) l) : gmap cstring (value epr_t)) !! key_name x = None) as Ex.
  { apply not_elem_of_list_to_map_1. now rewrite sel_keys. }
  destruct (decide (key_name x = n)) as [<-|E].
  - cbn [map]. rewrite list_to_map_cons, lookup_insert_eq.
    destruct Hx as [k t Ht|k e He]; cbn [v key_name key] in *; [now rewrite streq_refl|].
    rewrite IH by done. now rewrite Ex.
  - cbn [map]. rewrite list_to_map_cons, lookup_insert_ne by done. rewrite <- IH by done.
    destruct Hx as [k t Ht|k e He]; cbn [v key_name key] in *; [|done].
    now rewrite (proj2 (streq_false k n)).
Qed.
(** What adds a selector. *)
Definition add_entry (e : epr_t) (kv : key_value_t epr_t) : outcome (Z * option epr_t) :=
  match v kv with
  | VText t => epr_add_selector_text (Some e) (key_name kv) (text_of t)
  | VEpr x => epr_add_selector_epr (Some e) (key_name kv) x
  | VWild => Undef
  end.
Lemma key_value_create_sound T kv : sound_kv T kv ->
  match v kv with
  | VText t => key_value_create (PStr (key_name kv)) (PStr (text_of t)) None
  | VEpr x => key_value_create (PStr (key_name kv)) PNull x
  | VWild => Undef
  end = Done kv.
Proof. destruct 1 as [k t Ht|k e He]; [done|]. cbn. now rewrite (epr_copy_ok T e He). Qed.
Lemma add_entry_spec T e kv : sound T e -> sound_kv T kv ->
  add_entry e kv = Done (if bool_decide (key_name kv ∈ names (cells (selectorset e))) then (-1, Some e)
    else (0, Some (set_selectors (SelSet (u32 (count (selectorset e) + 1)) Live (cells (selectorset e) ++ [kv])) e))).
Proof.
  intros S K. pose proof (key_value_create_sound T kv K) as C. destruct S as [a u l Ta Tu F].
  assert (forall t x, key_value_create (PStr (key_name kv)) t x = Done kv ->
    epr_add_selector (Some (Epr (PStr a) (PStr u) (SelSet (Z.of_nat (length l)) Live l))) (PStr (key_name kv)) t x =
    Done (if bool_decide (key_name kv ∈ names l) then (-1, Some (Epr (PStr a) (PStr u) (SelSet (Z.of_nat (length l)) Live l)))
      else (0, Some (Epr (PStr a) (PStr u) (SelSet (u32 (Z.of_nat (length l) + 1)) Live (l ++ [kv])))))) as G.
  { intros t x Hc. cbn [epr_add_selector selectorset count cells selectors chars].
    rewrite Nat2Z.id, (each_has_key T) by done. cbn [obind orb].
    destruct (bool_decide _); [done|]. now rewrite Hc. }
  unfold add_entry. destruct K as [k t Ht|k x Hx]; cbn [v] in C |- *; apply G; exact C.
Qed.
Lemma sel_map_insert x l : key_name x ∉ names l ->
  (list_to_map (map (fun x => (key_name x, v x)) (l ++ [x])) : gmap cstring (value epr_t)) =
  <[key_name x := v x]> (list_to_map (map (fun x => (key_name x, v x)) l)).
Proof.
  intros N. rewrite map_app. cbn [map]. rewrite list_to_map_snoc; [done|]. now rewrite sel_keys.
Qed.
Lemma sel_map_delete a x b : NoDup (names (a ++ x :: b)) ->
  (list_to_map (map (fun x => (key_name x, v x)) (a ++ b)) : gmap cstring (value epr_t)) =
  delete (key_name x) (list_to_map (map (fun x => (key_name x, v x)) (a ++ x :: b))).
Proof.
  intros N. unfold names in N. rewrite map_app in N. cbn [map] in N.
  rewrite <- (list_to_map_proper ((key_name x, v x) :: map (fun x => (key_name x, v x)) (a ++ b))
    (map (fun x => (key_name x, v x)) (a ++ x :: b))).
  - rewrite list_to_map_cons, delete_insert_id; [done|]. apply not_elem_of_list_to_map_1. rewrite sel_keys.
    unfold names. rewrite map_app. apply NoDup_app in N as (_ & H & N). apply NoDup_cons in N as [N _].
    intros E. apply elem_of_app in E as [E|E]; [apply (H _ E); left|done].
  - cbn [fmap list_fmap]. rewrite sel_keys. cbn. unfold names. rewrite map_app.
    rewrite <- (Permutation_middle (map key_name a) (map key_name b) (key_name x)) in N. exact N.
  - rewrite !map_app. cbn [map]. apply Permutation_middle.
Qed.
Lemma names_mid a x b : names (a ++ x :: b) = names a ++ key_name x :: names b.
Proof. unfold names. now rewrite map_app. Qed.
Lemma key_in_map e n : n ∈ names (cells (selectorset e)) <-> is_Some (sel_map e !! n).
Proof.
  unfold sel_map. split.
  - intros H. destruct (_ !! n) eqn:E; [eauto|]. apply not_elem_of_list_to_map_2 in E. now rewrite sel_keys in E.
  - intros [y H]. apply elem_of_list_to_map_2 in H. apply (list_elem_of_fmap_2 fst) in H. cbn in H.
    change (fst <$> ?l) with (l.*1) in H. now rewrite sel_keys in H.
Qed.

(** Deleting a name that is there: the entry goes, and with it the array when it was the only one. *)
Lemma delete_there T realloc_0 a u x y z : T a -> T u -> Forall (sound_kv T) (x ++ y :: z) -> key_name y ∉ names x ->
  epr_delete_selector realloc_0 (Some (Epr (PStr a) (PStr u) (SelSet (Z.of_nat (length (x ++ y :: z))) Live (x ++ y :: z))))
    (Some (key_name y)) =
  Done (if realloc_0 || (1 <? Z.of_nat (length (x ++ y :: z)))
    then (0, Some (Epr (PStr a) (PStr u) (SelSet (Z.of_nat (length (x ++ z))) Live (x ++ z))))
    else (-1, Some (Epr (PStr a) (PStr u) (SelSet 1 Freed [])))).
Proof.
  intros Ta Tu F N. unfold epr_delete_selector. cbn [selectorset count cells]. rewrite Nat2Z.id.
  assert (selector_index (key_name y) (length (x ++ y :: z)) (x ++ y :: z) = Done (length x)) as ->.
  { clear -F N. induction x as [|w x IH]; cbn [app length selector_index]; apply Forall_cons in F as [Fw F]; rewrite (sound_key _ _ Fw);
      cbn [chars obind]; [now rewrite streq_refl|].
    apply not_elem_of_cons in N as [Nw N]. rewrite (proj2 (streq_false _ _)) by done. now rewrite IH. }
  cbn [obind]. apply Forall_app in F as [F1 F2]. apply Forall_cons in F2 as [Fy F2].
  rewrite bool_decide_false by (rewrite length_app; cbn; lia). rewrite rd_here0. cbn [obind].
  assert (in_value (fun e => epr_destroy e = Done tt) y) as Dy by (destruct Fy; [exact I|now apply epr_destroy_ok with T]).
  rewrite (key_value_destroy_ok T y) by done.
  cbn [obind]. rewrite list.delete_middle, !length_app. cbn [length].
  destruct (Z.eqb_spec (Z.of_nat (length x + S (length z))) 1) as [E|E].
  - rewrite E. cbn. rewrite orb_false_r. destruct realloc_0; [|done].
    replace (length x + length z)%nat with 0%nat by lia. done.
  - cbn [andb]. rewrite (proj2 (Z.ltb_lt 1 _)) by lia. rewrite orb_true_r.
    replace (Z.of_nat (length x + S (length z)) - 1) with (Z.of_nat (length x + length z)) by lia. done.
Qed.
Lemma split_name name l : name ∉ names l \/ exists x y z, l = x ++ y :: z /\ key_name y = name /\ name ∉ names x.
Proof.
  induction l as [|w l IH]; [left; apply not_elem_of_nil|].
  destruct (decide (key_name w = name)) as [E|E]; [right; exists [], w, l; repeat split; [done|apply not_elem_of_nil]|].
  destruct IH as [N|(x & y & z & -> & Ey & N)]; [left; now apply not_elem_of_cons|].
  right. exists (w :: x), y, z. repeat split; [done|]. now apply not_elem_of_cons.
Qed.
Lemma selector_index_none T name l : Forall (sound_kv T) l -> name ∉ names l -> selector_index name (length l) l = Done (length l).
Proof.
  induction 1 as [|x l Hx F IH]; intros N; [done|]. apply not_elem_of_cons in N as [Nx N]. cbn [selector_index length].
  rewrite (sound_key _ _ Hx). cbn [chars obind]. rewrite (proj2 (streq_false _ _)) by done. now rewrite IH.
Qed.
(** The selectors of a reference are a finite map: looking a name up gives its text, if it has one;
    adding refuses a name that is there and puts the entry in otherwise; deleting refuses a name that is not
    there and takes it out otherwise, except that a set whose only selector is deleted is
    left freed, and with its count, when the C library frees on a realloc to nothing. *)
Theorem epr_selectors_refine T realloc_0 e name kv : sound T e -> NoDup (names (cells (selectorset e))) -> sound_kv T kv ->
  count (selectorset e) < 2 ^ 32 - 1 ->
  wsman_epr_selector_by_name e name = Done (match sel_map e !! name with Some (VText t) => Some t | _ => None end) /\
  (exists r e', add_entry e kv = Done (r, Some e') /\ sound T e' /\ NoDup (names (cells (selectorset e'))) /\
    match sel_map e !! key_name kv with
    | Some _ => r = -1 /\ e' = e
    | None => r = 0 /\ sel_map e' = <[key_name kv := v kv]> (sel_map e)
    end) /\
  (exists r e', epr_delete_selector realloc_0 (Some e) (Some name) = Done (r, Some e') /\
    match sel_map e !! name with
    | None => r = -1 /\ e' = e
    | Some _ =>
        if realloc_0 || (1 <? count (selectorset e))
        then r = 0 /\ sound T e' /\ NoDup (names (cells (selectorset e'))) /\ sel_map e' = delete name (sel_map e)
        else r = -1 /\ forall k, wsman_epr_selector_by_name e' k = Undef
    end).
Proof.
  intros S N K C. split; [|split].
  - destruct S as [a u l Ta Tu F]. unfold wsman_epr_selector_by_name. cbn [selectorset selectors count cells] in *.
    rewrite Nat2Z.id. now apply selector_by_name_spec with T.
  - rewrite (add_entry_spec T) by done.
    destruct (sel_map e !! key_name kv) eqn:E.
    + rewrite bool_decide_true by (apply key_in_map; eauto). eauto 10.
    + assert (key_name kv ∉ names (cells (selectorset e))) as Nk by (rewrite key_in_map, E; now intros [? ?]).
      rewrite bool_decide_false by done. do 2 eexists. split; [done|].
      destruct S as [a u l Ta Tu F]. unfold sel_map, set_selectors in *. cbn [selectorset cells count address uri] in *.
      rewrite u32_small by lia. replace (Z.of_nat (length l) + 1) with (Z.of_nat (length (l ++ [kv]))) by (rewrite length_app; cbn; lia).
      split; [constructor; try done; apply Forall_app; auto|]. split; [|split; [done|now apply sel_map_insert]].
      unfold names. rewrite map_app. cbn. apply NoDup_app. split; [done|]. split; [|apply NoDup_singleton].
      intros x Hx Hy. apply list_elem_of_singleton in Hy as ->. done.
  - destruct (split_name name (cells (selectorset e))) as [Nn|(x & y & z & El & <- & Nx)].
    + assert (sel_map e !! name = None) as ->.
      { destruct (sel_map e !! name) eqn:E; [|done]. exfalso. apply Nn, key_in_map. eauto. }
      exists (-1), e. split; [|done]. destruct S as [a u l Ta Tu F]. unfold epr_delete_selector. cbn [selectorset count cells] in *.
      rewrite Nat2Z.id, (selector_index_none T) by done. cbn [obind]. now rewrite bool_decide_true.
    + assert (is_Some (sel_map e !! key_name y)) as [w ->].
      { apply key_in_map. rewrite El, names_mid. apply elem_of_app. right. left. }
      destruct S as [a u l Ta Tu F]. unfold sel_map. cbn [selectorset count cells] in *. subst l.
      rewrite (delete_there T) by done. destruct (realloc_0 || _).
      * do 2 eexists. split; [done|]. cbn [selectorset cells]. split; [done|].
        rewrite names_mid in N. apply Forall_app in F as [F1 F2]. apply Forall_cons in F2 as [Fy F2].
        split; [constructor; try done; now apply Forall_app|]. split; [|apply sel_map_delete; now rewrite names_mid].
        unfold names in *. rewrite map_app. apply NoDup_app in N as (N1 & N2 & N3). apply NoDup_cons in N3 as [N4 N3].
        apply NoDup_app. split; [done|]. split; [|done]. intros k Hk1 Hk2. apply (N2 k Hk1). now right.
      * do 2 eexists. split; [done|]. done.
Qed.
Lemma epr_selectors_refine_witness :
  let e := demo_epr in let kv := KV (PStr (lit "New")) (VText (PStr (lit "n"))) in
  wsman_epr_selector_by_name e (lit "Name") = Done (match sel_map e !! lit "Name" with Some (VText t) => Some t | _ => None end) /\
  (exists r e', add_entry e kv = Done (r, Some e') /\ sound plain_text e' /\ NoDup (names (cells (selectorset e'))) /\
    match sel_map e !! key_name kv with
    | Some _ => r = -1 /\ e' = e
    | None => r = 0 /\ sel_map e' = <[key_name kv := v kv]> (sel_map e)
    end) /\
  (exists r e', epr_delete_selector false (Some e) (Some (lit "Name")) = Done (r, Some e') /\
    match sel_map e !! lit "Name" with
    | None => r = -1 /\ e' = e
    | Some _ =>
        if false || (1 <? count (selectorset e))
        then r = 0 /\ sound plain_text e' /\ NoDup (names (cells (selectorset e'))) /\ sel_map e' = delete (lit "Name") (sel_map e)
        else r = -1 /\ forall k, wsman_epr_selector_by_name e' k = Undef
    end).
Proof.
  apply (epr_selectors_refine plain_text false demo_epr (lit "Name") (KV (PStr (lit "New")) (VText (PStr (lit "n"))))).
  - apply demo_sound.
  - apply (bool_decide_eq_true_1 _). vm_compute. reflexivity.
  - constructor. now apply plain_dec.
  - cbn. lia.
Defined.

(** ** References as text *)

Fixpoint epr_text (e : epr_t) : cstring :=
  match e with
  | Epr _ u (SelSet _ _ l) => text_of u ++
      (fix go (sep : ascii) (l : list (key_value_t epr_t)) : cstring :=
        match l with
        | [] => []
        | KV k x :: l => sep :: text_of k ++ "="%char ::
            match x with VText t => text_of t | VEpr (Some e) => epr_text e | _ => [] end ++ go "&"%char l
        end) "?"%char l
  end.
Definition value_text (x : value epr_t) : cstring :=
  match x with VText t => text_of t | VEpr (Some e) => epr_text e | _ => [] end.
Fixpoint selectors_text (sep : ascii) (l : list (key_value_t epr_t)) : cstring :=
  match l with
  | [] => []
  | x :: l => sep :: key_name x ++ "="%char :: value_text (v x) ++ selectors_text "&"%char l
  end.
Lemma epr_text_eq a u c m l : epr_text (Epr a u (SelSet c m l)) = text_of u ++ selectors_text "?"%char l.
Proof.
  cbn [epr_text]. f_equal. generalize "?"%char. induction l as [|[k x] l IH]; intros sep; [done|].
  cbn [selectors_text]. rewrite IH. now destruct k, x as [|[]|].
Qed.
(** The text is the resource URI and the selectors, with references in place of their values. *)
Lemma epr_to_string_text T e : sound T e -> epr_to_string e = Done (epr_text e).
Proof.
  revert e. apply (sound_ind' T). intros a u l _ _ F IH. rewrite epr_text_eq. cbn [text_of epr_to_string chars obind].
  rewrite Nat2Z.id.
  match goal with |- obind (each ?f _ _ _) ?k = _ => set (count_one := f); set (rest := k) end.
  assert (forall n, each count_one (length l) l n = Done (n + length (selectors_text "?"%char l))%nat) as ->.
  { unfold rest. clear rest. generalize "?"%char.
    induction F as [|x l Hx F IHl]; intros sep n; cbn [each length selectors_text]; [now rewrite Nat.add_0_r|].
    apply Forall_cons in IH as [Hi IH].
    assert (count_one x n = Done (n + (length (key_name x) + 1) + (length (value_text (v x)) + 1))%nat) as ->.
    { unfold count_one. destruct Hx as [k t Ht|k e He]; [done|]. unfold in_value in Hi. cbn in Hi. cbn [chars obind]. now rewrite Hi. }
    cbn [obind]. rewrite (IHl IH "&"%char). f_equal. rewrite length_app. cbn [length]. rewrite length_app. lia. }
  subst rest. cbn [obind].
  match goal with |- obind (each ?f _ _ _) ?k = _ => set (write_one := f); set (rest := k) end.
  assert (forall i buf, each write_one (length l) l (i, buf) =
    Done ((i + length l)%nat, buf ++ selectors_text (if Nat.eqb i 0 then "?"%char else "&"%char) l)) as ->.
  { unfold rest. clear rest.
    induction F as [|x l Hx F IHl]; intros i buf; cbn [each length selectors_text]; [now rewrite app_nil_r, Nat.add_0_r|].
    apply Forall_cons in IH as [Hi IH].
    assert (write_one x (i, buf) = Done (S i, (buf ++ [if Nat.eqb i 0 then "?"%char else "&"%char] ++ key_name x ++ ["="%char]) ++ value_text (v x))) as ->.
    { unfold write_one. destruct Hx as [k t Ht|k e He]; [done|]. unfold in_value in Hi. cbn in Hi. cbn [chars obind]. now rewrite Hi. }
    cbn [obind]. rewrite (IHl IH (S i)). cbn [Nat.eqb]. f_equal. f_equal; [lia|]. now repeat (rewrite <- !app_assoc; cbn [app]). }
  subst rest. cbn [obind snd Nat.eqb]. rewrite length_app. now rewrite Nat.leb_refl.
Qed.

Definition unreserved (c : ascii) : bool := negb (Uri.special c).
Definition query_text (t : cstring) : Prop := no_nul t /\ Forall (fun c => unreserved c = true) t.
Lemma encode_id t : Forall (fun c => unreserved c = true) t -> HttpText.pct_encode unreserved t = t.
Proof. unfold HttpText.pct_encode. induction 1 as [|c t Hc _ IH]; [done|]. cbn [flat_map]. now rewrite Hc, IH. Qed.
(** The selectors are texts. *)
Definition text_only (l : list (key_value_t epr_t)) : Prop := Forall (fun x => exists t, v x = VText (PStr t)) l.
Definition pairs (l : list (key_value_t epr_t)) : list (cstring * cstring) := map (fun x => (key_name x, value_text (v x))) l.
Lemma selectors_query sep l : Forall (fun x => query_text (key_name x) /\ query_text (value_text (v x))) l ->
  selectors_text sep l = match l with [] => [] | _ => sep :: Uri.write_query unreserved (pairs l) end.
Proof.
  intros F. revert sep. induction F as [|x l [[_ Hk] [_ Hv]] F IH]; intros sep; [done|]. cbn [selectors_text]. f_equal.
  assert (forall r, key_name x ++ "="%char :: value_text (v x) ++ r = Uri.write_pair (key_name x, value_text (v x)) unreserved ++ r) as E.
  { intros r. unfold Uri.write_pair. cbn [fst snd]. rewrite !encode_id by done. now rewrite <- app_assoc. }
  rewrite IH. destruct l as [|y l]; [|apply E]. rewrite E. apply app_nil_r.
Qed.

Lemma pairs_keys l : (pairs l).*1 = names l.
Proof. unfold pairs, names. induction l as [|x l IH]; [done|]. cbn. now f_equal. Qed.
Lemma text_values l : text_only l ->
  (list_to_map (map (fun x => (key_name x, v x)) l) : gmap cstring (value epr_t)) =
  (fun s => VText (PStr s)) <$> (list_to_map (pairs l) : gmap cstring cstring).
Proof.
  intros O. rewrite <- list_to_map_fmap. f_equal. induction O as [|x l [t Ht] _ IH]; [done|]. cbn. rewrite Ht. cbn. now f_equal.
Qed.
Lemma scanned_map (scan : gmap cstring cstring -> list (cstring * cstring)) m : (forall m, scan m ≡ₚ map_to_list m) ->
  (list_to_map (scan m) : gmap cstring cstring) = m.
Proof.
  intros H. transitivity (list_to_map (map_to_list m) : gmap cstring cstring); [|apply list_to_map_to_list].
  apply list_to_map_proper; [|apply H]. rewrite (H m). apply NoDup_fst_map_to_list.
Qed.
Definition table_entries (l : list (cstring * cstring)) : list (cstring * key_value_t epr_t) :=
  map (fun e => (e.1, KV PNull (VText (PStr e.2)))) l.
Lemma epr_create_texts u l a : epr_create (PStr u) (Some (table_entries l)) a =
  Done (Epr (PStr (default WSA_TO_ANONYMOUS a)) (PStr u)
    (SelSet (Z.of_nat (length l)) Live (map (fun e => KV (PStr e.1) (VText (PStr e.2))) l))).
Proof.
  unfold epr_create. cbn [u_strdup chars obind].
  rewrite (each_collect _ (fun e => KV (PStr e.1) (v e.2))).
  - cbn [obind app]. unfold table_entries. rewrite length_map, map_map. done.
  - unfold table_entries. apply Forall_forall. intros e He. apply list_elem_of_fmap in He as (x & -> & _). done.
Qed.
(** A reference is turned into text without leaving its buffer, and the text of one whose
    selectors are texts is parsed back into its resource URI and its selectors, whatever the order in
    which the hash table gives them; the address becomes the anonymous one. *)
Theorem epr_text_roundtrip (T : cstring -> Prop) (scan : gmap cstring cstring -> list (cstring * cstring)) e :
  (forall m, scan m ≡ₚ map_to_list m) -> sound T e -> NoDup (names (cells (selectorset e))) ->
  text_only (cells (selectorset e)) -> "?"%char ∉ text_of (uri e) ->
  Forall (fun x => query_text (key_name x) /\ query_text (value_text (v x))) (cells (selectorset e)) ->
  exists t e', epr_to_string e = Done t /\ epr_from_string scan t = Done e' /\
    address e' = PStr WSA_TO_ANONYMOUS /\ uri e' = uri e /\ count (selectorset e') = count (selectorset e) /\ sel_map e' = sel_map e.
Proof.
  intros Hs S N O Q F. exists (epr_text e).
  assert (epr_to_string e = Done (epr_text e)) as E1 by now apply (epr_to_string_text T).
  destruct S as [a u l Ta Tu Fl]. cbn [selectorset cells uri text_of count] in *.
  unfold epr_from_string. rewrite epr_text_eq in *. cbn [text_of] in *. rewrite (selectors_query _ _ F) in *.
  destruct l as [|x l].
  - rewrite app_nil_r in *. rewrite Uri.split_at_none by done. cbn [fmap option_fmap]. eexists. split; [done|]. split; [done|].
    repeat split; done.
  - rewrite HttpAuth.split_at_first by done. rewrite Uri.query_roundtrip.
    2: { intros c. unfold unreserved. now destruct (Uri.special c). }
    2: { now rewrite pairs_keys. }
    2: { apply Forall_forall. intros kv Hkv. apply list_elem_of_fmap in Hkv as (y & -> & Hy). rewrite Forall_forall in F.
      destruct (F y Hy) as [[? _] [? _]]. done. }
    cbn [fmap option_fmap option_map]. set (m := list_to_map (pairs (x :: l)) : gmap cstring cstring).
    fold (table_entries (scan m)). rewrite epr_create_texts. eexists. split; [done|]. split; [done|].
    cbn [address uri selectorset count default]. split; [done|]. split; [done|]. split.
    + assert (map_to_list m ≡ₚ pairs (x :: l)) as P by (apply map_to_list_to_map; now rewrite pairs_keys).
      rewrite (Permutation_length (Hs m)), (Permutation_length P). unfold pairs. now rewrite length_map.
    + unfold sel_map. cbn [selectorset cells]. rewrite (text_values (x :: l)) by done. fold m.
      transitivity ((fun s => VText (PStr s)) <$> (list_to_map (scan m) : gmap cstring cstring) : gmap cstring (value epr_t));
        [|now rewrite scanned_map].
      rewrite <- list_to_map_fmap. f_equal. rewrite map_map. apply map_ext. now intros [].
Qed.
Definition demo_texts : epr_t := Epr (PStr (lit "http://a")) (PStr (lit "urn:a"))
  (SelSet 2 Live [KV (PStr (lit "b")) (VText (PStr (lit "1"))); KV (PStr (lit "a")) (VText (PStr (lit "2")))]).
Lemma epr_text_roundtrip_witness : exists t e', epr_to_string demo_texts = Done t /\ epr_from_string map_to_list t = Done e' /\
  address e' = PStr WSA_TO_ANONYMOUS /\ uri e' = uri demo_texts /\ count (selectorset e') = count (selectorset demo_texts) /\
  sel_map e' = sel_map demo_texts.
Proof.
  apply (epr_text_roundtrip plain_text map_to_list demo_texts).
  - done.
  - apply (Sound plain_text (lit "http://a") (lit "urn:a") [KV (PStr (lit "b")) (VText (PStr (lit "1"))); KV (PStr (lit "a")) (VText (PStr (lit "2")))]);
      [now apply plain_dec|now apply plain_dec|].
    repeat (apply Forall_cons; split; [constructor; now apply plain_dec|]). constructor.
  - apply (bool_decide_eq_true_1 _). vm_compute. reflexivity.
  - repeat (apply Forall_cons; split; [eexists; reflexivity|]). constructor.
  - apply (bool_decide_eq_true_1 _). vm_compute. reflexivity.
  - apply (bool_decide_eq_true_1 _). vm_compute. reflexivity.
Defined.

(** ** Where the code goes wrong *)

(** A reference without an address is copied with an address that is not set; so is freed what was
    never allocated. *)
Example copy_unset : exists e, epr_copy (Epr PNull (PStr (lit "urn:a")) (SelSet 0 Null [])) = Done e /\ address e = PWild /\ epr_destroy e = Undef.
Proof. eexists. repeat split. Qed.
(** Deleting the only selector: -1, and the set is gone although it still counts one. *)
Example delete_last : exists e, epr_delete_selector false (Some demo_inner) (Some (lit "k")) = Done (-1, Some e) /\
  count (selectorset e) = 1 /\ epr_destroy e = Undef.
Proof. eexists. repeat split. Qed.
(** A selector whose reference is NULL: one character is written behind the buffer. *)
Example text_overrun : epr_to_string (Epr PNull (PStr (lit "u")) (SelSet 1 Live [KV (PStr (lit "k")) (VEpr None)])) = Undef.
Proof. reflexivity. Qed.
(** A Selector without a Name: its key is not set, and looking a selector up reads it. *)
Definition nameless : xml := Elem None (lit "x") [] [
  Elem (Some XML_NS_ADDRESSING) WSA_TO [] []; Elem (Some XML_NS_WS_MAN) WSM_RESOURCE_URI [] [Text (lit "u")];
  Elem (Some XML_NS_WS_MAN) WSM_SELECTOR_SET [] [Elem (Some XML_NS_WS_MAN) WSM_SELECTOR [] [Text (lit "v")]]].
Example key_unset : exists e, epr_deserialize 1 (Some nameless) None None false = Done (Some e) /\
  wsman_epr_selector_by_name e (lit "k") = Undef.
Proof. eexists. split; vm_compute; reflexivity. Qed.

End Epr.
