(* ===== verification/Filter.v ===== *)
(** * Filter: the filters of enumerations and subscriptions (lib/wsman-filter.c)

    A filter is allocated with zeros, so its strings are given or NULL.  Hash tables are lists, as in Epr. *)
From S2P Require Import Prelude CString Names Xml Epr.
Import Names Xml Epr.

Module Filter.

(* src: src/CIM_Framework/openwsman/include/wsman-filter.h 46-61 filter_t *)
Record filter_t := Filt {
  dialect : option cstring; query : option cstring; epr : option epr_t; selectorset : SelectorSet epr_t;
  assocType : Z; assocClass : option cstring; resultClass : option cstring; role : option cstring;
  resultRole : option cstring; resultProp : option (list cstring); PropNum : Z }.
(* src: lib/wsman-filter.c 40-44 filter_initialize *)
Definition filter_initialize : filter_t := Filt None None None (SelSet 0 Null []) 0 None None None None None 0.

(** The arguments that describe an association. *)
Record assoc_args := Assoc {
  a_type : Z; a_class : option cstring; a_result : option cstring; a_role : option cstring;
  a_result_role : option cstring; a_props : option (list cstring); a_num : Z }.
Definition no_assoc : assoc_args := Assoc 0 None None None None None 0.
Definition keep (new old : option cstring) : option cstring := match new with Some _ => new | None => old end.
(** The strings of an array, up to the number given: reading behind it is undefined. *)
Definition copy_props (l : list cstring) (n : Z) : outcome (list cstring) :=
  if n <=? Z.of_nat (length l) then Done (take (Z.to_nat n) l) else Undef.
(** A negative number of properties is too much to allocate.  What a second call replaces is not freed, what it does not mention stays. *)
(* src: lib/wsman-filter.c 47-108 filter_set *)
Definition filter_set (f : filter_t) (dia query' : option cstring) (epr' : option epr_t)
  (sels : option (list (cstring * key_value_t epr_t))) (a : assoc_args) : outcome (Z * filter_t) :=
  let d := default WSM_XPATH_FILTER_DIALECT dia in
  let set_dialect d f := Filt (Some d) (query f) (epr f) (selectorset f) (assocType f) (assocClass f) (resultClass f) (role f)
    (resultRole f) (resultProp f) (PropNum f) in
  match query' with
  | Some q =>
      Done (0, Filt (Some d) (Some q) (epr f) (selectorset f) (assocType f) (assocClass f) (resultClass f) (role f)
        (resultRole f) (resultProp f) (PropNum f))
  | None =>
      match epr', sels with
      | Some e, _ =>
          let* e := epr_copy e in
          let* props := match a_props a with
            | Some l =>
                if a_num a =? 0 then Done (resultProp f, PropNum f)
                else if a_num a <? 0 then Done (None, 0)
                else let* l := copy_props l (a_num a) in Done (Some l, a_num a)
            | None => Done (resultProp f, PropNum f)
            end in
          Done (0, Filt (Some d) (query f) (Some e) (selectorset f) (a_type a) (keep (a_class a) (assocClass f))
            (keep (a_result a) (resultClass f)) (keep (a_role a) (role f)) (keep (a_result_role a) (resultRole f)) props.1 props.2)
      | None, Some l =>
          let* cs := each (fun e p =>
            let* kv := match v e.2 with
              | VText t => key_value_create (PStr e.1) t None
              | VEpr x => key_value_create (PStr e.1) PNull x
              | VWild => Undef
              end in Done (p ++ [kv])) (length l) l [] in
          Done (0, Filt (Some d) (query f) (epr f) (SelSet (Z.of_nat (length l)) Live cs) (assocType f) (assocClass f)
            (resultClass f) (role f) (resultRole f) (resultProp f) (PropNum f))
      | None, None => Done (1, set_dialect d f)
      end
  end.
(* src: lib/wsman-filter.c 110-126 filter_create *)
Definition filter_create (dia query' : option cstring) (epr' : option epr_t) (sels : option (list (cstring * key_value_t epr_t)))
  (a : assoc_args) : outcome (option filter_t) :=
  let* r := filter_set filter_initialize dia query' epr' sels a in
  Done (if r.1 =? 1 then None else Some r.2).
(* src: lib/wsman-filter.c 128-131 filter_set_simple *)
Definition filter_set_simple (f : filter_t) (dia query' : option cstring) : outcome (Z * filter_t) :=
  filter_set f dia query' None None no_assoc.
(* src: lib/wsman-filter.c 133-136 filter_create_simple *)
Definition filter_create_simple (dia query' : option cstring) : outcome (option filter_t) :=
  filter_create dia query' None None no_assoc.
(* src: lib/wsman-filter.c 138-144 filter_set_assoc *)
Definition filter_set_assoc (f : filter_t) (e : option epr_t) (a : assoc_args) : outcome (Z * filter_t) :=
  filter_set f (Some WSM_ASSOCIATION_FILTER_DIALECT) None e None a.
(* src: lib/wsman-filter.c 147-153 filter_create_assoc *)
Definition filter_create_assoc (e : option epr_t) (a : assoc_args) : outcome (option filter_t) :=
  filter_create (Some WSM_ASSOCIATION_FILTER_DIALECT) None e None a.
(* src: lib/wsman-filter.c 155-159 filter_create_selector *)
Definition filter_create_selector (sels : option (list (cstring * key_value_t epr_t))) : outcome (option filter_t) :=
  filter_create (Some WSM_SELECTOR_FILTER_DIALECT) None None sels no_assoc.

Definition set_selectorset (s : SelectorSet epr_t) (f : filter_t) : filter_t :=
  Filt (dialect f) (query f) (epr f) s (assocType f) (assocClass f) (resultClass f) (role f) (resultRole f) (resultProp f) (PropNum f).
(** The keys are compared until one is the same. *)
(* src: lib/wsman-filter.c 168-171 _filter_add_selector *)
Fixpoint same_key_found (k : cstring) (n : nat) (l : list (key_value_t epr_t)) : outcome bool :=
  match n, l with
  | O, _ => Done false
  | S n, x :: l => let* k' := chars (key x) in if streq k k' then Done true else same_key_found k n l
  | S _, [] => Undef
  end.
(* src: lib/wsman-filter.c 161-180 _filter_add_selector *)
Definition _filter_add_selector (f : option filter_t) (k val : option cstring) (e : option epr_t) : outcome (Z * option filter_t) :=
  match f, k, val, e with
  | Some g, Some k, Some _, _ | Some g, Some k, None, Some _ =>
      let ss := selectorset g in
      let* found := same_key_found k (Z.to_nat (count ss)) (cells ss) in
      if found : bool then Done (-1, f)
      else
        let* kv := key_value_create (PStr k) (from_option PStr PNull val) e in
        Done (0, Some (set_selectorset (SelSet (u32 (count ss + 1)) Live (cells ss ++ [kv])) g))
  | _, _, _, _ => Done (0, f)
  end.
(* src: lib/wsman-filter.c 182-185 filter_add_selector *)
Definition filter_add_selector (f : option filter_t) (k val : option cstring) := _filter_add_selector f k val None.
(* src: lib/wsman-filter.c 187-190 filter_add_selector_epr *)
Definition filter_add_selector_epr (f : option filter_t) (k : option cstring) (e : option epr_t) := _filter_add_selector f k None e.

(** [role] is not copied. *)
(* src: lib/wsman-filter.c 192-243 filter_copy *)
Definition filter_copy (f : option filter_t) : outcome (option filter_t) :=
  match f with
  | None => Done None
  | Some f =>
      let* e := copy_opt epr_copy (epr f) in
      let ss := selectorset f in
      let* cs := each (fun x l => let* y := key_value_copy x in Done (l ++ [y])) (Z.to_nat (count ss)) (cells ss) [] in
      let* props := match resultProp f with
        | None => Done (None, 0)
        | Some l => if PropNum f <? 0 then Done (None, 0) else let* l := copy_props l (PropNum f) in Done (Some l, PropNum f)
        end in
      Done (Some (Filt (dialect f) (query f) e (SelSet (count ss) Live cs) (assocType f) (assocClass f) (resultClass f) None
        (resultRole f) props.1 props.2))
  end.
(* src: lib/wsman-filter.c 245-282 filter_destroy *)
Definition filter_destroy (f : option filter_t) : outcome unit :=
  match f with
  | None => Done tt
  | Some f =>
      let* _ := from_option epr_destroy (Done tt) (epr f) in
      let* _ := each (fun x _ => key_value_destroy x) (Z.to_nat (count (selectorset f))) (cells (selectorset f)) tt in
      match selectors (selectorset f) with Freed => Undef | _ => Done tt end
  end.

Section Serialize.
Context (content : cstring -> list xml) (default_ns : option cstring).
#[local] Abbreviation add_child := (ws_xml_add_child content).
#[local] Abbreviation add_child_with := (ws_xml_add_child_with content).
#[local] Abbreviation add_attr := (ws_xml_add_node_attr default_ns).
Definition add_opt (node : xml) (name : cstring) (x : option cstring) : xml :=
  match x with Some t => add_child node (Some XML_NS_CIM_BINDING) name (Some t) | None => node end.
Definition add_dialect (f : filter_t) (filter_node : xml) : xml :=
  match dialect f with Some d => add_attr filter_node None WSM_DIALECT (Some d) | None => filter_node end.
(** A selector whose value is a reference is written without a Selector around it and without its name. *)
(* src: lib/wsman-filter.c 335-342 filter_serialize *)
Definition serialize_selector (x : key_value_t epr_t) (node : xml) : outcome xml :=
  match v x with
  | VText t =>
      let* t := maybe t in
      let* k := maybe (key x) in
      add_child_with node (Some XML_NS_WS_MAN) WSM_SELECTOR t (fun n => Done (add_attr n None WSM_NAME k))
  | VEpr e => epr_serialize_opt content default_ns node None None e true
  | VWild => Undef
  end.
(* src: lib/wsman-filter.c 284-353 filter_serialize *)
Definition filter_serialize (node : xml) (f : filter_t) (ns : option cstring) : outcome (Z * xml) :=
  let fill := fun q k => let* n := add_child_with node ns WSM_FILTER q k in Done (0, n) in
  match query f, epr f with
  | Some q, _ => fill (Some q) (fun n => Done (add_dialect f n))
  | None, Some e =>
      fill None (fun filter_node =>
        let* n := add_child_with filter_node (Some XML_NS_CIM_BINDING)
          (if assocType f =? 0 then WSMB_ASSOCIATED_INSTANCES else WSMB_ASSOCIATION_INSTANCES) None (fun instance_node =>
            let* n := epr_serialize content default_ns instance_node (Some XML_NS_CIM_BINDING) (Some WSMB_OBJECT) e true in
            let n := add_opt n WSMB_ASSOCIATION_CLASS_NAME (assocClass f) in
            let n := add_opt n WSMB_ROLE (role f) in
            let n := add_opt n WSMB_RESULT_CLASS_NAME (resultClass f) in
            let n := add_opt n WSMB_RESULT_ROLE (resultRole f) in
            match resultProp f with
            | Some l => each (fun p n => Done (add_opt n WSMB_INCLUDE_RESULT_PROPERTY (Some p))) (Z.to_nat (PropNum f)) l n
            | None => Done n
            end) in
        Done (add_dialect f n))
  | None, None =>
      if count (selectorset f) =? 0 then Done (-1, node)
      else fill None (fun filter_node =>
        let* n := add_child_with filter_node (Some XML_NS_WS_MAN) WSM_SELECTOR_SET None
          (each serialize_selector (Z.to_nat (count (selectorset f))) (cells (selectorset f))) in
        Done (add_dialect f n))
  end.
End Serialize.

(** The first attribute of any name stands in for a missing Dialect. *)
(* src: lib/wsman-filter.c 370-380 filter_deserialize *)
Definition read_dialect (filter_node : xml) : cstring :=
  match ws_xml_find_attr_value (Some filter_node) None WSM_DIALECT with
  | Some d => d
  | None => match xml_parser_attr_get filter_node 0 with Done (Some a) => attr_value a | _ => WSM_XPATH_FILTER_DIALECT end
  end.
(* src: lib/wsman-filter.c 410-417 filter_deserialize *)
Fixpoint read_props (n : nat) (i : nat) (instance_node : option xml) : list cstring :=
  match n with
  | O => []
  | S n =>
      match ws_xml_get_child instance_node (Z.of_nat i) (Some XML_NS_CIM_BINDING) (Some WSMB_INCLUDE_RESULT_PROPERTY) with
      | Some c => ws_xml_get_node_text_safe (Some c) :: read_props n (S i) instance_node
      | None => []
      end
  end.
(** Behind the last Selector the entries stay as malloc gave them. *)
(* src: lib/wsman-filter.c 427-453 filter_deserialize *)
Fixpoint read_selectors (fuel : nat) (n : nat) (i : nat) (set : option xml) : outcome (list (key_value_t epr_t)) :=
  match n with
  | O => Done []
  | S m =>
      match ws_xml_get_child set (Z.of_nat i) (Some XML_NS_WS_MAN) (Some WSM_SELECTOR) with
      | None => Done (repeat (KV PWild VWild) n)
      | Some entry =>
          let k := from_option (fun a => PStr (attr_value a)) PNull (ws_xml_find_node_attr (Some entry) None WSM_NAME) in
          let* kv := match ws_xml_get_child (Some entry) 0 (Some XML_NS_ADDRESSING) (Some WSA_EPR) with
            | Some inst =>
                let* e := epr_deserialize fuel (Some inst) None None true in
                let* kv := key_value_create k PNull e in
                (* the copy stays, the reference goes *)
                let* _ := from_option epr_destroy (Done tt) e in Done kv
            | None => key_value_create k (PStr (ws_xml_get_node_text_safe (Some entry))) None
            end in
          let* l := read_selectors fuel m (S i) set in
          Done (kv :: l)
      end
  end.
Definition read_text (n : option xml) (name : cstring) : option cstring :=
  content_of <$> ws_xml_get_child n 0 (Some XML_NS_CIM_BINDING) (Some name).
(** Four children are taken for those that are not properties, the Object among them.  [fuel] bounds the
    nesting of references. *)
(* src: lib/wsman-filter.c 355-463 filter_deserialize *)
Definition filter_deserialize (fuel : nat) (node : option xml) (ns : option cstring) : outcome (option filter_t) :=
  match ws_xml_get_child node 0 ns (Some WSM_FILTER) with
  | None => Done None
  | Some filter_node =>
      let d := read_dialect filter_node in
      if streq d WSM_ASSOCIATION_FILTER_DIALECT then
        let inst := match ws_xml_get_child (Some filter_node) 0 (Some XML_NS_CIM_BINDING) (Some WSMB_ASSOCIATED_INSTANCES) with
          | Some n => Some (0, n)
          | None => pair 1 <$> ws_xml_get_child (Some filter_node) 0 (Some XML_NS_CIM_BINDING) (Some WSMB_ASSOCIATION_INSTANCES)
          end in
        match inst with
        | None => Done None
        | Some (ty, n) =>
            let* e := epr_deserialize fuel (Some n) (Some XML_NS_CIM_BINDING) (Some WSMB_OBJECT) true in
            let properNum := ws_xml_get_child_count (Some n) - 4 in
            let props := read_props (Z.to_nat properNum) 0 (Some n) in
            Done (Some (Filt (Some d) None e (SelSet 0 Null []) ty (read_text (Some n) WSMB_ASSOCIATION_CLASS_NAME)
              (read_text (Some n) WSMB_RESULT_CLASS_NAME) (read_text (Some n) WSMB_ROLE) (read_text (Some n) WSMB_RESULT_ROLE)
              (if properNum <? 0 then None else Some props) (Z.of_nat (length props))))
        end
      else if streq d WSM_SELECTOR_FILTER_DIALECT then
        match ws_xml_get_child (Some filter_node) 0 (Some XML_NS_WS_MAN) (Some WSM_SELECTOR_SET) with
        | None => Done None
        | Some set =>
            let n := ws_xml_get_child_count (Some set) in
            let* l := read_selectors fuel (Z.to_nat n) 0 (Some set) in
            Done (Some (Filt (Some d) None None (SelSet n Live l) 0 None None None None None 0))
        end
      else Done (Some (Filt (Some d) (Some (content_of filter_node)) None (SelSet 0 Null []) 0 None None None None None 0))
  end.

(** ** Filters that come back as they were *)

Section RoundTrip.
Context {content : cstring -> list xml} (law : content_law content).
#[local] Abbreviation leaf := (Epr.leaf (content := content)).
#[local] Abbreviation epr_tree := (Epr.epr_tree (content := content)).
#[local] Abbreviation selector_tree := (Epr.selector_tree (content := content)).

Definition query_filter (d q : cstring) : filter_t := Filt (Some d) (Some q) None (SelSet 0 Null []) 0 None None None None None 0.
Definition selector_filter (l : list (key_value_t epr_t)) : filter_t :=
  Filt (Some WSM_SELECTOR_FILTER_DIALECT) None None (SelSet (Z.of_nat (length l)) Live l) 0 None None None None None 0.
Definition assoc_filter (e : epr_t) (instances : bool) (cl re ro rr : option cstring) (props : list cstring) : filter_t :=
  Filt (Some WSM_ASSOCIATION_FILTER_DIALECT) None (Some e) (SelSet 0 Null []) (if instances then 1 else 0) cl re ro rr
    (Some props) (Z.of_nat (length props)).
Definition plain_opt (x : option cstring) : Prop := from_option plain_text True x.
Definition present (x : option cstring) : nat := if x is Some _ then 1%nat else 0%nat.

(** The filter element of a node. *)
Definition filter_tree (ns : option cstring) (d : cstring) (ch : list xml) : xml := Elem ns WSM_FILTER [Attr None WSM_DIALECT d] ch.
Lemma read_dialect_tree ns d ch : read_dialect (filter_tree ns d ch) = d.
Proof. unfold read_dialect, ws_xml_find_attr_value. cbn. unfold is_attr. cbn [attr_ns attr_name]. now rewrite bool_decide_true. Qed.
Lemma find_filter node ns d ch : is_element node = true -> selected ns (Some WSM_FILTER) (Some node) = [] ->
  ws_xml_get_child (Some (append_child node (filter_tree ns d ch))) 0 ns (Some WSM_FILTER) = Some (filter_tree ns d ch).
Proof.
  intros Hn H. rewrite ws_xml_get_child_0, selected_append, H by done. unfold filter_tree. now rewrite selects_self.
Qed.

Lemma query_filter_roundtrip node ns d q : is_element node = true -> selected ns (Some WSM_FILTER) (Some node) = [] ->
  plain_text q -> d <> WSM_ASSOCIATION_FILTER_DIALECT -> d <> WSM_SELECTOR_FILTER_DIALECT ->
  exists node', filter_serialize content None node (query_filter d q) ns = Done (0, node') /\
    forall fuel, filter_deserialize fuel (Some node') ns = Done (Some (query_filter d q)).
Proof using law.
  intros Hn H P D1 D2. exists (append_child node (filter_tree ns d (content q))). split; [done|]. intros fuel.
  unfold filter_deserialize. rewrite find_filter, read_dialect_tree by done.
  rewrite (proj2 (streq_false _ _) D1), (proj2 (streq_false _ _) D2).
  unfold filter_tree. now rewrite content_of_elem, (proj2 (law q P)).
Qed.

Lemma serialize_selector_eq x s : sound_kv plain_text x -> (exists t, v x = VText (PStr t)) ->
  serialize_selector content None x s = Done (append_child s (selector_tree x)).
Proof. intros [k t Ht|k e He] [t' E]; [done|discriminate]. Qed.
Lemma read_selectors_spec fuel l i ns name a : Forall (sound_kv plain_text) l -> text_only l -> (i <= length l)%nat ->
  read_selectors fuel (length l - i) i (Some (Elem ns name a (map selector_tree l))) = Done (drop i l).
Proof using law.
  intros F O Hi. remember (length l - i)%nat as n eqn:En. revert i Hi En. induction n as [|n IH]; intros i Hi En.
  { rewrite drop_ge by lia. done. }
  destruct (lookup_lt_is_Some_2 l i) as [x Hx]; [lia|]. cbn [read_selectors].
  rewrite ws_xml_get_child_nth, selected_selectors, list_lookup_fmap, Hx. cbn [fmap option_fmap option_map].
  replace (ws_xml_find_node_attr (Some (selector_tree x)) None WSM_NAME) with (Some (Attr None WSM_NAME (key_name x)))
    by (symmetry; apply get_name_attr). cbn [from_option attr_value].
  unfold text_only in O. rewrite Forall_forall in F, O. pose proof (list_elem_of_lookup_2 _ _ _ Hx) as Hin. specialize (F x Hin). destruct (O x Hin) as [t' E].
  destruct F as [k t Ht|k e He]; [|discriminate]. cbn [v key_name key] in *.
  unfold selector_tree at 1 2. cbn [v key_name key text_of]. rewrite ws_xml_get_child_0, selected_nothing by now apply law. cbn [head].
  unfold ws_xml_get_node_text_safe. cbn [ws_xml_get_node_text fmap option_fmap option_map default from_option].
  rewrite content_of_elem, (proj2 (law t Ht)). unfold id. cbn [key_value_create key_value_create_with copy_key maybe obind].
  rewrite IH by lia. cbn [obind]. now rewrite (drop_S l _ i Hx).
Qed.
Lemma selectors_roundtrip node ns l : is_element node = true -> selected ns (Some WSM_FILTER) (Some node) = [] ->
  Forall (sound_kv plain_text) l -> text_only l -> l <> [] ->
  exists node', filter_serialize content None node (selector_filter l) ns = Done (0, node') /\
    forall fuel, filter_deserialize fuel (Some node') ns = Done (Some (selector_filter l)).
Proof using law.
  intros Hn H F O N. set (set := Elem (Some XML_NS_WS_MAN) WSM_SELECTOR_SET [] (map selector_tree l)).
  exists (append_child node (filter_tree ns WSM_SELECTOR_FILTER_DIALECT [set])). split.
  - unfold filter_serialize, selector_filter. cbn [query epr selectorset count cells].
    rewrite (proj2 (Z.eqb_neq _ 0)) by (destruct l; [done|cbn; lia]).
    unfold ws_xml_add_child_with, xml_parser_node_add. rewrite Nat2Z.id.
    rewrite (each_fold _ (fun x s => append_child s (selector_tree x)) (fun _ => True)); [|..|done].
    + change (make_new_xml_node content (Some XML_NS_WS_MAN) WSM_SELECTOR_SET None false) with (Elem (Some XML_NS_WS_MAN) WSM_SELECTOR_SET [] []).
      rewrite fold_selectors. done.
    + unfold text_only in O. rewrite Forall_forall in *. intros x Hx s _. split; [|done]. apply serialize_selector_eq; auto.
  - intros fuel. unfold filter_deserialize. rewrite find_filter, read_dialect_tree by done. eval_names.
    replace (ws_xml_get_child (Some (filter_tree ns WSM_SELECTOR_FILTER_DIALECT [set])) 0 (Some XML_NS_WS_MAN) (Some WSM_SELECTOR_SET))
      with (Some set) by (symmetry; unfold filter_tree; subst set; find_child).
    assert (ws_xml_get_child_count (Some set) = Z.of_nat (length l)) as ->.
    { rewrite child_count_selected. subst set. unfold selected. cbn [from_option children].
      rewrite (filter_ext' _ _ _ selects_any), selector_tree_elements. now rewrite length_map. }
    rewrite Nat2Z.id. pose proof (read_selectors_spec fuel l 0 (Some XML_NS_WS_MAN) WSM_SELECTOR_SET [] F O) as E.
    rewrite Nat.sub_0_r in E. subst set. rewrite E by lia. done.
Qed.

(** The children of an association's element. *)
Definition bleaf (name : cstring) (t : cstring) : xml := leaf XML_NS_CIM_BINDING name t.
Definition bopt (name : cstring) (x : option cstring) : list xml := from_option (fun t => [bleaf name t]) [] x.
Definition assoc_children (e : epr_t) (cl re ro rr : option cstring) (props : list cstring) : list xml :=
  [epr_tree (Some XML_NS_CIM_BINDING) WSMB_OBJECT e] ++ bopt WSMB_ASSOCIATION_CLASS_NAME cl ++ bopt WSMB_ROLE ro ++
  bopt WSMB_RESULT_CLASS_NAME re ++ bopt WSMB_RESULT_ROLE rr ++ map (bleaf WSMB_INCLUDE_RESULT_PROPERTY) props.
Definition pick (name : cstring) : list xml -> list xml := List.filter (selects (Some XML_NS_CIM_BINDING) (Some name)).
Lemma pick_bopt name m x : pick name (bopt m x) = if streq name m then bopt m x else [].
Proof.
  destruct x as [t|]; [|now destruct (streq name m)]. unfold pick, bopt, bleaf, Epr.leaf. cbn [from_option List.filter].
  rewrite selects_elem. eval_names. now destruct (streq name m).
Qed.
Lemma pick_props name m l : pick name (map (bleaf m) l) = if streq name m then map (bleaf m) l else [].
Proof.
  unfold pick. induction l as [|t l IH]; [now destruct (streq name m)|]. cbn [map List.filter]. rewrite IH.
  unfold bleaf at 1 2, Epr.leaf at 1 2. rewrite selects_elem.
  eval_names. now destruct (streq name m).
Qed.
Lemma pick_object name e : pick name [epr_tree (Some XML_NS_CIM_BINDING) WSMB_OBJECT e] =
  if streq name WSMB_OBJECT then [epr_tree (Some XML_NS_CIM_BINDING) WSMB_OBJECT e] else [].
Proof. destruct e as [a u [c m l]]. rewrite epr_tree_eq. unfold pick. cbn [List.filter]. rewrite selects_elem. eval_names. now destruct (streq _ _). Qed.
Lemma pick_app name l k : pick name (l ++ k) = pick name l ++ pick name k.
Proof. apply List.filter_app. Qed.
Ltac picks := unfold assoc_children; rewrite !pick_app, pick_object, !pick_bopt, pick_props; eval_names; rewrite ?app_nil_r; cbn [app].
Lemma add_opt_eq ns n a ch name x : add_opt content (Elem ns n a ch) name x = Elem ns n a (ch ++ bopt name x).
Proof. destruct x as [t|]; [done|]. cbn. now rewrite app_nil_r. Qed.
Lemma add_props ns n a ch l :
  each (fun p n => Done (add_opt content n WSMB_INCLUDE_RESULT_PROPERTY (Some p))) (length l) l (Elem ns n a ch) =
  Done (Elem ns n a (ch ++ map (bleaf WSMB_INCLUDE_RESULT_PROPERTY) l)).
Proof.
  revert ch. induction l as [|p l IH]; intros ch; cbn [each length map obind]; [now rewrite app_nil_r|].
  rewrite add_opt_eq, IH, <- app_assoc. done.
Qed.
Lemma bopt_elements name x : List.filter is_element (bopt name x) = bopt name x.
Proof. now destruct x. Qed.
Lemma bleaf_elements name l : List.filter is_element (map (bleaf name) l) = map (bleaf name) l.
Proof. induction l as [|t l IH]; [done|]. cbn. now f_equal. Qed.
Lemma bopt_length name x : length (bopt name x) = present x.
Proof. now destruct x. Qed.
Lemma assoc_count ns n a e cl re ro rr props :
  ws_xml_get_child_count (Some (Elem ns n a (assoc_children e cl re ro rr props))) =
  Z.of_nat (1 + present cl + present ro + present re + present rr + length props).
Proof.
  cbn [ws_xml_get_child_count from_option]. unfold xml_parser_get_count_node, assoc_children. cbn [children].
  rewrite !List.filter_app, !bopt_elements, bleaf_elements. rewrite !length_app, !bopt_length, length_map.
  destruct e as [x u [c m l]]. rewrite epr_tree_eq. cbn [List.filter is_element length]. f_equal. lia.
Qed.
Lemma read_opt ns n a e cl re ro rr props name x : plain_opt x -> pick name (assoc_children e cl re ro rr props) = bopt name x ->
  read_text (Some (Elem ns n a (assoc_children e cl re ro rr props))) name = x.
Proof using law.
  intros P E. unfold read_text. rewrite ws_xml_get_child_0. unfold selected. cbn [from_option children].
  unfold pick in E. rewrite E. destruct x as [t|]; [|done]. cbn [bopt from_option head fmap option_fmap option_map]. f_equal. exact (leaf_text law XML_NS_CIM_BINDING name t P).
Qed.
Lemma read_props_spec ns n a e cl re ro rr props k i : Forall plain_text props -> (length props - i <= k)%nat ->
  read_props k i (Some (Elem ns n a (assoc_children e cl re ro rr props))) = drop i props.
Proof using law.
  intros P. revert i. induction k as [|k IH]; intros i Hk; cbn [read_props]; [now rewrite drop_ge by lia|].
  rewrite ws_xml_get_child_nth. unfold selected. cbn [from_option children]. fold (pick WSMB_INCLUDE_RESULT_PROPERTY).
  replace (pick WSMB_INCLUDE_RESULT_PROPERTY (assoc_children e cl re ro rr props)) with (map (bleaf WSMB_INCLUDE_RESULT_PROPERTY) props)
    by (symmetry; picks; done).
  rewrite list_lookup_fmap. destruct (props !! i) as [p|] eqn:Ep; cbn [fmap option_fmap option_map].
  - rewrite IH by lia. rewrite (drop_S props p i Ep). f_equal. rewrite Forall_forall in P.
    unfold ws_xml_get_node_text_safe. cbn [ws_xml_get_node_text fmap option_fmap option_map default from_option].
    apply (leaf_text law XML_NS_CIM_BINDING WSMB_INCLUDE_RESULT_PROPERTY p). apply P. now apply list_elem_of_lookup_2 with i.
  - rewrite drop_ge; [done|]. now apply lookup_ge_None.
Qed.
Lemma assoc_roundtrip node ns e inst cl re ro rr props : is_element node = true -> selected ns (Some WSM_FILTER) (Some node) = [] ->
  sound plain_text e -> plain_opt cl -> plain_opt re -> plain_opt ro -> plain_opt rr -> Forall plain_text props ->
  (3 <= present cl + present ro + present re + present rr)%nat ->
  exists node', filter_serialize content None node (assoc_filter e inst cl re ro rr props) ns = Done (0, node') /\
    filter_deserialize (depth e) (Some node') ns = Done (Some (assoc_filter e inst cl re ro rr props)).
Proof using law.
  intros Hn H S P1 P2 P3 P4 P5 C.
  set (name := if inst then WSMB_ASSOCIATION_INSTANCES else WSMB_ASSOCIATED_INSTANCES).
  set (body := Elem (Some XML_NS_CIM_BINDING) name [] (assoc_children e cl re ro rr props)).
  exists (append_child node (filter_tree ns WSM_ASSOCIATION_FILTER_DIALECT [body])). split.
  - unfold filter_serialize, assoc_filter. cbn [query epr assocType assocClass resultClass role resultRole resultProp PropNum].
    replace (if (if inst then 1 else 0) =? 0 then _ else _) with name by now destruct inst.
    unfold ws_xml_add_child_with, xml_parser_node_add. rewrite (epr_serialize_eq plain_text e S (make_new_xml_node content (Some XML_NS_CIM_BINDING) name None false) (Some XML_NS_CIM_BINDING) WSMB_OBJECT). cbn [obind].
    change (append_child (make_new_xml_node content (Some XML_NS_CIM_BINDING) name None false) (epr_tree (Some XML_NS_CIM_BINDING) WSMB_OBJECT e))
      with (Elem (Some XML_NS_CIM_BINDING) name [] [epr_tree (Some XML_NS_CIM_BINDING) WSMB_OBJECT e]).
    rewrite !add_opt_eq, Nat2Z.id, add_props. cbn [obind]. rewrite <- !app_assoc. done.
  - unfold filter_deserialize. rewrite find_filter, read_dialect_tree by done. eval_names.
    assert (forall n m ch, ws_xml_get_child (Some (filter_tree ns WSM_ASSOCIATION_FILTER_DIALECT [Elem (Some XML_NS_CIM_BINDING) m [] ch])) 0
      (Some XML_NS_CIM_BINDING) (Some n) = if streq n m then Some (Elem (Some XML_NS_CIM_BINDING) m [] ch) else None) as G.
    { intros n m ch. rewrite ws_xml_get_child_0. unfold selected, filter_tree. cbn [from_option children List.filter].
      rewrite selects_elem. eval_names. now destruct (streq n m). }
    unfold body at 1 2. rewrite !G.
    replace (match (if streq WSMB_ASSOCIATED_INSTANCES name then _ else _) with Some n => _ | None => _ end)
      with (Some ((if inst then 1 else 0), body)) by now destruct inst.
    rewrite (epr_deserialize_eq law e S (depth e) body (Some XML_NS_CIM_BINDING) WSMB_OBJECT (Nat.le_refl _));
      [cbn [obind]|unfold selected; cbn [from_option children body]; fold (pick WSMB_OBJECT); picks; done].
    unfold body. rewrite assoc_count, (proj2 (Z.ltb_ge _ 0)) by lia.
    rewrite (read_opt _ _ _ _ _ _ _ _ _ WSMB_ASSOCIATION_CLASS_NAME cl) by (try done; picks; done).
    rewrite (read_opt _ _ _ _ _ _ _ _ _ WSMB_RESULT_CLASS_NAME re) by (try done; picks; done).
    rewrite (read_opt _ _ _ _ _ _ _ _ _ WSMB_ROLE ro) by (try done; picks; done).
    rewrite (read_opt _ _ _ _ _ _ _ _ _ WSMB_RESULT_ROLE rr) by (try done; picks; done).
    rewrite read_props_spec by (try done; lia). cbn [drop]. done.
Qed.
End RoundTrip.

(** C28. A filter that is written into a request and read by the server is the same: a query in any other
    dialect, a set of selectors whose values are texts, or an association with at least three of its four
    optional names, all with texts without ampersands. *)
Theorem filter_roundtrip content node ns f : content_law content -> is_element node = true ->
  selected ns (Some WSM_FILTER) (Some node) = [] ->
  (exists d q, f = query_filter d q /\ plain_text q /\ d <> WSM_ASSOCIATION_FILTER_DIALECT /\ d <> WSM_SELECTOR_FILTER_DIALECT) \/
  (exists l, f = selector_filter l /\ Forall (sound_kv plain_text) l /\ text_only l /\ l <> []) \/
  (exists e inst cl re ro rr props, f = assoc_filter e inst cl re ro rr props /\ sound plain_text e /\
    Forall plain_opt [cl; re; ro; rr] /\ Forall plain_text props /\ (3 <= present cl + present ro + present re + present rr)%nat) ->
  exists fuel node', filter_serialize content None node f ns = Done (0, node') /\
    filter_deserialize fuel (Some node') ns = Done (Some f).
Proof.
  intros law Hn H [(d & q & -> & P & D1 & D2)|[(l & -> & F & O & N)|(e & inst & cl & re & ro & rr & props & -> & S & P & Pp & C)]].
  - destruct (query_filter_roundtrip law node ns d q) as (node' & E1 & E2); try done. exists 0%nat. eauto.
  - destruct (selectors_roundtrip law node ns l) as (node' & E1 & E2); try done. exists 0%nat. eauto.
  - rewrite !Forall_cons in P. destruct P as (P1 & P2 & P3 & P4 & _).
    destruct (assoc_roundtrip law node ns e inst cl re ro rr props) as (node' & E1 & E2); try done. exists (depth e). eauto.
Qed.
Definition demo_filter : filter_t := assoc_filter demo_epr true (Some (lit "C")) None (Some (lit "r")) (Some (lit "s")) [lit "p"; lit "q"].
Lemma filter_roundtrip_witness : exists fuel node',
  filter_serialize demo_content None (Elem None (lit "Enumerate") [] []) demo_filter (Some XML_NS_WS_MAN) = Done (0, node') /\
  filter_deserialize fuel (Some node') (Some XML_NS_WS_MAN) = Done (Some demo_filter).
Proof.
  apply (filter_roundtrip demo_content); [apply demo_content_law|done|done|]. right. right.
  do 7 eexists. split; [reflexivity|]. split; [apply demo_sound|]. split; [|split].
  - repeat (apply Forall_cons; split; [cbn; now (exact I || apply plain_dec)|]). constructor.
  - repeat (apply Forall_cons; split; [now apply plain_dec|]). constructor.
  - cbn. lia.
Defined.

(** ** Where the code goes wrong *)

Definition there (f : filter_t) : outcome (option filter_t) :=
  let* r := filter_serialize demo_content None (Elem None (lit "Enumerate") [] []) f (Some XML_NS_WS_MAN) in
  filter_deserialize 2 (Some r.2) (Some XML_NS_WS_MAN).
(** Two of the optional names missing: one of the properties is lost; none given: both. *)
Example props_lost : there (assoc_filter demo_epr true (Some (lit "C")) None (Some (lit "r")) None [lit "p"; lit "q"]) =
    Done (Some (assoc_filter demo_epr true (Some (lit "C")) None (Some (lit "r")) None [lit "p"])) /\
  exists f, there (assoc_filter demo_epr true None None None None [lit "p"; lit "q"]) = Done (Some f) /\ PropNum f = 0.
Proof. split; [vm_compute; reflexivity|]. eexists. split; vm_compute; reflexivity. Qed.
(** A selector whose value is a reference comes back as two entries that are not set. *)
Example selector_lost : exists f, there (selector_filter [KV (PStr (lit "Ref")) (VEpr (Some demo_inner))]) = Done (Some f) /\
  selectorset f = SelSet 2 Live [KV PWild VWild; KV PWild VWild].
Proof. eexists. split; vm_compute; reflexivity. Qed.
(** The copy of a filter has no role. *)
Example role_dropped : exists f, filter_copy (Some demo_filter) = Done (Some f) /\ role f = None /\ role demo_filter = Some (lit "r").
Proof. eexists. repeat split; vm_compute; reflexivity. Qed.

End Filter.
