(* ===== verification/Envelope.v ===== *)
(** * Envelope: what the server reads from a request and builds for the answer (lib/wsman-soap-envelope.c)

    A document is its root element, [None] where the code has a NULL document.  The document of a
    context ([cntx->indoc]) is an argument of the readers that fall back to it.  The prefixes of
    namespaces are those that [prefix] says; the texts of QNames are made of them.  A table of
    selectors is a finite map, as its keys are distinct and it is only looked up. *)
From S2P Require Import Prelude CString Names HttpText HttpAuth Uri Faults EventPool Xml Epr Filter.
Import Faults Names Xml Epr Filter.

Module Envelope.

(** The loop [for (i = 0; (child = ws_xml_get_child (node, i, ns, name)) != NULL; i++)]: its body goes
    on ([inl]) or leaves ([inr]). *)
Section ChildLoop.
Context {S : Type} (node : option xml) (ns name : option cstring) (f : xml -> S -> S + S).
Fixpoint child_loop (fuel i : nat) (s : S) : S :=
  match fuel with
  | O => s
  | Datatypes.S fuel =>
      match ws_xml_get_child node (Z.of_nat i) ns name with
      | None => s
      | Some c => match f c s with inl s => child_loop fuel (i + 1) s | inr s => s end
      end
  end.
Definition for_children (s : S) : S := child_loop (Datatypes.S (length (from_option children [] node))) 0 s.
Fixpoint walk (l : list xml) (s : S) : S :=
  match l with [] => s | c :: l => match f c s with inl s => walk l s | inr s => s end end.
(** Every child that the name selects is visited, in order. *)
Lemma for_children_walk s : for_children s = walk (selected ns name node) s.
Proof.
  unfold for_children. enough (forall fuel i s, (length (selected ns name node) < i + fuel)%nat ->
    child_loop fuel i s = walk (drop i (selected ns name node)) s) as H.
  { rewrite (H _ 0%nat); [done|]. unfold selected. pose proof (List.filter_length_le (selects ns name) (from_option children [] node)). lia. }
  induction fuel as [|fuel IH]; intros i t L; cbn [child_loop]; [now rewrite drop_ge by lia|].
  rewrite ws_xml_get_child_nth. destruct (selected ns name node !! i) as [c|] eqn:E.
  - rewrite (drop_S _ c i E). cbn [walk]. destruct (f c t); [|done]. rewrite Nat.add_1_r. apply IH. lia.
  - apply lookup_ge_None in E. now rewrite drop_ge.
Qed.
End ChildLoop.

(** A node of a document that is worked on through its handle: the [i]-th element below the root. *)
Fixpoint update_element (i : nat) (f : xml -> xml) (l : list xml) : list xml :=
  match l with
  | [] => []
  | c :: l => if is_element c then match i with O => f c :: l | S i => c :: update_element i f l end else c :: update_element i f l
  end.
Definition on_child (i : nat) (f : xml -> xml) (doc : xml) : xml :=
  match doc with Elem ns n a ch => Elem ns n a (update_element i f ch) | _ => doc end.
(** ... the one that ws_xml_get_soap_header gives, and ws_xml_get_soap_body where there is a body. *)
Definition on_header (f : xml -> xml) (doc : xml) : xml := on_child 0 f doc.
Definition body_index (doc : xml) : nat :=
  if ws_xml_is_node_qname (ws_xml_get_child (Some doc) 0 None None) (ws_xml_get_node_name_ns (Some doc)) (Some SOAP_BODY) then 0%nat else 1%nat.
Definition on_body (f : xml -> xml) (doc : xml) : xml := on_child (body_index doc) f doc.

(** ** Kinds of requests *)

(* src: lib/wsman-soap-envelope.c 1427-1435 wsman_is_identify_request *)
Definition wsman_is_identify_request (doc : option xml) : bool :=
  bool_decide (is_Some (ws_xml_get_child (ws_xml_get_soap_body doc) 0 (Some XML_NS_WSMAN_ID) (Some WSMID_IDENTIFY))).
(* src: lib/wsman-soap-envelope.c 1437-1451 wsman_is_event_related_request *)
Definition wsman_is_event_related_request (doc : option xml) : bool :=
  let node := ws_xml_get_child (ws_xml_get_soap_header doc) 0 (Some XML_NS_ADDRESSING) (Some WSA_ACTION) in
  match ws_xml_get_node_text node with
  | None => false
  | Some action => streq action EVT_ACTION_UNSUBSCRIBE || streq action EVT_ACTION_RENEW || streq action EVT_ACTION_PULL
  end.

(** ** The headers of a request *)

(* src: lib/wsman-soap-envelope.c 223-231 wsman_get_soap_header_element *)
Definition wsman_get_soap_header_element (doc : option xml) (nsUri name : option cstring) : option xml :=
  match ws_xml_get_soap_header doc, name with
  | Some node, Some _ => ws_xml_find_in_tree (Some node) nsUri name true
  | node, _ => node
  end.
(* src: lib/wsman-soap-envelope.c 204-213 wsman_get_soap_header_value *)
Definition wsman_get_soap_header_value (doc : option xml) (nsUri name : option cstring) : option cstring :=
  match wsman_get_soap_header_element doc nsUri name with Some node => ws_xml_get_node_text (Some node) | None => None end.
(** [doc] or the document of the context. *)
Definition the_doc (indoc doc : option xml) : option xml := match doc with Some _ => doc | None => indoc end.
(* src: lib/wsman-soap-envelope.c 1012-1029 wsman_get_resource_uri *)
Definition wsman_get_resource_uri (indoc doc : option xml) : option cstring :=
  match the_doc indoc doc with
  | None => None
  | doc => ws_xml_get_node_text (ws_xml_get_child (ws_xml_get_soap_header doc) 0 (Some XML_NS_WS_MAN) (Some WSM_RESOURCE_URI))
  end.
(* src: lib/wsman-soap-envelope.c 1315-1328 wsman_get_action *)
Definition wsman_get_action (indoc doc : option xml) : option cstring :=
  match the_doc indoc doc with
  | None => None
  | doc => ws_xml_get_node_text (ws_xml_get_child (ws_xml_get_soap_header doc) 0 (Some XML_NS_ADDRESSING) (Some WSA_ACTION))
  end.
(* src: lib/wsman-soap-envelope.c 980-992 wsman_get_method_name *)
Definition wsman_get_method_name (indoc : option xml) : option cstring :=
  match wsman_get_action indoc None with None | Some [] => None | Some m => after_last "/"%char m end.
(* src: lib/wsman-soap-envelope.c 996-1007 wsman_get_class_name *)
Definition wsman_get_class_name (indoc : option xml) : option cstring :=
  match wsman_get_resource_uri indoc None with None => None | Some uri => after_last "/"%char uri end.

(** The value "true" of the attribute mustUnderstand. *)
Definition must_understand (node : option xml) : bool :=
  match ws_xml_find_attr_value node (Some XML_NS_SOAP_1_2) SOAP_MUST_UNDERSTAND with Some mu => streq mu (lit "true") | None => false end.
(* src: lib/wsman-xml-serialize.c 1696-1708 ws_deserialize_uint32 *)
Definition ws_deserialize_uint32 (parent : option xml) (index : Z) (nameNs : option cstring) (name : cstring) : Z :=
  match ws_xml_get_child parent index nameNs (Some name) with Some node => ws_xml_get_node_ulong (Some node) | None => 0 end.
(* src: lib/wsman-soap-envelope.c 909-927 wsman_get_max_envelope_size *)
Definition wsman_get_max_envelope_size (indoc doc : option xml) : Z :=
  let header := ws_xml_get_soap_header (the_doc indoc doc) in
  let maxsize := ws_xml_get_child header 0 (Some XML_NS_WS_MAN) (Some WSM_MAX_ENVELOPE_SIZE) in
  if must_understand maxsize then ws_deserialize_uint32 header 0 (Some XML_NS_WS_MAN) WSM_MAX_ENVELOPE_SIZE else 0.
(* src: lib/wsman-soap-envelope.c 929-946 wsman_get_fragment_string *)
Definition wsman_get_fragment_string (indoc doc : option xml) : option cstring :=
  match ws_xml_get_child (ws_xml_get_soap_header (the_doc indoc doc)) 0 (Some XML_NS_WS_MAN) (Some WSM_FRAGMENT_TRANSFER) with
  | Some n => if must_understand (Some n) then ws_xml_get_node_text (Some n) else None
  | None => None
  end.
(** The flag, the element and the index.  The closing bracket ends the number when it follows the
    opening one. *)
(* src: lib/wsman-soap-envelope.c 949-977 wsman_get_fragment_type *)
Definition wsman_get_fragment_type (fragstr : option cstring) : Z * option cstring * Z :=
  match fragstr with
  | None => (0, None, 0)
  | Some dupstr =>
      let before (r : cstring) := take (length dupstr - length r) dupstr in
      match strstr dupstr (lit "/text()") with
      | Some p => (2, Some (before p), 0)
      | None =>
          match strstr dupstr (lit "["), strstr dupstr (lit "]") with
          | Some p1, Some p2 => (3, Some (before p1), Uri.atoi (drop 1 (if (length p2 <? length p1)%nat then take (length p1 - length p2) p1 else p1)))
          | _, _ => (1, Some dupstr, 0)
          end
      end
  end.
(* src: lib/wsman-soap-envelope.c 883-907 wsman_get_max_elements *)
Definition wsman_get_max_elements (indoc doc : option xml) : Z :=
  match the_doc indoc doc with
  | None => 0
  | doc =>
      match ws_xml_get_child (ws_xml_get_soap_body doc) 0 (Some XML_NS_ENUMERATION) (Some WSENUM_PULL) with
      | None => 1
      | node =>
          match ws_xml_get_node_text (ws_xml_get_child node 0 (Some XML_NS_ENUMERATION) (Some WSENUM_MAX_ELEMENTS)) with
          | Some text => Uri.atoi text
          | None => 1
          end
      end
  end.
(* src: lib/wsman-soap-envelope.c 843-876 wsman_get_option_set *)
Definition wsman_get_option_set (indoc doc : option xml) (op : cstring) : option cstring :=
  match the_doc indoc doc with
  | None => None
  | doc =>
      match ws_xml_get_child (ws_xml_get_soap_header doc) 0 (Some XML_NS_WS_MAN) (Some WSM_OPTION_SET) with
      | None => None
      | node =>
          for_children node (Some XML_NS_WS_MAN) (Some WSM_OPTION) (fun option optval =>
            match ws_xml_find_attr_value (Some option) None WSM_NAME with
            | Some attrVal =>
                if streq attrVal op then
                  inr (match ws_xml_get_node_text (Some option) with Some [] => Some (lit "true") | t => t end)
                else inl optval
            | None => inl optval
            end) None
      end
  end.

(** ** Selectors *)

(** [Name] in the namespace of WS-Management or without one. *)
Definition selector_name (selector : xml) : option cstring :=
  match ws_xml_find_attr_value (Some selector) (Some XML_NS_WS_MAN) WSM_NAME with
  | Some a => Some a
  | None => ws_xml_find_attr_value (Some selector) None WSM_NAME
  end.
(* src: lib/wsman-soap-envelope.c 1177-1204 wsman_get_selectors_from_epr *)
Definition take_selector (fuel : nat) (selector : xml) (h : gmap cstring (key_value_t epr_t)) : outcome (gmap cstring (key_value_t epr_t)) :=
  match selector_name selector with
  | None => Done h
  | Some attrVal =>
      match h !! attrVal with
      | Some _ => Done h
      | None =>
          let* sentry :=
            match ws_xml_get_child (Some selector) 0 (Some XML_NS_ADDRESSING) (Some WSA_EPR) with
            | Some _ =>
                let* e := epr_deserialize fuel (Some selector) (Some XML_NS_ADDRESSING) (Some WSA_EPR) true in
                let* sentry := key_value_create PNull PNull e in
                let* _ := from_option epr_destroy (Done tt) e in
                Done sentry
            | None =>
                key_value_create PNull (match ws_xml_get_node_text (Some selector) with Some t => PStr t | None => PNull end) None
            end in
          Done (<[attrVal := sentry]> h)
      end
  end.
(** A table without entries is thrown away. *)
(* src: lib/wsman-soap-envelope.c 1161-1211 wsman_get_selectors_from_epr *)
Definition wsman_get_selectors_from_epr (fuel : nat) (epr_node : option xml) : outcome (option (gmap cstring (key_value_t epr_t))) :=
  match ws_xml_get_child epr_node 0 (Some XML_NS_WS_MAN) (Some WSM_SELECTOR_SET) with
  | None => Done None
  | node =>
      let* h := for_children node (Some XML_NS_WS_MAN) (Some WSM_SELECTOR)
                  (fun selector h => inl (let* h := h in take_selector fuel selector h)) (Done ∅) in
      Done (if bool_decide (h = ∅) then None else Some h)
  end.
(* src: lib/wsman-soap-envelope.c 1213-1229 wsman_get_selector_list *)
Definition wsman_get_selector_list (fuel : nat) (indoc doc : option xml) : outcome (option (gmap cstring (key_value_t epr_t))) :=
  match ws_xml_get_soap_header (the_doc indoc doc) with
  | None => Done None
  | header => wsman_get_selectors_from_epr fuel header
  end.
(* src: lib/wsman-soap-envelope.c 1231-1277 wsman_get_selector_list_from_filter *)
Definition wsman_get_selector_list_from_filter (fuel : nat) (indoc doc : option xml) : outcome (option (gmap cstring (key_value_t epr_t))) :=
  let body := ws_xml_get_soap_body (the_doc indoc doc) in
  match ws_xml_get_child body 0 (Some XML_NS_ENUMERATION) (Some WSENUM_ENUMERATE) with None => Done None | node =>
  match ws_xml_get_child node 0 (Some XML_NS_WS_MAN) (Some WSENUM_FILTER) with None => Done None | node =>
  match (match ws_xml_get_child node 0 (Some XML_NS_CIM_BINDING) (Some WSMB_ASSOCIATION_INSTANCES) with
         | Some a => Some a
         | None => ws_xml_get_child node 0 (Some XML_NS_CIM_BINDING) (Some WSMB_ASSOCIATED_INSTANCES) end) with None => Done None | assInst =>
  match ws_xml_get_child assInst 0 (Some XML_NS_CIM_BINDING) (Some WSMB_OBJECT) with None => Done None | object =>
  match ws_xml_get_child object 0 (Some XML_NS_ADDRESSING) (Some WSA_REFERENCE_PARAMETERS) with None => Done None | node =>
  wsman_get_selectors_from_epr fuel node end end end end end.
(* src: lib/wsman-soap-envelope.c 1280-1313 wsman_get_selector *)
Definition wsman_get_selector (indoc doc : option xml) (name : cstring) (index : Z) : option cstring :=
  match the_doc indoc doc with
  | None => None
  | doc =>
      match ws_xml_get_child (ws_xml_get_soap_header doc) index (Some XML_NS_WS_MAN) (Some WSM_SELECTOR_SET) with
      | None => None
      | node =>
          for_children node (Some XML_NS_WS_MAN) (Some WSM_SELECTOR) (fun selector val =>
            match selector_name selector with
            | Some attrVal => if streq attrVal name then inr (ws_xml_get_node_text (Some selector)) else inl val
            | None => inl val
            end) None
      end
  end.

(** The input of a method: its arguments in order.  The name of no method in a format is undefined. *)
(* src: lib/wsman-soap-envelope.c 1077-1157 wsman_get_method_args *)
Definition wsman_get_method_args (fuel : nat) (indoc : option xml) (resource_uri : cstring) :
    outcome (option (list (cstring * key_value_t epr_t))) :=
  match indoc with
  | None => Done None
  | Some _ =>
      let body := ws_xml_get_soap_body indoc in
      let* mn := deref (wsman_get_method_name indoc) in
      let input := mn ++ lit "_INPUT" in
      let in_node :=
        match ws_xml_get_child body 0 (Some resource_uri) (Some input) with
        | Some n => Some n
        | None => ws_xml_get_child body 0 (Some (resource_uri ++ lit ".xsd")) (Some input)
        end in
      match in_node with
      | None => Done None
      | Some _ =>
          let* arglist := for_children in_node None None (fun arg arglist => inl (
            let* arglist := arglist in
            let key := default [] (ws_xml_get_node_local_name (Some arg)) in
            match ws_xml_get_child (Some arg) 0 (Some XML_NS_ADDRESSING) (Some WSA_REFERENCE_PARAMETERS) with
            | Some _ =>
                let* e := epr_deserialize fuel (Some arg) None None true in
                let* data := key_value_create PNull PNull e in
                let* _ := from_option epr_destroy (Done tt) e in
                Done (arglist ++ [(key, data)])
            | None =>
                let* data := key_value_create PNull (match ws_xml_get_node_text (Some arg) with Some t => PStr t | None => PNull end) None in
                Done (arglist ++ [(key, data)])
            end)) (Done []) in
          Done (Some arglist)
      end
  end.

(** ** The envelope of a request *)

(** The status of the message and whether the envelope is valid.  The document has a root. *)
(* src: lib/wsman-soap-envelope.c 312-408 wsman_is_valid_envelope *)
Definition wsman_is_valid_envelope (status : WsmanStatus) (doc : xml) : Z * WsmanStatus :=
  let fault c d m := (0, wsman_set_fault status c d m) in
  let root := Some doc in
  if negb (streq SOAP_ENVELOPE (default [] (ws_xml_get_node_local_name root)))
  then fault WSA_INVALID_MESSAGE_INFORMATION_HEADER WSMAN_DETAIL_OK (Some (lit "No Envelope")) else
  match ws_xml_get_node_name_ns root with
  | None => fault WSMAN_INTERNAL_ERROR WSMAN_DETAIL_OK None
  | Some soapNsUri =>
      if negb (streq soapNsUri XML_NS_SOAP_1_2) then fault SOAP_FAULT_VERSION_MISMATCH WSMAN_DETAIL_OK None else
      match ws_xml_get_soap_body root with
      | None => fault WSA_INVALID_MESSAGE_INFORMATION_HEADER WSMAN_DETAIL_OK (Some (lit "No Body"))
      | Some _ =>
          match ws_xml_get_soap_header root with
          | None => fault WSA_INVALID_MESSAGE_INFORMATION_HEADER WSMAN_DETAIL_OK (Some (lit "No Header"))
          | header =>
              if negb (wsman_is_identify_request root) && negb (wsman_is_event_related_request root) then
                let resource_uri := ws_xml_get_child header 0 (Some XML_NS_WS_MAN) (Some WSM_RESOURCE_URI) in
                let action := ws_xml_get_child header 0 (Some XML_NS_ADDRESSING) (Some WSA_ACTION) in
                let reply := ws_xml_get_child header 0 (Some XML_NS_ADDRESSING) (Some WSA_REPLY_TO) in
                let to := ws_xml_get_child header 0 (Some XML_NS_ADDRESSING) (Some WSA_TO) in
                match resource_uri with None => fault WSA_DESTINATION_UNREACHABLE WSMAN_DETAIL_INVALID_RESOURCEURI None | Some _ =>
                match action with None => fault WSA_ACTION_NOT_SUPPORTED WSMAN_DETAIL_OK None | Some _ =>
                match reply with None => fault WSA_MESSAGE_INFORMATION_HEADER_REQUIRED WSMAN_DETAIL_OK None | Some _ =>
                match to with None => fault WSA_DESTINATION_UNREACHABLE WSMAN_DETAIL_OK None | Some _ =>
                (1, status) end end end end
              else (1, status)
          end
      end
  end.
(* src: lib/wsman-soap-envelope.c 417-443 wsman_is_valid_xml_envelope *)
Definition wsman_is_valid_xml_envelope (doc : xml) : Z :=
  let root := Some doc in
  if negb (streq SOAP_ENVELOPE (default [] (ws_xml_get_node_local_name root))) then 0 else
  match ws_xml_get_node_name_ns root with
  | None => 0
  | Some soapNsUri =>
      if negb (streq soapNsUri XML_NS_SOAP_1_2) then 0
      else match ws_xml_get_soap_body root with None => 0 | Some _ => 1 end
  end.
(** [parsed]: what ws_xml_read_memory makes of the bytes of the message. *)
(* src: lib/wsman-soap-envelope.c 159-173 wsman_check_identify *)
Definition wsman_check_identify (parsed : option xml) : Z :=
  match parsed with None => 0 | Some _ => if wsman_is_identify_request parsed then 1 else 0 end.
(* src: src/CIM_Framework/openwsman/include/wsman-soap-message.h 45 FLAG_IDENTIFY_REQUEST *)
Definition FLAG_IDENTIFY_REQUEST : Z := 1.
(* src: lib/wsman-soap-message.c 55-61 wsman_set_message_flags *)
Definition wsman_set_message_flags (flags flag : Z) : Z := Z.lor flags flag.
(** The document, and the flags and the status of the message. *)
(* src: lib/wsman-soap-envelope.c 180-194 wsman_build_inbound_envelope *)
Definition wsman_build_inbound_envelope (parsed : option xml) (flags : Z) (status : WsmanStatus) : option xml * Z * WsmanStatus :=
  match parsed with
  | None => (None, flags, wsman_set_fault status WSA_INVALID_MESSAGE_INFORMATION_HEADER WSMAN_DETAIL_OK None)
  | Some doc =>
      let flags := if wsman_is_identify_request parsed then wsman_set_message_flags flags FLAG_IDENTIFY_REQUEST else flags in
      (Some doc, flags, (wsman_is_valid_envelope status doc).2)
  end.

(* src: lib/wsman-faults.c 497-506 wsman_is_fault_envelope *)
Definition wsman_is_fault_envelope (doc : option xml) : bool :=
  bool_decide (is_Some (ws_xml_get_child (ws_xml_get_soap_body doc) 0 (Some XML_NS_SOAP_1_2) (Some SOAP_FAULT))).

(** ** Answers *)

Section Answers.
Context (content : cstring -> list xml).
Local Abbreviation add_child := (ws_xml_add_child content).
Local Abbreviation duplicate_tree := (ws_xml_duplicate_tree content None).

(* src: lib/wsman-soap-envelope.c 78-90 wsman_epr_from_request_to_response *)
Definition copy_references (epr : option xml) (name : cstring) (dstHeader : xml) : xml :=
  match ws_xml_get_child epr 0 (Some XML_NS_ADDRESSING) (Some name) with
  | None => dstHeader
  | node => for_children node None None (fun child dst => inl (duplicate_tree dst child)) dstHeader
  end.
(* src: lib/wsman-soap-envelope.c 64-94 wsman_epr_from_request_to_response *)
Definition wsman_epr_from_request_to_response (dstHeader : xml) (epr : option xml) : xml :=
  let node := ws_xml_get_child epr 0 (Some XML_NS_ADDRESSING) (Some WSA_ADDRESS) in
  let dstHeader := add_child dstHeader (Some XML_NS_ADDRESSING) WSA_TO
                     (match node with None => Some WSA_TO_ANONYMOUS | _ => ws_xml_get_node_text node end) in
  match epr with
  | None => dstHeader
  | Some _ => copy_references epr WSA_REFERENCE_PARAMETERS (copy_references epr WSA_REFERENCE_PROPERTIES dstHeader)
  end.
(** The headers that are added. *)
(* src: lib/wsman-soap-envelope.c 111-150 wsman_create_response_envelope *)
Definition response_header (srcHeader : option xml) (action : option cstring) (dstHeader : xml) : xml :=
  let srcNode := ws_xml_get_child srcHeader 0 (Some XML_NS_ADDRESSING) (Some WSA_REPLY_TO) in
  let dstHeader := wsman_epr_from_request_to_response dstHeader srcNode in
  let dstHeader :=
    match action with
    | Some action => add_child dstHeader (Some XML_NS_ADDRESSING) WSA_ACTION (Some action)
    | None =>
        match ws_xml_get_node_text (ws_xml_get_child srcHeader 0 (Some XML_NS_ADDRESSING) (Some WSA_ACTION)) with
        | Some action => add_child dstHeader (Some XML_NS_ADDRESSING) WSA_ACTION (Some (action ++ WSFW_RESPONSE_STR))
        | None => dstHeader
        end
    end in
  match ws_xml_get_child srcHeader 0 (Some XML_NS_ADDRESSING) (Some WSA_MESSAGE_ID) with
  | None => dstHeader
  | srcNode => add_child dstHeader (Some XML_NS_ADDRESSING) WSA_RELATES_TO (ws_xml_get_node_text srcNode)
  end.
(* src: lib/wsman-soap-envelope.c 102-152 wsman_create_response_envelope *)
Definition wsman_create_response_envelope (rqstDoc : xml) (action : option cstring) : xml :=
  let doc := ws_xml_create_envelope content in
  if wsman_is_identify_request (Some rqstDoc) then doc else
  match ws_xml_get_soap_header (Some rqstDoc) with
  | None => doc
  | srcHeader => on_header (response_header srcHeader action) doc
  end.

(** The prefix that the document has for a namespace, if it has one with a prefix. *)
Context (prefix : cstring -> option cstring).
(* src: lib/wsman-xml.c 159-185 make_qname *)
Definition make_qname (uri name : cstring) : cstring :=
  match prefix uri with Some p => p ++ ":"%char :: name | None => name end.
(* src: lib/wsman-xml.c 1394-1407 ws_xml_set_node_qname_val *)
Definition ws_xml_set_node_qname_val (node : xml) (valNsUri valName : option cstring) : xml :=
  match valName, valNsUri with
  | Some name, Some ns => ws_xml_set_node_text content node (Some (make_qname ns name))
  | _, _ => node
  end.
(* src: lib/wsman-xml.c 201-216 ws_xml_add_qname_attr *)
Definition ws_xml_add_qname_attr (node : xml) (nameNs : option cstring) (name : cstring) (valueNs value : option cstring) : xml :=
  match valueNs, value with
  | Some ns, Some v => ws_xml_add_node_attr None node nameNs name (Some (make_qname ns v))
  | _, _ => node
  end.
(** The value is set when the child could not be made, so it is never set. *)
(* src: lib/wsman-xml.c 1186-1197 ws_xml_add_qname_child *)
Definition ws_xml_add_qname_child (parent : xml) (nameNs : option cstring) (name : cstring) (valueNs value : option cstring) : xml :=
  add_child parent nameNs name None.
(** xmlNodeSetLang. *)
(* src: lib/wsman-xml.c 1430-1433 ws_xml_set_node_lang *)
Definition ws_xml_set_node_lang (node : xml) (lang : cstring) : xml :=
  ws_xml_add_node_attr None node (Some XML_NS_XML_NAMESPACES) SOAP_LANG (Some lang).
(** [buf] holds 4096 bytes. *)
(* src: lib/wsman-xml.c 1093-1108 ws_xml_add_child_format *)
Definition ws_xml_add_child_format (node : xml) (nsUri : option cstring) (localName : cstring) (text : cstring) : xml :=
  add_child node nsUri localName (Some (take 4095 text)).

(** The Code element, with its Subcode. *)
(* src: lib/wsman-soap-envelope.c 490-513 wsman_create_fault_envelope *)
Definition fault_code_node (soapNs : option cstring) (code subCodeNs subCode : option cstring) : xml :=
  let codeNode := make_new_xml_node content soapNs SOAP_CODE None false in
  let codeNode := append_child codeNode (ws_xml_set_node_qname_val (make_new_xml_node content soapNs SOAP_VALUE None false) soapNs code) in
  match subCode with
  | None | Some [] => codeNode
  | Some _ =>
      let value := make_new_xml_node content soapNs SOAP_VALUE None false in
      append_child codeNode (append_child (make_new_xml_node content soapNs SOAP_SUBCODE None false)
        (match subCodeNs with
         | Some _ => ws_xml_set_node_qname_val value subCodeNs subCode
         | None => ws_xml_set_node_text content value subCode end))
  end.
(* src: lib/wsman-soap-envelope.c 487-533 wsman_create_fault_envelope *)
Definition fault_node (soapNs : option cstring) (code subCodeNs subCode lang reason faultDetail : option cstring) : xml :=
  let fault := append_child (make_new_xml_node content soapNs SOAP_FAULT None false) (fault_code_node soapNs code subCodeNs subCode) in
  let fault :=
    match reason with
    | None => fault
    | Some _ =>
        let text := ws_xml_set_node_text content (make_new_xml_node content soapNs SOAP_TEXT None false) reason in
        append_child fault (append_child (make_new_xml_node content soapNs SOAP_REASON None false)
          (ws_xml_set_node_lang text (default (lit "en") lang)))
    end in
  match faultDetail with
  | None => fault
  | Some detail =>
      append_child fault (ws_xml_add_child_format (make_new_xml_node content soapNs SOAP_DETAIL None false)
        (Some XML_NS_WS_MAN) SOAP_FAULT_DETAIL (XML_NS_WSMAN_FAULT_DETAIL ++ "/"%char :: detail))
  end.
(** [uuid]: what generate_uuid writes. *)
(* src: lib/wsman-soap-envelope.c 458-542 wsman_create_fault_envelope *)
Definition wsman_create_fault_envelope (uuid : cstring) (rqstDoc : option xml)
    (code subCodeNs subCode fault_action lang reason faultDetail : option cstring) : option xml :=
  let doc := match rqstDoc with
             | Some rqst => wsman_create_response_envelope rqst fault_action
             | None => ws_xml_create_envelope content end in
  match ws_xml_get_soap_header (Some doc) with
  | None => None
  | Some _ =>
      let soapNs := ws_xml_get_node_name_ns (ws_xml_get_soap_body (Some doc)) in
      let doc := on_body (fun body => append_child body (fault_node soapNs code subCodeNs subCode lang reason faultDetail)) doc in
      Some (on_header (fun header => add_child header (Some XML_NS_ADDRESSING) WSA_MESSAGE_ID (Some uuid)) doc)
  end.
(** The envelope that wsman_generate_fault makes of the row of the fault. *)
(* src: lib/wsman-faults.c 542-578 wsman_generate_fault *)
Definition wsman_generate_fault_doc (uuid : cstring) (in_doc : option xml) (c : WsmanFaultCodeType) (d : WsmanFaultDetailType)
    (fault_msg : option cstring) : outcome (option xml) :=
  let* f := wsman_generate_fault c d fault_msg in
  Done (match f with
        | None => None
        | Some f => wsman_create_fault_envelope uuid in_doc (lit <$> f_code f) (lit <$> f_subns f) (lit <$> f_subcode f)
                      (lit <$> f_action f) None (f_reason f) (lit <$> f_detail f)
        end).
(** A document that has only a Body; what [define_ns] does is not seen here. *)
(* src: lib/wsman-soap-envelope.c 244-301 wsman_build_soap_fault *)
Definition wsman_build_soap_fault (soapNsUri : cstring) (faultNsUri code subCode reason detail : option cstring) : xml :=
  let soap := Some soapNsUri in
  let fault := make_new_xml_node content soap SOAP_FAULT None false in
  let fault := match code with
    | None => fault
    | Some _ =>
        let node := ws_xml_add_qname_child (make_new_xml_node content soap SOAP_CODE None false) soap SOAP_VALUE soap code in
        append_child fault
          (match subCode with
           | None => node
           | Some _ => append_child node (ws_xml_add_qname_child (make_new_xml_node content soap SOAP_SUBCODE None false) soap SOAP_VALUE faultNsUri subCode)
           end)
    end in
  let fault := match reason with
    | None => fault
    | Some _ => append_child fault (append_child (make_new_xml_node content soap SOAP_REASON None false)
        (ws_xml_add_node_attr None (make_new_xml_node content soap SOAP_TEXT reason false) (Some XML_NS_XML_NAMESPACES) SOAP_LANG (Some (lit "en"))))
    end in
  let fault := match detail with None => fault | Some _ => add_child fault soap SOAP_DETAIL detail end in
  append_child (ws_xml_create_doc soap SOAP_ENVELOPE) (append_child (make_new_xml_node content soap SOAP_BODY None false) fault).

(* src: lib/wsman-soap-envelope.c 1383-1400 wsman_set_estimated_total *)
Definition wsman_set_estimated_total (in_doc : option xml) (out_doc : option xml) (totalItems : Z) : option xml :=
  match ws_xml_get_child (ws_xml_get_soap_header in_doc) 0 (Some XML_NS_WS_MAN) (Some WSM_REQUEST_TOTAL), out_doc with
  | Some _, Some doc =>
      match ws_xml_get_soap_header out_doc with
      | None => out_doc
      | Some _ => Some (on_header (fun header => ws_xml_add_child_format header (Some XML_NS_WS_MAN) WSM_TOTAL_ESTIMATE
                    (if totalItems <? 0 then "-"%char :: HttpAuth.dec (- totalItems) else HttpAuth.dec totalItems)) doc)
      end
  | _, _ => out_doc
  end.
(** An envelope without a header would get the copy under a NULL node. *)
(* src: lib/wsman-soap-envelope.c 1414-1424 wsman_add_fragement_for_header *)
Definition wsman_add_fragement_for_header (indoc : option xml) (outdoc : xml) : outcome xml :=
  match ws_xml_get_child (ws_xml_get_soap_header indoc) 0 (Some XML_NS_WS_MAN) (Some WSM_FRAGMENT_TRANSFER) with
  | None => Done outdoc
  | Some fragmentnode =>
      match ws_xml_get_soap_header (Some outdoc) with
      | None => Undef
      | Some _ => Done (on_header (fun header => duplicate_tree header fragmentnode) outdoc)
      end
  end.

(** ** Selectors of a client *)

(** The set that is there or a new one, worked on with [k]. *)
Definition with_selector_set (baseNode : xml) (k : xml -> outcome xml) : outcome xml :=
  match baseNode with
  | Elem ns n a ch =>
      let is_set := selects (Some XML_NS_WS_MAN) (Some WSM_SELECTOR_SET) in
      match list_find (fun c => is_set c = true) ch with
      | Some (i, set) => let* set := k set in Done (Elem ns n a (<[i := set]> ch))
      | None => ws_xml_add_child_with content baseNode (Some XML_NS_WS_MAN) WSM_SELECTOR_SET None k
      end
  | n => Done n
  end.
(** [parse]: ws_xml_read_memory of a text. *)
(* src: lib/wsman-soap-envelope.c 1333-1370 _wsman_add_selector *)
Definition _wsman_add_selector (parse : cstring -> option xml) (baseNode : xml) (name : cstring) (val : option cstring) (epr : option epr_t) : outcome xml :=
  let epr_doc := match val with Some v => if strstr v WSA_EPR is Some _ then parse v else None | None => None end in
  let epr := match val with Some _ => None | None => epr end in
  with_selector_set baseNode (fun set =>
    let named sel := ws_xml_add_node_attr None sel None WSM_NAME (Some name) in
    match epr with
    | Some e =>
        ws_xml_add_child_with content set (Some XML_NS_WS_MAN) WSM_SELECTOR None (fun selector =>
          epr_serialize content None (named selector) (Some XML_NS_ADDRESSING) (Some WSA_EPR) e true)
    | None =>
        match epr_doc with
        | Some root =>
            ws_xml_add_child_with content set (Some XML_NS_WS_MAN) WSM_SELECTOR None (fun selector => Done (named (duplicate_tree selector root)))
        | None =>
            ws_xml_add_child_with content set (Some XML_NS_WS_MAN) WSM_SELECTOR val (fun selector => Done (named selector))
        end
    end).
(* src: lib/wsman-soap-envelope.c 1373-1376 wsman_add_selector *)
Definition wsman_add_selector parse (baseNode : xml) (name : cstring) (val : option cstring) : outcome xml :=
  _wsman_add_selector parse baseNode name val None.
(* src: lib/wsman-soap-envelope.c 1378-1381 wsman_add_selector_epr *)
Definition wsman_add_selector_epr parse (baseNode : xml) (name : cstring) (val : option epr_t) : outcome xml :=
  _wsman_add_selector parse baseNode name None val.
(* src: lib/wsman-soap-envelope.c 1404-1411 wsman_add_namespace_as_selector *)
Definition wsman_add_namespace_as_selector parse (doc : xml) (_namespace : cstring) : outcome xml :=
  match ws_xml_get_soap_header (Some doc) with
  | None => Done doc
  | Some header =>
      let* header := wsman_add_selector parse header CIM_NAMESPACE_SELECTOR (Some _namespace) in
      Done (on_header (fun _ => header) doc)
  end.
End Answers.

(** ** Enumerate and Subscribe requests *)

Definition WSMAN_ENUMINFO_POLY_NONE : Z := 0x20.
Definition WSMAN_ENUMINFO_POLY_INCLUDE : Z := 0x40.
Definition WSMAN_ENUMINFO_POLY_EXCLUDE : Z := 0x80.
Definition WSMAN_ENUMINFO_OPT : Z := 0x200.
Definition WSMAN_ENUMINFO_EPR : Z := 0x400.
Definition WSMAN_ENUMINFO_OBJEPR : Z := 0x800.
Definition WSMAN_ENUMINFO_ASSOC : Z := 0x20000.
Definition WSMAN_ENUMINFO_REF : Z := 0x40000.
Definition WSMAN_ENUMINFO_CQL : Z := 0x80000.
Definition WSMAN_ENUMINFO_WQL : Z := 0x100000.
Definition WSMAN_ENUMINFO_SELECTOR : Z := 0x200000.
Definition WSMAN_ENUMINFO_XPATH : Z := 0x800000.
(* src: lib/wsman-soap-envelope.c 549-552 interpretxpath *)
Definition interpretxpath (xpath : option cstring) : Z := 0.
(** What the request says of the results. *)
(* src: lib/wsman-soap-envelope.c 577-628 wsman_parse_enum_request *)
Definition parse_enum_options (node : option xml) (flags maxItems : Z) : Z * Z :=
  let mode := ws_xml_get_node_text (ws_xml_get_child node 0 (Some XML_NS_WS_MAN) (Some WSM_ENUM_MODE)) in
  let flags := match mode with
    | None => flags
    | Some text => if streq text WSM_ENUM_EPR then Z.lor flags WSMAN_ENUMINFO_EPR
                   else if streq text WSM_ENUM_OBJ_AND_EPR then Z.lor flags WSMAN_ENUMINFO_OBJEPR else flags end in
  let poly := ws_xml_get_node_text (ws_xml_get_child node 0 (Some XML_NS_CIM_BINDING) (Some WSMB_POLYMORPHISM_MODE)) in
  let flags := match poly with
    | None => Z.lor flags WSMAN_ENUMINFO_POLY_INCLUDE
    | Some mode => if streq mode WSMB_EXCLUDE_SUBCLASS_PROP then Z.lor flags WSMAN_ENUMINFO_POLY_EXCLUDE
                   else if streq mode WSMB_INCLUDE_SUBCLASS_PROP then Z.lor flags WSMAN_ENUMINFO_POLY_INCLUDE
                   else if streq mode WSMB_NONE then Z.lor flags WSMAN_ENUMINFO_POLY_NONE else flags end in
  match ws_xml_get_child node 0 (Some XML_NS_WS_MAN) (Some WSM_OPTIMIZE_ENUM) with
  | None => (flags, maxItems)
  | Some _ =>
      (Z.lor flags WSMAN_ENUMINFO_OPT,
       match ws_xml_get_node_text (ws_xml_get_child node 0 (Some XML_NS_WS_MAN) (Some WSM_MAX_ELEMENTS)) with
       | Some text => Uri.atoi text | None => 1 end)
  end.
(** The part of the enumeration info that is set. *)
Record enum_request := EnumReq { er_flags : Z; er_max : Z; er_filter : option filter_t }.
(* src: lib/wsman-soap-envelope.c 559-658 wsman_parse_enum_request *)
Definition wsman_parse_enum_request (fuel : nat) (indoc : option xml) (enumInfo : enum_request) (status : WsmanStatus) :
    outcome (Z * enum_request * WsmanStatus) :=
  match indoc with
  | None => Done (0, enumInfo, Status WSMAN_INVALID_PARAMETER WSMAN_DETAIL_INVALID_VALUE (st_msg status))
  | Some _ =>
      match ws_xml_get_child (ws_xml_get_soap_body indoc) 0 (Some XML_NS_ENUMERATION) (Some WSENUM_ENUMERATE) with
      | None => Done (1, enumInfo, status)
      | node =>
          let '(flags, maxItems) := parse_enum_options node (er_flags enumInfo) (er_max enumInfo) in
          let* filter := filter_deserialize fuel node (Some XML_NS_WS_MAN) in
          match filter with
          | None => Done (1, EnumReq flags maxItems None, status)
          | Some fi =>
              let* dialect := deref (dialect fi) in
              let ok f := Done (1, EnumReq (Z.lor flags f) maxItems filter, status) in
              if streq dialect WSM_ASSOCIATION_FILTER_DIALECT then ok (if assocType fi =? 0 then WSMAN_ENUMINFO_ASSOC else WSMAN_ENUMINFO_REF)
              else if streq dialect WSM_CQL_FILTER_DIALECT then ok WSMAN_ENUMINFO_CQL
              else if streq dialect WSM_WQL_FILTER_DIALECT then ok WSMAN_ENUMINFO_WQL
              else if streq dialect WSM_SELECTOR_FILTER_DIALECT then ok WSMAN_ENUMINFO_SELECTOR
              else if negb (interpretxpath (query fi) =? 0) then ok WSMAN_ENUMINFO_XPATH
              else Done (0, EnumReq flags maxItems filter, Status WSEN_CANNOT_PROCESS_FILTER WSMAN_DETAIL_NOT_SUPPORTED (st_msg status))
          end
      end
  end.

(* src: lib/wsman-soap-envelope.c 660-676 is_existing_filter_epr *)
Definition is_existing_filter_epr (node : option xml) : Z * option filter_t :=
  match ws_xml_get_node_text (ws_xml_get_child node 0 (Some XML_NS_WS_MAN) (Some WSM_RESOURCE_URI)) with
  | None => (-1, None)
  | Some uri =>
      if streq uri CIM_ALL_AVAILABLE_CLASSES then (-1, None)
      else match ws_xml_get_child node 0 (Some XML_NS_WS_MAN) (Some WSM_SELECTOR_SET) with
           | None => (-1, None)
           | Some _ => (0, Some filter_initialize)
           end
  end.
(* src: src/CIM_Framework/openwsman/include/wsman-soap.h 282-284 WSMAN_SUBSCRIPTION_CQL *)
Definition WSMAN_SUBSCRIPTION_CQL : Z := 0x10.
Definition WSMAN_SUBSCRIPTION_WQL : Z := 0x20.
Definition WSMAN_SUBSCRIPTION_SELECTORSET : Z := 0x40.
(** The answer, the flags and the filter of the subscription, and the fault code. *)
(* src: lib/wsman-soap-envelope.c 777-834 wsman_parse_event_request *)
Definition wsman_parse_event_request (fuel : nat) (doc : option xml) (flags : Z) (filter : option filter_t) (faultcode : WsmanFaultCodeType) :
    outcome (Z * Z * option filter_t * WsmanFaultCodeType) :=
  match ws_xml_get_child (match doc with None => None | _ => ws_xml_get_soap_body doc end) 0 (Some XML_NS_EVENTING) (Some WSEVENT_SUBSCRIBE) with
  | None => Done (0, flags, filter, faultcode)
  | node =>
      let* wsman_f := filter_deserialize fuel node (Some XML_NS_WS_MAN) in
      let* wse_f := filter_deserialize fuel node (Some XML_NS_EVENTING) in
      match wsman_f, wse_f with
      | Some _, Some _ =>
          let* _ := filter_destroy wsman_f in
          let* _ := filter_destroy wse_f in
          Done (-1, flags, filter, WSE_INVALID_MESSAGE)
      | _, _ =>
          match (match wsman_f with Some _ => wsman_f | None => wse_f end) with
          | Some f =>
              let* dialect := deref (dialect f) in
              if streq dialect WSM_CQL_FILTER_DIALECT then Done (0, Z.lor flags WSMAN_SUBSCRIPTION_CQL, Some f, faultcode)
              else if streq dialect WSM_WQL_FILTER_DIALECT then Done (0, Z.lor flags WSMAN_SUBSCRIPTION_WQL, Some f, faultcode)
              else let* _ := filter_destroy (Some f) in Done (-1, flags, filter, WSE_FILTERING_NOT_SUPPORTED)
          | None =>
              let '(r, f) := is_existing_filter_epr (ws_xml_get_soap_header doc) in
              if negb (r =? 0) then Done (-1, flags, filter, WSE_FILTERING_NOT_SUPPORTED)
              else Done (0, Z.lor flags WSMAN_SUBSCRIPTION_SELECTORSET, f, faultcode)
          end
      end
  end.

(** The fields of a subscription that the tokens of the request set. *)
Record credentials := Cred { username : option cstring; password : option cstring; certificate_thumbprint : option cstring }.
Definition replace (node : option xml) (old : option cstring) : option cstring :=
  match node with None => old | _ => ws_xml_get_node_text node end.
(** One token: an answer with a fault leaves the loop. *)
(* src: lib/wsman-soap-envelope.c 692-773 wsman_parse_credentials *)
Definition parse_token (epr_notifyto : cstring) (tnode : xml) (s : credentials) :
    credentials + WsmanFaultCodeType * WsmanFaultDetailType :=
  let child node ns name := ws_xml_get_child node 0 (Some ns) (Some name) in
  let node := child (child (child (Some tnode) XML_NS_POLICY WSP_APPLIESTO) XML_NS_ADDRESSING WSA_EPR) XML_NS_ADDRESSING WSA_ADDRESS in
  let wrong_address := match ws_xml_get_node_text node with Some text => negb (streq text epr_notifyto) | None => false end in
  if wrong_address then inr (WSMAN_INVALID_PARAMETER, WSMAN_DETAIL_INVALID_ADDRESS) else
  match ws_xml_get_node_text (child (Some tnode) XML_NS_TRUST WST_TOKENTYPE) with
  | None => inr (WSMAN_INVALID_OPTIONS, WST_DETAIL_UNSUPPORTED_TOKENTYPE)
  | Some value =>
      if streq value WST_USERNAMETOKEN then
        let node := child (child (Some tnode) XML_NS_TRUST WST_REQUESTEDSECURITYTOKEN) XML_NS_SE WSSE_USERNAMETOKEN in
        inl (Cred (replace (child node XML_NS_SE WSSE_USERNAME) (username s)) (replace (child node XML_NS_SE WSSE_PASSWORD) (password s))
               (certificate_thumbprint s))
      else if streq value WST_CERTIFICATETHUMBPRINT then
        let node := child (child (Some tnode) XML_NS_TRUST WST_REQUESTEDSECURITYTOKEN) XML_NS_WS_MAN WSM_CERTIFICATETHUMBPRINT in
        inl (Cred (username s) (password s) (replace node (certificate_thumbprint s)))
      else inr (WSMAN_INVALID_OPTIONS, WST_DETAIL_UNSUPPORTED_TOKENTYPE)
  end.
(** The answer, the credentials, and the fault where the answer is -1. *)
(* src: lib/wsman-soap-envelope.c 678-775 wsman_parse_credentials *)
Definition wsman_parse_credentials (doc : option xml) (epr_notifyto : cstring) (s : credentials) :
    Z * credentials * option (WsmanFaultCodeType * WsmanFaultDetailType) :=
  match ws_xml_get_child (ws_xml_get_soap_header doc) 0 (Some XML_NS_TRUST) (Some WST_ISSUEDTOKENS) with
  | None => (0, s, None)
  | snode =>
      for_children snode (Some XML_NS_TRUST) (Some WST_REQUESTSECURITYTOKENRESPONSE)
        (fun tnode r => match parse_token epr_notifyto tnode r.1.2 with
           | inl s => inl (0, s, None)
           | inr f => inr (-1, r.1.2, Some f) end) (0, s, None)
  end.

(** ** The shape of an answer *)

Definition soap_elem (name : cstring) (ch : list xml) : xml := Elem (Some XML_NS_SOAP_1_2) name [] ch.
Definition envelope (hs bs : list xml) : xml := soap_elem SOAP_ENVELOPE [soap_elem SOAP_HEADER hs; soap_elem SOAP_BODY bs].
Lemma envelope_header hs bs : ws_xml_get_soap_header (Some (envelope hs bs)) = Some (soap_elem SOAP_HEADER hs).
Proof. reflexivity. Qed.
Lemma envelope_body hs bs : ws_xml_get_soap_body (Some (envelope hs bs)) = Some (soap_elem SOAP_BODY bs).
Proof. reflexivity. Qed.
Lemma on_header_envelope f hs bs : on_header f (envelope hs bs) = soap_elem SOAP_ENVELOPE [f (soap_elem SOAP_HEADER hs); soap_elem SOAP_BODY bs].
Proof. reflexivity. Qed.
Lemma on_body_envelope f hs bs : on_body f (envelope hs bs) = soap_elem SOAP_ENVELOPE [soap_elem SOAP_HEADER hs; f (soap_elem SOAP_BODY bs)].
Proof. reflexivity. Qed.
Lemma walk_inl {S} (f : xml -> S -> S + S) (g : S -> xml -> S) l s : (forall c s, f c s = inl (g s c)) -> walk f l s = fold_left g l s.
Proof. intros E. revert s. induction l as [|c l IH]; intros s; [done|]. cbn. now rewrite E. Qed.

(** The first of the children of a name: what the readers look at. *)
Definition first (ns name : cstring) (l : list xml) : option xml := head (List.filter (selects (Some ns) (Some name)) l).
Lemma get_first ns n a ch ns' name : ws_xml_get_child (Some (Elem ns n a ch)) 0 (Some ns') (Some name) = first ns' name ch.
Proof. apply ws_xml_get_child_0. Qed.
Lemma first_app ns name l k : first ns name (l ++ k) = match first ns name l with Some x => Some x | None => first ns name k end.
Proof. unfold first. rewrite List.filter_app. now destruct (List.filter _ l). Qed.
Lemma first_cons ns name c l : first ns name (c :: l) = if selects (Some ns) (Some name) c then Some c else first ns name l.
Proof. unfold first. cbn [List.filter]. now destruct (selects _ _ _). Qed.
Lemma first_leaf content ns name ns' name' t l : first ns name (leaf (content := content) ns' name' t :: l) =
  if streq ns' ns && streq name name' then Some (leaf (content := content) ns' name' t) else first ns name l.
Proof. rewrite first_cons. unfold leaf. rewrite selects_elem. reflexivity. Qed.

(** ** The answer belongs to the request *)

Section Responses.
Context {content : cstring -> list xml} (law : content_law content).
Local Abbreviation lf := (leaf (content := content) XML_NS_ADDRESSING).

(** The copies of what the element called [name] of an end point holds. *)
Definition references (epr : option xml) (name : cstring) : list xml :=
  map (duplicate content None) (selected None None (ws_xml_get_child epr 0 (Some XML_NS_ADDRESSING) (Some name))).
Definition all_references (epr : option xml) : list xml := references epr WSA_REFERENCE_PROPERTIES ++ references epr WSA_REFERENCE_PARAMETERS.
Lemma fold_duplicates ns n a ch l :
  fold_left (ws_xml_duplicate_tree content None) l (Elem ns n a ch) = Elem ns n a (ch ++ map (duplicate content None) l).
Proof.
  revert ch. induction l as [|c l IH]; intros ch; cbn [fold_left map]; [now rewrite app_nil_r|].
  unfold ws_xml_duplicate_tree at 2. cbn [append_child]. now rewrite IH, <- app_assoc.
Qed.
Lemma copy_references_eq epr name ns n a ch : copy_references content epr name (Elem ns n a ch) = Elem ns n a (ch ++ references epr name).
Proof.
  unfold copy_references, references. destruct (ws_xml_get_child _ _ _ _) as [node|]; [|now rewrite app_nil_r].
  rewrite for_children_walk, (walk_inl _ (ws_xml_duplicate_tree content None)) by done. apply fold_duplicates.
Qed.
Definition reply_address (epr : option xml) : cstring :=
  default WSA_TO_ANONYMOUS (ws_xml_get_node_text (ws_xml_get_child epr 0 (Some XML_NS_ADDRESSING) (Some WSA_ADDRESS))).
Lemma response_to_eq epr ns n a ch : wsman_epr_from_request_to_response content (Elem ns n a ch) epr =
  Elem ns n a (ch ++ lf WSA_TO (reply_address epr) :: all_references epr).
Proof.
  unfold wsman_epr_from_request_to_response, ws_xml_add_child, reply_address.
  set (t := match ws_xml_get_child epr 0 _ (Some WSA_ADDRESS) with None => _ | _ => _ end).
  assert (make_new_xml_node content (Some XML_NS_ADDRESSING) WSA_TO t false = lf WSA_TO (reply_address epr)) as ->.
  { unfold t, reply_address, leaf. now destruct (ws_xml_get_child epr 0 _ (Some WSA_ADDRESS)). }
  cbn [append_child]. destruct epr as [e|]; [|done].
  rewrite !copy_references_eq. unfold all_references. now rewrite <- !app_assoc.
Qed.
Definition answer_action (srcHeader : option xml) (action : option cstring) : option cstring :=
  match action with
  | Some a => Some a
  | None => (fun a => a ++ WSFW_RESPONSE_STR) <$> ws_xml_get_node_text (ws_xml_get_child srcHeader 0 (Some XML_NS_ADDRESSING) (Some WSA_ACTION))
  end.
Definition opt_leaf (name : cstring) (t : option cstring) : list xml := from_option (fun t => [lf name t]) [] t.
Definition message_id (header : option xml) : option cstring :=
  ws_xml_get_node_text (ws_xml_get_child header 0 (Some XML_NS_ADDRESSING) (Some WSA_MESSAGE_ID)).
Definition reply_to (header : option xml) : option xml := ws_xml_get_child header 0 (Some XML_NS_ADDRESSING) (Some WSA_REPLY_TO).
Definition answer_headers (src : option xml) (action : option cstring) : list xml :=
  lf WSA_TO (reply_address (reply_to src)) :: all_references (reply_to src) ++
  opt_leaf WSA_ACTION (answer_action src action) ++ opt_leaf WSA_RELATES_TO (message_id src).
Lemma response_header_eq src action : response_header content src action (soap_elem SOAP_HEADER []) = soap_elem SOAP_HEADER (answer_headers src action).
Proof.
  unfold response_header, soap_elem, answer_headers, answer_action, message_id, reply_to. rewrite response_to_eq. cbn [app].
  set (refs := all_references _).
  destruct action as [a|]; [|destruct (ws_xml_get_node_text (ws_xml_get_child src 0 _ (Some WSA_ACTION))) as [a|]];
    destruct (ws_xml_get_child src 0 _ (Some WSA_MESSAGE_ID)) as [m|];
    cbn [from_option opt_leaf fmap option_fmap option_map ws_xml_get_node_text ws_xml_add_child append_child app];
    rewrite ?app_nil_r, <- ?app_assoc; reflexivity.
Qed.
(** The whole answer. *)
Lemma response_eq rqst action hdr : wsman_is_identify_request (Some rqst) = false -> ws_xml_get_soap_header (Some rqst) = Some hdr ->
  wsman_create_response_envelope content rqst action = envelope (answer_headers (Some hdr) action) [].
Proof.
  intros I H. unfold wsman_create_response_envelope. rewrite I, H.
  change (ws_xml_create_envelope content) with (envelope [] []). rewrite on_header_envelope. now rewrite response_header_eq.
Qed.

Lemma first_opt_leaf ns name m t l : first ns name (opt_leaf m t ++ l) =
  if streq XML_NS_ADDRESSING ns && streq name m then match t with Some t => Some (lf m t) | None => first ns name l end else first ns name l.
Proof. destruct t as [t|]; cbn [opt_leaf from_option app]; [apply first_leaf|now destruct (_ && _)]. Qed.
Lemma first_none ns name l : Forall (fun c => selects (Some ns) (Some name) c = false) l -> first ns name l = None.
Proof. unfold first. induction 1 as [|c l E _ IH]; [done|]. cbn. now rewrite E. Qed.
Lemma selects_duplicate ns name c : selects ns name (duplicate content None c) = selects ns name c.
Proof.
  destruct c as [n m a ch| |]; try done. cbn [duplicate].
  assert (forall l x, selects ns name (ws_xml_duplicate_attr None x l) = selects ns name x) as Ea.
  { induction l as [|b l IH]; intros x; [done|]. cbn. unfold ws_xml_duplicate_attr in IH. rewrite IH. now destruct x. }
  assert (forall l x, selects ns name (fold_left append_child l x) = selects ns name x) as Ec.
  { induction l as [|b l IH]; intros x; [done|]. cbn. rewrite IH. apply selects_append. }
  destruct (_ =? 0); [|now rewrite Ec, Ea].
  match goal with |- selects _ _ (ws_xml_set_node_text _ ?x _) = _ => transitivity (selects ns name x); [now destruct x|] end.
  now rewrite Ec, Ea.
Qed.
(** What an end point asks to be sent along says nothing of addressing itself. *)
Definition clean_references (epr : option xml) : Prop :=
  forall part name, part ∈ [WSA_REFERENCE_PROPERTIES; WSA_REFERENCE_PARAMETERS] -> name ∈ [WSA_ACTION; WSA_RELATES_TO] ->
  selected (Some XML_NS_ADDRESSING) (Some name) (ws_xml_get_child epr 0 (Some XML_NS_ADDRESSING) (Some part)) = [].
Lemma first_part epr part name : selected (Some XML_NS_ADDRESSING) (Some name) (ws_xml_get_child epr 0 (Some XML_NS_ADDRESSING) (Some part)) = [] ->
  first XML_NS_ADDRESSING name (references epr part) = None.
Proof.
  intros E. apply first_none. unfold references. apply Forall_map, Forall_forall. intros c Hc. cbn. rewrite selects_duplicate.
  apply not_true_is_false. intros S. unfold selected in *. apply list_elem_of_In, filter_In in Hc as [Hc _].
  assert (In c []) as []. rewrite <- E. now apply filter_In.
Qed.
Lemma first_references epr name : clean_references epr -> name ∈ [WSA_ACTION; WSA_RELATES_TO] ->
  first XML_NS_ADDRESSING name (all_references epr) = None.
Proof.
  intros C N. unfold all_references. rewrite first_app, !first_part; [done|..]; apply C; done || (repeat constructor).
Qed.
Lemma get_header hs ns name : ws_xml_get_child (Some (soap_elem SOAP_HEADER hs)) 0 (Some ns) (Some name) = first ns name hs.
Proof. apply get_first. Qed.
Lemma plain_text_app s t : plain_text s -> plain_text t -> plain_text (s ++ t).
Proof. intros Hs Ht I. apply elem_of_app in I as [I|I]; [now apply Hs|now apply Ht]. Qed.
Lemma plain_child p c : c ∈ children p -> plain_text (content_of p) -> plain_text (content_of c).
Proof.
  destruct p as [ns n a ch| |]; intros Hc P; cbn [children] in Hc; try (now apply elem_of_nil in Hc). rewrite content_of_elem in P.
  induction ch as [|d ch IH]; [now apply elem_of_nil in Hc|]. cbn in P.
  apply elem_of_cons in Hc as [->|Hc]; [|apply IH; [done|]]; intros Q; apply P, elem_of_app; auto.
Qed.
(** The text of a child is part of the text of its parent. *)
Lemma plain_child_text p ns name t : plain_text (content_of p) -> ws_xml_get_node_text (ws_xml_get_child (Some p) 0 ns name) = Some t ->
  plain_text t.
Proof.
  intros P E. rewrite ws_xml_get_child_0 in E. destruct (head _) as [c|] eqn:Ec; [|discriminate]. injection E as <-.
  apply plain_child with p; [|done]. apply head_Some in Ec as (l & Ec).
  assert (c ∈ selected ns name (Some p)) as H by (rewrite Ec; left). unfold selected in H.
  apply list_elem_of_In, filter_In in H as [H _]. now apply list_elem_of_In.
Qed.
Lemma leaf_node_text ns name t : plain_text t -> ws_xml_get_node_text (Some (leaf (content := content) ns name t)) = Some t.
Proof using law. intros P. cbn [ws_xml_get_node_text fmap option_fmap option_map]. f_equal. exact (leaf_text law ns name t P). Qed.
End Responses.

(** C21. The answer to a request with a header, other than an Identify, has an empty body, and in its
    header a copy of every reference property and parameter of the ReplyTo. It goes to the address of the
    ReplyTo, or to the anonymous role where there is none, if that text is without an ampersand. It relates
    to the MessageID of the request (to none if there is none), and carries the action that was given or
    else the one of the request with Response behind it, each if its own text is without an ampersand and
    if the references of the ReplyTo have no wsa:Action and no wsa:RelatesTo of their own. *)
Theorem response_correlates content rqst action hdr : content_law content ->
  wsman_is_identify_request (Some rqst) = false -> ws_xml_get_soap_header (Some rqst) = Some hdr ->
  exists doc, wsman_create_response_envelope content rqst action = doc /\
    exists out, ws_xml_get_soap_header (Some doc) = Some out /\ ws_xml_get_soap_body (Some doc) = Some (soap_elem SOAP_BODY []) /\
    (plain_text (reply_address (reply_to (Some hdr))) ->
      ws_xml_get_node_text (ws_xml_get_child (Some out) 0 (Some XML_NS_ADDRESSING) (Some WSA_TO)) = Some (reply_address (reply_to (Some hdr)))) /\
    (plain_opt (message_id (Some hdr)) -> clean_references (reply_to (Some hdr)) ->
      ws_xml_get_node_text (ws_xml_get_child (Some out) 0 (Some XML_NS_ADDRESSING) (Some WSA_RELATES_TO)) = message_id (Some hdr)) /\
    (plain_opt (answer_action (Some hdr) action) -> clean_references (reply_to (Some hdr)) ->
      wsman_get_action None (Some doc) =
        match action with Some a => Some a | None => (fun a => a ++ WSFW_RESPONSE_STR) <$> wsman_get_action None (Some rqst) end) /\
    (forall part c, part ∈ [WSA_REFERENCE_PROPERTIES; WSA_REFERENCE_PARAMETERS] ->
      c ∈ selected None None (ws_xml_get_child (reply_to (Some hdr)) 0 (Some XML_NS_ADDRESSING) (Some part)) ->
      duplicate content None c ∈ selected None None (Some out)).
Proof.
  intros law I H. eexists. split; [reflexivity|].
  rewrite (response_eq rqst action hdr I H). eexists. rewrite envelope_header, envelope_body. split; [done|]. split; [done|].
  unfold answer_headers. set (src := Some hdr) in *. rewrite !get_header.
  set (refs := all_references (reply_to src)).
  assert (forall name, clean_references (reply_to src) -> name ∈ [WSA_ACTION; WSA_RELATES_TO] -> first XML_NS_ADDRESSING name refs = None) as R
    by (intros name C Nm; now apply first_references).
  split; [|split; [|split]].
  - intros Pt. rewrite first_leaf, !streq_refl. cbn [andb]. now apply leaf_node_text.
  - intros Pm C. rewrite first_leaf. eval_names. rewrite first_app, (R WSA_RELATES_TO C) by (repeat constructor).
    rewrite <- (app_nil_r (opt_leaf WSA_RELATES_TO _)), !first_opt_leaf. eval_names.
    destruct (message_id src) as [t|] eqn:E; [|done]. now apply leaf_node_text.
  - intros Pa C. unfold wsman_get_action. cbn [the_doc]. rewrite envelope_header, get_header, first_leaf. eval_names.
    rewrite first_app, (R WSA_ACTION C), first_opt_leaf, H by (repeat constructor). fold src.
    unfold answer_action in *. cbn [the_doc]. eval_names. destruct action as [a|]; [now apply leaf_node_text|].
    destruct (ws_xml_get_node_text _) as [a|]; [now apply leaf_node_text|]. cbn [fmap option_fmap option_map].
    rewrite <- (app_nil_r (opt_leaf WSA_RELATES_TO _)), first_opt_leaf. eval_names. done.
  - intros part c Hp Hc. unfold selected at 1. cbn [from_option children soap_elem]. unfold answer_headers. fold src. fold refs.
    apply list_elem_of_In, filter_In. split.
    + apply list_elem_of_In, elem_of_cons. right. apply elem_of_app. left. unfold refs, all_references, references.
      apply elem_of_app. apply elem_of_cons in Hp as [->|Hp]; [left|right; apply elem_of_cons in Hp as [->|Hp]; [|now apply elem_of_nil in Hp]];
        now apply (list_elem_of_fmap_2 (duplicate content None)).
    + rewrite selects_duplicate. apply list_elem_of_In, filter_In in Hc. tauto.
Qed.
Definition dl (ns name : cstring) (t : string) : xml := Elem (Some ns) name [] [Text (lit t)].
Definition demo_request : xml := envelope [
  dl XML_NS_WS_MAN WSM_RESOURCE_URI "urn:r/C"; dl XML_NS_ADDRESSING WSA_ACTION "urn:act/Do"; dl XML_NS_ADDRESSING WSA_MESSAGE_ID "uuid:1";
  Elem (Some XML_NS_ADDRESSING) WSA_REPLY_TO [] [dl XML_NS_ADDRESSING WSA_ADDRESS "http://me";
    Elem (Some XML_NS_ADDRESSING) WSA_REFERENCE_PARAMETERS [] [dl (lit "urn:x") (lit "cookie") "7"]];
  dl XML_NS_ADDRESSING WSA_TO "http://you";
  Elem (Some XML_NS_WS_MAN) WSM_SELECTOR_SET [] [Elem (Some XML_NS_WS_MAN) WSM_SELECTOR [Attr None WSM_NAME (lit "k")] [Text (lit "v")]]] [].
Lemma response_correlates_witness : exists doc, wsman_create_response_envelope demo_content demo_request None = doc /\
  exists out, ws_xml_get_soap_header (Some doc) = Some out /\ ws_xml_get_soap_body (Some doc) = Some (soap_elem SOAP_BODY []) /\
    ws_xml_get_node_text (ws_xml_get_child (Some out) 0 (Some XML_NS_ADDRESSING) (Some WSA_TO)) = Some (lit "http://me") /\
    ws_xml_get_node_text (ws_xml_get_child (Some out) 0 (Some XML_NS_ADDRESSING) (Some WSA_RELATES_TO)) = Some (lit "uuid:1") /\
    wsman_get_action None (Some doc) = Some (lit "urn:act/DoResponse").
Proof.
  pose proof (response_correlates demo_content demo_request None) as H.
  destruct (H _ demo_content_law eq_refl eq_refl) as (doc & E & out & H1 & H2 & H3 & H4 & H5 & _).
  assert (clean_references (reply_to (ws_xml_get_soap_header (Some demo_request)))) as C.
  { intros part name Hp Hn. apply elem_of_cons in Hp as [->|Hp]; [|apply elem_of_cons in Hp as [->|Hp]; [|now apply elem_of_nil in Hp]];
      (apply elem_of_cons in Hn as [->|Hn]; [|apply elem_of_cons in Hn as [->|Hn]; [|now apply elem_of_nil in Hn]]); vm_compute; reflexivity. }
  exists doc. split; [exact E|]. exists out. split; [exact H1|]. split; [exact H2|].
  split; [apply H3; now apply plain_dec|]. split; [apply H4; [now apply plain_dec|exact C]|]. apply H5; [now apply plain_dec|exact C].
Defined.

(** ** Which envelopes are accepted *)

(** What the code looks at: the elements below the root. *)
Definition has_child (node : option xml) (ns name : cstring) : Prop := is_Some (ws_xml_get_child node 0 (Some ns) (Some name)).
Definition is_body (c : xml) : bool := ws_xml_is_node_qname (Some c) (Some XML_NS_SOAP_1_2) (Some SOAP_BODY).
(** The body is the first element below the root, or else the second. *)
Definition soap_body (es : list xml) : option xml :=
  match es with
  | h :: b :: _ => if is_body h then Some h else if is_body b then Some b else None
  | [h] => if is_body h then Some h else None
  | [] => None
  end.
Definition addressed (header : option xml) : Prop :=
  has_child header XML_NS_WS_MAN WSM_RESOURCE_URI /\ has_child header XML_NS_ADDRESSING WSA_ACTION /\
  has_child header XML_NS_ADDRESSING WSA_REPLY_TO /\ has_child header XML_NS_ADDRESSING WSA_TO.
Definition event_actions : list cstring := [EVT_ACTION_UNSUBSCRIBE; EVT_ACTION_RENEW; EVT_ACTION_PULL].
Definition acceptable (doc : xml) : Prop :=
  exists attrs ch h b, let es := List.filter is_element ch in
    doc = Elem (Some XML_NS_SOAP_1_2) SOAP_ENVELOPE attrs ch /\ head es = Some h /\ soap_body es = Some b /\
    (has_child (Some b) XML_NS_WSMAN_ID WSMID_IDENTIFY \/
     (exists a, a ∈ event_actions /\ ws_xml_get_node_text (ws_xml_get_child (Some h) 0 (Some XML_NS_ADDRESSING) (Some WSA_ACTION)) = Some a) \/
     addressed (Some h)).

Section Accept.
Variables (attrs : list attr) (ch : list xml).
Let doc : xml := Elem (Some XML_NS_SOAP_1_2) SOAP_ENVELOPE attrs ch.
Let es : list xml := List.filter is_element ch.
Lemma soap_envelope_here : ws_xml_get_soap_envelope (Some doc) = Some doc.
Proof. reflexivity. Qed.
Lemma any_child (i : nat) : ws_xml_get_child (Some doc) (Z.of_nat i) None None = es !! i.
Proof. rewrite ws_xml_get_child_nth. unfold selected, es. cbn [from_option children doc]. now rewrite (filter_ext' _ _ _ selects_any). Qed.
Lemma header_is : ws_xml_get_soap_header (Some doc) = head es.
Proof.
  unfold ws_xml_get_soap_header, ws_xml_get_soap_element. rewrite soap_envelope_here. change 0 with (Z.of_nat 0). rewrite any_child.
  destruct es as [|h l]; [done|]. cbn [lookup list_lookup]. rewrite streq_refl. cbn [negb]. now destruct (ws_xml_is_node_qname _ _ _).
Qed.
Lemma body_is : ws_xml_get_soap_body (Some doc) = soap_body es.
Proof.
  unfold ws_xml_get_soap_body, ws_xml_get_soap_element. rewrite soap_envelope_here. change 0 with (Z.of_nat 0). change 1 with (Z.of_nat 1).
  rewrite !any_child. replace (streq SOAP_BODY SOAP_HEADER) with false by reflexivity. cbn [negb ws_xml_get_node_name_ns doc].
  destruct es as [|h [|b l]]; cbn [lookup list_lookup soap_body]; unfold is_body; done.
Qed.
Lemma identify_is : wsman_is_identify_request (Some doc) = bool_decide (has_child (soap_body es) XML_NS_WSMAN_ID WSMID_IDENTIFY).
Proof. unfold wsman_is_identify_request. now rewrite body_is. Qed.
Lemma event_is : wsman_is_event_related_request (Some doc) = true <->
  exists a, a ∈ event_actions /\ ws_xml_get_node_text (ws_xml_get_child (head es) 0 (Some XML_NS_ADDRESSING) (Some WSA_ACTION)) = Some a.
Proof.
  unfold wsman_is_event_related_request. rewrite header_is. destruct (ws_xml_get_node_text _) as [t|].
  - rewrite !orb_true_iff, !streq_true. split.
    + intros H. exists t. split; [|done]. unfold event_actions. rewrite !elem_of_cons. tauto.
    + intros (a & Ha & [= ->]). unfold event_actions in Ha. rewrite !elem_of_cons, elem_of_nil in Ha. tauto.
  - split; [done|]. now intros (a & _ & E).
Qed.
End Accept.

Lemma set_fault_occured st c d m : c <> WSMAN_RC_OK -> wsman_fault_occured (wsman_set_fault st c d m) = true.
Proof.
  intros N. unfold wsman_set_fault. destruct (wsman_fault_occured st) eqn:E; [done|]. unfold wsman_fault_occured. cbn. now rewrite bool_decide_false.
Qed.
(** Taking [acceptable] of an element apart. *)
Lemma acceptable_elem ns name attrs ch : acceptable (Elem ns name attrs ch) <->
  ns = Some XML_NS_SOAP_1_2 /\ name = SOAP_ENVELOPE /\ let es := List.filter is_element ch in
  exists h b, head es = Some h /\ soap_body es = Some b /\
    (has_child (Some b) XML_NS_WSMAN_ID WSMID_IDENTIFY \/
     (exists a, a ∈ event_actions /\ ws_xml_get_node_text (ws_xml_get_child (Some h) 0 (Some XML_NS_ADDRESSING) (Some WSA_ACTION)) = Some a) \/
     addressed (Some h)).
Proof.
  split.
  - intros (a & c & h & b & E & H). injection E as -> -> -> ->. repeat split; try done. now exists h, b.
  - intros (-> & -> & h & b & H). now exists attrs, ch, h, b.
Qed.
Ltac refused := right; split; [rewrite acceptable_elem|split; [done|now apply set_fault_occured]].

Lemma envelope_verdict st doc : st_code st = WSMAN_RC_OK -> let r := wsman_is_valid_envelope st doc in
  acceptable doc /\ r = (1, st) \/ ~ acceptable doc /\ r.1 = 0 /\ wsman_fault_occured r.2 = true.
Proof.
  intros Hst r. assert (wsman_fault_occured st = false) as Nf by (unfold wsman_fault_occured; now rewrite bool_decide_true).
  unfold r, wsman_is_valid_envelope. cbv zeta.
  destruct doc as [ns name attrs ch|t|].
  2,3: right; split; [now intros (? & ? & ? & ? & E & _)|]; split; [done|]; now apply set_fault_occured.
  cbn [ws_xml_get_node_local_name ws_xml_get_node_name_ns default from_option]. unfold id.
  destruct (streq SOAP_ENVELOPE name) eqn:En; cbn [negb].
  2:{ refused. intros (_ & -> & _). now rewrite streq_refl in En. }
  apply streq_true in En. subst name.
  destruct ns as [ns|]; [|refused; now intros [? _]].
  destruct (streq ns XML_NS_SOAP_1_2) eqn:En; cbn [negb].
  2:{ refused. intros ([= ->] & _). now rewrite streq_refl in En. }
  apply streq_true in En. subst ns. rewrite body_is, header_is, identify_is.
  set (es := List.filter is_element ch). destruct (soap_body es) as [b|] eqn:Eb.
  2:{ refused. intros (_ & _ & h & b & _ & E & _). fold es in E. congruence. }
  destruct (head es) as [h|] eqn:Eh; [|now destruct es].
  assert (forall P : Prop, (P <-> has_child (Some b) XML_NS_WSMAN_ID WSMID_IDENTIFY \/
     (exists a, a ∈ event_actions /\ ws_xml_get_node_text (ws_xml_get_child (Some h) 0 (Some XML_NS_ADDRESSING) (Some WSA_ACTION)) = Some a) \/
     addressed (Some h)) -> (acceptable (Elem (Some XML_NS_SOAP_1_2) SOAP_ENVELOPE attrs ch) <-> P)) as Acc.
  { intros P HP. rewrite HP, acceptable_elem. split.
    - intros (_ & _ & h' & b' & E1 & E2 & E3). fold es in E1, E2. rewrite Eh in E1. rewrite Eb in E2. now injection E1 as <-; injection E2 as <-.
    - intros E. split; [done|]. split; [done|]. now exists h, b. }
  destruct (bool_decide_reflect (has_child (Some b) XML_NS_WSMAN_ID WSMID_IDENTIFY)) as [Hi|Hi]; cbn [negb andb].
  { left. split; [|done]. apply (Acc True); tauto. }
  pose proof (event_is attrs ch) as Ev. fold es in Ev. rewrite Eh in Ev.
  destruct (wsman_is_event_related_request _); cbn [negb].
  { left. split; [|done]. apply (Acc True); tauto. }
  assert (acceptable (Elem (Some XML_NS_SOAP_1_2) SOAP_ENVELOPE attrs ch) <-> addressed (Some h)) as ->.
  { apply Acc. split; [tauto|]. intros [H|[H|H]]; [done| |done]. now apply Ev in H. }
  unfold addressed, has_child. destruct (ws_xml_get_child _ _ _ (Some WSM_RESOURCE_URI)) as [n1|].
  2:{ right. split; [now intros ([? ?] & _)|]. split; [done|now apply set_fault_occured]. }
  destruct (ws_xml_get_child _ _ _ (Some WSA_ACTION)) as [n2|].
  2:{ right. split; [now intros (_ & [? ?] & _)|]. split; [done|now apply set_fault_occured]. }
  destruct (ws_xml_get_child _ _ _ (Some WSA_REPLY_TO)) as [n3|].
  2:{ right. split; [now intros (_ & _ & [? ?] & _)|]. split; [done|now apply set_fault_occured]. }
  destruct (ws_xml_get_child _ _ _ (Some WSA_TO)) as [n4|].
  2:{ right. split; [now intros (_ & _ & _ & [? ?])|]. split; [done|now apply set_fault_occured]. }
  left. split; [|done]. repeat split; eauto.
Qed.

(** C22. An envelope is accepted, without a fault, exactly when its root is a SOAP 1.2 Envelope, its first or
    second element is the Body, and it is an Identify request, or its first element has the action of an
    Unsubscribe, Renew or Pull of events, or has ResourceURI, Action, ReplyTo and To; any other leaves a fault. *)
Theorem envelope_accepted st doc : st_code st = WSMAN_RC_OK ->
  let r := wsman_is_valid_envelope st doc in
  (acceptable doc <-> r = (1, st)) /\ (~ acceptable doc <-> r.1 = 0 /\ wsman_fault_occured r.2 = true).
Proof.
  intros Hst r. destruct (envelope_verdict st doc Hst) as [[A E]|(A & E1 & E2)].
  - unfold r. rewrite E. split; [tauto|]. split; [tauto|]. cbn. intros []. lia.
  - fold (wsman_is_valid_envelope st doc) in *. split; [|split; [done|intros _; done]]. split; [done|]. intros E. fold r in E1. rewrite E in E1. discriminate.
Qed.
Lemma envelope_accepted_witness : let r := wsman_is_valid_envelope wsman_status_init demo_request in
  (acceptable demo_request <-> r = (1, wsman_status_init)) /\ (~ acceptable demo_request <-> r.1 = 0 /\ wsman_fault_occured r.2 = true).
Proof. apply (envelope_accepted wsman_status_init demo_request). reflexivity. Defined.
(** An envelope without a Header: its Body is taken for one. *)
Example no_header : ws_xml_get_soap_header (Some (soap_elem SOAP_ENVELOPE [soap_elem SOAP_BODY []])) = Some (soap_elem SOAP_BODY []).
Proof. reflexivity. Qed.

(** ** Faults *)

Section FaultEnvelopes.
Context {content : cstring -> list xml} (law : content_law content) (prefix : cstring -> option cstring).

Definition answer_hs (rqst : option xml) (action : option cstring) : list xml :=
  match rqst with
  | None => []
  | Some r =>
      if wsman_is_identify_request (Some r) then []
      else match ws_xml_get_soap_header (Some r) with None => [] | header => answer_headers (content := content) header action end
  end.
Lemma response_shape rqst action : wsman_create_response_envelope content rqst action = envelope (answer_hs (Some rqst) action) [].
Proof.
  unfold answer_hs. destruct (wsman_is_identify_request (Some rqst)) eqn:I; [unfold wsman_create_response_envelope; now rewrite I|].
  destruct (ws_xml_get_soap_header (Some rqst)) eqn:H; [now apply response_eq|]. unfold wsman_create_response_envelope. now rewrite I, H.
Qed.
Lemma fault_envelope_eq uuid rqst code ns sub action lang reason detail :
  wsman_create_fault_envelope content prefix uuid rqst code ns sub action lang reason detail =
  Some (envelope (answer_hs rqst action ++ [leaf (content := content) XML_NS_ADDRESSING WSA_MESSAGE_ID uuid])
     [fault_node content prefix (Some XML_NS_SOAP_1_2) code ns sub lang reason detail]).
Proof.
  unfold wsman_create_fault_envelope.
  assert ((match rqst with Some r => wsman_create_response_envelope content r action | None => ws_xml_create_envelope content end)
    = envelope (answer_hs rqst action) []) as -> by (destruct rqst; [apply response_shape|done]).
  rewrite envelope_header, envelope_body, on_body_envelope. reflexivity.
Qed.

(** The text at a path of SOAP elements below the body. *)
Definition soap_path (doc : xml) (names : list cstring) : option xml :=
  fold_left (fun n name => ws_xml_get_child n 0 (Some XML_NS_SOAP_1_2) (Some name)) names (ws_xml_get_soap_body (Some doc)).
Definition soap_text (doc : xml) (names : list cstring) : option cstring := ws_xml_get_node_text (soap_path doc names).

Definition table_strings (r : WsmanFaultCodeTable) : list cstring :=
  from_option (fun s => [lit s]) [] (code_name r) ++ from_option (fun s => [lit s]) [] (subCode r) ++ from_option (fun s => [lit s]) [] (reason r).
Lemma table_plain r : r ∈ fault_code_table -> Forall plain_text (table_strings r).
Proof.
  assert (forallb (fun r => forallb (fun t => bool_decide (plain_text t)) (table_strings r)) fault_code_table = true) as H by (vm_compute; reflexivity).
  intros Hr. rewrite forallb_forall in H. specialize (H r (proj1 (list_elem_of_In _ _) Hr)). rewrite forallb_forall in H.
  apply Forall_forall. intros t Ht. apply plain_dec, H. now apply list_elem_of_In.
Qed.
(** A row with a sub-code says its namespace. *)
Lemma table_ns r : r ∈ fault_code_table -> from_option (fun s => lit s <> []) False (subCode r) -> is_Some (subCodeNs r).
Proof.
  assert (forallb (fun r => match subCode r, subCodeNs r with Some s, None => bool_decide (lit s = []) | _, _ => true end) fault_code_table = true) as H
    by (vm_compute; reflexivity).
  intros Hr. rewrite forallb_forall in H. specialize (H r (proj1 (list_elem_of_In _ _) Hr)).
  destruct (subCode r); [|done]. destruct (subCodeNs r); [eauto|]. cbn. intros N. now apply bool_decide_eq_true in H.
Qed.

Lemma make_node_text ns name t : plain_text t ->
  ws_xml_get_node_text (Some (ws_xml_set_node_text content (make_new_xml_node content ns name None false) (Some t))) = Some t.
Proof using law. intros P. cbn [ws_xml_get_node_text fmap option_fmap option_map]. f_equal. destruct ns as [ns|]; [exact (leaf_text law ns name t P)|].
  change (content_of (Elem None name [] (content t)) = t). rewrite content_of_elem. now apply (law t P). Qed.
Local Abbreviation SOAP := (Some XML_NS_SOAP_1_2).
Local Abbreviation blank name := (make_new_xml_node content SOAP name None false).

(** Every prefix is a name. *)
Definition prefix_law : Prop := forall uri, exists p, prefix uri = Some p /\ plain_text p /\ ":"%char ∉ p.
Lemma qname_plain uri name : prefix_law -> plain_text name -> plain_text (make_qname prefix uri name).
Proof.
  intros Pl Pn. destruct (Pl uri) as (p & E & Pp & _). unfold make_qname. rewrite E. apply plain_text_app; [done|].
  intros H. apply elem_of_cons in H as [H|H]; [discriminate|now apply Pn].
Qed.
Definition fault_children (code ns sub lang reason detail : option cstring) : list xml := children (fault_node content prefix SOAP code ns sub lang reason detail).
Lemma fault_node_elem code ns sub lang reason detail :
  fault_node content prefix SOAP code ns sub lang reason detail = soap_elem SOAP_FAULT (fault_children code ns sub lang reason detail) /\
  exists rest, fault_children code ns sub lang reason detail = fault_code_node content prefix SOAP code ns sub :: rest.
Proof. unfold fault_children, fault_node. destruct reason, detail; (split; [reflexivity|]; eexists; reflexivity). Qed.
Lemma fault_is_fault hs code ns sub lang reason detail :
  wsman_is_fault_envelope (Some (envelope hs [fault_node content prefix SOAP code ns sub lang reason detail])) = true.
Proof.
  unfold wsman_is_fault_envelope. rewrite envelope_body. unfold soap_elem. rewrite get_first, first_cons.
  rewrite (proj1 (fault_node_elem _ _ _ _ _ _)). unfold soap_elem. rewrite selects_self. now apply bool_decide_eq_true.
Qed.
Lemma fault_path hs code ns sub lang reason detail names :
  soap_path (envelope hs [fault_node content prefix SOAP code ns sub lang reason detail]) (SOAP_FAULT :: names) =
  fold_left (fun n name => ws_xml_get_child n 0 SOAP (Some name)) names (Some (fault_node content prefix SOAP code ns sub lang reason detail)).
Proof.
  unfold soap_path. rewrite envelope_body. cbn [fold_left]. f_equal. unfold soap_elem. rewrite get_first, first_cons.
  rewrite (proj1 (fault_node_elem _ _ _ _ _ _)). unfold soap_elem. now rewrite selects_self.
Qed.
Lemma fault_code_path hs code ns sub lang reason detail names :
  soap_path (envelope hs [fault_node content prefix SOAP code ns sub lang reason detail]) (SOAP_FAULT :: SOAP_CODE :: names) =
  fold_left (fun n name => ws_xml_get_child n 0 SOAP (Some name)) names (Some (fault_code_node content prefix SOAP code ns sub)).
Proof.
  rewrite fault_path. cbn [fold_left]. f_equal. destruct (fault_node_elem code ns sub lang reason detail) as (-> & rest & ->).
  unfold soap_elem. rewrite get_first, first_cons.
  replace (selects SOAP (Some SOAP_CODE) (fault_code_node content prefix SOAP code ns sub)) with true; [done|].
  symmetry. unfold fault_code_node. destruct sub as [[|? ?]|]; apply selects_self.
Qed.
Definition value_node (ns name : cstring) : xml := ws_xml_set_node_text content (blank SOAP_VALUE) (Some (make_qname prefix ns name)).
Lemma code_node_eq code ns sub : fault_code_node content prefix SOAP (Some code) (Some ns) (Some sub) =
  soap_elem SOAP_CODE (value_node XML_NS_SOAP_1_2 code ::
    match sub with [] => [] | _ => [soap_elem SOAP_SUBCODE [value_node ns sub]] end).
Proof. now destruct sub. Qed.
Lemma soap_text_code hs code ns sub lang reason detail : prefix_law -> plain_text code ->
  soap_text (envelope hs [fault_node content prefix SOAP (Some code) (Some ns) (Some sub) lang reason detail]) [SOAP_FAULT; SOAP_CODE; SOAP_VALUE] =
  Some (make_qname prefix XML_NS_SOAP_1_2 code).
Proof using law.
  intros Pl Pc. unfold soap_text. rewrite fault_code_path. cbn [fold_left]. rewrite code_node_eq. unfold soap_elem at 1.
  rewrite get_first, first_cons. replace (selects _ _ (value_node _ _)) with true by (symmetry; apply selects_self).
  apply make_node_text. now apply qname_plain.
Qed.
Lemma soap_text_subcode hs code ns sub lang reason detail : prefix_law -> plain_text sub ->
  soap_text (envelope hs [fault_node content prefix SOAP (Some code) (Some ns) (Some sub) lang reason detail]) [SOAP_FAULT; SOAP_CODE; SOAP_SUBCODE; SOAP_VALUE] =
  match sub with [] => None | _ => Some (make_qname prefix ns sub) end.
Proof using law.
  intros Pl Ps. unfold soap_text. rewrite fault_code_path. cbn [fold_left]. rewrite code_node_eq. unfold soap_elem at 1.
  rewrite get_first, first_cons.
  replace (selects _ _ (value_node _ _)) with false by (symmetry; unfold value_node; cbn [ws_xml_set_node_text make_new_xml_node]; rewrite selects_elem; now eval_names).
  destruct sub as [|c sub]; [reflexivity|]. rewrite first_cons. unfold soap_elem. rewrite selects_self, get_first, first_cons.
  replace (selects _ _ (value_node _ _)) with true by (symmetry; apply selects_self).
  apply make_node_text. now apply qname_plain.
Qed.
Lemma soap_text_reason hs code ns sub lang reason detail : plain_opt reason ->
  soap_text (envelope hs [fault_node content prefix SOAP code ns sub lang reason detail]) [SOAP_FAULT; SOAP_REASON; SOAP_TEXT] = reason.
Proof using law.
  intros P. unfold soap_text. rewrite fault_path. cbn [fold_left]. destruct (fault_node_elem code ns sub lang reason detail) as (E & _).
  assert (first XML_NS_SOAP_1_2 SOAP_REASON (fault_children code ns sub lang reason detail) =
    (fun r => append_child (blank SOAP_REASON) (ws_xml_set_node_lang (ws_xml_set_node_text content (blank SOAP_TEXT) (Some r)) (default (lit "en") lang))) <$> reason) as Er.
  { assert (selects SOAP (Some SOAP_REASON) (fault_code_node content prefix SOAP code ns sub) = false) as Ec.
    { unfold fault_code_node. destruct sub as [[|? ?]|]; cbn [append_child make_new_xml_node app]; rewrite selects_elem; now eval_names. }
    unfold fault_children, fault_node. destruct reason as [r|], detail as [d|]; cbn [append_child make_new_xml_node app children ws_xml_add_child_format];
      rewrite first_cons, Ec, ?first_cons, ?selects_self; try reflexivity; unfold ws_xml_add_child_format, ws_xml_add_child; cbn [append_child make_new_xml_node app];
      rewrite ?selects_elem; eval_names; reflexivity. }
  rewrite E. unfold soap_elem. rewrite get_first, Er. destruct reason as [r|]; [|done]. cbn [fmap option_fmap option_map].
  cbn [append_child make_new_xml_node app]. rewrite get_first, first_cons.
  replace (selects _ _ _) with true by (symmetry; apply selects_self). exact (make_node_text SOAP SOAP_TEXT r P).
Qed.
End FaultEnvelopes.

(** The row of a code that is not [WSMAN_UNKNOWN] is complete. *)
Lemma generated_row c d m f : c <> WSMAN_UNKNOWN -> wsman_generate_fault c d m = Done (Some f) ->
  exists r code ns sub, r ∈ fault_code_table /\ code_name r = Some code /\ subCodeNs r = Some ns /\ subCode r = Some sub /\
    f_code f = Some code /\ f_subns f = Some ns /\ f_subcode f = Some sub /\
    f_reason f = match m with Some m => Some m | None => lit <$> reason r end.
Proof.
  unfold wsman_generate_fault. destruct (find _ fault_code_table) as [r|] eqn:F; [|done]. intros N E.
  apply find_some in F as [Hr Ec]. apply bool_decide_eq_true in Ec. apply list_elem_of_In in Hr.
  assert (forallb (fun r => bool_decide (fault_code r = WSMAN_UNKNOWN) || match code_name r, subCodeNs r, subCode r with Some _, Some _, Some _ => true | _, _, _ => false end)
    fault_code_table = true) as H by (vm_compute; reflexivity).
  rewrite forallb_forall in H. specialize (H r (proj1 (list_elem_of_In _ _) Hr)). rewrite bool_decide_false in H by congruence. cbn [orb] in H.
  exists r. destruct (code_name r) as [code|] eqn:E1; [|done]. destruct (subCodeNs r) as [ns|] eqn:E2; [|done]. destruct (subCode r) as [sub|] eqn:E3; [|done].
  exists code, ns, sub. cinv. repeat split; try done; now rewrite ?E1, ?E2, ?E3.
Qed.
(** The HTTP status that a client, or the server itself, reads off the Value of the Code. *)
Definition status_of_code (code : cstring) : Z := if streq code (lit "Receiver") then 500 else if streq code (lit "Sender") then 400 else 200.
(** C20. When a fault document is made for a known fault code, with no message or one without an ampersand,
    it is a fault to the server and to the client: its reason is the message, or the text of the table where
    there is none; its Subcode gives a client the code that was meant, but for the four whose sub-code
    another row has first (decoded) and for MustUnderstand, which has no sub-code and leaves the client's
    status as it was; its Value gives the HTTP status by Sender or Receiver, provided that the writer's
    prefix of the SOAP namespace is s; and its headers are those of an answer to the request, with a new
    message id. (For prefixes without a colon or an ampersand.) *)
Theorem fault_envelope_roundtrip content prefix uuid rqst c d m doc s : content_law content -> prefix_law prefix -> plain_opt m ->
  c <> WSMAN_UNKNOWN -> wsman_generate_fault_doc content prefix uuid rqst c d m = Done (Some doc) ->
  exists f, wsman_generate_fault c d m = Done (Some f) /\ wsman_is_fault_envelope (Some doc) = true /\
    ws_xml_get_soap_header (Some doc) = Some (soap_elem SOAP_HEADER
      (answer_hs (content := content) rqst (lit <$> f_action f) ++ [leaf (content := content) XML_NS_ADDRESSING WSA_MESSAGE_ID uuid])) /\
    soap_text doc [SOAP_FAULT; SOAP_REASON; SOAP_TEXT] = f_reason f /\
    wsman_get_fault_status_from_doc true (soap_text doc [SOAP_FAULT; SOAP_CODE; SOAP_SUBCODE; SOAP_VALUE]) s =
      (if bool_decide (c = SOAP_FAULT_MUSTUNDERSTAND) then Done s else Done (Status (decoded c) WSMAN_DETAIL_OK None)) /\
    (prefix XML_NS_SOAP_1_2 = Some (lit "s") ->
      wsman_find_httpcode_for_value (soap_text doc [SOAP_FAULT; SOAP_CODE; SOAP_VALUE]) = status_of_code (from_option lit [] (f_code f))).
Proof.
  intros law Pl Pm N G. unfold wsman_generate_fault_doc in G. cinv. destruct r as [f|]; [|done].
  exists f. split; [done|].
  destruct (generated_row c d m f N Hr) as (r & code & ns & sub & Hin & E1 & E2 & E3 & F1 & F2 & F3 & F4).
  pose proof (table_plain r Hin) as P. unfold table_strings in P. rewrite E1, E3 in P. cbn [from_option app] in P.
  rewrite !Forall_cons in P. destruct P as (P1 & P2 & P3).
  assert (plain_opt (f_reason f)) as Pr.
  { rewrite F4. destruct m as [m|]; [exact Pm|]. destruct (reason r); [|done]. now apply Forall_cons in P3 as [? _]. }
  rewrite fault_envelope_eq, F1, F2, F3 in G. cbn [fmap option_fmap option_map] in G. injection G as <-.
  set (hs := _ ++ [_]). set (fn := fault_node _ _ _ _ _ _ _ _ _).
  split; [apply fault_is_fault|]. split; [apply envelope_header|]. subst fn. rewrite soap_text_reason, soap_text_subcode, soap_text_code by done.
  split; [done|]. split.
  - destruct (Pl (lit ns)) as (p & Ep & _ & Np). unfold make_qname. rewrite Ep.
    assert (known c = true) as K.
    { destruct (generate_fault_known c d m) as (o & Ho & Ek). rewrite Hr in Ho. injection Ho as <-. rewrite <- Ek. now apply bool_decide_eq_true. }
    pose proof (proj1 (fault_roundtrip c d m p s f K N Np Hr)) as R. unfold subcode_text in R. rewrite F3 in R.
    rewrite <- R. now destruct (lit sub).
  - intros Es. unfold make_qname. rewrite Es, F1. cbn [from_option]. unfold wsman_find_httpcode_for_value, status_of_code.
    assert (forallb (fun r => bool_decide (strcmp (lit "s" ++ ":"%char :: from_option lit [] (code_name r)) (lit "s:Receiver") = 0 <->
        from_option lit [] (code_name r) = lit "Receiver") &&
      bool_decide (strcmp (lit "s" ++ ":"%char :: from_option lit [] (code_name r)) (lit "s:Sender") = 0 <->
        from_option lit [] (code_name r) = lit "Sender")) fault_code_table = true) as H by (vm_compute; reflexivity).
    rewrite forallb_forall in H. specialize (H r (proj1 (list_elem_of_In _ _) Hin)). rewrite E1 in H. cbn [from_option] in H.
    apply andb_true_iff in H as [H1 H2]. apply bool_decide_eq_true in H1, H2. unfold streq.
    destruct (Z.eqb_spec (strcmp (lit "s" ++ ":"%char :: lit code) (lit "s:Receiver")) 0) as [X|X];
      [rewrite bool_decide_true by tauto; done|rewrite bool_decide_false by tauto].
    destruct (Z.eqb_spec (strcmp (lit "s" ++ ":"%char :: lit code) (lit "s:Sender")) 0) as [Y|Y];
      [now rewrite bool_decide_true by tauto|now rewrite bool_decide_false by tauto].
Qed.
Definition demo_prefix (uri : cstring) : option cstring := Some (if streq uri XML_NS_SOAP_1_2 then lit "s" else lit "n1").
Lemma demo_prefix_law : prefix_law demo_prefix.
Proof.
  intros uri. unfold demo_prefix. eexists. split; [reflexivity|].
  destruct (streq _ _); (split; [now apply plain_dec|apply (bool_decide_unpack _); vm_compute; exact I]).
Qed.
Lemma fault_envelope_roundtrip_witness : exists doc f,
  wsman_generate_fault_doc demo_content demo_prefix (lit "uuid:9") (Some demo_request) WSMAN_ACCESS_DENIED WSMAN_DETAIL_OK None = Done (Some doc) /\
  wsman_generate_fault WSMAN_ACCESS_DENIED WSMAN_DETAIL_OK None = Done (Some f) /\ wsman_is_fault_envelope (Some doc) = true /\
  wsman_get_fault_status_from_doc true (soap_text doc [SOAP_FAULT; SOAP_CODE; SOAP_SUBCODE; SOAP_VALUE]) wsman_status_init =
    Done (Status WSMAN_ACCESS_DENIED WSMAN_DETAIL_OK None) /\
  wsman_find_httpcode_for_value (soap_text doc [SOAP_FAULT; SOAP_CODE; SOAP_VALUE]) = 400.
Proof.
  eexists. destruct (fault_envelope_roundtrip demo_content demo_prefix (lit "uuid:9") (Some demo_request) WSMAN_ACCESS_DENIED WSMAN_DETAIL_OK None
    _ wsman_status_init demo_content_law demo_prefix_law I ltac:(discriminate) ltac:(vm_compute; reflexivity)) as (f & H1 & H2 & _ & _ & H3 & H4).
  exists f. split; [vm_compute; reflexivity|]. split; [exact H1|]. split; [exact H2|]. split; [exact H3|].
  rewrite H4 by reflexivity. assert (f_code f = Some "Sender"%string) as ->; [|reflexivity].
  revert H1. vm_compute. intros [= <-]. reflexivity.
Defined.

(** ** Selectors: from the client to the end point *)

Section Selectors.
Context {content : cstring -> list xml} (law : content_law content) (parse : cstring -> option xml).
Definition sel_node (x : cstring * cstring) : xml := Elem (Some XML_NS_WS_MAN) WSM_SELECTOR [Attr None WSM_NAME x.1] (content x.2).
Definition set_node (l : list (cstring * cstring)) : xml := Elem (Some XML_NS_WS_MAN) WSM_SELECTOR_SET [] (map sel_node l).
(** A client that adds its selectors one by one. *)
Definition add_selectors (l : list (cstring * cstring)) (header : xml) : outcome xml :=
  fold_left (fun acc x => let* h := acc in wsman_add_selector content parse h x.1 (Some x.2)) l (Done header).
Definition text_value (t : cstring) : Prop := plain_text t /\ strstr t WSA_EPR = None.

Lemma add_to_set k x : text_value x.2 -> ws_xml_add_child_with content (set_node k) (Some XML_NS_WS_MAN) WSM_SELECTOR (Some x.2)
  (fun s => Done (ws_xml_add_node_attr None s None WSM_NAME (Some x.1))) = Done (set_node (k ++ [x])).
Proof. intros _. unfold set_node. rewrite map_app. reflexivity. Qed.
Lemma add_selector_first ns n a hs x : selected (Some XML_NS_WS_MAN) (Some WSM_SELECTOR_SET) (Some (Elem ns n a hs)) = [] -> text_value x.2 ->
  wsman_add_selector content parse (Elem ns n a hs) x.1 (Some x.2) = Done (Elem ns n a (hs ++ [set_node [x]])).
Proof.
  intros E [P N]. unfold wsman_add_selector, _wsman_add_selector. rewrite N. cbn [with_selector_set].
  rewrite (proj2 (list_find_None _ _)); [reflexivity|].
  apply Forall_forall. intros c Hc S. assert (In c []) as []. rewrite <- E. apply filter_In. split; [now apply list_elem_of_In|done].
Qed.
Lemma add_selector_next ns n a hs k x : selected (Some XML_NS_WS_MAN) (Some WSM_SELECTOR_SET) (Some (Elem ns n a hs)) = [] -> text_value x.2 ->
  wsman_add_selector content parse (Elem ns n a (hs ++ [set_node k])) x.1 (Some x.2) = Done (Elem ns n a (hs ++ [set_node (k ++ [x])])).
Proof.
  intros E [P N]. unfold wsman_add_selector, _wsman_add_selector. rewrite N. cbn [with_selector_set].
  assert (list_find (fun c => selects (Some XML_NS_WS_MAN) (Some WSM_SELECTOR_SET) c = true) (hs ++ [set_node k]) = Some (length hs, set_node k)) as ->.
  { apply list_find_Some. split; [now rewrite list_lookup_middle|]. split; [apply selects_self|].
    intros j y Hj Lj S. rewrite lookup_app_l in Hj by done. assert (In y []) as []. rewrite <- E. apply filter_In.
    split; [apply list_elem_of_In; now apply list_elem_of_lookup_2 with j|done]. }
  rewrite add_to_set by done. cbn [obind]. rewrite <- (Nat.add_0_r (length hs)), insert_app_r. done.
Qed.
Lemma add_selectors_eq ns n a hs k l : selected (Some XML_NS_WS_MAN) (Some WSM_SELECTOR_SET) (Some (Elem ns n a hs)) = [] ->
  Forall (fun x => text_value x.2) l ->
  add_selectors l (Elem ns n a (hs ++ [set_node k])) = Done (Elem ns n a (hs ++ [set_node (k ++ l)])).
Proof.
  intros E F. revert k. induction F as [|x l P _ IH]; intros k; [now rewrite app_nil_r|].
  unfold add_selectors in *. cbn [fold_left obind]. rewrite add_selector_next by done. rewrite IH, <- app_assoc. done.
Qed.

Lemma sel_node_name x : selector_name (sel_node x) = Some x.1.
Proof.
  unfold selector_name, ws_xml_find_attr_value. cbn [ws_xml_find_node_attr sel_node properties List.find]. unfold is_attr. cbn [attr_ns attr_name].
  rewrite bool_decide_false by done. cbn [andb]. cbn [fmap option_fmap option_map]. rewrite bool_decide_true by done. now rewrite streq_refl.
Qed.
Lemma sel_node_text x : plain_text x.2 -> ws_xml_get_node_text (Some (sel_node x)) = Some x.2.
Proof using law. intros P. cbn [ws_xml_get_node_text fmap option_fmap option_map]. f_equal. unfold sel_node. rewrite content_of_elem. now apply (law _ P). Qed.
Lemma sel_node_epr x : plain_text x.2 -> ws_xml_get_child (Some (sel_node x)) 0 (Some XML_NS_ADDRESSING) (Some WSA_EPR) = None.
Proof using law. intros P. rewrite ws_xml_get_child_0, selected_nothing; [done|]. now apply (law _ P). Qed.
Lemma set_node_selected l : selected (Some XML_NS_WS_MAN) (Some WSM_SELECTOR) (Some (set_node l)) = map sel_node l.
Proof.
  unfold selected, set_node. cbn [from_option children]. induction l as [|x l IH]; [done|]. cbn [map List.filter].
  unfold sel_node at 1. rewrite selects_self. now rewrite IH.
Qed.
Definition as_text (x : cstring * cstring) : cstring * key_value_t epr_t := (x.1, KV PNull (VText (PStr x.2))).
Lemma take_selector_eq fuel x h : plain_text x.2 ->
  take_selector fuel (sel_node x) h = Done (match h !! x.1 with Some _ => h | None => <[x.1 := (as_text x).2]> h end).
Proof using law.
  intros P. unfold take_selector. rewrite sel_node_name. destruct (h !! x.1); [done|]. rewrite sel_node_epr, sel_node_text by done. reflexivity.
Qed.
Lemma take_selectors_eq fuel l h : Forall (fun x => text_value x.2) l ->
  walk (fun s (h : outcome (gmap cstring (key_value_t epr_t))) => inl (let* h := h in take_selector fuel s h)) (map sel_node l) (Done h) =
  Done (h ∪ list_to_map (map as_text l)).
Proof using law.
  intros F. revert h. induction F as [|x l [P _] _ IH]; intros h; [cbn; now rewrite map_union_empty|].
  cbn [map walk obind]. rewrite take_selector_eq by done. rewrite IH. f_equal. unfold as_text at 3. cbn [list_to_map foldr fst snd uncurry].
  change ((as_text x).2) with (KV (E := epr_t) PNull (VText (PStr x.2))).
  destruct (h !! x.1) as [v|] eqn:E.
  - apply map_eq. intros i. rewrite !lookup_union. destruct (decide (i = x.1)) as [->|Ni]; [rewrite E, lookup_insert_eq; match goal with |- Some _ ∪ ?y = _ => now destruct y end|now rewrite lookup_insert_ne by congruence].
  - rewrite <- insert_union_l. now rewrite insert_union_r by done.
Qed.
(** What is read of the selectors of a header. *)
Lemma selectors_read header body fuel l : l <> [] -> Forall (fun x => text_value x.2) l ->
  ws_xml_get_soap_header (Some (soap_elem SOAP_ENVELOPE [header; body])) = Some header ->
  ws_xml_get_child (Some header) 0 (Some XML_NS_WS_MAN) (Some WSM_SELECTOR_SET) = Some (set_node l) ->
  let doc := Some (soap_elem SOAP_ENVELOPE [header; body]) in
  wsman_get_selector_list fuel None doc = Done (Some (list_to_map (map as_text l))) /\
  forall name, wsman_get_selector None doc name 0 = (list_to_map l : gmap cstring cstring) !! name.
Proof using law.
  intros N F Hh Hs. cbv zeta. split.
  - unfold wsman_get_selector_list. cbn [the_doc]. rewrite Hh. unfold wsman_get_selectors_from_epr. rewrite Hs.
    rewrite for_children_walk, set_node_selected, take_selectors_eq by done. cbn [obind].
    rewrite map_empty_union. rewrite bool_decide_false; [done|]. destruct l as [|x l]; [done|].
    cbn [map list_to_map foldr as_text fst snd uncurry]. apply insert_non_empty.
  - intros name. unfold wsman_get_selector. cbn [the_doc]. rewrite Hh, Hs, for_children_walk, set_node_selected. clear -law F.
    induction F as [|y k [Py _] _ IH]; [done|]. cbn [map walk]. rewrite sel_node_name, sel_node_text by done.
    destruct y as [ny vy]. cbn [list_to_map foldr fst snd uncurry].
    destruct (streq ny name) eqn:En; [apply streq_true in En as ->; now rewrite lookup_insert_eq|].
    apply streq_false in En. rewrite lookup_insert_ne by done. exact IH.
Qed.
End Selectors.

(** The selectors a client adds to the header of a request, as texts, are those that the end point finds:
    the table has for every name the value that was added first for it, and so has the search for one. *)
Theorem selectors_reach_endpoint content parse hs l body fuel : content_law content ->
  selected (Some XML_NS_WS_MAN) (Some WSM_SELECTOR_SET) (Some (soap_elem SOAP_HEADER hs)) = [] ->
  Forall (fun x => text_value x.2) l -> l <> [] ->
  exists header, add_selectors (content := content) parse l (soap_elem SOAP_HEADER hs) = Done header /\
    let doc := Some (soap_elem SOAP_ENVELOPE [header; body]) in
    wsman_get_selector_list fuel None doc = Done (Some (list_to_map (map as_text l))) /\
    forall name, wsman_get_selector None doc name 0 = (list_to_map l : gmap cstring cstring) !! name.
Proof.
  intros law E F N. destruct l as [|x l]; [done|]. apply Forall_cons in F as [P F].
  exists (soap_elem SOAP_HEADER (hs ++ [set_node (content := content) (x :: l)])). split.
  { unfold add_selectors. cbn [fold_left obind]. unfold soap_elem. rewrite (add_selector_first parse _ _ _ hs x E P).
    exact (add_selectors_eq parse _ _ _ hs [x] l E F). }
  set (header := soap_elem SOAP_HEADER _). cbv zeta.
  assert (ws_xml_get_soap_header (Some (soap_elem SOAP_ENVELOPE [header; body])) = Some header) as Hh.
  { unfold soap_elem at 1. rewrite header_is. reflexivity. }
  assert (ws_xml_get_child (Some header) 0 (Some XML_NS_WS_MAN) (Some WSM_SELECTOR_SET) = Some (set_node (content := content) (x :: l))) as Hs.
  { subst header. rewrite get_header, first_app. rewrite <- (get_header hs), ws_xml_get_child_0, E. cbn [head]. rewrite first_cons. unfold set_node at 1. now rewrite selects_self. }
  apply (selectors_read law); [done|now constructor|exact Hh|exact Hs].
Qed.
Lemma selectors_reach_endpoint_witness : exists header,
  add_selectors (content := demo_content) (fun _ => None) [(lit "k", lit "v"); (lit "l", lit "w")] (soap_elem SOAP_HEADER []) = Done header /\
    let doc := Some (soap_elem SOAP_ENVELOPE [header; soap_elem SOAP_BODY []]) in
    wsman_get_selector_list 0 None doc = Done (Some (list_to_map (map as_text [(lit "k", lit "v"); (lit "l", lit "w")]))) /\
    forall name, wsman_get_selector None doc name 0 = (list_to_map [(lit "k", lit "v"); (lit "l", lit "w")] : gmap cstring cstring) !! name.
Proof.
  apply (selectors_reach_endpoint demo_content (fun _ => None) [] [(lit "k", lit "v"); (lit "l", lit "w")] (soap_elem SOAP_BODY []) 0 demo_content_law eq_refl).
  - repeat (apply Forall_cons; split; [split; [now apply plain_dec|reflexivity]|]). constructor.
  - discriminate.
Defined.

(** A fragment by its index, and the readings of it. *)
Example fragments : wsman_get_fragment_type (Some (lit "a[12]")) = (3, Some (lit "a"), 12) /\
  wsman_get_fragment_type (Some (lit "a/text()")) = (2, Some (lit "a"), 0) /\ wsman_get_fragment_type (Some (lit "a")) = (1, Some (lit "a"), 0).
Proof. repeat split; vm_compute; reflexivity. Qed.
(** A QName child has no value. *)
Example qname_lost : soap_text (wsman_build_soap_fault demo_content XML_NS_SOAP_1_2 None (Some (lit "Sender")) None None None) [SOAP_FAULT; SOAP_CODE; SOAP_VALUE] = Some [].
Proof. vm_compute. reflexivity. Qed.
(** A valid Enumerate with an XPath filter is refused, as nothing interprets it. *)
Example xpath_refused : exists e, wsman_parse_enum_request 0 (Some (envelope [] [Elem (Some XML_NS_ENUMERATION) WSENUM_ENUMERATE []
    [Elem (Some XML_NS_WS_MAN) WSM_FILTER [] [Text (lit "a/b")]]])) (EnumReq 0 0 None) wsman_status_init =
  Done (0, e, Status WSEN_CANNOT_PROCESS_FILTER WSMAN_DETAIL_NOT_SUPPORTED None).
Proof. eexists. vm_compute. reflexivity. Qed.

End Envelope.
