(* ===== verification/Dispatcher.v ===== *)
(** * Dispatcher: the way of a request to an end point and of the answer back (lib/wsman-dispatcher.c, lib/wsman-soap.c)

    An operation is the record [op_t]; the checks change its document and say whether to go on.  What
    the server keeps between requests is the list of message ids it has seen and the table of end
    points.  An end point is known by its place: the number of its interface and its number there.
    [uuid_fault] and [uuid_out] are what generate_uuid writes for the headers of a fault and of an
    answer, [dump_len] is the length of a dump. *)
From S2P Require Import Prelude CString Names HttpText HttpAuth WsTime Uri Faults EventPool Xml Epr Filter Envelope.
Import Faults Names Xml Envelope.

Module Dispatcher.

(* src: src/CIM_Framework/openwsman/include/wsman-dispatcher.h 62-75 __op_t *)
Record op_t := Op { in_doc : option xml; out_doc : option xml; maxsize : Z; op_expires : Z }.
Definition with_out (d : option xml) (op : op_t) : op_t := Op (in_doc op) d (maxsize op) (op_expires op).
Definition with_maxsize (n : Z) (op : op_t) : op_t := Op (in_doc op) (out_doc op) n (op_expires op).
Definition with_op_expires (n : Z) (op : op_t) : op_t := Op (in_doc op) (out_doc op) (maxsize op) n.

(* src: lib/wsman-dispatcher.c 75-89 is_mu_header *)
Definition mu_headers : list (cstring * cstring) := [
  (XML_NS_ADDRESSING, WSA_TO); (XML_NS_ADDRESSING, WSA_MESSAGE_ID); (XML_NS_ADDRESSING, WSA_RELATES_TO);
  (XML_NS_ADDRESSING, WSA_ACTION); (XML_NS_ADDRESSING, WSA_REPLY_TO); (XML_NS_ADDRESSING, WSA_FROM);
  (XML_NS_WS_MAN, WSM_RESOURCE_URI); (XML_NS_WS_MAN, WSM_SELECTOR_SET); (XML_NS_WS_MAN, WSM_MAX_ENVELOPE_SIZE);
  (XML_NS_WS_MAN, WSM_OPERATION_TIMEOUT); (XML_NS_WS_MAN, WSM_FRAGMENT_TRANSFER); (XML_NS_TRUST, WST_ISSUEDTOKENS)].
(* src: lib/wsman-dispatcher.c 70-103 is_mu_header *)
Definition is_mu_header (header : xml) : bool :=
  let name := default [] (ws_xml_get_node_local_name (Some header)) in
  let ns := ws_xml_get_node_name_ns (Some header) in
  existsb (fun i => match ns with Some ns => streq ns i.1 && streq name i.2 | None => false end) mu_headers.

Section Checks.
Context (content : cstring -> list xml) (prefix : cstring -> option cstring) (uuid_fault uuid_out : cstring) (dump_len : xml -> Z).

(* src: lib/wsman-dispatcher.c 107-121 generate_op_fault *)
Definition generate_op_fault (op : op_t) (faultCode : WsmanFaultCodeType) (faultDetail : WsmanFaultDetailType) : outcome op_t :=
  match in_doc op with
  | None => Done (with_out None op)
  | Some _ =>
      let* d := wsman_generate_fault_doc content prefix uuid_fault (in_doc op) faultCode faultDetail None in
      Done (with_out d op)
  end.
(** The answer of a check that fails with a fault. *)
Definition refuse (retval : Z) (op : op_t) (faultCode : WsmanFaultCodeType) (faultDetail : WsmanFaultDetailType) : outcome (Z * op_t) :=
  let* op := generate_op_fault op faultCode faultDetail in Done (retval, op).
(* src: lib/wsman-dispatcher.c 123-149 generate_notunderstood_fault *)
Definition generate_notunderstood_fault (op : op_t) (notUnderstoodHeader : xml) : outcome op_t :=
  match in_doc op with
  | None => Done op
  | Some _ =>
      let* op := generate_op_fault op SOAP_FAULT_MUSTUNDERSTAND WSMAN_DETAIL_OK in
      Done (match out_doc op with
            | None => op
            | Some doc =>
                match ws_xml_get_soap_header (Some doc) with
                | None => op
                | Some _ =>
                    let child := ws_xml_add_qname_attr prefix (make_new_xml_node content (Some XML_NS_SOAP_1_2) (lit "NotUnderstood") None false)
                      None (lit "qname") (ws_xml_get_node_name_ns (Some notUnderstoodHeader)) (ws_xml_get_node_local_name (Some notUnderstoodHeader)) in
                    with_out (Some (on_header (fun header => append_child header child) doc)) op
                end
            end)
  end.

Definition header_of (op : op_t) : option xml := wsman_get_soap_header_element (in_doc op) None None.

(** The names that have been seen are the keys of a table; allocations succeed. *)
(* src: lib/wsman-dispatcher.c 152-198 check_for_duplicate_selectors *)
Definition check_for_duplicate_selectors (op : op_t) : outcome (Z * op_t) :=
  match ws_xml_get_child (header_of op) 0 (Some XML_NS_WS_MAN) (Some WSM_SELECTOR_SET) with
  | None => Done (0, op)
  | node =>
      let r := for_children node (Some XML_NS_WS_MAN) (Some WSM_SELECTOR) (fun selector s =>
        match ws_xml_find_attr_value (Some selector) None WSM_NAME with
        | None => inl s
        | Some attrVal => if bool_decide (attrVal ∈ s.1) then inr (s.1, true) else inl (s.1 ∪ {[attrVal]}, false)
        end) (∅ : gset cstring, false) in
      if r.2 then refuse 1 op WSMAN_INVALID_SELECTORS WSMAN_DETAIL_DUPLICATE_SELECTORS else Done (0, op)
  end.

(* src: src/CIM_Framework/openwsman/include/wsman-xml-api.h 86-87 WSMAN_MINIMAL_ENVELOPE_SIZE_REQUEST *)
Definition WSMAN_MINIMAL_ENVELOPE_SIZE_REQUEST : Z := 8192.
Definition WSMAN_MAX_ENVELOPE_SIZE : Z := 32767.
(** The part on the size of the answer; [None]: a fault. *)
(* src: lib/wsman-dispatcher.c 206-233 validate_control_headers *)
Definition control_size (header : option xml) (old : Z) : option Z :=
  match ws_xml_get_child header 0 (Some XML_NS_WS_MAN) (Some WSM_MAX_ENVELOPE_SIZE) with
  | None => Some WSMAN_MAX_ENVELOPE_SIZE
  | maxsize =>
      if must_understand maxsize then
        let size := ws_deserialize_uint32 header 0 (Some XML_NS_WS_MAN) WSM_MAX_ENVELOPE_SIZE in
        if size <? WSMAN_MINIMAL_ENVELOPE_SIZE_REQUEST then None else Some size
      else Some old
  end.
(** Here 1 means that all is well. *)
(* src: lib/wsman-dispatcher.c 200-260 validate_control_headers *)
Definition validate_control_headers (op : op_t) : outcome (Z * op_t) :=
  let header := header_of op in
  match control_size header (maxsize op) with
  | None => refuse 0 op WSMAN_ENCODING_LIMIT WSMAN_DETAIL_MINIMUM_ENVELOPE_LIMIT
  | Some size =>
      let op := with_maxsize size op in
      match ws_xml_get_child header 0 (Some XML_NS_WS_MAN) (Some WSM_OPERATION_TIMEOUT) with
      | None => Done (1, op)
      | child =>
          let* duration := WsTime.ws_deserialize_duration (ws_xml_get_node_text child) in
          match duration with
          | None => refuse 0 op WSA_INVALID_MESSAGE_INFORMATION_HEADER WSMAN_DETAIL_OPERATION_TIMEOUT
          | Some duration =>
              if duration <=? 0 then refuse 0 op WSMAN_TIMED_OUT WSMAN_DETAIL_OK else
              let op := with_op_expires duration op in
              if ws_xml_find_attr_bool child (ws_xml_get_node_name_ns header) SOAP_MUST_UNDERSTAND
              then refuse 0 op WSMAN_UNSUPPORTED_FEATURE WSMAN_DETAIL_OPERATION_TIMEOUT
              else Done (1, op)
          end
      end
  end.

(** The first header that must be understood and is not. *)
(* src: lib/wsman-dispatcher.c 263-285 validate_mustunderstand_headers *)
Definition validate_mustunderstand_headers (op : op_t) : option xml :=
  let header := header_of op in
  let nsUri := ws_xml_get_node_name_ns header in
  for_children header None None (fun child found =>
    if ws_xml_find_attr_bool (Some child) nsUri SOAP_MUST_UNDERSTAND && negb (is_mu_header child) then inr (Some child) else inl found) None.

(* src: lib/wsman-dispatcher.c 287-301 check_supported_dialect *)
Definition check_supported_dialect (dialect : cstring) : Z :=
  if streq dialect WSM_ASSOCIATION_FILTER_DIALECT then 0
  else if streq dialect WSM_XPATH_FILTER_DIALECT then 0
  else if streq dialect WSM_WQL_FILTER_DIALECT then 0
  else if streq dialect WSM_CQL_FILTER_DIALECT then 0
  else if streq dialect WSM_SELECTOR_FILTER_DIALECT then 0
  else 1.
(** What an Enumerate asks for: the fault that ends the check, or what it goes on with.  An EndTo makes a
    fault that does not end it. *)
(* src: lib/wsman-dispatcher.c 359-409 check_unsupported_features *)
Definition check_enumerate (op : op_t) (header enumurate : option xml) : outcome (bool * Z * op_t) :=
  let stop c d := let* op := generate_op_fault op c d in Done (true, 1, op) in
  let child := ws_xml_get_child enumurate 0 in
  let* r :=
    match child (Some XML_NS_ENUMERATION) (Some WSENUM_END_TO) with
    | Some _ => refuse 1 op WSMAN_UNSUPPORTED_FEATURE WSMAN_DETAIL_ADDRESSING_MODE
    | None => Done (0, op)
    end in
  let '(retVal, op) := r in
  let n := child (Some XML_NS_ENUMERATION) (Some WSENUM_FILTER) in
  let m := child (Some XML_NS_WS_MAN) (Some WSM_FILTER) in
  match n, m with
  | Some _, Some _ => let* op := generate_op_fault op WSEN_CANNOT_PROCESS_FILTER WSMAN_DETAIL_OK in Done (true, 1, op)
  | None, None =>
      match ws_xml_get_node_text (ws_xml_get_child header 0 (Some XML_NS_WS_MAN) (Some WSM_RESOURCE_URI)) with
      | Some resource_uri =>
          if streq resource_uri CIM_ALL_AVAILABLE_CLASSES
          then let* op := generate_op_fault op WSMAN_UNSUPPORTED_FEATURE WSMAN_DETAIL_FILTERING_REQUIRED in Done (true, 1, op)
          else Done (false, retVal, op)
      | None => Done (false, retVal, op)
      end
  | _, _ =>
      let dia := ws_xml_find_attr_value (match n with Some _ => n | None => m end) None WSM_DIALECT in
      let retVal := check_supported_dialect (default WSM_XPATH_FILTER_DIALECT dia) in
      if negb (retVal =? 0)
      then let* op := generate_op_fault op WSEN_FILTER_DIALECT_REQUESTED_UNAVAILABLE WSMAN_DETAIL_OK in Done (true, 1, op)
      else Done (false, retVal, op)
  end.
(* src: lib/wsman-dispatcher.c 410-443 check_unsupported_features *)
Definition check_subscribe (retVal : Z) (op : op_t) (subscribe : option xml) : outcome (Z * op_t) :=
  match ws_xml_get_child subscribe 0 (Some XML_NS_EVENTING) (Some WSEVENT_DELIVERY) with
  | None => refuse 1 op WSE_INVALID_MESSAGE WSMAN_DETAIL_OK
  | n =>
      let known mu := EventPool.same_id mu WSEVENT_DELIVERY_MODE_PUSH || EventPool.same_id mu WSEVENT_DELIVERY_MODE_PUSHWITHACK
        || EventPool.same_id mu WSEVENT_DELIVERY_MODE_EVENTS || EventPool.same_id mu WSEVENT_DELIVERY_MODE_PULL in
      match ws_xml_find_attr_value n None WSEVENT_DELIVERY_MODE with
      | Some mu =>
          if negb (known mu) then refuse 1 op WSE_DELIVERY_MODE_REQUESTED_UNAVAILABLE WSMAN_DETAIL_OK
          else match ws_xml_get_child n 0 (Some XML_NS_WS_MAN) (Some WSM_CONNECTIONRETRY) with
               | Some _ => refuse 1 op WSMAN_UNSUPPORTED_FEATURE WSMAN_DETAIL_DELIVERY_RETRIES
               | None => Done (retVal, op) end
      | None =>
          match ws_xml_get_child n 0 (Some XML_NS_WS_MAN) (Some WSM_CONNECTIONRETRY) with
          | Some _ => refuse 1 op WSMAN_UNSUPPORTED_FEATURE WSMAN_DETAIL_DELIVERY_RETRIES
          | None => Done (retVal, op) end
      end
  end.
(* src: lib/wsman-dispatcher.c 309-447 check_unsupported_features *)
Definition check_unsupported_features (op : op_t) : outcome (Z * op_t) :=
  let header := header_of op in
  let body := ws_xml_get_soap_body (in_doc op) in
  match ws_xml_get_child header 0 (Some XML_NS_ADDRESSING) (Some WSA_FAULT_TO) with
  | Some _ => refuse 1 op WSMAN_UNSUPPORTED_FEATURE WSMAN_DETAIL_ADDRESSING_MODE
  | None =>
      if must_understand (ws_xml_get_child header 0 (Some XML_NS_WS_MAN) (Some WSM_LOCALE))
      then refuse 1 op WSMAN_UNSUPPORTED_FEATURE WSMAN_DETAIL_LOCALE else
      let* r :=
        match ws_xml_get_child body 0 (Some XML_NS_ENUMERATION) (Some WSENUM_ENUMERATE) with
        | Some e => check_enumerate op header (Some e)
        | None => Done (false, 0, op)
        end in
      let '(stop, retVal, op) := r in
      if stop then Done (retVal, op) else
      match ws_xml_get_child body 0 (Some XML_NS_EVENTING) (Some WSEVENT_SUBSCRIBE) with
      | Some s => check_subscribe retVal op (Some s)
      | None => Done (retVal, op)
      end
  end.

(** ** Message ids *)

(* src: src/CIM_Framework/openwsman/include/wsman-xml-api.h 85 PROCESSED_MSG_ID_MAX_SIZE *)
Definition PROCESSED_MSG_ID_MAX_SIZE : nat := 200.
(** The loop that drops the oldest ids. *)
(* src: lib/wsman-dispatcher.c 500-504 wsman_is_duplicate_message_id *)
Fixpoint drop_old (l : list cstring) : list cstring :=
  match l with [] => [] | _ :: r => if (PROCESSED_MSG_ID_MAX_SIZE <=? length l)%nat then drop_old r else l end.
(** [ids] is processedMsgIdList, made at the first request. *)
(* src: lib/wsman-dispatcher.c 456-524 wsman_is_duplicate_message_id *)
Definition wsman_is_duplicate_message_id (ids : option (list cstring)) (op : op_t) : outcome (Z * option (list cstring) * op_t) :=
  let fail ids c d := let* op := generate_op_fault op c d in Done (1, ids, op) in
  match ws_xml_get_node_text (ws_xml_get_child (header_of op) 0 (Some XML_NS_ADDRESSING) (Some WSA_MESSAGE_ID)) with
  | Some msgId =>
      match msgId with
      | [] => fail ids WSA_INVALID_MESSAGE_INFORMATION_HEADER WSMAN_DETAIL_OK
      | _ =>
          let l := default [] ids in
          if existsb (streq msgId) l then fail (Some l) WSA_INVALID_MESSAGE_INFORMATION_HEADER WSA_DETAIL_DUPLICATE_MESSAGE_ID
          else Done (0, Some (drop_old l ++ [msgId]), op)
      end
  | None =>
      if negb (wsman_is_identify_request (in_doc op)) then fail ids WSA_MESSAGE_INFORMATION_HEADER_REQUIRED WSMAN_DETAIL_OK
      else Done (0, ids, op)
  end.

(** ** Filters *)

Definition callback := op_t -> outcome (Z * op_t).
(** The lists of filters of the server. *)
Record filters := Filters { inboundFilterList : option (list callback); outboundFilterList : option (list callback) }.
(* src: lib/wsman-soap.c 474-494 make_callback_entry *)
Definition make_callback_entry (proc : callback) (list_to_add : option (list callback)) : list callback := default [] list_to_add ++ [proc].
(* src: lib/wsman-dispatcher.c 526-548 soap_add_filter *)
Definition soap_add_filter (soap : option filters) (callbackProc : callback) (inbound : bool) : Z * option filters :=
  match soap with
  | None => (0, None)
  | Some s =>
      (1, Some (if inbound then Filters (Some (make_callback_entry callbackProc (inboundFilterList s))) (outboundFilterList s)
                else Filters (inboundFilterList s) (Some (make_callback_entry callbackProc (outboundFilterList s)))))
  end.
(** An operation without an answer has nothing to dump; the size becomes an unsigned int. *)
(* src: lib/wsman-dispatcher.c 551-563 outbound_control_header_filter *)
Definition outbound_control_header_filter : callback := fun op =>
  let size := u32 (maxsize op) in
  match out_doc op with
  | None => if size =? 0 then Done (0, op) else Undef
  | Some doc => if check_envelope_size (dump_len doc) size then refuse 0 op WSMAN_ENCODING_LIMIT WSMAN_DETAIL_SERVICE_ENVELOPE_LIMIT else Done (0, op)
  end.
(* src: lib/wsman-dispatcher.c 565-595 outbound_addressing_filter *)
Definition outbound_addressing_filter : callback := fun op =>
  match wsman_get_soap_header_element (out_doc op) None None, out_doc op with
  | Some outHeaders, Some doc =>
      let lacks header name := negb (bool_decide (is_Some (ws_xml_get_child (Some header) 0 (Some XML_NS_ADDRESSING) (Some name)))) in
      let h := if lacks outHeaders WSA_MESSAGE_ID && negb (wsman_is_identify_request (in_doc op))
               then ws_xml_add_child content outHeaders (Some XML_NS_ADDRESSING) WSA_MESSAGE_ID (Some uuid_out) else outHeaders in
      let h := match wsman_get_soap_header_element (in_doc op) (Some XML_NS_ADDRESSING) (Some WSA_MESSAGE_ID) with
               | Some inMsgIdNode => if lacks h WSA_RELATES_TO
                   then ws_xml_add_child content h (Some XML_NS_ADDRESSING) WSA_RELATES_TO (ws_xml_get_node_text (Some inMsgIdNode)) else h
               | None => h end in
      Done (0, with_out (Some (on_header (fun _ => h) doc)) op)
  | _, _ => Done (0, op)
  end.
(** The filters that the server starts with. *)
(* src: lib/wsman-soap.c 546-547 ws_soap_initialize *)
Definition initial_filters : option filters :=
  let s := (soap_add_filter (Some (Filters None None)) outbound_addressing_filter false).2 in
  (soap_add_filter s outbound_control_header_filter false).2.
(* src: lib/wsman-dispatcher.c 599-613 process_filter_chain *)
Fixpoint process_filter_chain (l : list callback) (op : op_t) : outcome (Z * op_t) :=
  match l with
  | [] => Done (0, op)
  | filter :: l => let* r := filter op in if r.1 =? 0 then process_filter_chain l r.2 else Done r
  end.
(** The checks of a request, in their order. *)
(* src: lib/wsman-dispatcher.c 644-669 process_filters *)
Definition inbound_checks (ids : option (list cstring)) (op : op_t) : outcome (Z * option (list cstring) * op_t) :=
  let* r := wsman_is_duplicate_message_id ids op in
  let '(dup, ids, op) := r in
  if negb (dup =? 0) then Done (1, ids, op) else
  let* r := check_unsupported_features op in
  let '(bad, op) := r in
  if negb (bad =? 0) then Done (1, ids, op) else
  match validate_mustunderstand_headers op with
  | Some notUnderstoodHeader => let* op := generate_notunderstood_fault op notUnderstoodHeader in Done (1, ids, op)
  | None =>
      let* r := validate_control_headers op in
      let '(good, op) := r in
      if good =? 0 then Done (1, ids, op) else
      let* r := check_for_duplicate_selectors op in
      let '(bad, op) := r in
      Done (if negb (bad =? 0) then 1 else 0, ids, op)
  end.
(** The entries of the dispatcher have no filters of their own and do not skip those of the server. *)
(* src: lib/wsman-dispatcher.c 621-671 process_filters *)
Definition process_filters (soap : filters) (ids : option (list cstring)) (op : op_t) (inbound : bool) : outcome (Z * option (list cstring) * op_t) :=
  let* r := process_filter_chain (default [] (if inbound then inboundFilterList soap else outboundFilterList soap)) op in
  if negb (r.1 =? 0) then Done (1, ids, r.2)
  else if inbound then inbound_checks ids r.2 else Done (0, ids, r.2).

(** ** An inbound call *)

(** The message: its status, flags, HTTP code and the document that is dumped into its answer. *)
Record message := Msg { status : WsmanStatus; msg_flags : Z; http_code : Z; response : option xml }.
Definition fault_of (msg : message) (c : WsmanFaultCodeType) (d : WsmanFaultDetailType) : message :=
  Msg (wsman_set_fault (status msg) c d None) (msg_flags msg) (http_code msg) (response msg).
(** What the message says after a document is sent: the HTTP code is the one of a fault's Value. *)
(* src: lib/wsman-dispatcher.c 724-732 process_inbound_operation *)
Definition send (doc : xml) (msg : message) : message :=
  Msg (status msg) (msg_flags msg)
    (if wsman_is_fault_envelope (Some doc) then wsman_find_httpcode_for_value (soap_text doc [SOAP_FAULT; SOAP_CODE; SOAP_VALUE]) else http_code msg)
    (Some doc).
(** [serviceCallback]: the procedure of the entry.  The answer, the message and the ids. *)
(* src: lib/wsman-dispatcher.c 700-773 process_inbound_operation *)
Definition process_inbound_operation (soap : filters) (serviceCallback : option callback) (ids : option (list cstring)) (op : op_t) (msg : message) :
    outcome (Z * message * option (list cstring)) :=
  let msg := Msg (status msg) (msg_flags msg) 200 (response msg) in
  let op := with_out None op in
  match serviceCallback with
  | None => Done (1, fault_of msg WSA_ACTION_NOT_SUPPORTED OWSMAN_NO_DETAILS, ids)
  | Some serviceCallback =>
      let* r := process_filters soap ids op true in
      let '(stop, ids, op) := r in
      if negb (stop =? 0) then
        match out_doc op with
        | None => Done (1, fault_of msg WSMAN_INTERNAL_ERROR OWSMAN_NO_DETAILS, ids)
        | Some doc => Done (1, send doc msg, ids)
        end
      else
        let* r := serviceCallback op in
        let '(retVal, op) := r in
        match out_doc op with
        | None => Done (retVal, fault_of msg WSA_DESTINATION_UNREACHABLE WSMAN_DETAIL_INVALID_RESOURCEURI, ids)
        | Some _ =>
            let* r := process_filters soap ids op false in
            let '(_, ids, op) := r in
            match out_doc op with
            | None => Done (retVal, fault_of msg WSMAN_INTERNAL_ERROR OWSMAN_NO_DETAILS, ids)
            | Some doc =>
                if wsman_is_fault_envelope (Some doc) then Done (0, send doc msg, ids)
                else let* doc := wsman_add_fragement_for_header content (in_doc op) doc in
                     Done (0, Msg (status msg) (msg_flags msg) (http_code msg) (Some doc), ids)
            end
        end
  end.
(** A fault without a row has no document: the answer stays as it was. *)
(* src: lib/wsman-dispatcher.c 675-697 dispatcher_create_fault *)
Definition dispatcher_create_fault (msg : message) (in_doc : option xml) : outcome message :=
  if wsman_fault_occured (status msg) then
    let* doc := wsman_generate_fault_doc content prefix uuid_fault in_doc (st_code (status msg)) (st_detail (status msg)) (st_msg (status msg)) in
    Done (Msg (status msg) (msg_flags msg) (wsman_find_httpcode_for_fault_code (st_code (status msg)))
            (match doc with Some _ => doc | None => response msg end))
  else Done msg.
(** [get_dispatch_entry]: what the dispatcher says of the document, [Some None] for an entry without a
    procedure; [parsed]: the document of the message. *)
(* src: lib/wsman-dispatcher.c 791-833 dispatch_inbound_call *)
Definition dispatch_inbound_call (soap : filters) (get_dispatch_entry : xml -> outcome (option (option callback)))
    (parsed : option xml) (ids : option (list cstring)) (msg : message) : outcome (message * option (list cstring)) :=
  let '(in_doc, flags, st) := wsman_build_inbound_envelope parsed (msg_flags msg) (status msg) in
  let msg := Msg st flags (http_code msg) (response msg) in
  let done (msg : message) ids := let* msg := dispatcher_create_fault msg in_doc in Done (msg, ids) in
  match in_doc with
  | Some doc =>
      if wsman_fault_occured (status msg) then done msg ids else
      let* dispatch := get_dispatch_entry doc in
      match dispatch with
      | None => done (fault_of msg WSA_DESTINATION_UNREACHABLE WSMAN_DETAIL_INVALID_RESOURCEURI) ids
      | Some serviceCallback =>
          let* r := process_inbound_operation soap serviceCallback ids (Op in_doc None 0 0) msg in
          let '(_, msg, ids) := r in done msg ids
      end
  | None => done msg ids
  end.
(** How far [dispatch_inbound_call] gets with a new message: the procedure that it calls, if any, with what it
    is called on, and the ids that are kept (lemma [dispatch_admitted]). *)
Definition admitted {C : Type} (soap : filters) (get_dispatch_entry : xml -> outcome (option (option C))) (parsed : option xml)
    (ids : option (list cstring)) : outcome (option (C * op_t) * option (list cstring)) :=
  let '(in_doc, _, st) := wsman_build_inbound_envelope parsed 0 wsman_status_init in
  match in_doc with
  | Some doc =>
      if wsman_fault_occured st then Done (None, ids) else
      let* dispatch := get_dispatch_entry doc in
      match dispatch with
      | Some (Some serviceCallback) =>
          let* r := process_filters soap ids (Op in_doc None 0 0) true in
          let '(stop, ids, op) := r in Done (if stop =? 0 then Some (serviceCallback, op) else None, ids)
      | _ => Done (None, ids)
      end
  | None => Done (None, ids)
  end.
(** Entries with procedures in the place of their names. *)
Definition with_procedures {C : Type} (f : C -> callback) (get_dispatch_entry : xml -> outcome (option (option C))) (doc : xml) :
    outcome (option (option callback)) :=
  let* o := get_dispatch_entry doc in Done (option_map (option_map f) o).
End Checks.

(** ** End points *)

(* src: src/CIM_Framework/openwsman/include/wsman-soap.h 57-83 WS_DISP_TYPE_RAW_DOC *)
Definition WS_DISP_TYPE_MASK : Z := 0xffff.
(** The procedures that serve a request: the stubs, or the end point itself. *)
Inductive service :=
  | wsman_identify_stub | wsenum_enumerate_stub | wsenum_release_stub | ws_transfer_delete_stub | wsenum_pull_stub
  | wsenum_pull_direct_stub | ws_transfer_get_stub | ws_transfer_put_stub | wse_subscribe_stub | wse_unsubscribe_stub
  | wse_renew_stub | serviceEndPoint.
#[global] Instance service_eq_dec : EqDecision service.
Proof. solve_decision. Defined.
(** The end points of an interface, up to the one without a procedure. *)
(* src: src/CIM_Framework/openwsman/include/wsman-soap.h 156-168 __WsDispatchEndPointInfo *)
Record WsDispatchEndPointInfo := Ep { ep_flags : Z; inAction : option cstring }.
(* src: src/CIM_Framework/openwsman/include/wsman-soap.h 177-191 __WsDispatchInterfaceInfo *)
Record WsDispatchInterfaceInfo := Ifc { wsmanResourceUri : option cstring; namespaces : option (list (option cstring)); endPoints : list WsDispatchEndPointInfo }.
(** The place of an end point stands for its address. *)
Definition ep_ptr : Type := (nat * nat)%type.
(* src: src/CIM_Framework/openwsman/include/wsman-dispatcher.h 49-60 __dispatch_t *)
Record dispatch_t := Disp { usageCount : Z; inboundAction : option cstring; serviceCallback : service; serviceData : ep_ptr }.
(* src: src/CIM_Framework/openwsman/include/wsman-soap.h 192-205 __WsManDispatcherInfo *)
Record WsManDispatcherInfo := DispInfo { interfaces : list WsDispatchInterfaceInfo; map_ : list (dispatch_t * ep_ptr) }.

(** The sizes of the structures on a machine with 64 bits. *)
Definition sizeof_dispatcher_info : Z := 32.
Definition sizeof_map_entry : Z := 16.
Definition offset_of_map : Z := 16.
(* src: lib/wsman-soap.c 69-86 calculate_map_count *)
Definition calculate_map_count (l : list WsDispatchInterfaceInfo) : Z :=
  Z.of_nat (length l) * sizeof_dispatcher_info + Z.of_nat (sum_list (map (fun i => length (endPoints i)) l)) * sizeof_map_entry.

(** The type of an end point; another type leaves the callback NULL. *)
(* src: lib/wsman-soap.c 650-744 wsman_register_endpoint *)
Definition callback_of (flags : Z) : option service :=
  match Z.land flags WS_DISP_TYPE_MASK with
  | 17 (* IDENTIFY *) => Some wsman_identify_stub
  | 5 (* ENUMERATE *) => Some wsenum_enumerate_stub
  | 7 (* RELEASE *) => Some wsenum_release_stub
  | 4 (* DELETE *) => Some ws_transfer_delete_stub
  | 6 (* PULL *) => Some wsenum_pull_stub
  | 12 (* DIRECT_PULL *) => Some wsenum_pull_direct_stub
  | 1 (* GET *) => Some ws_transfer_get_stub
  | 13 (* DIRECT_GET *) | 19 (* DIRECT_DELETE *) | 16 (* DIRECT_PUT *) | 18 (* DIRECT_CREATE *) => Some serviceEndPoint
  | 2 (* PUT *) => Some ws_transfer_put_stub
  | 22 (* SUBSCRIBE *) => Some wse_subscribe_stub
  | 23 (* UNSUBSCRIBE *) => Some wse_unsubscribe_stub
  | 24 (* RENEW *) => Some wse_renew_stub
  | 0 (* RAW_DOC *) | 15 (* CUSTOM_METHOD *) | 0xfffe (* PRIVATE *) => Some serviceEndPoint
  | _ => None
  end.
(* src: lib/wsman-dispatcher.c 1095-1115 create_dispatch_entry *)
Definition create_dispatch_entry (inboundAction : option cstring) (proc : service) (data : ep_ptr) : dispatch_t := Disp 1 inboundAction proc data.
(** [role] is NULL and the server is there. *)
(* src: lib/wsman-dispatcher.c 1130-1146 wsman_dispatch_create *)
Definition wsman_dispatch_create (inboundAction : option cstring) (callbackProc : service) (callbackData : ep_ptr) : option dispatch_t :=
  Some (create_dispatch_entry inboundAction callbackProc callbackData).
(** [displist]: the list of the server.  A list that has to be made is not kept. *)
(* src: lib/wsman-dispatcher.c 1151-1160 wsman_dispatch_start *)
Definition wsman_dispatch_start (displist : option (list ep_ptr)) (disp : dispatch_t) : option (list ep_ptr) :=
  match displist with Some l => Some (l ++ [serviceData disp]) | None => None end.
(** [size]: the bytes of the structure that the map is in.  1 means a failure. *)
(* src: lib/wsman-soap.c 635-758 wsman_register_endpoint *)
Definition wsman_register_endpoint (size : Z) (p : ep_ptr) (ep : WsDispatchEndPointInfo) (info : WsManDispatcherInfo) : outcome (Z * WsManDispatcherInfo) :=
  match callback_of (ep_flags ep) with
  | None => Done (1, info)
  | Some callbackProc =>
      match wsman_dispatch_create (inAction ep) callbackProc p with
      | None => Done (1, info)
      | Some disp =>
          if offset_of_map + sizeof_map_entry * Z.of_nat (length (map_ info) + 1) <=? size
          then Done (0, DispInfo (interfaces info) (map_ info ++ [(disp, p)]))
          else Undef
      end
  end.
(* src: lib/wsman-soap.c 610-625 wsman_register_interface *)
Fixpoint register_endpoints (size : Z) (i j : nat) (eps : list WsDispatchEndPointInfo) (info : WsManDispatcherInfo) : outcome (Z * WsManDispatcherInfo) :=
  match eps with
  | [] => Done (0, info)
  | ep :: eps =>
      let* r := wsman_register_endpoint size (i, j) ep info in
      if negb (r.1 =? 0) then Done r else register_endpoints size i (j + 1) eps r.2
  end.
(* src: lib/wsman-soap.c 610-625 wsman_register_interface *)
Definition wsman_register_interface (size : Z) (i : nat) (ifc : WsDispatchInterfaceInfo) (info : WsManDispatcherInfo) : outcome (Z * WsManDispatcherInfo) :=
  register_endpoints size i 0 (endPoints ifc) info.
(* src: lib/wsman-soap.c 586-596 ws_create_runtime *)
Fixpoint register_interfaces (size : Z) (i : nat) (l : list WsDispatchInterfaceInfo) (info : WsManDispatcherInfo) : outcome (option WsManDispatcherInfo) :=
  match l with
  | [] => Done (Some info)
  | ifc :: l =>
      let* r := wsman_register_interface size i ifc info in
      if negb (r.1 =? 0) then Done None else register_interfaces size (i + 1) l r.2
  end.
(** [None]: no runtime; [Some None]: one without a dispatcher.  The counts before the map are written too. *)
(* src: lib/wsman-soap.c 560-599 ws_create_runtime *)
Definition ws_create_runtime (l : option (list WsDispatchInterfaceInfo)) : outcome (option (option WsManDispatcherInfo)) :=
  match l with
  | None => Done (Some None)
  | Some l =>
      let size := calculate_map_count l in
      if size <? offset_of_map then Undef else
      let* info := register_interfaces size 0 l (DispInfo l []) in
      Done (match info with None => None | Some info => Some (Some info) end)
  end.

(* src: lib/wsman-dispatcher.c 836-859 wsman_dispatcher_match_ns *)
Definition wsman_dispatcher_match_ns (r : WsDispatchInterfaceInfo) (uri : option cstring) : option cstring :=
  match namespaces r, uri with
  | Some l, Some uri => match List.find (fun sns => match sns with Some ns => bool_decide (is_Some (strstr uri ns)) | None => false end) l with
                        | Some ns => ns | None => None end
  | _, _ => None
  end.
(** The interface that a request goes to, its number, and the namespace that was found. *)
(* src: lib/wsman-dispatcher.c 991-1024 wsman_dispatcher *)
Fixpoint find_interface (identify : bool) (uri : option cstring) (i : nat) (l : list WsDispatchInterfaceInfo) :
    option (nat * WsDispatchInterfaceInfo * option cstring) :=
  match l with
  | [] => None
  | ifc :: l =>
      if identify then
        match wsman_dispatcher_match_ns ifc (Some XML_NS_WSMAN_ID) with
        | Some ns => Some (i, ifc, Some ns)
        | None => find_interface identify uri (i + 1) l
        end
      else
        match uri with
        | None => None
        | Some u =>
            match wsmanResourceUri ifc with
            | None =>
                match wsman_dispatcher_match_ns ifc uri with
                | Some ns => Some (i, ifc, Some ns)
                | None => find_interface identify uri (i + 1) l
                end
            | Some r => if streq u r then Some (i, ifc, None) else find_interface identify uri (i + 1) l
            end
        end
  end.
(** A custom action: what follows the namespace and a slash. *)
(* src: lib/wsman-dispatcher.c 1031-1041 wsman_dispatcher *)
Definition action_name (ns : option cstring) (action : cstring) : cstring :=
  match ns with
  | Some ns =>
      if starts_with ns action then
        match drop (length ns) action with c :: ptr => if bool_decide (c = "/"%char) then ptr else action | [] => action end
      else action
  | None => action
  end.
(** The end point of the action, and the last of those without an action. *)
(* src: lib/wsman-dispatcher.c 1042-1054 wsman_dispatcher *)
Fixpoint find_endpoint (ptr : cstring) (j : nat) (l : list WsDispatchEndPointInfo) (ep_custom : option nat) : option nat * option nat :=
  match l with
  | [] => (None, ep_custom)
  | ep :: l =>
      match inAction ep with
      | Some a => if streq ptr a then (Some j, ep_custom) else find_endpoint ptr (j + 1) l ep_custom
      | None => find_endpoint ptr (j + 1) l (Some j)
      end
  end.
(* src: lib/wsman-dispatcher.c 1058-1072 wsman_dispatcher *)
Definition entry_of_ep (m : list (dispatch_t * ep_ptr)) (p : ep_ptr) : option dispatch_t := fst <$> List.find (fun e => bool_decide (e.2 = p)) m.
(** [subscriptions]: the identifier and the URI of those in the context; [stored]: the document that
    get_subscription finds in the repository.  An identifier is read from its sixth character on. *)
(* src: lib/wsman-dispatcher.c 950-986 wsman_dispatcher *)
Definition subscription_uri (subscriptions : list (cstring * cstring)) (stored : cstring -> option xml) (doc : xml) (uri : option cstring) : outcome (option cstring) :=
  if wsman_is_event_related_request (Some doc) then
    match ws_xml_get_node_text (ws_xml_get_child (ws_xml_get_soap_header (Some doc)) 0 (Some XML_NS_EVENTING) (Some WSEVENT_IDENTIFIER)) with
    | None => Done uri
    | Some uuid =>
        if (length uuid <? 5)%nat then Undef else
        match List.find (fun s => streq (drop 5 uuid) s.1) subscriptions with
        | Some s => Done (Some s.2)
        | None =>
            Done (match stored (drop 5 uuid) with
                  | None => uri
                  | notdoc => match ws_xml_get_child (ws_xml_get_soap_header notdoc) 0 (Some XML_NS_WS_MAN) (Some WSM_RESOURCE_URI) with
                              | Some n => ws_xml_get_node_text (Some n)
                              | None => uri end
                  end)
        end
    end
  else Done uri.
(** The entry of the context that is removed is never made. *)
(* src: lib/wsman-dispatcher.c 924-1080 wsman_dispatcher *)
Definition wsman_dispatcher (subscriptions : list (cstring * cstring)) (stored : cstring -> option xml) (dispInfo : WsManDispatcherInfo)
    (doc : xml) : outcome (option dispatch_t) :=
  let action := wsman_get_action None (Some doc) in
  let identify := wsman_is_identify_request (Some doc) in
  let* uri := subscription_uri subscriptions stored doc (wsman_get_resource_uri None (Some doc)) in
  if negb identify && (negb (bool_decide (is_Some uri)) || negb (bool_decide (is_Some action))) then Done None else
  match find_interface identify uri 0 (interfaces dispInfo) with
  | None => Done None
  | Some (i, r, ns) =>
      if identify then Done (entry_of_ep (map_ dispInfo) (i, 0%nat))
      else
        match action with
        | None => Done None
        | Some action =>
            match find_endpoint (action_name ns action) 0 (endPoints r) None with
            | (Some j, _) => Done (entry_of_ep (map_ dispInfo) (i, j))
            | (None, Some j) => Done (entry_of_ep (map_ dispInfo) (i, j))
            | (None, None) => Done None
            end
        end
  end.
(** The end point that frees a context, for a document or that of the context.  The namespace and the
    resource are tested in the other order here, which makes no difference. *)
(* src: lib/wsman-dispatcher.c 862-922 wsman_get_release_endpoint *)
Definition wsman_get_release_endpoint (dispInfo : WsManDispatcherInfo) (indoc doc : option xml) : option ep_ptr :=
  let uri := wsman_get_resource_uri indoc doc in
  let found := (fix go (i : nat) (l : list WsDispatchInterfaceInfo) : option (nat * WsDispatchInterfaceInfo * option cstring) :=
    match l with
    | [] => None
    | ifc :: l =>
        match wsmanResourceUri ifc, wsman_dispatcher_match_ns ifc uri with
        | None, Some ns => Some (i, ifc, Some ns)
        | Some r, _ => if match uri with Some u => streq u r | None => false end then Some (i, ifc, None) else go (i + 1)%nat l
        | None, None => go (i + 1)%nat l
        end
    end) 0%nat (interfaces dispInfo) in
  match found with
  | None => None
  | Some (i, r, ns) =>
      let ptr := action_name ns ENUM_ACTION_RELEASE in
      (fix go (j : nat) (l : list WsDispatchEndPointInfo) : option ep_ptr :=
        match l with
        | [] => None
        | ep :: l => if match inAction ep with Some a => streq ptr a | None => false end then Some (i, j) else go (j + 1)%nat l
        end) 0%nat (endPoints r)
  end.
(** The entry that is used counts one user more. *)
(* src: lib/wsman-dispatcher.c 776-789 get_dispatch_entry *)
Definition get_dispatch_entry (dispatch : option dispatch_t) : option dispatch_t :=
  match dispatch with
  | Some d => Some (Disp (usageCount d + 1) (inboundAction d) (serviceCallback d) (serviceData d))
  | None => None
  end.

(** ** Registration *)

Fixpoint entries_of (i j : nat) (eps : list WsDispatchEndPointInfo) : option (list (dispatch_t * ep_ptr)) :=
  match eps with
  | [] => Some []
  | ep :: eps =>
      match callback_of (ep_flags ep), entries_of i (j + 1) eps with
      | Some cb, Some es => Some ((Disp 1 (inAction ep) cb (i, j), (i, j)) :: es)
      | _, _ => None
      end
  end.
Fixpoint all_entries (i : nat) (l : list WsDispatchInterfaceInfo) : option (list (dispatch_t * ep_ptr)) :=
  match l with
  | [] => Some []
  | ifc :: l =>
      match entries_of i 0 (endPoints ifc), all_entries (i + 1) l with Some a, Some b => Some (a ++ b) | _, _ => None end
  end.
Definition room (size : Z) (n : nat) : Prop := offset_of_map + sizeof_map_entry * Z.of_nat n <= size.
Lemma register_endpoints_eq size i j eps ifs m : room size (length m + length eps) ->
  exists m', register_endpoints size i j eps (DispInfo ifs m) =
    Done (match entries_of i j eps with Some es => (0, DispInfo ifs (m ++ es)) | None => (1, DispInfo ifs m') end).
Proof.
  revert j m. induction eps as [|ep eps IH]; intros j m R; cbn [register_endpoints entries_of].
  { exists []. now rewrite app_nil_r. }
  unfold wsman_register_endpoint, wsman_dispatch_create. destruct (callback_of (ep_flags ep)) as [cb|]; [|exists m; done].
  cbn [map_ interfaces]. rewrite (proj2 (Z.leb_le _ _)) by (unfold room, sizeof_map_entry in *; cbn [length] in R; lia).
  cbn [obind fst snd Z.eqb negb].
  match goal with |- context [DispInfo ifs ?k] => destruct (IH (j + 1)%nat k) as (m' & ->) end.
  { unfold room in *. rewrite length_app. cbn [length] in *. lia. }
  exists m'. destruct (entries_of i (j + 1) eps); [|done]. now rewrite <- app_assoc.
Qed.
Lemma entries_length i j eps es : entries_of i j eps = Some es -> length es = length eps.
Proof.
  revert j es. induction eps as [|ep eps IH]; intros j es E; cbn in E; [now injection E as <-|].
  destruct (callback_of _); [|done]. destruct (entries_of i (j + 1) eps) as [k|] eqn:Ek; [|done]. injection E as <-. cbn. f_equal. eauto.
Qed.
Definition count_eps (l : list WsDispatchInterfaceInfo) : nat := sum_list (map (fun i => length (endPoints i)) l).
Lemma register_interfaces_eq size i l ifs m : room size (length m + count_eps l) ->
  register_interfaces size i l (DispInfo ifs m) = Done (match all_entries i l with Some es => Some (DispInfo ifs (m ++ es)) | None => None end).
Proof.
  revert i m. induction l as [|ifc l IH]; intros i m R; cbn [register_interfaces all_entries]; [now rewrite app_nil_r|].
  unfold wsman_register_interface. destruct (register_endpoints_eq size i 0 (endPoints ifc) ifs m) as (m' & ->).
  { unfold room, count_eps, sizeof_map_entry in *. cbn [map sum_list sum_list_with] in R. cbn in R. lia. }
  cbn [obind]. destruct (entries_of i 0 (endPoints ifc)) as [a|] eqn:Ea; cbn [fst snd Z.eqb negb]; [|done].
  rewrite IH; [destruct (all_entries (i + 1) l); [now rewrite <- app_assoc|done]|].
  unfold room, count_eps in *. rewrite length_app, (entries_length _ _ _ _ Ea). cbn in R. lia.
Qed.
(** C32. Registering the end points of all interfaces stays within the structure that was allocated for them:
    every end point gets an entry, in order, with the procedure of its type; when the type of one is not
    known no server is made. *)
Theorem runtime_registers_all l : l <> [] ->
  ws_create_runtime (Some l) = Done (match all_entries 0 l with Some m => Some (Some (DispInfo l m)) | None => None end).
Proof.
  intros N. unfold ws_create_runtime.
  assert (0 < Z.of_nat (length l)) as L by (destruct l; [done|cbn; lia]).
  assert (room (calculate_map_count l) (length (A := dispatch_t * ep_ptr) [] + count_eps l)) as R.
  { unfold room, calculate_map_count, offset_of_map, sizeof_map_entry, sizeof_dispatcher_info, count_eps. cbn [length]. lia. }
  rewrite (proj2 (Z.ltb_ge _ _)) by (unfold calculate_map_count, offset_of_map, sizeof_map_entry, sizeof_dispatcher_info; lia).
  rewrite register_interfaces_eq by exact R. cbn [obind app]. now destruct (all_entries 0 l).
Qed.
Definition demo_interfaces : list WsDispatchInterfaceInfo := [
  Ifc (Some (lit "urn:one")) None [Ep 1 (Some TRANSFER_ACTION_GET); Ep 15 None];
  Ifc None (Some [Some (lit "urn:many")]) [Ep 5 (Some ENUM_ACTION_ENUMERATE); Ep 15 None; Ep 15 (Some (lit "Do"))]].
Lemma runtime_registers_all_witness : exists m, ws_create_runtime (Some demo_interfaces) = Done (Some (Some (DispInfo demo_interfaces m))) /\ length m = 5%nat.
Proof. rewrite (runtime_registers_all demo_interfaces) by discriminate. eexists. split; reflexivity. Defined.
(** Without interfaces the counts do not fit; an end point of type Create keeps the server from starting. *)
Example no_interfaces : ws_create_runtime (Some []) = Undef.
Proof. reflexivity. Qed.
Example create_unknown : ws_create_runtime (Some [Ifc None None [Ep 3 (Some TRANSFER_ACTION_CREATE)]]) = Done None.
Proof. reflexivity. Qed.

(** ** Which end point serves a request *)

Lemma dispatch_keys i j eps es p e : entries_of i j eps = Some es -> (e, p) ∈ es -> p.1 = i /\ (j <= p.2)%nat.
Proof.
  revert j es. induction eps as [|ep eps IH]; intros j es E Hin; cbn in E.
  { injection E as <-. now apply elem_of_nil in Hin. }
  destruct (callback_of _); [|done]. destruct (entries_of i (j + 1) eps) as [k|] eqn:Ek; [|done]. injection E as <-.
  apply elem_of_cons in Hin as [[= _ ->]|Hin]; [cbn; lia|]. destruct (IH _ _ Ek Hin). lia.
Qed.
Lemma entry_of_ep_cons e q k p : entry_of_ep ((e, q) :: k) p = if bool_decide (q = p) then Some e else entry_of_ep k p.
Proof. unfold entry_of_ep. cbn. now destruct (bool_decide _). Qed.
Lemma entry_of_ep_app a b p : entry_of_ep (a ++ b) p = match entry_of_ep a p with Some e => Some e | None => entry_of_ep b p end.
Proof. unfold entry_of_ep. rewrite find_app. now destruct (List.find _ a). Qed.
Lemma dispatch_find_none m p : (forall e q, (e, q) ∈ m -> q <> p) -> entry_of_ep m p = None.
Proof.
  induction m as [|[e q] m IH]; intros H; [done|]. rewrite entry_of_ep_cons, bool_decide_false by (apply (H e q); left).
  apply IH. intros e' q' Hin. apply (H e' q'). now right.
Qed.
(** The entry of an end point of an interface. *)
Lemma dispatch_find_here i j0 eps es j ep : entries_of i j0 eps = Some es -> eps !! j = Some ep ->
  exists cb, callback_of (ep_flags ep) = Some cb /\ entry_of_ep es (i, (j0 + j)%nat) = Some (Disp 1 (inAction ep) cb (i, (j0 + j)%nat)).
Proof.
  revert j0 es j. induction eps as [|x eps IH]; intros j0 es j E H; [done|]. cbn in E.
  destruct (callback_of (ep_flags x)) as [cb|] eqn:Ec; [|done]. destruct (entries_of i (j0 + 1) eps) as [k|] eqn:Ek; [|done].
  injection E as <-. rewrite entry_of_ep_cons. destruct j as [|j]; cbn in H.
  - injection H as ->. exists cb. split; [done|]. rewrite Nat.add_0_r. now rewrite bool_decide_true.
  - destruct (IH _ _ _ Ek H) as (cb' & E1 & E2). exists cb'. split; [done|]. rewrite bool_decide_false by (intros [= E]; lia).
    now replace (j0 + S j)%nat with (j0 + 1 + j)%nat by lia.
Qed.
Lemma find_entry_all i0 l m i ifc j ep : all_entries i0 l = Some m -> l !! i = Some ifc -> endPoints ifc !! j = Some ep ->
  exists cb, callback_of (ep_flags ep) = Some cb /\ entry_of_ep m ((i0 + i)%nat, j) = Some (Disp 1 (inAction ep) cb ((i0 + i)%nat, j)).
Proof.
  revert i0 m i. induction l as [|x l IH]; intros i0 m i E Hi Hj; [done|]. cbn in E.
  destruct (entries_of i0 0 (endPoints x)) as [a|] eqn:Ea; [|done]. destruct (all_entries (i0 + 1) l) as [b|] eqn:Eb; [|done].
  injection E as <-. rewrite entry_of_ep_app. destruct i as [|i]; cbn in Hi.
  - injection Hi as ->. destruct (dispatch_find_here _ _ _ _ _ _ Ea Hj) as (cb & E1 & E2). exists cb. split; [done|].
    rewrite Nat.add_0_r. cbn in E2. now rewrite E2.
  - destruct (IH _ _ _ Eb Hi Hj) as (cb & E1 & E2). exists cb. split; [done|].
    rewrite dispatch_find_none; [now replace (i0 + S i)%nat with (i0 + 1 + i)%nat by lia|].
    intros e q Hin ->. destruct (dispatch_keys _ _ _ _ _ _ Ea Hin) as [K _]. cbn in K. lia.
Qed.

(** An interface serves the URI it names, or else the URIs that have one of its namespaces in them. *)
Definition serves (ifc : WsDispatchInterfaceInfo) (uri : cstring) : Prop :=
  match wsmanResourceUri ifc with
  | Some r => uri = r
  | None => exists l ns a b, namespaces ifc = Some l /\ Some ns ∈ l /\ uri = a ++ ns ++ b
  end.
Definition ns_of (ifc : WsDispatchInterfaceInfo) (uri : cstring) : option cstring :=
  match wsmanResourceUri ifc with Some _ => None | None => wsman_dispatcher_match_ns ifc (Some uri) end.
Lemma match_ns_some ifc uri : is_Some (wsman_dispatcher_match_ns ifc (Some uri)) <->
  exists l ns a b, namespaces ifc = Some l /\ Some ns ∈ l /\ uri = a ++ ns ++ b.
Proof.
  unfold wsman_dispatcher_match_ns. destruct (namespaces ifc) as [l|]; [|split; [now intros [? ?]|now intros (? & ? & ? & ? & ? & _)]].
  destruct (List.find _ l) as [o|] eqn:F.
  - apply find_some in F as [Hin Ho]. destruct o as [ns|]; [|done]. apply bool_decide_eq_true in Ho as [r Hr].
    apply strstr_spec in Hr as (a & b & -> & ->). split; [|eauto]. intros _. exists l, ns, a, b. split; [done|]. split; [now apply list_elem_of_In|done].
  - split; [now intros [? ?]|]. intros (l' & ns & a & b & [= <-] & Hin & ->). apply list_elem_of_In in Hin.
    pose proof (find_none _ _ F _ Hin) as N. cbn in N. apply bool_decide_eq_false in N.
    destruct (strstr (a ++ ns ++ b) ns) as [r|] eqn:Er; [exfalso; eauto|]. exfalso. exact (proj1 (strstr_none _ _) Er a b eq_refl).
Qed.
(** The search for the interface, one step. *)
Definition found_by (ifc : WsDispatchInterfaceInfo) (uri : cstring) : bool :=
  match wsmanResourceUri ifc with Some r => streq uri r | None => bool_decide (is_Some (wsman_dispatcher_match_ns ifc (Some uri))) end.
Lemma find_interface_cons uri i ifc l : find_interface false (Some uri) i (ifc :: l) =
  if found_by ifc uri then Some (i, ifc, ns_of ifc uri) else find_interface false (Some uri) (i + 1) l.
Proof.
  cbn [find_interface]. unfold ns_of, found_by. destruct (wsmanResourceUri ifc) as [r|]; [done|].
  destruct (wsman_dispatcher_match_ns ifc (Some uri)); [now rewrite bool_decide_true by eauto|]. rewrite bool_decide_false; [done|now intros [? ?]].
Qed.
Lemma serves_found ifc uri : found_by ifc uri = true <-> serves ifc uri.
Proof. unfold serves, found_by. destruct (wsmanResourceUri ifc) as [r|]; [apply streq_true|]. rewrite bool_decide_eq_true. apply match_ns_some. Qed.
Lemma find_interface_spec uri i0 l i ifc ns : find_interface false (Some uri) i0 l = Some (i, ifc, ns) <->
  exists k, i = (i0 + k)%nat /\ l !! k = Some ifc /\ serves ifc uri /\ ns = ns_of ifc uri /\
    forall k' ifc', (k' < k)%nat -> l !! k' = Some ifc' -> ~ serves ifc' uri.
Proof.
  revert i0. induction l as [|x l IH]; intros i0; [split; [done|now intros (k & _ & H & _)]|].
  rewrite find_interface_cons. pose proof (serves_found x uri) as Sx. destruct (found_by x uri) eqn:Y.
  - split.
    + intros [= <- <- <-]. exists 0%nat. split; [lia|]. split; [done|]. split; [tauto|]. split; [done|]. intros k' ifc' H. lia.
    + intros (k & -> & Hk & Sk & -> & First). destruct k as [|k]; [|exfalso; apply (First 0%nat x); [lia|done|tauto]].
      cbn in Hk. injection Hk as ->. now rewrite Nat.add_0_r.
  - rewrite IH. split.
    + intros (k & -> & Hk & Sk & -> & First). exists (S k). split; [lia|]. split; [done|]. split; [done|]. split; [done|].
      intros [|k'] ifc' H Hk'; cbn in Hk'; [injection Hk' as <-; intros Q; apply Sx in Q; congruence|]. apply (First k'); [lia|done].
    + intros (k & -> & Hk & Sk & -> & First). destruct k as [|k]; cbn in Hk; [injection Hk as ->; apply Sx in Sk; congruence|].
      exists k. split; [lia|]. split; [done|]. split; [done|]. split; [done|]. intros k' ifc' H Hk'. apply (First (S k')); [lia|done].
Qed.

(** The end point of an action: the first that has it, or the last of those for any action. *)
Definition chosen (ptr : cstring) (eps : list WsDispatchEndPointInfo) (j : nat) : Prop :=
  ((inAction <$> eps !! j) = Some (Some ptr) /\ forall j', (j' < j)%nat -> (inAction <$> eps !! j') <> Some (Some ptr)) \/
  ((inAction <$> eps !! j) = Some None /\ (forall j', (inAction <$> eps !! j') <> Some (Some ptr)) /\
   forall j', (j < j')%nat -> (inAction <$> eps !! j') <> Some None).
Definition picked (r : option nat * option nat) : option nat := match r with (Some j, _) => Some j | (None, c) => c end.
Lemma find_endpoint_hit ptr j0 eps c j : (fst (find_endpoint ptr j0 eps c)) = Some j <->
  exists k, j = (j0 + k)%nat /\ (inAction <$> eps !! k) = Some (Some ptr) /\ forall k', (k' < k)%nat -> (inAction <$> eps !! k') <> Some (Some ptr).
Proof.
  revert j0 c. induction eps as [|ep eps IH]; intros j0 c; [cbn; split; [done|now intros (k & _ & H & _)]|].
  assert (fst (find_endpoint ptr j0 (ep :: eps) c) = if bool_decide (inAction ep = Some ptr) then Some j0 else
    fst (find_endpoint ptr (j0 + 1) eps (if inAction ep is Some _ then c else Some j0))) as ->.
  { cbn [find_endpoint]. destruct (inAction ep) as [a|]; [|now rewrite bool_decide_false].
    destruct (streq ptr a) eqn:E; [apply streq_true in E as ->; now rewrite bool_decide_true|].
    apply streq_false in E. rewrite bool_decide_false by congruence. done. }
  destruct (bool_decide_reflect (inAction ep = Some ptr)) as [Y|N].
  - split.
    + intros [= <-]. exists 0%nat. split; [lia|]. cbn. split; [now f_equal|]. intros; lia.
    + intros (k & -> & Hk & First). destruct k as [|k]; [f_equal; lia|]. exfalso. apply (First 0%nat); [lia|]. cbn. now f_equal.
  - rewrite IH. split.
    + intros (k & -> & Hk & First). exists (S k). split; [lia|]. split; [done|]. intros [|k'] L; cbn; [congruence|]. apply First. lia.
    + intros (k & -> & Hk & First). destruct k as [|k]; cbn in Hk; [congruence|]. exists k. split; [lia|]. split; [done|].
      intros k' L. apply (First (S k')). lia.
Qed.
Lemma find_endpoint_custom ptr j0 eps c : fst (find_endpoint ptr j0 eps c) = None ->
  forall j, snd (find_endpoint ptr j0 eps c) = Some j <->
  (exists k, j = (j0 + k)%nat /\ (inAction <$> eps !! k) = Some None /\ forall k', (k < k')%nat -> (inAction <$> eps !! k') <> Some None) \/
  (c = Some j /\ forall k', (inAction <$> eps !! k') <> Some None).
Proof.
  revert j0 c. induction eps as [|ep eps IH]; intros j0 c F j; cbn [find_endpoint] in *.
  { cbn. split; [intros ->; right; done|]. intros [(k & _ & H & _)|[-> _]]; done. }
  destruct (inAction ep) as [a|] eqn:Ea.
  - destruct (streq ptr a); [done|]. rewrite (IH _ _ F). split; (intros [(k & -> & Hk & L)|[-> L]]; [left|right]).
    + exists (S k). split; [lia|]. split; [done|]. intros [|k'] H; [lia|]. apply L. lia.
    + split; [done|]. intros [|k']; [cbn; congruence|apply L].
    + destruct k as [|k]; cbn in Hk; [congruence|]. exists k. split; [lia|]. split; [done|]. intros k' H. apply (L (S k')). lia.
    + split; [done|]. intros k'. apply (L (S k')).
  - rewrite (IH _ _ F). split.
    + intros [(k & -> & Hk & L)|[[= <-] L]].
      * left. exists (S k). split; [lia|]. split; [done|]. intros [|k'] H; [lia|]. apply L. lia.
      * left. exists 0%nat. split; [lia|]. cbn. split; [now f_equal|]. intros [|k'] H; [lia|]. apply L.
    + intros [(k & -> & Hk & L)|[-> L]]; [|exfalso; apply (L 0%nat); cbn; now f_equal].
      destruct k as [|k]; cbn in Hk.
      * right. split; [f_equal; lia|]. intros k'. apply (L (S k')). lia.
      * left. exists k. split; [lia|]. split; [done|]. intros k' H. apply (L (S k')). lia.
Qed.
Lemma find_endpoint_spec ptr eps j : picked (find_endpoint ptr 0 eps None) = Some j <-> chosen ptr eps j.
Proof.
  unfold chosen. pose proof (find_endpoint_hit ptr 0 eps None) as Hit. pose proof (find_endpoint_custom ptr 0 eps None) as Cus.
  destruct (find_endpoint ptr 0 eps None) as [[h|] c]; cbn [picked fst snd] in *.
  - destruct (proj1 (Hit h) eq_refl) as (k & -> & Hk & Fk). split.
    + intros [= <-]. left. now split.
    + intros [[Hj Fj]|(_ & No & _)]; [|now apply No in Hk]. f_equal.
      destruct (Nat.lt_trichotomy k j) as [L|[L|L]]; [now apply Fj in L|lia|now apply Fk in L].
  - assert (forall j', (inAction <$> eps !! j') <> Some (Some ptr)) as No.
    { assert (forall n j', (j' < n)%nat -> (inAction <$> eps !! j') <> Some (Some ptr)) as G.
      { induction n as [|n IHn]; intros j' L; [lia|]. destruct (decide (j' = n)) as [->|]; [|apply IHn; lia]. intros E.
        enough (None = Some n) by done. apply Hit. exists n. done. }
      intros j'. apply (G (S j')). lia. }
    rewrite (Cus eq_refl). split.
    + intros [(k & -> & Hk & L)|[H _]]; [right; done|done].
    + intros [[Hj _]|(Hj & _ & L)]; [now apply No in Hj|]. left. now exists j.
Qed.

(** C12. A request that is neither an Identify nor about a subscription goes to the first interface that
    serves its resource, and there to the first end point with its action, or else to the last one for any
    action; the entry is the one of that end point, with the procedure of its type.  An action that starts
    with the namespace of the interface and a slash is looked up by what follows. *)
Theorem dispatch_reached l info subs stored doc uri action : l <> [] -> ws_create_runtime (Some l) = Done (Some (Some info)) ->
  wsman_is_identify_request (Some doc) = false -> wsman_is_event_related_request (Some doc) = false ->
  wsman_get_resource_uri None (Some doc) = Some uri -> wsman_get_action None (Some doc) = Some action ->
  exists o, wsman_dispatcher subs stored info doc = Done o /\
  forall d, o = Some d <->
    exists i ifc j ep cb, l !! i = Some ifc /\ serves ifc uri /\ (forall i' ifc', (i' < i)%nat -> l !! i' = Some ifc' -> ~ serves ifc' uri) /\
      endPoints ifc !! j = Some ep /\ chosen (action_name (ns_of ifc uri) action) (endPoints ifc) j /\
      callback_of (ep_flags ep) = Some cb /\ d = Disp 1 (inAction ep) cb (i, j).
Proof.
  intros N R Hi He Hu Ha. rewrite runtime_registers_all in R by done. destruct (all_entries 0 l) as [m|] eqn:Em; [|done].
  injection R as <-. unfold wsman_dispatcher, subscription_uri. rewrite Hi, He, Hu, Ha. cbn [obind].
  rewrite !bool_decide_true by eauto. cbn [negb andb orb interfaces map_].
  pose proof (fun i ifc ns => find_interface_spec uri 0 l i ifc ns) as FI.
  destruct (find_interface false (Some uri) 0 l) as [[[i ifc] ns]|] eqn:Ef.
  - destruct (proj1 (FI i ifc ns) eq_refl) as (k & -> & Hk & Sk & -> & First). cbn [Nat.add] in *.
    pose proof (find_endpoint_spec (action_name (ns_of ifc uri) action) (endPoints ifc)) as FE.
    assert (forall i' ifc', l !! i' = Some ifc' -> serves ifc' uri ->
      (forall i2 ifc2, (i2 < i')%nat -> l !! i2 = Some ifc2 -> ~ serves ifc2 uri) -> i' = k /\ ifc' = ifc) as Uniq.
    { intros i' ifc' H1 H2 H3. destruct (Nat.lt_trichotomy i' k) as [L|[->|L]]; [now apply First in H1| |now apply (H3 k ifc) in L].
      split; [done|congruence]. }
    set (pk := picked (find_endpoint _ _ _ _)) in *.
    exists (match pk with Some j => entry_of_ep m (k, j) | None => None end). split; [subst pk; now destruct (find_endpoint _ _ _ _) as [[?|] [?|]]|].
    intros d. split.
    + destruct pk as [j|]; [|done]. intros Hd. pose proof (proj1 (FE j) eq_refl) as Cj.
      assert (exists ep, endPoints ifc !! j = Some ep) as [ep Hj].
      { destruct (endPoints ifc !! j) as [ep|] eqn:E; [eauto|]. exfalso. unfold chosen in Cj. rewrite E in Cj. now destruct Cj as [[? _]|[? _]]. }
      destruct (find_entry_all 0 l m k ifc j ep Em Hk Hj) as (cb & E1 & E2). cbn [Nat.add] in E2. rewrite E2 in Hd. injection Hd as <-.
      exists k, ifc, j, ep, cb. done.
    + intros (i' & ifc' & j & ep & cb & H1 & H2 & H3 & H4 & H5 & H6 & ->). destruct (Uniq _ _ H1 H2 H3) as [-> ->].
      rewrite (proj2 (FE j) H5). destruct (find_entry_all 0 l m k ifc j ep Em Hk H4) as (cb' & E1 & E2). cbn [Nat.add] in E2. congruence.
  - exists None. split; [done|]. intros d. split; [done|]. intros (i & ifc & j & ep & cb & H1 & H2 & H3 & _).
    enough (None = Some (i, ifc, ns_of ifc uri)) by done. apply FI. exists i. done.
Qed.
Definition demo_info : WsManDispatcherInfo := DispInfo demo_interfaces (default [] (all_entries 0 demo_interfaces)).
Definition to_resource (u a : string) : xml := envelope [dl XML_NS_WS_MAN WSM_RESOURCE_URI u; dl XML_NS_ADDRESSING WSA_ACTION a] [].
Lemma dispatch_reached_witness : exists o, wsman_dispatcher [] (fun _ => None) demo_info (to_resource "http://urn:many/C" "urn:many/Do") = Done o /\
  o = Some (Disp 1 (Some (lit "Do")) serviceEndPoint (1%nat, 2%nat)).
Proof.
  destruct (dispatch_reached demo_interfaces demo_info [] (fun _ => None) (to_resource "http://urn:many/C" "urn:many/Do") (lit "http://urn:many/C") (lit "urn:many/Do"))
    as (o & E & H); try reflexivity; [discriminate|]. exists o. split; [exact E|]. apply H.
  exists 1%nat, (Ifc None (Some [Some (lit "urn:many")]) [Ep 5 (Some ENUM_ACTION_ENUMERATE); Ep 15 None; Ep 15 (Some (lit "Do"))]), 2%nat, (Ep 15 (Some (lit "Do"))), serviceEndPoint.
  split; [reflexivity|]. split.
  { exists [Some (lit "urn:many")], (lit "urn:many"), (lit "http://"), (lit "/C"). repeat split. left. }
  split.
  { intros [|i'] ifc' L E2; [|lia]. injection E2 as <-. vm_compute. discriminate. }
  split; [reflexivity|]. split; [|done].
  left. split; [reflexivity|]. intros [|[|j']] L; [vm_compute; discriminate|vm_compute; discriminate|lia].
Defined.
(** A namespace counts wherever it stands in the URI, and an end point for any action hides behind a later one. *)
Example namespace_inside : serves (Ifc None (Some [Some (lit "urn:a")]) []) (lit "http://x?urn:a").
Proof. exists [Some (lit "urn:a")], (lit "urn:a"), (lit "http://x?"), []. repeat split. left. Qed.
(** An identifier of fewer than five characters is read behind its end. *)
Example short_identifier : wsman_dispatcher [] (fun _ => None) demo_info
  (envelope [dl XML_NS_ADDRESSING WSA_ACTION "http://schemas.xmlsoap.org/ws/2004/08/eventing/Renew"; dl XML_NS_EVENTING WSEVENT_IDENTIFIER "1"] []) = Undef.
Proof. vm_compute. reflexivity. Qed.

(** ** Message ids: a window on the last requests *)

Section Gate.
Context (content : cstring -> list xml) (prefix : cstring -> option cstring) (uuid_fault : cstring).
Local Abbreviation gen_fault := (generate_op_fault content prefix uuid_fault).

(** The codes that the dispatcher makes faults of have rows in the table. *)
Lemma generate_doc_done u in_doc c d m : exists o, wsman_generate_fault_doc content prefix u in_doc c d m = Done o /\ (is_Some o <-> known c = true) /\
  (forall doc, o = Some doc -> wsman_is_fault_envelope (Some doc) = true /\ is_Some (ws_xml_get_soap_header (Some doc))).
Proof.
  unfold wsman_generate_fault_doc. destruct (generate_fault_known c d m) as (o & -> & K). cbn [obind]. eexists. split; [reflexivity|].
  destruct o as [f|].
  - rewrite fault_envelope_eq. split; [rewrite <- K, bool_decide_true by eauto; split; eauto|]. intros doc [= <-]. rewrite envelope_header. split; [apply fault_is_fault|eauto].
  - split; [|done]. rewrite <- K, bool_decide_false by (now intros [? ?]). split; [now intros [? ?]|done].
Qed.
Definition is_fault (op : op_t) : Prop := wsman_is_fault_envelope (out_doc op) = true /\ is_Some (ws_xml_get_soap_header (out_doc op)).
(** An operation that differs only in its answer, which is a fault. *)
Definition refused (op op' : op_t) : Prop := in_doc op' = in_doc op /\ is_fault op'.
Lemma gen_fault_ok op c d : known c = true -> is_Some (in_doc op) -> exists doc, gen_fault op c d = Done (with_out (Some doc) op) /\ is_fault (with_out (Some doc) op).
Proof.
  intros K [i E]. unfold generate_op_fault. rewrite E. destruct (generate_doc_done uuid_fault (Some i) c d None) as (o & -> & S & F).
  destruct (proj2 S K) as [doc ->]. exists doc. split; [done|]. now apply F.
Qed.

Definition message_id_of (op : op_t) : option cstring := message_id (header_of op).
Lemma drop_old_spec l : drop_old l = drop (length l + 1 - PROCESSED_MSG_ID_MAX_SIZE) l.
Proof.
  induction l as [|x l IH]; [now rewrite drop_nil|]. cbn [drop_old]. destruct (Nat.leb_spec PROCESSED_MSG_ID_MAX_SIZE (length (x :: l))) as [L|L].
  - rewrite IH. cbn [length] in *. replace (S (length l) + 1 - PROCESSED_MSG_ID_MAX_SIZE)%nat with (S (length l + 1 - PROCESSED_MSG_ID_MAX_SIZE)) by lia. done.
  - cbn [length] in *. now replace (S (length l) + 1 - PROCESSED_MSG_ID_MAX_SIZE)%nat with 0%nat by lia.
Qed.
Lemma existsb_streq a l : existsb (streq a) l = bool_decide (a ∈ l).
Proof.
  destruct (existsb _ _) eqn:E; symmetry.
  - apply bool_decide_eq_true. apply existsb_exists in E as (x & Hx & Ex). apply streq_true in Ex as ->. now apply list_elem_of_In.
  - apply bool_decide_eq_false. intros H. enough (existsb (streq a) l = true) by congruence. apply existsb_exists. exists a.
    split; [now apply list_elem_of_In|apply streq_refl].
Qed.
(** One request, on a list of ids. *)
Lemma check_id ids op id : is_Some (in_doc op) -> message_id_of op = Some id -> id <> [] ->
  exists op', wsman_is_duplicate_message_id content prefix uuid_fault ids op =
    Done (if bool_decide (id ∈ default [] ids) then (1, Some (default [] ids), op') else (0, Some (drop_old (default [] ids) ++ [id]), op)) /\
    (id ∈ default [] ids -> refused op op').
Proof.
  intros I E N. unfold wsman_is_duplicate_message_id. unfold message_id_of, message_id in E. rewrite E.
  destruct id as [|c id]; [done|]. rewrite existsb_streq.
  destruct (gen_fault_ok op WSA_INVALID_MESSAGE_INFORMATION_HEADER WSA_DETAIL_DUPLICATE_MESSAGE_ID eq_refl I) as (doc & G & F).
  exists (with_out (Some doc) op). split; [|done].
  case_bool_decide; [rewrite G; done|done].
Qed.

(** The server sees one request after the other. *)
Fixpoint check_ids (ids : option (list cstring)) (ops : list op_t) : outcome (list Z * option (list cstring)) :=
  match ops with
  | [] => Done ([], ids)
  | op :: ops =>
      let* r := wsman_is_duplicate_message_id content prefix uuid_fault ids op in
      let* rest := check_ids r.1.2 ops in
      Done (r.1.1 :: rest.1, rest.2)
  end.
(** What it promises: an id is refused when it is one of the last [n] that were accepted. *)
Definition last_of {A} (n : nat) (l : list A) : list A := drop (length l - n) l.
Fixpoint accept (n : nat) (accepted : list cstring) (ids : list cstring) : list Z * list cstring :=
  match ids with
  | [] => ([], accepted)
  | id :: ids =>
      if bool_decide (id ∈ last_of n accepted) then let r := accept n accepted ids in (1 :: r.1, r.2)
      else let r := accept n (accepted ++ [id]) ids in (0 :: r.1, r.2)
  end.
Lemma last_of_app {A} n (l : list A) x : (0 < n)%nat -> drop (length (last_of n l) + 1 - n) (last_of n l) ++ [x] = last_of n (l ++ [x]).
Proof.
  intros N. unfold last_of. rewrite drop_drop, length_app, length_drop. cbn [length].
  rewrite drop_app_le by lia. f_equal. f_equal. lia.
Qed.
Lemma last_of_length {A} n (l : list A) : (length (last_of n l) <= n)%nat.
Proof. unfold last_of. rewrite length_drop. lia. Qed.
End Gate.

(** C19. The ids of requests are checked against a window: a request is refused as a replay exactly when its
    id is one of the last 200 that were accepted, the list of ids holds just those, without repetition, and
    never more than 200. *)
Theorem message_ids_window content prefix uuid ops ids : Forall2 (fun op id => is_Some (in_doc op) /\ message_id_of op = Some id /\ id <> []) ops ids ->
  forall accepted, NoDup (last_of PROCESSED_MSG_ID_MAX_SIZE accepted) ->
  exists l, check_ids content prefix uuid (Some (last_of PROCESSED_MSG_ID_MAX_SIZE accepted)) ops =
      Done ((accept PROCESSED_MSG_ID_MAX_SIZE accepted ids).1, Some l) /\
    l = last_of PROCESSED_MSG_ID_MAX_SIZE (accept PROCESSED_MSG_ID_MAX_SIZE accepted ids).2 /\ NoDup l /\ (length l <= PROCESSED_MSG_ID_MAX_SIZE)%nat.
Proof.
  induction 1 as [|op id ops ids (I & E & N) _ IH]; intros accepted D.
  - eexists. split; [reflexivity|]. split; [done|]. split; [done|]. apply last_of_length.
  - cbn [check_ids accept]. destruct (check_id content prefix uuid (Some (last_of PROCESSED_MSG_ID_MAX_SIZE accepted)) op id I E N) as (op' & -> & _).
    cbn [default from_option]. unfold Datatypes.id. case_bool_decide as Hin; cbn [obind fst snd].
    + destruct (IH accepted D) as (l & -> & H). cbn [obind fst snd]. eexists. split; [reflexivity|]. exact H.
    + rewrite drop_old_spec, last_of_app by (unfold PROCESSED_MSG_ID_MAX_SIZE; lia).
      destruct (IH (accepted ++ [id])) as (l & -> & H).
      { rewrite <- last_of_app by (unfold PROCESSED_MSG_ID_MAX_SIZE; lia). apply NoDup_app. split; [|split].
        - eapply sublist_NoDup; [exact D|apply sublist_drop].
        - intros x Hx Hx2. apply list_elem_of_singleton in Hx2 as ->. apply Hin. eapply elem_of_submseteq; [exact Hx|]. apply sublist_submseteq, sublist_drop.
        - apply NoDup_singleton. }
      cbn [obind fst snd]. eexists. split; [reflexivity|]. exact H.
Qed.
Definition with_id (t : string) : op_t := Op (Some (envelope [dl XML_NS_ADDRESSING WSA_MESSAGE_ID t] [])) None 0 0.
Lemma message_ids_window_witness : exists l, check_ids demo_content demo_prefix [] (Some []) [with_id "a"; with_id "b"; with_id "a"] = Done ([0; 0; 1], Some l) /\
  l = [lit "a"; lit "b"] /\ NoDup l /\ (length l <= PROCESSED_MSG_ID_MAX_SIZE)%nat.
Proof.
  apply (message_ids_window demo_content demo_prefix [] [with_id "a"; with_id "b"; with_id "a"] [lit "a"; lit "b"; lit "a"]) with (accepted := []).
  - repeat (apply Forall2_cons; split; [split; [eexists; reflexivity|split; [reflexivity|discriminate]]|]). constructor.
  - constructor.
Defined.

(** ** The checks of a request *)

(** What each check asks of the document. *)
Definition fresh (ids : option (list cstring)) (op : op_t) : Prop :=
  (exists id, message_id_of op = Some id /\ id <> [] /\ id ∉ default [] ids) \/
  (message_id_of op = None /\ wsman_is_identify_request (in_doc op) = true).
Definition enumerate_supported (header e : option xml) : Prop :=
  let filter ns := ws_xml_get_child e 0 (Some ns) (Some WSENUM_FILTER) in
  match filter XML_NS_ENUMERATION, filter XML_NS_WS_MAN with
  | Some _, Some _ => False
  | None, None => ~ has_child e XML_NS_ENUMERATION WSENUM_END_TO /\
      ws_xml_get_node_text (ws_xml_get_child header 0 (Some XML_NS_WS_MAN) (Some WSM_RESOURCE_URI)) <> Some CIM_ALL_AVAILABLE_CLASSES
  | Some f, None | None, Some f =>
      default WSM_XPATH_FILTER_DIALECT (ws_xml_find_attr_value (Some f) None WSM_DIALECT) ∈
        [WSM_ASSOCIATION_FILTER_DIALECT; WSM_XPATH_FILTER_DIALECT; WSM_WQL_FILTER_DIALECT; WSM_CQL_FILTER_DIALECT; WSM_SELECTOR_FILTER_DIALECT]
  end.
Definition delivery_modes : list cstring :=
  [WSEVENT_DELIVERY_MODE_PUSH; WSEVENT_DELIVERY_MODE_PUSHWITHACK; WSEVENT_DELIVERY_MODE_EVENTS; WSEVENT_DELIVERY_MODE_PULL].
Definition subscribe_supported (s : option xml) : Prop :=
  exists d, ws_xml_get_child s 0 (Some XML_NS_EVENTING) (Some WSEVENT_DELIVERY) = Some d /\
    (forall mode, ws_xml_find_attr_value (Some d) None WSEVENT_DELIVERY_MODE = Some mode -> exists m, m ∈ delivery_modes /\ EventPool.same_id mode m = true) /\
    ~ has_child (Some d) XML_NS_WS_MAN WSM_CONNECTIONRETRY.
Definition supported (op : op_t) : Prop :=
  let header := header_of op in let body := ws_xml_get_soap_body (in_doc op) in
  ~ has_child header XML_NS_ADDRESSING WSA_FAULT_TO /\
  must_understand (ws_xml_get_child header 0 (Some XML_NS_WS_MAN) (Some WSM_LOCALE)) = false /\
  (forall e, ws_xml_get_child body 0 (Some XML_NS_ENUMERATION) (Some WSENUM_ENUMERATE) = Some e -> enumerate_supported header (Some e)) /\
  (forall s, ws_xml_get_child body 0 (Some XML_NS_EVENTING) (Some WSEVENT_SUBSCRIBE) = Some s -> subscribe_supported (Some s)).
Definition understood (op : op_t) : Prop :=
  forall c, c ∈ selected None None (header_of op) ->
    ws_xml_find_attr_bool (Some c) (ws_xml_get_node_name_ns (header_of op)) SOAP_MUST_UNDERSTAND = true ->
    exists ns, ws_xml_get_node_name_ns (Some c) = Some ns /\ (ns, default [] (ws_xml_get_node_local_name (Some c))) ∈ mu_headers.
Definition control_ok (op : op_t) : Prop :=
  let header := header_of op in
  (must_understand (ws_xml_get_child header 0 (Some XML_NS_WS_MAN) (Some WSM_MAX_ENVELOPE_SIZE)) = true ->
   WSMAN_MINIMAL_ENVELOPE_SIZE_REQUEST <= ws_deserialize_uint32 header 0 (Some XML_NS_WS_MAN) WSM_MAX_ENVELOPE_SIZE) /\
  forall c, ws_xml_get_child header 0 (Some XML_NS_WS_MAN) (Some WSM_OPERATION_TIMEOUT) = Some c ->
    (exists d, WsTime.ws_deserialize_duration (Some (content_of c)) = Done (Some d) /\ 0 < d) /\
    ws_xml_find_attr_bool (Some c) (ws_xml_get_node_name_ns header) SOAP_MUST_UNDERSTAND = false.
Definition selector_names (op : op_t) : list cstring :=
  omap (fun s => ws_xml_find_attr_value (Some s) None WSM_NAME)
    (selected (Some XML_NS_WS_MAN) (Some WSM_SELECTOR) (ws_xml_get_child (header_of op) 0 (Some XML_NS_WS_MAN) (Some WSM_SELECTOR_SET))).
(** The duration of an OperationTimeout can be computed: its fraction of seconds fits into an int. *)
Definition timeout_defined (op : op_t) : Prop :=
  forall c, ws_xml_get_child (header_of op) 0 (Some XML_NS_WS_MAN) (Some WSM_OPERATION_TIMEOUT) = Some c ->
  exists d, WsTime.ws_deserialize_duration (Some (content_of c)) = Done d.

Section ChecksFacts.
Context (content : cstring -> list xml) (prefix : cstring -> option cstring) (uuid_fault : cstring).
Local Abbreviation gen_fault := (generate_op_fault content prefix uuid_fault).

Lemma refuse_ok r op c d : known c = true -> is_Some (in_doc op) -> exists op', refuse content prefix uuid_fault r op c d = Done (r, op') /\ refused op op'.
Proof. intros K I. unfold refuse. destruct (gen_fault_ok content prefix uuid_fault op c d K I) as (doc & -> & F). exists (with_out (Some doc) op). split; [done|]. now split. Qed.

Lemma duplicate_id_ok ids op : is_Some (in_doc op) -> exists r ids' op', wsman_is_duplicate_message_id content prefix uuid_fault ids op = Done (r, ids', op') /\
  ((r = 0 /\ fresh ids op /\ op' = op) \/ (r = 1 /\ ~ fresh ids op /\ refused op op')).
Proof.
  intros I. destruct (message_id_of op) as [id|] eqn:E.
  - destruct (decide (id = [])) as [->|N].
    + destruct (gen_fault_ok content prefix uuid_fault op WSA_INVALID_MESSAGE_INFORMATION_HEADER WSMAN_DETAIL_OK eq_refl I) as (doc & G & F).
      unfold wsman_is_duplicate_message_id. unfold message_id_of, message_id in E. rewrite E, G. do 3 eexists. split; [reflexivity|]. right.
      split; [done|]. split; [|now split]. intros [(id & E' & N & _)|[E' _]]; unfold message_id_of, message_id in E'; congruence.
    + destruct (check_id content prefix uuid_fault ids op id I E N) as (op' & -> & R). case_bool_decide as H; do 3 eexists; (split; [reflexivity|]).
      * right. split; [done|]. split; [|now apply R]. intros [(id' & E' & _ & H')|[E' _]]; congruence.
      * left. split; [done|]. split; [|done]. left. now exists id.
  - unfold wsman_is_duplicate_message_id. unfold message_id_of, message_id in E. rewrite E.
    destruct (wsman_is_identify_request (in_doc op)) eqn:Ei; cbn [negb].
    + do 3 eexists. split; [reflexivity|]. left. split; [done|]. split; [|done]. right. done.
    + destruct (gen_fault_ok content prefix uuid_fault op WSA_MESSAGE_INFORMATION_HEADER_REQUIRED WSMAN_DETAIL_OK eq_refl I) as (doc & -> & F).
      do 3 eexists. split; [reflexivity|]. right. split; [done|]. split; [|now split].
      intros [(id & E' & _)|[_ E']]; unfold message_id_of, message_id in E'; congruence.
Qed.

Lemma dialect_ok d : check_supported_dialect d = 0 \/ check_supported_dialect d = 1.
Proof. unfold check_supported_dialect. repeat (destruct (streq _ _); [now left|]). now right. Qed.
Lemma dialect_supported d : check_supported_dialect d = 0 <->
  d ∈ [WSM_ASSOCIATION_FILTER_DIALECT; WSM_XPATH_FILTER_DIALECT; WSM_WQL_FILTER_DIALECT; WSM_CQL_FILTER_DIALECT; WSM_SELECTOR_FILTER_DIALECT].
Proof.
  unfold check_supported_dialect. rewrite !elem_of_cons, elem_of_nil.
  repeat (match goal with |- context [streq d ?x] => let E := fresh "E" in destruct (streq d x) eqn:E; [apply streq_true in E; split; [intros _; tauto|done]|apply streq_false in E] end).
  split; [done|]. tauto.
Qed.
Lemma enumerate_ok op header e : is_Some (in_doc op) -> exists stop r op', check_enumerate content prefix uuid_fault op header e = Done (stop, r, op') /\
  in_doc op' = in_doc op /\ ((r = 0 /\ stop = false /\ enumerate_supported header e) \/ (r = 1 /\ ~ enumerate_supported header e /\ is_fault op')).
Proof.
  intros I. unfold check_enumerate, enumerate_supported.
  assert (exists r1 op1, (match ws_xml_get_child e 0 (Some XML_NS_ENUMERATION) (Some WSENUM_END_TO) with
    | Some _ => refuse content prefix uuid_fault 1 op WSMAN_UNSUPPORTED_FEATURE WSMAN_DETAIL_ADDRESSING_MODE | None => Done (0, op) end) = Done (r1, op1) /\
    in_doc op1 = in_doc op /\ ((r1 = 0 /\ ~ has_child e XML_NS_ENUMERATION WSENUM_END_TO) \/ (r1 = 1 /\ has_child e XML_NS_ENUMERATION WSENUM_END_TO /\ is_fault op1)))
    as (r1 & op1 & -> & I1 & Cr).
  { unfold has_child. destruct (ws_xml_get_child e 0 _ (Some WSENUM_END_TO)).
    - destruct (refuse_ok 1 op WSMAN_UNSUPPORTED_FEATURE WSMAN_DETAIL_ADDRESSING_MODE eq_refl I) as (op1 & -> & H1 & H2).
      do 2 eexists. split; [reflexivity|]. split; [done|]. right. split; [done|]. split; [eauto|done].
    - do 2 eexists. split; [reflexivity|]. split; [done|]. left. split; [done|]. now intros [? ?]. }
  assert (is_Some (in_doc op1)) as I1' by now rewrite I1.
  cbn [obind]. change WSM_FILTER with WSENUM_FILTER.
  assert (forall c d, known c = true -> exists op', (let* op := gen_fault op1 c d in Done (true, 1, op)) = Done (true, 1, op') /\ in_doc op' = in_doc op /\ is_fault op') as Stop.
  { intros c d K. destruct (gen_fault_ok content prefix uuid_fault op1 c d K I1') as (doc & -> & F). eexists. split; [reflexivity|]. now split. }
  destruct (ws_xml_get_child e 0 (Some XML_NS_ENUMERATION) (Some WSENUM_FILTER)) as [n|] eqn:En,
           (ws_xml_get_child e 0 (Some XML_NS_WS_MAN) (Some WSENUM_FILTER)) as [m|] eqn:Em.
  - destruct (Stop WSEN_CANNOT_PROCESS_FILTER WSMAN_DETAIL_OK eq_refl) as (op' & -> & H1 & H2). do 3 eexists. split; [reflexivity|]. split; [done|]. right. split; [done|]. split; [tauto|done].
  - set (d := default _ _). pose proof (dialect_supported d) as Dd. destruct (dialect_ok d) as [Ed|Ed].
    + rewrite Ed. do 3 eexists. split; [reflexivity|]. split; [done|]. left. split; [done|]. split; [done|]. now apply (proj1 Dd).
    + rewrite Ed. cbn [Z.eqb negb]. destruct (Stop WSEN_FILTER_DIALECT_REQUESTED_UNAVAILABLE WSMAN_DETAIL_OK eq_refl) as (op' & -> & H1 & H2).
      do 3 eexists. split; [reflexivity|]. split; [done|]. right. split; [done|]. split; [|done]. intros H. apply (proj2 Dd) in H. lia.
  - set (d := default _ _). pose proof (dialect_supported d) as Dd. destruct (dialect_ok d) as [Ed|Ed].
    + rewrite Ed. do 3 eexists. split; [reflexivity|]. split; [done|]. left. split; [done|]. split; [done|]. now apply (proj1 Dd).
    + rewrite Ed. cbn [Z.eqb negb]. destruct (Stop WSEN_FILTER_DIALECT_REQUESTED_UNAVAILABLE WSMAN_DETAIL_OK eq_refl) as (op' & -> & H1 & H2).
      do 3 eexists. split; [reflexivity|]. split; [done|]. right. split; [done|]. split; [|done]. intros H. apply (proj2 Dd) in H. lia.
  - destruct (ws_xml_get_node_text _) as [u|] eqn:Eu.
    + destruct (streq u CIM_ALL_AVAILABLE_CLASSES) eqn:Es.
      * apply streq_true in Es as ->. destruct (Stop WSMAN_UNSUPPORTED_FEATURE WSMAN_DETAIL_FILTERING_REQUIRED eq_refl) as (op' & -> & H1 & H2).
        do 3 eexists. split; [reflexivity|]. split; [done|]. right. split; [done|]. split; [tauto|done].
      * apply streq_false in Es. do 3 eexists. split; [reflexivity|]. split; [done|]. destruct Cr as [(-> & H)|(-> & H & F)]; [left|right].
        { split; [done|]. split; [done|]. split; [done|congruence]. } { split; [done|]. split; [tauto|done]. }
    + do 3 eexists. split; [reflexivity|]. split; [done|]. destruct Cr as [(-> & H)|(-> & H & F)]; [left|right].
      { split; [done|]. split; [done|]. split; [done|congruence]. } { split; [done|]. split; [tauto|done]. }
Qed.
Lemma subscribe_ok r op s : is_Some (in_doc op) -> exists r' op', check_subscribe content prefix uuid_fault r op s = Done (r', op') /\
  in_doc op' = in_doc op /\ ((r' = r /\ op' = op /\ subscribe_supported s) \/ (r' = 1 /\ ~ subscribe_supported s /\ is_fault op')).
Proof.
  intros I. unfold check_subscribe, subscribe_supported.
  assert (forall c d (P : Prop), known c = true -> ~ P -> exists r' op', refuse content prefix uuid_fault 1 op c d = Done (r', op') /\ in_doc op' = in_doc op /\
    ((r' = r /\ op' = op /\ P) \/ (r' = 1 /\ ~ P /\ is_fault op'))) as Bad.
  { intros c d P K N. destruct (refuse_ok 1 op c d K I) as (op' & -> & H1 & H2). do 2 eexists. split; [reflexivity|]. tauto. }
  destruct (ws_xml_get_child s 0 _ (Some WSEVENT_DELIVERY)) as [d|]; [|apply Bad; [done|now intros (? & ? & _)]].
  destruct (ws_xml_find_attr_value (Some d) None WSEVENT_DELIVERY_MODE) as [mu|] eqn:Em.
  - set (k := EventPool.same_id mu _ || _ || _ || _).
    assert (k = true <-> exists m, m ∈ delivery_modes /\ EventPool.same_id mu m = true) as Hk.
    { unfold k, delivery_modes. rewrite !orb_true_iff. split.
      - intros [[[H|H]|H]|H]; eexists; (split; [|exact H]); rewrite !elem_of_cons; tauto.
      - intros (m & Hm & H). rewrite !elem_of_cons, elem_of_nil in Hm. destruct Hm as [->|[->|[->|[->|[]]]]]; tauto. }
    destruct k; cbn [negb].
    + unfold has_child. destruct (ws_xml_get_child (Some d) 0 _ (Some WSM_CONNECTIONRETRY)) as [c|] eqn:Ec.
      * apply Bad; [done|]. intros (d0 & [= <-] & _ & N). apply N. rewrite Ec. eauto.
      * do 2 eexists. split; [reflexivity|]. split; [done|]. left. split; [done|]. split; [done|]. exists d. split; [done|]. split.
        { intros mode E. rewrite Em in E. injection E as <-. now apply Hk. } { rewrite Ec. now intros [? ?]. }
    + apply Bad; [done|]. intros (d0 & [= <-] & M & _). apply M in Em. apply Hk in Em. done.
  - unfold has_child. destruct (ws_xml_get_child (Some d) 0 _ (Some WSM_CONNECTIONRETRY)) as [c|] eqn:Ec.
    + apply Bad; [done|]. intros (d0 & [= <-] & _ & N). apply N. rewrite Ec. eauto.
    + do 2 eexists. split; [reflexivity|]. split; [done|]. left. split; [done|]. split; [done|]. exists d. split; [done|]. split; [congruence|]. rewrite Ec. now intros [? ?].
Qed.
Lemma unsupported_ok op : is_Some (in_doc op) -> exists r op', check_unsupported_features content prefix uuid_fault op = Done (r, op') /\
  in_doc op' = in_doc op /\ ((r = 0 /\ supported op) \/ (r = 1 /\ ~ supported op /\ is_fault op')).
Proof.
  intros I. unfold check_unsupported_features, supported, has_child.
  destruct (ws_xml_get_child (header_of op) 0 _ (Some WSA_FAULT_TO)) as [f|] eqn:Ef.
  { destruct (refuse_ok 1 op WSMAN_UNSUPPORTED_FEATURE WSMAN_DETAIL_ADDRESSING_MODE eq_refl I) as (op' & -> & H1 & H2).
    do 2 eexists. split; [reflexivity|]. split; [done|]. right. split; [done|]. split; [|done]. intros (N & _). apply N. eauto. }
  destruct (must_understand _) eqn:El.
  { destruct (refuse_ok 1 op WSMAN_UNSUPPORTED_FEATURE WSMAN_DETAIL_LOCALE eq_refl I) as (op' & -> & H1 & H2).
    do 2 eexists. split; [reflexivity|]. split; [done|]. right. split; [done|]. split; [|done]. now intros (_ & N & _). }
  set (body := ws_xml_get_soap_body (in_doc op)).
  assert (exists stop r op1, (match ws_xml_get_child body 0 (Some XML_NS_ENUMERATION) (Some WSENUM_ENUMERATE) with
      | Some e => check_enumerate content prefix uuid_fault op (header_of op) (Some e) | None => Done (false, 0, op) end) = Done (stop, r, op1) /\
    in_doc op1 = in_doc op /\
    ((r = 0 /\ stop = false /\ forall e, ws_xml_get_child body 0 (Some XML_NS_ENUMERATION) (Some WSENUM_ENUMERATE) = Some e -> enumerate_supported (header_of op) (Some e)) \/
     (r = 1 /\ (~ forall e, ws_xml_get_child body 0 (Some XML_NS_ENUMERATION) (Some WSENUM_ENUMERATE) = Some e -> enumerate_supported (header_of op) (Some e)) /\ is_fault op1)))
    as (stop & r & op1 & -> & I1 & C1).
  { destruct (ws_xml_get_child body 0 _ (Some WSENUM_ENUMERATE)) as [e|].
    - destruct (enumerate_ok op (header_of op) (Some e) I) as (stop & r & op1 & -> & H1 & [(-> & -> & H)|(-> & H & F)]); do 3 eexists; (split; [reflexivity|]); (split; [done|]).
      + left. split; [done|]. split; [done|]. now intros ? [= <-].
      + right. split; [done|]. split; [|done]. intros A. apply H. now apply A.
    - do 3 eexists. split; [reflexivity|]. split; [done|]. left. done. }
  cbn [obind]. assert (forall op2, is_fault op2 -> in_doc op2 = in_doc op ->
      (~ forall e, ws_xml_get_child body 0 (Some XML_NS_ENUMERATION) (Some WSENUM_ENUMERATE) = Some e -> enumerate_supported (header_of op) (Some e)) ->
      exists r' op', Done (1, op2) = Done (r', op') /\ in_doc op' = in_doc op /\ ((r' = 0 /\ (~ is_Some (None : option xml) /\ false = false /\
        (forall e, ws_xml_get_child body 0 (Some XML_NS_ENUMERATION) (Some WSENUM_ENUMERATE) = Some e -> enumerate_supported (header_of op) (Some e)) /\
        forall s, ws_xml_get_child body 0 (Some XML_NS_EVENTING) (Some WSEVENT_SUBSCRIBE) = Some s -> subscribe_supported (Some s))) \/
       (r' = 1 /\ ~ (~ is_Some (None : option xml) /\ false = false /\
        (forall e, ws_xml_get_child body 0 (Some XML_NS_ENUMERATION) (Some WSENUM_ENUMERATE) = Some e -> enumerate_supported (header_of op) (Some e)) /\
        forall s, ws_xml_get_child body 0 (Some XML_NS_EVENTING) (Some WSEVENT_SUBSCRIBE) = Some s -> subscribe_supported (Some s)) /\ is_fault op'))) as Bad.
  { intros op2 F I2 N. do 2 eexists. split; [reflexivity|]. split; [done|]. right. split; [done|]. split; [|done]. now intros (_ & _ & H & _). }
  assert (~ is_Some (None : option xml)) as NN by now intros [? ?].
  destruct C1 as [(-> & -> & H)|(-> & H & F)].
  - destruct (ws_xml_get_child body 0 _ (Some WSEVENT_SUBSCRIBE)) as [s|].
    + destruct (subscribe_ok 0 op1 (Some s) ltac:(now rewrite I1)) as (r' & op' & -> & H1 & [(-> & -> & S)|(-> & S & F)]); do 2 eexists; (split; [reflexivity|]); (split; [congruence|]).
      * left. split; [done|]. split; [done|]. split; [done|]. split; [done|]. now intros ? [= <-].
      * right. split; [done|]. split; [|done]. intros (_ & _ & _ & A). apply S. now apply A.
    + do 2 eexists. split; [reflexivity|]. split; [done|]. left. done.
  - destruct stop; [now apply Bad|]. destruct (ws_xml_get_child body 0 _ (Some WSEVENT_SUBSCRIBE)) as [s|]; [|now apply Bad].
    destruct (subscribe_ok 1 op1 (Some s) ltac:(now rewrite I1)) as (r' & op' & -> & H1 & [(-> & -> & S)|(-> & S & F')]); [now apply Bad|].
    apply Bad; [done|congruence|done].
Qed.

(** A loop that leaves at the first child of a kind. *)
Lemma walk_find (p : xml -> bool) l : walk (fun c found => if p c then inr (Some c) else inl found) l None = List.find p l.
Proof. induction l as [|c l IH]; [done|]. cbn. now destruct (p c). Qed.
Lemma mu_header_iff c : is_mu_header c = true <-> exists ns, ws_xml_get_node_name_ns (Some c) = Some ns /\ (ns, default [] (ws_xml_get_node_local_name (Some c))) ∈ mu_headers.
Proof.
  unfold is_mu_header. rewrite existsb_exists. split.
  - intros ([n m] & Hin & H). destruct (ws_xml_get_node_name_ns (Some c)) as [ns|]; [|done]. apply andb_true_iff in H as [H1 H2].
    apply streq_true in H1, H2. cbn [fst snd] in *. exists ns. split; [done|]. rewrite H2, H1. now apply list_elem_of_In.
  - intros (ns & -> & Hin). eexists. split; [apply list_elem_of_In, Hin|]. cbn [fst snd]. now rewrite !streq_refl.
Qed.
Lemma understood_ok op : (validate_mustunderstand_headers op = None <-> understood op) /\
  forall c, validate_mustunderstand_headers op = Some c -> c ∈ selected None None (header_of op).
Proof.
  unfold validate_mustunderstand_headers. rewrite for_children_walk, (walk_find (fun c => ws_xml_find_attr_bool (Some c) (ws_xml_get_node_name_ns (header_of op)) SOAP_MUST_UNDERSTAND && negb (is_mu_header c))).
  split; [|intros c F; apply find_some in F as [F _]; now apply list_elem_of_In]. unfold understood. split.
  - intros F c Hc Hm. apply list_elem_of_In in Hc. pose proof (find_none _ _ F _ Hc) as N. cbv beta in N. rewrite Hm in N. cbn [andb] in N.
    apply mu_header_iff. now destruct (is_mu_header c).
  - intros U. destruct (List.find _ _) as [c|] eqn:F; [|done]. apply find_some in F as [Hc H]. apply andb_true_iff in H as [H1 H2].
    apply list_elem_of_In in Hc. apply (U c Hc) in H1. apply mu_header_iff in H1. now rewrite H1 in H2.
Qed.

Lemma control_ok_spec op : is_Some (in_doc op) -> timeout_defined op -> exists r op', validate_control_headers content prefix uuid_fault op = Done (r, op') /\
  in_doc op' = in_doc op /\ ((r = 1 /\ control_ok op /\ control_size (header_of op) (maxsize op) = Some (maxsize op')) \/ (r = 0 /\ ~ control_ok op /\ is_fault op')).
Proof.
  intros I T. unfold validate_control_headers, control_ok.
  assert (control_size (header_of op) (maxsize op) = None <->
    ~ (must_understand (ws_xml_get_child (header_of op) 0 (Some XML_NS_WS_MAN) (Some WSM_MAX_ENVELOPE_SIZE)) = true ->
      WSMAN_MINIMAL_ENVELOPE_SIZE_REQUEST <= ws_deserialize_uint32 (header_of op) 0 (Some XML_NS_WS_MAN) WSM_MAX_ENVELOPE_SIZE)) as Sz.
  { unfold control_size. destruct (ws_xml_get_child _ 0 _ (Some WSM_MAX_ENVELOPE_SIZE)) as [m|].
    - destruct (must_understand (Some m)); [|split; [done|intros A; exfalso; now apply A]].
      destruct (Z.ltb_spec (ws_deserialize_uint32 (header_of op) 0 (Some XML_NS_WS_MAN) WSM_MAX_ENVELOPE_SIZE) WSMAN_MINIMAL_ENVELOPE_SIZE_REQUEST).
      + split; [intros _ A; specialize (A eq_refl); lia|done].
      + split; [done|]. intros A. exfalso. apply A. intros _. lia.
    - split; [done|]. intros A. exfalso. now apply A. }
  destruct (control_size (header_of op) (maxsize op)) as [size|] eqn:Es.
  2:{ destruct (refuse_ok 0 op WSMAN_ENCODING_LIMIT WSMAN_DETAIL_MINIMUM_ENVELOPE_LIMIT eq_refl I) as (op' & -> & H1 & H2).
      do 2 eexists. split; [reflexivity|]. split; [done|]. right. split; [done|]. split; [|done]. intros [A _]. now apply Sz. }
  assert (must_understand (ws_xml_get_child (header_of op) 0 (Some XML_NS_WS_MAN) (Some WSM_MAX_ENVELOPE_SIZE)) = true ->
      WSMAN_MINIMAL_ENVELOPE_SIZE_REQUEST <= ws_deserialize_uint32 (header_of op) 0 (Some XML_NS_WS_MAN) WSM_MAX_ENVELOPE_SIZE) as A.
  { intros Hm. destruct (Z.le_gt_cases WSMAN_MINIMAL_ENVELOPE_SIZE_REQUEST (ws_deserialize_uint32 (header_of op) 0 (Some XML_NS_WS_MAN) WSM_MAX_ENVELOPE_SIZE)); [done|].
    enough (Some size = None) by done. apply Sz. intros Q. specialize (Q Hm). lia. }
  assert (forall v : op_t, in_doc v = in_doc op -> is_Some (in_doc v)) as I' by (intros v ->; done).
  destruct (ws_xml_get_child (header_of op) 0 _ (Some WSM_OPERATION_TIMEOUT)) as [c|] eqn:Ec.
  2:{ do 2 eexists. split; [reflexivity|]. split; [done|]. left. done. }
  cbn [ws_xml_get_node_text fmap option_fmap option_map]. destruct (T c Ec) as [d Ed]. rewrite Ed. cbn [obind].
  destruct d as [d|].
  2:{ destruct (refuse_ok 0 (with_maxsize size op) WSA_INVALID_MESSAGE_INFORMATION_HEADER WSMAN_DETAIL_OPERATION_TIMEOUT eq_refl I) as (op' & -> & H1 & H2).
      do 2 eexists. split; [reflexivity|]. split; [done|]. right. split; [done|]. split; [|done]. intros [_ B]. destruct (B c eq_refl) as [(d & E & _) _]. congruence. }
  destruct (Z.leb_spec d 0) as [L|L].
  { destruct (refuse_ok 0 (with_maxsize size op) WSMAN_TIMED_OUT WSMAN_DETAIL_OK eq_refl I) as (op' & -> & H1 & H2).
    do 2 eexists. split; [reflexivity|]. split; [done|]. right. split; [done|]. split; [|done]. intros [_ B]. destruct (B c eq_refl) as [(d' & E & L') _].
    rewrite Ed in E. injection E as <-. lia. }
  destruct (ws_xml_find_attr_bool (Some c) _ _) eqn:Eb.
  { destruct (refuse_ok 0 (with_op_expires d (with_maxsize size op)) WSMAN_UNSUPPORTED_FEATURE WSMAN_DETAIL_OPERATION_TIMEOUT eq_refl I) as (op' & -> & H1 & H2).
    do 2 eexists. split; [reflexivity|]. split; [done|]. right. split; [done|]. split; [|done]. intros [_ B]. destruct (B c eq_refl) as [_ B2]. congruence. }
  do 2 eexists. split; [reflexivity|]. split; [done|]. left. split; [done|]. split; [|done]. split; [exact A|]. intros ? [= <-]. split; [eauto|done].
Qed.

Lemma walk_names (l : list xml) (seen : gset cstring) :
  (walk (fun selector (s : gset cstring * bool) => match ws_xml_find_attr_value (Some selector) None WSM_NAME with
     | None => inl s | Some a => if bool_decide (a ∈ s.1) then inr (s.1, true) else inl (s.1 ∪ {[a]}, false) end) l (seen, false)).2 = false <->
  NoDup (omap (fun s => ws_xml_find_attr_value (Some s) None WSM_NAME) l) /\
  forall a, a ∈ omap (fun s => ws_xml_find_attr_value (Some s) None WSM_NAME) l -> a ∉ seen.
Proof.
  revert seen. induction l as [|c l IH]; intros seen.
  { split; [|done]. split; [constructor|]. intros b Hb. now apply elem_of_nil in Hb. }
  cbn [walk omap list_omap]. destruct (ws_xml_find_attr_value (Some c) None WSM_NAME) as [a|]; cbn [fst snd]; [|apply IH].
  case_bool_decide as Hin.
  - cbn. split; [done|]. intros [_ H]. exfalso. apply (H a); [left|done].
  - rewrite IH, NoDup_cons. split.
    + intros [D S]. split; [split; [|done]|].
      * intros H. apply S in H. set_solver.
      * intros b Hb. apply elem_of_cons in Hb as [->|Hb]; [done|]. apply S in Hb. set_solver.
    + intros [[N D] S]. split; [done|]. intros b Hb. apply not_elem_of_union. split; [apply S; now right|]. apply not_elem_of_singleton. congruence.
Qed.
Lemma selectors_ok op : is_Some (in_doc op) -> exists r op', check_for_duplicate_selectors content prefix uuid_fault op = Done (r, op') /\
  in_doc op' = in_doc op /\ ((r = 0 /\ op' = op /\ NoDup (selector_names op)) \/ (r = 1 /\ ~ NoDup (selector_names op) /\ is_fault op')).
Proof.
  intros I. unfold check_for_duplicate_selectors, selector_names.
  destruct (ws_xml_get_child (header_of op) 0 _ (Some WSM_SELECTOR_SET)) as [node|].
  2:{ do 2 eexists. split; [reflexivity|]. split; [done|]. left. split; [done|]. split; [done|]. constructor. }
  rewrite for_children_walk. pose proof (walk_names (selected (Some XML_NS_WS_MAN) (Some WSM_SELECTOR) (Some node)) ∅) as W.
  destruct (walk _ _ _) as [s dup]. cbn [snd] in *. destruct dup.
  - destruct (refuse_ok 1 op WSMAN_INVALID_SELECTORS WSMAN_DETAIL_DUPLICATE_SELECTORS eq_refl I) as (op' & -> & H1 & H2).
    do 2 eexists. split; [reflexivity|]. split; [done|]. right. split; [done|]. split; [|done]. intros D. enough (true = false) by done. apply W. split; [done|]. set_solver.
  - do 2 eexists. split; [reflexivity|]. split; [done|]. left. split; [done|]. split; [done|]. now apply W.
Qed.
Lemma notunderstood_ok op c : is_Some (in_doc op) -> exists op', generate_notunderstood_fault content prefix uuid_fault op c = Done op' /\ in_doc op' = in_doc op /\ is_fault op'.
Proof.
  intros [i Ei]. unfold generate_notunderstood_fault, generate_op_fault. rewrite Ei. unfold wsman_generate_fault_doc.
  destruct (generate_fault_known SOAP_FAULT_MUSTUNDERSTAND WSMAN_DETAIL_OK None) as (o & -> & K). cbn [obind].
  destruct o as [f|]; [|discriminate]. rewrite fault_envelope_eq. cbn [out_doc with_out]. rewrite envelope_header.
  eexists. split; [reflexivity|]. split; [done|]. unfold is_fault. cbn [out_doc with_out]. rewrite on_header_envelope. cbn [append_child soap_elem].
  match goal with |- context [soap_elem SOAP_ENVELOPE [Elem _ _ _ ?hs; soap_elem SOAP_BODY ?bs]] =>
    change (wsman_is_fault_envelope (Some (envelope hs bs)) = true /\ is_Some (ws_xml_get_soap_header (Some (envelope hs bs)))) end.
  rewrite envelope_header. split; [apply fault_is_fault|eauto].
Qed.
End ChecksFacts.

(** All the checks together. *)
Lemma inbound_checks_ok content prefix uuid ids op : is_Some (in_doc op) -> timeout_defined op ->
  exists r ids' op', inbound_checks content prefix uuid ids op = Done (r, ids', op') /\ in_doc op' = in_doc op /\
    (r = 0 <-> fresh ids op /\ supported op /\ understood op /\ control_ok op /\ NoDup (selector_names op)) /\
    (r <> 0 -> is_fault op').
Proof.
  intros I T. unfold inbound_checks.
  destruct (duplicate_id_ok content prefix uuid ids op I) as (r & ids1 & op1 & -> & [(-> & F & ->)|(-> & F & E1 & E2)]); cbn [obind Z.eqb negb].
  2:{ do 3 eexists. split; [reflexivity|]. split; [done|]. split; [|done]. split; [done|tauto]. }
  destruct (unsupported_ok content prefix uuid op I) as (r & op1 & -> & I1 & [(-> & S)|(-> & S & E)]); cbn [obind Z.eqb negb].
  2:{ do 3 eexists. split; [reflexivity|]. split; [done|]. split; [|done]. split; [done|tauto]. }
  assert (header_of op1 = header_of op) as H1 by (unfold header_of; now rewrite I1).
  assert (is_Some (in_doc op1)) as I1' by now rewrite I1.
  destruct (understood_ok op1) as [U _]. assert (understood op1 <-> understood op) as U' by (unfold understood; now rewrite H1).
  destruct (validate_mustunderstand_headers op1) as [c|].
  { destruct (notunderstood_ok content prefix uuid op1 c I1') as (op2 & -> & I2 & E). cbn [obind].
    do 3 eexists. split; [reflexivity|]. split; [congruence|]. split; [|done]. split; [done|]. intros (_ & _ & H & _). apply U', U in H. done. }
  destruct (control_ok_spec content prefix uuid op1 I1') as (r & op2 & -> & I2 & C).
  { unfold timeout_defined. now rewrite H1. }
  assert (control_ok op1 <-> control_ok op) as C' by (unfold control_ok; now rewrite H1).
  assert (header_of op2 = header_of op) as H2 by (unfold header_of; now rewrite I2, I1).
  cbn [obind]. destruct C as [(-> & C & _)|(-> & C & E)]; cbn [Z.eqb].
  2:{ do 3 eexists. split; [reflexivity|]. split; [congruence|]. split; [|done]. split; [done|tauto]. }
  destruct (selectors_ok content prefix uuid op2) as (r & op3 & -> & I3 & D); [now rewrite I2|].
  assert (selector_names op2 = selector_names op) as D' by (unfold selector_names; now rewrite H2). rewrite D' in D. cbn [obind].
  destruct D as [(-> & -> & D)|(-> & D & E)]; cbn [Z.eqb negb]; do 3 eexists; (split; [reflexivity|]); (split; [congruence|]); (split; [|done]).
  - split; [|done]. intros _. tauto.
  - split; [done|tauto].
Qed.
(** C9. A request gets through the checks exactly when its message id is new (or it is an Identify without
    one), it asks for nothing that is not supported, every header that must be understood is one the
    server knows, its MaxEnvelopeSize and OperationTimeout are in order, and no selector is given twice;
    any other request has a fault for its answer. *)
Theorem inbound_gate content prefix uuid ids op : is_Some (in_doc op) -> timeout_defined op ->
  exists r ids' op', inbound_checks content prefix uuid ids op = Done (r, ids', op') /\ in_doc op' = in_doc op /\
    (r = 0 <-> fresh ids op /\ supported op /\ understood op /\ control_ok op /\ NoDup (selector_names op)) /\
    (r <> 0 -> is_fault op').
Proof. apply inbound_checks_ok. Qed.
Definition demo_op : op_t := Op (Some demo_request) None 0 0.
Lemma inbound_gate_witness : exists r ids' op', inbound_checks demo_content demo_prefix [] None demo_op = Done (r, ids', op') /\ in_doc op' = in_doc demo_op /\
    (r = 0 <-> fresh None demo_op /\ supported demo_op /\ understood demo_op /\ control_ok demo_op /\ NoDup (selector_names demo_op)) /\
    (r <> 0 -> is_fault op').
Proof. apply (inbound_gate demo_content demo_prefix [] None demo_op); [eexists; reflexivity|]. intros c E. discriminate E. Defined.
(** The request of the example gets through. *)
Example demo_passes : exists ids op, inbound_checks demo_content demo_prefix [] None demo_op = Done (0, ids, op).
Proof. eexists _, _. vm_compute. reflexivity. Qed.
(** An EndTo in an Enumerate is refused, but not beside a filter of a known dialect. *)
Definition enumerate (ch : list xml) : op_t := Op (Some (envelope [dl XML_NS_ADDRESSING WSA_MESSAGE_ID "m"] [Elem (Some XML_NS_ENUMERATION) WSENUM_ENUMERATE [] ch])) None 0 0.
Example end_to_passes : (exists ids op, inbound_checks demo_content demo_prefix [] None (enumerate [dl XML_NS_ENUMERATION WSENUM_END_TO "x"]) = Done (1, ids, op)) /\
  exists ids op, inbound_checks demo_content demo_prefix [] None (enumerate [dl XML_NS_ENUMERATION WSENUM_END_TO "x"; dl XML_NS_WS_MAN WSM_FILTER "q"]) = Done (0, ids, op).
Proof. split; eexists _, _; vm_compute; reflexivity. Qed.
(** A MaxEnvelopeSize that need not be understood leaves the size at 0, which is no limit at all. *)
Example size_unlimited : control_size (Some (soap_elem SOAP_HEADER [dl XML_NS_WS_MAN WSM_MAX_ENVELOPE_SIZE "9000"])) 0 = Some 0.
Proof. vm_compute. reflexivity. Qed.

(** ** Answers *)

Lemma soap_header_eq doc : ws_xml_get_soap_header (Some doc) =
  match ws_xml_get_soap_envelope (Some doc) with Some env => head (List.filter is_element (children env)) | None => None end.
Proof.
  unfold ws_xml_get_soap_header, ws_xml_get_soap_element. destruct (ws_xml_get_soap_envelope (Some doc)) as [env|]; [|done].
  assert (ws_xml_get_child (Some env) 0 None None = head (List.filter is_element (children env))) as ->.
  { rewrite ws_xml_get_child_0. unfold selected. cbn [from_option]. now rewrite (filter_ext' _ _ _ selects_any). }
  destruct (head _); [|done]. rewrite streq_refl. cbn [negb]. now destruct (ws_xml_is_node_qname _ _ _).
Qed.
Lemma envelope_root doc env : ws_xml_get_soap_envelope (Some doc) = Some env -> env = doc.
Proof. unfold ws_xml_get_soap_envelope. destruct (_ || _); [|done]. now intros [= <-]. Qed.
Lemma update_head f l h : head (List.filter is_element l) = Some h -> is_element (f h) = true ->
  head (List.filter is_element (update_element 0 f l)) = Some (f h).
Proof.
  induction l as [|c l IH]; [done|]. cbn [List.filter update_element]. destruct (is_element c) eqn:E; cbn [List.filter].
  - intros [= ->] H. now rewrite H.
  - rewrite E. exact IH.
Qed.
Lemma header_on_header f doc h : ws_xml_get_soap_header (Some doc) = Some h -> is_element (f h) = true ->
  ws_xml_get_soap_header (Some (on_header f doc)) = Some (f h).
Proof.
  rewrite !soap_header_eq. destruct (ws_xml_get_soap_envelope (Some doc)) as [env|] eqn:E; [|done]. pose proof (envelope_root _ _ E) as ->.
  destruct doc as [ns n a ch| |]; [|done|done]. intros H F.
  assert (ws_xml_get_soap_envelope (Some (on_header f (Elem ns n a ch))) = Some (on_header f (Elem ns n a ch))) as ->.
  { unfold ws_xml_get_soap_envelope in *. cbn [on_header on_child] in *.
    change (ws_xml_is_node_qname (Some (Elem ns n a (update_element 0 f ch)))) with (ws_xml_is_node_qname (Some (Elem ns n a ch))).
    now destruct (_ || _). }
  cbn [on_header on_child children] in *. now apply update_head.
Qed.
Lemma header_element doc h : ws_xml_get_soap_header (Some doc) = Some h -> is_element h = true.
Proof.
  rewrite soap_header_eq. destruct (ws_xml_get_soap_envelope _) as [env|]; [|done]. intros E. apply head_Some in E as (l & E).
  assert (In h (List.filter is_element (children env))) as H by (rewrite E; now left). now apply filter_In in H.
Qed.
Lemma added_child content h ns name t : is_element h = true -> has_child (Some (ws_xml_add_child content h (Some ns) name t)) ns name.
Proof.
  intros E. unfold has_child. rewrite ws_xml_get_child_0. unfold ws_xml_add_child. rewrite selected_append by done.
  unfold make_new_xml_node. rewrite Epr.selects_self. destruct (selected _ _ _); cbn; eauto.
Qed.
Lemma kept_child content h ns name ns' name' t : is_element h = true -> has_child (Some h) ns name ->
  has_child (Some (ws_xml_add_child content h ns' name' t)) ns name.
Proof.
  unfold has_child. rewrite !ws_xml_get_child_0. intros E H. unfold ws_xml_add_child. rewrite selected_append by done. destruct (selected _ _ _); [now destruct H|cbn; eauto].
Qed.

Section Outbound.
Context (content : cstring -> list xml) (prefix : cstring -> option cstring) (uuid_fault uuid_out : cstring) (dump_len : xml -> Z).
Lemma addressing_ok op d h : out_doc op = Some d -> ws_xml_get_soap_header (Some d) = Some h ->
  exists h' d', outbound_addressing_filter content uuid_out op = Done (0, with_out (Some d') op) /\ ws_xml_get_soap_header (Some d') = Some h' /\
    (wsman_is_identify_request (in_doc op) = false -> has_child (Some h') XML_NS_ADDRESSING WSA_MESSAGE_ID).
Proof.
  intros O H. unfold outbound_addressing_filter. rewrite O. unfold wsman_get_soap_header_element at 1. rewrite H. cbv zeta.
  set (h1 := if _ && _ then _ else h).
  assert (is_element h1 = true) as E1.
  { pose proof (header_element _ _ H) as E. subst h1. destruct (_ && _); [|done]. unfold ws_xml_add_child. now rewrite append_element. }
  assert (wsman_is_identify_request (in_doc op) = false -> has_child (Some h1) XML_NS_ADDRESSING WSA_MESSAGE_ID) as M1.
  { intros Ni. subst h1. rewrite Ni. cbn [negb]. rewrite andb_true_r. case_bool_decide as X; cbn [negb]; [exact X|]. apply added_child. now apply header_element with d. }
  set (h2 := match wsman_get_soap_header_element (in_doc op) _ _ with Some _ => _ | None => h1 end).
  assert (is_element h2 = true /\ (wsman_is_identify_request (in_doc op) = false -> has_child (Some h2) XML_NS_ADDRESSING WSA_MESSAGE_ID)) as [E2 M2].
  { subst h2. destruct (wsman_get_soap_header_element (in_doc op) _ _) as [m|]; [|done]. case_bool_decide; cbn [negb]; [done|].
    unfold ws_xml_add_child at 1. rewrite append_element. split; [done|]. intros Ni. apply kept_child; auto. }
  exists h2. eexists. split; [reflexivity|]. split; [|done]. now apply (header_on_header (fun _ => h2)) with h.
Qed.
Lemma control_filter_ok op d : is_Some (in_doc op) -> out_doc op = Some d -> is_Some (ws_xml_get_soap_header (Some d)) ->
  exists op' d', outbound_control_header_filter content prefix uuid_fault dump_len op = Done (0, op') /\ in_doc op' = in_doc op /\ out_doc op' = Some d' /\
    is_Some (ws_xml_get_soap_header (Some d')) /\
    ((d' = d /\ (u32 (maxsize op) = 0 \/ u32 (dump_len d) <= u32 (maxsize op))) \/ wsman_is_fault_envelope (Some d') = true).
Proof.
  intros I O H. unfold outbound_control_header_filter. rewrite O. destruct (check_envelope_size _ _) eqn:C.
  - destruct (refuse_ok content prefix uuid_fault 0 op WSMAN_ENCODING_LIMIT WSMAN_DETAIL_SERVICE_ENVELOPE_LIMIT eq_refl I) as (op' & -> & I' & F & S).
    destruct (out_doc op') as [d'|] eqn:O'; [|destruct S; done]. exists op', d'. split; [done|]. split; [done|]. split; [done|]. split; [done|]. now right.
  - exists op, d. split; [done|]. split; [done|]. split; [done|]. split; [done|]. left. split; [done|]. unfold check_envelope_size in C.
    destruct (Z.eqb_spec (u32 (maxsize op)) 0); [now left|]. right. apply Z.ltb_ge in C. exact C.
Qed.
(** The filters of the server on the way out. *)
Lemma outbound_ok soap ids op d : initial_filters content prefix uuid_fault uuid_out dump_len = Some soap -> is_Some (in_doc op) -> out_doc op = Some d ->
  is_Some (ws_xml_get_soap_header (Some d)) ->
  exists op' d', process_filters content prefix uuid_fault soap ids op false = Done (0, ids, op') /\ in_doc op' = in_doc op /\ out_doc op' = Some d' /\
    is_Some (ws_xml_get_soap_header (Some d')) /\
    (wsman_is_fault_envelope (Some d') = true \/
     ((wsman_is_identify_request (in_doc op) = false -> has_child (ws_xml_get_soap_header (Some d')) XML_NS_ADDRESSING WSA_MESSAGE_ID) /\
      (u32 (maxsize op) = 0 \/ u32 (dump_len d') <= u32 (maxsize op)))).
Proof.
  intros [= <-] I O [h H]. unfold process_filters. cbn [outboundFilterList default from_option id make_callback_entry app process_filter_chain].
  destruct (addressing_ok op d h O H) as (h1 & d1 & -> & H1 & M). cbn [obind fst snd Z.eqb].
  destruct (control_filter_ok (with_out (Some d1) op) d1 I eq_refl ltac:(eauto)) as (op2 & d2 & -> & I2 & O2 & H2 & C). cbn [obind fst snd Z.eqb negb].
  exists op2, d2. split; [done|]. split; [done|]. split; [done|]. split; [done|]. destruct C as [(-> & C)|C]; [right|now left]. rewrite H1. split; done.
Qed.
End Outbound.

(** What leaves the server: after its outbound filters an answer is a fault, or it has a MessageID (unless
    it answers an Identify) and is no longer than the size that the request allowed, where it set one. *)
Theorem outbound_filters_spec content prefix uuid_fault uuid_out dump_len soap ids op d :
  initial_filters content prefix uuid_fault uuid_out dump_len = Some soap -> is_Some (in_doc op) -> out_doc op = Some d ->
  is_Some (ws_xml_get_soap_header (Some d)) ->
  exists op' d', process_filters content prefix uuid_fault soap ids op false = Done (0, ids, op') /\ out_doc op' = Some d' /\
    (wsman_is_fault_envelope (Some d') = true \/
     ((wsman_is_identify_request (in_doc op) = false -> has_child (ws_xml_get_soap_header (Some d')) XML_NS_ADDRESSING WSA_MESSAGE_ID) /\
      (u32 (maxsize op) = 0 \/ u32 (dump_len d') <= u32 (maxsize op)))).
Proof.
  intros F I O H. destruct (outbound_ok content prefix uuid_fault uuid_out dump_len soap ids op d F I O H) as (op' & d' & E & _ & O' & _ & C).
  exists op', d'. done.
Qed.
Definition demo_len (d : xml) : Z := 40000.
Definition demo_soap : filters := default (Filters None None) (initial_filters demo_content demo_prefix [] [] demo_len).
Lemma outbound_filters_spec_witness : exists op' d',
  process_filters demo_content demo_prefix [] demo_soap None (Op (Some demo_request) (Some (envelope [] [])) 32767 0) false = Done (0, None, op') /\ out_doc op' = Some d' /\
    (wsman_is_fault_envelope (Some d') = true \/
     ((wsman_is_identify_request (Some demo_request) = false -> has_child (ws_xml_get_soap_header (Some d')) XML_NS_ADDRESSING WSA_MESSAGE_ID) /\
      (u32 32767 = 0 \/ u32 (demo_len d') <= u32 32767))).
Proof.
  apply (outbound_filters_spec demo_content demo_prefix [] [] demo_len demo_soap None (Op (Some demo_request) (Some (envelope [] [])) 32767 0) (envelope [] []));
    [reflexivity|eexists; reflexivity|reflexivity|eexists; reflexivity].
Defined.

(** ** Every call has an answer *)

(** What is asked of the procedure of an end point when it is called for the request [doc]: it returns,
    leaves the request alone, and what it answers has a header. *)
Definition well_behaved (doc : xml) (cb : callback) : Prop :=
  forall op, in_doc op = Some doc -> exists r op', cb op = Done (r, op') /\ in_doc op' = in_doc op /\ forall d, out_doc op' = Some d -> is_Some (ws_xml_get_soap_header (Some d)).
(** The choice of an end point for [doc] is defined, and what is chosen, if anything, is well behaved. *)
Definition served_by (get : xml -> outcome (option (option callback))) (doc : xml) : Prop :=
  exists o, get doc = Done o /\ forall cb, o = Some (Some cb) -> well_behaved doc cb.
(** Envelopes of another version of SOAP. *)
Definition version_mismatch (doc : xml) : Prop := exists ns attrs ch, doc = Elem (Some ns) SOAP_ENVELOPE attrs ch /\ ns <> XML_NS_SOAP_1_2.

Section Calls.
Context (content : cstring -> list xml) (prefix : cstring -> option cstring) (uuid_fault uuid_out : cstring) (dump_len : xml -> Z).

(** The fault that an envelope is refused with. *)
Lemma invalid_codes doc : let r := wsman_is_valid_envelope wsman_status_init doc in
  r.2 = wsman_status_init \/ (known (st_code r.2) = true /\ wsman_fault_occured r.2 = true) \/ (st_code r.2 = SOAP_FAULT_VERSION_MISMATCH /\ version_mismatch doc).
Proof.
  unfold wsman_is_valid_envelope. cbv zeta.
  destruct (streq SOAP_ENVELOPE _) eqn:En; cbn [negb]; [|right; left; done]. apply streq_true in En.
  destruct (ws_xml_get_node_name_ns (Some doc)) as [ns|] eqn:Ens; [|right; left; done].
  destruct (streq ns XML_NS_SOAP_1_2) eqn:E2; cbn [negb].
  2:{ right. right. split; [done|]. apply streq_false in E2. destruct doc as [n name a ch| |]; [|done|done].
      cbn [ws_xml_get_node_local_name ws_xml_get_node_name_ns default from_option] in En, Ens. unfold id in En. subst n name. now exists ns, a, ch. }
  destruct (ws_xml_get_soap_body (Some doc)); [|right; left; done].
  destruct (ws_xml_get_soap_header (Some doc)); [|right; left; done].
  destruct (_ && _); [|now left].
  do 4 (destruct (ws_xml_get_child _ _ _ _); [|right; left; done]). now left.
Qed.
Lemma valid_no_mismatch doc : (wsman_is_valid_envelope wsman_status_init doc).2 = wsman_status_init -> ~ version_mismatch doc.
Proof.
  unfold wsman_is_valid_envelope. cbv zeta. intros E (ns & attrs & ch & -> & N). revert E. cbn [ws_xml_get_node_local_name ws_xml_get_node_name_ns default from_option].
  unfold id. rewrite streq_refl. cbn [negb]. rewrite (proj2 (streq_false ns XML_NS_SOAP_1_2) N). done.
Qed.
Lemma known_no_mismatch doc : known (st_code (wsman_is_valid_envelope wsman_status_init doc).2) = true -> ~ version_mismatch doc.
Proof.
  unfold wsman_is_valid_envelope. cbv zeta. intros E (ns & attrs & ch & -> & N). revert E. cbn [ws_xml_get_node_local_name ws_xml_get_node_name_ns default from_option].
  unfold id. rewrite streq_refl. cbn [negb]. rewrite (proj2 (streq_false ns XML_NS_SOAP_1_2) N). vm_compute. discriminate.
Qed.
(** The last step: a fault in the status is sent. *)
Lemma create_fault_ok msg i : exists msg', dispatcher_create_fault content prefix uuid_fault msg i = Done msg' /\
  (wsman_fault_occured (status msg) = true -> known (st_code (status msg)) = true -> is_Some (response msg')) /\
  (wsman_fault_occured (status msg) = false -> msg' = msg) /\
  (known (st_code (status msg)) = false -> response msg' = response msg) /\ (is_Some (response msg) -> is_Some (response msg')).
Proof.
  unfold dispatcher_create_fault. destruct (wsman_fault_occured (status msg)) eqn:F; [|exists msg; done].
  destruct (generate_doc_done content prefix uuid_fault i (st_code (status msg)) (st_detail (status msg)) (st_msg (status msg))) as (o & -> & K & _). cbn [obind].
  eexists. split; [reflexivity|]. cbn [response]. split; [|split; [done|split]].
  - intros _ Kn. apply K in Kn as [d ->]. eauto.
  - intros Kn. destruct o; [|done]. enough (known (st_code (status msg)) = true) by congruence. apply K. eauto.
  - intros R. destruct o; [eauto|done].
Qed.
Lemma fault_of_status msg c d : st_code (status msg) = WSMAN_RC_OK -> status (fault_of msg c d) = Status c d (st_msg (status msg)).
Proof. intros E. unfold fault_of, wsman_set_fault, wsman_fault_occured. cbn [status]. now rewrite E. Qed.

Lemma fragment_ok i doc : is_Some (ws_xml_get_soap_header (Some doc)) -> exists d, wsman_add_fragement_for_header content i doc = Done d.
Proof. intros [h H]. unfold wsman_add_fragement_for_header. destruct (ws_xml_get_child _ _ _ _); [rewrite H|]; eauto. Qed.
(** An operation leaves a document to send, or a fault with a row in the table. *)
Lemma operation_ok soap cb ids op msg : initial_filters content prefix uuid_fault uuid_out dump_len = Some soap -> (forall doc f, in_doc op = Some doc -> cb = Some f -> well_behaved doc f) ->
  is_Some (in_doc op) -> timeout_defined op -> status msg = wsman_status_init ->
  exists r msg' ids', process_inbound_operation content prefix uuid_fault soap cb ids op msg = Done (r, msg', ids') /\
    (is_Some (response msg') \/ (wsman_fault_occured (status msg') = true /\ known (st_code (status msg')) = true)).
Proof.
  intros F W I T St. unfold process_inbound_operation.
  assert (forall (h : Z) c d, known c = true -> c <> WSMAN_RC_OK -> let m := fault_of (Msg (status msg) (msg_flags msg) h (response msg)) c d in
    is_Some (response m) \/ (wsman_fault_occured (status m) = true /\ known (st_code (status m)) = true)) as Bad.
  { intros h c d K N m. right. subst m. rewrite fault_of_status by (cbn; now rewrite St). split; [|done]. unfold wsman_fault_occured. cbn. now rewrite bool_decide_false. }
  destruct cb as [cb|]; [|do 3 eexists; split; [reflexivity|now apply Bad]].
  assert (inboundFilterList soap = None) as Fi by (now injection F as <-).
  unfold process_filters at 1. rewrite Fi. cbn [default from_option process_filter_chain obind fst snd Z.eqb negb].
  assert (timeout_defined (with_out None op)) as T' by exact T.
  destruct (inbound_checks_ok content prefix uuid_fault ids (with_out None op) I T') as (r & ids1 & op1 & -> & I1 & _ & Fl). cbn [obind fst snd].
  destruct (Z.eqb_spec r 0) as [->|N]; cbn [negb].
  - destruct I as [doc Id]. destruct (W doc cb Id eq_refl op1) as (rv & op2 & -> & I2 & H2); [now rewrite I1|]. cbn [obind]. destruct (out_doc op2) as [d|] eqn:O; [|do 3 eexists; split; [reflexivity|now apply Bad]].
    assert (is_Some (in_doc op2)) as I2' by (rewrite I2, I1; cbn; rewrite Id; eauto).
    destruct (outbound_ok content prefix uuid_fault uuid_out dump_len soap ids1 op2 d F I2' O (H2 d eq_refl)) as (op3 & d3 & -> & I3 & O3 & H3 & _).
    cbn [obind]. rewrite O3. destruct (wsman_is_fault_envelope (Some d3)); [do 3 eexists; split; [reflexivity|left; cbn; eauto]|].
    destruct (fragment_ok (in_doc op3) d3 H3) as [d4 ->]. cbn [obind]. do 3 eexists. split; [reflexivity|]. left. cbn. eauto.
  - destruct (Fl N) as [Ef _]. destruct (out_doc op1) as [d|]; [|done]. do 3 eexists. split; [reflexivity|]. left. cbn. eauto.
Qed.
End Calls.

Lemma obind_obind {A B D : Type} (m : outcome A) (k : A -> outcome B) (h : B -> outcome D) :
  obind (obind m k) h = obind m (fun a => obind (k a) h).
Proof. now destruct m. Qed.
(** [admitted] is what [dispatch_inbound_call] does: the procedure that it gives is called, and what comes
    of it depends on the other procedures no more; where it gives none, none is called. *)
Lemma dispatch_admitted {C} content prefix uuid_fault soap (get : xml -> outcome (option (option C))) parsed ids msg :
  status msg = wsman_status_init -> msg_flags msg = 0 ->
  let call f := dispatch_inbound_call content prefix uuid_fault soap (with_procedures f get) parsed ids msg in
  match admitted content prefix uuid_fault soap get parsed ids with
  | Done (Some (c, op), ids1) => exists k, forall f, call f = let* r := f c op in k r
  | Done (None, ids1) => exists x, forall f, call f = x
  | _ => forall f, exists e, call f = e /\ forall v, e <> Done v
  end.
Proof.
  intros St Fl call. subst call. unfold admitted, dispatch_inbound_call. rewrite St, Fl.
  destruct (wsman_build_inbound_envelope parsed 0 wsman_status_init) as [[[doc|] fl] st]; cbn [status msg_flags http_code response]; [|by eexists].
  destruct (wsman_fault_occured st); [by eexists|]. unfold with_procedures.
  destruct (get doc) as [[[c|]|]| | |]; cbn [obind option_map]; try by eexists.
  unfold process_inbound_operation.
  assert (with_out None (Op (Some doc) None 0 0) = Op (Some doc) None 0 0) as -> by reflexivity.
  destruct (process_filters content prefix uuid_fault soap ids (Op (Some doc) None 0 0) true) as [[[stop ids1] op]| | |]; cbn [obind]; try by eexists.
  destruct (stop =? 0); cbn [negb]; [|eexists; intros f; reflexivity].
  eexists. intros f. apply obind_obind.
Qed.

(** Every call has an answer; see the theorem below. *)
Lemma call_answered content prefix uuid_fault uuid_out dump_len soap get parsed ids msg :
  initial_filters content prefix uuid_fault uuid_out dump_len = Some soap ->
  (forall doc, parsed = Some doc -> (wsman_is_valid_envelope wsman_status_init doc).2 = wsman_status_init ->
    served_by get doc /\ timeout_defined (Op (Some doc) None 0 0)) ->
  status msg = wsman_status_init -> response msg = None ->
  exists msg' ids', dispatch_inbound_call content prefix uuid_fault soap get parsed ids msg = Done (msg', ids') /\
    (response msg' = None <-> exists doc, parsed = Some doc /\ version_mismatch doc).
Proof.
  intros F GT St R. unfold dispatch_inbound_call, wsman_build_inbound_envelope. destruct parsed as [doc|].
  2:{ set (m := Msg _ _ _ _). destruct (create_fault_ok content prefix uuid_fault m None) as (msg' & -> & K & _). do 2 eexists. split; [reflexivity|].
      assert (is_Some (response msg')) as [d Kd] by (apply K; subst m; cbn; now rewrite St). rewrite Kd. split; [done|]. now intros (? & ? & _). }
  rewrite St. set (st := (wsman_is_valid_envelope wsman_status_init doc).2).
  assert ((exists d, Some doc = Some d /\ version_mismatch d) <-> version_mismatch doc) as V.
  { split; [now intros (? & [= <-] & ?)|]. intros H. eauto. }
  cbv zeta. cbn [status msg_flags http_code response].
  assert (forall m ids, is_Some (response m) \/ (wsman_fault_occured (status m) = true /\ known (st_code (status m)) = true) -> ~ version_mismatch doc ->
    exists msg' ids', (let* m := dispatcher_create_fault content prefix uuid_fault m (Some doc) in Done (m, ids)) = Done (msg', ids' : option (list cstring)) /\
      (response msg' = None <-> exists d, Some doc = Some d /\ version_mismatch d)) as Good.
  { intros m ids2 H N. destruct (create_fault_ok content prefix uuid_fault m (Some doc)) as (msg' & -> & K1 & _ & _ & K2). do 2 eexists. split; [reflexivity|].
    rewrite V. split; [|tauto]. intros E. exfalso.
    assert (is_Some (response msg')) as [? ?] by (destruct H as [H|[H1 H2]]; auto). congruence. }
  pose proof (invalid_codes doc) as IC. cbv zeta in IC. fold st in IC. destruct IC as [E|[[E1 E2]|[E1 E2]]].
  - pose proof (valid_no_mismatch doc E) as Nv. rewrite E. change (wsman_fault_occured wsman_status_init) with false. cbv iota.
    destruct (GT doc eq_refl E) as [(o & -> & W) T]. cbn [obind]. destruct o as [cb|].
    + set (m := Msg _ _ _ _).
      destruct (operation_ok content prefix uuid_fault uuid_out dump_len soap cb ids (Op (Some doc) None 0 0) m F) as (r & m' & ids' & -> & H).
      * intros d f [= <-] ->. now apply W.
      * cbn. eauto.
      * exact T.
      * done.
      * cbn [obind]. now apply Good.
    + apply Good; [|done]. right. rewrite fault_of_status by done. split; reflexivity.
  - rewrite E2. pose proof (known_no_mismatch doc E1). apply Good; [|done]. right. cbn [status]. done.
  - assert (wsman_fault_occured st = true) as -> by (unfold wsman_fault_occured; rewrite E1; reflexivity).
    set (m := Msg _ _ _ _). destruct (create_fault_ok content prefix uuid_fault m (Some doc)) as (msg' & -> & _ & _ & K & _). do 2 eexists. split; [reflexivity|].
    rewrite K by (subst m; cbn [status]; rewrite E1; reflexivity). subst m. cbn [response]. rewrite R, V. split; [done|done].
Qed.
(** C4. Every call of the dispatcher has an answer, with the filters that the server installs: a document is
    sent back, the answer of the end point or a fault, both when the bytes were no document, when the envelope is
    not valid, when no end point is chosen, when a check refuses the request, and when the end point gives
    nothing back; and nothing is sent only, and always, for an Envelope of another SOAP version, for whose fault
    there is no row in the table. For a valid envelope this supposes that the choice of the end point for this
    document is defined (it is not when an identifier is shorter than five characters), that the end point that is
    chosen returns when it is called for this document, leaves the request alone and answers with a document that
    has a header, if it answers at all (it need not: an Enumerate with an unreadable Expires does not return), and
    that its OperationTimeout, if any, can be computed. *)
Theorem every_call_answered content prefix uuid_fault uuid_out dump_len soap get parsed ids msg :
  initial_filters content prefix uuid_fault uuid_out dump_len = Some soap ->
  (forall doc, parsed = Some doc -> (wsman_is_valid_envelope wsman_status_init doc).2 = wsman_status_init ->
    served_by get doc /\ timeout_defined (Op (Some doc) None 0 0)) ->
  status msg = wsman_status_init -> response msg = None ->
  exists msg' ids', dispatch_inbound_call content prefix uuid_fault soap get parsed ids msg = Done (msg', ids') /\
    (response msg' = None <-> exists doc, parsed = Some doc /\ version_mismatch doc).
Proof. exact (call_answered content prefix uuid_fault uuid_out dump_len soap get parsed ids msg). Qed.
(** A server whose end point answers with an empty envelope. *)
Definition demo_endpoint : callback := fun op => Done (0, with_out (Some (envelope [] [])) op).
Lemma every_call_answered_witness : exists msg' ids',
  dispatch_inbound_call demo_content demo_prefix [] demo_soap (fun _ => Done (Some (Some demo_endpoint))) (Some demo_request) None (Msg wsman_status_init 0 0 None) = Done (msg', ids') /\
    (response msg' = None <-> exists doc, Some demo_request = Some doc /\ version_mismatch doc).
Proof.
  apply (every_call_answered demo_content demo_prefix [] [] demo_len demo_soap (fun _ => Done (Some (Some demo_endpoint))) (Some demo_request)); try reflexivity.
  intros doc [= <-] _. split; [|intros c E; discriminate E].
  eexists. split; [reflexivity|]. intros cb [= <-] op _. do 2 eexists. split; [reflexivity|]. split; [reflexivity|]. intros d [= <-]. eexists. reflexivity.
Defined.
(** The answer to an old version of SOAP: an HTTP status and nothing else. *)
Example old_soap : exists msg ids, dispatch_inbound_call demo_content demo_prefix [] demo_soap (fun _ => Done None)
  (Some (Elem (Some XML_NS_SOAP_1_1) SOAP_ENVELOPE [] [])) None (Msg wsman_status_init 0 0 None) = Done (msg, ids) /\ http_code msg = 500 /\ response msg = None.
Proof. eexists _, _. split; [vm_compute; reflexivity|]. split; reflexivity. Qed.
(** Two requests with the same id: the second is a fault with the status of its Value. *)
Example replay : exists msg, (let* r := dispatch_inbound_call demo_content demo_prefix [] demo_soap (fun _ => Done (Some (Some demo_endpoint))) (Some demo_request) None (Msg wsman_status_init 0 0 None) in
  let* r := dispatch_inbound_call demo_content demo_prefix [] demo_soap (fun _ => Done (Some (Some demo_endpoint))) (Some demo_request) r.2 (Msg wsman_status_init 0 0 None) in Done r.1) = Done msg /\
  http_code msg = 400 /\ wsman_is_fault_envelope (response msg) = true.
Proof. eexists. split; [vm_compute; reflexivity|]. split; vm_compute; reflexivity. Qed.

End Dispatcher.
