(* ===== verification/Subscribe.v ===== *)
(** * Subscribe: the subscriptions of the SOAP server (lib/wsman-soap.c, lib/wsman-soap-envelope.c,
    lib/wsman-subscription-repository.c, lib/wsman-server.c)

    A Subscribe request leaves a [WsSubscribeInfo] behind, in the list [subscriptionMemList] and in
    a repository on disk; Unsubscribe and Renew requests find it there; events wait for it in the
    pool, from where the notification manager hands them to threads that send them, and a client
    can pull them; a timer makes heartbeats; the manager takes ended subscriptions out.  The store
    maps addresses to infos, so a pointer that outlives its info is [Undef], and so is unlocking a
    lock that is not held.

    Requests are given by the values the code reads out of their XML, and so are the answers of the
    XML library, of the plug-ins and of the event sinks. *)
From S2P Require Import Prelude CString HttpText Faults WsTime Uri EventPool Xml Dispatcher.
Import Faults WsTime Uri EventPool.

Module Subscribe.

Definition WSMAN_SUBSCRIBEINFO_UNSUBSCRIBE : Z := 0x01.
Definition WSMAN_SUBSCRIBEINFO_BOOKMARK_DEFAULT : Z := 0x04.
Definition WSMAN_SUBSCRIPTION_CQL : Z := 0x10.
Definition WSMAN_SUBSCRIPTION_WQL : Z := 0x20.
Definition WSMAN_SUBSCRIPTION_SELECTORSET : Z := 0x40.
Definition WSMAN_SUBSCRIPTION_NOTIFICAITON_PENDING : Z := 0x80.
Definition WSMAN_SUBSCRIPTION_CANCELLED : Z := 0x100.
Definition WSE_NOTIFICATION_EVENTS_PENDING : Z := 4.
(** The values of [deliveryMode]: 1 to 4. *)
Inductive delivery_mode := PUSH | PUSHWITHACK | EVENTS | PULL.
#[global] Instance delivery_mode_dec : EqDecision delivery_mode.
Proof. solve_decision. Defined.

(** ** What is read out of a Subscribe request *)
(** A token of the IssuedTokens header: the address it applies to, its type, and the parts of it; the
    outer [option] is the element, the inner one its text. *)
Record token := Token {
  t_applies : option (option cstring); t_type : option cstring; t_username : option (option cstring);
  t_password : option (option cstring); t_thumbprint : option (option cstring) }.
Record delivery := Delivery {
  d_mode : option cstring; d_encoding : option (option cstring); d_locale : option cstring;
  d_heartbeats : option (option cstring); d_notify_to : option (option cstring); d_profile : option cstring }.
(** [b_filter]: the dialects of wsman:Filter and wse:Filter. *)
Record subscribe_body := Body {
  b_sendbookmarks : bool; b_bookmark : option (option cstring); b_expires : option (option cstring);
  b_delivery : delivery; b_filter : option cstring * option cstring }.
(** [q_existing]: the header names an existing filter; [q_username], [q_password]: the credentials of the
    HTTP request; [q_former]: the FormerUID header. *)
Record subscribe_request := SubReq {
  q_uri : option cstring; q_ns : option cstring; q_body : option subscribe_body; q_tokens : list token;
  q_existing : bool; q_username : option cstring; q_password : option cstring; q_former : option (option cstring) }.

(** ** Infos *)
Section Subs.
(** [N]: notifications; [Poll], [Cancel]: pointers to functions of plug-ins. *)
Context {N Poll Cancel : Type}.

(** The fields that stay as they were made, and those that change; [locked] is [notificationlock]. *)
Record sub_fixed := Fixed {
  subsId : list ascii; uri : cstring; soapNs : cstring; epr_notifyto : option cstring; username : option cstring;
  password : option cstring; certificate_thumbprint : option cstring; locale : option cstring;
  contentEncoding : option cstring; deliveryMode : delivery_mode; deliveryAuthType : Z; heartbeatInterval : Z;
  bookmarkDoc : bool; bookmarksFlag : bool; filter_dialect : option cstring; auth_username : option cstring;
  auth_password : option cstring; eventpoll : option Poll; cancel : option Cancel }.
(* src: src/CIM_Framework/openwsman/include/wsman-soap.h 304-337 __WsSubscribeInfo *)
Record WsSubscribeInfo := SubInfo {
  fixed : sub_fixed; flags : Z; heartbeatCountdown : Z; expires : Z; eventSentLastTime : bool; locked : bool }.
Definition with_flags (f : Z) (i : WsSubscribeInfo) : WsSubscribeInfo :=
  SubInfo (fixed i) f (heartbeatCountdown i) (expires i) (eventSentLastTime i) (locked i).
Definition with_countdown (c : Z) (i : WsSubscribeInfo) : WsSubscribeInfo :=
  SubInfo (fixed i) (flags i) c (expires i) (eventSentLastTime i) (locked i).
Definition with_expires (e : Z) (i : WsSubscribeInfo) : WsSubscribeInfo :=
  SubInfo (fixed i) (flags i) (heartbeatCountdown i) e (eventSentLastTime i) (locked i).
Definition with_sent (b : bool) (i : WsSubscribeInfo) : WsSubscribeInfo :=
  SubInfo (fixed i) (flags i) (heartbeatCountdown i) (expires i) b (locked i).
Definition with_locked (b : bool) (i : WsSubscribeInfo) : WsSubscribeInfo :=
  SubInfo (fixed i) (flags i) (heartbeatCountdown i) (expires i) (eventSentLastTime i) b.
Definition has_flag (i : WsSubscribeInfo) (f : Z) : bool := negb (Z.land (flags i) f =? 0).
(** The string in an array; one without a terminator is read past its end. *)
Definition array_string (a : list ascii) : outcome cstring := if bool_decide (NUL ∈ a) then Done (c_string a) else Undef.

(** ** The making of an info *)
(** A step that may end in a fault. *)
Definition FM (A : Type) : Type := outcome (A + WsmanFaultCodeType * WsmanFaultDetailType).
Definition fret {A} (a : A) : FM A := Done (inl a).
Definition fault {A} (c : WsmanFaultCodeType) (d : WsmanFaultDetailType) : FM A := Done (inr (c, d)).
Definition flift {A} (o : outcome A) : FM A := let* a := o in Done (inl a).
Definition fbind {A B} (m : FM A) (k : A -> FM B) : FM B :=
  let* x := m in match x with inl a => k a | inr f => Done (inr f) end.
Notation "'let?' x := m 'in' k" := (fbind m (fun x => k)) (at level 10, x pattern, m at level 100, k at level 200).

Definition same_text (a : cstring) (b : string) : bool := same_id a (lit b).
(* src: lib/wsman-soap.c 1678-1698 create_subs_info *)
Definition read_mode (mode : option cstring) : delivery_mode :=
  match mode with
  | Some m =>
      if same_text m "http://schemas.xmlsoap.org/ws/2004/08/eventing/DeliveryModes/Push" then PUSH
      else if same_text m "http://schemas.dmtf.org/wbem/wsman/1/wsman/PushWithAck" then PUSHWITHACK
      else if same_text m "http://schemas.dmtf.org/wbem/wsman/1/wsman/Events" then EVENTS
      else PULL
  | None => PUSH
  end.
(** The security profiles, in the order in which they are compared. *)
(* src: src/CIM_Framework/openwsman/include/wsman-names.h 426-445 WSMAN_SECURITY_PROFILE *)
Definition profiles : list (string * Z) := [
  ("http/basic", 1); ("http/digest", 2); ("https/basic", 3); ("https/digest", 4); ("https/mutual", 5);
  ("https/mutual/basic", 6); ("https/mutual/digest", 7); ("https/spnego-kerberos", 8);
  ("https/mutual/spnego-kerberos", 9); ("http/spnego-kerberos", 10)]%string.
(* src: lib/wsman-soap.c 1749-1778 create_subs_info *)
Definition read_profile (profile : option cstring) : FM Z :=
  match profile with
  | None => fret 0
  | Some p =>
      match find (fun '(n, _) => same_text p ("http://schemas.dmtf.org/wbem/wsman/1/wsman/secprofile/" ++ n)) profiles with
      | Some (_, ty) => fret ty
      | None => fault WSMAN_INVALID_OPTIONS WSMAN_DETAIL_AUTHERIZATION_MODE
      end
  end.
(** [u_strdup] of the text of an element that is there. *)
Definition dup_text (t : option (option cstring)) : FM (option cstring) :=
  match t with None => fret None | Some t => let? x := flift (deref t) in fret (Some x) end.
(** The interval between heartbeats, in milliseconds. *)
(* src: lib/wsman-soap.c 1710-1724 create_subs_info *)
Definition read_heartbeats (h : option (option cstring)) : FM Z :=
  match h with
  | None => fret 0
  | Some str =>
      let? t := flift (deref str) in
      if bool_decide (HttpText.peek t = "P"%char) then
        let? d := flift (ws_deserialize_duration (Some t)) in
        match d with
        | None => fault WSEN_INVALID_EXPIRATION_TIME WSMAN_DETAIL_OK
        | Some timeout => if (timeout * 1000 <? - 2 ^ 63) || (2 ^ 63 <=? timeout * 1000) then flift Undef else fret (u64 (timeout * 1000))
        end
      else fret 0
  end.
(** The address of the event sink. *)
(* src: lib/wsman-soap.c 1726-1748 create_subs_info *)
Definition read_sink (notify_to : option (option cstring)) : FM cstring :=
  match notify_to with
  | Some (Some ((_ :: _) as str)) =>
      let? b := flift (destination_reachable str) in
      if (b : bool) then fret str else fault WSMAN_EVENT_DELIVER_TO_UNUSABLE WSMAN_DETAIL_OK
  | _ => fault WSE_INVALID_MESSAGE WSMAN_DETAIL_OK
  end.
Record credentials := Creds { c_username : option cstring; c_password : option cstring; c_thumbprint : option cstring }.
(** One token: [epr] is the address of the event sink. *)
(* src: lib/wsman-soap-envelope.c 690-770 wsman_parse_credentials *)
Definition check_token (epr : option cstring) (c : credentials) (t : token) : FM credentials :=
  let? _ := match t_applies t with
    | None => fret tt
    | Some None => fault WSMAN_INVALID_PARAMETER WSMAN_DETAIL_INVALID_ADDRESS
    | Some (Some text) =>
        let? e := flift (deref epr) in
        if strcmp text e =? 0 then fret tt else fault WSMAN_INVALID_PARAMETER WSMAN_DETAIL_INVALID_ADDRESS
    end in
  match t_type t with
  | None => fault WSMAN_INVALID_OPTIONS WST_DETAIL_UNSUPPORTED_TOKENTYPE
  | Some ty =>
      if strcmp ty (lit "http://docs.oasis-open.org/wss/2004/01/oasis-200401-wss-username-token-profile-1.0#UsernameToken") =? 0 then
        fret (Creds (default (c_username c) (t_username t)) (default (c_password c) (t_password t)) (c_thumbprint c))
      else if strcmp ty (lit "http://schemas.dmtf.org/wbem/wsman/1/wsman/token/certificateThumbprint") =? 0 then
        fret (Creds (c_username c) (c_password c) (default (c_thumbprint c) (t_thumbprint t)))
      else fault WSMAN_INVALID_OPTIONS WST_DETAIL_UNSUPPORTED_TOKENTYPE
  end.
(* src: lib/wsman-soap-envelope.c 678-774 wsman_parse_credentials *)
Fixpoint check_credentials (epr : option cstring) (c : credentials) (l : list token) : FM credentials :=
  match l with [] => fret c | t :: l => let? c := check_token epr c t in check_credentials epr c l end.
(** The flag of the filter, and its dialect. *)
(* src: lib/wsman-soap-envelope.c 777-831 wsman_parse_event_request *)
Definition check_event_request (filters : option cstring * option cstring) (existing : bool) : FM (Z * option cstring) :=
  match filters with
  | (Some _, Some _) => fault WSE_INVALID_MESSAGE WSMAN_DETAIL_OK
  | (Some f, None) | (None, Some f) =>
      if strcmp f (lit "http://schemas.dmtf.org/wbem/cql/1/dsp0202.pdf") =? 0 then fret (WSMAN_SUBSCRIPTION_CQL, Some f)
      else if strcmp f (lit "http://schemas.microsoft.com/wbem/wsman/1/WQL") =? 0 then fret (WSMAN_SUBSCRIPTION_WQL, Some f)
      else fault WSE_FILTERING_NOT_SUPPORTED WSMAN_DETAIL_OK
  | (None, None) =>
      if existing then fret (WSMAN_SUBSCRIPTION_SELECTORSET, None) else fault WSE_FILTERING_NOT_SUPPORTED WSMAN_DETAIL_OK
  end.
(** [strncpy] into the array of the id, which is zero. *)
Definition copy_id (text : cstring) : list ascii := take (Z.to_nat EUIDLEN) (text ++ repeat NUL (Z.to_nat EUIDLEN)).
(** [generate_uuid] leaves [e_uuid] in the array; [e_alloc], [e_mutex]: whether the info can be
    allocated and its lock made; [e_response], [e_dump], [e_disk], [e_node]: whether the envelope of the
    response, the text of the request, the file of the repository and the node of the list could be. *)
Record env := Env { e_now : Z; e_isdst : Z; e_uuid : cstring; e_alloc : bool; e_mutex : bool;
  e_response : bool; e_dump : bool; e_disk : bool; e_node : bool }.

Section Zone.
Context (mktime : tm -> Z).
(* src: lib/wsman-soap.c 1661-1677 create_subs_info *)
Definition read_expires (e : env) (x : option (option cstring)) : FM Z :=
  match x with
  | None => fret 0
  | Some text =>
      let? r := flift (wsman_set_expiretime mktime (e_isdst e) (e_now e) text 0) in
      if negb (bool_decide (r.2 = WSMAN_RC_OK)) then fault r.2 WSMAN_DETAIL_OK
      else if time_expired (e_now e) r.1 then fault WSE_INVALID_EXPIRATION_TIME WSMAN_DETAIL_OK
      else fret r.1
  end.
(* src: lib/wsman-soap.c 1628-1802 create_subs_info *)
Definition make_info (e : env) (q : subscribe_request) : FM WsSubscribeInfo :=
  if negb (e_alloc e) || negb (e_mutex e) then fault WSMAN_INTERNAL_ERROR WSMAN_DETAIL_OK else
  let? uri := flift (deref (q_uri q)) in
  match q_body q with
  | None => fault WSE_INVALID_MESSAGE WSMAN_DETAIL_OK
  | Some b =>
      let? ns := flift (deref (q_ns q)) in
      let default_mark := match b_bookmark b with
        | Some (Some m) => strcmp m (lit "http://schemas.dmtf.org/wbem/wsman/1/wsman/bookmark/earliest") =? 0
        | _ => false end in
      let? exp := read_expires e (b_expires b) in
      let d := b_delivery b in
      let mode := read_mode (d_mode d) in
      let? enc := dup_text (d_encoding d) in
      let? beat := read_heartbeats (d_heartbeats d) in
      let? (sink, auth) := if bool_decide (mode = PULL) then fret (None, 0) else
        let? s := read_sink (d_notify_to d) in let? a := read_profile (d_profile d) in fret (Some s, a) in
      let? c := check_credentials sink (Creds None None None) (q_tokens q) in
      let? (fl, dia) := check_event_request (b_filter b) (q_existing q) in
      let? (au, ap) := match q_username q with
        | Some u => let? w := flift (deref (q_password q)) in fret (Some u, Some w)
        | None => fret (None, None) end in
      let id := copy_id (match q_former q with Some (Some t) => t | _ => e_uuid e end) in
      fret (SubInfo (Fixed id uri ns sink (c_username c) (c_password c) (c_thumbprint c) (d_locale d) enc mode auth beat
          (bool_decide (is_Some (b_bookmark b)) && negb default_mark) (b_sendbookmarks b) dia au ap None None)
        (Z.lor (if default_mark then WSMAN_SUBSCRIBEINFO_BOOKMARK_DEFAULT else 0) fl) (if beat <? 2 ^ 63 then beat else beat - 2 ^ 64)
        exp false false)
  end.
(** The document of a fault, or the info. *)
(* src: lib/wsman-soap.c 1604-1814 create_subs_info *)
Definition create_subs_info (e : env) (q : subscribe_request) : outcome (option FaultDoc * option WsSubscribeInfo) :=
  let* r := make_info e q in
  match r with
  | inl i => Done (None, Some i)
  | inr (c, d) => let* f := wsman_generate_fault c d None in Done (f, None)
  end.
End Zone.

(** ** The repository (lib/wsman-subscription-repository.c) *)
(** A directory of documents by file name, once it has been initialised.  [disk]: whether a file can be
    opened for writing. *)
Record repo := Repo { r_init : bool; r_files : gmap cstring subscribe_request }.
(** [uuid:%s] *)
Definition file_name (uuid : cstring) : cstring := lit "uuid:" ++ uuid.
(* src: lib/wsman-subscription-repository.c 79-84 LocalSubscriptionOpInit *)
Definition LocalSubscriptionOpInit (r : repo) : Z * repo := (0, Repo true (r_files r)).
(* src: lib/wsman-subscription-repository.c 86-89 LocalSubscriptionOpFinalize *)
Definition LocalSubscriptionOpFinalize (r : repo) : Z := if r_init r then 0 else -1.
(* src: lib/wsman-subscription-repository.c 91-134 LocalSubscriptionOpGet *)
Definition LocalSubscriptionOpGet (uuid : cstring) (r : repo) : Z * option subscribe_request :=
  if negb (r_init r) then (-1, None) else
  match r_files r !! file_name uuid with None => (-1, None) | Some d => (0, Some d) end.
(* src: lib/wsman-subscription-repository.c 136-152 LocalSubscriptionOpSearch *)
Definition LocalSubscriptionOpSearch (uuid : cstring) (r : repo) : Z :=
  if negb (r_init r) then -1 else match r_files r !! file_name uuid with None => -1 | Some _ => 0 end.
(* src: lib/wsman-subscription-repository.c 224-240 LocalSubscriptionOpSave *)
Definition LocalSubscriptionOpSave (disk : bool) (uuid : cstring) (d : subscribe_request) (r : repo) : Z * repo :=
  if negb (r_init r) then (-1, r) else if negb disk then (-1, r) else (0, Repo (r_init r) (<[file_name uuid := d]> (r_files r))).
(** The text of the Expires element is replaced, when the document has one. *)
Definition set_expires_text (d : subscribe_request) (expire : cstring) : subscribe_request :=
  SubReq (q_uri d) (q_ns d)
    (match q_body d with
     | Some b => Some (Body (b_sendbookmarks b) (b_bookmark b) (match b_expires b with Some _ => Some (Some expire) | None => None end)
         (b_delivery b) (b_filter b))
     | None => None end)
    (q_tokens d) (q_existing d) (q_username d) (q_password d) (q_former d).
(* src: lib/wsman-subscription-repository.c 242-271 LocalSubscriptionOpUpdate *)
Definition LocalSubscriptionOpUpdate (disk : bool) (uuid expire : cstring) (r : repo) : Z * repo :=
  if negb (r_init r) then (-1, r) else
  match r_files r !! file_name uuid with
  | None => (0, r)
  | Some d => if negb disk then (-1, r) else (0, Repo (r_init r) (<[file_name uuid := set_expires_text d expire]> (r_files r)))
  end.
(* src: lib/wsman-subscription-repository.c 273-284 LocalSubscriptionOpDelete *)
Definition LocalSubscriptionOpDelete (uuid : cstring) (r : repo) : Z * repo :=
  if negb (r_init r) then (-1, r) else (0, Repo (r_init r) (delete (file_name uuid) (r_files r))).

(** ** The server *)
(** A thread that is to send: events, or, with [None], a heartbeat. *)
Record thread := Thread { t_sub : positive; t_events : option (list N) }.
(** What leaves the server: messages for a sink, and calls of cancel functions. *)
Inductive sending := Sent (id : cstring) (events : option (list N)) | Cancelled (c : Cancel) (id : cstring).
(** [repository]: [subscriptionOpSet], which may be NULL. *)
Record server := Server {
  subscriptionMemList : list positive; infos : gmap positive WsSubscribeInfo; events : pool N;
  repository : option repo; senders : list thread; sendings : list sending }.
Definition set_list l (s : server) := Server l (infos s) (events s) (repository s) (senders s) (sendings s).
Definition set_infos m (s : server) := Server (subscriptionMemList s) m (events s) (repository s) (senders s) (sendings s).
Definition set_events p (s : server) := Server (subscriptionMemList s) (infos s) p (repository s) (senders s) (sendings s).
Definition set_repository r (s : server) := Server (subscriptionMemList s) (infos s) (events s) r (senders s) (sendings s).
Definition set_senders l (s : server) := Server (subscriptionMemList s) (infos s) (events s) (repository s) l (sendings s).
Definition set_sendings l (s : server) := Server (subscriptionMemList s) (infos s) (events s) (repository s) (senders s) l.

Definition get_info (p : positive) : CM server WsSubscribeInfo := fun s =>
  match infos s !! p with Some i => Done (i, s) | None => Undef end.
Definition put_info (p : positive) (i : WsSubscribeInfo) : CM server unit :=
  _ ← get_info p; mmod (fun s => set_infos (<[p := i]> (infos s)) s).
Definition upd_info (p : positive) (f : WsSubscribeInfo -> WsSubscribeInfo) : CM server unit :=
  i ← get_info p; put_info p (f i).
(** [notificationlock]: taking it while it is held waits for ever here. *)
Definition lock (p : positive) : CM server unit := i ← get_info p; if locked i then mdiverge else put_info p (with_locked true i).
Definition unlock (p : positive) : CM server unit := i ← get_info p; if locked i then put_info p (with_locked false i) else mundef.
Definition id_of (p : positive) : CM server cstring := i ← get_info p; mlift (array_string (subsId (fixed i))).
Definition on_repository (f : repo -> Z * repo) : CM server unit := mmod (fun s =>
  match repository s with Some r => set_repository (Some (f r).2) s | None => s end).
Definition on_events {A} (f : pool N -> A * pool N) : CM server A := fun s => let (a, pl) := f (events s) in Done (a, set_events pl s).
(* src: lib/wsman-soap.c 1547-1569 destroy_subsinfo *)
Definition destroy_subsinfo (p : positive) : CM server unit :=
  _ ← get_info p; mmod (fun s => set_infos (delete p (infos s)) s).

(** End points of plug-ins, as for enumerations. *)
Definition endpoint : Type := WsSubscribeInfo -> Z * WsSubscribeInfo * WsmanStatus.
Definition call_endpoint (ep : option endpoint) (p : positive) : CM server (Z * WsmanStatus) :=
  match ep with
  | None => mret (0, Status WSMAN_RC_OK WSMAN_DETAIL_OK None)
  | Some f => i ← get_info p; let '(ret, i', st) := f i in put_info p i';; mret (ret, st)
  end.
Inductive response :=
  | RFault (f : FaultDoc)
  | RSubscribe (id : cstring) (expires : option (option cstring)) (pull : bool)
  | RUnsubscribe
  | RRenew (expires : option cstring)
  | REvents (id : cstring) (l : list N).
Definition refuse (c : WsmanFaultCodeType) (d : WsmanFaultDetailType) (m : option cstring) : CM server (option response) :=
  f ← mlift (wsman_generate_fault c d m); mret (RFault <$> f).

Section Handlers.
Context (mktime : tm -> Z) (localtime : Z -> tm).
(** The text that is saved: the request with its expiry as a date, and with the id.  The credentials of
    the HTTP request are no part of it. *)
(* src: lib/wsman-soap.c 1867-1878 wse_subscribe_stub *)
Definition saved_request (q : subscribe_request) (expire id : cstring) : subscribe_request :=
  let d := set_expires_text q expire in
  SubReq (q_uri d) (q_ns d) (q_body d) (q_tokens d) (q_existing d) None None
    (match q_former d with None => Some (Some id) | Some f => Some f end).
(** [*expiresstr]: the text that the Expires element had. *)
Definition expires_text (q : subscribe_request) : option cstring :=
  match q_body q with Some b => match b_expires b with Some t => t | None => None end | None => None end.
(** The first part: the info is made, shown to the plug-in and saved; the list is not touched.  What is
    returned is the answer, when the request ends here, or else the info that is to be entered in the list, and
    whether there is a repository. *)
(* src: lib/wsman-soap.c 1851-1884 wse_subscribe_stub *)
Definition subscribe_prepare (e : env) (ep : option endpoint) (q : subscribe_request) : CM server (Z * option response + positive * bool) :=
  '(doc, subsInfo) ← mlift (create_subs_info mktime e q);
  match doc with
  | Some f => mret (inl (0, Some (RFault f)))
  | None =>
      match subsInfo with
      | None => mundef
      | Some i =>
          p ← mget (fun s => fresh (dom (infos s)));
          mmod (fun s => set_infos (<[p := i]> (infos s)) s);;
          '(retVal, st) ← call_endpoint ep p;
          if negb (retVal =? 0) then
            r ← refuse (st_code st) (st_detail st) (st_msg st); destroy_subsinfo p;; mret (inl (retVal, r))
          else if negb (e_response e) then mret (inl (retVal, None)) else
          i ← get_info p;
          id ← id_of p;
          let str := wsman_expiretime2xmldatetime localtime (expires i) in
          saved ← mget (fun s => bool_decide (is_Some (repository s)));
          (if (saved : bool) && e_dump e then on_repository (LocalSubscriptionOpSave (e_disk e) id (saved_request q str id)) else mret tt);;
          if e_node e then mret (inr (p, saved)) else mundef
      end
  end.
(** The second part, with [lockSubs] held. *)
(* src: lib/wsman-soap.c 1885-1887 wse_subscribe_stub *)
Definition subscribe_append (p : positive) : CM server unit := mmod (fun s => set_list (subscriptionMemList s ++ [p]) s).
(** The third part reads the info again for the answer. *)
(* src: lib/wsman-soap.c 1888-1917 wse_subscribe_stub *)
Definition subscribe_answer (q : subscribe_request) (saved : bool) (p : positive) : CM server (Z * option response) :=
  i ← get_info p;
  id ← id_of p;
  mret (0, Some (RSubscribe id
    (if expires i =? 0 then None else Some (if saved then expires_text q else None))
    (bool_decide (deliveryMode (fixed i) = PULL)))).
(* src: lib/wsman-soap.c 1824-1929 wse_subscribe_stub *)
Definition wse_subscribe_stub (e : env) (ep : option endpoint) (q : subscribe_request) : CM server (Z * option response) :=
  r ← subscribe_prepare e ep q;
  match r with
  | inl v => mret v
  | inr (p, saved) => subscribe_append p;; subscribe_answer q saved p
  end.

(** The search for an id, behind [uuid:] of the text. *)
(* src: lib/wsman-soap.c 1976-1984 wse_unsubscribe_stub *)
Fixpoint search (uuid : option cstring) (l : list positive) : CM server (option positive) :=
  match l with
  | [] => mret None
  | p :: l =>
      id ← id_of p;
      u ← mlift (deref uuid);
      if (5 <=? length u)%nat then if same_id id (drop 5 u) then mret (Some p) else search uuid l else mundef
  end.
(** What is done with the info that was found, when the list is no longer locked: the call of the plug-in,
    and, unless it refuses, the setting of the flag under the lock of the info. *)
(* src: lib/wsman-soap.c 1994-1998 wse_unsubscribe_stub *)
Definition unsubscribe_call (e : env) (ep : option endpoint) (p : positive) : CM server (option (Z * option response)) :=
  '(retVal, st) ← call_endpoint ep p;
  if negb (retVal =? 0) then r ← refuse (st_code st) (st_detail st) (st_msg st); mret (Some (retVal, r)) else mret None.
(* src: lib/wsman-soap.c 1999-2005 wse_unsubscribe_stub *)
Definition unsubscribe_mark (e : env) (p : positive) : CM server (Z * option response) :=
  lock p;;
  upd_info p (fun i => with_flags (Z.lor (flags i) WSMAN_SUBSCRIBEINFO_UNSUBSCRIBE) i);;
  unlock p;;
  mret (0, if e_response e then Some RUnsubscribe else None).
(* src: lib/wsman-soap.c 1993-2005 wse_unsubscribe_stub *)
Definition unsubscribe_found (e : env) (ep : option endpoint) (p : positive) : CM server (Z * option response) :=
  o ← unsubscribe_call e ep p;
  match o with Some v => mret v | None => unsubscribe_mark e p end.
(** [identifier]: the Identifier header and its text. *)
(* src: lib/wsman-soap.c 1941-2014 wse_unsubscribe_stub *)
Definition wse_unsubscribe_stub (e : env) (ep : option endpoint) (identifier : option (option cstring)) : CM server (Z * option response) :=
  match identifier with
  | None => mret (0, None)
  | Some uuid =>
      t ← (fun s => search uuid (subscriptionMemList s) s);
      match t with
      | None => r ← refuse WSMAN_INVALID_PARAMETER WSMAN_DETAIL_INVALID_VALUE None; mret (0, r)
      | Some p => unsubscribe_found e ep p
      end
  end.
(** [text]: that of the Expires element.  The time is set under the lock of the info; what follows is done
    without it, but for an error lets it go once more. *)
(* src: lib/wsman-soap.c 2081-2084 wse_renew_stub *)
Definition renew_time (e : env) (text : option cstring) (p : positive) : CM server WsmanFaultCodeType :=
  lock p;;
  i ← get_info p;
  '(exp, code) ← mlift (wsman_set_expiretime mktime (e_isdst e) (e_now e) text (expires i));
  put_info p (with_expires exp i);;
  unlock p;;
  mret code.
(* src: lib/wsman-soap.c 2085-2111 wse_renew_stub *)
Definition renew_rest (e : env) (ep : option endpoint) (uuid : cstring) (text : option cstring) (code : WsmanFaultCodeType) (p : positive) :
    CM server (Z * option response) :=
  if negb (bool_decide (code = WSMAN_RC_OK)) then unlock p;; mret (0, None) else
  i ← get_info p;
  let str := wsman_expiretime2xmldatetime localtime (expires i) in
  on_repository (LocalSubscriptionOpUpdate (e_disk e) (drop 5 uuid) str);;
  '(retVal, st) ← call_endpoint ep p;
  if negb (retVal =? 0) then
    r ← refuse (st_code st) (st_detail st) (st_msg st); unlock p;; mret (retVal, r)
  else mret (retVal, if e_response e then Some (RRenew text) else None).
(* src: lib/wsman-soap.c 2078-2111 wse_renew_stub *)
Definition renew_found (e : env) (ep : option endpoint) (uuid : cstring) (text : option cstring) (p : positive) : CM server (Z * option response) :=
  code ← renew_time e text p; renew_rest e ep uuid text code p.
(* src: lib/wsman-soap.c 2024-2118 wse_renew_stub *)
Definition wse_renew_stub (e : env) (ep : option endpoint) (identifier : option cstring) (text : option cstring) : CM server (Z * option response) :=
  match identifier with
  | None => r ← refuse WSE_INVALID_MESSAGE WSMAN_DETAIL_MISSING_VALUES None; mret (0, r)
  | Some uuid =>
      t ← (fun s => search (Some uuid) (subscriptionMemList s) s);
      match t with
      | None => r ← refuse WSE_UNABLE_TO_RENEW WSMAN_DETAIL_OK None; mret (0, r)
      | Some p => renew_found e ep uuid text p
      end
  end.

(** ** Pulling events *)
(** The comparison here is of the letters as they are. *)
(* src: lib/wsman-soap.c 187-219 search_pull_subs_info *)
Fixpoint search_pull (uuid : cstring) (l : list positive) : CM server (option positive) :=
  match l with
  | [] => mret None
  | p :: l =>
      id ← id_of p;
      if (5 <=? length uuid)%nat then if strcmp id (drop 5 uuid) =? 0 then mret (Some p) else search_pull uuid l else mundef
  end.
Definition search_pull_subs_info (uuid : option cstring) : CM server (option positive) :=
  match uuid with None => mret None | Some u => fun s => search_pull u (subscriptionMemList s) s end.
Definition remove_event (id : cstring) : CM server (option N) :=
  on_events (fun p => let '(_, x, p) := MemEventPoolGetAndDeleteEvent id p in (x, p)).
(** At most [n] events. *)
(* src: lib/wsman-soap.c 1409-1419 wsenum_pull_direct_stub *)
Fixpoint take_events (n : nat) (id : cstring) : CM server (list N) :=
  match n with
  | O => mret []
  | S n =>
      x ← remove_event id;
      match x with
      | None => mret []
      | Some ev => l ← take_events n id; mret (ev :: l)
      end
  end.
(** [max_elements]: the MaxElements header and its text. *)
(* src: lib/wsman-soap.c 1379-1425 wsenum_pull_direct_stub *)
Definition pull_events (p : positive) (max_elements : option (option cstring)) : CM server (option response) :=
  lock p;;
  id ← id_of p;
  count ← mget (fun s => MemEventPoolCount id (events s));
  r ← (if 0 <? count then
    n ← mlift (match max_elements with None => Done 1 | Some t => let* t := deref t in Done (atoi t) end);
    l ← take_events (Z.to_nat n) id; mret (Some (REvents id l))
  else refuse WSMAN_TIMED_OUT WSMAN_DETAIL_OK None);
  unlock p;; mret r.

(** ** Heartbeats, senders and the manager *)
(** [creates p]: whether a thread for [p] can be made. *)
Context (creates : positive -> bool).
(* src: lib/wsman-soap.c 2421-2430 wse_notification_manager *)
Definition start_thread (p : positive) (events : option (list N)) : CM server unit :=
  if creates p then
    mmod (fun s => set_senders (senders s ++ [Thread p events]) s);;
    upd_info p (fun i => with_flags (Z.lor (flags i) WSMAN_SUBSCRIPTION_NOTIFICAITON_PENDING) i)
  else mret tt.
Definition pending (i : WsSubscribeInfo) : bool := has_flag i WSMAN_SUBSCRIPTION_NOTIFICAITON_PENDING.
(** The interval as it is stored in the signed countdown. *)
Definition interval (i : WsSubscribeInfo) : Z :=
  let h := heartbeatInterval (fixed i) in if h <? 2 ^ 63 then h else h - 2 ^ 64.
(* src: lib/wsman-soap.c 2142-2177 wsman_heartbeat_generator *)
Definition heartbeat_turn (now : Z) (p : positive) : CM server unit :=
  lock p;;
  i ← get_info p;
  (if has_flag i WSMAN_SUBSCRIBEINFO_UNSUBSCRIBE then mret tt
   else if time_expired now (expires i) then mret tt
   else if (heartbeatInterval (fixed i) =? 0) || bool_decide (deliveryMode (fixed i) = PULL) then mret tt
   else
     let c := heartbeatCountdown i - 1000 in
     if c <? - 2 ^ 63 then mundef else
     put_info p (with_countdown c i);;
     if 0 <? c then mret tt
     else
       (if eventSentLastTime i then upd_info p (with_sent false)
        else if negb (pending i) then start_thread p None else mret tt);;
       upd_info p (with_countdown (interval i)));;
  unlock p.
(* src: lib/wsman-soap.c 2139-2179 wsman_heartbeat_generator *)
Fixpoint heartbeat_loop (now : Z) (l : list positive) : CM server unit :=
  match l with [] => mret tt | p :: l => heartbeat_turn now p;; heartbeat_loop now l end.
(* src: lib/wsman-soap.c 2121-2181 wsman_heartbeat_generator *)
Definition wsman_heartbeat_generator (now : Z) : CM server unit := fun s => heartbeat_loop now (subscriptionMemList s) s.

(** The envelope that a sink answers with: whether it has a header, the text of its RelatesTo element,
    that of its Action. *)
Record ack := Ack { a_header : bool; a_relates : option (option cstring); a_action : option cstring }.
Definition WSE_NOTIFICATION_NOACK : Z := 3.
(* src: lib/wsman-soap.c 2235-2257 wse_send_notification *)
Definition wse_send_notification (message_id : cstring) (acked : bool) (reply : option ack) : outcome Z :=
  if negb acked then Done 0 else
  match reply with
  | None => Done WSE_NOTIFICATION_NOACK
  | Some a =>
      match (if a_header a then a_relates a else None) with
      | None => Done WSE_NOTIFICATION_NOACK
      | Some t =>
          let* t := deref t in
          if same_id message_id t then
            let* x := deref (a_action a) in
            Done (if same_text x "http://schemas.dmtf.org/wbem/wsman/1/wsman/Ack" then 0 else WSE_NOTIFICATION_NOACK)
          else Done WSE_NOTIFICATION_NOACK
      end
  end.
Definition wants_ack (i : WsSubscribeInfo) : bool :=
  bool_decide (deliveryMode (fixed i) = EVENTS) || bool_decide (deliveryMode (fixed i) = PUSHWITHACK).
(** The thread at place [k]; it holds the lock of its info from its first to its last access. *)
(* src: lib/wsman-soap.c 2263-2303 wse_event_sender *)
Definition wse_event_sender (now : Z) (message_id : cstring) (reply : option ack) (k : nat) : CM server unit :=
  t ← (fun s => mlift (deref (senders s !! k)) s);
  let p := t_sub t in
  lock p;;
  (if t_events t then upd_info p (with_sent true) else mret tt);;
  i ← get_info p;
  (if negb (has_flag i WSMAN_SUBSCRIBEINFO_UNSUBSCRIBE) && negb (time_expired now (expires i)) then
     id ← id_of p;
     mmod (fun s => set_sendings (sendings s ++ [Sent id (t_events t)]) s);;
     r ← mlift (wse_send_notification message_id (wants_ack i) reply);
     if r =? WSE_NOTIFICATION_NOACK then upd_info p (fun i => with_flags (Z.lor (flags i) WSMAN_SUBSCRIPTION_CANCELLED) i) else mret tt
   else mret tt);;
  upd_info p (fun i => with_flags (Z.land (flags i) (Z.lnot WSMAN_SUBSCRIPTION_NOTIFICAITON_PENDING)) i);;
  unlock p;;
  mmod (fun s => set_senders (delete k (senders s)) s).

(** The events of one message in the mode [EVENTS]. *)
(* src: lib/wsman-soap.c 2392-2407 wse_notification_manager *)
Fixpoint all_events (fuel : nat) (id : cstring) (n : N) : CM server (list N) :=
  match fuel with
  | O => mdiverge
  | S fuel => x ← remove_event id; match x with None => mret [n] | Some m => l ← all_events fuel id m; mret (n :: l) end
  end.
(** The events of a message that starts with [n]. *)
(* src: lib/wsman-soap.c 2387-2418 wse_notification_manager *)
Definition message_events (i : WsSubscribeInfo) (id : cstring) (n : N) : CM server (list N) := fun s =>
  if bool_decide (deliveryMode (fixed i) = EVENTS) then all_events (S (length (queue (events s) id))) id n s else Done ([n], s).
(** [poll]: the plug-ins' functions that put events into the pool. *)
Context (poll : Poll -> WsSubscribeInfo -> pool N -> Z * pool N).
Definition ended (now : Z) (i : WsSubscribeInfo) : bool :=
  has_flag i WSMAN_SUBSCRIBEINFO_UNSUBSCRIBE || has_flag i WSMAN_SUBSCRIPTION_CANCELLED || time_expired now (expires i).
(* src: lib/wsman-soap.c 2353-2368 wse_notification_manager *)
Definition take_out (p : positive) : CM server unit :=
  i ← get_info p;
  id ← id_of p;
  mmod (fun s => set_list (filter (fun q => q <> p) (subscriptionMemList s)) s);;
  r ← mget repository;
  (if (r : option repo) then on_repository (LocalSubscriptionOpDelete id) else mundef);;
  on_events (fun p => (tt, (MemEventPoolClearEvent id p).2));;
  match cancel (fixed i) with
  | Some c => if has_flag i WSMAN_SUBSCRIBEINFO_UNSUBSCRIBE then mret tt else mmod (fun s => set_sendings (sendings s ++ [Cancelled c id]) s)
  | None => mret tt
  end;;
  destroy_subsinfo p.
(** Whether the turn goes on after the poll. *)
(* src: lib/wsman-soap.c 2370-2375 wse_notification_manager *)
Definition poll_events (p : positive) : CM server bool :=
  i ← get_info p;
  match eventpoll (fixed i) with
  | None => mret true
  | Some f => ret ← on_events (poll f i); mret (negb (ret =? WSE_NOTIFICATION_EVENTS_PENDING))
  end.
(* src: lib/wsman-soap.c 2370-2432 wse_notification_manager *)
Definition hand_out (p : positive) : CM server unit :=
  b ← poll_events p;
  i ← get_info p;
  if negb b || bool_decide (deliveryMode (fixed i) = PULL) then mret tt else
  id ← id_of p;
  x ← remove_event id;
  match x with
  | None => mret tt
  | Some n =>
      l ← message_events i id n;
      if pending i then mret tt else start_thread p (Some l)
  end.
(* src: lib/wsman-soap.c 2346-2435 wse_notification_manager *)
Definition manager_turn (now : Z) (p : positive) : CM server unit :=
  lock p;;
  i ← get_info p;
  if ended now i && negb (pending i) then take_out p else hand_out p;; unlock p.
(* src: lib/wsman-soap.c 2344-2437 wse_notification_manager *)
Fixpoint manager_loop (now : Z) (l : list positive) : CM server unit :=
  match l with [] => mret tt | p :: l => manager_turn now p;; manager_loop now l end.
(* src: lib/wsman-soap.c 2315-2440 wse_notification_manager *)
Definition wse_notification_manager (now : Z) : CM server unit := fun s => manager_loop now (subscriptionMemList s) s.

(** ** The start of the server *)
(** The names of the entries that are read: those that have [uuid] in them and are as long as [uuid:] and an id. *)
(* src: lib/wsman-subscription-repository.c 175-178 LocalSubscriptionOpLoad *)
Definition is_saved (name : cstring) : bool := bool_decide (is_Some (strstr name (lit "uuid"))) && (41 <=? length name)%nat.
(** [names]: all the names in the directory, in the order in which [scandir] sorts them. *)
(* src: lib/wsman-subscription-repository.c 154-222 LocalSubscriptionOpLoad *)
Definition LocalSubscriptionOpLoad (names : list cstring) (r : repo) : Z * list (cstring * subscribe_request) :=
  if negb (r_init r) then (-1, []) else
  (fix go (l : list cstring) := match l with
   | [] => (0, [])
   | name :: l =>
       if negb (is_saved name) then go l else
       match r_files r !! name with
       | None => (-1, [])
       | Some d => let (ret, l') := go l in (ret, (name, d) :: l')
       end
   end) (reverse names).
(** Whether the entry has been deleted. *)
(* src: lib/wsman-server.c 162-192 wsman_clean_subsrepository *)
Definition wsman_clean_subsrepository (e : env) (name : cstring) (d : subscribe_request) : CM server bool :=
  let del := on_repository (LocalSubscriptionOpDelete (drop 5 name)) in
  match q_body d ≫= b_expires with
  | None => del;; mret true
  | Some text =>
      '(expire, code) ← mlift (wsman_set_expiretime mktime (e_isdst e) (e_now e) text 0);
      if bool_decide (code = WSMAN_RC_OK) && time_expired (e_now e) expire then del;; mret true else mret false
  end.
Definition with_id (id : list ascii) (i : WsSubscribeInfo) : WsSubscribeInfo :=
  let x := fixed i in
  SubInfo (Fixed id (uri x) (soapNs x) (epr_notifyto x) (username x) (password x) (certificate_thumbprint x) (locale x)
      (contentEncoding x) (deliveryMode x) (deliveryAuthType x) (heartbeatInterval x) (bookmarkDoc x) (bookmarksFlag x)
      (filter_dialect x) (auth_username x) (auth_password x) (eventpoll x) (cancel x))
    (flags i) (heartbeatCountdown i) (expires i) (eventSentLastTime i) (locked i).
(** The dispatcher that a saved document is given to at the start: what it is made of, what it says of a
    document (the entry of a Subscribe and its end point), and the document that the XML library reads out of
    a file. *)
Record start_dispatcher := StartDispatcher {
  sd_content : cstring -> list Xml.Xml.xml; sd_prefix : cstring -> option cstring; sd_uuid : cstring;
  sd_filters : Dispatcher.Dispatcher.filters; sd_entry : Xml.Xml.xml -> outcome (option (option (option endpoint)));
  sd_document : cstring -> option Xml.Xml.xml }.
(** The end point with which the handler above is called for the file, if it is called. *)
Definition dispatched (D : start_dispatcher) (name : cstring) (ids : option (list cstring)) : outcome (option (option endpoint) * option (list cstring)) :=
  let* (called, ids) := Dispatcher.Dispatcher.admitted (sd_content D) (sd_prefix D) (sd_uuid D) (sd_filters D) (sd_entry D) (sd_document D name) ids in
  Done (fst <$> called, ids).
(** [ids]: the ids of the messages that were dispatched before. *)
(* src: lib/wsman-server.c 194-209 wsman_repos_notification_dispatcher *)
Definition wsman_repos_notification_dispatcher (D : start_dispatcher) (e : env) (name : cstring) (d : subscribe_request) (subsNum : nat)
    (ids : option (list cstring)) : CM server (option (list cstring)) :=
  '(called, ids) ← mlift (dispatched D name ids);
  (match called with Some ep => wse_subscribe_stub e ep d;; mret tt | None => mret tt end);;
  l ← mget subscriptionMemList;
  (if (subsNum <? length l)%nat then
    match last l with
    | Some p => upd_info p (with_id (copy_id (drop 5 name)))
    | None => mundef
    end
  else mret tt);;
  mret ids.
(* src: lib/wsman-server-api.c 174-187 wsman_event_init *)
Fixpoint load_loop (D : start_dispatcher) (envs : cstring -> env) (l : list (cstring * subscribe_request)) (ids : option (list cstring)) : CM server unit :=
  match l with
  | [] => mret tt
  | (name, d) :: l =>
      gone ← wsman_clean_subsrepository (envs name) name d;
      ids ← (if (gone : bool) then mret ids else
         num ← mget (fun s => length (subscriptionMemList s)); wsman_repos_notification_dispatcher D (envs name) name d num ids);
      load_loop D envs l ids
  end.
(** [uri]: whether a directory is configured; [files]: the documents in it. *)
(* src: lib/wsman-server-api.c 164-190 wsman_event_init *)
Definition wsman_event_init (D : start_dispatcher) (envs : cstring -> env) (uri : bool) (names : list cstring) (files : gmap cstring subscribe_request) : CM server unit :=
  let r := if uri then (LocalSubscriptionOpInit (Repo false files)).2 else Repo false files in
  mmod (set_repository (Some r));;
  (let (ret, l) := LocalSubscriptionOpLoad names r in if ret =? 0 then load_loop D envs l None else mret tt);;
  mmod (fun s => set_events (MemEventPoolInit None (events s)).2 s).
End Handlers.
End Subs.
End Subscribe.
