(* ===== verification/SubscribeSafe.v ===== *)
(** * SubscribeSafe: what the threads of the eventing server keep to

    The requests, the notification manager, the timer of the heartbeats and the threads that send
    work on the same infos.  [good] holds between their steps; each pass of the manager and of the timer
    is given as what it does to every subscription. *)
From S2P Require Import Prelude CString HttpText Faults WsTime Uri EventPool Subscribe.
Import HttpText Faults WsTime Uri EventPool Subscribe.

Module SubscribeSafe.

Section Safe.
Context {N Poll Cancel : Type}.
Local Abbreviation info := (@WsSubscribeInfo Poll Cancel).
Local Abbreviation server := (@server N Poll Cancel).
Implicit Types (s : server) (i : info) (p : positive).

Definition sub_id i : cstring := c_string (subsId (fixed i)).
Definition put p i s : server := set_infos (<[p := i]> (infos s)) s.

(** ** Steps on one info *)
Lemma get_sub_eq s p i : infos s !! p = Some i -> get_info p s = Done (i, s).
Proof. intros E. unfold get_info. now rewrite E. Qed.
Lemma put_sub_eq s p i i' : infos s !! p = Some i -> put_info p i' s = Done (tt, put p i' s).
Proof. intros E. unfold put_info. now step (get_sub_eq _ _ _ E). Qed.
Lemma upd_info_eq s p i f : infos s !! p = Some i -> upd_info p f s = Done (tt, put p (f i) s).
Proof. intros E. unfold upd_info. step (get_sub_eq _ _ _ E). eapply put_sub_eq, E. Qed.
Lemma lock_eq s p i : infos s !! p = Some i -> locked i = false -> lock p s = Done (tt, put p (with_locked true i) s).
Proof. intros E L. unfold lock. step (get_sub_eq _ _ _ E). rewrite L. eapply put_sub_eq, E. Qed.
Lemma unlock_eq s p i : infos s !! p = Some i -> locked i = true -> unlock p s = Done (tt, put p (with_locked false i) s).
Proof. intros E L. unfold unlock. step (get_sub_eq _ _ _ E). rewrite L. eapply put_sub_eq, E. Qed.
Lemma id_of_eq s p i : infos s !! p = Some i -> NUL ∈ subsId (fixed i) -> id_of p s = Done (sub_id i, s).
Proof. intros E L. unfold id_of. step (get_sub_eq _ _ _ E). unfold mlift, array_string. now rewrite bool_decide_true. Qed.
Lemma put_here p i s : infos (put p i s) !! p = Some i.
Proof. apply lookup_insert_eq. Qed.
Lemma put_put p i i' s : put p i' (put p i s) = put p i' s.
Proof. unfold put, set_infos. cbn. now rewrite insert_insert_eq. Qed.
Lemma put_same p i s : infos s !! p = Some i -> put p i s = s.
Proof. intros E. unfold put. rewrite insert_id by done. now destruct s. Qed.
Lemma relock (b c : bool) i : with_locked b (with_locked c i) = with_locked b i.
Proof. done. Qed.
Lemma unlocked i : locked i = false -> with_locked false i = i.
Proof. destruct i. cbn. now intros ->. Qed.


Definition marked i : info := with_flags (Z.lor (flags i) WSMAN_SUBSCRIPTION_NOTIFICAITON_PENDING) i.
Definition id_ok i : Prop := NUL ∈ subsId (fixed i) /\ Z.of_nat (length (sub_id i)) < EUIDLEN.
(** ** What holds between the steps of the threads *)
Definition beat_ok i : Prop := - 2 ^ 63 + 1000 <= heartbeatCountdown i /\ - 2 ^ 63 + 1000 <= interval i.
Record info_ok i : Prop := InfoOk { ok_locked : locked i = false; ok_id : id_ok i; ok_beat : beat_ok i }.
(** Every entry of the list is an info, and none is there twice; threads work for infos of the list, no
    two for the same one, and the flag tells whether there is one. *)
Record good s : Prop := Good {
  g_nodup : NoDup (subscriptionMemList s);
  g_list p : p ∈ subscriptionMemList s -> is_Some (infos s !! p);
  g_info p i : p ∈ subscriptionMemList s -> infos s !! p = Some i -> info_ok i;
  g_once : NoDup (map t_sub (senders s));
  g_alive p : p ∈ map t_sub (senders s) -> p ∈ subscriptionMemList s;
  g_pending p i : p ∈ subscriptionMemList s -> infos s !! p = Some i -> pending i = true <-> p ∈ map t_sub (senders s);
  g_pool : pool_ok (events s);
  g_repo : is_Some (repository s) }.

Lemma flag_lor i f g : 0 < g -> has_flag (with_flags (Z.lor (flags i) f) i) g = has_flag i g || negb (Z.land f g =? 0).
Proof.
  intros G. unfold has_flag. cbn [flags with_flags]. rewrite Z.land_lor_distr_l.
  destruct (Z.eqb_spec (Z.lor (Z.land (flags i) g) (Z.land f g)) 0) as [E|E].
  - apply Z.lor_eq_0_iff in E as [-> ->]. done.
  - destruct (Z.eqb_spec (Z.land (flags i) g) 0) as [E1|], (Z.eqb_spec (Z.land f g) 0) as [E2|]; try done. now rewrite E1, E2 in E.
Qed.
Lemma pending_marked i : pending (marked i) = true.
Proof. unfold pending, marked. rewrite flag_lor by done. apply orb_true_r. Qed.
Lemma info_ok_flags i f : info_ok i -> info_ok (with_flags f i).
Proof. intros []. now constructor. Qed.

(** An info that keeps its flag is put in the place of itself. *)
Lemma good_put s p i i' : good s -> infos s !! p = Some i -> info_ok i' -> pending i' = pending i -> good (put p i' s).
Proof.
  intros [G1 G2 G3 G4 G5 G6 G7 G8] E K P. constructor; cbn; try done; intros q.
  - intros Hq. destruct (decide (q = p)) as [->|]; [now rewrite lookup_insert_eq|rewrite lookup_insert_ne by done; auto].
  - intros j Hq. destruct (decide (q = p)) as [->|]; [rewrite lookup_insert_eq; intros [= <-]; done|rewrite lookup_insert_ne by done; now apply G3].
  - intros j Hq. destruct (decide (q = p)) as [->|]; [rewrite lookup_insert_eq; intros [= <-]; rewrite P; now apply G6|
      rewrite lookup_insert_ne by done; now apply G6].
Qed.
Lemma good_events s pl : good s -> pool_ok pl -> good (set_events pl s).
Proof. intros [] K. now constructor. Qed.
Lemma good_start s p i ev : good s -> p ∈ subscriptionMemList s -> infos s !! p = Some i -> pending i = false ->
  good (set_senders (senders s ++ [Thread p ev]) (put p (marked i) s)).
Proof.
  intros [G1 G2 G3 G4 G5 G6 G7 G8] Lp E P. assert (Np : p ∉ map t_sub (senders s)) by (rewrite <- (G6 p i Lp E); congruence).
  assert (T : forall q, q ∈ map t_sub (senders s ++ [Thread p ev]) <-> q ∈ map t_sub (senders s) \/ q = p).
  { intros q. rewrite map_app, elem_of_app. cbn [map t_sub]. now rewrite list_elem_of_singleton. }
  constructor; cbn; try done.
  - intros q Hq. destruct (decide (q = p)) as [->|]; [now rewrite lookup_insert_eq|rewrite lookup_insert_ne by done; auto].
  - intros q j Hq. destruct (decide (q = p)) as [->|]; [rewrite lookup_insert_eq; intros [= <-]; apply info_ok_flags; eauto|
      rewrite lookup_insert_ne by done; now apply G3].
  - rewrite map_app. apply NoDup_app. split; [done|]. split; [|apply NoDup_singleton]. intros q Hq ->%list_elem_of_singleton. done.
  - intros q Hq. apply T in Hq as [Hq| ->]; [auto|done].
  - intros q j Hq. rewrite T. destruct (decide (q = p)) as [->|].
    + rewrite lookup_insert_eq. intros [= <-]. rewrite pending_marked. intuition.
    + rewrite lookup_insert_ne by done. intros Hj. rewrite (G6 q j Hq Hj). intuition.
Qed.
Lemma good_gone s p i pl r sd : good s -> p ∈ subscriptionMemList s -> infos s !! p = Some i -> pending i = false -> pool_ok pl ->
  good (Server (filter (fun q => q <> p) (subscriptionMemList s)) (delete p (infos s)) pl (Some r) (senders s) sd).
Proof.
  intros [G1 G2 G3 G4 G5 G6 G7 G8] Lp E P K. assert (Np : p ∉ map t_sub (senders s)) by (rewrite <- (G6 p i Lp E); congruence).
  constructor; cbn; try done.
  - now apply NoDup_filter.
  - intros q [Nq Hq]%list_elem_of_filter. rewrite lookup_delete_ne by done. auto.
  - intros q j [Nq Hq]%list_elem_of_filter. rewrite lookup_delete_ne by done. now apply G3.
  - intros q Hq. apply list_elem_of_filter. split; [congruence|auto].
  - intros q j [Nq Hq]%list_elem_of_filter. rewrite lookup_delete_ne by done. now apply G6.
Qed.

Definition at_info {A} s p (f : info -> list A) : list A := match infos s !! p with Some i => f i | None => [] end.
Lemma filter_all {A} (P : A -> Prop) `{!forall x, Decision (P x)} (l : list A) : (forall x, P x) -> filter P l = l.
Proof. intros Hp. induction l as [|x l IH]; [done|]. rewrite filter_cons_True by done. now rewrite IH. Qed.
Lemma flat_map_in {A B} (f g : A -> list B) l : (forall x, x ∈ l -> f x = g x) -> flat_map f l = flat_map g l.
Proof. induction l as [|x l IH]; intros H; [done|]. cbn. rewrite H, IH; [done|..]; intros; try apply H; set_solver. Qed.
Lemma at_some {A} s p i (f : info -> list A) : infos s !! p = Some i -> at_info s p f = f i.
Proof. intros E. unfold at_info. now rewrite E. Qed.
(** Only the queue of one subscription has changed. *)
Definition queue_only (pl : pool N) (id : cstring) (q : list N) (pl' : pool N) : Prop := pool_ok pl' /\ holds pl id q pl'.

Lemma holds_here (pl pl' : pool N) id q : holds pl id q pl' -> queue pl' id = q.
Proof. intros [_ H]. now rewrite H, bool_decide_true. Qed.
Lemma holds_trans (pl pl1 pl2 : pool N) id q q' : holds pl id q pl1 -> holds pl1 id q' pl2 -> holds pl id q' pl2.
Proof.
  intros [M H] [M' H']. split; [congruence|]. intros x. rewrite H', H. now destruct (bool_decide _).
Qed.
Lemma holds_refl (pl : pool N) id : holds pl id (queue pl id) pl.
Proof.
  split; [done|]. intros x. destruct (bool_decide_reflect (lower x = lower id)) as [E|]; [|done]. unfold queue.
  assert (F : forall l, find_entry (N := N) x l = find_entry id l); [|now rewrite F].
  induction l as [|e l IH]; [done|]. cbn [find_entry]. unfold same_id. now rewrite E, IH.
Qed.
(** ** One turn of the manager *)
(** What a plug-in's poll does: it sees the events that wait for its subscription, and changes no others. *)
Definition poll_law (poll : Poll -> info -> pool N -> Z * pool N) (source : Poll -> info -> list N -> Z * list N) : Prop :=
  forall f i pl, pool_ok pl -> let r := source f i (queue pl (sub_id i)) in
    (poll f i pl).1 = r.1 /\ pool_ok (poll f i pl).2 /\ holds pl (sub_id i) r.2 (poll f i pl).2.
Section Manager.
Context (creates : positive -> bool) (poll : Poll -> info -> pool N -> Z * pool N) (source : Poll -> info -> list N -> Z * list N).
Context (law : poll_law poll source).

Definition polled i (q : list N) : Z * list N := match eventpoll (fixed i) with None => (0, q) | Some f => source f i q end.
(** The events that are taken out of the queue in a turn. *)
Definition handed i (q : list N) : list N :=
  if (polled i q).1 =? WSE_NOTIFICATION_EVENTS_PENDING then [] else
  match deliveryMode (fixed i) with PULL => [] | EVENTS => (polled i q).2 | _ => take 1 (polled i q).2 end.
Definition kept i (q : list N) : list N := drop (length (handed i q)) (polled i q).2.
(** The thread that is made for them. *)
Definition new_thread p i (q : list N) : list (@thread N) :=
  match handed i q with [] => [] | l => if negb (pending i) && creates p then [Thread p (Some l)] else [] end.
Lemma remove_event_eq s id : pool_ok (events s) -> Z.of_nat (length id) < EUIDLEN ->
  match queue (events s) id with
  | [] => remove_event id s = Done (None, s)
  | n :: q => exists pl, remove_event id s = Done (Some n, set_events pl s) /\ queue_only (events s) id q pl
  end.
Proof.
  intros K L. pose proof (pool_remove_ok (events s) id K L) as R. unfold remove_event, on_events.
  destruct (queue (events s) id) as [|n q].
  - rewrite R. now destruct s.
  - destruct R as (pl & E & H). exists pl. now rewrite E.
Qed.
Lemma all_events_eq id q : Z.of_nat (length id) < EUIDLEN -> forall n fuel s, (length q < fuel)%nat -> pool_ok (events s) ->
  queue (events s) id = q -> exists pl, all_events fuel id n s = Done (n :: q, set_events pl s) /\ queue_only (events s) id [] pl.
Proof.
  intros L. induction q as [|m q IH]; intros n [|fuel] s F K E; simpl in F; try lia; cbn [all_events];
    pose proof (remove_event_eq s id K L) as R; rewrite E in R.
  - step R. exists (events s). split; [now destruct s|]. split; [done|]. rewrite <- E. apply holds_refl.
  - destruct R as (pl & R & K' & H). step R. destruct (IH m fuel (set_events pl s)) as (pl' & E' & K'' & H'); [lia|done|now apply (holds_here (events s))|].
    step E'. exists pl'. split; [done|]. split; [done|]. exact (holds_trans _ _ _ _ _ _ H H').
Qed.

Lemma poll_eq s p i : infos s !! p = Some i -> pool_ok (events s) -> let r := polled i (queue (events s) (sub_id i)) in
  exists pl, poll_events poll p s = Done (negb (r.1 =? WSE_NOTIFICATION_EVENTS_PENDING), set_events pl s) /\
    queue_only (events s) (sub_id i) r.2 pl.
Proof.
  intros E K. unfold poll_events, polled. step (get_sub_eq _ _ _ E). destruct (eventpoll (fixed i)) as [f|].
  - destruct (law f i (events s) K) as (R & K' & H). exists (poll f i (events s)).2. split; [|done].
    erewrite mbind_eq; [|unfold on_events; rewrite (surjective_pairing (poll f i (events s))); reflexivity]. now rewrite R.
  - exists (events s). split; [now destruct s|]. split; [done|apply holds_refl].
Qed.
Lemma hand_out_eq s p i : infos s !! p = Some i -> pool_ok (events s) -> id_ok i ->
  let q := queue (events s) (sub_id i) in let th := new_thread p i q in
  exists pl, hand_out creates poll p s = Done (tt, set_senders (senders s ++ th) (put p (match th with [] => i | _ => marked i end) (set_events pl s))) /\
    queue_only (events s) (sub_id i) (kept i q) pl.
Proof.
  intros E K [Nul L] q th. destruct (poll_eq s p i E K) as (pl & P & K1 & H1). fold q in P, H1. unfold hand_out. step P.
  assert (E1 : infos (set_events pl s) !! p = Some i) by done. step (get_sub_eq _ _ _ E1).
  assert (Id : forall q', queue_only (events s) (sub_id i) q' pl -> th = [] -> kept i q = q' ->
    exists pl', Done (tt, set_events pl s) = Done (tt, set_senders (senders s ++ th) (put p (match th with [] => i | _ => marked i end) (set_events pl' s))) /\
      queue_only (events s) (sub_id i) (kept i q) pl').
  { intros q' Q -> ->. exists pl. split; [|done]. rewrite app_nil_r, put_same by done. now destruct s. }
  destruct (polled i q) as [ret q1] eqn:Pq. cbn [fst snd] in *.
  assert (Hd : handed i q = if ret =? WSE_NOTIFICATION_EVENTS_PENDING then [] else
    match deliveryMode (fixed i) with PULL => [] | EVENTS => q1 | _ => take 1 q1 end) by (unfold handed; now rewrite Pq).
  assert (Hk : kept i q = drop (length (handed i q)) q1) by (unfold kept; now rewrite Pq).
  destruct (negb (negb _) || _) eqn:Stop.
  - apply (Id q1); [done| |].
    + unfold th, new_thread. rewrite Hd. apply orb_true_iff in Stop as [R|M].
      * rewrite negb_involutive in R. now rewrite R.
      * apply bool_decide_eq_true in M. rewrite M. now destruct (ret =? _).
    + rewrite Hk, Hd. apply orb_true_iff in Stop as [R|M].
      * rewrite negb_involutive in R. now rewrite R.
      * apply bool_decide_eq_true in M. rewrite M. now destruct (ret =? _).
  - apply orb_false_iff in Stop as [R M]. rewrite negb_involutive in R. apply bool_decide_eq_false in M. rewrite R in Hd.
    step (id_of_eq _ _ _ E1 Nul). pose proof (remove_event_eq (set_events pl s) (sub_id i) K1 L) as Rm. cbn [events set_events] in Rm.
    pose proof (holds_here _ _ _ _ H1) as Hq. rewrite Hq in Rm. destruct q1 as [|n q1].
    + step Rm. apply (Id []); [done|unfold th, new_thread; rewrite Hd; now destruct (deliveryMode _)|].
      rewrite Hk. apply drop_nil.
    + destruct Rm as (pl2 & Rm & K2 & H2). step Rm.
      assert (G : exists pl3 l, handed i q = l /\ l <> [] /\ queue_only (events s) (sub_id i) (drop (length l) (n :: q1)) pl3 /\
        message_events i (sub_id i) n (set_events pl2 (set_events pl s)) = Done (l, set_events pl3 s)).
      { unfold message_events. destruct (bool_decide_reflect (deliveryMode (fixed i) = EVENTS)) as [Ev|Ev].
        - pose proof (holds_here _ _ _ _ H2) as Hq2. cbn [events set_events]. rewrite Hq2.
          destruct (all_events_eq (sub_id i) q1 L n (S (length q1)) (set_events pl2 s) ltac:(lia) K2 Hq2) as (pl3 & A & K3 & H3).
          exists pl3, (n :: q1). rewrite Hd, Ev. repeat (split; [done|]). split; [|exact A]. rewrite drop_all.
          split; [done|]. exact (holds_trans _ _ _ _ _ _ H1 (holds_trans _ _ _ _ _ _ H2 H3)).
        - exists pl2, [n]. split; [rewrite Hd; now destruct (deliveryMode _)|]. split; [done|]. split; [|done].
          split; [done|]. exact (holds_trans _ _ _ _ _ _ H1 H2). }
      destruct G as (pl3 & l & Hl & Nl & Q3 & A). step A. rewrite Hk, Hl. exists pl3. split; [|done].
      unfold th, new_thread. rewrite Hl. destruct l as [|x l]; [done|].
      destruct (pending i); [rewrite app_nil_r, put_same by done; now destruct s|]. cbn [negb andb]. unfold start_thread.
      destruct (creates p); [|rewrite app_nil_r, put_same by done; now destruct s].
      refine (eq_trans (mbind_eq _ _ _ _ _ eq_refl) _). cbn beta.
      rewrite (upd_info_eq _ p i) by done. done.
Qed.

(** ** A pass of the manager *)
Definition gone (now : Z) i : bool := ended now i && negb (pending i).
(** The info in its turn, when its lock is held. *)
Definition held i : info := with_locked true i.
Definition cancelled i : list (@sending N Cancel) :=
  match cancel (fixed i) with
  | Some c => if has_flag i WSMAN_SUBSCRIBEINFO_UNSUBSCRIBE then [] else [Cancelled c (sub_id i)]
  | None => []
  end.
Definition after_turn (now : Z) p i s (pl : pool N) : server :=
  let th := new_thread p (held i) (queue (events s) (sub_id i)) in
  if gone now i then
    Server (filter (fun q => q <> p) (subscriptionMemList s)) (delete p (infos s)) pl
      ((fun r => (LocalSubscriptionOpDelete (sub_id i) r).2) <$> repository s) (senders s) (sendings s ++ cancelled i)
  else
    Server (subscriptionMemList s) (<[p := match th with [] => i | _ => marked i end]> (infos s)) pl (repository s) (senders s ++ th) (sendings s).
(** The events that wait when a turn is over. *)
Definition left_over (now : Z) i (q : list N) : list N := if gone now i then [] else kept (held i) q.

Lemma take_out_eq s p i : infos s !! p = Some i -> pool_ok (events s) -> id_ok i -> is_Some (repository s) ->
  exists pl, take_out p s = Done (tt, Server (filter (fun q => q <> p) (subscriptionMemList s)) (delete p (infos s)) pl
      ((fun r => (LocalSubscriptionOpDelete (sub_id i) r).2) <$> repository s) (senders s) (sendings s ++ cancelled i)) /\
    queue_only (events s) (sub_id i) [] pl.
Proof.
  intros E K [Nul L] [r R]. destruct (clear_ok (events s) (sub_id i) K) as (ret & pl & C & H). exists pl. split; [|done].
  unfold take_out. step (get_sub_eq _ _ _ E). step (id_of_eq _ _ _ E Nul).
  refine (eq_trans (mbind_eq _ _ _ _ _ eq_refl) _). cbv beta. refine (eq_trans (mbind_eq _ _ _ _ _ eq_refl) _). cbv beta.
  cbn [repository set_list]. rewrite R. refine (eq_trans (mbind_eq _ _ _ _ _ eq_refl) _). cbv beta.
  cbn [repository set_list set_repository]. rewrite R. refine (eq_trans (mbind_eq _ _ _ _ _ eq_refl) _). cbv beta.
  cbn [events set_list set_repository]. rewrite C. cbn [snd set_events]. unfold cancelled.
  assert (F : forall sd s', s' = Server (filter (fun q => q <> p) (subscriptionMemList s)) (infos s) pl
    ((fun r => (LocalSubscriptionOpDelete (sub_id i) r).2) <$> repository s) (senders s) sd ->
    destroy_subsinfo p s' = Done (tt, Server (filter (fun q => q <> p) (subscriptionMemList s)) (delete p (infos s)) pl
    ((fun r => (LocalSubscriptionOpDelete (sub_id i) r).2) <$> repository s) (senders s) sd)).
  { intros sd s' ->. unfold destroy_subsinfo. step (get_sub_eq (Server _ (infos s) _ _ _ _) p i E). done. }
  rewrite R in F. destruct (cancel (fixed i)) as [c|]; [destruct (has_flag i _)|];
    refine (eq_trans (mbind_eq _ _ _ _ _ eq_refl) _); cbv beta; apply F; now rewrite ?app_nil_r.
Qed.
Lemma manager_turn_ok now s p i : good s -> p ∈ subscriptionMemList s -> infos s !! p = Some i -> exists pl,
  manager_turn creates poll now p s = Done (tt, after_turn now p i s pl) /\ good (after_turn now p i s pl) /\
  queue_only (events s) (sub_id i) (left_over now i (queue (events s) (sub_id i))) pl.
Proof.
  intros G Lp E. destruct (g_info _ G _ _ Lp E) as [Lk Id Bt]. unfold manager_turn. step (lock_eq _ _ _ E Lk).
  assert (E1 : infos (put p (held i) s) !! p = Some (held i)) by apply put_here. step (get_sub_eq _ _ _ E1).
  change (ended now (held i) && negb (pending (held i))) with (gone now i).
  unfold after_turn, left_over. destruct (gone now i) eqn:Go.
  - destruct (take_out_eq _ p (held i) E1 (g_pool _ G) Id (g_repo _ G)) as (pl & T & Q). exists pl. split; [|split; [|exact Q]].
    + rewrite T. cbn. now rewrite delete_insert_eq.
    + destruct (g_repo _ G) as [r R]. rewrite R. eapply (good_gone s p i); [done..| |apply Q].
      unfold gone in Go. apply andb_true_iff in Go as [_ Go]. now apply negb_true_iff in Go.
  - destruct (hand_out_eq _ p (held i) E1 (g_pool _ G) Id) as (pl & T & Q). exists pl. split; [|split; [|exact Q]].
    + step T. change (queue (events (put p (held i) s)) (sub_id (held i))) with (queue (events s) (sub_id i)).
      change (senders (put p (held i) s)) with (senders s).
      destruct (new_thread p (held i) (queue (events s) (sub_id i))) as [|t th].
      * erewrite unlock_eq; [|apply put_here|done]. change (with_locked false (held i)) with (with_locked false i).
        rewrite unlocked by done. unfold put. cbn. now rewrite !insert_insert_eq.
      * erewrite unlock_eq; [|apply put_here|done]. replace (with_locked false (marked (held i))) with (marked i) by (destruct i; cbn in *; now subst).
        unfold put. cbn. now rewrite !insert_insert_eq.
    + destruct Q as [Kp _]. pose proof (good_events s pl G Kp) as G1. unfold new_thread.
      destruct (handed (held i) _) as [|n l]; [rewrite app_nil_r; now apply (good_put _ p i i G1)|].
      destruct (negb _ && _) eqn:St; [|rewrite app_nil_r; now apply (good_put _ p i i G1)].
      apply andb_true_iff in St as [St _]. apply negb_true_iff in St. now apply (good_start _ p i (Some (n :: l)) G1).
Qed.

(** The ids tell the subscriptions apart in any letter case. *)
Definition distinct s : Prop := forall p q i j, infos s !! p = Some i -> infos s !! q = Some j ->
  lower (sub_id i) = lower (sub_id j) -> p = q.
Definition started (now : Z) s p : list (@thread N) :=
  at_info s p (fun i => if gone now i then [] else new_thread p (held i) (queue (events s) (sub_id i))).
Definition removed_id (now : Z) s p : list cstring := at_info s p (fun i => if gone now i then [sub_id i] else []).
Definition cancellations (now : Z) s p : list (@sending N Cancel) := at_info s p (fun i => if gone now i then cancelled i else []).
Definition stays (now : Z) s p : Prop := removed_id now s p = [].
Definition remove_files (r : repo) (ids : list cstring) : repo := foldl (fun r id => (LocalSubscriptionOpDelete id r).2) r ids.
(** What a pass over [l] does: every subscription gets what its own turn gives it. *)
Record passed (now : Z) (l : list positive) s s' : Prop := Passed {
  pa_list : subscriptionMemList s' = filter (fun p => p ∈ l -> stays now s p) (subscriptionMemList s);
  pa_info p i : infos s !! p = Some i -> infos s' !! p =
    if bool_decide (p ∈ l) then if gone now i then None else Some (match started now s p with [] => i | _ => marked i end) else Some i;
  pa_new p : infos s !! p = None -> infos s' !! p = None;
  pa_queue p i : p ∈ l -> infos s !! p = Some i -> queue (events s') (sub_id i) = left_over now i (queue (events s) (sub_id i));
  pa_other id : (forall p i, p ∈ l -> infos s !! p = Some i -> lower (sub_id i) <> lower id) -> queue (events s') id = queue (events s) id;
  pa_senders : senders s' = senders s ++ flat_map (started now s) l;
  pa_repo : repository s' = (fun r => remove_files r (flat_map (removed_id now s) l)) <$> repository s;
  pa_sendings : sendings s' = sendings s ++ flat_map (cancellations now s) l }.

(** The infos of others after a turn. *)
Lemma turn_other now s p i pl q : q <> p -> infos (after_turn now p i s pl) !! q = infos s !! q.
Proof. intros Nq. unfold after_turn. destruct (gone now i); cbn; [now rewrite lookup_delete_ne|now rewrite lookup_insert_ne]. Qed.
Lemma turn_info now s p i pl q j : infos s !! p = Some i -> infos (after_turn now p i s pl) !! q = Some j ->
  exists j', infos s !! q = Some j' /\ sub_id j = sub_id j'.
Proof.
  intros E. destruct (decide (q = p)) as [->|]; [|rewrite turn_other by done; eauto]. unfold after_turn.
  destruct (gone now i); cbn; [now rewrite lookup_delete_eq|]. rewrite lookup_insert_eq. intros [= <-]. exists i. split; [done|].
  now destruct (new_thread _ _ _).
Qed.
Lemma turn_distinct now s p i pl : distinct s -> infos s !! p = Some i -> distinct (after_turn now p i s pl).
Proof.
  intros D E a b ia ib Ha Hb Eq. destruct (turn_info _ _ _ _ _ _ _ E Ha) as (ja & Ja & Ea), (turn_info _ _ _ _ _ _ _ E Hb) as (jb & Jb & Eb).
  rewrite Ea, Eb in Eq. now apply (D a b ja jb).
Qed.
Lemma turn_queue now s p i pl q j : distinct s -> infos s !! p = Some i -> infos s !! q = Some j ->
  queue_only (events s) (sub_id i) (left_over now i (queue (events s) (sub_id i))) pl ->
  queue pl (sub_id j) = if bool_decide (q = p) then left_over now i (queue (events s) (sub_id i)) else queue (events s) (sub_id j).
Proof.
  intros D Ep Eq [_ [_ H]]. rewrite H. destruct (decide (q = p)) as [->|Nq].
  - rewrite Ep in Eq. injection Eq as <-. now rewrite !bool_decide_true.
  - rewrite !bool_decide_false; [done..|]. intros El. now apply Nq, (D q p j i).
Qed.
Lemma turn_events now s p i pl : events (after_turn now p i s pl) = pl.
Proof. unfold after_turn. now destruct (gone now i). Qed.
Lemma manager_loop_ok now l : forall s, good s -> distinct s -> NoDup l -> (forall p, p ∈ l -> p ∈ subscriptionMemList s) ->
  exists s', manager_loop creates poll now l s = Done (tt, s') /\ good s' /\ passed now l s s'.
Proof.
  induction l as [|p l IH]; intros s G D ND Al; cbn [manager_loop].
  - exists s. split; [done|]. split; [done|]. constructor; cbn; rewrite ?app_nil_r; try done.
    + symmetry. apply filter_all. intros q Hq. now apply elem_of_nil in Hq.
    + intros q j Hq. now apply elem_of_nil in Hq.
    + now destruct (repository s).
  - apply NoDup_cons in ND as [Np ND]. pose proof (Al p ltac:(left)) as Lp. destruct (g_list _ G p Lp) as [i E].
    destruct (manager_turn_ok now s p i G Lp E) as (pl & T & G1 & Q). step T. set (s1 := after_turn now p i s pl) in *.
    pose proof (turn_distinct now s p i pl D E) as D1. fold s1 in D1.
    assert (O : forall q, q ∈ l -> infos s1 !! q = infos s !! q) by (intros q Hq; apply turn_other; congruence).
    assert (Al1 : forall q, q ∈ l -> q ∈ subscriptionMemList s1).
    { intros q Hq. assert (q ∈ subscriptionMemList s) by (apply Al; now right). unfold s1, after_turn. destruct (gone now i); [|done].
      apply list_elem_of_filter. split; [now intros ->|done]. }
    destruct (IH s1 G1 D1 ND Al1) as (s' & R & G' & P). exists s'. split; [exact R|]. split; [exact G'|].
    assert (At : forall q j, q ∈ l -> infos s !! q = Some j -> queue (events s1) (sub_id j) = queue (events s) (sub_id j)).
    { intros q j Hq Hj. unfold s1. rewrite turn_events, (turn_queue now s p i pl q j D E Hj Q), bool_decide_false; [done|congruence]. }
    assert (St : forall q, q ∈ l -> started now s1 q = started now s q).
    { intros q Hq. unfold started, at_info. rewrite O by done. destruct (g_list _ G q) as [j Hj]; [apply Al; now right|]. rewrite Hj. now rewrite (At q j). }
    assert (Rm : forall q, q ∈ l -> removed_id now s1 q = removed_id now s q) by (intros q Hq; unfold removed_id, at_info; now rewrite O).
    assert (Cn : forall q, q ∈ l -> cancellations now s1 q = cancellations now s q) by (intros q Hq; unfold cancellations, at_info; now rewrite O).
    assert (Sp : stays now s p <-> gone now i = false).
    { unfold stays, removed_id. rewrite (at_some _ _ _ _ E). now destruct (gone now i). }
    destruct P as [P1 P2 P3 P4 P4' P5 P6 P7]. constructor.
    + rewrite P1. replace (subscriptionMemList s1) with (if gone now i then filter (fun q => q <> p) (subscriptionMemList s) else subscriptionMemList s)
        by (unfold s1, after_turn; now destruct (gone now i)).
      destruct (gone now i) eqn:Go; rewrite ?list_filter_filter; apply list_filter_iff;
        intros q; rewrite elem_of_cons; split.
      * intros [H Nq] [->|Hq]; [done|]. exact (eq_trans (eq_sym (Rm q Hq)) (H Hq)).
      * intros H. split; [intros Hq; exact (eq_trans (Rm q Hq) (H (or_intror Hq)))|]. intros ->. apply Sp in H; [done|now left].
      * intros H [->|Hq]; [now apply Sp|]. exact (eq_trans (eq_sym (Rm q Hq)) (H Hq)).
      * intros H Hq. exact (eq_trans (Rm q Hq) (H (or_intror Hq))).
    + intros q j Hj. destruct (decide (q = p)) as [->|Nq].
      * rewrite E in Hj. injection Hj as <-. rewrite bool_decide_true by left. unfold started. rewrite (at_some _ _ _ _ E).
        destruct (gone now i) eqn:Go.
        -- apply P3. unfold s1, after_turn. rewrite Go. apply lookup_delete_eq.
        -- erewrite P2; [|unfold s1, after_turn; rewrite Go; apply lookup_insert_eq]. now rewrite bool_decide_false.
      * rewrite (P2 q j) by (unfold s1; now rewrite turn_other). destruct (decide (q ∈ l)).
        -- rewrite !bool_decide_true by (try right; done). now rewrite St.
        -- rewrite !bool_decide_false; [done|rewrite elem_of_cons; tauto|done].
    + intros q Hq. apply P3. unfold s1. rewrite turn_other; [done|congruence].
    + intros q j Hq Hj. destruct (decide (q = p)) as [->|Nq].
      * rewrite E in Hj. injection Hj as <-. rewrite P4'; [unfold s1; rewrite turn_events, (turn_queue now s p i pl p i D E E Q); now rewrite bool_decide_true|].
        intros q' j' Hq' Hj' Eq. rewrite O in Hj' by done. apply Np. now rewrite <- (D q' p j' i Hj' E Eq).
      * apply elem_of_cons in Hq as [|Hq]; [done|]. rewrite (P4 q j Hq) by now rewrite O. now rewrite (At q j).
    + intros id H. rewrite P4'.
      * unfold s1. rewrite turn_events. destruct Q as [_ [_ ->]]. rewrite bool_decide_false; [done|]. intros Eq. apply (H p i); [left|done..].
      * intros q j Hq Hj. rewrite O in Hj by done. apply (H q j); [now right|done].
    + rewrite P5, (flat_map_in _ (started now s)) by done. cbn [flat_map]. rewrite app_assoc. f_equal.
      unfold s1, after_turn, started. rewrite (at_some _ _ _ _ E). destruct (gone now i); [symmetry; apply app_nil_r|done].
    + rewrite P6, (flat_map_in _ (removed_id now s)) by done. cbn [flat_map]. unfold s1, after_turn, removed_id at 2.
      rewrite (at_some _ _ _ _ E). destruct (gone now i); [|done]. cbn [repository]. now destruct (repository s).
    + rewrite P7, (flat_map_in _ (cancellations now s)) by done. cbn [flat_map]. rewrite app_assoc. f_equal.
      unfold s1, after_turn, cancellations. rewrite (at_some _ _ _ _ E). destruct (gone now i); [done|symmetry; apply app_nil_r].
Qed.

End Manager.

(** ** A pass of the timer *)
Section Timer.
Context (creates : positive -> bool).
(** What a turn makes of an info, and the thread it starts. *)
Definition beat (now : Z) p i : info * list (@thread N) :=
  if has_flag i WSMAN_SUBSCRIBEINFO_UNSUBSCRIBE || time_expired now (expires i) || (heartbeatInterval (fixed i) =? 0) ||
    bool_decide (deliveryMode (fixed i) = PULL) then (i, []) else
  if 1000 <? heartbeatCountdown i then (with_countdown (heartbeatCountdown i - 1000) i, []) else
  if eventSentLastTime i then (with_countdown (interval i) (with_sent false i), []) else
  if negb (pending i) && creates p then (with_countdown (interval i) (marked i), [Thread p None]) else (with_countdown (interval i) i, []).
Definition after_beat (now : Z) p i s : server :=
  set_senders (senders s ++ (beat now p i).2) (put p (beat now p i).1 s).

Lemma heartbeat_turn_ok now s p i : good s -> p ∈ subscriptionMemList s -> infos s !! p = Some i ->
  heartbeat_turn creates now p s = Done (tt, after_beat now p i s) /\ good (after_beat now p i s).
Proof.
  intros G Lp E. destruct (g_info _ G _ _ Lp E) as [Lk Id [B1 B2]]. unfold heartbeat_turn. step (lock_eq _ _ _ E Lk). change (with_locked true i) with (held i).
  assert (E1 : infos (put p (held i) s) !! p = Some (held i)) by apply put_here. step (get_sub_eq _ _ _ E1).
  assert (Un : forall j th, locked j = true -> unlock p (set_senders (senders s ++ th) (put p j s)) =
    Done (tt, set_senders (senders s ++ th) (put p (with_locked false j) s))).
  { intros j th Hj. erewrite unlock_eq; [|apply put_here|done]. unfold put. cbn. now rewrite insert_insert_eq. }
  assert (S0 : forall j, set_senders (senders s ++ []) (put p j s) = put p j s) by (intros j; now rewrite app_nil_r).
  assert (U0 : forall j, locked j = true -> unlock p (put p j s) = Done (tt, put p (with_locked false j) s)).
  { intros j Hj. rewrite <- (S0 j), <- (S0 (with_locked false j)). now apply Un. }
  unfold after_beat, beat. change (has_flag (held i)) with (has_flag i). change (expires (held i)) with (expires i).
  change (fixed (held i)) with (fixed i). change (heartbeatCountdown (held i)) with (heartbeatCountdown i).
  assert (Q0 : forall j, info_ok j -> pending j = pending i -> good (set_senders (senders s ++ []) (put p j s))).
  { intros j Hj Pj. rewrite S0. now apply (good_put _ p i). }
  assert (Nop : (mret tt ≫= fun _ => unlock p) (put p (held i) s) = Done (tt, set_senders (senders s ++ []) (put p i s)) /\
    good (set_senders (senders s ++ []) (put p i s))).
  { split; [|apply Q0; [now constructor|done]]. refine (eq_trans (mbind_eq _ _ _ _ _ eq_refl) _). rewrite U0, S0 by done.
    unfold held. now rewrite relock, unlocked. }
  destruct (has_flag i _); [exact Nop|]. destruct (time_expired now (expires i)); [exact Nop|].
  destruct (heartbeatInterval (fixed i) =? 0) eqn:Hi; [exact Nop|]. destruct (bool_decide (deliveryMode (fixed i) = PULL)); [exact Nop|]. clear Nop.
  cbn [orb]. destruct (Z.ltb_spec (heartbeatCountdown i - 1000) (- 2 ^ 63)); [lia|].
  set (c := heartbeatCountdown i - 1000) in *. set (ic := with_countdown c (held i)).
  assert (Fin : forall (m : CM server unit) j th, m (put p ic s) = Done (tt, set_senders (senders s ++ th) (put p j s)) -> locked j = true ->
    ((put_info p ic ≫= fun _ => m) ≫= fun _ => unlock p) (put p (held i) s) =
    Done (tt, set_senders (senders s ++ th) (put p (with_locked false j) s))).
  { intros m j th M Lj. assert (H1 : (put_info p ic ≫= fun _ => m) (put p (held i) s) = Done (tt, set_senders (senders s ++ th) (put p j s))).
    { step (put_sub_eq _ p _ ic E1). now rewrite put_put. }
    step H1. now apply Un. }
  replace (0 <? c) with (1000 <? heartbeatCountdown i) by (unfold c; destruct (Z.ltb_spec 1000 (heartbeatCountdown i)), (Z.ltb_spec 0 (heartbeatCountdown i - 1000)); lia).
  destruct (Z.ltb_spec 1000 (heartbeatCountdown i)).
  - split.
    + rewrite (Fin (mret tt) ic []); [|now rewrite S0|done]. do 4 f_equal. destruct i. cbn in *. now subst.
    + apply Q0; [|done]. constructor; [done..|]. split; [cbn; lia|done].
  - change (eventSentLastTime (held i)) with (eventSentLastTime i). change (pending (held i)) with (pending i).
    assert (Ei : forall j, infos (put p j s) !! p = Some j) by (intros; apply put_here).
    assert (One : forall f j, upd_info p f (put p j s) = Done (tt, put p (f j) s)).
    { intros f j. erewrite upd_info_eq by apply Ei. now rewrite put_put. }
    set (g := with_countdown (interval (held i))).
    assert (Quiet : forall (m : CM server unit) j, m (put p ic s) = Done (tt, put p j s) ->
      (m ≫= fun _ => upd_info p g) (put p ic s) = Done (tt, set_senders (senders s ++ []) (put p (g j) s))).
    { intros m j M. step M. now rewrite One, S0. }
    destruct (eventSentLastTime i).
    + split.
      * rewrite (Fin _ _ _ (Quiet _ _ (One (with_sent false) _)) eq_refl). do 4 f_equal. destruct i. cbn in *. now subst.
      * apply Q0; [|done]. constructor; [done..|]. now split.
    + unfold start_thread. destruct (pending i) eqn:Pd; cbn [negb andb]; [|destruct (creates p)].
      1,3: split; [rewrite (Fin _ _ _ (Quiet (mret tt) ic eq_refl) eq_refl); do 4 f_equal; destruct i; cbn in *; now subst|
        apply Q0; [|done]; constructor; [done..|]; now split].
      split.
      * rewrite (Fin _ (g (marked ic)) [Thread p None]); [do 4 f_equal; destruct i; cbn in *; now subst| |reflexivity].
        erewrite mbind_eq; [|refine (eq_trans (mbind_eq _ _ _ _ _ eq_refl) _); cbn beta; eapply (upd_info_eq _ p ic); apply put_here].
        erewrite upd_info_eq by apply put_here. unfold put. cbn. now rewrite !insert_insert_eq.
      * cbn [fst snd]. replace (put p (with_countdown (interval i) (marked i)) s) with (put p (marked (with_countdown (interval i) i)) (put p (with_countdown (interval i) i) s)) by (now rewrite put_put).
        apply (good_start (put p (with_countdown (interval i) i) s) p (with_countdown (interval i) i) None); [|done|apply Ei|done].
        apply (good_put _ p i); [done..| |done]. constructor; [done..|]. now split.
Qed.
Definition beats (now : Z) s p : list (@thread N) := at_info s p (fun i => (beat now p i).2).
Record beaten (now : Z) (l : list positive) s s' : Prop := Beaten {
  be_list : subscriptionMemList s' = subscriptionMemList s;
  be_info p : infos s' !! p = (fun i => if bool_decide (p ∈ l) then (beat now p i).1 else i) <$> infos s !! p;
  be_senders : senders s' = senders s ++ flat_map (beats now s) l;
  be_rest : events s' = events s /\ repository s' = repository s /\ sendings s' = sendings s }.
Lemma heartbeat_loop_ok now l : forall s, good s -> NoDup l -> (forall p, p ∈ l -> p ∈ subscriptionMemList s) ->
  exists s', heartbeat_loop creates now l s = Done (tt, s') /\ good s' /\ beaten now l s s'.
Proof.
  induction l as [|p l IH]; intros s G ND Al; cbn [heartbeat_loop].
  - exists s. split; [done|]. split; [done|]. constructor; cbn; rewrite ?app_nil_r; try done. intros p. now destruct (infos s !! p).
  - apply NoDup_cons in ND as [Np ND]. pose proof (Al p ltac:(left)) as Lp. destruct (g_list _ G p Lp) as [i E].
    destruct (heartbeat_turn_ok now s p i G Lp E) as [T G1]. step T. set (s1 := after_beat now p i s) in *.
    assert (O : forall q, q <> p -> infos s1 !! q = infos s !! q) by (intros q Nq; now apply lookup_insert_ne).
    assert (Here : infos s1 !! p = Some (beat now p i).1) by apply lookup_insert_eq.
    destruct (IH s1 G1 ND) as (s' & R & G' & [P1 P2 P3 P4]); [intros q Hq; apply Al; now right|].
    exists s'. split; [exact R|]. split; [exact G'|]. constructor; [now rewrite P1| | |exact P4].
    + intros q. rewrite P2. destruct (decide (q = p)) as [->|Nq].
      * rewrite Here, E. cbn. rewrite bool_decide_false by done. now rewrite bool_decide_true by left.
      * rewrite O by done. destruct (infos s !! q); [|done]. cbn. f_equal. destruct (decide (q ∈ l)).
        -- now rewrite !bool_decide_true by (try right; done).
        -- now rewrite !bool_decide_false by (rewrite ?elem_of_cons; tauto).
    + rewrite P3. cbn [flat_map]. rewrite app_assoc. f_equal.
      * unfold beats. rewrite (at_some _ _ _ _ E). done.
      * apply flat_map_in. intros q Hq. unfold beats, at_info. rewrite O; [done|congruence].
Qed.

End Timer.

(** ** The threads that send *)
(** An answer whose texts can be compared. *)
Definition ack_ok (message_id : cstring) (reply : option ack) : Prop :=
  match reply with
  | Some (Ack true (Some t) action) => match t with None => False | Some t => lower message_id = lower t -> is_Some action end
  | _ => True
  end.
(** The answer says that the message with the id has been taken. *)
Definition acknowledged (message_id : cstring) (reply : option ack) : bool :=
  match reply with
  | Some (Ack true (Some (Some t)) (Some action)) =>
      same_id message_id t && same_text action "http://schemas.dmtf.org/wbem/wsman/1/wsman/Ack"
  | _ => false
  end.
Definition sends (now : Z) i : bool := negb (has_flag i WSMAN_SUBSCRIBEINFO_UNSUBSCRIBE) && negb (time_expired now (expires i)).
Definition after_send (now : Z) (acked : bool) (t : @thread N) i : info :=
  let f := if sends now i && (wants_ack i && negb acked) then Z.lor (flags i) WSMAN_SUBSCRIPTION_CANCELLED else flags i in
  with_flags (Z.land f (Z.lnot WSMAN_SUBSCRIPTION_NOTIFICAITON_PENDING)) (if t_events t then with_sent true i else i).
Lemma send_eq message_id (acked : bool) reply : (acked = true -> ack_ok message_id reply) -> exists r,
  wse_send_notification message_id acked reply = Done r /\ (r =? WSE_NOTIFICATION_NOACK) = acked && negb (acknowledged message_id reply).
Proof.
  intros K. unfold wse_send_notification. destruct acked; [|now exists 0]. specialize (K eq_refl). cbn [negb].
  destruct reply as [[[|] [[t|]|] action]|]; cbn in *; try done; try (now eexists).
  unfold acknowledged. destruct (same_id message_id t) eqn:Si; [|exists WSE_NOTIFICATION_NOACK; now destruct action].
  destruct K as [x ->]; [now apply same_id_true|]. cbn. destruct (same_text x _); now eexists.
Qed.
Lemma pending_cleared f i : pending (with_flags (Z.land f (Z.lnot WSMAN_SUBSCRIPTION_NOTIFICAITON_PENDING)) i) = false.
Proof.
  unfold pending, has_flag. cbn [flags with_flags]. rewrite <- Z.land_assoc, (Z.land_comm (Z.lnot _)), Z.land_lnot_diag, Z.land_0_r. done.
Qed.
Lemma good_stop s k t i i' : good s -> senders s !! k = Some t -> infos s !! t_sub t = Some i -> info_ok i' -> pending i' = false ->
  forall sd, good (set_sendings sd (set_senders (delete k (senders s)) (put (t_sub t) i' s))).
Proof.
  intros [G1 G2 G3 G4 G5 G6 G7 G8] K E I P sd. pose proof (delete_Permutation _ _ _ K) as Pm.
  apply (Permutation_map t_sub) in Pm. cbn [map] in Pm. set (p := t_sub t) in *.
  assert (ND : NoDup (p :: map t_sub (delete k (senders s)))) by now rewrite <- Pm. apply NoDup_cons in ND as [Np ND].
  assert (T : forall q, q <> p -> q ∈ map t_sub (senders s) <-> q ∈ map t_sub (delete k (senders s))).
  { intros q Nq. rewrite Pm, elem_of_cons. tauto. }
  constructor; cbn; try done.
  - intros q Hq. destruct (decide (q = p)) as [->|]; [now rewrite lookup_insert_eq|rewrite lookup_insert_ne by done; auto].
  - intros q j Hq. destruct (decide (q = p)) as [->|]; [rewrite lookup_insert_eq; intros [= <-]; done|rewrite lookup_insert_ne by done; now apply G3].
  - intros q Hq. apply G5. rewrite Pm. now right.
  - intros q j Hq. destruct (decide (q = p)) as [->|Nq].
    + rewrite lookup_insert_eq. intros [= <-]. rewrite P. now split.
    + rewrite lookup_insert_ne by done. rewrite <- T by done. now apply G6.
Qed.
Lemma sender_ok now message_id reply s k t i : good s -> senders s !! k = Some t -> infos s !! t_sub t = Some i ->
  (sends now i = true -> wants_ack i = true -> ack_ok message_id reply) ->
  let s' := set_sendings (sendings s ++ if sends now i then [Sent (sub_id i) (t_events t)] else [])
    (set_senders (delete k (senders s)) (put (t_sub t) (after_send now (acknowledged message_id reply) t i) s)) in
  wse_event_sender now message_id reply k s = Done (tt, s') /\ good s'.
Proof.
  intros G K E A s'. assert (Lp : t_sub t ∈ subscriptionMemList s).
  { apply (g_alive _ G). apply (list_elem_of_fmap_2 t_sub). eapply list_elem_of_lookup_2, K. }
  destruct (g_info _ G _ _ Lp E) as [Lk Id Bt]. pose proof Id as [Nul _]. split.
  2: { apply (good_stop s k t i); try done; [|apply pending_cleared]. unfold after_send. apply info_ok_flags. now destruct (t_events t). }
  unfold wse_event_sender. erewrite mbind_eq; [|rewrite K; reflexivity]. cbv beta zeta. set (p := t_sub t) in *.
  step (lock_eq _ _ _ E Lk). change (with_locked true i) with (held i).
  set (j := if t_events t then with_sent true (held i) else held i).
  assert (Ej : infos (put p j s) !! p = Some j) by apply put_here.
  erewrite mbind_eq with (x := tt) (h1 := put p j s).
  2: { unfold j. destruct (t_events t); [|done]. erewrite upd_info_eq by apply put_here. now rewrite put_put. }
  step (get_sub_eq _ _ _ Ej).
  assert (Hs : negb (has_flag j WSMAN_SUBSCRIBEINFO_UNSUBSCRIBE) && negb (time_expired now (expires j)) = sends now i)
    by (unfold j; now destruct (t_events t)).
  rewrite Hs. set (sd := sendings s ++ _) in *. set (w := sends now i && (wants_ack i && negb (acknowledged message_id reply))).
  set (j1 := if w then with_flags (Z.lor (flags i) WSMAN_SUBSCRIPTION_CANCELLED) j else j).
  erewrite mbind_eq with (x := tt) (h1 := set_sendings sd (put p j1 s)).
  2: { unfold sd, j1, w. destruct (sends now i) eqn:Sn; [|rewrite app_nil_r; now destruct s].
    assert (Sj : sub_id j = sub_id i /\ NUL ∈ subsId (fixed j) /\ wants_ack j = wants_ack i /\ flags j = flags i) by (unfold j; now destruct (t_events t)).
    destruct Sj as (Sj & Nj & Wj & Fj). step (id_of_eq _ _ _ Ej Nj). refine (eq_trans (mbind_eq _ _ _ _ _ eq_refl) _). cbv beta.
    rewrite Sj, Wj. destruct (send_eq message_id (wants_ack i) reply (A eq_refl)) as (r & R & Rn).
    erewrite mbind_eq; [|unfold mlift; rewrite R; reflexivity]. rewrite Rn. cbn [andb]. destruct (wants_ack i && _); [|done].
    erewrite upd_info_eq by exact Ej. rewrite Fj. unfold put. cbn. now rewrite insert_insert_eq. }
  erewrite mbind_eq; [|eapply upd_info_eq; apply put_here].
  erewrite mbind_eq; [|eapply unlock_eq; [apply put_here|unfold j1, j; now destruct w, (t_events t)]].
  unfold mmod, s', put. cbn. rewrite !insert_insert_eq. do 4 f_equal. f_equal. unfold after_send. fold w.
  destruct i. cbn in *. subst. unfold j1, j. now destruct w, (t_events t).
Qed.
End Safe.
End SubscribeSafe.
