(* ===== verification/SubscribeReq.v ===== *)
(** * SubscribeReq: the requests that subscribers send, and the start of the server

    What Subscribe, Unsubscribe, Renew and Pull do to the subscriptions, each of their parts and all of them
    without an interruption; a request for which the code is undefined is said to be so.  What a restart brings
    back, and what a pass of the manager and of the timer does.  The threads that run at the same time are in
    SubscribeRun. *)
From S2P Require Import Prelude CString Names HttpText Faults WsTime Uri EventPool Xml Envelope Dispatcher Subscribe SubscribeSafe.
Import HttpText Faults WsTime Uri EventPool Subscribe SubscribeSafe.

Module SubscribeReq.

Section Req.
Context {N Poll Cancel : Type}.
Local Abbreviation info := (@WsSubscribeInfo Poll Cancel).
Local Abbreviation server := (@server N Poll Cancel).
Implicit Types (s : server) (i : info) (p : positive).
Context (mktime : tm -> Z) (localtime : Z -> tm).

(** What the end points of plug-ins keep to. *)
Definition endpoint_ok (ep : option (@endpoint Poll Cancel)) : Prop := forall f i, ep = Some f -> let j := (f i).1.2 in
  locked j = locked i /\ pending j = pending i /\ subsId (fixed j) = subsId (fixed i) /\
  heartbeatCountdown j = heartbeatCountdown i /\ heartbeatInterval (fixed j) = heartbeatInterval (fixed i) /\
  (has_flag i WSMAN_SUBSCRIBEINFO_UNSUBSCRIBE = true -> has_flag j WSMAN_SUBSCRIBEINFO_UNSUBSCRIBE = true).
Definition run (ep : option (@endpoint Poll Cancel)) i : Z * info * WsmanStatus :=
  match ep with Some f => f i | None => (0, i, Status WSMAN_RC_OK WSMAN_DETAIL_OK None) end.
Lemma run_endpoint_ok ep i : endpoint_ok ep -> info_ok i -> info_ok (run ep i).1.2 /\ pending (run ep i).1.2 = pending i /\ sub_id (run ep i).1.2 = sub_id i.
Proof.
  intros K I. destruct ep as [f|]; [|done]. destruct (K f i eq_refl) as (L & P & D & B & H & _). cbn [run].
  assert (Sd : sub_id (f i).1.2 = sub_id i) by (unfold sub_id; now rewrite D). split; [|done].
  destruct I as [L' [D' D''] [B1 B2]]. constructor; [congruence| |].
  - split; [now rewrite D|now rewrite Sd].
  - split; [now rewrite B|]. unfold interval in *. now rewrite H.
Qed.
Lemma call_sub_endpoint_eq s p i ep : infos s !! p = Some i ->
  call_endpoint ep p s = Done ((run ep i).1.1, (run ep i).2, put p (run ep i).1.2 s).
Proof.
  intros E. unfold call_endpoint. destruct ep as [f|]; cbn [run fst snd]; [|now rewrite put_same].
  step (get_sub_eq _ _ _ E). destruct (f i) as [[ret j] st]. now step (put_sub_eq _ _ _ j E).
Qed.
Lemma refuse_done s c d m : exists r, refuse (N := N) (Poll := Poll) (Cancel := Cancel) c d m s = Done (r, s).
Proof. destruct (generate_fault_known c d m) as (o & E & _). unfold refuse, mbind, M_bind, mlift. rewrite E. cbn. eauto. Qed.
(** A request that is refused changes nothing. *)
Lemma refuse_state s c d m v s' : refuse (N := N) (Poll := Poll) (Cancel := Cancel) c d m s = Done (v, s') -> s' = s.
Proof. intros (f & h & F & R)%mbind_done. unfold mlift in F. destruct (wsman_generate_fault c d m); [|done..]. now injection F as <- <-; injection R as <- <-. Qed.

(** ** Finding a subscription *)
Definition is_sub s (id : cstring) p : bool := match infos s !! p with Some i => same_id (sub_id i) id | None => false end.
Lemma search_eq s u l : good s -> (forall p, p ∈ l -> p ∈ subscriptionMemList s) -> (5 <= length u)%nat ->
  search (Some u) l s = Done (List.find (is_sub s (drop 5 u)) l, s).
Proof.
  intros G Al L. induction l as [|p l IH]; [done|]. cbn [search List.find]. assert (Lp : p ∈ subscriptionMemList s) by (apply Al; left).
  destruct (g_list _ G p Lp) as [i E]. destruct (g_info _ G p i Lp E) as [_ [Nul _] _]. step (id_of_eq _ _ _ E Nul).
  refine (eq_trans (mbind_eq _ _ _ _ _ eq_refl) _). cbv beta. destruct (Nat.leb_spec 5 (length u)); [|lia].
  unfold is_sub at 1. rewrite E. destruct (same_id _ _); [done|]. apply IH. intros q Hq. apply Al. now right.
Qed.
Lemma search_done u l : forall s t s', search (N := N) (Poll := Poll) (Cancel := Cancel) u l s = Done (t, s') ->
  s' = s /\ forall p, t = Some p -> p ∈ l.
Proof.
  induction l as [|p l IH]; intros s t s'; cbn [search]; [now intros [= <- <-]|].
  intros (id & s1 & I & (x & s2 & X & H)%mbind_done)%mbind_done.
  assert (s1 = s) as ->.
  { unfold id_of in I. apply mbind_done in I as (i & s3 & Gi & I). unfold get_info in Gi. destruct (infos s !! p); [|done].
    injection Gi as <- <-. unfold mlift in I. destruct (array_string _); [|done..]. now injection I as <- <-. }
  unfold mlift in X. destruct (deref u); [|done..]. injection X as <- <-. destruct (5 <=? length _)%nat; [|done].
  destruct (same_id _ _); [injection H as <- <-; split; [done|]; intros q [= <-]; left|].
  destruct (IH s t s' H) as [-> K]. split; [done|]. intros q Hq. right. auto.
Qed.


(** ** Unsubscribe and Renew *)
(** The parts of the requests, on an info that is there. *)
Definition ended_by_client i : info := with_flags (Z.lor (flags i) WSMAN_SUBSCRIBEINFO_UNSUBSCRIBE) i.
Lemma unsubscribe_call_eq e ep s p i : infos s !! p = Some i ->
  exists o, unsubscribe_call e ep p s = Done (o, put p (run ep i).1.2 s) /\ (o = None <-> (run ep i).1.1 = 0).
Proof.
  intros E. unfold unsubscribe_call. step (call_sub_endpoint_eq s p i ep E). destruct (Z.eqb_spec (run ep i).1.1 0) as [R|R]; cbn [negb].
  - exists None. done.
  - destruct (refuse_done (put p (run ep i).1.2 s) (st_code (run ep i).2) (st_detail (run ep i).2) (st_msg (run ep i).2)) as [r F].
    step F. eexists. split; [reflexivity|done].
Qed.
Lemma unsubscribe_mark_eq e s p i : infos s !! p = Some i -> locked i = false ->
  unsubscribe_mark e p s = Done ((0, if e_response e then Some RUnsubscribe else None), put p (ended_by_client i) s).
Proof.
  intros E L. unfold unsubscribe_mark. step (lock_eq _ _ _ E L).
  erewrite mbind_eq; [|eapply upd_info_eq, put_here]. rewrite put_put. erewrite mbind_eq; [|eapply unlock_eq; [apply put_here|done]].
  rewrite put_put. cbv beta. unfold mret, M_ret. do 3 f_equal. destruct i. cbn in *. now subst.
Qed.
Lemma ended_by_client_keeps i : pending (ended_by_client i) = pending i /\ has_flag (ended_by_client i) WSMAN_SUBSCRIBEINFO_UNSUBSCRIBE = true.
Proof.
  unfold ended_by_client, pending. rewrite !flag_lor by done. split; [apply orb_false_r|apply orb_true_r].
Qed.
Lemma unsubscribe_found_eq e ep s p i : good s -> endpoint_ok ep -> p ∈ subscriptionMemList s -> infos s !! p = Some i ->
  let j := (run ep i).1.2 in
  exists v, unsubscribe_found e ep p s =
    (if (run ep i).1.1 =? 0 then Done ((0, if e_response e then Some RUnsubscribe else None), put p (ended_by_client j) s)
     else Done (v, put p j s)) /\
  good (put p j s) /\ good (put p (ended_by_client j) s).
Proof.
  intros G K Lp E j. destruct (run_endpoint_ok ep i K (g_info _ G _ _ Lp E)) as (I & P & _). fold j in I, P.
  destruct (unsubscribe_call_eq e ep s p i E) as (o & U & Ho). fold j in U.
  exists (default (0, None) o). split.
  2: { split; [now apply (good_put _ p i)|]. apply (good_put _ p i); [done..|now apply info_ok_flags|].
       now rewrite (proj1 (ended_by_client_keeps j)). }
  unfold unsubscribe_found. step U. destruct (Z.eqb_spec (run ep i).1.1 0) as [R|R].
  - rewrite (proj2 Ho R). rewrite (unsubscribe_mark_eq e _ p j); [now rewrite put_put|apply put_here|exact (ok_locked _ I)].
  - destruct o as [v|]; [done|]. now destruct (R (proj1 Ho eq_refl)).
Qed.
Lemma unsubscribe_good e ep s t v s' : good s -> endpoint_ok ep -> wse_unsubscribe_stub e ep t s = Done (v, s') -> good s'.
Proof.
  intros G K. unfold wse_unsubscribe_stub. destruct t as [u|]; [|now intros [= _ <-]].
  intros (t & s1 & S & H)%mbind_done. apply search_done in S as [-> Al]. destruct t as [p|].
  - specialize (Al p eq_refl). destruct (g_list _ G p Al) as [i E].
    destruct (unsubscribe_found_eq e ep s p i G K Al E) as (v' & F & G1 & G2). rewrite F in H. destruct (_ =? 0); now injection H as _ <-.
  - apply mbind_done in H as (r & s2 & R & H). apply refuse_state in R as ->. now injection H as _ <-.
Qed.
Definition renewed (exp : Z) i : info := with_expires exp i.
Definition update_file (e : env) (id str : cstring) (o : option repo) : option repo :=
  (fun r => (LocalSubscriptionOpUpdate (e_disk e) id str r).2) <$> o.
Lemma renewed_ok exp i : info_ok i -> info_ok (renewed exp i) /\ pending (renewed exp i) = pending i.
Proof. intros []. split; [now constructor|done]. Qed.
Lemma renew_time_eq e s p i text exp code : infos s !! p = Some i -> locked i = false ->
  wsman_set_expiretime mktime (e_isdst e) (e_now e) text (expires i) = Done (exp, code) ->
  renew_time mktime e text p s = Done (code, put p (renewed exp i) s).
Proof.
  intros E L X. unfold renew_time. step (lock_eq _ _ _ E L). erewrite mbind_eq; [|apply get_sub_eq, put_here]. cbv beta.
  change (expires (with_locked true i)) with (expires i). erewrite mbind_eq; [|unfold mlift; rewrite X; reflexivity]. cbv beta iota.
  erewrite mbind_eq; [|eapply put_sub_eq, put_here]. rewrite put_put.
  erewrite mbind_eq; [|eapply unlock_eq; [apply put_here|done]]. rewrite put_put.
  unfold mret, M_ret. do 3 f_equal. destruct i. cbn in *. now subst.
Qed.
Lemma renew_time_fails e s p i text v s' : infos s !! p = Some i -> renew_time mktime e text p s = Done (v, s') ->
  exists exp code, wsman_set_expiretime mktime (e_isdst e) (e_now e) text (expires i) = Done (exp, code).
Proof.
  intros E H. unfold renew_time in H. apply mbind_done in H as ([] & s1 & L & H). unfold lock in L. rewrite (mbind_eq _ _ _ _ _ (get_sub_eq _ _ _ E)) in L.
  destruct (locked i); [done|]. rewrite (put_sub_eq _ _ _ _ E) in L. injection L as <-.
  rewrite (mbind_eq _ _ _ _ _ (get_sub_eq _ p _ (put_here p _ s))) in H. apply mbind_done in H as ([exp code] & s2 & X & _).
  change (expires (with_locked true i)) with (expires i) in X. unfold mlift in X. destruct (wsman_set_expiretime _ _ _ _ _) as [[x c]| | |]; [eauto|done..].
Qed.
Lemma unlock_free s p i : infos s !! p = Some i -> locked i = false -> unlock p s = Undef.
Proof. intros E L. unfold unlock, mbind, M_bind. rewrite (get_sub_eq _ _ _ E). cbn. now rewrite L. Qed.
(** What follows when the time has been set: without the lock, an error is undefined. *)
Lemma renew_rest_eq e ep s p i uuid text code : infos s !! p = Some i -> locked i = false ->
  let j := (run ep i).1.2 in locked j = false ->
  renew_rest localtime e ep uuid text code p s =
    if bool_decide (code = WSMAN_RC_OK) && ((run ep i).1.1 =? 0)
    then Done ((0, if e_response e then Some (RRenew text) else None),
      set_repository (update_file e (drop 5 uuid) (wsman_expiretime2xmldatetime localtime (expires i)) (repository s)) (put p j s))
    else Undef.
Proof.
  intros E L j Lj. unfold renew_rest. destruct (bool_decide (code = WSMAN_RC_OK)); cbn [negb andb].
  2: { unfold mbind, M_bind. now rewrite (unlock_free _ _ _ E L). }
  step (get_sub_eq _ _ _ E). set (str := wsman_expiretime2xmldatetime localtime (expires i)).
  set (s2 := set_repository (update_file e (drop 5 uuid) str (repository s)) s).
  erewrite mbind_eq with (x := tt) (h1 := s2).
  2: { unfold on_repository, mmod, s2, update_file. destruct (repository s) as [r|] eqn:R; [done|]. cbn. rewrite <- R. now destruct s. }
  assert (E2 : infos s2 !! p = Some i) by exact E. step (call_sub_endpoint_eq s2 p _ ep E2). fold j.
  change (put p j s2) with (set_repository (update_file e (drop 5 uuid) str (repository s)) (put p j s)).
  destruct (Z.eqb_spec (run ep i).1.1 0) as [->|]; cbn [negb]; [done|].
  destruct (refuse_done (set_repository (update_file e (drop 5 uuid) str (repository s)) (put p j s))
    (st_code (run ep i).2) (st_detail (run ep i).2) (st_msg (run ep i).2)) as [r F].
  step F. unfold mbind, M_bind. rewrite (unlock_free _ p j); [done|apply lookup_insert_eq|exact Lj].
Qed.
Lemma good_repository s o : good s -> (is_Some (repository s) -> is_Some o) -> good (set_repository o s).
Proof. intros [] K. constructor; try done. auto. Qed.
Lemma renew_found_eq e ep s p i uuid text exp code : good s -> endpoint_ok ep -> p ∈ subscriptionMemList s -> infos s !! p = Some i ->
  wsman_set_expiretime mktime (e_isdst e) (e_now e) text (expires i) = Done (exp, code) ->
  let j := (run ep (renewed exp i)).1.2 in
  let s1 := set_repository (update_file e (drop 5 uuid) (wsman_expiretime2xmldatetime localtime exp) (repository s)) (put p j s) in
  good s1 /\
  renew_found mktime localtime e ep uuid text p s =
    if bool_decide (code = WSMAN_RC_OK) && ((run ep (renewed exp i)).1.1 =? 0)
    then Done ((0, if e_response e then Some (RRenew text) else None), s1) else Undef.
Proof.
  intros G K Lp E X j s1. pose proof (g_info _ G _ _ Lp E) as I. destruct (renewed_ok exp i I) as [Ir Pr].
  destruct (run_endpoint_ok ep _ K Ir) as (Ij & Pj & _). fold j in Ij, Pj. split.
  { apply good_repository; [apply (good_put _ p i); [done..|now rewrite Pj]|]. cbn. now intros [r ->]. }
  unfold renew_found. step (renew_time_eq e s p i text exp code E (ok_locked _ I) X).
  rewrite (renew_rest_eq e ep (put p (renewed exp i) s) p (renewed exp i) uuid text code);
    [|apply put_here|exact (ok_locked _ Ir)|exact (ok_locked _ Ij)].
  change (expires (renewed exp i)) with exp. rewrite put_put. reflexivity.
Qed.
Lemma renew_good e ep s t text v s' : good s -> endpoint_ok ep -> wse_renew_stub mktime localtime e ep t text s = Done (v, s') -> good s'.
Proof.
  intros G K. unfold wse_renew_stub. destruct t as [u|].
  2: { intros (r & s2 & R & H)%mbind_done. apply refuse_state in R as ->. now injection H as _ <-. }
  intros (t & s1 & S & H)%mbind_done. apply search_done in S as [-> Al]. destruct t as [p|].
  2: { apply mbind_done in H as (r & s2 & R & H). apply refuse_state in R as ->. now injection H as _ <-. }
  specialize (Al p eq_refl). destruct (g_list _ G p Al) as [i E]. pose proof (g_info _ G _ _ Al E) as I.
  assert (exists exp code, wsman_set_expiretime mktime (e_isdst e) (e_now e) text (expires i) = Done (exp, code)) as (exp & code & X).
  { pose proof H as H'. unfold renew_found in H'. apply mbind_done in H' as (c & s2 & T & _). eapply renew_time_fails; [exact E|exact T]. }
  destruct (renew_found_eq e ep s p i u text exp code G K Al E X) as [G1 F]. rewrite F in H. destruct (_ && _); [now injection H as _ <-|done].
Qed.

(** ** Pull *)
Lemma take_events_eq id n : Z.of_nat (length id) < EUIDLEN -> forall s, pool_ok (events s) -> exists pl,
  take_events n id s = Done (take n (queue (events s) id), set_events pl s) /\
  queue_only (events s) id (drop n (queue (events s) id)) pl.
Proof.
  intros L. induction n as [|n IH]; intros s K; cbn [take_events].
  - exists (events s). split; [now destruct s|]. split; [done|apply holds_refl].
  - pose proof (remove_event_eq s id K L) as R. pose proof (holds_refl (events s) id) as Hr.
    destruct (queue (events s) id) as [|ev q] eqn:Eq.
    + step R. exists (events s). split; [now destruct s|]. now split.
    + destruct R as (pl & R & K1 & H1). step R. destruct (IH (set_events pl s) K1) as (pl' & T & K2 & H2).
      step T. cbn [events set_events] in *. pose proof (holds_here _ _ _ _ H1) as Hq. rewrite Hq in *. exists pl'. split; [done|]. split; [done|].
      exact (holds_trans _ _ _ _ _ _ H1 H2).
Qed.
(** How many events the request asks for. *)
Definition asked (max_elements : option (option cstring)) : outcome Z :=
  match max_elements with None => Done 1 | Some t => let* t := deref t in Done (atoi t) end.
Lemma pull_events_eq s p i m n : good s -> p ∈ subscriptionMemList s -> infos s !! p = Some i -> asked m = Done n ->
  let q := queue (events s) (sub_id i) in q <> [] -> exists pl,
  pull_events p m s = Done (Some (REvents (sub_id i) (take (Z.to_nat n) q)), set_events pl s) /\
  queue_only (events s) (sub_id i) (drop (Z.to_nat n) q) pl.
Proof.
  intros G Lp E A q Nq. destruct (g_info _ G _ _ Lp E) as [Lk [Nul L] _]. unfold pull_events. step (lock_eq _ _ _ E Lk).
  assert (E1 : infos (put p (with_locked true i) s) !! p = Some (with_locked true i)) by apply put_here.
  step (id_of_eq _ _ _ E1 Nul). change (sub_id (with_locked true i)) with (sub_id i).
  erewrite mbind_eq; [|unfold mget; reflexivity]. cbv beta. cbn [events put set_infos].
  rewrite (count_ok (events s) (sub_id i) (g_pool _ G)). fold q. destruct q as [|ev q'] eqn:Eq; [done|].
  destruct (Z.ltb_spec 0 (Z.of_nat (length (ev :: q')))); [|simpl in *; lia]. rewrite <- Eq in *.
  destruct (take_events_eq (sub_id i) (Z.to_nat n) L (put p (with_locked true i) s) (g_pool _ G)) as (pl & T & Q). exists pl. split; [|exact Q].
  erewrite mbind_eq.
  2: { erewrite mbind_eq; [|unfold mlift; unfold asked in A; rewrite A; reflexivity]. cbv beta. step T. reflexivity. }
  erewrite mbind_eq; [|eapply (unlock_eq _ p (with_locked true i)); [apply put_here|done]].
  unfold mret, M_ret. do 2 f_equal. rewrite relock, unlocked by done. unfold put. cbn. rewrite insert_insert_eq, insert_id by done. now destruct s.
Qed.
Lemma pull_events_good s p m v s' : good s -> p ∈ subscriptionMemList s -> pull_events p m s = Done (v, s') -> good s'.
Proof.
  intros G Lp H. destruct (g_list _ G p Lp) as [i E]. destruct (g_info _ G _ _ Lp E) as [Lk [Nul L] _].
  destruct (queue (events s) (sub_id i)) as [|ev q] eqn:Eq.
  - unfold pull_events in H. rewrite (mbind_eq _ _ _ _ _ (lock_eq _ _ _ E Lk)) in H.
    assert (E1 : infos (put p (with_locked true i) s) !! p = Some (with_locked true i)) by apply put_here.
    rewrite (mbind_eq _ _ _ _ _ (id_of_eq _ _ _ E1 Nul)) in H. apply mbind_done in H as (c & s1 & C & H). injection C as <- <-.
    cbn [events put set_infos] in H. rewrite (count_ok (events s) _ (g_pool _ G)) in H. change (sub_id (with_locked true i)) with (sub_id i) in H.
    rewrite Eq in H. cbn [length Z.of_nat Z.ltb Z.compare] in H. apply mbind_done in H as (r & s2 & R & H). apply refuse_state in R as ->.
    apply mbind_done in H as ([] & s3 & U & H). injection H as _ <-. rewrite (unlock_eq _ _ _ E1 eq_refl) in U. injection U as <-.
    rewrite put_put, relock, unlocked, put_same by done. done.
  - destruct (asked m) as [n| | |] eqn:A.
    + destruct (pull_events_eq s p i m n G Lp E A) as (pl & P & [K _]); [now rewrite Eq|]. rewrite P in H. injection H as _ <-. now apply good_events.
    + exfalso. destruct m as [[t|]|]; done.
    + exfalso. unfold pull_events in H. rewrite (mbind_eq _ _ _ _ _ (lock_eq _ _ _ E Lk)) in H.
      assert (E1 : infos (put p (with_locked true i) s) !! p = Some (with_locked true i)) by apply put_here.
      rewrite (mbind_eq _ _ _ _ _ (id_of_eq _ _ _ E1 Nul)) in H. apply mbind_done in H as (c & s1 & C & H). injection C as <- <-.
      cbn [events put set_infos] in H. rewrite (count_ok (events s) _ (g_pool _ G)) in H. change (sub_id (with_locked true i)) with (sub_id i) in H.
      rewrite Eq in H. destruct (Z.ltb_spec 0 (Z.of_nat (length (ev :: q)))); [|simpl in *; lia].
      apply mbind_done in H as (r & s2 & R & _). apply mbind_done in R as (k & s3 & X & _). unfold mlift in X. unfold asked in A.
      destruct m as [[t|]|]; done.
    + exfalso. destruct m as [[t|]|]; done.
Qed.

(** ** Subscribe *)
Lemma fbind_done {A B} (m : FM A) (k : A -> FM B) b : fbind m k = Done (inl b) <-> exists a, m = Done (inl a) /\ k a = Done (inl b).
Proof.
  unfold fbind. destruct m as [[a|f]| | |]; cbn; split; try done; try (now intros (? & ? & ?)); [eauto|]. now intros (? & [= <-] & ?).
Qed.
(** The info that a request makes. *)
Lemma event_request_flags fs ex f d : check_event_request fs ex = Done (inl (f, d)) -> Z.land f WSMAN_SUBSCRIPTION_NOTIFICAITON_PENDING = 0 /\ Z.land f WSMAN_SUBSCRIBEINFO_UNSUBSCRIBE = 0 /\ Z.land f WSMAN_SUBSCRIPTION_CANCELLED = 0.
Proof.
  unfold check_event_request. destruct fs as [[x|] [y|]]; try done;
    repeat match goal with |- context [if ?c then _ else _] => destruct c end; intros H; try done; now injection H as <- _.
Qed.
Record new_info (e : env) q i : Prop := NewInfo {
  n_locked : locked i = false;
  n_quiet : pending i = false /\ has_flag i WSMAN_SUBSCRIBEINFO_UNSUBSCRIBE = false /\ has_flag i WSMAN_SUBSCRIPTION_CANCELLED = false;
  n_id : subsId (fixed i) = copy_id (match q_former q with Some (Some t) => t | _ => e_uuid e end);
  n_beat : heartbeatCountdown i = interval i }.
Lemma make_info_new e q i : make_info mktime e q = Done (inl i) -> new_info e q i.
Proof.
  unfold make_info. destruct (_ || _); [done|]. intros (u & _ & H)%fbind_done. destruct (q_body q) as [b|]; [|done].
  apply fbind_done in H as (ns & _ & H). apply fbind_done in H as (x & _ & H). apply fbind_done in H as (enc & _ & H).
  apply fbind_done in H as (bt & _ & H). apply fbind_done in H as ([sink auth] & _ & H). apply fbind_done in H as (c & _ & H).
  apply fbind_done in H as ([fl dia] & F & H). apply fbind_done in H as ([au ap] & _ & H). injection H as <-.
  apply event_request_flags in F as (F1 & F2 & F3). constructor; try done. unfold pending, has_flag. cbn [flags].
  rewrite !Z.land_lor_distr_l, F1, F2, F3. now destruct (match b_bookmark b with Some (Some m) => _ | _ => _ end).
Qed.
Lemma c_string_shorter a : NUL ∈ a -> (length (c_string a) < length a)%nat.
Proof.
  destruct (c_string_cases a) as [E|[r E]].
  - intros H. rewrite <- E in H. now apply c_string_no_nul in H.
  - intros _. rewrite E at 2. rewrite length_app. simpl. lia.
Qed.
(** What every info keeps to, also one that is not in the list. *)
Definition sane i : Prop := locked i = false /\ (NUL ∈ subsId (fixed i) -> id_ok i).
Lemma info_ok_sane i : info_ok i -> sane i.
Proof. now intros [L I _]. Qed.
Lemma run_endpoint_sane ep i : endpoint_ok ep -> sane i -> sane (run ep i).1.2.
Proof.
  intros K [L S]. destruct ep as [f|]; [|done]. destruct (K f i eq_refl) as (L' & _ & D & _). cbn [run fst snd].
  split; [congruence|]. intros Nul. rewrite D in Nul. destruct (S Nul). unfold id_ok, sub_id. now rewrite D.
Qed.
Lemma new_info_sane e q i : new_info e q i -> sane i.
Proof.
  intros [L _ I _]. split; [done|]. intros Nul. split; [done|].
  unfold sub_id. apply c_string_shorter in Nul. rewrite I in Nul at 2. unfold copy_id in Nul. rewrite length_take in Nul.
  unfold EUIDLEN in *. lia.
Qed.
Lemma new_info_ok ep e q i : endpoint_ok ep -> new_info e q i -> let j := (run ep i).1.2 in
  sane j /\ pending j = false /\ sub_id j = sub_id i /\ subsId (fixed j) = subsId (fixed i) /\ (NUL ∈ subsId (fixed j) -> beat_ok j -> info_ok j).
Proof.
  intros K Ni j. pose proof (run_endpoint_sane ep i K (new_info_sane e q i Ni)) as [L S]. fold j in L, S.
  destruct Ni as [_ (Q & _) _ _]. split; [done|].
  assert (pending j = pending i /\ subsId (fixed j) = subsId (fixed i)) as [P D].
  { unfold j. destruct ep as [f|]; [|done]. destruct (K f i eq_refl) as (_ & P & D & _). done. }
  split; [congruence|]. split; [unfold sub_id; now rewrite D|]. split; [done|]. intros Nul B. constructor; auto.
Qed.
Definition saved (e : env) q i (o : option repo) : option repo :=
  match o with
  | Some r => if e_dump e then
      Some (LocalSubscriptionOpSave (e_disk e) (sub_id i) (saved_request q (wsman_expiretime2xmldatetime localtime (expires i)) (sub_id i)) r).2
    else Some r
  | None => None
  end.
(** The server with one more subscription. *)
Definition subscribed (e : env) q p i s : server :=
  Server (subscriptionMemList s ++ [p]) (<[p := i]> (infos s)) (events s) (saved e q i (repository s)) (senders s) (sendings s).
Definition welcome q i (o : option repo) : response (N := N) :=
  RSubscribe (sub_id i) (if expires i =? 0 then None else Some (if bool_decide (is_Some o) then expires_text q else None))
    (bool_decide (deliveryMode (fixed i) = PULL)).
Definition new_ptr s : positive := fresh (dom (infos s)).
Lemma new_ptr_fresh s : infos s !! new_ptr s = None.
Proof. unfold new_ptr. apply not_elem_of_dom, is_fresh. Qed.
(** The server when a subscription has been made that is not in the list yet. *)
Definition prepared (e : env) q p i s : server := set_repository (saved e q i (repository s)) (put p i s).
Lemma prepare_eq e ep s q i : make_info mktime e q = Done (inl i) -> let j := (run ep i).1.2 in
  exists r, subscribe_prepare mktime localtime e ep q s =
    if negb ((run ep i).1.1 =? 0) then Done (inl ((run ep i).1.1, r), set_infos (delete (new_ptr s) (<[new_ptr s := j]> (infos s))) s)
    else if negb (e_response e) then Done (inl (0, None), put (new_ptr s) j s)
    else if bool_decide (NUL ∈ subsId (fixed j)) && e_node e then
      Done (inr (new_ptr s, bool_decide (is_Some (repository s))), prepared e q (new_ptr s) j s)
    else Undef.
Proof.
  intros M j. destruct (refuse_done (put (new_ptr s) j s) (st_code (run ep i).2) (st_detail (run ep i).2) (st_msg (run ep i).2)) as [r F].
  exists r. unfold subscribe_prepare. erewrite mbind_eq; [|unfold mlift, create_subs_info; rewrite M; reflexivity]. cbv beta iota.
  refine (eq_trans (mbind_eq _ _ _ _ _ eq_refl) _). cbv beta. refine (eq_trans (mbind_eq _ _ _ _ _ eq_refl) _). cbv beta.
  fold (new_ptr s). set (p := new_ptr s) in *. change (set_infos (<[p := i]> (infos s)) s) with (put p i s).
  erewrite mbind_eq; [|apply call_sub_endpoint_eq, put_here]. rewrite put_put. fold j. cbv beta iota.
  destruct (Z.eqb_spec (run ep i).1.1 0) as [R|R]; cbn [negb].
  2: { step F. assert (Dq : destroy_subsinfo p (put p j s) = Done (tt, set_infos (delete p (<[p := j]> (infos s))) s)).
       { unfold destroy_subsinfo. step (get_sub_eq _ p j (put_here p j s)). reflexivity. }
       now step Dq. }
  rewrite R. destruct (e_response e); cbn [negb]; [|done].
  erewrite mbind_eq; [|apply get_sub_eq, put_here]. cbv beta.
  destruct (bool_decide_reflect (NUL ∈ subsId (fixed j))) as [Nul|Nul]; cbn [andb].
  2: { unfold id_of, mbind, M_bind, get_info. rewrite put_here. unfold mlift, array_string. now rewrite bool_decide_false. }
  erewrite mbind_eq; [|apply id_of_eq; [apply put_here|done]]. cbv beta. refine (eq_trans (mbind_eq _ _ _ _ _ eq_refl) _). cbv beta.
  cbn [repository put set_infos]. set (sv := saved e q j (repository s)).
  erewrite mbind_eq with (x := tt) (h1 := set_repository sv (put p j s)).
  2: { unfold sv, saved. destruct (repository s) as [r0|] eqn:Rp; [rewrite bool_decide_true by eauto|now destruct s; cbn in Rp; subst].
       cbn [andb]. destruct (e_dump e); [|destruct s; cbn in Rp; now subst]. unfold on_repository, mmod. cbn. now rewrite Rp. }
  now destruct (e_node e).
Qed.
(** A request that makes no info changes nothing. *)
Lemma prepare_fault e ep s q c d : make_info (Poll := Poll) (Cancel := Cancel) mktime e q = Done (inr (c, d)) ->
  forall v s', subscribe_prepare mktime localtime e ep q s = Done (v, s') -> s' = s /\ exists f, v = inl (0, Some (RFault f)).
Proof.
  intros M v s' H. unfold subscribe_prepare in H. apply mbind_done in H as ([doc sub] & s1 & C & H). unfold mlift, create_subs_info in C.
  rewrite M in C. cbn [obind] in C. destruct (wsman_generate_fault c d None) as [f| | |]; try done. injection C as <- <- <-.
  destruct f as [f|]; [|done]. injection H as <- <-. eauto.
Qed.
Lemma prepare_made e ep s q v s' : subscribe_prepare mktime localtime e ep q s = Done (v, s') ->
  exists r, make_info (Poll := Poll) (Cancel := Cancel) mktime e q = Done r.
Proof.
  intros H. unfold subscribe_prepare in H. apply mbind_done in H as (x & s1 & C & _). unfold mlift, create_subs_info in C.
  destruct (make_info mktime e q); [eauto|done..].
Qed.
Lemma answer_eq q sv s p i : infos s !! p = Some i -> NUL ∈ subsId (fixed i) ->
  subscribe_answer q sv p s = Done ((0, Some (RSubscribe (sub_id i) (if expires i =? 0 then None else Some (if sv then expires_text q else None))
    (bool_decide (deliveryMode (fixed i) = PULL)))), s).
Proof. intros E Nul. unfold subscribe_answer. step (get_sub_eq _ _ _ E). now step (id_of_eq _ _ _ E Nul). Qed.
Lemma subscribe_eq e ep s q i : make_info mktime e q = Done (inl i) -> let j := (run ep i).1.2 in
  exists r, wse_subscribe_stub mktime localtime e ep q s =
    if negb ((run ep i).1.1 =? 0) then Done (((run ep i).1.1, r), set_infos (delete (new_ptr s) (<[new_ptr s := j]> (infos s))) s)
    else if negb (e_response e) then Done ((0, None), put (new_ptr s) j s)
    else if bool_decide (NUL ∈ subsId (fixed j)) && e_node e then
      Done ((0, Some (welcome q j (repository s))), subscribed e q (new_ptr s) j s)
    else Undef.
Proof.
  intros M j. destruct (prepare_eq e ep s q i M) as [r P]. exists r. fold j in P. unfold wse_subscribe_stub.
  destruct (negb (_ =? 0)); [now step P|]. destruct (negb (e_response e)); [now step P|].
  destruct (bool_decide_reflect (NUL ∈ subsId (fixed j))) as [Nul|]; cbn [andb] in *; [|unfold mbind at 1, M_bind; now rewrite P].
  destruct (e_node e); [|unfold mbind at 1, M_bind; now rewrite P]. step P. cbv iota.
  refine (eq_trans (mbind_eq _ _ _ _ _ eq_refl) _). cbv beta.
  rewrite (answer_eq q _ _ _ j); [done|apply lookup_insert_eq|exact Nul].
Qed.
Lemma good_leak s p j : good s -> infos s !! p = None -> good (put p j s).
Proof.
  intros [G1 G2 G3 G4 G5 G6 G7 G8] E. assert (Nq : forall q, q ∈ subscriptionMemList s -> p <> q) by (intros q Hq ->; destruct (G2 q Hq); congruence).
  constructor; cbn; try done; intros q.
  - intros Hq. rewrite lookup_insert_ne by auto. auto.
  - intros i Hq. rewrite lookup_insert_ne by auto. now apply G3.
  - intros i Hq. rewrite lookup_insert_ne by auto. now apply G6.
Qed.
Lemma good_new s p j r sd : good s -> infos s !! p = None -> info_ok j -> pending j = false ->
  good (Server (subscriptionMemList s ++ [p]) (<[p := j]> (infos s)) (events s) (Some r) (senders s) sd).
Proof.
  intros [G1 G2 G3 G4 G5 G6 G7 G8] E I P. assert (Nq : forall q, q ∈ subscriptionMemList s -> p <> q) by (intros q Hq ->; destruct (G2 q Hq); congruence).
  constructor; cbn; try done.
  - apply NoDup_app. split; [done|]. split; [|apply NoDup_singleton]. intros q Hq ->%list_elem_of_singleton. exact (Nq p Hq eq_refl).
  - intros q [Hq|Hq%list_elem_of_singleton]%elem_of_app; [rewrite lookup_insert_ne by auto; auto|subst; now rewrite lookup_insert_eq].
  - intros q i [Hq|Hq%list_elem_of_singleton]%elem_of_app; [rewrite lookup_insert_ne by auto; now apply G3|subst; rewrite lookup_insert_eq; congruence].
  - intros q Hq. apply elem_of_app. left. auto.
  - intros q i [Hq|Hq%list_elem_of_singleton]%elem_of_app; [rewrite lookup_insert_ne by auto; now apply G6|subst; rewrite lookup_insert_eq].
    intros [= <-]. rewrite P. split; [done|]. intros Hp%G5. destruct (Nq p Hp eq_refl).
Qed.
Lemma put_deleted s p j : infos s !! p = None -> set_infos (delete p (infos (put p j s))) (put p j s) = s.
Proof. intros E. unfold put. cbn. rewrite delete_insert_eq, delete_id by done. now destruct s. Qed.
(** What the first part of a Subscribe leaves behind: nothing, an info that nobody knows, or one that waits to
    be entered in the list. *)
Lemma prepare_done e ep s q v s' : endpoint_ok ep -> subscribe_prepare mktime localtime e ep q s = Done (v, s') ->
  match v with
  | inl _ => s' = s \/ exists j, s' = put (new_ptr s) j s /\ sane j
  | inr (p, _) => p = new_ptr s /\ exists j o, s' = set_repository o (put p j s) /\ (is_Some (repository s) -> is_Some o) /\
      sane j /\ pending j = false /\ NUL ∈ subsId (fixed j) /\ (beat_ok j -> info_ok j)
  end.
Proof.
  intros K H. destruct (prepare_made e ep s q v s' H) as [[i|[c d]] M].
  2: { destruct (prepare_fault e ep s q c d M v s' H) as [-> [f ->]]. now left. }
  destruct (prepare_eq e ep s q i M) as [r P]. rewrite P in H. clear P.
  destruct (new_info_ok ep e q i K (make_info_new e q i M)) as (S & Pj & _ & D & I). set (j := (run ep i).1.2) in *.
  destruct (negb (_ =? 0)).
  { injection H as <- <-. left. change (set_infos (delete (new_ptr s) (infos (put (new_ptr s) j s))) (put (new_ptr s) j s) = s).
    apply put_deleted, new_ptr_fresh. }
  destruct (negb (e_response e)); [injection H as <- <-; right; now exists j|].
  destruct (bool_decide_reflect (NUL ∈ subsId (fixed j))) as [Nul|]; [|done]. destruct (e_node e); [|done]. injection H as <- <-.
  split; [done|]. exists j, (saved e q j (repository s)). split; [done|]. split; [|now auto 10].
  intros [r0 R0]. unfold saved. rewrite R0. destruct (e_dump e); eauto.
Qed.
Lemma subscribe_good e ep s q v s' : good s -> endpoint_ok ep -> wse_subscribe_stub mktime localtime e ep q s = Done (v, s') ->
  (forall p i, p ∈ subscriptionMemList s' -> infos s' !! p = Some i -> beat_ok i) -> good s'.
Proof.
  intros G K H B. unfold wse_subscribe_stub in H. apply mbind_done in H as (r & s1 & P & H).
  pose proof (prepare_done e ep s q r s1 K P) as D. pose proof (new_ptr_fresh s) as F. destruct r as [x|[p sv]].
  { injection H as _ <-. destruct D as [->|(j & -> & _)]; [done|now apply good_leak]. }
  destruct D as (-> & j & o & -> & Ro & _ & Pj & Nul & I). set (p := new_ptr s) in *.
  apply mbind_done in H as ([] & s2 & A & H). injection A as <-.
  rewrite (answer_eq q sv _ p j) in H; [|apply lookup_insert_eq|done]. injection H as _ <-.
  assert (Bj : beat_ok j) by (apply (B p); cbn; [apply elem_of_app; right; now left|apply lookup_insert_eq]).
  destruct (Ro (g_repo _ G)) as [r ->]. exact (good_new s p j r (sendings s) G F (I Bj) Pj).
Qed.

(** ** A restart *)
(** What is left of an info when its request is read from the repository. *)
Definition no_auth i : info :=
  let x := fixed i in
  SubInfo (Fixed (subsId x) (uri x) (soapNs x) (epr_notifyto x) (username x) (password x) (certificate_thumbprint x) (locale x)
      (contentEncoding x) (deliveryMode x) (deliveryAuthType x) (heartbeatInterval x) (bookmarkDoc x) (bookmarksFlag x)
      (filter_dialect x) None None (eventpoll x) (cancel x))
    (flags i) (heartbeatCountdown i) (expires i) (eventSentLastTime i) (locked i).
Lemma fbind_eq {A B} (m : FM A) (k : A -> FM B) a : m = Done (inl a) -> fbind m k = k a.
Proof. now intros ->. Qed.
Lemma make_info_saved e e' q i str sid x : make_info mktime e q = Done (inl i) -> (exists b, q_body q = Some b /\ is_Some (b_expires b)) ->
  e_alloc e' = true -> e_mutex e' = true ->
  wsman_set_expiretime mktime (e_isdst e') (e_now e') (Some str) 0 = Done (x, WSMAN_RC_OK) -> time_expired (e_now e') x = false ->
  exists id, make_info mktime e' (saved_request q str sid) = Done (inl (with_id id (with_expires x (no_auth i)))).
Proof.
  intros H (b & Eb & t0 & Ex) Al Mu X T. unfold make_info in *. rewrite Al, Mu. destruct (negb (e_alloc e) || _); [done|]. cbn [negb orb].
  apply fbind_done in H as (u & Hu & H). rewrite Eb in H.
  apply fbind_done in H as (ns & Hns & H). apply fbind_done in H as (y & Hx & H). apply fbind_done in H as (enc & Henc & H).
  apply fbind_done in H as (bt & Hbt & H). apply fbind_done in H as ([sink auth] & Hs & H). apply fbind_done in H as (c & Hc & H).
  apply fbind_done in H as ([fl dia] & F & H). apply fbind_done in H as ([au ap] & Ha & H). injection H as <-.
  unfold saved_request, set_expires_text. rewrite Eb, Ex. cbn [q_uri q_ns q_body q_tokens q_existing q_username q_former].
  rewrite (fbind_eq _ _ _ Hu), (fbind_eq _ _ _ Hns). cbn [b_expires b_bookmark b_delivery b_filter b_sendbookmarks].
  rewrite (fbind_eq (read_expires mktime e' (Some (Some str))) _ x).
  2: { unfold read_expires, flift. rewrite X. cbn [obind fbind fst snd]. rewrite bool_decide_true by done. cbn [negb]. now rewrite T. }
  rewrite (fbind_eq _ _ _ Henc), (fbind_eq _ _ _ Hbt), (fbind_eq _ _ _ Hs). cbn beta iota. rewrite (fbind_eq _ _ _ Hc), (fbind_eq _ _ _ F). cbn beta iota.
  rewrite (fbind_eq _ _ (None, None)) by done. eexists. reflexivity.
Qed.
Lemma copy_id_nul t : Z.of_nat (length t) < EUIDLEN -> NUL ∈ copy_id t.
Proof.
  intros L. unfold EUIDLEN in L. unfold copy_id. rewrite take_app_ge by (unfold EUIDLEN; lia). apply elem_of_app. right.
  destruct (Z.to_nat EUIDLEN - length t)%nat eqn:E; [unfold EUIDLEN in E; lia|]. now left.
Qed.
Lemma copy_id_text t : no_nul t -> Z.of_nat (length t) < EUIDLEN -> c_string (copy_id t) = t.
Proof.
  intros Nn L. unfold EUIDLEN in L. unfold copy_id. rewrite take_app_ge by (unfold EUIDLEN; lia).
  destruct (Z.to_nat EUIDLEN - length t)%nat eqn:E; [unfold EUIDLEN in E; lia|]. now apply c_string_stop.
Qed.
Definition restart_env (e : env) : Prop := e_alloc e = true /\ e_mutex e = true /\ e_response e = true /\ e_node e = true /\
  Z.of_nat (length (e_uuid e)) < EUIDLEN.
(** A request that is accepted: the environment and the end point it meets, and the info that is made of it. *)
Record accepted := Acc { ac_env : env; ac_ep : option (@endpoint Poll Cancel); ac_req : subscribe_request; ac_made : info }.
(** The info as the plug-in leaves it, its id and the file that is saved. *)
Definition ac_info (a : accepted) : info := (run (ac_ep a) (ac_made a)).1.2.
Definition ac_id (a : accepted) : cstring := sub_id (ac_info a).
Definition ac_name (a : accepted) : cstring := file_name (ac_id a).
Definition ac_file (a : accepted) : subscribe_request :=
  saved_request (ac_req a) (wsman_expiretime2xmldatetime localtime (expires (ac_info a))) (ac_id a).
Record accepted_ok (a : accepted) : Prop := AccOk {
  acc_made : make_info mktime (ac_env a) (ac_req a) = Done (inl (ac_made a));
  acc_endpoint : endpoint_ok (ac_ep a) /\ (run (ac_ep a) (ac_made a)).1.1 = 0;
  acc_env : e_response (ac_env a) = true /\ e_node (ac_env a) = true /\ e_dump (ac_env a) = true /\ e_disk (ac_env a) = true;
  acc_expires : exists b, q_body (ac_req a) = Some b /\ is_Some (b_expires b);
  acc_id : NUL ∈ subsId (fixed (ac_made a)) /\ (36 <= length (ac_id a))%nat }.
(** Its time can be written and read back, and has not come at the restart. *)
Record in_time (e' : env) (a : accepted) : Prop := InTime {
  it_range : 0 <= expires (ac_info a) < 2 ^ 63;
  it_tm : tm_ok (localtime (expires (ac_info a))) /\ tm_isdst (localtime (expires (ac_info a))) = e_isdst e';
  it_zone : mktime (localtime (expires (ac_info a))) = expires (ac_info a);
  it_left : time_expired (e_now e') (expires (ac_info a)) = false }.
Lemma in_time_read e' a old : in_time e' a ->
  wsman_set_expiretime mktime (e_isdst e') (e_now e') (Some (wsman_expiretime2xmldatetime localtime (expires (ac_info a)))) old = Done (expires (ac_info a), WSMAN_RC_OK).
Proof. intros [B [T I] M _]. now apply expiry_read. Qed.
Lemma accepted_id a : accepted_ok a -> ac_id a = sub_id (ac_made a) /\ no_nul (ac_id a) /\ Z.of_nat (length (ac_id a)) < EUIDLEN.
Proof.
  intros [M [K _] _ _ [Nul _]]. destruct (new_info_ok _ _ _ _ K (make_info_new _ _ _ M)) as (_ & _ & Sd & _).
  assert (ac_id a = sub_id (ac_made a)) as E by exact Sd. split; [done|]. split; [apply c_string_no_nul|]. rewrite E.
  destruct (new_info_sane _ _ _ (make_info_new _ _ _ M)) as [_ S]. now destruct (S Nul).
Qed.
Lemma accepted_name a : accepted_ok a -> is_saved (ac_name a) = true.
Proof.
  intros [_ _ _ _ [_ L]]. unfold is_saved, ac_name, file_name. rewrite length_app. apply andb_true_iff. split.
  - apply bool_decide_eq_true. destruct (strstr (lit "uuid:" ++ ac_id a) (lit "uuid")) eqn:E; [eauto|].
    rewrite strstr_none in E. now destruct (E [] (":"%char :: ac_id a)).
  - apply Nat.leb_le. cbn [length lit list_ascii_of_string]. lia.
Qed.

(** The requests one after another. *)
Fixpoint subscribe_all (l : list accepted) : CM server unit :=
  match l with [] => mret tt | a :: l => wse_subscribe_stub mktime localtime (ac_env a) (ac_ep a) (ac_req a);; subscribe_all l end.
Lemma accepted_eq a s m : accepted_ok a -> repository s = Some (Repo true m) ->
  exists v s', wse_subscribe_stub mktime localtime (ac_env a) (ac_ep a) (ac_req a) s = Done (v, s') /\
    repository s' = Some (Repo true (<[ac_name a := ac_file a]> m)).
Proof.
  intros [M [K R] (Rs & Nd & Du & Di) _ [Nul _]] E. destruct (subscribe_eq (ac_env a) (ac_ep a) s (ac_req a) _ M) as [r S].
  destruct (new_info_ok _ _ _ _ K (make_info_new _ _ _ M)) as (_ & _ & _ & D & _).
  rewrite R, Rs, Nd in S. change (negb (0 =? 0)) with false in S. cbn [negb] in S. rewrite D, bool_decide_true in S by done.
  eexists _, _. split; [exact S|]. unfold subscribed, saved. cbn [repository]. rewrite E, Du.
  unfold LocalSubscriptionOpSave. rewrite Di. reflexivity.
Qed.
Definition files_of (l : list accepted) (m : gmap cstring subscribe_request) : gmap cstring subscribe_request :=
  foldl (fun m a => <[ac_name a := ac_file a]> m) m l.
Lemma subscribe_all_eq l : forall s m, Forall accepted_ok l -> repository s = Some (Repo true m) ->
  exists s', subscribe_all l s = Done (tt, s') /\ repository s' = Some (Repo true (files_of l m)).
Proof.
  induction l as [|a l IH]; intros s m F E; cbn [subscribe_all]; [now exists s|]. apply Forall_cons in F as [Fa F].
  destruct (accepted_eq a s m Fa E) as (v & s1 & S & E1). step S. exact (IH s1 _ F E1).
Qed.
Lemma files_of_other l : forall m n, n ∉ map ac_name l -> files_of l m !! n = m !! n.
Proof.
  induction l as [|a l IH]; intros m n Nn; [done|]. cbn [map] in Nn. apply not_elem_of_cons in Nn as [N1 N2].
  unfold files_of. cbn [foldl]. fold (files_of l (<[ac_name a := ac_file a]> m)). rewrite IH by done. now apply lookup_insert_ne.
Qed.
Lemma files_of_own l : forall m a, NoDup (map ac_name l) -> a ∈ l -> files_of l m !! ac_name a = Some (ac_file a).
Proof.
  induction l as [|b l IH]; intros m a ND Ha; [now apply elem_of_nil in Ha|]. cbn [map] in ND. apply NoDup_cons in ND as [Nb ND].
  unfold files_of. cbn [foldl]. fold (files_of l (<[ac_name b := ac_file b]> m)). apply elem_of_cons in Ha as [->|Ha]; [|now apply IH].
  rewrite files_of_other by done. apply lookup_insert_eq.
Qed.
(** What is read out of the directory. *)
Lemma load_eq files names (docs : cstring -> subscribe_request) :
  (forall n, n ∈ List.filter is_saved (reverse names) -> files !! n = Some (docs n)) ->
  LocalSubscriptionOpLoad names (Repo true files) = (0, map (fun n => (n, docs n)) (List.filter is_saved (reverse names))).
Proof.
  unfold LocalSubscriptionOpLoad. cbn [r_init negb r_files]. generalize (reverse names) as l.
  induction l as [|n l IH]; intros H; [done|]. cbn [List.filter] in *. destruct (is_saved n) eqn:E; cbn [negb].
  - rewrite H by left. cbn [map]. rewrite IH; [done|]. intros m Hm. apply H. now right.
  - now apply IH.
Qed.

(** The dispatcher calls the handler of Subscribe for each of the files, loaded in this order, with an end point
    that accepts the subscription. *)
Fixpoint admits_all (D : @start_dispatcher Poll Cancel) (names : list cstring) (ids : option (list cstring)) : Prop :=
  match names with
  | [] => True
  | n :: names => exists ep ids', dispatched D n ids = Done (Some ep, ids') /\ endpoint_ok ep /\ (forall i, (run ep i).1.1 = 0) /\ admits_all D names ids'
  end.
(** The info of a subscription after the restart: made of the request as the info before it was, without the
    credentials of the HTTP request, with the time that it had, shown to the plug-in, and with its id. *)
Definition restored (ep : option (@endpoint Poll Cancel)) (made_id : list ascii) (a : accepted) : info :=
  with_id (copy_id (ac_id a)) (run ep (with_id made_id (with_expires (expires (ac_info a)) (no_auth (ac_made a))))).1.2.
Definition is_restored (D : @start_dispatcher Poll Cancel) s (a : accepted) p : Prop :=
  exists ep ids ids' made_id, dispatched D (ac_name a) ids = Done (Some ep, ids') /\
    infos s !! p = Some (restored ep made_id a) /\ sub_id (restored ep made_id a) = ac_id a.
Lemma restore_one D e' a ids ids' ep s : accepted_ok a -> in_time e' a -> restart_env e' ->
  dispatched D (ac_name a) ids = Done (Some ep, ids') -> endpoint_ok ep -> (forall i, (run ep i).1.1 = 0) ->
  wsman_clean_subsrepository mktime e' (ac_name a) (ac_file a) s = Done (false, s) /\
  exists made_id s', wsman_repos_notification_dispatcher mktime localtime D e' (ac_name a) (ac_file a) (length (subscriptionMemList s)) ids s = Done (ids', s') /\
    subscriptionMemList s' = subscriptionMemList s ++ [new_ptr s] /\
    infos s' = <[new_ptr s := restored ep made_id a]> (infos s) /\ senders s' = senders s /\ sendings s' = sendings s /\
    sub_id (restored ep made_id a) = ac_id a.
Proof.
  intros A T (Al & Mu & Rs & Nd & Lu) Dp K R. pose proof (in_time_read e' a 0 T) as X. pose proof (accepted_id a A) as (Ei & Nn & Ln).
  pose proof A as [M _ _ Bx [Nul _]]. set (str := wsman_expiretime2xmldatetime localtime (expires (ac_info a))) in *. split.
  { unfold wsman_clean_subsrepository. replace (q_body (ac_file a) ≫= b_expires) with (Some (Some str)).
    - erewrite mbind_eq; [|unfold mlift; rewrite X; reflexivity]. cbv beta iota. now rewrite (it_left _ _ T), andb_false_r.
    - destruct Bx as (b & Eb & t0 & Ex). unfold ac_file, saved_request, set_expires_text. rewrite Eb. cbn. now rewrite Ex. }
  destruct (make_info_saved (ac_env a) e' (ac_req a) (ac_made a) str (ac_id a) _ M Bx Al Mu X (it_left _ _ T)) as [mid M'].
  fold (ac_file a) in M'. set (x := with_id mid (with_expires (expires (ac_info a)) (no_auth (ac_made a)))) in *.
  destruct (new_info_ok ep e' (ac_file a) x K (make_info_new _ _ _ M')) as (_ & _ & _ & Di & _).
  assert (Nm : NUL ∈ subsId (fixed (run ep x).1.2)).
  { rewrite Di, (n_id _ _ _ (make_info_new _ _ _ M')). unfold ac_file, saved_request. cbn [q_former].
    destruct Bx as (b & Eb & _). unfold set_expires_text. rewrite Eb. cbn [q_former].
    destruct (q_former (ac_req a)) as [[t|]|] eqn:Ef; [|now apply copy_id_nul..].
    pose proof (n_id _ _ _ (make_info_new _ _ _ M)) as Hi. rewrite Ef in Hi. now rewrite <- Hi. }
  exists mid. destruct (subscribe_eq e' ep s (ac_file a) x M') as [r S]. rewrite R, Rs, Nd, bool_decide_true in S by done.
  change (negb (0 =? 0)) with false in S. cbn [negb andb] in S. set (s1 := subscribed e' (ac_file a) (new_ptr s) (run ep x).1.2 s) in *.
  exists (put (new_ptr s) (restored ep mid a) s1). split; [|split; [done|split; [apply insert_insert_eq|split; [done|split; [done|]]]]].
  - unfold wsman_repos_notification_dispatcher. erewrite mbind_eq; [|unfold mlift; rewrite Dp; reflexivity]. cbv beta iota.
    erewrite mbind_eq; [|erewrite mbind_eq; [reflexivity|exact S]]. cbv beta.
    refine (eq_trans (mbind_eq _ _ _ _ _ eq_refl) _). cbv beta. change (subscriptionMemList s1) with (subscriptionMemList s ++ [new_ptr s]).
    rewrite length_app. destruct (Nat.ltb_spec (length (subscriptionMemList s)) (length (subscriptionMemList s) + length [new_ptr s])); [|simpl in *; lia].
    rewrite last_snoc. change (drop 5 (ac_name a)) with (ac_id a).
    erewrite mbind_eq; [reflexivity|]. apply (upd_info_eq s1 _ (run ep x).1.2). apply lookup_insert_eq.
  - unfold restored, sub_id. cbn [with_id fixed subsId]. now apply copy_id_text.
Qed.
Lemma load_loop_ok D envs l : forall ids s, (forall a, a ∈ l -> accepted_ok a /\ in_time (envs (ac_name a)) a /\ restart_env (envs (ac_name a))) ->
  admits_all D (map ac_name l) ids ->
  exists ps s', load_loop mktime localtime D envs (map (fun a => (ac_name a, ac_file a)) l) ids s = Done (tt, s') /\
    subscriptionMemList s' = subscriptionMemList s ++ ps /\ Forall2 (is_restored D s') l ps /\ NoDup ps /\
    (forall p, p ∈ ps -> infos s !! p = None) /\ (forall p i, infos s !! p = Some i -> infos s' !! p = Some i) /\
    senders s' = senders s /\ sendings s' = sendings s.
Proof.
  induction l as [|a l IH]; intros ids s H Ad; cbn [map load_loop].
  { exists [], s. rewrite app_nil_r. split_and!; try done; [constructor|now intros p ?%elem_of_nil]. }
  destruct Ad as (ep & ids' & Dp & K & R & Ad). destruct (H a) as (A & T & En); [left|].
  destruct (restore_one D _ a ids ids' ep s A T En Dp K R) as (Cl & mid & s1 & Rd & L1 & I1 & S1 & T1 & Sd). step Cl.
  erewrite mbind_eq; [|refine (eq_trans (mbind_eq _ _ _ _ _ eq_refl) _); cbv beta; exact Rd]. cbv beta.
  destruct (IH ids' s1) as (ps & s2 & E & L2 & F2 & ND & Fr & Kp & S2 & T2); [intros b Hb; apply H; now right|done|].
  pose proof (new_ptr_fresh s) as Fp. assert (Hp : infos s1 !! new_ptr s = Some (restored ep mid a)) by (rewrite I1; apply lookup_insert_eq).
  exists (new_ptr s :: ps), s2. split; [exact E|]. split; [rewrite L2, L1, <- app_assoc; done|]. split_and!.
  - constructor; [|exact F2]. exists ep, ids, ids', mid. split; [done|]. split; [now apply Kp|done].
  - constructor; [|done]. intros Hn. apply Fr in Hn. congruence.
  - intros p [->|Hp']%elem_of_cons; [done|]. apply Fr in Hp'. rewrite I1 in Hp'. now apply lookup_insert_None in Hp' as [? _].
  - intros p i Ei. apply Kp. rewrite I1. rewrite lookup_insert_ne; [done|]. intros <-. congruence.
  - now rewrite S2.
  - now rewrite T2.
Qed.

(** The server as it starts, with a repository and nobody subscribed. *)
Definition nobody (limit : Z) (r : repo) : server := Server [] ∅ (Pool [] limit) (Some r) [] [].
Lemma nobody_good limit r : good (nobody limit r).
Proof.
  constructor; cbn; try done; try (now constructor); try (intros p; rewrite elem_of_nil; done). split; constructor.
Qed.

(** C31. Subscriptions outlive a restart: when any number of requests, each accepted by its plug-in, with an Expires, with an id of at
    least 36 characters that no other has, and saved to the disk, have been handled one after another by a server with an empty
    repository, then a server that starts with the files of that repository, whatever other names that are not those of
    saved subscriptions the directory has, and in whatever order it lists them, has exactly these subscriptions again, in
    the order in which the files are loaded: each with its old id and its old time, with everything else that its request had
    said but without the credentials of the HTTP request that made it, as the plug-in leaves it.
    This supposes that each time can be written in the time zone and read back, in the same zone and with daylight saving
    as it was then, and has not come yet; that the dispatcher lets each of the documents through its checks and finds the
    handler of Subscribe for it, with an end point of a plug-in that accepts it; and that memory can be allocated. *)
Theorem restart_restores D envs subs names limit : Forall accepted_ok subs -> NoDup (map ac_name subs) ->
  List.filter is_saved (reverse names) ≡ₚ map ac_name subs ->
  (forall a, a ∈ subs -> in_time (envs (ac_name a)) a /\ restart_env (envs (ac_name a))) ->
  admits_all D (List.filter is_saved (reverse names)) None ->
  exists s1 r1 s2 ord, subscribe_all subs (nobody limit (Repo true ∅)) = Done (tt, s1) /\ repository s1 = Some r1 /\
    wsman_event_init mktime localtime D envs true names (r_files r1) (Server [] ∅ (Pool [] limit) None [] []) = Done (tt, s2) /\
    ord ≡ₚ subs /\ map ac_name ord = List.filter is_saved (reverse names) /\
    NoDup (subscriptionMemList s2) /\ Forall2 (is_restored D s2) ord (subscriptionMemList s2).
Proof.
  intros F ND P H Ad. destruct (subscribe_all_eq subs (nobody limit (Repo true ∅)) ∅ F eq_refl) as (s1 & S1 & R1).
  destruct (Permutation_map_inv _ _ P) as (ord & Eo & Po). set (files := files_of subs ∅) in *.
  assert (Own : forall a, a ∈ ord -> files !! ac_name a = Some (ac_file a)).
  { intros a Ha. apply files_of_own; [done|]. now rewrite Po. }
  pose (docs := fun n => default (SubReq None None None [] false None None None) (files !! n)).
  assert (Ld : LocalSubscriptionOpLoad names (Repo true files) = (0, map (fun a => (ac_name a, ac_file a)) ord)).
  { rewrite (load_eq files names docs).
    - rewrite Eo, map_map. f_equal. apply map_ext_in. intros a Ha. apply list_elem_of_In in Ha. unfold docs. now rewrite (Own a Ha).
    - intros n Hn. rewrite Eo in Hn. apply list_elem_of_fmap in Hn as (a & -> & Ha). unfold docs. now rewrite (Own a Ha). }
  rewrite Eo in Ad. set (s0 := Server [] ∅ (Pool [] limit) (Some (Repo true files)) [] [] : server).
  destruct (load_loop_ok D envs ord None s0) as (ps & s2 & L & Ls & Fr & NDp & _); [|exact Ad|].
  { intros a Ha. rewrite <- Po in Ha. rewrite Forall_forall in F. split; [now apply F|now apply H]. }
  exists s1, (Repo true files), (set_events (MemEventPoolInit None (events s2)).2 s2), ord. split; [exact S1|]. split; [exact R1|].
  split; [|split; [now symmetry|split; [now symmetry|]]].
  - unfold wsman_event_init. cbn [LocalSubscriptionOpInit snd r_files]. refine (eq_trans (mbind_eq _ _ _ _ _ eq_refl) _). cbv beta.
    rewrite Ld. change (0 =? 0) with true. cbv iota. change (set_repository (Some (Repo true files)) _) with s0. step L. reflexivity.
  - change (subscriptionMemList (set_events _ s2)) with (subscriptionMemList s2). rewrite Ls. now split.
Qed.

(** ** The passes of the manager and of the timer *)
Context (poll : Poll -> info -> pool N -> Z * pool N) (source : Poll -> info -> list N -> Z * list N).
(** C13. A pass of the notification manager does to every subscription what its turn is to do, whatever
    the others get: one that has been unsubscribed, cancelled or has expired, and for which no thread works,
    is taken out with its events and its file; of another one the events that its plug-in and its queue
    have are handed to one new thread, one event or, in the mode that batches them, all, but nothing
    while a thread works for it or for a subscription that pulls. *)
Theorem manager_pass creates now s : poll_law poll source -> good s -> distinct s -> exists s',
  wse_notification_manager creates poll now s = Done (tt, s') /\ good s' /\
  passed creates source now (subscriptionMemList s) s s'.
Proof. intros Law G D. apply manager_loop_ok; [done..|apply G|done]. Qed.

(** A pass of the timer counts down the time to the next heartbeat of every subscription that is alive and
    not pulled, by a second; when the time is over it starts anew, and a thread that sends a heartbeat is made,
    unless an event has been sent since, or a thread still works, or none can be made. *)
Theorem timer_pass creates now s : good s -> exists s', wsman_heartbeat_generator creates now s = Done (tt, s') /\ good s' /\
  beaten creates now (subscriptionMemList s) s s'.
Proof. intros G. apply heartbeat_loop_ok; [done|apply G|done]. Qed.

Lemma distinct_put s p i j : distinct s -> infos s !! p = Some i -> sub_id j = sub_id i -> distinct (put p j s).
Proof.
  intros D E Sj a b ia ib Ha Hb Eq. cbn in Ha, Hb.
  assert (F : forall q iq, (<[p := j]> (infos s) : gmap positive info) !! q = Some iq -> exists k, infos s !! q = Some k /\ sub_id k = sub_id iq).
  { intros q iq. destruct (decide (q = p)) as [->|]; [rewrite lookup_insert_eq; intros [= <-]; eauto|rewrite lookup_insert_ne by done; eauto]. }
  destruct (F a ia Ha) as (ka & Ka & Ea), (F b ib Hb) as (kb & Kb & Eb). apply (D a b ka kb Ka Kb). now rewrite Ea, Eb.
Qed.
(** What an update does to the files: only the one with the name changes, and only when it is there and can be written. *)
Definition updated_files (e : env) (id str : cstring) (r r' : repo) : Prop :=
  r_init r' = r_init r /\ (forall n, n <> file_name id -> r_files r' !! n = r_files r !! n) /\
  r_files r' !! file_name id =
    (if r_init r && e_disk e then (fun d => set_expires_text d str) <$> r_files r !! file_name id else r_files r !! file_name id).
Lemma update_files e id str r : updated_files e id str r (LocalSubscriptionOpUpdate (e_disk e) id str r).2.
Proof.
  unfold LocalSubscriptionOpUpdate, updated_files. destruct (r_init r) eqn:In; cbn [negb andb snd]; [|done].
  destruct (r_files r !! file_name id) as [d|] eqn:E; cbn [snd].
  - destruct (e_disk e); cbn [negb snd]; [|done]. split; [done|]. cbn [r_files]. split; [intros n Nn; now apply lookup_insert_ne|apply lookup_insert_eq].
  - rewrite E. now destruct (e_disk e).
Qed.
(** C32. Renew finds the first subscription with the id, in any letter case. When the time that is asked for can be read, and the
    plug-in, which is shown the info with this time, accepts it, the request is answered, the info is the one that the plug-in leaves
    (it may change everything but the id, the lock and the flags of ending and of pending work), and nothing else of the server changes
    but one file of the repository: the one that is named with the id in the letters of the request. If it is there, the repository
    is in use and the file can be written, it has the same request as before with the new time for its Expires, if it had one, a time
    that is read back as the one of the info, as long as it can be written in the time zone; otherwise, as when the letters differ
    in case, no file changes. When the time is refused, or the plug-in refuses, the lock of the info is let go a second time,
    which is undefined: there is no answer. (For a request that is not interrupted by other threads, with an identifier of at
    least five characters, and a text for which the reading of the time is defined.) *)
Theorem renew_spec e ep s u text p i exp code : good s -> endpoint_ok ep -> (5 <= length u)%nat ->
  List.find (is_sub s (drop 5 u)) (subscriptionMemList s) = Some p -> infos s !! p = Some i ->
  wsman_set_expiretime mktime (e_isdst e) (e_now e) text (expires i) = Done (exp, code) ->
  let j := (run ep (renewed exp i)).1.2 in let str := wsman_expiretime2xmldatetime localtime exp in
  if bool_decide (code = WSMAN_RC_OK) && ((run ep (renewed exp i)).1.1 =? 0) then
    exists s' r r', wse_renew_stub mktime localtime e ep (Some u) text s = Done ((0, if e_response e then Some (RRenew text) else None), s') /\
      infos s' = <[p := j]> (infos s) /\ expires (renewed exp i) = exp /\
      subscriptionMemList s' = subscriptionMemList s /\ events s' = events s /\ senders s' = senders s /\ sendings s' = sendings s /\
      repository s = Some r /\ repository s' = Some r' /\ updated_files e (drop 5 u) str r r' /\
      (0 <= exp < 2 ^ 63 -> tm_ok (localtime exp) -> tm_isdst (localtime exp) = e_isdst e -> mktime (localtime exp) = exp ->
        forall now old, wsman_set_expiretime mktime (e_isdst e) now (Some str) old = Done (exp, WSMAN_RC_OK))
  else forall v s', wse_renew_stub mktime localtime e ep (Some u) text s <> Done (v, s').
Proof.
  intros G K L F E X j str. assert (Lp : p ∈ subscriptionMemList s).
  { pose proof (List.find_some _ _ F) as [H _]. now apply list_elem_of_In. }
  destruct (renew_found_eq e ep s p i u text exp code G K Lp E X) as [G1 Rf].
  assert (St : wse_renew_stub mktime localtime e ep (Some u) text s = renew_found mktime localtime e ep u text p s).
  { unfold wse_renew_stub. erewrite mbind_eq; [|apply search_eq; done]. now rewrite F. }
  rewrite St, Rf. destruct (_ && _); [|done]. destruct (g_repo _ G) as [r R].
  eexists _, r, _. split; [reflexivity|]. cbn [infos subscriptionMemList events senders sendings repository set_repository put set_infos].
  split_and!; try done.
  - unfold update_file. now rewrite R.
  - apply update_files.
  - intros B T I M now old. now apply expiry_read.
Qed.

(** A Subscribe request whose Expires is a duration that cannot be read is undefined: the fault it is to be
    answered with has no row in the tables, and the info that was not made is used. *)
Theorem subscribe_bad_expires e ep s q b t : e_alloc e = true -> e_mutex e = true -> is_Some (q_uri q) -> is_Some (q_ns q) -> q_body q = Some b ->
  b_expires b = Some (Some t) -> HttpText.peek t = "P"%char -> ws_deserialize_duration (Some t) = Done None ->
  wse_subscribe_stub mktime localtime e ep q s = Undef.
Proof.
  intros Al Mu [u Eu] [n En] Eb Ex P W.
  assert (M : make_info (Poll := Poll) (Cancel := Cancel) mktime e q = Done (inr (WSEN_INVALID_EXPIRATION_TIME, WSMAN_DETAIL_OK))).
  { unfold make_info. rewrite Al, Mu, Eu, En, Eb. cbn. rewrite Ex. unfold read_expires, wsman_set_expiretime. rewrite bool_decide_true by done.
    rewrite W. cbn. now rewrite bool_decide_false. }
  assert (F : wsman_generate_fault WSEN_INVALID_EXPIRATION_TIME WSMAN_DETAIL_OK None = Done None) by (vm_compute; reflexivity).
  unfold wse_subscribe_stub, subscribe_prepare, create_subs_info, mbind, M_bind, mlift. rewrite M. cbn [obind]. rewrite F. done.
Qed.
End Req.

(** ** A concrete server *)
Definition no_poll : unit -> @WsSubscribeInfo unit unit -> pool nat -> Z * pool nat := fun _ _ pl => (0, pl).
Definition no_source : unit -> @WsSubscribeInfo unit unit -> list nat -> Z * list nat := fun _ _ q => (0, q).
Lemma no_poll_law : poll_law no_poll no_source.
Proof. intros f i pl K. split; [done|]. split; [done|]. apply holds_refl. Qed.
Definition demo_mode (m : string) (t : string) : subscribe_request :=
  SubReq (Some (lit "http://r")) (Some (lit "http://s")) (Some (Body false None (Some (Some (lit t)))
    (Delivery (Some (lit m)) None None (Some (Some (lit "PT2S"))) (Some (Some (lit "http://localhost:80/sink"))) None)
    (Some (lit "http://schemas.microsoft.com/wbem/wsman/1/WQL"), None))) [] false (Some (lit "admin")) (Some (lit "pw")) None.
Definition demo_request : subscribe_request := demo_mode "http://schemas.dmtf.org/wbem/wsman/1/wsman/PushWithAck" "PT1H".
Definition demo_id : cstring := lit "11111111-2222-3333-4444-aaaaaaaaaaaa".
Definition demo_env (now : Z) : env := Env now 0 demo_id true true true true true true.
Definition demo_start : @server nat unit unit := Server [] ∅ (Pool [] 5) (Some (Repo true ∅)) [] [].
Definition state_of {A S} (o : outcome (A * S)) (d : S) : S := match o with Done (_, s) => s | _ => d end.
Definition demo_sub : @server nat unit unit := state_of (wse_subscribe_stub utc_mktime utc_time (demo_env 1000) None demo_request demo_start) demo_start.
Definition demo_event (s : @server nat unit unit) (n : nat) : @server nat unit unit :=
  match MemEventPoolAddEvent demo_id (Some n) (events s) with Done (_, pl) => set_events pl s | _ => s end.
Definition demo_two : @server nat unit unit := demo_event (demo_event demo_sub 7) 8.
Definition all_threads : positive -> bool := fun _ => true.
Definition demo_pass (now : Z) (s : @server nat unit unit) : @server nat unit unit := state_of (wse_notification_manager all_threads no_poll now s) s.
Definition demo_ack (a : string) : option ack :=
  Some (Ack true (Some (Some (lit "uuid:M"))) (Some (lit a))).
Definition good_ack : option ack := demo_ack "http://schemas.dmtf.org/wbem/wsman/1/wsman/Ack".
Definition demo_send (now : Z) (a : option ack) (s : @server nat unit unit) : @server nat unit unit :=
  state_of (wse_event_sender now (lit "uuid:m") a 0 s) s.
(** What can be seen of a server: its subscriptions, the events in the pool, the threads, the messages that left. *)
Definition seen (s : @server nat unit unit) : nat * list nat * list (option (list nat)) * list (@sending nat unit) :=
  (length (subscriptionMemList s), queue (events s) demo_id, map t_events (senders s), sendings s).
Example push_one : seen (demo_pass 1001 demo_two) = (1%nat, [8%nat], [Some [7%nat]], []).
Proof. vm_compute. reflexivity. Qed.
Example sent_one : seen (demo_send 1002 good_ack (demo_pass 1001 demo_two)) = (1%nat, [8%nat], [], [Sent demo_id (Some [7%nat])]).
Proof. vm_compute. reflexivity. Qed.
(** A sink that does not acknowledge loses its subscription with the next pass. *)
Example no_ack : seen (demo_pass 1003 (demo_send 1002 None (demo_pass 1001 demo_two))) = (0%nat, [], [], [Sent demo_id (Some [7%nat])]).
Proof. vm_compute. reflexivity. Qed.
(** A second pass before the thread has sent the first event loses the second one. *)
Example event_lost : seen (demo_pass 1002 (demo_pass 1001 demo_two)) = (1%nat, [], [Some [7%nat]], []).
Proof. vm_compute. reflexivity. Qed.
Example events_batched : seen (demo_pass 1001 (demo_event (demo_event (state_of (wse_subscribe_stub utc_mktime utc_time (demo_env 1000) None
    (demo_mode "http://schemas.dmtf.org/wbem/wsman/1/wsman/Events" "PT1H") demo_start) demo_start) 7) 8)) = (1%nat, [], [Some [7%nat; 8%nat]], []).
Proof. vm_compute. reflexivity. Qed.
Example expired_gone : seen (demo_pass 4601 demo_two) = (0%nat, [], [], []).
Proof. vm_compute. reflexivity. Qed.
(** An unknown delivery mode is taken for Pull. *)
Example mode_unknown : read_mode (Some (lit "http://example.org/Trap")) = PULL.
Proof. reflexivity. Qed.
(** When the manager takes a subscription out between the two parts of an Unsubscribe or a Renew, the second part
    uses an info that is gone. *)
Example unsubscribe_race : search (Some (lit "uuid:" ++ demo_id)) (subscriptionMemList demo_two) demo_two = Done (Some 1%positive, demo_two) /\
  unsubscribe_found (demo_env 4602) None 1%positive (demo_pass 4601 demo_two) = Undef /\
  renew_found utc_mktime utc_time (demo_env 4602) None (lit "uuid:" ++ demo_id) (Some (lit "PT1H")) 1%positive (demo_pass 4601 demo_two) = Undef.
Proof. split; [|split]; vm_compute; reflexivity. Qed.
(** An answer whose RelatesTo has no text stops the server, and so does one without an Action. *)
Example empty_relates : wse_event_sender 1002 (lit "uuid:m") (Some (Ack true (Some None) None)) 0 (demo_pass 1001 demo_two) = Undef.
Proof. vm_compute. reflexivity. Qed.
Example no_action : wse_event_sender 1002 (lit "uuid:m") (Some (Ack true (Some (Some (lit "uuid:M"))) None)) 0 (demo_pass 1001 demo_two) = Undef.
Proof. vm_compute. reflexivity. Qed.
(** A subscription without an expiry time is deleted from the repository at the start. *)
Example forever_deleted : wsman_clean_subsrepository (N := nat) (Poll := unit) (Cancel := unit) utc_mktime (demo_env 1000) (file_name demo_id)
    (SubReq None None (Some (Body false None None (Delivery None None None None None None) (None, None))) [] false None None None)
    (Server [] ∅ (Pool [] 5) (Some (Repo true ∅)) [] []) = Done (true, Server [] ∅ (Pool [] 5) (Some (Repo true ∅)) [] []).
Proof. vm_compute. reflexivity. Qed.

Definition demo_info : @WsSubscribeInfo unit unit :=
  match infos demo_sub !! 1%positive with Some i => i | None => SubInfo (Fixed [] [] [] None None None None None None PUSH 0 0 false false None None None None None) 0 0 0 false false end.
Lemma demo_infos (s : @server nat unit unit) p i : infos s = infos demo_sub -> infos s !! p = Some i -> p = 1%positive /\ i = demo_info.
Proof.
  intros ->. replace (infos demo_sub) with ({[1%positive := demo_info]} : gmap positive (@WsSubscribeInfo unit unit)) by (vm_compute; reflexivity).
  now intros [<- <-]%lookup_singleton_Some.
Qed.
Lemma no_endpoint_ok : endpoint_ok (None : option (@endpoint unit unit)).
Proof. now intros f i. Qed.
Lemma demo_event_good s n : good s -> Z.of_nat (length (queue (events s) demo_id)) < 2 ^ 31 - 1 -> good (demo_event s n).
Proof.
  intros G L. unfold demo_event. destruct (add_ok (events s) demo_id n (g_pool _ G)) as (pl & A & K & _); [reflexivity|done|].
  rewrite A. now apply good_events.
Qed.
Lemma demo_sub_good : good demo_sub.
Proof.
  apply (subscribe_good utc_mktime utc_time (demo_env 1000) None (nobody 5 (Repo true ∅)) demo_request (0, Some (welcome demo_request demo_info (Some (Repo true ∅)))));
    [apply nobody_good|apply no_endpoint_ok|vm_compute; reflexivity|].
  intros p i _ H. apply demo_infos in H as [_ ->]; [|reflexivity]. split; vm_compute; discriminate.
Qed.
Lemma demo_two_good : good demo_two.
Proof. unfold demo_two. apply demo_event_good; [apply demo_event_good; [apply demo_sub_good|reflexivity]|vm_compute; reflexivity]. Qed.
Lemma demo_distinct : distinct demo_two.
Proof. intros p q i j [-> _]%demo_infos [-> _]%demo_infos _; reflexivity. Qed.
Lemma manager_pass_witness : exists s', wse_notification_manager all_threads no_poll 4601 demo_two = Done (tt, s') /\
  subscriptionMemList s' = [] /\ senders s' = [].
Proof.
  destruct (manager_pass no_poll no_source all_threads 4601 demo_two no_poll_law demo_two_good demo_distinct) as (s' & M & _ & P).
  exists s'. split; [exact M|]. rewrite (pa_list _ _ _ _ _ _ P), (pa_senders _ _ _ _ _ _ P). split; vm_compute; reflexivity.
Defined.
Lemma timer_pass_witness : exists s', wsman_heartbeat_generator all_threads 1001 demo_two = Done (tt, s') /\
  infos s' !! 1%positive = Some (with_countdown 1000 demo_info) /\ senders s' = [].
Proof.
  destruct (timer_pass all_threads 1001 demo_two demo_two_good) as (s' & M & _ & P). exists s'. split; [exact M|].
  rewrite (be_info _ _ _ _ _ P), (be_senders _ _ _ _ _ P). split; vm_compute; reflexivity.
Defined.
Lemma renew_spec_witness :
  (exists s' r r', wse_renew_stub utc_mktime utc_time (demo_env 1001) None (Some (lit "uuid:" ++ demo_id)) (Some (lit "PT2H")) demo_two =
    Done ((0, Some (RRenew (Some (lit "PT2H")))), s') /\ expires <$> infos s' !! 1%positive = Some 8201 /\
    repository demo_two = Some r /\ repository s' = Some r' /\ updated_files (demo_env 1001) demo_id (lit "1970-01-01T02:16:41+00:00") r r') /\
  forall v s', wse_renew_stub utc_mktime utc_time (demo_env 1001) None (Some (lit "uuid:" ++ demo_id)) (Some (lit "soon")) demo_two <> Done (v, s').
Proof.
  split.
  - destruct (renew_spec utc_mktime utc_time (demo_env 1001) None demo_two (lit "uuid:" ++ demo_id) (Some (lit "PT2H")) 1%positive demo_info 8201 WSMAN_RC_OK
        demo_two_good no_endpoint_ok ltac:(vm_compute; lia) ltac:(vm_compute; reflexivity) ltac:(vm_compute; reflexivity) ltac:(vm_compute; reflexivity))
      as (s' & r & r' & E & I & X & _ & _ & _ & _ & R & R' & U & _).
    exists s', r, r'. split; [exact E|]. split; [rewrite I, lookup_insert_eq; exact (f_equal Some X)|]. split; [exact R|]. split; [exact R'|]. exact U.
  - exact (renew_spec utc_mktime utc_time (demo_env 1001) None demo_two (lit "uuid:" ++ demo_id) (Some (lit "soon")) 1%positive demo_info 4600 WSEN_UNSUPPORTED_EXPIRATION_TYPE
      demo_two_good no_endpoint_ok ltac:(vm_compute; lia) ltac:(vm_compute; reflexivity) ltac:(vm_compute; reflexivity) ltac:(vm_compute; reflexivity)).
Defined.
(** In other letters the identifier is found too, but the file with the old time stays as it is. *)
Definition renewed_expiry (id : cstring) : option Z * option (option (option cstring)) :=
  let s := state_of (wse_renew_stub utc_mktime utc_time (demo_env 1001) None (Some (lit "uuid:" ++ id)) (Some (lit "PT2H")) demo_two) demo_two in
  (expires <$> infos s !! 1%positive, (fun d => q_body d ≫= b_expires) <$> (repository s ≫= fun r => r_files r !! file_name demo_id)).
Example renew_other_case : renewed_expiry demo_id = (Some 8201, Some (Some (Some (lit "1970-01-01T02:16:41+00:00")))) /\
  renewed_expiry (lit "11111111-2222-3333-4444-AAAAAAAAAAAA") = (Some 8201, Some (Some (Some (lit "1970-01-01T01:16:40+00:00")))).
Proof. split; vm_compute; reflexivity. Qed.
Definition demo_bad_body : subscribe_body := match q_body (demo_mode "" "P1H") with Some b => b | None => Body false None None (Delivery None None None None None None) (None, None) end.
Lemma subscribe_bad_expires_witness : wse_subscribe_stub utc_mktime utc_time (demo_env 1000) None (demo_mode "" "P1H") demo_start = Undef.
Proof.
  apply (subscribe_bad_expires utc_mktime utc_time (demo_env 1000) None demo_start (demo_mode "" "P1H") demo_bad_body (lit "P1H")); try reflexivity; try (now eexists).
Defined.
(** Two subscriptions, saved and loaded; their documents pass the checks of the dispatcher one after another. *)
Definition demo_made (id : cstring) : @WsSubscribeInfo unit unit :=
  match make_info utc_mktime (Env 1000 0 id true true true true true true) demo_request with Done (inl i) => i | _ => demo_info end.
Definition demo_accepted (id : cstring) : @accepted unit unit := Acc (Env 1000 0 id true true true true true true) None demo_request (demo_made id).
Definition demo_other : cstring := lit "22222222-2222-3333-4444-bbbbbbbbbbbb".
Definition demo_document (name : cstring) : option Xml.Xml.xml :=
  let leaf ns m t := Xml.Xml.Elem (Some ns) m [] [Xml.Xml.Text t] in
  Some (Envelope.Envelope.envelope [
    leaf Names.Names.XML_NS_WS_MAN Names.Names.WSM_RESOURCE_URI (lit "http://r"); leaf Names.Names.XML_NS_ADDRESSING Names.Names.WSA_ACTION (lit "http://schemas.xmlsoap.org/ws/2004/08/eventing/Subscribe");
    leaf Names.Names.XML_NS_ADDRESSING Names.Names.WSA_MESSAGE_ID (lit "m-" ++ name);
    Xml.Xml.Elem (Some Names.Names.XML_NS_ADDRESSING) Names.Names.WSA_REPLY_TO [] [leaf Names.Names.XML_NS_ADDRESSING Names.Names.WSA_ADDRESS (lit "http://me")];
    leaf Names.Names.XML_NS_ADDRESSING Names.Names.WSA_TO (lit "http://you")] []).
Definition demo_dispatching : @start_dispatcher unit unit :=
  StartDispatcher Xml.Xml.demo_content Envelope.Envelope.demo_prefix [] Dispatcher.Dispatcher.demo_soap (fun _ => Done (Some (Some None))) demo_document.
Definition demo_names : list cstring := [lit "."; lit ".."; file_name demo_id; file_name demo_other].
Lemma demo_accepted_ok id : id ∈ [demo_id; demo_other] -> accepted_ok utc_mktime (demo_accepted id).
Proof.
  intros Hid. assert (bool_decide (id = demo_id \/ id = demo_other) = true) as D.
  { apply bool_decide_eq_true. apply elem_of_cons in Hid as [->|Hid]; [now left|]. apply list_elem_of_singleton in Hid as ->. now right. }
  apply bool_decide_eq_true in D as [-> | ->]; (constructor; [vm_compute; reflexivity|split; [apply no_endpoint_ok|reflexivity]|repeat split|
    eexists; split; [vm_compute; reflexivity|eexists; reflexivity]|split; [apply (bool_decide_eq_true_1 _); vm_compute; reflexivity|vm_compute; lia]]).
Qed.
Lemma restart_restores_witness : exists (s1 : @server nat unit unit) r1 (s2 : @server nat unit unit) ord,
  subscribe_all utc_mktime utc_time [demo_accepted demo_id; demo_accepted demo_other] (nobody 5 (Repo true ∅)) = Done (tt, s1) /\ repository s1 = Some r1 /\
  wsman_event_init utc_mktime utc_time demo_dispatching (fun _ => demo_env 2000) true demo_names (r_files r1) (Server [] ∅ (Pool [] 5) None [] []) = Done (tt, s2) /\
  map ac_name ord = [file_name demo_other; file_name demo_id] /\ Forall2 (is_restored demo_dispatching s2) ord (subscriptionMemList s2).
Proof.
  destruct (restart_restores (N := nat) utc_mktime utc_time demo_dispatching (fun _ => demo_env 2000) [demo_accepted demo_id; demo_accepted demo_other] demo_names 5)
    as (s1 & r1 & s2 & ord & S1 & R1 & S2 & _ & O & _ & Fr).
  - constructor; [apply demo_accepted_ok; left|]. constructor; [apply demo_accepted_ok; right; left|constructor].
  - apply (bool_decide_eq_true_1 _). vm_compute. reflexivity.
  - apply (bool_decide_eq_true_1 _). vm_compute. reflexivity.
  - intros a Ha. split; [|repeat split; vm_compute; lia].
    assert (expires (ac_info a) = 4600) as E.
    { apply elem_of_cons in Ha as [->|Ha]; [vm_compute; reflexivity|]. apply list_elem_of_singleton in Ha as ->. vm_compute. reflexivity. }
    constructor; rewrite E; [lia|split; [repeat split; vm_compute; congruence|reflexivity]|vm_compute; reflexivity|vm_compute; reflexivity].
  - replace (List.filter is_saved (reverse demo_names)) with [file_name demo_other; file_name demo_id] by (vm_compute; reflexivity). cbn [admits_all].
    exists None, (Some [lit "m-" ++ file_name demo_other]). split; [vm_compute; reflexivity|]. split; [apply no_endpoint_ok|]. split; [intros i; reflexivity|].
    exists None, (Some [lit "m-" ++ file_name demo_other; lit "m-" ++ file_name demo_id]). split; [vm_compute; reflexivity|]. split; [apply no_endpoint_ok|]. split; [intros i; reflexivity|exact I].
  - exists s1, r1, s2, ord. split; [exact S1|]. split; [exact R1|]. split; [exact S2|]. split; [rewrite O; vm_compute; reflexivity|exact Fr].
Defined.
End SubscribeReq.
