(* ===== verification/SubscribeRun.v ===== *)
(** * SubscribeRun: all the threads of the eventing server together (lib/wsman-soap.c)

    The requests that run at the same time, the pass of the manager or of the timer that is on its way, and
    the threads that send, as one step relation on a [world].  A step is what a thread does between taking and
    letting go of a lock; a request that found its subscription goes on with a pointer to it when the
    lock of the list has been let go, and by then the subscription can be gone.  The pool of events has no
    lock: a turn of the manager, a pull and the arrival of an event are taken to use it one at a time. *)
From S2P Require Import Prelude CString HttpText Faults WsTime Uri EventPool Subscribe SubscribeSafe SubscribeReq.
Import HttpText Faults WsTime Uri EventPool Subscribe SubscribeSafe SubscribeReq.

Module SubscribeRun.

Section Run.
Context {N Poll Cancel : Type}.
Local Abbreviation info := (@WsSubscribeInfo Poll Cancel).
Local Abbreviation server := (@server N Poll Cancel).
Local Abbreviation endpoint := (@endpoint Poll Cancel).
Implicit Types (s : server) (i j : info) (p q : positive).
Context (mktime : tm -> Z) (localtime : Z -> tm).
Context (poll : Poll -> info -> pool N -> Z * pool N) (source : Poll -> info -> list N -> Z * list N).

(** ** The world *)
(** What a request still has to do with the subscription it has made or found. *)
Inductive flight :=
  | Appending (r : subscribe_request) (saved : bool) (p : positive)
  | Answering (r : subscribe_request) (saved : bool) (p : positive)
  | Unsubscribing (e : env) (ep : option endpoint) (p : positive)
  | Marking (e : env) (p : positive)
  | Renewing (e : env) (ep : option endpoint) (uuid : cstring) (text : option cstring) (p : positive)
  | Renewed (e : env) (ep : option endpoint) (uuid : cstring) (text : option cstring) (code : WsmanFaultCodeType) (p : positive)
  | Pulling (p : positive) (max_elements : option (option cstring)).
Definition target (f : flight) : positive :=
  match f with
  | Appending _ _ p | Answering _ _ p | Unsubscribing _ _ p | Marking _ p | Renewing _ _ _ _ p | Renewed _ _ _ _ _ p | Pulling p _ => p
  end.
(** A pass that holds [lockSubs], with the subscriptions whose turn is still to come. *)
Inductive pass := Managing (rest : list positive) | Beating (rest : list positive).
Definition rest_of (h : option pass) : list positive := match h with Some (Managing l) | Some (Beating l) => l | None => [] end.
Record world := World { srv : server; holder : option pass; flights : list flight }.

(** The next part of a request, and what is left to do after it. *)
Definition advance (f : flight) : CM server (option flight) :=
  match f with
  | Appending r saved p => subscribe_append p;; mret (Some (Answering r saved p))
  | Answering r saved p => subscribe_answer r saved p;; mret None
  | Unsubscribing e ep p =>
      o ← unsubscribe_call e ep p;
      mret (match o with Some _ => None | None => Some (Marking e p) end)
  | Marking e p => unsubscribe_mark e p;; mret None
  | Renewing e ep uuid text p => code ← renew_time mktime e text p; mret (Some (Renewed e ep uuid text code p))
  | Renewed e ep uuid text code p => renew_rest localtime e ep uuid text code p;; mret None
  | Pulling p m => pull_events p m;; mret None
  end.
(** The part that takes [lockSubs]. *)
Definition needs_list (f : flight) : Prop := match f with Appending _ _ _ => True | _ => False end.
Definition flight_ok (f : flight) : Prop :=
  match f with Unsubscribing _ ep _ | Renewing _ ep _ _ _ | Renewed _ ep _ _ _ _ => endpoint_ok ep | _ => True end.
Definition next_flights (k : nat) (o : option flight) (l : list flight) : list flight :=
  match o with Some f => <[k := f]> l | None => delete k l end.

(** The steps.  The searches of Unsubscribe, Renew and Pull, the entry of a new subscription, and the beginning of a
    pass need [lockSubs] free. *)
Inductive world_step (w : world) : world -> Prop :=
  | W_prepare e ep r v s' : endpoint_ok ep -> subscribe_prepare mktime localtime e ep r (srv w) = Done (v, s') ->
      (forall p i, infos (srv w) !! p = None -> infos s' !! p = Some i -> beat_ok i) ->
      world_step w (World s' (holder w) (flights w ++ match v with inr (p, saved) => [Appending r saved p] | inl _ => [] end))
  | W_unsubscribe e ep u p : holder w = None -> endpoint_ok ep ->
      search u (subscriptionMemList (srv w)) (srv w) = Done (Some p, srv w) ->
      world_step w (World (srv w) None (flights w ++ [Unsubscribing e ep p]))
  | W_renew e ep u text p : holder w = None -> endpoint_ok ep ->
      search (Some u) (subscriptionMemList (srv w)) (srv w) = Done (Some p, srv w) ->
      world_step w (World (srv w) None (flights w ++ [Renewing e ep u text p]))
  | W_pull u p m : holder w = None -> search_pull_subs_info u (srv w) = Done (Some p, srv w) ->
      world_step w (World (srv w) None (flights w ++ [Pulling p m]))
  | W_part k f o s' : flights w !! k = Some f -> (needs_list f -> holder w = None) -> advance f (srv w) = Done (o, s') ->
      world_step w (World s' (holder w) (next_flights k o (flights w)))
  | W_event id n r pl : Z.of_nat (length id) < EUIDLEN -> Z.of_nat (length (queue (events (srv w)) id)) < 2 ^ 31 - 1 ->
      MemEventPoolAddEvent id (Some n) (events (srv w)) = Done (r, pl) ->
      world_step w (World (set_events pl (srv w)) (holder w) (flights w))
  | W_pull_event id n r pl : Z.of_nat (length id) < EUIDLEN -> Z.of_nat (length (queue (events (srv w)) id)) < 2 ^ 31 - 1 ->
      MemEventPoolAddPullEvent id (Some n) (events (srv w)) = Done (r, pl) ->
      world_step w (World (set_events pl (srv w)) (holder w) (flights w))
  | W_manager : holder w = None -> world_step w (World (srv w) (Some (Managing (subscriptionMemList (srv w)))) (flights w))
  | W_manager_turn creates now p rest s' : holder w = Some (Managing (p :: rest)) -> manager_turn creates poll now p (srv w) = Done (tt, s') ->
      world_step w (World s' (Some (Managing rest)) (flights w))
  | W_timer : holder w = None -> world_step w (World (srv w) (Some (Beating (subscriptionMemList (srv w)))) (flights w))
  | W_timer_turn creates now p rest s' : holder w = Some (Beating (p :: rest)) -> heartbeat_turn creates now p (srv w) = Done (tt, s') ->
      world_step w (World s' (Some (Beating rest)) (flights w))
  | W_end : holder w = Some (Managing []) \/ holder w = Some (Beating []) -> world_step w (World (srv w) None (flights w))
  | W_sender now message_id reply k s' : wse_event_sender now message_id reply k (srv w) = Done (tt, s') ->
      world_step w (World s' (holder w) (flights w)).

(** ** What a step does *)
Definition unsubscribed i : bool := has_flag i WSMAN_SUBSCRIBEINFO_UNSUBSCRIBE.
(** An info that has been changed by a request. *)
Record changed i j : Prop := Changed {
  ch_sane : sane i -> sane j;
  ch_ok : info_ok i -> info_ok j /\ pending j = pending i;
  ch_id : sub_id j = sub_id i;
  ch_flag : unsubscribed i = true -> unsubscribed j = true }.
Lemma changed_refl i : changed i i.
Proof. now constructor. Qed.
Lemma changed_trans i j k : changed i j -> changed j k -> changed i k.
Proof.
  intros [S1 O1 I1 F1] [S2 O2 I2 F2]. constructor; [auto| |congruence|auto].
  intros I. destruct (O1 I) as [J P]. destruct (O2 J). split; [done|congruence].
Qed.
Lemma changed_run ep i : endpoint_ok ep -> changed i (run ep i).1.2.
Proof.
  intros K. constructor.
  - now apply run_endpoint_sane.
  - intros I. now destruct (run_endpoint_ok ep i K I) as (? & ? & _).
  - destruct ep as [f|]; [|done]. destruct (K f i eq_refl) as (_ & _ & D & _). unfold sub_id. cbn [run fst snd]. now rewrite D.
  - destruct ep as [f|]; [|done]. destruct (K f i eq_refl) as (_ & _ & _ & _ & _ & U). exact U.
Qed.
Lemma changed_ended i : changed i (ended_by_client i).
Proof.
  constructor; [done| |done|].
  - intros I. split; [now apply info_ok_flags|apply ended_by_client_keeps].
  - intros _. apply ended_by_client_keeps.
Qed.
Lemma changed_renewed exp i : changed i (renewed exp i).
Proof. constructor; [done| |done|done]. intros I. now apply renewed_ok. Qed.

(** Nothing but one info, the pool and the repository changes. *)
Definition only s p i j s' : Prop := infos s !! p = Some i /\ changed i j /\
  exists pl o, s' = set_repository o (set_events pl (put p j s)) /\ (pool_ok (events s) -> pool_ok pl) /\ (is_Some (repository s) -> is_Some o).
Lemma only_put s p i j : infos s !! p = Some i -> changed i j -> only s p i j (put p j s).
Proof. intros E C. split; [done|]. split; [done|]. exists (events s), (repository s). split; [now destruct s|done]. Qed.

(** A pull of any info that is not damaged. *)
Lemma pull_done s p i m v s' : infos s !! p = Some i -> sane i -> pool_ok (events s) -> pull_events p m s = Done (v, s') ->
  exists pl, s' = set_events pl s /\ pool_ok pl.
Proof.
  intros E [Lk S] K H. unfold pull_events in H. rewrite (mbind_eq _ _ _ _ _ (lock_eq _ _ _ E Lk)) in H.
  set (s1 := put p (with_locked true i) s) in *. assert (E1 : infos s1 !! p = Some (with_locked true i)) by apply put_here.
  destruct (decide (NUL ∈ subsId (fixed i))) as [Nul|Nul].
  2: { unfold id_of in H. apply mbind_done in H as (id & s2 & I & _). rewrite (mbind_eq _ _ _ _ _ (get_sub_eq _ _ _ E1)) in I.
       unfold mlift, array_string in I. rewrite bool_decide_false in I by done. done. }
  destruct (S Nul) as [_ L]. rewrite (mbind_eq _ _ _ _ _ (id_of_eq _ _ _ E1 Nul)) in H.
  apply mbind_done in H as (c & s2 & C & H). injection C as <- <-.
  apply mbind_done in H as (r & s2 & R & H).
  assert (exists pl, s2 = set_events pl s1 /\ pool_ok pl) as (pl & -> & Kp).
  { destruct (0 <? _).
    - apply mbind_done in R as (n & s3 & X & R). assert (s3 = s1) as ->.
      { unfold mlift in X. destruct (match m with None => _ | Some t => _ end); [now injection X as <- <-|done..]. }
      destruct (take_events_eq (sub_id (with_locked true i)) (Z.to_nat n) L s1 K) as (pl & T & Q & _).
      rewrite (mbind_eq _ _ _ _ _ T) in R. injection R as <- <-. now exists pl.
    - apply refuse_state in R as ->. exists (events s1). split; [now destruct s1|done]. }
  assert (E2 : infos (set_events pl s1) !! p = Some (with_locked true i)) by exact E1.
  rewrite (mbind_eq _ _ _ _ _ (unlock_eq _ _ _ E2 eq_refl)) in H. injection H as <- <-. exists pl. split; [|done].
  rewrite relock, unlocked by done. unfold put, set_events. cbn. rewrite insert_insert_eq, insert_id by done. now destruct s.
Qed.
Lemma renew_rest_done e ep uuid text code p s i v s' : infos s !! p = Some i -> sane i -> endpoint_ok ep ->
  renew_rest localtime e ep uuid text code p s = Done (v, s') -> only s p i (run ep i).1.2 s'.
Proof.
  intros E Si K H. destruct (run_endpoint_sane ep i K Si) as [Lj _]. destruct Si as [Li _].
  rewrite (renew_rest_eq localtime e ep s p i uuid text code E Li Lj) in H. destruct (_ && _); [|done]. injection H as _ <-.
  split; [done|]. split; [now apply changed_run|]. eexists (events s), _. split; [reflexivity|]. split; [done|].
  intros [r R]. unfold update_file. rewrite R. eauto.
Qed.
(** One part of a request: a subscription is entered in the list, or one info changes, or, when an Unsubscribe has
    no plug-in to call, nothing. *)
Lemma advance_done f s o s' : (forall p i, infos s !! p = Some i -> sane i) -> pool_ok (events s) -> flight_ok f -> advance f s = Done (o, s') ->
  match f with
  | Appending r saved p => s' = set_list (subscriptionMemList s ++ [p]) s /\ o = Some (Answering r saved p)
  | _ => (o = None \/ exists g, o = Some g /\ flight_ok g /\ ~ needs_list g) /\ (s' = s \/ exists i j, only s (target f) i j s')
  end.
Proof.
  intros Sn K Fo H. destruct f as [r sv p|r sv p|e ep p|e p|e ep u text p|e ep u text code p|p m]; cbn [advance target] in *.
  - now injection H as <- <-.
  - apply mbind_done in H as (v & s1 & A & H). injection H as <- <-. split; [now left|]. left.
    unfold subscribe_answer in A. apply mbind_done in A as (i & s2 & Gi & A). unfold get_info in Gi. destruct (infos s !! p) as [i'|] eqn:E; [|done].
    injection Gi as <- <-. apply mbind_done in A as (id & s2 & I & A). injection A as _ <-.
    unfold id_of in I. rewrite (mbind_eq _ _ _ _ _ (get_sub_eq _ _ _ E)) in I. unfold mlift in I. destruct (array_string _); [now injection I as _ <-|done..].
  - destruct (infos s !! p) as [i|] eqn:E.
    + destruct (unsubscribe_call_eq e ep s p i E) as (x & U & _). rewrite (mbind_eq _ _ _ _ _ U) in H. injection H as <- <-.
      split; [destruct x; [now left|right; eexists; split; [reflexivity|now split]]|]. right. eexists _, _. apply only_put; [exact E|now apply changed_run].
    + apply mbind_done in H as (x & s1 & U & H). injection H as <- <-. unfold unsubscribe_call in U. apply mbind_done in U as ([rv st] & s2 & C & U).
      unfold call_endpoint in C. destruct ep as [g|]; [unfold mbind, M_bind, get_info in C; now rewrite E in C|]. injection C as <- _ <-. injection U as <- <-.
      split; [right; eexists; split; [reflexivity|now split]|now left].
  - destruct (infos s !! p) as [i|] eqn:E.
    2: { apply mbind_done in H as (x & s1 & U & _). unfold unsubscribe_mark, lock, mbind, M_bind, get_info in U. now rewrite E in U. }
    destruct (Sn p i E) as [Li _]. rewrite (mbind_eq _ _ _ _ _ (unsubscribe_mark_eq e s p i E Li)) in H. injection H as <- <-.
    split; [now left|]. right. eexists _, _. apply only_put; [exact E|apply changed_ended].
  - destruct (infos s !! p) as [i|] eqn:E.
    2: { apply mbind_done in H as (x & s1 & U & _). unfold renew_time, lock, mbind, M_bind, get_info in U. now rewrite E in U. }
    apply mbind_done in H as (c & s1 & T & H). injection H as <- <-. destruct (renew_time_fails mktime e s p i text c s1 E T) as (exp & code & X).
    destruct (Sn p i E) as [Li _]. rewrite (renew_time_eq mktime e s p i text exp code E Li X) in T. injection T as <- <-.
    split; [right; eexists; split; [reflexivity|now split]|]. right. eexists _, _. apply only_put; [exact E|apply changed_renewed].
  - destruct (infos s !! p) as [i|] eqn:E.
    2: { apply mbind_done in H as (x & s1 & U & _). unfold renew_rest, unlock in U. destruct (negb _); unfold mbind, M_bind, get_info in U; now rewrite E in U. }
    apply mbind_done in H as (v & s1 & R & H). injection H as <- <-. split; [now left|]. right. eexists _, _. eapply renew_rest_done; [exact E|eauto..].
  - destruct (infos s !! p) as [i|] eqn:E.
    2: { apply mbind_done in H as (x & s1 & U & _). unfold pull_events, lock, mbind, M_bind, get_info in U. now rewrite E in U. }
    apply mbind_done in H as (v & s1 & R & H). injection H as <- <-. split; [now left|]. right. exists i, i.
    destruct (pull_done s p i m v s1 E (Sn p i E) K R) as (pl & -> & Kp). split; [exact E|]. split; [apply changed_refl|].
    exists pl, (repository s). split; [|done]. rewrite put_same by done. now destruct s.
Qed.

(** ** What holds of the world between the steps *)
(** The subscriptions that are about to be entered in the list. *)
Definition waiting (l : list flight) : list positive := omap (fun f => match f with Appending _ _ p => Some p | _ => None end) l.
Definition ready s p : Prop := p ∉ subscriptionMemList s /\ exists j, infos s !! p = Some j /\ info_ok j /\ pending j = false.
Record wgood (w : world) : Prop := WGood {
  wg_good : good (srv w);
  wg_sane p i : infos (srv w) !! p = Some i -> sane i;
  wg_rest : NoDup (rest_of (holder w)) /\ forall p, p ∈ rest_of (holder w) -> p ∈ subscriptionMemList (srv w);
  wg_wait : NoDup (waiting (flights w)) /\ forall p, p ∈ waiting (flights w) -> ready (srv w) p;
  wg_ok : Forall flight_ok (flights w) }.

Lemma good_outside s p j : good s -> p ∉ subscriptionMemList s -> good (put p j s).
Proof.
  intros [G1 G2 G3 G4 G5 G6 G7 G8] Np. assert (Nq : forall q, q ∈ subscriptionMemList s -> p <> q) by (intros q Hq ->; done).
  constructor; cbn; try done; intros q.
  - intros Hq. rewrite lookup_insert_ne by auto. auto.
  - intros i Hq. rewrite lookup_insert_ne by auto. now apply G3.
  - intros i Hq. rewrite lookup_insert_ne by auto. now apply G6.
Qed.
Lemma good_append s p j : good s -> ready s p -> infos s !! p = Some j -> good (set_list (subscriptionMemList s ++ [p]) s).
Proof.
  intros [G1 G2 G3 G4 G5 G6 G7 G8] (Np & j' & E & I & P) E'. constructor; cbn; try done.
  - apply NoDup_app. split; [done|]. split; [|apply NoDup_singleton]. now intros q Hq ->%list_elem_of_singleton.
  - intros q [Hq|Hq%list_elem_of_singleton]%elem_of_app; [auto|subst; eauto].
  - intros q i [Hq|Hq%list_elem_of_singleton]%elem_of_app; [now apply G3|subst; congruence].
  - intros q Hq. apply elem_of_app. left. auto.
  - intros q i [Hq|Hq%list_elem_of_singleton]%elem_of_app; [now apply G6|subst]. intros Ei. assert (i = j') as -> by congruence.
    rewrite P. split; [done|]. intros Hp%G5. done.
Qed.
(** Subscriptions that wait are not touched by what is done to others. *)
Lemma ready_frame s s' p : ready s p -> (p ∈ subscriptionMemList s' -> p ∈ subscriptionMemList s) -> infos s' !! p = infos s !! p -> ready s' p.
Proof. intros (Np & j & E & I) L F. split; [auto|]. exists j. now rewrite F. Qed.
Lemma sublist_elem_of {A} (a b : list A) x : a `sublist_of` b -> x ∈ a -> x ∈ b.
Proof. intros Su. induction Su; rewrite ?elem_of_cons; intuition. Qed.
Lemma sublist_distinct {A} (a b : list A) : a `sublist_of` b -> NoDup b -> NoDup a.
Proof.
  intros Su. induction Su as [|x a b Su IH|x a b Su IH]; intros W; [constructor| |].
  - apply NoDup_cons in W as [Nx W]. constructor; [|auto]. intros H. apply Nx. now apply (sublist_elem_of _ _ _ Su).
  - apply NoDup_cons in W as [_ W]. auto.
Qed.
Lemma wgood_flights s h l l' : wgood (World s h l) -> waiting l' `sublist_of` waiting l -> Forall flight_ok l' -> wgood (World s h l').
Proof.
  intros [G S R [W1 W2] F] Su F'. constructor; try done. cbn in *. split.
  - now apply (sublist_distinct _ _ Su).
  - intros p Hp. apply W2. now apply (sublist_elem_of _ _ _ Su).
Qed.
Lemma wgood_only s h l p i j s' : wgood (World s h l) -> only s p i j s' -> wgood (World s' h l).
Proof.
  intros [G S R [W1 W2] F] (E & C & pl & o & -> & Kp & Ko). cbn in *.
  assert (Gp : good (put p j s)).
  { destruct (decide (p ∈ subscriptionMemList s)) as [Lp|Np]; [|now apply good_outside].
    destruct (ch_ok _ _ C (g_info _ G p i Lp E)) as [I P]. now apply (good_put s p i). }
  constructor; cbn; try done.
  - apply good_repository; [|intros _; now apply Ko, (g_repo _ G)]. now apply good_events; [|apply Kp, (g_pool _ G)].
  - intros q k. destruct (decide (q = p)) as [->|Nq]; [rewrite lookup_insert_eq; intros [= <-]; apply C; eauto|rewrite lookup_insert_ne by done; apply S].
  - split; [done|]. intros q Hq. destruct (W2 q Hq) as (Nq & k & Ek & Ik & Pk). destruct (decide (q = p)) as [->|Nqp].
    + split; [done|]. exists j. split; [apply lookup_insert_eq|]. assert (k = i) as -> by congruence.
      destruct (ch_ok _ _ C Ik). split; [done|congruence].
    + split; [done|]. exists k. split; [cbn; now rewrite lookup_insert_ne|done].
Qed.
Lemma waiting_app l l' : waiting (l ++ l') = waiting l ++ waiting l'.
Proof. apply omap_app. Qed.
Lemma waiting_delete l k : waiting (delete k l) `sublist_of` waiting l.
Proof.
  revert k. induction l as [|f l IH]; intros [|k]; try done.
  - cbn. destruct f; cbn; try reflexivity. now apply sublist_cons.
  - cbn. destruct f; cbn; try apply IH. now apply sublist_skip.
Qed.
Lemma waiting_insert l k g : ~ needs_list g -> waiting (<[k := g]> l) `sublist_of` waiting l.
Proof.
  intros Ng. revert k. induction l as [|f l IH]; intros [|k]; try done.
  - cbn. destruct g; cbn in Ng; try (now destruct Ng); destruct f; cbn; try done; now apply sublist_cons.
  - cbn. destruct f; cbn; try apply IH. now apply sublist_skip.
Qed.
Lemma next_flights_ok k o l : Forall flight_ok l -> from_option flight_ok True o -> Forall flight_ok (next_flights k o l).
Proof. intros F Fo. destruct o as [f|]; cbn; [now apply Forall_insert|now apply Forall_delete]. Qed.
(** Where one entry waits it is the only one for its subscription, and it is gone when it is replaced. *)
Lemma waiting_taken l k r sv p g : l !! k = Some (Appending r sv p) -> ~ needs_list g ->
  waiting l ≡ₚ p :: waiting (<[k := g]> l).
Proof.
  intros H Ng. revert k H. induction l as [|f l IH]; intros [|k] H; try done.
  - injection H as ->. cbn. destruct g; cbn in Ng; try (now destruct Ng); done.
  - cbn in *. destruct f; cbn; try (now apply IH). rewrite (IH k H). apply Permutation_swap.
Qed.

Section Preserve.
Context (law : poll_law poll source).
Lemma prepare_wgood e ep r v s' w : wgood w -> endpoint_ok ep -> subscribe_prepare mktime localtime e ep r (srv w) = Done (v, s') ->
  (forall p i, infos (srv w) !! p = None -> infos s' !! p = Some i -> beat_ok i) ->
  wgood (World s' (holder w) (flights w ++ match v with inr (p, saved) => [Appending r saved p] | inl _ => [] end)).
Proof.
  destruct w as [s h l]. cbn [srv holder flights]. intros W K H B. pose proof (prepare_done mktime localtime e ep s r v s' K H) as D.
  pose proof (new_ptr_fresh s) as Fp. pose proof W as [G S R [W1 W2] F]. cbn in *.
  assert (Nl : new_ptr s ∉ subscriptionMemList s) by (intros Hp; destruct (g_list _ G _ Hp); congruence).
  assert (Put : forall j o, sane j -> (is_Some (repository s) -> is_Some o) -> wgood (World (set_repository o (put (new_ptr s) j s)) h l)).
  { intros j o Sj Ko. constructor; cbn; try done.
    - apply good_repository; [now apply good_outside|]. intros _. apply Ko, (g_repo _ G).
    - intros q k. destruct (decide (q = new_ptr s)) as [->|Nq]; [rewrite lookup_insert_eq; now intros [= <-]|rewrite lookup_insert_ne by done; apply S].
    - split; [done|]. intros q Hq. apply (ready_frame s); [auto|done|]. cbn. apply lookup_insert_ne. intros <-. destruct (W2 _ Hq) as (_ & k & Ek & _). congruence. }
  destruct v as [x|[p sv]].
  - rewrite app_nil_r. destruct D as [->|(j & -> & Sj)]; [exact W|]. specialize (Put j (repository s) Sj ltac:(done)).
    now replace (set_repository (repository s) (put (new_ptr s) j s)) with (put (new_ptr s) j s) in Put by (now destruct s).
  - destruct D as (-> & j & o & -> & Ko & Sj & Pj & Nul & I). pose proof (Put j o Sj Ko) as [G' S' R' [V1 V2] F']. cbn in *.
    assert (Bj : beat_ok j) by (apply (B (new_ptr s)); [done|apply lookup_insert_eq]).
    constructor; cbn; try done; [|apply Forall_app; split; [done|now repeat constructor]].
    rewrite waiting_app. cbn. split.
    + apply NoDup_app. split; [done|]. split; [|apply NoDup_singleton]. intros q Hq ->%list_elem_of_singleton.
      destruct (W2 _ Hq) as (_ & k & Ek & _). congruence.
    + intros q [Hq|Hq%list_elem_of_singleton]%elem_of_app; [auto|subst q]. split; [done|]. exists j. split; [apply lookup_insert_eq|auto].
Qed.
Lemma part_wgood k f o s' w : wgood w -> flights w !! k = Some f -> (needs_list f -> holder w = None) -> advance f (srv w) = Done (o, s') ->
  wgood (World s' (holder w) (next_flights k o (flights w))).
Proof.
  destruct w as [s h l]. cbn [srv holder flights]. intros W L Nh H. pose proof W as [G S R [W1 W2] F]. cbn in *.
  pose proof (advance_done f s o s' S (g_pool _ G) (proj1 (Forall_lookup _ _) F k f L) H) as D.
  assert (Rest : (o = None \/ exists g, o = Some g /\ flight_ok g /\ ~ needs_list g) -> (s' = s \/ exists i j, only s (target f) i j s') ->
    wgood (World s' h (next_flights k o l))).
  { intros O Only. assert (W' : wgood (World s' h l)) by (destruct Only as [->|(i & j & Oj)]; [exact W|exact (wgood_only _ _ _ _ _ _ _ W Oj)]).
    apply (wgood_flights s' h l); [exact W'| |apply next_flights_ok; [done|destruct O as [->|(g & -> & Fg & _)]; done]].
    destruct O as [->|(g & -> & _ & Ng)]; [apply waiting_delete|now apply waiting_insert]. }
  destruct f as [r sv p|r sv p|e ep p|e p|e ep u text p|e ep u text code p|p m]; try (now apply Rest; apply D).
  destruct D as [-> ->]. rewrite (Nh I) in *. clear Rest. set (g := Answering r sv p) in *.
  pose proof (waiting_taken l k r sv p g L ltac:(cbn; tauto)) as P. rewrite P in W1. apply NoDup_cons in W1 as [Np W1].
  assert (Rp : ready s p) by (apply W2; rewrite P; left). pose proof Rp as (Nlp & j & Ej & _).
  constructor; cbn; try done.
  - now apply (good_append s p j).
  - split; [constructor|]. intros q Hq. now apply elem_of_nil in Hq.
  - split; [done|]. intros q Hq. apply (ready_frame s); [apply W2; rewrite P; now right| |done]. cbn.
    intros [Hl|Hl%list_elem_of_singleton]%elem_of_app; [done|]. now subst q.
  - apply Forall_insert; [done|exact I].
Qed.
Lemma manager_wgood creates now p rest s' s l : wgood (World s (Some (Managing (p :: rest))) l) -> manager_turn creates poll now p s = Done (tt, s') ->
  wgood (World s' (Some (Managing rest)) l).
Proof.
  intros [G S [R1 R2] [W1 W2] F] H. cbn in *. apply NoDup_cons in R1 as [Np R1]. assert (Lp : p ∈ subscriptionMemList s) by (apply R2; left).
  destruct (g_list _ G p Lp) as [i E]. destruct (manager_turn_ok creates poll source law now s p i G Lp E) as (pl & T & G' & _). rewrite T in H.
  assert (s' = after_turn creates source now p i s pl) as -> by congruence.
  assert (Ot : forall q, q <> p -> infos (after_turn creates source now p i s pl) !! q = infos s !! q) by (intros q Nq; now apply turn_other).
  assert (Ls : forall q, q <> p -> q ∈ subscriptionMemList (after_turn creates source now p i s pl) <-> q ∈ subscriptionMemList s).
  { intros q Nq. unfold after_turn. destruct (gone now i); [|done]. cbn. rewrite list_elem_of_filter. tauto. }
  constructor; cbn [srv holder flights rest_of]; try done.
  - intros q k. destruct (decide (q = p)) as [->|Nq]; [|rewrite Ot by done; apply S].
    unfold after_turn. destruct (gone now i); cbn; [now rewrite lookup_delete_eq|rewrite lookup_insert_eq; intros [= <-]].
    pose proof (S p i E) as Si. now destruct (new_thread _ _ _ _ _).
  - split; [done|]. intros q Hq. apply Ls; [intros ->; done|]. apply R2. now right.
  - split; [done|]. intros q Hq. pose proof (W2 q Hq) as Rq. assert (q <> p) by (intros ->; now destruct Rq).
    apply (ready_frame s); [done|now apply Ls|now apply Ot].
Qed.
Lemma timer_wgood creates now p rest s' s l : wgood (World s (Some (Beating (p :: rest))) l) -> heartbeat_turn creates now p s = Done (tt, s') ->
  wgood (World s' (Some (Beating rest)) l).
Proof.
  intros [G S [R1 R2] [W1 W2] F] H. cbn in *. apply NoDup_cons in R1 as [Np R1]. assert (Lp : p ∈ subscriptionMemList s) by (apply R2; left).
  destruct (g_list _ G p Lp) as [i E]. destruct (heartbeat_turn_ok creates now s p i G Lp E) as [T G']. rewrite T in H.
  assert (s' = after_beat creates now p i s) as -> by congruence.
  constructor; cbn [srv holder flights rest_of]; try done.
  - intros q k. cbn. destruct (decide (q = p)) as [->|Nq]; [|rewrite lookup_insert_ne by done; apply S].
    intros Hk. apply info_ok_sane. exact (g_info _ G' p k Lp Hk).
  - split; [done|]. intros q Hq. apply R2. now right.
  - split; [done|]. intros q Hq. pose proof (W2 q Hq) as Rq. assert (q <> p) by (intros ->; now destruct Rq).
    apply (ready_frame s); [done|done|]. cbn. now apply lookup_insert_ne.
Qed.
End Preserve.

(** ** The threads that send *)
Lemma answer_readable message_id reply x : wse_send_notification message_id true reply = Done x -> ack_ok message_id reply.
Proof.
  unfold wse_send_notification. cbn [negb]. destruct reply as [[[|] [[t|]|] action]|]; cbn; try done.
  destruct (same_id message_id t) eqn:Si; [|intros _ E; apply same_id_true in E; congruence].
  destruct action; [eauto|done].
Qed.
Lemma sender_readable now message_id reply k t i s s' : good s -> senders s !! k = Some t -> infos s !! t_sub t = Some i ->
  wse_event_sender now message_id reply k s = Done (tt, s') -> sends now i = true -> wants_ack i = true -> ack_ok message_id reply.
Proof.
  intros G K E H Sn Wa. assert (Lp : t_sub t ∈ subscriptionMemList s).
  { apply (g_alive _ G). apply (list_elem_of_fmap_2 t_sub). eapply list_elem_of_lookup_2, K. }
  destruct (g_info _ G _ _ Lp E) as [Lk [Nul _] _]. unfold wse_event_sender in H.
  erewrite mbind_eq in H; [|rewrite K; reflexivity]. cbv beta zeta in H. set (p := t_sub t) in *.
  rewrite (mbind_eq _ _ _ _ _ (lock_eq _ _ _ E Lk)) in H. set (j := if t_events t then with_sent true (held i) else held i).
  assert (Ej : infos (put p j s) !! p = Some j) by apply put_here.
  rewrite (mbind_eq _ _ _ tt (put p j s)) in H.
  2: { unfold j. destruct (t_events t); [|done]. erewrite upd_info_eq by apply put_here. now rewrite put_put. }
  rewrite (mbind_eq _ _ _ _ _ (get_sub_eq _ _ _ Ej)) in H.
  assert (Hs : negb (has_flag j WSMAN_SUBSCRIBEINFO_UNSUBSCRIBE) && negb (time_expired now (expires j)) = true) by (unfold j; now destruct (t_events t)).
  apply mbind_done in H as ([] & s2 & H & _). rewrite Hs in H.
  assert (Nj : NUL ∈ subsId (fixed j)) by (unfold j; now destruct (t_events t)).
  rewrite (mbind_eq _ _ _ _ _ (id_of_eq _ _ _ Ej Nj)) in H. apply mbind_done in H as ([] & s3 & _ & H). apply mbind_done in H as (x & s4 & M & _).
  assert (Wj : wants_ack j = true) by (unfold j; now destruct (t_events t)). rewrite Wj in M. unfold mlift in M.
  destruct (wse_send_notification message_id true reply) as [y| | |] eqn:W; [|done..]. eapply answer_readable, W.
Qed.
(** What a thread that sends does, whatever the answer was, if it gets to its end. *)
Lemma sender_done now message_id reply k s s' : good s -> wse_event_sender now message_id reply k s = Done (tt, s') ->
  good s' /\ exists t i, t_sub t ∈ subscriptionMemList s /\ infos s !! t_sub t = Some i /\ senders s !! k = Some t /\
    s' = set_sendings (sendings s ++ if sends now i then [Sent (sub_id i) (t_events t)] else [])
      (set_senders (delete k (senders s)) (put (t_sub t) (after_send now (acknowledged message_id reply) t i) s)).
Proof.
  intros G H. destruct (senders s !! k) as [t|] eqn:K.
  2: { exfalso. unfold wse_event_sender, mbind, M_bind in H. rewrite K in H. done. }
  assert (Lp : t_sub t ∈ subscriptionMemList s).
  { apply (g_alive _ G). apply (list_elem_of_fmap_2 t_sub). eapply list_elem_of_lookup_2, K. }
  destruct (g_list _ G _ Lp) as [i E]. destruct (sender_ok now message_id reply s k t i G K E) as [R G'].
  { intros Sn Wa. exact (sender_readable now message_id reply k t i s s' G K E H Sn Wa). }
  rewrite R in H. injection H as <-. split; [exact G'|]. now exists t, i.
Qed.
Lemma sender_wgood now message_id reply k w s' : wgood w -> wse_event_sender now message_id reply k (srv w) = Done (tt, s') ->
  wgood (World s' (holder w) (flights w)).
Proof.
  destruct w as [s h l]. intros [G S R [W1 W2] F] H. cbn in *. destruct (sender_done now message_id reply k s s' G H) as (G' & t & i & Lp & E & _ & ->).
  constructor; cbn [srv holder flights rest_of]; try done.
  - intros q k'. cbn. destruct (decide (q = t_sub t)) as [->|Nq]; [|rewrite lookup_insert_ne by done; apply S].
    intros Hk. apply info_ok_sane. exact (g_info _ G' _ k' Lp Hk).
  - split; [done|]. intros q Hq. pose proof (W2 q Hq) as Rq. assert (q <> t_sub t) by (intros ->; now destruct Rq).
    apply (ready_frame s); [done|done|]. cbn. now apply lookup_insert_ne.
Qed.

(** ** Every step keeps the world good *)
Lemma search_pull_done u l : forall s t s', search_pull (N := N) (Poll := Poll) (Cancel := Cancel) u l s = Done (t, s') ->
  forall p, t = Some p -> p ∈ l.
Proof.
  induction l as [|p l IH]; intros s t s'; cbn [search_pull]; [now intros [= <- <-]|].
  intros (id & s1 & I & H)%mbind_done. destruct (5 <=? length _)%nat; [|done].
  destruct (strcmp _ _ =? 0); [injection H as <- <-; intros q [= <-]; left|]. intros q Hq. right. eapply IH; eauto.
Qed.
Lemma wgood_new s l f : wgood (World s None l) -> flight_ok f -> ~ needs_list f -> wgood (World s None (l ++ [f])).
Proof.
  intros W Fo Nf. apply (wgood_flights s None l); [exact W| |].
  - rewrite waiting_app. destruct f; cbn in *; try (now destruct Nf); now rewrite app_nil_r.
  - apply Forall_app. split; [exact (wg_ok _ W)|]. now constructor.
Qed.
Lemma wgood_events s h l pl : wgood (World s h l) -> pool_ok pl -> wgood (World (set_events pl s) h l).
Proof. intros [G S R W F] K. constructor; try done. now apply good_events. Qed.
Lemma wgood_holder s h h' l : wgood (World s h l) -> NoDup (rest_of h') -> (forall p, p ∈ rest_of h' -> p ∈ subscriptionMemList s) -> wgood (World s h' l).
Proof. intros [G S R W F] D Al. now constructor. Qed.
Lemma step_wgood w w' : poll_law poll source -> wgood w -> world_step w w' -> wgood w'.
Proof.
  intros Law W St. pose proof (wg_good _ W) as G. destruct St.
  - now apply (prepare_wgood e ep r v s' w).
  - destruct w as [s h l]. cbn in *. subst h. now apply wgood_new.
  - destruct w as [s h l]. cbn in *. subst h. now apply wgood_new.
  - destruct w as [s h l]. cbn in *. subst h. now apply wgood_new; [| |cbn].
  - now apply (part_wgood k f).
  - destruct (add_ok (events (srv w)) id n (g_pool _ G)) as (pl' & A & K & _); [done..|]. destruct w. apply wgood_events; [done|congruence].
  - destruct (add_pull_ok (events (srv w)) id n (g_pool _ G)) as (r' & pl' & A & K & _); [done..|]. destruct w. apply wgood_events; [done|congruence].
  - destruct w as [s h l]. eapply wgood_holder; [exact W|exact (g_nodup _ G)|done].
  - destruct w as [s h l]. cbn in *. subst h. now apply (manager_wgood Law creates now p rest s' s).
  - destruct w as [s h l]. eapply wgood_holder; [exact W|exact (g_nodup _ G)|done].
  - destruct w as [s h l]. cbn in *. subst h. now apply (timer_wgood creates now p rest s' s).
  - destruct w as [s h l]. eapply wgood_holder; [exact W|constructor|]. now intros p ?%elem_of_nil.
  - now apply (sender_wgood now message_id reply k).
Qed.
(** The world at the start. *)
Definition start (limit : Z) (r : repo) : world := World (nobody limit r) None [].
Lemma start_wgood limit r : wgood (start limit r).
Proof.
  constructor; cbn.
  - apply nobody_good.
  - intros p i E. now rewrite lookup_empty in E.
  - split; [apply NoDup_nil_2|]. now intros p ?%elem_of_nil.
  - split; [apply NoDup_nil_2|]. now intros p ?%elem_of_nil.
  - constructor.
Qed.
Lemma reach_wgood w w' : poll_law poll source -> wgood w -> rtc world_step w w' -> wgood w'.
Proof. intros Law W R. induction R as [|w0 w1 w2 St _ IH]; [done|]. apply IH. now apply (step_wgood w0). Qed.
(** ** What the steps do to the subscriptions that are there, and what they send *)
Record quiet s s' : Prop := Quiet {
  qu_info q i j : infos s !! q = Some i -> infos s' !! q = Some j -> sub_id j = sub_id i /\ (unsubscribed i = true -> unsubscribed j = true);
  qu_sent : exists new, sendings s' = sendings s ++ new /\
    forall id ev, Sent id ev ∈ new -> exists q i, infos s !! q = Some i /\ sub_id i = id /\ unsubscribed i = false }.
Lemma sends_nothing s s' : sendings s' = sendings s -> exists new, sendings s' = sendings s ++ new /\
  forall id ev, Sent id ev ∈ new -> exists q i, infos s !! q = Some i /\ sub_id i = id /\ unsubscribed i = false.
Proof. intros ->. exists []. rewrite app_nil_r. split; [done|]. now intros id ev ?%elem_of_nil. Qed.
Lemma quiet_same s s' : infos s' = infos s -> sendings s' = sendings s -> quiet s s'.
Proof. intros I S. constructor; [|now apply sends_nothing]. intros q i j E E'. rewrite I, E in E'. injection E' as <-. done. Qed.
(** One info has changed, or is new. *)
Lemma quiet_insert s s' p k : infos s' = <[p := k]> (infos s) ->
  (forall i, infos s !! p = Some i -> sub_id k = sub_id i /\ (unsubscribed i = true -> unsubscribed k = true)) ->
  (exists new, sendings s' = sendings s ++ new /\
    forall id ev, Sent id ev ∈ new -> exists q i, infos s !! q = Some i /\ sub_id i = id /\ unsubscribed i = false) -> quiet s s'.
Proof.
  intros I K S. constructor; [|exact S]. intros q i j E E'. rewrite I in E'. destruct (decide (q = p)) as [->|Nq].
  - rewrite lookup_insert_eq in E'. injection E' as <-. now apply K.
  - rewrite lookup_insert_ne, E in E' by done. injection E' as <-. done.
Qed.
Lemma unsubscribed_lor f i : unsubscribed i = true -> unsubscribed (with_flags (Z.lor (flags i) f) i) = true.
Proof. unfold unsubscribed. rewrite flag_lor by done. now intros ->. Qed.
Lemma unsubscribed_sent now a (t : @thread N) i : unsubscribed (after_send now a t i) = unsubscribed i.
Proof.
  unfold unsubscribed, after_send. set (f := if _ && _ then _ else _).
  assert (F : Z.land f WSMAN_SUBSCRIBEINFO_UNSUBSCRIBE = Z.land (flags i) WSMAN_SUBSCRIBEINFO_UNSUBSCRIBE).
  { unfold f. destruct (_ && _); [|done]. rewrite Z.land_lor_distr_l. change (Z.land WSMAN_SUBSCRIPTION_CANCELLED WSMAN_SUBSCRIBEINFO_UNSUBSCRIBE) with 0.
    apply Z.lor_0_r. }
  unfold has_flag. cbn [flags with_flags]. rewrite <- Z.land_assoc.
  change (Z.land (Z.lnot WSMAN_SUBSCRIPTION_NOTIFICAITON_PENDING) WSMAN_SUBSCRIBEINFO_UNSUBSCRIBE) with WSMAN_SUBSCRIBEINFO_UNSUBSCRIBE. now rewrite F.
Qed.
Lemma turn_quiet creates now p i s pl : infos s !! p = Some i -> quiet s (after_turn creates source now p i s pl).
Proof.
  intros E. unfold after_turn. destruct (gone now i).
  - constructor; cbn.
    + intros q k j Ek Ej. apply lookup_delete_Some in Ej as [_ Ej]. rewrite Ek in Ej. now injection Ej as <-.
    + exists (cancelled i). split; [done|]. intros id ev Hs. exfalso. unfold cancelled in Hs. destruct (cancel (fixed i)); [|now apply elem_of_nil in Hs].
      destruct (has_flag _ _); [now apply elem_of_nil in Hs|]. now apply list_elem_of_singleton in Hs.
  - eapply quiet_insert; [reflexivity| |now apply sends_nothing]. intros k Ek. assert (k = i) as -> by congruence.
    destruct (new_thread _ _ _ _ _); [done|]. split; [done|apply unsubscribed_lor].
Qed.
Lemma beat_quiet creates now p i s : infos s !! p = Some i -> quiet s (after_beat creates now p i s).
Proof.
  intros E. eapply quiet_insert; [reflexivity| |now apply sends_nothing]. intros k Ek. assert (k = i) as -> by congruence. unfold beat.
  repeat case_match; try done. split; [done|apply unsubscribed_lor].
Qed.
Lemma step_quiet w w' : poll_law poll source -> wgood w -> world_step w w' -> quiet (srv w) (srv w').
Proof.
  intros Law W St. pose proof (wg_good _ W) as G. pose proof (g_pool _ G) as Kp.
  destruct St as [e ep r v s' K H B|e ep u p Nh K H|e ep u text p Nh K H|u p m Nh H|k f o s' L Nh H|id n r pl L1 L2 H|id n r pl L1 L2 H|Nh|
    creates now p rest s' Nh H|Nh|creates now p rest s' Nh H|Nh|now mid reply k s' H]; cbn [srv]; try (now apply quiet_same).
  - pose proof (prepare_done mktime localtime e ep (srv w) r v s' K H) as D. pose proof (new_ptr_fresh (srv w)) as Fp.
    assert (New : forall j o, quiet (srv w) (set_repository o (put (new_ptr (srv w)) j (srv w)))).
    { intros j o. eapply quiet_insert; [reflexivity|intros i E; congruence|now apply sends_nothing]. }
    destruct v as [x|[p sv]].
    + destruct D as [->|(j & -> & _)]; [now apply quiet_same|]. exact (New j (repository (srv w))).
    + destruct D as (-> & j & o & -> & _). apply New.
  - pose proof (advance_done f (srv w) o s' (wg_sane _ W) Kp (proj1 (Forall_lookup _ _) (wg_ok _ W) k f L) H) as D.
    assert (Rest : (s' = srv w \/ exists i j, only (srv w) (target f) i j s') -> quiet (srv w) s').
    { intros [->|(i & j & E & C & pl & o' & -> & _)]; [now apply quiet_same|]. eapply quiet_insert; [reflexivity| |now apply sends_nothing].
      intros i' E'. assert (i' = i) as -> by congruence. split; [apply C|apply C]. }
    destruct f; try (now apply Rest; apply D). destruct D as [-> _]. now apply quiet_same.
  - pose proof (proj2 (wg_rest _ W)) as Al. rewrite Nh in Al. specialize (Al p ltac:(left)). destruct (g_list _ G p Al) as [i E].
    destruct (manager_turn_ok creates poll source Law now (srv w) p i G Al E) as (pl & T & _). rewrite T in H.
    assert (s' = after_turn creates source now p i (srv w) pl) as -> by congruence. now apply turn_quiet.
  - pose proof (proj2 (wg_rest _ W)) as Al. rewrite Nh in Al. specialize (Al p ltac:(left)). destruct (g_list _ G p Al) as [i E].
    destruct (heartbeat_turn_ok creates now (srv w) p i G Al E) as [T _]. rewrite T in H.
    assert (s' = after_beat creates now p i (srv w)) as -> by congruence. now apply beat_quiet.
  - destruct (sender_done now mid reply k (srv w) s' G H) as (_ & t & i & Lp & E & _ & ->). eapply quiet_insert; [reflexivity| |].
    + intros i' E'. assert (i' = i) as -> by congruence. split; [|now rewrite unsubscribed_sent]. unfold after_send. now destruct (t_events t).
    + eexists. split; [reflexivity|]. unfold sends. fold (unsubscribed i). intros id ev Hs. destruct (unsubscribed i) eqn:Un; cbn [negb andb] in Hs; [now apply elem_of_nil in Hs|].
      destruct (negb _); [|now apply elem_of_nil in Hs]. apply list_elem_of_singleton in Hs. injection Hs as -> ->. now exists (t_sub t), i.
Qed.
(** A step after which no other subscription has the id. *)
Definition step_without (id : cstring) (w w' : world) : Prop :=
  world_step w w' /\ forall q j, infos (srv w) !! q = None -> infos (srv w') !! q = Some j -> sub_id j <> id.
(** The messages with the id that have been sent. *)
Definition sent_for (id : cstring) (l : list (@sending N Cancel)) : list (@sending N Cancel) :=
  List.filter (fun x => match x with Sent id' _ => bool_decide (id' = id) | Cancelled _ _ => false end) l.
Lemma ended_stays_quiet id w w' : poll_law poll source -> wgood w -> (forall q i, infos (srv w) !! q = Some i -> sub_id i = id -> unsubscribed i = true) ->
  rtc (step_without id) w w' -> sent_for id (sendings (srv w')) = sent_for id (sendings (srv w)).
Proof.
  intros Law W U R. induction R as [w|w0 w1 w2 [St New] _ IH]; [done|]. destruct (step_quiet w0 w1 Law W St) as [Qi (new & Qs & Qn)].
  rewrite IH; [|exact (step_wgood w0 w1 Law W St)|].
  - rewrite Qs. unfold sent_for. rewrite List.filter_app. replace (List.filter _ new) with (@nil (@sending N Cancel)); [apply app_nil_r|].
    symmetry. clear Qs. induction new as [|x new IHn]; [done|]. cbn. rewrite IHn; [|intros i ev Hs; apply (Qn i ev); now right].
    destruct x as [id' ev|]; [|done]. destruct (bool_decide_reflect (id' = id)) as [->|]; [|done].
    destruct (Qn id ev ltac:(left)) as (q & i & E & Si & Un). rewrite (U q i E Si) in Un. done.
  - intros q j Ej Sj. destruct (infos (srv w0) !! q) as [i|] eqn:Ei; [|now destruct (New q j Ei Ej)].
    destruct (Qi q i j Ei Ej) as [Si Ui]. apply Ui, (U q i); [done|congruence].
Qed.

(** ** Runs of steps that are not interrupted *)
Lemma manager_run creates now l : forall s s' fl, manager_loop creates poll now l s = Done (tt, s') ->
  rtc world_step (World s (Some (Managing l)) fl) (World s' (Some (Managing [])) fl).
Proof.
  induction l as [|p l IH]; intros s s' fl; cbn [manager_loop]; [intros [= <-]; constructor|].
  intros ([] & s1 & T & H)%mbind_done. eapply rtc_l; [|exact (IH s1 s' fl H)].
  exact (W_manager_turn (World s (Some (Managing (p :: l))) fl) creates now p l s1 eq_refl T).
Qed.
Lemma manager_pass_run creates now s s' fl : wse_notification_manager creates poll now s = Done (tt, s') ->
  rtc world_step (World s None fl) (World s' None fl).
Proof.
  intros H. eapply rtc_l; [exact (W_manager (World s None fl) eq_refl)|]. eapply rtc_r; [exact (manager_run creates now _ s s' fl H)|].
  exact (W_end (World s' (Some (Managing [])) fl) (or_introl eq_refl)).
Qed.
Lemma timer_run creates now l : forall s s' fl, heartbeat_loop creates now l s = Done (tt, s') ->
  rtc world_step (World s (Some (Beating l)) fl) (World s' (Some (Beating [])) fl).
Proof.
  induction l as [|p l IH]; intros s s' fl; cbn [heartbeat_loop]; [intros [= <-]; constructor|].
  intros ([] & s1 & T & H)%mbind_done. eapply rtc_l; [|exact (IH s1 s' fl H)].
  exact (W_timer_turn (World s (Some (Beating (p :: l))) fl) creates now p l s1 eq_refl T).
Qed.
Lemma timer_pass_run creates now s s' fl : wsman_heartbeat_generator creates now s = Done (tt, s') ->
  rtc world_step (World s None fl) (World s' None fl).
Proof.
  intros H. eapply rtc_l; [exact (W_timer (World s None fl) eq_refl)|]. eapply rtc_r; [exact (timer_run creates now _ s s' fl H)|].
  exact (W_end (World s' (Some (Beating [])) fl) (or_intror eq_refl)).
Qed.
Lemma part_run s h fl f o s' : (needs_list f -> h = None) -> advance f s = Done (o, s') ->
  world_step (World s h (fl ++ [f])) (World s' h (fl ++ option_list o)).
Proof.
  intros Nh H. replace (fl ++ option_list o) with (next_flights (length fl) o (fl ++ [f])).
  - apply (W_part (World s h (fl ++ [f])) (length fl) f); [|done..]. cbn. rewrite lookup_app_r, Nat.sub_diag by lia. done.
  - destruct o as [g|]; cbn.
    + rewrite insert_app_r_alt, Nat.sub_diag by lia. done.
    + rewrite delete_take_drop, take_app_length, drop_ge, app_nil_r by (rewrite length_app; cbn; lia). done.
Qed.
Lemma unsubscribe_run e ep u p s x v s' fl : endpoint_ok ep -> search u (subscriptionMemList s) s = Done (Some p, s) ->
  unsubscribe_call e ep p s = Done (None, x) -> unsubscribe_mark e p x = Done (v, s') ->
  rtc world_step (World s None fl) (World s' None fl).
Proof.
  intros K F C M. eapply rtc_l; [exact (W_unsubscribe (World s None fl) e ep u p eq_refl K F)|]. cbn [srv flights].
  eapply rtc_l.
  { apply (part_run s None fl (Unsubscribing e ep p) (Some (Marking e p)) x); [done|]. cbn [advance]. now rewrite (mbind_eq _ _ _ _ _ C). }
  apply rtc_once. rewrite <- (app_nil_r fl) at 2. apply (part_run x None fl (Marking e p) None s'); [done|]. cbn [advance]. now rewrite (mbind_eq _ _ _ _ _ M).
Qed.
(** ** What a request that goes on needs *)
(** The info the request goes on with is such that this part is defined. *)
Definition goes_on (f : flight) i : Prop :=
  match f with
  | Renewing e _ _ text _ => exists r, wsman_set_expiretime mktime (e_isdst e) (e_now e) text (expires i) = Done r
  | Renewed _ ep _ _ code _ => code = WSMAN_RC_OK /\ (run ep i).1.1 = 0
  | Pulling _ m => m <> Some None
  | _ => True
  end.
(** The parts that use the info. *)
Definition uses_info (f : flight) : Prop := match f with Appending _ _ _ | Unsubscribing _ None _ => False | _ => True end.
Lemma pull_goes_on s p i m : good s -> p ∈ subscriptionMemList s -> infos s !! p = Some i -> m <> Some None ->
  exists v s', pull_events p m s = Done (v, s').
Proof.
  intros G Lp E Nm. destruct (queue (events s) (sub_id i)) as [|ev q] eqn:Eq.
  - destruct (g_info _ G _ _ Lp E) as [Lk [Nul L] _]. unfold pull_events. rewrite (mbind_eq _ _ _ _ _ (lock_eq _ _ _ E Lk)).
    assert (E1 : infos (put p (with_locked true i) s) !! p = Some (with_locked true i)) by apply put_here.
    rewrite (mbind_eq _ _ _ _ _ (id_of_eq _ _ _ E1 Nul)). erewrite mbind_eq; [|unfold mget; reflexivity]. cbv beta.
    cbn [events put set_infos]. rewrite (count_ok (events s) _ (g_pool _ G)). change (sub_id (with_locked true i)) with (sub_id i). rewrite Eq.
    destruct (refuse_done (put p (with_locked true i) s) WSMAN_TIMED_OUT WSMAN_DETAIL_OK None) as [r R].
    change (0 <? Z.of_nat (length (@nil N))) with false. cbv iota. rewrite (mbind_eq _ _ _ _ _ R). rewrite (mbind_eq _ _ _ _ _ (unlock_eq _ _ _ E1 eq_refl)). eexists _, _. reflexivity.
  - assert (exists n, asked m = Done n) as [n A] by (destruct m as [[t|]|]; [eexists; reflexivity|done|eexists; reflexivity]).
    destruct (pull_events_eq s p i m n G Lp E A) as (pl & P & _); [now rewrite Eq|]. eexists _, _. exact P.
Qed.
Lemma advance_goes_on w f k : wgood w -> flights w !! k = Some f ->
  needs_list f \/ (exists i, target f ∈ subscriptionMemList (srv w) /\ infos (srv w) !! target f = Some i /\ goes_on f i) ->
  exists o s', advance f (srv w) = Done (o, s').
Proof.
  intros W L [H|(i & Lp & E & Go)]; [destruct f; try done; eexists _, _; reflexivity|]. pose proof (wg_good _ W) as G. destruct (g_info _ G _ _ Lp E) as [Lk [Nul Ln] _].
  pose proof (proj1 (Forall_lookup _ _) (wg_ok _ W) k f L) as Fo.
  destruct f as [r sv p|r sv p|e ep p|e p|e ep u text p|e ep u text code p|p m]; cbn [advance target goes_on flight_ok] in *.
  - eexists _, _. reflexivity.
  - rewrite (mbind_eq _ _ _ _ _ (answer_eq r sv _ p i E Nul)). eexists _, _. reflexivity.
  - destruct (unsubscribe_call_eq e ep (srv w) p i E) as (o & U & _). rewrite (mbind_eq _ _ _ _ _ U). eexists _, _. reflexivity.
  - rewrite (mbind_eq _ _ _ _ _ (unsubscribe_mark_eq e (srv w) p i E Lk)). eexists _, _. reflexivity.
  - destruct Go as [[exp code] X]. rewrite (mbind_eq _ _ _ _ _ (renew_time_eq mktime e (srv w) p i text exp code E Lk X)). eexists _, _. reflexivity.
  - destruct Go as [-> R]. destruct (run_endpoint_ok ep i Fo (g_info _ G _ _ Lp E)) as (I & _).
    pose proof (renew_rest_eq localtime e ep (srv w) p i u text WSMAN_RC_OK E Lk (ok_locked _ I)) as Rr. rewrite R in Rr.
    rewrite bool_decide_true in Rr by done. cbn [andb Z.eqb] in Rr. rewrite (mbind_eq _ _ _ _ _ Rr). eexists _, _. reflexivity.
  - destruct (pull_goes_on (srv w) p i m G Lp E Go) as (v & s' & P). rewrite (mbind_eq _ _ _ _ _ P). eexists _, _. reflexivity.
Qed.
(** Whatever starts by looking at an info that is gone is undefined. *)
Lemma gone_get {A} s p (k : info -> CM server A) : infos s !! p = None -> (get_info p ≫= k) s = Undef.
Proof. intros E. unfold mbind, M_bind, get_info. now rewrite E. Qed.
Lemma gone_lock {A} s p (k : unit -> CM server A) : infos s !! p = None -> (lock p ≫= k) s = Undef.
Proof. intros E. unfold lock, mbind, M_bind, get_info. now rewrite E. Qed.
Lemma gone_unlock {A} s p (k : unit -> CM server A) : infos s !! p = None -> (unlock p ≫= k) s = Undef.
Proof. intros E. unfold unlock, mbind, M_bind, get_info. now rewrite E. Qed.
Lemma mbind_undef {A B} (m : CM server A) (k : A -> CM server B) s : m s = Undef -> (m ≫= k) s = Undef.
Proof. intros E. unfold mbind, M_bind. now rewrite E. Qed.
Lemma advance_gone f s : uses_info f -> infos s !! target f = None -> advance f s = Undef.
Proof.
  destruct f as [r sv p|r sv p|e [ep|] p|e p|e ep u text p|e ep u text code p|p m]; cbn [uses_info target advance]; intros H E; try done; apply mbind_undef.
  - now apply gone_get.
  - unfold unsubscribe_call, call_endpoint. apply mbind_undef. now apply gone_get.
  - now apply gone_lock.
  - now apply gone_lock.
  - unfold renew_rest. destruct (negb _); [now apply gone_unlock|now apply gone_get].
  - now apply gone_lock.
Qed.

(** C3. However the steps of requests, of arriving events, of the passes of the manager and of the timer and of
    the threads that send come after one another, where a step is what a thread does between taking and letting go of a lock, so
    that Subscribe, Unsubscribe, Renew and Pull have several between which others can come: nothing in the list is without
    its info, no info there stays locked, no info is lost while a thread that sends works for it, no subscription gets two
    such threads at a time, and the turns of a pass that is on its way can always be taken. A thread that sends comes to its end
    exactly if it need not read an answer or the texts it has to compare in it are there. A request that is to go on with a
    subscription it has made or found does so as long as the subscription is still in the list, unless what it has read
    is undefined for it (an expiry time that cannot be read, a Renew that is refused, a MaxElements without text);
    when the manager has taken the subscription out in the meantime, going on is undefined, but for the call of no plug-in.
    The server starts with a repository and nobody subscribed. Steps are those that are defined: what is undefined ends
    the program. The pool of events, which has no lock, is supposed to be used by one thread at a time; plug-ins leave the lock,
    the id, the heartbeats and the flags of an info they are shown as they are, and polls change no queue but that of their
    subscription; no interval of heartbeats is within a second of the end of its range. *)
Theorem subscribers_are_safe limit r w : poll_law poll source -> rtc world_step (start limit r) w ->
  good (srv w) /\
  (forall creates now p rest, holder w = Some (Managing (p :: rest)) -> exists s', manager_turn creates poll now p (srv w) = Done (tt, s')) /\
  (forall creates now p rest, holder w = Some (Beating (p :: rest)) -> exists s', heartbeat_turn creates now p (srv w) = Done (tt, s')) /\
  (forall k t, senders (srv w) !! k = Some t -> exists i, infos (srv w) !! t_sub t = Some i /\ forall now message_id reply,
     (exists s', wse_event_sender now message_id reply k (srv w) = Done (tt, s')) <->
     (sends now i = true -> wants_ack i = true -> ack_ok message_id reply)) /\
  (forall k f, flights w !! k = Some f ->
     (needs_list f \/ (exists i, target f ∈ subscriptionMemList (srv w) /\ infos (srv w) !! target f = Some i /\ goes_on f i) ->
      exists o s', advance f (srv w) = Done (o, s')) /\
     (uses_info f -> infos (srv w) !! target f = None -> advance f (srv w) = Undef)).
Proof.
  intros Law R. pose proof (reach_wgood _ w Law (start_wgood limit r) R) as W. pose proof (wg_good _ W) as G. pose proof (proj2 (wg_rest _ W)) as Al.
  split; [done|]. split; [|split; [|split]].
  - intros creates now p rest H. rewrite H in Al. specialize (Al p ltac:(left)). destruct (g_list _ G p Al) as [i E].
    destruct (manager_turn_ok creates poll source Law now (srv w) p i G Al E) as (pl & T & _). eauto.
  - intros creates now p rest H. rewrite H in Al. specialize (Al p ltac:(left)). destruct (g_list _ G p Al) as [i E].
    destruct (heartbeat_turn_ok creates now (srv w) p i G Al E) as [T _]. eauto.
  - intros k t K. assert (Lp : t_sub t ∈ subscriptionMemList (srv w)).
    { apply (g_alive _ G). apply (list_elem_of_fmap_2 t_sub). eapply list_elem_of_lookup_2, K. }
    destruct (g_list _ G _ Lp) as [i E]. exists i. split; [done|]. intros now mid reply. split.
    + intros [s' H]. now apply (sender_readable now mid reply k t i (srv w) s').
    + intros A. destruct (sender_ok now mid reply (srv w) k t i G K E A) as [H _]. eauto.
  - intros k f L. split; [now apply (advance_goes_on w f k)|now apply advance_gone].
Qed.

(** C29. Unsubscribe ends the first subscription that has the id, in any letter case: when the plug-in agrees, and no
    other step comes between those of the request, it is answered, and from then on nothing is sent for the id, whatever steps of
    whatever threads follow, as long as none of them makes a subscription with this id anew; and a pass of the manager that follows
    takes it out, with the events that wait for it, unless a thread still works for it, when it stays in the list till a later pass.
    (The server is one that has been reached from its start as for [subscribers_are_safe], the ids of the subscriptions differ
    in more than the case of letters, and the identifier has at least five characters.) *)
Theorem unsubscribe_ends limit r w e ep u p i : poll_law poll source -> rtc world_step (start limit r) w -> holder w = None ->
  distinct (srv w) -> endpoint_ok ep -> (5 <= length u)%nat ->
  List.find (is_sub (srv w) (drop 5 u)) (subscriptionMemList (srv w)) = Some p -> infos (srv w) !! p = Some i -> (run ep i).1.1 = 0 ->
  exists s1, wse_unsubscribe_stub e ep (Some (Some u)) (srv w) = Done ((0, if e_response e then Some RUnsubscribe else None), s1) /\
    rtc world_step w (World s1 None (flights w)) /\
    (forall w', rtc (step_without (sub_id i)) (World s1 None (flights w)) w' -> sent_for (sub_id i) (sendings (srv w')) = sent_for (sub_id i) (sendings (srv w))) /\
    (forall creates now, exists s2, wse_notification_manager creates poll now s1 = Done (tt, s2) /\
       rtc world_step (World s1 None (flights w)) (World s2 None (flights w)) /\
       if pending i then p ∈ subscriptionMemList s2
       else p ∉ subscriptionMemList s2 /\ infos s2 !! p = None /\ queue (events s2) (sub_id i) = []).
Proof.
  intros Law Rc Nh D K L F E R. pose proof (reach_wgood _ w Law (start_wgood limit r) Rc) as W. pose proof (wg_good _ W) as G.
  destruct w as [s h fl]. cbn [srv holder flights] in *. subst h. assert (Lp : p ∈ subscriptionMemList s).
  { pose proof (List.find_some _ _ F) as [H _]. now apply list_elem_of_In. }
  destruct (unsubscribe_found_eq e ep s p i G K Lp E) as (v & U & _ & G1). rewrite R in U. cbn [Z.eqb] in U.
  destruct (run_endpoint_ok ep i K (g_info _ G _ _ Lp E)) as (I & P & Sd). set (x := (run ep i).1.2) in *. set (j := ended_by_client x) in *.
  pose proof (ended_by_client_keeps x) as [Pj Un]. fold j in Pj, Un. rewrite P in Pj.
  assert (Sj : search (Some u) (subscriptionMemList s) s = Done (Some p, s)) by (rewrite search_eq by done; now rewrite F).
  assert (Ej : infos (put p j s) !! p = Some j) by apply put_here.
  assert (Rn : rtc world_step (World s None fl) (World (put p j s) None fl)).
  { destruct (unsubscribe_call_eq e ep s p i E) as (o & C & Ho). fold x in C. rewrite (proj2 Ho R) in C.
    pose proof (unsubscribe_mark_eq e (put p x s) p x (put_here p x s) (ok_locked _ I)) as M. rewrite put_put in M.
    exact (unsubscribe_run e ep (Some u) p s (put p x s) _ _ fl K Sj C M). }
  exists (put p j s). split; [|split; [exact Rn|split]].
  - unfold wse_unsubscribe_stub. erewrite mbind_eq; [|exact Sj]. exact U.
  - intros w' Rw. rewrite (ended_stays_quiet (sub_id i) (World (put p j s) None fl) w' Law); [done| | |exact Rw].
    + exact (reach_wgood _ _ Law W Rn).
    + cbn [srv]. intros q k Ek Sk. destruct (decide (q = p)) as [->|Nq]; [rewrite Ej in Ek; injection Ek as <-; exact Un|].
      cbn in Ek. rewrite lookup_insert_ne in Ek by done. destruct Nq. apply (D q p k i Ek E). now rewrite Sk.
  - intros creates now. destruct (manager_loop_ok creates poll source Law now (subscriptionMemList (put p j s)) (put p j s) G1
      (distinct_put s p i j D E Sd) (g_nodup _ G1)) as (s2 & M & G2 & Pa); [done|].
    exists s2. split; [exact M|]. split; [exact (manager_pass_run creates now _ _ fl M)|].
    assert (Go : gone now j = negb (pending i)) by (unfold gone, ended; now rewrite Un, Pj).
    assert (St : stays now (put p j s) p <-> gone now j = false).
    { unfold stays, removed_id. rewrite (at_some _ _ _ _ Ej). now destruct (gone now j). }
    destruct (pending i); cbn [negb] in Go.
    + rewrite (pa_list _ _ _ _ _ _ Pa). apply list_elem_of_filter. split; [intros _; now apply St|done].
    + rewrite (pa_list _ _ _ _ _ _ Pa), list_elem_of_filter, (pa_info _ _ _ _ _ _ Pa p j Ej), bool_decide_true, Go by done.
      split; [intros [H _]; apply St in H; [congruence|done]|]. split; [done|]. rewrite <- Sd. change (sub_id x) with (sub_id j).
      rewrite (pa_queue _ _ _ _ _ _ Pa p j Lp Ej). unfold left_over. now rewrite Go.
Qed.
End Run.
(** ** A concrete run *)
Abbreviation demo_step := (world_step utc_mktime utc_time no_poll).
Definition demo_prepared : @server nat unit unit := state_of (subscribe_prepare utc_mktime utc_time (demo_env 1000) None demo_request demo_start) demo_start.
(** A subscription is made and two events arrive, while the request is still to be answered. *)
Lemma demo_run : rtc demo_step (start 5 (Repo true ∅)) (World demo_two None [Answering demo_request true 1%positive]).
Proof.
  eapply rtc_l.
  { eapply (W_prepare utc_mktime utc_time no_poll _ (demo_env 1000) None demo_request (inr (1%positive, true)) demo_prepared); [apply no_endpoint_ok|vm_compute; reflexivity|].
    intros p i _ H. apply demo_infos in H as [_ ->]; [|reflexivity]. split; vm_compute; discriminate. }
  eapply rtc_l.
  { eapply (W_part utc_mktime utc_time no_poll _ 0 (Appending demo_request true 1%positive) (Some (Answering demo_request true 1%positive)) demo_sub); [reflexivity..|vm_compute; reflexivity]. }
  eapply rtc_l; [|apply rtc_once].
  - apply (W_event utc_mktime utc_time no_poll (World demo_sub None [Answering demo_request true 1%positive]) demo_id 7%nat 0 (events (demo_event demo_sub 7))); [reflexivity..|vm_compute; reflexivity].
  - apply (W_event utc_mktime utc_time no_poll (World (demo_event demo_sub 7) None [Answering demo_request true 1%positive]) demo_id 8%nat 0 (events demo_two)); [reflexivity..|vm_compute; reflexivity].
Qed.
(** The manager has handed an event to a thread. *)
Definition demo_busy : world := World (demo_pass 1001 demo_two) None [Answering demo_request true 1%positive].
Lemma demo_busy_run : rtc demo_step (start 5 (Repo true ∅)) demo_busy.
Proof.
  etransitivity; [exact demo_run|]. apply (manager_pass_run utc_mktime utc_time no_poll all_threads 1001 demo_two). vm_compute. reflexivity.
Qed.
(** Unsubscribe has found the subscription, and then the manager takes it out because its time is over. *)
Definition demo_race : world := World (demo_pass 4601 demo_two) None [Answering demo_request true 1%positive; Unsubscribing (demo_env 4602) None 1%positive].
Lemma demo_race_run : rtc demo_step (start 5 (Repo true ∅)) demo_race.
Proof.
  etransitivity; [exact demo_run|]. eapply rtc_l.
  - apply (W_unsubscribe utc_mktime utc_time no_poll _ (demo_env 4602) None (Some (lit "uuid:" ++ demo_id)) 1%positive); [reflexivity|apply no_endpoint_ok|vm_compute; reflexivity].
  - apply (manager_pass_run utc_mktime utc_time no_poll all_threads 4601 demo_two). vm_compute. reflexivity.
Qed.
Lemma subscribers_are_safe_witness :
  (exists i, infos (srv demo_busy) !! 1%positive = Some i /\ good (srv demo_busy) /\
    (exists s', wse_event_sender 1002 (lit "uuid:m") good_ack 0 (srv demo_busy) = Done (tt, s')) /\
    ~ (exists s', wse_event_sender 1002 (lit "uuid:m") (Some (Ack true (Some None) None)) 0 (srv demo_busy) = Done (tt, s'))) /\
  (exists o s', advance utc_mktime utc_time (Answering demo_request true 1%positive) (srv demo_busy) = Done (o, s')) /\
  advance utc_mktime utc_time (Answering demo_request true 1%positive) (srv demo_race) = Undef.
Proof.
  pose proof (subscribers_are_safe utc_mktime utc_time no_poll no_source 5 (Repo true ∅) demo_busy no_poll_law demo_busy_run) as (G & _ & _ & S & A).
  pose proof (subscribers_are_safe utc_mktime utc_time no_poll no_source 5 (Repo true ∅) demo_race no_poll_law demo_race_run) as (_ & _ & _ & _ & A').
  split; [|split].
  - destruct (S 0%nat (Thread 1%positive (Some [7%nat])) ltac:(vm_compute; reflexivity)) as (i & E & Iff). exists i. split; [exact E|]. split; [exact G|].
    assert (i = marked demo_info) as -> by (change (infos (srv demo_busy) !! 1%positive = Some i) in E; replace (infos (srv demo_busy) !! 1%positive) with (Some (marked demo_info)) in E by (vm_compute; reflexivity); congruence).
    split.
    + apply Iff. intros _ _. cbn. intros _. eauto.
    + intros H. exact (proj1 (Iff _ _ _) H ltac:(vm_compute; reflexivity) ltac:(vm_compute; reflexivity)).
  - apply (A 0%nat); [reflexivity|]. right. exists (marked demo_info). split; [vm_compute; left|split; [vm_compute; reflexivity|exact I]].
  - apply (A' 0%nat); [reflexivity|exact I|vm_compute; reflexivity].
Defined.
Lemma unsubscribe_ends_witness : exists s1,
  wse_unsubscribe_stub (demo_env 1001) None (Some (Some (lit "uuid:11111111-2222-3333-4444-AAAAAAAAAAAA"))) demo_two = Done ((0, Some RUnsubscribe), s1) /\
  (forall w', rtc (step_without utc_mktime utc_time no_poll demo_id) (World s1 None [Answering demo_request true 1%positive]) w' -> sent_for demo_id (sendings (srv w')) = []) /\
  exists s2, wse_notification_manager all_threads no_poll 1001 s1 = Done (tt, s2) /\
    1%positive ∉ subscriptionMemList s2 /\ infos s2 !! 1%positive = None /\ queue (events s2) demo_id = [].
Proof.
  destruct (unsubscribe_ends utc_mktime utc_time no_poll no_source 5 (Repo true ∅) (World demo_two None [Answering demo_request true 1%positive]) (demo_env 1001) None
      (lit "uuid:11111111-2222-3333-4444-AAAAAAAAAAAA") 1%positive demo_info no_poll_law demo_run eq_refl demo_distinct no_endpoint_ok ltac:(vm_compute; lia)
      ltac:(vm_compute; reflexivity) ltac:(vm_compute; reflexivity) eq_refl) as (s1 & U & _ & Q & M).
  assert (Ei : sub_id demo_info = demo_id) by (vm_compute; reflexivity). rewrite Ei in *. exists s1. split; [exact U|]. split; [exact Q|].
  destruct (M all_threads 1001) as (s2 & P & _ & X). exists s2. split; [exact P|]. exact X.
Defined.
End SubscribeRun.
