(* ===== verification/CimIndication.v ===== *)
(** * CimIndication: indications of a CIM broker become events (lib/wsman-cimindication-processor.c)

    A broker posts an export request, one instance or several, to the URL of a subscription.  The
    handler finds the subscription by the last part of the URL, turns each instance into a document
    with one element for each value of its properties, and puts it into the event pool; the broker
    gets an acknowledgement. *)
From S2P Require Import Prelude CString HttpText Names EventPool Xml Envelope Subscribe SubscribeSafe.
Import HttpText Names EventPool Xml Envelope Subscribe SubscribeSafe.

Module CimIndication.

(* src: src/CIM_Framework/openwsman/include/wsman-cimindication-processor.h 40-61 CIMXML_CIM *)
Definition CIMXML_CIM : cstring := lit "CIM".
Definition CIMXML_CIMVERSION : cstring := lit "CIMVERSION".
Definition CIMXML_DTDVERSION : cstring := lit "DTDVERSION".
Definition CIMXML_MESSAGE : cstring := lit "MESSAGE".
Definition CIMXML_SIMPLEEXPREQ : cstring := lit "SIMPLEEXPREQ".
Definition CIMXML_SIMPLEEXPRSP : cstring := lit "SIMPLEEXPRSP".
Definition CIMXML_MULTIEXPREQ : cstring := lit "MULTIEXPREQ".
Definition CIMXML_MULTIEXPRSQ : cstring := lit "MULTIEXPRSQ".
Definition CIMXML_EXPMETHODCALL : cstring := lit "EXPMETHODCALL".
Definition CIMXML_EXPMETHODRESPONSE : cstring := lit "EXPMETHODRESPONSE".
Definition CIMXML_EXPPARAMVALUE : cstring := lit "EXPPARAMVALUE".
Definition CIMXML_IRETURNVALUE : cstring := lit "IRETURNVALUE".
Definition CIMXML_INSTANCE : cstring := lit "INSTANCE".
Definition CIMXML_PROPERTY : cstring := lit "PROPERTY".
Definition CIMXML_NAME : cstring := lit "NAME".
Definition CIMXML_VALUE : cstring := lit "VALUE".
Definition CIMXML_CLASSNAME : cstring := lit "CLASSNAME".
Definition CIMXML_PROPERTYARRAY : cstring := lit "PROPERTY.ARRAY".
Definition CIMXML_VALUEARRAY : cstring := lit "VALUE.ARRAY".
(* src: src/CIM_Framework/openwsman/include/wsman-cimindication-processor.h 68-79 CIMXMLKnownStatusCode *)
Inductive CIMXMLKnownStatusCode :=
  | CIMXML_STATUS_OK | CIMXML_STATUS_UNSUPPORTED_PROTOCOL_VERSIOIN | CIMXML_STATUS_MULTIPLE_REQUESTS_UNSUPPORTED
  | CIMXML_STATUS_UNSUPPORTED_CIM_VERSION | CIMXML_STATUS_UNSUPPORTED_DTD_VERSION | CIMXML_STATUS_REQUEST_NOT_VALID
  | CIMXML_STATUS_REQUEST_NOT_WELL_FORMED | CIMXML_STATUS_REQUEST_NOT_LOOSELY_VALID | CIMXML_STATUS_HEADER_MISMATCH
  | CIMXML_STATUS_UNSUPPORTED_OPERATION.
(** The answer to a request: the code and its text, the HTTP status, the document. *)
(* src: src/CIM_Framework/openwsman/include/wsman-cimindication-processor.h 86-92 CimxmlMessage *)
Record CimxmlMessage := CimMsg { cm_code : CIMXMLKnownStatusCode; cm_fault_msg : option cstring; cm_http_code : Z; cm_response : option xml }.
(** What goes into the event pool; a document that could not be made is [None]. *)
Record notification := Notification { EventAction : option cstring; EventContent : option xml }.

Definition cim (node : option xml) (name : cstring) : option xml := ws_xml_get_child node 0 None (Some name).
(* src: lib/wsman-cimindication-processor.c 45-56 isvalidCIMIndicationExport *)
Definition isvalidCIMIndicationExport (doc : option xml) : bool :=
  let node := cim doc CIMXML_MESSAGE in
  match cim node CIMXML_SIMPLEEXPREQ with
  | Some _ => true
  | None => match cim node CIMXML_MULTIEXPREQ with Some _ => true | None => false end
  end.

Section Indications.
Context (content : cstring -> list xml).
Local Abbreviation add_attr := (ws_xml_add_node_attr None).
Local Abbreviation new := (fun name => make_new_xml_node content None name None false).

Definition method_response : xml :=
  append_child (add_attr (new CIMXML_EXPMETHODRESPONSE) None CIMXML_NAME (Some (lit "ExportIndication"))) (new CIMXML_IRETURNVALUE).
(** As many answers as the request has elements. *)
(* src: lib/wsman-cimindication-processor.c 58-102 cimxml_build_response_msg *)
Definition cimxml_build_response_msg (indoc : xml) : xml :=
  let innode := cim (Some indoc) CIMXML_MESSAGE in
  let root := add_attr (add_attr (ws_xml_create_doc None CIMXML_CIM) None CIMXML_CIMVERSION (Some (lit "2.0"))) None CIMXML_DTDVERSION (Some (lit "2.0")) in
  let message := fold_left (fun n a => add_attr n None (attr_name a) (Some (attr_value a))) (from_option properties [] innode) (new CIMXML_MESSAGE) in
  let answers :=
    match cim innode CIMXML_SIMPLEEXPREQ with
    | Some _ => append_child (new CIMXML_SIMPLEEXPRSP) method_response
    | None =>
        let temp := cim innode CIMXML_MULTIEXPREQ in
        fold_left append_child (repeat method_response (Z.to_nat (ws_xml_get_child_count temp))) (new CIMXML_MULTIEXPRSQ)
    end in
  append_child root (append_child message answers).

(** [vendor]: the vendor_namespaces of the info, prefixes and URIs in the order of a scan of the table. *)
(* src: lib/wsman-cimindication-processor.c 104-123 get_cim_indication_namespace *)
Definition get_cim_indication_namespace (sub_uri : cstring) (vendor : option (list (cstring * cstring))) (classname : cstring) : option cstring :=
  match strstr sub_uri XML_NS_CIM_CLASS with
  | Some _ => Some sub_uri
  | None => snd <$> List.find (fun hn => bool_decide (is_Some (strstr classname hn.1))) (default [] vendor)
  end.
(** A node that cannot be made, for want of a name, is not added. *)
Definition add_value (ns property : option cstring) (value : option cstring) (node : option xml) : option xml :=
  match property, node with
  | Some name, Some node => Some (ws_xml_add_child content node ns name value)
  | _, _ => node
  end.
(* src: lib/wsman-cimindication-processor.c 162-173 create_notification_entity *)
Definition add_property (action : option cstring) (node : xml) (doc : option xml) : option xml :=
  add_value action (attr_value <$> ws_xml_find_node_attr (Some node) None CIMXML_NAME) (ws_xml_get_node_text (Some node)) doc.
(* src: lib/wsman-cimindication-processor.c 175-190 create_notification_entity *)
Definition add_property_array (action : option cstring) (node : xml) (doc : option xml) : option xml :=
  match ws_xml_find_node_attr (Some node) None CIMXML_NAME with
  | None => doc
  | Some attr =>
      for_children (cim (Some node) CIMXML_VALUEARRAY) None (Some CIMXML_VALUE)
        (fun valnode doc => inl (add_value action (Some (attr_value attr)) (ws_xml_get_node_text (Some valnode)) doc)) doc
  end.
(** [None]: the request has no instance.  An instance without a class has no document. *)
(* src: lib/wsman-cimindication-processor.c 125-193 create_notification_entity *)
Definition create_notification_entity (sub_uri : cstring) (vendor : option (list (cstring * cstring))) (node : option xml) : option notification :=
  match cim (cim (cim node CIMXML_EXPMETHODCALL) CIMXML_EXPPARAMVALUE) CIMXML_INSTANCE with
  | None => None
  | instance =>
      let classname := attr_value <$> ws_xml_find_node_attr instance None CIMXML_CLASSNAME in
      let action := (fun c => printf_s (get_cim_indication_namespace sub_uri vendor c) ++ "/"%char :: c) <$> classname in
      let doc := ws_xml_create_doc action <$> classname in
      let doc := for_children instance None (Some CIMXML_PROPERTY) (fun node doc => inl (add_property action node doc)) doc in
      let doc := for_children instance None (Some CIMXML_PROPERTYARRAY) (fun node doc => inl (add_property_array action node doc)) doc in
      Some (Notification action doc)
  end.

(* src: lib/wsman-cimindication-processor.c 258-286 cimxml_set_fault *)
Definition cimxml_set_fault (m : CimxmlMessage) (status : CIMXMLKnownStatusCode) : CimxmlMessage :=
  let set text := CimMsg status (Some (lit text)) (cm_http_code m) (cm_response m) in
  match status with
  | CIMXML_STATUS_OK => m
  | CIMXML_STATUS_UNSUPPORTED_PROTOCOL_VERSIOIN => set "unsupported-protocol-version"%string
  | CIMXML_STATUS_MULTIPLE_REQUESTS_UNSUPPORTED => set "multiple-requests-unsupported"%string
  | CIMXML_STATUS_UNSUPPORTED_CIM_VERSION => set "unsupported-cim-version"%string
  | CIMXML_STATUS_UNSUPPORTED_DTD_VERSION => set "unsupported-dtd-version"%string
  | CIMXML_STATUS_REQUEST_NOT_VALID => set "request-not-valid"%string
  | CIMXML_STATUS_REQUEST_NOT_WELL_FORMED => set "request-not-well-formed"%string
  | CIMXML_STATUS_REQUEST_NOT_LOOSELY_VALID => set "request-not-loosely-valid"%string
  | CIMXML_STATUS_HEADER_MISMATCH => set "header-mismatch"%string
  | CIMXML_STATUS_UNSUPPORTED_OPERATION => set "unsupported-operatioin"%string
  end.
(* src: lib/wsman-cimindication-processor.c 243-249 cimxml_message_new *)
Definition cimxml_message_new : CimxmlMessage := CimMsg CIMXML_STATUS_OK None 0 None.

Section Server.
Context {Poll Cancel : Type} (vendor_namespaces : positive -> option (list (cstring * cstring))).
Local Abbreviation server := (@server notification Poll Cancel).
(** Without an instance nothing is put into the pool; what the pool refuses is freed. *)
(* src: lib/wsman-cimindication-processor.c 213-222 create_indication_event *)
Definition add_event (p : positive) (n : option notification) : CM server unit :=
  i ← get_info p;
  id ← mlift (array_string (subsId (fixed i)));
  pl ← mget events;
  '(retval, pl) ← mlift ((if bool_decide (deliveryMode (fixed i) = PULL) then MemEventPoolAddPullEvent else MemEventPoolAddEvent) id n pl);
  mmod (set_events pl).
(* src: lib/wsman-cimindication-processor.c 207-225 create_indication_event *)
Fixpoint add_events (p : positive) (tmp : option xml) (n i : nat) : CM server unit :=
  match n with
  | O => mret tt
  | S n =>
      info ← get_info p;
      (match create_notification_entity (uri (fixed info)) (vendor_namespaces p) (ws_xml_get_child tmp (Z.of_nat i) None (Some CIMXML_SIMPLEEXPREQ)) with
       | None => mret tt
       | Some e => add_event p (Some e)
       end);;
      add_events p tmp n (S i)
  end.
(* src: lib/wsman-cimindication-processor.c 196-241 create_indication_event *)
Definition create_indication_event (indoc : xml) (p : positive) : CM server unit :=
  let node := cim (Some indoc) CIMXML_MESSAGE in
  match cim node CIMXML_MULTIEXPREQ with
  | Some tmp => add_events p (Some tmp) (Z.to_nat (ws_xml_get_child_count (Some tmp))) 0
  | None =>
      info ← get_info p;
      add_event p (create_notification_entity (uri (fixed info)) (vendor_namespaces p) (cim node CIMXML_SIMPLEEXPREQ))
  end.
(** The first subscription with the id. *)
(* src: lib/wsman-cimindication-processor.c 311-317 CIM_Indication_call *)
Fixpoint find_subscription (uuid : option cstring) (l : list positive) : CM server (option positive) :=
  match l with
  | [] => mret None
  | p :: l =>
      id ← id_of p;
      u ← mlift (deref uuid);
      if strcmp id u =? 0 then mret (Some p) else find_subscription uuid l
  end.
(** [parsed]: what ws_xml_read_memory makes of the body.  After a success the HTTP status is the one that
    the message was made with. *)
(* src: lib/wsman-cimindication-processor.c 288-335 CIM_Indication_call *)
Definition CIM_Indication_call (uuid : option cstring) (parsed : option xml) (message : CimxmlMessage) : CM server CimxmlMessage :=
  let refuse http code := mret (cimxml_set_fault (CimMsg (cm_code message) (cm_fault_msg message) http (cm_response message)) code) in
  match parsed with
  | None => refuse 400 CIMXML_STATUS_REQUEST_NOT_VALID
  | Some indicationRequest =>
      if negb (isvalidCIMIndicationExport parsed) then refuse 403 CIMXML_STATUS_UNSUPPORTED_OPERATION else
      l ← mget subscriptionMemList;
      node ← find_subscription uuid l;
      match node with
      | None => refuse 404 CIMXML_STATUS_REQUEST_NOT_VALID
      | Some p =>
          create_indication_event indicationRequest p;;
          mret (CimMsg (cm_code message) (cm_fault_msg message) (cm_http_code message) (Some (cimxml_build_response_msg indicationRequest)))
      end
  end.

(** ** An indication reaches the queue of its subscription *)
Local Abbreviation info := (@WsSubscribeInfo Poll Cancel).
(** The requests of an export, and the events that they stand for. *)
Definition export_requests (indoc : xml) : list (option xml) :=
  let node := cim (Some indoc) CIMXML_MESSAGE in
  match cim node CIMXML_MULTIEXPREQ with
  | Some tmp => map (fun i => ws_xml_get_child (Some tmp) (Z.of_nat i) None (Some CIMXML_SIMPLEEXPREQ))
                    (seq 0 (Z.to_nat (ws_xml_get_child_count (Some tmp))))
  | None => [cim node CIMXML_SIMPLEEXPREQ]
  end.
Definition indications (p : positive) (i : info) (indoc : xml) : list notification :=
  omap (create_notification_entity (uri (fixed i)) (vendor_namespaces p)) (export_requests indoc).
(** What the pool takes: all events, or, for a pull subscription, those that there is room for. *)
Definition taken (i : info) (limit : Z) (q l : list notification) : list notification :=
  if bool_decide (deliveryMode (fixed i) = PULL) then take (Z.to_nat (limit + 1 - Z.of_nat (length q))) l else l.
Definition add_all (i : info) (limit : Z) (q l : list notification) : list notification := q ++ taken i limit q l.

Lemma taken_nil i limit q : taken i limit q [] = [].
Proof. unfold taken. now destruct (bool_decide _); rewrite ?take_nil. Qed.
Lemma add_event_ok p i (n : option notification) s : good s -> p ∈ subscriptionMemList s -> infos s !! p = Some i ->
  let q := queue (events s) (sub_id i) in Z.of_nat (length q) < 2 ^ 31 - 1 ->
  exists pl, add_event p n s = Done (tt, set_events pl s) /\
    queue_only (events s) (sub_id i) (add_all i (u64 (max_pull_event_number (events s))) q (option_list n)) pl.
Proof.
  intros G Lp E q B. destruct (g_info _ G p i Lp E) as [_ [Hn L] _]. pose proof (g_pool _ G) as K.
  unfold add_event. step (get_sub_eq _ _ _ E). unfold array_string. rewrite (bool_decide_true (NUL ∈ _)) by done. cbn [mlift obind].
  change (c_string (subsId (fixed i))) with (sub_id i). unfold add_all, taken.
  assert (A0 : set_events (events s) s = s) by (now destruct s).
  destruct n as [n|]; cbv [option_list from_option default option_rect].
  - destruct (bool_decide (deliveryMode (fixed i) = PULL)).
    + destruct (add_pull_ok (events s) (sub_id i) n K L B) as (r & pl & Ep & Kp & R). exists pl. cbv [mget mbind M_bind mlift mmod]. cbn [obind].  rewrite Ep. split; [done|].
      split; [exact Kp|]. fold q in R. destruct (Z.ltb_spec (u64 (max_pull_event_number (events s))) (Z.of_nat (length q))) as [Lt|Ge]; destruct R as [_ R].
      * assert (R0 : Z.to_nat (u64 (max_pull_event_number (events s)) + 1 - Z.of_nat (length q)) = 0%nat) by lia. rewrite R0. now rewrite take_0, app_nil_r.
      * rewrite take_ge; [exact R|]. cbn. lia.
    + destruct (add_ok (events s) (sub_id i) n K L B) as (pl & Ep & Kp & R). exists pl. cbv [mget mbind M_bind mlift mmod]. cbn [obind]. rewrite Ep. done.
  - exists (events s). cbv [mget mbind M_bind mlift mmod]. cbn [obind]. split; [now destruct (bool_decide _)|]. split; [done|].
    replace (if bool_decide _ then _ else _) with (@nil notification) by (destruct (bool_decide _); now rewrite ?take_nil).
    rewrite app_nil_r. apply holds_refl.
Qed.
Lemma add_all_app i limit q l k : add_all i limit (add_all i limit q l) k = add_all i limit q (l ++ k).
Proof.
  unfold add_all, taken. destruct (bool_decide _); rewrite <- app_assoc; [|done]. f_equal.
  rewrite take_app, length_app. f_equal. f_equal. rewrite length_take. lia.
Qed.

Lemma add_all_length i limit q l : (length (add_all i limit q l) <= length q + length l)%nat.
Proof. unfold add_all, taken. rewrite length_app. destruct (bool_decide _); rewrite ?length_take; lia. Qed.
(** One event after another: every request of an export, whether it has an instance or not. *)
Lemma add_events_ok p i tmp : forall n k s, good s -> p ∈ subscriptionMemList s -> infos s !! p = Some i ->
  let q := queue (events s) (sub_id i) in
  let l := omap (create_notification_entity (uri (fixed i)) (vendor_namespaces p))
             (map (fun i => ws_xml_get_child tmp (Z.of_nat i) None (Some CIMXML_SIMPLEEXPREQ)) (seq k n)) in
  Z.of_nat (length q) + Z.of_nat n < 2 ^ 31 ->
  exists pl, add_events p tmp n k s = Done (tt, set_events pl s) /\
    queue_only (events s) (sub_id i) (add_all i (u64 (max_pull_event_number (events s))) q l) pl.
Proof.
  induction n as [|n IH]; intros k s G Lp E q l B.
  - exists (events s). split; [now destruct s|]. subst l. cbn [seq map omap list_omap]. unfold add_all. rewrite taken_nil, app_nil_r.
    split; [apply G|apply holds_refl].
  - cbn [add_events]. step (get_sub_eq _ _ _ E). subst l. cbn [seq map]. set (x := ws_xml_get_child tmp (Z.of_nat k) _ _).
    destruct (create_notification_entity (uri (fixed i)) (vendor_namespaces p) x) as [e|] eqn:Ee; cbn [omap list_omap]; fold x; rewrite Ee.
    + destruct (add_event_ok p i (Some e) s G Lp E ltac:(fold q; lia)) as (pl & Ea & Kp & Hp). fold q in Hp. step Ea.
      pose proof (holds_here _ _ _ _ Hp) as Hq. destruct (IH (S k) (set_events pl s) (good_events s pl G Kp) Lp E) as (pl' & El & Kl & Hl).
      { cbn [events set_events]. rewrite Hq. pose proof (add_all_length i (u64 (max_pull_event_number (events s))) q [e]). cbn in *. lia. }
      exists pl'. rewrite El. split; [done|]. split; [exact Kl|]. cbn [events set_events] in Hl.
      rewrite Hq, (proj1 Hp), add_all_app in Hl. eapply holds_trans; [exact Hp|exact Hl].
    + destruct (IH (S k) s G Lp E) as (pl & El & Kl & Hl); [fold q; lia|]. exists pl. split; [exact El|]. split; [exact Kl|exact Hl].
Qed.
Lemma create_event_ok p i indoc s : good s -> p ∈ subscriptionMemList s -> infos s !! p = Some i ->
  let q := queue (events s) (sub_id i) in Z.of_nat (length q) + Z.of_nat (length (export_requests indoc)) < 2 ^ 31 ->
  exists pl, create_indication_event indoc p s = Done (tt, set_events pl s) /\
    queue_only (events s) (sub_id i) (add_all i (u64 (max_pull_event_number (events s))) q (indications p i indoc)) pl.
Proof.
  intros G Lp E q B. unfold create_indication_event, indications, export_requests in *.
  destruct (cim (cim (Some indoc) CIMXML_MESSAGE) CIMXML_MULTIEXPREQ) as [tmp|].
  - rewrite length_map, length_seq in B. now apply add_events_ok.
  - step (get_sub_eq _ _ _ E). cbn [length] in B.
    destruct (add_event_ok p i (create_notification_entity (uri (fixed i)) (vendor_namespaces p) (cim (cim (Some indoc) CIMXML_MESSAGE) CIMXML_SIMPLEEXPREQ))
      s G Lp E ltac:(fold q; lia)) as (pl & Ea & Qp). exists pl. split; [exact Ea|].
    cbn [map omap list_omap]. now destruct (create_notification_entity _ _ _).
Qed.
(** The subscription with an id: the first, and with different ids the only one. *)
Definition subscriber (s : server) (uuid : cstring) (l : list positive) : option positive :=
  List.find (fun p => bool_decide (sub_id <$> infos s !! p = Some uuid)) l.
Lemma find_subscription_eq uuid s l : good s -> no_nul uuid -> (forall p, p ∈ l -> p ∈ subscriptionMemList s) ->
  find_subscription (Some uuid) l s = Done (subscriber s uuid l, s).
Proof.
  intros G Nu. induction l as [|p l IH]; intros L; [done|]. cbn [find_subscription subscriber List.find].
  pose proof (L p ltac:(left)) as Lp. destruct (g_list _ G p Lp) as [i E]. destruct (g_info _ G p i Lp E) as [_ [Hn _] _].
  assert (D : bool_decide (sub_id <$> infos s !! p = Some uuid) = (strcmp (sub_id i) uuid =? 0)).
  { pose proof (strcmp_eq (sub_id i) uuid (c_string_no_nul _) Nu) as S. rewrite E.
    destruct (Z.eqb_spec (strcmp (sub_id i) uuid) 0) as [Z0|Z0].
    - apply bool_decide_eq_true. cbn. f_equal. tauto.
    - apply bool_decide_eq_false. intros [= X]. tauto. }
  rewrite D. step (id_of_eq _ _ _ E Hn).
  assert (Eu : mlift (deref (Some uuid)) s = Done (uuid, s)) by done. step Eu.
  destruct (strcmp (sub_id i) uuid =? 0); [done|]. apply IH. intros q Hq. apply L. now right.
Qed.
(** The answers in the document that goes back. *)
Definition acknowledgements (response : option xml) : list xml :=
  let message := cim response CIMXML_MESSAGE in
  from_option children [] (match cim message CIMXML_SIMPLEEXPRSP with Some a => Some a | None => cim message CIMXML_MULTIEXPRSQ end).
Lemma fold_attrs l ns name a ch : exists a',
  fold_left (fun n x => add_attr n None (attr_name x) (Some (attr_value x))) l (Elem ns name a ch) = Elem ns name a' ch.
Proof. revert a. induction l as [|x l IH]; intros a; [now exists a|]. cbn [fold_left]. apply IH. Qed.
Lemma acknowledgements_eq indoc : isvalidCIMIndicationExport (Some indoc) = true ->
  cim (cim (Some indoc) CIMXML_MESSAGE) CIMXML_SIMPLEEXPREQ = None \/ cim (cim (Some indoc) CIMXML_MESSAGE) CIMXML_MULTIEXPREQ = None ->
  acknowledgements (Some (cimxml_build_response_msg indoc)) = repeat method_response (length (export_requests indoc)).
Proof.
  intros V O. unfold isvalidCIMIndicationExport in V. unfold acknowledgements, cimxml_build_response_msg, export_requests. cbv zeta in V |- *.
  destruct (fold_attrs (from_option properties [] (cim (Some indoc) CIMXML_MESSAGE)) None CIMXML_MESSAGE [] []) as [a' Ea].
  change (make_new_xml_node content None CIMXML_MESSAGE None false) with (Elem None CIMXML_MESSAGE [] []). rewrite Ea.
  destruct (cim (cim (Some indoc) CIMXML_MESSAGE) CIMXML_SIMPLEEXPREQ) as [x|].
  - destruct O as [O|O]; [done|]. rewrite O. reflexivity.
  - destruct (cim (cim (Some indoc) CIMXML_MESSAGE) CIMXML_MULTIEXPREQ) as [tmp|].
    + change (make_new_xml_node content None CIMXML_MULTIEXPRSQ None false) with (Elem None CIMXML_MULTIEXPRSQ [] []). rewrite fold_append, length_map, length_seq. reflexivity.
    + done.
Qed.

(** C30. An indication that a broker posts to the URL of a subscription puts the events of its instances, in their order, at the
    end of the queue of that subscription, all of them or, for a pull subscription, as many as its limit leaves room for;
    no other queue and nothing else of the server changes, and the broker gets as many acknowledgements as it made
    requests (when it does not send one request and a list of requests together).  What cannot be parsed, is no export, or has no subscription is refused, and then nothing changes. *)
Theorem indication_delivered uuid parsed (m : CimxmlMessage) s : good s -> no_nul uuid ->
  (forall p i indoc, infos s !! p = Some i -> parsed = Some indoc ->
     Z.of_nat (length (queue (events s) (sub_id i))) + Z.of_nat (length (export_requests indoc)) < 2 ^ 31) ->
  exists answer s', CIM_Indication_call (Some uuid) parsed m s = Done (answer, s') /\ good s' /\
  match parsed with
  | None => s' = s /\ cm_http_code answer = 400 /\ cm_fault_msg answer = Some (lit "request-not-valid")
  | Some indoc =>
      if isvalidCIMIndicationExport parsed then
        match subscriber s uuid (subscriptionMemList s) with
        | None => s' = s /\ cm_http_code answer = 404 /\ cm_fault_msg answer = Some (lit "request-not-valid")
        | Some p => exists i pl, infos s !! p = Some i /\ sub_id i = uuid /\ s' = set_events pl s /\
            (forall id, queue pl id = if bool_decide (lower id = lower uuid)
               then add_all i (u64 (max_pull_event_number (events s))) (queue (events s) uuid) (indications p i indoc)
               else queue (events s) id) /\
            cm_http_code answer = cm_http_code m /\ cm_code answer = cm_code m /\
            (cim (cim parsed CIMXML_MESSAGE) CIMXML_SIMPLEEXPREQ = None \/ cim (cim parsed CIMXML_MESSAGE) CIMXML_MULTIEXPREQ = None ->
             acknowledgements (cm_response answer) = repeat method_response (length (export_requests indoc)))
        end
      else s' = s /\ cm_http_code answer = 403 /\ cm_fault_msg answer = Some (lit "unsupported-operatioin")
  end.
Proof.
  intros G Nu B. unfold CIM_Indication_call. cbv zeta. destruct parsed as [indoc|]; [|by eexists _, s].
  destruct (isvalidCIMIndicationExport (Some indoc)) eqn:V; cbn [negb]; [|by eexists _, s].
  assert (El : mget subscriptionMemList s = Done (subscriptionMemList s, s)) by done. step El.
  step (find_subscription_eq uuid s _ G Nu (fun p (H : p ∈ subscriptionMemList s) => H)).
  destruct (subscriber s uuid (subscriptionMemList s)) as [p|] eqn:F; [|by eexists _, s].
  apply find_some in F as [Lp%list_elem_of_In Ep%bool_decide_eq_true].
  destruct (g_list _ G p Lp) as [i E]. rewrite E in Ep. injection Ep as Ei.
  destruct (create_event_ok p i indoc s G Lp E (B p i indoc E eq_refl)) as (pl & Ec & Kp & Hp). step Ec. rewrite Ei in Hp.
  eexists _, (set_events pl s). split; [done|]. split; [now apply good_events|]. exists i, pl.
  repeat (split; [done || apply Hp|]). now apply acknowledgements_eq.
Qed.
End Server.
End Indications.

(** ** A broker with two indications for one subscription *)
Definition demo_instance (text : string) : xml :=
  Elem None CIMXML_SIMPLEEXPREQ [] [Elem None CIMXML_EXPMETHODCALL [] [Elem None CIMXML_EXPPARAMVALUE [] [
    Elem None CIMXML_INSTANCE [Attr None CIMXML_CLASSNAME (lit "CIM_Alert")]
      [Elem None CIMXML_PROPERTY [Attr None CIMXML_NAME (lit "Message")] [Elem None CIMXML_VALUE [] [Text (lit text)]]]]]].
Definition demo_export (l : list string) : xml :=
  Elem None CIMXML_CIM [] [Elem None CIMXML_MESSAGE [Attr None (lit "ID") (lit "7")] [Elem None CIMXML_MULTIEXPREQ [] (map demo_instance l)]].
Definition demo_class : cstring := lit "http://schemas.dmtf.org/wbem/wscim/1/cim-schema/2/CIM_Alert".
Definition demo_subscription (mode : delivery_mode) : @WsSubscribeInfo unit unit :=
  SubInfo (Fixed (lit "u1" ++ [NUL]) demo_class [] None None None None None None mode 0 0 false false None None None None None) 0 0 0 false false.
Definition demo_server (mode : delivery_mode) : @server notification unit unit :=
  Server [1%positive] {[1%positive := demo_subscription mode]} (Pool [] 0) (Some (Repo true ∅)) [] [].
Definition demo_vendor (p : positive) : option (list (cstring * cstring)) := None.
Definition demo_content (t : cstring) : list xml := match t with [] => [] | _ => [Text t] end.
Definition demo_call (mode : delivery_mode) (uuid : string) (doc : xml) :=
  CIM_Indication_call demo_content demo_vendor (Some (lit uuid)) (Some doc) cimxml_message_new (demo_server mode).
Definition waiting (r : outcome (CimxmlMessage * @server notification unit unit)) : list (option cstring) :=
  match r with Done (_, s) => map (fun n => ws_xml_get_node_text (EventContent n)) (queue (events s) (lit "u1")) | _ => [] end.
Definition http_of (r : outcome (CimxmlMessage * @server notification unit unit)) : option Z :=
  match r with Done (a, _) => Some (cm_http_code a) | _ => None end.
Example two_pushed : waiting (demo_call PUSH "u1" (demo_export ["fan"; "disk"]%string)) = [Some (lit "fan"); Some (lit "disk")].
Proof. vm_compute. reflexivity. Qed.
(** A pull subscription with a limit of 0 holds one. *)
Example one_pulled : waiting (demo_call PULL "u1" (demo_export ["fan"; "disk"]%string)) = [Some (lit "fan")].
Proof. vm_compute. reflexivity. Qed.
(** The ids are compared in their letter case, other than in the event pool. *)
Example other_case : http_of (demo_call PUSH "U1" (demo_export ["fan"]%string)) = Some 404.
Proof. vm_compute. reflexivity. Qed.
(** Without a uuid in the URL the comparison reads NULL. *)
Example no_uuid : CIM_Indication_call demo_content demo_vendor None (Some (demo_export [])) cimxml_message_new (demo_server PUSH) = Undef.
Proof. vm_compute. reflexivity. Qed.
(** A success leaves the HTTP status at 0. *)
Example no_status : http_of (demo_call PUSH "u1" (demo_export ["fan"]%string)) = Some 0.
Proof. vm_compute. reflexivity. Qed.
(** An instance without a class waits as an event without a document. *)
Example no_class : match demo_call PUSH "u1" (Elem None CIMXML_CIM [] [Elem None CIMXML_MESSAGE [] [Elem None CIMXML_SIMPLEEXPREQ [] [
    Elem None CIMXML_EXPMETHODCALL [] [Elem None CIMXML_EXPPARAMVALUE [] [Elem None CIMXML_INSTANCE [] []]]]]]) with
  | Done (_, s) => queue (events s) (lit "u1") | _ => [] end = [Notification None None].
Proof. vm_compute. reflexivity. Qed.
(** The elements of a list of requests are counted whatever their names are. *)
Example counts_any : length (acknowledgements (Some (cimxml_build_response_msg demo_content
  (Elem None CIMXML_CIM [] [Elem None CIMXML_MESSAGE [] [Elem None CIMXML_MULTIEXPREQ [] [Elem None CIMXML_VALUE [] []]]])))) = 1%nat.
Proof. vm_compute. reflexivity. Qed.
(** A class of no known namespace is named after NULL. *)
Example null_namespace : get_cim_indication_namespace [] None (lit "X") = None /\
  (create_notification_entity demo_content [] None (Some (demo_instance "fan")) ≫= EventAction) = Some (lit "(null)/CIM_Alert").
Proof. vm_compute. auto. Qed.

Lemma demo_server_good mode : good (demo_server mode).
Proof.
  assert (I : forall p i, infos (demo_server mode) !! p = Some i -> i = demo_subscription mode) by (cbn; intros p i [_ <-]%lookup_singleton_Some; done).
  assert (K : info_ok (demo_subscription mode)).
  { constructor; [done|split; [apply (bool_decide_eq_true_1 _); vm_compute; reflexivity|vm_compute; reflexivity]|split; vm_compute; discriminate]. }
  constructor; cbn; try apply NoDup_nil_2; try (apply NoDup_singleton).
  - intros p ->%list_elem_of_singleton. eexists. apply lookup_singleton_eq.
  - intros p i _ H. now rewrite (I p i H).
  - now intros p Hp%elem_of_nil.
  - intros p i _ H. rewrite (I p i H). split; [vm_compute; discriminate|now intros Hp%elem_of_nil].
  - split; [apply NoDup_nil_2|constructor].
  - eauto.
Qed.
Lemma indication_delivered_witness : exists answer s',
  demo_call PULL "u1" (demo_export ["fan"; "disk"]%string) = Done (answer, s') /\ length (acknowledgements (cm_response answer)) = 2%nat /\
  queue (events s') (lit "U1") = take 1 (indications demo_content demo_vendor 1 (demo_subscription PULL) (demo_export ["fan"; "disk"]%string)).
Proof.
  destruct (indication_delivered demo_content demo_vendor (lit "u1") (Some (demo_export ["fan"; "disk"]%string)) cimxml_message_new
    (demo_server PULL) (demo_server_good PULL)) as (answer & s' & E & _ & i & pl & Ip & _ & -> & Q & _ & _ & A).
  - apply (bool_decide_eq_true_1 _). vm_compute. reflexivity.
  - cbn. intros p i indoc [_ <-]%lookup_singleton_Some [= <-]. vm_compute. reflexivity.
  - exists answer, (set_events pl (demo_server PULL)). split; [exact E|]. rewrite A by now left. split; [vm_compute; reflexivity|].
    cbn in Ip. apply lookup_singleton_Some in Ip as [_ <-]. cbn [events set_events]. rewrite Q. vm_compute. reflexivity.
Defined.
End CimIndication.
