(* ===== verification/HttpIO.v ===== *)
(** * HttpIO: the buffers of the HTTP server's streams (server/shttpd/io.h)

    A buffer is a block of memory with a place to write at ([head]) and a place to read
    from ([tail]).  It is shown to be a queue of bytes of bounded length. *)
From S2P Require Import Prelude.

Module HttpIO.

(** Sizes and places are [size_t]; a buffer here always has its block. *)
(* src: server/shttpd/io.h 20-26 io *)
Record io := Io { io_buf : list ascii; io_size : Z; io_head : Z; io_tail : Z; io_total : Z }.

(* src: server/shttpd/io.h 28-34 io_clear *)
Definition io_clear (i : io) : outcome io :=
  assert! 0 <? io_size i; Done (Io (io_buf i) (io_size i) 0 0 0).
(* src: server/shttpd/io.h 36-43 io_space *)
Definition io_space (i : io) : outcome Z :=
  assert! 0 <? io_size i; assert! io_head i <=? io_size i; Done (io_head i).
(* src: server/shttpd/io.h 45-52 io_data *)
Definition io_data (i : io) : outcome Z :=
  assert! 0 <? io_size i; assert! io_tail i <=? io_size i; Done (io_tail i).
(* src: server/shttpd/io.h 54-61 io_space_len *)
Definition io_space_len (i : io) : outcome Z :=
  assert! 0 <? io_size i; assert! io_head i <=? io_size i; Done (io_size i - io_head i).
(* src: server/shttpd/io.h 63-71 io_data_len *)
Definition io_data_len (i : io) : outcome Z :=
  assert! 0 <? io_size i; assert! io_head i <=? io_size i; assert! io_tail i <=? io_head i;
  Done (io_head i - io_tail i).
(* src: server/shttpd/io.h 73-84 io_inc_tail *)
Definition io_inc_tail (i : io) (n : Z) : outcome io :=
  assert! 0 <? io_size i; assert! io_tail i <=? io_head i; assert! io_head i <=? io_size i;
  let tail := u64 (io_tail i + n) in
  assert! tail <=? io_head i;
  if tail =? io_head i then Done (Io (io_buf i) (io_size i) 0 0 (io_total i))
  else Done (Io (io_buf i) (io_size i) (io_head i) tail (io_total i)).
(* src: server/shttpd/io.h 86-95 io_inc_head *)
Definition io_inc_head (i : io) (n : Z) : outcome io :=
  assert! 0 <? io_size i; assert! io_tail i <=? io_head i;
  let head := u64 (io_head i + n) in
  assert! head <=? io_size i;
  Done (Io (io_buf i) (io_size i) head (io_tail i) (u64 (io_total i + n))).

(** What a reader or a callback leaves in the memory behind [head]. *)
Definition store (i : io) (bs : list ascii) : outcome io :=
  if Z.of_nat (length (io_buf i)) <? io_head i + Z.of_nat (length bs) then Undef
  else Done (Io (blit (io_buf i) (Z.to_nat (io_head i)) bs) (io_size i) (io_head i) (io_tail i) (io_total i)).

(** ** The queue *)
Definition contents (i : io) : list ascii :=
  take (Z.to_nat (io_head i - io_tail i)) (drop (Z.to_nat (io_tail i)) (io_buf i)).
Record io_ok (i : io) : Prop := IoOk {
  ok_size : 0 < io_size i < 2 ^ 30;
  ok_buf : Z.of_nat (length (io_buf i)) = io_size i;
  ok_tail : 0 <= io_tail i <= io_head i;
  ok_head : io_head i <= io_size i;
  ok_total : 0 <= io_total i < 2 ^ 64 }.
Definition free (i : io) : Z := io_size i - Z.of_nat (length (contents i)).

Lemma contents_length i : io_ok i -> Z.of_nat (length (contents i)) = io_head i - io_tail i.
Proof. intros [S B T H _]. unfold contents. rewrite length_take, length_drop. lia. Qed.
(** The assertions of a buffer that is in order. *)
Ltac asserts := repeat (rewrite assertb_true by (first [apply Z.ltb_lt | apply Z.leb_le]; lia); cbn [obind]).

Lemma io_data_len_ok i : io_ok i -> io_data_len i = Done (Z.of_nat (length (contents i))).
Proof. intros K. rewrite contents_length by done. destruct K. unfold io_data_len. now asserts. Qed.
Lemma io_data_ok i : io_ok i -> io_data i = Done (io_tail i).
Proof. intros []. unfold io_data. now asserts. Qed.
Lemma io_space_ok i : io_ok i -> io_space i = Done (io_head i).
Proof. intros []. unfold io_space. now asserts. Qed.
Lemma io_space_len_ok i : io_ok i -> io_space_len i = Done (io_size i - io_head i).
Proof. intros []. unfold io_space_len. now asserts. Qed.
Lemma io_clear_ok i : io_ok i -> exists i', io_clear i = Done i' /\ io_ok i' /\ contents i' = [] /\
  io_total i' = 0 /\ io_size i' = io_size i /\ io_head i' = 0.
Proof.
  intros [S B T H _]. unfold io_clear. asserts. eexists. split; [done|]. split; [constructor; simpl; lia|]. done.
Qed.
Lemma u64_add a b : 0 <= a -> 0 <= b -> a + b < 2 ^ 64 -> u64 (a + b) = a + b.
Proof. intros. apply u64_small. lia. Qed.
Lemma io_inc_tail_ok i n : io_ok i -> 0 <= n <= Z.of_nat (length (contents i)) -> exists i', io_inc_tail i n = Done i' /\
  io_ok i' /\ contents i' = drop (Z.to_nat n) (contents i) /\ io_total i' = io_total i /\ io_size i' = io_size i /\
  (contents i' = [] -> io_head i' = 0).
Proof.
  intros K Hn. rewrite contents_length in Hn by done. destruct K as [S B T H U]. unfold io_inc_tail.
  asserts. rewrite u64_add by lia. asserts.
  destruct (Z.eqb_spec (io_tail i + n) (io_head i)); eexists; (split; [done|]).
  - split; [constructor; simpl; lia|]. unfold contents. simpl. split; [|auto].
    rewrite (drop_ge (take _ _)); [done|]. rewrite length_take. lia.
  - assert (K' : io_ok (Io (io_buf i) (io_size i) (io_head i) (io_tail i + n) (io_total i))) by (constructor; simpl; lia).
    split; [done|]. split; [|split; [done|split; [done|]]].
    + unfold contents. simpl. rewrite skipn_firstn_comm, drop_drop. f_equal; [lia|]. f_equal. lia.
    + intros E. apply contents_length in K'. rewrite E in K'. simpl in K'. lia.
Qed.
Lemma store_ok i bs : io_ok i -> Z.of_nat (length bs) <= io_size i - io_head i -> exists i', store i bs = Done i' /\
  io_ok i' /\ io_size i' = io_size i /\ io_head i' = io_head i /\ io_tail i' = io_tail i /\ io_total i' = io_total i /\
  io_buf i' = blit (io_buf i) (Z.to_nat (io_head i)) bs.
Proof.
  intros [S B T H U] L. unfold store. destruct (Z.ltb_spec (Z.of_nat (length (io_buf i))) (io_head i + Z.of_nat (length bs))); [lia|].
  eexists. split; [done|]. repeat split; simpl; try lia.
  unfold blit. rewrite !length_app, length_take, length_drop. lia.
Qed.
Lemma io_append_ok i bs : io_ok i -> Z.of_nat (length bs) <= io_size i - io_head i ->
  exists i1 i', store i bs = Done i1 /\ io_inc_head i1 (Z.of_nat (length bs)) = Done i' /\
  io_ok i' /\ contents i' = contents i ++ bs /\ io_total i' = u64 (io_total i + Z.of_nat (length bs)) /\ io_size i' = io_size i.
Proof.
  intros K L. destruct (store_ok i bs K L) as (i1 & E & K1 & S1 & H1 & T1 & U1 & B1). exists i1.
  destruct K as [S B Ta H U]. unfold io_inc_head. destruct K1 as [S' B' Ta' H' U'].
  eexists. split; [exact E|]. asserts. rewrite (u64_add (io_head i1)) by lia. asserts. split; [done|].
  pose proof (u64_range (io_total i1 + Z.of_nat (length bs))).
  split; [constructor; simpl; lia|]. simpl. split; [|now rewrite U1]. unfold contents. simpl. rewrite B1, H1, T1. unfold blit.
  rewrite (drop_app_le (take _ _)) by (rewrite length_take; lia).
  rewrite take_app_ge by (rewrite length_drop, length_take; lia).
  f_equal.
  - rewrite skipn_firstn_comm. f_equal. lia.
  - rewrite length_drop, length_take. rewrite take_app_le by lia. apply take_ge. lia.
Qed.

(** A buffer is a queue of bytes: what is written behind [head] is added at its end, what
    is taken at [tail] leaves its front, clearing empties it; the assertions hold as long
    as no more is written than there is room for and no more taken than there is, and the
    room is the size less what is queued whenever the queue has been drained. *)
Theorem io_is_queue (i : io) (bs : list ascii) (n : Z) : io_ok i ->
  Z.of_nat (length bs) <= io_size i - io_head i ->
  0 <= n <= Z.of_nat (length (contents i ++ bs)) ->
  exists i1 i2 i3 i4, store i bs = Done i1 /\ io_inc_head i1 (Z.of_nat (length bs)) = Done i2 /\ io_inc_tail i2 n = Done i3 /\
    io_clear i3 = Done i4 /\ io_ok i2 /\ io_ok i3 /\ io_ok i4 /\
    contents i2 = contents i ++ bs /\ contents i3 = drop (Z.to_nat n) (contents i ++ bs) /\ contents i4 = [] /\
    (contents i3 = [] -> io_space_len i3 = Done (io_size i)) /\ io_space_len i4 = Done (io_size i).
Proof.
  intros K L Hn. destruct (io_append_ok i bs K L) as (i1 & i2 & E1 & E2 & K2 & C2 & T2 & S2).
  rewrite <- C2 in Hn. destruct (io_inc_tail_ok i2 n K2 Hn) as (i3 & E3 & K3 & C3 & T3 & S3 & Z3).
  destruct (io_clear_ok i3 K3) as (i4 & E4 & K4 & C4 & T4 & S4 & H4).
  exists i1, i2, i3, i4. rewrite <- C2. repeat (split; [done|]). split.
  - intros N. rewrite io_space_len_ok, Z3 by done. f_equal. lia.
  - rewrite io_space_len_ok, H4 by done. f_equal. lia.
Qed.
Lemma io_is_queue_witness : exists i1 i2 i3 i4,
  store (Io (lit "abcdefgh") 8 3 1 3) (lit "XY") = Done i1 /\ io_inc_head i1 2 = Done i2 /\ io_inc_tail i2 4 = Done i3 /\
    io_clear i3 = Done i4 /\ io_ok i2 /\ io_ok i3 /\ io_ok i4 /\
    contents i2 = lit "bcXY" /\ contents i3 = [] /\ contents i4 = [] /\
    (contents i3 = [] -> io_space_len i3 = Done 8) /\ io_space_len i4 = Done 8.
Proof.
  apply (io_is_queue (Io (lit "abcdefgh") 8 3 1 3) (lit "XY") 4); [constructor; simpl; lia|simpl; lia..].
Defined.
End HttpIO.
