(* ===== verification/HttpConn.v ===== *)
(** * HttpConn: a connection of the HTTP server (server/shttpd/shttpd.c and io_emb.c)

    A connection moves bytes between its socket and the callback that answers the request:
    it reads and parses the head of a request, decides who answers, feeds the body to the
    callback, sends what comes back, and is closed or kept for another request.  The
    socket is a script of answers, the callback a function with a world of its own. *)
From S2P Require Import Prelude CString HttpText HttpIO HttpAuth.
Import HttpText HttpIO HttpAuth.

Module HttpConn.

(** ** Flags *)
(* src: server/shttpd/defs.h 195-203 stream *)
Definition FLAG_HEADERS_PARSED := 1.
Definition FLAG_SSL_ACCEPTED := 2.
Definition FLAG_R := 4.
Definition FLAG_W := 8.
Definition FLAG_CLOSED := 16.
Definition FLAG_DONT_CLOSE := 32.
Definition FLAG_ALWAYS_READY := 64.
Definition FLAG_SUSPEND := 128.
Definition SHTTPD_END_OF_OUTPUT := 1.
Definition SHTTPD_CONNECTION_ERROR := 2.
Definition SHTTPD_MORE_POST_DATA := 4.
Definition SHTTPD_POST_BUFFER_FULL := 8.
Definition SHTTPD_SUSPEND := 32.
Definition has (flags f : Z) : bool := negb (Z.land flags f =? 0).
Definition set_flag (flags f : Z) : Z := Z.lor flags f.
Definition clear_flag (flags f : Z) : Z := Z.land flags (Z.lnot f).
Definition EXPIRE_TIME : Z := 3600.

(** ** The request *)
(** [rq_request]: the head of the request in its block, terminator included. *)
(* src: server/shttpd/defs.h 216-238 conn *)
Record request := Request {
  rq_status : Z; rq_method : Z; rq_uri : option (list ascii); rq_major : Z; rq_minor : Z;
  rq_request : option (list ascii); rq_headers : Z; rq_query : option nat; rq_ch : headers }.
Definition no_request : request := Request 0 0 None 0 0 None 0 None no_headers.

(** [sscanf] with [%lu]: the number and the text behind it. *)
Definition scan_lu (s : cstring) : option (Z * cstring) :=
  let s := skip_while isspace s in
  let '(neg, s) := match s with
    | c :: r => if bool_decide (c = "-"%char) then (true, r)
                else if bool_decide (c = "+"%char) then (false, r) else (false, s)
    | [] => (false, s) end in
  match s with
  | c :: _ =>
      if isdigit c then
        let n := digits s 0 in
        Some (if 2 ^ 64 <=? n then 2 ^ 64 - 1 else if (neg : bool) then u64 (- n) else n, skip_while isdigit s)
      else None
  | [] => None
  end.
(** [sscanf (p, "HTTP/%lu.%lu%n", ...)]: the number of items stored, the two versions, and
    the text from [p[n]] on. *)
Definition scan_version (p : cstring) (major minor : Z) : Z * Z * Z * cstring :=
  if starts_with (lit "HTTP/") p then
    match scan_lu (drop 5 p) with
    | None => (0, major, minor, p)
    | Some (major, r) =>
        match r with
        | c :: r =>
            if bool_decide (c = "."%char) then
              match scan_lu r with Some (minor, r) => (2, major, minor, r) | None => (1, major, minor, p) end
            else (1, major, minor, p)
        | [] => (1, major, minor, p)
        end
    end
  else (0, major, minor, p).

(* src: server/shttpd/shttpd.c 22-25 _shttpd_known_http_methods *)
Definition _shttpd_known_http_methods : list cstring := [lit "POST"].
(** The method is looked for at the start of the buffer. *)
Fixpoint find_method (l : list cstring) (buf : list ascii) (k : Z) : option Z :=
  match l with
  | [] => None
  | m :: l => if bool_decide (take (length m) buf = m) then Some k else find_method l buf (k + 1)
  end.

(** [for (...; mem[p] != c && p < e; p++)] and [while (p < e && ok (mem[p])) p++]. *)
Fixpoint until (fuel : nat) (stop : ascii -> bool) (mem : list ascii) (p e : Z) : outcome Z :=
  match fuel with
  | O => Diverge
  | S fuel =>
      let* c := rd mem p in
      if negb (stop c) && (p <? e) then until fuel stop mem (p + 1) e else Done p
  end.
Fixpoint while_ok (fuel : nat) (ok : ascii -> bool) (mem : list ascii) (p e : Z) : outcome Z :=
  match fuel with
  | O => Diverge
  | S fuel =>
      if p <? e then
        let* c := rd mem p in
        if ok c then while_ok fuel ok mem (p + 1) e else Done p
      else Done p
  end.
Definition is_space_char (c : ascii) : bool := bool_decide (c = " "%char).

(** The parts of a request line: the place of the URI, its length, the place of the version. *)
(* src: server/shttpd/shttpd.c 724-737 parse_http_request *)
Definition request_line (mem : list ascii) (req_len : Z) : outcome (Z * Z * Z) :=
  let fuel := S (Z.to_nat req_len) in
  let* p := until fuel is_space_char mem 0 req_len in
  let* start := while_ok fuel is_space_char mem p req_len in
  let* p := while_ok fuel (fun c => negb (isspace c)) mem start req_len in
  let* p' := while_ok fuel is_space_char mem p req_len in
  Done (start, p - start, p').

(** ** Sockets *)
(** What the socket will answer: blocks of bytes to [recv] ([[]] is the end of the stream), and
    how much each call of [send] takes. *)
Inductive recv_answer := Arrives (bs : list ascii) | Recv_again | Recv_error.
Inductive send_answer := Takes (n : Z) | Send_again | Send_error.
Record net := Net {
  n_recv : list recv_answer; n_send : nat -> send_answer; n_sends : nat;
  n_out : list ascii; n_closed : bool }.
(** The result of a call: a count, or -1 with [EINTR] or [EWOULDBLOCK], or another error. *)
Inductive io_result := Bytes (n : Z) | Again | Failed.

(** [take] and [drop] for counts that need not fit. *)
Definition ztake {A} (n : Z) (l : list A) : list A := if Z.of_nat (length l) <=? n then l else take (Z.to_nat n) l.
Definition zdrop {A} (n : Z) (l : list A) : list A := if Z.of_nat (length l) <=? n then [] else drop (Z.to_nat n) l.

Section Conn.
(** [W]: the world of the callbacks; [P]: what their [state] points at. *)
Context {W P : Type}.

(** Behind [priv] stand the request and the length of its head. *)
(* src: server/shttpd/shttpd.h 20-36 shttpd_arg *)
Record shttpd_arg := Arg {
  a_req : request; a_headers_len : Z; a_state : option P; a_out_len : Z; a_out : list ascii;
  a_in : list ascii; a_in_bytes : Z; a_flags : Z }.
Definition callback : Type := shttpd_arg -> CM W shttpd_arg.

Inductive io_class := C_socket | C_embedded.
(** [emb]: the channel of a stream whose class is [C_embedded]. *)
(* src: server/shttpd/defs.h 187-204 stream *)
Record stream := Stream {
  s_emb : option (option P * callback); s_io : io; s_class : option io_class;
  s_headers_len : Z; s_content_len : Z; s_flags : Z }.
(* src: server/shttpd/defs.h 216-245 conn *)
Record conn := Conn { c_req : request; c_expire_time : Z; c_loc : stream; c_rem : stream }.
(** A connection with its socket and the world. *)
Record st := St { st_conn : conn; st_net : net; st_world : W }.
Inductive side := Loc | Rem.
#[global] Instance side_dec : EqDecision side.
Proof. solve_decision. Defined.

Definition get_stream (sd : side) (x : st) : stream :=
  match sd with Loc => c_loc (st_conn x) | Rem => c_rem (st_conn x) end.
Definition put_stream (sd : side) (s : stream) (x : st) : st :=
  let c := st_conn x in
  St (match sd with Loc => Conn (c_req c) (c_expire_time c) s (c_rem c)
                  | Rem => Conn (c_req c) (c_expire_time c) (c_loc c) s end) (st_net x) (st_world x).
Definition put_req (r : request) (x : st) : st :=
  let c := st_conn x in St (Conn r (c_expire_time c) (c_loc c) (c_rem c)) (st_net x) (st_world x).
Definition put_expire (t : Z) (x : st) : st :=
  let c := st_conn x in St (Conn (c_req c) t (c_loc c) (c_rem c)) (st_net x) (st_world x).
Definition put_net (n : net) (x : st) : st := St (st_conn x) n (st_world x).
Definition with_io (i : io) (s : stream) : stream :=
  Stream (s_emb s) i (s_class s) (s_headers_len s) (s_content_len s) (s_flags s).
Definition with_flags (f : Z) (s : stream) : stream :=
  Stream (s_emb s) (s_io s) (s_class s) (s_headers_len s) (s_content_len s) f.
Definition with_emb (e : option (option P * callback)) (s : stream) : stream :=
  Stream e (s_io s) (s_class s) (s_headers_len s) (s_content_len s) (s_flags s).
Definition with_class (cl : option io_class) (s : stream) : stream :=
  Stream (s_emb s) (s_io s) cl (s_headers_len s) (s_content_len s) (s_flags s).
Definition with_lens (h l : Z) (s : stream) : stream :=
  Stream (s_emb s) (s_io s) (s_class s) h l (s_flags s).
Definition upd (sd : side) (f : stream -> stream) : CM st unit := mmod (fun x => put_stream sd (f (get_stream sd x)) x).
Definition upd_req (f : request -> request) : CM st unit := mmod (fun x => put_req (f (c_req (st_conn x))) x).
(** A change of a stream's buffer that may fail. *)
Definition upd_io (sd : side) (f : io -> outcome io) : CM st unit := fun x =>
  let* i := f (s_io (get_stream sd x)) in Done (tt, put_stream sd (with_io i (get_stream sd x)) x).
Definition ask (sd : side) {A} (f : io -> outcome A) : CM st A := fun x =>
  let* a := f (s_io (get_stream sd x)) in Done (a, x).

(** ** Callbacks (io_emb.c) *)
(** [vflags]: what [arg->flags] holds before the call. *)
(* src: server/shttpd/io_emb.c 19-60 call_user *)
Definition call_user (aflags : Z) : CM st unit := fun x =>
  let* sp := io_space (s_io (c_loc (st_conn x))) in
  let* out_len := io_space_len (s_io (c_loc (st_conn x))) in
  let* tl := io_data (s_io (c_rem (st_conn x))) in
  let* in_len := io_data_len (s_io (c_rem (st_conn x))) in
  let rem := c_rem (st_conn x) in
  let aflags := if io_size (s_io rem) <=? in_len then set_flag aflags SHTTPD_POST_BUFFER_FULL else aflags in
  let aflags := if (0 <? s_content_len rem) && (io_total (s_io rem) <? s_content_len rem)
    then set_flag aflags SHTTPD_MORE_POST_DATA else aflags in
  let* (state, func) := deref (s_emb (c_loc (st_conn x))) in
  let* (arg, w) := func (Arg (c_req (st_conn x)) (s_headers_len rem) state out_len [] (contents (s_io rem)) 0 aflags) (st_world x) in
  let x := St (st_conn x) (st_net x) w in
  ( (* the request, which the callback may write into *)
   upd_req (fun _ => a_req arg) ≫= fun _ =>
   upd_io Loc (fun i => store i (a_out arg)) ≫= fun _ =>
   upd_io Loc (fun i => io_inc_head i (u64 (Z.of_nat (length (a_out arg))))) ≫= fun _ =>
   upd_io Rem (fun i => io_inc_tail i (u64 (a_in_bytes arg))) ≫= fun _ =>
   upd Loc (with_emb (Some (a_state arg, func))) ≫= fun _ =>
   upd Loc (fun s => with_flags (if has (a_flags arg) SHTTPD_END_OF_OUTPUT
     then clear_flag (s_flags s) FLAG_DONT_CLOSE else set_flag (s_flags s) FLAG_DONT_CLOSE) s) ≫= fun _ =>
   if has (a_flags arg) SHTTPD_SUSPEND then upd Loc (fun s => with_flags (set_flag (s_flags s) FLAG_SUSPEND) s)
   else mret tt) x.
(* src: server/shttpd/io_emb.c 62-75 do_embedded *)
Definition do_embedded : CM st io_result := call_user 0 ≫= fun _ => mret (Bytes 0).
(* src: server/shttpd/io_emb.c 77-93 close_embedded *)
Definition close_embedded (sd : side) : CM st unit := fun x =>
  if has (s_flags (get_stream sd x)) FLAG_DONT_CLOSE then call_user SHTTPD_CONNECTION_ERROR x else Done (tt, x).
(* src: server/shttpd/io_emb.c 274-282 _shttpd_setup_embedded_stream *)
Definition _shttpd_setup_embedded_stream (func : callback) : CM st unit :=
  upd Loc (fun s => with_flags (set_flag (set_flag (set_flag (s_flags s) FLAG_R) FLAG_W) FLAG_ALWAYS_READY)
    (with_class (Some C_embedded) (with_emb (Some (None, func)) s))).

(** ** The socket (io_socket.c) *)
(** The bytes go to the place where the stream's buffer has space. *)
(* src: server/shttpd/io_socket.c 13-18 read_socket *)
Definition read_socket (sd : side) (len : Z) : CM st io_result := fun x =>
  let n := st_net x in
  match n_recv n with
  | [] | Recv_again :: _ =>
      Done (Again, put_net (Net (tail (n_recv n)) (n_send n) (n_sends n) (n_out n) (n_closed n)) x)
  | Recv_error :: r => Done (Failed, put_net (Net r (n_send n) (n_sends n) (n_out n) (n_closed n)) x)
  | Arrives bs :: r =>
      let got := ztake len bs in
      let rest := zdrop len bs in
      let n_recv' := if bool_decide (rest = []) && negb (bool_decide (bs = [])) then r else Arrives rest :: r in
      let* i := store (s_io (get_stream sd x)) got in
      Done (Bytes (Z.of_nat (length got)),
            put_net (Net n_recv' (n_send n) (n_sends n) (n_out n) (n_closed n))
              (put_stream sd (with_io i (get_stream sd x)) x))
  end.
(* src: server/shttpd/io_socket.c 20-25 write_socket *)
Definition write_socket (bs : list ascii) : CM st io_result := fun x =>
  let n := st_net x in
  let sent k out := put_net (Net (n_recv n) (n_send n) (S (n_sends n)) out (n_closed n)) x in
  match n_send n (n_sends n) with
  | Send_again => Done (Again, sent tt (n_out n))
  | Send_error => Done (Failed, sent tt (n_out n))
  | Takes k =>
      let bs := ztake k bs in
      Done (Bytes (Z.of_nat (length bs)), sent tt (n_out n ++ bs))
  end.
(* src: server/shttpd/io_socket.c 27-32 close_socket *)
Definition close_socket : CM st unit :=
  mmod (fun x => let n := st_net x in put_net (Net (n_recv n) (n_send n) (n_sends n) (n_out n) true) x).

(** The operations of a stream's class. *)
Definition class_read (cl : io_class) (sd : side) (len : Z) : CM st io_result :=
  match cl with C_socket => read_socket sd len | C_embedded => do_embedded end.
Definition class_write (cl : io_class) (bs : list ascii) : CM st io_result :=
  match cl with C_socket => write_socket bs | C_embedded => do_embedded end.
Definition class_close (cl : io_class) (sd : side) : CM st unit :=
  match cl with C_socket => close_socket | C_embedded => close_embedded sd end.

(** ** Streams *)
(* src: server/shttpd/shttpd.c 156-170 _shttpd_stop_stream *)
Definition _shttpd_stop_stream (sd : side) : CM st unit :=
  (fun x => match s_class (get_stream sd x) with Some cl => class_close cl sd x | None => Done (tt, x) end) ≫= fun _ =>
  upd sd (with_class None) ≫= fun _ =>
  upd sd (fun s => with_flags (set_flag (s_flags s) FLAG_CLOSED) s) ≫= fun _ =>
  upd sd (fun s => with_flags (clear_flag (s_flags s) (Z.lor (Z.lor FLAG_R FLAG_W) FLAG_ALWAYS_READY)) s).

Section Ctx.
(** [now]: the current time; the daemon's context and its error handlers. *)
Context (now : Z) (ctx : @shttpd_ctx callback) (error_handlers : list (Z * callback)).
Context (date_to_epoch : cstring -> Z).
(** Whether the request and the URI can be allocated. *)
Context (request_alloc uri_alloc : bool).

(* src: server/shttpd/shttpd.c 908-949 read_stream *)
Definition read_stream (sd : side) : CM st unit :=
  ask sd io_space_len ≫= fun len =>
  massert (0 <? len) ≫= fun _ =>
  mget (get_stream sd) ≫= fun s =>
  let len := if (0 <? s_content_len s) && (s_content_len s <? u64 (io_total (s_io s) + len))
    then s32 (s_content_len s - io_total (s_io s)) else len in
  mlift (match s_class s with Some cl => Done cl | None => AssertFail end) ≫= fun cl =>
  ask sd io_space ≫= fun _ =>
  class_read cl sd (u64 len) ≫= fun n =>
  match n with
  | Bytes n =>
      if 0 <? n then upd_io sd (fun i => io_inc_head i n)
      else fun x => if negb (has (s_flags (get_stream sd x)) FLAG_DONT_CLOSE) then _shttpd_stop_stream sd x else Done (tt, x)
  | Again => mret tt
  | Failed => fun x => if negb (has (s_flags (get_stream sd x)) FLAG_DONT_CLOSE) then _shttpd_stop_stream sd x else Done (tt, x)
  end ≫= fun _ =>
  mget (get_stream sd) ≫= fun s =>
  (if (0 <? s_content_len s) && bool_decide (sd = Loc) then
     massert (io_total (s_io s) <=? s_content_len s) ≫= fun _ =>
     if io_total (s_io s) =? s_content_len s then _shttpd_stop_stream sd else mret tt
   else mret tt) ≫= fun _ =>
  mmod (put_expire (now + EXPIRE_TIME)).

Definition other_side (sd : side) : side := match sd with Loc => Rem | Rem => Loc end.
(** From one side to the other. *)
(* src: server/shttpd/shttpd.c 951-972 write_stream *)
Definition write_stream (from : side) : CM st unit :=
  let to := other_side from in
  ask from io_data_len ≫= fun len =>
  massert (0 <? len) ≫= fun _ =>
  ask from io_data ≫= fun _ =>
  mget (get_stream to) ≫= fun s =>
  mlift (deref (s_class s)) ≫= fun cl =>
  mget (fun x => contents (s_io (get_stream from x))) ≫= fun bs =>
  class_write cl bs ≫= fun n =>
  mmod (put_expire (now + EXPIRE_TIME)) ≫= fun _ =>
  match n with
  | Bytes n =>
      if 0 <? n then upd_io from (fun i => io_inc_tail i n)
      else fun x => if negb (has (s_flags (get_stream to x)) FLAG_DONT_CLOSE) then _shttpd_stop_stream to x else Done (tt, x)
  | Again => mret tt
  | Failed => fun x => if negb (has (s_flags (get_stream to x)) FLAG_DONT_CLOSE) then _shttpd_stop_stream to x else Done (tt, x)
  end.

(** ** Answers without a callback *)
Definition dec3 (n : Z) : cstring := replicate (3 - length (dec n)) "0"%char ++ dec n.
Definition error_text (status : Z) (reason : cstring) : cstring :=
  lit "HTTP/1.1 " ++ dec status ++ lit " " ++ reason ++ eol ++ lit "Content-Type: text/plain" ++ eol ++
  lit "Content-Length: 12" ++ eol ++ eol ++ lit "Error: " ++ dec3 status ++ eol.
(** What [_shttpd_snprintf] writes of a text into a buffer, terminator included. *)
(* src: server/shttpd/string.c 59-76 _shttpd_snprintf *)
Definition _shttpd_snprintf (text : cstring) (buflen : Z) : Z * list ascii :=
  if buflen =? 0 then (0, [])
  else let n := if buflen <=? Z.of_nat (length text) then buflen - 1 else Z.of_nat (length text) in
       (n, take (Z.to_nat n) text ++ [NUL]).
(* src: server/shttpd/shttpd.c 239-272 _shttpd_send_server_error *)
Definition _shttpd_send_server_error (status : Z) (reason : cstring) : CM st unit :=
  match find (fun '(code, _) => code =? status) error_handlers with
  | Some (_, func) =>
      (fun x => match s_class (c_loc (st_conn x)) with Some cl => class_close cl Loc x | None => Done (tt, x) end) ≫= fun _ =>
      upd_io Loc io_clear ≫= fun _ =>
      _shttpd_setup_embedded_stream func
  | None =>
      upd_io Loc io_clear ≫= fun _ =>
      upd_io Loc (fun i =>
        let '(n, bs) := _shttpd_snprintf (error_text status reason) (io_size i) in
        let* i := store (Io (io_buf i) (io_size i) 0 (io_tail i) (io_total i)) bs in
        Done (Io (io_buf i) (io_size i) n (io_tail i) (io_total i))) ≫= fun _ =>
      upd Loc (fun s => with_lens (s_headers_len s) 10 s) ≫= fun _ =>
      upd_req (fun r => Request status (rq_method r) (rq_uri r) (rq_major r) (rq_minor r) (rq_request r)
        (rq_headers r) (rq_query r) (rq_ch r)) ≫= fun _ =>
      _shttpd_stop_stream Loc
  end.

(** ** The head of a request *)
Definition set_ch_uri (r : request) (uri : option (list ascii)) (mem : option (list ascii)) (q : option nat) (ch : headers) : request :=
  Request (rq_status r) (rq_method r) uri (rq_major r) (rq_minor r) mem (rq_headers r) q ch.
Definition vec_of (v : variant) : Z * Z := match v with v_vec p l => (p, l) | _ => (0, 0) end.
Definition big_int_of (v : variant) : Z := match v with v_big_int z => z | v_time z => z | v_vec p _ => p end.

(** The decision and what it does to the connection. *)
(* src: server/shttpd/shttpd.c 559-576 decide_what_to_do *)
Definition answer_request : CM st unit :=
  mget (fun x => c_req (st_conn x)) ≫= fun r =>
  mlift (deref (rq_uri r)) ≫= fun uri =>
  mlift (deref (rq_request r)) ≫= fun mem =>
  let '(auth, len) := vec_of (rq_ch r H_auth) in
  mlift (decide_what_to_do ctx now uri mem auth len) ≫= fun '(a, query, uri, mem) =>
  upd_req (fun r => set_ch_uri r (Some uri) (Some mem) query (rq_ch r)) ≫= fun _ =>
  match a with
  | SendError status reason => _shttpd_send_server_error status reason
  | CallHandler h => _shttpd_setup_embedded_stream (ru_callback h)
  end.
(** The copy of the head: the request line is cut off, then taken apart. *)
(* src: server/shttpd/shttpd.c 710-764 parse_http_request *)
Definition parse_request (req_len : Z) : CM st unit :=
  upd Rem (fun s => with_flags (set_flag (s_flags s) FLAG_HEADERS_PARSED) s) ≫= fun _ =>
  mget (fun x => c_req (st_conn x)) ≫= fun r =>
  mlift (deref (rq_request r)) ≫= fun mem =>
  mlift (match find_char LF (take (Z.to_nat req_len) mem) with Some h => Done h | None => AssertFail end) ≫= fun h =>
  let mem := if (0 <? Z.of_nat h) && bool_decide (mem !! pred h = Some CR) then <[pred h := NUL]> mem else mem in
  let mem := <[h := NUL]> mem in
  let hd := Z.of_nat h + 1 in
  mlift (request_line mem req_len) ≫= fun '(start, uri_len, p) =>
  let '(items, major, minor, rest) := scan_version (c_string (drop (Z.to_nat p) mem)) (rq_major r) (rq_minor r) in
  upd_req (fun r => Request (rq_status r) (rq_method r) (rq_uri r) major minor (Some mem) hd (rq_query r) (rq_ch r)) ≫= fun _ =>
  if negb (items =? 2) || negb (bool_decide (rest = [])) then _shttpd_send_server_error 400 (lit "Bad HTTP version")
  else if (1 <? major) || ((major =? 1) && (1 <? minor)) then _shttpd_send_server_error 505 (lit "HTTP version not supported")
  else if uri_len <=? 0 then _shttpd_send_server_error 400 (lit "Bad URI")
  else if negb uri_alloc then _shttpd_send_server_error 500 (lit "Cannot allocate URI")
  else
    let uri := _shttpd_strlcpy (c_string (drop (Z.to_nat start) mem)) (uri_len + 1) ++ [NUL] in
    mlift (_shttpd_parse_headers date_to_epoch mem hd (req_len - hd) (rq_ch r)) ≫= fun ch =>
    upd_req (fun r => set_ch_uri r (Some uri) (Some mem) (rq_query r) ch) ≫= fun _ =>
    mget (fun x => io_total (s_io (c_rem (st_conn x)))) ≫= fun total =>
    massert (req_len <=? total) ≫= fun _ =>
    upd_io Rem (fun i => Done (Io (io_buf i) (io_size i) (io_head i) (io_tail i) (io_total i - req_len))) ≫= fun _ =>
    upd Rem (fun s => with_lens (s_headers_len s) (big_int_of (ch H_cl)) s) ≫= fun _ =>
    answer_request.
(* src: server/shttpd/shttpd.c 665-678 set_request_method *)
Definition set_request_method : CM st bool :=
  mget (fun x => find_method _shttpd_known_http_methods (io_buf (s_io (c_rem (st_conn x)))) 0) ≫= fun k =>
  match k with
  | None => mret true
  | Some k =>
      upd_req (fun r => Request (rq_status r) k (rq_uri r) (rq_major r) (rq_minor r) (rq_request r)
        (rq_headers r) (rq_query r) (rq_ch r)) ≫= fun _ => mret false
  end.
(* src: server/shttpd/shttpd.c 680-709 parse_http_request *)
Definition parse_http_request : CM st unit :=
  ask Rem io_data ≫= fun s =>
  ask Rem io_data_len ≫= fun dl =>
  mget (fun x => drop (Z.to_nat s) (io_buf (s_io (c_rem (st_conn x))))) ≫= fun data =>
  mlift (_shttpd_get_headers_len data dl) ≫= fun req_len =>
  upd Rem (fun s => with_lens req_len (s_content_len s) s) ≫= fun _ =>
  (if req_len =? 0 then
     ask Rem io_space_len ≫= fun sp =>
     if sp =? 0 then
       upd_io Rem io_clear ≫= fun _ => _shttpd_send_server_error 400 (lit "Request is too big")
     else mret tt
   else mret tt) ≫= fun _ =>
  if req_len =? 0 then mret tt else
  (if req_len <? 16 then _shttpd_send_server_error 400 (lit "Bad request")
   else
     set_request_method ≫= fun unknown =>
     if (unknown : bool) then _shttpd_send_server_error 501 (lit "Method Not Implemented")
     else
       match _shttpd_strndup request_alloc (c_string data) req_len with
       | None => _shttpd_send_server_error 500 (lit "Cannot allocate request")
       | Some t => upd_req (fun r => set_ch_uri r (rq_uri r) (Some (t ++ [NUL])) (rq_query r) (rq_ch r))
       end) ≫= fun _ =>
  upd_io Rem (fun i => io_inc_tail i (u64 req_len)) ≫= fun _ =>
  mget (fun x => s_flags (c_loc (st_conn x))) ≫= fun flags =>
  if has flags FLAG_CLOSED then mret tt else parse_request req_len.

(** ** The end of a request *)
(** What becomes of the connection: it stays, it is gone, or another request of it is to be
    looked at. *)
Inductive fate := Stays | Gone | More.
Definition wants_close (r : request) : outcome bool :=
  let '(ptr, len) := vec_of (rq_ch r H_connection) in
  if 5 <=? len then
    let* mem := deref (rq_request r) in
    Done (_shttpd_strncasecmp (lit "close") (drop (Z.to_nat ptr) mem) 5 =? 0)
  else Done false.
(** The access log and the inetd mode are options the daemon never sets. *)
(* src: server/shttpd/shttpd.c 975-1033 connection_desctructor *)
Definition connection_desctructor : CM st fate :=
  (fun x => match s_class (c_loc (st_conn x)) with Some cl => class_close cl Loc x | None => Done (tt, x) end) ≫= fun _ =>
  mget (fun x => st_conn x) ≫= fun c =>
  let r := c_req c in
  mlift (if has (s_flags (c_rem c)) FLAG_CLOSED then Done true else
    let* b := wants_close r in
    Done ((b : bool) || (rq_major r <? 1) || ((1 <=? rq_major r) && (rq_minor r <? 1)))) ≫= fun do_close =>
  if negb (do_close : bool) && (0 <? s_content_len (c_loc c)) then
    upd Loc (fun s => with_flags 0 (with_class None (with_lens (s_headers_len s) 0 s))) ≫= fun _ =>
    upd Rem (with_flags (Z.lor (Z.lor FLAG_W FLAG_R) FLAG_SSL_ACCEPTED)) ≫= fun _ =>
    upd_req (fun r => Request (rq_status r) (rq_method r) None (rq_major r) (rq_minor r) None (rq_headers r) None no_headers) ≫= fun _ =>
    upd_io Loc io_clear ≫= fun _ =>
    ask Rem io_data_len ≫= fun n =>
    mret (if 0 <? n then More else Stays)
  else
    mget (fun x => s_class (c_rem (st_conn x))) ≫= fun cl =>
    match cl with Some cl => class_close cl Rem | None => mret tt end ≫= fun _ => mret Gone.

(** ** One iteration of the server loop *)
(** The body of the loop [again]. *)
(* src: server/shttpd/shttpd.c 1072-1112 process_connection *)
Definition process_pass (remote_ready local_ready : bool) : CM st fate :=
  ask Rem io_space_len ≫= fun sp =>
  (if remote_ready && negb (sp =? 0) then read_stream Rem else mret tt) ≫= fun _ =>
  mget (fun x => s_flags (c_rem (st_conn x))) ≫= fun flags =>
  (if negb (has flags FLAG_HEADERS_PARSED) then parse_http_request else mret tt) ≫= fun _ =>
  ask Loc io_space_len ≫= fun sp =>
  (if local_ready && negb (sp =? 0) then read_stream Loc else mret tt) ≫= fun _ =>
  ask Rem io_data_len ≫= fun n =>
  mget (fun x => c_loc (st_conn x)) ≫= fun s =>
  (if (0 <? n) && has (s_flags s) FLAG_W && bool_decide (is_Some (s_class s)) then write_stream Rem else mret tt) ≫= fun _ =>
  ask Loc io_data_len ≫= fun n =>
  mget (fun x => c_rem (st_conn x)) ≫= fun s =>
  (if (0 <? n) && bool_decide (is_Some (s_class s)) then write_stream Loc else mret tt) ≫= fun _ =>
  mget (fun x => st_conn x) ≫= fun c =>
  ask Loc io_data_len ≫= fun n =>
  if (c_expire_time c <? now) || has (s_flags (c_rem c)) FLAG_CLOSED || (has (s_flags (c_loc c)) FLAG_CLOSED && (n =? 0))
  then connection_desctructor else mret Stays.
(* src: server/shttpd/shttpd.c 1072-1112 process_connection *)
Fixpoint process_connection (fuel : nat) (remote_ready local_ready : bool) : CM st fate :=
  match fuel with
  | O => mdiverge
  | S fuel =>
      process_pass remote_ready local_ready ≫= fun f =>
      match f with More => process_connection fuel false false | _ => mret f end
  end.
End Ctx.

(** A connection just accepted. *)
(* src: server/shttpd/shttpd.c 789-827 add_socket *)
Definition new_conn (now : Z) : conn :=
  let i := Io (repeat NUL (Z.to_nat URI_MAX)) URI_MAX 0 0 0 in
  Conn no_request (now + EXPIRE_TIME) (Stream None i None 0 0 0) (Stream None i (Some C_socket) 0 0 0).
End Conn.
End HttpConn.
