(* ===== verification/HttpSafe.v ===== *)
(** * HttpSafe: a connection stays in order, whatever the client sends within its limits

    The steps of a connection are shown to keep an invariant and to run through, for
    callbacks that keep to the sizes they are given. *)
From S2P Require Import Prelude CString Base64 HttpText HttpIO HttpAuth HttpConn.
Import Base64 HttpText HttpIO HttpAuth HttpConn.

Module HttpSafe.

(** ** Flags *)
Lemma has_set f a b : Z.land a b = 0 -> has (set_flag f a) b = has f b.
Proof. intros E. unfold has, set_flag. now rewrite Z.land_lor_distr_l, E, Z.lor_0_r. Qed.
Lemma has_clear f a b : Z.land (Z.lnot a) b = b -> has (clear_flag f a) b = has f b.
Proof. intros E. unfold has, clear_flag. now rewrite <- Z.land_assoc, E. Qed.
Lemma has_set_same f a : a <> 0 -> has (set_flag f a) a = true.
Proof.
  intros N. unfold has, set_flag. replace (Z.land (Z.lor f a) a) with a.
  - apply negb_true_iff, Z.eqb_neq. done.
  - apply Z.bits_inj'. intros i Hi. rewrite Z.land_spec, Z.lor_spec. now destruct (Z.testbit f i), (Z.testbit a i).
Qed.

(** Runs the updates of a state that is known by its parts. *)
Ltac steps := cbv [upd upd_req upd_io mmod mbind M_bind mret M_ret mget massert mlift ask]; cbn [obind get_stream put_stream put_req put_net put_expire st_conn st_net st_world
  c_req c_loc c_rem c_expire_time s_io s_class s_emb s_flags s_content_len s_headers_len with_io with_flags with_emb with_class with_lens].

Section Conn.
Context {W P : Type}.
Implicit Types x : @st W P.

(** ** The invariant *)
(** A header that was parsed lies inside the request. *)
Definition req_ok (r : request) : Prop := is_Some (rq_request r) \/ rq_ch r = no_headers.
(** A callback keeps to the room and the input it is given. *)
Definition good (f : @callback W P) : Prop := forall a w, 0 <= a_out_len a -> exists a' w', f a w = Done (a', w') /\
  Z.of_nat (length (a_out a')) <= a_out_len a /\ 0 <= a_in_bytes a' <= Z.of_nat (length (a_in a)) /\
  (req_ok (a_req a) -> req_ok (a_req a')).
Definition emb_ok (s : @stream W P) : Prop := exists stt f, s_emb s = Some (stt, f) /\ good f.
Definition loc_ok (s : @stream W P) : Prop :=
  match s_class s with
  | None => has (s_flags s) FLAG_CLOSED = false -> s_content_len s = 0
  | Some C_embedded => emb_ok s /\ s_content_len s = 0
  | Some C_socket => False
  end.
Definition rem_ok (s : @stream W P) : Prop :=
  s_class s = Some C_socket \/ (s_class s = None /\ has (s_flags s) FLAG_CLOSED = true).
Record conn_ok x : Prop := ConnOk {
  k_loc_io : io_ok (s_io (c_loc (st_conn x)));
  k_rem_io : io_ok (s_io (c_rem (st_conn x)));
  k_queued : Z.of_nat (length (contents (s_io (c_rem (st_conn x))))) <= io_total (s_io (c_rem (st_conn x)));
  k_cl : 0 <= s_content_len (c_rem (st_conn x)) < 2 ^ 64;
  k_req : req_ok (c_req (st_conn x));
  k_loc : loc_ok (c_loc (st_conn x));
  k_rem : rem_ok (c_rem (st_conn x));
  k_idle : has (s_flags (c_rem (st_conn x))) FLAG_HEADERS_PARSED = false ->
    s_class (c_loc (st_conn x)) = None /\ rq_ch (c_req (st_conn x)) = no_headers }.

(** Most steps change one part: what the others rely on is restated for the new state. *)
Lemma loc_changed x s : conn_ok x -> io_ok (s_io s) -> loc_ok s ->
  (has (s_flags (c_rem (st_conn x))) FLAG_HEADERS_PARSED = false -> s_class s = None) -> conn_ok (put_stream Loc s x).
Proof. intros [] ? ? Hs. constructor; simpl; try done. intros Pa. split; [now apply Hs|]. by apply k_idle0. Qed.
Lemma rem_changed x s : conn_ok x -> io_ok (s_io s) -> Z.of_nat (length (contents (s_io s))) <= io_total (s_io s) ->
  0 <= s_content_len s < 2 ^ 64 -> rem_ok s ->
  (has (s_flags s) FLAG_HEADERS_PARSED = false -> s_class (c_loc (st_conn x)) = None /\ rq_ch (c_req (st_conn x)) = no_headers) ->
  conn_ok (put_stream Rem s x).
Proof. intros [] ? ? ? ?. by constructor. Qed.
Lemma req_changed x r : conn_ok x -> req_ok r ->
  (has (s_flags (c_rem (st_conn x))) FLAG_HEADERS_PARSED = false -> rq_ch r = no_headers) -> conn_ok (put_req r x).
Proof. intros [] ? Hr. constructor; simpl; try done. intros Pa. split; [|now apply Hr]. by apply k_idle0. Qed.
Lemma net_changed x n : conn_ok x -> conn_ok (put_net n x).
Proof. intros []. by constructor. Qed.
Lemma world_changed x w : conn_ok x -> conn_ok (St (st_conn x) (st_net x) w).
Proof. intros []. by constructor. Qed.
Lemma expire_changed x t : conn_ok x -> conn_ok (put_expire t x).
Proof. intros []. by constructor. Qed.
Hint Resolve loc_changed rem_changed req_changed net_changed world_changed expire_changed : core.

(** ** Callbacks *)
(** What a call of the callback leaves alone. *)
Definition same_but_data x x' : Prop :=
  s_class (c_loc (st_conn x')) = s_class (c_loc (st_conn x)) /\
  s_content_len (c_loc (st_conn x')) = s_content_len (c_loc (st_conn x)) /\
  s_class (c_rem (st_conn x')) = s_class (c_rem (st_conn x)) /\ s_flags (c_rem (st_conn x')) = s_flags (c_rem (st_conn x)) /\
  emb_ok (c_loc (st_conn x')).

Lemma call_user_ok fl x : conn_ok x -> s_class (c_loc (st_conn x)) = Some C_embedded ->
  exists x', call_user fl x = Done (tt, x') /\ conn_ok x' /\ same_but_data x x'.
Proof.
  intros K Cls. pose proof K as [KL KR KQ KC KReq KLoc KRem KIdle]. unfold loc_ok in KLoc. rewrite Cls in KLoc.
  destruct KLoc as [(stt & f & Emb & G) CL0]. unfold call_user.
  rewrite io_space_ok, io_space_len_ok, io_data_ok, io_data_len_ok by done. cbn [obind].
  rewrite Emb. cbn [deref obind].
  set (arg := Arg _ _ _ _ _ _ _ _).
  destruct (G arg (st_world x)) as (arg' & w' & -> & Out & In & Req); [destruct KL; simpl; lia|]. cbn [obind].
  subst arg. cbn [a_req a_out_len a_in] in *.
  destruct (io_append_ok _ (a_out arg') KL Out) as (i1 & i2 & E1 & E2 & K2 & C2 & T2 & S2).
  destruct (io_inc_tail_ok _ (a_in_bytes arg') KR In) as (i3 & E3 & K3 & C3 & T3 & S3 & _).
  destruct KL as [[_ SL] BL TL HL UL], KR as [[_ SR] BR TR HR UR].
  assert (Lr := contents_length _ K3).
  destruct x as [[r t loc rem] n w]. steps. cbn [st_conn c_loc c_rem c_req] in *.
  rewrite E1. steps. rewrite u64_small by lia. rewrite E2. steps.
  rewrite u64_small by (assert (Z.of_nat (length (contents (s_io rem))) <= io_size (s_io rem)) by
    (unfold contents; rewrite length_take, length_drop; lia); lia).
  rewrite E3. steps.
  assert (Fin : forall fl', let x' := St (Conn (a_req arg') t (Stream (Some (a_state arg', f)) i2 (s_class loc) (s_headers_len loc) (s_content_len loc) fl')
     (with_io i3 rem)) n w' in conn_ok x' /\ same_but_data (St (Conn r t loc rem) n w) x').
  { intros fl'. split.
    - constructor; simpl; try done.
      + rewrite C3, length_drop. lia.
      + auto.
      + unfold loc_ok. simpl. rewrite Cls. split; [|done]. unfold emb_ok. simpl. eauto.
      + intros Pa. destruct (KIdle Pa). congruence.
    - repeat split. unfold emb_ok. simpl. eauto. }
  destruct (has (a_flags arg') SHTTPD_SUSPEND); steps; eexists; (split; [reflexivity|]); apply Fin.
Qed.

(** ** Streams *)
Lemma do_embedded_ok x : conn_ok x -> s_class (c_loc (st_conn x)) = Some C_embedded ->
  exists x', do_embedded x = Done (Bytes 0, x') /\ conn_ok x' /\ same_but_data x x'.
Proof.
  intros K E. destruct (call_user_ok 0 x K E) as (x' & H & R). exists x'. split; [|done].
  unfold do_embedded. now rewrite (mbind_eq _ _ _ _ _ H).
Qed.
(** Closing the channel of a stream; the stream itself is marked afterwards. *)
Lemma close_ok cl sd x : conn_ok x -> s_class (get_stream sd x) = Some cl ->
  exists x', class_close cl sd x = Done (tt, x') /\ conn_ok x' /\
    s_flags (c_rem (st_conn x')) = s_flags (c_rem (st_conn x)) /\ s_class (c_rem (st_conn x')) = s_class (c_rem (st_conn x)) /\
    s_class (c_loc (st_conn x')) = s_class (c_loc (st_conn x)) /\
    s_content_len (c_loc (st_conn x')) = s_content_len (c_loc (st_conn x)).
Proof.
  intros K E. destruct cl; cbn [class_close].
  - unfold close_socket. steps. eexists. split; [reflexivity|]. split; [now apply net_changed|]. done.
  - unfold close_embedded. destruct (has _ _); [|eauto 10].
    destruct sd.
    + cbn [get_stream] in E. rename E into cle.
      destruct (call_user_ok SHTTPD_CONNECTION_ERROR x K cle) as (x' & H & K' & S1 & S2 & S3 & S4 & _). exists x'. auto 10.
    + cbn [get_stream] in E. destruct (k_rem _ K) as [R|[R _]]; rewrite R in E; discriminate.
Qed.
Lemma stopped f : has (clear_flag (set_flag f FLAG_CLOSED) (Z.lor (Z.lor FLAG_R FLAG_W) FLAG_ALWAYS_READY)) FLAG_CLOSED = true.
Proof. rewrite has_clear by done. now apply has_set_same. Qed.
Definition parsed x : bool := has (s_flags (c_rem (st_conn x))) FLAG_HEADERS_PARSED.
(** The remote side is left alone, unless a callback still has to be told. *)
Definition rem_kept x x' : Prop :=
  s_flags (c_rem (st_conn x')) = s_flags (c_rem (st_conn x)) /\ s_class (c_rem (st_conn x')) = s_class (c_rem (st_conn x)) /\
  s_content_len (c_loc (st_conn x')) = s_content_len (c_loc (st_conn x)) /\
  (s_class (c_loc (st_conn x)) = None -> c_rem (st_conn x') = c_rem (st_conn x) /\ c_req (st_conn x') = c_req (st_conn x)).
Lemma close_any sd x : conn_ok x -> exists x1,
  match s_class (get_stream sd x) with Some cl => class_close cl sd x | None => Done (tt, x) end = Done (tt, x1) /\
  conn_ok x1 /\ s_class (c_loc (st_conn x1)) = s_class (c_loc (st_conn x)) /\ rem_kept x x1 /\
  (sd = Rem -> c_loc (st_conn x1) = c_loc (st_conn x)).
Proof.
  intros K. destruct (s_class (get_stream sd x)) as [cl|] eqn:E.
  - destruct (close_ok cl sd x K E) as (x1 & H & K1 & F1 & F2 & F3 & F4). exists x1. do 3 (split; [done|]). split.
    + split; [done|]. split; [done|]. split; [done|]. intros N. destruct sd; cbn [get_stream] in E; [congruence|].
      destruct (k_rem _ K) as [R|[R _]]; rewrite R in E; [|done]. injection E as <-.
      cbn [class_close] in H. revert H. unfold close_socket. steps. now intros [= <-].
    + intros ->. cbn [get_stream] in E. destruct (k_rem _ K) as [R|[R _]]; rewrite R in E; [|done]. injection E as <-.
      cbn [class_close] in H. revert H. unfold close_socket. steps. now intros [= <-].
  - exists x. unfold rem_kept. auto 10.
Qed.
Lemma stop_loc_ok x : conn_ok x -> exists x', _shttpd_stop_stream Loc x = Done (tt, x') /\ conn_ok x' /\
  s_class (c_loc (st_conn x')) = None /\ has (s_flags (c_loc (st_conn x'))) FLAG_CLOSED = true /\ rem_kept x x'.
Proof.
  intros K. unfold _shttpd_stop_stream. destruct (close_any Loc x K) as (x1 & C & K1 & CL & RK & _).
  rewrite (mbind_eq _ _ _ _ _ C). steps. eexists. split; [reflexivity|].
  destruct x1 as [[r t loc rem] n w]. destruct K1 as [KL KR KQ KC KReq KLoc KRem KIdle]. cbn [st_conn c_loc c_rem] in *.
  split.
  { constructor; simpl; try done; [unfold loc_ok; simpl; rewrite stopped; discriminate|].
    intros Pa. split; [done|by apply KIdle]. }
  split; [done|]. split; [apply stopped|exact RK].
Qed.
Lemma stop_rem_ok x : conn_ok x -> exists x', _shttpd_stop_stream Rem x = Done (tt, x') /\ conn_ok x' /\
  s_class (c_rem (st_conn x')) = None /\ has (s_flags (c_rem (st_conn x'))) FLAG_CLOSED = true /\
  parsed x' = parsed x /\ c_loc (st_conn x') = c_loc (st_conn x) /\ s_io (c_rem (st_conn x')) = s_io (c_rem (st_conn x)) /\
  n_recv (st_net x') = n_recv (st_net x).
Proof.
  intros K. unfold _shttpd_stop_stream.
  assert (C : exists x1, match s_class (get_stream Rem x) with Some cl => class_close cl Rem x | None => Done (tt, x) end = Done (tt, x1) /\
    conn_ok x1 /\ st_conn x1 = st_conn x /\ n_recv (st_net x1) = n_recv (st_net x)).
  { cbn [get_stream]. destruct (k_rem _ K) as [R|[R _]]; rewrite R; [|eauto 10]. cbn [class_close]. unfold close_socket. steps.
    eexists. split; [reflexivity|]. split; [now apply net_changed|]. done. }
  destruct C as (x1 & C & K1 & E1 & E2). rewrite (mbind_eq _ _ _ _ _ C). steps. eexists. split; [reflexivity|].
  unfold parsed. rewrite <- E1, <- E2. clear E1 E2 C K. destruct x1 as [[r t loc rem] n w].
  destruct K1 as [KL KR KQ KC KReq KLoc KRem KIdle]. cbn [st_conn c_loc c_rem st_net] in *.
  pose proof (stopped (s_flags rem)) as Cl.
  assert (Pa : has (clear_flag (set_flag (s_flags rem) FLAG_CLOSED) (Z.lor (Z.lor FLAG_R FLAG_W) FLAG_ALWAYS_READY)) FLAG_HEADERS_PARSED =
    has (s_flags rem) FLAG_HEADERS_PARSED) by now rewrite has_clear, has_set.
  split; [constructor; simpl; try done; [now right|now rewrite Pa]|]. auto 10.
Qed.

(** ** Errors *)
Lemma snprintf_ok text buflen : 0 < buflen -> exists n bs, _shttpd_snprintf text buflen = (n, bs) /\
  0 <= n < buflen /\ Z.of_nat (length bs) <= buflen.
Proof.
  intros H. unfold _shttpd_snprintf. destruct (Z.eqb_spec buflen 0); [lia|].
  eexists _, _. split; [reflexivity|]. rewrite length_app, length_take. simpl.
  destruct (Z.leb_spec buflen (Z.of_nat (length text))); lia.
Qed.
Lemma send_error_ok status reason x : conn_ok x -> s_class (c_loc (st_conn x)) = None ->
  exists x', _shttpd_send_server_error [] status reason x = Done (tt, x') /\ conn_ok x' /\
    s_class (c_loc (st_conn x')) = None /\ has (s_flags (c_loc (st_conn x'))) FLAG_CLOSED = true /\
    c_rem (st_conn x') = c_rem (st_conn x) /\ rq_request (c_req (st_conn x')) = rq_request (c_req (st_conn x)).
Proof.
  intros K N. unfold _shttpd_send_server_error. cbn [find].
  destruct x as [[r t loc rem] n w]. pose proof K as [KL KR KQ KC KReq KLoc KRem KIdle]. cbn [st_conn c_loc c_rem c_req] in *.
  destruct (io_clear_ok _ KL) as (i1 & E1 & K1 & _ & T1 & S1 & H1).
  destruct K1 as [S1' B1' _ _ _].
  destruct (snprintf_ok (error_text status reason) (io_size i1)) as (k & bs & E2 & Hk & Lb); [lia|].
  assert (K0 : io_ok (Io (io_buf i1) (io_size i1) 0 0 (io_total i1))) by (constructor; simpl; lia).
  assert (T0 : io_tail i1 = 0).
  { revert E1. unfold io_clear. destruct KL. asserts. now intros [= <-]. }
  destruct (store_ok _ bs K0) as (i2 & E3 & K2 & S2 & H2 & T2 & U2 & B2); [simpl; lia|]. cbn [io_size io_head io_tail io_total] in *.
  eexists. split.
  - steps. rewrite E1. steps. rewrite E2, T0, E3. steps. unfold _shttpd_stop_stream. steps. rewrite N. steps. reflexivity.
  - split; [|split; [done|split; [apply stopped|done]]].
    destruct K2. constructor; simpl; try done; [constructor; simpl; lia| |].
    + unfold loc_ok. simpl. rewrite stopped. discriminate.
    + intros Pa. split; [done|by apply KIdle].
Qed.
Lemma setup_ok f x : conn_ok x -> good f -> parsed x = true -> s_class (c_loc (st_conn x)) = None ->
  has (s_flags (c_loc (st_conn x))) FLAG_CLOSED = false ->
  exists x', _shttpd_setup_embedded_stream f x = Done (tt, x') /\ conn_ok x'.
Proof.
  intros [KL KR KQ KC KReq KLoc KRem KIdle] G Pa N Op. unfold _shttpd_setup_embedded_stream. steps.
  eexists. split; [reflexivity|]. unfold parsed in Pa. destruct x as [[r t loc rem] n w]. cbn in *.
  constructor; simpl; try done; [|congruence].
  unfold loc_ok, emb_ok in *. rewrite N in KLoc. simpl.
  split; [by exists None, f|by apply KLoc].
Qed.

(** ** Reading *)
Definition arrivals (l : list recv_answer) : list ascii :=
  flat_map (fun a => match a with Arrives bs => bs | _ => [] end) l.
(** All that the client has sent and that has not been taken yet. *)
Definition incoming x : list ascii := contents (s_io (c_rem (st_conn x))) ++ arrivals (n_recv (st_net x)).
(** The rest of the body is not exceeded by what is queued already. *)
Definition within_length x : Prop :=
  s_content_len (c_rem (st_conn x)) = 0 \/ io_total (s_io (c_rem (st_conn x))) <= s_content_len (c_rem (st_conn x)).

Lemma s32_small z : 0 <= z < 2 ^ 31 -> s32 z = z.
Proof.
  intros H. unfold s32. cbv zeta. rewrite u32_small by lia. destruct (Z.ltb_spec z 2147483648); [done|]. lia.
Qed.
Lemma ztake_drop {A} n (l : list A) : ztake n l ++ zdrop n l = l.
Proof. unfold ztake, zdrop. destruct (_ <=? n); [apply app_nil_r|apply take_drop]. Qed.
Lemma ztake_length {A} n (l : list A) : 0 <= n -> Z.of_nat (length (ztake n l)) <= n.
Proof. intros H. unfold ztake. destruct (Z.leb_spec (Z.of_nat (length l)) n); [done|]. rewrite length_take. lia. Qed.

(** What [recv] does with a length that fits. *)
Lemma read_socket_ok len x : conn_ok x -> 0 <= len <= io_size (s_io (c_rem (st_conn x))) - io_head (s_io (c_rem (st_conn x))) ->
  io_total (s_io (c_rem (st_conn x))) < 2 ^ 62 ->
  exists r x1, read_socket Rem len x = Done (r, x1) /\
    ((conn_ok x1 /\ (forall n, r <> Bytes n \/ n = 0) /\ incoming x1 = incoming x /\ st_conn x1 = st_conn x) \/
     exists n i, r = Bytes n /\ 0 < n /\ io_inc_head (s_io (c_rem (st_conn x1))) n = Done i /\
       let x2 := put_stream Rem (with_io i (c_rem (st_conn x1))) x1 in
       conn_ok x2 /\ incoming x2 = incoming x /\ parsed x2 = parsed x /\ c_loc (st_conn x1) = c_loc (st_conn x) /\
       s_class (c_rem (st_conn x2)) = s_class (c_rem (st_conn x))).
Proof.
  intros K L T. destruct x as [[r t loc rem] [rc sd sn out cl] w]. unfold read_socket. cbn [st_net n_recv st_conn c_rem c_loc] in *.
  destruct rc as [|[bs| |] rc]; cbn [tail].
  - eexists _, _. split; [reflexivity|]. left. split; [by apply net_changed|]. split; [intros n; left; done|]. done.
  - destruct (io_append_ok _ (ztake len bs) (k_rem_io _ K)) as (i1 & i2 & E1 & E2 & K2 & C2 & T2 & S2).
    { pose proof (ztake_length len bs ltac:(lia)). cbn [st_conn c_rem]. lia. }
    cbn [st_conn c_rem s_io get_stream] in *. rewrite E1. cbn [obind].
    eexists _, _. split; [reflexivity|].
    destruct (decide (ztake len bs = [])) as [Z0|NZ].
    + left. rewrite Z0 in E1. assert (i1 = s_io rem) as ->.
      { revert E1. unfold store. destruct (_ <? _); [done|]. rewrite blit_nil. destruct (s_io rem). now intros [= <-]. }
      assert (Er : with_io (s_io rem) rem = rem) by now destruct rem. rewrite Er.
      split; [apply net_changed; exact K|]. split; [intros n; rewrite Z0; simpl; destruct (decide (n = 0)); [by right|left; intros E; injection E; lia]|].
      split; [|done]. unfold incoming. cbn [st_conn c_rem st_net n_recv put_net put_stream].
      f_equal. pose proof (ztake_drop len bs) as Et. rewrite Z0 in Et. simpl in Et. rewrite Et.
      destruct (bool_decide_reflect (bs = [])) as [->|]; done.
    + right. eexists _, i2. split; [reflexivity|]. split; [destruct (ztake len bs); [done|simpl; lia]|]. split; [exact E2|].
      cbn [st_conn c_rem c_loc put_net put_stream]. destruct K as [KL KR KQ KC KReq KLoc KRem KIdle]. cbn [st_conn c_rem c_loc c_req] in *.
      split; [|split; [|done]].
      * constructor; simpl; try done. rewrite C2, length_app, T2.
        pose proof (ztake_length len bs ltac:(lia)). destruct KR as [? ? ? ? ?]. rewrite u64_small by lia. lia.
      * unfold incoming. cbn [st_conn c_rem st_net n_recv put_net put_stream with_io s_io]. rewrite C2, <- app_assoc. f_equal.
        pose proof (ztake_drop len bs) as Et.
        assert (Ea : arrivals (Arrives bs :: rc) = ztake len bs ++ zdrop len bs ++ arrivals rc) by (rewrite app_assoc, Et; done).
        rewrite Ea. clear Ea. f_equal.
        destruct (bool_decide_reflect (zdrop len bs = [])) as [Zd|]; cbn [andb].
        -- rewrite (bool_decide_false (bs = [])) by (intros ->; rewrite Zd, app_nil_r in Et; done). cbn [negb]. now rewrite Zd.
        -- done.
  - eexists _, _. split; [reflexivity|]. left. split; [by apply net_changed|]. split; [intros n; left; done|]. done.
  - eexists _, _. split; [reflexivity|]. left. split; [by apply net_changed|]. split; [intros n; left; done|]. done.
Qed.

(** The end of a stream is stopped unless a callback wants it kept. *)
Lemma stop_unless_rem x : conn_ok x -> exists x',
  (if negb (has (s_flags (get_stream Rem x)) FLAG_DONT_CLOSE) then _shttpd_stop_stream Rem x else Done (tt, x)) = Done (tt, x') /\
  conn_ok x' /\ parsed x' = parsed x /\ c_loc (st_conn x') = c_loc (st_conn x) /\ incoming x' = incoming x.
Proof.
  intros K. destruct (negb _); [|eauto 10].
  destruct (stop_rem_ok x K) as (x' & -> & K' & _ & _ & Pa & Lo & Io & Rc). exists x'. unfold incoming. rewrite Io, Rc. auto 10.
Qed.
Lemma stop_unless_loc x : conn_ok x -> exists x',
  (if negb (has (s_flags (get_stream Loc x)) FLAG_DONT_CLOSE) then _shttpd_stop_stream Loc x else Done (tt, x)) = Done (tt, x') /\
  conn_ok x' /\ s_flags (c_rem (st_conn x')) = s_flags (c_rem (st_conn x)) /\
  s_class (c_rem (st_conn x')) = s_class (c_rem (st_conn x)) /\ s_content_len (c_loc (st_conn x')) = s_content_len (c_loc (st_conn x)).
Proof.
  intros K. destruct (negb _); [|eauto 10].
  destruct (stop_loc_ok x K) as (x' & -> & K' & _ & _ & R1 & R2 & R3 & _). eauto 10.
Qed.

Lemma ask_ok {A} sd (f : io -> outcome A) a x : f (s_io (get_stream sd x)) = Done a -> ask sd f x = Done (a, x).
Proof. intros E. unfold ask. now rewrite E. Qed.
Lemma upd_io_ok sd f i x : f (s_io (get_stream sd x)) = Done i ->
  upd_io sd f x = Done (tt, put_stream sd (with_io i (get_stream sd x)) x).
Proof. intros E. unfold upd_io. now rewrite E. Qed.
Lemma ret_ok {A} (a : A) x : (mret a : CM st A) x = Done (a, x).
Proof. done. Qed.
Lemma get_ok {A} (f : st -> A) x : mget f x = Done (f x, x).
Proof. done. Qed.
Lemma mlift_ok {A} (o : outcome A) a x : o = Done a -> mlift o x = Done (a, x).
Proof. intros ->. done. Qed.

Lemma read_rem_ok now x : conn_ok x -> s_class (c_rem (st_conn x)) = Some C_socket ->
  io_total (s_io (c_rem (st_conn x))) < 2 ^ 62 -> within_length x ->
  io_head (s_io (c_rem (st_conn x))) < io_size (s_io (c_rem (st_conn x))) ->
  exists x', read_stream now Rem x = Done (tt, x') /\ conn_ok x' /\ parsed x' = parsed x /\
    c_loc (st_conn x') = c_loc (st_conn x) /\ incoming x' = incoming x.
Proof.
  intros K Cls T Wl Sp. unfold read_stream.
  pose proof K as [KL KR KQ KC KReq KLoc KRem KIdle]. pose proof KR as [KS KB KT KH KU].
  step (ask_ok Rem io_space_len _ x (io_space_len_ok _ KR)).
  cbn [get_stream]. assert (Pos : (0 <? io_size (s_io (c_rem (st_conn x))) - io_head (s_io (c_rem (st_conn x)))) = true) by (apply Z.ltb_lt; lia).
  step (massert_true _ x Pos).
  step (get_ok (get_stream Rem) x). cbn [get_stream].
  rewrite Cls. step (eq_refl : mlift (Done C_socket) x = Done (C_socket, x)).
  step (ask_ok Rem io_space _ x (io_space_ok _ KR)). cbn [get_stream class_read].
  set (space := io_size (s_io (c_rem (st_conn x))) - io_head (s_io (c_rem (st_conn x)))) in *.
  assert (Hs : 0 < space < 2 ^ 30) by (unfold space; lia).
  set (s := c_rem (st_conn x)) in *. rewrite u64_add by lia.
  assert (L : exists len, 0 <= len <= space /\
    u64 (if (0 <? s_content_len s) && (s_content_len s <? io_total (s_io s) + space)
      then s32 (s_content_len s - io_total (s_io s)) else space) = len).
  { eexists. split; [|reflexivity]. unfold within_length in Wl. fold s in Wl.
    destruct (Z.ltb_spec 0 (s_content_len s)), (Z.ltb_spec (s_content_len s) (io_total (s_io s) + space)); cbn [andb];
      try rewrite s32_small by lia; try (rewrite u64_small by lia; lia). }
  destruct L as (len & Hl & ->).
  destruct (read_socket_ok len x K Hl T) as (r & x1 & E & C). step E.
  assert (Tl : forall x2, conn_ok x2 -> parsed x2 = parsed x -> c_loc (st_conn x2) = c_loc (st_conn x) -> incoming x2 = incoming x ->
    exists x', (mget (get_stream Rem) ≫= fun s =>
      (if (0 <? s_content_len s) && bool_decide (Rem = Loc) then
       massert (io_total (s_io s) <=? s_content_len s) ≫= fun _ =>
       if io_total (s_io s) =? s_content_len s then _shttpd_stop_stream Rem else mret tt
       else mret tt) ≫= fun _ => mmod (put_expire (now + EXPIRE_TIME))) x2 = Done (tt, x') /\ conn_ok x' /\ parsed x' = parsed x /\
    c_loc (st_conn x') = c_loc (st_conn x) /\ incoming x' = incoming x).
  { intros x2 K2 P2 L2 I2. step (get_ok (get_stream Rem) x2). cbn [get_stream].
    rewrite (bool_decide_false (Rem = Loc)), andb_false_r by done. step (ret_ok tt x2).
    eexists. split; [reflexivity|]. split; [now apply expire_changed|]. done. }
  destruct C as [(K1 & N1 & I1 & E1)|(n & i & -> & Hn & Ei & K2 & I2 & Pa & Lo & _)].
  - destruct (stop_unless_rem x1 K1) as (x2 & E2 & K2 & P2 & L2 & I2).
    assert (P1 : parsed x1 = parsed x) by (unfold parsed; now rewrite E1).
    assert (Ar : match r with
      | Bytes n => if 0 <? n then upd_io Rem (fun i => io_inc_head i n)
        else fun x => if negb (has (s_flags (get_stream Rem x)) FLAG_DONT_CLOSE) then _shttpd_stop_stream Rem x else Done (tt, x)
      | Again => mret tt
      | Failed => fun x => if negb (has (s_flags (get_stream Rem x)) FLAG_DONT_CLOSE) then _shttpd_stop_stream Rem x else Done (tt, x)
      end x1 = Done (tt, x2) \/ (r = Again)).
    { destruct r as [n| |]; [left|now right|now left]. destruct (N1 n) as [?| ->]; done. }
    destruct Ar as [Ar| ->].
    + step Ar. apply Tl; congruence.
    + step (ret_ok tt x1). apply Tl; congruence || done.
  - rewrite (proj2 (Z.ltb_lt 0 n) Hn). step (upd_io_ok Rem (fun i => io_inc_head i n) i x1 Ei). apply Tl; done.
Qed.

Lemma read_loc_ok now x : conn_ok x -> s_class (c_loc (st_conn x)) = Some C_embedded ->
  io_head (s_io (c_loc (st_conn x))) < io_size (s_io (c_loc (st_conn x))) ->
  exists x', read_stream now Loc x = Done (tt, x') /\ conn_ok x'.
Proof.
  intros K Cls Sp. unfold read_stream.
  pose proof K as [KL KR KQ KC KReq KLoc KRem KIdle].
  assert (C0 : s_content_len (c_loc (st_conn x)) = 0) by (unfold loc_ok in KLoc; rewrite Cls in KLoc; tauto).
  step (ask_ok Loc io_space_len _ x (io_space_len_ok _ KL)).
  cbn [get_stream]. assert (Pos : (0 <? io_size (s_io (c_loc (st_conn x))) - io_head (s_io (c_loc (st_conn x)))) = true) by (apply Z.ltb_lt; lia).
  step (massert_true _ x Pos). step (get_ok (get_stream Loc) x). cbn [get_stream].
  rewrite Cls. step (eq_refl : mlift (Done C_embedded) x = Done (C_embedded, x)).
  step (ask_ok Loc io_space _ x (io_space_ok _ KL)). cbn [class_read].
  destruct (do_embedded_ok x K Cls) as (x1 & E & K1 & S1 & S2 & _). step E.
  change (0 <? 0) with false. cbv iota.
  destruct (stop_unless_loc x1 K1) as (x2 & E2 & K2 & _ & _ & C2).
  step E2. step (get_ok (get_stream Loc) x2). cbn [get_stream].
  rewrite C2, S2, C0. change (0 <? 0) with false. cbn [andb]. step (ret_ok tt x2).
  eexists. split; [reflexivity|]. now apply expire_changed.
Qed.

(** ** Writing *)
Lemma nonempty_pos {A} (l : list A) : l <> [] -> (0 <? Z.of_nat (length l)) = true.
Proof. intros N. apply Z.ltb_lt. destruct l; [done|simpl; lia]. Qed.
Lemma write_rem_ok now x : conn_ok x -> s_class (c_loc (st_conn x)) = Some C_embedded ->
  contents (s_io (c_rem (st_conn x))) <> [] ->
  exists x', write_stream now Rem x = Done (tt, x') /\ conn_ok x'.
Proof.
  intros K Cls Ne. unfold write_stream. cbn [other_side].
  pose proof K as [KL KR KQ KC KReq KLoc KRem KIdle].
  step (ask_ok Rem io_data_len _ x (io_data_len_ok _ KR)). cbn [get_stream].
  step (massert_true _ x (nonempty_pos _ Ne)).
  step (ask_ok Rem io_data _ x (io_data_ok _ KR)). step (get_ok (get_stream Loc) x). cbn [get_stream].
  rewrite Cls. step (eq_refl : mlift (deref (Some C_embedded)) x = Done (C_embedded, x)).
  step (get_ok (fun x => contents (s_io (get_stream Rem x))) x). cbn [class_write].
  destruct (do_embedded_ok x K Cls) as (x1 & E & K1 & _). step E.
  step (eq_refl : mmod (put_expire (now + EXPIRE_TIME)) x1 = Done (tt, put_expire (now + EXPIRE_TIME) x1)).
  change (0 <? 0) with false. cbv iota.
  destruct (stop_unless_loc (put_expire (now + EXPIRE_TIME) x1)) as (x2 & E2 & K2 & _); [now apply expire_changed|].
  exists x2. split; [exact E2|exact K2].
Qed.
Lemma write_loc_ok now x : conn_ok x -> s_class (c_rem (st_conn x)) = Some C_socket ->
  contents (s_io (c_loc (st_conn x))) <> [] ->
  exists x', write_stream now Loc x = Done (tt, x') /\ conn_ok x'.
Proof.
  intros K Cls Ne. unfold write_stream. cbn [other_side].
  pose proof K as [KL KR KQ KC KReq KLoc KRem KIdle].
  step (ask_ok Loc io_data_len _ x (io_data_len_ok _ KL)). cbn [get_stream].
  step (massert_true _ x (nonempty_pos _ Ne)).
  step (ask_ok Loc io_data _ x (io_data_ok _ KL)). step (get_ok (get_stream Rem) x). cbn [get_stream].
  rewrite Cls. step (eq_refl : mlift (deref (Some C_socket)) x = Done (C_socket, x)).
  step (get_ok (fun x => contents (s_io (get_stream Loc x))) x). cbn [class_write get_stream].
  assert (St : forall x1, conn_ok x1 -> exists x', (fun x => if negb (has (s_flags (get_stream Rem x)) FLAG_DONT_CLOSE)
    then _shttpd_stop_stream Rem x else Done (tt, x)) x1 = Done (tt, x') /\ conn_ok x').
  { intros x1 K1. destruct (stop_unless_rem x1 K1) as (x' & E & K' & _). eauto. }
  set (bs := contents (s_io (c_loc (st_conn x)))) in *.
  assert (Wr : exists r n1, write_socket bs x = Done (r, put_net n1 x) /\
    forall n, r = Bytes n -> 0 <= n <= Z.of_nat (length bs)).
  { unfold write_socket. destruct (n_send (st_net x) (n_sends (st_net x))) as [n| |]; eexists _, _; (split; [reflexivity|]); try done.
    intros m [= <-]. pose proof (ztake_drop n bs) as Ht. apply (f_equal length) in Ht. rewrite length_app in Ht. lia. }
  destruct Wr as (r & n1 & E & Hr). step E.
  step (eq_refl : mmod (put_expire (now + EXPIRE_TIME)) (put_net n1 x) = Done (tt, put_expire (now + EXPIRE_TIME) (put_net n1 x))).
  set (x1 := put_expire _ _). assert (K1 : conn_ok x1) by (now apply expire_changed, net_changed).
  destruct r as [n| |]; [|eexists; split; [reflexivity|exact K1]|exact (St x1 K1)].
  specialize (Hr n eq_refl). destruct (Z.ltb_spec 0 n) as [Hn|Hn]; [|exact (St x1 K1)].
  destruct (io_inc_tail_ok _ n KL Hr) as (i & Ei & Ki & _).
  eexists. split; [apply (upd_io_ok Loc (fun j => io_inc_tail j n) i x1 Ei)|].
  apply loc_changed; [exact K1|exact Ki|exact KLoc|intros Pa; exact (proj1 (KIdle Pa))].
Qed.
End Conn.

(** ** The request line *)
Lemma until_total stop mem e fuel : forall p, 0 <= p <= e -> e < Z.of_nat (length mem) -> e - p < Z.of_nat fuel ->
  exists q, until fuel stop mem p e = Done q /\ p <= q <= e.
Proof.
  induction fuel as [|fuel IH]; intros p Hp He Hf; cbn [until]; [lia|].
  destruct (rd_ok mem p) as (c & _ & ->); [lia|]. cbn [obind].
  destruct (negb (stop c)), (Z.ltb_spec p e); cbn [andb]; try (exists p; split; [done|lia]).
  destruct (IH (p + 1)) as (q & -> & Hq); [lia..|]. exists q. split; [done|lia].
Qed.
Lemma while_ok_total ok mem e fuel : forall p, 0 <= p <= e -> e <= Z.of_nat (length mem) -> e - p < Z.of_nat fuel ->
  exists q, while_ok fuel ok mem p e = Done q /\ p <= q <= e.
Proof.
  induction fuel as [|fuel IH]; intros p Hp He Hf; cbn [while_ok]; [lia|].
  destruct (Z.ltb_spec p e); [|exists p; split; [done|lia]].
  destruct (rd_ok mem p) as (c & _ & ->); [lia|]. cbn [obind].
  destruct (ok c); [|exists p; split; [done|lia]].
  destruct (IH (p + 1)) as (q & -> & Hq); [lia..|]. exists q. split; [done|lia].
Qed.
Lemma request_line_total mem m : 0 <= m < Z.of_nat (length mem) -> exists start len p,
  request_line mem m = Done (start, len, p) /\ 0 <= start /\ 0 <= len /\ start + len <= p <= m.
Proof.
  intros Hm. unfold request_line.
  destruct (until_total is_space_char mem m (S (Z.to_nat m)) 0) as (a & -> & Ha); [lia..|]. cbn [obind].
  destruct (while_ok_total is_space_char mem m (S (Z.to_nat m)) a) as (b & -> & Hb); [lia..|]. cbn [obind].
  destruct (while_ok_total (fun c => negb (isspace c)) mem m (S (Z.to_nat m)) b) as (c & -> & Hc); [lia..|]. cbn [obind].
  destruct (while_ok_total is_space_char mem m (S (Z.to_nat m)) c) as (d & -> & Hd); [lia..|]. cbn [obind].
  exists b, (c - b), d. split; [done|]. lia.
Qed.
(** The head of a request, as the length of the headers guarantees it. *)
Record head_ok (h : list ascii) : Prop := HeadOk {
  head_lf : LF ∈ h; head_nul : no_nul h; head_ascii : Forall (fun c => is_ascii c = true) h }.
Lemma blank_has_lf s : blank s = true -> LF ∈ s.
Proof.
  induction s as [|c s IH]; [done|]. simpl. intros [H|H]%orb_true_iff; [|right; auto].
  unfold line_break in H. apply andb_true_iff in H as [H _]. apply bool_decide_eq_true in H as ->. now left.
Qed.
Lemma ctl_no_nul s : Forall (fun c => ctl c = false) s -> no_nul s.
Proof. intros F H. rewrite Forall_forall in F. specialize (F NUL H). discriminate. Qed.

(** The end of the request line in the copy of the head. *)
Definition cut_line (mem : list ascii) (k : nat) : list ascii :=
  <[k := NUL]> (if (0 <? Z.of_nat k) && bool_decide (mem !! pred k = Some CR) then <[pred k := NUL]> mem else mem).
Lemma find_lf h : LF ∈ h -> exists k, find_char LF (take (Z.to_nat (Z.of_nat (length h))) (h ++ [NUL])) = Some k /\ (k < length h)%nat.
Proof.
  intros H. rewrite Nat2Z.id, take_app_length. unfold find_char. pose proof (split_at_spec LF h) as S.
  destruct (split_at LF h) as [[a b]|]; [|done]. destruct S as [-> _]. exists (length a). split; [done|].
  rewrite length_app. simpl. lia.
Qed.
Lemma cut_line_ok h k : head_ok h -> (k < length h)%nat -> exists text, cut_line (h ++ [NUL]) k = text ++ [NUL] /\
  length text = length h /\ Forall (fun c => is_ascii c = true) text.
Proof.
  intros [_ _ F] Hk. unfold cut_line.
  assert (I : forall j t, length t = length h -> Forall (fun c => is_ascii c = true) t -> (j < length h)%nat ->
    exists text, <[j := NUL]> (t ++ [NUL]) = text ++ [NUL] /\ length text = length h /\ Forall (fun c => is_ascii c = true) text).
  { intros j t L Ft Hj. exists (<[j := NUL]> t). rewrite insert_app_l by lia. split; [done|].
    rewrite length_insert. split; [done|]. now apply Forall_insert. }
  destruct (_ && _); [|now apply I].
  destruct (I (pred k) h) as (t & -> & Lt & Ft); [done|done|lia|]. now apply I.
Qed.

Section Parse.
Context {W P : Type} (now : Z) (ctx : @shttpd_ctx (@callback W P)) (date_to_epoch : cstring -> Z).
Context (request_alloc uri_alloc : bool).
(** A context that the decisions can be made in, with callbacks that keep their contract. *)
Record ctx_good : Prop := CtxGood {
  cg_ctx : ctx_ok ctx; cg_good : Forall (fun r => good (ru_callback r)) (registered_uris ctx); cg_now : 0 <= now < 2 ^ 64 }.
Context (G : ctx_good).
Implicit Types x : @st W P.

(** Nothing has been answered yet. *)
Definition unanswered x : Prop :=
  s_class (c_loc (st_conn x)) = None /\ has (s_flags (c_loc (st_conn x))) FLAG_CLOSED = false.
Lemma error_ends status reason x : conn_ok x -> s_class (c_loc (st_conn x)) = None ->
  exists x', _shttpd_send_server_error [] status reason x = Done (tt, x') /\ conn_ok x'.
Proof. intros K N. destruct (send_error_ok status reason x K N) as (x' & E & K' & _). eauto. Qed.

Lemma answer_ok x text uri : conn_ok x -> parsed x = true -> unanswered x -> no_nul uri ->
  rq_uri (c_req (st_conn x)) = Some (uri ++ [NUL]) -> rq_request (c_req (st_conn x)) = Some (text ++ [NUL]) ->
  Forall (fun c => is_ascii c = true) text -> value_ok (Z.of_nat (length text)) H_auth (rq_ch (c_req (st_conn x)) H_auth) ->
  exists x', answer_request now ctx [] x = Done (tt, x') /\ conn_ok x'.
Proof.
  intros K Pa [N Op] Nu Eu Er F V. unfold answer_request.
  step (get_ok (fun x => c_req (st_conn x)) x). rewrite Eu, Er. step (mlift_ok (deref (Some (uri ++ [NUL]))) _ x eq_refl).
  step (mlift_ok (deref (Some (text ++ [NUL]))) _ x eq_refl).
  destruct (vec_of (rq_ch (c_req (st_conn x)) H_auth)) as [auth len] eqn:Ev.
  assert (A : 10 < len -> 0 <= auth /\ auth + len <= Z.of_nat (length text)).
  { intros L. destruct (rq_ch (c_req (st_conn x)) H_auth) as [p l| |]; simpl in Ev, V; injection Ev as <- <-; lia. }
  destruct (decide_total ctx now uri text auth len (cg_ctx G) Nu (cg_now G) F A) as (a & q & u & m & E & Hc & _).
  step (mlift_ok _ _ x E).
  set (x1 := put_req (set_ch_uri (c_req (st_conn x)) (Some u) (Some m) q (rq_ch (c_req (st_conn x)))) x).
  step (eq_refl : upd_req (fun r => set_ch_uri r (Some u) (Some m) q (rq_ch r)) x = Done (tt, x1)).
  assert (K1 : conn_ok x1).
  { apply req_changed; [done|left; by eexists|]. intros Pf. unfold parsed in Pa. congruence. }
  destruct a as [status reason|r].
  - apply error_ends; done.
  - apply setup_ok; try done. pose proof (cg_good G) as Gd. rewrite Forall_forall in Gd. apply Gd, Hc, eq_refl.
Qed.

Lemma parse_request_ok x h : conn_ok x -> parsed x = false -> unanswered x -> head_ok h ->
  rq_request (c_req (st_conn x)) = Some (h ++ [NUL]) ->
  Z.of_nat (length h) + Z.of_nat (length (contents (s_io (c_rem (st_conn x))))) <= io_total (s_io (c_rem (st_conn x))) ->
  exists x', parse_request now ctx [] date_to_epoch uri_alloc (Z.of_nat (length h)) x = Done (tt, x') /\ conn_ok x'.
Proof.
  intros K Pf [N Op] Hh Er T. unfold parse_request.
  set (m := Z.of_nat (length h)) in *.
  set (x1 := put_stream Rem (with_flags (set_flag (s_flags (c_rem (st_conn x))) FLAG_HEADERS_PARSED) (c_rem (st_conn x))) x).
  step (eq_refl : upd Rem (fun s => with_flags (set_flag (s_flags s) FLAG_HEADERS_PARSED) s) x = Done (tt, x1)).
  pose proof K as [KL KR KQ KC KReq KLoc KRem KIdle]. destruct (KIdle Pf) as [_ Ch].
  assert (Pa : parsed x1 = true) by (now apply has_set_same).
  assert (K1 : conn_ok x1).
  { apply rem_changed; try done.
    unfold rem_ok in *. simpl. rewrite has_set by done. exact KRem. }
  step (get_ok (fun x => c_req (st_conn x)) x1). change (c_req (st_conn x1)) with (c_req (st_conn x)). rewrite Er.
  step (mlift_ok (deref (Some (h ++ [NUL]))) _ x1 eq_refl).
  destruct (find_lf h (head_lf h Hh)) as (k & Ek & Hk). fold m in Ek. rewrite Ek. step (mlift_ok (Done k) _ x1 eq_refl).
  fold (cut_line (h ++ [NUL]) k). destruct (cut_line_ok h k Hh Hk) as (text & -> & Lt & Ft).
  destruct (request_line_total (text ++ [NUL]) m) as (start & ulen & p & E & S1 & S2 & S3); [unfold m; rewrite length_app; simpl; lia|].
  step (mlift_ok _ _ x1 E). destruct (scan_version _ _ _) as [[[items major] minor] rest].
  set (r2 := Request (rq_status (c_req (st_conn x1))) (rq_method (c_req (st_conn x1))) (rq_uri (c_req (st_conn x1))) major minor
    (Some (text ++ [NUL])) (Z.of_nat k + 1) (rq_query (c_req (st_conn x1))) (rq_ch (c_req (st_conn x1)))).
  step (eq_refl : upd_req (fun r => Request (rq_status r) (rq_method r) (rq_uri r) major minor
    (Some (text ++ [NUL])) (Z.of_nat k + 1) (rq_query r) (rq_ch r)) x1 = Done (tt, put_req r2 x1)).
  set (x2 := put_req r2 x1).
  assert (K2 : conn_ok x2) by (apply req_changed; [done|left; by eexists|intros Px; change (parsed x1 = false) in Px; congruence]).
  destruct (negb (items =? 2) || _); [now apply error_ends|].
  destruct (_ || _); [now apply error_ends|]. destruct (ulen <=? 0); [now apply error_ends|].
  destruct (negb uri_alloc); [now apply error_ends|].
  rewrite strlcpy_take by lia.
  set (uri := take (Z.to_nat ulen) (c_string (drop (Z.to_nat start) (text ++ [NUL])))).
  assert (Nu : no_nul uri).
  { intros X. eapply c_string_no_nul, elem_of_submseteq; [exact X|]. apply sublist_submseteq, sublist_take. }
  destruct (parse_headers_total date_to_epoch (text ++ [NUL]) (Z.of_nat k + 1) (m - (Z.of_nat k + 1)) (rq_ch (c_req (st_conn x1))))
    as (ch & Ec & Vc); [lia|unfold m; lia|rewrite length_app; simpl; lia| |].
  { change (rq_ch (c_req (st_conn x1))) with (rq_ch (c_req (st_conn x))). rewrite Ch. intros hd. simpl. lia. }
  replace (Z.of_nat k + 1 + (m - (Z.of_nat k + 1))) with m in Vc by lia.
  step (mlift_ok _ _ x2 Ec).
  set (r3 := set_ch_uri r2 (Some (uri ++ [NUL])) (Some (text ++ [NUL])) (rq_query r2) ch).
  step (eq_refl : upd_req (fun r => set_ch_uri r (Some (uri ++ [NUL])) (Some (text ++ [NUL])) (rq_query r) ch) x2 = Done (tt, put_req r3 x2)).
  set (x3 := put_req r3 x2).
  assert (K3 : conn_ok x3) by (apply req_changed; [done|left; by eexists|intros Px; change (parsed x1 = false) in Px; congruence]).
  step (get_ok (fun x => io_total (s_io (c_rem (st_conn x)))) x3).
  assert (Et : (m <=? io_total (s_io (c_rem (st_conn x3)))) = true) by (apply Z.leb_le; simpl; lia).
  step (massert_true _ x3 Et).
  set (f4 := fun i => Done (Io (io_buf i) (io_size i) (io_head i) (io_tail i) (io_total i - m))).
  step (upd_io_ok Rem f4 _ x3 eq_refl).
  set (x4 := put_stream Rem _ x3).
  set (x5 := put_stream Rem (with_lens (s_headers_len (c_rem (st_conn x4))) (big_int_of (ch H_cl)) (c_rem (st_conn x4))) x4).
  step (eq_refl : upd Rem (fun s => with_lens (s_headers_len s) (big_int_of (ch H_cl)) s) x4 = Done (tt, x5)).
  assert (Cl : 0 <= big_int_of (ch H_cl) < 2 ^ 64).
  { specialize (Vc H_cl). destruct (ch H_cl) as [vp l|z|z]; simpl in *; [|done|done].
    destruct Vc as (_ & _ & ->); done. }
  apply (answer_ok _ text uri).
  - pose proof K3 as [K3L [K3S K3B K3T K3H K3U] K3Q K3C K3Req K3Loc K3Rem K3Idle].
    constructor; try done; [constructor; simpl in *; try done; lia|]. simpl in *. unfold contents in *. simpl in *. lia.
  - exact Pa.
  - split; [exact N|exact Op].
  - exact Nu.
  - done.
  - done.
  - done.
  - rewrite Lt. apply (Vc H_auth).
Qed.

(** The data of a request that is not parsed yet: no control character before its first empty
    line, and a head in ASCII. *)
Definition head_fine x : Prop := parsed x = false ->
  head_end 0 (incoming x) <> -1 /\ Forall (fun c => is_ascii c = true) (take (Z.to_nat (head_end 0 (incoming x))) (incoming x)).
Lemma queue_front i : io_ok i -> exists rest, drop (Z.to_nat (io_tail i)) (io_buf i) = contents i ++ rest.
Proof. intros K. exists (drop (Z.to_nat (io_head i - io_tail i)) (drop (Z.to_nat (io_tail i)) (io_buf i))). unfold contents. now rewrite take_drop. Qed.
(** The head that the server sees is that of all the client sends. *)
Lemma head_of_queue q t : head_end 0 (q ++ t) <> -1 ->
  Forall (fun c => is_ascii c = true) (take (Z.to_nat (head_end 0 (q ++ t))) (q ++ t)) ->
  head_end 0 q = 0 \/ exists h, h `prefix_of` q /\ head_end 0 q = Z.of_nat (length h) /\ head_ok h.
Proof.
  intros N A. destruct (head_end_cases q 0) as [[E _]|[(m & E & Hm & B & _ & F)|(E & _)]]; [now left|right|].
  - simpl in E. rewrite (head_end_app q t 0), E, Nat2Z.id in A by lia.
    exists (take m q). split; [now exists (drop m q); rewrite take_drop|]. rewrite length_take. split; [lia|].
    constructor; [now apply blank_has_lf|now apply ctl_no_nul|]. now rewrite take_app_le in A by lia.
  - exfalso. apply N. rewrite (head_end_app q t 0); lia.
Qed.
Lemma strndup_head h rest : no_nul h -> _shttpd_strndup true (c_string (h ++ rest)) (Z.of_nat (length h)) = Some h.
Proof.
  intros N. unfold _shttpd_strndup. rewrite strlcpy_take, Nat2Z.id, c_string_app by (done || lia). f_equal. apply take_app_length.
Qed.

(** Copying the head, or an error. *)
Definition copy_head (m : Z) (data : list ascii) : CM (@st W P) unit :=
  if m <? 16 then _shttpd_send_server_error [] 400 (lit "Bad request")
  else set_request_method ≫= fun unknown =>
    if (unknown : bool) then _shttpd_send_server_error [] 501 (lit "Method Not Implemented")
    else match _shttpd_strndup request_alloc (c_string data) m with
      | None => _shttpd_send_server_error [] 500 (lit "Cannot allocate request")
      | Some t => upd_req (fun r => set_ch_uri r (rq_uri r) (Some (t ++ [NUL])) (rq_query r) (rq_ch r))
      end.
Lemma copy_head_ok x h rest : conn_ok x -> parsed x = false -> no_nul h ->
  exists x', copy_head (Z.of_nat (length h)) (h ++ rest) x = Done (tt, x') /\ conn_ok x' /\
    c_rem (st_conn x') = c_rem (st_conn x) /\
    (has (s_flags (c_loc (st_conn x'))) FLAG_CLOSED = true \/ rq_request (c_req (st_conn x')) = Some (h ++ [NUL])).
Proof.
  intros K Pf Nh. destruct (k_idle _ K Pf) as [N Ch].
  assert (Er : forall status reason x1, conn_ok x1 -> s_class (c_loc (st_conn x1)) = None -> c_rem (st_conn x1) = c_rem (st_conn x) ->
    exists x', _shttpd_send_server_error [] status reason x1 = Done (tt, x') /\ conn_ok x' /\
      c_rem (st_conn x') = c_rem (st_conn x) /\
      (has (s_flags (c_loc (st_conn x'))) FLAG_CLOSED = true \/ rq_request (c_req (st_conn x')) = Some (h ++ [NUL]))).
  { intros status reason x1 K1 N1 R1. destruct (send_error_ok status reason x1 K1 N1) as (x' & E & K' & _ & F & R & _).
    exists x'. rewrite R. auto. }
  unfold copy_head. destruct (_ <? 16); [now apply Er|].
  unfold set_request_method. destruct (find_method _shttpd_known_http_methods (io_buf (s_io (c_rem (st_conn x)))) 0) as [k|] eqn:Fm.
  - set (x1 := put_req (Request (rq_status (c_req (st_conn x))) k (rq_uri (c_req (st_conn x))) (rq_major (c_req (st_conn x)))
      (rq_minor (c_req (st_conn x))) (rq_request (c_req (st_conn x))) (rq_headers (c_req (st_conn x))) (rq_query (c_req (st_conn x)))
      (rq_ch (c_req (st_conn x)))) x).
    assert (K1 : conn_ok x1) by (apply req_changed; [done|apply K|done]).
    erewrite mbind_eq with (x := false) (h1 := x1).
    2: { erewrite mbind_eq; [|apply get_ok]. cbv beta. rewrite Fm. reflexivity. }
    cbv iota. destruct request_alloc; [|apply Er; done]. rewrite strndup_head by done.
    eexists. split; [reflexivity|]. split; [|split; [done|by right]].
    apply req_changed; [done|left; by eexists|]. intros _. exact Ch.
  - erewrite mbind_eq with (x := true) (h1 := x).
    2: { erewrite mbind_eq; [|apply get_ok]. cbv beta. rewrite Fm. reflexivity. }
    cbv iota. now apply Er.
Qed.

Lemma parse_http_ok x : conn_ok x -> parsed x = false -> head_fine x ->
  exists x', parse_http_request now ctx [] date_to_epoch request_alloc uri_alloc x = Done (tt, x') /\ conn_ok x'.
Proof.
  intros K Pf Hf. unfold parse_http_request. pose proof K as [KL KR KQ KC KReq KLoc KRem KIdle].
  destruct (KIdle Pf) as [N Ch]. destruct (Hf Pf) as [Hc Ha]. unfold incoming in Hc, Ha.
  step (ask_ok Rem io_data _ x (io_data_ok _ KR)). step (ask_ok Rem io_data_len _ x (io_data_len_ok _ KR)).
  cbn [get_stream]. step (get_ok (fun y : st => drop (Z.to_nat (io_tail (s_io (c_rem (st_conn x))))) (io_buf (s_io (c_rem (st_conn y))))) x).
  destruct (queue_front _ KR) as (rest & Eq). rewrite Eq.
  set (q := contents (s_io (c_rem (st_conn x)))) in *.
  rewrite headers_len_eq. step (mlift_ok (Done (head_end 0 q)) _ x eq_refl).
  set (x1 := put_stream Rem (with_lens (head_end 0 q) (s_content_len (c_rem (st_conn x))) (c_rem (st_conn x))) x).
  step (eq_refl : upd Rem (fun s => with_lens (head_end 0 q) (s_content_len s) s) x = Done (tt, x1)).
  assert (K1 : conn_ok x1) by (now apply rem_changed).
  destruct (head_of_queue q _ Hc Ha) as [E0|(h & (rest' & Eh) & E0 & Hh)].
  - rewrite E0. change (0 =? 0) with true. cbv iota.
    assert (I : exists x2, (ask Rem io_space_len ≫= fun sp => if sp =? 0 then upd_io Rem io_clear ≫= fun _ =>
      _shttpd_send_server_error [] 400 (lit "Request is too big") else mret tt) x1 = Done (tt, x2) /\ conn_ok x2).
    { step (ask_ok Rem io_space_len _ x1 (io_space_len_ok _ KR)). destruct (_ =? 0); [|by exists x1].
      destruct (io_clear_ok _ KR) as (i & Ei & Ki & Ci & Ti & _). step (upd_io_ok Rem io_clear i x1 Ei).
      apply error_ends; [|exact N]. apply rem_changed; try done. simpl. rewrite Ci, Ti. done. }
    destruct I as (x2 & E & K2). step E. by exists x2.
  - assert (Hm : (0 < length h)%nat) by (destruct Hh as [Hlf _ _]; destruct h; [now apply not_elem_of_nil in Hlf|simpl; lia]).
    rewrite E0. destruct (Z.eqb_spec (Z.of_nat (length h)) 0); [lia|]. step (ret_ok tt x1).
    rewrite Eh, <- app_assoc. fold (copy_head (Z.of_nat (length h)) (h ++ rest' ++ rest)).
    destruct (copy_head_ok x1 h (rest' ++ rest) K1 Pf (head_nul h Hh)) as (x2 & E2 & K2 & R2 & C2). step E2.
    destruct (io_inc_tail_ok _ (Z.of_nat (length h)) KR) as (i & Ei & Ki & Ci & Ti & _); [fold q; rewrite Eh, length_app; lia|].
    fold q in Ci. rewrite Eh, Nat2Z.id, drop_app_length in Ci.
    assert (Ei' : io_inc_tail (s_io (get_stream Rem x2)) (u64 (Z.of_nat (length h))) = Done i).
    { cbn [get_stream]. rewrite R2, u64_small; [exact Ei|]. pose proof (contents_length _ KR) as Lc. fold q in Lc.
      rewrite Eh, length_app in Lc. destruct KR. lia. }
    step (upd_io_ok Rem (fun i => io_inc_tail i (u64 (Z.of_nat (length h)))) i x2 Ei').
    set (x3 := put_stream Rem _ x2).
    assert (K3 : conn_ok x3).
    { apply rem_changed; try apply K2; try done; simpl.
      rewrite Ci, Ti. rewrite Eh, length_app in KQ. lia. }
    step (get_ok (fun x => s_flags (c_loc (st_conn x))) x3).
    destruct (has (s_flags (c_loc (st_conn x3))) FLAG_CLOSED) eqn:Op; [by exists x3|].
    destruct C2 as [C2|C2]; [change (has (s_flags (c_loc (st_conn x2))) FLAG_CLOSED = false) in Op; congruence|].
    assert (P3 : parsed x3 = false) by (unfold parsed, x3; simpl; rewrite R2; exact Pf).
    apply parse_request_ok; try done.
    + split; [|exact Op]. now apply (k_idle _ K3).
    + simpl. rewrite Ci, Ti. rewrite Eh, length_app in KQ. lia.
Qed.

(** ** The end of a request, and a whole iteration *)
Definition open_conn x : Prop := conn_ok x /\ s_class (c_rem (st_conn x)) = Some C_socket.
Lemma wants_close_ok r : req_ok r -> exists b, wants_close r = Done b.
Proof.
  intros [[m E]|E]; unfold wants_close.
  - destruct (vec_of _) as [p l]. destruct (5 <=? l); [rewrite E; cbn [deref obind]|]; eauto.
  - rewrite E. simpl. eauto.
Qed.
Lemma destructor_ok x : conn_ok x -> exists f x', connection_desctructor x = Done (f, x') /\ (f = Gone \/ open_conn x').
Proof.
  intros K. unfold connection_desctructor. destruct (close_any Loc x K) as (x1 & C & K1 & _).
  cbn [get_stream] in C. step C. step (get_ok (fun y : @st W P => st_conn y) x1).
  assert (D : exists b, (if has (s_flags (c_rem (st_conn x1))) FLAG_CLOSED then Done true else
    let* b := wants_close (c_req (st_conn x1)) in
    Done ((b : bool) || (rq_major (c_req (st_conn x1)) <? 1) ||
      ((1 <=? rq_major (c_req (st_conn x1))) && (rq_minor (c_req (st_conn x1)) <? 1)))) = Done b /\
    (b = false -> has (s_flags (c_rem (st_conn x1))) FLAG_CLOSED = false)).
  { destruct (has _ _); [by exists true|]. destruct (wants_close_ok _ (k_req _ K1)) as (b & ->). cbn [obind]. eauto. }
  destruct D as (b & D & Db). step (mlift_ok _ _ x1 D).
  destruct (negb b && _) eqn:B.
  - apply andb_true_iff in B as [B _]. apply negb_true_iff in B. specialize (Db B).
    pose proof K1 as [KL KR KQ KC KReq KLoc KRem KIdle].
    assert (Cl : s_class (c_rem (st_conn x1)) = Some C_socket) by (destruct KRem as [?|[_ ?]]; congruence).
    destruct (io_clear_ok _ KL) as (i & Ei & Ki & _).
    destruct x1 as [[r t loc rem] n w]. cbn [st_conn c_loc c_rem c_req] in *.
    assert (KF : open_conn (St (Conn (Request (rq_status r) (rq_method r) None (rq_major r) (rq_minor r) None (rq_headers r) None no_headers)
      t (Stream (s_emb loc) i None (s_headers_len loc) 0 0) (with_flags 14 rem)) n w)).
    { split; [|exact Cl]. constructor; simpl; try done; [by right|by left]. }
    steps. rewrite Ei. steps. cbn [obind]. rewrite io_data_len_ok by done. cbn [obind]. eexists _, _. split; [reflexivity|].
    right. exact KF.
  - step (get_ok (fun y : @st W P => s_class (c_rem (st_conn y))) x1).
    destruct (close_any Rem x1 K1) as (x2 & C2 & K2 & _). cbn [get_stream] in C2.
    exists Gone, x2. split; [|now left]. destruct (s_class (c_rem (st_conn x1))); [step C2; done|].
    injection C2 as ->. done.
Qed.

(** C17. One iteration of the server loop over a connection in order, whatever has arrived and
    however the socket answers: no assertion fails and nothing undefined is done, and the
    connection is gone or in order again, as long as the client keeps to three limits, no
    control character before the first empty line of a request, a head in ASCII, and no
    more body than its Content-Length announces; for a connection without SSL whose callbacks
    are in order themselves, with less than 2^62 bytes read so far. *)
Theorem connection_stays_in_order x (remote_ready local_ready : bool) :
  open_conn x -> head_fine x -> within_length x -> io_total (s_io (c_rem (st_conn x))) < 2 ^ 62 ->
  (local_ready = true -> s_class (c_loc (st_conn x)) = Some C_embedded) ->
  exists f x', process_pass now ctx [] date_to_epoch request_alloc uri_alloc remote_ready local_ready x = Done (f, x') /\
    (f = Gone \/ open_conn x').
Proof.
  intros [K Cls] Hf Wl T Lr. unfold process_pass.
  step (ask_ok Rem io_space_len _ x (io_space_len_ok _ (k_rem_io _ K))). cbn [get_stream].
  assert (S1 : exists x1, (if remote_ready && negb (io_size (s_io (c_rem (st_conn x))) - io_head (s_io (c_rem (st_conn x))) =? 0)
      then read_stream now Rem else mret tt) x = Done (tt, x1) /\ conn_ok x1 /\ parsed x1 = parsed x /\
      c_loc (st_conn x1) = c_loc (st_conn x) /\ incoming x1 = incoming x).
  { destruct (remote_ready && _) eqn:B; [|by exists x]. apply andb_true_iff in B as [_ B].
    apply negb_true_iff, Z.eqb_neq in B. apply read_rem_ok; try done. destruct (k_rem_io _ K). lia. }
  destruct S1 as (x1 & E1 & K1 & P1 & L1 & I1). step E1. step (get_ok (fun y : @st W P => s_flags (c_rem (st_conn y))) x1).
  fold (parsed x1).
  assert (S2 : exists x2, (if negb (parsed x1) then parse_http_request now ctx [] date_to_epoch request_alloc uri_alloc else mret tt) x1 =
      Done (tt, x2) /\ conn_ok x2 /\ (local_ready = true -> s_class (c_loc (st_conn x2)) = Some C_embedded)).
  { destruct (parsed x1) eqn:Px; cbn [negb]; [exists x1; rewrite L1; auto|].
    destruct (parse_http_ok x1 K1 Px) as (x2 & E2 & K2); [unfold head_fine; rewrite I1; intros _; apply Hf; congruence|].
    exists x2. split; [done|]. split; [done|]. intros R. specialize (Lr R). destruct (k_idle _ K1 Px) as [N _]. congruence. }
  destruct S2 as (x2 & E2 & K2 & Lr2). step E2.
  step (ask_ok Loc io_space_len _ x2 (io_space_len_ok _ (k_loc_io _ K2))). cbn [get_stream].
  assert (S3 : exists x3, (if local_ready && negb (io_size (s_io (c_loc (st_conn x2))) - io_head (s_io (c_loc (st_conn x2))) =? 0)
      then read_stream now Loc else mret tt) x2 = Done (tt, x3) /\ conn_ok x3).
  { destruct (local_ready && _) eqn:B; [|by exists x2]. apply andb_true_iff in B as [B1 B].
    apply negb_true_iff, Z.eqb_neq in B. apply read_loc_ok; auto. destruct (k_loc_io _ K2). lia. }
  destruct S3 as (x3 & E3 & K3). step E3.
  step (ask_ok Rem io_data_len _ x3 (io_data_len_ok _ (k_rem_io _ K3))). cbn [get_stream].
  step (get_ok (fun y : @st W P => c_loc (st_conn y)) x3).
  assert (S4 : exists x4, (if (0 <? Z.of_nat (length (contents (s_io (c_rem (st_conn x3)))))) && has (s_flags (c_loc (st_conn x3))) FLAG_W &&
      bool_decide (is_Some (s_class (c_loc (st_conn x3)))) then write_stream now Rem else mret tt) x3 = Done (tt, x4) /\ conn_ok x4).
  { match goal with |- context [if ?b then write_stream _ _ else _] => destruct b eqn:B end; [|by exists x3]. apply andb_true_iff in B as [B B2]. apply andb_true_iff in B as [B1 _].
    apply bool_decide_eq_true in B2. apply write_rem_ok; [done| |].
    - pose proof (k_loc _ K3) as L. unfold loc_ok in L. destruct B2 as [cl E]. rewrite E in L |- *. now destruct cl.
    - intros E. rewrite E in B1. discriminate. }
  destruct S4 as (x4 & E4 & K4). step E4.
  step (ask_ok Loc io_data_len _ x4 (io_data_len_ok _ (k_loc_io _ K4))). cbn [get_stream].
  step (get_ok (fun y : @st W P => c_rem (st_conn y)) x4).
  assert (S5 : exists x5, (if (0 <? Z.of_nat (length (contents (s_io (c_loc (st_conn x4)))))) &&
      bool_decide (is_Some (s_class (c_rem (st_conn x4)))) then write_stream now Loc else mret tt) x4 = Done (tt, x5) /\ conn_ok x5).
  { match goal with |- context [if ?b then write_stream _ _ else _] => destruct b eqn:B end; [|by exists x4]. apply andb_true_iff in B as [B1 B2].
    apply bool_decide_eq_true in B2. apply write_loc_ok; [done| |].
    - destruct (k_rem _ K4) as [R|[R _]]; rewrite R in B2 |- *; [done|]. destruct B2; discriminate.
    - intros E. rewrite E in B1. discriminate. }
  destruct S5 as (x5 & E5 & K5). step E5. step (get_ok (fun y : @st W P => st_conn y) x5).
  step (ask_ok Loc io_data_len _ x5 (io_data_len_ok _ (k_loc_io _ K5))). cbn [get_stream].
  match goal with |- context [if ?b then connection_desctructor else _] => destruct b eqn:B end; [now apply destructor_ok|].
  exists Stays, x5. split; [done|]. right. split; [done|]. apply orb_false_iff in B as [B _]. apply orb_false_iff in B as [_ B].
  destruct (k_rem _ K5) as [?|[_ ?]]; congruence.
Qed.
End Parse.

(** ** Concrete connections *)
Definition demo_world : Type := list (list ascii).
(** Answers at once and notes what it was given. *)
Definition demo_callback : @callback demo_world unit := fun a w =>
  let text := lit "HTTP/1.1 200 OK" ++ eol ++ eol ++ lit "done" in
  if a_out_len a <? Z.of_nat (length text) then Done (Arg (a_req a) (a_headers_len a) (a_state a) (a_out_len a) [] (a_in a) 0 0, w)
  else Done (Arg (a_req a) (a_headers_len a) (Some tt) (a_out_len a) text (a_in a) (Z.of_nat (length (a_in a))) SHTTPD_END_OF_OUTPUT, w ++ [a_in a]).
Definition demo_ctx : @shttpd_ctx (@callback demo_world unit) :=
  Ctx [Registered (lit "/wsman") demo_callback] [] (lit "/") None (lit "OPENWSMAN").
Definition demo_st (now : Z) (l : list recv_answer) : @st demo_world unit :=
  St (new_conn now) (Net l (fun _ => Takes 65536) 0 [] false) [].
Definition demo_process (fuel : nat) (x : @st demo_world unit) : outcome (fate * @st demo_world unit) :=
  process_connection 6 demo_ctx [] (fun _ => 0) true true fuel true (bool_decide (is_Some (s_class (c_loc (st_conn x))))) x.
Definition seen_by_client (o : outcome (fate * @st demo_world unit)) : outcome (fate * cstring * demo_world) :=
  let* (f, x) := o in Done (f, n_out (st_net x), st_world x).

Lemma demo_good : good demo_callback.
Proof.
  intros a w H. unfold demo_callback. generalize (lit "HTTP/1.1 200 OK" ++ eol ++ eol ++ lit "done"). intros text. cbv zeta.
  destruct (Z.ltb_spec (a_out_len a) (Z.of_nat (length text))); eexists _, _; (split; [reflexivity|]); cbn [a_out a_in_bytes a_in a_req];
    (split; [cbn [length]; lia|split; [lia|done]]).
Qed.
Lemma demo_ctx_good : ctx_good 6 demo_ctx.
Proof.
  constructor; [|repeat constructor; apply demo_good|lia].
  constructor; [|by constructor|done|vm_compute; lia].
  repeat constructor. apply (bool_decide_eq_true_1 _). vm_compute. reflexivity.
Qed.
Lemma new_io_ok : io_ok (Io (repeat NUL (Z.to_nat URI_MAX)) URI_MAX 0 0 0).
Proof.
  constructor; cbn [io_size io_buf io_head io_tail io_total]; rewrite ?repeat_length; split_and?; vm_compute; done.
Qed.
Lemma demo_open now l : open_conn (demo_st now l).
Proof. split; [|done]. constructor; try exact new_io_ok; try done; [by right|by left]. Qed.
Definition demo_post : cstring := lit "POST /wsman HTTP/1.1" ++ eol ++ lit "Content-Length: 2" ++ eol ++ eol ++ lit "AB".
Lemma connection_stays_in_order_witness : exists f x',
  process_pass 6 demo_ctx [] (fun _ => 0) true true true false (demo_st 6 [Arrives demo_post]) = Done (f, x') /\
  (f = Gone \/ open_conn x').
Proof.
  apply (connection_stays_in_order 6 demo_ctx (fun _ => 0) true true demo_ctx_good (demo_st 6 [Arrives demo_post]) true false (demo_open _ _));
    [|left; reflexivity|vm_compute; reflexivity|discriminate].
  intros _. vm_compute head_end. split; [discriminate|]. vm_compute. repeat constructor.
Defined.
Example demo_answer : seen_by_client (demo_process 1 (demo_st 6 [Arrives demo_post])) =
  Done (Gone, lit "HTTP/1.1 200 OK" ++ eol ++ eol ++ lit "done", [lit "AB"]).
Proof. vm_compute. reflexivity. Qed.

(** What happens outside the limits.  A control character in the first request: the length -1
    of its head is taken off the buffer, and an assertion stops the daemon. *)
Example control_character_aborts : demo_process 1 (demo_st 6 [Arrives (chr 1 :: lit "abc")]) = AssertFail.
Proof. vm_compute. reflexivity. Qed.
(** A body longer than announced, to a path that is refused: the next [recv] is given a negative
    length as [size_t] and writes behind the buffer. *)
Definition demo_short : cstring := lit "POST /x HTTP/1.1" ++ eol ++ lit "Content-Length: 1" ++ eol ++ eol ++ lit "AB".
Example body_overrun :
  (let* (_, x) := demo_process 2 (demo_st 6 [Arrives demo_short; Arrives (repeat "A"%char (Z.to_nat URI_MAX))]) in
   demo_process 1 x) = Undef.
Proof. vm_compute. reflexivity. Qed.
(** A refused request that is followed by control characters: the head of length -1 is taken
    off again and again, and the server answers errors without end. *)
Definition demo_endless : cstring := lit "POST /x HTTP/1.1" ++ eol ++ eol ++ [chr 1; chr 1].
Definition demo_pass (remote : bool) (x : @st demo_world unit) := process_pass 6 demo_ctx [] (fun _ => 0) true true remote false x.
Definition run_pass (remote : bool) (x : @st demo_world unit) : @st demo_world unit :=
  match demo_pass remote x with Done (_, x) => x | _ => x end.
Definition endless (k : nat) : @st demo_world unit := Nat.iter k (run_pass false) (run_pass true (demo_st 6 [Arrives demo_endless])).
Definition sent (x : @st demo_world unit) (sends : nat) (out : list ascii) : @st demo_world unit :=
  put_net (Net [] (fun _ => Takes 65536) sends out false) x.
Definition error_400 : cstring := error_text 400 (lit "Bad request").
Lemma endless_pass k : (k < 5)%nat -> forall sends out,
  demo_pass false (sent (endless k) sends out) = Done (More, sent (endless (S k)) (S sends) (out ++ error_400)).
Proof. intros Hk sends out. do 5 (destruct k as [|k]; [vm_compute; reflexivity|]). lia. Qed.
Lemma endless_again sends out : sent (endless 5) sends out = sent (endless 1) sends out.
Proof. vm_compute. reflexivity. Qed.
Lemma endless_first : exists sends out,
  demo_pass true (demo_st 6 [Arrives demo_endless]) = Done (More, sent (endless 0) sends out).
Proof. eexists 1%nat, _. vm_compute. reflexivity. Qed.
Opaque endless.
Lemma endless_loop fuel : forall k sends out, (k < 5)%nat ->
  process_connection 6 demo_ctx [] (fun _ => 0) true true fuel false false (sent (endless k) sends out) = Diverge.
Proof.
  induction fuel as [|fuel IH]; intros k sends out Hk; [done|]. cbn [process_connection].
  rewrite (mbind_eq _ _ _ _ _ (endless_pass k Hk sends out)). cbv iota beta.
  destruct (decide (k = 4%nat)) as [->|]; [rewrite endless_again|]; apply IH; lia.
Qed.
Lemma endless_answers fuel : demo_process fuel (demo_st 6 [Arrives demo_endless]) = Diverge.
Proof.
  destruct fuel as [|fuel]; [done|]. destruct endless_first as (sends & out & E).
  unfold demo_process. cbn [process_connection].
  change (bool_decide (is_Some (s_class (c_loc (st_conn (demo_st 6 [Arrives demo_endless])))))) with false.
  rewrite (mbind_eq _ _ _ _ _ E). apply endless_loop. lia.
Qed.
End HttpSafe.
