(* ===== verification/HttpRequest.v ===== *)
(** * HttpRequest: a well-formed request is understood

    The bytes a client sends for a request, and what the connection makes of them: the
    path, the version, the headers, the length of the body, the handler. *)
From S2P Require Import Prelude CString Base64 HttpText HttpIO HttpAuth HttpConn HttpSafe.
Import Base64 HttpText HttpIO HttpAuth HttpConn HttpSafe.

Module HttpRequest.

(** ** What a client sends *)
Definition request_head (uri : cstring) (fs : list field) : cstring :=
  lit "POST " ++ uri ++ lit " HTTP/1.1" ++ eol ++ flat_map render fs ++ eol.
(** A text of one line that holds nothing the server refuses. *)
Definition plain (s : cstring) : Prop := LF ∉ s /\ Forall (fun c => ctl c = false) s.
Record uri_plain (u : cstring) : Prop := UriPlain {
  up_some : u <> []; up_plain : plain u; up_space : Forall (fun c => isspace c = false) u }.
Definition field_plain (f : field) : Prop := field_ok f /\ plain f.1 /\ plain f.2.

(** ** Where the head ends *)
Lemma head_end_line k l r : plain l -> head_end k (l ++ LF :: r) = head_end (k + length l) (LF :: r).
Proof.
  intros [N F]. revert k. induction l as [|c l IH]; intros k; [now rewrite Nat.add_0_r|].
  apply not_elem_of_cons in N as [Nc N]. apply Forall_cons in F as [Fc F]. specialize (IH N F).
  assert (E : exists d t, l ++ LF :: r = d :: t) by (destruct l; simpl; eauto). destruct E as (d & t & E).
  cbn [app length]. rewrite E, head_end_step, Fc, !(bool_decide_false (c = LF)) by congruence. cbn [andb].
  rewrite <- E, IH. f_equal. lia.
Qed.
(** A line end that is followed by a line that is not empty. *)
Lemma head_end_next k l r : plain l -> l <> [] -> l <> [CR] -> head_end k (LF :: l ++ LF :: r) = head_end (S k) (l ++ LF :: r).
Proof.
  intros [N F] N0 N1. destruct l as [|c l]; [done|]. apply not_elem_of_cons in N as [Nc N].
  cbn [app]. rewrite head_end_step. change (ctl LF) with false. cbv iota.
  rewrite (bool_decide_false (c = LF)) by congruence. rewrite andb_false_r.
  destruct (bool_decide_reflect (c = CR)) as [->|]; [|now rewrite andb_false_r].
  destruct l as [|d l]; [done|]. cbn [app peek]. apply not_elem_of_cons in N as [Nd _].
  rewrite (bool_decide_false (d = LF)) by congruence. now rewrite andb_false_r.
Qed.
Definition line_of (f : field) : cstring := f.1 ++ sep ++ f.2 ++ [CR].
Lemma render_line f : render f = line_of f ++ [LF].
Proof. unfold render, line_of. now rewrite <- !app_assoc. Qed.
Lemma plain_app a b : plain a -> plain b -> plain (a ++ b).
Proof. intros [A1 A2] [B1 B2]. split; [|now apply Forall_app]. rewrite not_elem_of_app. auto. Qed.
Lemma plain_const s : bool_decide (LF ∉ s) && forallb (fun c => negb (ctl c)) s = true -> plain s.
Proof.
  intros [H1 H2]%andb_true_iff. split; [now apply bool_decide_eq_true_1 in H1|].
  apply Forall_forall. intros c Hc. rewrite forallb_forall in H2. apply list_elem_of_In in Hc. specialize (H2 c Hc). now destruct (ctl c).
Qed.
Lemma line_plain f : field_plain f -> plain (line_of f) /\ line_of f <> [] /\ line_of f <> [CR].
Proof.
  intros (_ & P1 & P2). unfold line_of. split; [|split].
  - repeat apply plain_app; try done; now apply plain_const.
  - destruct f.1; done.
  - destruct f.1 as [|c n]; [done|]. intros [= -> E]. destruct n; discriminate.
Qed.
Lemma head_end_fields fs body : Forall field_plain fs -> forall k,
  head_end k (LF :: flat_map render fs ++ [CR; LF] ++ body) = Z.of_nat (k + length (flat_map render fs) + 3).
Proof.
  induction fs as [|f fs IH]; intros F k.
  - cbn [flat_map app length]. rewrite head_end_step. change (ctl LF) with false. cbn [peek].
    change (bool_decide (LF = LF)) with true. change (bool_decide (CR = LF)) with false. change (bool_decide (CR = CR)) with true.
    cbn [andb]. lia.
  - apply Forall_cons in F as [Ff F]. destruct (line_plain f Ff) as (Pl & N0 & N1).
    cbn [flat_map]. rewrite render_line, <- !app_assoc. cbn [app].
    rewrite head_end_next, head_end_line by done. rewrite (IH F). f_equal. rewrite !length_app. simpl. lia.
Qed.
Lemma request_head_end uri fs body : plain uri -> Forall field_plain fs ->
  head_end 0 (request_head uri fs ++ body) = Z.of_nat (length (request_head uri fs)).
Proof.
  intros Pu Ff. unfold request_head.
  assert (E : (lit "POST " ++ uri ++ lit " HTTP/1.1" ++ eol ++ flat_map render fs ++ eol) ++ body =
    (lit "POST " ++ uri ++ lit " HTTP/1.1" ++ [CR]) ++ LF :: flat_map render fs ++ [CR; LF] ++ body)
    by (unfold eol; rewrite <- !app_assoc; done).
  rewrite E, head_end_line, head_end_fields by (done || (repeat apply plain_app; try done; now apply plain_const)).
  f_equal. rewrite !length_app. simpl. lia.
Qed.

(** ** The request line *)
Lemma until_eq stop pre x c post e fuel : Forall (fun a => stop a = false) x -> stop c = true -> (length x < fuel)%nat ->
  Z.of_nat (length pre + length x) <= e ->
  until fuel stop (pre ++ x ++ c :: post) (Z.of_nat (length pre)) e = Done (Z.of_nat (length pre + length x)).
Proof.
  revert pre fuel. induction x as [|a x IH]; intros pre fuel F S Hf He; (destruct fuel as [|fuel]; [simpl in Hf; lia|]);
    cbn [until app length]; rewrite rd_here0; cbn [obind].
  - rewrite S. cbn [negb andb]. do 2 f_equal. lia.
  - apply Forall_cons in F as [-> F]. cbn [negb andb]. destruct (Z.ltb_spec (Z.of_nat (length pre)) e); [|simpl in He; lia].
    specialize (IH (pre ++ [a]) fuel F S). rewrite <- app_assoc, length_app in IH. cbn [app length] in *.
    replace (Z.of_nat (length pre) + 1) with (Z.of_nat (length pre + 1)) by lia. rewrite IH by lia. do 2 f_equal. lia.
Qed.
Lemma while_ok_eq ok pre x c post e fuel : Forall (fun a => ok a = true) x -> ok c = false -> (length x < fuel)%nat ->
  Z.of_nat (length pre + length x) < e ->
  while_ok fuel ok (pre ++ x ++ c :: post) (Z.of_nat (length pre)) e = Done (Z.of_nat (length pre + length x)).
Proof.
  revert pre fuel. induction x as [|a x IH]; intros pre fuel F S Hf He; (destruct fuel as [|fuel]; [simpl in Hf; lia|]);
    cbn [while_ok app length]; (destruct (Z.ltb_spec (Z.of_nat (length pre)) e); [|simpl in He; lia]); rewrite rd_here0; cbn [obind].
  - rewrite S. do 2 f_equal. lia.
  - apply Forall_cons in F as [-> F].
    specialize (IH (pre ++ [a]) fuel F S). rewrite <- app_assoc, length_app in IH. cbn [app length] in *.
    replace (Z.of_nat (length pre) + 1) with (Z.of_nat (length pre + 1)) by lia. rewrite IH by lia. do 2 f_equal. lia.
Qed.
Lemma request_line_eq uri rest m : uri <> [] -> Forall (fun c => isspace c = false) uri ->
  Z.of_nat (length uri) + 6 < m ->
  request_line (lit "POST " ++ uri ++ lit " HTTP/1.1" ++ rest) m =
  Done (5, Z.of_nat (length uri), Z.of_nat (length uri) + 6).
Proof.
  intros N F L. unfold request_line. set (fuel := S (Z.to_nat m)).
  set (mem := lit "POST " ++ uri ++ lit " HTTP/1.1" ++ rest).
  assert (E1 : until fuel is_space_char mem 0 m = Done 4).
  { apply (until_eq is_space_char [] (lit "POST") " "%char (uri ++ lit " HTTP/1.1" ++ rest) m fuel);
      [repeat constructor|done|simpl; lia|simpl; lia]. }
  rewrite E1. cbn [obind]. destruct uri as [|u0 uri']; [done|]. pose proof F as F'. apply Forall_cons in F' as [Fu _].
  assert (Su : is_space_char u0 = false).
  { unfold is_space_char. apply bool_decide_false. intros ->. discriminate. }
  assert (E2 : while_ok fuel is_space_char mem 4 m = Done 5).
  { apply (while_ok_eq is_space_char (lit "POST") [" "%char] u0 (uri' ++ lit " HTTP/1.1" ++ rest) m fuel);
      [repeat constructor|done|simpl in *; lia|simpl in *; lia]. }
  rewrite E2. cbn [obind].
  assert (E3 : while_ok fuel (fun c => negb (isspace c)) mem 5 m = Done (Z.of_nat (5 + length (u0 :: uri')))).
  { apply (while_ok_eq (fun c => negb (isspace c)) (lit "POST ") (u0 :: uri') " "%char (lit "HTTP/1.1" ++ rest) m fuel).
    - apply Forall_impl with (1 := F). now intros c ->.
    - done.
    - lia.
    - change (length (lit "POST ")) with 5%nat. lia. }
  rewrite E3. cbn [obind].
  assert (E4 : while_ok fuel is_space_char mem (Z.of_nat (5 + length (u0 :: uri'))) m = Done (Z.of_nat (6 + length (u0 :: uri')))).
  { pose proof (while_ok_eq is_space_char (lit "POST " ++ u0 :: uri') [" "%char] "H"%char (lit "TTP/1.1" ++ rest) m fuel) as E.
    rewrite <- app_assoc in E. rewrite length_app in E. change (length (lit "POST ")) with 5%nat in E.
    change (length [" "%char]) with 1%nat in E. replace (6 + length (u0 :: uri'))%nat with (5 + length (u0 :: uri') + 1)%nat by lia.
    apply E; [repeat constructor|done|lia|lia]. }
  rewrite E4. cbn [obind]. f_equal. f_equal; [f_equal|]; lia.
Qed.

(** ** The copy of the head *)
(** The request line ends in two terminators where its line end was. *)
Definition request_copy (uri : cstring) (fs : list field) : list ascii :=
  (lit "POST " ++ uri ++ lit " HTTP/1.1" ++ [NUL; NUL]) ++ flat_map render fs ++ [CR; LF] ++ [NUL].
Lemma find_char_eq c a b : c ∉ a -> find_char c (a ++ c :: b) = Some (length a).
Proof. intros N. unfold find_char. now rewrite split_at_first. Qed.
Lemma cut_line_eq a b : cut_line (a ++ [CR; LF] ++ b) (length a + 1) = a ++ [NUL; NUL] ++ b.
Proof.
  unfold cut_line. replace (pred (length a + 1)) with (length a) by lia. cbn [app].
  rewrite lookup_app_r, Nat.sub_diag by lia. cbn [lookup list_lookup]. rewrite bool_decide_true by done.
  destruct (Z.ltb_spec 0 (Z.of_nat (length a + 1))); [|lia]. cbn [andb].
  rewrite insert_app_r_alt, Nat.sub_diag by lia. cbn [insert list_insert].
  rewrite insert_app_r_alt by lia. replace (length a + 1 - length a)%nat with 1%nat by lia. done.
Qed.
Lemma decide_uri {H} (ctx : @shttpd_ctx H) now raw mem auth len a q u m : no_nul raw ->
  decide_what_to_do ctx now (raw ++ [NUL]) mem auth len = Done (a, q, u, m) -> cstr u = Done (request_path raw).
Proof.
  intros N. unfold decide_what_to_do. destruct (clean_uri_spec raw N) as (query & uri & -> & C & _). cbn [obind]. rewrite C. cbn [obind].
  destruct (URI_MAX <=? _); [now intros [= _ _ <- _]|].
  destruct (is_alias _ _); try discriminate. cbn [obind].
  destruct (_shttpd_check_authorization _ _ _ _ _) as [[z m']| | |]; try discriminate. cbn [obind].
  destruct (negb _).
  - destruct (_shttpd_send_authorization_request _ _) as [[? ?]| | |]; try discriminate. now intros [= _ _ <- _].
  - destruct (_shttpd_is_registered_uri _ _) as [[r|]| | |]; try discriminate; now intros [= _ _ <- _].
Qed.

Section Understood.
Context {W P : Type} (now : Z) (ctx : @shttpd_ctx (@callback W P)) (date_to_epoch : cstring -> Z).
Context (Al : opt_aliases ctx = None) (Na : Forall (fun a => no_nul (ua_uri a)) (uri_auths ctx)).
Implicit Types x : @st W P.

(** Where the callback of a request stands when it is first called. *)
Record handed_over (r : registered_uri) (path body : list ascii) (ch : headers) x : Prop := HandedOver {
  ho_class : s_class (c_loc (st_conn x)) = Some C_embedded;
  ho_callback : s_emb (c_loc (st_conn x)) = Some (None, ru_callback r);
  ho_writable : has (s_flags (c_loc (st_conn x))) FLAG_W = true;
  ho_body : contents (s_io (c_rem (st_conn x))) = body;
  ho_length : s_content_len (c_rem (st_conn x)) = big_int_of (ch H_cl);
  ho_headers : rq_ch (c_req (st_conn x)) = ch;
  ho_version : rq_major (c_req (st_conn x)) = 1 /\ rq_minor (c_req (st_conn x)) = 1;
  ho_path : exists uri', rq_uri (c_req (st_conn x)) = Some uri' /\ cstr uri' = Done path;
  ho_parsed : parsed x = true }.

Lemma answer_handler x text raw body r : no_nul raw -> rq_uri (c_req (st_conn x)) = Some (raw ++ [NUL]) ->
  rq_request (c_req (st_conn x)) = Some text -> parsed x = true -> contents (s_io (c_rem (st_conn x))) = body ->
  rq_major (c_req (st_conn x)) = 1 -> rq_minor (c_req (st_conn x)) = 1 ->
  s_content_len (c_rem (st_conn x)) = big_int_of (rq_ch (c_req (st_conn x)) H_cl) ->
  Z.of_nat (length (request_path raw)) + Z.of_nat (length (opt_root ctx)) < URI_MAX ->
  first_match (registered_uris ctx) (request_path raw) r ->
  let '(auth, len) := vec_of (rq_ch (c_req (st_conn x)) H_auth) in let_in ctx (request_path raw) text auth len ->
  exists x', answer_request now ctx [] x = Done (tt, x') /\ handed_over r (request_path raw) body (rq_ch (c_req (st_conn x))) x'.
Proof.
  intros N Eu Er Pa Eb V1 V2 Ec L M. destruct (vec_of (rq_ch (c_req (st_conn x)) H_auth)) as [auth len] eqn:Ev. intros I.
  destruct (proj2 (handler_reached ctx now raw text auth len r N Al Na) (conj L (conj M I))) as (q & u & m & D).
  unfold answer_request. step (get_ok (fun x => c_req (st_conn x)) x). rewrite Eu, Er.
  step (mlift_ok (deref (Some (raw ++ [NUL]))) _ x eq_refl). step (mlift_ok (deref (Some text)) _ x eq_refl). rewrite Ev.
  step (mlift_ok _ _ x D).
  erewrite mbind_eq; [|reflexivity]. cbv beta iota.
  eexists. split; [reflexivity|]. destruct x as [[rq t loc rem] n w]. cbn in *.
  constructor; try done.
  - cbn. rewrite has_set by done. now apply has_set_same.
  - exists u. split; [done|]. eapply decide_uri; eauto.
Qed.

(** The parts of the head, as lengths. *)
Lemma head_parts uri fs : exists line, request_head uri fs = line ++ [CR; LF] ++ flat_map render fs ++ [CR; LF] /\
  line = lit "POST " ++ uri ++ lit " HTTP/1.1" /\ length line = (length uri + 14)%nat /\
  length (request_head uri fs) = (length uri + length (flat_map render fs) + 18)%nat.
Proof.
  exists (lit "POST " ++ uri ++ lit " HTTP/1.1"). unfold request_head, eol. split; [now rewrite <- !app_assoc|]. split; [done|].
  rewrite !length_app. simpl. lia.
Qed.
Lemma version_eq uri fs : let mem := request_copy uri fs in no_nul uri ->
  c_string (drop (Z.to_nat (Z.of_nat (length uri) + 6)) mem) = lit "HTTP/1.1" /\
  take (length uri) (c_string (drop (Z.to_nat 5) mem)) = uri.
Proof.
  intros mem N. unfold mem, request_copy. split.
  - replace ((lit "POST " ++ uri ++ lit " HTTP/1.1" ++ [NUL; NUL]) ++ flat_map render fs ++ [CR; LF] ++ [NUL]) with
      ((lit "POST " ++ uri ++ lit " ") ++ lit "HTTP/1.1" ++ NUL :: NUL :: flat_map render fs ++ [CR; LF] ++ [NUL])
      by (rewrite <- !app_assoc; done).
    rewrite drop_app_length' by (rewrite !length_app; simpl; lia).
    apply c_string_stop. apply (bool_decide_eq_true_1 _). vm_compute. reflexivity.
  - replace ((lit "POST " ++ uri ++ lit " HTTP/1.1" ++ [NUL; NUL]) ++ flat_map render fs ++ [CR; LF] ++ [NUL]) with
      (lit "POST " ++ (uri ++ lit " HTTP/1.1") ++ NUL :: NUL :: flat_map render fs ++ [CR; LF] ++ [NUL])
      by (rewrite <- !app_assoc; done).
    rewrite drop_app_length' by done. rewrite c_string_stop; [apply take_app_length|].
    unfold no_nul. rewrite not_elem_of_app. split; [done|]. apply (bool_decide_eq_true_1 _). vm_compute. reflexivity.
Qed.
(** The two ways the model and the theorem write the copy. *)
Lemma copy_eq uri fs : cut_line (request_head uri fs ++ [NUL]) (length uri + 15) = request_copy uri fs.
Proof.
  destruct (head_parts uri fs) as (line & -> & El & Ll & _). unfold request_copy.
  replace (length uri + 15)%nat with (length line + 1)%nat by lia.
  rewrite <- !app_assoc, (cut_line_eq line), El. rewrite <- !app_assoc. done.
Qed.
Lemma request_lf uri fs m : plain uri -> m = Z.of_nat (length (request_head uri fs)) ->
  find_char LF (take (Z.to_nat m) (request_head uri fs ++ [NUL])) = Some (length uri + 15)%nat.
Proof.
  intros [N _] ->. rewrite Nat2Z.id, take_app_length. destruct (head_parts uri fs) as (line & -> & El & Ll & _).
  cbn [app]. change (line ++ CR :: LF :: flat_map render fs ++ [CR; LF]) with (line ++ [CR] ++ LF :: flat_map render fs ++ [CR; LF]).
  rewrite app_assoc, find_char_eq.
  - f_equal. rewrite length_app. simpl. lia.
  - rewrite El, !not_elem_of_app. split_and!; try done; apply (bool_decide_eq_true_1 _); vm_compute; reflexivity.
Qed.

Lemma parse_request_eq x uri fs body r : conn_ok x -> uri_plain uri -> Forall field_plain fs ->
  rq_request (c_req (st_conn x)) = Some (request_head uri fs ++ [NUL]) -> rq_ch (c_req (st_conn x)) = no_headers ->
  contents (s_io (c_rem (st_conn x))) = body ->
  Z.of_nat (length (request_head uri fs)) <= io_total (s_io (c_rem (st_conn x))) ->
  exists ch, (forall h, match value_of h fs with
      | Some v => holds_value date_to_epoch (request_copy uri fs) h v (ch h) | None => ch h = v_vec 0 0 end) /\
    (Z.of_nat (length (request_path uri)) + Z.of_nat (length (opt_root ctx)) < URI_MAX ->
     first_match (registered_uris ctx) (request_path uri) r ->
     let '(auth, len) := vec_of (ch H_auth) in let_in ctx (request_path uri) (request_copy uri fs) auth len ->
     exists x', parse_request now ctx [] date_to_epoch true (Z.of_nat (length (request_head uri fs))) x = Done (tt, x') /\
       handed_over r (request_path uri) body ch x').
Proof.
  intros K [Un Up Us] Ff Er Ch Eb T.
  assert (Nu : no_nul uri) by (destruct Up as [_ F]; now apply ctl_no_nul).
  destruct (head_parts uri fs) as (line & Eh & El & Ll & Lh).
  set (m := Z.of_nat (length (request_head uri fs))) in *.
  destruct (parse_headers_ok date_to_epoch (lit "POST " ++ uri ++ lit " HTTP/1.1" ++ [NUL; NUL]) fs [NUL] no_headers) as (ch & Ec & Hc).
  { apply Forall_impl with (1 := Ff). now intros f [? _]. }
  fold (request_copy uri fs) in Ec, Hc.
  replace (Z.of_nat (length (lit "POST " ++ uri ++ lit " HTTP/1.1" ++ [NUL; NUL]))) with (Z.of_nat (length uri + 15) + 1) in Ec
    by (rewrite !length_app; simpl; lia).
  replace (Z.of_nat (length (flat_map render fs)) + 2) with (m - (Z.of_nat (length uri + 15) + 1)) in Ec by (unfold m; rewrite Lh; lia).
  exists ch. split; [exact Hc|]. intros Lp M. destruct (vec_of (ch H_auth)) as [auth len] eqn:Ev. intros I.
  unfold parse_request. erewrite mbind_eq; [|reflexivity]. cbv beta.
  set (x1 := put_stream Rem _ x). step (get_ok (fun x => c_req (st_conn x)) x1).
  change (c_req (st_conn x1)) with (c_req (st_conn x)). rewrite Er. step (mlift_ok (deref (Some (request_head uri fs ++ [NUL]))) _ x1 eq_refl).
  rewrite (request_lf uri fs m Up eq_refl). step (mlift_ok (Done (length uri + 15)%nat) _ x1 eq_refl).
  fold (cut_line (request_head uri fs ++ [NUL]) (length uri + 15)). rewrite copy_eq.
  assert (Rl : request_line (request_copy uri fs) m = Done (5, Z.of_nat (length uri), Z.of_nat (length uri) + 6)).
  { unfold request_copy. rewrite <- !app_assoc. apply request_line_eq; [done|done|unfold m; lia]. }
  step (mlift_ok _ _ x1 Rl). destruct (version_eq uri fs Nu) as [Ve Ue]. rewrite Ve.
  change (scan_version (lit "HTTP/1.1") (rq_major (c_req (st_conn x))) (rq_minor (c_req (st_conn x)))) with (2, 1, 1, @nil ascii).
  cbv beta iota. erewrite mbind_eq; [|reflexivity]. cbv beta iota.
  change (negb (2 =? 2) || negb (bool_decide ([] = []))) with false. cbv iota.
  change ((1 <? 1) || ((1 =? 1) && (1 <? 1))) with false. cbv iota.
  destruct (Z.leb_spec (Z.of_nat (length uri)) 0) as [L0|_]; [destruct uri; [done|simpl in L0; lia]|]. cbn [negb].
  rewrite strlcpy_take, Nat2Z.id, Ue by lia. set (x2 := put_req _ x1).
  rewrite Ch. step (mlift_ok _ _ x2 Ec).
  erewrite mbind_eq; [|reflexivity]. cbv beta. set (x3 := put_req _ x2).
  step (get_ok (fun x => io_total (s_io (c_rem (st_conn x)))) x3).
  step (massert_true _ x3 (proj2 (Z.leb_le m (io_total (s_io (c_rem (st_conn x3))))) T)).
  erewrite mbind_eq; [|reflexivity]. cbv beta. erewrite mbind_eq; [|reflexivity]. cbv beta.
  set (x5 := put_stream Rem _ _).
  pose proof (answer_handler x5 (request_copy uri fs) uri body r Nu eq_refl eq_refl) as A.
  change (rq_ch (c_req (st_conn x5))) with ch in A. rewrite Ev in A. apply A; try done.
  now apply has_set_same.
Qed.
Lemma head_no_nul uri fs : plain uri -> Forall field_plain fs -> no_nul (request_head uri fs).
Proof.
  intros [_ Fu] Ff. apply ctl_no_nul. unfold request_head. repeat (apply Forall_app; split); try done; try (repeat constructor).
  induction Ff as [|f fs Pf Ff IH]; [constructor|]. cbn [flat_map]. apply Forall_app. split; [|done].
  rewrite render_line. apply Forall_app. split; [apply (line_plain f Pf)|repeat constructor].
Qed.
(** The head is copied and taken off the buffer. *)
Lemma head_copied x uri fs body : conn_ok x -> parsed x = false -> plain uri -> Forall field_plain fs ->
  has (s_flags (c_loc (st_conn x))) FLAG_CLOSED = false ->
  io_tail (s_io (c_rem (st_conn x))) = 0 -> contents (s_io (c_rem (st_conn x))) = request_head uri fs ++ body ->
  exists x', parse_http_request now ctx [] date_to_epoch true true x =
      parse_request now ctx [] date_to_epoch true (Z.of_nat (length (request_head uri fs))) x' /\ conn_ok x' /\
    rq_request (c_req (st_conn x')) = Some (request_head uri fs ++ [NUL]) /\ rq_ch (c_req (st_conn x')) = no_headers /\
    contents (s_io (c_rem (st_conn x'))) = body /\
    Z.of_nat (length (request_head uri fs)) <= io_total (s_io (c_rem (st_conn x'))).
Proof.
  intros K Pf Pu Ff Op T0 Eb. pose proof K as [KL KR KQ KC KReq KLoc KRem KIdle]. destruct (KIdle Pf) as [N Ch].
  set (h := request_head uri fs) in *. pose proof (head_no_nul uri fs Pu Ff) as Nh. fold h in Nh.
  assert (Lh : (18 <= length h)%nat) by (destruct (head_parts uri fs) as (line & _ & _ & _ & L); fold h in L; lia).
  destruct (queue_front _ KR) as (rest & Eq). rewrite Eb, <- app_assoc in Eq.
  assert (Fm : find_method _shttpd_known_http_methods (io_buf (s_io (c_rem (st_conn x)))) 0 = Some 0).
  { rewrite T0 in Eq. change (drop (Z.to_nat 0) ?l) with l in Eq. rewrite Eq. reflexivity. }
  unfold parse_http_request. step (ask_ok Rem io_data _ x (io_data_ok _ KR)). step (ask_ok Rem io_data_len _ x (io_data_len_ok _ KR)).
  cbn [get_stream]. step (get_ok (fun y : st => drop (Z.to_nat (io_tail (s_io (c_rem (st_conn x))))) (io_buf (s_io (c_rem (st_conn y))))) x).
  rewrite Eq, Eb, (app_assoc h body rest), headers_len_eq. rewrite (request_head_end uri fs body Pu Ff : head_end 0 (h ++ body) = Z.of_nat (length h)).
  step (mlift_ok (Done (Z.of_nat (length h))) _ x eq_refl).
  set (x1 := put_stream Rem (with_lens (Z.of_nat (length h)) (s_content_len (c_rem (st_conn x))) (c_rem (st_conn x))) x).
  step (eq_refl : upd Rem (fun s => with_lens (Z.of_nat (length h)) (s_content_len s) s) x = Done (tt, x1)).
  destruct (Z.eqb_spec (Z.of_nat (length h)) 0); [lia|]. step (ret_ok tt x1). destruct (Z.ltb_spec (Z.of_nat (length h)) 16); [lia|].
  assert (K1 : conn_ok x1) by (now apply rem_changed).
  rewrite <- app_assoc, strndup_head by done.
  set (x2 := put_req (set_ch_uri (Request (rq_status (c_req (st_conn x))) 0 (rq_uri (c_req (st_conn x))) (rq_major (c_req (st_conn x)))
      (rq_minor (c_req (st_conn x))) (rq_request (c_req (st_conn x))) (rq_headers (c_req (st_conn x))) (rq_query (c_req (st_conn x)))
      (rq_ch (c_req (st_conn x)))) (rq_uri (c_req (st_conn x))) (Some (h ++ [NUL])) (rq_query (c_req (st_conn x))) (rq_ch (c_req (st_conn x)))) x1).
  assert (K2 : conn_ok x2) by (apply req_changed; [done|left; by eexists|by intros _]).
  erewrite mbind_eq with (x := tt) (h1 := x2).
  2: { unfold set_request_method. erewrite mbind_eq with (x := false).
       2: { erewrite mbind_eq; [|apply get_ok]. cbv beta.
            change (io_buf (s_io (c_rem (st_conn x1)))) with (io_buf (s_io (c_rem (st_conn x)))). rewrite Fm. reflexivity. }
       reflexivity. }
  destruct (io_inc_tail_ok _ (Z.of_nat (length h)) KR) as (i & Ei & Ki & Ci & Ti & _); [rewrite Eb, length_app; lia|].
  rewrite Eb, Nat2Z.id, drop_app_length in Ci. rewrite Eb, length_app in KQ.
  assert (Ei' : io_inc_tail (s_io (get_stream Rem x2)) (u64 (Z.of_nat (length h))) = Done i).
  { pose proof (contents_length _ KR) as Lc. rewrite Eb, length_app in Lc.
    cbn [get_stream]. rewrite u64_small; [exact Ei|]. destruct KR. lia. }
  step (upd_io_ok Rem (fun i => io_inc_tail i (u64 (Z.of_nat (length h)))) i x2 Ei').
  set (x3 := put_stream Rem _ x2). step (get_ok (fun x => s_flags (c_loc (st_conn x))) x3).
  change (s_flags (c_loc (st_conn x3))) with (s_flags (c_loc (st_conn x))). rewrite Op.
  exists x3. split; [done|]. split; [|split; [done|split; [exact Ch|split; [exact Ci|change (Z.of_nat (length h) <= io_total i); lia]]]].
  apply rem_changed; try done; simpl; rewrite Ci, Ti; lia.
Qed.

(** C18. A well-formed request is understood: when the buffer of a connection holds a request line
    for a path, headers and (a part of) a body, and nothing else, parsing it splits off
    exactly the body, reads every known header that was sent from the last field of its name, takes the
    length of the body from Content-Length, and hands the connection to the handler
    that is registered for the cleaned path, provided the caller is let in. *)
Theorem request_understood x uri fs body r : conn_ok x -> parsed x = false ->
  has (s_flags (c_loc (st_conn x))) FLAG_CLOSED = false ->
  uri_plain uri -> Forall field_plain fs ->
  io_tail (s_io (c_rem (st_conn x))) = 0 -> contents (s_io (c_rem (st_conn x))) = request_head uri fs ++ body ->
  Z.of_nat (length (request_path uri)) + Z.of_nat (length (opt_root ctx)) < URI_MAX ->
  first_match (registered_uris ctx) (request_path uri) r ->
  exists ch, (forall h, match value_of h fs with
      | Some v => holds_value date_to_epoch (request_copy uri fs) h v (ch h) | None => ch h = v_vec 0 0 end) /\
    (let_in ctx (request_path uri) (request_copy uri fs) (vec_of (ch H_auth)).1 (vec_of (ch H_auth)).2 ->
     exists x', parse_http_request now ctx [] date_to_epoch true true x = Done (tt, x') /\
       handed_over r (request_path uri) body ch x').
Proof.
  intros K Pf Op Pu Ff T0 Eb L M.
  destruct (head_copied x uri fs body K Pf (up_plain _ Pu) Ff Op T0 Eb) as (x' & -> & K' & Er & Ch & Ec & Ht).
  destruct (parse_request_eq x' uri fs body r K' Pu Ff Er Ch Ec Ht) as (ch & Hc & H).
  exists ch. split; [exact Hc|]. specialize (H L M). now destruct (vec_of (ch H_auth)).
Qed.
End Understood.

(** A request that has just arrived. *)
Definition demo_fields : list field := [(lit "Content-Length", lit "2")].
Definition demo_arrived : @st demo_world unit :=
  put_stream Rem (with_io (Io (demo_post ++ repeat NUL (Z.to_nat URI_MAX - length demo_post)) URI_MAX
    (Z.of_nat (length demo_post)) 0 (Z.of_nat (length demo_post))) (c_rem (new_conn 6))) (demo_st 6 []).
Lemma demo_arrived_ok : conn_ok demo_arrived.
Proof.
  constructor; try exact new_io_ok; try done; try (by right); try (by left).
Qed.
Lemma request_understood_witness : exists ch x',
  parse_http_request 6 demo_ctx [] (fun _ => 0) true true demo_arrived = Done (tt, x') /\
  handed_over (Registered (lit "/wsman") demo_callback) (lit "/wsman") (lit "AB") ch x'.
Proof.
  destruct (request_understood 6 demo_ctx (fun _ => 0) eq_refl (Forall_nil_2 _) demo_arrived (lit "/wsman") demo_fields (lit "AB")
    (Registered (lit "/wsman") demo_callback)) as (ch & _ & H).
  - apply demo_arrived_ok.
  - reflexivity.
  - reflexivity.
  - constructor; [done|now apply plain_const|repeat constructor].
  - constructor; [|constructor]. split; [|split; now apply plain_const].
    repeat split; try done; try (apply (bool_decide_eq_true_1 _); vm_compute; reflexivity); repeat constructor.
  - reflexivity.
  - vm_compute. reflexivity.
  - vm_compute. reflexivity.
  - exists [], []. split; [reflexivity|]. split; [|constructor]. apply (proj1 (match_regexp_means _ _)). reflexivity.
  - exists ch. apply H. exact I.
Defined.
End HttpRequest.
