(* ===== verification/Listener.v ===== *)
(** * Listener: the callback that answers the requests of the daemon (server/wsmand-listener.c)

    The HTTP server calls [server_callback] again and again: while the body of a request arrives, the pieces
    are collected; when it is complete, the request goes to the dispatcher of the SOAP server or to the
    handler of CIM indications, and the head of the answer is printed; then the document is handed out, as
    much in each call as there is room for.  Between the calls the state of the exchange is in a
    structure that the callback allocates and frees. *)
From stdpp Require Import pretty.
From S2P Require Import Prelude CString Base64 HttpText HttpIO HttpAuth Xml HttpConn.
From S2P Require Import Names.
From S2P Require Import HttpRequest.
From S2P Require Buf Faults Envelope Dispatcher Subscribe CimIndication.
Import Names Base64 HttpText HttpIO HttpAuth Xml HttpConn HttpRequest.

Module Listener.

(* src: src/CIM_Framework/openwsman/include/wsman-names.h 81 SOAP_CONTENT_TYPE *)
Definition SOAP_CONTENT_TYPE : cstring := lit "application/soap+xml".
(* src: server/wsmand-daemon.h 41-42 ANON_IDENTIFY_PATH *)
Definition ANON_IDENTIFY_PATH : cstring := lit "/wsman-anon/identify".
Definition DEFAULT_CIMINDICATION_PATH : cstring := lit "/cimindicationlistener".

(** [%d]. *)
Definition decimal (z : Z) : cstring := lit (pretty z).
(** A C string in a block of memory. *)
Definition read_string (mem : list ascii) (p : Z) : outcome cstring :=
  let s := drop (Z.to_nat p) mem in if (p <? 0) || negb (bool_decide (NUL ∈ s)) then Undef else Done (c_string s).

(** ** What the callbacks use of the HTTP server (io_emb.c, adapter.c) *)
Section Arg.
Context {P : Type}.
Local Abbreviation arg := (@shttpd_arg P).
Definition with_req (r : request) (a : arg) : arg := Arg r (a_headers_len a) (a_state a) (a_out_len a) (a_out a) (a_in a) (a_in_bytes a) (a_flags a).
Definition with_state (p : option P) (a : arg) : arg := Arg (a_req a) (a_headers_len a) p (a_out_len a) (a_out a) (a_in a) (a_in_bytes a) (a_flags a).
Definition with_output (o : list ascii) (a : arg) : arg := Arg (a_req a) (a_headers_len a) (a_state a) (a_out_len a) (a_out a ++ o) (a_in a) (a_in_bytes a) (a_flags a).
Definition with_in_bytes (n : Z) (a : arg) : arg := Arg (a_req a) (a_headers_len a) (a_state a) (a_out_len a) (a_out a) (a_in a) n (a_flags a).
Definition end_of_output (a : arg) : arg :=
  Arg (a_req a) (a_headers_len a) (a_state a) (a_out_len a) (a_out a) (a_in a) (a_in_bytes a) (set_flag (a_flags a) SHTTPD_END_OF_OUTPUT).
(** The room that is left for output. *)
Definition room (a : arg) : Z := a_out_len a - Z.of_nat (length (a_out a)).

(** [text]: what the format makes.  A text that does not fit is cut, and its terminator is counted. *)
(* src: server/shttpd/io_emb.c 93-111 shttpd_printf *)
Definition shttpd_printf (text : cstring) (a : arg) : arg :=
  if 0 <? room a
  then with_output (if Z.of_nat (length text) <? room a then text else take (Z.to_nat (room a - 1)) text ++ [NUL]) a
  else a.

(** The loop over the lines from [p]: each line is terminated in place before it is looked at. *)
(* src: server/shttpd/io_emb.c 124-131 shttpd_get_header *)
Fixpoint header_loop (fuel : nat) (name : cstring) (mem : list ascii) (p e : Z) : outcome (option Z * list ascii) :=
  match fuel with
  | O => Diverge
  | S fuel =>
      if negb (p <? e) then Done (None, mem) else
      let* s := read_string mem p in
      let* mem := match find_char LF s with
                  | None => Done mem
                  | Some i => let s := p + Z.of_nat i in
                              let* prev := rd mem (s - 1) in
                              wr mem (if bool_decide (prev = CR) then s - 1 else s) NUL
                  end in
      let* s := read_string mem p in
      let len := Z.of_nat (length name) in
      if _shttpd_strncasecmp name s len =? 0 then Done (Some (p + len + 2), mem)
      else header_loop fuel name mem (p + Z.of_nat (length s) + 1) e
  end.
(** The place of the value: behind the name, a colon and a space. *)
(* src: server/shttpd/io_emb.c 113-134 shttpd_get_header *)
Definition shttpd_get_header (a : arg) (header_name : cstring) : outcome (option Z * arg) :=
  let r := a_req a in
  let* mem := deref (rq_request r) in
  let* (p, mem) := header_loop (S (Z.to_nat (a_headers_len a))) header_name mem (rq_headers r) (a_headers_len a) in
  Done (p, with_req (set_ch_uri r (rq_uri r) (Some mem) (rq_query r) (rq_ch r)) a).
(** The value itself, when there is such a header. *)
Definition get_header (a : arg) (name : cstring) : outcome (option cstring * arg) :=
  let* (p, a) := shttpd_get_header a name in
  match p with
  | None => Done (None, a)
  | Some p => let* mem := deref (rq_request (a_req a)) in let* v := read_string mem p in Done (Some v, a)
  end.
(** [remote_addr]: the text of the address of the client. *)
(* src: server/shttpd/io_emb.c 136-159 shttpd_get_env *)
Definition shttpd_get_env (remote_addr : cstring) (a : arg) (env_name : cstring) : outcome (option cstring * arg) :=
  let r := a_req a in
  if streq env_name (lit "REQUEST_METHOD") then let* m := rd _shttpd_known_http_methods (rq_method r) in Done (Some m, a)
  else if streq env_name (lit "REQUEST_URI") then
    match rq_uri r with None => Done (None, a) | Some u => let* u := read_string u 0 in Done (Some u, a) end
  else if streq env_name (lit "QUERY_STRING") then
    match rq_query r with
    | None => Done (None, a)
    | Some q => let* u := deref (rq_uri r) in let* q := read_string u (Z.of_nat q) in Done (Some q, a)
    end
  else if streq env_name (lit "REMOTE_USER") then
    let '(ptr, len) := vec_of (rq_ch r H_user) in
    if 0 <? len then
      let* mem := deref (rq_request r) in
      let* mem := wr mem (ptr + len) NUL in
      let* user := read_string mem ptr in
      Done (Some user, with_req (set_ch_uri r (rq_uri r) (Some mem) (rq_query r) (rq_ch r)) a)
    else Done (None, a)
  else if streq env_name (lit "REMOTE_ADDR") then Done (Some remote_addr, a)
  else Done (None, a).
(** The credentials, and the arguments with the end of the token marked in the request.  The text is taken apart as
    it is where the authorization is checked. *)
(* src: server/shttpd/adapter.c 8-58 shttpd_get_credentials *)
Definition shttpd_get_credentials (a : arg) : outcome (option (cstring * cstring) * arg) :=
  let r := a_req a in
  let '(ptr, len) := vec_of (rq_ch r H_auth) in
  if 10 <? len then
    let* mem := deref (rq_request r) in
    if strncasecmp (drop (Z.to_nat ptr) mem) (lit "Basic ") 6 =? 0 then
      let* (c, mem) := basic_credentials mem ptr in
      Done (c, with_req (set_ch_uri r (rq_uri r) (Some mem) (rq_query r) (rq_ch r)) a)
    else Done (None, a)
  else Done (None, a).

(** The listener has this, and prints NULL in its place. *)
(* src: server/shttpd/adapter.c 60-84 shttpd_reason_phrase *)
Definition shttpd_reason_phrase (code : Z) : option cstring :=
  snd <$> List.find (fun row => row.1 =? code) [(200, lit "OK"); (400, lit "Bad request"); (401, lit "Unauthorized"); (403, lit "Forbidden");
    (404, lit "Not found"); (500, lit "Internal Error"); (501, lit "Not implemented"); (415, lit "Unsupported Media Type")].

(** ** Looking at the headers *)
(* src: server/wsmand-listener.c 109-122 check_request_content_type *)
Definition check_request_content_type (a : arg) : outcome (Z * arg) :=
  let* (content_type, a) := get_header a (lit "Content-Type") in
  Done (match content_type with
        | Some t => if starts_with SOAP_CONTENT_TYPE t then 200 else 415
        | None => 200
        end, a).
(** The encoding is a place in the request, or, without one, the text [UTF-8]. *)
(* src: server/wsmand-listener.c 124-139 get_request_encoding *)
Definition get_request_encoding (a : arg) : outcome (option Z * arg) :=
  let* (p, a) := shttpd_get_header a (lit "Content-Type") in
  match p with
  | None => Done (None, a)
  | Some p =>
      let* mem := deref (rq_request (a_req a)) in
      let* t := read_string mem p in
      Done (match strstr t (lit "charset") with
            | None => None
            | Some s => Some (p + Z.of_nat (length t - length s) + Z.of_nat (length (lit "charset")) + 1)
            end, a)
  end.
Definition encoding_text (encoding : option Z) (a : arg) : outcome cstring :=
  match encoding with
  | None => Done (lit "UTF-8")
  | Some p => let* mem := deref (rq_request (a_req a)) in read_string mem p
  end.
End Arg.

(** ** The state of an exchange *)
(* src: server/wsmand-listener.c 152-160 server_callback *)
Record state := State { cl : Z; nread : Z; st_request : list ascii; st_response : option (list ascii); index : Z; type : Z }.
(** What [arg->state] points at: a state, or one that was freed. *)
Inductive state_ptr := Live (st : state) | Freed.
Definition length_of (st : state) : Z := Z.of_nat (length (default [] (st_response st))).
Definition with_response (r : option (list ascii)) (t : Z) (st : state) : state := State (cl st) (nread st) (st_request st) r 0 t.
Definition with_index (i : Z) (st : state) : state := State (cl st) (nread st) (st_request st) (st_response st) i (type st).

(** What the listener asks of the SOAP server, whose store is [W]: the two handlers, with the request as it was parsed. *)
Class Soap (W : Type) := {
  dispatch_inbound_call (credentials : option (cstring * cstring)) (request : option xml) (msg : Dispatcher.Dispatcher.message) :
    CM W Dispatcher.Dispatcher.message;
  CIM_Indication_call (uuid : option cstring) (request : option xml) (msg : CimIndication.CimIndication.CimxmlMessage) :
    CM W CimIndication.CimIndication.CimxmlMessage }.
(** The new message of a request. *)
(* src: lib/wsman-soap-message.c 63-77 wsman_soap_message_new *)
Definition wsman_soap_message_new : Dispatcher.Dispatcher.message := Dispatcher.Dispatcher.Msg Faults.Faults.wsman_status_init 0 0 None.

Section Listener.
Context {W : Type} `{!Soap W}.
(** [parse]: ws_xml_read_memory, with the encoding; [dump]: ws_xml_dump_memory_enc; [server]: PACKAGE_NAME/PACKAGE_VERSION; the files
    of the options, and what is read of a file. *)
Context (parse : cstring -> list ascii -> option xml) (dump : xml -> list ascii) (server remote_addr : cstring).
Context (identify_file anon_identify_file : option cstring) (file : cstring -> Buf.Buf.file_answer).
Local Abbreviation arg := (@shttpd_arg state_ptr).
Local Abbreviation callback := (@callback W state_ptr).

(** A file whose bytes are loaded: one that exists and is not empty. *)
Definition load (name : option cstring) : option (list ascii) :=
  match name with
  | None => None
  | Some name => match file name with Buf.Buf.File [] => None | Buf.Buf.File bs => Some bs | _ => None end
  end.

(** The document goes out, as much as there is room for; the call in which room is left over frees the state. *)
(* src: server/wsmand-listener.c 389-411 server_callback *)
Definition deliver (st : state) (a : arg) : arg :=
  let response := default [] (st_response st) in
  let k := room a in
  let rest := drop (Z.to_nat (index st)) response in
  if k <=? length_of st - index st
  then with_state (Some (Live (with_index (index st + k) st))) (with_output (take (Z.to_nat k) rest) a)
  else end_of_output (with_state (Some Freed) (with_output rest a)).
(** The head of the answer. *)
(* src: server/wsmand-listener.c 342-386 server_callback *)
Definition print_head (status : Z) (encoding : cstring) (st : state) (a : arg) : arg :=
  let a := shttpd_printf (lit "HTTP/1.1 " ++ decimal status ++ lit " " ++ printf_s None ++ eol) a in
  let a := shttpd_printf (lit "Server: " ++ server ++ eol) a in
  let a := if type st =? 1
    then shttpd_printf (lit "CIMExport: MethodResponse" ++ eol) (shttpd_printf (lit "Content-Type: application/xml; charset=" ++ quote ++ lit "utf-8" ++ quote ++ eol) a)
    else shttpd_printf (lit "Content-Type: application/soap+xml;charset=" ++ encoding ++ eol) a in
  let a := shttpd_printf (lit "Content-Length: " ++ decimal (s32 (length_of st)) ++ eol) a in
  let a := shttpd_printf (lit "Connection: Close" ++ eol) a in
  shttpd_printf eol a.
(* src: server/wsmand-listener.c 342-411 server_callback *)
Definition answer (status : Z) (encoding : option Z) (st : state) (a : arg) : CM W arg :=
  e ← mlift (encoding_text encoding a);
  mret (deliver st (print_head status e st a)).

(** A complete request for the SOAP server: the status of the answer and its document. *)
(* src: server/wsmand-listener.c 219-268 server_callback *)
Definition dispatch (encoding : cstring) (body : list ascii) (credentials : option (cstring * cstring)) : CM W (Z * option (list ascii)) :=
  let parsed := parse encoding body in
  match if bool_decide (is_Some identify_file) && (Envelope.Envelope.wsman_check_identify parsed =? 1) then load identify_file else None with
  | Some bytes => mret (200, Some bytes)
  | None =>
      msg ← dispatch_inbound_call credentials parsed wsman_soap_message_new;
      mret (Dispatcher.Dispatcher.http_code msg, dump <$> Dispatcher.Dispatcher.response msg)
  end.
(* src: server/wsmand-listener.c 205-270 server_callback *)
Definition wsman_request (st : state) (a : arg) : CM W arg :=
  '(status, a) ← mlift (check_request_content_type a);
  if negb (status =? 200) then answer status None st a else
  '(enc, a) ← mlift (get_request_encoding a);
  charset ← mlift (encoding_text enc a);
  '(credentials, a) ← mlift (shttpd_get_credentials a);
  '(status, response) ← dispatch charset (st_request st) credentials;
  answer status enc (with_response response 0 st) a.

(** The number of a status of CIM-XML. *)
Definition cim_code (c : CimIndication.CimIndication.CIMXMLKnownStatusCode) : Z :=
  match c with
  | CimIndication.CimIndication.CIMXML_STATUS_OK => 0
  | CimIndication.CimIndication.CIMXML_STATUS_UNSUPPORTED_PROTOCOL_VERSIOIN => 1
  | CimIndication.CimIndication.CIMXML_STATUS_MULTIPLE_REQUESTS_UNSUPPORTED => 2
  | CimIndication.CimIndication.CIMXML_STATUS_UNSUPPORTED_CIM_VERSION => 3
  | CimIndication.CimIndication.CIMXML_STATUS_UNSUPPORTED_DTD_VERSION => 4
  | CimIndication.CimIndication.CIMXML_STATUS_REQUEST_NOT_VALID => 5
  | CimIndication.CimIndication.CIMXML_STATUS_REQUEST_NOT_WELL_FORMED => 6
  | CimIndication.CimIndication.CIMXML_STATUS_REQUEST_NOT_LOOSELY_VALID => 7
  | CimIndication.CimIndication.CIMXML_STATUS_HEADER_MISMATCH => 8
  | CimIndication.CimIndication.CIMXML_STATUS_UNSUPPORTED_OPERATION => 9
  end.
(** An error is answered with two lines, and what should end the head of the answer is left out. *)
(* src: server/wsmand-listener.c 272-318 server_callback *)
Definition cim_request (uri : cstring) (st : state) (a : arg) : CM W arg :=
  let uuid := after_last "/"%char uri in
  '(enc, a) ← mlift (get_request_encoding a);
  charset ← mlift (encoding_text enc a);
  '(cimexport, a) ← mlift (shttpd_get_header a (lit "CIMExport"));
  '(cimexportmethod, a) ← mlift (shttpd_get_header a (lit "CIMExportMethod"));
  match cimexport, cimexportmethod with
  | Some p, Some q =>
      (* the values are compared, and nothing follows from it *)
      _ ← mlift (let* mem := deref (rq_request (a_req a)) in let* _ := read_string mem p in read_string mem q);
      msg ← CIM_Indication_call uuid (parse charset (st_request st)) CimIndication.CimIndication.cimxml_message_new;
      let status := CimIndication.CimIndication.cm_http_code msg in
      match CimIndication.CimIndication.cm_fault_msg msg with
      | Some error =>
          let a := shttpd_printf (lit "HTTP/1.1 " ++ decimal status ++ lit " " ++ printf_s None ++ eol) a in
          let a := shttpd_printf (lit "CIMError:" ++ decimal (cim_code (CimIndication.CimIndication.cm_code msg)) ++ lit ":" ++ error ++ eol) a in
          mret (deliver st a)
      | None => answer status enc (with_response (dump <$> CimIndication.CimIndication.cm_response msg) 1 st) a
      end
  | _, _ => answer 403 enc st a
  end.
Definition not_found (a : arg) : arg := end_of_output (shttpd_printf (lit "HTTP/1.0 404 Not foundn" ++ [LF]) a).
(* src: server/wsmand-listener.c 204-340 server_callback *)
Definition complete_request (st : state) (a : arg) : CM W arg :=
  '(uri, a) ← mlift (shttpd_get_env remote_addr a (lit "REQUEST_URI"));
  uri ← mlift (deref uri);
  if streq uri (lit "/wsman") then wsman_request st a
  else if strncmp uri DEFAULT_CIMINDICATION_PATH (length DEFAULT_CIMINDICATION_PATH) =? 0 then cim_request uri st a
  else if streq uri ANON_IDENTIFY_PATH then
    match load anon_identify_file with
    | Some bytes => answer 200 None (with_response (Some bytes) (type st) st) a
    | None => mret (not_found a)
    end
  else mret (not_found a).

(** A piece of the body is put to the others. *)
(* src: server/wsmand-listener.c 183-189 server_callback *)
Definition take_in (st : state) (a : arg) : state * arg :=
  let request := if 0 <? nread st then st_request st ++ a_in a else match a_in a with [] => st_request st | bs => bs end in
  let len := Z.of_nat (length (a_in a)) in
  (State (cl st) (u64 (nread st + len)) request (st_response st) (index st) (type st), with_in_bytes len a).
(* src: server/wsmand-listener.c 141-411 server_callback *)
Definition server_callback : callback := fun a =>
  match has (a_flags a) SHTTPD_CONNECTION_ERROR, a_state a with
  | true, Some (Live _) => mret (with_state (Some Freed) a)
  | true, Some Freed => mundef
  | _, _ =>
      '(s, a) ← mlift (get_header a (lit "Content-Length"));
      match s with
      | None => mret (end_of_output (shttpd_printf (lit "HTTP/1.0 411 Length Required" ++ [LF; LF]) a))
      | Some s =>
          st ← mlift (match a_state a with
                      | None => Done (State (strtoul s) 0 [] None 0 0)
                      | Some (Live st) => Done st
                      | Some Freed => Undef
                      end);
          match st_response st with
          | Some _ => mret (deliver st a)
          | None =>
              let '(st, a) := take_in st a in
              if nread st <? cl st then mret (with_state (Some (Live st)) a)
              else complete_request st (with_state (Some (Live st)) a)
          end
      end
  end.
End Listener.
End Listener.
