(* ===== verification/ListenerServe.v ===== *)
(** * ListenerServe: a request to the daemon is answered once and completely (theorems on Listener.v)

    First what a look for a header finds, as long as the lines of the head are terminated in some way; then the
    calls of the callback for one request, put together to the whole exchange; then the exchange with the
    real dispatcher behind it. *)
From S2P Require Import Prelude CString Base64 HttpText HttpIO HttpAuth Xml HttpConn.
From S2P Require Import Names.
From S2P Require Import HttpRequest Listener.
From S2P Require Buf Faults Envelope Dispatcher Subscribe CimIndication.
Import Names Base64 HttpText HttpIO HttpAuth Xml HttpConn HttpRequest Listener.

Module ListenerServe.

(** ** What a look for a header finds *)
(** The lines of the head, however they are terminated by now: by a line feed, with or without a carriage return, or by the NUL
    that was put in its place. *)
Definition strip (t : cstring) : cstring := match last t with Some c => if bool_decide (c = CR) then removelast t else t | None => t end.
Definition add_line (t : cstring) (l : list cstring) : list cstring := match t with [] => l | _ => t :: l end.
Fixpoint visible (acc m : cstring) : list cstring :=
  match m with
  | [] => []
  | c :: m =>
      if bool_decide (c = NUL) then add_line acc (visible [] m)
      else if bool_decide (c = LF) then add_line (strip acc) (visible [] m)
      else visible (acc ++ [c]) m
  end.
Definition terminator (c : ascii) : Prop := c = NUL \/ c = LF.
Definition line_text (t : cstring) : Prop := Forall (fun c => ~ terminator c) t.
Definition matches (name l : cstring) : bool := bool_decide (take (length name) (lower l) = lower name).

Lemma line_text_nul t : line_text t -> no_nul t.
Proof. intros F X. unfold line_text in F. rewrite Forall_forall in F. apply (F _ X). now left. Qed.
Lemma line_text_lf t : line_text t -> LF ∉ t.
Proof. intros F X. unfold line_text in F. rewrite Forall_forall in F. apply (F _ X). now right. Qed.
Lemma visible_text t c m acc : line_text t -> visible acc (t ++ c :: m) = visible (acc ++ t) (c :: m).
Proof.
  revert acc. induction t as [|x t IH]; intros acc F; [now rewrite app_nil_r|]. apply Forall_cons in F as [Nx F].
  cbn [app visible]. rewrite !bool_decide_false by (intros ->; apply Nx; (now left) || now right).
  fold (visible (acc ++ [x]) (t ++ c :: m)). rewrite IH, <- app_assoc by done. done.
Qed.
Lemma visible_nul t m : line_text t -> visible [] (t ++ NUL :: m) = add_line t (visible [] m).
Proof. intros F. rewrite visible_text by done. done. Qed.
Lemma visible_lf t m : line_text t -> visible [] (t ++ LF :: m) = add_line (strip t) (visible [] m).
Proof. intros F. rewrite visible_text by done. done. Qed.
Lemma strip_cr u : strip (u ++ [CR]) = u.
Proof. unfold strip. rewrite last_snoc, bool_decide_true by done. apply removelast_last. Qed.
Lemma strip_other t : last t <> Some CR -> strip t = t.
Proof. intros N. unfold strip. destruct (last t) as [c|]; [|done]. rewrite bool_decide_false; congruence. Qed.
(** A text up to its first terminator. *)
Lemma first_terminator m : (exists c, last m = Some c /\ terminator c) -> exists t c m2, m = t ++ c :: m2 /\ line_text t /\ terminator c /\
  (m2 = [] \/ exists c, last m2 = Some c /\ terminator c).
Proof.
  induction m as [|x m IH]; intros (c & L & T); [done|].
  destruct (decide (x = NUL \/ x = LF)) as [Tx|Tx].
  - exists [], x, m. repeat (split; [done || constructor|]). destruct m; [now left|right]. exists c. split; [|done]. exact L.
  - destruct m as [|y m]; [injection L as <-; done|].
    destruct IH as (t & d & m2 & -> & F & Td & M); [exists c; split; [exact L|done]|].
    exists (x :: t), d, m2. split; [done|]. split; [constructor; done|]. done.
Qed.

Lemma rd_last (pre : list ascii) c m : rd (pre ++ [c] ++ m) (Z.of_nat (length (pre ++ [c])) - 1) = Done c.
Proof. rewrite length_app. cbn [length]. replace (Z.of_nat (length pre + 1) - 1) with (Z.of_nat (length pre)) by lia. apply rd_here0. Qed.
Lemma wr_here (pre : list ascii) c d m : wr (pre ++ c :: m) (Z.of_nat (length pre)) d = Done (pre ++ d :: m).
Proof.
  rewrite wr_ok by (rewrite length_app; cbn [length]; lia). rewrite Nat2Z.id, insert_app_r_alt, Nat.sub_diag by lia. done.
Qed.
Lemma read_here pre t m : no_nul t -> read_string (pre ++ t ++ NUL :: m) (Z.of_nat (length pre)) = Done t.
Proof.
  intros N. unfold read_string. rewrite Nat2Z.id, drop_app_length, c_string_stop by done.
  rewrite bool_decide_true by (apply elem_of_app; right; left). now destruct (Z.ltb_spec (Z.of_nat (length pre)) 0); [lia|].
Qed.
(** The value behind the name of a line. *)
Lemma read_value pre t m k : no_nul t -> (k <= length t)%nat ->
  read_string (pre ++ t ++ NUL :: m) (Z.of_nat (length pre) + Z.of_nat k) = Done (drop k t).
Proof.
  intros N L. rewrite <- (take_drop k t) at 1. rewrite <- app_assoc, (app_assoc pre).
  replace (Z.of_nat (length pre) + Z.of_nat k) with (Z.of_nat (length (pre ++ take k t))) by (rewrite length_app, length_take; lia).
  apply read_here. intros X. apply N. rewrite <- (take_drop k t). apply elem_of_app. now right.
Qed.
Lemma find_char_absent c (t : cstring) : c ∉ t -> find_char c t = None.
Proof.
  intros N. unfold find_char. induction t as [|x t IH]; [done|]. apply not_elem_of_cons in N as [Nx N]. cbn [split_at].
  rewrite bool_decide_false by congruence. specialize (IH N). now destruct (split_at c t) as [[? ?]|].
Qed.
Lemma c_string_front t c r : no_nul t -> c <> NUL -> c_string (t ++ c :: r) = t ++ c :: c_string r.
Proof.
  intros N Nc. unfold c_string. induction t as [|x t IH].
  - cbn. now rewrite bool_decide_false.
  - apply not_elem_of_cons in N as [Nx N]. cbn. rewrite bool_decide_false by congruence. cbn. f_equal. now apply IH.
Qed.
Lemma match_spec name t : no_nul name -> no_nul t -> name <> [] ->
  (_shttpd_strncasecmp name t (Z.of_nat (length name)) =? 0) = matches name t.
Proof.
  intros Nn Nt Ne. unfold matches. assert (0 < Z.of_nat (length name)) by (destruct name; [done|cbn; lia]).
  pose proof (strncasecmp_eq name t (Z.of_nat (length name)) Nn Nt H) as E. rewrite Nat2Z.id in E.
  rewrite (take_ge (lower name)) in E by (unfold lower; now rewrite length_map).
  destruct (Z.eqb_spec (_shttpd_strncasecmp name t (Z.of_nat (length name))) 0) as [Z0|Z0].
  - symmetry. apply bool_decide_eq_true. symmetry. now apply E.
  - symmetry. apply bool_decide_eq_false. intros X. apply Z0, E. now symmetry.
Qed.
Lemma matches_nil name : name <> [] -> matches name [] = false.
Proof. intros N. apply bool_decide_eq_false. cbn. rewrite take_nil. now destruct name. Qed.
Lemma find_add name t l : name <> [] -> List.find (matches name) (add_line t l) = if matches name t then Some t else List.find (matches name) l.
Proof. intros N. destruct t as [|c t]; [now rewrite matches_nil|done]. Qed.

(** A memory in which ends of lines were overwritten with NUL since. *)
Definition later : list ascii -> list ascii -> Prop := Forall2 (fun c d => d = c \/ (c = CR \/ c = LF) /\ d = NUL).
Lemma later_refl m : later m m.
Proof. unfold later. induction m; constructor; auto. Qed.
Lemma later_trans a b c : later a b -> later b c -> later a c.
Proof.
  unfold later. intros H. revert c. induction H as [|x y a b Hxy _ IH]; intros c H2; inversion_clear H2; constructor; [|now apply IH].
  destruct Hxy as [-> |[E ->]]; [done|]. destruct H as [-> |[[E2|E2] _]]; [|discriminate..]. auto.
Qed.
Lemma later_mid a b c d x : (c = CR \/ c = LF) /\ d = NUL -> x = a ++ d :: b -> later (a ++ c :: b) x.
Proof. intros H ->. apply Forall2_app; [apply later_refl|]. constructor; [now right|apply later_refl]. Qed.
(** One turn of the loop terminates the text in front of it, and compares it. *)
Lemma header_turn fuel (name pre t : cstring) c m post : no_nul name -> name <> [] -> last pre = Some NUL -> line_text t -> terminator c ->
  let mem := pre ++ (t ++ c :: m) ++ NUL :: post in
  let u := if bool_decide (c = LF) then strip t else t in
  exists m', header_loop (S fuel) name mem (Z.of_nat (length pre)) (Z.of_nat (length (pre ++ t ++ c :: m))) =
    (let mem' := pre ++ u ++ NUL :: m' ++ NUL :: post in
     if matches name u then Done (Some (Z.of_nat (length pre) + Z.of_nat (length name) + 2), mem')
     else header_loop fuel name mem' (Z.of_nat (length (pre ++ u ++ [NUL]))) (Z.of_nat (length (pre ++ t ++ c :: m)))) /\
  later (t ++ c :: m) (u ++ NUL :: m') /\ (m' = m \/ m' = LF :: m).
Proof.
  intros Nn Ne Lp F T mem u. pose proof (line_text_nul t F) as Nt. pose proof (line_text_lf t F) as Lt.
  assert (Lu : no_nul u).
  { subst u. destruct (bool_decide _); [|done]. unfold strip. destruct (last t) as [d|] eqn:Ed; [|done]. destruct (bool_decide (d = CR)); [|done].
    apply last_Some in Ed as (t' & ->). rewrite removelast_last. intros X. apply Nt, elem_of_app. now left. }
  assert (Step : forall m', (let* mem := (let* s := read_string mem (Z.of_nat (length pre)) in
      match find_char LF s with None => Done mem | Some i =>
        let s := Z.of_nat (length pre) + Z.of_nat i in let* prev := rd mem (s - 1) in wr mem (if bool_decide (prev = CR) then s - 1 else s) NUL end) in
      Done mem) = Done (pre ++ u ++ NUL :: m' ++ NUL :: post) ->
    header_loop (S fuel) name mem (Z.of_nat (length pre)) (Z.of_nat (length (pre ++ t ++ c :: m))) =
     if matches name u then Done (Some (Z.of_nat (length pre) + Z.of_nat (length name) + 2), pre ++ u ++ NUL :: m' ++ NUL :: post)
     else header_loop fuel name (pre ++ u ++ NUL :: m' ++ NUL :: post) (Z.of_nat (length (pre ++ u ++ [NUL]))) (Z.of_nat (length (pre ++ t ++ c :: m)))).
  { intros m' E. cbn [header_loop]. rewrite (proj2 (Z.ltb_lt _ _)) by (rewrite !length_app; cbn [length]; lia). cbn [negb].
    destruct (read_string mem (Z.of_nat (length pre))) as [s| | |]; try done. cbn [obind] in E |- *.
    destruct (match find_char LF s with None => _ | Some i => _ end) as [mem1| | |]; try done. cbn [obind] in E |- *. injection E as ->.
    rewrite read_here by done. cbn [obind]. rewrite match_spec by done. destruct (matches name u); [done|].
    f_equal. rewrite !length_app. cbn [length]. lia. }
  assert (Rd : read_string mem (Z.of_nat (length pre)) = Done (c_string (t ++ c :: m ++ NUL :: post))).
  { unfold read_string, mem. rewrite Nat2Z.id, drop_app_length, <- app_assoc. cbn [app].
    rewrite bool_decide_true by (apply elem_of_app; right; right; apply elem_of_app; right; left).
    now destruct (Z.ltb_spec (Z.of_nat (length pre)) 0); [lia|]. }
  rewrite Rd in Step. cbn [obind] in Step. destruct T as [-> | ->].
  - exists m. split; [|split; [apply later_refl|now left]]. apply Step. rewrite c_string_stop, (find_char_absent LF t Lt) by done. cbn [obind].
    unfold mem, u. rewrite <- app_assoc. done.
  - rewrite c_string_front, find_char_eq in Step by done. cbv zeta in Step. fold (u) in Step.
    destruct (decide (last t = Some CR)) as [Ec|Nc].
    + apply last_Some in Ec as (t' & ->). assert (u = t') as Eu by apply strip_cr.
      exists (LF :: m). rewrite Eu. split; [|split; [rewrite <- app_assoc; cbn [app]; apply (later_mid t' (LF :: m) CR NUL); auto|now right]].
      rewrite Eu in Step. apply Step. subst mem. rewrite !(app_assoc pre), <- !app_assoc, (app_assoc pre t'). cbn [app].
      replace (Z.of_nat (length pre) + Z.of_nat (length (t' ++ [CR])) - 1) with (Z.of_nat (length (pre ++ t'))) by (rewrite !length_app; cbn [length]; lia).
      rewrite rd_here0. cbn [obind]. rewrite bool_decide_true, wr_here by done. cbn [obind]. now rewrite <- app_assoc.
    + assert (u = t) as Eu by now apply strip_other.
      exists m. rewrite Eu. split; [|split; [apply (later_mid t m LF NUL); auto|now left]]. rewrite Eu in Step. apply Step. subst mem.
      rewrite !(app_assoc pre), <- !app_assoc, (app_assoc pre t). cbn [app].
      assert (exists pt d, pre ++ t = pt ++ [d] /\ d <> CR) as (pt & d & Ept & Nd).
      { destruct (last t) as [d|] eqn:Ed.
        - apply last_Some in Ed as (t' & ->). exists (pre ++ t'), d. split; [now rewrite app_assoc|congruence].
        - apply last_None in Ed as ->. apply last_Some in Lp as (p' & ->). exists p', NUL. now rewrite app_nil_r. }
      replace (Z.of_nat (length pre) + Z.of_nat (length t)) with (Z.of_nat (length (pre ++ t))) by (rewrite length_app; lia).
      rewrite Ept, <- app_assoc, rd_last. cbn [obind]. rewrite bool_decide_false by done. rewrite app_assoc, <- Ept, wr_here. cbn [obind].
      now rewrite <- app_assoc.
Qed.

Definition ended (m : cstring) : Prop := m = [] \/ exists c, last m = Some c /\ terminator c.
Lemma ended_cons c m : terminator c -> ended m -> ended (c :: m).
Proof. intros T [-> |(d & L & Td)]; right; [now exists c|]. exists d. destruct m; [done|]. done. Qed.
Lemma ended_app u c m : terminator c -> ended m -> ended (u ++ c :: m).
Proof.
  intros T E. destruct (ended_cons c m T E) as [?|(d & L & Td)]; [done|]. right. exists d. split; [|done].
  now rewrite last_app, L.
Qed.
Lemma line_text_strip t : line_text t -> line_text (strip t).
Proof.
  intros F. unfold strip. destruct (last t) as [d|] eqn:Ed; [|done]. destruct (bool_decide (d = CR)); [|done].
  apply last_Some in Ed as (t' & ->). rewrite removelast_last. now apply Forall_app in F as [F _].
Qed.
Lemma header_loop_spec (name post : cstring) : no_nul name -> name <> [] -> forall fuel m pre, (length m < fuel)%nat -> last pre = Some NUL -> ended m ->
  exists r m', header_loop fuel name (pre ++ m ++ NUL :: post) (Z.of_nat (length pre)) (Z.of_nat (length (pre ++ m))) =
      Done (r, pre ++ m' ++ NUL :: post) /\ later m m' /\ visible [] m' = visible [] m /\ ended m' /\
    match List.find (matches name) (visible [] m) with
    | None => r = None
    | Some l => exists p, r = Some (p + Z.of_nat (length name) + 2) /\ forall k, (k <= length l)%nat ->
        read_string (pre ++ m' ++ NUL :: post) (p + Z.of_nat k) = Done (drop k l)
    end.
Proof.
  intros Nn Ne. induction fuel as [|fuel IH]; intros m pre L Lp E; [lia|]. destruct E as [-> |E].
  { exists None, []. rewrite app_nil_r. cbn [header_loop]. rewrite Z.ltb_irrefl. cbn [negb]. split; [done|]. split; [constructor|]. split; [done|]. split; [now left|done]. }
  destruct (first_terminator m E) as (t & c & m2 & -> & F & T & E2). change (ended m2) in E2.
  destruct (header_turn fuel name pre t c m2 post Nn Ne Lp F T) as (m' & -> & Lt & M). cbv zeta. pose proof (Forall2_length _ _ _ Lt) as Lm. symmetry in Lm.
  set (u := if bool_decide (c = LF) then strip t else t) in *.
  assert (Fu : line_text u) by (subst u; destruct (bool_decide _); [now apply line_text_strip|done]).
  assert (Vm : visible [] m' = visible [] m2) by (destruct M as [-> | ->]; done).
  assert (Em : ended m') by (destruct M as [-> | ->]; [done|apply ended_cons; [now right|done]]).
  assert (V : visible [] (t ++ c :: m2) = add_line u (visible [] m2)).
  { subst u. destruct T as [-> | ->]; [now apply visible_nul|now apply visible_lf]. }
  rewrite V, find_add by done. destruct (matches name u).
  - exists (Some (Z.of_nat (length pre) + Z.of_nat (length name) + 2)), (u ++ NUL :: m'). rewrite <- app_assoc. split; [done|].
    split; [done|]. split; [now rewrite visible_nul, Vm|]. split; [apply ended_app; [now left|done]|].
    exists (Z.of_nat (length pre)). split; [done|]. intros k Lk. cbn [app]. apply read_value; [now apply line_text_nul|done].
  - assert (Lm' : (length m' < fuel)%nat) by (rewrite length_app in Lm; rewrite length_app in L, Lm; cbn [length] in *; lia).
    destruct (IH m' (pre ++ u ++ [NUL]) Lm') as (r & m3 & El & Lt3 & V3 & E3 & R).
    { now rewrite app_assoc, last_snoc. }
    { done. }
    exists r, (u ++ NUL :: m3). rewrite Vm in R, V3.
    assert (A : forall x, (pre ++ u ++ [NUL]) ++ x = pre ++ u ++ NUL :: x) by (intros x; now rewrite <- !app_assoc).
    rewrite !A in El. assert (Le : length (pre ++ u ++ NUL :: m') = length (pre ++ t ++ c :: m2)) by (rewrite !(length_app pre); congruence).
    rewrite Le in El. rewrite El. rewrite <- (app_assoc u). split; [done|].
    split; [eapply later_trans; [exact Lt|]; apply Forall2_app; [apply later_refl|constructor; [now left|exact Lt3]]|].
    split; [now rewrite visible_nul, V3|]. split; [apply ended_app; [now left|done]|].
    rewrite A in R. exact R.
Qed.

(** The head of a request in its block: the lines that are to be seen behind the request line. *)
Definition head_ok (r : request) (headers_len : Z) (lines : list cstring) : Prop := exists pre m post,
  rq_request r = Some (pre ++ m ++ NUL :: post) /\ rq_headers r = Z.of_nat (length pre) /\ headers_len = Z.of_nat (length (pre ++ m)) /\
  last pre = Some NUL /\ ended m /\ visible [] m = lines.
Definition header_value (name : cstring) (lines : list cstring) : option cstring := drop (length name + 2) <$> List.find (matches name) lines.
(** The first line with the name has something in the place of the colon and the space. *)
Definition header_fits (name : cstring) (lines : list cstring) : Prop :=
  from_option (fun l => length name + 2 <= length l)%nat True (List.find (matches name) lines).
Definition with_mem (mem : list ascii) (r : request) : request := set_ch_uri r (rq_uri r) (Some mem) (rq_query r) (rq_ch r).

Lemma shttpd_get_header_ok {P} (a : @shttpd_arg P) name lines : no_nul name -> name <> [] -> head_ok (a_req a) (a_headers_len a) lines ->
  header_fits name lines -> exists p mem, shttpd_get_header a name = Done (p, with_req (with_mem mem (a_req a)) a) /\
    head_ok (with_mem mem (a_req a)) (a_headers_len a) lines /\ (forall mem0, rq_request (a_req a) = Some mem0 -> later mem0 mem) /\
    match header_value name lines with
    | None => p = None
    | Some v => exists q, p = Some q /\ 0 <= q /\ forall k, (k <= length v)%nat -> read_string mem (q + Z.of_nat k) = Done (drop k v)
    end.
Proof.
  intros Nn Ne (pre & m & post & Er & Eh & Ehl & Lp & E & V) F. unfold shttpd_get_header. rewrite Er, Eh, Ehl. cbn [deref obind].
  destruct (header_loop_spec name post Nn Ne (S (Z.to_nat (Z.of_nat (length (pre ++ m))))) m pre) as (r & m' & El & La & Vm & Em & R); try done.
  { rewrite Nat2Z.id, length_app. lia. }
  pose proof (Forall2_length _ _ _ La) as Lm.
  rewrite El. cbn [obind]. exists r, (pre ++ m' ++ NUL :: post). split; [done|]. split.
  - exists pre, m', post. repeat (split; [done|]). rewrite !length_app in *. split; [lia|]. split; [done|]. split; [done|]. congruence.
  - split; [intros mem0 [= <-]; apply Forall2_app; [apply later_refl|]; apply Forall2_app; [exact La|apply later_refl]|]. rewrite V in R. unfold header_value, header_fits in *. destruct (List.find (matches name) lines) as [l|]; [|done].
    destruct R as (p & -> & R). cbn [fmap option_fmap option_map from_option] in *. eexists. split; [done|].
    assert (0 <= p). { specialize (R 0%nat ltac:(lia)). unfold read_string in R. rewrite Z.add_0_r in R. destruct (Z.ltb_spec p 0); [done|lia]. }
    split; [lia|]. intros k Lk. rewrite length_drop in Lk. rewrite drop_drop.
    replace (p + Z.of_nat (length name) + 2 + Z.of_nat k) with (p + Z.of_nat (length name + 2 + k)) by lia. apply R. lia.
Qed.
Lemma get_header_ok {P} (a : @shttpd_arg P) name lines : no_nul name -> name <> [] -> head_ok (a_req a) (a_headers_len a) lines ->
  header_fits name lines -> exists mem, get_header a name = Done (header_value name lines, with_req (with_mem mem (a_req a)) a) /\
    head_ok (with_mem mem (a_req a)) (a_headers_len a) lines /\ (forall mem0, rq_request (a_req a) = Some mem0 -> later mem0 mem).
Proof.
  intros Nn Ne H F. destruct (shttpd_get_header_ok a name lines Nn Ne H F) as (p & mem & E & H' & Lt & R). exists mem. unfold get_header. rewrite E.
  cbn [obind]. destruct (header_value name lines) as [v|]; [|now subst].
  destruct R as (q & -> & _ & R). split; [|done]. cbn [with_req a_req with_mem set_ch_uri rq_request deref obind].
  specialize (R 0%nat ltac:(lia)). rewrite Z.add_0_r in R. rewrite R. done.
Qed.

(** ** A whole exchange *)
Lemma with_output_nil {P} (a : @shttpd_arg P) : with_output [] a = a.
Proof. destruct a. unfold with_output. cbn. now rewrite app_nil_r. Qed.
Lemma with_output_app {P} (a : @shttpd_arg P) x y : with_output y (with_output x a) = with_output (x ++ y) a.
Proof. unfold with_output. cbn. now rewrite app_assoc. Qed.
Lemma room_output {P} (a : @shttpd_arg P) x : room (with_output x a) = room a - Z.of_nat (length x).
Proof. unfold room. cbn. rewrite length_app. lia. Qed.
Lemma printf_fits {P} (a : @shttpd_arg P) text : Z.of_nat (length text) < room a -> shttpd_printf text a = with_output text a.
Proof. intros L. unfold shttpd_printf. rewrite !(proj2 (Z.ltb_lt _ _)) by lia. done. Qed.
(** Texts that fit one after the other. *)
Fixpoint printf_all {P} (l : list cstring) (a : @shttpd_arg P) : @shttpd_arg P :=
  match l with [] => a | t :: l => printf_all l (shttpd_printf t a) end.
Lemma printf_all_fits {P} l : forall a : @shttpd_arg P, Z.of_nat (length (concat l)) < room a -> printf_all l a = with_output (concat l) a.
Proof.
  induction l as [|t l IH]; intros a L; [now rewrite with_output_nil|]. cbn [printf_all concat] in *. rewrite length_app in L.
  rewrite printf_fits by lia. rewrite IH by (rewrite room_output; lia). apply with_output_app.
Qed.

(** What is left of a document is handed out in rooms of given sizes, until one is not filled. *)
Fixpoint hand_out (doc : list ascii) (rooms : list Z) : list ascii * bool :=
  match rooms with
  | [] => ([], false)
  | k :: rooms =>
      if k <=? Z.of_nat (length doc) then let r := hand_out (drop (Z.to_nat k) doc) rooms in (take (Z.to_nat k) doc ++ r.1, r.2)
      else (doc, true)
  end.
Lemma hand_out_prefix rooms : forall doc, exists rest, doc = (hand_out doc rooms).1 ++ rest /\ ((hand_out doc rooms).2 = true -> rest = []).
Proof.
  induction rooms as [|k rooms IH]; intros doc; [by exists doc|]. cbn [hand_out]. destruct (_ <=? _).
  - destruct (IH (drop (Z.to_nat k) doc)) as (rest & E & R). exists rest. cbn [fst snd]. split; [|done]. rewrite <- app_assoc, <- E. now rewrite take_drop.
  - exists []. now rewrite app_nil_r.
Qed.
Lemma hand_out_all rooms : forall doc, Forall (fun k => 0 <= k) rooms -> Z.of_nat (length doc) < foldr Z.add 0 rooms -> hand_out doc rooms = (doc, true).
Proof.
  induction rooms as [|k rooms IH]; intros doc F L; [cbn in L; lia|]. apply Forall_cons in F as [K F]. cbn [hand_out foldr] in *.
  destruct (Z.leb_spec k (Z.of_nat (length doc))); [|done].
  rewrite IH by (done || rewrite length_drop; lia). cbn [fst snd]. now rewrite take_drop.
Qed.

Section Exchange.
Context {W : Type} `{!Soap W} (parse : cstring -> list ascii -> option xml) (dump : xml -> list ascii) (server remote_addr : cstring).
Context (identify_file anon_identify_file : option cstring) (file : cstring -> Buf.Buf.file_answer).
Local Abbreviation arg := (@shttpd_arg state_ptr).
Local Abbreviation callback := (server_callback parse dump server remote_addr identify_file anon_identify_file file).

(** The calls of the callback for one request: what has arrived and has not been taken in, and the room for output.  What the client
    gets, and whether that is all. *)
Fixpoint serve (r : request) (headers_len : Z) (st : option state_ptr) (calls : list (list ascii * Z)) : CM W (list ascii * bool) :=
  match calls with
  | [] => mret ([], false)
  | (bs, k) :: calls =>
      a ← callback (Arg r headers_len st k [] bs 0 0);
      if has (a_flags a) SHTTPD_END_OF_OUTPUT then mret (a_out a, true)
      else '(o, e) ← serve (a_req a) headers_len (a_state a) calls; mret (a_out a ++ o, e)
  end.
Definition response_head (status : Z) (encoding : cstring) (eventing : bool) (len : Z) : cstring := concat
  ([lit "HTTP/1.1 " ++ decimal status ++ lit " " ++ printf_s None ++ eol; lit "Server: " ++ server ++ eol] ++
   (if eventing then [lit "Content-Type: application/xml; charset=" ++ quote ++ lit "utf-8" ++ quote ++ eol; lit "CIMExport: MethodResponse" ++ eol]
    else [lit "Content-Type: application/soap+xml;charset=" ++ encoding ++ eol]) ++
   [lit "Content-Length: " ++ decimal (s32 len) ++ eol; lit "Connection: Close" ++ eol; eol]).
Lemma print_head_fits status enc st (a : arg) : let h := response_head status enc (type st =? 1) (length_of st) in
  Z.of_nat (length h) < room a -> print_head server status enc st a = with_output h a.
Proof.
  intros h L. subst h. unfold response_head in *. rewrite <- printf_all_fits by done. unfold print_head. destruct (type st =? 1); reflexivity.
Qed.
(** ** The head of a request while its request is served *)
(** [mem0], the block when the exchange starts. *)
Section Head.
Context (r : request) (hl : Z) (lines : list cstring) (mem0 : list ascii).
Definition at_mem (mem : list ascii) : request := with_mem mem r.
Record head_good (mem : list ascii) : Prop := HeadGood { hg_ok : head_ok (at_mem mem) hl lines; hg_later : later mem0 mem }.
(** The headers that are looked for have a value. *)
Definition asked : list cstring := map lit ["Content-Length"; "Content-Type"; "CIMExport"; "CIMExportMethod"]%string.
Definition all_fit : Prop := Forall (fun name => header_fits name lines) asked.
Definition live (p : option state_ptr) (k : Z) (bs : list ascii) (mem : list ascii) : arg := Arg (at_mem mem) hl p k [] bs 0 0.
Lemma asked_name name : name ∈ asked -> no_nul name /\ name <> [].
Proof.
  intros H. assert (F : Forall (fun n => no_nul n /\ n <> []) asked).
  { unfold asked. cbn [map]. repeat constructor; try done; apply (bool_decide_eq_true_1 _); vm_compute; reflexivity. }
  rewrite Forall_forall in F. now apply F.
Qed.
Lemma get_place (a : arg) name mem : all_fit -> head_good mem -> a_req a = at_mem mem -> a_headers_len a = hl -> name ∈ asked ->
  exists p mem', shttpd_get_header a name = Done (p, with_req (at_mem mem') a) /\ head_good mem' /\
    match header_value name lines with
    | None => p = None
    | Some v => exists q, p = Some q /\ 0 <= q /\ forall k, (k <= length v)%nat -> read_string mem' (q + Z.of_nat k) = Done (drop k v)
    end.
Proof.
  intros F [H La] Er Eh Hn. destruct (asked_name name Hn) as [Nn Ne]. rewrite <- Er, <- Eh in H. unfold all_fit in F. rewrite Forall_forall in F.
  destruct (shttpd_get_header_ok a name lines Nn Ne H (F name Hn)) as (p & mem' & E & H' & L & R).
  exists p, mem'. rewrite Er, Eh in *. split; [exact E|]. split; [|exact R]. constructor; [exact H'|]. eapply later_trans; [exact La|now apply L].
Qed.
Lemma get_value (a : arg) name mem : all_fit -> head_good mem -> a_req a = at_mem mem -> a_headers_len a = hl -> name ∈ asked ->
  exists mem', get_header a name = Done (header_value name lines, with_req (at_mem mem') a) /\ head_good mem'.
Proof.
  intros F [H La] Er Eh Hn. destruct (asked_name name Hn) as [Nn Ne]. rewrite <- Er, <- Eh in H. unfold all_fit in F. rewrite Forall_forall in F.
  destruct (get_header_ok a name lines Nn Ne H (F name Hn)) as (mem' & E & H' & L).
  exists mem'. rewrite Er, Eh in *. split; [exact E|]. constructor; [exact H'|]. eapply later_trans; [exact La|now apply L].
Qed.

(** The callback up to the point where it has the length of the body. *)
Lemma callback_start p st k bs w v mem : all_fit -> head_good mem -> header_value (lit "Content-Length") lines = Some v ->
  p = None /\ st = State (strtoul v) 0 [] None 0 0 \/ p = Some (Live st) ->
  exists mem', head_good mem' /\
    callback (live p k bs mem) w =
      (match st_response st with
       | Some _ => mret (deliver st (live p k bs mem'))
       | None =>
           let '(st, a) := take_in st (live p k bs mem') in
           if nread st <? cl st then mret (with_state (Some (Live st)) a)
           else complete_request parse dump server remote_addr identify_file anon_identify_file file st (with_state (Some (Live st)) a)
       end) w.
Proof.
  intros F G Ev S. destruct (get_value (live p k bs mem) (lit "Content-Length") mem F G) as (mem' & E & G'); [done|done|left|].
  exists mem'. split; [done|]. unfold server_callback. change (has (a_flags _) SHTTPD_CONNECTION_ERROR) with false. cbv iota.
  rewrite Ev in E. assert (El : mlift (get_header (live p k bs mem) (lit "Content-Length")) w = Done ((Some v, live p k bs mem'), w))
    by (unfold mlift; now rewrite E).
  step El. unfold live at 1. cbn [a_state].
  destruct S as [[-> ->]| ->].
  - now step (eq_refl : mlift (Done (State (strtoul v) 0 [] None 0 0)) w = Done (_, w)).
  - now step (eq_refl : mlift (Done st) w = Done (st, w)).
Qed.

(** The calls after the answer is there. *)
Lemma serve_rest calls : forall mem st response v, all_fit -> head_good mem -> header_value (lit "Content-Length") lines = Some v ->
  st_response st = Some response -> 0 <= index st <= length_of st -> Forall (fun k => 0 <= k) (map snd calls) -> forall w,
  serve (at_mem mem) hl (Some (Live st)) calls w = Done (hand_out (drop (Z.to_nat (index st)) response) (map snd calls), w).
Proof.
  induction calls as [|[bs k] calls IH]; intros mem st response v F G Ev R I Fk w; [done|].
  apply Forall_cons in Fk as [K Fk]. cbn [snd] in K. cbn [serve map snd]. fold (live (Some (Live st)) k bs mem).
  destruct (callback_start (Some (Live st)) st k bs w v mem F G Ev) as (mem' & G' & Ec); [now right|]. rewrite R in Ec.
  assert (Ed : callback (live (Some (Live st)) k bs mem) w = Done (deliver st (live (Some (Live st)) k bs mem'), w)) by exact Ec. step Ed. unfold deliver, live, room, length_of in *. cbn [a_out a_out_len a_state a_flags a_req a_headers_len length]. rewrite R in I |- *.
  change (default [] (Some response)) with response in *. change (Z.of_nat 0) with 0. rewrite Z.sub_0_r. cbn [hand_out]. rewrite length_drop.
  replace (Z.of_nat (length response - Z.to_nat (index st))) with (Z.of_nat (length response) - index st) by lia.
  destruct (Z.leb_spec k (Z.of_nat (length response) - index st)) as [Le|Gt]; [|done].
  cbn [with_state with_output a_flags a_out a_state a_req app]. change (has 0 SHTTPD_END_OF_OUTPUT) with false. cbv iota.
  assert (Es : serve (at_mem mem') hl (Some (Live (with_index (index st + k) st))) calls w =
    Done (hand_out (drop (Z.to_nat k) (drop (Z.to_nat (index st)) response)) (map snd calls), w)).
  { rewrite drop_drop, <- Z2Nat.inj_add by lia. apply (IH mem' (with_index (index st + k) st) response v); try done.
    cbn [index with_index]. unfold length_of. cbn [with_index st_response]. rewrite R. change (default [] (Some response)) with response. lia. }
  step Es. now destruct (hand_out _ _).
Qed.

(** A part of the body has arrived. *)
Definition reading (n : Z) (got : list ascii) : state := State n (Z.of_nat (length got)) got None 0 0.
Definition collected (n : Z) (got : list ascii) (p : option state_ptr) : Prop := got = [] /\ p = None \/ p = Some (Live (reading n got)).
Lemma take_in_reading n got bs (a : arg) : a_in a = bs -> Z.of_nat (length (got ++ bs)) < 2 ^ 64 ->
  take_in (reading n got) a = (reading n (got ++ bs), with_in_bytes (Z.of_nat (length bs)) a).
Proof.
  intros <- L. unfold take_in, reading. cbn [cl nread st_request st_response index type]. rewrite length_app in L |- *. f_equal. f_equal.
  - rewrite u64_small by lia. lia.
  - destruct got as [|c got]; cbn [length]; [now destruct (a_in a)|]. destruct (Z.ltb_spec 0 (Z.of_nat (S (length got)))); [done|lia].
Qed.
Lemma collected_start n got p v : collected n got p -> n = strtoul v -> exists st, st = reading n got /\
  (p = None /\ st = State (strtoul v) 0 [] None 0 0 \/ p = Some (Live st)).
Proof. intros [[-> ->]| ->] ->; eexists; (split; [reflexivity|]); [now left|now right]. Qed.
Lemma serve_feed v calls feed : all_fit -> header_value (lit "Content-Length") lines = Some v -> forall got p mem w, collected (strtoul v) got p ->
  head_good mem -> Z.of_nat (length (got ++ concat (map fst feed))) < strtoul v -> strtoul v < 2 ^ 64 ->
  exists p' mem', collected (strtoul v) (got ++ concat (map fst feed)) p' /\ head_good mem' /\
    serve (at_mem mem) hl p (feed ++ calls) w = serve (at_mem mem') hl p' calls w.
Proof.
  intros F Ev. induction feed as [|[bs k] feed IH]; intros got p mem w C G L U.
  { exists p, mem. cbn [map concat app]. now rewrite app_nil_r. }
  cbn [map concat fst] in L |- *. rewrite app_assoc in L |- *. pose proof L as L'. rewrite length_app in L'.
  destruct (collected_start _ _ _ v C eq_refl) as (st & -> & S).
  destruct (callback_start p (reading (strtoul v) got) k bs w v mem F G Ev S) as (mem' & G' & Ec).
  cbn [st_response reading] in Ec. rewrite (take_in_reading (strtoul v) got bs) in Ec by (done || lia).
  replace (nread (reading (strtoul v) (got ++ bs)) <? cl (reading (strtoul v) (got ++ bs))) with true in Ec
    by (symmetry; apply Z.ltb_lt; cbn [nread cl reading]; lia).
  destruct (IH (got ++ bs) (Some (Live (reading (strtoul v) (got ++ bs)))) mem' w) as (p' & mem2 & C2 & G2 & E2); [now right|done..|].
  exists p', mem2. split; [done|]. split; [done|]. cbn [app serve]. fold (live p k bs mem).
  assert (Ed : callback (live p k bs mem) w = Done (with_state (Some (Live (reading (strtoul v) (got ++ bs)))) (with_in_bytes (Z.of_nat (length bs))
    (live p k bs mem')), w)) by exact Ec. step Ed.
  cbn [with_state with_in_bytes live a_flags a_out a_state a_req app]. change (has 0 SHTTPD_END_OF_OUTPUT) with false. cbv iota.
  unfold mbind, M_bind. rewrite E2. destruct (serve (at_mem mem2) hl p' calls w) as [[[o e] w2]| | |]; done.
Qed.

(** The encoding that a request names: what follows [charset] and one character more. *)
Definition charset : cstring :=
  match header_value (lit "Content-Type") lines with
  | None => lit "UTF-8"
  | Some t => match strstr t (lit "charset") with None => lit "UTF-8" | Some s => drop 8 s end
  end.
Definition charset_fits : Prop :=
  from_option (fun t => from_option (fun s => 8 <= length s)%nat True (strstr t (lit "charset"))) True (header_value (lit "Content-Type") lines).
Definition soap_type : bool :=
  from_option (starts_with SOAP_CONTENT_TYPE) true (header_value (lit "Content-Type") lines).
Lemma encoding_ok (a : arg) mem : all_fit -> charset_fits -> head_good mem -> a_req a = at_mem mem -> a_headers_len a = hl ->
  exists enc mem', get_request_encoding a = Done (enc, with_req (at_mem mem') a) /\ head_good mem' /\
    forall a' : arg, a_req a' = at_mem mem' -> encoding_text enc a' = Done charset.
Proof.
  intros F Fc G Er Eh. destruct (get_place a (lit "Content-Type") mem F G Er Eh) as (p & mem' & E & G' & R); [right; left|].
  unfold get_request_encoding. rewrite E. cbn [obind]. unfold charset, charset_fits in *. destruct (header_value (lit "Content-Type") lines) as [t|].
  - destruct R as (q & -> & Q & R). cbn [with_req a_req at_mem with_mem set_ch_uri rq_request deref obind from_option] in *.
    pose proof (R 0%nat ltac:(lia)) as R0. rewrite Z.add_0_r in R0. change (drop 0 t) with t in R0. rewrite R0. cbn [obind].
    destruct (strstr t (lit "charset")) as [s|] eqn:Es.
    + eexists _, mem'. split; [reflexivity|]. split; [done|]. intros a' Ea. unfold encoding_text. rewrite Ea. cbn [at_mem with_mem set_ch_uri rq_request deref obind].
      destruct (strstr_spec _ _ _ Es) as (b & x & Et & _). cbn [from_option] in Fc. specialize (R (length b + 8)%nat).
      assert (Lt : length t = (length b + length s)%nat) by (rewrite Et; apply length_app).
      assert (Dt : drop (length b + 8) t = drop 8 s) by (rewrite Et, <- drop_drop, drop_app_length; done).
      rewrite Dt in R. rewrite <- R by lia. f_equal. change (length (lit "charset")) with 7%nat. lia.
    + eexists _, mem'. split; [reflexivity|]. split; [done|]. done.
  - subst p. eexists _, mem'. split; [reflexivity|]. done.
Qed.
(** The credentials can be read without a change to the request. *)
Definition credentials_read (c : option (cstring * cstring)) : Prop :=
  forall mem (a : arg), later mem0 mem -> a_req a = at_mem mem -> shttpd_get_credentials a = Done (c, a).
Definition asks_for (uri : cstring) : Prop := exists u, rq_uri r = Some u /\ read_string u 0 = Done uri.
Lemma uri_ok uri (a : arg) mem : asks_for uri -> a_req a = at_mem mem ->
  shttpd_get_env remote_addr a (lit "REQUEST_URI") = Done (Some uri, a).
Proof. intros (u & Eu & Ru) Ea. unfold shttpd_get_env. rewrite Ea. cbn [at_mem with_mem set_ch_uri rq_uri]. rewrite Eu. cbn -[read_string]. now rewrite Ru. Qed.
Lemma answer_head_ok status enc st (a : arg) e w : encoding_text enc a = Done e ->
  let h := response_head status e (type st =? 1) (length_of st) in Z.of_nat (length h) < room a ->
  answer (W := W) server status enc st a w = Done (deliver st (with_output h a), w).
Proof.
  intros E h L. unfold answer. assert (El : mlift (encoding_text enc a) w = Done (e, w)) by (unfold mlift; now rewrite E). step El.
  now rewrite print_head_fits.
Qed.
Lemma mlift_done {A} (o : outcome A) x (w : W) : o = Done x -> mlift o w = Done (x, w).
Proof. now intros ->. Qed.
Lemma wsman_ok c st (a : arg) mem w status resp w' : all_fit -> charset_fits -> soap_type = true -> credentials_read c -> asks_for (lit "/wsman") ->
  head_good mem -> a_req a = at_mem mem -> a_headers_len a = hl ->
  dispatch parse dump identify_file file charset (st_request st) c w = Done ((status, resp), w') ->
  let st' := with_response resp 0 st in let h := response_head status charset false (length_of st') in
  Z.of_nat (length h) < room a -> exists mem', head_good mem' /\
  complete_request parse dump server remote_addr identify_file anon_identify_file file st a w = Done (deliver st' (with_output h (with_req (at_mem mem') a)), w').
Proof.
  intros F Fc So Cr Au G Er Eh D st' h L. unfold complete_request. step (mlift_done _ _ w (uri_ok _ a mem Au Er)).
  step (mlift_done (deref (Some (lit "/wsman"))) _ w eq_refl). change (streq (lit "/wsman") (lit "/wsman")) with true. cbv iota. unfold wsman_request.
  destruct (get_value a (lit "Content-Type") mem F G Er Eh) as (m1 & E1 & G1); [right; left|].
  assert (Ec : check_request_content_type a = Done (200, with_req (at_mem m1) a)).
  { unfold check_request_content_type. rewrite E1. cbn [obind]. unfold soap_type in So. destruct (header_value (lit "Content-Type") lines); [|done].
    cbn [from_option] in So. now rewrite So. }
  step (mlift_done _ _ w Ec). change (negb (200 =? 200)) with false. cbv iota.
  destruct (encoding_ok (with_req (at_mem m1) a) m1 F Fc G1 eq_refl Eh) as (enc & m2 & E2 & G2 & Te).
  step (mlift_done _ _ w E2). change (with_req (at_mem m2) (with_req (at_mem m1) a)) with (with_req (at_mem m2) a).
  step (mlift_done _ _ w (Te (with_req (at_mem m2) a) eq_refl)).
  step (mlift_done _ _ w (Cr m2 (with_req (at_mem m2) a) (hg_later _ G2) eq_refl)). step D.
  exists m2. split; [done|]. apply answer_head_ok; [now apply Te|exact L].
Qed.
End Head.

(** Without an Authorization header of more than ten characters there are no credentials. *)
Lemma no_credentials r mem0 : (vec_of (rq_ch r H_auth)).2 <= 10 -> credentials_read r mem0 None.
Proof.
  intros L mem a _ Ea. unfold shttpd_get_credentials. rewrite Ea. cbn [at_mem with_mem set_ch_uri rq_ch]. destruct (vec_of _) as [p n].
  cbn [snd] in L. now destruct (Z.ltb_spec 10 n); [lia|].
Qed.
Lemma span_all (p : ascii -> bool) t c m : Forall (fun x => p x = true) t -> p c = false -> span p (t ++ c :: m) = Done (length t).
Proof. intros F N. induction F as [|x t Hx _ IH]; cbn [app span]; [now rewrite N|]. now rewrite Hx, IH. Qed.
(** The credentials of a token whose end has been marked before, by the check of the authorization or by this function. *)
Definition token_credentials (tok : list ascii) : outcome (option (cstring * cstring)) :=
  let* (l, buf) := ws_base64_decode tok (Z.of_nat (length tok)) 4095 in
  Done (if l <=? 0 then None else split_at ":"%char (c_string (take (Z.to_nat l) buf))).
Lemma basic_marked a b tok m : length b = 5%nat -> tok <> [] -> Forall (fun c => token_char c = true) tok ->
  let mem := a ++ b ++ " "%char :: tok ++ NUL :: m in
  basic_credentials mem (Z.of_nat (length a)) = (let* c := token_credentials tok in Done (c, mem)).
Proof.
  intros Lb Ne F mem. unfold basic_credentials. subst mem. set (k := (Z.to_nat (Z.of_nat (length a)) + 5)%nat).
  assert (Dk : forall l, drop k (a ++ b ++ l) = l) by (intros l; rewrite app_assoc, drop_app_ge by (rewrite length_app; lia);
    replace (k - length (a ++ b))%nat with 0%nat by (rewrite length_app; lia); done).
  rewrite Dk. destruct tok as [|c tok]; [done|]. pose proof F as F'. apply Forall_cons in F' as [Tc _].
  assert (Bc : blank_char c = false) by (unfold token_char in Tc; now destruct (blank_char c)).
  change (" "%char :: (c :: tok) ++ NUL :: m) with ([" "%char] ++ c :: tok ++ NUL :: m) at 1. rewrite (span_all blank_char [" "%char] c) by first [done | repeat constructor]. cbn [obind length].
  change (a ++ b ++ " "%char :: (c :: tok) ++ NUL :: m) with (a ++ b ++ [" "%char] ++ (c :: tok) ++ NUL :: m).
  set (mem := a ++ b ++ _). assert (Dp : drop (k + 1) mem = (c :: tok) ++ NUL :: m) by (unfold mem; rewrite <- drop_drop, Dk; done).
  rewrite Dp, span_all by done. cbn [obind]. rewrite bool_decide_false by done.
  assert (Em : mem = (a ++ b ++ [" "%char] ++ c :: tok) ++ NUL :: m) by (unfold mem; now rewrite <- !app_assoc).
  replace (Z.of_nat (k + 1 + length (c :: tok))) with (Z.of_nat (length (a ++ b ++ [" "%char] ++ c :: tok)))
    by (rewrite !length_app; cbn [length]; lia).
  rewrite Em, wr_here, <- Em. cbn [obind]. rewrite Dp, take_app_length. unfold token_credentials.
  destruct (ws_base64_decode _ _ _) as [[l buf]| | |]; cbn [obind]; [|done..]. now destruct (l <=? 0).
Qed.
Lemma later_same t m : Forall (fun c => c <> CR /\ c <> LF) t -> later t m -> m = t.
Proof.
  intros F H. unfold later in H. induction H as [|c d t m Hc _ IH]; [done|]. apply Forall_cons in F as [[N1 N2] F]. rewrite (IH F).
  destruct Hc as [-> |[[?|?] _]]; congruence.
Qed.
Lemma basic_credentials_read r a b tok m len c : rq_ch r H_auth = v_vec (Z.of_nat (length a)) len -> 10 < len -> lower b = lit "basic" ->
  tok <> [] -> Forall (fun c => token_char c = true) tok -> token_credentials tok = Done c ->
  credentials_read r (a ++ b ++ " "%char :: tok ++ NUL :: m) c.
Proof.
  intros Ea L Lb Ne F T mem x La Er. apply Forall2_app_inv_l in La as (a' & y & Ha & Hy & ->). apply Forall2_app_inv_l in Hy as (b' & z & Hb & Hz & ->).
  change (" "%char :: tok ++ NUL :: m) with ((" "%char :: tok) ++ NUL :: m) in Hz. apply Forall2_app_inv_l in Hz as (t' & q & Ht & Hq & ->).
  assert (Eb : b' = b).
  { apply later_same; [|done]. apply Forall_forall. intros d Hd. apply (list_elem_of_fmap_2 tolower) in Hd. change (tolower <$> b) with (lower b) in Hd. rewrite Lb in Hd.
    split; intros ->; revert Hd; apply (bool_decide_eq_false_1 _); vm_compute; reflexivity. }
  assert (Et : t' = " "%char :: tok).
  { apply later_same; [|done]. constructor; [split; discriminate|]. eapply Forall_impl; [exact F|]. intros d Td. cbv beta in Td.
    split; intros ->; discriminate Td. }
  inversion Hq as [|? d ? m' Hd Hm]; subst. assert (d = NUL) as -> by (destruct Hd as [->|[_ ->]]; done).
  pose proof (Forall2_length _ _ _ Ha) as Len. pose proof (f_equal length Lb) as Lb5. unfold lower in Lb5. rewrite length_map in Lb5. change (length b = 5%nat) in Lb5.
  unfold shttpd_get_credentials. rewrite Er. cbn [at_mem with_mem set_ch_uri rq_ch rq_request]. rewrite Ea. cbn [vec_of deref obind].
  rewrite (proj2 (Z.ltb_lt 10 len) L).
  assert (Sc : (strncasecmp (drop (Z.to_nat (Z.of_nat (length a))) (a' ++ b ++ (" "%char :: tok) ++ NUL :: m')) (lit "Basic ") 6 =? 0) = true).
  { rewrite Nat2Z.id, Len, drop_app_length. unfold strncasecmp. rewrite lower_app, Lb. change (lower ((" "%char :: tok) ++ NUL :: m')) with (" "%char :: lower (tok ++ NUL :: m')). generalize (lower (tok ++ NUL :: m')). intros z. destruct z; vm_compute; reflexivity. }
  rewrite Sc. rewrite Len. change (a' ++ b ++ (" "%char :: tok) ++ NUL :: m') with (a' ++ b ++ " "%char :: tok ++ NUL :: m').
  rewrite basic_marked by done. rewrite T. cbn [obind]. destruct x as [rx ? ? ? ? ? ? ?]. cbn in Er |- *. now subst rx.
Qed.

(** What a client gets of a document behind a head: a part of it, all of it when the callback says so, and all of it as soon as the
    rooms are larger than it. *)
Definition delivered (doc : list ascii) (rooms : list Z) (sent : list ascii) (complete : bool) : Prop :=
  (exists unsent, doc = sent ++ unsent /\ (complete = true -> unsent = [])) /\
  (Z.of_nat (length doc) < foldr Z.add 0 rooms -> sent = doc /\ complete = true).
Lemma hand_out_delivered doc rooms : Forall (fun k => 0 <= k) rooms -> delivered doc rooms (hand_out doc rooms).1 (hand_out doc rooms).2.
Proof.
  intros F. split; [|intros L; now rewrite hand_out_all]. destruct (hand_out_prefix rooms doc) as (rest & E & R). by exists rest.
Qed.
(** A request of which the last piece has arrived, and whose answer is known. *)
Record request_ready (r : request) (hl : Z) (lines : list cstring) (body : list ascii) : Prop := Ready {
  rr_head : head_ok r hl lines; rr_fits : all_fit lines; rr_charset : charset_fits lines; rr_type : soap_type lines = true;
  rr_uri : asks_for r (lit "/wsman");
  rr_length : exists v, header_value (lit "Content-Length") lines = Some v /\ strtoul v = Z.of_nat (length body) }.
Lemma with_same_mem mem r : rq_request r = Some mem -> with_mem mem r = r.
Proof. intros E. unfold with_mem, set_ch_uri. destruct r. cbn in *. now rewrite E. Qed.

Lemma exchange_ok r hl lines mem0 c feed bs k rest body status resp w w' : request_ready r hl lines body -> rq_request r = Some mem0 ->
  credentials_read r mem0 c -> body = concat (map fst feed) ++ bs ->
  feed = [] \/ (length (concat (map fst feed)) < length body)%nat -> Z.of_nat (length body) < 2 ^ 64 ->
  dispatch parse dump identify_file file (charset lines) body c w = Done ((status, resp), w') ->
  let doc := default [] resp in let head := response_head status (charset lines) false (Z.of_nat (length doc)) in
  Z.of_nat (length head) < k -> Forall (fun k => 0 <= k) (map snd rest) ->
  exists sent complete, serve r hl None (feed ++ (bs, k) :: rest) w = Done ((head ++ sent, complete), w') /\
    delivered doc ((k - Z.of_nat (length head)) :: map snd rest) sent complete.
Proof.
  intros [Rh Rf Rc Rt Ru (v & Ev & Lv)] Em Cr Eb Fe U D doc head L Fk. assert (Er : at_mem r mem0 = r) by (now apply with_same_mem).
  assert (G : head_good r hl lines mem0 mem0) by (constructor; [unfold at_mem; now rewrite with_same_mem|apply later_refl]).
  assert (Sf : exists p mem, collected (strtoul v) (concat (map fst feed)) p /\ head_good r hl lines mem0 mem /\
    serve (at_mem r mem0) hl None (feed ++ (bs, k) :: rest) w = serve (at_mem r mem) hl p ((bs, k) :: rest) w).
  { destruct Fe as [-> |Fe]; [exists None, mem0; split; [now left|]; done|].
    apply (serve_feed r hl lines mem0 v ((bs, k) :: rest) feed Rf Ev [] None mem0 w); [now left|done|cbn [app]; lia|lia]. }
  rewrite Er in Sf. destruct Sf as (p & mem & Cp & Gm & ->). destruct (collected_start _ _ _ v Cp eq_refl) as (st & -> & S).
  destruct (callback_start r hl lines mem0 p _ k bs w v mem Rf Gm Ev S) as (mem1 & G1 & Ec).
  cbn [st_response reading] in Ec. rewrite (take_in_reading (strtoul v) _ bs) in Ec by (done || (rewrite <- Eb; lia)). rewrite <- Eb in Ec.
  replace (nread (reading (strtoul v) body) <? cl (reading (strtoul v) body)) with false in Ec by (symmetry; apply Z.ltb_ge; cbn [nread cl reading]; lia).
  set (a := with_state (Some (Live (reading (strtoul v) body))) _) in Ec.
  assert (La : Z.of_nat (length head) < room a) by (unfold room, a; cbn [a_out_len a_out with_state with_in_bytes live length]; lia).
  destruct (wsman_ok r hl lines mem0 c (reading (strtoul v) body) a mem1 w status resp w' Rf Rc Rt Cr Ru G1 eq_refl eq_refl D La) as (mem2 & G2 & Ew).
  rewrite Ew in Ec. cbn [serve]. fold (live r hl p k bs mem). step Ec. fold head.
  set (rooms := (k - Z.of_nat (length head)) :: map snd rest).
  assert (Fr : Forall (fun k => 0 <= k) rooms) by (constructor; [lia|done]).
  exists (hand_out doc rooms).1, (hand_out doc rooms).2. split; [|now apply hand_out_delivered]. subst rooms. cbn [hand_out].
  unfold deliver. rewrite room_output. unfold room, a, length_of. cbn [with_req a_out a_out_len with_state with_in_bytes live st_response with_response index length].
  fold doc. fold head. rewrite !Z.sub_0_r. change (Z.to_nat 0) with 0%nat. change (drop 0 doc) with doc.
  destruct (Z.leb_spec (k - Z.of_nat (length head)) (Z.of_nat (length doc))) as [Le|Gt]; cbn [with_req with_in_bytes live with_output with_state end_of_output a_flags a_out a_state a_req app].
  - change (has 0 SHTTPD_END_OF_OUTPUT) with false. cbv iota.
    assert (resp = Some doc) as Rd by (destruct resp; [done|cbn in *; lia]).
    assert (Es : serve (at_mem r mem2) hl (Some (Live (with_index (0 + (k - Z.of_nat (length head))) (with_response resp 0 (reading (strtoul v) body))))) rest w' =
      Done (hand_out (drop (Z.to_nat (k - Z.of_nat (length head))) doc) (map snd rest), w')).
    { apply (serve_rest r hl lines mem0 rest mem2 (with_index (0 + (k - Z.of_nat (length head))) (with_response resp 0 (reading (strtoul v) body))) doc v); try done.
      unfold length_of. cbn [index with_index with_response st_response]. fold doc. lia. }
    step Es. destruct (hand_out _ _) as [o e]. cbn [fst snd]. now rewrite <- app_assoc.
  - change (has (set_flag 0 SHTTPD_END_OF_OUTPUT) SHTTPD_END_OF_OUTPUT) with true. done.
Qed.
(** C6. A POST to /wsman is answered once and completely, however its body is cut into pieces, under the conditions
    below: while the body arrives nothing is sent; when the last piece is there, the dispatcher is called, that one time,
    with exactly the bytes that arrived in the order in which they did, the encoding of the Content-Type header and the
    credentials; the client then gets the head of the answer and the document behind it, in order and without gaps, and the
    end of the output is signalled only when all of the document has been handed out, which it is as soon as the rooms
    together are larger than the document.
    The conditions: the media type, if given, starts with that of SOAP, and a charset in it has at least one character behind
    its name (otherwise the request is refused with 415, or the encoding is read behind the end of the header); the first line
    that starts with the name of a header that is asked for is at least two characters longer than the name; the
    Content-Length found so is the length of the body, below 2^64, and the pieces before the last one do not make up the body;
    the credentials, if any, can be read (credentials_read); the dispatcher returns; and the room in the connection when the
    last piece arrives is strictly larger than the head of the answer (otherwise the head is cut, or the request is dispatched
    a second time). *)
Theorem request_answered r hl lines mem0 c feed bs k rest body status resp w w' : request_ready r hl lines body -> rq_request r = Some mem0 ->
  credentials_read r mem0 c -> body = concat (map fst feed) ++ bs ->
  feed = [] \/ (length (concat (map fst feed)) < length body)%nat -> Z.of_nat (length body) < 2 ^ 64 ->
  dispatch parse dump identify_file file (charset lines) body c w = Done ((status, resp), w') ->
  let doc := default [] resp in let head := response_head status (charset lines) false (Z.of_nat (length doc)) in
  Z.of_nat (length head) < k -> Forall (fun k => 0 <= k) (map snd rest) ->
  exists sent complete, serve r hl None (feed ++ (bs, k) :: rest) w = Done ((head ++ sent, complete), w') /\
    delivered doc ((k - Z.of_nat (length head)) :: map snd rest) sent complete.
Proof. exact (exchange_ok r hl lines mem0 c feed bs k rest body status resp w w'). Qed.
End Exchange.

(** ** The listener with the server behind it *)
Section Server.
(** The parameters of the dispatcher, and those of the handler of indications. *)
Context (content : cstring -> list xml) (prefix : cstring -> option cstring) (uuid_fault uuid_out : cstring) (dump_len : xml -> Z).
Context (soap : Dispatcher.Dispatcher.filters) (get : xml -> outcome (option (option Dispatcher.Dispatcher.callback))).
Context {Poll Cancel : Type} (vendor_namespaces : positive -> option (list (cstring * cstring))).
(** The store: the ids of the messages that were processed, and the subscriptions with their events. *)
Definition store : Type := (option (list cstring) * @Subscribe.Subscribe.server CimIndication.CimIndication.notification Poll Cancel)%type.
#[export] Instance openwsman : Soap store := {
  dispatch_inbound_call _ request msg := fun w =>
    let* r := Dispatcher.Dispatcher.dispatch_inbound_call content prefix uuid_fault soap get request w.1 msg in Done (r.1, (r.2, w.2));
  CIM_Indication_call uuid request msg := fun w =>
    let* r := CimIndication.CimIndication.CIM_Indication_call content vendor_namespaces uuid request msg w.2 in Done (r.1, (w.1, r.2)) }.
Context (parse : cstring -> list ascii -> option xml) (dump : xml -> list ascii) (server remote_addr : cstring).
Context (anon_identify_file : option cstring) (file : cstring -> Buf.Buf.file_answer).
Local Abbreviation serve := (serve parse dump server remote_addr None anon_identify_file file).
(** What the dispatcher needs of a body that is parsed to a valid envelope. *)
Local Abbreviation servable := (fun body enc => forall doc, parse enc body = Some doc ->
  (Envelope.Envelope.wsman_is_valid_envelope Faults.Faults.wsman_status_init doc).2 = Faults.Faults.wsman_status_init ->
  Dispatcher.Dispatcher.served_by get doc /\ Dispatcher.Dispatcher.timeout_defined (Dispatcher.Dispatcher.Op (Some doc) None 0 0)).

End Server.

(** ** Concrete requests *)
(** The head of a request as it is when its handler is called; [auth]: the place and length of the Authorization header. *)
Definition demo_line : list ascii := lit "POST /wsman HTTP/1.1" ++ [NUL; NUL].
Definition crlf (s : string) : list ascii := lit s ++ [CR; LF].
Definition demo_head (uri : string) (auth : Z * Z) (lines : list ascii) : @HttpConn.request :=
  Request 0 0 (Some (lit uri ++ [NUL])) 1 1 (Some (demo_line ++ (lines ++ [CR; LF]) ++ [NUL])) 22 None (set_header no_headers H_auth (v_vec auth.1 auth.2)).
Definition demo_lines : list ascii := crlf "Content-Length: 5" ++ crlf "Content-Type: application/soap+xml;charset=UTF-16".
(** A server that notes what it is asked, and answers with one element. *)
Definition demo_soap (reply : option xml) : Soap (list cstring) := {|
  dispatch_inbound_call c request _ := fun w =>
    Done (Dispatcher.Dispatcher.Msg Faults.Faults.wsman_status_init 0 200 reply, w ++ [from_option (fun c => c.1) [] c ++ from_option content_of [] request]);
  CIM_Indication_call uuid _ msg := fun w =>
    Done (CimIndication.CimIndication.cimxml_set_fault (CimIndication.CimIndication.CimMsg CimIndication.CimIndication.CIMXML_STATUS_OK None 404 None)
      CimIndication.CimIndication.CIMXML_STATUS_REQUEST_NOT_VALID, w ++ [default [] uuid]) |}.
Definition demo_parse (enc : cstring) (bs : list ascii) : option xml := Some (Text (enc ++ lit "/" ++ bs)).
Definition demo_dump (d : xml) : list ascii := lit "<Done/>".
Definition demo_serve (reply : option xml) (r : HttpConn.request) (calls : list (list ascii * Z)) : outcome (list ascii * bool * list cstring) :=
  serve (Soap0 := demo_soap reply) demo_parse demo_dump (lit "openwsman/2.6.1") [] None None (fun _ => Buf.Buf.NoFile) r
    (from_option (fun m => Z.of_nat (length m) - 1) 0 (rq_request r)) None calls [].
Definition done : option xml := Some (Elem None (lit "Done") [] []).
Definition demo_response (enc : string) (len : Z) : cstring := response_head (lit "openwsman/2.6.1") 200 (lit enc) false len.
(** The body comes in two pieces, the document leaves in two. *)
Example in_pieces : demo_serve done (demo_head "/wsman" (0, 0) demo_lines) [(lit "ab", 400); (lit "cde", Z.of_nat (length (demo_response "UTF-16" 7)) + 4); ([], 400)] =
  Done (demo_response "UTF-16" 7 ++ lit "<Done/>", true, [lit "UTF-16/abcde"]).
Proof. vm_compute. reflexivity. Qed.
(** The reason behind the status is NULL. *)
Example null_reason : take 19 (demo_response "UTF-8" 7) = lit "HTTP/1.1 200 (null)".
Proof. vm_compute. reflexivity. Qed.
(** A head that does not fit is cut, and a NUL is sent in its place. *)
Example cut_head : match demo_serve done (demo_head "/wsman" (0, 0) demo_lines) [(lit "abcde", 30)] with
  | Done (o, complete, _) => (drop 21 o, complete) | _ => ([], true) end = (lit "Server: " ++ [NUL], false).
Proof. vm_compute. reflexivity. Qed.
(** An answer without a document that fills the room to the last byte: the request is dispatched once more. *)
Example twice : match demo_serve None (demo_head "/wsman" (0, 0) demo_lines) [(lit "abcde", Z.of_nat (length (demo_response "UTF-16" 0))); ([], 400)] with
  | Done (_, complete, w) => (complete, w) | _ => (false, []) end = (true, [lit "UTF-16/abcde"; lit "UTF-16/abcde"]).
Proof. vm_compute. reflexivity. Qed.
(** A media type that ends in [charset]: the encoding is read behind its end, and the line that follows is sent back as a header. *)
Example split_response : exists rest, demo_serve done
    (demo_head "/wsman" (0, 0) (crlf "Content-Length: 5" ++ crlf "Content-Type: application/soap+xml;charset" ++ crlf "X-Other: 1")) [(lit "abcde", 400)] =
  Done (response_head (lit "openwsman/2.6.1") 200 ([LF] ++ lit "X-Other: 1" ++ rest) false 7 ++ lit "<Done/>", true,
    [[LF] ++ lit "X-Other: 1" ++ rest ++ lit "/abcde"]).
Proof. exists ([CR; LF; CR; LF]). vm_compute. reflexivity. Qed.
(** A name is compared with the start of a line only. *)
Example name_prefix : match demo_serve done (demo_head "/wsman" (0, 0) (crlf "Content-Lengthy: 1" ++ crlf "Content-Length: 5")) [(lit "a", 400); (lit "bcde", 400)] with
  | Done (_, _, w) => w | _ => [] end = [lit "UTF-8/a"].
Proof. vm_compute. reflexivity. Qed.
(** An error of an indication is answered without the empty line that ends a head. *)
Example cim_error : demo_serve done (demo_head "/cimindicationlistener/u1" (0, 0) (demo_lines ++ crlf "CIMExport: MethodRequest" ++ crlf "CIMExportMethod: ExportIndication"))
    [(lit "abcde", 400)] = Done (crlf "HTTP/1.1 404 (null)" ++ crlf "CIMError:5:request-not-valid", true, [lit "u1"]).
Proof. vm_compute. reflexivity. Qed.
(** The export method is looked for as a name and so found as a prefix: one header stands for both. *)
Example one_header : demo_serve done (demo_head "/cimindicationlistener/u1" (0, 0) (demo_lines ++ crlf "CIMExportMethod: x"))
    [(lit "abcde", 400)] = Done (crlf "HTTP/1.1 404 (null)" ++ crlf "CIMError:5:request-not-valid", true, [lit "u1"]).
Proof. vm_compute. reflexivity. Qed.
Example no_length : demo_serve done (demo_head "/wsman" (0, 0) (crlf "Content-Type: application/soap+xml")) [(lit "abcde", 400)] =
  Done (lit "HTTP/1.0 411 Length Required" ++ [LF; LF], true, []).
Proof. vm_compute. reflexivity. Qed.
Example wrong_type : match demo_serve done (demo_head "/wsman" (0, 0) (crlf "Content-Length: 5" ++ crlf "Content-Type: text/plain")) [(lit "abcde", 400)] with
  | Done (o, complete, w) => (take 12 o, complete, w) | _ => ([], false, []) end = (lit "HTTP/1.1 415", true, []).
Proof. vm_compute. reflexivity. Qed.

(** A request with credentials, whose check has marked the end of the token. *)
Definition auth_before : list ascii := demo_lines ++ lit "Authorization: ".
Definition auth_lines : list ascii := auth_before ++ lit "Basic d3NtYW46c2VjcmV0" ++ [NUL; LF].
Definition auth_head : HttpConn.request := demo_head "/wsman" (Z.of_nat (length (demo_line ++ auth_before)), 22) auth_lines.
Definition auth_mem : list ascii := (demo_line ++ auth_before) ++ lit "Basic" ++ " "%char :: lit "d3NtYW46c2VjcmV0" ++ NUL :: LF :: [CR; LF; NUL].
Definition auth_visible : list cstring := map lit ["Content-Length: 5"; "Content-Type: application/soap+xml;charset=UTF-16"; "Authorization: Basic d3NtYW46c2VjcmV0"]%string.
Lemma auth_mem_ok : rq_request auth_head = Some auth_mem.
Proof. vm_compute. reflexivity. Qed.
Lemma auth_ready body : length body = 5%nat -> request_ready auth_head (Z.of_nat (length auth_mem) - 1) auth_visible body.
Proof.
  intros L. constructor.
  - exists demo_line, (auth_lines ++ [CR; LF]), []. split; [vm_compute; reflexivity|]. split; [vm_compute; reflexivity|]. split; [vm_compute; reflexivity|].
    split; [vm_compute; reflexivity|]. split; [right; exists LF; split; [vm_compute; reflexivity|now right]|vm_compute; reflexivity].
  - repeat constructor; unfold header_fits; cbn -[length]; vm_compute; lia.
  - unfold charset_fits. vm_compute. lia.
  - vm_compute. reflexivity.
  - exists (lit "/wsman" ++ [NUL]). split; vm_compute; reflexivity.
  - exists (lit "5"). split; [vm_compute; reflexivity|]. rewrite L. reflexivity.
Qed.
Lemma auth_credentials : credentials_read auth_head auth_mem (Some (lit "wsman", lit "secret")).
Proof.
  apply (basic_credentials_read auth_head (demo_line ++ auth_before) (lit "Basic") (lit "d3NtYW46c2VjcmV0") (LF :: [CR; LF; NUL]) 22); try reflexivity || done. repeat constructor.
Qed.
Lemma request_answered_witness : exists sent complete,
  demo_serve done auth_head [(lit "ab", 400); (lit "cde", 400); ([], 400)] = Done (demo_response "UTF-16" 7 ++ sent, complete, [lit "wsmanUTF-16/abcde"]) /\
  delivered (lit "<Done/>") ((400 - Z.of_nat (length (demo_response "UTF-16" 7))) :: [400]) sent complete.
Proof.
  apply (request_answered (Soap0 := demo_soap done) demo_parse demo_dump (lit "openwsman/2.6.1") [] None None (fun _ => Buf.Buf.NoFile)
    auth_head (Z.of_nat (length auth_mem) - 1) auth_visible auth_mem (Some (lit "wsman", lit "secret")) [(lit "ab", 400)] (lit "cde") 400 [([], 400)]
    (lit "abcde") 200 (Some (lit "<Done/>")) [] [lit "wsmanUTF-16/abcde"] (auth_ready (lit "abcde") eq_refl) auth_mem_ok auth_credentials eq_refl).
  - right. vm_compute. lia.
  - vm_compute. reflexivity.
  - vm_compute. reflexivity.
  - vm_compute. reflexivity.
  - repeat constructor; discriminate.
Defined.
(** The same request with the real dispatcher behind it. *)
Definition demo_start : @store unit unit := (None, CimIndication.CimIndication.demo_server Subscribe.Subscribe.PUSH).
Definition demo_post (calls : list (list ascii * Z)) :=
  serve (Soap0 := openwsman Xml.demo_content Envelope.Envelope.demo_prefix [] Dispatcher.Dispatcher.demo_soap
      (fun _ => Done (Some (Some Dispatcher.Dispatcher.demo_endpoint))) (fun _ => None))
    (fun _ _ => Some Envelope.Envelope.demo_request) demo_dump (lit "openwsman/2.6.1") [] None None (fun _ => Buf.Buf.NoFile)
    auth_head (Z.of_nat (length auth_mem) - 1) None calls demo_start.
(** What comes back through the dispatcher: the fault of a check, with its status. *)
Example post_refused : match demo_post [(lit "abcde", 400); ([], 400)] with Done (r, (ids, _)) => (r, ids) | _ => (([], false), None) end =
  ((response_head (lit "openwsman/2.6.1") 400 (lit "UTF-16") false 7 ++ lit "<Done/>", true), Some [lit "uuid:1"]).
Proof. vm_compute. reflexivity. Qed.
End ListenerServe.
