(* ===== verification/Client.v ===== *)
(** * Client: the requests of the client library (lib/wsman-client.c)

    The options of a request, the envelopes that are built of them, and what is read out of the answers.
    Documents are their roots, as in Envelope; a node that the code works on through its handle is a
    value that takes its place in the tree again.  [parse] is ws_xml_read_memory, [uuid] what
    generate_uuid writes.  A float is a value of binary32.  Lists of keys and values are their
    contents, [None] for a NULL list; the table of options is a table of KazHash. *)
From Stdlib Require Import SpecFloat.
From S2P Require Import Prelude CString Names HttpText HttpAuth Uri KazHash Faults EventPool Xml Epr Filter Envelope.
Import KazHash Names Xml Epr Filter Envelope.

Module Client.

(** ** Options of a request *)

(* src: src/CIM_Framework/openwsman/include/wsman-client-api.h 114-132 WsmanAction *)
Inductive WsmanAction :=
  | WSMAN_ACTION_NONE | WSMAN_ACTION_TRANSFER_GET | WSMAN_ACTION_TRANSFER_PUT | WSMAN_ACTION_ENUMERATION
  | WSMAN_ACTION_PULL | WSMAN_ACTION_RELEASE | WSMAN_ACTION_CUSTOM | WSMAN_ACTION_TRANSFER_CREATE
  | WSMAN_ACTION_TRANSFER_DELETE | WSMAN_ACTION_IDENTIFY | WSMAN_ACTION_ANON_IDENTIFY | WSMAN_ACTION_SUBSCRIBE
  | WSMAN_ACTION_UNSUBSCRIBE | WSMAN_ACTION_RENEW | WSMAN_ACTION_ASSOCIATORS | WSMAN_ACTION_REFERENCES | WSMAN_ACTION_TEST.
#[global] Instance action_eq_dec : EqDecision WsmanAction.
Proof. solve_decision. Defined.
(* src: src/CIM_Framework/openwsman/include/wsman-client-api.h 134-139 WsmanDeliveryMode *)
Inductive WsmanDeliveryMode := WSMAN_DELIVERY_PUSH | WSMAN_DELIVERY_PUSHWITHACK | WSMAN_DELIVERY_EVENTS | WSMAN_DELIVERY_PULL.
(* src: src/CIM_Framework/openwsman/include/wsman-client-api.h 141-153 WsManDeliverySecurityMode *)
Inductive WsManDeliverySecurityMode :=
  | WSMAN_DELIVERY_SEC_AUTO | WSMAN_DELIVERY_SEC_HTTP_BASIC | WSMAN_DELIVERY_SEC_HTTP_DIGEST | WSMAN_DELIVERY_SEC_HTTPS_BASIC
  | WSMAN_DELIVERY_SEC_HTTPS_DIGEST | WSMAN_DELIVERY_SEC_HTTPS_MUTUAL | WSMAN_DELIVERY_SEC_HTTPS_MUTUAL_BASIC
  | WSMAN_DELIVERY_SEC_HTTPS_MUTUAL_DIGEST | WSMAN_DELIVERY_SEC_HTTPS_SPNEGO_KERBEROS
  | WSMAN_DELIVERY_SEC_HTTPS_MUTUAL_SPNEGO_KERBEROS | WSMAN_DELIVERY_SEC_HTTP_SPNEGO_KERBEROS.

Definition FLAG_ENUMERATION_COUNT_ESTIMATION : Z := 0x0001.
Definition FLAG_ENUMERATION_OPTIMIZATION : Z := 0x0002.
Definition FLAG_ENUMERATION_ENUM_EPR : Z := 0x0004.
Definition FLAG_ENUMERATION_ENUM_OBJ_AND_EPR : Z := 0x0008.
Definition FLAG_IncludeSubClassProperties : Z := 0x0020.
Definition FLAG_ExcludeSubClassProperties : Z := 0x0040.
Definition FLAG_POLYMORPHISM_NONE : Z := 0x0080.
Definition FLAG_MUND_MAX_ESIZE : Z := 0x0100.
Definition FLAG_CIM_EXTENSIONS : Z := 0x1000.
Definition FLAG_CIM_REFERENCES : Z := 0x2000.
Definition FLAG_EVENT_SENDBOOKMARK : Z := 0x8000.
Definition FLAG_EXCLUDE_NIL_PROPS : Z := 0x20000.

(* src: src/CIM_Framework/openwsman/include/wsman-client-api.h 179-200 client_opt_t *)
Record client_opt_t := Opts {
  o_flags : Z; o_fragment : option cstring; o_cim_ns : option cstring; o_delivery_uri : option cstring;
  o_reference : option cstring; o_delivery_mode : WsmanDeliveryMode; o_delivery_sec_mode : WsManDeliverySecurityMode;
  o_delivery_username : option cstring; o_delivery_password : option cstring;
  o_delivery_certificatethumbprint : option cstring; o_heartbeat_interval : spec_float; o_expires : spec_float;
  o_selectors : option (list (key_value_t epr_t)); o_properties : option (list (key_value_t epr_t));
  o_timeout : Z; o_max_envelope_size : Z; o_max_elements : Z; o_options : option (@hash_t cstring); o_locale : option cstring }.

(** All bits zero. *)
(* src: lib/wsman-client.c 326-335 wsmc_options_init *)
Definition wsmc_options_init : client_opt_t :=
  Opts 0 None None None None WSMAN_DELIVERY_PUSH WSMAN_DELIVERY_SEC_AUTO None None None (S754_zero false) (S754_zero false)
    None None 0 0 0 None None.
Definition set_flags (x : Z) (o : client_opt_t) : client_opt_t :=
    Opts x (o_fragment o) (o_cim_ns o) (o_delivery_uri o) (o_reference o) (o_delivery_mode o) (o_delivery_sec_mode o)
    (o_delivery_username o) (o_delivery_password o) (o_delivery_certificatethumbprint o) (o_heartbeat_interval o)
    (o_expires o) (o_selectors o) (o_properties o) (o_timeout o) (o_max_envelope_size o) (o_max_elements o) (o_options o)
    (o_locale o).
Definition set_selectors (x : option (list (key_value_t epr_t))) (o : client_opt_t) : client_opt_t :=
    Opts (o_flags o) (o_fragment o) (o_cim_ns o) (o_delivery_uri o) (o_reference o) (o_delivery_mode o)
    (o_delivery_sec_mode o) (o_delivery_username o) (o_delivery_password o) (o_delivery_certificatethumbprint o)
    (o_heartbeat_interval o) (o_expires o) x (o_properties o) (o_timeout o) (o_max_envelope_size o) (o_max_elements o)
    (o_options o) (o_locale o).
Definition set_properties (x : option (list (key_value_t epr_t))) (o : client_opt_t) : client_opt_t :=
    Opts (o_flags o) (o_fragment o) (o_cim_ns o) (o_delivery_uri o) (o_reference o) (o_delivery_mode o)
    (o_delivery_sec_mode o) (o_delivery_username o) (o_delivery_password o) (o_delivery_certificatethumbprint o)
    (o_heartbeat_interval o) (o_expires o) (o_selectors o) x (o_timeout o) (o_max_envelope_size o) (o_max_elements o)
    (o_options o) (o_locale o).
Definition set_options (x : option (@hash_t cstring)) (o : client_opt_t) : client_opt_t :=
    Opts (o_flags o) (o_fragment o) (o_cim_ns o) (o_delivery_uri o) (o_reference o) (o_delivery_mode o)
    (o_delivery_sec_mode o) (o_delivery_username o) (o_delivery_password o) (o_delivery_certificatethumbprint o)
    (o_heartbeat_interval o) (o_expires o) (o_selectors o) (o_properties o) (o_timeout o) (o_max_envelope_size o)
    (o_max_elements o) x (o_locale o).

(* src: lib/wsman-client.c 376-381 wsmc_set_action_option *)
Definition wsmc_set_action_option (o : client_opt_t) (flag : Z) : client_opt_t := set_flags (Z.lor (o_flags o) flag) o.
(* src: lib/wsman-client.c 384-388 wsmc_get_action_option *)
Definition wsmc_get_action_option (o : client_opt_t) : Z := o_flags o.
(* src: lib/wsman-client.c 391-396 wsmc_clear_action_option *)
Definition wsmc_clear_action_option (o : client_opt_t) (flag : Z) : client_opt_t := set_flags (Z.ldiff (o_flags o) flag) o.
(** [(options->flags & f) == f] *)
Definition has_flag (o : client_opt_t) (f : Z) : bool := Z.land (o_flags o) f =? f.
(* src: lib/wsman-client.c 622-627 wsmc_set_delivery_uri *)
Definition wsmc_set_delivery_uri (x : option cstring) (o : client_opt_t) : client_opt_t :=
    Opts (o_flags o) (o_fragment o) (o_cim_ns o) x (o_reference o) (o_delivery_mode o) (o_delivery_sec_mode o)
    (o_delivery_username o) (o_delivery_password o) (o_delivery_certificatethumbprint o) (o_heartbeat_interval o)
    (o_expires o) (o_selectors o) (o_properties o) (o_timeout o) (o_max_envelope_size o) (o_max_elements o) (o_options o)
    (o_locale o).
(* src: lib/wsman-client.c 629-634 wsmc_set_cim_ns *)
Definition wsmc_set_cim_ns (x : option cstring) (o : client_opt_t) : client_opt_t :=
    Opts (o_flags o) (o_fragment o) x (o_delivery_uri o) (o_reference o) (o_delivery_mode o) (o_delivery_sec_mode o)
    (o_delivery_username o) (o_delivery_password o) (o_delivery_certificatethumbprint o) (o_heartbeat_interval o)
    (o_expires o) (o_selectors o) (o_properties o) (o_timeout o) (o_max_envelope_size o) (o_max_elements o) (o_options o)
    (o_locale o).
(* src: lib/wsman-client.c 636-641 wsmc_set_fragment *)
Definition wsmc_set_fragment (x : option cstring) (o : client_opt_t) : client_opt_t :=
    Opts (o_flags o) x (o_cim_ns o) (o_delivery_uri o) (o_reference o) (o_delivery_mode o) (o_delivery_sec_mode o)
    (o_delivery_username o) (o_delivery_password o) (o_delivery_certificatethumbprint o) (o_heartbeat_interval o)
    (o_expires o) (o_selectors o) (o_properties o) (o_timeout o) (o_max_envelope_size o) (o_max_elements o) (o_options o)
    (o_locale o).
(* src: lib/wsman-client.c 643-648 wsmc_set_reference *)
Definition wsmc_set_reference (x : option cstring) (o : client_opt_t) : client_opt_t :=
    Opts (o_flags o) (o_fragment o) (o_cim_ns o) (o_delivery_uri o) x (o_delivery_mode o) (o_delivery_sec_mode o)
    (o_delivery_username o) (o_delivery_password o) (o_delivery_certificatethumbprint o) (o_heartbeat_interval o)
    (o_expires o) (o_selectors o) (o_properties o) (o_timeout o) (o_max_envelope_size o) (o_max_elements o) (o_options o)
    (o_locale o).
(* src: lib/wsman-client.c 650-654 wsmc_set_sub_expiry *)
Definition wsmc_set_sub_expiry (x : spec_float) (o : client_opt_t) : client_opt_t :=
    Opts (o_flags o) (o_fragment o) (o_cim_ns o) (o_delivery_uri o) (o_reference o) (o_delivery_mode o)
    (o_delivery_sec_mode o) (o_delivery_username o) (o_delivery_password o) (o_delivery_certificatethumbprint o)
    (o_heartbeat_interval o) x (o_selectors o) (o_properties o) (o_timeout o) (o_max_envelope_size o) (o_max_elements o)
    (o_options o) (o_locale o).
(* src: lib/wsman-client.c 656-660 wsmc_set_heartbeat_interval *)
Definition wsmc_set_heartbeat_interval (x : spec_float) (o : client_opt_t) : client_opt_t :=
    Opts (o_flags o) (o_fragment o) (o_cim_ns o) (o_delivery_uri o) (o_reference o) (o_delivery_mode o)
    (o_delivery_sec_mode o) (o_delivery_username o) (o_delivery_password o) (o_delivery_certificatethumbprint o) x
    (o_expires o) (o_selectors o) (o_properties o) (o_timeout o) (o_max_envelope_size o) (o_max_elements o) (o_options o)
    (o_locale o).
(* src: lib/wsman-client.c 662-666 wsmc_set_delivery_mode *)
Definition wsmc_set_delivery_mode (x : WsmanDeliveryMode) (o : client_opt_t) : client_opt_t :=
    Opts (o_flags o) (o_fragment o) (o_cim_ns o) (o_delivery_uri o) (o_reference o) x (o_delivery_sec_mode o)
    (o_delivery_username o) (o_delivery_password o) (o_delivery_certificatethumbprint o) (o_heartbeat_interval o)
    (o_expires o) (o_selectors o) (o_properties o) (o_timeout o) (o_max_envelope_size o) (o_max_elements o) (o_options o)
    (o_locale o).
(* src: lib/wsman-client.c 668-672 wsmc_set_delivery_security_mode *)
Definition wsmc_set_delivery_security_mode (x : WsManDeliverySecurityMode) (o : client_opt_t) : client_opt_t :=
    Opts (o_flags o) (o_fragment o) (o_cim_ns o) (o_delivery_uri o) (o_reference o) (o_delivery_mode o) x
    (o_delivery_username o) (o_delivery_password o) (o_delivery_certificatethumbprint o) (o_heartbeat_interval o)
    (o_expires o) (o_selectors o) (o_properties o) (o_timeout o) (o_max_envelope_size o) (o_max_elements o) (o_options o)
    (o_locale o).
(* src: lib/wsman-client.c 674-679 wsmc_set_locale *)
Definition wsmc_set_locale (x : option cstring) (o : client_opt_t) : client_opt_t :=
    Opts (o_flags o) (o_fragment o) (o_cim_ns o) (o_delivery_uri o) (o_reference o) (o_delivery_mode o)
    (o_delivery_sec_mode o) (o_delivery_username o) (o_delivery_password o) (o_delivery_certificatethumbprint o)
    (o_heartbeat_interval o) (o_expires o) (o_selectors o) (o_properties o) (o_timeout o) (o_max_envelope_size o)
    (o_max_elements o) (o_options o) x.
(* src: lib/wsman-client.c 681-685 wsmc_get_locale *)
Definition wsmc_get_locale (o : client_opt_t) : option cstring := o_locale o.

(** ** Keys and values *)

(** [list_find] with [_list_key_compare]. *)
(* src: lib/wsman-client.c 110-116 _list_key_compare *)
Fixpoint list_find_key (k : cstring) (l : list (key_value_t epr_t)) : outcome bool :=
  match l with
  | [] => Done false
  | x :: l => let* k1 := chars (key x) in if strcmp k1 k =? 0 then Done true else list_find_key k l
  end.
(** The list is made even when nothing is added to it. *)
(* src: lib/wsman-client.c 407-448 _wsmc_add_key_value *)
Definition _wsmc_add_key_value (list_ptr : option (list (key_value_t epr_t))) (k s : option cstring) (e : option epr_t)
    (useArray : bool) : outcome (option (list (key_value_t epr_t))) :=
  match s, e with
  | Some _, Some _ => Done list_ptr
  | _, _ =>
      match k with
      | None => Done list_ptr
      | Some k =>
          let list := default [] list_ptr in
          let* found := if useArray then Done false else list_find_key k list in
          if (found : bool) then Done (Some list) else
          let* kv := key_value_create (PStr k) (match s with Some s => PStr s | None => PNull end) e in
          Done (Some (list ++ [kv]))
      end
  end.
(* src: lib/wsman-client.c 455-461 wsmc_add_property_array_item *)
Definition wsmc_add_property_array_item (o : client_opt_t) (k v : option cstring) : outcome client_opt_t :=
  let* l := _wsmc_add_key_value (o_properties o) k v None true in Done (set_properties l o).
(* src: lib/wsman-client.c 468-474 wsmc_add_property *)
Definition wsmc_add_property (o : client_opt_t) (k v : option cstring) : outcome client_opt_t :=
  let* l := _wsmc_add_key_value (o_properties o) k v None false in Done (set_properties l o).
(* src: lib/wsman-client.c 482-488 wsmc_add_property_epr *)
Definition wsmc_add_property_epr (o : client_opt_t) (k : option cstring) (v : option epr_t) : outcome client_opt_t :=
  let* l := _wsmc_add_key_value (o_properties o) k None v false in Done (set_properties l o).
(* src: lib/wsman-client.c 519-525 wsmc_add_selector *)
Definition wsmc_add_selector (o : client_opt_t) (k v : option cstring) : outcome client_opt_t :=
  let* l := _wsmc_add_key_value (o_selectors o) k v None false in Done (set_selectors l o).
(* src: lib/wsman-client.c 527-533 wsmc_add_selector_epr *)
Definition wsmc_add_selector_epr (o : client_opt_t) (k : option cstring) (v : option epr_t) : outcome client_opt_t :=
  let* l := _wsmc_add_key_value (o_selectors o) k None v false in Done (set_selectors l o).
(** From the last to the first. *)
(* src: lib/wsman-client.c 341-358 _wsmc_kvl_destroy *)
Definition _wsmc_kvl_destroy (kvl : option (list (key_value_t epr_t))) : outcome unit :=
  match kvl with None => Done tt | Some l => each (fun kv _ => key_value_destroy kv) (length l) (rev l) tt end.
(** The table that u_parse_query makes, in the order [scan] of a scan of it. *)
(* src: lib/wsman-client.c 535-559 _wsmc_add_uri_to_list *)
Definition _wsmc_add_uri_to_list (scan : gmap cstring cstring -> list (cstring * cstring))
    (list_ptr : option (list (key_value_t epr_t))) (query_string : option cstring) : outcome (option (list (key_value_t epr_t))) :=
  match Uri.u_parse_query query_string with
  | None => Done list_ptr
  | Some q =>
      let* _ := _wsmc_kvl_destroy list_ptr in
      each (fun e l => _wsmc_add_key_value l (Some e.1) (Some e.2) None false) (length (scan q)) (scan q) None
  end.
(* src: lib/wsman-client.c 561-566 wsmc_add_selectors_from_str *)
Definition wsmc_add_selectors_from_str scan (o : client_opt_t) (query_string : option cstring) : outcome client_opt_t :=
  let* l := _wsmc_add_uri_to_list scan (o_selectors o) query_string in Done (set_selectors l o).
(* src: lib/wsman-client.c 568-573 wsmc_add_prop_from_str *)
Definition wsmc_add_prop_from_str scan (o : client_opt_t) (query_string : option cstring) : outcome client_opt_t :=
  let* l := _wsmc_add_uri_to_list scan (o_properties o) query_string in Done (set_properties l o).
(** A URI that cannot be parsed leaves the block of memory as malloc gave it, and its query is read. *)
(* src: lib/wsman-client.c 600-612 wsmc_set_selectors_from_uri *)
Definition wsmc_set_selectors_from_uri scan (resource_uri : cstring) (o : client_opt_t) : outcome client_opt_t :=
  let o := set_selectors None o in
  let* uri := Uri.u_uri_parse resource_uri in
  match uri with
  | None => Undef
  | Some u => wsmc_add_selectors_from_str scan o (Uri.query u)
  end.
(** The callback of wsman_epr_selector_cb. *)
(* src: lib/wsman-client.c 1459-1467 add_selectors_from_epr *)
Definition add_selectors_from_epr (kv : key_value_t epr_t) (o : client_opt_t) : outcome client_opt_t :=
  let* k := maybe (key kv) in
  match v kv with
  | VText t => let* t := maybe t in wsmc_add_selector o k t
  | VEpr e => wsmc_add_selector_epr o k e
  | VWild => Undef
  end.

(** The table of options; [tick], [realloc_ok] and [junk] are what memory gives. *)
Section Options.
Context (malloc_at : nat -> option positive) (tick : nat) (realloc_ok : bool) (junk : cstring).
Definition HASHCOUNT_T_MAX : Z := 2 ^ 64 - 1.
(** The bits of a [hash_val_t], set by the first hash_create. *)
Definition hash_val_t_bit : Z := 64.
(* src: lib/wsman-client.c 494-517 wsmc_add_option *)
Definition wsmc_add_option (o : client_opt_t) (k : cstring) (value : option cstring) : outcome client_opt_t :=
  let* t := match o_options o with None => hash_create3 malloc_at tick HASHCOUNT_T_MAX None None | t => Done t end in
  match t with
  | None => Done (set_options None o)
  | Some h =>
      let* found := hash_lookup h k in
      match found with
      | Some _ => Done (set_options (Some h) o)
      | None =>
          let* v := deref value in
          let* (_, h) := hash_alloc_insert hash_val_t_bit (S (S tick)) realloc_ok h junk k v in
          Done (set_options (Some h) o)
      end
  end.
End Options.

(** ** Texts *)

(** [%f] of a float: six decimals, the nearest, on a tie the even one. *)
Definition digits6 (x : Z) : cstring := let d := HttpAuth.dec x in repeat "0"%char (6 - length d) ++ d.
Definition half_even (n d : Z) : Z :=
  let q := n / d in let r := 2 * (n mod d) in if r <? d then q else if d <? r then q + 1 else if Z.even q then q else q + 1.
Definition printf_f (f : spec_float) : cstring :=
  let fixed (s : bool) (x : Z) := (if s then lit "-" else []) ++ HttpAuth.dec (x / 1000000) ++ "."%char :: digits6 (x mod 1000000) in
  match f with
  | S754_zero s => fixed s 0
  | S754_infinity s => if s then lit "-inf" else lit "inf"
  | S754_nan => lit "nan"
  | S754_finite s m e =>
      fixed s (if 0 <=? e then Z.pos m * 2 ^ e * 1000000 else half_even (Z.pos m * 1000000) (2 ^ (- e)))
  end.
(** [snprintf (buf, size, "PT%fS", f)], and the test of a float for zero. *)
Definition pt_f (size : nat) (f : spec_float) : cstring := take (size - 1) (lit "PT" ++ printf_f f ++ lit "S").
Definition nonzero (f : spec_float) : bool := match f with S754_zero _ => false | _ => true end.

(* src: lib/wsman-client.c 86-103 wsman_make_action *)
Definition wsman_make_action (uri op_name : option cstring) : option cstring :=
  match uri, op_name with Some u, Some o => Some (u ++ "/"%char :: o) | _, _ => None end.
(* src: lib/wsman-client.c 730-776 wsmc_create_action_str *)
Definition wsmc_create_action_str (action : WsmanAction) : option cstring :=
  let make ns name := wsman_make_action (Some ns) (Some name) in
  match action with
  | WSMAN_ACTION_ASSOCIATORS | WSMAN_ACTION_REFERENCES | WSMAN_ACTION_ENUMERATION => make XML_NS_ENUMERATION WSENUM_ENUMERATE
  | WSMAN_ACTION_PULL => make XML_NS_ENUMERATION WSENUM_PULL
  | WSMAN_ACTION_RELEASE => make XML_NS_ENUMERATION WSENUM_RELEASE
  | WSMAN_ACTION_TRANSFER_CREATE => make XML_NS_TRANSFER TRANSFER_CREATE
  | WSMAN_ACTION_TRANSFER_DELETE => make XML_NS_TRANSFER TRANSFER_DELETE
  | WSMAN_ACTION_TRANSFER_GET => make XML_NS_TRANSFER TRANSFER_GET
  | WSMAN_ACTION_TRANSFER_PUT => make XML_NS_TRANSFER TRANSFER_PUT
  | WSMAN_ACTION_SUBSCRIBE => make XML_NS_EVENTING WSEVENT_SUBSCRIBE
  | WSMAN_ACTION_UNSUBSCRIBE => make XML_NS_EVENTING WSEVENT_UNSUBSCRIBE
  | WSMAN_ACTION_RENEW => make XML_NS_EVENTING WSEVENT_RENEW
  | WSMAN_ACTION_NONE | WSMAN_ACTION_IDENTIFY | WSMAN_ACTION_ANON_IDENTIFY | WSMAN_ACTION_TEST | WSMAN_ACTION_CUSTOM => None
  end.
(* src: lib/wsman-client.c 778-796 wsmc_create_delivery_mode_str *)
Definition wsmc_create_delivery_mode_str (mode : WsmanDeliveryMode) : cstring :=
  match mode with
  | WSMAN_DELIVERY_PUSH => WSEVENT_DELIVERY_MODE_PUSH
  | WSMAN_DELIVERY_PUSHWITHACK => WSEVENT_DELIVERY_MODE_PUSHWITHACK
  | WSMAN_DELIVERY_EVENTS => WSEVENT_DELIVERY_MODE_EVENTS
  | WSMAN_DELIVERY_PULL => WSEVENT_DELIVERY_MODE_PULL
  end.
(* src: lib/wsman-client.c 798-837 wsmc_create_delivery_sec_mode_str *)
Definition wsmc_create_delivery_sec_mode_str (mode : WsManDeliverySecurityMode) : option cstring :=
  let profile name := Some (WSMAN_SECURITY_PROFILE name) in
  match mode with
  | WSMAN_DELIVERY_SEC_AUTO => None
  | WSMAN_DELIVERY_SEC_HTTP_BASIC => profile "http/basic"%string
  | WSMAN_DELIVERY_SEC_HTTP_DIGEST => profile "http/digest"%string
  | WSMAN_DELIVERY_SEC_HTTPS_BASIC => profile "https/basic"%string
  | WSMAN_DELIVERY_SEC_HTTPS_DIGEST => profile "https/digest"%string
  | WSMAN_DELIVERY_SEC_HTTPS_MUTUAL => profile "https/mutual"%string
  | WSMAN_DELIVERY_SEC_HTTPS_MUTUAL_BASIC => profile "https/mutual/basic"%string
  | WSMAN_DELIVERY_SEC_HTTPS_MUTUAL_DIGEST => profile "https/mutual/digest"%string
  | WSMAN_DELIVERY_SEC_HTTPS_SPNEGO_KERBEROS => profile "https/spnego-kerberos"%string
  | WSMAN_DELIVERY_SEC_HTTPS_MUTUAL_SPNEGO_KERBEROS => profile "https/mutual/spnego-kerberos"%string
  | WSMAN_DELIVERY_SEC_HTTP_SPNEGO_KERBEROS => profile "http/spnego-kerberos"%string
  end.
(** A URI without a question mark is given back as it is. *)
(* src: lib/wsman-client.c 2320-2340 wsmc_remove_query_string *)
Definition wsmc_remove_query_string (s : cstring) : cstring :=
  match HttpAuth.split_at "?" s with Some (r, _) => r | None => s end.

(** ** Envelopes *)
Section Requests.
Context (content : cstring -> list xml) (parse : cstring -> option xml) (uuid : cstring).
Local Abbreviation add_child := (ws_xml_add_child content).
Local Abbreviation new_node ns name value := (make_new_xml_node content (Some ns) name value false).
Local Abbreviation add_attr := (ws_xml_add_node_attr None).

(** [root_ns]: the namespace of the root of the document. *)
(* src: lib/wsman-xml-serialize.c 1636-1641 enforce_mustunderstand *)
Definition enforce_mustunderstand (root_ns : option cstring) (node : xml) : xml :=
  add_attr node root_ns SOAP_MUST_UNDERSTAND (Some (lit "true")).
(* src: lib/wsman-xml-serialize.c 1643-1656 ws_serialize_str *)
Definition ws_serialize_str (root_ns : option cstring) (parent : xml) (str : option cstring) (nameNs name : cstring)
    (mustunderstand : bool) : xml :=
  let node := new_node nameNs name str in
  append_child parent (if mustunderstand then enforce_mustunderstand root_ns node else node).
(* src: lib/wsman-xml-serialize.c 1659-1673 ws_serialize_uint32 *)
Definition ws_serialize_uint32 (root_ns : option cstring) (parent : xml) (val : Z) (nameNs name : cstring)
    (mustunderstand : bool) : xml :=
  let node := (ws_xml_set_node_ulong content (new_node nameNs name None) val).2 in
  append_child parent (if mustunderstand then enforce_mustunderstand root_ns node else node).

(* src: lib/wsman-client.c 586-597 wsmc_add_selector_from_options *)
Fixpoint add_selectors (header : xml) (l : list (key_value_t epr_t)) : outcome xml :=
  match l with
  | [] => Done header
  | kv :: l =>
      let* k := chars (key kv) in
      let* header :=
        match v kv with
        | VText t => let* t := maybe t in wsman_add_selector content parse header k t
        | VEpr e => wsman_add_selector_epr content parse header k e
        | VWild => Undef
        end in
      add_selectors header l
  end.
(* src: lib/wsman-client.c 575-598 wsmc_add_selector_from_options *)
Definition wsmc_add_selector_from_options (header : xml) (o : client_opt_t) : outcome xml :=
  match o_selectors o with None => Done header | Some l => add_selectors header l end.
(** [header]: of the document. *)
(* src: lib/wsman-client.c 687-727 wsmc_add_selector_from_uri *)
Definition wsmc_add_selector_from_uri (scan : gmap cstring cstring -> list (cstring * cstring)) (header : xml)
    (resource_uri : option cstring) : outcome xml :=
  match resource_uri with
  | None => Done header
  | Some resource_uri =>
      let* uri := Uri.u_uri_parse resource_uri in
      match (u ← uri; Uri.u_parse_query (Uri.query u)) with
      | None => Done header
      | Some q => each (fun e header => wsman_add_selector content parse header e.1 (Some e.2)) (length (scan q)) (scan q) header
      end
  end.
(** The selector of the namespace, unless the options have one of its name. *)
(* src: lib/wsman-client.c 211-221 wsmc_build_envelope *)
Definition add_cim_ns (header : xml) (o : client_opt_t) : outcome xml :=
  match o_cim_ns o with
  | None => Done header
  | Some ns =>
      let* found := list_find_key CIM_NAMESPACE_SELECTOR (default [] (o_selectors o)) in
      if (found : bool) then Done header else wsman_add_selector content parse header CIM_NAMESPACE_SELECTOR (Some ns)
  end.
(* src: lib/wsman-client.c 155-198 wsmc_build_envelope *)
Definition envelope_options (root_ns : option cstring) (header : xml) (timeout : cstring) (o : client_opt_t) : xml :=
  let header := if o_timeout o =? 0 then header
    else ws_serialize_str root_ns header (Some timeout) XML_NS_WS_MAN WSM_OPERATION_TIMEOUT false in
  let header := if o_max_envelope_size o =? 0 then header
    else ws_serialize_uint32 root_ns header (o_max_envelope_size o) XML_NS_WS_MAN WSM_MAX_ENVELOPE_SIZE
           (negb (Z.land (o_flags o) FLAG_MUND_MAX_ESIZE =? 0)) in
  let header := match o_fragment o with None => header
    | f => ws_serialize_str root_ns header f XML_NS_WS_MAN WSM_FRAGMENT_TRANSFER true end in
  match o_locale o with
  | None => header
  | Some lang =>
      append_child header (add_attr (ws_xml_set_node_lang (new_node XML_NS_WS_MAN WSM_LOCALE None) lang)
        (Some XML_NS_SOAP_1_2) SOAP_MUST_UNDERSTAND (Some (lit "false")))
  end.
(* src: lib/wsman-client.c 119-224 wsmc_build_envelope *)
Definition wsmc_build_envelope (action reply_to_uri resource_uri to_uri : option cstring) (o : client_opt_t) : outcome (option xml) :=
  let doc := ws_xml_create_envelope content in
  let root_ns := ws_xml_get_node_name_ns (Some doc) in
  match ws_xml_get_soap_header (Some doc) with
  | None => Done None
  | Some header =>
      let header := match action with None => header
        | _ => ws_serialize_str root_ns header action XML_NS_ADDRESSING WSA_ACTION true end in
      let header := ws_serialize_str root_ns header (Some (default WSA_TO_ANONYMOUS to_uri)) XML_NS_ADDRESSING WSA_TO true in
      let header := match resource_uri with None => header
        | _ => ws_serialize_str root_ns header resource_uri XML_NS_WS_MAN WSM_RESOURCE_URI true end in
      let header := match uuid with [] => header
        | _ => ws_serialize_str root_ns header (Some uuid) XML_NS_ADDRESSING WSA_MESSAGE_ID true end in
      let timeout := lit "PT" ++ HttpAuth.dec (o_timeout o / 1000) ++ "."%char :: HttpAuth.dec (o_timeout o mod 1000) ++ lit "S" in
      if negb (o_timeout o =? 0) && (20 <=? Z.of_nat (length timeout)) then Done None else
      let header := envelope_options root_ns header timeout o in
      let header := append_child header (add_child (new_node XML_NS_ADDRESSING WSA_REPLY_TO None) (Some XML_NS_ADDRESSING)
        WSA_ADDRESS (Some (default WSA_TO_ANONYMOUS reply_to_uri))) in
      let* header :=
        if has_flag o FLAG_CIM_REFERENCES then Done header
        else let* header := wsmc_add_selector_from_options header o in add_cim_ns header o in
      Done (Some (on_header (fun _ => header) doc))
  end.

(** ** Enumerate and Subscribe *)

(* src: lib/wsman-client.c 847-875 wsman_set_enumeration_options *)
Definition enumeration_modes (o : client_opt_t) (node : xml) : xml :=
  let node := if has_flag o FLAG_ENUMERATION_OPTIMIZATION then add_child node (Some XML_NS_WS_MAN) WSM_OPTIMIZE_ENUM None else node in
  let mode text := add_child node (Some XML_NS_WS_MAN) WSM_ENUM_MODE (Some text) in
  let node := if has_flag o FLAG_ENUMERATION_ENUM_EPR then mode WSM_ENUM_EPR
              else if has_flag o FLAG_ENUMERATION_ENUM_OBJ_AND_EPR then mode WSM_ENUM_OBJ_AND_EPR else node in
  let poly text := add_child node (Some XML_NS_CIM_BINDING) WSMB_POLYMORPHISM_MODE (Some text) in
  if has_flag o FLAG_IncludeSubClassProperties then poly WSMB_INCLUDE_SUBCLASS_PROP
  else if has_flag o FLAG_ExcludeSubClassProperties then poly WSMB_EXCLUDE_SUBCLASS_PROP
  else if has_flag o FLAG_POLYMORPHISM_NONE then poly (lit "None") else node.
(** On the first element of the body. *)
(* src: lib/wsman-client.c 839-880 wsman_set_enumeration_options *)
Definition wsman_set_enumeration_options (body : xml) (o : client_opt_t) (filter : option filter_t) : outcome xml :=
  match ws_xml_get_child (Some body) 0 None None with
  | None => Done body
  | Some node =>
      let node := enumeration_modes o node in
      let* node := match filter with
        | None => Done node
        | Some f => let* (_, node) := filter_serialize content None node f (Some XML_NS_WS_MAN) in Done node end in
      Done (on_child 0 (fun _ => node) body)
  end.

(** A token for the event sink. *)
(* src: lib/wsman-client.c 908-930 wsman_set_subscribe_options *)
Definition token_response (type : cstring) (requested : xml) (delivery_uri : option cstring) : xml :=
  let node2 := new_node XML_NS_TRUST WST_REQUESTSECURITYTOKENRESPONSE None in
  let node2 := add_child node2 (Some XML_NS_TRUST) WST_TOKENTYPE (Some type) in
  let node2 := append_child node2 (append_child (new_node XML_NS_TRUST WST_REQUESTEDSECURITYTOKEN None) requested) in
  append_child node2 (append_child (new_node XML_NS_POLICY WSP_APPLIESTO None)
    (add_child (new_node XML_NS_ADDRESSING WSA_EPR None) (Some XML_NS_ADDRESSING) WSA_ADDRESS delivery_uri)).
(** The properties of the reference for the events, empty where it cannot be parsed. *)
(* src: lib/wsman-client.c 993-999 wsman_set_subscribe_options *)
Definition reference_node (o : client_opt_t) : option xml :=
  match o_reference o with
  | None => None
  | Some reference =>
      let props := new_node XML_NS_ADDRESSING WSA_REFERENCE_PROPERTIES None in
      Some (match parse reference with Some root => ws_xml_duplicate_tree content None props root | None => props end)
  end.
(** The last node of a list of children. *)
Fixpoint on_last (f : xml -> xml) (l : list xml) : list xml :=
  match l with [] => [] | [c] => [f c] | c :: l => c :: on_last f l end.
(** The password is tested twice, the user name not at all.  A reference without a URI to go with gets into the last token:
    the handle [node2] is still the one of the token. *)
(* src: lib/wsman-client.c 897-967 wsman_set_subscribe_options *)
Definition issued_tokens (o : client_opt_t) (header : xml) : xml :=
  match o_delivery_certificatethumbprint o, o_delivery_password o with
  | None, None => header
  | thumb, pwd =>
      let node := add_attr (new_node XML_NS_TRUST WST_ISSUEDTOKENS None) (Some XML_NS_SOAP_1_2) SOAP_MUST_UNDERSTAND (Some (lit "true")) in
      let node := match thumb with None => node
        | Some t => append_child node (token_response WST_CERTIFICATETHUMBPRINT
            (new_node XML_NS_WS_MAN WSM_CERTIFICATETHUMBPRINT (Some t)) (o_delivery_uri o)) end in
      let node := match o_delivery_username o, pwd with
        | None, None => node
        | user, pwd =>
            let n3 := new_node XML_NS_SE WSSE_USERNAMETOKEN None in
            let n3 := match user with None => n3 | _ => add_child n3 (Some XML_NS_SE) WSSE_USERNAME user end in
            let n3 := match pwd with None => n3 | _ => add_child n3 (Some XML_NS_SE) WSSE_PASSWORD pwd end in
            append_child node (token_response WST_USERNAMETOKEN n3 (o_delivery_uri o)) end in
      let node := match o_delivery_uri o, reference_node o, node with
        | None, Some props, Elem ns n a ch => Elem ns n a (on_last (fun token => append_child token props) ch)
        | _, _, _ => node end in
      append_child header node
  end.
(** Where to send the events. *)
(* src: lib/wsman-client.c 978-999 wsman_set_subscribe_options *)
Definition notify_to (o : client_opt_t) : option xml :=
  match o_delivery_uri o with
  | None => None
  | uri =>
      let node2 := add_child (new_node XML_NS_EVENTING WSEVENT_NOTIFY_TO None) (Some XML_NS_ADDRESSING) WSA_ADDRESS uri in
      Some (match reference_node o with None => node2 | Some props => append_child node2 props end)
  end.
(** With a security mode the heartbeats go below the element Auth. *)
(* src: lib/wsman-client.c 973-1001 wsman_set_subscribe_options *)
Definition delivery_node (o : client_opt_t) : xml :=
  let temp := add_attr (new_node XML_NS_EVENTING WSEVENT_DELIVERY None) None WSEVENT_DELIVERY_MODE
                (Some (wsmc_create_delivery_mode_str (o_delivery_mode o))) in
  let temp := match notify_to o with None => temp | Some node2 => append_child temp node2 end in
  let beat node := if nonzero (o_heartbeat_interval o)
    then add_child node (Some XML_NS_WS_MAN) WSM_HEARTBEATS (Some (pt_f 32 (o_heartbeat_interval o))) else node in
  match wsmc_create_delivery_sec_mode_str (o_delivery_sec_mode o) with
  | None => beat temp
  | Some profile => append_child temp (beat (add_attr (new_node XML_NS_WS_MAN WSM_AUTH None) None WSM_PROFILE (Some profile)))
  end.
(** The header and the body. *)
(* src: lib/wsman-client.c 882-1011 wsman_set_subscribe_options *)
Definition wsman_set_subscribe_options (header body : xml) (o : client_opt_t) (filter : option filter_t) : outcome (xml * xml) :=
  let header := issued_tokens o header in
  let node := append_child (new_node XML_NS_EVENTING WSEVENT_SUBSCRIBE None) (delivery_node o) in
  let node := if nonzero (o_expires o)
    then add_child node (Some XML_NS_EVENTING) WSEVENT_EXPIRES (Some (pt_f 32 (o_expires o))) else node in
  let* node := match filter with
    | None => Done node
    | Some f => let* (_, node) := filter_serialize content None node f (Some XML_NS_WS_MAN) in Done node end in
  let node := if negb (Z.land (o_flags o) FLAG_EVENT_SENDBOOKMARK =? 0)
    then add_child node (Some XML_NS_WS_MAN) WSM_SENDBOOKMARKS None else node in
  Done (header, append_child body node).

(* src: lib/wsman-client.c 1067-1075 add_subscription_context *)
Definition add_subscription_context (node : xml) (context : cstring) : xml :=
  match parse context with None => node | Some subsnode => ws_xml_duplicate_children content None node subsnode end.
(** [data] of Unsubscribe and Renew. *)
(* src: lib/wsman-client.c 1210-1214 wsmc_create_request *)
Definition with_context (data : option cstring) (header : xml) : xml :=
  match data with None | Some [] => header | Some c => add_subscription_context header c end.

(** ** Requests *)

(** The loop of hash_scan_next. *)
Fixpoint scan_loop (fuel : nat) (h : @hash_t cstring) (s : hscan_t) (f : cstring * cstring -> xml -> xml) (node : xml) : outcome xml :=
  match fuel with
  | O => Diverge
  | S fuel =>
      let* (r, s) := hash_scan_next hash_val_t_bit h s in
      match r with
      | None => Done node
      | Some n => scan_loop fuel h s f (f (h_key n, h_data n) node)
      end
  end.
(* src: lib/wsman-client.c 1157-1160 wsmc_create_request *)
Definition add_option (e : cstring * cstring) (opset : xml) : xml :=
  append_child opset (ws_xml_set_node_text content
    (add_attr (new_node XML_NS_WS_MAN WSM_OPTION None) None WSM_NAME (Some e.1)) (Some e.2)).
(** [junk]: the value of [hs.chain] before the scan. *)
(* src: lib/wsman-client.c 1119-1163 wsmc_create_request *)
Definition add_option_set (junk : Z) (o : client_opt_t) (header : xml) : outcome xml :=
  let opset := new_node XML_NS_WS_MAN WSM_OPTION_SET None in
  let flagged ns name opset := append_child opset (add_attr (new_node ns WSM_OPTION None) None WSM_NAME (Some name)) in
  let opset0 :=
    if Z.land (o_flags o) (Z.lor FLAG_CIM_EXTENSIONS FLAG_EXCLUDE_NIL_PROPS) =? 0 then None else
    let opset := if has_flag o FLAG_CIM_EXTENSIONS then flagged XML_NS_WS_MAN WSMB_SHOW_EXTENSION opset else opset in
    Some (if has_flag o FLAG_EXCLUDE_NIL_PROPS then flagged XML_NS_OPENWSMAN WSMB_EXCLUDE_NIL_PROPS opset else opset) in
  let* opset :=
    match o_options o with
    | Some h =>
        if 0 <? ow_hash_count h then
          let* n := scan_loop (S (length (concat (table h)))) h (hash_scan_begin junk h) add_option (default opset opset0) in Done (Some n)
        else Done opset0
    | None => Done opset0
    end in
  Done (match opset with None => header | Some n => append_child header n end).

(** [%d] of an unsigned int. *)
Definition printf_d (x : Z) : cstring := let x := s32 x in if x <? 0 then "-"%char :: HttpAuth.dec (- x) else HttpAuth.dec x.
(** What the action puts in the header and in the body, which is empty. *)
(* src: lib/wsman-client.c 1166-1237 wsmc_create_request *)
Definition add_action (action : WsmanAction) (options : option client_opt_t) (filter : option filter_t) (data : option cstring)
    (header body : xml) : outcome (xml * xml) :=
  let with_data name := append_child body (match data with
    | None => new_node XML_NS_ENUMERATION name None
    | d => add_child (new_node XML_NS_ENUMERATION name None) (Some XML_NS_ENUMERATION) WSENUM_ENUMERATION_CONTEXT d end) in
  match action with
  | WSMAN_ACTION_IDENTIFY | WSMAN_ACTION_ANON_IDENTIFY => Done (header, add_child body (Some XML_NS_WSMAN_ID) WSMID_IDENTIFY None)
  | WSMAN_ACTION_ENUMERATION | WSMAN_ACTION_ASSOCIATORS | WSMAN_ACTION_REFERENCES =>
      let body := add_child body (Some XML_NS_ENUMERATION) WSENUM_ENUMERATE None in
      let* body := match options with None => Done body | Some o => wsman_set_enumeration_options body o filter end in
      Done (header, body)
  | WSMAN_ACTION_PULL => Done (header, with_data WSENUM_PULL)
  | WSMAN_ACTION_RELEASE => Done (header, with_data WSENUM_RELEASE)
  | WSMAN_ACTION_SUBSCRIBE =>
      match options with None => Done (header, body) | Some o => wsman_set_subscribe_options header body o filter end
  | WSMAN_ACTION_UNSUBSCRIBE => Done (with_context data header, add_child body (Some XML_NS_EVENTING) WSEVENT_UNSUBSCRIBE None)
  | WSMAN_ACTION_RENEW =>
      let expires := match options with Some o => o_expires o | None => S754_zero false end in
      Done (with_context data header, append_child body
        (add_child (new_node XML_NS_EVENTING WSEVENT_RENEW None) (Some XML_NS_EVENTING) WSEVENT_EXPIRES (Some (pt_f 20 expires))))
  | WSMAN_ACTION_CUSTOM | WSMAN_ACTION_NONE | WSMAN_ACTION_TRANSFER_CREATE | WSMAN_ACTION_TEST
  | WSMAN_ACTION_TRANSFER_GET | WSMAN_ACTION_TRANSFER_PUT | WSMAN_ACTION_TRANSFER_DELETE => Done (header, body)
  end.
(* src: lib/wsman-client.c 1239-1261 wsmc_create_request *)
Definition add_limits (action : WsmanAction) (o : client_opt_t) (header body : xml) : xml * xml :=
  let with_max ns := on_child 0 (fun node => ws_xml_add_child_format content node (Some ns) WSENUM_MAX_ELEMENTS (printf_d (o_max_elements o))) body in
  let count header := if has_flag o FLAG_ENUMERATION_COUNT_ESTIMATION then add_child header (Some XML_NS_WS_MAN) WSM_REQUEST_TOTAL None else header in
  match action with
  | WSMAN_ACTION_ENUMERATION =>
      (count header, if (0 <? o_max_elements o) && has_flag o FLAG_ENUMERATION_OPTIMIZATION then with_max XML_NS_WS_MAN else body)
  | WSMAN_ACTION_PULL => (count header, if 0 <? o_max_elements o then with_max XML_NS_ENUMERATION else body)
  | _ => (header, body)
  end.
(** [endpoint]: [cl->data.endpoint].  The dump of a request to a file is left out. *)
(* src: lib/wsman-client.c 1077-1272 wsmc_create_request *)
Definition wsmc_create_request (endpoint resource_uri : option cstring) (options : option client_opt_t) (filter : option filter_t)
    (action : WsmanAction) (method data : option cstring) (junk : Z) : outcome (option xml) :=
  let* request :=
    if decide (action = WSMAN_ACTION_IDENTIFY) then Done (Some (ws_xml_create_envelope content)) else
    let _action := match method with
      | Some m => if decide ("/"%char ∈ m) then Some m else wsman_make_action resource_uri (Some m)
      | None => wsmc_create_action_str action end in
    match options, _action with
    | Some o, Some _ => wsmc_build_envelope _action (Some WSA_TO_ANONYMOUS) resource_uri endpoint o
    | _, _ => Done None
    end in
  match request with
  | None => Done None
  | Some doc =>
      match ws_xml_get_soap_header (Some doc), ws_xml_get_soap_body (Some doc) with
      | Some header, Some body =>
          let* header := match options with None => Done header | Some o => add_option_set junk o header end in
          let* (header, body) := add_action action options filter data header body in
          let (header, body) := match options with None => (header, body) | Some o => add_limits action o header body end in
          Done (Some (on_body (fun _ => body) (on_header (fun _ => header) doc)))
      | _, _ => Done None
      end
  end.

(** ** Bodies of Create, Put and methods *)

(** The first child of a name, worked on with [f] where it is. *)
Fixpoint update_selected (ns name : option cstring) (f : xml -> outcome xml) (l : list xml) : outcome (list xml) :=
  match l with
  | [] => Done []
  | c :: l => if selects ns name c then let* c := f c in Done (c :: l) else let* l := update_selected ns name f l in Done (c :: l)
  end.
(** A property that the resource has gets the value, as text or as a reference below it. *)
(* src: lib/wsman-client.c 1030-1040 wsmc_set_put_prop *)
Definition put_property (ns_uri : option cstring) (p : key_value_t epr_t) (resource_node : xml) : outcome xml :=
  let* k := chars (key p) in
  match resource_node with
  | Elem ns n a ch =>
      let* ch := update_selected ns_uri (Some k) (fun n =>
        match v p with
        | VText t => let* t := maybe t in Done (ws_xml_set_node_text content n t)
        | VEpr e => epr_serialize_opt content None n ns_uri (Some k) e true
        | VWild => Undef
        end) ch in
      Done (Elem ns n a ch)
  | n => Done n
  end.
(** Without a resource in the answer there is nothing to put, and no child to be found. *)
(* src: lib/wsman-client.c 1013-1043 wsmc_set_put_prop *)
Definition wsmc_set_put_prop (get_response put_request : xml) (o : client_opt_t) : outcome xml :=
  let get_body := ws_xml_get_soap_body (Some get_response) in
  match ws_xml_get_soap_body (Some put_request) with
  | None => Done put_request
  | Some put_body =>
      let put_body := default put_body (xml_parser_copy_node (ws_xml_get_child get_body 0 None None) (Some put_body)) in
      let* put_body :=
        match ws_xml_get_child (Some put_body) 0 None None, o_properties o with
        | Some resource_node, Some l =>
            let* r := each (put_property (ws_xml_get_node_name_ns (Some resource_node))) (length l) l resource_node in
            Done (on_child 0 (fun _ => r) put_body)
        | _, _ => Done put_body
        end in
      Done (on_body (fun _ => put_body) put_request)
  end.
(** A document of the caller; data with a type is written by the serializer, which is not here. *)
(* src: lib/wsman-client.c 1290-1299 handle_resource_request *)
Definition handle_resource_request (request : xml) (data : option xml) : xml :=
  let into n := match n with None => request | Some n => on_body (fun body => ws_xml_duplicate_tree content None body n) request end in
  match data with
  | None => request
  | Some d => if negb (wsman_is_valid_xml_envelope d =? 0) then into (ws_xml_get_child (ws_xml_get_soap_body data) 0 None None) else into data
  end.
(** [%s_INPUT] of a method, in a buffer of 4096 bytes. *)
Definition input_node (resource_uri : option cstring) (m : cstring) : xml :=
  make_new_xml_node content resource_uri (take 4095 (m ++ lit "_INPUT")) None false.
(* src: lib/wsman-client.c 1576-1584 wsmc_action_invoke *)
Definition method_argument (resource_uri : option cstring) (p : key_value_t epr_t) (xnode : xml) : outcome xml :=
  let* k := chars (key p) in
  match v p with
  | VText t => let* t := maybe t in Done (add_child xnode resource_uri k t)
  | VEpr e => epr_serialize_opt content None xnode resource_uri (Some k) e true
  | VWild => Undef
  end.
(* src: lib/wsman-client.c 1563-1593 wsmc_action_invoke *)
Definition invoke_body (resource_uri : option cstring) (o : client_opt_t) (method : option cstring) (data : option xml) (body : xml) :
    outcome xml :=
  match o_properties o, data with
  | (None | Some []), Some n => Done (ws_xml_duplicate_tree content None body n)
  | (None | Some []), None =>
      let* m := deref method in
      Done (if decide ("/"%char ∈ m) then body else append_child body (input_node resource_uri m))
  | Some l, _ =>
      match method with
      | None => Done body
      | Some m => let* xnode := each (method_argument resource_uri) (length l) l (input_node resource_uri m) in Done (append_child body xnode)
      end
  end.
End Requests.

(** ** Answers *)

(* src: lib/wsman-client.c 1892-1913 wsmc_get_enum_context *)
Definition wsmc_get_enum_context (doc : option xml) : option cstring :=
  match ws_xml_get_child (ws_xml_get_soap_body doc) 0 None None with
  | None => None
  | node => ws_xml_get_node_text (ws_xml_get_child node 0 (Some XML_NS_ENUMERATION) (Some WSENUM_ENUMERATION_CONTEXT))
  end.
(* src: lib/wsman-client.c 1915-1935 wsmc_get_event_enum_context *)
Definition wsmc_get_event_enum_context (doc : option xml) : option cstring :=
  match ws_xml_get_child (ws_xml_get_soap_body doc) 0 (Some XML_NS_EVENTING) (Some WSEVENT_SUBSCRIBE_RESP) with
  | None => None
  | node => ws_xml_get_node_text (ws_xml_get_child node 0 (Some XML_NS_ENUMERATION) (Some WSENUM_ENUMERATION_CONTEXT))
  end.
(* src: lib/wsman-client.c 2058-2062 wsmc_check_for_fault *)
Definition wsmc_check_for_fault (doc : option xml) : bool := wsman_is_fault_envelope doc.
(* src: src/CIM_Framework/openwsman/include/wsman-client-api.h 202-207 _WsManFault *)
Record WsManFault := ClientFault { code : option cstring; subcode : option cstring; reason : option cstring; fault_detail : option cstring }.
(* src: lib/wsman-client.c 2065-2075 wsmc_fault_new *)
Definition wsmc_fault_new : WsManFault := ClientFault None None None None.
(* src: lib/wsman-client.c 2095-2133 wsmc_get_fault_data *)
Definition wsmc_get_fault_data (doc : option xml) (fault : WsManFault) : WsManFault :=
  let child node name := ws_xml_get_child node 0 (Some XML_NS_SOAP_1_2) (Some name) in
  if wsmc_check_for_fault doc then
    match child (ws_xml_get_soap_body doc) SOAP_FAULT with
    | None => fault
    | fault_node =>
        let (c, s) := match child fault_node SOAP_CODE with
          | None => (code fault, subcode fault)
          | n => (ws_xml_get_node_text (child n SOAP_VALUE), ws_xml_get_node_text (child (child n SOAP_SUBCODE) SOAP_VALUE)) end in
        let r := match child fault_node SOAP_REASON with None => reason fault | n => ws_xml_get_node_text (child n SOAP_TEXT) end in
        let d := match child fault_node SOAP_DETAIL with None => fault_detail fault | n => ws_xml_get_node_text n end in
        ClientFault c s r d
    end
  else fault.
End Client.
