(* ===== verification/ClientText.v ===== *)
(** * ClientText: the numbers that a client writes

    Decimals and durations with a fraction, as the readers of the server understand them. *)
From stdpp Require Import pretty.
From S2P Require Import Prelude CString HttpText HttpAuth WsTime Uri Xml.
Import Xml.

Module ClientText.

(** ** Numbers *)

Lemma pretty_digit y : (y < 10)%N -> HttpText.isdigit (pretty_N_char y) = true /\ Prelude.code (pretty_N_char y) - 48 = Z.of_N y.
Proof.
  intros Hy. assert (y = 0 \/ y = 1 \/ y = 2 \/ y = 3 \/ y = 4 \/ y = 5 \/ y = 6 \/ y = 7 \/ y = 8 \/ y = 9)%N as D by lia.
  repeat (destruct D as [->|D]; [split; reflexivity|]). subst y. split; reflexivity.
Qed.
Lemma digits_go x : forall s, HttpText.digits (lit (pretty_N_go x s)) 0 = HttpText.digits (lit s) (Z.of_N x) /\
  forallb HttpText.isdigit (lit (pretty_N_go x s)) = forallb HttpText.isdigit (lit s).
Proof.
  induction (N.lt_wf_0 x) as [x _ IH]. intros s. destruct (decide (x = 0%N)) as [->|Nx]; [now rewrite pretty_N_go_0|].
  rewrite pretty_N_go_step by lia. destruct (IH (x `div` 10)%N) with (s := String (pretty_N_char (x `mod` 10)) s) as [E F].
  { apply N.div_lt; lia. }
  destruct (pretty_digit (x `mod` 10)) as [D1 D2]; [apply N.mod_lt; lia|]. rewrite E, F. unfold lit.
  cbn [list_ascii_of_string HttpText.digits forallb]. rewrite D1, D2. split; [|done].
  f_equal. pose proof (N.div_mod x 10 ltac:(lia)). lia.
Qed.
(** A decimal is a number that is read as what it shows. *)
Lemma dec_digits z : 0 <= z -> HttpAuth.dec z <> [] /\ forallb HttpText.isdigit (HttpAuth.dec z) = true /\ HttpText.digits (HttpAuth.dec z) 0 = z.
Proof.
  intros H. unfold HttpAuth.dec, pretty, pretty_N. destruct (decide (Z.to_N z = 0%N)) as [E|N].
  { assert (z = 0) as -> by lia. done. }
  destruct (digits_go (Z.to_N z) "") as [E F]. split; [|split; [now rewrite F|rewrite E; cbn; lia]].
  intros C. rewrite C in E. cbn in E. lia.
Qed.
Lemma dec_number z : 0 <= z < 2 ^ 31 -> WsTime.number (HttpAuth.dec z).
Proof. intros H. destruct (dec_digits z ltac:(lia)) as (N & F & E). split; [done|]. split; [done|]. now rewrite E. Qed.
Lemma dec_plain z : 0 <= z -> plain_text (HttpAuth.dec z).
Proof.
  intros H C. destruct (dec_digits z H) as (_ & F & _). rewrite forallb_forall in F. apply list_elem_of_In, F in C. discriminate.
Qed.
Lemma atoi_dec z : 0 <= z < 2 ^ 31 -> Uri.atoi (HttpAuth.dec z) = z.
Proof. intros H. rewrite Uri.atoi_number by now apply dec_number. now apply dec_digits. Qed.
Lemma dec_width (k : nat) z : 0 <= z < 10 ^ Z.of_nat (S k) -> (length (HttpAuth.dec z) <= S k)%nat.
Proof.
  intros Hz. unfold HttpAuth.dec. rewrite HttpAuth.lit_length. unfold pretty, pretty_N. destruct (decide _); [simpl; lia|].
  etrans; [apply (HttpAuth.pretty_go_length (S k))|simpl; lia]. apply N2Z.inj_lt. rewrite Z2N.id by lia.
  rewrite N2Z.inj_pow, nat_N_Z. apply Hz.
Qed.

(** ** Durations with a fraction *)

Lemma ilog2_small n d : 0 < n -> 0 < d -> n < 2 ^ 50 * d -> WsTime.ilog2 n d <= 51.
Proof.
  intros Hn Hd L. unfold WsTime.ilog2. cbv zeta.
  assert (Z.log2 n <= 50 + Z.log2 d) as B.
  { rewrite <- (Z.log2_mul_pow2 d 50) by lia. apply Z.log2_le_mono. lia. }
  destruct (if _ <=? _ then _ else _); lia.
Qed.
Lemma round_div_bound n d : 0 <= n -> 0 < d -> n / d <= WsTime.round_div n d <= n / d + 1.
Proof. intros Hn Hd. unfold WsTime.round_div. cbv zeta. repeat case_match; lia. Qed.
(** A quotient of a moderate size is a double without an exponent above 0, not far from it. *)
Lemma to_double_small n d : 0 <= n -> 0 < d -> n < 2 ^ 50 * d ->
  exists m k, WsTime.to_double n d = Some (m, - k) /\ 0 <= k /\ 0 <= m <= (n / d + 2) * 2 ^ k.
Proof.
  intros Hn Hd L. unfold WsTime.to_double. destruct (Z.eqb_spec n 0) as [->|N].
  { exists 0, 0. split; [done|]. rewrite Z.div_0_l by lia. lia. }
  cbv zeta. rewrite Z.abs_eq by lia. rewrite Z.sgn_pos, Z.mul_1_l by lia.
  pose proof (ilog2_small n d ltac:(lia) Hd L) as I. remember (- Z.max (WsTime.ilog2 n d - 52) (-1074)) as k eqn:Ek.
  replace (Z.max (WsTime.ilog2 n d - 52) (-1074)) with (- k) by lia. assert (0 < k <= 1074) as Hk by lia.
  destruct (Z.leb_spec 0 (- k)); [lia|].
  assert (0 < 2 ^ k) as P by (apply Z.pow_pos_nonneg; lia).
  pose proof (round_div_bound (n * 2 ^ k) d ltac:(lia) Hd) as B.
  assert (n * 2 ^ k / d <= (n / d + 1) * 2 ^ k) as Q.
  { apply Z.div_le_upper_bound; [done|]. pose proof (Z.div_mod n d ltac:(lia)). pose proof (Z.mod_pos_bound n d Hd). nia. }
  assert (n / d < 2 ^ 50) as S by (apply Z.div_lt_upper_bound; lia). assert (0 <= n / d) as S0 by (apply Z.div_pos; lia).
  destruct (Z.leb_spec (2 ^ (1024 - - k)) (WsTime.round_div (n * 2 ^ k) d)) as [C|C].
  { exfalso. replace (1024 - - k) with (1024 + k) in C by lia. rewrite Z.pow_add_r in C by lia.
    assert (2 ^ 51 < 2 ^ 1024) by (apply Z.pow_lt_mono_r; lia).
    assert ((n / d + 1) * 2 ^ k + 1 <= 2 ^ 51 * 2 ^ k) by nia. nia. }
  exists (WsTime.round_div (n * 2 ^ k) d), k. split; [done|]. split; [lia|]. assert (0 <= n * 2 ^ k / d) by (apply Z.div_pos; lia). nia.
Qed.
Lemma round_up_small m k : 0 <= k -> 0 <= m <= 2 ^ 26 * 2 ^ k -> exists n, WsTime.round_up (Some (m, - k)) = Done n.
Proof.
  intros Hk Hm. unfold WsTime.round_up. cbn [deref obind]. assert (0 < 2 ^ k) as P by (apply Z.pow_pos_nonneg; lia).
  set (x := if 0 <=? - k then _ else _). assert (exists m' k', x = Some (m', - k') /\ 0 <= k' /\ 0 <= m' <= 2 ^ 28 * 2 ^ k') as (m' & k' & Ex & Hk' & Hm').
  { subst x. destruct (Z.leb_spec 0 (- k)) as [Z0|Z0].
    - assert (k = 0) as -> by lia. cbn [Z.pow Z.opp] in *.
      destruct (to_double_small (2 * m * 1 + 1) 2) as (m' & k' & E & ? & ?); [lia..|]. exists m', k'. split; [exact E|]. split; [done|].
      assert ((2 * m * 1 + 1) / 2 <= 2 ^ 26 + 1) by (apply Z.div_le_upper_bound; lia). assert (0 < 2 ^ k') by (apply Z.pow_pos_nonneg; lia). nia.
    - rewrite Z.opp_involutive. destruct (to_double_small (2 * m + 2 ^ k) (2 * 2 ^ k)) as (m' & k' & E & ? & ?); [nia..|].
      exists m', k'. split; [exact E|]. split; [done|].
      assert ((2 * m + 2 ^ k) / (2 * 2 ^ k) <= 2 ^ 26 + 1) by (apply Z.div_le_upper_bound; nia).
      assert (0 < 2 ^ k') by (apply Z.pow_pos_nonneg; lia). nia. }
  rewrite Ex. cbn [deref obind]. assert (0 < 2 ^ k') as P' by (apply Z.pow_pos_nonneg; lia).
  set (n := if 0 <=? - k' then _ else _). assert (0 <= n <= 2 ^ 28) as Bn.
  { subst n. destruct (Z.leb_spec 0 (- k')); [assert (k' = 0) as -> by lia; cbn in *; lia|]. rewrite Z.opp_involutive.
    split; [apply Z.div_pos; lia|apply Z.div_le_upper_bound; lia]. }
  destruct (Z.ltb_spec n (- 2 ^ 31)); [lia|]. destruct (Z.leb_spec (2 ^ 31) n); [lia|]. now exists n.
Qed.

(** Seconds with a fraction of up to six digits are read as the seconds, or as one more. *)
Lemma digits_acc v : forallb HttpText.isdigit v = true -> forall acc, HttpText.digits v acc = acc * 10 ^ Z.of_nat (length v) + HttpText.digits v 0.
Proof.
  induction v as [|c v IH]; intros F acc; cbn [HttpText.digits length]; [lia|]. cbn [forallb] in F. apply andb_true_iff in F as [D F].
  rewrite D, IH by done. rewrite (IH F (0 * 10 + _)). rewrite Nat2Z.inj_succ, Z.pow_succ_r by lia. ring.
Qed.
Lemma digits_bound v : forallb HttpText.isdigit v = true -> 0 <= HttpText.digits v 0 < 10 ^ Z.of_nat (length v).
Proof.
  induction v as [|c v IH]; intros F; cbn [HttpText.digits length]; [lia|]. cbn [forallb] in F. apply andb_true_iff in F as [D F].
  rewrite D, digits_acc by done. specialize (IH F). assert (0 <= Prelude.code c - 48 <= 9) as B.
  { clear -D. revert D. unfold HttpText.isdigit, HttpText.in_range. rewrite andb_true_iff. lia. }
  rewrite Nat2Z.inj_succ, Z.pow_succ_r by lia. nia.
Qed.
Lemma strtod_fraction u v : WsTime.number u -> HttpText.digits u 0 < 2 ^ 25 -> forallb HttpText.isdigit v = true -> (length v <= 6)%nat ->
  exists m k, WsTime.strtod (u ++ "."%char :: v ++ lit "S") = (Some (m, - k), lit "S") /\ 0 <= k /\ 0 <= m <= 2 ^ 26 * 2 ^ k.
Proof.
  intros (Nu & Du & Bu) Hu Dv Lv. unfold WsTime.strtod. destruct u as [|x u]; [done|]. pose proof Du as D'. cbn [forallb] in D'.
  apply andb_true_iff in D' as [Dx _]. destruct (WsTime.digit_plain x Dx) as (Sx & M & P & _). cbn [app HttpText.skip_while]. rewrite Sx.
  cbn [WsTime.scan_sign]. rewrite !bool_decide_false by done. cbv iota.
  pose proof (HttpText.digits_stop (x :: u) "."%char (v ++ lit "S") Du eq_refl 0) as E.
  pose proof (WsTime.skip_digits (x :: u) "."%char (v ++ lit "S") Du eq_refl) as K. cbn [app] in E, K. rewrite E, K. cbn [tail].
  change (lit "S") with ["S"%char]. rewrite (WsTime.skip_digits v "S"%char [] Dv eq_refl), HttpText.digits_stop, length_app by done.
  cbn [WsTime.scan_exponent length]. rewrite !bool_decide_false by done. cbn [orb].
  replace (length v + 1 - 1)%nat with (length v) by lia. set (l := Z.of_nat (length v)). rewrite Z.sub_0_l.
  assert (0 <= l <= 6) as Hl by lia. rewrite digits_acc by done. fold l. pose proof (digits_bound v Dv) as Bv. fold l in Bv.
  set (m := HttpText.digits (x :: u) 0 * 10 ^ l + HttpText.digits v 0).
  assert (1 <= 10 ^ l) as Pl by (apply (Z.pow_le_mono_r 10 0); lia).
  assert (m / 10 ^ l = HttpText.digits (x :: u) 0) as Q by (unfold m; rewrite Z.div_add_l by lia; rewrite (Z.div_small _ _ Bv); lia).
  assert (0 <= m < 2 ^ 25 * 10 ^ l) as Bm by (unfold m; nia).
  destruct (Z.leb_spec 0 (- l)) as [C|C].
  - assert (l = 0) as Z0 by lia. rewrite Z0 in *. cbn [Z.opp Z.pow] in *. rewrite Z.mul_1_r. destruct (to_double_small m 1) as (m' & k & -> & Hk & Hm); [lia..|].
    exists m', k. rewrite Z.div_1_r in *. split; [done|]. split; [done|]. assert (0 < 2 ^ k) by (apply Z.pow_pos_nonneg; lia). nia.
  - rewrite Z.opp_involutive. destruct (to_double_small m (10 ^ l)) as (m' & k & -> & Hk & Hm); [lia..|].
    exists m', k. rewrite Q in Hm. split; [done|]. split; [done|]. assert (0 < 2 ^ k) by (apply Z.pow_pos_nonneg; lia). nia.
Qed.
Lemma fraction_read u v : WsTime.number u -> HttpText.digits u 0 < 2 ^ 25 -> forallb HttpText.isdigit v = true -> (length v <= 6)%nat ->
  exists d, WsTime.ws_deserialize_duration (Some (lit "PT" ++ u ++ "."%char :: v ++ lit "S")) = Done (Some d) /\
    HttpText.digits u 0 <= d <= HttpText.digits u 0 + 1.
Proof.
  intros Nu Hu Dv Lv. destruct (strtod_fraction u v Nu Hu Dv Lv) as (m & k & E & Hk & Hm).
  destruct (round_up_small m k Hk Hm) as [n R]. set (s := HttpText.digits u 0) in *.
  set (d := if s <? n then s + 1 else s). exists d. split; [|unfold d; destruct (Z.ltb_spec s n); lia].
  unfold WsTime.ws_deserialize_duration. cbn [lit list_ascii_of_string app]. rewrite !bool_decide_false by done. rewrite bool_decide_true by done.
  set (t := u ++ _) in *. cbn [length].
  assert (WsTime.duration_number true t = Done (Some (d, lit "S"))) as ED.
  { unfold WsTime.duration_number, t. rewrite WsTime.strtol_number by done. cbn [HttpText.peek]. rewrite bool_decide_true by done. cbn [andb].
    fold t. rewrite E. cbn [HttpText.peek lit list_ascii_of_string]. rewrite bool_decide_true, R by done. cbn [obind].
    fold s. rewrite WsTime.s32_id; [done|]. destruct Nu as (_ & _ & B). unfold s. lia. }
  change (WsTime.duration_loop (S (S (length t))) ("T"%char :: t) WsTime.dur0) with (WsTime.duration_loop (S (length t)) t (WsTime.see_T WsTime.dur0)).
  assert (exists x t', t = x :: t' /\ x <> "T"%char) as (x & t' & Et & Nx).
  { subst t. destruct Nu as (N & D & _). destruct u as [|x u]; [done|]. cbn [forallb] in D. apply andb_true_iff in D as [D _].
    destruct (WsTime.digit_plain x D) as (_ & _ & _ & T & _). now exists x, (u ++ "."%char :: v ++ ["S"%char]). }
  rewrite Et in *. cbn [length WsTime.duration_loop]. rewrite bool_decide_false by done.
  change (WsTime.d_time (WsTime.see_T WsTime.dur0)) with true. rewrite ED. cbn [obind lit list_ascii_of_string].
  change (WsTime.designator (WsTime.see_T WsTime.dur0) "S" d) with (Some (WsTime.Dur true 1 0 0 0 0 0 d)). cbn [WsTime.duration_loop obind WsTime.d_time WsTime.d_got andb].
  replace (4 <? 1) with false by done. replace (64 =? 1) with false by done. cbn [orb]. do 2 f_equal. unfold WsTime.seconds.
  cbn [WsTime.d_secs WsTime.d_mins WsTime.d_hours WsTime.d_days WsTime.d_months WsTime.d_years]. lia.
Qed.

(** Six digits. *)
Lemma pad_digits x : 0 <= x < 10 ^ 6 -> let v := repeat "0"%char (6 - length (HttpAuth.dec x)) ++ HttpAuth.dec x in
  forallb HttpText.isdigit v = true /\ length v = 6%nat.
Proof.
  intros H v. destruct (dec_digits x) as (_ & D & _); [lia|]. pose proof (dec_width 5 x H). split.
  - unfold v. rewrite forallb_app, D, andb_true_r. induction (6 - _)%nat as [|n IH]; [done|]. exact IH.
  - unfold v. rewrite length_app, repeat_length. lia.
Qed.

(** ** Flags *)

Lemma land_bit x n : 0 <= n -> Z.land x (2 ^ n) = if Z.testbit x n then 2 ^ n else 0.
Proof.
  intros Hn. apply Z.bits_inj'. intros i Hi. rewrite Z.land_spec, Z.pow2_bits_eqb by lia. destruct (Z.eqb_spec n i) as [->|N].
  - rewrite andb_true_r. destruct (Z.testbit x i); [now rewrite Z.pow2_bits_true by lia|now rewrite Z.bits_0].
  - rewrite andb_false_r. destruct (Z.testbit x n); [now rewrite Z.pow2_bits_false by lia|now rewrite Z.bits_0].
Qed.
Lemma flag_clear x n : 0 <= n -> (Z.land x (2 ^ n) =? 0) = negb (Z.land x (2 ^ n) =? 2 ^ n).
Proof.
  intros Hn. rewrite land_bit by done. assert (0 < 2 ^ n) by (apply Z.pow_pos_nonneg; lia).
  destruct (Z.testbit x n); destruct (Z.eqb_spec (2 ^ n) 0), (Z.eqb_spec 0 (2 ^ n)); rewrite ?Z.eqb_refl; lia || done.
Qed.
Lemma no_flags x a b : (Z.land x (Z.lor a b) =? 0) = (Z.land x a =? 0) && (Z.land x b =? 0).
Proof.
  rewrite Z.land_lor_distr_r. apply eq_true_iff_eq. rewrite andb_true_iff, !Z.eqb_eq. apply Z.lor_eq_0_iff.
Qed.
End ClientText.
