(* ===== verification/ClientServe.v ===== *)
(** * ClientServe: what a client asks for is what the server reads

    The shape of the envelopes that wsmc_create_request makes, and what the readers of the server find in
    them: the headers, selectors and options, and that the checks of the dispatcher let them through. *)
From S2P Require Import Prelude CString Names HttpText HttpAuth WsTime Uri KazHash Faults Xml Epr Filter Envelope Dispatcher Client ClientText.
Import KazHash Faults Names Xml Epr Filter Envelope Dispatcher Client.

Module ClientServe.

(** Decides whether a name is in a list. *)
Ltac other_name := refine (bool_decide_unpack _ _); vm_compute; exact I.
(** Cases over a member of a list that is written out. *)
Ltac members H := repeat (apply elem_of_cons in H as [H|H]; [simplify_eq|]); [..|now apply elem_of_nil in H].

(** ** Options as the client has them *)

(** A selector with a text, and the selectors that are sent: the namespace comes last, unless there is one of its name. *)
Definition text_kv (x : cstring * cstring) : key_value_t epr_t := KV (PStr x.1) (VText (PStr x.2)).
Definition sent_selectors (o : client_opt_t) (l : list (cstring * cstring)) : list (cstring * cstring) :=
  if has_flag o FLAG_CIM_REFERENCES then [] else
  l ++ match o_cim_ns o with
       | Some ns => if bool_decide (CIM_NAMESPACE_SELECTOR ∈ l.*1) then [] else [(CIM_NAMESPACE_SELECTOR, ns)]
       | None => [] end.
(** The options of the request: those of the flags have no text. *)
Definition flag_options (o : client_opt_t) : list (cstring * cstring * option cstring) :=
  (if has_flag o FLAG_CIM_EXTENSIONS then [(XML_NS_WS_MAN, WSMB_SHOW_EXTENSION, None)] else []) ++
  (if has_flag o FLAG_EXCLUDE_NIL_PROPS then [(XML_NS_OPENWSMAN, WSMB_EXCLUDE_NIL_PROPS, None)] else []).
Definition table_options (l : list (cstring * cstring)) : list (cstring * cstring * option cstring) :=
  map (fun e => (XML_NS_WS_MAN, e.1, Some e.2)) l.
(** What the server finds for a name: an option without a text is true; the one that nil properties be left out goes by another
    namespace than the one that is searched. *)
Definition sent_option (o : client_opt_t) (t : list (cstring * cstring)) (op : cstring) : option cstring :=
  if has_flag o FLAG_CIM_EXTENSIONS && streq WSMB_SHOW_EXTENSION op then Some (lit "true") else
  (fun x => match x with [] => lit "true" | _ => x end) <$> (list_to_map t : gmap cstring cstring) !! op.
(** The options of a call: selectors [l] that are texts, and a table with the entries [t]. *)
Record ready (o : client_opt_t) (l t : list (cstring * cstring)) : Prop := Ready {
  r_selectors : default [] (o_selectors o) = map text_kv l;
  r_names : Forall (fun x => no_nul x.1) l;
  r_texts : Forall (fun x => text_value x.2) (sent_selectors o l);
  r_table : match o_options o with None => t = [] | Some h => exists k, wf k h /\ t = entries (concat (table h)) end;
  r_options : Forall (fun x => plain_text x.2) t;
  r_size : 0 <= o_max_envelope_size o < 2 ^ 31;
  r_timeout : 0 <= o_timeout o < 2 ^ 31;
  r_fragment : from_option plain_text True (o_fragment o) }.

Section Shape.
Context {content : cstring -> list xml} (law : content_law content) (parse : cstring -> option xml) (uuid : cstring).
Local Abbreviation lf := (leaf (content := content)).

(** ** The header *)

Definition mu_attr : attr := Attr (Some XML_NS_SOAP_1_2) SOAP_MUST_UNDERSTAND (lit "true").
Definition mu_leaf (ns name t : cstring) : xml := Elem (Some ns) name [mu_attr] (content t).
Definition timeout_text (ms : Z) : cstring := lit "PT" ++ HttpAuth.dec (ms / 1000) ++ "."%char :: HttpAuth.dec (ms mod 1000) ++ lit "S".
Definition option_headers (o : client_opt_t) : list xml :=
  (if o_timeout o =? 0 then [] else [lf XML_NS_WS_MAN WSM_OPERATION_TIMEOUT (timeout_text (o_timeout o))]) ++
  (if o_max_envelope_size o =? 0 then []
   else [(if negb (Z.land (o_flags o) FLAG_MUND_MAX_ESIZE =? 0) then mu_leaf else lf) XML_NS_WS_MAN WSM_MAX_ENVELOPE_SIZE (HttpAuth.dec (o_max_envelope_size o))]) ++
  from_option (fun f => [mu_leaf XML_NS_WS_MAN WSM_FRAGMENT_TRANSFER f]) [] (o_fragment o) ++
  from_option (fun lang => [Elem (Some XML_NS_WS_MAN) WSM_LOCALE [Attr (Some XML_NS_XML_NAMESPACES) SOAP_LANG lang;
    Attr (Some XML_NS_SOAP_1_2) SOAP_MUST_UNDERSTAND (lit "false")] []]) [] (o_locale o).
Definition selector_headers (l : list (cstring * cstring)) : list xml := match l with [] => [] | _ => [set_node (content := content) l] end.
Definition option_node (x : cstring * cstring * option cstring) : xml :=
  Elem (Some x.1.1) WSM_OPTION [Attr None WSM_NAME x.1.2] (from_option content [] x.2).
Definition option_set (l : list (cstring * cstring * option cstring)) : xml := Elem (Some XML_NS_WS_MAN) WSM_OPTION_SET [] (map option_node l).
Definition set_headers (l : list (cstring * cstring * option cstring)) : list xml := match l with [] => [] | _ => [option_set l] end.
Definition request_headers (act uri to : cstring) (o : client_opt_t) (l : list (cstring * cstring)) : list xml :=
  [mu_leaf XML_NS_ADDRESSING WSA_ACTION act; mu_leaf XML_NS_ADDRESSING WSA_TO to; mu_leaf XML_NS_WS_MAN WSM_RESOURCE_URI uri;
   mu_leaf XML_NS_ADDRESSING WSA_MESSAGE_ID uuid] ++ option_headers o ++
  Elem (Some XML_NS_ADDRESSING) WSA_REPLY_TO [] [lf XML_NS_ADDRESSING WSA_ADDRESS WSA_TO_ANONYMOUS] :: selector_headers (sent_selectors o l).

Lemma serialize_true hs t ns name : ws_serialize_str content (Some XML_NS_SOAP_1_2) (soap_elem SOAP_HEADER hs) (Some t) ns name true =
  soap_elem SOAP_HEADER (hs ++ [mu_leaf ns name t]).
Proof. done. Qed.
Lemma serialize_false hs t ns name : ws_serialize_str content (Some XML_NS_SOAP_1_2) (soap_elem SOAP_HEADER hs) (Some t) ns name false =
  soap_elem SOAP_HEADER (hs ++ [lf ns name t]).
Proof. done. Qed.
Lemma serialize_number hs x ns name mu : 0 <= x < 2 ^ 31 -> ws_serialize_uint32 content (Some XML_NS_SOAP_1_2) (soap_elem SOAP_HEADER hs) x ns name mu =
  soap_elem SOAP_HEADER (hs ++ [(if mu then mu_leaf else lf) ns name (HttpAuth.dec x)]).
Proof.
  intros H. unfold ws_serialize_uint32, ws_xml_set_node_ulong. rewrite u64_small by lia. cbv zeta.
  rewrite (proj2 (Nat.leb_gt _ _)); [now destruct mu|]. pose proof (ClientText.dec_width 9 x ltac:(change (10 ^ Z.of_nat 10) with 10000000000; lia)). lia.
Qed.
Lemma envelope_options_eq hs o t : 0 <= o_max_envelope_size o < 2 ^ 31 -> t = timeout_text (o_timeout o) ->
  envelope_options content (Some XML_NS_SOAP_1_2) (soap_elem SOAP_HEADER hs) t o = soap_elem SOAP_HEADER (hs ++ option_headers o).
Proof.
  intros Hs ->. unfold envelope_options, option_headers.
  destruct (o_timeout o =? 0); [|rewrite serialize_false]; (destruct (o_max_envelope_size o =? 0); [|rewrite serialize_number by done]);
    destruct (o_fragment o) as [f|]; try rewrite serialize_true; (destruct (o_locale o) as [lang|]; cbn [app from_option]);
    rewrite ?app_nil_r; try done; unfold soap_elem; cbn [append_child]; now rewrite <- ?app_assoc.
Qed.

(** ** Selectors *)

Lemma client_selectors hs l : Client.add_selectors content parse hs (map text_kv l) = Envelope.add_selectors (content := content) parse l hs.
Proof.
  unfold Envelope.add_selectors. assert (G : forall l (r : outcome xml),
    (let* h := r in Client.add_selectors content parse h (map text_kv l)) =
    fold_left (fun acc x => let* h := acc in wsman_add_selector content parse h x.1 (Some x.2)) l r).
  { clear. induction l as [|x l IH]; intros r; [now destruct r|]. cbn [map fold_left]. rewrite <- IH.
    destruct r as [h| | |]; [|done..]. cbn [obind Client.add_selectors text_kv key v chars maybe]. now destruct (wsman_add_selector _ _ _ _ _). }
  apply (G l (Done hs)).
Qed.
Lemma add_to_header hs k l : selected (Some XML_NS_WS_MAN) (Some WSM_SELECTOR_SET) (Some (soap_elem SOAP_HEADER hs)) = [] ->
  Forall (fun x => text_value x.2) l ->
  Envelope.add_selectors (content := content) parse l (soap_elem SOAP_HEADER (hs ++ selector_headers k)) = Done (soap_elem SOAP_HEADER (hs ++ selector_headers (k ++ l))).
Proof.
  intros E F. destruct k as [|x k].
  - destruct F as [|x l P F]; [done|]. cbn [selector_headers app]. rewrite app_nil_r. unfold Envelope.add_selectors. cbn [fold_left obind].
    unfold soap_elem. rewrite (add_selector_first parse _ _ _ hs x E P). exact (add_selectors_eq parse _ _ _ hs [x] l E F).
  - exact (add_selectors_eq parse _ _ _ hs (x :: k) l E F).
Qed.
Lemma find_key_texts k l : no_nul k -> Forall (fun x => no_nul x.1) l -> list_find_key k (map text_kv l) = Done (bool_decide (k ∈ l.*1)).
Proof.
  intros Nk F. induction F as [|x l Nx F IH]; [done|]. cbn [map list_find_key text_kv key chars obind]. destruct (Z.eqb_spec (strcmp x.1 k) 0) as [E|E].
  - apply strcmp_eq in E; [|done..]. rewrite bool_decide_true; [done|]. cbn. subst. left.
  - rewrite IH. f_equal. apply bool_decide_ext. cbn. rewrite elem_of_cons. split; [auto|]. intros [->|]; [|done]. exfalso. apply E. now apply strcmp_eq.
Qed.
Definition plain_headers (act uri to : cstring) (o : client_opt_t) : list xml :=
  [mu_leaf XML_NS_ADDRESSING WSA_ACTION act; mu_leaf XML_NS_ADDRESSING WSA_TO to; mu_leaf XML_NS_WS_MAN WSM_RESOURCE_URI uri;
   mu_leaf XML_NS_ADDRESSING WSA_MESSAGE_ID uuid] ++ option_headers o ++
  [Elem (Some XML_NS_ADDRESSING) WSA_REPLY_TO [] [lf XML_NS_ADDRESSING WSA_ADDRESS WSA_TO_ANONYMOUS]].
Lemma request_headers_eq act uri to o l : request_headers act uri to o l = plain_headers act uri to o ++ selector_headers (sent_selectors o l).
Proof. unfold request_headers, plain_headers. now rewrite <- !app_assoc. Qed.
(** A header of another name than the ones that the options add. *)
Lemma first_option_headers ns name o : (ns, name) ∉ [(XML_NS_WS_MAN, WSM_OPERATION_TIMEOUT); (XML_NS_WS_MAN, WSM_MAX_ENVELOPE_SIZE);
    (XML_NS_WS_MAN, WSM_FRAGMENT_TRANSFER); (XML_NS_WS_MAN, WSM_LOCALE)] -> first ns name (option_headers o) = None.
Proof.
  intros N. assert (G : forall ns' name' a ch, (ns', name') ∈ [(XML_NS_WS_MAN, WSM_OPERATION_TIMEOUT); (XML_NS_WS_MAN, WSM_MAX_ENVELOPE_SIZE);
    (XML_NS_WS_MAN, WSM_FRAGMENT_TRANSFER); (XML_NS_WS_MAN, WSM_LOCALE)] -> selects (Some ns) (Some name) (Elem (Some ns') name' a ch) = false).
  { intros ns' name' a ch H. rewrite selects_elem. apply not_true_iff_false. rewrite andb_true_iff, !streq_true. intros [-> ->]. contradiction. }
  apply first_none. unfold option_headers. destruct (o_timeout o =? 0), (o_max_envelope_size o =? 0), (negb (Z.land (o_flags o) FLAG_MUND_MAX_ESIZE =? 0)), (o_fragment o), (o_locale o);
    cbn [app from_option]; repeat (apply Forall_cons; split; [apply G; rewrite !elem_of_cons; tauto|]); constructor.
Qed.
Lemma no_selectors act uri to o : selected (Some XML_NS_WS_MAN) (Some WSM_SELECTOR_SET) (Some (soap_elem SOAP_HEADER (plain_headers act uri to o))) = [].
Proof.
  apply nil_length_inv. destruct (selected _ _ _) as [|c r] eqn:E; [done|exfalso].
  assert (first XML_NS_WS_MAN WSM_SELECTOR_SET (plain_headers act uri to o) = Some c) as F.
  { unfold first. unfold selected in E. cbn [from_option children soap_elem] in E. now rewrite E. }
  unfold plain_headers in F. rewrite !first_app, first_option_headers in F by other_name.
  unfold mu_leaf in F. rewrite !first_cons, !selects_elem in F. revert F. eval_names. discriminate.
Qed.
Lemma build_envelope_eq act uri to o l t : ready o l t -> uuid <> [] ->
  wsmc_build_envelope content parse uuid (Some act) (Some WSA_TO_ANONYMOUS) (Some uri) (Some to) o = Done (Some (envelope (request_headers act uri to o l) [])).
Proof.
  intros R Nu. unfold wsmc_build_envelope. cbv zeta. change (ws_xml_create_envelope content) with (envelope [] []). rewrite envelope_header.
  change (ws_xml_get_node_name_ns (Some (envelope [] []))) with (Some XML_NS_SOAP_1_2). cbn [default from_option]. unfold id.
  rewrite !serialize_true. assert (forall A (x y : A), match uuid with [] => x | _ => y end = y) as -> by (intros; destruct uuid; congruence).
  fold (timeout_text (o_timeout o)). pose proof (r_timeout _ _ _ R) as Ht. pose proof (r_size _ _ _ R) as Hs.
  replace (_ && _) with false.
  2:{ symmetry. apply andb_false_iff. right. apply Z.leb_gt. unfold timeout_text. rewrite length_app, length_app. cbn [length]. rewrite length_app. cbn [length lit list_ascii_of_string].
      pose proof (ClientText.dec_width 6 (o_timeout o / 1000) ltac:(split; [apply Z.div_pos|apply Z.div_lt_upper_bound]; cbn; lia)).
      pose proof (ClientText.dec_width 2 (o_timeout o mod 1000) (Z.mod_pos_bound _ 1000 eq_refl)). lia. }
  rewrite envelope_options_eq by done. 
  rewrite <- !app_assoc. rewrite request_headers_eq. unfold sent_selectors in *.
  match goal with |- context [append_child (soap_elem SOAP_HEADER ?a) ?b] => replace (append_child (soap_elem SOAP_HEADER a) b)
    with (soap_elem SOAP_HEADER (plain_headers act uri to o)) by (unfold plain_headers, soap_elem; cbn [append_child]; now rewrite <- !app_assoc) end.
  pose proof (r_texts _ _ _ R) as F. unfold sent_selectors in *. destruct (has_flag o FLAG_CIM_REFERENCES).
  { cbn [obind selector_headers]. now rewrite app_nil_r. }
  unfold wsmc_add_selector_from_options. pose proof (no_selectors act uri to o) as E.
  assert (forall H, match o_selectors o with None => Done H | Some l => Client.add_selectors content parse H l end =
    Envelope.add_selectors (content := content) parse l H) as ->.
  { intros H. rewrite <- client_selectors, <- (r_selectors _ _ _ R). now destruct (o_selectors o). }
  apply Forall_app in F as [F1 F2]. pose proof (add_to_header (plain_headers act uri to o) [] l E F1) as A1. cbn [selector_headers] in A1.
  rewrite app_nil_r in A1. rewrite A1. cbn [obind app]. unfold add_cim_ns. destruct (o_cim_ns o) as [ns|]; [|now rewrite app_nil_r].
  rewrite (r_selectors _ _ _ R), find_key_texts by (try apply (r_names _ _ _ R); refine (bool_decide_unpack _ _); vm_compute; exact I).
  cbn [obind]. destruct (bool_decide _); [now rewrite app_nil_r|].
  pose proof (add_to_header (plain_headers act uri to o) l [(CIM_NAMESPACE_SELECTOR, ns)] E F2) as A2. unfold Envelope.add_selectors in A2.
  cbn [fold_left obind fst snd] in A2. rewrite A2. reflexivity.
Qed.

(** ** Options *)

Lemma scan_loop_eq (f : cstring * cstring -> xml -> xml) k h rest : forall fuel s node, wf k h -> (length rest < fuel)%nat -> scans k h s rest ->
  scan_loop fuel h s f node = Done (fold_left (fun n e => f e n) (entries rest) node).
Proof.
  induction rest as [|n rest IH]; intros [|fuel] s node Wk L S; [lia| |lia|]; cbn [scan_loop].
  - now rewrite (scan_next_end hash_val_t_bit k h s ltac:(done) S).
  - destruct (scan_next_eq hash_val_t_bit k h s n rest Wk ltac:(done) S) as (_ & s' & -> & S' & _). cbn [obind]. apply IH; [done| |done]. simpl in L. lia.
Qed.
Lemma option_set_eq h l : fold_left (fun n e => add_option content e n) l (option_set h) = option_set (h ++ table_options l).
Proof.
  revert h. induction l as [|e l IH]; intros h; [cbn; now rewrite app_nil_r|]. cbn [fold_left table_options map].
  assert (add_option content e (option_set h) = option_set (h ++ [(XML_NS_WS_MAN, e.1, Some e.2)])) as ->
    by (unfold option_set; rewrite map_app; reflexivity).
  rewrite IH, <- app_assoc. reflexivity.
Qed.
Lemma add_option_set_eq junk o l t hs : ready o l t ->
  add_option_set content junk o (soap_elem SOAP_HEADER hs) = Done (soap_elem SOAP_HEADER (hs ++ set_headers (flag_options o ++ table_options t))).
Proof.
  intros R. unfold add_option_set.
  assert (forall a b : list (cstring * cstring * option cstring), (a ++ b = [] -> False) -> set_headers (a ++ b) = [option_set (a ++ b)]) as Hset
    by (intros a b N; destruct (a ++ b); [now destruct N|done]).
  assert ((if Z.land (o_flags o) (Z.lor FLAG_CIM_EXTENSIONS FLAG_EXCLUDE_NIL_PROPS) =? 0 then None else _) =
    match flag_options o with [] => None | f => Some (option_set f) end) as ->.
  { rewrite ClientText.no_flags. unfold flag_options, has_flag. change FLAG_CIM_EXTENSIONS with (2 ^ 12). change FLAG_EXCLUDE_NIL_PROPS with (2 ^ 17).
    rewrite !ClientText.flag_clear by done. now destruct (_ =? 2 ^ 12), (_ =? 2 ^ 17). }
  pose proof (r_table _ _ _ R) as T. destruct (o_options o) as [h|].
  - destruct T as (k & Wk & ->). destruct (wf_count _ _ Wk) as [C _]. unfold ow_hash_count. rewrite C.
    destruct (Z.ltb_spec 0 (Z.of_nat (length (concat (table h))))) as [L|L].
    + rewrite (scan_loop_eq (add_option content) k h (concat (table h))) by (done || lia || now apply scan_begin_scans). cbn [obind].
      rewrite Hset. 2:{ destruct (flag_options o); [|done]. cbn. destruct (concat (table h)); [simpl in L; lia|done]. }
      change (make_new_xml_node content (Some XML_NS_WS_MAN) WSM_OPTION_SET None false) with (option_set []).
      enough (default (option_set []) (match flag_options o with [] => None | f => Some (option_set f) end) = option_set (flag_options o)) as ->
        by now rewrite option_set_eq.
      now destruct (flag_options o).
    + destruct (concat (table h)); [|simpl in L; lia]. cbn [obind entries map table_options]. rewrite app_nil_r.
      destruct (flag_options o); cbn [set_headers]; [now rewrite app_nil_r|done].
  - subst t. cbn [obind table_options map]. rewrite app_nil_r. destruct (flag_options o); cbn [set_headers]; [now rewrite app_nil_r|done].
Qed.

(** ** The request *)

(** The actions that leave the header as it is, and what they call the action. *)
Definition plain_actions : list WsmanAction := [WSMAN_ACTION_TRANSFER_GET; WSMAN_ACTION_TRANSFER_PUT; WSMAN_ACTION_TRANSFER_CREATE;
  WSMAN_ACTION_TRANSFER_DELETE; WSMAN_ACTION_CUSTOM; WSMAN_ACTION_ENUMERATION; WSMAN_ACTION_ASSOCIATORS; WSMAN_ACTION_REFERENCES;
  WSMAN_ACTION_PULL; WSMAN_ACTION_RELEASE].
Definition action_uri (action : WsmanAction) (uri : cstring) (method : option cstring) : option cstring :=
  match method with
  | Some m => if decide ("/"%char ∈ m) then Some m else wsman_make_action (Some uri) (Some m)
  | None => wsmc_create_action_str action
  end.
(** The estimate of the number of results comes last in the header. *)
Definition count_headers (action : WsmanAction) (o : client_opt_t) : list xml :=
  if bool_decide (action ∈ [WSMAN_ACTION_ENUMERATION; WSMAN_ACTION_PULL]) && has_flag o FLAG_ENUMERATION_COUNT_ESTIMATION
  then [Elem (Some XML_NS_WS_MAN) WSM_REQUEST_TOTAL [] []] else [].
Definition all_headers (action : WsmanAction) (act uri to : cstring) (o : client_opt_t) (l t : list (cstring * cstring)) : list xml :=
  request_headers act uri to o l ++ set_headers (flag_options o ++ table_options t) ++ count_headers action o.
Lemma add_action_plain action o filter d h k b : action ∈ plain_actions -> add_action content parse action o filter d h b =
  let* r := add_action content parse action o filter d k b in Done (h, r.2).
Proof.
  intros H. members H; try done; cbn [add_action]; destruct o as [o|]; try done; now destruct (wsman_set_enumeration_options _ _ _ _).
Qed.
(** The parts that all actions have. *)
Lemma request_parts junk act uri to o l t action method d filter hs1 b1 hs2 b2 : ready o l t -> uuid <> [] -> action <> WSMAN_ACTION_IDENTIFY ->
  action_uri action uri method = Some act ->
  add_action content parse action (Some o) filter d
    (soap_elem SOAP_HEADER (request_headers act uri to o l ++ set_headers (flag_options o ++ table_options t))) (soap_elem SOAP_BODY []) = Done (soap_elem SOAP_HEADER hs1, b1) ->
  add_limits content action o (soap_elem SOAP_HEADER hs1) b1 = (soap_elem SOAP_HEADER hs2, b2) ->
  wsmc_create_request content parse uuid (Some to) (Some uri) (Some o) filter action method d junk =
    Done (Some (soap_elem SOAP_ENVELOPE [soap_elem SOAP_HEADER hs2; b2])).
Proof.
  intros R Nu Ni Hact Ha Hl. unfold wsmc_create_request. cbv zeta. rewrite decide_False by done.
  unfold action_uri in Hact. rewrite Hact, (build_envelope_eq act uri to o l t R Nu). cbn [obind]. rewrite envelope_header, envelope_body.
  rewrite (add_option_set_eq junk o l t _ R). cbn [obind]. rewrite Ha. cbn [obind]. rewrite Hl, on_header_envelope. reflexivity.
Qed.
Lemma create_request_eq junk act uri to o l t action method d filter body :
  ready o l t -> uuid <> [] -> action ∈ plain_actions -> action_uri action uri method = Some act ->
  add_action content parse action (Some o) filter d (soap_elem SOAP_HEADER []) (soap_elem SOAP_BODY []) = Done (soap_elem SOAP_HEADER [], body) ->
  wsmc_create_request content parse uuid (Some to) (Some uri) (Some o) filter action method d junk =
    Done (Some (soap_elem SOAP_ENVELOPE [soap_elem SOAP_HEADER (all_headers action act uri to o l t);
      (add_limits content action o (soap_elem SOAP_HEADER []) body).2])).
Proof.
  intros R Nu Ha Hact Hb.
  apply (request_parts junk act uri to o l t action method d filter (request_headers act uri to o l ++ set_headers (flag_options o ++ table_options t)) body); try done.
  { intros ->. revert Ha. change (WSMAN_ACTION_IDENTIFY ∉ plain_actions). other_name. }
  { now rewrite (add_action_plain _ _ _ _ _ (soap_elem SOAP_HEADER []) _ Ha), Hb. }
  unfold all_headers. rewrite app_assoc. generalize (request_headers act uri to o l ++ set_headers (flag_options o ++ table_options t)). intros hs.
  unfold count_headers, add_limits.
  members Ha; try (cbn [bool_decide]; rewrite bool_decide_false by other_name; cbn [andb]; now rewrite app_nil_r);
    (rewrite bool_decide_true by other_name; cbn [andb]; destruct (has_flag o FLAG_ENUMERATION_COUNT_ESTIMATION); [done|now rewrite app_nil_r]).
Qed.

(** ** What the server reads *)

Lemma mu_leaf_text ns name x : plain_text x -> ws_xml_get_node_text (Some (mu_leaf ns name x)) = Some x.
Proof using law. intros P. unfold ws_xml_get_node_text. cbn [fmap option_fmap option_map]. f_equal. unfold mu_leaf. rewrite content_of_elem. now apply law. Qed.
Lemma mu_leaf_mu ns name x : must_understand (Some (mu_leaf ns name x)) = true.
Proof. reflexivity. Qed.
Lemma leaf_mu ns name x : must_understand (Some (lf ns name x)) = false.
Proof. reflexivity. Qed.
(** The headers behind the ones of the options. *)
Definition last_headers (action : WsmanAction) (o : client_opt_t) (l t : list (cstring * cstring)) : list xml :=
  Elem (Some XML_NS_ADDRESSING) WSA_REPLY_TO [] [lf XML_NS_ADDRESSING WSA_ADDRESS WSA_TO_ANONYMOUS] :: selector_headers (sent_selectors o l) ++
  set_headers (flag_options o ++ table_options t) ++ count_headers action o.
Lemma all_headers_eq action act uri to o l t : all_headers action act uri to o l t =
  [mu_leaf XML_NS_ADDRESSING WSA_ACTION act; mu_leaf XML_NS_ADDRESSING WSA_TO to; mu_leaf XML_NS_WS_MAN WSM_RESOURCE_URI uri;
   mu_leaf XML_NS_ADDRESSING WSA_MESSAGE_ID uuid] ++ option_headers o ++ last_headers action o l t.
Proof. unfold all_headers, request_headers, last_headers. rewrite <- !app_assoc. reflexivity. Qed.
(** A name of none of the headers behind the options. *)
Lemma first_last_headers ns name action o l t : (ns, name) ∉ [(XML_NS_ADDRESSING, WSA_REPLY_TO); (XML_NS_WS_MAN, WSM_SELECTOR_SET);
    (XML_NS_WS_MAN, WSM_OPTION_SET); (XML_NS_WS_MAN, WSM_REQUEST_TOTAL)] -> first ns name (last_headers action o l t) = None.
Proof.
  intros N. assert (G : forall ns' name' a ch, (ns', name') ∈ [(XML_NS_ADDRESSING, WSA_REPLY_TO); (XML_NS_WS_MAN, WSM_SELECTOR_SET);
    (XML_NS_WS_MAN, WSM_OPTION_SET); (XML_NS_WS_MAN, WSM_REQUEST_TOTAL)] -> selects (Some ns) (Some name) (Elem (Some ns') name' a ch) = false).
  { intros ns' name' a ch H. rewrite selects_elem. apply not_true_iff_false. rewrite andb_true_iff, !streq_true. intros [-> ->]. contradiction. }
  apply first_none. unfold last_headers, count_headers.
  destruct (sent_selectors o l), (flag_options o ++ table_options t), (_ && _); cbn [selector_headers set_headers app];
    repeat (apply Forall_cons; split; [apply G; rewrite !elem_of_cons; tauto|]); constructor.
Qed.
Lemma first_in_options ns name action act uri to o l t : (ns, name) ∈ [(XML_NS_WS_MAN, WSM_OPERATION_TIMEOUT); (XML_NS_WS_MAN, WSM_MAX_ENVELOPE_SIZE);
    (XML_NS_WS_MAN, WSM_FRAGMENT_TRANSFER); (XML_NS_WS_MAN, WSM_LOCALE)] ->
  first ns name (all_headers action act uri to o l t) = first ns name (option_headers o).
Proof.
  intros H. rewrite all_headers_eq, !first_app. rewrite first_last_headers by (members H; other_name).
  replace (first ns name [_; _; _; _]) with (@None xml) by (symmetry; members H; reflexivity). now destruct (first ns name (option_headers o)).
Qed.
Lemma first_timeout o : first XML_NS_WS_MAN WSM_OPERATION_TIMEOUT (option_headers o) =
  if o_timeout o =? 0 then None else Some (lf XML_NS_WS_MAN WSM_OPERATION_TIMEOUT (timeout_text (o_timeout o))).
Proof.
  unfold option_headers. destruct (o_timeout o =? 0); [|reflexivity]. cbn [app].
  destruct (o_max_envelope_size o =? 0), (negb (Z.land (o_flags o) FLAG_MUND_MAX_ESIZE =? 0)), (o_fragment o), (o_locale o); reflexivity.
Qed.
Lemma first_size o : first XML_NS_WS_MAN WSM_MAX_ENVELOPE_SIZE (option_headers o) =
  if o_max_envelope_size o =? 0 then None else
  Some ((if negb (Z.land (o_flags o) FLAG_MUND_MAX_ESIZE =? 0) then mu_leaf else lf) XML_NS_WS_MAN WSM_MAX_ENVELOPE_SIZE (HttpAuth.dec (o_max_envelope_size o))).
Proof.
  unfold option_headers. destruct (o_timeout o =? 0), (o_max_envelope_size o =? 0), (negb (Z.land (o_flags o) FLAG_MUND_MAX_ESIZE =? 0)),
    (o_fragment o), (o_locale o); reflexivity.
Qed.
Lemma first_fragment o : first XML_NS_WS_MAN WSM_FRAGMENT_TRANSFER (option_headers o) = mu_leaf XML_NS_WS_MAN WSM_FRAGMENT_TRANSFER <$> o_fragment o.
Proof.
  unfold option_headers. destruct (o_timeout o =? 0), (o_max_envelope_size o =? 0), (negb (Z.land (o_flags o) FLAG_MUND_MAX_ESIZE =? 0)),
    (o_fragment o), (o_locale o); reflexivity.
Qed.
Lemma first_selector_set action act uri to o l t : first XML_NS_WS_MAN WSM_SELECTOR_SET (all_headers action act uri to o l t) =
  head (selector_headers (sent_selectors o l)).
Proof.
  rewrite all_headers_eq, !first_app, first_option_headers by other_name. replace (first _ _ [_; _; _; _]) with (@None xml) by reflexivity.
  unfold last_headers. rewrite first_cons, !first_app, selects_elem. eval_names.
  destruct (sent_selectors o l) as [|x k]; [|reflexivity]. cbn [selector_headers head]. unfold count_headers.
  destruct (flag_options o ++ table_options t), (_ && _); reflexivity.
Qed.
Lemma first_option_set action act uri to o l t : first XML_NS_WS_MAN WSM_OPTION_SET (all_headers action act uri to o l t) =
  head (set_headers (flag_options o ++ table_options t)).
Proof.
  rewrite all_headers_eq, !first_app, first_option_headers by other_name. replace (first _ _ [_; _; _; _]) with (@None xml) by reflexivity.
  unfold last_headers. rewrite first_cons, !first_app, selects_elem. eval_names.
  unfold count_headers. destruct (sent_selectors o l), (flag_options o ++ table_options t), (_ && _); reflexivity.
Qed.
Lemma option_name x : ws_xml_find_attr_value (Some (option_node x)) None WSM_NAME = Some x.1.2.
Proof.
  unfold ws_xml_find_attr_value. cbn [ws_xml_find_node_attr option_node properties List.find]. unfold is_attr. cbn [attr_ns attr_name].
  rewrite bool_decide_true, streq_refl by done. reflexivity.
Qed.
Lemma option_text x : from_option plain_text True x.2 -> ws_xml_get_node_text (Some (option_node x)) = Some (default [] x.2).
Proof using law.
  intros P. unfold ws_xml_get_node_text. cbn [fmap option_fmap option_map]. f_equal. unfold option_node. rewrite content_of_elem.
  destruct x.2 as [y|]; [now apply law|done].
Qed.
Lemma options_walk op t : Forall (fun x => plain_text x.2) t ->
  walk (fun option optval => match ws_xml_find_attr_value (Some option) None WSM_NAME with
    | Some attrVal => if streq attrVal op then inr (match ws_xml_get_node_text (Some option) with Some [] => Some (lit "true") | t => t end) else inl optval
    | None => inl optval end) (map option_node (table_options t)) None =
  (fun x => match x with [] => lit "true" | _ => x end) <$> (list_to_map t : gmap cstring cstring) !! op.
Proof using law.
  intros F. induction F as [|x t P F IH]; [done|]. cbn [table_options map walk]. rewrite option_name, option_text by done. cbn [fst snd default from_option].
  destruct x as [n y]. cbn [list_to_map foldr fst snd uncurry]. destruct (streq n op) eqn:E.
  - apply streq_true in E as ->. rewrite lookup_insert_eq. now destruct y.
  - apply streq_false in E. rewrite lookup_insert_ne by done. exact IH.
Qed.
Lemma options_read hs bs o l t op : ready o l t -> first XML_NS_WS_MAN WSM_OPTION_SET hs = head (set_headers (flag_options o ++ table_options t)) ->
  wsman_get_option_set None (Some (envelope hs bs)) op = sent_option o t op.
Proof using law.
  intros R E. unfold wsman_get_option_set. cbn [the_doc]. rewrite envelope_header, get_header, E.
  pose proof (options_walk op t (r_options _ _ _ R)) as Wk. unfold sent_option.
  assert (forall l, l <> [] -> set_headers l = [option_set l]) as Hs by (now intros []).
  destruct (decide (flag_options o ++ table_options t = [])) as [Z|N].
  { rewrite Z. apply app_eq_nil in Z as [Z1 Z2]. destruct t; [|done]. unfold flag_options in Z1. now destruct (has_flag o FLAG_CIM_EXTENSIONS). }
  rewrite Hs by done. cbn [head]. rewrite for_children_walk. unfold selected, option_set. cbn [from_option children].
  rewrite map_app, List.filter_app.
  replace (List.filter _ (map option_node (table_options t))) with (map option_node (table_options t)).
  2:{ clear. induction t as [|x t IH]; [done|]. cbn [table_options map List.filter].
      replace (selects _ _ (option_node (XML_NS_WS_MAN, x.1, Some x.2))) with true by reflexivity. f_equal. exact IH. }
  replace (List.filter _ (map option_node (flag_options o))) with
    (if has_flag o FLAG_CIM_EXTENSIONS then [option_node (XML_NS_WS_MAN, WSMB_SHOW_EXTENSION, None)] else []).
  2:{ unfold flag_options. destruct (has_flag o FLAG_CIM_EXTENSIONS), (has_flag o FLAG_EXCLUDE_NIL_PROPS); reflexivity. }
  destruct (has_flag o FLAG_CIM_EXTENSIONS); cbn [app andb]; [|exact Wk]. cbn [walk]. rewrite option_name, option_text by done. cbn [fst snd default from_option].
  destruct (streq WSMB_SHOW_EXTENSION op); [done|exact Wk].
Qed.

(** The body stays an element with the name of a body. *)
Lemma body_stays action o hs ch : exists ch', (add_limits content action o (soap_elem SOAP_HEADER hs) (soap_elem SOAP_BODY ch)).2 = soap_elem SOAP_BODY ch'.
Proof. unfold add_limits. destruct action; cbn [snd]; try eauto; destruct (_ <? _); cbn [andb]; eauto; destruct (has_flag _ _); eauto. Qed.
Lemma body_plain action o d : action ∈ plain_actions -> exists ch,
  add_action content parse action (Some o) None d (soap_elem SOAP_HEADER []) (soap_elem SOAP_BODY []) = Done (soap_elem SOAP_HEADER [], soap_elem SOAP_BODY ch).
Proof. intros H. members H; cbn [add_action]; eauto; cbn; eauto. Qed.
(** The request of a call, with a body that is worked on no further here. *)
Lemma plain_request junk act uri to o l t action method d :
  ready o l t -> uuid <> [] -> action ∈ plain_actions -> action_uri action uri method = Some act -> exists ch,
  add_action content parse action (Some o) None d (soap_elem SOAP_HEADER []) (soap_elem SOAP_BODY []) = Done (soap_elem SOAP_HEADER [], soap_elem SOAP_BODY ch) /\
  exists bs, (add_limits content action o (soap_elem SOAP_HEADER []) (soap_elem SOAP_BODY ch)).2 = soap_elem SOAP_BODY bs /\
  wsmc_create_request content parse uuid (Some to) (Some uri) (Some o) None action method d junk = Done (Some (envelope (all_headers action act uri to o l t) bs)).
Proof.
  intros R Nu Ha Hact. destruct (body_plain action o d Ha) as [ch B]. destruct (body_stays action o [] ch) as [bs E].
  exists ch. split; [exact B|]. exists bs. split; [exact E|]. rewrite (create_request_eq junk act uri to o l t action method d None _ R Nu Ha Hact B), E. reflexivity.
Qed.
Lemma is_acceptable action act uri to o l t k bs : acceptable (envelope (all_headers action act uri to o l t ++ k) bs).
Proof.
  set (hs := all_headers action act uri to o l t ++ k). exists [], [soap_elem SOAP_HEADER hs; soap_elem SOAP_BODY bs], (soap_elem SOAP_HEADER hs), (soap_elem SOAP_BODY bs).
  split; [done|]. split; [done|]. split; [done|]. right. right. unfold addressed, has_child, hs. rewrite !get_header, all_headers_eq, <- !app_assoc.
  split; [eexists; reflexivity|]. split; [eexists; reflexivity|]. split; [|eexists; reflexivity].
  rewrite !first_app, first_option_headers by other_name. replace (first _ _ [_; _; _; _]) with (@None xml) by reflexivity. eexists; reflexivity.
Qed.
End Shape.

(** C10. What a client asks for is what the server reads: the request that is made of a call and its options is a valid
    envelope with the action, the resource, the message id and the address of the call, with its fragment, and with the size of the
    answer if it must be understood (else the server takes it for 0); for every name the server finds the first selector that was given
    for it, the namespace being one of them unless references are asked for; and of the options it finds the ones that [sent_option] says:
    those of the table under their names, where one without a text is read as true, and the one that shows extensions, but never the one
    that excludes nil properties, which is sent in another namespace than the one that is searched.
    This holds for the actions of [plain_actions] (Get, Put, Create, Delete, custom ones, Enumerate, Associators, References, Pull and
    Release) without a filter, with an id that is not empty, and for options as [ready] says: every text, and so the id, the action, the
    resource and the address, is without an ampersand, behind which it would be lost; the selectors are texts that do not name an
    end point reference; the size and the timeout are below 2^31. *)
Theorem client_request_read content parse uuid junk st act uri to o l t action method d : content_law content -> ready o l t -> uuid <> [] ->
  Forall plain_text [uuid; act; uri; to] -> action ∈ plain_actions -> action_uri action uri method = Some act -> st_code st = WSMAN_RC_OK ->
  exists doc, wsmc_create_request content parse uuid (Some to) (Some uri) (Some o) None action method d junk = Done (Some doc) /\
    wsman_is_valid_envelope st doc = (1, st) /\ wsman_get_action None (Some doc) = Some act /\ wsman_get_resource_uri None (Some doc) = Some uri /\
    message_id (ws_xml_get_soap_header (Some doc)) = Some uuid /\
    ws_xml_get_node_text (ws_xml_get_child (ws_xml_get_soap_header (Some doc)) 0 (Some XML_NS_ADDRESSING) (Some WSA_TO)) = Some to /\
    wsman_get_max_envelope_size None (Some doc) = (if Z.land (o_flags o) FLAG_MUND_MAX_ESIZE =? 0 then 0 else o_max_envelope_size o) /\
    wsman_get_fragment_string None (Some doc) = o_fragment o /\
    (forall name, wsman_get_selector None (Some doc) name 0 = (list_to_map (sent_selectors o l) : gmap cstring cstring) !! name) /\
    (forall op, wsman_get_option_set None (Some doc) op = sent_option o t op).
Proof.
  intros law R Nu P Ha Hact Hst. destruct (plain_request (content := content) parse uuid junk act uri to o l t action method d R Nu Ha Hact) as (ch & _ & bs & _ & E).
  eexists. split; [exact E|]. clear E. rewrite !Forall_cons in P. destruct P as (P1 & P2 & P3 & P4 & _). split.
  { pose proof (is_acceptable (content := content) parse uuid action act uri to o l t [] bs) as A. rewrite app_nil_r in A. match type of A with acceptable ?doc => now destruct (envelope_verdict st doc Hst) as [[_ V]|[N _]] end. }
  unfold message_id, wsman_get_action, wsman_get_resource_uri, wsman_get_max_envelope_size, wsman_get_fragment_string. cbn [the_doc].
  rewrite envelope_header, !get_header. split; [exact (mu_leaf_text law _ _ act P2)|]. split; [exact (mu_leaf_text law _ _ uri P3)|].
  split; [exact (mu_leaf_text law _ _ uuid P1)|]. split; [exact (mu_leaf_text law _ _ to P4)|].
  rewrite !(first_in_options parse) by other_name. rewrite first_size, first_fragment. split; [|split; [|split]].
  - unfold ws_deserialize_uint32. rewrite get_header, (first_in_options parse), first_size by other_name. pose proof (r_size _ _ _ R) as S.
    destruct (Z.land (o_flags o) FLAG_MUND_MAX_ESIZE =? 0), (Z.eqb_spec (o_max_envelope_size o) 0) as [Z|Z]; cbn [negb]; try (now rewrite ?Z).
    + rewrite mu_leaf_mu. unfold ws_xml_get_node_ulong. rewrite (mu_leaf_text law) by (apply ClientText.dec_plain; lia). cbn [from_option].
      rewrite ClientText.atoi_dec by lia. apply u64_small. lia.
  - pose proof (r_fragment _ _ _ R) as F. destruct (o_fragment o) as [f|]; [|done]. cbn [fmap option_fmap option_map]. rewrite mu_leaf_mu. exact (mu_leaf_text law _ _ f F).
  - intros name. destruct (sent_selectors o l) as [|x k] eqn:Es.
    + unfold wsman_get_selector. cbn [the_doc]. rewrite envelope_header, get_header, (first_selector_set parse), Es. done.
    + pose proof (r_texts _ _ _ R) as F. rewrite Es in F. apply (selectors_read law (soap_elem SOAP_HEADER (all_headers (content := content) uuid action act uri to o l t)) (soap_elem SOAP_BODY bs) 0 (x :: k)); try done.
      rewrite get_header, (first_selector_set parse), Es. reflexivity.
  - intros op. apply (options_read law _ _ _ l); [done|]. apply (first_option_set parse).
Qed.

Definition demo_opts : client_opt_t :=
  Opts (Z.lor FLAG_MUND_MAX_ESIZE FLAG_CIM_EXTENSIONS) (Some (lit "Size")) (Some (lit "root/cimv2")) None None WSMAN_DELIVERY_PUSH WSMAN_DELIVERY_SEC_AUTO
    None None None (SpecFloat.S754_zero false) (SpecFloat.S754_zero false) (Some [text_kv (lit "Name", lit "eth0")]) None 60500 16384 0 None (Some (lit "en")).
Lemma demo_ready : ready demo_opts [(lit "Name", lit "eth0")] [].
Proof.
  constructor; try (vm_compute; (done || (split; congruence))).
  - repeat constructor. apply (bool_decide_unpack _). vm_compute. exact I.
  - change (Forall (fun x : cstring * cstring => text_value x.2) [(lit "Name", lit "eth0"); (CIM_NAMESPACE_SELECTOR, lit "root/cimv2")]).
    repeat (apply Forall_cons; split; [split; [now apply plain_dec|reflexivity]|]). constructor.
  - now apply plain_dec.
Qed.
Definition demo_uri : cstring := lit "http://schemas/CIM_EthernetPort".
Definition demo_get : cstring := XML_NS_TRANSFER ++ "/"%char :: TRANSFER_GET.
Lemma client_request_read_witness : exists doc, wsmc_create_request demo_content (fun _ => None) (lit "uuid:7") (Some (lit "http://host:16992/wsman")) (Some demo_uri)
    (Some demo_opts) None WSMAN_ACTION_TRANSFER_GET None None 0 = Done (Some doc) /\
  wsman_is_valid_envelope wsman_status_init doc = (1, wsman_status_init) /\ wsman_get_resource_uri None (Some doc) = Some demo_uri /\
  wsman_get_max_envelope_size None (Some doc) = 16384 /\ wsman_get_fragment_string None (Some doc) = Some (lit "Size") /\
  wsman_get_selector None (Some doc) (lit "__cimnamespace") 0 = Some (lit "root/cimv2") /\
  wsman_get_option_set None (Some doc) (lit "ShowExtensions") = Some (lit "true").
Proof.
  destruct (client_request_read demo_content (fun _ => None) (lit "uuid:7") 0 wsman_status_init demo_get demo_uri (lit "http://host:16992/wsman") demo_opts
    [(lit "Name", lit "eth0")] [] WSMAN_ACTION_TRANSFER_GET None None demo_content_law demo_ready ltac:(discriminate)
    ltac:(repeat (apply Forall_cons; split; [now apply plain_dec|]); constructor) ltac:(other_name) eq_refl eq_refl)
    as (doc & E & V & _ & U & _ & _ & S & F & Sel & Opt).
  exists doc. split; [exact E|]. split; [exact V|]. split; [exact U|]. split; [exact S|]. split; [exact F|]. split; [rewrite Sel; vm_compute; reflexivity|].
  rewrite Opt. vm_compute. reflexivity.
Defined.

(** ** The body *)

Section Body.
Context {content : cstring -> list xml} (law : content_law content) (parse : cstring -> option xml).
Local Abbreviation lf := (leaf (content := content)).
Definition enum_mode (o : client_opt_t) : option cstring :=
  if has_flag o FLAG_ENUMERATION_ENUM_EPR then Some WSM_ENUM_EPR
  else if has_flag o FLAG_ENUMERATION_ENUM_OBJ_AND_EPR then Some WSM_ENUM_OBJ_AND_EPR else None.
Definition enum_poly (o : client_opt_t) : option cstring :=
  if has_flag o FLAG_IncludeSubClassProperties then Some WSMB_INCLUDE_SUBCLASS_PROP
  else if has_flag o FLAG_ExcludeSubClassProperties then Some WSMB_EXCLUDE_SUBCLASS_PROP
  else if has_flag o FLAG_POLYMORPHISM_NONE then Some WSMB_NONE else None.
Definition opt_elem (ns name : cstring) (x : option cstring) : list xml := from_option (fun x => [lf ns name x]) [] x.
Definition mode_items (o : client_opt_t) : list xml :=
  (if has_flag o FLAG_ENUMERATION_OPTIMIZATION then [Elem (Some XML_NS_WS_MAN) WSM_OPTIMIZE_ENUM [] []] else []) ++
  opt_elem XML_NS_WS_MAN WSM_ENUM_MODE (enum_mode o) ++ opt_elem XML_NS_CIM_BINDING WSMB_POLYMORPHISM_MODE (enum_poly o).
Definition enum_node (ch : list xml) : xml := Elem (Some XML_NS_ENUMERATION) WSENUM_ENUMERATE [] ch.
Lemma enumeration_modes_eq o : enumeration_modes content o (enum_node []) = enum_node (mode_items o).
Proof.
  unfold enumeration_modes, mode_items, enum_mode, enum_poly, enum_node.
  destruct (has_flag o FLAG_ENUMERATION_OPTIMIZATION), (has_flag o FLAG_ENUMERATION_ENUM_EPR), (has_flag o FLAG_ENUMERATION_ENUM_OBJ_AND_EPR),
    (has_flag o FLAG_IncludeSubClassProperties), (has_flag o FLAG_ExcludeSubClassProperties), (has_flag o FLAG_POLYMORPHISM_NONE); reflexivity.
Qed.
Lemma enumerate_body o filter node : (match filter with None => Done (enum_node (mode_items o)) | Some f =>
    let* (_, node) := filter_serialize content None (enum_node (mode_items o)) f (Some XML_NS_WS_MAN) in Done node end) = Done node ->
  wsman_set_enumeration_options content (soap_elem SOAP_BODY [enum_node []]) o filter = Done (soap_elem SOAP_BODY [node]).
Proof.
  intros H. unfold wsman_set_enumeration_options. change (ws_xml_get_child _ 0 None None) with (Some (enum_node [])). cbv beta iota zeta.
  rewrite enumeration_modes_eq, H. reflexivity.
Qed.
(** The elements of a body that is worked on no further. *)
Definition limit (ns : cstring) (o : client_opt_t) (on : bool) : list xml :=
  if (0 <? o_max_elements o) && on then [lf ns WSENUM_MAX_ELEMENTS (take 4095 (printf_d (o_max_elements o)))] else [].
Definition context_items (d : option cstring) : list xml := opt_elem XML_NS_ENUMERATION WSENUM_ENUMERATION_CONTEXT d.
Definition body_items (action : WsmanAction) (o : client_opt_t) (d : option cstring) : list xml :=
  match action with
  | WSMAN_ACTION_ENUMERATION => [enum_node (mode_items o ++ limit XML_NS_WS_MAN o (has_flag o FLAG_ENUMERATION_OPTIMIZATION))]
  | WSMAN_ACTION_ASSOCIATORS | WSMAN_ACTION_REFERENCES => [enum_node (mode_items o)]
  | WSMAN_ACTION_PULL => [Elem (Some XML_NS_ENUMERATION) WSENUM_PULL [] (context_items d ++ limit XML_NS_ENUMERATION o true)]
  | WSMAN_ACTION_RELEASE => [Elem (Some XML_NS_ENUMERATION) WSENUM_RELEASE [] (context_items d)]
  | _ => []
  end.
Lemma body_items_eq action o d ch bs : action ∈ plain_actions ->
  add_action content parse action (Some o) None d (soap_elem SOAP_HEADER []) (soap_elem SOAP_BODY []) = Done (soap_elem SOAP_HEADER [], soap_elem SOAP_BODY ch) ->
  (add_limits content action o (soap_elem SOAP_HEADER []) (soap_elem SOAP_BODY ch)).2 = soap_elem SOAP_BODY bs -> bs = body_items action o d.
Proof.
  intros Ha B E. members Ha; cbn [add_action] in B; try (injection B as <-; cbn in E; now injection E as <-).
  1-3: (change (ws_xml_add_child content (soap_elem SOAP_BODY []) (Some XML_NS_ENUMERATION) WSENUM_ENUMERATE None) with (soap_elem SOAP_BODY [enum_node []]) in B;
    rewrite (enumerate_body o None _ eq_refl) in B; cbn [obind] in B; injection B as <-; unfold add_limits in E; cbn [snd] in E).
  - unfold body_items, limit. destruct (_ && _); injection E as <-; [reflexivity|now rewrite app_nil_r].
  - now injection E as <-.
  - now injection E as <-.
  - unfold add_limits in E. cbn [snd] in E. unfold body_items, limit. rewrite andb_true_r.
    destruct d as [d|]; injection B as <-; destruct (0 <? o_max_elements o); now injection E as <-.
  - destruct d as [d|]; injection B as <-; now injection E as <-.
Qed.

(** ** The checks of the dispatcher *)

Lemma first_locale o : must_understand (first XML_NS_WS_MAN WSM_LOCALE (option_headers (content := content) o)) = false.
Proof.
  unfold option_headers. destruct (o_timeout o =? 0), (o_max_envelope_size o =? 0), (negb (Z.land (o_flags o) FLAG_MUND_MAX_ESIZE =? 0)),
    (o_fragment o), (o_locale o); reflexivity.
Qed.
Definition known_header (c : xml) : Prop := ws_xml_find_attr_bool (Some c) (Some XML_NS_SOAP_1_2) SOAP_MUST_UNDERSTAND = true ->
  exists ns, ws_xml_get_node_name_ns (Some c) = Some ns /\ (ns, default [] (ws_xml_get_node_local_name (Some c))) ∈ mu_headers.
Lemma known_leaf ns name x : known_header (lf ns name x).
Proof. intros H. discriminate H. Qed.
Lemma known_mu ns name x : (ns, name) ∈ mu_headers -> known_header (mu_leaf (content := content) ns name x).
Proof. intros H _. now exists ns. Qed.
Lemma headers_known uuid action act uri to o l t : Forall known_header (all_headers (content := content) uuid action act uri to o l t).
Proof.
  assert (forall ns name a ch, List.find (is_attr (Some XML_NS_SOAP_1_2) SOAP_MUST_UNDERSTAND) a = None -> known_header (Elem (Some ns) name a ch)) as G.
  { intros ns name a ch H1 H2. unfold ws_xml_find_attr_bool, ws_xml_find_attr_value in H2. cbn [ws_xml_find_node_attr properties] in H2. now rewrite H1 in H2. }
  rewrite all_headers_eq. rewrite !Forall_app. split; [|split].
  - repeat (apply Forall_cons; split; [apply known_mu; other_name|]). constructor.
  - unfold option_headers. rewrite !Forall_app. split; [|split; [|split]].
    + destruct (_ =? 0); repeat constructor. apply known_leaf.
    + destruct (_ =? 0), (negb (Z.land (o_flags o) FLAG_MUND_MAX_ESIZE =? 0)); repeat constructor; [apply known_mu; other_name|apply known_leaf].
    + destruct (o_fragment o); repeat constructor. apply known_mu. other_name.
    + destruct (o_locale o) as [lang|]; repeat constructor. intros H. discriminate H.
  - unfold last_headers. apply Forall_cons. split; [now apply G|]. rewrite !Forall_app. split; [|split].
    + unfold selector_headers. destruct (sent_selectors o l); repeat constructor. now apply G.
    + unfold set_headers. destruct (flag_options o ++ table_options t); repeat constructor. now apply G.
    + unfold count_headers. destruct (_ && _); repeat constructor. now apply G.
Qed.
Lemma sel_node_attr x : ws_xml_find_attr_value (Some (sel_node (content := content) x)) None WSM_NAME = Some x.1.
Proof.
  unfold ws_xml_find_attr_value. cbn [ws_xml_find_node_attr sel_node properties List.find]. unfold is_attr. cbn [attr_ns attr_name].
  rewrite bool_decide_true, streq_refl by done. reflexivity.
Qed.
Lemma header_of_envelope hs bs m e : header_of (Op (Some (envelope hs bs)) None m e) = Some (soap_elem SOAP_HEADER hs).
Proof. unfold header_of, wsman_get_soap_header_element. cbn [in_doc]. now rewrite envelope_header. Qed.
Lemma names_sent uuid action act uri to o l t bs m e :
  selector_names (Op (Some (envelope (all_headers (content := content) uuid action act uri to o l t) bs)) None m e) = (sent_selectors o l).*1.
Proof.
  unfold selector_names. rewrite header_of_envelope, get_header, (first_selector_set parse). destruct (sent_selectors o l) as [|x k]; [done|].
  cbn [selector_headers head]. rewrite set_node_selected. clear. induction (x :: k) as [|y r IH]; [done|].
  cbn [map]. cbn [omap list_omap]. rewrite sel_node_attr. cbn. f_equal. exact IH.
Qed.
Lemma timeout_read o : 1000 <= o_timeout o < 2 ^ 31 -> exists d, WsTime.ws_deserialize_duration (Some (timeout_text (o_timeout o))) = Done (Some d) /\ 0 < d.
Proof.
  intros H. assert (0 <= o_timeout o mod 1000 < 1000) as M by (apply Z.mod_pos_bound; lia).
  assert (1 <= o_timeout o / 1000 < 2 ^ 25) as D.
  { split; [apply Z.div_le_lower_bound|apply Z.div_lt_upper_bound]; cbn in *; lia. }
  destruct (ClientText.dec_digits (o_timeout o mod 1000)) as (_ & Dm & _); [lia|]. destruct (ClientText.dec_digits (o_timeout o / 1000)) as (_ & _ & Ed); [lia|].
  destruct (ClientText.fraction_read (HttpAuth.dec (o_timeout o / 1000)) (HttpAuth.dec (o_timeout o mod 1000))) as (d & E & B).
  - apply ClientText.dec_number. lia.
  - lia.
  - done.
  - pose proof (ClientText.dec_width 2 _ M). lia.
  - exists d. split; [exact E|]. lia.
Qed.
Lemma timeout_plain ms : 0 <= ms -> plain_text (timeout_text ms).
Proof.
  intros H. unfold timeout_text. apply plain_text_app; [now apply plain_dec|]. apply plain_text_app.
  - apply ClientText.dec_plain, Z.div_pos; lia.
  - apply (plain_text_app ["."%char]); [now apply plain_dec|]. apply plain_text_app; [|now apply plain_dec].
    apply ClientText.dec_plain. apply Z.mod_pos_bound. lia.
Qed.
(** What the body asks for is supported: an Enumerate has no filter and no EndTo, and there is no Subscribe. *)
Lemma enum_children_plain ns name action o : (ns, name) ∈ [(XML_NS_ENUMERATION, WSENUM_FILTER); (XML_NS_WS_MAN, WSENUM_FILTER); (XML_NS_ENUMERATION, WSENUM_END_TO)] ->
  forall ch, body_items action o None = [enum_node ch] -> first ns name ch = None.
Proof.
  intros H ch E. assert (first ns name (mode_items o) = None /\ forall ns' b, first ns name (limit ns' o b) = None) as [M L].
  { split.
    - unfold mode_items, opt_elem. destruct (has_flag o FLAG_ENUMERATION_OPTIMIZATION), (enum_mode o), (enum_poly o); members H; reflexivity.
    - intros ns' b. unfold limit. destruct (_ && _); [|done]. members H; unfold leaf; rewrite first_cons, selects_elem; now rewrite andb_false_r. }
  unfold body_items in E. destruct action; try done; injection E as <-; rewrite ?first_app, M, ?L; done.
Qed.
Lemma items_supported action o d e : first XML_NS_ENUMERATION WSENUM_ENUMERATE (body_items action o d) = Some e -> exists ch, e = enum_node ch /\ body_items action o None = [enum_node ch].
Proof.
  intros H. unfold body_items in *. destruct action; try (discriminate H); injection H as <-; eauto.
Qed.
Lemma no_subscribe action o d : first XML_NS_EVENTING WSEVENT_SUBSCRIBE (body_items action o d) = None.
Proof. unfold body_items. destruct action; reflexivity. Qed.
End Body.

(** C11. What a client asks for passes the checks of the server: the request of a call goes through all the checks of
    the dispatcher as it is when the message id is new and not empty, the timeout is none or at least a second, the size of the answer is not one that
    must be understood, or is none, or is no less than the smallest that the server takes, and no selector is given twice. This holds for the
    actions of [plain_actions] (Get, Put, Create, Delete, custom ones, Enumerate, Associators, References, Pull and Release) without a
    filter, for a resource other than that of all classes, of which the server refuses an Enumerate, for an id and a resource without an ampersand, and
    for options as [ready] says: texts without an ampersand, selectors that are texts and do not name an end point reference, a size and a
    timeout below 2^31. *)
Theorem client_request_admitted content parse prefix uuid uuid_fault junk ids act uri to o l t action method d m e : content_law content -> ready o l t ->
  uuid <> [] -> Forall plain_text [uuid; uri] -> action ∈ plain_actions -> action_uri action uri method = Some act ->
  uuid ∉ default [] ids -> uri <> CIM_ALL_AVAILABLE_CLASSES -> o_timeout o = 0 \/ 1000 <= o_timeout o ->
  Z.land (o_flags o) FLAG_MUND_MAX_ESIZE = 0 \/ o_max_envelope_size o = 0 \/ WSMAN_MINIMAL_ENVELOPE_SIZE_REQUEST <= o_max_envelope_size o ->
  NoDup (sent_selectors o l).*1 ->
  exists doc, wsmc_create_request content parse uuid (Some to) (Some uri) (Some o) None action method d junk = Done (Some doc) /\
    exists ids' op', inbound_checks content prefix uuid_fault ids (Op (Some doc) None m e) = Done (0, ids', op') /\ in_doc op' = Some doc.
Proof.
  intros law R Nu P Ha Hact Hid Hu Ht Hs Hn. rewrite !Forall_cons in P. destruct P as (P1 & P2 & _).
  destruct (plain_request (content := content) parse uuid junk act uri to o l t action method d R Nu Ha Hact) as (ch & B & bs & Eb & E).
  apply (body_items_eq parse action o d ch bs Ha B) in Eb. subst bs.
  eexists. split; [exact E|]. clear E B. set (op := Op _ _ _ _).
  set (hs := all_headers (content := content) uuid action act uri to o l t) in *.
  assert (header_of op = Some (soap_elem SOAP_HEADER hs)) as Hh by apply header_of_envelope.
  assert (forall c, ws_xml_get_child (header_of op) 0 (Some XML_NS_WS_MAN) (Some WSM_OPERATION_TIMEOUT) = Some c ->
    c = leaf (content := content) XML_NS_WS_MAN WSM_OPERATION_TIMEOUT (timeout_text (o_timeout o)) /\ 1000 <= o_timeout o) as Tm.
  { intros c. rewrite Hh, get_header. unfold hs. rewrite (first_in_options parse), first_timeout by other_name. destruct (Z.eqb_spec (o_timeout o) 0); [done|]. intros [= <-]. split; [done|lia]. }
  assert (1000 <= o_timeout o -> exists d, WsTime.ws_deserialize_duration (Some (content_of (leaf (content := content) XML_NS_WS_MAN WSM_OPERATION_TIMEOUT (timeout_text (o_timeout o))))) = Done (Some d) /\ 0 < d) as Td.
  { intros L. rewrite (leaf_text law) by (apply timeout_plain; lia). apply timeout_read. pose proof (r_timeout _ _ _ R). lia. }
  destruct (inbound_checks_ok content prefix uuid_fault ids op) as (r & ids' & op' & Ec & Ei & I & _).
  { now eexists. }
  { intros c Hc. apply Tm in Hc as [-> L]. destruct (Td L) as (x & Ex & _). eauto. }
  exists ids', op'. rewrite Ei. split; [|done]. rewrite Ec. do 3 f_equal. apply I. clear I Ec Ei.
  split; [|split; [|split; [|split]]].
  - left. exists uuid. unfold message_id_of, message_id. rewrite Hh, get_header. split; [exact (mu_leaf_text law _ _ uuid P1)|done].
  - unfold supported. rewrite Hh. unfold has_child. cbn [in_doc op]. rewrite envelope_body, !get_header. fold hs. split; [|split; [|split]].
    + unfold hs. rewrite all_headers_eq, !first_app, (first_option_headers parse []), (first_last_headers parse []) by other_name.
      replace (first _ _ [_; _; _; _]) with (@None xml) by reflexivity. now intros [].
    + unfold hs. rewrite (first_in_options parse) by other_name. apply first_locale.
    + intros x Hx. unfold soap_elem in Hx. rewrite get_first in Hx. apply items_supported in Hx as (k & -> & Ek).
      unfold enumerate_supported, has_child, enum_node. rewrite !get_first.
      rewrite !(fun ns name H => enum_children_plain ns name action o H k Ek) by other_name.
      split; [now intros []|]. rewrite get_header. unfold hs. intros C.
      change (ws_xml_get_node_text (Some (mu_leaf (content := content) XML_NS_WS_MAN WSM_RESOURCE_URI uri)) = Some CIM_ALL_AVAILABLE_CLASSES) in C.
      rewrite (mu_leaf_text law _ _ uri P2) in C. congruence.
    + intros x Hx. unfold soap_elem in Hx. rewrite get_first, no_subscribe in Hx. discriminate.
  - intros c Hc Hm. rewrite Hh in Hc, Hm. unfold selected in Hc. apply list_elem_of_In, filter_In in Hc as [Hc _]. apply list_elem_of_In in Hc.
    pose proof (headers_known (content := content) uuid action act uri to o l t) as K. rewrite Forall_forall in K. exact (K c Hc Hm).
  - split.
    + rewrite Hh. unfold ws_deserialize_uint32. rewrite !get_header. unfold hs. rewrite !(first_in_options parse), !first_size by other_name.
      destruct (Z.eqb_spec (o_max_envelope_size o) 0) as [Z|Z]; [discriminate|].
      destruct (Z.eqb_spec (Z.land (o_flags o) FLAG_MUND_MAX_ESIZE) 0) as [Y|Y]; cbn [negb]; [discriminate|]. intros _.
      pose proof (r_size _ _ _ R) as S. unfold ws_xml_get_node_ulong. rewrite (mu_leaf_text law) by (apply ClientText.dec_plain; lia).
      cbn [from_option]. rewrite ClientText.atoi_dec, u64_small by lia. destruct Hs as [?|[?|?]]; [done..|lia].
    + intros c Hc. apply Tm in Hc as [-> L]. split; [now apply Td|]. rewrite Hh. reflexivity.
  - unfold op, hs. now rewrite (names_sent parse).
Qed.
Lemma client_request_admitted_witness : exists doc, wsmc_create_request demo_content (fun _ => None) (lit "uuid:7") (Some (lit "http://host:16992/wsman"))
    (Some demo_uri) (Some demo_opts) None WSMAN_ACTION_TRANSFER_GET None None 0 = Done (Some doc) /\
  exists ids' op', inbound_checks demo_content demo_prefix (lit "uuid:8") (Some [lit "uuid:6"]) (Op (Some doc) None 0 0) = Done (0, ids', op') /\ in_doc op' = Some doc.
Proof.
  apply (client_request_admitted demo_content (fun _ => None) demo_prefix (lit "uuid:7") (lit "uuid:8") 0 (Some [lit "uuid:6"]) demo_get demo_uri (lit "http://host:16992/wsman")
    demo_opts [(lit "Name", lit "eth0")] [] WSMAN_ACTION_TRANSFER_GET None None 0 0 demo_content_law demo_ready ltac:(discriminate)).
  - repeat (apply Forall_cons; split; [now apply plain_dec|]). constructor.
  - other_name.
  - reflexivity.
  - other_name.
  - discriminate.
  - right. vm_compute. discriminate.
  - right. right. vm_compute. discriminate.
  - apply (bool_decide_unpack _). vm_compute. exact I.
Defined.
End ClientServe.
