(* ===== verification/ClientEnum.v ===== *)
(** * ClientEnum: what an Enumerate and a Pull of a client say to the server

    The flags, the number of elements and the filter that wsman_parse_enum_request reads in the request that the
    client makes of them, and what a Pull tells of its context and of the elements that are wanted. *)
From S2P Require Import Prelude CString Names HttpText HttpAuth Uri WsTime Faults Xml Epr Filter Envelope Client ClientText ClientServe.
Import Faults Names Xml Epr Filter Envelope Client ClientServe.

Module ClientEnum.

Definition query_flag (filter : option cstring) : Z :=
  match filter with None => 0 | Some d => if streq d WSM_CQL_FILTER_DIALECT then WSMAN_ENUMINFO_CQL else WSMAN_ENUMINFO_WQL end.
(** The flags of the enumeration at the server, and the number of elements of an optimised one. *)
Definition sent_flags (o : client_opt_t) (filter : option cstring) : Z :=
  let mode := if has_flag o FLAG_ENUMERATION_ENUM_EPR then WSMAN_ENUMINFO_EPR
    else if has_flag o FLAG_ENUMERATION_ENUM_OBJ_AND_EPR then WSMAN_ENUMINFO_OBJEPR else 0 in
  let poly := if has_flag o FLAG_IncludeSubClassProperties then WSMAN_ENUMINFO_POLY_INCLUDE
    else if has_flag o FLAG_ExcludeSubClassProperties then WSMAN_ENUMINFO_POLY_EXCLUDE
    else if has_flag o FLAG_POLYMORPHISM_NONE then WSMAN_ENUMINFO_POLY_NONE else WSMAN_ENUMINFO_POLY_INCLUDE in
  let opt := if has_flag o FLAG_ENUMERATION_OPTIMIZATION then WSMAN_ENUMINFO_OPT else 0 in
  Z.lor (Z.lor (Z.lor mode poly) opt) (query_flag filter).
Definition wanted (o : client_opt_t) : Z := if 0 <? o_max_elements o then o_max_elements o else 1.
Definition sent_max (o : client_opt_t) (old : Z) : Z := if has_flag o FLAG_ENUMERATION_OPTIMIZATION then wanted o else old.

(** Cases over the flags of an enumeration. *)
Ltac flag_cases o := destruct (has_flag o FLAG_ENUMERATION_ENUM_EPR), (has_flag o FLAG_ENUMERATION_ENUM_OBJ_AND_EPR),
  (has_flag o FLAG_IncludeSubClassProperties), (has_flag o FLAG_ExcludeSubClassProperties), (has_flag o FLAG_POLYMORPHISM_NONE).
Section Enumerate.
Context {content : cstring -> list xml} (law : content_law content).
Local Abbreviation items := (mode_items (content := content)).

(** A filter with a query in a dialect and its element. *)
Definition filter_of (f : option (cstring * cstring)) : option filter_t := (fun x => query_filter x.1 x.2) <$> f.
Definition filter_items (f : option (cstring * cstring)) : list xml := from_option (fun x => [filter_tree (Some XML_NS_WS_MAN) x.1 (content x.2)]) [] f.
Lemma limit_number x : 0 <= x < 2 ^ 31 -> take 4095 (printf_d x) = HttpAuth.dec x.
Proof.
  intros H. unfold printf_d. rewrite WsTime.s32_id by lia. destruct (Z.ltb_spec x 0); [lia|].
  rewrite take_ge; [done|]. pose proof (ClientText.dec_width 9 x ltac:(change (10 ^ Z.of_nat 10) with 10000000000; lia)). lia.
Qed.
Lemma limit_text ns o b t : o_max_elements o < 2 ^ 31 -> first ns WSENUM_MAX_ELEMENTS (limit (content := content) ns o b ++ t) =
  if (0 <? o_max_elements o) && b then Some (leaf (content := content) ns WSENUM_MAX_ELEMENTS (HttpAuth.dec (o_max_elements o))) else first ns WSENUM_MAX_ELEMENTS t.
Proof.
  intros H. unfold limit. destruct (Z.ltb_spec 0 (o_max_elements o)); cbn [andb app]; [|done]. rewrite limit_number by lia.
  destruct b; [|done]. cbn [app]. rewrite first_leaf, !streq_refl. done.
Qed.
Lemma enum_children_eq o f : let node := enum_node (items o ++ filter_items f ++ limit (content := content) XML_NS_WS_MAN o (has_flag o FLAG_ENUMERATION_OPTIMIZATION)) in
  forall hs, wsman_set_enumeration_options content (soap_elem SOAP_BODY [enum_node []]) o (filter_of f) = Done (soap_elem SOAP_BODY [enum_node (items o ++ filter_items f)]) /\
  (add_limits content WSMAN_ACTION_ENUMERATION o hs (soap_elem SOAP_BODY [enum_node (items o ++ filter_items f)])).2 = soap_elem SOAP_BODY [node].
Proof.
  intros node hs. split.
  - apply enumerate_body. destruct f as [[d q]|]; cbn [filter_of fmap option_fmap option_map filter_items from_option fst snd]; [done|]. now rewrite app_nil_r.
  - unfold node, add_limits, limit. cbn [snd]. destruct (_ && _); [|now rewrite app_nil_r]. rewrite app_assoc. reflexivity.
Qed.
Lemma first_items ns name o : (ns, name) ∈ [(XML_NS_WS_MAN, WSM_ENUM_MODE); (XML_NS_CIM_BINDING, WSMB_POLYMORPHISM_MODE)] ->
  first ns name (items o) = leaf (content := content) ns name <$> (if streq name WSM_ENUM_MODE then enum_mode o else enum_poly o).
Proof.
  intros H. unfold mode_items, opt_elem. destruct (has_flag o FLAG_ENUMERATION_OPTIMIZATION), (enum_mode o), (enum_poly o); members H; reflexivity.
Qed.
Lemma first_optimize o : is_Some (first XML_NS_WS_MAN WSM_OPTIMIZE_ENUM (items o)) <-> has_flag o FLAG_ENUMERATION_OPTIMIZATION = true.
Proof.
  unfold mode_items, opt_elem. destruct (has_flag o FLAG_ENUMERATION_OPTIMIZATION), (enum_mode o), (enum_poly o); (split; [try done; now intros []|intros; try done; now eexists]).
Qed.
Lemma first_others ns name o : (ns, name) ∈ [(XML_NS_WS_MAN, WSM_FILTER); (XML_NS_WS_MAN, WSENUM_MAX_ELEMENTS)] -> first ns name (items o) = None.
Proof.
  intros H. unfold mode_items, opt_elem. destruct (has_flag o FLAG_ENUMERATION_OPTIMIZATION), (enum_mode o), (enum_poly o); members H; reflexivity.
Qed.
Lemma first_filter ns name f t : (ns, name) ∈ [(XML_NS_WS_MAN, WSM_ENUM_MODE); (XML_NS_CIM_BINDING, WSMB_POLYMORPHISM_MODE); (XML_NS_WS_MAN, WSM_OPTIMIZE_ENUM);
    (XML_NS_WS_MAN, WSENUM_MAX_ELEMENTS)] -> first ns name (filter_items f ++ t) = first ns name t.
Proof. intros H. destruct f as [[d q]|]; [|done]. members H; reflexivity. Qed.
Lemma first_limit ns name o b : (ns, name) ∈ [(XML_NS_WS_MAN, WSM_ENUM_MODE); (XML_NS_CIM_BINDING, WSMB_POLYMORPHISM_MODE); (XML_NS_WS_MAN, WSM_OPTIMIZE_ENUM);
    (XML_NS_WS_MAN, WSM_FILTER)] -> first ns name (limit (content := content) XML_NS_WS_MAN o b) = None.
Proof. intros H. unfold limit. destruct (_ && _); [|done]. members H; reflexivity. Qed.
Lemma mode_text o ns name x : (if streq name WSM_ENUM_MODE then enum_mode o else enum_poly o) = Some x ->
  ws_xml_get_node_text (Some (leaf (content := content) ns name x)) = Some x.
Proof using law.
  intros H. apply (leaf_node_text law). destruct (streq _ _); unfold enum_mode, enum_poly in H;
    repeat (destruct (has_flag _ _) in H; [injection H as <-; now apply plain_dec|]); discriminate H.
Qed.
Lemma query_read fuel node ns d q : ws_xml_get_child node 0 ns (Some WSM_FILTER) = Some (filter_tree ns d (content q)) ->
  d ∈ [WSM_CQL_FILTER_DIALECT; WSM_WQL_FILTER_DIALECT] -> plain_text q -> filter_deserialize fuel node ns = Done (Some (query_filter d q)).
Proof using law.
  intros E Hd Pq. unfold filter_deserialize. rewrite E, read_dialect_tree.
  assert (content_of (filter_tree ns d (content q)) = q) as -> by (unfold filter_tree; rewrite content_of_elem; now apply law).
  members Hd; reflexivity.
Qed.
Definition enum_children (o : client_opt_t) (f : option (cstring * cstring)) : list xml :=
  items o ++ filter_items f ++ limit (content := content) XML_NS_WS_MAN o (has_flag o FLAG_ENUMERATION_OPTIMIZATION).
Lemma first_mode ns name o f : (ns, name) ∈ [(XML_NS_WS_MAN, WSM_ENUM_MODE); (XML_NS_CIM_BINDING, WSMB_POLYMORPHISM_MODE)] ->
  ws_xml_get_node_text (first ns name (enum_children o f)) = if streq name WSM_ENUM_MODE then enum_mode o else enum_poly o.
Proof using law.
  intros H. unfold enum_children. rewrite !first_app, (first_items ns name o H). pose proof (mode_text o ns name) as M.
  destruct (if streq name WSM_ENUM_MODE then enum_mode o else enum_poly o) as [x|]; cbn [fmap option_fmap option_map]; [now apply M|].
  rewrite <- first_app, first_filter, first_limit; [done|..]; members H; other_name.
Qed.
Lemma first_optimized o f : is_Some (first XML_NS_WS_MAN WSM_OPTIMIZE_ENUM (enum_children o f)) <-> has_flag o FLAG_ENUMERATION_OPTIMIZATION = true.
Proof.
  rewrite <- first_optimize. unfold enum_children. rewrite first_app. destruct (first _ _ (items o)) as [x|]; [done|].
  rewrite first_filter, first_limit by other_name. done.
Qed.
Lemma enum_options_read o f old : 0 <= o_max_elements o < 2 ^ 31 ->
  exists flags, parse_enum_options (Some (enum_node (enum_children o f))) 0 old = (flags, sent_max o old) /\ Z.lor flags (query_flag (fst <$> f)) = sent_flags o (fst <$> f).
Proof using law.
  intros Hm. unfold parse_enum_options, enum_node. rewrite !get_first. rewrite !first_mode by other_name.
  replace (streq WSM_ENUM_MODE WSM_ENUM_MODE) with true by reflexivity. replace (streq WSMB_POLYMORPHISM_MODE WSM_ENUM_MODE) with false by reflexivity.
  unfold sent_flags, sent_max, wanted. generalize (query_flag (fst <$> f)). intros q.
  pose proof (first_optimized o f) as Op. unfold enum_mode, enum_poly.
  destruct (first XML_NS_WS_MAN WSM_OPTIMIZE_ENUM (enum_children o f)) as [x|].
  - rewrite (proj1 Op) by now eexists. unfold enum_children. rewrite first_app, first_others, first_filter by other_name.
    rewrite <- (app_nil_r (limit _ _ _)). change WSM_MAX_ELEMENTS with WSENUM_MAX_ELEMENTS. rewrite limit_text, (proj1 Op), andb_true_r by (lia || now eexists).
    destruct (Z.ltb_spec 0 (o_max_elements o)) as [L|L].
    + rewrite (leaf_node_text law) by (apply ClientText.dec_plain; lia). rewrite ClientText.atoi_dec by lia.
      eexists. split; [reflexivity|]. f_equal. flag_cases o; reflexivity.
    + eexists. split; [reflexivity|]. f_equal. flag_cases o; reflexivity.
  - destruct (has_flag o FLAG_ENUMERATION_OPTIMIZATION); [destruct (proj2 Op eq_refl) as [? C]; discriminate C|].
    eexists. split; [reflexivity|]. f_equal. flag_cases o; reflexivity.
Qed.
End Enumerate.

(** C15. An enumeration is what the client asks for: the server reads from its Enumerate the flags, the number of elements and
    the filter that the options and the filter of the call stand for, and from its Pull the context and the number of
    elements; no number, or a number of 0, stands for one element. This holds for a call without a filter, or with a query in one of the two
    dialects CQL and WQL (the server refuses the XPath dialect that a client takes when none is named), for a query and a context without an
    ampersand, for less than 2^31 elements, for a Pull without a filter, with an id that is not empty, and for options as [ready] says. *)
Theorem client_enumeration_read content parse uuid junk uri to o l t f ctx : content_law content -> ready o l t -> uuid <> [] ->
  0 <= o_max_elements o < 2 ^ 31 -> plain_text ctx ->
  from_option (fun x => x.1 ∈ [WSM_CQL_FILTER_DIALECT; WSM_WQL_FILTER_DIALECT] /\ plain_text x.2) True f ->
  (exists doc, wsmc_create_request content parse uuid (Some to) (Some uri) (Some o) (filter_of f) WSMAN_ACTION_ENUMERATION None None junk = Done (Some doc) /\
    forall fuel old st, wsman_parse_enum_request fuel (Some doc) (EnumReq 0 old None) st =
      Done (1, EnumReq (sent_flags o (fst <$> f)) (sent_max o old) (filter_of f), st)) /\
  (exists doc, wsmc_create_request content parse uuid (Some to) (Some uri) (Some o) None WSMAN_ACTION_PULL None (Some ctx) junk = Done (Some doc) /\
    wsman_get_max_elements None (Some doc) = wanted o /\
    ws_xml_get_node_text (ws_xml_get_child (ws_xml_get_child (ws_xml_get_soap_body (Some doc)) 0 (Some XML_NS_ENUMERATION) (Some WSENUM_PULL)) 0
      (Some XML_NS_ENUMERATION) (Some WSENUM_ENUMERATION_CONTEXT)) = Some ctx).
Proof.
  intros law R Nu Hm Pc Hf. split.
  - destruct (enum_children_eq (content := content) o f (soap_elem SOAP_HEADER [])) as [E1 E2].
    assert (add_action content parse WSMAN_ACTION_ENUMERATION (Some o) (filter_of f) None (soap_elem SOAP_HEADER []) (soap_elem SOAP_BODY []) =
      Done (soap_elem SOAP_HEADER [], soap_elem SOAP_BODY [enum_node (mode_items (content := content) o ++ filter_items (content := content) f)])) as B.
    { cbn [add_action]. change (ws_xml_add_child content (soap_elem SOAP_BODY []) (Some XML_NS_ENUMERATION) WSENUM_ENUMERATE None) with (soap_elem SOAP_BODY [enum_node []]).
      now rewrite E1. }
    eexists. split; [apply (create_request_eq parse uuid junk _ uri to o l t WSMAN_ACTION_ENUMERATION None None _ _ R Nu ltac:(other_name) eq_refl B)|].
    rewrite E2. intros fuel old st. unfold wsman_parse_enum_request.
    change (soap_elem SOAP_ENVELOPE [soap_elem SOAP_HEADER ?hs; soap_elem SOAP_BODY ?bs]) with (envelope hs bs). rewrite envelope_body. unfold soap_elem at 1. rewrite get_first, first_cons.
    unfold enum_node at 1. rewrite selects_self. cbn [er_flags er_max]. fold (enum_children (content := content) o f).
    destruct (enum_options_read law o f old Hm) as (flags & -> & Q).
    assert (ws_xml_get_child (Some (enum_node (enum_children (content := content) o f))) 0 (Some XML_NS_WS_MAN) (Some WSM_FILTER) =
      (fun x => filter_tree (Some XML_NS_WS_MAN) x.1 (content x.2)) <$> f) as Ef.
    { unfold enum_node, enum_children. rewrite get_first, first_app, first_others by other_name. destruct f as [[d q]|]; [reflexivity|].
      cbn [filter_items from_option app fmap option_fmap option_map]. apply first_limit. other_name. }
    rewrite <- Q. destruct f as [[d q]|].
    + destruct Hf as [Hd Pq]. rewrite (query_read law fuel _ _ d q Ef Hd Pq). cbn [obind fst snd] in *. members Hd; reflexivity.
    + unfold filter_deserialize. rewrite Ef. cbn [obind]. now rewrite Z.lor_0_r.
  - destruct (plain_request (content := content) parse uuid junk _ uri to o l t WSMAN_ACTION_PULL None (Some ctx) R Nu ltac:(other_name) eq_refl) as (ch & B & bs & E & C).
    apply (body_items_eq parse WSMAN_ACTION_PULL o (Some ctx) ch bs ltac:(other_name) B) in E. subst bs. eexists. split; [exact C|].
    unfold wsman_get_max_elements. cbn [the_doc]. rewrite envelope_body. unfold soap_elem. rewrite !get_first. cbn [body_items].
    rewrite !first_cons, !selects_self. unfold context_items, opt_elem. cbn [from_option app]. rewrite !get_first, !first_leaf. eval_names.
    rewrite (leaf_node_text law) by done. split; [|done]. rewrite <- (app_nil_r (limit _ _ _)), limit_text, andb_true_r by lia. unfold wanted.
    destruct (Z.ltb_spec 0 (o_max_elements o)); [|done]. rewrite (leaf_node_text law) by (apply ClientText.dec_plain; lia). apply ClientText.atoi_dec. lia.
Qed.
Definition demo_enum : client_opt_t :=
  Opts (Z.lor FLAG_ENUMERATION_OPTIMIZATION (Z.lor FLAG_ENUMERATION_ENUM_EPR FLAG_POLYMORPHISM_NONE)) None None None None WSMAN_DELIVERY_PUSH WSMAN_DELIVERY_SEC_AUTO
    None None None (SpecFloat.S754_zero false) (SpecFloat.S754_zero false) None None 0 0 20 None None.
Lemma demo_enum_ready : ready demo_enum [] [].
Proof. constructor; vm_compute; first [done|split; congruence|constructor]. Qed.
Lemma client_enumeration_read_witness :
  (exists doc, wsmc_create_request demo_content (fun _ => None) (lit "uuid:7") (Some (lit "http://host/wsman")) (Some demo_uri) (Some demo_enum)
      (filter_of (Some (WSM_WQL_FILTER_DIALECT, lit "select * from C"))) WSMAN_ACTION_ENUMERATION None None 0 = Done (Some doc) /\
    wsman_parse_enum_request 0 (Some doc) (EnumReq 0 1 None) wsman_status_init =
      Done (1, EnumReq (Z.lor WSMAN_ENUMINFO_EPR (Z.lor WSMAN_ENUMINFO_POLY_NONE (Z.lor WSMAN_ENUMINFO_OPT WSMAN_ENUMINFO_WQL))) 20
        (filter_of (Some (WSM_WQL_FILTER_DIALECT, lit "select * from C"))), wsman_status_init)) /\
  (exists doc, wsmc_create_request demo_content (fun _ => None) (lit "uuid:7") (Some (lit "http://host/wsman")) (Some demo_uri) (Some demo_enum) None
      WSMAN_ACTION_PULL None (Some (lit "uuid:3")) 0 = Done (Some doc) /\ wsman_get_max_elements None (Some doc) = 20).
Proof.
  destruct (client_enumeration_read demo_content (fun _ => None) (lit "uuid:7") 0 demo_uri (lit "http://host/wsman") demo_enum [] []
    (Some (WSM_WQL_FILTER_DIALECT, lit "select * from C")) (lit "uuid:3") demo_content_law demo_enum_ready) as [(doc & E & P) (doc' & E' & M & _)].
  - discriminate.
  - split; reflexivity || discriminate.
  - now apply plain_dec.
  - split; [other_name|now apply plain_dec].
  - split; [exists doc; split; [exact E|rewrite P; vm_compute; reflexivity]|exists doc'; split; [exact E'|exact M]].
Defined.
End ClientEnum.
