(* ===== verification/ClientEvents.v ===== *)
(** * ClientEvents: what a Subscribe of a client says to the server

    The tokens for the event sink, the delivery, the expiry and the filter of a subscription, as the readers of the
    server find them, and the fault of a server as the client reads it. *)
From Stdlib Require Import SpecFloat.
From S2P Require Import Prelude CString Names HttpText HttpAuth Uri WsTime Faults EventPool Xml Epr Filter Envelope Client ClientText ClientServe ClientEnum.
Import Faults Names Xml Epr Filter Envelope Client ClientServe ClientEnum.

Module ClientEvents.

Section Tokens.
Context {content : cstring -> list xml} (law : content_law content).
Local Abbreviation lf := (leaf (content := content)).
Definition token (type : cstring) (requested : xml) (u : cstring) : xml :=
  Elem (Some XML_NS_TRUST) WST_REQUESTSECURITYTOKENRESPONSE [] [lf XML_NS_TRUST WST_TOKENTYPE type;
    Elem (Some XML_NS_TRUST) WST_REQUESTEDSECURITYTOKEN [] [requested];
    Elem (Some XML_NS_POLICY) WSP_APPLIESTO [] [Elem (Some XML_NS_ADDRESSING) WSA_EPR [] [lf XML_NS_ADDRESSING WSA_ADDRESS u]]].
Definition user_node (user pwd : option cstring) : xml := Elem (Some XML_NS_SE) WSSE_USERNAMETOKEN []
  (opt_elem (content := content) XML_NS_SE WSSE_USERNAME user ++ opt_elem (content := content) XML_NS_SE WSSE_PASSWORD pwd).
Definition tokens (o : client_opt_t) (u : cstring) : list xml :=
  from_option (fun x => [token WST_CERTIFICATETHUMBPRINT (lf XML_NS_WS_MAN WSM_CERTIFICATETHUMBPRINT x) u]) [] (o_delivery_certificatethumbprint o) ++
  match o_delivery_username o, o_delivery_password o with
  | None, None => []
  | user, pwd => [token WST_USERNAMETOKEN (user_node user pwd) u] end.
Definition token_headers (o : client_opt_t) (u : cstring) : list xml :=
  match o_delivery_certificatethumbprint o, o_delivery_password o with
  | None, None => []
  | _, _ => [Elem (Some XML_NS_TRUST) WST_ISSUEDTOKENS [mu_attr] (tokens o u)] end.
Lemma issued_tokens_eq parse o u hs : o_delivery_uri o = Some u ->
  issued_tokens content parse o (soap_elem SOAP_HEADER hs) = soap_elem SOAP_HEADER (hs ++ token_headers o u).
Proof.
  intros E. unfold issued_tokens, token_headers, tokens. rewrite E.
  destruct (o_delivery_certificatethumbprint o), (o_delivery_username o), (o_delivery_password o); cbn [from_option app]; rewrite ?app_nil_r; reflexivity.
Qed.
(** What is kept of the credentials: a user name that is given alone is lost. *)
Definition sent_credentials (o : client_opt_t) : credentials :=
  match o_delivery_certificatethumbprint o, o_delivery_password o with
  | None, None => Cred None None None
  | thumb, pwd => Cred (o_delivery_username o) pwd thumb end.
Lemma token_parsed u type r s : plain_text u -> plain_text type -> parse_token u (token type r u) s =
  let node := Some (Elem (Some XML_NS_TRUST) WST_REQUESTEDSECURITYTOKEN [] [r]) in
  let child node ns name := ws_xml_get_child node 0 (Some ns) (Some name) in
  if streq type WST_USERNAMETOKEN then
    let node := child node XML_NS_SE WSSE_USERNAMETOKEN in
    inl (Cred (replace (child node XML_NS_SE WSSE_USERNAME) (username s)) (replace (child node XML_NS_SE WSSE_PASSWORD) (password s)) (certificate_thumbprint s))
  else if streq type WST_CERTIFICATETHUMBPRINT then
    inl (Cred (username s) (password s) (replace (child node XML_NS_WS_MAN WSM_CERTIFICATETHUMBPRINT) (certificate_thumbprint s)))
  else inr (WSMAN_INVALID_OPTIONS, WST_DETAIL_UNSUPPORTED_TOKENTYPE).
Proof using law.
  intros Pu Pt. unfold parse_token. cbv zeta.
  change (ws_xml_get_child (ws_xml_get_child (ws_xml_get_child (Some (token type r u)) 0 (Some XML_NS_POLICY) (Some WSP_APPLIESTO)) 0 (Some XML_NS_ADDRESSING) (Some WSA_EPR))
    0 (Some XML_NS_ADDRESSING) (Some WSA_ADDRESS)) with (Some (lf XML_NS_ADDRESSING WSA_ADDRESS u)).
  change (ws_xml_get_child (Some (token type r u)) 0 (Some XML_NS_TRUST) (Some WST_TOKENTYPE)) with (Some (lf XML_NS_TRUST WST_TOKENTYPE type)).
  change (ws_xml_get_child (Some (token type r u)) 0 (Some XML_NS_TRUST) (Some WST_REQUESTEDSECURITYTOKEN)) with (Some (Elem (Some XML_NS_TRUST) WST_REQUESTEDSECURITYTOKEN [] [r])).
  rewrite !(leaf_node_text law) by done. rewrite streq_refl. reflexivity.
Qed.
Lemma thumb_read u x s : plain_text u -> plain_text x ->
  parse_token u (token WST_CERTIFICATETHUMBPRINT (lf XML_NS_WS_MAN WSM_CERTIFICATETHUMBPRINT x) u) s = inl (Cred (username s) (password s) (Some x)).
Proof using law.
  intros Pu Px. rewrite token_parsed by (done || now apply plain_dec). cbv zeta. eval_names. do 2 f_equal.
  change (ws_xml_get_child _ 0 _ _) with (Some (lf XML_NS_WS_MAN WSM_CERTIFICATETHUMBPRINT x)). exact (leaf_node_text law _ _ x Px).
Qed.
Lemma user_read u y z s : plain_text u -> plain_opt y -> plain_opt z -> parse_token u (token WST_USERNAMETOKEN (user_node y z) u) s =
  inl (Cred (match y with None => username s | _ => y end) (match z with None => password s | _ => z end) (certificate_thumbprint s)).
Proof using law.
  intros Pu Py Pz. rewrite token_parsed by (done || now apply plain_dec). cbv zeta. eval_names.
  change (ws_xml_get_child (Some (Elem _ _ _ [user_node y z])) 0 _ _) with (Some (user_node y z)).
  do 2 f_equal; destruct y as [y|], z as [z|]; try reflexivity; (exact (leaf_node_text law _ _ y Py) || exact (leaf_node_text law _ _ z Pz)).
Qed.
Lemma tokens_read o u : plain_text u -> plain_opt (o_delivery_certificatethumbprint o) -> plain_opt (o_delivery_username o) -> plain_opt (o_delivery_password o) ->
  walk (fun tnode r => match parse_token u tnode r.1.2 with inl s => inl (0, s, None) | inr f => inr (-1, r.1.2, Some f) end) (tokens o u) (0, Cred None None None, None) =
  (0, Cred (o_delivery_username o) (o_delivery_password o) (o_delivery_certificatethumbprint o), None).
Proof using law.
  intros Pu P1 P2 P3. unfold tokens.
  destruct (o_delivery_certificatethumbprint o) as [x|]; cbn [from_option app walk fst snd]; [rewrite thumb_read by done; cbn [fst snd username password]|];
    (destruct (o_delivery_username o) as [y|], (o_delivery_password o) as [z|]; cbn [walk fst snd]; try rewrite user_read by done; reflexivity).
Qed.
Lemma credentials_read o u hs bs : plain_text u -> plain_opt (o_delivery_certificatethumbprint o) -> plain_opt (o_delivery_username o) ->
  plain_opt (o_delivery_password o) -> first XML_NS_TRUST WST_ISSUEDTOKENS hs = None ->
  wsman_parse_credentials (Some (envelope (hs ++ token_headers o u) bs)) u (Cred None None None) = (0, sent_credentials o, None).
Proof using law.
  intros Pu P1 P2 P3 N. unfold wsman_parse_credentials. rewrite envelope_header, get_header, first_app, N.
  pose proof (tokens_read o u Pu P1 P2 P3) as T. unfold token_headers, sent_credentials.
  assert (selected (Some XML_NS_TRUST) (Some WST_REQUESTSECURITYTOKENRESPONSE) (Some (Elem (Some XML_NS_TRUST) WST_ISSUEDTOKENS [mu_attr] (tokens o u))) = tokens o u) as S.
  { unfold tokens. destruct (o_delivery_certificatethumbprint o), (o_delivery_username o), (o_delivery_password o); reflexivity. }
  destruct (o_delivery_certificatethumbprint o) as [x|], (o_delivery_password o) as [z|]; try reflexivity;
    rewrite first_cons, selects_self, for_children_walk, S; exact T.
Qed.

(** ** Durations *)

(** The millionths of a second that are printed of a float that is not negative. *)
Definition micros (f : spec_float) : option Z :=
  match f with
  | S754_zero false => Some 0
  | S754_finite false m e => Some (if 0 <=? e then Z.pos m * 2 ^ e * 1000000 else half_even (Z.pos m * 1000000) (2 ^ (- e)))
  | _ => None
  end.
Lemma expires_read size f x : micros f = Some x -> 0 <= x < 2 ^ 25 * 1000000 -> (20 <= size)%nat ->
  exists d, WsTime.ws_deserialize_duration (Some (pt_f size f)) = Done (Some d) /\ x / 1000000 <= d <= x / 1000000 + 1.
Proof using.
  intros E Hx Hs. assert (printf_f f = HttpAuth.dec (x / 1000000) ++ "."%char :: digits6 (x mod 1000000)) as P.
  { destruct f as [[]| | |[] m e]; try discriminate E; injection E as <-; reflexivity. }
  assert (0 <= x / 1000000 < 2 ^ 25) as D by (split; [apply Z.div_pos|apply Z.div_lt_upper_bound]; lia).
  destruct (ClientText.pad_digits (x mod 1000000) (Z.mod_pos_bound x 1000000 eq_refl)) as [F L].
  destruct (ClientText.dec_digits (x / 1000000)) as (_ & _ & V); [lia|].
  pose proof (ClientText.dec_width 7 (x / 1000000) ltac:(cbn in *; lia)) as Wd.
  destruct (ClientText.fraction_read (HttpAuth.dec (x / 1000000)) (digits6 (x mod 1000000))) as (d & R & B); [apply ClientText.dec_number; lia|lia|exact F|unfold digits6; lia|].
  exists d. rewrite V in B. split; [|exact B]. rewrite <- R. do 2 f_equal. unfold pt_f. rewrite P, take_ge; [now rewrite <- app_assoc|].
  rewrite !length_app. cbn [length lit list_ascii_of_string]. unfold digits6. lia.
Qed.

(** ** The request *)

Context (parse : cstring -> option xml).
Definition sub_children (o : client_opt_t) (f : option (cstring * cstring)) : list xml :=
  delivery_node content parse o :: opt_elem (content := content) XML_NS_EVENTING WSEVENT_EXPIRES (if nonzero (o_expires o) then Some (pt_f 32 (o_expires o)) else None) ++
  filter_items (content := content) f ++ (if Z.land (o_flags o) FLAG_EVENT_SENDBOOKMARK =? 0 then [] else [Elem (Some XML_NS_WS_MAN) WSM_SENDBOOKMARKS [] []]).
Definition sub_node (o : client_opt_t) (f : option (cstring * cstring)) : xml := Elem (Some XML_NS_EVENTING) WSEVENT_SUBSCRIBE [] (sub_children o f).
Lemma subscribe_options_eq o u f hs : o_delivery_uri o = Some u ->
  wsman_set_subscribe_options content parse (soap_elem SOAP_HEADER hs) (soap_elem SOAP_BODY []) o (filter_of f) =
    Done (soap_elem SOAP_HEADER (hs ++ token_headers o u), soap_elem SOAP_BODY [sub_node o f]).
Proof using.
  intros E. unfold wsman_set_subscribe_options. rewrite (issued_tokens_eq parse o u hs E). unfold sub_node, sub_children.
  destruct (nonzero (o_expires o)), f as [[d q]|], (Z.land (o_flags o) FLAG_EVENT_SENDBOOKMARK =? 0); reflexivity.
Qed.
Lemma subscribe_request_eq uuid junk uri to o l t u f : ready o l t -> uuid <> [] -> o_delivery_uri o = Some u ->
  wsmc_create_request content parse uuid (Some to) (Some uri) (Some o) (filter_of f) WSMAN_ACTION_SUBSCRIBE None None junk =
    Done (Some (envelope (all_headers (content := content) uuid WSMAN_ACTION_SUBSCRIBE (XML_NS_EVENTING ++ "/"%char :: WSEVENT_SUBSCRIBE) uri to o l t ++ token_headers o u)
      [sub_node o f])).
Proof using.
  intros R Nu E. assert (forall hs, hs ++ count_headers WSMAN_ACTION_SUBSCRIBE o = hs) as C.
  { intros hs. unfold count_headers. rewrite bool_decide_false by other_name. apply app_nil_r. }
  unfold all_headers. rewrite (app_assoc _ (set_headers _)), C.
  eapply (request_parts parse uuid junk (XML_NS_EVENTING ++ "/"%char :: WSEVENT_SUBSCRIBE) uri to o l t); try done.
  cbn [add_action]. now rewrite (subscribe_options_eq o u f _ E).
Qed.
Lemma delivery_eq o u : o_delivery_uri o = Some u -> exists refs rest, delivery_node content parse o =
  Elem (Some XML_NS_EVENTING) WSEVENT_DELIVERY [Attr None WSEVENT_DELIVERY_MODE (wsmc_create_delivery_mode_str (o_delivery_mode o))]
    (Elem (Some XML_NS_EVENTING) WSEVENT_NOTIFY_TO [] (lf XML_NS_ADDRESSING WSA_ADDRESS u :: refs) :: rest).
Proof using.
  intros E. unfold delivery_node, notify_to. rewrite E. destruct (reference_node content parse o);
    (destruct (wsmc_create_delivery_sec_mode_str _); [|destruct (nonzero _)]); do 2 eexists; reflexivity.
Qed.
(** The children of a Subscribe that the server looks for. *)
Lemma sub_filter o u d q : o_delivery_uri o = Some u ->
  ws_xml_get_child (Some (sub_node o (Some (d, q)))) 0 (Some XML_NS_WS_MAN) (Some WSM_FILTER) = Some (filter_tree (Some XML_NS_WS_MAN) d (content q)) /\
  ws_xml_get_child (Some (sub_node o (Some (d, q)))) 0 (Some XML_NS_EVENTING) (Some WSM_FILTER) = None.
Proof using.
  intros E. destruct (delivery_eq o u E) as (refs & rest & D). unfold sub_node, sub_children. rewrite D.
  destruct (nonzero (o_expires o)), (Z.land (o_flags o) FLAG_EVENT_SENDBOOKMARK =? 0); split; reflexivity.
Qed.
Lemma sub_expires o u f : o_delivery_uri o = Some u -> nonzero (o_expires o) = true ->
  ws_xml_get_child (Some (sub_node o f)) 0 (Some XML_NS_EVENTING) (Some WSEVENT_EXPIRES) = Some (lf XML_NS_EVENTING WSEVENT_EXPIRES (pt_f 32 (o_expires o))).
Proof using.
  intros E N. destruct (delivery_eq o u E) as (refs & rest & D). unfold sub_node, sub_children. rewrite D, N. reflexivity.
Qed.
Lemma sub_delivery o u f : o_delivery_uri o = Some u ->
  ws_xml_get_child (Some (sub_node o f)) 0 (Some XML_NS_EVENTING) (Some WSEVENT_DELIVERY) = Some (delivery_node content parse o).
Proof using. intros E. destruct (delivery_eq o u E) as (refs & rest & D). unfold sub_node, sub_children. rewrite D. reflexivity. Qed.
Lemma pt_plain size f x : micros f = Some x -> 0 <= x -> plain_text (pt_f size f).
Proof using.
  intros E Hx. unfold pt_f. enough (plain_text (lit "PT" ++ printf_f f ++ lit "S")) as P.
  { intros C. apply P. rewrite <- (take_drop (size - 1) (lit "PT" ++ _)). apply elem_of_app. now left. }
  assert (printf_f f = HttpAuth.dec (x / 1000000) ++ "."%char :: digits6 (x mod 1000000)) as ->.
  { destruct f as [[]| | |[] m e]; try discriminate E; injection E as <-; reflexivity. }
  destruct (ClientText.pad_digits (x mod 1000000) (Z.mod_pos_bound x 1000000 eq_refl)) as [F _].
  apply plain_text_app; [now apply plain_dec|]. apply plain_text_app; [|now apply plain_dec]. apply plain_text_app.
  - apply ClientText.dec_plain, Z.div_pos; lia.
  - apply (plain_text_app ["."%char]); [now apply plain_dec|]. intros C. rewrite forallb_forall in F. apply list_elem_of_In, F in C. discriminate.
Qed.
End Tokens.

(** C16. A subscription is what the client asks for: its Subscribe is a valid envelope, in which the server finds the
    credentials for the event sink (but a user name that comes without password and certificate), the mode and the
    address of the delivery, the filter, and an expiry that is the one of the options in whole seconds or a second more. This holds when an
    address for the delivery is given and there is a filter, a query in one of the dialects CQL and WQL, when the address, the query and the
    credentials are without an ampersand, behind which they would be lost, when the expiry is more than none and less than 2^25 seconds, with an
    id that is not empty, and for options as [ready] says. *)
Theorem client_subscription_read content parse uuid junk st uri to o l t u f x : content_law content -> ready o l t -> uuid <> [] ->
  st_code st = WSMAN_RC_OK -> o_delivery_uri o = Some u -> plain_text u ->
  Forall plain_opt [o_delivery_certificatethumbprint o; o_delivery_username o; o_delivery_password o] ->
  f.1 ∈ [WSM_CQL_FILTER_DIALECT; WSM_WQL_FILTER_DIALECT] -> plain_text f.2 -> micros (o_expires o) = Some x -> 0 < x < 2 ^ 25 * 1000000 ->
  exists doc, wsmc_create_request content parse uuid (Some to) (Some uri) (Some o) (filter_of (Some f)) WSMAN_ACTION_SUBSCRIBE None None junk = Done (Some doc) /\
    wsman_is_valid_envelope st doc = (1, st) /\
    wsman_parse_credentials (Some doc) u (Cred None None None) = (0, sent_credentials o, None) /\
    (forall fuel flags fc, wsman_parse_event_request fuel (Some doc) flags None fc =
      Done (0, Z.lor flags (if streq f.1 WSM_CQL_FILTER_DIALECT then WSMAN_SUBSCRIPTION_CQL else WSMAN_SUBSCRIPTION_WQL), filter_of (Some f), fc)) /\
    let node := ws_xml_get_child (ws_xml_get_soap_body (Some doc)) 0 (Some XML_NS_EVENTING) (Some WSEVENT_SUBSCRIBE) in
    let delivery := ws_xml_get_child node 0 (Some XML_NS_EVENTING) (Some WSEVENT_DELIVERY) in
    ws_xml_find_attr_value delivery None WSEVENT_DELIVERY_MODE = Some (wsmc_create_delivery_mode_str (o_delivery_mode o)) /\
    ws_xml_get_node_text (ws_xml_get_child (ws_xml_get_child delivery 0 (Some XML_NS_EVENTING) (Some WSEVENT_NOTIFY_TO)) 0 (Some XML_NS_ADDRESSING) (Some WSA_ADDRESS)) = Some u /\
    exists d, WsTime.ws_deserialize_duration (ws_xml_get_node_text (ws_xml_get_child node 0 (Some XML_NS_EVENTING) (Some WSEVENT_EXPIRES))) = Done (Some d) /\
      x / 1000000 <= d <= x / 1000000 + 1.
Proof.
  intros law R Nu Hst Eu Pu P Hd Pq Em Hx. rewrite !Forall_cons in P. destruct P as (P1 & P2 & P3 & _).
  eexists. split; [apply (subscribe_request_eq parse uuid junk uri to o l t u (Some f) R Nu Eu)|]. split; [|split; [|split]].
  - match goal with |- context [envelope (?hs ++ ?k) ?bs] => pose proof (is_acceptable (content := content) parse uuid WSMAN_ACTION_SUBSCRIBE
      (XML_NS_EVENTING ++ "/"%char :: WSEVENT_SUBSCRIBE) uri to o l t k bs) as A end.
    match type of A with acceptable ?doc => now destruct (envelope_verdict st doc Hst) as [[_ V]|[N _]] end.
  - apply (credentials_read law o u); [done..|]. rewrite all_headers_eq, !first_app, (first_option_headers parse []), (first_last_headers parse []) by other_name.
    reflexivity.
  - intros fuel flags fc. unfold wsman_parse_event_request. rewrite envelope_body. unfold soap_elem at 1. rewrite get_first, first_cons.
    unfold sub_node at 1. rewrite selects_self. destruct f as [d q]. destruct (sub_filter (content := content) parse o u d q Eu) as [F1 F2].
    rewrite (query_read law fuel _ _ d q F1 Hd Pq). unfold filter_deserialize. rewrite F2. cbn [obind fst snd] in *. members Hd; reflexivity.
  - rewrite envelope_body. change (ws_xml_get_child (Some (soap_elem SOAP_BODY [sub_node parse o (Some f)])) 0 _ _) with (Some (sub_node (content := content) parse o (Some f))).
    cbv zeta.
    assert (nonzero (o_expires o) = true) as N.
    { destruct (o_expires o) as [[]| | |]; try discriminate Em; try reflexivity. injection Em as <-. lia. }
    rewrite (sub_expires parse o u (Some f) Eu N). destruct (delivery_eq (content := content) parse o u Eu) as (refs & rest & D).
    rewrite (sub_delivery parse o u (Some f) Eu), D. split; [reflexivity|]. split; [exact (leaf_node_text law _ _ u Pu)|].
    rewrite (leaf_node_text law) by (apply (pt_plain _ _ x); [done|lia]). apply expires_read; [done|lia|lia].
Qed.
(** An expiry of 2.5 seconds, and a user name without a password. *)
Definition demo_sub : client_opt_t :=
  Opts 0 None None (Some (lit "http://sink:80/e")) None WSMAN_DELIVERY_PUSHWITHACK WSMAN_DELIVERY_SEC_HTTP_BASIC (Some (lit "user")) None None
    (S754_zero false) (S754_finite false 10485760 (-22)) None None 0 0 0 None None.
Lemma demo_sub_ready : ready demo_sub [] [].
Proof. constructor; vm_compute; first [done|split; congruence|constructor]. Qed.
Lemma client_subscription_read_witness : exists doc,
  wsmc_create_request demo_content (fun _ => None) (lit "uuid:7") (Some (lit "http://host/wsman")) (Some demo_uri) (Some demo_sub)
    (filter_of (Some (WSM_CQL_FILTER_DIALECT, lit "select * from I"))) WSMAN_ACTION_SUBSCRIBE None None 0 = Done (Some doc) /\
  wsman_parse_credentials (Some doc) (lit "http://sink:80/e") (Cred None None None) = (0, Cred None None None, None) /\
  exists d, 2 <= d <= 3 /\ WsTime.ws_deserialize_duration (ws_xml_get_node_text (ws_xml_get_child (ws_xml_get_child (ws_xml_get_soap_body (Some doc)) 0
    (Some XML_NS_EVENTING) (Some WSEVENT_SUBSCRIBE)) 0 (Some XML_NS_EVENTING) (Some WSEVENT_EXPIRES))) = Done (Some d).
Proof.
  destruct (client_subscription_read demo_content (fun _ => None) (lit "uuid:7") 0 wsman_status_init demo_uri (lit "http://host/wsman") demo_sub [] []
    (lit "http://sink:80/e") (WSM_CQL_FILTER_DIALECT, lit "select * from I") 2500000 demo_content_law demo_sub_ready) as (doc & E & _ & C & _ & _ & _ & d & D & B).
  - discriminate.
  - reflexivity.
  - reflexivity.
  - now apply plain_dec.
  - repeat (apply Forall_cons; split; [cbn; first [exact I|now apply plain_dec]|]). constructor.
  - other_name.
  - now apply plain_dec.
  - vm_compute. reflexivity.
  - split; reflexivity.
  - exists doc. split; [exact E|]. split; [exact C|]. exists d. split; [exact B|exact D].
Defined.
End ClientEvents.
