(* ===== verification/ClientTransport.v ===== *)
(** * ClientTransport: how the client exchanges messages (lib/wsman-client-transport.c, lib/wsman-curl-client-transport.c)

    The choice of an authentication method, the loop that repeats a request until the server is content with
    the credentials, the codes of errors, and what a call leaves in the client.  libcurl is the class [Curl]:
    its state [W] holds everything outside the client, the server included. *)
From S2P Require Import Prelude CString Names HttpText HttpAuth EventPool Buf Xml.
Import Names Buf Xml.

Module ClientTransport.

(** ** Codes *)

(** The codes of libcurl that the code names. *)
Inductive CURLcode :=
  | CURLE_OK | CURLE_FAILED_INIT | CURLE_UNSUPPORTED_PROTOCOL | CURLE_URL_MALFORMAT | CURLE_COULDNT_RESOLVE_PROXY
  | CURLE_COULDNT_RESOLVE_HOST | CURLE_COULDNT_CONNECT | CURLE_HTTP_RETURNED_ERROR | CURLE_WRITE_ERROR | CURLE_READ_ERROR
  | CURLE_OUT_OF_MEMORY | CURLE_OPERATION_TIMEOUTED | CURLE_HTTP_POST_ERROR | CURLE_BAD_DOWNLOAD_RESUME
  | CURLE_TOO_MANY_REDIRECTS | CURLE_SSL_CONNECT_ERROR | CURLE_BAD_FUNCTION_ARGUMENT | CURLE_SSL_ENGINE_NOTFOUND
  | CURLE_SSL_ENGINE_SETFAILED | CURLE_SSL_CERTPROBLEM | CURLE_PEER_FAILED_VERIFICATION | CURLE_SSL_ENGINE_INITFAILED
  | CURLE_SEND_ERROR | CURLE_RECV_ERROR | CURLE_BAD_CONTENT_ENCODING | CURLE_LOGIN_DENIED | CURLE_SSL_CRL_BADFILE
  | CURLE_OTHER (n : Z).
#[global] Instance curlcode_eq_dec : EqDecision CURLcode.
Proof. solve_decision. Defined.
(* src: src/CIM_Framework/openwsman/include/wsman-client-api.h 78-111 WS_LASTERR_Code *)
Inductive WS_LASTERR_Code :=
  | WS_LASTERR_OK | WS_LASTERR_OTHER_ERROR | WS_LASTERR_FAILED_INIT | WS_LASTERR_UNSUPPORTED_PROTOCOL
  | WS_LASTERR_URL_MALFORMAT | WS_LASTERR_COULDNT_RESOLVE_PROXY | WS_LASTERR_COULDNT_RESOLVE_HOST
  | WS_LASTERR_COULDNT_CONNECT | WS_LASTERR_HTTP_RETURNED_ERROR | WS_LASTERR_WRITE_ERROR | WS_LASTERR_READ_ERROR
  | WS_LASTERR_OUT_OF_MEMORY | WS_LASTERR_OPERATION_TIMEOUTED | WS_LASTERR_HTTP_POST_ERROR
  | WS_LASTERR_BAD_DOWNLOAD_RESUME | WS_LASTERR_TOO_MANY_REDIRECTS | WS_LASTERR_SSL_CONNECT_ERROR
  | WS_LASTERR_SSL_PEER_CERTIFICATE | WS_LASTERR_SSL_ENGINE_NOTFOUND | WS_LASTERR_SSL_ENGINE_SETFAILED
  | WS_LASTERR_SSL_CERTPROBLEM | WS_LASTERR_SSL_CACERT | WS_LASTERR_SSL_ENGINE_INITFAILED | WS_LASTERR_SEND_ERROR
  | WS_LASTERR_RECV_ERROR | WS_LASTERR_BAD_CONTENT_ENCODING | WS_LASTERR_LOGIN_DENIED | WS_LASTERR_BAD_CRL_FILE
  | WS_LASTERR_CURL_BAD_FUNCTION_ARG.
#[global] Instance lasterr_eq_dec : EqDecision WS_LASTERR_Code.
Proof. solve_decision. Defined.
(** With libcurl 7.62 or later. *)
(* src: lib/wsman-curl-client-transport.c 151-233 convert_to_last_error *)
Definition convert_to_last_error (r : CURLcode) : WS_LASTERR_Code :=
  match r with
  | CURLE_OK => WS_LASTERR_OK
  | CURLE_FAILED_INIT => WS_LASTERR_FAILED_INIT
  | CURLE_UNSUPPORTED_PROTOCOL => WS_LASTERR_UNSUPPORTED_PROTOCOL
  | CURLE_URL_MALFORMAT => WS_LASTERR_URL_MALFORMAT
  | CURLE_COULDNT_RESOLVE_PROXY => WS_LASTERR_COULDNT_RESOLVE_PROXY
  | CURLE_COULDNT_RESOLVE_HOST => WS_LASTERR_COULDNT_RESOLVE_HOST
  | CURLE_COULDNT_CONNECT => WS_LASTERR_COULDNT_CONNECT
  | CURLE_HTTP_RETURNED_ERROR => WS_LASTERR_HTTP_RETURNED_ERROR
  | CURLE_WRITE_ERROR => WS_LASTERR_WRITE_ERROR
  | CURLE_READ_ERROR => WS_LASTERR_READ_ERROR
  | CURLE_OUT_OF_MEMORY => WS_LASTERR_OUT_OF_MEMORY
  | CURLE_OPERATION_TIMEOUTED => WS_LASTERR_OPERATION_TIMEOUTED
  | CURLE_HTTP_POST_ERROR => WS_LASTERR_HTTP_POST_ERROR
  | CURLE_BAD_DOWNLOAD_RESUME => WS_LASTERR_BAD_DOWNLOAD_RESUME
  | CURLE_TOO_MANY_REDIRECTS => WS_LASTERR_TOO_MANY_REDIRECTS
  | CURLE_SSL_CONNECT_ERROR => WS_LASTERR_SSL_CONNECT_ERROR
  | CURLE_BAD_FUNCTION_ARGUMENT => WS_LASTERR_CURL_BAD_FUNCTION_ARG
  | CURLE_SSL_ENGINE_NOTFOUND => WS_LASTERR_SSL_ENGINE_NOTFOUND
  | CURLE_SSL_ENGINE_SETFAILED => WS_LASTERR_SSL_ENGINE_SETFAILED
  | CURLE_SSL_CERTPROBLEM => WS_LASTERR_SSL_CERTPROBLEM
  | CURLE_PEER_FAILED_VERIFICATION => WS_LASTERR_SSL_PEER_CERTIFICATE
  | CURLE_SSL_ENGINE_INITFAILED => WS_LASTERR_SSL_ENGINE_INITFAILED
  | CURLE_SEND_ERROR => WS_LASTERR_SEND_ERROR
  | CURLE_RECV_ERROR => WS_LASTERR_RECV_ERROR
  | CURLE_BAD_CONTENT_ENCODING => WS_LASTERR_BAD_CONTENT_ENCODING
  | CURLE_LOGIN_DENIED => WS_LASTERR_LOGIN_DENIED
  | CURLE_SSL_CRL_BADFILE => WS_LASTERR_BAD_CRL_FILE
  | CURLE_OTHER _ => WS_LASTERR_OTHER_ERROR
  end.

(** ** Authentication *)

(* src: src/CIM_Framework/openwsman/include/wsman-client-api.h 61-69 wsman_auth_type_t *)
Inductive wsman_auth_type_t := WS_NO_AUTH | WS_BASIC_AUTH | WS_DIGEST_AUTH | WS_PASS_AUTH | WS_NTLM_AUTH | WS_GSSNEGOTIATE_AUTH | WS_MAX_AUTH.
(** A type and its name in the array, which ends where [WS_MAX_AUTH] would be. *)
(* src: lib/wsman-client-transport.c 53-61 auth_methods *)
Definition auth_methods : list (wsman_auth_type_t * cstring) := [
  (WS_NO_AUTH, lit "No Auth"); (WS_BASIC_AUTH, lit "Basic"); (WS_DIGEST_AUTH, lit "Digest"); (WS_PASS_AUTH, lit "Passport");
  (WS_NTLM_AUTH, lit "NTLM"); (WS_GSSNEGOTIATE_AUTH, lit "GSS-Negotiate")].
(* src: lib/wsman-client-transport.c 114-132 wsmc_transport_get_auth_name *)
Definition wsmc_transport_get_auth_name (auth : wsman_auth_type_t) : cstring :=
  match auth with
  | WS_NO_AUTH => lit "No Auth" | WS_BASIC_AUTH => lit "Basic" | WS_DIGEST_AUTH => lit "Digest" | WS_PASS_AUTH => lit "Passport"
  | WS_NTLM_AUTH => lit "NTLM" | WS_GSSNEGOTIATE_AUTH => lit "GSS-Negotiate" | WS_MAX_AUTH => lit "Unknown"
  end.
(** Only as many characters are compared as the client's method has. *)
(* src: lib/wsman-client-transport.c 223-234 wsman_is_auth_method *)
Definition wsman_is_auth_method (cl_method : option cstring) (m : wsman_auth_type_t) : bool :=
  match cl_method, m with
  | None, _ => true
  | Some _, WS_MAX_AUTH => false
  | Some c, m => HttpAuth.strncasecmp c (wsmc_transport_get_auth_name m) (length c) =? 0
  end.
(* src: lib/wsman-client-transport.c 236-250 wsmc_transport_get_auth_value *)
Definition wsmc_transport_get_auth_value (cl_method : option cstring) : wsman_auth_type_t :=
  match cl_method with
  | None => WS_NO_AUTH
  | Some m => from_option fst WS_MAX_AUTH (List.find (fun p => EventPool.same_id m p.2) auth_methods)
  end.

Definition CURLAUTH_BASIC : Z := 1.
Definition CURLAUTH_DIGEST : Z := 2.
Definition CURLAUTH_GSSNEGOTIATE : Z := 4.
Definition CURLAUTH_NTLM : Z := 8.
(** The methods in the order in which they are tried. *)
Definition preference : list (Z * wsman_auth_type_t) := [
  (CURLAUTH_GSSNEGOTIATE, WS_GSSNEGOTIATE_AUTH); (CURLAUTH_DIGEST, WS_DIGEST_AUTH); (CURLAUTH_NTLM, WS_NTLM_AUTH);
  (CURLAUTH_BASIC, WS_BASIC_AUTH)].
(* src: lib/wsman-curl-client-transport.c 84-107 reauthenticate *)
Definition choose_auth (cl_method : option cstring) (auth_avail : Z) : option (Z * wsman_auth_type_t) :=
  List.find (fun p => negb (Z.land auth_avail p.1 =? 0) && wsman_is_auth_method cl_method p.2) preference.

(** What is asked of libcurl: options, and requests with the options that matter to the server. *)
Inductive curlopt :=
  CURLOPT_URL | CURLOPT_WRITEFUNCTION | CURLOPT_WRITEDATA | CURLOPT_HTTPHEADER | CURLOPT_POSTFIELDS | CURLOPT_POSTFIELDSIZE
  | CURLOPT_HTTPAUTH | CURLOPT_USERPWD.
Record post := Post { p_url : option cstring; p_headers : list cstring; p_fields : list ascii; p_auth : option Z * option cstring }.
(** [curl_new]: what init_curl_transport ends with; [curl_easy_perform]: the pieces that are written, one call of the
    write function each. *)
Class Curl (W : Type) := {
  curl_global_init : W -> CURLcode;
  curl_new : W -> CURLcode;
  curl_easy_setopt : curlopt -> W -> CURLcode;
  curl_easy_perform : post -> W -> CURLcode * list (list ascii) * W;
  curl_response_code : W -> CURLcode * Z;
  curl_httpauth_avail : W -> CURLcode * Z;
  curl_easy_strerror : CURLcode -> cstring }.

Section Transport.
Context {W : Type} {CU : Curl W}.

(** The fields that are used here.  [cl_busy]: the flag WSMAN_CLIENT_BUSY; [cl_transport]: the handle of libcurl with the
    credentials that were set last; [auth_request_func] asks for a user and a password. *)
(* src: src/CIM_Framework/openwsman/include/wsman-client.h 102-130 _WsManClient *)
Record WsManClient := Client {
  cl_busy : bool; cl_endpoint : option cstring; cl_user : option cstring; cl_pwd : option cstring; cl_auth_set : Z;
  cl_method : option cstring; cl_auth_request_func : option (wsman_auth_type_t -> W -> option cstring * option cstring * W);
  cl_initialized : bool; cl_transport : option (option Z * option cstring); cl_user_agent : option cstring;
  cl_content_encoding : option cstring; cl_response_code : Z; cl_last_error : WS_LASTERR_Code;
  cl_fault_string : option cstring; cl_response : u_buf_t }.
Definition set_busy (b : bool) (c : WsManClient) : WsManClient :=
  Client b (cl_endpoint c) (cl_user c) (cl_pwd c) (cl_auth_set c) (cl_method c) (cl_auth_request_func c) (cl_initialized c)
    (cl_transport c) (cl_user_agent c) (cl_content_encoding c) (cl_response_code c) (cl_last_error c) (cl_fault_string c) (cl_response c).
Definition set_auth (user pwd : option cstring) (auth_set : Z) (c : WsManClient) : WsManClient :=
  Client (cl_busy c) (cl_endpoint c) user pwd auth_set (cl_method c) (cl_auth_request_func c) (cl_initialized c)
    (cl_transport c) (cl_user_agent c) (cl_content_encoding c) (cl_response_code c) (cl_last_error c) (cl_fault_string c) (cl_response c).
Definition set_handle (init : bool) (h : option (option Z * option cstring)) (c : WsManClient) : WsManClient :=
  Client (cl_busy c) (cl_endpoint c) (cl_user c) (cl_pwd c) (cl_auth_set c) (cl_method c) (cl_auth_request_func c) init
    h (cl_user_agent c) (cl_content_encoding c) (cl_response_code c) (cl_last_error c) (cl_fault_string c) (cl_response c).
Definition set_result (code : Z) (e : WS_LASTERR_Code) (f : option cstring) (r : u_buf_t) (c : WsManClient) : WsManClient :=
  Client (cl_busy c) (cl_endpoint c) (cl_user c) (cl_pwd c) (cl_auth_set c) (cl_method c) (cl_auth_request_func c) (cl_initialized c)
    (cl_transport c) (cl_user_agent c) (cl_content_encoding c) code e f r.

(** The method to use, or 0, with the user and the password. *)
(* src: lib/wsman-curl-client-transport.c 78-148 reauthenticate *)
Definition reauthenticate (c : WsManClient) (auth_avail : Z) (w : W) : Z * option cstring * option cstring * W :=
  match choose_auth (cl_method c) auth_avail with
  | None => (0, cl_user c, cl_pwd c, w)
  | Some (choosen_auth, ws_auth) =>
      if (cl_auth_set c =? 0) && bool_decide (is_Some (cl_user c)) && bool_decide (is_Some (cl_pwd c))
      then (choosen_auth, cl_user c, cl_pwd c, w)
      else match cl_auth_request_func c with
      | None => (0, cl_user c, cl_pwd c, w)
      | Some ask =>
          let '(user, pwd, w) := ask ws_auth w in
          (match user with None | Some [] => 0 | Some _ => choosen_auth end, user, pwd, w)
      end
  end.

(** The pieces of an answer. *)
(* src: lib/wsman-curl-client-transport.c 235-245 write_handler *)
Definition write_handler (buf : u_buf_t) (piece : list ascii) : outcome u_buf_t :=
  let* r := u_buf_append true buf (Some piece) (Z.of_nat (length piece)) in Done r.2.
Fixpoint write_all (buf : u_buf_t) (pieces : list (list ascii)) : outcome u_buf_t :=
  match pieces with [] => Done buf | p :: ps => let* buf := write_handler buf p in write_all buf ps end.

(** The credentials go to the handle when there are both and a method was chosen; an option that is refused ends the call. *)
(* src: lib/wsman-curl-client-transport.c 560-581 wsmc_handler *)
Definition set_credentials (c : WsManClient) (w : W) : WsManClient * CURLcode :=
  match cl_user c, cl_pwd c with
  | Some user, Some pass =>
      if cl_auth_set c =? 0 then (c, CURLE_OK) else
      match curl_easy_setopt CURLOPT_HTTPAUTH w with
      | CURLE_OK =>
          let handle upwd := set_handle (cl_initialized c) (Some (Some (cl_auth_set c), upwd)) c in
          match curl_easy_setopt CURLOPT_USERPWD w with
          | CURLE_OK => (handle (Some (user ++ ":"%char :: pass)), CURLE_OK)
          | r => (handle (default (None, None) (cl_transport c)).2, r)
          end
      | r => (c, r)
      end
  | _, _ => (c, CURLE_OK)
  end.
(** One turn: an answer ends the loop with its code ([inl]), or the server wants credentials ([inr]).  [Some f]: the fault
    string is set. *)
Definition failed (r : CURLcode) (c : WsManClient) (w : W) (buf : u_buf_t) :=
  (r, Some (curl_easy_strerror r), false, c, w, buf).
(* src: lib/wsman-curl-client-transport.c 555-649 wsmc_handler *)
Fixpoint auth_loop (fuel : nat) (url : option cstring) (headers : list cstring) (fields : list ascii)
    (c : WsManClient) (w : W) (response : u_buf_t) : outcome (CURLcode * option cstring * bool * WsManClient * W * u_buf_t) :=
  match fuel with
  | O => Diverge
  | S fuel =>
      let '(c, r) := set_credentials c w in
      if decide (r <> CURLE_OK) then Done (failed r c w response) else
      let '(r, pieces, w) := curl_easy_perform (Post url headers fields (default (None, None) (cl_transport c))) w in
      let* response := write_all response pieces in
      if decide (r <> CURLE_OK) then Done (failed r c w response) else
      let '(r, http_code) := curl_response_code w in
      if decide (r <> CURLE_OK) then Done (failed r c w response) else
      if decide (http_code ∈ [200; 400; 500]) then Done (CURLE_OK, None, true, c, w, response)
      else if negb (http_code =? 401) then Done (CURLE_FAILED_INIT, None, true, c, w, response)
      else
        let '(r, auth_avail) := curl_httpauth_avail w in
        if decide (r <> CURLE_OK) then Done (failed r c w response) else
        let '(auth_set, user, pwd, w) := reauthenticate c auth_avail w in
        let c := set_auth user pwd auth_set c in
        let response := (u_buf_clear response).2 in
        if auth_set =? 0 then Done (CURLE_LOGIN_DENIED, Some (curl_easy_strerror CURLE_LOGIN_DENIED), true, c, w, response)
        else auth_loop fuel url headers fields c w response
  end.
Context (DEFAULT_USER_AGENT : cstring) (dump : option xml -> option cstring -> list ascii).
(** [content_type] has 64 bytes. *)
(* src: lib/wsman-curl-client-transport.c 493-526 wsmc_handler *)
Definition request_headers (c : WsManClient) : list cstring :=
  [take 63 (lit "Content-Type: application/soap+xml;charset=" ++ printf_s (cl_content_encoding c));
   lit "User-Agent: " ++ default DEFAULT_USER_AGENT (cl_user_agent c); lit "Expect:"].
(** The first option that libcurl refuses. *)
Fixpoint set_options (l : list curlopt) (w : W) : CURLcode :=
  match l with [] => CURLE_OK | o :: l => match curl_easy_setopt o w with CURLE_OK => set_options l w | r => r end end.
(** The end of the function: [kept] says whether the answer is handed to the client. *)
(* src: lib/wsman-curl-client-transport.c 677-685 wsmc_handler *)
Definition handler_done (r : CURLcode) (f : option cstring) (kept : bool) (c : WsManClient) (w : W) (response : u_buf_t) :
    outcome (WsManClient * W) :=
  let* buf := if kept then
      let* bytes := match u_buf_ptr response with
        | None => Done None
        | Some b => let* l := deref (mapM id (take (Z.to_nat (u_buf_len response)) b)) in Done (Some l) end in
      let* r := u_buf_append true (cl_response c) bytes (u_buf_len response) in Done r.2
    else Done (cl_response c) in
  Done (set_result (curl_response_code w).2 (convert_to_last_error r) (match f with None => cl_fault_string c | f => f end) buf c, w).
(* src: lib/wsman-curl-client-transport.c 439-702 wsmc_handler *)
Definition wsmc_handler (fuel : nat) (c : WsManClient) (rqstDoc : option xml) (w : W) : outcome (WsManClient * W) :=
  if negb (cl_initialized c) && bool_decide (curl_global_init w <> CURLE_OK)
  then Done (set_result (cl_response_code c) WS_LASTERR_FAILED_INIT (cl_fault_string c) (cl_response c) c, w) else
  let c := set_handle true (cl_transport c) c in
  let r := match cl_transport c with None => curl_new w | Some _ => CURLE_OK end in
  if decide (r <> CURLE_OK)
  then Done (set_result (cl_response_code c) (convert_to_last_error r) (cl_fault_string c) (cl_response c) c, w) else
  let c := set_handle true (Some (default (None, None) (cl_transport c))) c in
  match set_options [CURLOPT_URL; CURLOPT_WRITEFUNCTION; CURLOPT_WRITEDATA; CURLOPT_HTTPHEADER; CURLOPT_POSTFIELDS; CURLOPT_POSTFIELDSIZE] w with
  | CURLE_OK =>
      let* (r, f, kept, c, w, response) := auth_loop fuel (cl_endpoint c) (request_headers c) (dump rqstDoc (cl_content_encoding c)) c w (UBuf None 0 0) in
      handler_done r f kept c w response
  | r => handler_done r (Some (curl_easy_strerror r)) false c w (UBuf None 0 0)
  end.

(** ** Calls *)

(* src: lib/wsman-client.c 2293-2306 wsmc_lock *)
Definition wsmc_lock (c : WsManClient) : Z * WsManClient := if cl_busy c then (1, c) else (0, set_busy true c).
(* src: lib/wsman-client.c 2309-2317 wsmc_unlock *)
Definition wsmc_unlock (c : WsManClient) : WsManClient := set_busy false c.
(* src: lib/wsman-client.c 1987-1998 wsmc_reinit_conn *)
Definition wsmc_reinit_conn (c : WsManClient) : WsManClient :=
  set_result 0 WS_LASTERR_OK None (u_buf_clear (cl_response c)).2 c.
(* src: lib/wsman-client-transport.c 71-102 wsman_send_request *)
Definition wsman_send_request (fuel : nat) (c : WsManClient) (request : option xml) (w : W) : outcome (Z * WsManClient * W) :=
  let '(busy, c) := wsmc_lock c in
  if negb (busy =? 0) then Done (1, c, w) else
  let* (c, w) := wsmc_handler fuel (wsmc_reinit_conn c) request w in
  Done (if decide (cl_last_error c = WS_LASTERR_OK) then 0 else 1, wsmc_unlock c, w).
End Transport.


(** ** An exchange ends, and what it leaves *)

Lemma write_all_holds pieces : forall u bs, holds u bs -> size u < 2 ^ 53 -> Z.of_nat (length (bs ++ concat pieces)) < 2 ^ 50 ->
  exists u', write_all u pieces = Done u' /\ holds u' (bs ++ concat pieces) /\ size u' < 2 ^ 53.
Proof.
  induction pieces as [|p pieces IH]; intros u bs H S B; cbn [write_all concat] in *; [rewrite app_nil_r in *; eauto|].
  unfold write_handler. rewrite app_assoc in *. destruct (decide (p = [])) as [->|N].
  - cbn [length]. cbn [u_buf_append Z.of_nat Z.eqb obind snd]. rewrite app_nil_r in *. now apply IH.
  - rewrite !length_app in B. destruct (append_holds u bs p H N) as (u' & -> & H' & S'); [lia..|]. cbn [obind snd].
    apply IH; [done| |rewrite !length_app; lia]. pose proof (h_len _ _ H') as L. rewrite length_app in L. lia.
Qed.
Section Exchanges.
Context {W : Type} {CU : Curl W}.
(** The answers of the server are of a moderate size. *)
Definition moderate : Prop := forall p w, Z.of_nat (length (concat (curl_easy_perform p w).1.2)) < 2 ^ 50.
(** The fields that an exchange leaves alone until its end. *)
Definition alike (c c' : @WsManClient W) : Prop :=
  cl_busy c' = cl_busy c /\ cl_response c' = cl_response c /\ cl_auth_request_func c' = cl_auth_request_func c /\ cl_endpoint c' = cl_endpoint c /\
  cl_content_encoding c' = cl_content_encoding c.
(** A call leaves these as they were. *)
Definition same_client (c c' : @WsManClient W) : Prop :=
  cl_auth_request_func c' = cl_auth_request_func c /\ cl_endpoint c' = cl_endpoint c /\ cl_content_encoding c' = cl_content_encoding c.
Lemma set_credentials_alike (c : @WsManClient W) w c' r : set_credentials c w = (c', r) -> alike c c' /\ cl_auth_set c' = cl_auth_set c.
Proof.
  unfold set_credentials. destruct (cl_user c), (cl_pwd c); try (intros [= <- _]; by repeat split).
  destruct (_ =? 0); [intros [= <- _]; by repeat split|].
  destruct (curl_easy_setopt CURLOPT_HTTPAUTH w); try (intros [= <- _]; by repeat split).
  destruct (curl_easy_setopt CURLOPT_USERPWD w); intros [= <- _]; by repeat split.
Qed.
(** What a loop ends with: no error means that the last answer has one of the good codes, and is what the buffer holds. *)
Definition loop_end (fields : list ascii) (c : @WsManClient W) (x : CURLcode * option cstring * bool * WsManClient * W * u_buf_t) : Prop :=
  let '(r, f, kept, c', w', resp) := x in
  alike c c' /\ size resp < 2 ^ 53 /\ (exists bs, holds resp bs /\ Z.of_nat (length bs) < 2 ^ 50) /\
  (r = CURLE_OK -> kept = true /\ f = None /\ exists p w0 pieces code, curl_easy_perform p w0 = (CURLE_OK, pieces, w') /\ p_url p = cl_endpoint c /\ p_fields p = fields /\
    curl_response_code w' = (CURLE_OK, code) /\ code ∈ [200; 400; 500] /\ holds resp (concat pieces)).
Lemma choose_auth_nonzero m a x y : choose_auth m a = Some (x, y) -> x <> 0.
Proof.
  unfold choose_auth. intros H. apply List.find_some in H as [H _]. apply list_elem_of_In in H. unfold preference in H.
  rewrite !elem_of_cons, elem_of_nil in H. destruct H as [[= -> _]|[[= -> _]|[[= -> _]|[[= -> _]|[]]]]]; discriminate.
Qed.
(** Without a function that asks for credentials the client's own are tried once. *)
Lemma reauthenticate_once (c : @WsManClient W) a w x user pwd w' : cl_auth_request_func c = None -> reauthenticate c a w = (x, user, pwd, w') ->
  w' = w /\ (x <> 0 -> cl_auth_set c = 0).
Proof.
  intros E H. unfold reauthenticate in H. rewrite E in H. destruct (choose_auth _ _) as [[y z]|] eqn:C; [|injection H as <- _ _ <-; done].
  destruct (Z.eqb_spec (cl_auth_set c) 0); [|injection H as <- _ _ <-; done]. destruct (_ && _); injection H as <- _ _ <-; done.
Qed.
(** A turn that is the last one, with [bs] in the buffer. *)
Ltac turn_ends bs := left; eexists; (split; [reflexivity|]); (split; [done|]); (split; [done|]); (split; [exists bs; split; [done|cbn; lia]|done]).
Lemma one_turn fuel url headers fields (c : @WsManClient W) w resp : moderate -> cl_auth_request_func c = None -> url = cl_endpoint c -> holds resp [] -> size resp < 2 ^ 53 ->
  (exists x, auth_loop (S fuel) url headers fields c w resp = Done x /\ loop_end fields c x) \/
  (cl_auth_set c = 0 /\ exists c' w' resp', auth_loop (S fuel) url headers fields c w resp = auth_loop fuel url headers fields c' w' resp' /\
    alike c c' /\ cl_auth_set c' <> 0 /\ holds resp' [] /\ size resp' < 2 ^ 53).
Proof.
  intros M F U H S. cbn [auth_loop]. destruct (set_credentials c w) as [c1 r1] eqn:E1. apply set_credentials_alike in E1 as [A1 S1].
  destruct (decide (r1 <> CURLE_OK)) as [N1|_].
  { turn_ends (@nil ascii). }
  set (p := Post _ _ _ _). pose proof (M p w) as L. destruct (curl_easy_perform p w) as [[r2 pieces] w2] eqn:E2. cbn [fst snd] in L.
  destruct (write_all_holds pieces resp [] H S) as (resp2 & -> & H2 & S2); [exact L|]. cbn [obind app] in *.
  destruct (decide (r2 <> CURLE_OK)) as [N2|N2].
  { turn_ends (concat pieces). }
  apply dec_stable in N2. subst r2. destruct (curl_response_code w2) as [r3 http] eqn:E3. destruct (decide (r3 <> CURLE_OK)) as [N3|N3].
  { turn_ends (concat pieces). }
  apply dec_stable in N3. subst r3. destruct (decide (http ∈ [200; 400; 500])) as [G|_].
  { left. eexists. split; [reflexivity|]. split; [done|]. split; [done|]. split; [exists (concat pieces); split; [done|lia]|]. intros _.
    split; [done|]. split; [done|]. by exists p, w, pieces, http. }
  destruct (negb (http =? 401)).
  { turn_ends (concat pieces). }
  destruct (curl_httpauth_avail w2) as [r4 avail]. destruct (decide (r4 <> CURLE_OK)) as [N4|_].
  { turn_ends (concat pieces). }
  destruct (reauthenticate c1 avail w2) as [[[x user] pwd] w3] eqn:E5.
  assert (cl_auth_request_func c1 = None) as F1 by (destruct A1 as (_ & _ & -> & _); exact F).
  destruct (reauthenticate_once _ _ _ _ _ _ _ F1 E5) as [-> X]. pose proof (clear_holds _ _ H2) as H3.
  destruct (Z.eqb_spec x 0) as [->|Nx].
  - turn_ends (@nil ascii).
  - right. rewrite <- S1. split; [now apply X|]. eexists _, w2, _. split; [reflexivity|]. split; [exact A1|]. split; [exact Nx|]. split; [exact H3|exact S2].
Qed.
Lemma loop_ends fuel url headers fields (c : @WsManClient W) w resp : moderate -> cl_auth_request_func c = None -> url = cl_endpoint c -> holds resp [] -> size resp < 2 ^ 53 ->
  (2 <= fuel)%nat -> exists x, auth_loop fuel url headers fields c w resp = Done x /\ loop_end fields c x.
Proof.
  intros M F U H S Hf. destruct fuel as [|[|fuel]]; [lia..|].
  destruct (one_turn (Datatypes.S fuel) url headers fields c w resp M F U H S) as [E|(_ & c' & w' & resp' & -> & A & N & H' & S')]; [exact E|].
  pose proof A as (A1 & A2 & A3 & A4 & A5).
  destruct (one_turn fuel url headers fields c' w' resp' M) as [(x & E & L)|[Z _]]; [congruence|congruence|done|done| |done].
  exists x. split; [exact E|]. destruct x as [[[[[r f] kept] c2] w2] resp2]. destruct L as ((B1 & B2 & B3 & B4 & B5) & L1 & L2 & L3).
  split; [repeat split; congruence|]. split; [done|]. split; [done|]. intros Hr. destruct (L3 Hr) as (K1 & K2 & p & w0 & pieces & code & K3 & K4 & K5).
  split; [done|]. split; [done|]. exists p, w0, pieces, code. rewrite <- A4. done.
Qed.
Lemma converted r : convert_to_last_error r = WS_LASTERR_OK <-> r = CURLE_OK.
Proof. split; [|now intros ->]. destruct r; now intros. Qed.
Lemma holds_same u bs cs : holds u bs -> holds u cs -> bs = cs.
Proof.
  intros [L1 _ D1] [L2 _ D2]. assert (length bs = length cs) as L by lia. destruct (Buf.data u) as [b|]; [|destruct D1, D2; congruence].
  destruct D1 as [_ D1], D2 as [_ D2]. rewrite L, D2 in D1. apply (inj (fmap Some)). exact (eq_sym D1).
Qed.
Lemma handed_over r f (kept : bool) (c : @WsManClient W) w resp bs : holds resp bs -> Z.of_nat (length bs) < 2 ^ 50 -> holds (cl_response c) [] -> size (cl_response c) < 2 ^ 53 ->
  exists buf, handler_done r f kept c w resp = Done (set_result (curl_response_code w).2 (convert_to_last_error r) (match f with None => cl_fault_string c | f => f end) buf c, w) /\
    holds buf (if kept then bs else []) /\ size buf < 2 ^ 53.
Proof.
  intros H B H0 S0. unfold handler_done. destruct kept; [|cbn [obind]; by eexists]. destruct H as [L R D]. unfold u_buf_ptr, u_buf_len.
  assert (exists o, (match Buf.data resp with None => Done None | Some b => let* l := deref (mapM id (take (Z.to_nat (len resp)) b)) in Done (Some l) end) = Done o /\
    (bs <> [] -> o = Some bs)) as (o & -> & Ho).
  { destruct (Buf.data resp) as [b|].
    - destruct D as [_ D]. rewrite L, Nat2Z.id, D. enough (mapM id (map Some bs) = Some bs) as -> by (by eexists). clear. now induction bs as [|b bs IH]; cbn; [|rewrite IH].
    - destruct D as [-> _]. by eexists. }
  cbn [obind]. destruct (decide (bs = [])) as [->|N].
  - rewrite L. cbn. by eexists.
  - rewrite (Ho N), L. destruct (append_holds _ [] bs H0 N) as (u' & -> & H' & S'); [cbn; lia|lia|]. cbn [obind snd]. eexists. split; [reflexivity|]. split; [exact H'|].
    rewrite (h_len _ _ H') in S'. cbn [app] in S'. lia.
Qed.
Lemma handler_ends agent dump fuel (c : @WsManClient W) request w : moderate -> cl_busy c = true -> cl_auth_request_func c = None ->
  holds (cl_response c) [] -> size (cl_response c) < 2 ^ 53 -> (2 <= fuel)%nat ->
  exists c' w', wsmc_handler agent dump fuel c request w = Done (c', w') /\ cl_busy c' = true /\ same_client c c' /\
    (exists bs', holds (cl_response c') bs' /\ size (cl_response c') < 2 ^ 53) /\
    (cl_last_error c' = WS_LASTERR_OK -> cl_response_code c' ∈ [200; 400; 500] /\ exists p w0 pieces, curl_easy_perform p w0 = (CURLE_OK, pieces, w') /\
      p_url p = cl_endpoint c /\ p_fields p = dump request (cl_content_encoding c) /\ holds (cl_response c') (concat pieces)).
Proof.
  intros M B F H S Hf. unfold wsmc_handler. destruct (negb (cl_initialized c) && _).
  { do 2 eexists. split; [reflexivity|]. split; [exact B|]. split; [by repeat split|]. split; [by exists []|done]. }
  cbv zeta. destruct (decide (_ <> CURLE_OK)) as [N|_].
  { do 2 eexists. split; [reflexivity|]. split; [exact B|]. split; [by repeat split|]. split; [by exists []|]. intros E. now apply converted in E. }
  set (c1 := set_handle true (Some _) _). set (opts := set_options _ w).
  assert (alike c c1) as (A1 & A2 & A3 & A4 & A5) by (by repeat split). destruct (decide (opts = CURLE_OK)) as [->|N].
  - destruct (loop_ends fuel (cl_endpoint c1) (request_headers agent c1) (dump request (cl_content_encoding c1)) c1 w (UBuf None 0 0) M) as (x & -> & L);
      [congruence|done|constructor; cbn; (done || lia)|cbn; lia|done|].
    destruct x as [[[[[r f] kept] c2] w2] resp]. cbn [obind]. destruct L as ((B1 & B2 & B3 & B4 & B5) & _ & (bs & Hb & Lb) & L).
    destruct (handed_over r f kept c2 w2 resp bs Hb Lb) as (buf & -> & H' & S'); [congruence|congruence|].
    do 2 eexists. split; [reflexivity|]. split; [cbn; congruence|]. split; [repeat split; cbn; congruence|]. split; [by eexists|]. cbn [cl_last_error set_result cl_response_code cl_response]. intros E.
    apply converted in E. destruct (L E) as (-> & _ & p & w0 & pieces & code & K1 & K2 & K3 & K4 & K5 & K6). rewrite K4. split; [exact K5|].
    exists p, w0, pieces. split; [exact K1|]. split; [exact K2|]. split; [exact K3|].
    assert (bs = concat pieces) as -> by (apply (holds_same resp); done). exact H'.
  - destruct (handed_over opts (Some (curl_easy_strerror opts)) false c1 w (UBuf None 0 0) []) as (buf & E & H' & S'); [constructor; cbn; (done || lia)|cbn; lia|congruence|congruence|].
    exists (set_result (curl_response_code w).2 (convert_to_last_error opts) (Some (curl_easy_strerror opts)) buf c1), w.
    split; [destruct opts; first [done|exact E]|]. split; [done|]. split; [by repeat split|]. split; [by eexists|]. intros C. now apply converted in C.
Qed.
Lemma send_ends agent dump fuel (c : @WsManClient W) request w bs : moderate -> cl_busy c = false -> cl_auth_request_func c = None ->
  holds (cl_response c) bs -> size (cl_response c) < 2 ^ 53 -> (2 <= fuel)%nat ->
  exists rc c' w', wsman_send_request agent dump fuel c request w = Done (rc, c', w') /\ cl_busy c' = false /\ same_client c c' /\
    (exists bs', holds (cl_response c') bs' /\ size (cl_response c') < 2 ^ 53) /\
    (rc = 0 -> cl_response_code c' ∈ [200; 400; 500] /\ exists p w0 pieces, curl_easy_perform p w0 = (CURLE_OK, pieces, w') /\
      p_url p = cl_endpoint c /\ p_fields p = dump request (cl_content_encoding c) /\ holds (cl_response c') (concat pieces)).
Proof.
  intros M B F H S Hf. unfold wsman_send_request, wsmc_lock. rewrite B. cbn [Z.eqb negb].
  destruct (handler_ends agent dump fuel (wsmc_reinit_conn (set_busy true c)) request w M) as (c' & w' & -> & B' & C' & H' & E'); [done|exact F|exact (clear_holds _ _ H)|done|done|].
  cbn [obind]. eexists _, _, w'. split; [reflexivity|]. split; [done|]. split; [exact C'|]. split; [exact H'|].
  destruct (decide (cl_last_error c' = WS_LASTERR_OK)) as [E|]; [|done]. intros _. exact (E' E).
Qed.
(** ** A server that answers *)
(** Nothing goes wrong in libcurl, and the server answers with code 200, 400 or 500, or, if the client has a user and a password that it has
    not given yet, asks for them with a method that the client may use. *)
Definition answers (c : @WsManClient W) : Prop :=
  (forall w, curl_global_init w = CURLE_OK) /\ (forall w, curl_new w = CURLE_OK) /\ (forall o w, curl_easy_setopt o w = CURLE_OK) /\
  forall p w, (curl_easy_perform p w).1.1 = CURLE_OK /\ exists code, curl_response_code (curl_easy_perform p w).2 = (CURLE_OK, code) /\
    (code ∈ [200; 400; 500] \/ (code = 401 /\ (p_auth p).2 = None /\ is_Some (cl_user c) /\ is_Some (cl_pwd c) /\ cl_auth_set c = 0 /\
      exists avail, curl_httpauth_avail (curl_easy_perform p w).2 = (CURLE_OK, avail) /\ is_Some (choose_auth (cl_method c) avail))).
Definition given (c : @WsManClient W) : Prop := is_Some (cl_user c) /\ is_Some (cl_pwd c) /\ cl_auth_set c <> 0.
Lemma set_credentials_given (c : @WsManClient W) w : (forall o w, curl_easy_setopt o w = CURLE_OK) -> exists h,
  set_credentials c w = (set_handle (cl_initialized c) h c, CURLE_OK) /\ (given c -> (default (None, None) h).2 <> None).
Proof.
  intros O. unfold set_credentials, given. destruct (cl_user c) as [u|] eqn:Eu; [destruct (cl_pwd c) as [p|] eqn:Ep|].
  2, 3: exists (cl_transport c); split; [now destruct c|]; intros (H1 & H2 & _); now destruct H1, H2.
  destruct (Z.eqb_spec (cl_auth_set c) 0) as [E|N]; [exists (cl_transport c); split; [now destruct c|]; now intros (_ & _ & ?)|].
  rewrite !O. eexists. split; [reflexivity|done].
Qed.
(** A turn ends the loop without an error, or the credentials have been asked for and are given in the next. *)
Lemma turn_answered fuel url headers fields (c0 c : @WsManClient W) w resp x : answers c0 ->
  cl_user c = cl_user c0 -> cl_pwd c = cl_pwd c0 -> cl_method c = cl_method c0 -> (cl_auth_set c = cl_auth_set c0 \/ given c) ->
  auth_loop (S fuel) url headers fields c w resp = Done x -> x.1.1.1.1.1 = CURLE_OK \/
  (~ given c /\ exists c' w' resp', auth_loop fuel url headers fields c' w' resp' = Done x /\
    cl_user c' = cl_user c0 /\ cl_pwd c' = cl_pwd c0 /\ cl_method c' = cl_method c0 /\ given c').
Proof.
  intros (_ & _ & O & A) Eu Ep Em Ea. cbn [auth_loop]. destruct (set_credentials_given c w O) as (h & -> & Gh).
  set (c1 := set_handle _ h c). rewrite decide_False by tauto. set (p := Post _ _ _ _). destruct (A p w) as (R & code & C & K).
  destruct (curl_easy_perform p w) as [[r pieces] w1]. cbn [fst snd] in R, C, K. subst r. destruct (write_all resp pieces) as [resp1| | |]; [|done..]. cbn [obind].
  rewrite decide_False by tauto. rewrite C, decide_False by tauto.
  destruct (decide (code ∈ [200; 400; 500])) as [G|G]; [intros [= <-]; now left|].
  destruct K as [K|(-> & Pa & Su & Sp & As & a & Ha & Ch)]; [done|]. cbn [Z.eqb negb]. rewrite Ha, decide_False by tauto.
  unfold reauthenticate. change (cl_method c1) with (cl_method c). change (cl_auth_set c1) with (cl_auth_set c). change (cl_user c1) with (cl_user c). change (cl_pwd c1) with (cl_pwd c).
  rewrite Em, Eu, Ep. destruct Ch as [[y z] Ch]. rewrite Ch. assert (~ given c) as Ng by (intros Gc; now destruct (Gh Gc)).
  destruct Ea as [Ea|Ea]; [|done]. rewrite Ea, As, !bool_decide_true by done. cbn [Z.eqb andb].
  pose proof (choose_auth_nonzero _ _ _ _ Ch) as Ny. destruct (Z.eqb_spec y 0); [done|]. intros H. right. split; [done|]. eexists _, _, _. split; [exact H|]. now repeat split.
Qed.
Lemma loop_answered fuel url headers fields (c : @WsManClient W) w resp x : answers c -> (2 <= fuel)%nat ->
  auth_loop fuel url headers fields c w resp = Done x -> x.1.1.1.1.1 = CURLE_OK.
Proof.
  intros A Hf H. destruct fuel as [|[|fuel]]; [lia..|].
  destruct (turn_answered (Datatypes.S fuel) url headers fields c c w resp x A eq_refl eq_refl eq_refl (or_introl eq_refl) H) as [E|(_ & c' & w' & resp' & H' & U & P & M & G)]; [done|].
  destruct (turn_answered fuel url headers fields c c' w' resp' x A U P M (or_intror G) H') as [E|(Ng & _)]; [done|]. now destruct Ng.
Qed.
Lemma handler_answered agent dump fuel (c : @WsManClient W) request w c' w' : answers c -> (2 <= fuel)%nat ->
  wsmc_handler agent dump fuel c request w = Done (c', w') -> cl_last_error c' = WS_LASTERR_OK.
Proof.
  intros A Hf. pose proof A as (O1 & O2 & O3 & _). unfold wsmc_handler. rewrite (bool_decide_false (curl_global_init w <> CURLE_OK)) by (rewrite O1; tauto).
  rewrite andb_false_r. cbv zeta. rewrite decide_False by (destruct (cl_transport c); rewrite ?O2; tauto). cbn [set_options]. rewrite !O3.
  set (c1 := set_handle true (Some _) _). destruct (auth_loop _ _ _ _ c1 w _) as [[[[[[r f] kept] c2] w2] resp]| | |] eqn:E; [|done..].
  assert (answers c1) as A1 by exact A. pose proof (loop_answered fuel _ _ _ c1 w _ _ A1 Hf E) as Hr. cbn in Hr. subst r. cbn [obind].
  unfold handler_done. destruct (if kept then _ else _); [|done..]. cbn [obind]. now intros [= <- _].
Qed.
Lemma send_answered agent dump fuel (c : @WsManClient W) request w rc c' w' : answers c -> cl_busy c = false -> (2 <= fuel)%nat ->
  wsman_send_request agent dump fuel c request w = Done (rc, c', w') -> rc = 0.
Proof.
  intros A B Hf. unfold wsman_send_request, wsmc_lock. rewrite B. cbn [Z.eqb negb].
  destruct (wsmc_handler _ _ _ _ _ _) as [[c1 w1]| | |] eqn:E; [|done..]. cbn [obind].
  assert (cl_last_error c1 = WS_LASTERR_OK) as L by (eapply (handler_answered agent dump fuel (wsmc_reinit_conn (set_busy true c))); [exact A|exact Hf|exact E]).
  rewrite decide_True by done. now intros [= <- _ _].
Qed.
(** What a call returns is what the client has been left with. *)
Lemma send_code agent dump fuel (c : @WsManClient W) request w rc c' w' : cl_busy c = false ->
  wsman_send_request agent dump fuel c request w = Done (rc, c', w') -> rc = 0 <-> cl_last_error c' = WS_LASTERR_OK.
Proof.
  intros B. unfold wsman_send_request, wsmc_lock. rewrite B. cbn [Z.eqb negb].
  destruct (wsmc_handler _ _ _ _ _ _) as [[c1 w1]| | |]; [|done..]. cbn [obind]. intros [= <- <- <-].
  unfold wsmc_unlock, set_busy. cbn [cl_last_error]. destruct (decide (cl_last_error c1 = WS_LASTERR_OK)); split; congruence.
Qed.
End Exchanges.

(** C8. A request that is sent comes to an end: with the client's own credentials the server is asked twice at most, the client
    is free again, and the call succeeds only when the last answer of the server came without an error and with code 200, 400 or 500;
    then the client holds the bytes of this answer to this request, and nothing else. *)
Theorem request_sent {W} `{CU : Curl W} agent dump fuel (c : @WsManClient W) request w bs : moderate -> cl_busy c = false -> cl_auth_request_func c = None ->
  holds (cl_response c) bs -> size (cl_response c) < 2 ^ 53 -> (2 <= fuel)%nat ->
  exists rc c' w', wsman_send_request agent dump fuel c request w = Done (rc, c', w') /\ cl_busy c' = false /\ same_client c c' /\
    (exists bs', holds (cl_response c') bs' /\ size (cl_response c') < 2 ^ 53) /\
    (rc = 0 -> cl_response_code c' ∈ [200; 400; 500] /\ exists p w0 pieces, curl_easy_perform p w0 = (CURLE_OK, pieces, w') /\
      p_url p = cl_endpoint c /\ p_fields p = dump request (cl_content_encoding c) /\ holds (cl_response c') (concat pieces)).
Proof. apply send_ends. Qed.
(** A server that wants credentials before it answers; its state counts the requests. *)
#[local] Instance demo_curl : Curl nat := {
  curl_global_init := fun _ => CURLE_OK;
  curl_new := fun _ => CURLE_OK;
  curl_easy_setopt := fun _ _ => CURLE_OK;
  curl_easy_perform := fun p n => (CURLE_OK, match (p_auth p).2 with Some _ => [lit "<e"; []; lit "/>"] | None => [lit "denied"] end, match (p_auth p).2 with Some _ => 2%nat | None => 1%nat end);
  curl_response_code := fun n => (CURLE_OK, match n with 2%nat => 200 | _ => 401 end);
  curl_httpauth_avail := fun _ => (CURLE_OK, Z.lor CURLAUTH_BASIC CURLAUTH_DIGEST);
  curl_easy_strerror := fun _ => lit "error" }.
Lemma demo_moderate : moderate.
Proof. intros p w. unfold curl_easy_perform, demo_curl. destruct (p_auth p).2; vm_compute; reflexivity. Qed.
Definition demo_client : @WsManClient nat :=
  Client false (Some (lit "http://host:80/wsman")) (Some (lit "admin")) (Some (lit "secret")) 0 (Some (lit "basic")) None false None None
    (Some (lit "UTF-8")) 0 WS_LASTERR_OK None (UBuf None 0 0).
Definition demo_dump (d : option xml) (enc : option cstring) : list ascii := lit "<q/>".
Lemma demo_empty : holds (UBuf None 0 0) [].
Proof. constructor; cbn; (done || lia). Qed.
Lemma request_sent_witness : exists rc c' w', wsman_send_request (lit "agent") demo_dump 2 demo_client None 0%nat = Done (rc, c', w') /\ rc = 0 /\
  cl_busy c' = false /\ holds (cl_response c') (lit "<e/>").
Proof.
  destruct (request_sent (lit "agent") demo_dump 2 demo_client None 0%nat [] demo_moderate eq_refl eq_refl demo_empty eq_refl (le_n 2))
    as (rc & c' & w' & E & B & _ & _ & R).
  exists rc, c', w'. split; [exact E|]. vm_compute in E. injection E as <- <- <-. split; [reflexivity|]. split; [exact B|].
  constructor; vm_compute; [reflexivity|split; congruence|split; reflexivity].
Defined.
End ClientTransport.
