(* ===== verification/ClientCalls.v ===== *)
(** * ClientCalls: the calls of the client library (lib/wsman-client.c)

    Each call builds a request (Client), sends it (ClientTransport) and reads the answer.  The state of a call
    is the client and the world behind libcurl.  [content] and [read_memory] are libxml2's, [uuid] is what
    generate_uuid writes at the time of a state of the world, [junk] what a scanner of a hash table holds
    before a scan, [fuel] bounds the number of attempts to send a request. *)
From S2P Require Import Prelude CString Names HttpText HttpAuth Uri KazHash Faults Xml Epr Filter Envelope Buf Client ClientTransport.
Import Names Xml Epr Filter Envelope Buf Client ClientTransport.

Module ClientCalls.

Section Calls.
Context {W : Type} {CU : Curl W}.
Context (content : cstring -> list xml) (read_memory : list ascii -> option cstring -> option xml).
Context (DEFAULT_USER_AGENT : cstring) (dump : option xml -> option cstring -> list ascii).
Context (uuid : W -> cstring) (junk : Z) (fuel : nat).

Abbreviation cl := (@WsManClient W).
Abbreviation St := (cl * W)%type.
Definition parse (text : cstring) : option xml := read_memory text (Some (lit "UTF-8")).

(** ** Making a client *)

(** [agent]: the entry client:agent of the configuration file, if there is one. *)
(* src: lib/wsman-client.c 2137-2203 wsmc_create *)
Definition wsmc_create (agent hostname : option cstring) (port : Z) (path scheme username password : option cstring) (password_len : Z) :
    outcome cl :=
  let scheme := default (lit "http") scheme in
  let hostname := default (lit "localhost") hostname in
  let path := default (lit "/wsman") path in
  let* pwd := match password with None => Done None | Some p => Uri.u_strndup p password_len end in
  let endpoint := scheme ++ lit "://" ++ hostname ++ ":"%char :: printf_d port ++
                  (if bool_decide (HttpText.peek path = "/"%char) then [] else lit "/") ++ path in
  Done (Client false (Some endpoint) username pwd 0 None None false None agent (Some (lit "UTF-8")) 0 WS_LASTERR_OK None (UBuf None 0 0)).
(** The length of the password is taken also where there is none. *)
(* src: lib/wsman-client.c 2012-2035 wsmc_create_from_uri *)
Definition wsmc_create_from_uri (agent endpoint : option cstring) : outcome (option cl) :=
  match endpoint with
  | None => Done None
  | Some endpoint =>
      let* uri := Uri.u_uri_parse endpoint in
      match uri with
      | None => Done None
      | Some u =>
          let* pwd := deref (Uri.pwd u) in
          let* c := wsmc_create agent (Uri.host u) (Uri.port u) (Uri.path u) (Uri.scheme u) (Uri.user u) (Some pwd) (Z.of_nat (length pwd)) in
          Done (Some c)
      end
  end.

(** ** One exchange *)

Definition wsmc_get_response_code : CM St Z := mget (fun s => cl_response_code s.1).
Definition request (uri : option cstring) (o : option client_opt_t) (filter : option filter_t) (action : WsmanAction)
    (method d : option cstring) : CM St (option xml) := fun s =>
  let* r := wsmc_create_request content parse (uuid s.2) (cl_endpoint s.1) uri o filter action method d junk in Done (r, s).
Definition send (rq : option xml) : CM St Z := fun s =>
  let* (rc, c, w) := wsman_send_request DEFAULT_USER_AGENT dump fuel s.1 rq s.2 in Done (rc, (c, w)).
(* src: lib/wsman-client.c 1950-1965 wsmc_build_envelope_from_response *)
Definition wsmc_build_envelope_from_response : CM St (option xml) := fun s =>
  let buffer := cl_response s.1 in
  match u_buf_ptr buffer with
  | None => Done (None, s)
  | Some b =>
      let* bytes := deref (mapM id (take (Z.to_nat (u_buf_len buffer)) b)) in
      Done (read_memory bytes (cl_content_encoding s.1), s)
  end.
(** What the calls do with a request that could be made. *)
Definition exchange (rq : option xml) : CM St (option xml) :=
  rc ← send rq; if rc =? 0 then wsmc_build_envelope_from_response else mret None.
Definition exchange_some (rq : option xml) : CM St (option xml) :=
  match rq with None => mret None | _ => exchange rq end.

(** ** Transfer *)

(* src: lib/wsman-client.c 1303-1328 _wsmc_action_create *)
Definition _wsmc_action_create (uri : option cstring) (o : client_opt_t) (doc : option xml) : CM St (option xml) :=
  rq ← request uri (Some o) None WSMAN_ACTION_TRANSFER_CREATE None None;
  exchange_some ((fun r => handle_resource_request content r doc) <$> rq).
(* src: lib/wsman-client.c 1330-1339 wsmc_action_create *)
Definition wsmc_action_create (uri : option cstring) (o : client_opt_t) (source_doc : option xml) : CM St (option xml) :=
  _wsmc_action_create uri o source_doc.
(* src: lib/wsman-client.c 1342-1360 wsmc_action_create_fromtext *)
Definition wsmc_action_create_fromtext (uri : option cstring) (o : client_opt_t) (text : list ascii) (enc : option cstring) : CM St (option xml) :=
  match read_memory text enc with None => mret None | d => _wsmc_action_create uri o d end.
(* src: lib/wsman-client.c 1373-1397 _wsmc_action_put *)
Definition _wsmc_action_put (uri : option cstring) (o : client_opt_t) (doc : option xml) : CM St (option xml) :=
  rq ← request uri (Some o) None WSMAN_ACTION_TRANSFER_PUT None None;
  exchange_some ((fun r => handle_resource_request content r doc) <$> rq).
(* src: lib/wsman-client.c 1399-1406 wsmc_action_put *)
Definition wsmc_action_put (uri : option cstring) (o : client_opt_t) (source_doc : option xml) : CM St (option xml) :=
  _wsmc_action_put uri o source_doc.
(* src: lib/wsman-client.c 1409-1425 wsmc_action_put_fromtext *)
Definition wsmc_action_put_fromtext (uri : option cstring) (o : client_opt_t) (text : list ascii) (enc : option cstring) : CM St (option xml) :=
  match read_memory text enc with None => mret None | d => _wsmc_action_put uri o d end.
(* src: lib/wsman-client.c 1438-1457 wsmc_action_delete *)
Definition wsmc_action_delete (uri : option cstring) (o : client_opt_t) : CM St (option xml) :=
  rq ← request uri (Some o) None WSMAN_ACTION_TRANSFER_DELETE None None; exchange_some rq.
(* src: lib/wsman-client.c 1487-1504 wsmc_action_get *)
Definition wsmc_action_get (uri : option cstring) (o : client_opt_t) : CM St (option xml) :=
  rq ← request uri (Some o) None WSMAN_ACTION_TRANSFER_GET None None; exchange_some rq.
(** The selectors of the reference are added to the options. *)
(* src: lib/wsman-client.c 1469-1485 wsmc_action_get_from_epr *)
Definition from_epr (call : option cstring -> client_opt_t -> CM St (option xml)) (e : epr_t) (o : client_opt_t) : CM St (option xml) :=
  uri ← mlift (maybe (epr_get_resource_uri (Some e)));
  o ← mlift (wsman_epr_selector_cb e add_selectors_from_epr o);
  call uri o.
(* src: lib/wsman-client.c 1469-1476 wsmc_action_delete_from_epr *)
Definition wsmc_action_delete_from_epr : epr_t -> client_opt_t -> CM St (option xml) := from_epr wsmc_action_delete.
(* src: lib/wsman-client.c 1478-1485 wsmc_action_get_from_epr *)
Definition wsmc_action_get_from_epr : epr_t -> client_opt_t -> CM St (option xml) := from_epr wsmc_action_get.
(* src: lib/wsman-client.c 1507-1538 wsmc_action_get_and_put *)
Definition wsmc_action_get_and_put (uri : option cstring) (o : client_opt_t) : CM St (option xml) :=
  got ← wsmc_action_get uri o;
  match got with
  | None => mret None
  | Some get_response =>
      if wsman_is_fault_envelope got then mret got else
      rq ← request uri (Some o) None WSMAN_ACTION_TRANSFER_PUT None None;
      match rq with
      | None => mret None
      | Some put_request =>
          put ← mlift (wsmc_set_put_prop content get_response put_request o);
          exchange (Some put)
      end
  end.

(** ** Methods *)

(** A request has a body; the branch without one gives the request up. *)
(* src: lib/wsman-client.c 1543-1603 wsmc_action_invoke *)
Definition wsmc_action_invoke (uri : option cstring) (o : client_opt_t) (method : option cstring) (d : option xml) : CM St (option xml) :=
  rq ← request uri (Some o) None WSMAN_ACTION_CUSTOM method None;
  match rq with
  | None => mret None
  | Some doc =>
      match ws_xml_get_soap_body rq with
      | None => mret None
      | Some body => body ← mlift (invoke_body content uri o method d body); exchange (Some (on_body (fun _ => body) doc))
      end
  end.
(* src: lib/wsman-client.c 1606-1650 wsmc_action_invoke_fromtext *)
Definition wsmc_action_invoke_fromtext (uri : option cstring) (o : client_opt_t) (method : option cstring) (text : option (list ascii))
    (enc : option cstring) : CM St (option xml) :=
  rq ← request uri (Some o) None WSMAN_ACTION_CUSTOM method None;
  match rq with
  | None => mret None
  | Some doc =>
      match text with
      | None => exchange rq
      | Some t =>
          match read_memory t enc with
          | None => mret None
          | Some n => exchange (Some (on_body (fun body => ws_xml_duplicate_tree content None body n) doc))
          end
      end
  end.
(* src: lib/wsman-client.c 1686-1702 wsmc_action_identify *)
Definition wsmc_action_identify (o : option client_opt_t) : CM St (option xml) :=
  rq ← request None o None WSMAN_ACTION_IDENTIFY None None; exchange_some rq.

(** ** Enumerations and subscriptions *)

(* src: lib/wsman-client.c 1753-1772 wsmc_action_enumerate *)
Definition wsmc_action_enumerate (uri : option cstring) (o : client_opt_t) (filter : option filter_t) : CM St (option xml) :=
  rq ← request uri (Some o) filter WSMAN_ACTION_ENUMERATION None None; exchange_some rq.
(** A request that could not be made is sent all the same. *)
(* src: lib/wsman-client.c 1775-1808 wsmc_action_pull *)
Definition wsmc_action_pull (uri : option cstring) (o : client_opt_t) (filter : option filter_t) (enumContext : option cstring) :
    CM St (option xml) :=
  match enumContext with
  | None => mret None
  | Some _ => rq ← request uri (Some o) filter WSMAN_ACTION_PULL None enumContext; exchange rq
  end.
(* src: lib/wsman-client.c 1812-1836 wsmc_action_release *)
Definition wsmc_action_release (uri : option cstring) (o : client_opt_t) (enumContext : option cstring) : CM St (option xml) :=
  match enumContext with
  | None => mret None
  | Some _ => rq ← request uri (Some o) None WSMAN_ACTION_RELEASE None enumContext; exchange_some rq
  end.
(* src: lib/wsman-client.c 1838-1853 wsmc_action_subscribe *)
Definition wsmc_action_subscribe (uri : option cstring) (o : client_opt_t) (filter : option filter_t) : CM St (option xml) :=
  rq ← request uri (Some o) filter WSMAN_ACTION_SUBSCRIBE None None; exchange_some rq.
(* src: lib/wsman-client.c 1855-1871 wsmc_action_unsubscribe *)
Definition wsmc_action_unsubscribe (uri : option cstring) (o : client_opt_t) (subsContext : option cstring) : CM St (option xml) :=
  rq ← request uri (Some o) None WSMAN_ACTION_UNSUBSCRIBE None subsContext; exchange_some rq.
(* src: lib/wsman-client.c 1873-1890 wsmc_action_renew *)
Definition wsmc_action_renew (uri : option cstring) (o : client_opt_t) (subsContext : option cstring) : CM St (option xml) :=
  rq ← request uri (Some o) None WSMAN_ACTION_RENEW None subsContext; exchange_some rq.

(** The callback of the user sees every answer; [D] is its data. *)
Section EnumerateAndPull.
Context {D : Type} (callback : option xml -> D -> D) (uri : option cstring) (o : client_opt_t) (filter : option filter_t).
Definition good_code (rc : Z) : bool := (rc =? 200) || (rc =? 400) || (rc =? 500).
(** The code that is tested after a Pull is the one of the exchange before it. *)
(* src: lib/wsman-client.c 1731-1745 wsmc_action_enumerate_and_pull *)
Fixpoint pull_loop (turns : nat) (enumContext : option cstring) (callback_data : D) : CM St (Z * D) :=
  match enumContext with
  | None | Some [] => mret (1, callback_data)
  | _ =>
      match turns with
      | O => mdiverge
      | S turns =>
          rc ← wsmc_get_response_code;
          doc ← wsmc_action_pull uri o filter enumContext;
          if negb (good_code rc) then mret (0, callback_data)
          else pull_loop turns (wsmc_get_enum_context doc) (callback doc callback_data)
      end
  end.
(* src: lib/wsman-client.c 1705-1748 wsmc_action_enumerate_and_pull *)
Definition wsmc_action_enumerate_and_pull (turns : nat) (callback_data : D) : CM St (Z * D) :=
  enum_response ← wsmc_action_enumerate uri o filter;
  match enum_response with
  | None => mret (0, callback_data)
  | Some _ =>
      rc ← wsmc_get_response_code;
      if good_code rc then pull_loop turns (wsmc_get_enum_context enum_response) (callback enum_response callback_data)
      else mret (0, callback_data)
  end.
End EnumerateAndPull.
End Calls.

End ClientCalls.
