(* ===== verification/ClientExchange.v ===== *)
(** * ClientExchange: calls of the client from the options to the answer

    A call that makes a request comes to an end, and the answer it gives is what the server said to this request. *)
From S2P Require Import Prelude CString Names HttpText HttpAuth Faults Xml Epr Filter Envelope Buf Client ClientTransport ClientCalls ClientServe.
Import Faults Names Xml Epr Filter Envelope Buf Client ClientTransport ClientCalls ClientServe.

Module ClientExchange.

Section Exchange.
Context {W : Type} {CU : Curl W}.
Context (content : cstring -> list xml) (read_memory : list ascii -> option cstring -> option xml).
Context (agent : cstring) (dump : option xml -> option cstring -> list ascii) (uuid : W -> cstring) (junk : Z) (fuel : nat).
Local Abbreviation St := (@WsManClient W * W)%type.
Local Abbreviation ask := (request content read_memory uuid junk).

(** A client that can be used: free, with a buffer of a moderate size, and without a function that asks for credentials. *)
Record usable (c : @WsManClient W) : Prop := Usable {
  u_free : cl_busy c = false;
  u_func : cl_auth_request_func c = None;
  u_buffer : exists bs, holds (cl_response c) bs /\ size (cl_response c) < 2 ^ 53 }.
(** What is made of the pieces of an answer: what the XML library reads, or nothing where nothing has come. *)
Definition read_as (pieces : list (list ascii)) (enc : option cstring) (ans : option xml) : Prop :=
  ans = read_memory (concat pieces) enc \/ (concat pieces = [] /\ ans = None).
Lemma response_read (s : St) pieces : holds (cl_response s.1) (concat pieces) -> exists ans,
  wsmc_build_envelope_from_response read_memory s = Done (ans, s) /\ read_as pieces (cl_content_encoding s.1) ans.
Proof.
  unfold read_as. set (bs := concat pieces). intros [L R D]. unfold wsmc_build_envelope_from_response, u_buf_ptr, u_buf_len.
  destruct (Buf.data (cl_response s.1)) as [b|]; [|destruct D as [-> _]; eexists; split; [reflexivity|now right]].
  destruct D as [_ D]. rewrite L, Nat2Z.id, D. assert (mapM id (map Some bs) = Some bs) as -> by (clear; now induction bs as [|x bs IH]; cbn; [|rewrite IH]).
  cbn [deref obind]. eexists. split; [reflexivity|now left].
Qed.
(** The answer of a call, and the client it leaves: without an error it is what the server's last answer to this request is read as, and
    with one there is no answer. *)
Definition answered (rq : option xml) (c : @WsManClient W) (ans : option xml) (c' : @WsManClient W) (w' : W) : Prop :=
  (answers c -> cl_last_error c' = WS_LASTERR_OK) /\ (cl_last_error c' <> WS_LASTERR_OK -> ans = None) /\
  (cl_last_error c' = WS_LASTERR_OK -> exists p w0 pieces, curl_easy_perform p w0 = (CURLE_OK, pieces, w') /\ p_url p = cl_endpoint c /\
    p_fields p = dump rq (cl_content_encoding c) /\ cl_response_code c' ∈ [200; 400; 500] /\ read_as pieces (cl_content_encoding c) ans).
Lemma exchange_ends (rq : option xml) (c : @WsManClient W) w : moderate -> usable c -> (2 <= fuel)%nat ->
  exists ans c' w', exchange read_memory agent dump fuel rq (c, w) = Done (ans, (c', w')) /\ usable c' /\ same_client c c' /\ answered rq c ans c' w'.
Proof.
  intros M [U1 U2 (bs & U3 & U4)] Hf. destruct (send_ends agent dump fuel c rq w bs M U1 U2 U3 U4 Hf) as (rc & c' & w' & E & B & C & (bs' & H & S) & R).
  pose proof (send_code agent dump fuel c rq w rc c' w' U1 E) as Cd. pose proof (fun A => send_answered agent dump fuel c rq w rc c' w' A U1 Hf E) as An.
  unfold exchange, mbind, M_bind, send. cbn [fst snd]. rewrite E. cbn [obind]. pose proof C as (C1 & C2 & C3).
  assert (usable c') as U by (constructor; [done|congruence|by eexists]).
  destruct (Z.eqb_spec rc 0) as [->|N].
  - destruct (R eq_refl) as (G & p & w0 & pieces & R1 & R2 & R3 & R4). destruct (response_read (c', w') pieces R4) as (ans & -> & Ra).
    cbn [fst] in Ra. rewrite C3 in Ra. exists ans, c', w'. split; [done|]. split; [done|]. split; [done|]. pose proof (proj1 Cd eq_refl) as L.
    split; [done|]. split; [done|]. intros _. by exists p, w0, pieces.
  - exists None, c', w'. split; [done|]. split; [done|]. split; [done|]. split; [now intros A%An|]. split; [done|]. now intros L%Cd.
Qed.
(** A Pull without an answer ends the loop as a success: the code that is looked at is the one of the exchange before. *)
Lemma failed_pull {D} (callback : option xml -> D -> D) uri o filter turns x ctx data (s s' : St) : good_code (cl_response_code s.1) = true ->
  wsmc_action_pull content read_memory agent dump uuid junk fuel uri o filter (Some (x :: ctx)) s = Done (None, s') ->
  pull_loop content read_memory agent dump uuid junk fuel callback uri o filter (S (S turns)) (Some (x :: ctx)) data s = Done ((1, callback None data), s').
Proof.
  intros G E. cbn [pull_loop]. unfold wsmc_get_response_code, mget, mbind, M_bind. cbn [obind]. rewrite E. cbn [obind]. rewrite G. reflexivity.
Qed.
(** The calls that send what wsmc_create_request makes, with the action and the data they give to it. *)
Definition plain_calls (uri : cstring) (o : client_opt_t) (ctx : cstring) : list (CM St (option xml) * WsmanAction * option cstring) :=
  [(wsmc_action_get content read_memory agent dump uuid junk fuel (Some uri) o, WSMAN_ACTION_TRANSFER_GET, None);
   (wsmc_action_delete content read_memory agent dump uuid junk fuel (Some uri) o, WSMAN_ACTION_TRANSFER_DELETE, None);
   (wsmc_action_enumerate content read_memory agent dump uuid junk fuel (Some uri) o None, WSMAN_ACTION_ENUMERATION, None);
   (wsmc_action_pull content read_memory agent dump uuid junk fuel (Some uri) o None (Some ctx), WSMAN_ACTION_PULL, Some ctx);
   (wsmc_action_release content read_memory agent dump uuid junk fuel (Some uri) o (Some ctx), WSMAN_ACTION_RELEASE, Some ctx)].
Lemma plain_call_eq uri o ctx call action d (s : St) rq : (call, action, d) ∈ plain_calls uri o ctx ->
  wsmc_create_request content (parse read_memory) (uuid s.2) (cl_endpoint s.1) (Some uri) (Some o) None action None d junk = Done (Some rq) ->
  call s = exchange read_memory agent dump fuel (Some rq) s.
Proof.
  intros H E. members H; unfold wsmc_action_get, wsmc_action_delete, wsmc_action_enumerate, wsmc_action_pull, wsmc_action_release, exchange_some, mbind, M_bind, request;
    rewrite E; reflexivity.
Qed.
End Exchange.

(** C7. A call comes to an end and its answer is the server's: a Get, Delete, Enumerate, Pull or Release without a filter makes the request,
    asks the server twice at most and leaves a client that can be used again. The client says whether there was an error. There is none
    when libcurl has none and the server answers with code 200, 400 or 500, or first asks with 401 for a user and a password that the client has
    and has not given yet, by a method that the client may use. Without an error the answer is what the XML library reads from the bytes of
    the server's last answer to this very request, one with code 200, 400 or 500, and there is none only where this library reads none, or
    where nothing has come; with an error there is no answer.
    This supposes a client that is not in use and has no function that asks for credentials (with one the code asks again as often as
    the server refuses), answers of the server of less than 2^50 bytes, a new id that is not empty, and options that a request can be
    made of, which [ready] says. *)
Theorem client_call_answered {W} `{CU : Curl W} content read_memory agent dump uuid junk fuel (c : @WsManClient W) w uri to o l t ctx call action d :
  moderate -> usable c -> cl_endpoint c = Some to -> ready o l t -> uuid w <> [] -> (2 <= fuel)%nat ->
  (call, action, d) ∈ plain_calls content read_memory agent dump uuid junk fuel uri o ctx ->
  exists rq ans c' w', wsmc_create_request content (parse read_memory) (uuid w) (Some to) (Some uri) (Some o) None action None d junk = Done (Some rq) /\
    call (c, w) = Done (ans, (c', w')) /\ usable c' /\ cl_endpoint c' = Some to /\ answered read_memory dump (Some rq) c ans c' w'.
Proof.
  intros M U E R Nu Hf H.
  assert (exists act, action ∈ plain_actions /\ action_uri action uri None = Some act) as (act & Ha & Hact) by (members H; (eexists; split; [other_name|reflexivity])).
  destruct (plain_request (content := content) (parse read_memory) (uuid w) junk act uri to o l t action None d R Nu Ha Hact) as (ch & _ & bs & _ & Erq).
  destruct (exchange_ends read_memory agent dump fuel (Some (envelope (all_headers (content := content) (uuid w) action act uri to o l t) bs)) c w M U Hf)
    as (ans & c' & w' & Ex & U' & (_ & C & _) & A).
  do 4 eexists. split; [exact Erq|]. split.
  { rewrite <- Ex. apply (plain_call_eq content read_memory agent dump uuid junk fuel uri o ctx call action d); [done|]. cbn [fst snd]. now rewrite E. }
  split; [done|]. split; [congruence|]. exact A.
Qed.
#[local] Existing Instance demo_curl.
Definition demo_read (text : list ascii) (enc : option cstring) : option xml :=
  if bool_decide (text = lit "<e/>") then Some (Elem None (lit "e") [] []) else None.
Lemma demo_answers : answers demo_client.
Proof.
  split; [done|]. split; [done|]. split; [done|]. intros p w. split; [done|]. unfold curl_easy_perform, curl_response_code, curl_httpauth_avail, demo_curl. cbn [fst snd].
  destruct (p_auth p).2; (eexists; split; [reflexivity|]); [left; left|right]. split; [done|]. split; [done|]. split; [by eexists|]. split; [by eexists|].
  split; [done|]. eexists. split; [reflexivity|]. by eexists.
Qed.
Lemma client_call_answered_witness : exists rq ans c' w',
  wsmc_create_request demo_content (parse demo_read) (lit "uuid:7") (Some (lit "http://host:80/wsman")) (Some demo_uri) (Some demo_opts) None
    WSMAN_ACTION_TRANSFER_GET None None 0 = Done (Some rq) /\
  wsmc_action_get demo_content demo_read (lit "agent") demo_dump (fun _ => lit "uuid:7") 0 2 (Some demo_uri) demo_opts (demo_client, 0%nat) = Done (ans, (c', w')) /\
  usable c' /\ cl_last_error c' = WS_LASTERR_OK /\ ans = Some (Elem None (lit "e") [] []) /\ exists pieces, read_as demo_read pieces (Some (lit "UTF-8")) ans.
Proof.
  destruct (client_call_answered demo_content demo_read (lit "agent") demo_dump (fun _ => lit "uuid:7") 0 2 demo_client 0%nat demo_uri (lit "http://host:80/wsman") demo_opts
    [(lit "Name", lit "eth0")] [] (lit "c") (wsmc_action_get demo_content demo_read (lit "agent") demo_dump (fun _ => lit "uuid:7") 0 2 (Some demo_uri) demo_opts)
    WSMAN_ACTION_TRANSFER_GET None demo_moderate) as (rq & ans & c' & w' & E & C & U & _ & A & _ & B).
  - constructor; [reflexivity|reflexivity|]. exists []. split; [exact demo_empty|reflexivity].
  - reflexivity.
  - exact demo_ready.
  - discriminate.
  - exact (le_n 2).
  - left.
  - pose proof (A demo_answers) as L. destruct (B L) as (_ & _ & pieces & _ & _ & _ & _ & R).
    exists rq, ans, c', w'. split; [exact E|]. split; [exact C|]. split; [exact U|]. split; [exact L|].
    split; [vm_compute in C; now injection C as <- _|]. now exists pieces.
Defined.
End ClientExchange.
