(* ===== verification/Redirect.v ===== *)
(** * Redirect: the plug-in that forwards requests to another server (plugins/redirect)

    The plug-in is a client of the library inside the server: what it is configured with comes out of a
    configuration file, and what arrives at one of its end points goes to the other server as it is.  The files are a
    function of their names; the XPath of the sub-code of a fault is a parameter. *)
From S2P Require Import Prelude CString Names HttpText HttpAuth Uri Ini Faults EnumCtx Xml Epr Filter Envelope Dispatcher Buf Client ClientTransport ClientCalls ClientExchange.
Import Ini Faults Names Xml Envelope Dispatcher Buf Client ClientTransport ClientCalls ClientExchange.

Module Redirect.

(** ** Configuration *)
(* src: plugins/redirect/redirect.c 27-40 __Redirect_Data *)
Record redirect_data := Data {
  server : option cstring; username : option cstring; password : option cstring; url_path : option cstring;
  authentication_method : option cstring; cim_namespace : option cstring; cainfo : option cstring; sslkey : option cstring;
  cl_cert : option cstring; namespace : option cstring; noverifypeer : Z; noverifyhost : Z; server_port : Z }.
Definition no_data : redirect_data := Data None None None None None None None None None None 0 0 0.
Section Config.
Context (files : cstring -> option (list ascii)).
(** The file, with enough memory to read it. *)
Definition new_dictionary (filename : cstring) : outcome (option dictionary) :=
  let* (d, _) := iniparser_new (files filename) [] in Done d.
Definition entry (ini : option dictionary) (key : cstring) (def : option cstring) : outcome (option cstring) :=
  let* p := iniparser_getstring ini (Some key) (inl def) in Done (match p with inl s => s | inr _ => None end).
(** [zalloc]: whether there is memory for the data. *)
(* src: plugins/redirect/redirect.c 96-142 init *)
Definition init (zalloc : bool) (conf_file : cstring) (data : option redirect_data) : outcome (Z * option redirect_data) :=
  let* ini := new_dictionary conf_file in
  match ini with
  | None => Done (0, data)
  | Some _ =>
      if negb zalloc then Done (0, None) else
      let data := Some no_data in
      let* s := entry ini (lit "redirect:server") None in
      let* r := match s with None => Done None | Some _ => entry ini (lit "redirect:resource") None end in
      match r with
      | Some _ => Done (1, data)
      | None =>
          let* filename := entry ini (lit "redirect:include") None in
          match filename with
          | None => Done (0, data)
          | Some filename =>
              let* inc_ini := new_dictionary filename in
              match inc_ini with
              | None => Done (0, data)
              | Some _ =>
                  let* s := entry inc_ini (lit ":server") None in
                  let* r := match s with None => Done None | Some _ => entry inc_ini (lit ":resource") None end in
                  Done (match r with Some _ => 1 | None => 0 end, data)
              end
          end
      end
  end.
(** All entries of one section; the names of the entries of an included file have nothing before the colon. *)
(* src: plugins/redirect/redirect.c 162-176 set_config *)
Definition read_section (config : option dictionary) (section : cstring) : outcome redirect_data :=
  let key (k : string) := section ++ lit k in
  let* server := entry config (key ":server") None in
  let* namespace := entry config (key ":resource") None in
  let* username := entry config (key ":username") None in
  let* password := entry config (key ":password") None in
  let* url_path := entry config (key ":url_path") (Some (lit "/wsman")) in
  let* method := entry config (key ":authentication_method") (Some (lit "basic")) in
  let* cim := entry config (key ":cim_namespace") (Some (lit "root/cimv2")) in
  let* cainfo := entry config (key ":cacert") None in
  let* port := iniparser_getint config (key ":port") 5895 in
  let* peer := iniparser_getint config (key ":noverifypeer") 0 in
  let* host := iniparser_getint config (key ":noverifyhost") 0 in
  let* sslkey := entry config (key ":sslkey") None in
  let* cert := entry config (key ":cl_cert") None in
  Done (Data server username password url_path method cim cainfo sslkey cert namespace peer host port).
(* src: plugins/redirect/redirect.c 150-198 set_config *)
Definition set_config (config : option dictionary) (data : redirect_data) : outcome redirect_data :=
  match config with
  | None => Done data
  | Some _ =>
      let* inc := entry config (lit "redirect:include") None in
      match inc with
      | Some inc_filename => let* inc_ini := new_dictionary inc_filename in read_section inc_ini []
      | None => read_section config (lit "redirect")
      end
  end.
End Config.

(** ** The client *)

(* src: lib/wsman-client-transport.c 457-517 wsman_transport_get_last_error_string *)
Definition wsman_transport_get_last_error_string (err : WS_LASTERR_Code) : string :=
  match err with
  | WS_LASTERR_OK => "Everything OK"
  | WS_LASTERR_FAILED_INIT => "Transport initialization failed"
  | WS_LASTERR_UNSUPPORTED_PROTOCOL => "Unsupported protocol"
  | WS_LASTERR_URL_MALFORMAT => "URL malformat"
  | WS_LASTERR_COULDNT_RESOLVE_PROXY => "Could not resolve proxy"
  | WS_LASTERR_COULDNT_RESOLVE_HOST => "Could not resolve host"
  | WS_LASTERR_COULDNT_CONNECT => "Could not connect"
  | WS_LASTERR_HTTP_RETURNED_ERROR => "HTTP returned error"
  | WS_LASTERR_WRITE_ERROR => "Write error"
  | WS_LASTERR_READ_ERROR => "Read error"
  | WS_LASTERR_OUT_OF_MEMORY => "Could not alloc memory"
  | WS_LASTERR_OPERATION_TIMEOUTED => "Operation timeout reached"
  | WS_LASTERR_HTTP_POST_ERROR => "HTTP POST error"
  | WS_LASTERR_BAD_DOWNLOAD_RESUME => "Could not resume download"
  | WS_LASTERR_TOO_MANY_REDIRECTS => "Catch endless re-direct loop"
  | WS_LASTERR_SSL_CONNECT_ERROR => "SSL connection error"
  | WS_LASTERR_SSL_PEER_CERTIFICATE => "Peer's certificate wasn't OK"
  | WS_LASTERR_SSL_ENGINE_NOTFOUND => "SSL crypto engine not found"
  | WS_LASTERR_SSL_ENGINE_SETFAILED => "Can't set SSL crypto engine default"
  | WS_LASTERR_SSL_CERTPROBLEM => "Problem with the local certificate"
  | WS_LASTERR_SSL_CACERT => "Problem with the CA certificate"
  | WS_LASTERR_SSL_ENGINE_INITFAILED => "Failed to initialise SSL engine"
  | WS_LASTERR_SEND_ERROR => "Failed sending network data"
  | WS_LASTERR_RECV_ERROR => "Failure in receiving network data"
  | WS_LASTERR_BAD_CONTENT_ENCODING => "Unrecognized transfer encoding"
  | WS_LASTERR_LOGIN_DENIED => "User, password or similar was not accepted"
  | WS_LASTERR_CURL_BAD_FUNCTION_ARG => "Internal error: Wrong function argument in call to CURL"
  | _ => "Unrecognized error"
  end.
(* src: plugins/redirect/redirect_stubs.c 325-335 redirect_fault_msg *)
Definition redirect_fault_msg (last_error_string : string) : cstring := lit "Redirect Plugin: " ++ lit last_error_string.
(** What concerns SSL in a client. *)
Record tls := Tls { t_cainfo : option cstring; t_cert : option cstring; t_verify_peer : bool; t_verify_host : bool }.
Section Forward.
Context {W : Type} {CU : Curl W}.
Context (content : cstring -> list xml) (prefix : cstring -> option cstring) (read_memory : list ascii -> option cstring -> option xml).
Context (DEFAULT_USER_AGENT : cstring) (agent : option cstring) (dump : option xml -> option cstring -> list ascii) (uuid : cstring) (fuel : nat).
Context (subcode_value : option xml -> option cstring).
Local Abbreviation cl := (@WsManClient W).
(* src: lib/wsman-client-transport.c 217-221 wsman_transport_set_auth_method *)
Definition wsman_transport_set_auth_method (c : cl) (arg : option cstring) : cl :=
  Client (cl_busy c) (cl_endpoint c) (cl_user c) (cl_pwd c) (cl_auth_set c) arg (cl_auth_request_func c) (cl_initialized c)
    (cl_transport c) (cl_user_agent c) (cl_content_encoding c) (cl_response_code c) (cl_last_error c) (cl_fault_string c) (cl_response c).
(** The key is set as a certificate, in the place of the certificate. *)
(* src: plugins/redirect/redirect.c 265-317 setup_redirect_client *)
Definition setup_redirect_client (d : redirect_data) (ws_username ws_password : option cstring) : outcome (cl * tls) :=
  let password := match password d with Some p => Some p | None => ws_password end in
  let username := match username d with Some u => Some u | None => ws_username end in
  let* pwd := deref password in
  let* c := wsmc_create agent (server d) (server_port d) (url_path d) (Some (match cainfo d with Some _ => lit "https" | None => lit "http" end))
    username password (Z.of_nat (length pwd)) in
  let c := wsman_transport_set_auth_method c (authentication_method d) in
  let cert := match sslkey d with Some k => Some k | None => cl_cert d end in
  let has_ca := bool_decide (is_Some (cainfo d)) in
  Done (c, Tls (cainfo d) cert (has_ca && (noverifypeer d =? 0)) (has_ca && (noverifyhost d =? 0))).
(* src: plugins/redirect/redirect_stubs.c 312-323 redirect_generate_fault *)
Definition redirect_generate_fault (in_doc : option xml) (c : cl) : outcome (option xml) :=
  wsman_generate_fault_doc content prefix uuid in_doc WSMAN_INTERNAL_ERROR WSMAN_DETAIL_OK
    (Some (redirect_fault_msg (wsman_transport_get_last_error_string (cl_last_error c)))).

(** ** The end points *)

(** The result, the document of the answer, and the client, which is left behind after an error. *)
(* src: plugins/redirect/redirect_stubs.c 40-78 Redirect_transfer_action *)
Definition Redirect_transfer_action (d : redirect_data) (in_doc : option xml) (ws_username ws_password : option cstring) (w : W) :
    outcome (Z * option xml * W) :=
  let* (c, _) := setup_redirect_client d ws_username ws_password in
  let* (_, c, w) := wsman_send_request DEFAULT_USER_AGENT dump fuel c in_doc w in
  if decide (cl_last_error c <> WS_LASTERR_OK) then
    let* doc := redirect_generate_fault in_doc c in Done (1, doc, w)
  else
    let* (response, _) := wsmc_build_envelope_from_response read_memory (c, w) in
    Done (0, ws_xml_duplicate_doc content None response, w).
(* src: plugins/redirect/redirect_stubs.c 81-88 Redirect_Get_EP *)
Definition Redirect_Get_EP := Redirect_transfer_action.
(* src: plugins/redirect/redirect_stubs.c 90-97 Redirect_Create_EP *)
Definition Redirect_Create_EP := Redirect_transfer_action.
(* src: plugins/redirect/redirect_stubs.c 99-106 Redirect_Delete_EP *)
Definition Redirect_Delete_EP := Redirect_transfer_action.
(* src: plugins/redirect/redirect_stubs.c 110-115 Redirect_Put_EP *)
Definition Redirect_Put_EP := Redirect_transfer_action.
(* src: plugins/redirect/redirect_stubs.c 289-301 Redirect_Custom_EP *)
Definition Redirect_Custom_EP := Redirect_transfer_action.
Context {Rel : Type}.
Local Abbreviation info := (@EnumCtx.WsEnumerateInfo xml Rel).
Definition with_result (i : info) (flags : Z) (id : cstring) (total : Z) (items : option xml) : info :=
  EnumCtx.Info flags id (EnumCtx.timeStamp i) (EnumCtx.expires i) total (EnumCtx.maxsize i) (EnumCtx.index i) items (EnumCtx.username i)
    (EnumCtx.password i) (EnumCtx.releaseproc i) (EnumCtx.epr_to i) (EnumCtx.epr_uri i) (EnumCtx.encoding i).
Definition set_items (i : info) (items : option xml) : info := with_result i (EnumCtx.flags i) (EnumCtx.enumId i) (EnumCtx.totalItems i) items.
(** A text with its terminator in the 64 bytes of an id. *)
Definition fits_id (id : cstring) : outcome cstring := if (64 <=? length id)%nat then Undef else Done id.
Definition send_error (c : cl) : WsmanStatus :=
  Status WSMAN_INTERNAL_ERROR WSMAN_DETAIL_OK (Some (redirect_fault_msg (wsman_transport_get_last_error_string (cl_last_error c)))).
(** The request that goes out asks for the number of items. *)
(* src: plugins/redirect/redirect_stubs.c 132-134 Redirect_Enumerate_EP *)
Definition ask_total (indoc : option xml) : option xml :=
  match indoc, ws_xml_get_child (ws_xml_get_soap_header indoc) 0 (Some XML_NS_WS_MAN) (Some WSM_REQUEST_TOTAL) with
  | Some doc, None => Some (on_header (fun h => ws_xml_add_child content h (Some XML_NS_WS_MAN) WSM_REQUEST_TOTAL None) doc)
  | _, _ => indoc
  end.
(* src: plugins/redirect/redirect_stubs.c 118-217 Redirect_Enumerate_EP *)
Definition Redirect_Enumerate_EP (d : redirect_data) (indoc : option xml) (i : info) (st : WsmanStatus) (w : W) :
    outcome (Z * info * WsmanStatus * W) :=
  let indoc := ask_total indoc in
  let* (c, _) := setup_redirect_client d (EnumCtx.username i) (EnumCtx.password i) in
  let enumerate := ws_xml_get_child (ws_xml_get_soap_body indoc) 0 (Some XML_NS_ENUMERATION) (Some WSENUM_ENUMERATE) in
  let flags := match ws_xml_get_child enumerate 0 (Some XML_NS_WS_MAN) (Some WSM_OPTIMIZE_ENUM) with
    | Some _ => Z.lor (EnumCtx.flags i) EnumCtx.WSMAN_ENUMINFO_OPT | None => EnumCtx.flags i end in
  let i := with_result i flags (EnumCtx.enumId i) (EnumCtx.totalItems i) (EnumCtx.pullResultPtr i) in
  let* (_, c, w) := wsman_send_request DEFAULT_USER_AGENT dump fuel c indoc w in
  if decide (cl_last_error c <> WS_LASTERR_OK) then Done (1, set_items i None, send_error c, w) else
  let* (r_response, _) := wsmc_build_envelope_from_response read_memory (c, w) in
  if wsman_is_fault_envelope r_response then
    let* st := wsman_get_fault_status_from_doc true (subcode_value r_response) st in Done (1, set_items i None, st, w)
  else
    let total := match ws_xml_get_child (ws_xml_get_soap_header r_response) 0 (Some XML_NS_WS_MAN) (Some WSM_TOTAL_ESTIMATE) with
      | None => 0 | n => Uri.atoi (ws_xml_get_node_text_safe n) end in
    let remote_enumContext := wsmc_get_enum_context r_response in
    let node := ws_xml_get_child (ws_xml_get_soap_body r_response) 0 (Some XML_NS_ENUMERATION) (Some WSENUM_ENUMERATE_RESP) in
    let* ctx := deref remote_enumContext in
    let* id := fits_id ctx in
    match ws_xml_get_child node 0 (Some XML_NS_WS_MAN) (Some WSENUM_ITEMS) with
    | Some _ => Done (0, with_result i flags id total r_response, st, w)
    | None => Done (0, with_result i flags id total (EnumCtx.pullResultPtr i), st, w)
    end.
(* src: plugins/redirect/redirect_stubs.c 220-242 Redirect_Release_EP *)
Definition Redirect_Release_EP (d : redirect_data) (indoc : option xml) (i : info) (w : W) : outcome (Z * W) :=
  let* (c, _) := setup_redirect_client d (EnumCtx.username i) (EnumCtx.password i) in
  let* (_, c, w) := wsman_send_request DEFAULT_USER_AGENT dump fuel c indoc w in
  if decide (cl_last_error c <> WS_LASTERR_OK) then Done (1, w) else
  let* (response, _) := wsmc_build_envelope_from_response read_memory (c, w) in
  Done (if wsman_is_fault_envelope response then 1 else 0, w).
(* src: plugins/redirect/redirect_stubs.c 244-285 Redirect_Pull_EP *)
Definition Redirect_Pull_EP (d : redirect_data) (indoc : option xml) (i : info) (st : WsmanStatus) (w : W) :
    outcome (Z * info * WsmanStatus * W) :=
  let* (c, _) := setup_redirect_client d (EnumCtx.username i) (EnumCtx.password i) in
  let* (_, c, w) := wsman_send_request DEFAULT_USER_AGENT dump fuel c indoc w in
  if decide (cl_last_error c <> WS_LASTERR_OK) then Done (1, set_items i None, send_error c, w) else
  let* (response, _) := wsmc_build_envelope_from_response read_memory (c, w) in
  if negb (wsman_is_fault_envelope response) then Done (0, set_items i response, st, w) else
  let* st := wsman_get_fault_status_from_doc true (subcode_value response) st in
  Done (1, set_items i None, st, w).
End Forward.

(** ** What is forwarded comes back *)

Section Transparent.
Context {W : Type} {CU : Curl W}.
Context (content : cstring -> list xml) (prefix : cstring -> option cstring) (read_memory : list ascii -> option cstring -> option xml).
Context (DEFAULT_USER_AGENT : cstring) (agent : option cstring) (dump : option xml -> option cstring -> list ascii) (uuid : cstring) (fuel : nat).
End Transparent.

#[local] Existing Instance demo_curl.
Definition demo_data (pwd cert key : option cstring) : redirect_data := Data (Some (lit "host")) (Some (lit "user")) pwd (Some (lit "/wsman")) (Some (lit "basic")) None
  None key cert (Some (lit "http://a/b")) 0 0 80.
Definition demo_action (pwd : option cstring) : outcome (Z * option xml * nat) :=
  Redirect_transfer_action demo_content demo_prefix demo_read (lit "agent") None demo_dump (lit "uuid:9") 2 (demo_data pwd None None)
    (Some (Elem None (lit "q") [] [])) None None 0%nat.
(** Without a password of its own and of the caller, the length of nothing is asked for. *)
Example no_password : demo_action None = Undef.
Proof. reflexivity. Qed.
(** The file of the key takes the place of the file of the certificate. *)
Example key_for_certificate : exists c t, setup_redirect_client (W := nat) None (demo_data (Some (lit "secret")) (Some (lit "c.pem")) (Some (lit "k.pem"))) None None
  = Done (c, t) /\ t_cert t = Some (lit "k.pem").
Proof. eexists _, _. split; reflexivity. Qed.
(** A context of 64 bytes from the other server does not fit. *)
Example long_context : fits_id (replicate 64 "x"%char) = Undef /\ fits_id (replicate 63 "x"%char) = Done (replicate 63 "x"%char).
Proof. split; reflexivity. Qed.
(** The port when none is configured. *)
Example default_port : (let* ini := new_dictionary (fun _ => Some (lit "[redirect]")) (lit "redirect.conf") in
  let* d := read_section ini (lit "redirect") in Done (server_port d)) = Done 5895.
Proof. vm_compute. reflexivity. Qed.
End Redirect.
